(* ===== verification/_CoqProject ===== *)
-Q . S2P
Prelude.v
Sorts.v
JsNum.v
JsNumFacts.v
JsVal.v
JsFormat.v
JsJson.v
JsJsonText.v
JsMonad.v
Machine.v
Jsx.v
Payments.v
TokenMonetization.v
NFTMonetization.v
BundleMonetization.v
Session.v
Solidity.v
TokenCreation.v
NFTCreation.v
BundleCreation.v
PaymentModals.v
DialogViews.v
DialogRuns.v
SmartUnits.v
SmartUnitsTelegram.v
SmartUnitViews.v
Security.v
Metadata.v
DynamicFee.v
MarketOracle.v
Checkout.v
CheckoutViews.v
RpcClient.v
NodeSdk.v
WalletSdk.v
TsTypes.v
SdkTypes.v
SdkTyped.v
RpcTyped.v
Upgrade.v
UpgradeViews.v
FeeExplanation.v
FeeViews.v
Marketplace.v
MarketStyles.v
MarketViews.v
MarketOffers.v
MarketRuns.v
MarketIndex.v
Premium.v
PremiumViews.v
PremiumTelegram.v
TelegramRuns.v
DevTools.v
ContractCreator.v
Badges.v
BadgeViews.v
LegalNotices.v
StyleSheets.v
DevApi.v
DevPortal.v
NodeBase.v
Coins.v
BlockIndex.v
TxRules.v
Merkle.v
Arith256.v
Compact.v
Sha256.v
Hybrid.v
Pow.v
BlockRules.v
