(* ===== verification/Prelude.v ===== *)
(** * Shahcoin: the TypeScript and JavaScript packages, and consensus

    A model of the client-side packages of the Shahcoin repository (the
    SDKs, the smart-contract toolkit, the NFT marketplace, the wallet
    dashboard, the web components and the Telegram mini apps under src/) and
    of the consensus rules of its C++ node (src/src), with the theorems that
    make them correct and those that record where they are not.  This first
    file is the prelude: association lists, strings,
    finite runs of a transition system and the tactics all files share.

    ** How code becomes definitions

    - Values.  [JsNum] has the Number type: binary64 with its rounding,
      NaN, infinities and signed zeroes, executable, with the printing of
      numbers; [JsNumFacts] and [JsFormat] reduce arithmetic and decimal
      printing on integers below 2^53 to that of Z.  [JsVal] has the dynamic
      values (objects as property lists in insertion order, the names of
      Object.prototype included), property access, coercions, string methods
      and JSON.stringify; [JsJson] has JSON.parse and [JsJsonText] the
      indented printer with the proof that parsing inverts printing.
    - Effects.  [JsMonad]: a method is a function from the state of its
      component and the trace of earlier interactions to a result or a thrown
      error, a new state and a longer trace.  Code outside the repository is
      an environment [Env], a strategy that answers every call from the whole
      history with a value or an error; theorems quantify over it, and what
      they need of a service is a class with an instance ([CardLaws],
      [FactoryLaws], [BackendLaws], [TimerLaws], [StorageLaws], [ClockLaws],
      [NodeUp], [WalletUp], [Unreachable]).
      [wp] is the weakest precondition of such a computation, for both ways
      it can end; every computation is total, so no theorem is conditional on
      termination.
    - Interleaving.  [Machine]: a component is a transition system whose
      operations are the calls of its clients and the callbacks of timers,
      sockets and waits; a run is any sequence of them.  An invariant is
      proved once per operation and holds along every run.  An async method
      that other operations can overtake is split at its waits.
    - Shared objects are explicit: the metadata stores and the transaction
      sandbox have heaps, React state that is applied late is a queue
      ([PaymentModals]) or a flag ([FeeExplanation]).
    - [Sorts]: what the sort of the engine guarantees, as a class, with
      insertion sort as an instance.
    - Pages.  [Jsx]: what a component renders is a tree of elements whose
      handlers are lists of actions; [hears] relates a page to what a click or
      an entry can perform, with disabled controls and stopped propagation,
      and [outcome] tells whether rendering throws.  The runs of a page are
      those its own controls allow: an operation is enabled just when the
      page in that state offers it.  The style sheets are tables
      ([MarketStyles], [StyleSheets]), and the classes pages use are looked
      up in them.
    - Types.  [TsTypes]: the type a TypeScript declaration describes is a
      decidable predicate on values; [SdkTypes] has one definition for each
      declaration of the SDK packages, each shown to have a value.

    ** The parts of the program, and what is shown of them

    Smart-contract toolkit (src/sdk-core/smart-contract-toolkit):
    - [Payments], [TokenMonetization], [NFTMonetization],
      [BundleMonetization]: tiers, add-ons, quotes and payments of
      token-monetization.js, NFTMonetization.js and BundleMonetization.js.
      A quote is the exact sum of the published prices and a card payment is
      for exactly that sum; a bundle can never be quoted.
    - [Session], [Solidity], [TokenCreation], [NFTCreation],
      [BundleCreation]: the session classes of the three
      ...CreationIntegration.js files.  Every run of the token and the NFT
      class refines a ledger in which nothing is deployed that was not paid
      for; a card session with cooperating services completes; sessions paid
      in SHAH never do; the bundle class is inert.
    - [PaymentModals], [DialogViews], [DialogRuns]: the payment dialogs,
      their markup, and their runs with calls that overlap.  A dialog has at
      most one payment under way, accounts for every charge, becomes ready
      when its calls are answered and can always be shown; the bundle dialog
      never takes money.
    - [FeeExplanation], [FeeViews]: the page of
      TokenCreationFeeExplanation.js.  Through its own controls the total on
      the page is the total that is charged.
    - [Metadata], [Badges], [BadgeViews]: metadata-standards.js,
      TokenBadge.jsx and the verified badges of the web and Telegram.  The
      metadata store keeps its invariant along every run and gives back what
      was stored; a mounted badge is always presentable; web and Telegram
      show the same badges.
    - [ContractCreator]: smart-contract-creator and the playground.  The
      generated sources are balanced, their metadata carries the right badge.

    Prices and fees: [DynamicFee] (price-oracle-dynamic-fee), [MarketOracle]
    (marketplace-api/price-oracle.js) and the watchers of [Upgrade]
    (src/web/lib).  Fees are exact to the cent, every price returned is
    positive, one polling timer runs at most.

    Marketplace: [Checkout], [CheckoutViews] (marketplace-api and
    StripeNFTPayment.jsx), [Marketplace] (marketplace-ui).  A checkout is for
    the listed amount and its page sends a buyer to the payment page at most
    once; a session counts as valid only when paid; filters are conjunctions,
    sorting sorts, analytics are exact, transfers need the owner.
    [MarketViews], [MarketStyles], [MarketOffers], [MarketRuns]: the markup
    of the web and the mobile view, what it offers, and the runs of both with
    overlapping loads.  The views agree; the cards on the screen are those
    the filters want; only what the wallet does not own is bought and only
    what it owns transferred.  [MarketIndex]: the choice of the platform, the
    hook's refresh timer and the described types, with which the marketplace
    always renders.

    Connections: [RpcClient] (src/sdk/packages/core), [NodeSdk]
    (sdk-core/shahcoin.js), [WalletSdk] (src/packages/shahcoin-sdk).
    Reconnection attempts end, requests without a connection throw without
    asking, timers are at most one each, with the leaks that exist.
    [SdkTyped], [RpcTyped]: with a server that keeps to the declared types
    both clients do, along every run; and what they do when it reports a
    failure.

    Upgrades and subscriptions: [Upgrade], [UpgradeViews] (dashboard API,
    e-mail service, upgrade pages, help panel), [Premium], [PremiumViews]
    (PremiumSubscription.jsx), [PremiumTelegram], [TelegramRuns].  Handlers
    answer once and sell for the advertised price, the webhook acknowledges
    only what Stripe verified, premium features open only on the word of the
    server; the pages offer just their operations, a cancellation is asked
    for twice, and what the bot tells a user is what the server has answered.

    Displays: [SmartUnits], [SmartUnitsTelegram], [SmartUnitViews].  The
    breakdown of every amount below 10 SHAH is its decimal expansion, larger
    ones throw; the full display is exact; settings survive a reload in
    Telegram and cannot be reached on the web.

    Security: [Security] (src/shah-security and its web and Telegram
    copies).  Scores lie in the band of their badge, phishing links never
    open.

    Developer tools: [DevTools] (metadata explorer, vault, analytics,
    transaction sandbox), [LegalNotices] and [DevPortal] (the portal's
    dashboard).  Stored metadata is found, exported bundles parse back,
    events are posted once and in order, the dashboard shows loaded figures
    only.
    [DevApi] (src/api/dev-api): the layers of the server in their order; its
    routers and middleware are not in the repository and are environment.
    The routers for keys and usage are entered only behind authentication.

    The node (src/src; the files from [NodeBase] on, over stdpp):
    - How C++ becomes definitions.  [NodeBase]: a function that can mark an
      object invalid, return false, throw or fail an assertion has the type
      [verdict]; one that also changes an object is an [act], whose object
      survives the failure.  Unsigned integers are Z reduced at their width,
      signed overflow is a fault.  Pointers to block index entries are the
      finite trees they span.  A virtual class is a type class with laws.
      Code that is not in the repository, the script interpreter, the asset
      validators and OpenSSL are classes or arguments.
    - [NodeBase]: amounts, transactions, the parameters of the main network
      and the subsidy.  The whole issue is finite and computed exactly; it
      exceeds the limit that amounts are checked against.
    - [Coins] (coins.cpp, txdb.cpp): the cache over any view, proved against
      the interface and an instance of it, so that a stack of caches over the
      database behaves as one finite map.
    - [BlockIndex] (chain.cpp, chain.h): the skip list finds the block at a
      height, the median time never runs backwards.
    - [TxRules] (consensus/tx_check.cpp, tx_verify.cpp): what the checks of a
      transaction, its inputs and its lock times accept, exactly.
    - [Merkle] (consensus/merkle.cpp): the root binds the transactions.
    - [Arith256], [Compact] (arith_uint256.cpp): limbs compute modulo 2^256,
      the compact format rounds downwards.
    - [Sha256] (crypto/sha256.cpp): the streaming class and the unrolled
      double hash compute the function of FIPS 180-4.
    - [Hybrid] (consensus/hybrid.cpp, pos_stub.cpp, primitives/block.h,
      pow_dispatch.cpp, crypto/multihash.cpp): the algorithms of the hybrid
      rules; what they do not distinguish.
    - [Pow] (pow.cpp): retargeting is exact and within the bounds header
      synchronisation relies on; the check of a hash is exact.
    - [BlockRules] (CheckBlock of validation.cpp): which proof of work blocks
      can pass.

    Theorems of kind error, and the findings of the manifest, record code
    that does not do what it means to: they are proved of the same
    definitions.

    ** Bounds

    Amounts are exact below 2^53 (2^51 where eight decimals are printed),
    the range in which the language computes with integers exactly; each
    theorem states its range.  JSON.parse runs on twice the length of its
    text plus two units of fuel, which [need_bound] shows to be enough.  The
    loops of number printing carry the fuel binary64 needs (17 digits, 400
    decimal exponents).  The loop of a Merkle tree carries the number of its
    leaves, which [merkle_loop_total] shows to be enough.  Other recursion is
    structural.

    ** Not modelled, and why

    - The drawing of pages: which rules a browser applies to an element, what
      icons and charts look like.  White space in markup is kept only where
      it separates texts.
    - Imports and exports; the index files of the core and wallet packages,
      which only export, also modules that are not in the repository.
    - Third-party code (Stripe, ethers, axios, Telegraf, React, the URL
      parser, the sorting algorithm): environment or arguments.
    - Console output.  Unicode beyond bytes: strings are UTF-8 byte strings,
      case mapping is that of ASCII.  Object identity except where a heap is
      mentioned above.
    - Of the C++ node: networking, the wallet, the RPC server, the mempool,
      files and threads, and the interpreter of scripts, none of which is
      part of the rules above; witnesses of transactions; the vectorised
      variants of SHA-256; the accounting of memory in caches.  The Qt
      wallet, build system, tests and the game plugins. *)

From Stdlib Require Import Bool Arith Lia List String Ascii.
Import ListNotations.

(** ** Association lists

    Insertion-ordered maps: the property list of a JavaScript object and the
    entries of a [Map].  Updating a present key keeps its position. *)

Section Assoc.
Context {K V : Type} (eqk : K -> K -> bool).

Fixpoint assoc (k : K) (l : list (K * V)) : option V :=
  match l with
  | [] => None
  | (k', v) :: l' => if eqk k k' then Some v else assoc k l'
  end.

Fixpoint assoc_set (k : K) (v : V) (l : list (K * V)) : list (K * V) :=
  match l with
  | [] => [(k, v)]
  | (k', v') :: l' => if eqk k k' then (k', v) :: l' else (k', v') :: assoc_set k v l'
  end.

Fixpoint assoc_del (k : K) (l : list (K * V)) : list (K * V) :=
  match l with
  | [] => []
  | (k', v') :: l' => if eqk k k' then assoc_del k l' else (k', v') :: assoc_del k l'
  end.

Hypothesis eqk_spec : forall a b, reflect (a = b) (eqk a b).

Lemma assoc_set_same k v l : assoc k (assoc_set k v l) = Some v.
Proof using eqk_spec.
  induction l as [|[k' v'] l IH]; cbn; destruct (eqk_spec k k); try congruence; auto.
  destruct (eqk k k') eqn:E; cbn; rewrite E; auto.
Qed.

Lemma assoc_set_other k k' v l : k <> k' -> assoc k' (assoc_set k v l) = assoc k' l.
Proof using eqk_spec.
  intros N. induction l as [|[k0 v0] l IH]; cbn.
  - destruct (eqk_spec k' k); congruence.
  - destruct (eqk_spec k k0); cbn; destruct (eqk_spec k' k0); congruence || auto.
Qed.

Lemma assoc_del_same k l : assoc k (assoc_del k l) = None.
Proof using Type.
  induction l as [|[k' v'] l IH]; cbn; auto.
  destruct (eqk k k') eqn:E; cbn; rewrite ?E; auto.
Qed.

Lemma assoc_del_other k k' l : k <> k' -> assoc k' (assoc_del k l) = assoc k' l.
Proof using eqk_spec.
  intros N. induction l as [|[k0 v0] l IH]; cbn; auto.
  destruct (eqk_spec k k0); cbn; destruct (eqk_spec k' k0); congruence || auto.
Qed.

Lemma assoc_In k v l : assoc k l = Some v -> In v (map snd l).
Proof using Type.
  induction l as [|[k' v'] l IH]; cbn; [discriminate|].
  destruct (eqk k k'); [intros [= ->]; auto | auto].
Qed.

Lemma assoc_set_Forall (P : K * V -> Prop) k v l :
  (forall k', P (k', v)) -> Forall P l -> Forall P (assoc_set k v l).
Proof using Type.
  intros Hv H. induction H as [|[k' v'] l Hx Hl IH]; cbn; [constructor; auto|].
  destruct (eqk k k'); constructor; auto.
Qed.

End Assoc.

(** ** Strings *)

Local Open Scope string_scope.

Definition to_lower_char (c : ascii) : ascii :=
  let n := nat_of_ascii c in
  if ((65 <=? n) && (n <=? 90))%nat then ascii_of_nat (n + 32) else c.

Definition to_upper_char (c : ascii) : ascii :=
  let n := nat_of_ascii c in
  if ((97 <=? n) && (n <=? 122))%nat then ascii_of_nat (n - 32) else c.

Fixpoint map_string (f : ascii -> ascii) (s : string) : string :=
  match s with EmptyString => EmptyString | String c s' => String (f c) (map_string f s') end.

Definition toLowerCase : string -> string := map_string to_lower_char.
Definition toUpperCase : string -> string := map_string to_upper_char.

Lemma to_lower_char_idem c : to_lower_char (to_lower_char c) = to_lower_char c.
Proof. destruct c as [[] [] [] [] [] [] [] []]; reflexivity. Qed.

Lemma toLowerCase_idem s : toLowerCase (toLowerCase s) = toLowerCase s.
Proof.
  induction s as [|c s IH]; [reflexivity|]. unfold toLowerCase in *. cbn [map_string]. rewrite to_lower_char_idem, IH. reflexivity.
Qed.

Definition startsWith (s p : string) : bool := String.prefix p s.

Fixpoint includes (s p : string) : bool :=
  startsWith s p ||
  match s with EmptyString => false | String _ s' => includes s' p end.

Fixpoint endsWith (s p : string) : bool :=
  (s =? p) || match s with EmptyString => false | String _ s' => endsWith s' p end.

(** [s.slice(n)] and [s.slice(0, n)] for [n >= 0]. *)
Fixpoint drop_string (n : nat) (s : string) : string :=
  match n, s with
  | O, _ => s
  | S n', String _ s' => drop_string n' s'
  | _, EmptyString => EmptyString
  end.

Fixpoint take_string (n : nat) (s : string) : string :=
  match n, s with
  | S n', String c s' => String c (take_string n' s')
  | _, _ => EmptyString
  end.

(** [s.replace(p, r)] with a string pattern: the first occurrence only. *)
Fixpoint replace_first (s p r : string) : string :=
  if startsWith s p then r ++ drop_string (String.length p) s
  else match s with
       | EmptyString => EmptyString
       | String c s' => String c (replace_first s' p r)
       end.

Fixpoint join (sep : string) (l : list string) : string :=
  match l with
  | [] => EmptyString
  | [x] => x
  | x :: l' => x ++ sep ++ join sep l'
  end.

Definition mem_string (s : string) (l : list string) : bool :=
  existsb (String.eqb s) l.

Lemma mem_string_In s l : mem_string s l = true <-> In s l.
Proof.
  unfold mem_string. rewrite existsb_exists. split.
  - intros (x & Hx & E). apply String.eqb_eq in E. congruence.
  - intros H. exists s. split; [exact H | apply String.eqb_refl].
Qed.

Lemma endsWith_spec s p : endsWith s p = true <-> exists u, s = u ++ p.
Proof.
  induction s as [|c s IH]; cbn [endsWith]; rewrite orb_true_iff, String.eqb_eq.
  - split.
    + intros [<- | H]; [exists EmptyString; reflexivity | discriminate].
    + intros [[|c u] H]; [left; exact H | discriminate].
  - rewrite IH. split.
    + intros [<- | [u ->]]; [exists EmptyString | exists (String c u)]; reflexivity.
    + intros [[|c' u] H]; [left; exact H | right; exists u; cbn in H; congruence].
Qed.

Lemma prefix_spec p s : String.prefix p s = true <-> exists v, s = p ++ v.
Proof.
  revert s. induction p as [|c p IH]; intros [|c' s].
  - split; [exists EmptyString; reflexivity | reflexivity].
  - split; [exists (String c' s); reflexivity | reflexivity].
  - split; [discriminate | intros [v [=]]].
  - change (String.prefix (String c p) (String c' s))
      with (if ascii_dec c c' then String.prefix p s else false).
    destruct (ascii_dec c c') as [->|N].
    + rewrite IH. split; intros [v H]; exists v; cbn in *; congruence.
    + split; [discriminate | intros [v [= E _]]; congruence].
Qed.

Lemma includes_spec s p : includes s p = true <-> exists u v, s = u ++ p ++ v.
Proof.
  induction s as [|c s IH]; cbn [includes]; unfold startsWith; rewrite orb_true_iff, prefix_spec.
  - split.
    + intros [[v H] | H]; [exists EmptyString, v; exact H | discriminate].
    + intros ([|c u] & v & H); [left; exists v; exact H | discriminate].
  - rewrite IH. split.
    + intros [[v ->] | (u & v & ->)]; [exists EmptyString, v | exists (String c u), v]; reflexivity.
    + intros ([|c' u] & v & H); [left; exists v; exact H|].
      right. exists u, v. cbn in H. congruence.
Qed.

Lemma append_assoc a b c : (a ++ b) ++ c = a ++ (b ++ c).
Proof. induction a; cbn; congruence. Qed.

Lemma append_nil_r a : a ++ EmptyString = a.
Proof. induction a; cbn; congruence. Qed.

Lemma take_drop_string n s : take_string n s ++ drop_string n s = s.
Proof. revert s; induction n; destruct s; cbn; congruence. Qed.

Lemma length_append a b : String.length (a ++ b) = (String.length a + String.length b)%nat.
Proof. induction a; cbn; congruence. Qed.

Lemma drop_length_append a b : drop_string (String.length a) (a ++ b) = b.
Proof. induction a; cbn; auto. Qed.

(** ** Transition systems *)

Section Closure.
Context {State : Type} (step : State -> State -> Prop).

(** Finitely many steps. *)
Inductive steps : State -> State -> Prop :=
  | steps_none s : steps s s
  | steps_more s s' s'' : steps s s' -> step s' s'' -> steps s s''.

(** An invariant of every step holds along every run. *)
Lemma steps_invariant (Inv : State -> Prop) :
  (forall s s', Inv s -> step s s' -> Inv s') ->
  forall s s', steps s s' -> Inv s -> Inv s'.
Proof. intros Hstep s s' H. induction H; eauto. Qed.

Lemma steps_trans s s' s'' : steps s s' -> steps s' s'' -> steps s s''.
Proof. intros H1 H2. induction H2; eauto using steps. Qed.

Lemma steps_one s s' : step s s' -> steps s s'.
Proof. intros H. eauto using steps. Qed.

End Closure.

(** A step-by-step simulation by a function is a simulation of runs. *)
Lemma steps_simulation {S1 S2 : Type} (step1 : S1 -> S1 -> Prop) (step2 : S2 -> S2 -> Prop)
    (f : S1 -> S2) :
  (forall x y, step1 x y -> step2 (f x) (f y)) ->
  forall x y, steps step1 x y -> steps step2 (f x) (f y).
Proof. intros Hf x y H. induction H; eauto using steps. Qed.

#[export] Hint Constructors steps : core.

(** ** Tactics *)

(** Case analysis on the scrutinee of a [match] or [if] of the goal. *)
Ltac case_goal :=
  match goal with
  | |- context [match ?x with _ => _ end] => destruct x eqn:?
  end.

(** Case analysis on the scrutinee of a [match] or [if] of a hypothesis. *)
Ltac case_hyp H :=
  match type of H with
  | context [match ?x with _ => _ end] => destruct x eqn:?
  end.

(** Injections and contradictions among equations between constructors. *)
Ltac inv_eqs :=
  repeat match goal with
  | H : Some _ = Some _ |- _ => injection H as H
  | H : (_, _) = (_, _) |- _ => injection H as H
  | H : Some _ = None |- _ => discriminate H
  | H : None = Some _ |- _ => discriminate H
  | H : true = false |- _ => discriminate H
  | H : false = true |- _ => discriminate H
  | H : ?x = ?y |- _ => first [subst x | subst y]
  end.
