(* ===== verification/Sorts.v ===== *)
(** * Sorting with the engine's algorithm

    [Array.prototype.sort] leaves the algorithm to the engine.  [SortLaws]
    states what the programs rely on, for a comparator given by the pairs it
    answers with a positive number; insertion sort is an instance, so the laws
    can be met.  The file also has the lemmas on ordered lists that theorems
    about sorted data use. *)

From Stdlib Require Import ZArith Bool Lia List Permutation Sorted.
Import ListNotations.

(** What any engine guarantees of a sort: a permutation; and, where the
    comparator orders the elements of the list strictly and totally, the
    order of the comparator. *)
Class SortLaws {A : Type} (engine_sort : (A -> A -> bool) -> list A -> list A) : Prop := {
  sort_permutes : forall gt l, Permutation (engine_sort gt l) l;
  sort_sorts : forall gt l,
    ForallOrdPairs (fun x y => gt x y = negb (gt y x)) l ->
    (forall x y z, In x l -> In y l -> In z l -> gt x y = true -> gt y z = true -> gt x z = true) ->
    StronglySorted (fun x y => gt y x = true) (engine_sort gt l)
}.

(** ** Lists *)

Lemma NoDup_pairs {A B} (f : A -> B) l : NoDup (map f l) -> ForallOrdPairs (fun x y => f x <> f y) l.
Proof.
  induction l as [|x l IH]; cbn; intros N; [constructor|]. inversion N as [|? ? Nx Nl]; subst. constructor; [|apply IH, Nl].
  apply Forall_forall. intros y Hy E. apply Nx. rewrite E. apply in_map, Hy.
Qed.

Lemma ForallOrdPairs_map {A B} (f : A -> B) (R : B -> B -> Prop) (P : A -> Prop) (R' : A -> A -> Prop) l :
  Forall P l -> (forall x y, P x -> P y -> R' x y -> R (f x) (f y)) -> ForallOrdPairs R' l -> ForallOrdPairs R (map f l).
Proof.
  intros F HR. induction 1 as [|x l Hx _ IH]; cbn; [constructor|]. inversion F as [|? ? Px Fl]; subst. constructor; [|apply IH, Fl].
  apply Forall_map. rewrite Forall_forall in *. auto.
Qed.

Lemma StronglySorted_map {A B} (f : A -> B) (R : A -> A -> Prop) (R' : B -> B -> Prop) l :
  (forall x y, In x l -> In y l -> R x y -> R' (f x) (f y)) -> StronglySorted R l -> StronglySorted R' (map f l).
Proof.
  intros HR S. induction S as [|x l _ IH Hx]; cbn; [constructor|]. constructor; [apply IH; intros; apply HR; cbn; auto|].
  apply Forall_map. rewrite Forall_forall in *. intros y Hy. apply HR; cbn; auto.
Qed.

Lemma map_snd_combine {A B} (l : list A) (l' : list B) : List.length l = List.length l' -> map snd (combine l l') = l'.
Proof. revert l'. induction l as [|x l IH]; intros [|y l'] E; cbn in *; try discriminate; [reflexivity|]. f_equal. apply IH. lia. Qed.

Lemma combine_map_self {A B} (f : A -> B) l : combine (map f l) l = map (fun x => (f x, x)) l.
Proof. induction l as [|x l IH]; cbn; [reflexivity|]. f_equal. exact IH. Qed.

Lemma Forall_filter {A} (P : A -> Prop) f l : Forall P l -> Forall P (filter f l).
Proof. intros F. apply Forall_forall. intros x Hx. apply filter_In in Hx. rewrite Forall_forall in F. apply F, Hx. Qed.

(** ** Insertion sort *)

Fixpoint insert_by {A} (gt : A -> A -> bool) (x : A) (l : list A) : list A :=
  match l with
  | [] => [x]
  | y :: l' => if gt x y then y :: insert_by gt x l' else x :: y :: l'
  end.
Definition insertion_sort {A} (gt : A -> A -> bool) (l : list A) : list A := fold_right (insert_by gt) [] l.

Lemma insert_by_permutes {A} (gt : A -> A -> bool) x l : Permutation (insert_by gt x l) (x :: l).
Proof. induction l as [|y l IH]; cbn; [reflexivity|]. destruct (gt x y); [|reflexivity]. rewrite IH. apply perm_swap. Qed.

Lemma insertion_sort_permutes {A} (gt : A -> A -> bool) l : Permutation (insertion_sort gt l) l.
Proof. induction l as [|x l IH]; cbn; [reflexivity|]. rewrite insert_by_permutes. apply perm_skip, IH. Qed.

Lemma insert_by_sorted {A} (gt : A -> A -> bool) x l :
  (forall y, In y l -> gt x y = negb (gt y x)) ->
  (forall a b c, In a (x :: l) -> In b (x :: l) -> In c (x :: l) -> gt a b = true -> gt b c = true -> gt a c = true) ->
  StronglySorted (fun a b => gt b a = true) l -> StronglySorted (fun a b => gt b a = true) (insert_by gt x l).
Proof.
  intros An Tr S. induction S as [|y l S IH Hy]; cbn [insert_by]; [repeat constructor|]. destruct (gt x y) eqn:G.
  - constructor.
    + apply IH; [intros z Hz; apply An; right; exact Hz|]. intros a b c Ha Hb Hc. apply Tr; cbn in *; tauto.
    + apply (Permutation_Forall (Permutation_sym (insert_by_permutes gt x l))). constructor; assumption.
  - assert (gt y x = true) as Gy by (specialize (An y (or_introl eq_refl)); destruct (gt y x); [reflexivity|cbn in An; congruence]).
    constructor; [constructor; assumption|]. constructor; [exact Gy|]. rewrite Forall_forall in *. intros z Hz.
    apply (Tr z y x); cbn; auto.
Qed.

#[export] Instance insertion_sort_laws {A} : SortLaws (A := A) insertion_sort.
Proof.
  split; [intros; apply insertion_sort_permutes|]. intros gt l An Tr. induction An as [|x l Hx An IH]; cbn; [constructor|].
  apply insert_by_sorted.
  - intros y Hy. apply (Permutation_in y (insertion_sort_permutes gt l)) in Hy. rewrite Forall_forall in Hx. apply Hx, Hy.
  - intros a b c Ha Hb Hc. pose proof (perm_skip x (insertion_sort_permutes gt l)) as Pm.
    apply Tr; eapply Permutation_in; eassumption.
  - apply IH. intros a b c Ha Hb Hc. apply Tr; cbn; auto.
Qed.
