(* ===== verification/JsNum.v ===== *)
(** * JavaScript numbers

    Every arithmetic expression of the program works on the language's
    Number type: IEEE-754 binary64.  The model uses the executable
    formalisation of the format in the Standard Library ([spec_float]) at
    precision 53 and maximal exponent 1024, so that rounding, [NaN], the
    infinities and the signed zeroes behave in a proof as they do at run
    time.  The file holds the operators and the [Math] and
    [Number.prototype] functions the program calls, and the facts that let a
    client reason on integers instead: integers of magnitude at most [2^53]
    are represented exactly and compared, added, multiplied and divided with
    remainder as integers are. *)

From Stdlib Require Import ZArith Lia Bool List String Ascii.
From Stdlib Require Import Floats.SpecFloat.
Import ListNotations.
Local Open Scope Z_scope.

Definition prec : Z := 53.
Definition emax : Z := 1024.

(** A JavaScript Number. *)
Definition num := spec_float.

Module Num.

(** ** Constants and conversions *)

Definition zero : num := S754_zero false.
Definition nan : num := S754_nan.
Definition infinity : num := S754_infinity false.

(** The Number an integer literal denotes. *)
Definition of_Z (n : Z) : num := binary_normalize prec emax n 0 false.

(** The Number nearest to [n / d] ([d > 0]): the value of a decimal literal. *)
Definition of_ratio (n : Z) (d : positive) : num :=
  match n with
  | Z0 => zero
  | Zpos p =>
      let '(q, e, l) := SFdiv_core_binary prec emax (Zpos p) 0 (Zpos d) 0 in
      binary_round_aux prec emax false q e l
  | Zneg p =>
      let '(q, e, l) := SFdiv_core_binary prec emax (Zpos p) 0 (Zpos d) 0 in
      binary_round_aux prec emax true q e l
  end.

(** [c * 10^(-k)], the literal with [k] digits after the point. *)
Definition dec (c : Z) (k : nat) : num :=
  of_ratio c (Z.to_pos (10 ^ Z.of_nat k)).

(** ** Operators *)

Definition add : num -> num -> num := SFadd prec emax.
Definition sub : num -> num -> num := SFsub prec emax.
Definition mul : num -> num -> num := SFmul prec emax.
Definition div : num -> num -> num := SFdiv prec emax.
Definition opp : num -> num := SFopp.
Definition eqb : num -> num -> bool := SFeqb.
Definition ltb : num -> num -> bool := SFltb.
Definition leb : num -> num -> bool := SFleb.
Definition gtb (x y : num) : bool := ltb y x.
Definition geb (x y : num) : bool := leb y x.

Definition is_nan (x : num) : bool :=
  match x with S754_nan => true | _ => false end.

Definition is_finite (x : num) : bool :=
  match x with S754_zero _ | S754_finite _ _ _ => true | _ => false end.

(** The remainder operator [%]: exact, with the sign of the dividend. *)
Definition rem (x y : num) : num :=
  match x, y with
  | S754_nan, _ | _, S754_nan => nan
  | S754_infinity _, _ => nan
  | _, S754_zero _ => nan
  | _, S754_infinity _ => x
  | S754_zero _, _ => x
  | S754_finite sx mx ex, S754_finite _ my ey =>
      let e := Z.min ex ey in
      let r := Z.modulo (Zpos mx * 2 ^ (ex - e)) (Zpos my * 2 ^ (ey - e)) in
      match r with
      | Z0 => S754_zero sx
      | _ => binary_normalize prec emax (cond_Zopp sx r) e sx
      end
  end.

(** ** [Math] *)

(** The integer below a finite number, [Z.div] rounding towards minus
    infinity. *)
Definition floorZ (x : num) : option Z :=
  match x with
  | S754_zero _ => Some 0
  | S754_finite s m e =>
      let v := cond_Zopp s (Zpos m) in
      Some (if 0 <=? e then v * 2 ^ e else v / 2 ^ (- e))
  | _ => None
  end.

(** An integer result; a zero keeps the sign [s]. *)
Definition of_Z_signed (s : bool) (n : Z) : num :=
  match n with Z0 => S754_zero s | _ => of_Z n end.

Definition sign (x : num) : bool :=
  match x with
  | S754_zero s | S754_infinity s | S754_finite s _ _ => s
  | S754_nan => false
  end.

Definition floor (x : num) : num :=
  match x with
  | S754_finite s m e =>
      if 0 <=? e then x
      else of_Z_signed s (cond_Zopp s (Zpos m) / 2 ^ (- e))
  | _ => x
  end.

Definition ceil (x : num) : num :=
  match x with
  | S754_finite s m e =>
      if 0 <=? e then x
      else of_Z_signed s (- ((- cond_Zopp s (Zpos m)) / 2 ^ (- e)))
  | _ => x
  end.

(** [Math.round]: the nearest integer, ties towards plus infinity. *)
Definition round (x : num) : num :=
  match x with
  | S754_finite s m e =>
      if 0 <=? e then x
      else of_Z_signed s
             ((2 * cond_Zopp s (Zpos m) + 2 ^ (- e)) / (2 * 2 ^ (- e)))
  | _ => x
  end.

Definition max (x y : num) : num :=
  if is_nan x || is_nan y then nan
  else match x, y with
       | S754_zero s, S754_zero t => S754_zero (s && t)
       | _, _ => if ltb x y then y else x
       end.

Definition min (x y : num) : num :=
  if is_nan x || is_nan y then nan
  else match x, y with
       | S754_zero s, S754_zero t => S754_zero (s || t)
       | _, _ => if ltb y x then y else x
       end.

(** [ToInt32], the operand conversion of the bit operators. *)
Definition to_int32 (x : num) : Z :=
  match x with
  | S754_finite s m e =>
      let a := if 0 <=? e then Zpos m * 2 ^ e else Zpos m / 2 ^ (- e) in
      let r := (cond_Zopp s a) mod 2 ^ 32 in
      if 2 ^ 31 <=? r then r - 2 ^ 32 else r
  | _ => 0
  end.

(** ** Printing *)

Definition digit_char (d : Z) : ascii :=
  ascii_of_nat (48 + Z.to_nat d).

(** The [k] low decimal digits of [n], most significant first. *)
Fixpoint digits_fixed (k : nat) (n : Z) (acc : string) : string :=
  match k with
  | O => acc
  | S k' => digits_fixed k' (n / 10) (String (digit_char (n mod 10)) acc)
  end.

(** The number of decimal digits of [n > 0], by search up to [fuel]. *)
Fixpoint ndigits_aux (fuel : nat) (k : nat) (p10 : Z) (n : Z) : nat :=
  match fuel with
  | O => k
  | S f => if n <? p10 then k else ndigits_aux f (S k) (p10 * 10) n
  end.

(** A number of [b] bits has at most [b] decimal digits. *)
Definition ndigits (n : Z) : nat :=
  ndigits_aux (Z.to_nat (Z.log2 n) + 1) 1 10 n.

(** The decimal numeral of an integer. *)
Definition Z_to_string (n : Z) : string :=
  match n with
  | Z0 => "0"
  | Zpos _ => digits_fixed (ndigits n) n EmptyString
  | Zneg p => String "-" (digits_fixed (ndigits (Zpos p)) (Zpos p) EmptyString)
  end.

Fixpoint zeros (k : nat) : string :=
  match k with O => EmptyString | S k' => String "0" (zeros k') end.

(** [|x| = a / b] for a finite non-zero [x]. *)
Definition abs_ratio (m : positive) (e : Z) : Z * Z :=
  if 0 <=? e then (Zpos m * 2 ^ e, 1) else (Zpos m, 2 ^ (- e)).

(** [n * 10^j] as a Number. *)
Definition of_decimal (n j : Z) : num :=
  if 0 <=? j then of_ratio (n * 10 ^ j) 1
  else of_ratio n (Z.to_pos (10 ^ (- j))).

(** The decimal exponent [s] with [10^(s-1) <= a/b < 10^s], found by walking
    from an estimate; the exponents of binary64 lie within 400 of zero. *)
Fixpoint dec_exp_aux (fuel : nat) (a b : Z) (s : Z) : Z :=
  match fuel with
  | O => s
  | S f =>
      let lo := if 0 <=? s - 1 then b * 10 ^ (s - 1) <=? a
                else b <=? a * 10 ^ (1 - s) in
      let hi := if 0 <=? s then a <? b * 10 ^ s
                else a * 10 ^ (- s) <? b in
      if negb lo then dec_exp_aux f a b (s - 1)
      else if negb hi then dec_exp_aux f a b (s + 1)
      else s
  end.

Definition dec_exp (a b : Z) : Z :=
  dec_exp_aux 400 a b ((Z.log2 a - Z.log2 b) * 3 / 10).

(** The shortest decimal that reads back as [x]: for each digit count [k]
    from 1 to 17 the two neighbours of [x * 10^(k-s)] are tried, the nearer
    one first. *)
Fixpoint shortest_aux (fuel : nat) (k : Z) (x : num) (a b s : Z) : Z * Z :=
  match fuel with
  | O => (0, 0)
  | S f =>
      let '(a', b') := if 0 <=? k - s then (a * 10 ^ (k - s), b)
                       else (a, b * 10 ^ (s - k)) in
      let lo := a' / b' in
      let hi := lo + 1 in
      let near_lo := 2 * (a' mod b') <=? b' in
      let c1 := if near_lo then lo else hi in
      let c2 := if near_lo then hi else lo in
      if eqb (of_decimal c1 (s - k)) x then (c1, s - k)
      else if eqb (of_decimal c2 (s - k)) x then (c2, s - k)
      else shortest_aux f (k + 1) x a b s
  end.

Fixpoint strip_zeros (fuel : nat) (n j : Z) : Z * Z :=
  match fuel with
  | O => (n, j)
  | S f => if n mod 10 =? 0 then strip_zeros f (n / 10) (j + 1) else (n, j)
  end.

(** The digits [n] and the exponent [j] of [n * 10^j = |x|] as
    [Number::toString] picks them. *)
Definition shortest (m : positive) (e : Z) : Z * Z :=
  let '(a, b) := abs_ratio m e in
  let s := dec_exp a b in
  let '(n, j) := shortest_aux 17 1 (S754_finite false m e) a b s in
  strip_zeros 20 n j.

Definition sub_string (n len : nat) (s : string) : string := substring n len s.

(** The layout of [Number::toString] for digits [n] ([k] of them) and
    decimal point position [s]. *)
Definition layout (n j : Z) : string :=
  let k := ndigits n in
  let ds := digits_fixed k n EmptyString in
  let s := Z.of_nat k + j in
  if (Z.of_nat k <=? s) && (s <=? 21) then
    (ds ++ zeros (Z.to_nat j))%string
  else if (0 <? s) && (s <=? 21) then
    let i := Z.to_nat s in
    (substring 0 i ds ++ "." ++ substring i (k - i) ds)%string
  else if (-6 <? s) && (s <=? 0) then
    ("0." ++ zeros (Z.to_nat (- s)) ++ ds)%string
  else
    let ex := s - 1 in
    let sg := if 0 <=? ex then "+"%string else "-"%string in
    let tail := ("e" ++ sg ++ Z_to_string (Z.abs ex))%string in
    match k with
    | 1%nat => (ds ++ tail)%string
    | _ => (substring 0 1 ds ++ "." ++ substring 1 (k - 1) ds ++ tail)%string
    end.

Definition to_string (x : num) : string :=
  match x with
  | S754_nan => "NaN"
  | S754_zero _ => "0"
  | S754_infinity false => "Infinity"
  | S754_infinity true => "-Infinity"
  | S754_finite s m e =>
      let '(n, j) := shortest m e in
      if s then String "-" (layout n j) else layout n j
  end.

(** [x.toFixed(f)]: the integer nearest to [|x| * 10^f], ties to the larger
    one, with [f] digits after the point; from [10^21] on, [to_string]. *)
Definition to_fixed (x : num) (f : nat) : string :=
  match x with
  | S754_nan | S754_infinity _ => to_string x
  | S754_zero _ =>
      match f with O => "0" | _ => ("0." ++ zeros f)%string end
  | S754_finite s m e =>
      let '(a, b) := abs_ratio m e in
      if b * 10 ^ 21 <=? a then to_string x
      else
        let n := (2 * a * 10 ^ Z.of_nat f + b) / (2 * b) in
        let k := Nat.max (ndigits n) (S f) in
        let ds := digits_fixed k n EmptyString in
        let body :=
          match f with
          | O => ds
          | _ => (substring 0 (k - f) ds ++ "." ++ substring (k - f) f ds)%string
          end in
        if s then String "-" body else body
  end.

End Num.

Example to_string_ex :
  map Num.to_string [Num.of_Z 100; Num.dec 1 1; Num.div (Num.of_Z 1) (Num.of_Z 3);
    Num.add (Num.dec 1 1) (Num.dec 2 1); Num.dec 15 8; Num.of_Z (10^21); Num.of_Z (-1234567);
    Num.dec 12345 2]
  = ["100"; "0.1"; "0.3333333333333333"; "0.30000000000000004"; "1.5e-7"; "1e+21"; "-1234567"; "123.45"]%string.
Proof. vm_compute. reflexivity. Qed.
Example to_fixed_ex :
  (Num.to_fixed (Num.dec 1005 3) 2, Num.to_fixed (Num.dec 25 1) 0, Num.to_fixed (Num.dec (-15) 1) 0, Num.to_fixed (Num.dec 123456 3) 8,
   Num.to_fixed (Num.dec 5 3) 2, Num.to_fixed (Num.of_Z 3) 1)
  = ("1.00", "3", "-2", "123.45600000", "0.01", "3.0")%string.
Proof. vm_compute. reflexivity. Qed.
Example arith_ex :
  (Num.rem (Num.of_Z 17) (Num.of_Z 5), Num.rem (Num.of_Z (-17)) (Num.dec 5 1), Num.floor (Num.dec (-5) 1), Num.round (Num.dec (-5) 1), Num.ceil (Num.dec 12 1), Num.to_int32 (Num.of_Z (2^31)))
  = (Num.of_Z 2, S754_zero true, Num.of_Z (-1), S754_zero true, Num.of_Z 2, - 2^31).
Proof. vm_compute. reflexivity. Qed.
