(* ===== verification/JsNumFacts.v ===== *)
(** * Facts about JavaScript numbers

    The arithmetic of [JsNum] restricted to integers: [of_Z] is exact up to
    [2^53], and on such integers the comparison operators, [+], [*], [%] and
    [Math.floor(a / b)] compute what their counterparts on [Z] do.  The rest
    of the development argues about amounts, prices and counters through
    these lemmas (hint database [jsnum]). *)

From Stdlib Require Import ZArith Lia Bool List.
From Stdlib Require Import Floats.SpecFloat.
From S2P Require Import JsNum.
Local Open Scope Z_scope.

Create Rewrite HintDb jsnum.

(** ** Digits and shifts *)

Lemma digits2_pos_bounds p :
  2 ^ (Zpos (digits2_pos p) - 1) <= Zpos p < 2 ^ Zpos (digits2_pos p).
Proof.
  induction p as [p IH | p IH |]; cbn [digits2_pos]; [| |cbn; lia].
  all: rewrite Pos2Z.inj_succ.
  all: replace (Z.succ (Zpos (digits2_pos p)) - 1)
    with (Z.succ (Zpos (digits2_pos p) - 1)) by lia.
  all: rewrite !Z.pow_succ_r by lia; lia.
Qed.

Lemma digits2_pos_unique p d :
  0 < d -> 2 ^ (d - 1) <= Zpos p < 2 ^ d -> Zpos (digits2_pos p) = d.
Proof.
  intros Hd Hp. pose proof (digits2_pos_bounds p) as Hb.
  set (d' := Zpos (digits2_pos p)) in *.
  assert (0 < d') by (unfold d'; lia).
  destruct (Z.lt_trichotomy d' d) as [H1|[H1|H1]]; [|exact H1|].
  - pose proof (Z.pow_le_mono_r 2 d' (d - 1)); lia.
  - pose proof (Z.pow_le_mono_r 2 d (d' - 1)); lia.
Qed.

Lemma digits2_pos_shift p k (q : positive) :
  0 <= k -> Zpos q = Zpos p * 2 ^ k ->
  Zpos (digits2_pos q) = Zpos (digits2_pos p) + k.
Proof.
  intros Hk Hq. apply digits2_pos_unique; [lia|].
  pose proof (digits2_pos_bounds p) as Hb. rewrite Hq.
  replace (Zpos (digits2_pos p) + k - 1) with ((Zpos (digits2_pos p) - 1) + k) by lia.
  rewrite !Z.pow_add_r by lia.
  assert (0 < 2 ^ k) by (apply Z.pow_pos_nonneg; lia). nia.
Qed.

Lemma iter_xO p d : Zpos (Pos.iter xO p d) = Zpos p * 2 ^ Zpos d.
Proof.
  induction d as [|d IH] using Pos.peano_ind.
  - cbn. lia.
  - rewrite Pos.iter_succ, Pos2Z.inj_succ, Z.pow_succ_r by lia. lia.
Qed.

Lemma shl_align_spec p e e' :
  e' <= e -> Zpos (fst (shl_align p e e')) = Zpos p * 2 ^ (e - e').
Proof.
  intros H. unfold shl_align. destruct (e' - e) as [|d|d] eqn:E; cbn [fst].
  - replace (e - e') with 0 by lia. cbn. lia.
  - lia.
  - rewrite iter_xO. repeat f_equal. lia.
Qed.

Lemma iter_pos_comm {A} (f : A -> A) n x :
  iter_pos f n (f x) = f (iter_pos f n x).
Proof.
  revert x. induction n as [n IH|n IH|]; intros x; cbn; rewrite ?IH; reflexivity.
Qed.

Lemma iter_pos_succ {A} (f : A -> A) n x :
  iter_pos f (Pos.succ n) x = f (iter_pos f n x).
Proof.
  revert x. induction n as [n IH|n IH|]; intros x; cbn; rewrite ?IH, ?iter_pos_comm; reflexivity.
Qed.

(** Shifting out trailing zeroes leaves no remainder. *)
Lemma shr_exact p (m : Z) :
  0 < m ->
  iter_pos shr_1 p (Build_shr_record (m * 2 ^ Zpos p) false false)
  = Build_shr_record m false false.
Proof.
  intros Hm. revert m Hm. induction p as [|p IH] using Pos.peano_ind; intros m Hm.
  - destruct m as [|m|m]; try lia. replace (Zpos m * 2 ^ 1) with (Zpos m~0) by lia. reflexivity.
  - rewrite iter_pos_succ, Pos2Z.inj_succ, Z.pow_succ_r by lia.
    replace (m * (2 * 2 ^ Zpos p)) with ((2 * m) * 2 ^ Zpos p) by lia.
    rewrite IH by lia. destruct m; try lia. reflexivity.
Qed.

Lemma fexp_normal x : emin prec emax + prec <= x -> fexp prec emax x = x - prec.
Proof. unfold fexp, emin, prec, emax. lia. Qed.

(** ** Exact rounding *)

(** A 53-digit mantissa followed by [t] zeroes is rounded to itself. *)
Lemma round_aux_exact s m e t :
  Zpos (digits2_pos m) = prec -> 0 <= t ->
  emin prec emax <= e + t <= emax - prec ->
  binary_round_aux prec emax s (Zpos m * 2 ^ t) e loc_Exact
  = S754_finite s m (e + t).
Proof.
  intros Hd Ht He.
  assert (Hq : exists q, Zpos q = Zpos m * 2 ^ t).
  { exists (Z.to_pos (Zpos m * 2 ^ t)). rewrite Z2Pos.id; [reflexivity|].
    assert (0 < 2 ^ t) by (apply Z.pow_pos_nonneg; lia). lia. }
  destruct Hq as [q Hq].
  assert (Hshr : forall e0 u, 0 <= u -> emin prec emax <= e0 + u ->
     forall q0, Zpos q0 = Zpos m * 2 ^ u ->
     shr_fexp prec emax (Zpos q0) e0 loc_Exact
     = (Build_shr_record (Zpos m) false false, e0 + u)).
  { intros e0 u Hu He0 q0 Hq0. unfold shr_fexp. cbn [Zdigits2 shr_record_of_loc].
    rewrite (digits2_pos_shift m u q0 Hu Hq0), Hd.
    rewrite fexp_normal by (unfold prec in *; lia).
    replace (prec + u + e0 - prec - e0) with u by lia.
    unfold shr. destruct u as [|u|u]; try lia.
    - rewrite Hq0. cbn [Z.pow]. f_equal; [f_equal|]; lia.
    - rewrite Hq0, shr_exact by lia. reflexivity. }
  unfold binary_round_aux. rewrite <- Hq.
  rewrite (Hshr e t Ht ltac:(lia) q Hq).
  cbn [loc_of_shr_record shr_m round_nearest_even].
  rewrite (Hshr (e + t) 0 ltac:(lia) ltac:(lia) m ltac:(cbn; lia)).
  cbn [shr_m]. rewrite Z.add_0_r.
  destruct (Z.leb_spec (e + t) (emax - prec)); [reflexivity|lia].
Qed.

(** The canonical binary64 form of a non-zero integer of at most 53 bits. *)
Definition canon_m (p : positive) : positive :=
  Z.to_pos (Zpos p * 2 ^ (prec - Zpos (digits2_pos p))).
Definition canon_e (p : positive) : Z := Zpos (digits2_pos p) - prec.

Definition small (p : positive) : Prop := Zpos p < 2 ^ prec.

Lemma small_digits p : small p -> Zpos (digits2_pos p) <= prec.
Proof.
  intros H. destruct (Z.le_gt_cases (Zpos (digits2_pos p)) prec); [assumption|].
  pose proof (digits2_pos_bounds p).
  pose proof (Z.pow_le_mono_r 2 prec (Zpos (digits2_pos p) - 1)). unfold small in *. lia.
Qed.

Lemma canon_m_eq p :
  small p -> Zpos (canon_m p) = Zpos p * 2 ^ (prec - Zpos (digits2_pos p)).
Proof.
  intros H. unfold canon_m. rewrite Z2Pos.id; [reflexivity|].
  pose proof (small_digits p H).
  assert (0 < 2 ^ (prec - Zpos (digits2_pos p))) by (apply Z.pow_pos_nonneg; lia). lia.
Qed.

Lemma canon_m_digits p : small p -> Zpos (digits2_pos (canon_m p)) = prec.
Proof.
  intros H. pose proof (small_digits p H).
  rewrite (digits2_pos_shift p (prec - Zpos (digits2_pos p))); [lia|lia|].
  apply canon_m_eq, H.
Qed.

Lemma canon_e_range p : small p -> 1 - prec <= canon_e p <= 0.
Proof. intros H. pose proof (small_digits p H). unfold canon_e. lia. Qed.

(** [p * 2^k] at exponent [-k] is rounded to the canonical form of [p]. *)
Lemma binary_round_small s p q k :
  small p -> 0 <= k <= 500 -> Zpos q = Zpos p * 2 ^ k ->
  binary_round prec emax s q (- k) = S754_finite s (canon_m p) (canon_e p).
Proof.
  intros Hp Hk Hq. unfold binary_round.
  rewrite (digits2_pos_shift p k q) by (lia || exact Hq).
  pose proof (small_digits p Hp) as Hd. set (d := Zpos (digits2_pos p)) in *.
  assert (0 < d) by (unfold d; lia).
  rewrite fexp_normal by (unfold emin, prec, emax in *; lia).
  pose proof (canon_m_eq p Hp) as Hm. fold d in Hm.
  unfold canon_e; fold d.
  destruct (Z.le_gt_cases (prec - d) k) as [Hle|Hgt].
  - assert (E : shl_align q (- k) (d + k + - k - prec) = (q, - k)).
    { unfold shl_align. destruct (d + k + - k - prec - - k) eqn:E; try reflexivity. lia. }
    rewrite E. replace (Zpos q) with (Zpos (canon_m p) * 2 ^ (k - (prec - d))).
    + rewrite round_aux_exact; [f_equal; lia | apply canon_m_digits, Hp | lia | unfold emin, prec, emax in *; lia].
    + rewrite Hm, Hq, <- Z.mul_assoc, <- Z.pow_add_r by lia. f_equal. f_equal. lia.
  - assert (E : shl_align q (- k) (d + k + - k - prec) = (canon_m p, d - prec)).
    { pose proof (shl_align_spec q (- k) (d + k + - k - prec) ltac:(lia)) as Hs.
      assert (Es : snd (shl_align q (- k) (d + k + - k - prec)) = d - prec).
      { unfold shl_align. destruct (d + k + - k - prec - - k) eqn:E; cbn [snd]; lia. }
      destruct (shl_align q (- k) (d + k + - k - prec)) as [q' e']. cbn [fst snd] in *.
      subst e'. f_equal. apply Pos2Z.inj. rewrite Hs, Hm, Hq, <- Z.mul_assoc, <- Z.pow_add_r by lia.
      f_equal. f_equal. lia. }
    rewrite E. replace (Zpos (canon_m p)) with (Zpos (canon_m p) * 2 ^ 0) by (cbn; lia).
    rewrite round_aux_exact; [f_equal; lia | apply canon_m_digits, Hp | lia | unfold emin, prec, emax in *; lia].
Qed.

Lemma of_Z_pos p : small p -> Num.of_Z (Zpos p) = S754_finite false (canon_m p) (canon_e p).
Proof. intros H. apply (binary_round_small false p p 0); [exact H|lia|cbn; lia]. Qed.

Lemma of_Z_neg p : small p -> Num.of_Z (Zneg p) = S754_finite true (canon_m p) (canon_e p).
Proof. intros H. apply (binary_round_small true p p 0); [exact H|lia|cbn; lia]. Qed.

(** A scaled integer of magnitude below [2^53] is normalised to that integer. *)
Lemma binary_normalize_small n k :
  Z.abs n < 2 ^ prec -> 0 <= k <= 500 ->
  binary_normalize prec emax (n * 2 ^ k) (- k) false = Num.of_Z n.
Proof.
  intros Hn Hk. assert (H2 : 0 < 2 ^ k) by (apply Z.pow_pos_nonneg; lia).
  destruct n as [|p|p]; [reflexivity| |].
  - assert (E : exists q, Zpos q = Zpos p * 2 ^ k)
      by (exists (Z.to_pos (Zpos p * 2 ^ k)); rewrite Z2Pos.id; lia).
    destruct E as [q Hq]. rewrite <- Hq, of_Z_pos by exact Hn.
    apply binary_round_small; [exact Hn|lia|exact Hq].
  - assert (E : exists q, Zpos q = Zpos p * 2 ^ k)
      by (exists (Z.to_pos (Zpos p * 2 ^ k)); rewrite Z2Pos.id; lia).
    destruct E as [q Hq]. replace (Zneg p * 2 ^ k) with (Zneg q) by lia.
    rewrite of_Z_neg by exact Hn.
    apply binary_round_small; [exact Hn|lia|exact Hq].
Qed.

(** ** Integers as numbers *)

(** The integers the program's amounts live in: magnitude below [2^53]. *)
Definition safe (n : Z) : Prop := Z.abs n < 2 ^ prec.

Lemma of_Z_nonzero n :
  safe n -> n <> 0 ->
  exists s m e, Num.of_Z n = S754_finite s m e
    /\ Zpos (digits2_pos m) = prec /\ 1 - prec <= e <= 0
    /\ cond_Zopp s (Zpos m) = n * 2 ^ (- e) /\ s = (n <? 0).
Proof.
  intros Hs Hn. destruct n as [|p|p]; [lia| |].
  all: assert (Hp : small p) by exact Hs.
  - exists false, (canon_m p), (canon_e p). rewrite of_Z_pos by exact Hp.
    split; [reflexivity|]. split; [apply canon_m_digits, Hp|].
    split; [apply canon_e_range, Hp|]. split; [|reflexivity].
    cbn [cond_Zopp]. rewrite canon_m_eq by exact Hp. unfold canon_e. do 2 f_equal. lia.
  - exists true, (canon_m p), (canon_e p). rewrite of_Z_neg by exact Hp.
    split; [reflexivity|]. split; [apply canon_m_digits, Hp|].
    split; [apply canon_e_range, Hp|]. split; [|reflexivity].
    cbn [cond_Zopp]. rewrite canon_m_eq by exact Hp. unfold canon_e.
    replace (- (Zpos (digits2_pos p) - prec)) with (prec - Zpos (digits2_pos p)) by lia. lia.
Qed.

Lemma align_value s m e ez n :
  ez <= e -> e <= 0 -> cond_Zopp s (Zpos m) = n * 2 ^ (- e) ->
  cond_Zopp s (Zpos (fst (shl_align m e ez))) = n * 2 ^ (- ez).
Proof.
  intros H He Hv. rewrite shl_align_spec by exact H.
  replace (cond_Zopp s (Zpos m * 2 ^ (e - ez))) with (cond_Zopp s (Zpos m) * 2 ^ (e - ez))
    by (destruct s; cbn [cond_Zopp]; lia).
  rewrite Hv, <- Z.mul_assoc, <- Z.pow_add_r by lia. do 2 f_equal. lia.
Qed.

Ltac of_Z_cases n s m e :=
  let Hz := fresh "Hz" in
  destruct (Z.eq_dec n 0) as [Hz|Hz];
  [ subst n
  | let E := fresh "E" s in let D := fresh "D" s in let R := fresh "R" s in
    let V := fresh "V" s in let Sg := fresh "Sg" s in
    destruct (of_Z_nonzero n ltac:(assumption) Hz) as (s & m & e & E & D & R & V & Sg) ].

Lemma add_of_Z a b :
  safe a -> safe b -> safe (a + b) ->
  Num.add (Num.of_Z a) (Num.of_Z b) = Num.of_Z (a + b).
Proof.
  intros Ha Hb Hab. of_Z_cases a s1 m1 e1; of_Z_cases b s2 m2 e2.
  - reflexivity.
  - change (0 + b) with b. rewrite Es2. reflexivity.
  - rewrite Z.add_0_r, Es1. reflexivity.
  - rewrite Es1, Es2. unfold Num.add, SFadd.
    rewrite (align_value s1 m1 e1 _ a), (align_value s2 m2 e2 _ b) by (assumption || lia).
    rewrite <- Z.mul_add_distr_r.
    rewrite <- (binary_normalize_small (a + b) (- Z.min e1 e2)) by (assumption || unfold prec in *; lia).
    rewrite Z.opp_involutive. reflexivity.
Qed.

Lemma sub_of_Z a b :
  safe a -> safe b -> safe (a - b) ->
  Num.sub (Num.of_Z a) (Num.of_Z b) = Num.of_Z (a - b).
Proof.
  intros Ha Hb Hab. of_Z_cases a s1 m1 e1; of_Z_cases b s2 m2 e2.
  - reflexivity.
  - change (0 - b) with (- b). rewrite Es2. cbn.
    destruct b as [|p|p]; [lia| |]; assert (Hp : small p) by exact Hb; cbn [Z.opp].
    + rewrite of_Z_neg by exact Hp. rewrite of_Z_pos in Es2 by exact Hp. injection Es2 as <- <- <-. reflexivity.
    + rewrite of_Z_pos by exact Hp. rewrite of_Z_neg in Es2 by exact Hp. injection Es2 as <- <- <-. reflexivity.
  - rewrite Z.sub_0_r, Es1. reflexivity.
  - rewrite Es1, Es2. unfold Num.sub, SFsub.
    rewrite (align_value s1 m1 e1 _ a), (align_value s2 m2 e2 _ b) by (assumption || lia).
    rewrite <- Z.mul_sub_distr_r.
    rewrite <- (binary_normalize_small (a - b) (- Z.min e1 e2)) by (assumption || unfold prec in *; lia).
    rewrite Z.opp_involutive. reflexivity.
Qed.

Lemma scaled_lt a b x y t :
  0 < x -> 2 <= y -> 0 < a * (y * x) < 2 * t -> t <= b * x -> a < b.
Proof.
  intros Hx Hy [H0 H1] H2. assert (0 < a) by nia.
  assert (2 * (a * x) <= a * (y * x)) by nia. nia.
Qed.

(** Comparison of canonical mantissas is comparison of the values. *)
Lemma compare_pos m1 e1 a m2 e2 b :
  Zpos (digits2_pos m1) = prec -> Zpos (digits2_pos m2) = prec ->
  e1 <= 0 -> e2 <= 0 ->
  Zpos m1 = a * 2 ^ (- e1) -> Zpos m2 = b * 2 ^ (- e2) ->
  (match Z.compare e1 e2 with Lt => Lt | Gt => Gt | Eq => Pos.compare_cont Eq m1 m2 end)
  = (a ?= b).
Proof.
  intros D1 D2 H1 H2 V1 V2.
  pose proof (digits2_pos_bounds m1) as B1. pose proof (digits2_pos_bounds m2) as B2.
  rewrite D1 in B1. rewrite D2 in B2.
  assert (P1 : 0 < 2 ^ (- e1)) by (apply Z.pow_pos_nonneg; lia).
  assert (P2 : 0 < 2 ^ (- e2)) by (apply Z.pow_pos_nonneg; lia).
  assert (EQ : 2 ^ prec = 2 * 2 ^ (prec - 1)) by reflexivity.
  destruct (Z.compare_spec e1 e2) as [E|E|E].
  - subst e2. change (Pos.compare_cont Eq m1 m2) with (Pos.compare m1 m2).
    change (Pos.compare m1 m2) with (Zpos m1 ?= Zpos m2).
    rewrite V1, V2.
    destruct (Z.compare_spec (a * 2 ^ (- e1)) (b * 2 ^ (- e1))), (Z.compare_spec a b);
      reflexivity || nia.
  - symmetry. apply Z.compare_lt_iff.
    assert (E1 : 2 ^ (- e1) = 2 ^ (e2 - e1) * 2 ^ (- e2)).
    { rewrite <- Z.pow_add_r by lia. f_equal. lia. }
    apply (scaled_lt a b (2 ^ (- e2)) (2 ^ (e2 - e1)) (2 ^ (prec - 1)) P2);
      [apply (Z.pow_le_mono_r 2 1); lia | rewrite <- E1; lia | lia].
  - symmetry. apply Z.compare_gt_iff.
    assert (E1 : 2 ^ (- e2) = 2 ^ (e1 - e2) * 2 ^ (- e1)).
    { rewrite <- Z.pow_add_r by lia. f_equal. lia. }
    apply (scaled_lt b a (2 ^ (- e1)) (2 ^ (e1 - e2)) (2 ^ (prec - 1)) P1);
      [apply (Z.pow_le_mono_r 2 1); lia | rewrite <- E1; lia | lia].
Qed.

Lemma compare_of_Z a b :
  safe a -> safe b -> SFcompare (Num.of_Z a) (Num.of_Z b) = Some (a ?= b).
Proof.
  intros Ha Hb. of_Z_cases a s1 m1 e1; of_Z_cases b s2 m2 e2.
  - reflexivity.
  - rewrite Es2. cbn -[Z.compare]. subst s2. destruct (Z.ltb_spec b 0), (Z.compare_spec 0 b); lia || reflexivity.
  - rewrite Es1. cbn -[Z.compare]. subst s1. destruct (Z.ltb_spec a 0), (Z.compare_spec a 0); lia || reflexivity.
  - rewrite Es1, Es2. cbn -[Z.compare].
    destruct s1, s2; cbn [cond_Zopp] in *; f_equal;
      symmetry in Sgs1, Sgs2; rewrite ?Z.ltb_lt, ?Z.ltb_ge in *.
    + rewrite <- (Z.compare_opp b a).
      rewrite <- (compare_pos m2 e2 (- b) m1 e1 (- a)) by (assumption || lia).
      rewrite (Z.compare_antisym e2 e1). destruct (e2 ?= e1); cbn; try reflexivity.
      symmetry. apply Pos.compare_antisym.
    + symmetry. apply Z.compare_lt_iff. lia.
    + symmetry. apply Z.compare_gt_iff. lia.
    + apply compare_pos; assumption || lia.
Qed.

Lemma ltb_of_Z a b : safe a -> safe b -> Num.ltb (Num.of_Z a) (Num.of_Z b) = (a <? b).
Proof. intros. unfold Num.ltb, SFltb. rewrite compare_of_Z by assumption. unfold Z.ltb. destruct (a ?= b); reflexivity. Qed.

Lemma leb_of_Z a b : safe a -> safe b -> Num.leb (Num.of_Z a) (Num.of_Z b) = (a <=? b).
Proof. intros. unfold Num.leb, SFleb. rewrite compare_of_Z by assumption. unfold Z.leb. destruct (a ?= b); reflexivity. Qed.

Lemma max_zero_of_Z a : safe a -> Num.max Num.zero (Num.of_Z a) = Num.of_Z (Z.max 0 a).
Proof.
  intros Ha. pose proof (ltb_of_Z 0 a ltac:(reflexivity) Ha) as L. change (Num.of_Z 0) with Num.zero in L.
  unfold Num.max. rewrite L. destruct a as [|p|p].
  - reflexivity.
  - change (Z.max 0 (Z.pos p)) with (Z.pos p). rewrite of_Z_pos by exact Ha. reflexivity.
  - rewrite of_Z_neg by exact Ha. reflexivity.
Qed.

Lemma min_of_Z a b : safe a -> safe b -> 0 < b -> Num.min (Num.of_Z a) (Num.of_Z b) = Num.of_Z (Z.min a b).
Proof.
  intros Ha Hb Pb. pose proof (ltb_of_Z b a Hb Ha) as L. unfold Num.min. rewrite L.
  destruct b as [|q|q]; try lia. rewrite (of_Z_pos q) in * by exact Hb.
  destruct (Z.ltb_spec (Z.pos q) a); [rewrite Z.min_r by lia; rewrite of_Z_pos by exact Hb|rewrite Z.min_l by lia];
    destruct a as [|p|p]; [reflexivity|rewrite of_Z_pos by exact Ha|rewrite of_Z_neg by exact Ha| | |]; try reflexivity.
  all: try (rewrite of_Z_pos by exact Ha; reflexivity). all: try (rewrite of_Z_neg by exact Ha; reflexivity).
Qed.

Lemma eqb_of_Z a b : safe a -> safe b -> Num.eqb (Num.of_Z a) (Num.of_Z b) = (a =? b).
Proof.
  intros. unfold Num.eqb, SFeqb. rewrite compare_of_Z by assumption.
  destruct (Z.compare_spec a b), (Z.eqb_spec a b); lia || reflexivity.
Qed.

Lemma mul_of_Z a b :
  safe a -> safe b -> safe (a * b) -> 0 <= a -> 0 <= b ->
  Num.mul (Num.of_Z a) (Num.of_Z b) = Num.of_Z (a * b).
Proof.
  intros Ha Hb Hab Pa Pb. of_Z_cases a s1 m1 e1; of_Z_cases b s2 m2 e2.
  - reflexivity.
  - rewrite Es2, Sgs2. destruct (Z.ltb_spec b 0); [lia|reflexivity].
  - rewrite Es1, Sgs1, Z.mul_0_r. destruct (Z.ltb_spec a 0); [lia|reflexivity].
  - rewrite Es1, Es2. destruct (Z.ltb_spec a 0), (Z.ltb_spec b 0); subst s1 s2; try lia.
    cbn [cond_Zopp] in *. unfold Num.mul, SFmul. cbn [xorb].
    destruct (a * b) as [|p|p] eqn:Ep; try nia.
    rewrite of_Z_pos by exact Hab. pose proof (canon_m_eq p Hab) as Cm.
    pose proof (small_digits p Hab) as Cd. unfold canon_e.
    set (d := Zpos (digits2_pos p)) in *. set (t := - (e1 + e2) - (prec - d)).
    assert (P : Zpos (m1 * m2) = Zpos p * 2 ^ (- (e1 + e2))).
    { rewrite Pos2Z.inj_mul, Vs1, Vs2, <- Ep.
      replace (- (e1 + e2)) with (- e1 + - e2) by lia. rewrite Z.pow_add_r by lia. ring. }
    assert (Ht : 0 <= t).
    { destruct (Z.le_gt_cases 0 t) as [|Hneg]; [assumption|exfalso].
      pose proof (digits2_pos_bounds m1) as B1. pose proof (digits2_pos_bounds m2) as B2.
      pose proof (digits2_pos_bounds (canon_m p)) as B3.
      rewrite Ds1 in B1. rewrite Ds2 in B2. rewrite canon_m_digits in B3 by exact Hab.
      assert (2 ^ (prec - 1) * 2 ^ (prec - 1) <= Zpos (m1 * m2)) by (rewrite Pos2Z.inj_mul; nia).
      assert (2 ^ prec <= 2 ^ (prec - 1) * 2 ^ (prec - 1)) by (vm_compute; discriminate).
      assert (2 ^ (- (e1 + e2)) <= 2 ^ (prec - d)) by (apply Z.pow_le_mono_r; lia). nia. }
    replace (Zpos (m1 * m2)) with (Zpos (canon_m p) * 2 ^ t).
    + rewrite round_aux_exact; [f_equal; lia|apply canon_m_digits, Hab|lia|].
      unfold t, emin, prec, emax in *. lia.
    + rewrite P, Cm, <- Z.mul_assoc, <- Z.pow_add_r by lia. f_equal. f_equal. lia.
Qed.

Lemma rem_of_Z a b :
  safe a -> safe b -> 0 <= a -> 0 < b ->
  Num.rem (Num.of_Z a) (Num.of_Z b) = Num.of_Z (a mod b).
Proof.
  intros Ha Hb Pa Pb. of_Z_cases a s1 m1 e1; of_Z_cases b s2 m2 e2; try lia.
  - rewrite Es2, Z.mod_0_l by lia. reflexivity.
  - rewrite Es1, Es2. destruct (Z.ltb_spec a 0), (Z.ltb_spec b 0); subst s1 s2; try lia.
    cbn [cond_Zopp] in *. unfold Num.rem. set (e := Z.min e1 e2).
    assert (V1 : Zpos m1 * 2 ^ (e1 - e) = a * 2 ^ (- e)).
    { rewrite Vs1, <- Z.mul_assoc, <- Z.pow_add_r by lia. f_equal. f_equal. lia. }
    assert (V2 : Zpos m2 * 2 ^ (e2 - e) = b * 2 ^ (- e)).
    { rewrite Vs2, <- Z.mul_assoc, <- Z.pow_add_r by lia. f_equal. f_equal. lia. }
    assert (Pe : 0 < 2 ^ (- e)) by (apply Z.pow_pos_nonneg; lia).
    rewrite V1, V2, Z.mul_mod_distr_r by lia.
    assert (Hm : safe (a mod b)).
    { unfold safe in *. pose proof (Z.mod_pos_bound a b Pb). lia. }
    cbn [cond_Zopp]. rewrite <- (binary_normalize_small (a mod b) (- e)) by (assumption || unfold prec in *; lia).
    rewrite Z.opp_involutive. destruct (a mod b * 2 ^ (- e)); reflexivity.
Qed.

(** [Math.round] leaves an integer alone. *)
Lemma round_of_Z n : safe n -> Num.round (Num.of_Z n) = Num.of_Z n.
Proof.
  intros Hn. of_Z_cases n s m e; [reflexivity|]. rewrite Es at 1. unfold Num.round.
  destruct (Z.leb_spec 0 e); [symmetry; exact Es|]. rewrite Vs.
  assert (P : 0 < 2 ^ (- e)) by (apply Z.pow_pos_nonneg; lia).
  replace ((2 * (n * 2 ^ (- e)) + 2 ^ (- e)) / (2 * 2 ^ (- e))) with n.
  - destruct n; [lia|reflexivity..].
  - apply Z.div_unique with (r := 2 ^ (- e)); [left; lia | ring].
Qed.

(** Equality of representations. *)
Definition same_num (x y : num) : bool :=
  match x, y with
  | S754_zero a, S754_zero b | S754_infinity a, S754_infinity b => Bool.eqb a b
  | S754_finite a m e, S754_finite b n f => Bool.eqb a b && Pos.eqb m n && Z.eqb e f
  | S754_nan, S754_nan => true
  | _, _ => false
  end.

Lemma same_num_eq x y : same_num x y = true -> x = y.
Proof.
  destruct x, y; cbn; try discriminate; rewrite ?andb_true_iff, ?Bool.eqb_true_iff, ?Pos.eqb_eq, ?Z.eqb_eq;
    intuition congruence.
Qed.

(** ** Division with rounding, then [Math.floor] *)

(** Rounding a quotient [q] of 53 or 54 digits, whatever the remainder: the
    result, rescaled to the exponent of [q], is [q] with at most its last bit
    cleared, or at most [q + 1]. *)
Lemma renormalize N e :
  2 ^ (prec - 1) <= N <= 2 ^ prec -> -200 <= e <= 100 ->
  exists R E, shr_fexp prec emax N e loc_Exact = (Build_shr_record (Zpos R) false false, E)
    /\ Zpos (digits2_pos R) = prec /\ e <= E <= e + 1
    /\ Zpos R * 2 ^ (E - e) = N.
Proof.
  intros HN He. destruct N as [|n|n]; try (cbn in HN; lia).
  unfold shr_fexp. cbn [Zdigits2 shr_record_of_loc].
  destruct (Z.eq_dec (Zpos n) (2 ^ prec)) as [E2|NE].
  - rewrite (digits2_pos_unique n (prec + 1)) by (unfold prec in *; lia).
    rewrite fexp_normal by (unfold emin, prec, emax; lia).
    replace (prec + 1 + e - prec - e) with 1 by lia.
    rewrite E2. exists (Z.to_pos (2 ^ 52)), (e + 1).
    split; [reflexivity|]. split; [reflexivity|]. split; [lia|].
    replace (e + 1 - e) with 1 by lia. reflexivity.
  - exists n, e. rewrite (digits2_pos_unique n prec) by (unfold prec in *; lia).
    rewrite fexp_normal by (unfold emin, prec, emax; lia).
    replace (prec + e - prec - e) with 0 by lia. split; [reflexivity|].
    split; [reflexivity|]. split; [lia|].
    rewrite Z.sub_diag. cbn. lia.
Qed.

Lemma round_nearest_even_bounds m l :
  m <= round_nearest_even m l <= m + 1 /\ (l = loc_Exact -> round_nearest_even m l = m).
Proof.
  destruct l as [|[]]; cbn; try (destruct (Z.even m)); split; try lia; intros; congruence || lia.
Qed.

Lemma round_aux_quotient q e l :
  2 ^ (prec - 1) <= Zpos q < 2 ^ (prec + 1) -> -200 <= e <= 0 ->
  exists R E, binary_round_aux prec emax false (Zpos q) e l = S754_finite false R E
    /\ Zpos (digits2_pos R) = prec /\ e <= E
    /\ 2 * (Zpos q / 2) <= Zpos R * 2 ^ (E - e) <= Zpos q + 1
    /\ (Zpos q < 2 ^ prec -> Zpos q <= Zpos R * 2 ^ (E - e)).
Proof.
  intros Hq He. unfold binary_round_aux.
  set (t := if Zpos q <? 2 ^ prec then 0 else 1).
  assert (H1 : exists m r b, shr_fexp prec emax (Zpos q) e l = (Build_shr_record m r b, e + t)
            /\ (t = 0 -> m = Zpos q /\ Zpos q < 2 ^ prec)
            /\ (t = 1 -> Zpos q = 2 * m + (if r then 1 else 0) /\ 2 ^ prec <= Zpos q)).
  { unfold t, shr_fexp. cbn [Zdigits2]. destruct (Z.ltb_spec (Zpos q) (2 ^ prec)) as [Hlt|Hge].
    - rewrite (digits2_pos_unique q prec) by (unfold prec in *; lia).
      rewrite fexp_normal by (unfold emin, prec, emax; lia).
      replace (prec + e - prec - e) with 0 by lia. rewrite Z.add_0_r.
      destruct l as [|[]]; do 3 eexists; (split; [reflexivity|]); split; (lia || intros; split; lia).
    - rewrite (digits2_pos_unique q (prec + 1)) by (unfold prec in *; lia).
      rewrite fexp_normal by (unfold emin, prec, emax; lia).
      replace (prec + 1 + e - prec - e) with 1 by lia.
      destruct q as [q|q|]; [| |cbn in Hge; lia].
      all: destruct l as [|[]]; do 3 eexists; (split; [reflexivity|]); split; (lia || intros; split; lia). }
  destruct H1 as (m & r & b & -> & Ht0 & Ht1).
  assert (Ht : t = 0 \/ t = 1) by (unfold t; destruct (Zpos q <? 2 ^ prec); lia).
  clearbody t.
  pose proof (round_nearest_even_bounds m (loc_of_shr_record (Build_shr_record m r b))) as [HN HX].
  cbn [shr_m]. set (N := round_nearest_even m _) in *.
  assert (HNup : r = false -> t = 1 -> N = m) by (intros -> _; unfold N; destruct b; reflexivity).
  destruct (renormalize N (e + t)) as (R & E & EQ & D & HE & V); [|lia|].
  { destruct Ht as [-> | ->]; [destruct Ht0 | destruct Ht1]; try reflexivity; unfold prec in *;
      destruct r; lia. }
  rewrite EQ. cbn [shr_m]. exists R, E.
  destruct (Z.leb_spec E (emax - prec)); [|unfold emax, prec in *; lia].
  split; [reflexivity|]. split; [exact D|]. split; [lia|].
  replace (E - e) with (E - (e + t) + t) by lia. rewrite Z.pow_add_r by lia.
  rewrite Z.mul_assoc, V. pose proof (Z.div_mod (Zpos q) 2 ltac:(lia)).
  pose proof (Z.mod_pos_bound (Zpos q) 2 ltac:(lia)).
  destruct Ht as [-> | ->]; [destruct Ht0 | destruct Ht1]; try reflexivity.
  - change (2 ^ 0) with 1. lia.
  - change (2 ^ 1) with 2. destruct r; [|rewrite HNup by reflexivity]; lia.
Qed.

(** Scaling the Euclidean division of [a] by [b] to canonical mantissas. *)
Lemma quotient_bounds a b ma ea mb eb :
  0 < a -> 0 < b ->
  Zpos (digits2_pos ma) = prec -> Zpos (digits2_pos mb) = prec ->
  1 - prec <= ea <= 0 -> 1 - prec <= eb <= 0 ->
  Zpos ma = a * 2 ^ (- ea) -> Zpos mb = b * 2 ^ (- eb) ->
  let q := Zpos ma * 2 ^ prec / Zpos mb in
  let g := - (ea - eb - prec) in
  2 ^ (prec - 1) <= q < 2 ^ (prec + 1)
  /\ (a / b) * 2 ^ g <= q /\ q + 1 < (a / b + 1) * 2 ^ g.
Proof.
  intros Pa Pb Da Db Ra Rb Va Vb q g.
  pose proof (digits2_pos_bounds ma) as Ba. pose proof (digits2_pos_bounds mb) as Bb.
  rewrite Da in Ba. rewrite Db in Bb. change (2 ^ prec) with (2 * 2 ^ (prec - 1)) in *.
  change (2 ^ (prec + 1)) with (4 * 2 ^ (prec - 1)).
  assert (Pw : 0 < 2 ^ (prec - 1)) by reflexivity. set (W := 2 ^ (prec - 1)) in *.
  pose proof (Z.div_mod (Zpos ma * (2 * W)) (Zpos mb) ltac:(lia)) as Hq. fold q in Hq.
  pose proof (Z.mod_pos_bound (Zpos ma * (2 * W)) (Zpos mb) ltac:(lia)) as Hr.
  set (r := (Zpos ma * (2 * W)) mod Zpos mb) in *.
  pose proof (Z.div_mod a b ltac:(lia)) as HK. pose proof (Z.mod_pos_bound a b Pb) as Hc.
  set (K := a / b) in *. set (c := a mod b) in *.
  assert (PX : 0 < 2 ^ (- ea)) by (apply Z.pow_pos_nonneg; lia).
  assert (Eg : 2 ^ g * Zpos mb = b * (2 ^ (- ea) * (2 * W))).
  { rewrite Vb. change (2 * W) with (2 ^ prec). rewrite <- Z.pow_add_r by (unfold prec; lia).
    replace (- ea + prec) with (g + - eb) by (unfold g; lia).
    rewrite Z.pow_add_r by (unfold g, prec in *; lia). ring. }
  set (G := 2 ^ g) in *. set (X := 2 ^ (- ea)) in *.
  assert (Q1 : Zpos ma * (2 * W) = a * (X * (2 * W))) by (rewrite Va; ring).
  split; [split; nia|]. split.
  - apply Z.lt_succ_r. apply (Z.mul_lt_mono_pos_r (Zpos mb)); [lia|].
    replace (K * G * Zpos mb) with (K * (G * Zpos mb)) by ring. rewrite Eg.
    assert (K * (b * (X * (2 * W))) <= a * (X * (2 * W))) by nia. nia.
  - apply (Z.mul_lt_mono_pos_r (Zpos mb)); [lia|].
    replace ((K + 1) * G * Zpos mb) with ((K + 1) * (G * Zpos mb)) by ring. rewrite Eg.
    assert ((a + 1) * (X * (2 * W)) <= (K + 1) * (b * (X * (2 * W)))) by nia. nia.
Qed.

Lemma quotient_scaled a b ma ea mb eb :
  0 < b -> 1 - prec <= ea <= 0 -> 1 - prec <= eb <= 0 ->
  Zpos ma = a * 2 ^ (- ea) -> Zpos mb = b * 2 ^ (- eb) ->
  let q := Zpos ma * 2 ^ prec / Zpos mb in
  let g := - (ea - eb - prec) in
  q * b <= a * 2 ^ g < (q + 1) * b.
Proof.
  intros Pb Ra Rb Va Vb q g.
  assert (PX : 0 < 2 ^ (- eb)) by (apply Z.pow_pos_nonneg; lia).
  pose proof (Z.div_mod (Zpos ma * 2 ^ prec) (Zpos mb) ltac:(lia)) as Hq. fold q in Hq.
  pose proof (Z.mod_pos_bound (Zpos ma * 2 ^ prec) (Zpos mb) ltac:(lia)) as Hr.
  assert (Eg : Zpos ma * 2 ^ prec = a * 2 ^ g * 2 ^ (- eb)).
  { rewrite Va, <- !Z.mul_assoc, <- !Z.pow_add_r by (unfold g, prec in *; lia).
    do 2 f_equal. unfold g. lia. }
  rewrite Eg in *. rewrite Vb in *. set (X := 2 ^ (- eb)) in *. split; nia.
Qed.

(** A normalised result that lies, scaled by [2^g], between [K] and [K + 1]
    has floor [K]. *)
Lemma floor_of_quotient R E g K :
  Zpos (digits2_pos R) = prec -> 1 <= g -> - g <= E -> 0 <= K < 2 ^ prec ->
  K * 2 ^ g <= Zpos R * 2 ^ (E + g) < (K + 1) * 2 ^ g ->
  Num.floor (S754_finite false R E) = Num.of_Z K.
Proof.
  intros D Hg HE HK HV. pose proof (digits2_pos_bounds R) as B. rewrite D in B.
  assert (P : 0 < 2 ^ g) by (apply Z.pow_pos_nonneg; lia).
  assert (HE0 : E <= 0).
  { destruct (Z.le_gt_cases E 0); [assumption|exfalso].
    assert (H2 : 2 * 2 ^ g <= 2 ^ (E + g))
      by (rewrite <- Z.pow_succ_r by lia; apply Z.pow_le_mono_r; lia).
    change (2 ^ prec) with (2 * 2 ^ (prec - 1)) in *.
    set (W := 2 ^ (prec - 1)) in *. set (G := 2 ^ g) in *. set (Y := 2 ^ (E + g)) in *.
    assert (W * (2 * G) <= Zpos R * Y) by nia. nia. }
  unfold Num.floor. destruct (Z.leb_spec 0 E) as [H0|H0].
  - assert (E = 0) as -> by lia. change (0 + g) with g in HV.
    assert (Zpos R = K) as <- by nia.
    rewrite of_Z_pos by (unfold small; lia). f_equal.
    + apply Pos2Z.inj. rewrite canon_m_eq by (unfold small; lia). rewrite D, Z.sub_diag. cbn. lia.
    + unfold canon_e. lia.
  - cbn [cond_Zopp]. replace (Zpos R / 2 ^ (- E)) with K.
    + destruct K; reflexivity.
    + assert (P2 : 0 < 2 ^ (E + g)) by (apply Z.pow_pos_nonneg; lia).
      replace (2 ^ g) with (2 ^ (- E) * 2 ^ (E + g)) in HV
        by (rewrite <- Z.pow_add_r by lia; f_equal; lia).
      apply Z.div_unique with (r := Zpos R - 2 ^ (- E) * K); [left|lia].
      set (X := 2 ^ (- E)) in *. set (Y := 2 ^ (E + g)) in *. split; nia.
Qed.

(** The rounded quotient of two positive integers: scaled by [2^g] it lies
    within one unit of the truncated quotient [q] of 53 or 54 bits. *)
Lemma div_of_Z a b :
  safe a -> safe b -> 0 < a -> 0 < b ->
  exists R E q g,
    Num.div (Num.of_Z a) (Num.of_Z b) = S754_finite false R E
    /\ Zpos (digits2_pos R) = prec /\ 1 <= g <= 106 /\ - g <= E
    /\ 2 ^ (prec - 1) <= q < 2 ^ (prec + 1)
    /\ q * b <= a * 2 ^ g < (q + 1) * b
    /\ 2 * (q / 2) <= Zpos R * 2 ^ (E + g) <= q + 1
    /\ (q < 2 ^ prec -> q <= Zpos R * 2 ^ (E + g))
    /\ (a / b) * 2 ^ g <= q /\ q + 1 < (a / b + 1) * 2 ^ g.
Proof.
  intros Ha Hb Pa Pb. of_Z_cases a s1 m1 e1; of_Z_cases b s2 m2 e2; try lia.
  rewrite Es1, Es2. destruct (Z.ltb_spec a 0), (Z.ltb_spec b 0); subst s1 s2; try lia.
  cbn [cond_Zopp] in *.
  destruct (quotient_bounds a b m1 e1 m2 e2) as (Hq & Hlo & Hhi); try (assumption || lia).
  destruct (quotient_scaled a b m1 e1 m2 e2) as (Hs1 & Hs2); try (assumption || lia).
  set (q := Zpos m1 * 2 ^ prec / Zpos m2) in *. set (g := - (e1 - e2 - prec)) in *.
  assert (Hg : 1 <= g <= 106) by (unfold g, prec in *; lia).
  unfold Num.div, SFdiv, SFdiv_core_binary. cbn [Zdigits2 xorb].
  rewrite Ds1, Ds2. rewrite fexp_normal by (unfold emin, prec, emax in *; lia).
  replace (Z.min (prec + e1 - (prec + e2) - prec) (e1 - e2)) with (- g) by (unfold g, prec; lia).
  replace (e1 - e2 - - g) with prec by (unfold g; lia).
  cbn [prec]. change 53 with prec. rewrite Z.shiftl_mul_pow2 by (unfold prec; lia).
  destruct (Z.div_eucl (Zpos m1 * 2 ^ prec) (Zpos m2)) as [q' r'] eqn:Eqr.
  assert (q' = q) as -> by (unfold q, Z.div; rewrite Eqr; reflexivity).
  destruct q as [|q|q]; try (cbn in Hq; lia).
  destruct (round_aux_quotient q (- g) (new_location (Zpos m2) r')) as (R & E & EQ & D & HE & V & V');
    [exact Hq|lia|].
  replace (E - - g) with (E + g) in V, V' by lia.
  exists R, E, (Zpos q), g. auto 15.
Qed.

(** [Math.floor(a / b)] is integer division, although [a / b] is rounded. *)
Lemma floor_div_of_Z a b :
  safe a -> safe b -> 0 <= a -> 0 < b ->
  Num.floor (Num.div (Num.of_Z a) (Num.of_Z b)) = Num.of_Z (a / b).
Proof.
  intros Ha Hb Pa Pb. destruct (Z.eq_dec a 0) as [-> |Na].
  { of_Z_cases b s2 m2 e2; [lia|]. rewrite Es2, Sgs2. destruct (Z.ltb_spec b 0); [lia|reflexivity]. }
  destruct (div_of_Z a b) as (R & E & q & g & -> & D & Hg & HE & Hq & _ & V & _ & Hlo & Hhi); try (assumption || lia).
  assert (HK : a / b * 2 ^ g <= Zpos R * 2 ^ (E + g) < (a / b + 1) * 2 ^ g).
  { replace g with (Z.succ (g - 1)) in Hlo at 1 by lia. rewrite Z.pow_succ_r in Hlo by lia.
    replace (2 ^ g) with (2 * 2 ^ (g - 1)) by (rewrite <- Z.pow_succ_r by lia; f_equal; lia).
    pose proof (Z.div_mod q 2 ltac:(lia)). pose proof (Z.mod_pos_bound q 2 ltac:(lia)).
    replace (2 ^ g) with (2 * 2 ^ (g - 1)) in Hhi by (rewrite <- Z.pow_succ_r by lia; f_equal; lia).
    set (G := 2 ^ (g - 1)) in *. set (K := a / b) in *. nia. }
  assert (0 <= a / b <= a) by (split; [apply Z.div_pos|apply Z.div_le_upper_bound]; nia).
  apply floor_of_quotient with (g := g); unfold safe in *; assumption || lia.
Qed.

#[export] Hint Rewrite add_of_Z sub_of_Z mul_of_Z rem_of_Z floor_div_of_Z ltb_of_Z leb_of_Z eqb_of_Z : jsnum.
