(* ===== verification/JsVal.v ===== *)
(** * JavaScript values

    The dynamically typed data the program passes around: configurations,
    price quotes, RPC replies, NFT records.  Objects are property lists in
    insertion order.  Reading a property of [undefined] or [null] throws, an
    absent property is [undefined], and the names of [Object.prototype] are
    present on every object, as in the language.

    Two approximations: strings are byte strings (ASCII case mapping), and
    object identity is not modelled, so [===] is used here with at least one
    primitive operand. *)

From Stdlib Require Import ZArith Bool List String Ascii.
From Stdlib Require Import Floats.SpecFloat.
From S2P Require Import Prelude JsNum.
Import ListNotations.
Local Open Scope string_scope.

Inductive jsval : Type :=
  | VUndef
  | VNull
  | VBool (b : bool)
  | VNum (n : num)
  | VStr (s : string)
  | VArr (l : list jsval)
  | VObj (o : list (string * jsval))
  | VFun (f : string).

(** A thrown [Error]: its [name], its [message] and further own properties. *)
Record jserr : Type := Err { e_name : string; e_msg : string; e_props : list (string * jsval) }.

Definition Error (msg : string) : jserr := Err "Error" msg [].
Definition TypeError (msg : string) : jserr := Err "TypeError" msg [].
Definition ReferenceError (msg : string) : jserr := Err "ReferenceError" msg [].

(** [String(error)], the form a template literal prints. *)
Definition err_to_string (e : jserr) : string :=
  match e_msg e with EmptyString => e_name e | m => e_name e ++ ": " ++ m end.

(** Completion of a computation: a value or a thrown error. *)
Inductive result (A : Type) : Type :=
  | Ok (a : A)
  | Throw (e : jserr).
Arguments Ok {A} a.
Arguments Throw {A} e.

Definition res_bind {A B} (r : result A) (k : A -> result B) : result B :=
  match r with Ok a => k a | Throw e => Throw e end.

(** [arr.map(f)] and [arr.filter(f)] with a callback that may throw. *)
Fixpoint map_result {A B} (f : A -> result B) (l : list A) : result (list B) :=
  match l with
  | [] => Ok []
  | x :: l' => res_bind (f x) (fun y => res_bind (map_result f l') (fun ys => Ok (y :: ys)))
  end.

Fixpoint filter_result {A} (f : A -> result bool) (l : list A) : result (list A) :=
  match l with
  | [] => Ok []
  | x :: l' => res_bind (f x) (fun b => res_bind (filter_result f l') (fun ys => Ok (if b then x :: ys else ys)))
  end.

(** [arr.some(f)] and [arr.every(f)] stop at the first answer. *)
Fixpoint some_result {A} (f : A -> result bool) (l : list A) : result bool :=
  match l with
  | [] => Ok false
  | x :: l' => res_bind (f x) (fun b => if b then Ok true else some_result f l')
  end.

Fixpoint every_result {A} (f : A -> result bool) (l : list A) : result bool :=
  match l with
  | [] => Ok true
  | x :: l' => res_bind (f x) (fun b => if b then every_result f l' else Ok false)
  end.

(** ** Booleans *)

Definition truthy (v : jsval) : bool :=
  match v with
  | VUndef | VNull => false
  | VBool b => b
  | VNum n => negb (Num.is_nan n || Num.eqb n Num.zero)
  | VStr s => negb (s =? EmptyString)
  | VArr _ | VObj _ | VFun _ => true
  end.

Definition nullish (v : jsval) : bool :=
  match v with VUndef | VNull => true | _ => false end.

(** [a || b] and [a ?? b]. *)
Definition js_or (a b : jsval) : jsval := if truthy a then a else b.
Definition js_coalesce (a b : jsval) : jsval := if nullish a then b else a.

(** [a === b]. *)
Definition strict_eq (a b : jsval) : bool :=
  match a, b with
  | VUndef, VUndef | VNull, VNull => true
  | VBool x, VBool y => Bool.eqb x y
  | VNum x, VNum y => Num.eqb x y
  | VStr x, VStr y => x =? y
  | _, _ => false
  end.

Definition is_str (v : jsval) (s : string) : bool := strict_eq v (VStr s).

(** ** Properties *)

Definition own (o : list (string * jsval)) (k : string) : option jsval :=
  assoc String.eqb k o.

(** The names every object inherits from [Object.prototype]. *)
Definition object_prototype : list string :=
  ["constructor"; "hasOwnProperty"; "isPrototypeOf"; "propertyIsEnumerable";
   "toLocaleString"; "toString"; "valueOf"; "__defineGetter__";
   "__defineSetter__"; "__lookupGetter__"; "__lookupSetter__"; "__proto__"].

Definition inherited (k : string) : jsval :=
  if mem_string k object_prototype then VFun k else VUndef.

Definition obj_get (o : list (string * jsval)) (k : string) : jsval :=
  match own o k with Some v => v | None => inherited k end.

Definition obj_set (k : string) (v : jsval) (o : list (string * jsval)) :=
  assoc_set String.eqb k v o.

(** [{...a, ...b}]: the properties of [b] override those of [a]. *)
Definition obj_spread (a b : list (string * jsval)) : list (string * jsval) :=
  fold_left (fun acc '(k, v) => obj_set k v acc) b a.

(** What spreading a value contributes; primitives other than strings
    contribute nothing. *)
Definition spread_props (v : jsval) : list (string * jsval) :=
  match v with VObj o => o | _ => [] end.

Definition cannot_read (what k : string) : jserr :=
  TypeError ("Cannot read properties of " ++ what ++ " (reading '" ++ k ++ "')").

(** [v.k]. *)
Definition get (v : jsval) (k : string) : result jsval :=
  match v with
  | VUndef => Throw (cannot_read "undefined" k)
  | VNull => Throw (cannot_read "null" k)
  | VObj o => Ok (obj_get o k)
  | VStr s => Ok (if k =? "length" then VNum (Num.of_Z (Z.of_nat (String.length s)))
                  else inherited k)
  | VArr l => Ok (if k =? "length" then VNum (Num.of_Z (Z.of_nat (List.length l)))
                  else inherited k)
  | VBool _ | VNum _ | VFun _ => Ok (inherited k)
  end.

(** [v?.k]. *)
Definition get_opt (v : jsval) (k : string) : jsval :=
  match get v k with Ok x => x | Throw _ => VUndef end.

(** [l[i]] of an array. *)
Definition nth_val (l : list jsval) (i : nat) : jsval := nth i l VUndef.

(** ** Conversions *)

Fixpoint to_str (v : jsval) : string :=
  match v with
  | VUndef => "undefined"
  | VNull => "null"
  | VBool true => "true"
  | VBool false => "false"
  | VNum n => Num.to_string n
  | VStr s => s
  | VArr l =>
      join "," (map (fun x => match x with VUndef | VNull => EmptyString | _ => to_str x end) l)
  | VObj _ => "[object Object]"
  | VFun f => "function " ++ f ++ "() { [native code] }"
  end.

Definition is_digit (c : ascii) : bool :=
  let n := nat_of_ascii c in ((48 <=? n) && (n <=? 57))%nat.

Definition is_space (c : ascii) : bool :=
  let n := nat_of_ascii c in ((n =? 32) || ((9 <=? n) && (n <=? 13)))%nat.

Fixpoint trim_left (s : string) : string :=
  match s with
  | String c s' => if is_space c then trim_left s' else s
  | EmptyString => EmptyString
  end.

Fixpoint rev_string (s acc : string) : string :=
  match s with EmptyString => acc | String c s' => rev_string s' (String c acc) end.

Definition trim (s : string) : string :=
  rev_string (trim_left (rev_string (trim_left s) EmptyString)) EmptyString.

(** A run of digits: its value, its length and the rest of the string. *)
Fixpoint take_digits (s : string) (acc : Z) (k : nat) : Z * nat * string :=
  match s with
  | String c s' =>
      if is_digit c
      then take_digits s' (10 * acc + Z.of_nat (nat_of_ascii c - 48))%Z (S k)
      else (acc, k, s)
  | EmptyString => (acc, k, s)
  end.

(** The exponent part [e+nn]; absent or malformed, it contributes 0 and the
    string is left alone. *)
Definition take_exponent (s : string) : Z * string :=
  match s with
  | String c s1 =>
      if (Ascii.eqb c "e" || Ascii.eqb c "E") then
        let '(neg, s2) :=
          match s1 with
          | String "-" r => (true, r)
          | String "+" r => (false, r)
          | _ => (false, s1)
          end in
        let '(v, k, r) := take_digits s2 0 0 in
        match k with
        | O => (0%Z, s)
        | _ => ((if neg then - v else v)%Z, r)
        end
      else (0%Z, s)
  | EmptyString => (0%Z, s)
  end.

Definition signed (neg : bool) (x : num) : num := if neg then Num.opp x else x.

(** The longest decimal literal at the front of [s], with what follows it. *)
Definition take_decimal (s : string) : option (num * string) :=
  let '(neg, s0) :=
    match s with
    | String "-" r => (true, r)
    | String "+" r => (false, r)
    | _ => (false, s)
    end in
  if startsWith s0 "Infinity" then Some (signed neg Num.infinity, drop_string 8 s0)
  else
    let '(i, ki, s1) := take_digits s0 0 0 in
    let '(v, kf, s2) :=
      match s1 with
      | String "." r => take_digits r i 0
      | _ => (i, O, s1)
      end in
    match (ki + kf)%nat with
    | O => None
    | _ =>
        let '(ex, s3) := take_exponent s2 in
        Some (signed neg (Num.of_decimal v (ex - Z.of_nat kf)), s3)
    end.

(** [parseFloat]. *)
Definition parseFloat (s : string) : num :=
  match take_decimal (trim_left s) with Some (n, _) => n | None => Num.nan end.

Definition digit_val (c : ascii) : Z :=
  let n := Z.of_nat (nat_of_ascii c) in
  if ((48 <=? n) && (n <=? 57))%Z then (n - 48)%Z
  else if ((97 <=? n) && (n <=? 102))%Z then (n - 87)%Z
  else if ((65 <=? n) && (n <=? 70))%Z then (n - 55)%Z
  else 99%Z.

Fixpoint radix_digits (r : Z) (s : string) (acc : Z) : option Z :=
  match s with
  | EmptyString => Some acc
  | String c s' =>
      if (digit_val c <? r)%Z then radix_digits r s' (r * acc + digit_val c)%Z else None
  end.

Definition radix_literal (s : string) : option num :=
  let go r := match drop_string 2 s with
              | EmptyString => Some Num.nan
              | d => match radix_digits r d 0 with
                     | Some z => Some (Num.of_Z z)
                     | None => Some Num.nan
                     end
              end in
  match toLowerCase (take_string 2 s) with
  | "0x" => go 16%Z
  | "0o" => go 8%Z
  | "0b" => go 2%Z
  | _ => None
  end.

(** [Number(s)]. *)
Definition string_to_num (s : string) : num :=
  match trim s with
  | EmptyString => Num.zero
  | t => match radix_literal t with
         | Some n => n
         | None => match take_decimal t with
                   | Some (n, EmptyString) => n
                   | _ => Num.nan
                   end
         end
  end.

(** [parseInt(s)]: the longest run of digits at the front. *)
Fixpoint take_radix (r : Z) (s : string) (acc : Z) (k : nat) : Z * nat :=
  match s with
  | String c s' => if (digit_val c <? r)%Z then take_radix r s' (r * acc + digit_val c)%Z (S k) else (acc, k)
  | EmptyString => (acc, k)
  end.

Definition parseInt (s : string) : num :=
  let '(neg, s0) :=
    match trim_left s with
    | String "-" r => (true, r)
    | String "+" r => (false, r)
    | r => (false, r)
    end in
  let '(v, k) := if startsWith (toLowerCase s0) "0x" then take_radix 16 (drop_string 2 s0) 0 0 else take_radix 10 s0 0 0 in
  match k with O => Num.nan | _ => signed neg (Num.of_Z v) end.

Definition to_num (v : jsval) : num :=
  match v with
  | VUndef => Num.nan
  | VNull => Num.zero
  | VBool b => if b then Num.of_Z 1 else Num.zero
  | VNum n => n
  | VStr s => string_to_num s
  | VArr _ => string_to_num (to_str v)
  | VObj _ | VFun _ => Num.nan
  end.

Definition is_primitive (v : jsval) : bool :=
  match v with VArr _ | VObj _ | VFun _ => false | _ => true end.

Definition to_primitive (v : jsval) : jsval :=
  if is_primitive v then v else VStr (to_str v).

(** ** Operators *)

(** [a + b]. *)
Definition js_add (a b : jsval) : jsval :=
  match to_primitive a, to_primitive b with
  | VStr x, y => VStr (x ++ to_str y)
  | x, VStr y => VStr (to_str x ++ y)
  | x, y => VNum (Num.add (to_num x) (to_num y))
  end.

Definition js_sub (a b : jsval) : jsval := VNum (Num.sub (to_num a) (to_num b)).
Definition js_mul (a b : jsval) : jsval := VNum (Num.mul (to_num a) (to_num b)).
Definition js_div (a b : jsval) : jsval := VNum (Num.div (to_num a) (to_num b)).

(** [a < b] and its variants: strings compare by code units, everything else
    as numbers. *)
Definition js_lt (a b : jsval) : bool :=
  match to_primitive a, to_primitive b with
  | VStr x, VStr y => match String.compare x y with Lt => true | _ => false end
  | x, y => Num.ltb (to_num x) (to_num y)
  end.

Definition js_le (a b : jsval) : bool :=
  match to_primitive a, to_primitive b with
  | VStr x, VStr y => match String.compare x y with Gt => false | _ => true end
  | x, y => Num.leb (to_num x) (to_num y)
  end.

Definition js_gt (a b : jsval) : bool := js_lt b a.
Definition js_ge (a b : jsval) : bool := js_le b a.

(** [v.toString()] where the receiver is written [v]. *)
Definition call_toString (v : jsval) : result string :=
  match v with
  | VUndef => Throw (cannot_read "undefined" "toString")
  | VNull => Throw (cannot_read "null" "toString")
  | _ => Ok (to_str v)
  end.

(** ** Methods on dynamically typed receivers

    [expr] is the text of the receiver, which the engine quotes in its error
    message. *)

Definition not_a_function (expr : string) : jserr := TypeError (expr ++ " is not a function").

(** [recv.includes(x)]: membership in an array, substring of a string. *)
Definition call_includes (expr : string) (recv : jsval) (x : string) : result bool :=
  match recv with
  | VArr l => Ok (existsb (fun v => is_str v x) l)
  | VStr s => Ok (includes s x)
  | VUndef => Throw (cannot_read "undefined" "includes")
  | VNull => Throw (cannot_read "null" "includes")
  | _ => Throw (not_a_function (expr ++ ".includes"))
  end.

(** The array a [forEach], [map], [filter], [find] or [reduce] call runs on. *)
Definition as_array (expr meth : string) (recv : jsval) : result (list jsval) :=
  match recv with
  | VArr l => Ok l
  | VUndef => Throw (cannot_read "undefined" meth)
  | VNull => Throw (cannot_read "null" meth)
  | _ => Throw (not_a_function (expr ++ "." ++ meth))
  end.

(** The string a [String.prototype] method runs on. *)
Definition as_string (expr meth : string) (recv : jsval) : result string :=
  match recv with
  | VStr s => Ok s
  | VUndef => Throw (cannot_read "undefined" meth)
  | VNull => Throw (cannot_read "null" meth)
  | _ => Throw (not_a_function (expr ++ "." ++ meth))
  end.

(** The number a [toFixed] call runs on. *)
Definition as_number (expr meth : string) (recv : jsval) : result num :=
  match recv with
  | VNum n => Ok n
  | VUndef => Throw (cannot_read "undefined" meth)
  | VNull => Throw (cannot_read "null" meth)
  | _ => Throw (not_a_function (expr ++ "." ++ meth))
  end.

(** [const { k } = v], where the engine quotes the text [expr] of [v]. *)
Definition destructure_of (expr : string) (v : jsval) (k : string) : result jsval :=
  match v with
  | VUndef => Throw (TypeError ("Cannot destructure property '" ++ k ++
                "' of '" ++ expr ++ "' as it is undefined."))
  | VNull => Throw (TypeError ("Cannot destructure property '" ++ k ++
                "' of '" ++ expr ++ "' as it is null."))
  | _ => get v k
  end.

(** The same for an expression that is not a variable. *)
Definition destructure : jsval -> string -> result jsval := destructure_of "(intermediate value)".

(** [s.charAt(i)]: the index is truncated, and no character is outside the string. *)
Definition charAt (s : string) (i : num) : string :=
  if Num.is_nan i then substring 0 1 s
  else match (if Num.ltb i Num.zero then option_map Z.opp (Num.floorZ (Num.opp i)) else Num.floorZ i) with
       | Some z => if (z <? 0)%Z then EmptyString else substring (Z.to_nat z) 1 s
       | None => EmptyString
       end.

(** An object literal [{ k: v.src, ... }] of several properties of [v]. *)
Definition select_fields (v : jsval) (fields : list (string * string)) : result jsval :=
  match fields with
  | [] => Ok (VObj [])
  | (_, src) :: _ => res_bind (get v src) (fun _ => Ok (VObj (map (fun '(k, src) => (k, get_opt v src)) fields)))
  end.

(** A parameter with a default: taken when the argument is [undefined]. *)
Definition default (v d : jsval) : jsval :=
  match v with VUndef => d | _ => v end.

(** [new Error(v)]. *)
Definition error_of (v : jsval) : jserr :=
  Error (match v with VUndef => EmptyString | _ => to_str v end).

(** ** JSON.stringify *)

Definition dquote : ascii := "034".

Definition hex_char (n : nat) : ascii :=
  if (n <? 10)%nat then ascii_of_nat (48 + n) else ascii_of_nat (87 + n).

Fixpoint json_escape (s : string) : string :=
  match s with
  | EmptyString => EmptyString
  | String c s' =>
      let n := nat_of_ascii c in
      if (n =? 34)%nat then String "\" (String dquote (json_escape s'))
      else if (n =? 92)%nat then String "\" (String "\" (json_escape s'))
      else if (n =? 8)%nat then "\b" ++ json_escape s'
      else if (n =? 9)%nat then "\t" ++ json_escape s'
      else if (n =? 10)%nat then "\n" ++ json_escape s'
      else if (n =? 12)%nat then "\f" ++ json_escape s'
      else if (n =? 13)%nat then "\r" ++ json_escape s'
      else if (n <? 32)%nat then
        "\u00" ++ String (hex_char (n / 16)) (String (hex_char (n mod 16)) (json_escape s'))
      else String c (json_escape s')
  end.

Definition json_quote (s : string) : string :=
  String dquote (json_escape s ++ String dquote EmptyString).

(** The text of a value; [None] for what JSON leaves out. *)
Fixpoint json (v : jsval) : option string :=
  match v with
  | VUndef | VFun _ => None
  | VNull => Some "null"
  | VBool true => Some "true"
  | VBool false => Some "false"
  | VNum n => Some (if Num.is_finite n then Num.to_string n else "null")
  | VStr s => Some (json_quote s)
  | VArr l =>
      Some ("[" ++ join "," (map (fun x => match json x with Some t => t | None => "null" end) l) ++ "]")
  | VObj o =>
      Some ("{" ++ join "," (flat_map (fun '(k, x) =>
              match json x with Some t => [json_quote k ++ ":" ++ t] | None => [] end) o) ++ "}")
  end.

Definition stringify (v : jsval) : jsval :=
  match json v with Some t => VStr t | None => VUndef end.

Definition vnum (z : Z) : jsval := VNum (Num.of_Z z).

(** An error as a caught value. *)
Definition err_obj (e : jserr) : jsval :=
  VObj ([("name", VStr (e_name e)); ("message", VStr (e_msg e))] ++ e_props e).

(** ** Facts *)

Lemma own_set_same k v o : own (obj_set k v o) k = Some v.
Proof. apply assoc_set_same, String.eqb_spec. Qed.

Lemma own_set_other k k' v o : k <> k' -> own (obj_set k v o) k' = own o k'.
Proof. apply assoc_set_other, String.eqb_spec. Qed.

Lemma obj_get_set_same k v o : obj_get (obj_set k v o) k = v.
Proof. unfold obj_get. rewrite own_set_same. reflexivity. Qed.

Lemma obj_get_set_other k k' v o : k <> k' -> obj_get (obj_set k v o) k' = obj_get o k'.
Proof. intros N. unfold obj_get. rewrite own_set_other by exact N. reflexivity. Qed.

(** A callback that does not throw. *)
Lemma map_result_ok {A B} (f : A -> result B) (g : A -> B) l :
  Forall (fun x => f x = Ok (g x)) l -> map_result f l = Ok (map g l).
Proof. induction 1 as [|x l Hx _ IH]; cbn [map_result map]; [reflexivity|]. rewrite Hx. cbn [res_bind]. rewrite IH. reflexivity. Qed.

Lemma filter_result_ok {A} (f : A -> result bool) (g : A -> bool) l :
  Forall (fun x => f x = Ok (g x)) l -> filter_result f l = Ok (filter g l).
Proof. induction 1 as [|x l Hx _ IH]; cbn [filter_result filter]; [reflexivity|]. rewrite Hx. cbn [res_bind]. rewrite IH. reflexivity. Qed.

Lemma some_result_ok {A} (f : A -> result bool) (g : A -> bool) l :
  Forall (fun x => f x = Ok (g x)) l -> some_result f l = Ok (existsb g l).
Proof. induction 1 as [|x l Hx _ IH]; cbn [some_result existsb]; [reflexivity|]. rewrite Hx. cbn [res_bind]. rewrite IH. destruct (g x); reflexivity. Qed.

Lemma every_result_ok {A} (f : A -> result bool) (g : A -> bool) l :
  Forall (fun x => f x = Ok (g x)) l -> every_result f l = Ok (forallb g l).
Proof. induction 1 as [|x l Hx _ IH]; cbn [every_result forallb]; [reflexivity|]. rewrite Hx. cbn [res_bind]. rewrite IH. destruct (g x); reflexivity. Qed.

Lemma is_str_spec v s : is_str v s = true <-> v = VStr s.
Proof.
  unfold is_str. destruct v; cbn; try (split; [discriminate|congruence]).
  rewrite String.eqb_eq. split; congruence.
Qed.

(** [charAt] gives one character of the string or none. *)
Lemma charAt_cases s i : charAt s i = EmptyString \/ exists n c, String.get n s = Some c /\ charAt s i = String c EmptyString.
Proof.
  assert (forall n, substring n 1 s = EmptyString \/ exists m c, String.get m s = Some c /\ substring n 1 s = String c EmptyString) as Sub.
  { intros n. revert n. induction s as [|c s IH]; intros [|n]; cbn [substring]; auto.
    - right. exists O, c. split; [reflexivity|]. destruct s; reflexivity.
    - destruct (IH n) as [E|(m & d & G & E)]; [left|right; exists (S m), d]; auto. }
  unfold charAt. destruct (Num.is_nan i); [apply Sub|].
  destruct (if Num.ltb i Num.zero then _ else _); [|auto]. destruct (z <? 0)%Z; auto.
Qed.

Lemma get_opt_ok v k x : get v k = Ok x -> get_opt v k = x.
Proof. unfold get_opt. intros ->. reflexivity. Qed.

Lemma destructure_ok v k x : destructure v k = Ok x -> get_opt v k = x.
Proof. unfold destructure. destruct v; cbn [destructure_of]; try discriminate; apply get_opt_ok. Qed.

Lemma js_or_str s d : s <> EmptyString -> js_or (VStr s) d = VStr s.
Proof.
  intros N. unfold js_or, truthy. apply String.eqb_neq in N. rewrite N. reflexivity.
Qed.

Lemma truthy_str s : truthy (VStr s) = negb (s =? EmptyString).
Proof. reflexivity. Qed.

(** Induction on values, through arrays and objects. *)
Lemma jsval_nested_ind (P : jsval -> Prop) :
  P VUndef -> P VNull -> (forall b, P (VBool b)) -> (forall n, P (VNum n)) -> (forall s, P (VStr s)) ->
  (forall l, Forall P l -> P (VArr l)) -> (forall o, Forall (fun x => P (snd x)) o -> P (VObj o)) -> (forall f, P (VFun f)) ->
  forall v, P v.
Proof.
  intros HU HN HB Hn HS HA HO HF. fix IH 1. intros [| |b|n|s|l|o|f];
    [exact HU|exact HN|apply HB|apply Hn|apply HS| | |apply HF].
  - apply HA. induction l as [|x l IHl]; constructor; [apply IH|exact IHl].
  - apply HO. induction o as [|[k x] o IHo]; constructor; [apply IH|assumption].
Qed.
