(* ===== verification/JsFormat.v ===== *)
(** * Decimal text of numbers

    What [toFixed] prints for a quotient [a / 10^f] of an integer amount (the
    way every amount of base units is shown in coins), and the thousands
    separators of [formatNumber]. *)

From Stdlib Require Import ZArith Bool Lia List String Ascii.
From Stdlib Require Import Floats.SpecFloat.
From S2P Require Import Prelude JsNum JsNumFacts JsVal.
Import ListNotations.
Local Open Scope Z_scope.

(** ** Decimal digits *)

Lemma digits_fixed_acc k n acc :
  Num.digits_fixed k n acc = (Num.digits_fixed k n EmptyString ++ acc)%string.
Proof.
  revert n acc. induction k as [|k IH]; intros n acc; [reflexivity|]. cbn [Num.digits_fixed].
  rewrite IH. rewrite (IH (n / 10) (String _ EmptyString)). rewrite append_assoc. reflexivity.
Qed.

Lemma length_digits_fixed k n : String.length (Num.digits_fixed k n EmptyString) = k.
Proof.
  revert n. induction k as [|k IH]; intros n; [reflexivity|]. cbn [Num.digits_fixed].
  rewrite digits_fixed_acc, length_append, IH. cbn. lia.
Qed.

(** The low [f] digits of [n], after the digits of [n / 10^f]. *)
Lemma digits_fixed_split j f n :
  Num.digits_fixed (f + j) n EmptyString
  = (Num.digits_fixed j (n / 10 ^ Z.of_nat f) EmptyString ++ Num.digits_fixed f n EmptyString)%string.
Proof.
  revert n. induction f as [|f IH]; intros n.
  - cbn [Nat.add Num.digits_fixed]. rewrite Z.pow_0_r, Z.div_1_r, append_nil_r. reflexivity.
  - cbn [Nat.add Num.digits_fixed]. rewrite digits_fixed_acc, IH, append_assoc.
    rewrite (digits_fixed_acc f (n / 10) (String _ _)). f_equal.
    rewrite Z.div_div by lia. rewrite Nat2Z.inj_succ, Z.pow_succ_r by lia. reflexivity.
Qed.

Lemma substring_append_l a b : substring 0 (String.length a) (a ++ b) = a.
Proof. induction a as [|c a IH]; cbn; [destruct b; reflexivity | rewrite IH; reflexivity]. Qed.

Lemma substring_full b : substring 0 (String.length b) b = b.
Proof. rewrite <- (append_nil_r b) at 2. apply substring_append_l. Qed.

Lemma substring_append_r a b : substring (String.length a) (String.length b) (a ++ b) = b.
Proof. induction a as [|c a IH]; cbn; [apply substring_full | exact IH]. Qed.

Lemma ndigits_aux_spec fuel k p n :
  (1 <= k)%nat -> p = 10 ^ Z.of_nat k -> 10 ^ (Z.of_nat k - 1) <= n < 2 ^ Z.of_nat fuel * p ->
  10 ^ (Z.of_nat (Num.ndigits_aux fuel k p n) - 1) <= n < 10 ^ Z.of_nat (Num.ndigits_aux fuel k p n).
Proof.
  revert k p. induction fuel as [|fuel IH]; intros k p Hk Hp Hn; cbn [Num.ndigits_aux].
  - rewrite Z.mul_1_l in Hn. subst p. exact Hn.
  - destruct (Z.ltb_spec n p) as [L|L]; [subst p; lia|].
    apply IH; [lia| |].
    + rewrite Nat2Z.inj_succ, Z.pow_succ_r by lia. lia.
    + rewrite Nat2Z.inj_succ in *. rewrite Z.pow_succ_r in Hn by lia.
      replace (Z.succ (Z.of_nat k) - 1) with (Z.of_nat k) by lia.
      assert (0 < 2 ^ Z.of_nat fuel) by (apply Z.pow_pos_nonneg; lia).
      assert (0 < p) by (subst p; apply Z.pow_pos_nonneg; lia). subst p. nia.
Qed.

Lemma ndigits_spec n :
  0 < n -> 10 ^ (Z.of_nat (Num.ndigits n) - 1) <= n < 10 ^ Z.of_nat (Num.ndigits n).
Proof.
  intros Hn. unfold Num.ndigits. apply ndigits_aux_spec; [lia|reflexivity|].
  pose proof (Z.log2_spec n Hn). pose proof (Z.log2_nonneg n).
  rewrite Nat2Z.inj_add, Z2Nat.id by assumption. change (Z.of_nat 1) with 1.
  change (1 - 1) with 0. rewrite Z.pow_0_r, <- Z.add_1_r in *. lia.
Qed.

Lemma ndigits_unique n k :
  10 ^ (Z.of_nat k - 1) <= n < 10 ^ Z.of_nat k -> (1 <= k)%nat -> Num.ndigits n = k.
Proof.
  intros Hk H1. assert (0 < 10 ^ (Z.of_nat k - 1)) by (apply Z.pow_pos_nonneg; lia).
  pose proof (ndigits_spec n ltac:(lia)) as Hn. set (d := Num.ndigits n) in *.
  destruct (Nat.lt_trichotomy d k) as [L|[E|L]]; [|exact E|].
  - assert (10 ^ Z.of_nat d <= 10 ^ (Z.of_nat k - 1)) by (apply Z.pow_le_mono_r; lia). lia.
  - assert (10 ^ Z.of_nat k <= 10 ^ (Z.of_nat d - 1)) by (apply Z.pow_le_mono_r; lia). lia.
Qed.

(** ** [toFixed] *)

(** The text of [a / 10^f]: the integer part, a point and [f] digits. *)
Definition decimal (a : Z) (f : nat) : string :=
  (Num.Z_to_string (a / 10 ^ Z.of_nat f) ++ "." ++ Num.digits_fixed f a EmptyString)%string.

Lemma decimal_digits a f :
  0 < a ->
  let k := Nat.max (Num.ndigits a) (S f) in
  let ds := Num.digits_fixed k a EmptyString in
  (substring 0 (k - f) ds ++ "." ++ substring (k - f) f ds)%string = decimal a f.
Proof.
  intros Ha k ds. assert (Hk : k = (f + (k - f))%nat) by lia.
  unfold ds. rewrite Hk at 2 4. rewrite digits_fixed_split.
  set (hi := Num.digits_fixed (k - f) _ _). set (lo := Num.digits_fixed f a _).
  assert (Lh : String.length hi = (k - f)%nat) by apply length_digits_fixed.
  assert (Ll : String.length lo = f) by apply length_digits_fixed.
  replace (substring 0 (k - f) (hi ++ lo)) with hi by (rewrite <- Lh; symmetry; apply substring_append_l).
  replace (substring (k - f) f (hi ++ lo)) with lo
    by (rewrite <- Lh; rewrite <- Ll at 1; symmetry; apply substring_append_r).
  unfold decimal. fold lo. f_equal. unfold hi.
  pose proof (ndigits_spec a Ha) as Hn. pose proof (Z.div_pos a (10 ^ Z.of_nat f) ltac:(lia) ltac:(apply Z.pow_pos_nonneg; lia)) as Hd.
  assert (P10 : 0 < 10 ^ Z.of_nat f) by (apply Z.pow_pos_nonneg; lia).
  destruct (Z.eq_dec (a / 10 ^ Z.of_nat f) 0) as [E0|N0].
  - rewrite E0. apply Z.div_small_iff in E0; [|lia].
    assert (Num.ndigits a <= f)%nat.
    { destruct (Nat.le_gt_cases (Num.ndigits a) f); [assumption|exfalso].
      assert (10 ^ Z.of_nat f <= 10 ^ (Z.of_nat (Num.ndigits a) - 1)) by (apply Z.pow_le_mono_r; lia). lia. }
    replace (k - f)%nat with 1%nat by lia. reflexivity.
  - assert (G : 10 ^ Z.of_nat f <= a).
    { destruct (Z.le_gt_cases (10 ^ Z.of_nat f) a); [assumption|exfalso]. apply N0, Z.div_small. lia. }
    assert (f < Num.ndigits a)%nat.
    { apply Nat2Z.inj_lt. apply (Z.pow_lt_mono_r_iff 10); lia. }
    replace (Num.Z_to_string (a / 10 ^ Z.of_nat f))
      with (Num.digits_fixed (Num.ndigits (a / 10 ^ Z.of_nat f)) (a / 10 ^ Z.of_nat f) EmptyString)
      by (unfold Num.Z_to_string; destruct (a / 10 ^ Z.of_nat f); [lia|reflexivity|lia]).
    f_equal. symmetry. apply ndigits_unique; [|lia].
    replace k with (Num.ndigits a) by lia. set (d := Num.ndigits a) in *.
    rewrite Nat2Z.inj_sub by lia.
    replace (10 ^ (Z.of_nat d - 1)) with (10 ^ (Z.of_nat d - Z.of_nat f - 1) * 10 ^ Z.of_nat f) in Hn
      by (rewrite <- Z.pow_add_r by lia; f_equal; lia).
    replace (10 ^ Z.of_nat d) with (10 ^ (Z.of_nat d - Z.of_nat f) * 10 ^ Z.of_nat f) in Hn
      by (rewrite <- Z.pow_add_r by lia; f_equal; lia).
    split; [apply Z.div_le_lower_bound|apply Z.div_lt_upper_bound]; lia.
Qed.

(** A quotient rounded to 53 bits, scaled back by [b], is nearest to [a]. *)
Lemma nearest_scaled a b R E q g :
  0 < b -> 0 < a < 2 ^ 51 ->
  0 <= E + g -> 1 <= g ->
  2 ^ 52 <= q < 2 ^ 54 -> q * b <= a * 2 ^ g < (q + 1) * b ->
  2 * (q / 2) <= R * 2 ^ (E + g) <= q + 1 -> (q < 2 ^ 53 -> q <= R * 2 ^ (E + g)) ->
  let '(A, B) := if 0 <=? E then (R * 2 ^ E, 1) else (R, 2 ^ (- E)) in
  0 < B /\ (2 * A * b + B) / (2 * B) = a /\ A * b <= (a + 1) * B.
Proof.
  intros Pb Pa HE Hg Hq Hs HV HV'. set (V := R * 2 ^ (E + g)) in *.
  assert (PG : 0 < 2 ^ g) by (apply Z.pow_pos_nonneg; lia). set (G := 2 ^ g) in *.
  assert (HQ : 2 * q * b < 2 ^ 52 * G) by nia.
  assert (Hb2 : 2 * b < G) by nia.
  assert (Hb3 : 2 ^ 53 <= q -> 4 * b < G) by nia.
  pose proof (Z.div_mod q 2 ltac:(lia)). pose proof (Z.mod_pos_bound q 2 ltac:(lia)).
  assert (Hlo : 2 * a * G - G <= 2 * V * b).
  { destruct (Z.lt_ge_cases q (2 ^ 53)) as [L|L]; [specialize (HV' L); nia|specialize (Hb3 L); nia]. }
  assert (Hhi : 2 * V * b < 2 * a * G + G) by nia.
  assert (Main : forall A B, 0 < B -> A * G = V * B ->
            0 < B /\ (2 * A * b + B) / (2 * B) = a /\ A * b <= (a + 1) * B).
  { intros A B PB EQ. split; [exact PB|].
    assert (H1 : 2 * a * B - B <= 2 * A * b).
    { apply (Z.mul_le_mono_pos_r _ _ G PG). apply (Z.mul_le_mono_pos_r _ _ B PB) in Hlo.
      replace (2 * A * b * G) with (2 * V * b * B) by (replace (2 * A * b * G) with (2 * b * (A * G)) by ring; rewrite EQ; ring). lia. }
    assert (H2 : 2 * A * b < 2 * a * B + B).
    { apply (Z.mul_lt_mono_pos_r G _ _ PG). apply (Z.mul_lt_mono_pos_r B _ _ PB) in Hhi.
      replace (2 * A * b * G) with (2 * V * b * B) by (replace (2 * A * b * G) with (2 * b * (A * G)) by ring; rewrite EQ; ring). lia. }
    split; [|nia]. symmetry. apply Z.div_unique with (r := 2 * A * b + B - 2 * B * a); [left|]; lia. }
  destruct (Z.leb_spec 0 E) as [L|L]; apply Main; try lia.
  - unfold V, G. rewrite Z.mul_1_r, Z.pow_add_r by lia. ring.
  - unfold V, G. rewrite <- Z.mul_assoc, <- Z.pow_add_r by lia. do 2 f_equal. lia.
Qed.

(** [(a / 10^f).toFixed(f)] prints [a / 10^f] exactly, below [2^51]. *)
Lemma to_fixed_div a f :
  0 <= a < 2 ^ 51 -> (1 <= f <= 15)%nat ->
  Num.to_fixed (Num.div (Num.of_Z a) (Num.of_Z (10 ^ Z.of_nat f))) f = decimal a f.
Proof.
  intros Ha Hf. set (b := 10 ^ Z.of_nat f).
  assert (Hb : 0 < b <= 10 ^ 15) by (unfold b; split; [apply Z.pow_pos_nonneg|apply Z.pow_le_mono_r]; lia).
  assert (Sb : safe b) by (unfold safe, prec; lia).
  destruct (Z.eq_dec a 0) as [-> |Na].
  { unfold b. clear -Hf. do 16 (destruct f as [|f]; [(exfalso; lia) || (vm_compute; reflexivity)|]). exfalso. lia. }
  destruct (div_of_Z a b) as (R & E & q & g & -> & D & Hg & HE & Hq & Hs & V & V' & _);
    try (unfold safe, prec in *; lia).
  pose proof (nearest_scaled a b (Zpos R) E q g) as HN. unfold prec in *.
  unfold Num.to_fixed, Num.abs_ratio.
  destruct (if 0 <=? E then (Z.pos R * 2 ^ E, 1) else (Z.pos R, 2 ^ (- E))) as [A B].
  destruct HN as (PB & Hn & Hlt); try (assumption || lia).
  assert (HA : A < B * 10 ^ 21) by nia.
  destruct (Z.leb_spec (B * 10 ^ 21) A); [lia|].
  fold b. rewrite Hn. destruct f as [|f]; [lia|]. apply decimal_digits. lia.
Qed.

(** ** Thousands separators

    [s.replace(/\B(?=(\d{3})+(?!\d))/g, ',')]: a comma goes before each digit
    that follows a word character and starts a run of digits whose length is
    a multiple of three. *)

Local Open Scope string_scope.

Definition is_word (c : ascii) : bool :=
  let n := nat_of_ascii c in
  is_digit c || ((65 <=? n) && (n <=? 90))%nat || ((97 <=? n) && (n <=? 122))%nat || (n =? 95)%nat.

Fixpoint digit_run (s : string) : nat :=
  match s with
  | String c s' => if is_digit c then S (digit_run s') else O
  | EmptyString => O
  end.

Fixpoint group_thousands (after_word : bool) (s : string) : string :=
  match s with
  | EmptyString => EmptyString
  | String c s' =>
      let run := digit_run s in
      let rest := String c (group_thousands (is_word c) s') in
      if after_word && (0 <? run)%nat && (run mod 3 =? 0)%nat then String "," rest else rest
  end.

Definition formatNumber (value : num) : string := group_thousands false (Num.to_string value).

Fixpoint remove_commas (s : string) : string :=
  match s with
  | EmptyString => EmptyString
  | String c s' => if Ascii.eqb c "," then remove_commas s' else String c (remove_commas s')
  end.

Lemma group_thousands_commas w s : remove_commas (group_thousands w s) = remove_commas s.
Proof.
  revert w. induction s as [|c s IH]; intros w; [reflexivity|]. cbn [group_thousands].
  destruct (w && _ && _)%bool; cbn [remove_commas]; change (Ascii.eqb "," ",") with true; cbv iota;
    rewrite IH; reflexivity.
Qed.

Example formatNumber_ex :
  map formatNumber [Num.of_Z 7; Num.of_Z 1000; Num.of_Z 21000000; Num.of_Z (-123456)]
  = ["7"; "1,000"; "21,000,000"; "-123,456"].
Proof. vm_compute. reflexivity. Qed.

(** Addition of safe integers in values. *)
Lemma js_add_vnum a b :
  safe a -> safe b -> safe (a + b)%Z -> js_add (vnum a) (vnum b) = vnum (a + b).
Proof. intros. unfold js_add, vnum. cbn. rewrite add_of_Z by assumption. reflexivity. Qed.
