(* ===== verification/JsJson.v ===== *)
(** * JSON.parse

    The JSON grammar on byte strings; recursion is bounded by the length of
    the text, every call consuming at least one character.  The text of the
    [SyntaxError] is the engine's and is not modelled. *)

From Stdlib Require Import ZArith Bool List String Ascii Lia.
From S2P Require Import Prelude JsNum JsVal.
Import ListNotations.
Local Open Scope string_scope.

Definition json_space (c : ascii) : bool :=
  let n := nat_of_ascii c in ((n =? 32) || (n =? 9) || (n =? 10) || (n =? 13))%nat.

Fixpoint skip_ws (s : string) : string :=
  match s with
  | String c s' => if json_space c then skip_ws s' else s
  | EmptyString => EmptyString
  end.

(** The UTF-8 bytes of the code unit [n]. *)
Definition utf8 (n : nat) (rest : string) : string :=
  if (n <? 128)%nat then String (ascii_of_nat n) rest
  else if (n <? 2048)%nat
  then String (ascii_of_nat (192 + n / 64)) (String (ascii_of_nat (128 + n mod 64)) rest)
  else String (ascii_of_nat (224 + n / 4096))
         (String (ascii_of_nat (128 + n / 64 mod 64)) (String (ascii_of_nat (128 + n mod 64)) rest)).

(** The rest of a string literal after its opening quote. *)
Fixpoint parse_string (fuel : nat) (s : string) : option (string * string) :=
  match fuel, s with
  | S f, String c s1 =>
      let n := nat_of_ascii c in
      let go pre r := match parse_string f r with
                      | Some (t, r') => Some (pre t, r')
                      | None => None
                      end in
      if (n =? 34)%nat then Some (EmptyString, s1)
      else if (n <? 32)%nat then None
      else if (n =? 92)%nat then
        match s1 with
        | String e s2 =>
            let m := nat_of_ascii e in
            if (m =? 34)%nat || (m =? 92)%nat || (m =? 47)%nat then go (String e) s2
            else if (m =? 98)%nat then go (String "008") s2
            else if (m =? 102)%nat then go (String "012") s2
            else if (m =? 110)%nat then go (String "010") s2
            else if (m =? 114)%nat then go (String "013") s2
            else if (m =? 116)%nat then go (String "009") s2
            else if (m =? 117)%nat then
              if (String.length s2 <? 4)%nat then None
              else match radix_digits 16 (take_string 4 s2) 0 with
                   | Some v => go (utf8 (Z.to_nat v)) (drop_string 4 s2)
                   | None => None
                   end
            else None
        | EmptyString => None
        end
      else go (String c) s1
  | _, _ => None
  end.

Definition parse_number (s : string) : option (num * string) :=
  let '(neg, s0) := match s with String "-" r => (true, r) | _ => (false, s) end in
  let '(i, ki, s1) := take_digits s0 0 0 in
  if (ki =? 0)%nat || ((1 <? ki)%nat && startsWith s0 "0") then None
  else
    match s1 with
    | String "." r =>
        let '(v, kf, s2) := take_digits r i 0 in
        if (kf =? 0)%nat then None
        else let '(ex, s3) := take_exponent s2 in
             Some (signed neg (Num.of_decimal v (ex - Z.of_nat kf)), s3)
    | _ => let '(ex, s3) := take_exponent s1 in Some (signed neg (Num.of_decimal i ex), s3)
    end.

Definition literal (s w : string) (v : jsval) : option (jsval * string) :=
  if startsWith s w then Some (v, drop_string (String.length w) s) else None.

Fixpoint parse_value (fuel : nat) (s : string) : option (jsval * string) :=
  match fuel with
  | O => None
  | S f =>
      let s := skip_ws s in
      match s with
      | EmptyString => None
      | String c r =>
          if Ascii.eqb c dquote then
            match parse_string (String.length r) r with Some (t, r') => Some (VStr t, r') | None => None end
          else if Ascii.eqb c "[" then
            match skip_ws r with
            | String "]" r' => Some (VArr [], r')
            | _ => parse_elements f r []
            end
          else if Ascii.eqb c "{" then
            match skip_ws r with
            | String "}" r' => Some (VObj [], r')
            | _ => parse_members f r []
            end
          else if Ascii.eqb c "t" then literal s "true" (VBool true)
          else if Ascii.eqb c "f" then literal s "false" (VBool false)
          else if Ascii.eqb c "n" then literal s "null" VNull
          else match parse_number s with Some (n, r') => Some (VNum n, r') | None => None end
      end
  end
with parse_elements (fuel : nat) (s : string) (acc : list jsval) : option (jsval * string) :=
  match fuel with
  | O => None
  | S f =>
      match parse_value f s with
      | None => None
      | Some (v, r) =>
          match skip_ws r with
          | String "," r' => parse_elements f r' (acc ++ [v])
          | String "]" r' => Some (VArr (acc ++ [v]), r')
          | _ => None
          end
      end
  end%list
with parse_members (fuel : nat) (s : string) (acc : list (string * jsval)) : option (jsval * string) :=
  match fuel with
  | O => None
  | S f =>
      match skip_ws s with
      | String q r =>
          if Ascii.eqb q dquote then
            match parse_string (String.length r) r with
            | None => None
            | Some (k, r1) =>
                match skip_ws r1 with
                | String ":" r2 =>
                    match parse_value f r2 with
                    | None => None
                    | Some (v, r3) =>
                        match skip_ws r3 with
                        | String "," r4 => parse_members f r4 (obj_set k v acc)
                        | String "}" r4 => Some (VObj (obj_set k v acc), r4)
                        | _ => None
                        end
                    end
                | _ => None
                end
            end
          else None
      | EmptyString => None
      end
  end.

Definition SyntaxError : jserr := Err "SyntaxError" "invalid JSON" [].

(** [JSON.parse(text)]. *)
Definition json_parse (text : string) : result jsval :=
  match parse_value (2 * String.length text + 2) text with
  | Some (v, r) => match skip_ws r with EmptyString => Ok v | _ => Throw SyntaxError end
  | None => Throw SyntaxError
  end.

Definition json_sample : jsval :=
  VObj [("a", VArr [vnum 1; VNum (Num.dec (-25) 1); VNull; VBool true]);
        ("b c", VStr (String dquote (String "\" (String "010" "x"))));
        ("n", VObj [("k", VStr EmptyString); ("e", VObj []); ("l", VArr [])])].

Example json_parse_ex :
  match stringify json_sample with VStr t => json_parse t | _ => Throw SyntaxError end = Ok json_sample
  /\ map json_parse ["01"; "1."; "[1,]"; "{"; "nul"; EmptyString] = repeat (Throw SyntaxError) 6
  /\ json_parse " 1e2 " = Ok (vnum 100).
Proof. repeat split; vm_compute; reflexivity. Qed.

(** ** Escaping round trip *)

(** Reading one escaped character consumes one unit of fuel. *)
Lemma parse_string_step c f rest :
  parse_string (S f) (json_escape (String c EmptyString) ++ rest)
  = match parse_string f rest with Some (t, r) => Some (String c t, r) | None => None end.
Proof. destruct c as [[] [] [] [] [] [] [] []]; reflexivity. Qed.

Lemma json_escape_cons c s : json_escape (String c s) = json_escape (String c EmptyString) ++ json_escape s.
Proof. destruct c as [[] [] [] [] [] [] [] []]; reflexivity. Qed.

(** A quoted string reads back as itself, whatever it contains. *)
Lemma parse_string_escape s f rest :
  (String.length s < f)%nat -> parse_string f (json_escape s ++ String dquote rest) = Some (s, rest).
Proof.
  revert f. induction s as [|c s IH]; intros [|f] Hf; cbn [String.length] in Hf; try lia; [reflexivity|].
  rewrite json_escape_cons, append_assoc, parse_string_step, IH by lia. reflexivity.
Qed.

Lemma json_escape_length s : (String.length s <= String.length (json_escape s))%nat.
Proof.
  induction s as [|c s IH]; [reflexivity|]. rewrite json_escape_cons, length_append.
  assert (1 <= String.length (json_escape (String c EmptyString)))%nat; [|cbn [String.length] in *; lia].
  apply Nat.leb_le. destruct c as [[] [] [] [] [] [] [] []]; reflexivity.
Qed.
