(* ===== verification/JsJsonText.v ===== *)
(** * JSON texts

    [JSON.stringify(value, null, gap)], with or without a gap, and what makes
    such a text a faithful copy: for values without [undefined] and
    functions, [JSON.parse] gives back the value that was printed. *)

From Stdlib Require Import ZArith Bool List String Ascii Lia.
From S2P Require Import Prelude JsNum JsNumFacts JsVal JsJson.
Import ListNotations.
Local Open Scope string_scope.

(** ** Printing *)

(** A line break and the indentation, nothing without a gap. *)
Definition line_break (gap ind : string) : string :=
  match gap with EmptyString => EmptyString | _ => String "010" ind end.

Definition colon (gap : string) : string := match gap with EmptyString => ":" | _ => ": " end.

(** The items of an array or object between its brackets. *)
Definition wrap (gap ind : string) (l r : string) (items : list string) : string :=
  match items with
  | [] => l ++ r
  | _ => l ++ line_break gap (ind ++ gap) ++ join ("," ++ line_break gap (ind ++ gap)) items ++ line_break gap ind ++ r
  end.

(** [SerializeJSONProperty]: [None] for what JSON leaves out. *)
Fixpoint json_gap (gap ind : string) (v : jsval) : option string :=
  match v with
  | VUndef | VFun _ => None
  | VNull => Some "null"
  | VBool true => Some "true"
  | VBool false => Some "false"
  | VNum n => Some (if Num.is_finite n then Num.to_string n else "null")
  | VStr s => Some (json_quote s)
  | VArr l =>
      Some (wrap gap ind "[" "]"
        (map (fun x => match json_gap gap (ind ++ gap) x with Some t => t | None => "null" end) l))
  | VObj o =>
      Some (wrap gap ind "{" "}"
        (flat_map (fun '(k, x) =>
           match json_gap gap (ind ++ gap) x with Some t => [json_quote k ++ colon gap ++ t] | None => [] end) o))
  end.

(** Without a gap this is the compact text. *)
Lemma wrap_compact ind l r items : wrap EmptyString ind l r items = l ++ join "," items ++ r.
Proof. unfold wrap. destruct items; reflexivity. Qed.

Lemma json_gap_compact ind v : json_gap EmptyString ind v = json v.
Proof.
  revert ind. induction v as [| |[]|n|s|l IH|o IH|f] using jsval_nested_ind; intros ind; try reflexivity; cbn [json_gap json].
  - rewrite wrap_compact. do 4 f_equal. induction IH as [|x l Hx _ IHl]; [reflexivity|]. cbn [map]. rewrite Hx, IHl. reflexivity.
  - rewrite wrap_compact. do 4 f_equal. induction IH as [|[k x] o Hx _ IHo]; [reflexivity|]. cbn [flat_map snd] in *. rewrite Hx, IHo. reflexivity.
Qed.

(** ** What reads back *)

(** A number whose text is read as the number. *)
Definition reads_back (n : num) : bool :=
  Num.is_finite n &&
  match parse_number (Num.to_string n) with Some (m, EmptyString) => same_num m n | _ => false end.

Fixpoint distinct (l : list string) : bool :=
  match l with [] => true | k :: l' => negb (mem_string k l') && distinct l' end.

Fixpoint clean (v : jsval) : bool :=
  match v with
  | VUndef | VFun _ => false
  | VNum n => reads_back n
  | VArr l => forallb clean l
  | VObj o => distinct (map fst o) && forallb (fun '(_, x) => clean x) o
  | _ => true
  end.

(** What may follow a number. *)
Definition number_char (c : ascii) : bool :=
  is_digit c || Ascii.eqb c "." || Ascii.eqb c "e" || Ascii.eqb c "E" || Ascii.eqb c "+" || Ascii.eqb c "-".
Definition delimited (rest : string) : bool :=
  match rest with EmptyString => true | String c _ => negb (number_char c) end.

(** *** Numbers are read locally *)

Lemma take_digits_app s rest acc k :
  delimited rest = true ->
  take_digits (s ++ rest) acc k = (let '(a, k', r) := take_digits s acc k in (a, k', r ++ rest)).
Proof.
  intros D. revert acc k. induction s as [|c s IH]; intros acc k; cbn [append take_digits].
  - destruct rest as [|c r]; [reflexivity|]. cbn [take_digits delimited number_char] in *. unfold number_char in D.
    destruct (is_digit c); [discriminate|reflexivity].
  - destruct (is_digit c); [apply IH|reflexivity].
Qed.

Lemma take_exponent_app s rest :
  delimited rest = true -> take_exponent (s ++ rest) = (let '(e, r) := take_exponent s in (e, r ++ rest)).
Proof.
  intros D. destruct s as [|c s]; cbn [append take_exponent].
  - destruct rest as [|c r]; [reflexivity|]. cbn [take_exponent]. cbn [delimited] in D. unfold number_char in D.
    destruct (Ascii.eqb c "e"), (Ascii.eqb c "E"); cbn [orb] in *; try reflexivity; rewrite ?orb_true_r in D; discriminate.
  - destruct (Ascii.eqb c "e" || Ascii.eqb c "E"); [|reflexivity].
    assert (forall neg r, (let '(v, k, r') := take_digits (r ++ rest) 0 0 in
              match k with O => (0%Z, String c (s ++ rest)) | S _ => ((if neg : bool then - v else v)%Z, r') end) =
            (let '(e, r') := (let '(v, k, r') := take_digits r 0 0 in
              match k with O => (0%Z, String c s) | S _ => ((if neg then - v else v)%Z, r') end) in (e, r' ++ rest))) as E.
    { intros neg r. rewrite take_digits_app by exact D. destruct (take_digits r 0 0) as [[v [|k]] r']; reflexivity. }
    destruct s as [|d s].
    + cbn [append]. specialize (E false EmptyString). cbn [append take_digits] in E |- *. rewrite <- E. clear E.
      destruct rest as [|d r]; [reflexivity|]. cbn [delimited] in D. unfold number_char in D.
      destruct d as [[] [] [] [] [] [] [] []]; try reflexivity; discriminate D.
    + cbn [append]. destruct (Ascii.eqb_spec d "-") as [->|N1]; [exact (E true s)|].
      destruct (Ascii.eqb_spec d "+") as [->|N2]; [exact (E false s)|].
      specialize (E false (String d s)). cbn [append] in E.
      destruct d as [[] [] [] [] [] [] [] []]; try exact E; congruence.
Qed.

Lemma parse_number_app s rest n :
  delimited rest = true -> parse_number s = Some (n, EmptyString) -> parse_number (s ++ rest) = Some (n, rest).
Proof.
  intros D. unfold parse_number.
  set (body neg s0 := let '(i, ki, s1) := take_digits s0 0 0 in
    if (ki =? 0)%nat || ((1 <? ki)%nat && startsWith s0 "0") then None
    else match s1 with
         | String "." r => let '(v, kf, s2) := take_digits r i 0 in
             if (kf =? 0)%nat then None
             else let '(ex, s3) := take_exponent s2 in Some (signed neg (Num.of_decimal v (ex - Z.of_nat kf)), s3)
         | _ => let '(ex, s3) := take_exponent s1 in Some (signed neg (Num.of_decimal i ex), s3)
         end).
  assert (forall neg s0, body neg s0 = Some (n, EmptyString) -> body neg (s0 ++ rest) = Some (n, rest)) as B.
  { intros neg s0. subst body. cbv beta. rewrite take_digits_app by exact D.
    destruct (take_digits s0 0 0) as [[i ki] s1] eqn:E0.
    assert (startsWith (s0 ++ rest) "0" = startsWith s0 "0" \/ ki = O) as [-> | ->]
      by (destruct s0 as [|c0 s0]; [right; cbn in E0; congruence|left; unfold startsWith; cbn; destruct (ascii_dec "0" c0), s0, rest; reflexivity]); [|discriminate].
    destruct ((ki =? 0)%nat || _); [discriminate|]. assert (forall x, (let '(ex, s3) := take_exponent s1 in
        Some (signed neg (Num.of_decimal (x ex) ex), s3)) = Some (n, EmptyString) ->
      (let '(ex, s3) := take_exponent (s1 ++ rest) in Some (signed neg (Num.of_decimal (x ex) ex), s3)) = Some (n, rest)) as X.
    { intros x. rewrite take_exponent_app by exact D. destruct (take_exponent s1) as [ex s3]. intros [= -> ->]. reflexivity. }
    destruct s1 as [|c s1].
    - specialize (X (fun _ => i)). cbn [append] in X |- *. intros R. specialize (X R).
      destruct rest as [|d r]; [exact X|]. cbn [delimited] in D. unfold number_char in D.
      destruct d as [[] [] [] [] [] [] [] []]; try exact X; discriminate D.
    - cbn [append] in *. destruct (Ascii.eqb_spec c ".") as [->|N].
      + rewrite take_digits_app by exact D. destruct (take_digits s1 i 0) as [[v kf] s2]. destruct (kf =? 0)%nat; [discriminate|].
        rewrite take_exponent_app by exact D. destruct (take_exponent s2) as [ex s3]. intros [= -> ->]. reflexivity.
      + specialize (X (fun _ => i)). destruct c as [[] [] [] [] [] [] [] []]; try exact X; congruence. }
  destruct s as [|c s].
  - intros R. discriminate R.
  - cbn [append]. destruct (Ascii.eqb_spec c "-") as [->|N]; [apply (B true)|].
    specialize (B false (String c s)). cbn [append] in B.
    destruct c as [[] [] [] [] [] [] [] []]; try exact B; congruence.
Qed.

(** *** Blanks *)

Fixpoint blank (s : string) : bool := match s with EmptyString => true | String c s' => json_space c && blank s' end.

Lemma skip_blank w s : blank w = true -> skip_ws (w ++ s) = skip_ws s.
Proof.
  induction w as [|c w IH]; cbn [blank append skip_ws]; [reflexivity|]. intros B. apply andb_prop in B. destruct B as [-> B]. auto.
Qed.

Lemma blank_append a b : blank a = true -> blank b = true -> blank (a ++ b) = true.
Proof. intros A B. induction a as [|c a IH]; cbn [append blank] in *; [exact B|]. apply andb_prop in A. destruct A as [-> A]. auto. Qed.

Lemma blank_break gap ind : blank ind = true -> blank (line_break gap ind) = true.
Proof. intros B. unfold line_break. destruct gap; [reflexivity|exact B]. Qed.

(** A text that starts with something other than a blank or a closing bracket. *)
Definition starts (s : string) : bool :=
  match s with EmptyString => false | String c _ => negb (json_space c || Ascii.eqb c "]" || Ascii.eqb c "}") end.

Lemma starts_skip s r : starts s = true -> skip_ws (s ++ r) = s ++ r.
Proof. destruct s as [|c s]; [discriminate|]. cbn. destruct (json_space c); [discriminate|reflexivity]. Qed.

(** The first character of a number. *)
Lemma parse_number_starts s n : parse_number s = Some n -> exists c r, s = String c r /\ (is_digit c = true \/ c = "-"%char).
Proof.
  destruct s as [|c s]; [discriminate|]. intros E. exists c, s. split; [reflexivity|].
  destruct (is_digit c) eqn:Dc; [auto|]. right. destruct (Ascii.eqb_spec c "-") as [|N]; [assumption|exfalso].
  unfold parse_number in E. assert (take_digits (String c s) 0 0 = (0%Z, O, String c s)) as T by (cbn [take_digits]; rewrite Dc; reflexivity).
  destruct c as [[] [] [] [] [] [] [] []]; try (rewrite T in E; discriminate E); congruence.
Qed.

Lemma starts_not_closing {A} s r (a : string -> A) b :
  starts s = true ->
  match s ++ r with String "]" r' => a r' | _ => b end = b /\ match s ++ r with String "}" r' => a r' | _ => b end = b.
Proof. destruct s as [|c s]; [discriminate|]. destruct c as [[] [] [] [] [] [] [] []]; split; try reflexivity; discriminate. Qed.

Lemma delimited_blank w c r : blank w = true -> number_char c = false -> delimited (w ++ String c r) = true.
Proof.
  intros B N. destruct w as [|d w]; cbn [append delimited]; [rewrite N; reflexivity|]. cbn [blank] in B. apply andb_prop in B.
  destruct B as [B _]. destruct d as [[] [] [] [] [] [] [] []]; reflexivity || discriminate B.
Qed.

Lemma colon_split gap : exists b, colon gap = String ":" b /\ blank b = true.
Proof. unfold colon. destruct gap; [exists EmptyString|exists " "]; split; reflexivity. Qed.

Lemma literal_app w v rest : literal (w ++ rest) w v = Some (v, rest).
Proof.
  unfold literal, startsWith. rewrite (proj2 (prefix_spec w (w ++ rest))) by (exists rest; reflexivity).
  rewrite drop_length_append. reflexivity.
Qed.

(** ** The round trip *)

Section RoundTrip.
Context (gap : string) (gap_blank : blank gap = true).

Definition text (ind : string) (v : jsval) : string := match json_gap gap ind v with Some t => t | None => "null" end.
Definition member (ind : string) (x : string * jsval) : string := json_quote (fst x) ++ colon gap ++ text ind (snd x).

Lemma clean_text ind v : clean v = true -> json_gap gap ind v = Some (text ind v).
Proof using Type. unfold text. destruct v as [| |[]| | | | |]; try discriminate; reflexivity. Qed.

Lemma array_text ind l : text ind (VArr l) = wrap gap ind "[" "]" (map (text (ind ++ gap)) l).
Proof using Type. reflexivity. Qed.

Lemma object_text ind o :
  forallb (fun '(_, x) => clean x) o = true -> text ind (VObj o) = wrap gap ind "{" "}" (map (member (ind ++ gap)) o).
Proof using Type.
  intros C. unfold text at 1. cbn [json_gap]. f_equal. induction o as [|[k x] o IH]; [reflexivity|].
  cbn [forallb] in C. apply andb_prop in C. destruct C as [Cx C]. cbn [flat_map map]. rewrite (clean_text _ _ Cx), (IH C). reflexivity.
Qed.

Lemma text_starts ind v : clean v = true -> starts (text ind v) = true.
Proof using Type.
  destruct v as [| |[]|n|s|l|o|f]; try discriminate; intros C; try reflexivity.
  - cbn [clean] in C. unfold reads_back in C. apply andb_prop in C. destruct C as [F C]. unfold text. cbn [json_gap]. rewrite F.
    destruct (parse_number (Num.to_string n)) eqn:E; [|discriminate]. apply parse_number_starts in E.
    destruct E as (c & r & -> & [D | ->]); [|reflexivity]. destruct c as [[] [] [] [] [] [] [] []]; reflexivity || discriminate D.
  - rewrite array_text. unfold wrap. destruct l; reflexivity.
  - cbn [clean] in C. apply andb_prop in C. rewrite object_text by apply C. unfold wrap. destruct o; reflexivity.
Qed.

(** Fuel that suffices. *)
Fixpoint need (v : jsval) : nat :=
  match v with
  | VArr l => S (list_sum (map (fun x => S (need x)) l))
  | VObj o => S (list_sum (map (fun '(_, x) => S (need x)) o))
  | _ => 1
  end.

Definition reads (v : jsval) : Prop :=
  clean v = true -> forall ind w rest f,
  blank ind = true -> blank w = true -> delimited rest = true -> (need v <= f)%nat ->
  parse_value f (w ++ text ind v ++ rest) = Some (v, rest).

Lemma comma_stays s : skip_ws (String "," s) = String "," s.
Proof using Type. reflexivity. Qed.

Lemma elements_read l ind brk brk2 rest :
  l <> [] -> Forall reads l -> forallb clean l = true -> blank ind = true -> blank brk = true -> blank brk2 = true ->
  forall acc f, (list_sum (map (fun x => S (need x)) l) <= f)%nat ->
  parse_elements f (brk ++ join ("," ++ brk) (map (text ind) l) ++ brk2 ++ String "]" rest) acc = Some (VArr (acc ++ l)%list, rest).
Proof using Type.
  intros N R C Bi Bb B2. induction R as [|x l Rx R IH]; [congruence|]. cbn [forallb] in C. apply andb_prop in C. destruct C as [Cx C].
  intros acc f Hf. change (S (need x) + list_sum (map (fun x => S (need x)) l) <= f)%nat in Hf. destruct f as [|f]; [lia|]. cbn [parse_elements]. destruct l as [|y l].
  - cbn [map join]. rewrite (Rx Cx ind brk (brk2 ++ String "]" rest) f) by (assumption || lia || (apply delimited_blank; [assumption|reflexivity])).
    rewrite skip_blank by assumption. reflexivity.
  - replace (join ("," ++ brk) (map (text ind) (x :: y :: l)) ++ brk2 ++ String "]" rest)
      with (text ind x ++ String "," (brk ++ join ("," ++ brk) (map (text ind) (y :: l)) ++ brk2 ++ String "]" rest))
      by (change (join ("," ++ brk) (map (text ind) (x :: y :: l))) with (text ind x ++ ("," ++ brk) ++ join ("," ++ brk) (map (text ind) (y :: l)));
          rewrite !append_assoc; reflexivity).
    rewrite (Rx Cx ind brk) by (assumption || lia || reflexivity). rewrite comma_stays.
    rewrite IH by (discriminate || assumption || lia). rewrite <- app_assoc. reflexivity.
Qed.

Lemma member_reads x ind w rest f acc :
  reads (snd x) -> clean (snd x) = true -> blank ind = true -> blank w = true -> (need (snd x) <= f)%nat ->
  forall brk c, blank brk = true -> number_char c = false -> json_space c = false ->
  parse_members (S f) (w ++ member ind x ++ brk ++ String c rest) acc =
  match String c rest with
  | String "," r4 => parse_members f r4 (obj_set (fst x) (snd x) acc)
  | String "}" r4 => Some (VObj (obj_set (fst x) (snd x) acc), r4)
  | _ => None
  end.
Proof using Type.
  intros R Cx Bi Bw Hf brk c Bb Nc Sc. destruct (colon_split gap) as (b & Eb & Bb').
  assert (member ind x ++ brk ++ String c rest =
          String dquote (json_escape (fst x) ++ String dquote (String ":" (b ++ text ind (snd x) ++ brk ++ String c rest)))) as ->.
  { unfold member, json_quote. rewrite Eb. cbn [append]. rewrite !append_assoc. cbn [append]. rewrite !append_assoc. reflexivity. }
  cbn [parse_members]. rewrite skip_blank by assumption. change (skip_ws (String dquote ?s)) with (String dquote s). cbv iota beta.
  rewrite Ascii.eqb_refl, parse_string_escape.
  2: { rewrite length_append. pose proof (json_escape_length (fst x)). cbn [String.length]. lia. }
  change (skip_ws (String ":" ?s)) with (String ":" s). cbv iota beta.
  rewrite R by (assumption || apply delimited_blank; assumption). rewrite skip_blank by assumption. cbn [skip_ws]. rewrite Sc. reflexivity.
Qed.

Lemma obj_set_fresh k v (acc : list (string * jsval)) : ~ In k (map fst acc) -> obj_set k v acc = (acc ++ [(k, v)])%list.
Proof using Type.
  induction acc as [|[k' v'] acc IH]; cbn; [reflexivity|]. intros N. destruct (String.eqb_spec k k') as [->|_]; [tauto|].
  unfold obj_set in IH. rewrite IH by tauto. reflexivity.
Qed.

Lemma members_read o ind brk brk2 rest :
  o <> [] -> Forall (fun x => reads (snd x)) o -> forallb (fun '(_, x) => clean x) o = true ->
  blank ind = true -> blank brk = true -> blank brk2 = true ->
  forall acc f, NoDup (map fst (acc ++ o)) -> (list_sum (map (fun '(_, x) => S (need x)) o) <= f)%nat ->
  parse_members f (brk ++ join ("," ++ brk) (map (member ind) o) ++ brk2 ++ String "}" rest) acc = Some (VObj (acc ++ o)%list, rest).
Proof using Type.
  intros N R C Bi Bb B2. induction R as [|[k v] o Rx R IH]; [congruence|]. cbn [forallb] in C. apply andb_prop in C. destruct C as [Cx C].
  intros acc f ND Hf. change (S (need v) + list_sum (map (fun '(_, x) => S (need x)) o) <= f)%nat in Hf. destruct f as [|f]; [lia|].
  assert (obj_set k v acc = (acc ++ [(k, v)])%list) as E.
  { apply obj_set_fresh. rewrite map_app in ND. cbn [map fst] in ND. apply NoDup_remove_2 in ND. rewrite in_app_iff in ND. tauto. }
  destruct o as [|y o].
  - cbn [map join]. rewrite member_reads by (assumption || reflexivity || cbn [snd]; lia). cbn [fst snd]. rewrite E. reflexivity.
  - replace (join ("," ++ brk) (map (member ind) ((k, v) :: y :: o)) ++ brk2 ++ String "}" rest)
      with (member ind (k, v) ++ EmptyString ++ String "," (brk ++ join ("," ++ brk) (map (member ind) (y :: o)) ++ brk2 ++ String "}" rest))
      by (change (join ("," ++ brk) (map (member ind) ((k, v) :: y :: o)))
            with (member ind (k, v) ++ ("," ++ brk) ++ join ("," ++ brk) (map (member ind) (y :: o)));
          rewrite !append_assoc; reflexivity).
    rewrite member_reads by (assumption || reflexivity || cbn [snd]; lia). cbn [fst snd]. rewrite E.
    rewrite IH by (discriminate || assumption || lia || (rewrite <- app_assoc; exact ND)). rewrite <- app_assoc. reflexivity.
Qed.

Lemma distinct_NoDup l : distinct l = true -> NoDup l.
Proof using Type.
  induction l as [|k l IH]; cbn; [constructor|]. intros D. apply andb_prop in D. destruct D as [D1 D2]. constructor; [|auto].
  intros I. apply mem_string_In in I. rewrite I in D1. discriminate.
Qed.

Lemma starts_join ind x l brk r : starts (text ind x) = true -> starts (join ("," ++ brk) (map (text ind) (x :: l)) ++ r) = true.
Proof using Type.
  intros S. cbn [map join]. destruct (map (text ind) l); destruct (text ind x); try discriminate S; exact S.
Qed.

Lemma text_reads v : reads v.
Proof.
  induction v as [| |[]|n|s|l IH|o IH|g] using jsval_nested_ind; intros C ind w rest f Bi Bw D Hf; try discriminate C;
    (destruct f as [|f]; [cbn [need] in Hf; lia|]); cbn [parse_value]; rewrite skip_blank by assumption; try reflexivity.
  - exact (literal_app "null" VNull rest).
  - exact (literal_app "true" (VBool true) rest).
  - exact (literal_app "false" (VBool false) rest).
  - pose proof (text_starts ind (VNum n) C) as S. cbn [clean] in C. unfold reads_back in C. apply andb_prop in C. destruct C as [F C].
    unfold text in *. cbn [json_gap] in *. rewrite F in *. rewrite starts_skip by assumption.
    destruct (parse_number (Num.to_string n)) as [[m r]|] eqn:E; [|discriminate].
    destruct r; [|discriminate]. apply same_num_eq in C. subst m. pose proof (parse_number_app _ rest _ D E) as P.
    apply parse_number_starts in E. destruct E as (c & r & Ec & Dc). rewrite Ec in *. cbn [append] in *. rewrite P.
    destruct c as [[] [] [] [] [] [] [] []]; try reflexivity; destruct Dc; discriminate.
  - assert (text ind (VStr s) ++ rest = String dquote (json_escape s ++ String dquote rest)) as ->
      by (unfold text; cbn [json_gap]; unfold json_quote; cbn [append]; rewrite append_assoc; reflexivity).
    change (skip_ws (String dquote ?s)) with (String dquote s). cbv iota beta. rewrite Ascii.eqb_refl, parse_string_escape; [reflexivity|].
    rewrite length_append. pose proof (json_escape_length s). cbn [String.length]. lia.
  - destruct l as [|x l]; [reflexivity|]. cbn [clean] in C. pose proof C as C'. cbn [forallb] in C'. apply andb_prop in C'. destruct C' as [Cx _].
    set (brk := line_break gap (ind ++ gap)). set (brk2 := line_break gap ind).
    assert (blank (ind ++ gap) = true) as Bg by (apply blank_append; assumption).
    assert (text ind (VArr (x :: l)) ++ rest =
            String "[" (brk ++ join ("," ++ brk) (map (text (ind ++ gap)) (x :: l)) ++ brk2 ++ String "]" rest)) as ->
      by (rewrite array_text; unfold wrap; cbn [map]; subst brk brk2; cbn [append]; rewrite !append_assoc; reflexivity).
    change (skip_ws (String "[" ?s)) with (String "[" s). cbv iota beta. change (Ascii.eqb "[" dquote) with false. cbv iota.
    rewrite Ascii.eqb_refl, skip_blank by (apply blank_break; assumption).
    pose proof (text_starts (ind ++ gap) x Cx) as S. apply (starts_join _ _ l brk EmptyString) in S. rewrite append_nil_r in S.
    rewrite starts_skip, (proj1 (starts_not_closing _ _ _ _ S)) by exact S.
    apply elements_read; try assumption; try discriminate; try (apply blank_break; assumption). cbn [need] in Hf. lia.
  - cbn [clean] in C. apply andb_prop in C. destruct C as [Cd C]. destruct o as [|x o]; [reflexivity|].
    set (brk := line_break gap (ind ++ gap)). set (brk2 := line_break gap ind).
    assert (blank (ind ++ gap) = true) as Bg by (apply blank_append; assumption).
    assert (text ind (VObj (x :: o)) ++ rest =
            String "{" (brk ++ join ("," ++ brk) (map (member (ind ++ gap)) (x :: o)) ++ brk2 ++ String "}" rest)) as ->
      by (rewrite object_text by exact C; unfold wrap; cbn [map]; subst brk brk2; cbn [append]; rewrite !append_assoc; reflexivity).
    change (skip_ws (String "{" ?s)) with (String "{" s). cbv iota beta. change (Ascii.eqb "{" dquote) with false.
    change (Ascii.eqb "{" "[") with false. cbv iota. rewrite Ascii.eqb_refl, skip_blank by (apply blank_break; assumption).
    assert (starts (join ("," ++ brk) (map (member (ind ++ gap)) (x :: o))) = true) as S
      by (cbn [map join]; unfold member, json_quote; destruct (map _ o); reflexivity).
    rewrite starts_skip, (proj2 (starts_not_closing _ _ _ _ S)) by exact S.
    apply (members_read _ _ _ _ _) with (acc := []); try assumption; try discriminate; try (apply blank_break; assumption);
      [apply distinct_NoDup, Cd|cbn [need] in Hf; lia].
Qed.

Lemma join_length sep l :
  (1 <= String.length sep)%nat -> (list_sum (map (fun t => S (String.length t)) l) <= S (String.length (join sep l)))%nat.
Proof using Type.
  intros Hs. induction l as [|x [|y l] IH]; [cbn; lia|cbn; lia|].
  change (join sep (x :: y :: l)) with (x ++ sep ++ join sep (y :: l)). rewrite !length_append.
  change (S (String.length x) + list_sum (map (fun t => S (String.length t)) (y :: l)) <= S (String.length x + (String.length sep + String.length (join sep (y :: l)))))%nat.
  lia.
Qed.

Lemma wrap_length ind l r items :
  (String.length l = 1)%nat -> (String.length r = 1)%nat ->
  (2 * list_sum (map (fun t => S (String.length t)) items) + 1 <= 2 * String.length (wrap gap ind l r items))%nat.
Proof using Type.
  intros Hl Hr. unfold wrap. destruct items as [|x items]; [cbn; rewrite length_append; lia|].
  rewrite !length_append. pose proof (join_length ("," ++ line_break gap (ind ++ gap)) (x :: items)) as J.
  rewrite length_append in J. cbn [String.length] in J. specialize (J ltac:(lia)). lia.
Qed.

Lemma sum_bound {A} (f g : A -> nat) l : Forall (fun x => f x <= 2 * g x)%nat l -> (list_sum (map (fun x => S (f x)) l) <= 2 * list_sum (map (fun x => S (g x)) l))%nat.
Proof using Type. induction 1 as [|x l Hx _ IH]; [cbn; lia|]. cbn [map list_sum fold_right] in *. unfold list_sum in *. lia. Qed.

(** The fuel of [JSON.parse] is enough for every text it is given. *)
Lemma need_bound v : forall ind, clean v = true -> (need v <= 2 * String.length (text ind v))%nat.
Proof using Type.
  assert (forall ind v, clean v = true -> (1 <= String.length (text ind v))%nat) as One
    by (intros ind x C; apply (text_starts ind) in C; destruct (text ind x); [discriminate|cbn; lia]).
  induction v as [| |b|n|s|l IH|o IH|g] using jsval_nested_ind; intros ind C; try (specialize (One ind _ C); cbn [need]; lia).
  - cbn [need]. rewrite array_text. pose proof (wrap_length ind "[" "]" (map (text (ind ++ gap)) l) eq_refl eq_refl) as W.
    rewrite map_map in W. enough (list_sum (map (fun x => S (need x)) l) <= 2 * list_sum (map (fun x => S (String.length (text (ind ++ gap) x))) l))%nat by lia.
    apply sum_bound. cbn [clean] in C. rewrite forallb_forall in C. rewrite Forall_forall in *. auto.
  - cbn [clean] in C. apply andb_prop in C. destruct C as [_ C]. cbn [need]. rewrite object_text by exact C.
    pose proof (wrap_length ind "{" "}" (map (member (ind ++ gap)) o) eq_refl eq_refl) as W. rewrite map_map in W.
    enough (list_sum (map (fun x => S (need (snd x))) o) <= 2 * list_sum (map (fun x => S (String.length (member (ind ++ gap) x))) o))%nat.
    { replace (map (fun '(_, x) => S (need x)) o) with (map (fun x => S (need (snd x))) o) by (apply map_ext; intros []; reflexivity). lia. }
    apply sum_bound. rewrite forallb_forall in C. rewrite Forall_forall in *. intros [k x] I.
    specialize (IH _ I (ind ++ gap) (C _ I)). unfold member. cbn [fst snd] in *. rewrite !length_append. lia.
Qed.

(** [JSON.parse(JSON.stringify(v, null, gap))] is [v]. *)
Lemma json_parse_text v : clean v = true -> exists t, json_gap gap EmptyString v = Some t /\ json_parse t = Ok v.
Proof.
  intros C. exists (text EmptyString v). split; [apply clean_text; exact C|]. unfold json_parse.
  pose proof (text_reads v C EmptyString EmptyString EmptyString (2 * String.length (text EmptyString v) + 2) eq_refl eq_refl eq_refl) as R.
  rewrite append_nil_r in R. cbn [append] in R. rewrite R; [reflexivity|]. pose proof (need_bound v EmptyString C). lia.
Qed.

End RoundTrip.

(** The compact text of [JSON.stringify(v)]. *)
Lemma json_parse_stringify v : clean v = true -> exists t, stringify v = VStr t /\ json_parse t = Ok v.
Proof.
  intros C. destruct (json_parse_text EmptyString eq_refl v C) as (t & E & P). exists t. split; [|exact P].
  unfold stringify. rewrite json_gap_compact in E. rewrite E. reflexivity.
Qed.
