(* ===== verification/JsMonad.v ===== *)
(** * Effects

    A method of a component is a computation over the component's state [S],
    the trace of its interactions with the outside world, and the exceptions
    of the language.  Code outside the repository (the network, wallet
    providers, contract libraries, payment services, the clock, the random
    source) is an environment [Env]: a strategy that answers each call from
    the whole history of calls, with a value or with a thrown error.  Every
    theorem quantifies over the environment, so it holds for any behaviour
    of that code.

    A method runs to completion: between two [await]s of one call no other
    call on the same object is interleaved. *)

From Stdlib Require Import ZArith Bool List String.
From S2P Require Import Prelude JsNum JsVal.
Import ListNotations.
Local Open Scope string_scope.

(** One interaction with the outside world and its outcome. *)
Record event : Type := Ev { ev_op : string; ev_args : list jsval; ev_res : result jsval }.

(** The most recent interaction first. *)
Definition trace := list event.

Class Env : Type := {
  reply : trace -> string -> list jsval -> result jsval;
  clock : trace -> num;
  random : trace -> num
}.

Definition JS (S A : Type) : Type := S -> trace -> result A * S * trace.

Declare Scope js_scope.
Delimit Scope js_scope with js.
Open Scope js_scope.

Definition ret {S A} (a : A) : JS S A := fun s t => (Ok a, s, t).
Definition throw {S A} (e : jserr) : JS S A := fun s t => (Throw e, s, t).

Definition bind {S A B} (m : JS S A) (k : A -> JS S B) : JS S B :=
  fun s t =>
    match m s t with
    | (Ok a, s', t') => k a s' t'
    | (Throw e, s', t') => (Throw e, s', t')
    end.

Notation "'let*' x ':=' m 'in' k" := (bind m (fun x => k))
  (at level 10, x pattern, m at level 100, k at level 200) : js_scope.
Notation "m ;;; k" := (bind m (fun _ => k))
  (at level 199, right associativity) : js_scope.

(** A pure computation that may throw. *)
Definition lift {S A} (r : result A) : JS S A := fun s t => (r, s, t).

(** Reading and writing the component's state. *)
Definition read {S A} (f : S -> A) : JS S A := fun s t => (Ok (f s), s, t).
Definition modify {S} (f : S -> S) : JS S unit := fun s t => (Ok tt, f s, t).

(** [try { m } catch (e) { h e }]: the effects of [m] up to the throw stay. *)
Definition try_catch {S A} (m : JS S A) (h : jserr -> JS S A) : JS S A :=
  fun s t =>
    match m s t with
    | (Ok a, s', t') => (Ok a, s', t')
    | (Throw e, s', t') => h e s' t'
    end.

(** [try { m } finally { f }]. *)
Definition try_finally {S A} (m : JS S A) (f : JS S unit) : JS S A :=
  fun s t =>
    match m s t with
    | (r, s', t') =>
        match f s' t' with
        | (Ok _, s'', t'') => (r, s'', t'')
        | (Throw e, s'', t'') => (Throw e, s'', t'')
        end
    end.

(** [arr.forEach(f)] and [for (const x of arr)]. *)
Fixpoint for_each {S A} (l : list A) (f : A -> JS S unit) : JS S unit :=
  match l with
  | [] => ret tt
  | x :: l' => f x ;;; for_each l' f
  end.

(** A call of a method the receiver does not have. *)
Definition call_missing {S} (expr : string) : JS S jsval := throw (not_a_function expr).

Section Calls.
Context `{Env} {S : Type}.

(** A call to code outside the repository. *)
Definition ext (op : string) (args : list jsval) : JS S jsval :=
  fun s t => let r := reply t op args in (r, s, Ev op args r :: t).

(** [Date.now()] and [Math.random()]. *)
Definition now : JS S num := fun s t => (Ok (clock t), s, Ev "Date.now" [] (Ok (VNum (clock t))) :: t).
Definition rand : JS S num := fun s t => (Ok (random t), s, Ev "Math.random" [] (Ok (VNum (random t))) :: t).

(** [new Date().toISOString()]: the clock read and the text it formats to. *)
Definition iso_now : JS S jsval :=
  let* n := now in ext "Date.toISOString" [VNum n].

(** [Math.random().toString(36).substr(2, n)]: the digits of a fraction in
    radix 36 are implementation-approximated, so the text is the engine's. *)
Definition random_base36 (n : Z) : JS S string :=
  let* r := rand in
  let* v := ext "Number.toString(36).substr" [VNum r; vnum 2; vnum n] in
  ret (to_str v).

(** [fetch(url)] and [fetch(url, options)], then [response.json()]. *)
Definition fetch (args : list jsval) : JS S jsval := ext "fetch" args.
Definition response_json (resp : jsval) : JS S jsval := ext "Response.json" [resp].

End Calls.

(** Running a computation on a part of a larger state. *)
Definition zoom {S T A} (proj : S -> T) (upd : T -> S -> S) (m : JS T A) : JS S A :=
  fun s t =>
    match m (proj s) t with (r, s', t') => (r, upd s' s, t') end.

(** The outcome of a computation as a value: a promise that is awaited later. *)
Definition attempt {S A} (m : JS S A) : JS S (result A) := fun s t => match m s t with (r, s', t') => (Ok r, s', t') end.

(** ** Weakest preconditions *)

(** [wp m Q E s t]: run from [s] and [t], [m] either returns with [Q] or
    throws with [E].  Computations are total, so nothing is assumed about
    termination. *)
Definition wp {S A} (m : JS S A) (Q : A -> S -> trace -> Prop)
    (E : jserr -> S -> trace -> Prop) (s : S) (t : trace) : Prop :=
  match m s t with
  | (Ok a, s', t') => Q a s' t'
  | (Throw e, s', t') => E e s' t'
  end.

Section Rules.
Context {S : Type}.
Implicit Types (s : S) (t : trace).

Lemma wp_mono {A} (m : JS S A) (Q Q' : A -> S -> trace -> Prop) E E' s t :
  (forall a s' t', Q a s' t' -> Q' a s' t') ->
  (forall e s' t', E e s' t' -> E' e s' t') ->
  wp m Q E s t -> wp m Q' E' s t.
Proof. unfold wp. destruct (m s t) as [[[a|e] s'] t']; auto. Qed.

Lemma wp_and {A} (m : JS S A) (Q Q' : A -> S -> trace -> Prop) E E' s t :
  wp m Q E s t -> wp m Q' E' s t ->
  wp m (fun a s t => Q a s t /\ Q' a s t) (fun e s t => E e s t /\ E' e s t) s t.
Proof. unfold wp. destruct (m s t) as [[[a|e] s'] t']; auto. Qed.

Lemma wp_ret {A} (a : A) (Q : A -> S -> trace -> Prop) E s t : Q a s t -> wp (ret a) Q E s t.
Proof. exact id. Qed.

Lemma wp_throw {A} e (Q : A -> S -> trace -> Prop) (E : jserr -> S -> trace -> Prop) s t :
  E e s t -> wp (throw e) Q E s t.
Proof. exact id. Qed.

Lemma wp_bind {A B} (m : JS S A) (k : A -> JS S B) Q E s t :
  wp m (fun a => wp (k a) Q E) E s t -> wp (bind m k) Q E s t.
Proof. unfold wp, bind. destruct (m s t) as [[[a|e] s'] t']; auto. Qed.

Lemma wp_lift {A} (r : result A) (Q : A -> S -> trace -> Prop) (E : jserr -> S -> trace -> Prop) s t :
  (forall a, r = Ok a -> Q a s t) -> (forall e, r = Throw e -> E e s t) -> wp (lift r) Q E s t.
Proof. unfold wp, lift. destruct r; auto. Qed.

Lemma wp_lift_ok {A} (a : A) (Q : A -> S -> trace -> Prop) E s t : Q a s t -> wp (lift (Ok a)) Q E s t.
Proof. intros HQ. apply wp_lift; [intros x [= <-]; exact HQ|discriminate]. Qed.

Lemma wp_read {A} (f : S -> A) (Q : A -> S -> trace -> Prop) E s t : Q (f s) s t -> wp (read f) Q E s t.
Proof. exact id. Qed.

Lemma wp_modify (f : S -> S) (Q : unit -> S -> trace -> Prop) E s t : Q tt (f s) t -> wp (modify f) Q E s t.
Proof. exact id. Qed.

Lemma wp_try_catch {A} (m : JS S A) h Q E s t :
  wp m Q (fun e => wp (h e) Q E) s t -> wp (try_catch m h) Q E s t.
Proof. unfold wp, try_catch. destruct (m s t) as [[[a|e] s'] t']; auto. Qed.

Lemma wp_try_finally {A} (m : JS S A) f Q E s t :
  wp m (fun a => wp f (fun _ => Q a) E) (fun e => wp f (fun _ => E e) E) s t ->
  wp (try_finally m f) Q E s t.
Proof.
  unfold wp, try_finally. destruct (m s t) as [[[a|e] s'] t'];
    destruct (f s' t') as [[[u|e'] s''] t'']; auto.
Qed.

Lemma wp_attempt {A} (m : JS S A) (Q : result A -> S -> trace -> Prop) E s t :
  wp m (fun a => Q (Ok a)) (fun e => Q (Throw e)) s t -> wp (attempt m) Q E s t.
Proof. unfold wp, attempt. destruct (m s t) as [[[a|e] s'] t']; auto. Qed.

Lemma wp_zoom {T A} proj upd (m : JS T A) (Q : A -> S -> trace -> Prop) E s t :
  wp m (fun a x => Q a (upd x s)) (fun e x => E e (upd x s)) (proj s) t -> wp (zoom proj upd m) Q E s t.
Proof. unfold wp, zoom. destruct (m (proj s) t) as [[[a|e] s'] t']; auto. Qed.

Lemma wp_for_each {A} (l : list A) (f : A -> JS S unit) (I : list A -> S -> trace -> Prop)
    (E : jserr -> S -> trace -> Prop) :
  (forall x l' s t, I (x :: l') s t -> wp (f x) (fun _ => I l') E s t) ->
  forall s t, I l s t -> wp (for_each l f) (fun _ => I []) E s t.
Proof.
  intros Hf. induction l as [|x l IH]; intros s t HI; cbn [for_each].
  - apply wp_ret, HI.
  - apply wp_bind. eapply wp_mono; [| |apply Hf, HI]; cbn; auto.
Qed.

Context `{Env}.

Lemma wp_ext op args (Q : jsval -> S -> trace -> Prop) (E : jserr -> S -> trace -> Prop) s t :
  (forall v, reply t op args = Ok v -> Q v s (Ev op args (Ok v) :: t)) ->
  (forall e, reply t op args = Throw e -> E e s (Ev op args (Throw e) :: t)) ->
  wp (ext op args) Q E s t.
Proof. unfold wp, ext. destruct (reply t op args); auto. Qed.

(** A call whose outcome is known. *)
Lemma wp_ext_ok op args v (Q : jsval -> S -> trace -> Prop) E s t :
  reply t op args = Ok v -> Q v s (Ev op args (Ok v) :: t) -> wp (ext op args) Q E s t.
Proof. intros R HQ. apply wp_ext; intros x Hx; rewrite R in Hx; [injection Hx as <-; exact HQ|discriminate]. Qed.

Lemma wp_now (Q : num -> S -> trace -> Prop) E s t : Q (clock t) s (Ev "Date.now" [] (Ok (VNum (clock t))) :: t) -> wp now Q E s t.
Proof. exact id. Qed.

Lemma wp_rand (Q : num -> S -> trace -> Prop) E s t : Q (random t) s (Ev "Math.random" [] (Ok (VNum (random t))) :: t) -> wp rand Q E s t.
Proof. exact id. Qed.

End Rules.

(** The computation never returns normally, in any state. *)
Definition always_throws {S A} (m : JS S A) : Prop :=
  forall s t, wp m (fun _ _ _ => False) (fun _ _ _ => True) s t.

(** One step of verification-condition generation. *)
Ltac wp_step :=
  lazymatch goal with
  | |- wp (bind _ _) _ _ _ _ => apply wp_bind
  | |- wp (ret _) _ _ _ _ => apply wp_ret
  | |- wp (throw _) _ _ _ _ => apply wp_throw
  | |- wp (lift _) _ _ _ _ => apply wp_lift; [intros ? ? | intros ? ?]
  | |- wp (read _) _ _ _ _ => apply wp_read
  | |- wp (modify _) _ _ _ _ => apply wp_modify
  | |- wp (try_catch _ _) _ _ _ _ => apply wp_try_catch
  | |- wp (try_finally _ _) _ _ _ _ => apply wp_try_finally
  | |- wp (ext _ _) _ _ _ _ => apply wp_ext; [intros ? ? | intros ? ?]
  | |- wp (fetch _) _ _ _ _ => unfold fetch
  | |- wp (response_json _) _ _ _ _ => unfold response_json
  | |- wp (call_missing _) _ _ _ _ => unfold call_missing
  | |- wp now _ _ _ _ => apply wp_now
  | |- wp rand _ _ _ _ => apply wp_rand
  | |- wp iso_now _ _ _ _ => unfold iso_now
  | |- wp (random_base36 _) _ _ _ _ => unfold random_base36
  | |- wp (if ?b then _ else _) _ _ _ _ => destruct b eqn:?
  | |- wp (match ?x with _ => _ end) _ _ _ _ => destruct x eqn:?
  end; cbv beta.

Ltac wp_auto := repeat wp_step.
