(* ===== verification/Machine.v ===== *)
(** * Components as transition systems

    A component is a state with the operations its clients call and the
    callbacks that timers and sockets run; each is a computation of [JsMonad].
    A run is any sequence of them, an operation that throws being a step like
    any other.  This file has the runs, the rule by which an invariant of
    every operation is an invariant of every run, and the structural rules
    (hint database [preserve]) that reduce preservation by an operation to
    preservation by its parts. *)

From Stdlib Require Import List String.
From S2P Require Import Prelude JsNum JsVal JsMonad.
Import ListNotations.
Local Open Scope string_scope.

(** A computation that preserves an invariant of the state and the trace. *)
Definition preserves {S A} (I : S -> trace -> Prop) (m : JS S A) : Prop :=
  forall s t, I s t -> wp m (fun _ s' t' => I s' t') (fun _ s' t' => I s' t') s t.

Section Preserve.
Context {S : Type} (I : S -> trace -> Prop).

Lemma preserves_ret {A} (a : A) : preserves I (ret a).
Proof. intros o t HI. exact HI. Qed.
Lemma preserves_throw {A} e : preserves I (throw (A := A) e).
Proof. intros o t HI. exact HI. Qed.
Lemma preserves_lift {A} (r : result A) : preserves I (lift r).
Proof. intros o t HI. destruct r; exact HI. Qed.
Lemma preserves_read {A} (f : S -> A) : preserves I (read f).
Proof. intros o t HI. exact HI. Qed.
Lemma preserves_bind {A B} (m : JS S A) (k : A -> JS S B) :
  preserves I m -> (forall a, preserves I (k a)) -> preserves I (bind m k).
Proof. intros Hm Hk o t HI. apply wp_bind. eapply wp_mono; [..|exact (Hm o t HI)]; cbn beta; [|auto]. intros a o' t'. apply Hk. Qed.
Lemma preserves_try {A} (m : JS S A) h :
  preserves I m -> (forall e, preserves I (h e)) -> preserves I (try_catch m h).
Proof. intros Hm Hk o t HI. apply wp_try_catch. eapply wp_mono; [..|exact (Hm o t HI)]; cbn beta; [auto|]. intros e o' t'. apply Hk. Qed.
Lemma preserves_finally {A} (m : JS S A) f :
  preserves I m -> preserves I f -> preserves I (try_finally m f).
Proof.
  intros Hm Hf o t HI. apply wp_try_finally. eapply wp_mono; [..|exact (Hm o t HI)]; cbn beta; intros ? o' t' HI'; apply Hf, HI'.
Qed.
Lemma preserves_for_each {A} (l : list A) f : (forall x, preserves I (f x)) -> preserves I (for_each l f).
Proof. intros Hf. induction l; cbn [for_each]; [apply preserves_ret|apply preserves_bind; auto]. Qed.

End Preserve.

(** Calls of the outside leave the state alone. *)
Lemma preserves_ext `{Env} {S} (P : S -> Prop) op args : preserves (fun s _ => P s) (ext op args).
Proof. intros s t HP. apply wp_ext; auto. Qed.
Lemma preserves_now `{Env} {S} (P : S -> Prop) : preserves (fun s _ => P s) now.
Proof. intros s t HP. exact HP. Qed.
Lemma preserves_rand `{Env} {S} (P : S -> Prop) : preserves (fun s _ => P s) rand.
Proof. intros s t HP. exact HP. Qed.

Create HintDb preserve.
#[export] Hint Resolve preserves_ret preserves_throw preserves_lift preserves_read preserves_bind preserves_try
  preserves_finally preserves_for_each preserves_ext preserves_now preserves_rand : preserve.

(** Structural steps of a preservation proof. *)
Ltac preserve :=
  repeat (intros; first
    [ solve [eauto 1 with preserve]
    | apply preserves_bind; [|intro] | apply preserves_try; [|intro] | apply preserves_finally
    | apply preserves_for_each; intro
    | match goal with |- preserves _ (match ?x with _ => _ end) => destruct x eqn:? end ]).

(** A computation that does not change the state. *)
Definition pure_state {S A} (m : JS S A) : Prop := forall s0, preserves (fun s _ => s = s0) m.

Lemma wp_pure {S A} (m : JS S A) (Q : A -> S -> trace -> Prop) E s t :
  pure_state m -> (forall a t', Q a s t') -> (forall e t', E e s t') -> wp m Q E s t.
Proof. intros P HQ HE. eapply wp_mono; [..|exact (P s s t eq_refl)]; cbn beta; intros; subst; auto. Qed.

(** One that also never throws. *)
Definition silent {S A} (m : JS S A) : Prop := forall s t, wp m (fun _ s' _ => s' = s) (fun _ _ _ => False) s t.

Lemma wp_silent {S A} (m : JS S A) (Q : A -> S -> trace -> Prop) E s t :
  silent m -> (forall a t', Q a s t') -> wp m Q E s t.
Proof. intros P HQ. eapply wp_mono; [..|exact (P s t)]; cbn beta; intros; subst; tauto || auto. Qed.

Lemma silent_pure {S A} (m : JS S A) : silent m -> pure_state m.
Proof. intros P s0 s t ->. apply wp_silent; auto. Qed.

(** ** Runs *)

Section Machine.
Context {S Op : Type} (run : Op -> JS S unit) (enabled : Op -> S -> Prop).

Inductive machine_step : S * trace -> S * trace -> Prop :=
  | machine_op o s t r s' t' : enabled o s -> run o s t = (r, s', t') -> machine_step (s, t) (s', t').

(** The state and the trace an operation leaves. *)
Definition after_op (o : Op) (x : S * trace) : S * trace :=
  let '(_, s', t') := run o (fst x) (snd x) in (s', t').

Lemma after_op_step o x : enabled o (fst x) -> machine_step x (after_op o x).
Proof.
  intros He. destruct x as [s t]. unfold after_op. cbn [fst snd] in *.
  destruct (run o s t) as [[r s'] t'] eqn:E. exact (machine_op _ _ _ _ _ _ He E).
Qed.

(** An invariant of every operation holds along every run. *)
Lemma machine_invariant (I : S -> trace -> Prop) :
  (forall o s t, enabled o s -> I s t -> wp (run o) (fun _ => I) (fun _ => I) s t) ->
  forall s0 t0 s t, steps machine_step (s0, t0) (s, t) -> I s0 t0 -> I s t.
Proof.
  intros Hop s0 t0 s t Hs H0.
  apply (steps_invariant machine_step (fun x => I (fst x) (snd x))) with (2 := Hs); [|exact H0].
  intros x y HI St. destruct St as [o s1 t1 r s2 t2 He E]. cbn [fst snd] in *.
  pose proof (Hop o s1 t1 He HI) as W. unfold wp in W. rewrite E in W. destruct r; exact W.
Qed.

(** A sequence of operations, and that each is enabled when its turn comes. *)
Definition play (ops : list Op) (x : S * trace) : S * trace := fold_left (fun y o => after_op o y) ops x.

Fixpoint playable (ops : list Op) (x : S * trace) : Prop :=
  match ops with [] => True | o :: ops' => enabled o (fst x) /\ playable ops' (after_op o x) end.

Lemma play_steps ops : forall x, playable ops x -> steps machine_step x (play ops x).
Proof.
  induction ops as [|o ops IH]; intros x P; [constructor|]. destruct P as [E P].
  eapply steps_trans; [apply steps_one, after_op_step, E|apply IH, P].
Qed.

End Machine.

(** How often the outside was called with [op]. *)
Definition calls (op : string) (t : trace) : nat := List.length (filter (fun e => ev_op e =? op) t).

Lemma calls_cons op e t : calls op (e :: t) = ((if ev_op e =? op then 1 else 0) + calls op t)%nat.
Proof. unfold calls. cbn [filter]. destruct (ev_op e =? op); reflexivity. Qed.
