(* ===== verification/Jsx.v ===== *)
(** * Views: element trees and their events

    What a component's [render] returns, as data: elements with attributes and
    children, handlers being the list of actions they perform.  A view is a
    [result], because reading the data it shows can throw.  [dyn] is the
    [{expression}] of JSX: React shows texts and numbers, shows nothing for
    booleans, null and undefined, lays out the members of arrays and throws on
    objects; so [{v && view}], here [cond], shows a falsy number.

    [happenings] is what the user can do with a tree: a click on any element,
    which performs the handlers from the element outwards until one stops the
    propagation (in a browser) or the innermost handler only (in React
    Native), and an entry into a control with a change handler.  A disabled
    control hears neither.  [hears] relates a view to what can happen in it,
    rule by rule for each way a view is built (hint database [hears]). *)

From Stdlib Require Import Bool List String.
From S2P Require Import Prelude JsNum JsVal.
Import ListNotations.
Local Open Scope string_scope.

Inductive attr (A : Type) : Type :=
  | Val (v : jsval)
  | On (stops : bool) (acts : list A)
  | OnValue (f : jsval -> A).
Arguments Val {A} v.
Arguments On {A} stops acts.
Arguments OnValue {A} f.

Inductive node (A : Type) : Type :=
  | Txt (s : string)
  | El (tag : string) (attrs : list (string * attr A)) (kids : list (node A)).
Arguments Txt {A} s.
Arguments El {A} tag attrs kids.

Definition node_nested_ind {A} (P : node A -> Prop) (text : forall s, P (Txt s))
    (element : forall tag attrs kids, Forall P kids -> P (El tag attrs kids)) : forall n, P n :=
  fix F n :=
    match n with
    | Txt s => text s
    | El tag attrs kids =>
        element tag attrs kids
          ((fix G ks : Forall P ks := match ks with [] => Forall_nil _ | k :: ks' => Forall_cons k (F k) (G ks') end) kids)
    end.

Definition html (A : Type) : Type := result (list (node A)).

(** ** Building views *)

Section Build.
Context {A : Type}.

Definition txt (s : string) : html A := Ok [Txt s].
Definition nothing : html A := Ok [].

Fixpoint fragment (hs : list (html A)) : html A :=
  match hs with
  | [] => Ok []
  | h :: hs' => res_bind h (fun ns => res_bind (fragment hs') (fun ms => Ok (ns ++ ms)%list))
  end.

Definition el (tag : string) (attrs : list (string * attr A)) (kids : list (html A)) : html A :=
  res_bind (fragment kids) (fun ns => Ok [El tag attrs ns]).

Fixpoint dyn (v : jsval) : html A :=
  match v with
  | VUndef | VNull | VBool _ | VFun _ => Ok []
  | VNum n => Ok [Txt (Num.to_string n)]
  | VStr s => Ok [Txt s]
  | VArr l => fragment (map dyn l)
  | VObj _ => Throw (Error "Objects are not valid as a React child")
  end.

(** [{v && h}]. *)
Definition cond (v : jsval) (h : html A) : html A := if truthy v then h else dyn v.
Definition when (b : bool) (h : html A) : html A := if b then h else nothing.

(** [{l.map((x, index) => f)}]. *)
Fixpoint each_from {X} (i : nat) (l : list X) (f : nat -> X -> html A) : html A :=
  match l with [] => Ok [] | x :: l' => fragment [f i x; each_from (S i) l' f] end.
Definition each {X} (l : list X) (f : nat -> X -> html A) : html A := each_from 0 l f.

(** [{f(v)}] for a function that may throw. *)
Definition text_of (r : result string) : html A := res_bind r txt.
Definition field (v : jsval) (k : string) : html A := res_bind (get v k) dyn.

(** [{v.toFixed(digits)}]. *)
Definition fixed (expr : string) (v : jsval) (digits : nat) : html A :=
  text_of (res_bind (as_number expr "toFixed" v) (fun n => Ok (Num.to_fixed n digits))).

Definition prop (name : string) (v : jsval) : string * attr A := (name, Val v).
Definition cls (name : string) : string * attr A := prop "className" (VStr name).
Definition onClick (acts : list A) : string * attr A := ("onClick", On false acts).
(** [e.stopPropagation()] first. *)
Definition onClickOnly (acts : list A) : string * attr A := ("onClick", On true acts).
Definition onPress (acts : list A) : string * attr A := ("onPress", On false acts).
Definition onChange (f : jsval -> A) : string * attr A := ("onChange", OnValue f).

End Build.

(** ** Using views *)

Inductive dispatch : Type := Bubbling | Innermost.

Inductive happening (A : Type) : Type :=
  | Clicked (acts : list A)
  | Entered (f : jsval -> A).
Arguments Clicked {A} acts.
Arguments Entered {A} f.

Section Events.
Context {A : Type} (d : dispatch).

Fixpoint attr_of (k : string) (attrs : list (string * attr A)) : jsval :=
  match attrs with
  | [] => VUndef
  | (k', Val v) :: l => if k' =? k then v else attr_of k l
  | _ :: l => attr_of k l
  end.

Definition disabled (attrs : list (string * attr A)) : bool := truthy (attr_of "disabled" attrs).

(** What a click inside an element performs, given what it performs around
    it. *)
Fixpoint heard (up : list A) (attrs : list (string * attr A)) : list A :=
  match attrs with
  | [] => up
  | (_, On stops acts) :: _ => match d with Bubbling => (acts ++ (if stops then [] else up))%list | Innermost => acts end
  | _ :: l => heard up l
  end.

Definition entries (attrs : list (string * attr A)) : list (happening A) :=
  flat_map (fun p => match snd p with OnValue f => [Entered f] | _ => [] end) attrs.

Fixpoint happenings (up : list A) (n : node A) : list (happening A) :=
  match n with
  | Txt _ => []
  | El _ attrs kids =>
      if disabled attrs then []
      else let here := heard up attrs in Clicked here :: entries attrs ++ flat_map (happenings here) kids
  end.

(** The actions the user can have performed. *)
Definition performs (e : happening A) (acts : list A) : Prop :=
  match e with Clicked a => acts = a | Entered f => exists v, acts = [f v] end.

Definition offered (ns : list (node A)) (acts : list A) : Prop :=
  acts <> [] /\ exists e, In e (flat_map (happenings []) ns) /\ performs e acts.

(** *** What happens in a view, by its parts *)

Definition hears (up : list A) (h : html A) (L : list (happening A)) : Prop :=
  forall ns, h = Ok ns -> forall e, e <> Clicked [] -> In e (flat_map (happenings up) ns) <-> In e L.

Lemma hears_text up h : (forall ns, h = Ok ns -> flat_map (happenings up) ns = []) -> hears up h [].
Proof. intros E ns H e _. rewrite (E ns H). reflexivity. Qed.

Lemma hears_txt up s : hears up (txt s) [].
Proof. apply hears_text. intros ns [= <-]. reflexivity. Qed.

Lemma hears_nothing up : hears up nothing [].
Proof. apply hears_text. intros ns [= <-]. reflexivity. Qed.

Lemma hears_text_of up r : hears up (text_of r) [].
Proof. apply hears_text. destruct r; intros ns [= <-]. reflexivity. Qed.

Lemma fragment_ok (hs : list (html A)) ns :
  fragment hs = Ok ns -> exists nss, Forall2 (fun h n => h = Ok n) hs nss /\ ns = List.concat nss.
Proof.
  revert ns. induction hs as [|h hs IH]; cbn [fragment]; intros ns E; [injection E as <-; exists []; auto|].
  destruct h as [n|] eqn:Eh; [|discriminate E]. cbn [res_bind] in E. destruct (fragment hs) as [ms|]; [|discriminate E].
  injection E as <-. destruct (IH ms eq_refl) as (nss & F & ->). exists (n :: nss). auto.
Qed.

Lemma hears_fragment up hs Ls : Forall2 (hears up) hs Ls -> hears up (fragment hs) (List.concat Ls).
Proof.
  intros F ns E e He. destruct (fragment_ok hs ns E) as (nss & G & ->). clear E. revert nss G.
  induction F as [|h L hs Ls Hh _ IH]; intros nss G; inversion G as [|h0 n hs0 nss' En G' E0 E1]; cbn [List.concat flat_map]; [reflexivity|].
  rewrite flat_map_app, !in_app_iff, (Hh n En e He), (IH nss' G'). reflexivity.
Qed.

Lemma hears_el up tag attrs kids Ls :
  disabled attrs = false -> Forall2 (hears (heard up attrs)) kids Ls ->
  hears up (el tag attrs kids) (Clicked (heard up attrs) :: entries attrs ++ List.concat Ls).
Proof.
  intros D F ns E e He. unfold el in E. destruct (fragment kids) as [ks|] eqn:Ek; [|discriminate E]. injection E as <-.
  cbn [flat_map happenings]. rewrite D, app_nil_r. cbn [In]. rewrite !in_app_iff, (hears_fragment _ _ _ F ks Ek e He). reflexivity.
Qed.

(** A control that can be disabled. *)
Lemma hears_control up tag attrs kids Ls :
  Forall2 (hears (heard up attrs)) kids Ls ->
  hears up (el tag attrs kids) (if disabled attrs then [] else Clicked (heard up attrs) :: entries attrs ++ List.concat Ls).
Proof.
  intros F. destruct (disabled attrs) eqn:D; [|apply hears_el; assumption]. intros ns E e He. unfold el in E.
  destruct (fragment kids) as [ks|]; [|discriminate E]. injection E as <-. cbn [flat_map happenings]. rewrite D. reflexivity.
Qed.

(** Only texts come out of data. *)
Lemma dyn_happens v : forall up ns, dyn v = Ok ns -> flat_map (happenings up) ns = [].
Proof.
  induction v as [| |b|n|s|l IH|o IH|f] using jsval_nested_ind; intros up ns E; try (injection E as <-; reflexivity); [|discriminate E].
  cbn [dyn] in E. revert ns E. induction IH as [|x l Hx _ IHl]; cbn [map fragment]; intros ns E; [injection E as <-; reflexivity|].
  destruct (dyn x) as [n|] eqn:En; [|discriminate E]. cbn [res_bind] in E. destruct (fragment (map dyn l)) as [ms|] eqn:Em; [|discriminate E].
  injection E as <-. rewrite flat_map_app, (Hx up n eq_refl), (IHl ms eq_refl). reflexivity.
Qed.

Lemma hears_fixed up expr v digits : hears up (fixed expr v digits) [].
Proof. apply hears_text_of. Qed.

Lemma hears_dyn up v : hears up (dyn v) [].
Proof. apply hears_text, dyn_happens. Qed.

Lemma hears_bind {X} up (r : result X) k L : (forall x, r = Ok x -> hears up (k x) L) -> hears up (res_bind r k) L.
Proof. intros H ns E. destruct r as [x|]; [|discriminate E]. exact (H x eq_refl ns E). Qed.

Lemma hears_field up v k : hears up (field v k) [].
Proof. apply hears_bind. intros. apply hears_dyn. Qed.

Lemma hears_if up (b : bool) h1 h2 L1 L2 : hears up h1 L1 -> hears up h2 L2 -> hears up (if b then h1 else h2) (if b then L1 else L2).
Proof. destruct b; auto. Qed.

Lemma hears_cond up v h L : hears up h L -> hears up (cond v h) (if truthy v then L else []).
Proof. intros H. apply hears_if; [exact H|apply hears_dyn]. Qed.

Lemma hears_when up b h L : hears up h L -> hears up (when b h) (if b then L else []).
Proof. intros H. apply hears_if; [exact H|apply hears_nothing]. Qed.

Lemma hears_each {X} up (l : list X) f g : (forall i x, In x l -> hears up (f i x) (g x)) -> hears up (each l f) (flat_map g l).
Proof.
  unfold each. generalize 0%nat. induction l as [|x l IH]; intros i H; [apply hears_nothing|].
  cbn [each_from flat_map]. replace (g x ++ flat_map g l)%list with (List.concat [g x; flat_map g l]) by (cbn; rewrite app_nil_r; reflexivity).
  apply hears_fragment, Forall2_cons, Forall2_cons, Forall2_nil; [apply H; left; reflexivity|apply IH; intros; apply H; right; assumption].
Qed.

(** A list of equal members, up to clicks without effect. *)
Lemma hears_iff up h L L' : hears up h L -> (forall e, e <> Clicked [] -> In e L <-> In e L') -> hears up h L'.
Proof. intros H E ns Hn e He. rewrite <- (E e He). apply H; assumption. Qed.

Lemma hears_offered h L ns acts :
  hears [] h L -> h = Ok ns -> offered ns acts <-> acts <> [] /\ exists e, In e L /\ performs e acts.
Proof.
  intros H E. unfold offered. split; intros [Na (e & I & P)]; (split; [exact Na|]); exists e; (split; [|exact P]);
    refine (proj1 (_ : In e _ <-> In e _) I); [|symmetry]; apply (H ns E); intros ->; cbn in P; congruence.
Qed.

End Events.

Create HintDb hears.
#[export] Hint Resolve hears_txt hears_nothing hears_text_of hears_fixed hears_dyn hears_field : hears.

(** One rule per way of building; what is left are parts with lemmas of their
    own. *)
Ltac hears :=
  repeat first
    [ solve [eauto 1 with hears]
    | eapply hears_el; [reflexivity|] | eapply hears_control
    | eapply hears_fragment | eapply hears_cond | eapply hears_when | eapply hears_each; intros
    | eapply hears_if | eapply hears_bind; intros
    | apply Forall2_nil | eapply Forall2_cons ].

(** ** What holds of every element *)

Section Throughout.
Context {A : Type} (P : list (string * attr A) -> bool).

Fixpoint every (n : node A) : bool := match n with Txt _ => true | El _ attrs kids => P attrs && forallb every kids end.

Definition throughout (h : html A) : Prop := forall ns, h = Ok ns -> forallb every ns = true.

Lemma throughout_ok ns : forallb every ns = true -> throughout (Ok ns).
Proof. intros S ms [= <-]. exact S. Qed.
Lemma throughout_txt s : throughout (txt s).
Proof. apply throughout_ok. reflexivity. Qed.
Lemma throughout_nothing : throughout nothing.
Proof. apply throughout_ok. reflexivity. Qed.
Lemma throughout_bind {X} (r : result X) k : (forall x, throughout (k x)) -> throughout (res_bind r k).
Proof. intros H ns E. destruct r as [x|]; [|discriminate E]. exact (H x ns E). Qed.
Lemma throughout_text_of r : throughout (text_of r).
Proof. apply throughout_bind, throughout_txt. Qed.

Lemma throughout_fixed expr v digits : throughout (fixed expr v digits).
Proof. apply throughout_text_of. Qed.

Lemma throughout_fragment hs : Forall throughout hs -> throughout (fragment hs).
Proof.
  induction 1 as [|h hs Hh _ IH]; cbn [fragment]; [apply throughout_nothing|]. intros ns E. destruct h as [n|]; [|discriminate E]. cbn [res_bind] in E.
  destruct (fragment hs) as [ms|]; [|discriminate E]. injection E as <-. rewrite forallb_app, (Hh n eq_refl), (IH ms eq_refl). reflexivity.
Qed.

Lemma throughout_el tag attrs kids : P attrs = true -> Forall throughout kids -> throughout (el tag attrs kids).
Proof.
  intros Va F ns E. unfold el in E. destruct (fragment kids) as [ks|] eqn:Ek; [|discriminate E]. injection E as <-.
  cbn [forallb every]. rewrite Va, (throughout_fragment kids F ks Ek). reflexivity.
Qed.

Lemma throughout_dyn v : throughout (dyn v).
Proof.
  induction v as [| |b|n|s|l IH|o IH|f] using jsval_nested_ind; try (apply throughout_ok; reflexivity); [|discriminate].
  cbn [dyn]. apply throughout_fragment, Forall_map. exact IH.
Qed.

Lemma throughout_field v k : throughout (field v k).
Proof. apply throughout_bind, throughout_dyn. Qed.
Lemma throughout_if (b : bool) h1 h2 : throughout h1 -> throughout h2 -> throughout (if b then h1 else h2).
Proof. destruct b; auto. Qed.
Lemma throughout_cond v h : throughout h -> throughout (cond v h).
Proof. intros Q. apply throughout_if; [exact Q|apply throughout_dyn]. Qed.
Lemma throughout_when b h : throughout h -> throughout (when b h).
Proof. intros Q. apply throughout_if; [exact Q|apply throughout_nothing]. Qed.
Lemma throughout_each {X} (l : list X) f : (forall i x, throughout (f i x)) -> throughout (each l f).
Proof.
  intros H. unfold each. generalize 0%nat. induction l as [|x l IH]; intros i; [apply throughout_nothing|].
  apply throughout_fragment. apply Forall_cons; [apply H|]. apply Forall_cons; [apply IH|apply Forall_nil].
Qed.

End Throughout.

Create HintDb throughout.
#[export] Hint Resolve throughout_txt throughout_nothing throughout_text_of throughout_fixed throughout_dyn throughout_field : throughout.

(** [here] decides the predicate at an element. *)
Ltac throughout here :=
  repeat first
    [ solve [eauto 1 with throughout]
    | apply throughout_el; [solve [here]|] | apply throughout_fragment | apply throughout_cond | apply throughout_when
    | apply throughout_each; intros | apply throughout_if | apply throughout_bind; intros | apply Forall_nil | apply Forall_cons ].

(** A view without handlers. *)
Definition is_val {A} (p : string * attr A) : bool := match snd p with Val _ => true | _ => false end.
Definition passive {A} (h : html A) : Prop := throughout (forallb is_val) h.

Lemma static_happens {A} d (up : list A) n : every (forallb is_val) n = true -> forall e, In e (happenings d up n) -> e = Clicked up.
Proof.
  assert (forall attrs, forallb is_val attrs = true -> heard d up attrs = up /\ entries (A := A) attrs = []) as V.
  { induction attrs as [|[k []] attrs IH]; cbn [forallb is_val snd andb]; try discriminate; [auto|exact IH]. }
  induction n as [s|tag attrs kids IH] using node_nested_ind; cbn [every happenings]; intros S e I; [destruct I|].
  apply andb_prop in S. destruct S as [Sa Sk]. destruct (disabled attrs); [destruct I|]. destruct (V attrs Sa) as [Eh Ee].
  rewrite Eh, Ee in I. destruct I as [<- | I]; [reflexivity|]. cbn [app] in I. apply in_flat_map in I. destruct I as (k & Ik & I).
  rewrite Forall_forall in IH. rewrite forallb_forall in Sk. exact (IH k Ik (Sk k Ik) e I).
Qed.

Lemma hears_passive {A} d (h : html A) : passive h -> hears d [] h [].
Proof.
  intros Q ns E e N. split; [|intros []]. intros I. apply in_flat_map in I. destruct I as (n & In_ & I). specialize (Q ns E).
  rewrite forallb_forall in Q. exact (N (static_happens d [] n (Q n In_) e I)).
Qed.

(** ** Boxes around parts *)

Section Boxes.
Context {A : Type}.

Lemma each_offers {X} (l : list X) (f : nat -> X -> html A) (g : X -> happening A) :
  (forall i x, hears Bubbling [] (f i x) [g x]) -> hears Bubbling [] (each l f) (map g l).
Proof.
  intros Hf. replace (map g l) with (flat_map (fun x => [g x]) l) by (induction l; cbn; congruence).
  apply hears_each. auto.
Qed.

(** An element without handlers. *)
Lemma hears_box tag attrs (kids : list (html A)) Ls :
  forallb is_val attrs = true -> disabled attrs = false -> Forall2 (hears Bubbling []) kids Ls -> hears Bubbling [] (el tag attrs kids) (List.concat Ls).
Proof.
  intros V D F.
  assert (heard Bubbling [] attrs = [] /\ entries attrs = []) as [Eh Ee].
  { clear D. induction attrs as [|[k []] attrs IH]; cbn [forallb is_val snd andb] in V; try discriminate V; [auto|exact (IH V)]. }
  eapply hears_iff; [apply hears_el; [exact D|rewrite Eh; exact F]|]. intros e N. rewrite Eh, Ee. cbn [app In]. intuition congruence.
Qed.

End Boxes.

Lemma if_same {X} (b : bool) (x : X) : (if b then x else x) = x.
Proof. destruct b; reflexivity. Qed.

(** The structure around parts with lemmas of their own. *)
Ltac boxes :=
  repeat first [solve [eauto 1 with hears] | apply hears_box; [reflexivity..|] | apply Forall2_nil | eapply Forall2_cons
               | eapply hears_fragment | eapply hears_bind; intros | eapply hears_cond | eapply hears_when ].

Ltac listed :=
  let e := fresh in let N := fresh in intros e N; cbn [List.concat app]; rewrite ?if_same, ?app_nil_r, ?app_assoc, ?app_nil_r; cbn [List.concat app]; reflexivity.

(** A control around parts without handlers. *)
Lemma hears_pressed {A} tag attrs (kids : list (html A)) acts :
  disabled attrs = false -> heard Bubbling [] attrs = acts -> entries attrs = [] -> Forall passive kids -> hears Bubbling [] (el tag attrs kids) [Clicked acts].
Proof.
  intros D Ha He F ns E e N. unfold el in E. destruct (fragment kids) as [ks|] eqn:Ek; [|discriminate E]. injection E as <-.
  cbn [flat_map happenings]. rewrite D, Ha, He, app_nil_r. cbn [app In]. split; [|tauto]. intros [<-|I]; [auto|]. left. symmetry.
  apply in_flat_map in I as (k & Ik & I). pose proof (throughout_fragment _ _ F ks Ek) as S. rewrite forallb_forall in S.
  exact (static_happens Bubbling acts k (S k Ik) e I).
Qed.

Ltac passives := repeat first [apply Forall_nil | apply Forall_cons; [red; throughout ltac:(reflexivity)|]].

Ltac pressed := apply hears_pressed; [reflexivity|first [reflexivity|apply app_nil_r]|reflexivity|cbn [app]; passives].

Lemma button_hears {A} classes (acts : list A) label : hears Bubbling [] (el "button" [cls classes; onClick acts] [txt label]) [Clicked acts].
Proof. pressed. Qed.

(** ** Whether a view can be shown *)

Definition orelse {X} (a b : option X) : option X := match a with Some _ => a | None => b end.

Section Outcome.
Context {A : Type}.

(** The error a view throws. *)
Definition outcome (h : html A) : option jserr := match h with Ok _ => None | Throw e => Some e end.

Lemma outcome_txt s : outcome (txt s) = None.
Proof. reflexivity. Qed.
Lemma outcome_nothing : outcome nothing = None.
Proof. reflexivity. Qed.
Lemma outcome_nil : outcome (fragment []) = None.
Proof. reflexivity. Qed.
Lemma outcome_cons h hs : outcome (fragment (h :: hs)) = orelse (outcome h) (outcome (fragment hs)).
Proof. cbn [fragment]. destruct h; [|reflexivity]. cbn [res_bind]. destruct (fragment hs); reflexivity. Qed.
Lemma outcome_el tag attrs kids : outcome (el tag attrs kids) = outcome (fragment kids).
Proof. unfold el. destruct (fragment kids); reflexivity. Qed.
Lemma outcome_cond v h : outcome (cond v h) = if truthy v then outcome h else None.
Proof. unfold cond. destruct (truthy v) eqn:T; [reflexivity|]. destruct v; try reflexivity; discriminate T. Qed.
Lemma outcome_when b h : outcome (when b h) = if b then outcome h else None.
Proof. destruct b; reflexivity. Qed.
Lemma outcome_if (b : bool) h1 h2 : outcome (if b then h1 else h2) = if b then outcome h1 else outcome h2.
Proof. destruct b; reflexivity. Qed.
Lemma outcome_each {X} (l : list X) f g :
  (forall i x, outcome (f i x) = outcome (g i x)) -> outcome (each l f) = outcome (each l g).
Proof.
  intros H. unfold each. generalize 0%nat. induction l as [|x l IH]; intros i; [reflexivity|].
  cbn [each_from]. rewrite !outcome_cons, H, IH. reflexivity.
Qed.
Lemma outcome_each_none {X} (l : list X) f : (forall i x, In x l -> outcome (f i x) = None) -> outcome (each l f) = None.
Proof.
  unfold each. generalize 0%nat. induction l as [|x l IH]; intros i H; [reflexivity|].
  cbn [each_from]. rewrite !outcome_cons, (H i x (or_introl eq_refl)), IH; [reflexivity|].
  intros j y I. apply H. right. exact I.
Qed.
Lemma outcome_bind {X} (r : result X) k k' : (forall x, r = Ok x -> outcome (k x) = outcome (k' x)) -> outcome (res_bind r k) = outcome (res_bind r k').
Proof. intros H. destruct r; [apply H|]; reflexivity. Qed.

End Outcome.

Lemma orelse_both {X} (a b : option X) : orelse a b = None <-> a = None /\ b = None.
Proof. destruct a; cbn; intuition congruence. Qed.
Lemma outcome_shown {A} (h : html A) : outcome h = None -> exists ns, h = Ok ns.
Proof. destruct h; [eauto|discriminate]. Qed.
Lemma orelse_none {X} (a : option X) : orelse a None = a.
Proof. destruct a; reflexivity. Qed.
Lemma orelse_assoc {X} (a b c : option X) : orelse (orelse a b) c = orelse a (orelse b c).
Proof. destruct a; reflexivity. Qed.
Lemma if_none {X} (b : bool) : (if b then @None X else None) = None.
Proof. destruct b; reflexivity. Qed.

Create Rewrite HintDb outcome.
#[export] Hint Rewrite @outcome_txt @outcome_nothing @outcome_nil @outcome_cons @outcome_el @outcome_cond @outcome_when @outcome_if
  @orelse_none @orelse_assoc @if_none : outcome.

(** ** What the elements of a view carry, in their order *)

Section Gather.
Context {A X : Type} (g : list (string * attr A) -> list X).

Fixpoint gather (n : node A) : list X := match n with Txt _ => [] | El _ attrs kids => g attrs ++ flat_map gather kids end.

Definition gathers (h : html A) (L : list X) : Prop := forall ns, h = Ok ns -> flat_map gather ns = L.

Lemma gathers_eq h L L' : gathers h L -> L = L' -> gathers h L'.
Proof. intros H <-. exact H. Qed.

Lemma gathers_fragment hs Ls : Forall2 gathers hs Ls -> gathers (fragment hs) (List.concat Ls).
Proof.
  intros F ns E. destruct (fragment_ok hs ns E) as (nss & G & ->). clear E. revert nss G.
  induction F as [|h L hs Ls Hh _ IH]; intros nss G; inversion G as [|h0 n hs0 nss' En G' E0 E1]; cbn [List.concat flat_map]; [reflexivity|].
  rewrite flat_map_app, (Hh n En), (IH nss' G'). reflexivity.
Qed.

Lemma gathers_el tag attrs kids Ls : Forall2 gathers kids Ls -> gathers (el tag attrs kids) (g attrs ++ List.concat Ls).
Proof.
  intros F ns E. unfold el in E. destruct (fragment kids) as [ks|] eqn:Ek; [|discriminate E]. injection E as <-.
  cbn [flat_map gather]. rewrite app_nil_r, (gathers_fragment _ _ F ks Ek). reflexivity.
Qed.

Lemma gathers_nothing : gathers nothing [].
Proof. intros ns [= <-]. reflexivity. Qed.

Lemma gathers_when b h L : gathers h L -> gathers (when b h) (if b then L else []).
Proof. intros H. destruct b; [exact H|apply gathers_nothing]. Qed.

Lemma gathers_bind {Y} (r : result Y) k L : (forall x, gathers (k x) L) -> gathers (res_bind r k) L.
Proof. intros H ns E. destruct r as [x|]; [|discriminate E]. exact (H x ns E). Qed.

Lemma gathers_each {Y} (l : list Y) f L : (forall i x, gathers (f i x) (L x)) -> gathers (each l f) (flat_map L l).
Proof.
  intros H. unfold each. generalize 0%nat. induction l as [|x l IH]; intros i; [apply gathers_nothing|].
  cbn [each_from flat_map]. replace (L x ++ flat_map L l)%list with (List.concat [L x; flat_map L l]) by (cbn; rewrite app_nil_r; reflexivity).
  apply gathers_fragment, Forall2_cons, Forall2_cons, Forall2_nil; auto.
Qed.

Definition carries_none (attrs : list (string * attr A)) : bool := match g attrs with [] => true | _ => false end.

Lemma gathers_none h : throughout carries_none h -> gathers h [].
Proof.
  intros T ns E. specialize (T ns E). clear E.
  assert (forall n, every carries_none n = true -> gather n = []) as None_.
  { induction n as [s|tag attrs kids IH] using node_nested_ind; cbn [every gather]; intros H; [reflexivity|].
    apply andb_prop in H. destruct H as [Ha Hk]. unfold carries_none in Ha. destruct (g attrs); [|discriminate Ha].
    induction IH as [|k kids Hk1 _ IHk]; [reflexivity|]. cbn [forallb] in Hk. apply andb_prop in Hk. destruct Hk as [K1 K2].
    cbn [flat_map]. rewrite (Hk1 K1). apply IHk, K2. }
  induction ns as [|n ns IH]; [reflexivity|]. cbn [forallb flat_map] in *. apply andb_prop in T. destruct T as [T1 T2].
  rewrite (None_ n T1). apply IH, T2.
Qed.

End Gather.

(** ** Reading views *)

(** The tree of a view that does not throw. *)
Definition shown {A} (h : html A) : list (node A) := match h with Ok ns => ns | Throw _ => [] end.

Section Read.
Context {A : Type}.

Fixpoint subnodes (n : node A) : list (node A) := n :: match n with Txt _ => [] | El _ _ kids => flat_map subnodes kids end.

(** The text an element shows. *)
Fixpoint textContent (n : node A) : string :=
  match n with Txt s => s | El _ _ kids => fold_right (fun k s => textContent k ++ s) EmptyString kids end.

Definition has_class (c : string) (n : node A) : bool := match n with El _ attrs _ => is_str (attr_of "className" attrs) c | Txt _ => false end.

Definition by_class (c : string) (ns : list (node A)) : list (node A) := filter (has_class c) (flat_map subnodes ns).

(** Every attribute in a view. *)
Definition attributes (ns : list (node A)) : list (string * attr A) :=
  flat_map (fun n => match n with El _ attrs _ => attrs | Txt _ => [] end) (flat_map subnodes ns).

End Read.
