(* ===== verification/Payments.v ===== *)
(** * Price quotes and payments shared by the monetization systems

    The three monetization classes of src/sdk-core/smart-contract-toolkit
    (token, NFT and bundle) are written from the same pieces: a catalogue of
    add-ons summed into a quote, and three payment procedures that differ in
    the contract method called, in where the amount is read and in the text
    of the failure.  Those pieces are here, with their theory:

    - the sum over the selected add-ons is exact ([add_addOns_sum]);
    - every payment procedure either returns after a charge was accepted or
      throws its own failure ([pays], [quiet]). *)

From Stdlib Require Import ZArith Bool List String Lia.
From S2P Require Import Prelude JsNum JsNumFacts JsVal JsFormat JsMonad.
Import ListNotations.
Local Open Scope string_scope.

(** ** The add-on catalogue *)

Definition addOn (name : string) (priceUSD : Z) (description : string) : jsval :=
  VObj [("name", VStr name); ("priceUSD", vnum priceUSD); ("description", VStr description)].

(** The body of the [forEach] over the selected add-ons: the running USD
    total and the details pushed so far. *)
Definition add_addOn (premiumAddOns : list (string * jsval)) (shahPrice : jsval)
    (acc : jsval * list jsval) (addOnKey : jsval) : jsval * list jsval :=
  let '(addOnsTotalUSD, addOnsDetails) := acc in
  let addOn := obj_get premiumAddOns (to_str addOnKey) in
  if truthy addOn then
    let priceUSD := get_opt addOn "priceUSD" in
    (js_add addOnsTotalUSD priceUSD,
     addOnsDetails ++
       [VObj [("key", addOnKey); ("name", get_opt addOn "name"); ("priceUSD", priceUSD);
              ("priceSHAH", js_div priceUSD shahPrice)]])%list
  else acc.

(** ** Payment procedures *)

Section Procedures.
Context `{Env} {S : Type}.

Definition payment_failed (prefix : string) (e : jserr) : jserr :=
  Error (prefix ++ e_msg e).

Definition rpc_url : jsval := VStr "https://rpc.shah.vip".

Definition connect_signer : JS S jsval :=
  let* provider := ext "new ethers.providers.JsonRpcProvider" [rpc_url] in
  ext "provider.getSigner" [provider].

Definition shah_factory (signer : jsval) : JS S jsval :=
  let* address := ext "SHAHFACTORY_ADDRESS" [] in
  let* abi := ext "SHAHFACTORY_ABI" [] in
  ext "new ethers.Contract" [address; abi; signer].

(** Native SHAH: one transaction [payMethod] carrying the parsed amount. *)
Definition shah_payment (payMethod failure : string) (amountText : result string)
    (done : jsval -> result jsval) : JS S jsval :=
  try_catch
    (let* signer := connect_signer in
     let* shahFactory := shah_factory signer in
     let* text := lift amountText in
     let* value := ext "ethers.utils.parseEther" [VStr text] in
     let* tx := ext payMethod [shahFactory; VObj [("value", value)]] in
     let* receipt := ext "tx.wait" [tx] in
     let* hash := lift (get receipt "transactionHash") in
     lift (done hash))
    (fun e => throw (payment_failed failure e)).

(** SHAHtoken: an [approve], then one transaction [payMethod]. *)
Definition shah_token_payment (payMethod failure : string) (amountText : result string)
    (done : jsval -> result jsval) : JS S jsval :=
  try_catch
    (let* signer := connect_signer in
     let* tokenAddress := ext "SHAHTOKEN_ADDRESS" [] in
     let* erc20 := ext "ERC20_ABI" [] in
     let* shahToken := ext "new ethers.Contract" [tokenAddress; erc20; signer] in
     let* text := lift amountText in
     let* shahTokenAmount := ext "ethers.utils.parseEther" [VStr text] in
     let* factory := ext "SHAHFACTORY_ADDRESS" [] in
     let* _ := ext "shahToken.approve" [shahToken; factory; shahTokenAmount] in
     let* shahFactory := shah_factory signer in
     let* tx := ext payMethod [shahFactory; shahTokenAmount] in
     let* receipt := ext "tx.wait" [tx] in
     let* hash := lift (get receipt "transactionHash") in
     lift (done hash))
    (fun e => throw (payment_failed failure e)).

(** [Math.round(usd * 100)]. *)
Definition cents (usd : jsval) : jsval :=
  VNum (Num.round (to_num (js_mul usd (vnum 100)))).

(** Card payment: a payment intent whose request body is [body], then its
    confirmation. *)
Definition stripe_payment (publicKey : jsval) (url failure payer : string)
    (body : result jsval) (done : jsval -> result jsval) : JS S jsval :=
  try_catch
    (let* stripe := ext "Stripe" [publicKey] in
     let* payload := lift body in
     let* response := fetch [VStr url;
        VObj [("method", VStr "POST");
              ("headers", VObj [("Content-Type", VStr "application/json")]);
              ("body", stringify payload)]] in
     let* reply := response_json response in
     let* clientSecret := lift (destructure reply "clientSecret") in
     let* card := ext "elements.getElement" [VStr "card"] in
     let* outcome := ext "stripe.confirmCardPayment" [stripe; clientSecret;
        VObj [("payment_method",
               VObj [("card", card);
                     ("billing_details", VObj [("name", VStr payer)])])]] in
     let* error := lift (destructure outcome "error") in
     let* paymentIntent := lift (destructure outcome "paymentIntent") in
     if truthy error then
       let* m := lift (get error "message") in throw (error_of m)
     else
       let* id := lift (get paymentIntent "id") in
       lift (done id))
    (fun e => throw (payment_failed failure e)).

(** A whole number of dollars is that many hundreds of cents. *)
Lemma cents_vnum z : (0 <= z <= 2 ^ 45)%Z -> cents (vnum z) = vnum (100 * z).
Proof.
  intros Hz. unfold cents, js_mul, vnum. cbn [to_num].
  rewrite mul_of_Z by (unfold safe, prec; lia).
  rewrite round_of_Z by (unfold safe, prec; lia). do 2 f_equal. lia.
Qed.

(** The record kept of a payment.  [this.saveToDatabase] is defined by none
    of the classes: the call throws, the handler swallows the error and the
    method returns [undefined]. *)
Definition save_payment (paymentResult : jsval)
    (record : jsval -> jsval -> jsval -> jsval -> jsval) : JS S jsval :=
  try_catch
    (let* timestamp := iso_now in
     let* method := lift (get paymentResult "method") in
     let* amount := lift (get paymentResult "amount") in
     let* txHash := lift (get paymentResult "txHash") in
     let* reference := lift (if truthy txHash then Ok txHash
                             else get paymentResult "paymentIntentId") in
     let paymentData := record timestamp method amount reference in
     call_missing "this.saveToDatabase" ;;;
     ret paymentData)
    (fun _ => ret VUndef).

(** [getShahPrice] of the three classes. *)
Definition shah_price (config : list (string * jsval)) : JS S jsval :=
  try_catch
    (let* response := fetch [obj_get config "shahSwapAPI"] in
     let* data := response_json response in
     let* shah := lift (get data "shah") in
     lift (get shah "usd"))
    (fun _ => throw (Error "Unable to fetch current SHAH price")).

End Procedures.

Definition push_if (c : bool) (msg : string) : list string := if c then [msg] else [].

(** A required text field: [!v || v.length < 1]. *)
Definition missing_text (v : jsval) : bool :=
  negb (truthy v) || js_lt (get_opt v "length") (vnum 1).

(** ** The sum of the add-ons *)

(** Reference: the USD price of a key in a catalogue, zero when absent. *)
Definition catalog_usd (cat : list (string * Z)) (k : string) : Z :=
  match assoc String.eqb k cat with Some p => p | None => 0%Z end.

Definition catalog_total (cat : list (string * Z)) (keys : list string) : Z :=
  fold_right (fun k z => (catalog_usd cat k + z)%Z) 0%Z keys.

(** The prices of an add-on table, which holds entries built by [addOn]. *)
Definition priced (premiumAddOns : list (string * jsval)) (cat : list (string * Z)) : Prop :=
  Forall2 (fun '(k, v) '(k', p) => k = k' /\ (0 <= p <= 1000)%Z
             /\ exists name desc, v = addOn name p desc) premiumAddOns cat.

Lemma priced_lookup addOns cat k :
  priced addOns cat ->
  match own addOns k with
  | Some v => exists p name desc, v = addOn name p desc /\ catalog_usd cat k = p /\ (0 <= p <= 1000)%Z
  | None => catalog_usd cat k = 0%Z
  end.
Proof.
  unfold own, catalog_usd. induction 1 as [|[k1 v] [k2 p] l l' (<- & Hp & name & desc & ->) Hl IH]; cbn.
  - reflexivity.
  - destruct (k =? k1); [|exact IH]. exists p, name, desc. auto.
Qed.

Lemma js_lt_vnum a b : safe a -> safe b -> js_lt (vnum a) (vnum b) = (a <? b)%Z.
Proof. intros. unfold js_lt, vnum. cbn. apply ltb_of_Z; assumption. Qed.

Lemma js_le_vnum a b : safe a -> safe b -> js_le (vnum a) (vnum b) = (a <=? b)%Z.
Proof. intros. unfold js_le, vnum. cbn. apply leb_of_Z; assumption. Qed.

Lemma missing_text_str s : safe (Z.of_nat (String.length s)) -> missing_text (VStr s) = (s =? EmptyString).
Proof.
  intros Hs. unfold missing_text. cbn [get_opt get truthy]. cbn [String.eqb Ascii.eqb Bool.eqb].
  change (VNum (Num.of_Z (Z.of_nat (String.length s)))) with (vnum (Z.of_nat (String.length s))).
  rewrite js_lt_vnum by (exact Hs || reflexivity). destruct s as [|c s]; [reflexivity|].
  cbn [String.eqb negb orb String.length]. destruct (Z.ltb_spec (Z.of_nat (S (String.length s))) 1); [lia|reflexivity].
Qed.

Lemma push_if_nil c msg : push_if c msg = [] <-> c = false.
Proof. destruct c; cbn; split; congruence. Qed.

Lemma catalog_usd_bounds addOns cat k : priced addOns cat -> (0 <= catalog_usd cat k <= 1000)%Z.
Proof.
  intros Hp. pose proof (priced_lookup addOns cat k Hp) as H.
  destruct (own addOns k); [destruct H as (p & n & d & _ & -> & ?); assumption | lia].
Qed.

Lemma catalog_total_bounds addOns cat keys :
  priced addOns cat -> (0 <= catalog_total cat keys <= 1000 * Z.of_nat (List.length keys))%Z.
Proof.
  intros Hp. induction keys as [|k keys IH]; [cbn; lia|].
  pose proof (catalog_usd_bounds addOns cat k Hp).
  cbn [catalog_total fold_right List.length]. fold (catalog_total cat keys). lia.
Qed.

(** Bound on the number of selected keys that keeps every sum exact. *)
Definition max_keys : Z := (2 ^ 40)%Z.

(** One key, known or not, adds its catalogue price. *)
Lemma add_addOn_sum addOns cat p a ds k :
  priced addOns cat -> ~ In k object_prototype ->
  safe a -> safe (a + catalog_usd cat k) ->
  fst (add_addOn addOns p (vnum a, ds) (VStr k)) = vnum (a + catalog_usd cat k).
Proof.
  intros Hp Hk Ha Hs. cbn [add_addOn to_str]. unfold obj_get.
  pose proof (priced_lookup addOns cat k Hp) as HL.
  destruct (own addOns k) as [v|].
  - destruct HL as (q & n & d & -> & E & B). cbn. rewrite <- E. apply js_add_vnum; try assumption.
    unfold safe, prec. rewrite E. lia.
  - rewrite HL. unfold inherited. destruct (mem_string k object_prototype) eqn:E.
    + apply mem_string_In in E. contradiction.
    + cbn. rewrite Z.add_0_r. reflexivity.
Qed.

(** The whole loop: the total is the exact sum of the catalogue prices. *)
Lemma add_addOns_sum addOns cat p keys a ds :
  priced addOns cat -> Forall (fun k => ~ In k object_prototype) keys ->
  (0 <= a)%Z -> (a + 1000 * Z.of_nat (List.length keys) < 2 ^ prec)%Z ->
  fst (fold_left (add_addOn addOns p) (map VStr keys) (vnum a, ds))
  = vnum (a + catalog_total cat keys).
Proof.
  intros Hp Hk. revert a ds. induction Hk as [|k keys Hk Hks IH]; intros a ds Ha Hb.
  - cbn. rewrite Z.add_0_r. reflexivity.
  - cbn [map fold_left catalog_total fold_right]. fold (catalog_total cat keys).
    pose proof (catalog_usd_bounds addOns cat k Hp) as Hu.
    cbn [List.length] in Hb.
    destruct (add_addOn addOns p (vnum a, ds) (VStr k)) as [a' ds'] eqn:E.
    pose proof (add_addOn_sum addOns cat p a ds k Hp Hk) as Hs. rewrite E in Hs. cbn [fst] in Hs.
    rewrite Hs by (unfold safe; lia). rewrite IH by lia. f_equal. lia.
Qed.

(** ** Charges and deployments in the trace *)

(** The contract methods that move the fee. *)
Definition charge_ops : list string :=
  ["shahFactory.payTokenCreationFee"; "shahFactory.payNFTCreationFee";
   "shahFactory.payWithShahToken"; "shahFactory.payBundleCreationFee";
   "shahFactory.payBundleWithShahToken"].

(** A fee transaction was accepted, or a card payment was confirmed without
    an [error] field. *)
Definition charged (e : event) : bool :=
  match ev_res e with
  | Ok v => mem_string (ev_op e) charge_ops
            || ((ev_op e =? "stripe.confirmCardPayment") && negb (truthy (get_opt v "error")))
  | Throw _ => false
  end.

(** A contract deployment was requested. *)
Definition deploying (e : event) : bool :=
  mem_string (ev_op e) ["shahFactory.deployToken"; "shahFactory.deployNFT"].

Definition charges (t : trace) : nat := List.length (filter charged t).
Definition deploys (t : trace) : nat := List.length (filter deploying t).

Lemma charges_cons e t : charges (e :: t) = ((if charged e then 1 else 0) + charges t)%nat.
Proof. unfold charges. cbn [filter]. destruct (charged e); reflexivity. Qed.

Lemma deploys_cons e t : deploys (e :: t) = ((if deploying e then 1 else 0) + deploys t)%nat.
Proof. unfold deploys. cbn [filter]. destruct (deploying e); reflexivity. Qed.

Section Effects.
Context {St A : Type}.

(** The computation leaves the client state, the charges and the
    deployments alone, whether it returns or throws. *)
Definition quiet (m : JS St A) : Prop :=
  forall s t,
    wp m (fun _ s' t' => s' = s /\ charges t' = charges t /\ deploys t' = deploys t)
         (fun _ s' t' => s' = s /\ charges t' = charges t /\ deploys t' = deploys t) s t.

(** The computation is a payment: it returns only after exactly one accepted
    charge, throws after at most one, and deploys nothing. *)
Definition pays (m : JS St A) : Prop :=
  forall s t,
    wp m (fun _ s' t' => s' = s /\ charges t' = S (charges t) /\ deploys t' = deploys t)
         (fun _ s' t' => s' = s /\ (charges t <= charges t' <= S (charges t))%nat
                         /\ deploys t' = deploys t) s t.

End Effects.

(** Verification conditions whose leaves compare the counters of concrete
    extensions of a trace. *)
Ltac count_events :=
  cbv zeta; repeat split; try reflexivity;
  repeat (rewrite charges_cons || rewrite deploys_cons);
  cbn -[charges deploys truthy get_opt Nat.le]; try lia.

(** The payment method is one of the concrete contract calls. *)
Ltac charge_cases Hm :=
  apply mem_string_In in Hm; cbn [charge_ops In] in Hm;
  repeat (destruct Hm as [<- | Hm]); [.. | contradiction].

Section Procedure_specs.
Context `{Env} {St : Type}.

(** The last two events of [t'] are a query of the configured price service
    and an answer that carries [price] under [shah.usd]. *)
Definition oracle_quoted (config : list (string * jsval)) (t t' : trace) (price : jsval) : Prop :=
  exists resp data,
    t' = Ev "Response.json" [resp] (Ok data)
         :: Ev "fetch" [obj_get config "shahSwapAPI"] (Ok resp) :: t
    /\ res_bind (get data "shah") (fun shah => get shah "usd") = Ok price.

Lemma shah_price_spec config (s : St) t :
  wp (shah_price config)
    (fun price s' t' => s' = s /\ oracle_quoted config t t' price)
    (fun e s' _ => s' = s /\ e = Error "Unable to fetch current SHAH price") s t.
Proof.
  unfold shah_price. wp_auto; try (split; reflexivity).
  split; [reflexivity|]. do 2 eexists. split; [reflexivity|].
  match goal with E : get _ "shah" = Ok _ |- _ => rewrite E end. assumption.
Qed.

Lemma shah_price_quiet config : quiet (St := St) (shah_price config).
Proof. intros s t. unfold shah_price. wp_auto; count_events. Qed.

Lemma save_payment_quiet r record :
  forall (s : St) t, wp (save_payment r record)
    (fun v s' t' => v = VUndef /\ s' = s /\ charges t' = charges t /\ deploys t' = deploys t)
    (fun _ _ _ => False) s t.
Proof. intros s t. unfold save_payment. wp_auto; count_events. Qed.

Lemma shah_payment_pays m failure text done :
  mem_string m charge_ops = true ->
  pays (St := St) (shah_payment m failure text done).
Proof.
  intros Hm s t. unfold shah_payment, connect_signer, shah_factory.
  charge_cases Hm; wp_auto; count_events.
Qed.

Lemma shah_token_payment_pays m failure text done :
  mem_string m charge_ops = true ->
  pays (St := St) (shah_token_payment m failure text done).
Proof.
  intros Hm s t. unfold shah_token_payment, connect_signer, shah_factory.
  charge_cases Hm; wp_auto; count_events.
Qed.

(** A confirmation outcome with a falsy [error] is a charge. *)
Lemma charged_confirm args v x :
  destructure v "error" = Ok x ->
  charged (Ev "stripe.confirmCardPayment" args (Ok v)) = negb (truthy x).
Proof. intros E. apply destructure_ok in E. cbn. rewrite E. reflexivity. Qed.

Lemma stripe_payment_pays key url failure payer body done :
  pays (St := St) (stripe_payment key url failure payer body done).
Proof.
  intros s t. unfold stripe_payment. wp_auto; try (count_events; fail); repeat split;
    repeat (rewrite charges_cons || rewrite deploys_cons);
    repeat match goal with
    | |- context [charged (Ev "stripe.confirmCardPayment" ?a ?r)] =>
        first [erewrite charged_confirm by eassumption
              | destruct (charged (Ev "stripe.confirmCardPayment" a r))]
    end;
    repeat match goal with E : truthy _ = _ |- _ => rewrite E end;
    cbn -[charges deploys get_opt Nat.le]; try case_goal; lia.
Qed.

(** The request for a payment intent that carries [payload]. *)
Definition intent_request (url : string) (payload : jsval) : list jsval :=
  [VStr url;
   VObj [("method", VStr "POST");
         ("headers", VObj [("Content-Type", VStr "application/json")]);
         ("body", stringify payload)]].

(** A card payment that returns was made through an intent for [payload]. *)
Lemma stripe_payment_request key url failure payer payload done (s : St) t :
  wp (stripe_payment key url failure payer (Ok payload) done)
    (fun _ s' t' => s' = s /\ exists r, In (Ev "fetch" (intent_request url payload) r) t')
    (fun _ s' _ => s' = s) s t.
Proof.
  unfold stripe_payment, intent_request.
  wp_auto; try reflexivity; (split; [reflexivity|]); eexists; cbn [In];
    match goal with E : Ok payload = Ok ?x |- _ => injection E as <- end; eauto 10.
Qed.

(** A payment whose amount cannot be read is never charged and never
    returns. *)
Lemma shah_payment_no_amount m failure e done :
  quiet (St := St) (shah_payment m failure (Throw e) done)
  /\ always_throws (S := St) (shah_payment m failure (Throw e) done).
Proof.
  unfold shah_payment, connect_signer, shah_factory. split; intros s t.
  - wp_auto; try congruence; count_events.
  - wp_auto; congruence || exact I.
Qed.

Lemma shah_token_payment_no_amount m failure e done :
  quiet (St := St) (shah_token_payment m failure (Throw e) done)
  /\ always_throws (S := St) (shah_token_payment m failure (Throw e) done).
Proof.
  unfold shah_token_payment, connect_signer, shah_factory. split; intros s t.
  - wp_auto; try congruence; count_events.
  - wp_auto; congruence || exact I.
Qed.

End Procedure_specs.

(** *** Services that do their work *)

(** Nothing outside fails, the payment backend answers with an object, and
    the card is accepted. *)
Class CardLaws `{Env} : Prop := {
  answers : forall t op args, exists v, reply t op args = Ok v;
  backend_replies : forall t args, exists l, reply t "Response.json" args = Ok (VObj l);
  card_accepted : forall t args, exists l intent,
    reply t "stripe.confirmCardPayment" args = Ok (VObj l) /\ truthy (obj_get l "error") = false
    /\ obj_get l "paymentIntent" = VObj intent
}.

(** One step of a computation nothing outside of which throws. *)
Ltac live_step :=
  lazymatch goal with
  | |- wp (lift (Ok _)) _ _ _ _ => apply wp_lift_ok
  | |- wp (lift (get (VObj _) _)) _ _ _ _ => apply wp_lift_ok
  | |- wp (lift (destructure (VObj _) _)) _ _ _ _ => apply wp_lift_ok
  | |- wp (fetch _) _ _ _ _ => unfold fetch
  | |- wp (response_json ?r) _ _ _ ?t =>
      let R := fresh in destruct (backend_replies t [r]) as [? R]; apply (wp_ext_ok _ _ _ _ _ _ _ R); clear R
  | |- wp (ext ?op ?args) _ _ _ ?t =>
      let R := fresh in destruct (answers t op args) as [? R]; apply (wp_ext_ok _ _ _ _ _ _ _ R); clear R
  | _ => wp_step
  end.

Section Liveness.
Context `{CardLaws} {St : Type}.

Lemma stripe_payment_returns key url failure payer payload done (s : St) t :
  (forall id, exists v, done id = Ok v) ->
  wp (stripe_payment key url failure payer (Ok payload) done)
    (fun v s' _ => s' = s /\ exists id, done id = Ok v) (fun _ _ _ => False) s t.
Proof.
  intros Hd. unfold stripe_payment. do 14 live_step.
  match goal with |- wp (bind (ext "stripe.confirmCardPayment" ?a) _) _ _ _ ?t =>
    destruct (card_accepted t a) as (l & intent & R & Herr & Hint) end.
  wp_step. apply (wp_ext_ok _ _ _ _ _ _ _ R). do 4 live_step. rewrite Herr, Hint. do 2 live_step.
  match goal with |- wp (lift (done ?id)) _ _ _ _ => destruct (Hd id) as [w Hw]; rewrite Hw; live_step; eauto end.
Qed.

End Liveness.

(** ** What a monetization system promises its clients *)

Section Interface.
Context `{Env}.

(** The operations a creation session calls. *)
Record Monetization : Type := {
  getShahPrice : forall S, JS S jsval;
  validateConfig : jsval -> result (list string);
  calculateTotalPrice : forall S, jsval -> jsval -> JS S jsval;
  processPayment : forall S, jsval -> jsval -> jsval -> JS S jsval;
  savePaymentData : forall S, jsval -> jsval -> jsval -> JS S jsval
}.

(** Quoting and saving never move money; a payment that returns was charged
    exactly once; saving never throws. *)
Class MonetizationLaws (M : Monetization) : Prop := {
  price_quiet : forall S, quiet (getShahPrice M S);
  total_quiet : forall S keys options, quiet (calculateTotalPrice M S keys options);
  payment_pays : forall S method amount cfg, pays (processPayment M S method amount cfg);
  save_quiet : forall S r cfg addOns (s : S) t,
    wp (savePaymentData M S r cfg addOns)
      (fun _ s' t' => s' = s /\ charges t' = charges t /\ deploys t' = deploys t)
      (fun _ _ _ => False) s t
}.

End Interface.

(** ** A cooperating environment

    Every service answers; the price is two dollars.  The examples of the
    development run in it. *)
Definition coop : Env := {|
  reply := fun _ op _ =>
    if op =? "Response.json" then
      Ok (VObj [("shah", VObj [("usd", vnum 2)]); ("clientSecret", VStr "cs_1")])
    else if op =? "stripe.confirmCardPayment" then
      Ok (VObj [("paymentIntent", VObj [("id", VStr "pi_1")])])
    else if op =? "tx.wait" then
      Ok (VObj [("transactionHash", VStr "0xabc");
                ("events", VArr [VObj [("event", VStr "TokenDeployed");
                                       ("args", VObj [("tokenAddress", VStr "0x70")])];
                                 VObj [("event", VStr "NFTDeployed");
                                       ("args", VObj [("nftAddress", VStr "0x4e")])]])])
    else Ok (VObj []);
  clock := fun _ => Num.of_Z 1700000000000;
  random := fun _ => Num.dec 5 1
|}.
