(* ===== verification/TokenMonetization.v ===== *)
(** * Token creation monetization

    [TokenMonetizationSystem] of
    src/sdk-core/smart-contract-toolkit/token-monetization.js: tier fees,
    premium add-ons, the price quote and the three payment methods.  The
    object is immutable after construction, so its methods take it as an
    argument and run over any client state.  The price oracle, the ethers
    contracts and the Stripe client are the environment. *)

From Stdlib Require Import ZArith Bool List String Lia.
From S2P Require Import Prelude JsNum JsNumFacts JsVal JsFormat JsMonad Payments.
Import ListNotations.
Local Open Scope string_scope.

Module TokenMonetizationSystem.

Record t : Type := Build {
  config : list (string * jsval);
  premiumAddOns : list (string * jsval);
  paymentMethods : list (string * jsval)
}.

Definition premiumAddOns0 : list (string * jsval) :=
  [("customLogo", addOn "Custom Logo Upload" 10 "Upload your own logo for the token");
   ("verifiedBadge", addOn "Verified Badge" 20 "Get verified badge in ShahExplorer and Web Wallet");
   ("upgradeableContract", addOn "Upgradeable Contract" 15
      "Make your contract upgradeable for future improvements");
   ("airdropTool", addOn "Token Airdrop Tool" 8 "Built-in airdrop functionality for your token")].

Definition paymentMethods0 : list (string * jsval) :=
  [("shah", VStr "Native SHAH"); ("shahToken", VStr "SHAHtoken (SHI-20)");
   ("stripe", VStr "Credit Card (USD)")].

(** [new TokenMonetizationSystem(config)]. *)
Definition constructor (cfg : jsval) : result t :=
  let cfg := default cfg (VObj []) in
  res_bind (get cfg "stripePublicKey") (fun key =>
  Ok {| config := obj_spread
          [("baseFeeUSD", vnum 49); ("shahSwapAPI", VStr "https://api.shah.vip/price");
           ("stripePublicKey", key)]
          (spread_props cfg);
        premiumAddOns := premiumAddOns0;
        paymentMethods := paymentMethods0 |}).

Definition getTierUsd (tier : jsval) : num :=
  let tier := default tier (VStr "Basic") in
  if is_str tier "Premium" then Num.of_Z 129
  else if is_str tier "Pro" then Num.of_Z 79 else Num.of_Z 49.

Definition validateTokenConfig (config : jsval) : result (list string) :=
  res_bind (get config "name") (fun name =>
  res_bind (get config "symbol") (fun symbol =>
  res_bind (get config "decimals") (fun decimals =>
  res_bind (get config "maxSupply") (fun maxSupply =>
  Ok (push_if (missing_text name) "Token name is required" ++
      push_if (missing_text symbol) "Token symbol is required" ++
      push_if (js_lt decimals (vnum 0) || js_gt decimals (vnum 18))
              "Decimals must be between 0 and 18" ++
      push_if (js_le maxSupply (vnum 0)) "Max supply must be greater than 0")%list)))).

Section Methods.
Context `{Env} (this : t) {S : Type}.
Abbreviation JS := (JS S).

Definition getShahPrice : JS jsval := shah_price (config this).

Definition calculateUpgradePrice (currentTier newTier : jsval) : JS jsval :=
  let currentTier := default currentTier (VStr "Basic") in
  let newTier := default newTier (VStr "Pro") in
  let* shahPrice := getShahPrice in
  let usd := VNum (Num.max Num.zero (Num.sub (getTierUsd newTier) (getTierUsd currentTier))) in
  let shah := js_div usd shahPrice in
  ret (VObj [("usd", usd); ("shah", shah); ("shahPrice", shahPrice)]).

Definition calculateBaseFee (tier : jsval) : JS jsval :=
  let tier := default tier (VStr "Basic") in
  let* shahPrice := getShahPrice in
  let tierUsd := VNum (getTierUsd tier) in
  let baseFeeSHAH := js_div tierUsd shahPrice in
  ret (VObj [("usd", tierUsd); ("shah", baseFeeSHAH); ("shahPrice", shahPrice)]).

Definition calculateTotalPrice (selectedAddOns options : jsval) : JS jsval :=
  let selectedAddOns := default selectedAddOns (VArr []) in
  let options := default options (VObj []) in
  let tier := js_or (get_opt options "tier") (VStr "Basic") in
  let* baseFee := calculateBaseFee tier in
  let shahPrice := get_opt baseFee "shahPrice" in
  let* keys := lift (as_array "selectedAddOns" "forEach" selectedAddOns) in
  let '(addOnsTotalUSD, addOnsDetails) :=
    fold_left (add_addOn (premiumAddOns this) shahPrice) keys (vnum 0, []) in
  let totalUSD := js_add (get_opt baseFee "usd") addOnsTotalUSD in
  let totalSHAH := js_div totalUSD shahPrice in
  ret (VObj [("baseFee", baseFee); ("tier", tier); ("addOns", VArr addOnsDetails);
             ("totalUSD", totalUSD); ("totalSHAH", totalSHAH);
             ("breakdown", VObj [("base", get_opt baseFee "usd"); ("addOns", addOnsTotalUSD);
                                 ("total", totalUSD)])]).

(** [amount.shah.toString()]. *)
Definition shah_text (amount : jsval) : result string :=
  res_bind (get amount "shah") call_toString.

Definition processShahPayment (amount : jsval) : JS jsval :=
  shah_payment "shahFactory.payTokenCreationFee" "SHAH payment failed: " (shah_text amount)
    (fun hash => Ok (VObj [("success", VBool true); ("txHash", hash); ("method", VStr "shah");
                           ("amount", amount)])).

Definition processShahTokenPayment (amount : jsval) : JS jsval :=
  shah_token_payment "shahFactory.payWithShahToken" "SHAHtoken payment failed: " (shah_text amount)
    (fun hash => Ok (VObj [("success", VBool true); ("txHash", hash);
                           ("method", VStr "shahToken"); ("amount", amount)])).

(** The request for a payment intent: the rounded cents of the quote. *)
Definition intent_body (amount : jsval) : result jsval :=
  res_bind (get amount "totalUSD") (fun usd =>
  Ok (VObj [("amount", cents usd); ("currency", VStr "usd")])).

Definition processStripePayment (amount : jsval) : JS jsval :=
  stripe_payment (obj_get (config this) "stripePublicKey") "/api/create-payment-intent"
    "Stripe payment failed: " "Token Creator" (intent_body amount)
    (fun id => Ok (VObj [("success", VBool true); ("paymentIntentId", id);
                         ("method", VStr "stripe"); ("amount", amount)])).

Definition processPayment (paymentMethod amount tokenConfig : jsval) : JS jsval :=
  if is_str paymentMethod "shah" then processShahPayment amount
  else if is_str paymentMethod "shahToken" then processShahTokenPayment amount
  else if is_str paymentMethod "stripe" then processStripePayment amount
  else throw (Error "Invalid payment method").

Definition savePaymentData (paymentResult tokenConfig selectedAddOns : jsval) : JS jsval :=
  save_payment paymentResult (fun timestamp method amount reference =>
    VObj [("timestamp", timestamp); ("paymentMethod", method); ("amount", amount);
          ("tokenConfig", tokenConfig); ("selectedAddOns", selectedAddOns);
          ("txHash", reference); ("status", VStr "completed")]).

Definition getPremiumAddOns : list (string * jsval) := premiumAddOns this.
Definition getPaymentMethods : list (string * jsval) := paymentMethods this.

End Methods.

(** ** Properties *)

(** The price list the source comments on, in dollars. *)
Definition addOnUSD : list (string * Z) :=
  [("customLogo", 10%Z); ("verifiedBadge", 20%Z); ("upgradeableContract", 15%Z);
   ("airdropTool", 8%Z)].

Definition tierUSD (tier : string) : Z :=
  if tier =? "Premium" then 129 else if tier =? "Pro" then 79 else 49.

Lemma token_premiumAddOns_priced : priced premiumAddOns0 addOnUSD.
Proof.
  unfold premiumAddOns0, addOnUSD, priced.
  repeat (constructor; [split; [reflexivity|split; [lia|eauto]]|]); constructor.
Qed.

Lemma token_getTierUsd_str tier : getTierUsd (VStr tier) = Num.of_Z (tierUSD tier).
Proof.
  unfold getTierUsd, tierUSD. cbn [default is_str strict_eq].
  destruct (tier =? "Premium"), (tier =? "Pro"); reflexivity.
Qed.

Lemma token_tierUSD_range tier : (49 <= tierUSD tier <= 129)%Z.
Proof. unfold tierUSD. destruct (tier =? "Premium"), (tier =? "Pro"); lia. Qed.

Lemma token_constructor_addOns cfg this : constructor cfg = Ok this -> premiumAddOns this = premiumAddOns0.
Proof.
  unfold constructor. destruct (get (default cfg (VObj [])) "stripePublicKey"); cbn; [|discriminate].
  intros [= <-]. reflexivity.
Qed.

Section Quotes.
Context `{Env} {S : Type} (this : t).
Hypothesis addOns_eq : premiumAddOns this = premiumAddOns0.

Lemma token_calculateBaseFee_spec tier (s : S) t :
  wp (calculateBaseFee this tier)
    (fun fee s' t' => s' = s /\ exists price, oracle_quoted (config this) t t' price
       /\ fee = VObj [("usd", VNum (getTierUsd tier)); ("shah", js_div (VNum (getTierUsd tier)) price);
                      ("shahPrice", price)])
    (fun e s' _ => s' = s /\ e = Error "Unable to fetch current SHAH price") s t.
Proof.
  unfold calculateBaseFee, getShahPrice. apply wp_bind.
  eapply wp_mono; [..|apply shah_price_spec]; cbn beta; [|auto].
  intros price s' t' (-> & Hq). apply wp_ret. split; [reflexivity|]. exists price.
  split; [exact Hq|]. destruct tier; reflexivity.
Qed.

(** The quote for a tier and a list of add-on keys (known or unknown, with
    repetitions): the totals are the exact sums of the published prices. *)
Lemma token_calculateTotalPrice_spec keys tier (s : S) t :
  Forall (fun k => ~ In k object_prototype) keys ->
  (Z.of_nat (List.length keys) <= max_keys)%Z -> tier <> EmptyString ->
  let addOnsUSD := catalog_total addOnUSD keys in
  let totalUSD := (tierUSD tier + addOnsUSD)%Z in
  wp (calculateTotalPrice this (VArr (map VStr keys)) (VObj [("tier", VStr tier)]))
    (fun quote s' t' => s' = s /\ exists price, oracle_quoted (config this) t t' price
       /\ get_opt quote "tier" = VStr tier
       /\ get_opt quote "totalUSD" = vnum totalUSD
       /\ get_opt quote "totalSHAH" = js_div (vnum totalUSD) price
       /\ get_opt quote "breakdown" =
            VObj [("base", vnum (tierUSD tier)); ("addOns", vnum addOnsUSD); ("total", vnum totalUSD)]
       /\ get_opt quote "shah" = VUndef)
    (fun e s' _ => s' = s /\ e = Error "Unable to fetch current SHAH price") s t.
Proof.
  intros Hk Hn Ht addOnsUSD totalUSD. unfold calculateTotalPrice.
  cbn [default get_opt get obj_get own assoc String.eqb Ascii.eqb Bool.eqb].
  rewrite js_or_str by exact Ht. apply wp_bind. eapply wp_mono; [..|apply token_calculateBaseFee_spec]; cbn beta; [|auto].
  intros fee s' t' (-> & price & Hq & ->). rewrite token_getTierUsd_str.
  cbn [get_opt get obj_get own assoc String.eqb Ascii.eqb Bool.eqb]. rewrite addOns_eq.
  apply wp_bind, wp_lift; [intros ? [= <-] | discriminate].
  pose proof (add_addOns_sum premiumAddOns0 addOnUSD price keys 0 [] token_premiumAddOns_priced Hk) as Hs.
  destruct (fold_left _ _ _) as [total details]. cbn [fst] in Hs.
  pose proof (catalog_total_bounds _ _ keys token_premiumAddOns_priced) as Hb.
  pose proof (token_tierUSD_range tier). unfold max_keys in Hn.
  rewrite Hs by (unfold prec; lia). apply wp_ret. split; [reflexivity|]. exists price.
  change (VNum (Num.of_Z (tierUSD tier))) with (vnum (tierUSD tier)).
  rewrite js_add_vnum by (unfold safe, prec; lia). auto 10.
Qed.

Lemma token_calculateTotalPrice_quiet keys options : quiet (St := S) (calculateTotalPrice this keys options).
Proof.
  intros s t. unfold calculateTotalPrice, calculateBaseFee, getShahPrice, shah_price.
  wp_auto; count_events.
Qed.

(** A quote has no [shah] property, the one the two SHAH payments read. *)
Lemma token_calculateTotalPrice_no_shah keys options (s : S) t :
  wp (calculateTotalPrice this keys options)
    (fun quote _ _ => shah_text quote = Throw (cannot_read "undefined" "toString"))
    (fun _ _ _ => True) s t.
Proof.
  unfold calculateTotalPrice, calculateBaseFee, getShahPrice, shah_price.
  wp_auto; exact I || reflexivity.
Qed.

End Quotes.

(** ** The interface to creation sessions *)

Section Instance.
Context `{Env} (this : t).

Definition monetization : Monetization := {|
  Payments.getShahPrice := fun S => @getShahPrice _ this S;
  validateConfig := validateTokenConfig;
  Payments.calculateTotalPrice := fun S => @calculateTotalPrice _ this S;
  Payments.processPayment := fun S => @processPayment _ this S;
  Payments.savePaymentData := fun S => @savePaymentData _ S
|}.

#[global] Instance token_monetization_laws : MonetizationLaws monetization.
Proof.
  split; cbn.
  - intros S. apply shah_price_quiet.
  - intros S keys options. apply token_calculateTotalPrice_quiet.
  - intros S method amount cfg. unfold processPayment.
    destruct (is_str method "shah"); [apply shah_payment_pays; reflexivity|].
    destruct (is_str method "shahToken"); [apply shah_token_payment_pays; reflexivity|].
    destruct (is_str method "stripe"); [apply stripe_payment_pays|].
    intros s t. apply wp_throw. auto with arith.
  - intros S r cfg addOns s t. eapply wp_mono; [..|apply save_payment_quiet]; cbn; intuition.
Qed.

End Instance.

(** ** Theorems *)


Definition default_system : t :=
  Build [("baseFeeUSD", vnum 49); ("shahSwapAPI", VStr "https://api.shah.vip/price"); ("stripePublicKey", VUndef)]
    premiumAddOns0 paymentMethods0.


(** A card payment is for the quoted amount: when paying a quote by card
    returns, a payment intent was requested for exactly one hundred cents per
    dollar of the quote's total. *)
Theorem token_card_charges_quote `{Env} {S : Type} cfg this keys tier order (s : S) t :
  constructor cfg = Ok this ->
  Forall (fun k => ~ In k object_prototype) keys ->
  (Z.of_nat (List.length keys) <= 2 ^ 32)%Z -> tier <> EmptyString ->
  let total := (tierUSD tier + catalog_total addOnUSD keys)%Z in
  wp (let* quote := calculateTotalPrice this (VArr (map VStr keys)) (VObj [("tier", VStr tier)]) in
      processPayment this (VStr "stripe") quote order)
    (fun _ s' t' => s' = s /\ exists r,
       In (Ev "fetch" (intent_request "/api/create-payment-intent"
             (VObj [("amount", vnum (100 * total)); ("currency", VStr "usd")])) r) t')
    (fun _ s' _ => s' = s) s t.
Proof.
  intros Hc Hk Hn Ht total. apply wp_bind.
  eapply wp_mono; [..|apply (token_calculateTotalPrice_spec this (token_constructor_addOns cfg this Hc) keys tier)];
    cbn beta zeta; try assumption; [|intros e s' t' (-> & _); reflexivity|unfold max_keys; lia].
  intros quote s' t1 (-> & price & _ & _ & Hu & _).
  unfold processPayment. cbn [is_str strict_eq String.eqb Ascii.eqb Bool.eqb]. unfold processStripePayment.
  assert (Hb : intent_body quote = Ok (VObj [("amount", vnum (100 * total)); ("currency", VStr "usd")])
               \/ exists e, intent_body quote = Throw e).
  { unfold intent_body. destruct (get quote "totalUSD") as [u|e] eqn:E; cbn; [left|right; eauto].
    apply get_opt_ok in E. rewrite <- E, Hu. fold total. rewrite cents_vnum; [reflexivity|].
    pose proof (catalog_total_bounds _ _ keys token_premiumAddOns_priced).
    pose proof (token_tierUSD_range tier). unfold total. lia. }
  destruct Hb as [-> | [e ->]]; [apply stripe_payment_request|].
  unfold stripe_payment. wp_auto; congruence || reflexivity.
Qed.

Lemma token_card_charges_quote_witness :
  exists this, constructor VUndef = Ok this
  /\ wp (let* quote := calculateTotalPrice (H := coop) this (VArr (map VStr ["customLogo"])) (VObj [("tier", VStr "Basic")]) in
         processPayment (H := coop) this (VStr "stripe") quote VUndef)
      (fun _ _ t' => exists r,
         In (Ev "fetch" (intent_request "/api/create-payment-intent"
               (VObj [("amount", vnum 5900); ("currency", VStr "usd")])) r) t')
      (fun _ _ _ => True) tt [].
Proof.
  exists default_system. split; [reflexivity|].
  eapply wp_mono; [..|apply (token_card_charges_quote (H := coop) VUndef default_system ["customLogo"] "Basic")];
    cbn beta zeta.
  - intros q s t (_ & Hin). exact Hin.
  - auto.
  - reflexivity.
  - repeat constructor; vm_compute; intuition discriminate.
  - vm_compute. discriminate.
  - discriminate.
Defined.

(** The configuration check accepts exactly the well-formed tokens: a
    name, a symbol, 0 to 18 decimals and a positive supply; and it accepts a
    configuration that leaves decimals and supply out. *)
Theorem token_config_check name symbol decimals maxSupply :
  safe (Z.of_nat (String.length name)) -> safe (Z.of_nat (String.length symbol)) ->
  safe decimals -> safe maxSupply ->
  (validateTokenConfig (VObj [("name", VStr name); ("symbol", VStr symbol);
                              ("decimals", vnum decimals); ("maxSupply", vnum maxSupply)]) = Ok []
   <-> name <> EmptyString /\ symbol <> EmptyString /\ (0 <= decimals <= 18)%Z /\ (0 < maxSupply)%Z)
  /\ (name <> EmptyString -> symbol <> EmptyString ->
      validateTokenConfig (VObj [("name", VStr name); ("symbol", VStr symbol)]) = Ok []).
Proof.
  intros Hn Hs Hd Hm. split.
  - unfold validateTokenConfig.
    cbn [get obj_get own assoc String.eqb Ascii.eqb Bool.eqb res_bind].
    rewrite !missing_text_str by assumption. unfold js_gt.
    rewrite !js_lt_vnum, js_le_vnum by (assumption || reflexivity).
    split.
    + intros [= E]. apply app_eq_nil in E as [E1 E]. apply app_eq_nil in E as [E2 E].
      apply app_eq_nil in E as [E3 E4]. rewrite push_if_nil in *.
      apply orb_false_iff in E3 as [E3 E3']. apply String.eqb_neq in E1, E2.
      apply Z.ltb_ge in E3, E3'. apply Z.leb_gt in E4. repeat split; assumption.
    + intros (N1 & N2 & D & P). apply String.eqb_neq in N1, N2. rewrite N1, N2.
      destruct (Z.ltb_spec decimals 0), (Z.ltb_spec 18 decimals), (Z.leb_spec maxSupply 0); try lia. reflexivity.
  - intros N1 N2. unfold validateTokenConfig.
    cbn [get obj_get own assoc String.eqb Ascii.eqb Bool.eqb res_bind].
    rewrite !missing_text_str by assumption. apply String.eqb_neq in N1, N2. rewrite N1, N2. reflexivity.
Qed.

Lemma token_config_check_witness :
  validateTokenConfig (VObj [("name", VStr "A"); ("symbol", VStr "B")]) = Ok [].
Proof.
  apply (token_config_check "A" "B" 18 1); try reflexivity; discriminate.
Defined.

(** An upgrade costs the difference of the two published tier fees, and
    nothing when the new tier is not dearer; the SHAH amount is that price at
    the rate the service just gave. *)
Theorem token_upgrade_price `{Env} {S : Type} this current new (s : S) t :
  let usd := Z.max 0 (tierUSD new - tierUSD current) in
  wp (calculateUpgradePrice this (VStr current) (VStr new))
    (fun amount s' t' => s' = s /\ exists price, oracle_quoted (config this) t t' price
       /\ amount = VObj [("usd", vnum usd); ("shah", js_div (vnum usd) price); ("shahPrice", price)])
    (fun e s' _ => s' = s /\ e = Error "Unable to fetch current SHAH price") s t.
Proof.
  intros usd. unfold calculateUpgradePrice, getShahPrice. cbn [default]. apply wp_bind.
  eapply wp_mono; [..|apply shah_price_spec]; cbn beta; [|auto].
  intros price s' t' (-> & Hq). apply wp_ret. split; [reflexivity|]. exists price. split; [exact Hq|].
  rewrite !token_getTierUsd_str. unfold usd.
  pose proof (token_tierUSD_range current). pose proof (token_tierUSD_range new).
  rewrite sub_of_Z, max_zero_of_Z by (unfold safe, prec; lia). reflexivity.
Qed.

End TokenMonetizationSystem.
