(* ===== verification/NFTMonetization.v ===== *)
(** * NFT creation monetization

    [NFTMonetizationSystem] of
    src/sdk-core/smart-contract-toolkit/NFTMonetization.js: the counterpart
    of [TokenMonetization] for NFTs, with its own tiers, add-ons, fee method
    and configuration check. *)

From Stdlib Require Import ZArith Bool List String Lia.
From S2P Require Import Prelude JsNum JsNumFacts JsVal JsFormat JsMonad Payments.
Import ListNotations.
Local Open Scope string_scope.

Module NFTMonetizationSystem.

Record t : Type := Build {
  config : list (string * jsval);
  premiumAddOns : list (string * jsval);
  paymentMethods : list (string * jsval)
}.

Definition premiumAddOns0 : list (string * jsval) :=
  [("customImageUpload", addOn "Custom Image Upload" 5 "Upload your own artwork (SVG, PNG, GIF)");
   ("verifiedBadge", addOn "Verified Badge" 10 "ShahExplorer + Wallet badge");
   ("unlockableContent", addOn "Unlockable Content" 8 "Add secret content (text, file, video)");
   ("tradeLock", addOn "Trade Lock (Soulbound)" 6 "Prevent transfer – great for proof NFTs");
   ("boosterTag", addOn "Booster Tag" 9 "Eligible for staking/APR bonuses")].

Definition paymentMethods0 : list (string * jsval) :=
  [("shah", VStr "Native SHAH"); ("shahToken", VStr "SHAHtoken (SHI-20)");
   ("stripe", VStr "Credit Card (USD)")].

(** [new NFTMonetizationSystem(config)]. *)
Definition constructor (cfg : jsval) : result t :=
  let cfg := default cfg (VObj []) in
  res_bind (get cfg "stripePublicKey") (fun key =>
  Ok {| config := obj_spread
          [("baseFeeUSD", vnum 25); ("shahSwapAPI", VStr "https://api.shah.vip/price");
           ("stripePublicKey", key)]
          (spread_props cfg);
        premiumAddOns := premiumAddOns0;
        paymentMethods := paymentMethods0 |}).

Definition getTierUsd (tier : jsval) : num :=
  let tier := default tier (VStr "Basic") in
  if is_str tier "Premium" then Num.of_Z 39
  else if is_str tier "Pro" then Num.of_Z 25 else Num.of_Z 15.

Definition validateNFTConfig (config : jsval) : result (list string) :=
  res_bind (get config "name") (fun name =>
  res_bind (get config "description") (fun description =>
  res_bind (get config "imageURI") (fun imageURI =>
  res_bind (get config "maxSupply") (fun maxSupply =>
  Ok (push_if (missing_text name) "NFT name is required" ++
      push_if (missing_text description) "NFT description is required" ++
      push_if (missing_text imageURI) "NFT image URI is required" ++
      push_if (truthy maxSupply && js_le maxSupply (vnum 0))
              "Max supply must be greater than 0")%list)))).

Section Methods.
Context `{Env} (this : t) {S : Type}.
Abbreviation JS := (JS S).

Definition getShahPrice : JS jsval := shah_price (config this).

Definition calculateUpgradePrice (currentTier newTier : jsval) : JS jsval :=
  let currentTier := default currentTier (VStr "Basic") in
  let newTier := default newTier (VStr "Pro") in
  let* shahPrice := getShahPrice in
  let usd := VNum (Num.max Num.zero (Num.sub (getTierUsd newTier) (getTierUsd currentTier))) in
  let shah := js_div usd shahPrice in
  ret (VObj [("usd", usd); ("shah", shah); ("shahPrice", shahPrice)]).

Definition calculateBaseFee (tier : jsval) : JS jsval :=
  let tier := default tier (VStr "Basic") in
  let* shahPrice := getShahPrice in
  let baseUsd := VNum (getTierUsd tier) in
  let baseFeeSHAH := js_div baseUsd shahPrice in
  ret (VObj [("usd", baseUsd); ("shah", baseFeeSHAH); ("shahPrice", shahPrice); ("tier", tier)]).

Definition calculateTotalPrice (selectedAddOns options : jsval) : JS jsval :=
  let selectedAddOns := default selectedAddOns (VArr []) in
  let options := default options (VObj []) in
  let tier := js_or (get_opt options "tier") (VStr "Basic") in
  let* baseFee := calculateBaseFee tier in
  let shahPrice := get_opt baseFee "shahPrice" in
  let* keys := lift (as_array "selectedAddOns" "forEach" selectedAddOns) in
  let '(addOnsTotalUSD, addOnsDetails) :=
    fold_left (add_addOn (premiumAddOns this) shahPrice) keys (vnum 0, []) in
  let totalUSD := js_add (get_opt baseFee "usd") addOnsTotalUSD in
  let totalSHAH := js_div totalUSD shahPrice in
  ret (VObj [("baseFee", baseFee); ("tier", tier); ("addOns", VArr addOnsDetails);
             ("totalUSD", totalUSD); ("totalSHAH", totalSHAH);
             ("breakdown", VObj [("base", get_opt baseFee "usd"); ("addOns", addOnsTotalUSD);
                                 ("total", totalUSD)])]).

(** [amount.shah.toString()]. *)
Definition shah_text (amount : jsval) : result string :=
  res_bind (get amount "shah") call_toString.

Definition processShahPayment (amount : jsval) : JS jsval :=
  shah_payment "shahFactory.payNFTCreationFee" "SHAH payment failed: " (shah_text amount)
    (fun hash => Ok (VObj [("success", VBool true); ("txHash", hash); ("method", VStr "shah");
                           ("amount", amount)])).

Definition processShahTokenPayment (amount : jsval) : JS jsval :=
  shah_token_payment "shahFactory.payWithShahToken" "SHAHtoken payment failed: " (shah_text amount)
    (fun hash => Ok (VObj [("success", VBool true); ("txHash", hash);
                           ("method", VStr "shahToken"); ("amount", amount)])).

(** The request for a payment intent: the rounded cents of the quote. *)
Definition intent_body (amount : jsval) : result jsval :=
  res_bind (get amount "totalUSD") (fun usd =>
  Ok (VObj [("amount", cents usd); ("currency", VStr "usd")])).

Definition processStripePayment (amount : jsval) : JS jsval :=
  stripe_payment (obj_get (config this) "stripePublicKey") "/api/create-payment-intent"
    "Stripe payment failed: " "NFT Creator" (intent_body amount)
    (fun id => Ok (VObj [("success", VBool true); ("paymentIntentId", id);
                         ("method", VStr "stripe"); ("amount", amount)])).

Definition processPayment (paymentMethod amount nftConfig : jsval) : JS jsval :=
  if is_str paymentMethod "shah" then processShahPayment amount
  else if is_str paymentMethod "shahToken" then processShahTokenPayment amount
  else if is_str paymentMethod "stripe" then processStripePayment amount
  else throw (Error "Invalid payment method").

Definition savePaymentData (paymentResult nftConfig selectedAddOns : jsval) : JS jsval :=
  save_payment paymentResult (fun timestamp method amount reference =>
    VObj [("timestamp", timestamp); ("paymentMethod", method); ("amount", amount);
          ("nftConfig", nftConfig); ("selectedAddOns", selectedAddOns);
          ("txHash", reference); ("status", VStr "completed")]).

Definition getPremiumAddOns : list (string * jsval) := premiumAddOns this.
Definition getPaymentMethods : list (string * jsval) := paymentMethods this.

End Methods.

(** ** Properties *)

(** The price list the source comments on, in dollars. *)
Definition addOnUSD : list (string * Z) :=
  [("customImageUpload", 5%Z); ("verifiedBadge", 10%Z); ("unlockableContent", 8%Z);
   ("tradeLock", 6%Z); ("boosterTag", 9%Z)].

Definition tierUSD (tier : string) : Z :=
  if tier =? "Premium" then 39 else if tier =? "Pro" then 25 else 15.

Lemma nft_premiumAddOns_priced : priced premiumAddOns0 addOnUSD.
Proof.
  unfold premiumAddOns0, addOnUSD, priced.
  repeat (constructor; [split; [reflexivity|split; [lia|eauto]]|]); constructor.
Qed.

Lemma nft_getTierUsd_str tier : getTierUsd (VStr tier) = Num.of_Z (tierUSD tier).
Proof.
  unfold getTierUsd, tierUSD. cbn [default is_str strict_eq].
  destruct (tier =? "Premium"), (tier =? "Pro"); reflexivity.
Qed.

Lemma nft_tierUSD_range tier : (15 <= tierUSD tier <= 39)%Z.
Proof. unfold tierUSD. destruct (tier =? "Premium"), (tier =? "Pro"); lia. Qed.

Lemma nft_constructor_addOns cfg this : constructor cfg = Ok this -> premiumAddOns this = premiumAddOns0.
Proof.
  unfold constructor. destruct (get (default cfg (VObj [])) "stripePublicKey"); cbn; [|discriminate].
  intros [= <-]. reflexivity.
Qed.

Section Quotes.
Context `{Env} {S : Type} (this : t).
Hypothesis addOns_eq : premiumAddOns this = premiumAddOns0.

Lemma nft_calculateBaseFee_spec tier (s : S) t :
  wp (calculateBaseFee this tier)
    (fun fee s' t' => s' = s /\ exists price, oracle_quoted (config this) t t' price
       /\ fee = VObj [("usd", VNum (getTierUsd tier)); ("shah", js_div (VNum (getTierUsd tier)) price);
                      ("shahPrice", price); ("tier", default tier (VStr "Basic"))])
    (fun e s' _ => s' = s /\ e = Error "Unable to fetch current SHAH price") s t.
Proof.
  unfold calculateBaseFee, getShahPrice. apply wp_bind.
  eapply wp_mono; [..|apply shah_price_spec]; cbn beta; [|auto].
  intros price s' t' (-> & Hq). apply wp_ret. split; [reflexivity|]. exists price.
  split; [exact Hq|]. destruct tier; reflexivity.
Qed.

(** The quote for a tier and a list of add-on keys (known or unknown, with
    repetitions): the totals are the exact sums of the published prices. *)
Lemma nft_calculateTotalPrice_spec keys tier (s : S) t :
  Forall (fun k => ~ In k object_prototype) keys ->
  (Z.of_nat (List.length keys) <= max_keys)%Z -> tier <> EmptyString ->
  let addOnsUSD := catalog_total addOnUSD keys in
  let totalUSD := (tierUSD tier + addOnsUSD)%Z in
  wp (calculateTotalPrice this (VArr (map VStr keys)) (VObj [("tier", VStr tier)]))
    (fun quote s' t' => s' = s /\ exists price, oracle_quoted (config this) t t' price
       /\ get_opt quote "tier" = VStr tier
       /\ get_opt quote "totalUSD" = vnum totalUSD
       /\ get_opt quote "totalSHAH" = js_div (vnum totalUSD) price
       /\ get_opt quote "breakdown" =
            VObj [("base", vnum (tierUSD tier)); ("addOns", vnum addOnsUSD); ("total", vnum totalUSD)]
       /\ get_opt quote "shah" = VUndef)
    (fun e s' _ => s' = s /\ e = Error "Unable to fetch current SHAH price") s t.
Proof.
  intros Hk Hn Ht addOnsUSD totalUSD. unfold calculateTotalPrice.
  cbn [default get_opt get obj_get own assoc String.eqb Ascii.eqb Bool.eqb].
  rewrite js_or_str by exact Ht. apply wp_bind. eapply wp_mono; [..|apply nft_calculateBaseFee_spec]; cbn beta; [|auto].
  intros fee s' t' (-> & price & Hq & ->). rewrite nft_getTierUsd_str.
  cbn [get_opt get obj_get own assoc String.eqb Ascii.eqb Bool.eqb]. rewrite addOns_eq.
  apply wp_bind, wp_lift; [intros ? [= <-] | discriminate].
  pose proof (add_addOns_sum premiumAddOns0 addOnUSD price keys 0 [] nft_premiumAddOns_priced Hk) as Hs.
  destruct (fold_left _ _ _) as [total details]. cbn [fst] in Hs.
  pose proof (catalog_total_bounds _ _ keys nft_premiumAddOns_priced) as Hb.
  pose proof (nft_tierUSD_range tier). unfold max_keys in Hn.
  rewrite Hs by (unfold prec; lia). apply wp_ret. split; [reflexivity|]. exists price.
  change (VNum (Num.of_Z (tierUSD tier))) with (vnum (tierUSD tier)).
  rewrite js_add_vnum by (unfold safe, prec; lia). auto 10.
Qed.

Lemma nft_calculateTotalPrice_quiet keys options : quiet (St := S) (calculateTotalPrice this keys options).
Proof.
  intros s t. unfold calculateTotalPrice, calculateBaseFee, getShahPrice, shah_price.
  wp_auto; count_events.
Qed.

(** A quote has no [shah] property, the one the two SHAH payments read. *)
Lemma nft_calculateTotalPrice_no_shah keys options (s : S) t :
  wp (calculateTotalPrice this keys options)
    (fun quote _ _ => shah_text quote = Throw (cannot_read "undefined" "toString"))
    (fun _ _ _ => True) s t.
Proof.
  unfold calculateTotalPrice, calculateBaseFee, getShahPrice, shah_price.
  wp_auto; exact I || reflexivity.
Qed.

End Quotes.

(** ** The interface to creation sessions *)

Section Instance.
Context `{Env} (this : t).

Definition monetization : Monetization := {|
  Payments.getShahPrice := fun S => @getShahPrice _ this S;
  validateConfig := validateNFTConfig;
  Payments.calculateTotalPrice := fun S => @calculateTotalPrice _ this S;
  Payments.processPayment := fun S => @processPayment _ this S;
  Payments.savePaymentData := fun S => @savePaymentData _ S
|}.

#[global] Instance nft_monetization_laws : MonetizationLaws monetization.
Proof.
  split; cbn.
  - intros S. apply shah_price_quiet.
  - intros S keys options. apply nft_calculateTotalPrice_quiet.
  - intros S method amount cfg. unfold processPayment.
    destruct (is_str method "shah"); [apply shah_payment_pays; reflexivity|].
    destruct (is_str method "shahToken"); [apply shah_token_payment_pays; reflexivity|].
    destruct (is_str method "stripe"); [apply stripe_payment_pays|].
    intros s t. apply wp_throw. auto with arith.
  - intros S r cfg addOns s t. eapply wp_mono; [..|apply save_payment_quiet]; cbn; intuition.
Qed.

End Instance.

(** ** Theorems *)

(** A quote is exact: for any tier and any list of add-on keys, known or
    unknown and with repetitions, the quote's USD total is the published fee
    of the tier plus the published prices of the keys, as whole numbers; its
    SHAH total is that amount divided by the price the service just gave;
    and the only failure is that of the price service. *)
Theorem nft_quote_exact `{Env} {S : Type} cfg this keys tier (s : S) t :
  constructor cfg = Ok this ->
  Forall (fun k => ~ In k object_prototype) keys ->
  (Z.of_nat (List.length keys) <= max_keys)%Z -> tier <> EmptyString ->
  let addOnsUSD := catalog_total addOnUSD keys in
  let totalUSD := (tierUSD tier + addOnsUSD)%Z in
  wp (calculateTotalPrice this (VArr (map VStr keys)) (VObj [("tier", VStr tier)]))
    (fun quote s' t' => s' = s /\ exists price, oracle_quoted (config this) t t' price
       /\ get_opt quote "tier" = VStr tier
       /\ get_opt quote "totalUSD" = vnum totalUSD
       /\ get_opt quote "totalSHAH" = js_div (vnum totalUSD) price
       /\ get_opt quote "breakdown" =
            VObj [("base", vnum (tierUSD tier)); ("addOns", vnum addOnsUSD); ("total", vnum totalUSD)]
       /\ get_opt quote "shah" = VUndef)
    (fun e s' _ => s' = s /\ e = Error "Unable to fetch current SHAH price") s t.
Proof.
  intros Hc Hk Hn Ht. apply (nft_calculateTotalPrice_spec this (nft_constructor_addOns cfg this Hc));
    assumption.
Qed.

Definition default_system : t :=
  Build [("baseFeeUSD", vnum 25); ("shahSwapAPI", VStr "https://api.shah.vip/price"); ("stripePublicKey", VUndef)]
    premiumAddOns0 paymentMethods0.

Lemma nft_quote_exact_witness :
  exists this, constructor VUndef = Ok this
  /\ wp (calculateTotalPrice (H := coop) this (VArr (map VStr ["verifiedBadge"; "tradeLock"])) (VObj [("tier", VStr "Pro")]))
      (fun quote _ _ => get_opt quote "totalUSD" = vnum 41) (fun _ _ _ => True) tt [].
Proof.
  exists default_system. split; [reflexivity|].
  eapply wp_mono; [..|apply (nft_quote_exact (H := coop) VUndef default_system ["verifiedBadge"; "tradeLock"] "Pro")];
    cbn beta zeta.
  - intros q s t (_ & p & _ & _ & Hu & _). exact Hu.
  - auto.
  - reflexivity.
  - repeat constructor; vm_compute; intuition discriminate.
  - vm_compute. discriminate.
  - discriminate.
Defined.

(** A card payment is for the quoted amount: when paying a quote by card
    returns, a payment intent was requested for exactly one hundred cents per
    dollar of the quote's total. *)
Theorem nft_card_charges_quote `{Env} {S : Type} cfg this keys tier order (s : S) t :
  constructor cfg = Ok this ->
  Forall (fun k => ~ In k object_prototype) keys ->
  (Z.of_nat (List.length keys) <= 2 ^ 32)%Z -> tier <> EmptyString ->
  let total := (tierUSD tier + catalog_total addOnUSD keys)%Z in
  wp (let* quote := calculateTotalPrice this (VArr (map VStr keys)) (VObj [("tier", VStr tier)]) in
      processPayment this (VStr "stripe") quote order)
    (fun _ s' t' => s' = s /\ exists r,
       In (Ev "fetch" (intent_request "/api/create-payment-intent"
             (VObj [("amount", vnum (100 * total)); ("currency", VStr "usd")])) r) t')
    (fun _ s' _ => s' = s) s t.
Proof.
  intros Hc Hk Hn Ht total. apply wp_bind.
  eapply wp_mono; [..|apply (nft_calculateTotalPrice_spec this (nft_constructor_addOns cfg this Hc) keys tier)];
    cbn beta zeta; try assumption; [|intros e s' t' (-> & _); reflexivity|unfold max_keys; lia].
  intros quote s' t1 (-> & price & _ & _ & Hu & _).
  unfold processPayment. cbn [is_str strict_eq String.eqb Ascii.eqb Bool.eqb]. unfold processStripePayment.
  assert (Hb : intent_body quote = Ok (VObj [("amount", vnum (100 * total)); ("currency", VStr "usd")])
               \/ exists e, intent_body quote = Throw e).
  { unfold intent_body. destruct (get quote "totalUSD") as [u|e] eqn:E; cbn; [left|right; eauto].
    apply get_opt_ok in E. rewrite <- E, Hu. fold total. rewrite cents_vnum; [reflexivity|].
    pose proof (catalog_total_bounds _ _ keys nft_premiumAddOns_priced).
    pose proof (nft_tierUSD_range tier). unfold total. lia. }
  destruct Hb as [-> | [e ->]]; [apply stripe_payment_request|].
  unfold stripe_payment. wp_auto; congruence || reflexivity.
Qed.

Lemma nft_card_charges_quote_witness :
  exists this, constructor VUndef = Ok this
  /\ wp (let* quote := calculateTotalPrice (H := coop) this (VArr (map VStr ["boosterTag"])) (VObj [("tier", VStr "Basic")]) in
         processPayment (H := coop) this (VStr "stripe") quote VUndef)
      (fun _ _ t' => exists r,
         In (Ev "fetch" (intent_request "/api/create-payment-intent"
               (VObj [("amount", vnum 2400); ("currency", VStr "usd")])) r) t')
      (fun _ _ _ => True) tt [].
Proof.
  exists default_system. split; [reflexivity|].
  eapply wp_mono; [..|apply (nft_card_charges_quote (H := coop) VUndef default_system ["boosterTag"] "Basic")];
    cbn beta zeta.
  - intros q s t (_ & Hin). exact Hin.
  - auto.
  - reflexivity.
  - repeat constructor; vm_compute; intuition discriminate.
  - vm_compute. discriminate.
  - discriminate.
Defined.

(** An upgrade costs the difference of the two published tier fees, and
    nothing when the new tier is not dearer; the SHAH amount is that price at
    the rate the service just gave. *)
Theorem nft_upgrade_price `{Env} {S : Type} this current new (s : S) t :
  let usd := Z.max 0 (tierUSD new - tierUSD current) in
  wp (calculateUpgradePrice this (VStr current) (VStr new))
    (fun amount s' t' => s' = s /\ exists price, oracle_quoted (config this) t t' price
       /\ amount = VObj [("usd", vnum usd); ("shah", js_div (vnum usd) price); ("shahPrice", price)])
    (fun e s' _ => s' = s /\ e = Error "Unable to fetch current SHAH price") s t.
Proof.
  intros usd. unfold calculateUpgradePrice, getShahPrice. cbn [default]. apply wp_bind.
  eapply wp_mono; [..|apply shah_price_spec]; cbn beta; [|auto].
  intros price s' t' (-> & Hq). apply wp_ret. split; [reflexivity|]. exists price. split; [exact Hq|].
  rewrite !nft_getTierUsd_str. unfold usd.
  pose proof (nft_tierUSD_range current). pose proof (nft_tierUSD_range new).
  rewrite sub_of_Z, max_zero_of_Z by (unfold safe, prec; lia). reflexivity.
Qed.

End NFTMonetizationSystem.
