(* ===== verification/BundleMonetization.v ===== *)
(** * Bundle monetization

    [BundleMonetizationSystem] and [BundleCreationWithMonetization] of
    src/sdk-core/smart-contract-toolkit/BundleMonetization.js: one token and
    one NFT sold together at a discount.  The bundle quote reads a constant in
    its own initialiser, which the language forbids: the model keeps the
    statement order, so the throw happens where the source has it. *)

From Stdlib Require Import ZArith Bool List String Lia.
From S2P Require Import Prelude JsNum JsNumFacts JsVal JsMonad Payments TokenMonetization NFTMonetization.
Import ListNotations.
Local Open Scope string_scope.

Module BundleMonetizationSystem.

Record t : Type := Build {
  config : list (string * jsval);
  tokenMonetization : TokenMonetizationSystem.t;
  nftMonetization : NFTMonetizationSystem.t;
  paymentMethods : list (string * jsval)
}.

Definition constructor (cfg : jsval) : result t :=
  let cfg := default cfg (VObj []) in
  res_bind (get cfg "stripePublicKey") (fun key =>
  res_bind (TokenMonetizationSystem.constructor cfg) (fun token =>
  res_bind (NFTMonetizationSystem.constructor cfg) (fun nft =>
  Ok {| config := obj_spread
          [("bundleDiscountUSD", vnum 15); ("shahSwapAPI", VStr "https://api.shah.vip/price");
           ("stripePublicKey", key)]
          (spread_props cfg);
        tokenMonetization := token;
        nftMonetization := nft;
        paymentMethods := [("shah", VStr "Native SHAH"); ("shahToken", VStr "SHAHtoken (SHI-20)");
                           ("stripe", VStr "Credit Card (USD)")] |}))).

Definition validateBundleConfig (tokenConfig nftConfig : jsval) : result (list string) :=
  res_bind (TokenMonetizationSystem.validateTokenConfig tokenConfig) (fun tokenErrors =>
  res_bind (NFTMonetizationSystem.validateNFTConfig nftConfig) (fun nftErrors =>
  Ok (map (String.append "Token: ") tokenErrors ++ map (String.append "NFT: ") nftErrors)%list)).

(** [bundlePrice.pricing.withDiscount]. *)
Definition with_discount (bundlePrice : jsval) : result jsval :=
  res_bind (get bundlePrice "pricing") (fun pricing => get pricing "withDiscount").

(** [bundlePrice.pricing.withDiscount.shah.toString()]. *)
Definition bundle_text (bundlePrice : jsval) : result string :=
  res_bind (with_discount bundlePrice) (fun d =>
  res_bind (get d "shah") call_toString).

(** The object a bundle payment returns. *)
Definition paid (refName method : string) (bundlePrice : jsval) (reference : jsval) : result jsval :=
  res_bind (with_discount bundlePrice) (fun amount =>
  res_bind (get bundlePrice "bundleDiscount") (fun discount =>
  Ok (VObj [("success", VBool true); (refName, reference); ("method", VStr method);
            ("amount", amount); ("bundleDiscount", discount)]))).

Section Methods.
Context `{Env} (this : t) {S : Type}.
Abbreviation JS := (JS S).

Definition discountUSD : jsval := obj_get (config this) "bundleDiscountUSD".

Definition getShahPrice : JS jsval := shah_price (config this).

(** Line 60 initialises [totalWithDiscountSHAH] from itself. *)
Definition calculateBundlePrice (tokenConfig nftConfig selectedNFTAddOns : jsval) : JS jsval :=
  let selectedNFTAddOns := default selectedNFTAddOns (VArr []) in
  let* shahPrice := getShahPrice in
  let* tokenPrice := TokenMonetizationSystem.calculateBaseFee (tokenMonetization this) VUndef in
  let* nftPrice :=
    NFTMonetizationSystem.calculateTotalPrice (nftMonetization this) selectedNFTAddOns VUndef in
  let totalWithoutDiscountUSD := js_add (get_opt tokenPrice "usd") (get_opt nftPrice "totalUSD") in
  let totalWithoutDiscountSHAH := js_div totalWithoutDiscountUSD shahPrice in
  let bundleDiscountSHAH := js_div discountUSD shahPrice in
  let totalWithDiscountUSD := js_sub totalWithoutDiscountUSD discountUSD in
  let* totalWithDiscountSHAH := throw
    (ReferenceError "Cannot access 'totalWithDiscountSHAH' before initialization") in
  ret (VObj
    [("tokenPrice", tokenPrice); ("nftPrice", nftPrice);
     ("bundleDiscount", VObj [("usd", discountUSD); ("shah", bundleDiscountSHAH)]);
     ("pricing", VObj
        [("withoutDiscount", VObj [("usd", totalWithoutDiscountUSD); ("shah", totalWithoutDiscountSHAH)]);
         ("withDiscount", VObj [("usd", totalWithDiscountUSD); ("shah", totalWithDiscountSHAH)]);
         ("savings", VObj
            [("usd", discountUSD); ("shah", bundleDiscountSHAH);
             ("percentage", VStr (Num.to_fixed
                (Num.mul (to_num (js_div discountUSD totalWithoutDiscountUSD)) (Num.of_Z 100)) 1))])]);
     ("breakdown", VObj
        [("token", VObj [("name", VStr "SHI-20 Token"); ("priceUSD", get_opt tokenPrice "usd");
                         ("priceSHAH", get_opt tokenPrice "shah")]);
         ("nft", VObj [("name", VStr "Basic NFT"); ("priceUSD", get_opt nftPrice "totalUSD");
                       ("priceSHAH", get_opt nftPrice "totalSHAH");
                       ("addOns", get_opt nftPrice "addOns")]);
         ("discount", VObj [("name", VStr "Bundle Discount");
                            ("priceUSD", VNum (Num.opp (to_num discountUSD)));
                            ("priceSHAH", VNum (Num.opp (to_num bundleDiscountSHAH)))])])]).

Definition processShahBundlePayment (bundlePrice : jsval) : JS jsval :=
  shah_payment "shahFactory.payBundleCreationFee" "SHAH bundle payment failed: "
    (bundle_text bundlePrice) (paid "txHash" "shah" bundlePrice).

Definition processShahTokenBundlePayment (bundlePrice : jsval) : JS jsval :=
  shah_token_payment "shahFactory.payBundleWithShahToken" "SHAHtoken bundle payment failed: "
    (bundle_text bundlePrice) (paid "txHash" "shahToken" bundlePrice).

Definition processStripeBundlePayment (bundlePrice : jsval) : JS jsval :=
  stripe_payment (obj_get (config this) "stripePublicKey") "/api/create-bundle-payment-intent"
    "Stripe bundle payment failed: " "Bundle Creator"
    (res_bind (with_discount bundlePrice) (fun d =>
     res_bind (get d "usd") (fun usd =>
     Ok (VObj [("amount", cents usd); ("currency", VStr "usd"); ("bundleType", VStr "token-nft")]))))
    (paid "paymentIntentId" "stripe" bundlePrice).

Definition processBundlePayment (paymentMethod bundlePrice : jsval) : JS jsval :=
  if is_str paymentMethod "shah" then processShahBundlePayment bundlePrice
  else if is_str paymentMethod "shahToken" then processShahTokenBundlePayment bundlePrice
  else if is_str paymentMethod "stripe" then processStripeBundlePayment bundlePrice
  else throw (Error "Invalid payment method").

Definition saveBundlePaymentData (paymentResult tokenConfig nftConfig selectedNFTAddOns : jsval)
    : JS jsval :=
  save_payment paymentResult (fun timestamp method amount reference =>
    VObj [("timestamp", timestamp); ("paymentMethod", method); ("amount", amount);
          ("bundleDiscount", get_opt paymentResult "bundleDiscount"); ("tokenConfig", tokenConfig);
          ("nftConfig", nftConfig); ("selectedNFTAddOns", selectedNFTAddOns);
          ("txHash", reference); ("status", VStr "completed"); ("bundleType", VStr "token-nft")]).

Definition getAvailableNFTAddOns : list (string * jsval) :=
  NFTMonetizationSystem.getPremiumAddOns (nftMonetization this).
Definition getPaymentMethods : list (string * jsval) := paymentMethods this.

Definition estimateTokenDeploymentGas (tokenConfig : jsval) : JS jsval :=
  let* gas := ext "ethers.BigNumber.from" [VStr "2000000"] in
  ret (VObj [("gasEstimate", gas); ("costInShah", VStr "0.002"); ("costInUSD", VStr "0.50")]).

(** [if (selected.includes(key)) baseGas = baseGas.add(BigNumber.from(gas))]. *)
Definition add_gas (selected : jsval) (key gas : string) (baseGas : jsval) : JS jsval :=
  let* b := lift (call_includes "selectedNFTAddOns" selected key) in
  if b then
    let* g := ext "ethers.BigNumber.from" [VStr gas] in
    ext "BigNumber.add" [baseGas; g]
  else ret baseGas.

Definition estimateNFTDeploymentGas (nftConfig selectedNFTAddOns : jsval) : JS jsval :=
  let selectedNFTAddOns := default selectedNFTAddOns (VArr []) in
  let* g0 := ext "ethers.BigNumber.from" [VStr "1500000"] in
  let* g1 := add_gas selectedNFTAddOns "unlockableContent" "100000" g0 in
  let* g2 := add_gas selectedNFTAddOns "tradeLock" "50000" g1 in
  let* g3 := add_gas selectedNFTAddOns "boosterTag" "75000" g2 in
  ret (VObj [("gasEstimate", g3); ("costInShah", VStr "0.0015"); ("costInUSD", VStr "0.38")]).

(** The two estimates are added with [+], which yields a string or a number:
    neither has a [mul] method. *)
Definition estimateBundleDeploymentGas (tokenConfig nftConfig selectedNFTAddOns : jsval) : JS jsval :=
  let selectedNFTAddOns := default selectedNFTAddOns (VArr []) in
  try_catch
    (let* tokenGas := estimateTokenDeploymentGas tokenConfig in
     let* nftGas := estimateNFTDeploymentGas nftConfig selectedNFTAddOns in
     let totalGasEstimate := js_add (get_opt tokenGas "gasEstimate") (get_opt nftGas "gasEstimate") in
     let* provider := ext "new ethers.providers.JsonRpcProvider" [rpc_url] in
     let* gasPrice := ext "provider.getGasPrice" [provider] in
     let* costInWei := call_missing "totalGasEstimate.mul" in
     let* costInShah := ext "ethers.utils.formatEther" [costInWei] in
     let* shahPrice := getShahPrice in
     let shah := parseFloat (to_str costInShah) in
     let costInUSD := to_num (js_mul (VNum shah) shahPrice) in
     let* gwei := ext "ethers.utils.formatUnits" [gasPrice; VStr "gwei"] in
     ret (VObj [("tokenGas", tokenGas); ("nftGas", nftGas);
                ("totalGasEstimate", VStr (to_str totalGasEstimate));
                ("gasPrice", js_add gwei (VStr " gwei"));
                ("costInShah", VStr (Num.to_fixed shah 6));
                ("costInUSD", VStr (Num.to_fixed costInUSD 2)); ("shahPrice", shahPrice)]))
    (fun e => throw (Error ("Bundle gas estimation failed: " ++ e_msg e))).

(** ** [BundleCreationWithMonetization] *)

(** Placeholder addresses, as in the source. *)
Definition generateAndDeployBundleContracts : JS jsval :=
  let* deployedAt := iso_now in
  ret (VObj [("tokenAddress", VStr "0x1234567890123456789012345678901234567890");
             ("nftAddress", VStr "0x0987654321098765432109876543210987654321");
             ("deployedAt", deployedAt)]).

Definition createBundle (tokenConfig nftConfig selectedNFTAddOns paymentMethod : jsval) : JS jsval :=
  let selectedNFTAddOns := default selectedNFTAddOns (VArr []) in
  let paymentMethod := default paymentMethod (VStr "shah") in
  try_catch
    (let* bundlePrice := calculateBundlePrice tokenConfig nftConfig selectedNFTAddOns in
     let* paymentResult := processBundlePayment paymentMethod bundlePrice in
     let* _ := saveBundlePaymentData paymentResult tokenConfig nftConfig selectedNFTAddOns in
     let* contractResult := generateAndDeployBundleContracts in
     ret (VObj [("success", VBool true);
                ("tokenAddress", get_opt contractResult "tokenAddress");
                ("nftAddress", get_opt contractResult "nftAddress");
                ("paymentResult", paymentResult); ("bundlePrice", bundlePrice)]))
    (fun e => throw e).

(** ** Properties *)

(** The quote of a bundle never returns: either a price request failed, or
    the discounted total is read before its initialisation. *)
Definition bundle_quote_error (e : jserr) : Prop :=
  e = Error "Unable to fetch current SHAH price"
  \/ e = ReferenceError "Cannot access 'totalWithDiscountSHAH' before initialization".

Lemma calculateBundlePrice_throws tokenConfig nftConfig keys (s : S) t :
  wp (calculateBundlePrice tokenConfig nftConfig (VArr keys))
    (fun _ _ _ => False)
    (fun e s' t' => bundle_quote_error e /\ s' = s /\ charges t' = charges t /\ deploys t' = deploys t) s t.
Proof.
  unfold calculateBundlePrice, getShahPrice, TokenMonetizationSystem.calculateBaseFee,
    TokenMonetizationSystem.getShahPrice, NFTMonetizationSystem.calculateTotalPrice,
    NFTMonetizationSystem.calculateBaseFee, NFTMonetizationSystem.getShahPrice, shah_price, bundle_quote_error.
  wp_auto; try discriminate; (split; [auto|]); count_events.
Qed.

Lemma bundle_payment_pays method price : pays (St := S) (processBundlePayment method price).
Proof.
  unfold processBundlePayment.
  destruct (is_str method "shah"); [apply shah_payment_pays; reflexivity|].
  destruct (is_str method "shahToken"); [apply shah_token_payment_pays; reflexivity|].
  destruct (is_str method "stripe"); [apply stripe_payment_pays|].
  intros s t. apply wp_throw. auto with arith.
Qed.

End Methods.

(** No bundle is ever sold: whatever the services answer, creating a
    bundle throws before any payment is attempted, and unless a price request
    failed the error is the use of the discounted total before its
    initialisation. *)
Theorem bundle_never_sold `{Env} this S tokenConfig nftConfig keys method (s : S) t :
  wp (createBundle this tokenConfig nftConfig (VArr keys) method)
    (fun _ _ _ => False)
    (fun e s' t' => bundle_quote_error e /\ s' = s
                    /\ charges t' = charges t /\ deploys t' = deploys t) s t.
Proof.
  unfold createBundle. cbn [default]. do 2 wp_step.
  eapply wp_mono; [..|apply calculateBundlePrice_throws]; cbn beta; [intros ? ? ? []|].
  intros e s' t' He. wp_step. exact He.
Qed.

(** The bundle gas estimate always fails, after querying the gas price. *)
Theorem bundle_gas_estimate_always_fails `{Env} this S tokenConfig nftConfig addOns :
  always_throws (S := S) (estimateBundleDeploymentGas this tokenConfig nftConfig addOns).
Proof.
  intros s t. unfold estimateBundleDeploymentGas, estimateTokenDeploymentGas, estimateNFTDeploymentGas, add_gas.
  wp_auto; exact I.
Qed.

End BundleMonetizationSystem.
