(* ===== verification/Session.v ===== *)
(** * Creation sessions

    [TokenCreationIntegration] and [NFTCreationIntegration] of
    src/sdk-core/smart-contract-toolkit drive one mutable session object
    through quoting, payment and deployment.  This file holds the session,
    the methods the two classes share, written against the interface
    [Monetization], and the specification both refine: an abstract ledger
    that counts accepted charges and requested deployments. *)

From Stdlib Require Import ZArith Bool List String Lia.
From S2P Require Import Prelude JsNum JsVal JsMonad Payments.
Import ListNotations.
Local Open Scope string_scope.

(** ** State *)

Inductive status : Type :=
  | created | processing_payment | payment_completed | completed | failed.

Definition status_string (x : status) : string :=
  match x with
  | created => "created"
  | processing_payment => "processing_payment"
  | payment_completed => "payment_completed"
  | completed => "completed"
  | failed => "failed"
  end.

(** The session object; a property not yet assigned is [undefined]. *)
Record session : Type := Session {
  s_id : jsval;
  s_config : jsval;
  s_selectedAddOns : jsval;
  s_paymentMethod : jsval;
  s_tier : jsval;
  s_priceData : jsval;
  s_status : status;
  s_createdAt : jsval;
  s_paymentResult : jsval;
  s_contractResult : jsval;
  s_error : jsval
}.

(** The integration object: its own fields next to the monetization system. *)
Record integration : Type := Integration {
  isInitialized : bool;
  currentSession : option session
}.

Definition integration0 : integration := Integration false None.

Definition set_initialized (i : integration) : integration := Integration true (currentSession i).
Definition set_session (x : option session) (i : integration) : integration :=
  Integration (isInitialized i) x.
Definition map_session (f : session -> session) (i : integration) : integration :=
  set_session (option_map f (currentSession i)) i.

Definition set_addOns (v : jsval) (s : session) : session :=
  Session (s_id s) (s_config s) v (s_paymentMethod s) (s_tier s) (s_priceData s)
    (s_status s) (s_createdAt s) (s_paymentResult s) (s_contractResult s) (s_error s).
Definition set_paymentMethod (v : jsval) (s : session) : session :=
  Session (s_id s) (s_config s) (s_selectedAddOns s) v (s_tier s) (s_priceData s)
    (s_status s) (s_createdAt s) (s_paymentResult s) (s_contractResult s) (s_error s).
Definition set_priceData (v : jsval) (s : session) : session :=
  Session (s_id s) (s_config s) (s_selectedAddOns s) (s_paymentMethod s) (s_tier s) v
    (s_status s) (s_createdAt s) (s_paymentResult s) (s_contractResult s) (s_error s).
Definition set_status (x : status) (s : session) : session :=
  Session (s_id s) (s_config s) (s_selectedAddOns s) (s_paymentMethod s) (s_tier s) (s_priceData s)
    x (s_createdAt s) (s_paymentResult s) (s_contractResult s) (s_error s).
Definition set_paymentResult (v : jsval) (s : session) : session :=
  Session (s_id s) (s_config s) (s_selectedAddOns s) (s_paymentMethod s) (s_tier s) (s_priceData s)
    (s_status s) (s_createdAt s) v (s_contractResult s) (s_error s).
Definition set_contractResult (v : jsval) (s : session) : session :=
  Session (s_id s) (s_config s) (s_selectedAddOns s) (s_paymentMethod s) (s_tier s) (s_priceData s)
    (s_status s) (s_createdAt s) (s_paymentResult s) v (s_error s).
Definition set_error (v : jsval) (s : session) : session :=
  Session (s_id s) (s_config s) (s_selectedAddOns s) (s_paymentMethod s) (s_tier s) (s_priceData s)
    (s_status s) (s_createdAt s) (s_paymentResult s) (s_contractResult s) v.

Definition undef_omit (k : string) (v : jsval) : list (string * jsval) :=
  match v with VUndef => [] | _ => [(k, v)] end.

(** The session as the object a caller receives. *)
Definition session_obj (configName : string) (s : session) : jsval :=
  VObj ([("id", s_id s); (configName, s_config s); ("selectedAddOns", s_selectedAddOns s);
         ("paymentMethod", s_paymentMethod s)] ++ undef_omit "tier" (s_tier s) ++
        [("priceData", s_priceData s); ("status", VStr (status_string (s_status s)));
         ("createdAt", s_createdAt s)] ++ undef_omit "paymentResult" (s_paymentResult s) ++
        undef_omit "contractResult" (s_contractResult s) ++ undef_omit "error" (s_error s))%list.

(** ** The shared methods *)

Section Methods.
Context `{Env} (M : Monetization) (configName : string) (noSession : jserr).
Abbreviation JS := (JS integration).

(** The current session, or the error of a method called without one. *)
Definition active : JS session :=
  let* x := read currentSession in
  match x with Some s => ret s | None => throw noSession end.

Definition update (f : session -> session) : JS unit := modify (map_session f).

(** [return this.currentSession]. *)
Definition return_session : JS jsval :=
  let* s := active in ret (session_obj configName s).

Definition initialize : JS jsval :=
  try_catch
    (let* _ := getShahPrice M integration in
     modify set_initialized ;;;
     ret (VBool true))
    (fun e => throw e).

(** [idPrefix + Date.now() + '_' + Math.random().toString(36).substr(2, 9)]. *)
Definition generateSessionId (idPrefix : string) : JS string :=
  let* n := now in
  let* suffix := random_base36 9 in
  ret (idPrefix ++ Num.to_string n ++ "_" ++ suffix).

(** The tier a quote is asked for, as each class reads it off its session. *)
Variable tier_of : session -> jsval.

Definition updateSessionPrice : JS jsval :=
  let* _ := active in
  try_catch
    (let* s := active in
     let* priceData := calculateTotalPrice M integration (s_selectedAddOns s)
                         (VObj [("tier", tier_of s)]) in
     update (set_priceData priceData) ;;;
     ret priceData)
    (fun e => throw e).

Definition updateAddOns (selectedAddOns : jsval) : JS jsval :=
  let* _ := active in
  update (set_addOns selectedAddOns) ;;;
  let* _ := updateSessionPrice in
  return_session.

Definition updatePaymentMethod (paymentMethod : jsval) : JS jsval :=
  let* _ := active in
  update (set_paymentMethod paymentMethod) ;;;
  return_session.

(** Opening a session: [fresh] builds the object from its id and creation
    time, after the configuration was validated. *)
Definition startSession (idPrefix errorPrefix : string) (config : jsval)
    (fresh : string -> JS session) : JS jsval :=
  let* i := read isInitialized in
  (if i then ret (VBool true) else initialize) ;;;
  let* errors := lift (validateConfig M config) in
  match errors with
  | _ :: _ => throw (Error (errorPrefix ++ join ", " errors))
  | [] =>
      let* id := generateSessionId idPrefix in
      let* s := fresh id in
      modify (set_session (Some s)) ;;;
      let* _ := updateSessionPrice in
      return_session
  end.

(** The [try] block: payment, then deployment by [deploy]. *)
Definition process_guarded (deploy : JS jsval) : JS jsval :=
  update (set_status processing_payment) ;;;
  let* s := active in
  let* paymentResult := processPayment M integration (s_paymentMethod s) (s_priceData s)
                          (s_config s) in
  let* _ := savePaymentData M integration paymentResult (s_config s) (s_selectedAddOns s) in
  update (set_status payment_completed) ;;;
  update (set_paymentResult paymentResult) ;;;
  let* contractResult := deploy in
  update (set_status completed) ;;;
  update (set_contractResult contractResult) ;;;
  let* final := active in
  let* address := lift (get contractResult "contractAddress") in
  ret (VObj [("success", VBool true); ("session", session_obj configName final);
             ("contractAddress", address); ("paymentResult", paymentResult)]).

(** The [catch] block: a failure is recorded in the session and rethrown. *)
Definition record_failure (e : jserr) : JS jsval :=
  update (set_status failed) ;;;
  update (set_error (VStr (e_msg e))) ;;;
  throw e.

Definition processCreation (deploy : JS jsval) : JS jsval :=
  let* s0 := active in
  (if truthy (s_priceData s0) then ret VUndef else updateSessionPrice) ;;;
  try_catch (process_guarded deploy) record_failure.

Definition getCurrentSession : JS (option session) := read currentSession.
Definition clearSession : JS jsval := modify (set_session None) ;;; ret VUndef.
Definition getSessionHistory : JS (list session) :=
  read (fun i => match currentSession i with Some s => [s] | None => [] end).

(** [validateSession]: never throws for a session opened through
    [startSession]; the validator itself may. *)
Definition validateSession (missing : string) : JS jsval :=
  let invalid msg := VObj [("valid", VBool false); ("error", VStr msg)] in
  let* x := read currentSession in
  match x with
  | None => ret (invalid "No active session")
  | Some s =>
      if truthy (s_config s) then
        let* errors := lift (validateConfig M (s_config s)) in
        match errors with
        | _ :: _ => ret (invalid ("Configuration errors: " ++ join ", " errors))
        | [] => ret (VObj [("valid", VBool true)])
        end
      else ret (invalid missing)
  end.

End Methods.

(** ** The abstract ledger *)

Inductive phase : Type := NoSession | Open | Busy | Done | Broken.

(** What a creation service promises: the phase of the session, the fees
    accepted and the deployments requested so far. *)
Record ledger : Type := Ledger { l_phase : phase; l_paid : nat; l_deployed : nat }.

Inductive ledger_step : ledger -> ledger -> Prop :=
  (** quotes, validation and changes of the order leave the ledger alone *)
  | l_idle l : ledger_step l l
  | l_open p n d : ledger_step (Ledger p n d) (Ledger Open n d)
  | l_close p n d : ledger_step (Ledger p n d) (Ledger NoSession n d)
  (** a creation that succeeds is one fee and one deployment *)
  | l_settle p n d : p <> NoSession ->
      ledger_step (Ledger p n d) (Ledger Done (1 + n) (1 + d))
  (** a creation that fails deploys nothing it was not paid for *)
  | l_break p n d k j : p <> NoSession -> j <= k <= 1 ->
      ledger_step (Ledger p n d) (Ledger Broken (k + n) (j + d))
  (** a tier upgrade takes at most one fee *)
  | l_upgrade p n d k : k <= 1 ->
      ledger_step (Ledger p n d) (Ledger p (k + n) d).

Definition ledger0 : ledger := Ledger NoSession 0 0.

(** Every deployment was paid for, and no session rests half-processed. *)
Definition ledger_ok (l : ledger) : Prop := l_deployed l <= l_paid l /\ l_phase l <> Busy.

Lemma ledger_step_ok l l' : ledger_ok l -> ledger_step l l' -> ledger_ok l'.
Proof.
  intros [H1 H2] St. destruct St; cbn in *; split; cbn; try lia; try discriminate; assumption.
Qed.

Definition phase_of (x : status) : phase :=
  match x with
  | created => Open
  | processing_payment | payment_completed => Busy
  | completed => Done
  | failed => Broken
  end.

Definition abs (i : integration) (t : trace) : ledger :=
  Ledger (match currentSession i with Some s => phase_of (s_status s) | None => NoSession end)
         (charges t) (deploys t).

(** An operation refines the ledger when every outcome of it, value or
    error, is a ledger step. *)
Definition refines {Env : Env} {A} (m : JS integration A) : Prop :=
  forall i t, wp m (fun _ i' t' => ledger_step (abs i t) (abs i' t'))
                   (fun _ i' t' => ledger_step (abs i t) (abs i' t')) i t.

(** A deployment procedure: it leaves the integration alone, returns an
    address after one request, and throws after at most one. *)
Definition deployment {Env : Env} (m : JS integration jsval) : Prop :=
  forall i t,
    wp m (fun r i' t' => i' = i /\ charges t' = charges t /\ deploys t' = S (deploys t)
                         /\ exists a, get r "contractAddress" = Ok a /\ truthy a = true)
         (fun _ i' t' => i' = i /\ charges t' = charges t
                         /\ deploys t <= deploys t' <= S (deploys t)) i t.

(** ** Specifications of the shared methods *)

Section Specs.
Context `{Env} (M : Monetization) `{!MonetizationLaws M}.
Context (configName : string) (noSession : jserr) (tier_of : session -> jsval).

Lemma wp_active (Q : session -> integration -> trace -> Prop) E i t :
  (forall s, currentSession i = Some s -> Q s i t) ->
  (currentSession i = None -> E noSession i t) ->
  wp (active noSession) Q E i t.
Proof using Type.
  intros HQ HE. unfold active. wp_step. wp_step.
  destruct (currentSession i) as [s|]; [apply wp_ret|apply wp_throw]; auto.
Qed.

Lemma map_session_some f i s :
  currentSession i = Some s -> map_session f i = set_session (Some (f s)) i.
Proof using Type. intros Es. unfold map_session. rewrite Es. reflexivity. Qed.

Lemma idle_step i i' t t' :
  abs i t = abs i' t' -> ledger_step (abs i t) (abs i' t').
Proof using Type. intros ->. constructor. Qed.

Lemma abs_eq i i' t t' :
  match currentSession i with Some s => phase_of (s_status s) | None => NoSession end
  = match currentSession i' with Some s => phase_of (s_status s) | None => NoSession end ->
  charges t' = charges t -> deploys t' = deploys t -> abs i t = abs i' t'.
Proof using Type. unfold abs. intros -> -> ->. reflexivity. Qed.

(** Quoting: the ledger is unchanged; on success the session exists, its
    quote is stored and nothing else of it moved. *)
Lemma updateSessionPrice_spec i t :
  wp (updateSessionPrice M noSession tier_of)
    (fun v i' t' => exists s, currentSession i = Some s
       /\ i' = set_session (Some (set_priceData v s)) i
       /\ charges t' = charges t /\ deploys t' = deploys t)
    (fun _ i' t' => i' = i /\ charges t' = charges t /\ deploys t' = deploys t) i t.
Proof.
  unfold updateSessionPrice. wp_step. apply wp_active; [intros s Es|auto].
  wp_step. wp_step. apply wp_active; [intros s' Es'|congruence].
  assert (s' = s) as -> by congruence.
  wp_step. eapply wp_mono; [..|apply total_quiet]; cbn beta.
  - intros v i' t' (-> & Hc & Hd). wp_step. unfold update. wp_step. wp_step.
    exists s. rewrite (map_session_some _ i s Es). auto.
  - intros e i' t' (-> & Hc & Hd). apply wp_throw. auto.
Qed.

Lemma set_session_phase i s v t t' :
  currentSession i = Some s -> charges t' = charges t -> deploys t' = deploys t ->
  abs i t = abs (set_session (Some (set_priceData v s)) i) t'.
Proof using Type. intros Es Hc Hd. apply abs_eq; cbn; rewrite ?Es; auto. Qed.

Lemma updateSessionPrice_refines : refines (updateSessionPrice M noSession tier_of).
Proof.
  intros i t. eapply wp_mono; [..|apply updateSessionPrice_spec]; cbn beta.
  - intros v i' t' (s & Es & -> & Hc & Hd). apply idle_step, set_session_phase; assumption.
  - intros e i' t' (-> & Hc & Hd). apply idle_step, abs_eq; auto.
Qed.

Lemma return_session_spec i t s :
  currentSession i = Some s ->
  wp (return_session configName noSession)
    (fun v i' t' => v = session_obj configName s /\ i' = i /\ t' = t) (fun _ _ _ => False) i t.
Proof using Type.
  intros Es. unfold return_session. wp_step. apply wp_active; rewrite Es; [|discriminate].
  intros s' [= <-]. wp_step. auto.
Qed.

Lemma initialize_spec i t :
  wp (initialize M)
    (fun v i' t' => i' = set_initialized i /\ charges t' = charges t /\ deploys t' = deploys t)
    (fun _ i' t' => i' = i /\ charges t' = charges t /\ deploys t' = deploys t) i t.
Proof.
  unfold initialize. wp_step. wp_step. eapply wp_mono; [..|apply price_quiet]; cbn beta.
  - intros v i' t' (-> & Hc & Hd). wp_auto. auto.
  - intros e i' t' (-> & Hc & Hd). apply wp_throw. auto.
Qed.

Lemma initialize_refines : refines (initialize M).
Proof.
  intros i t. eapply wp_mono; [..|apply initialize_spec]; cbn beta;
    intros a i' t' (-> & Hc & Hd); apply idle_step, abs_eq; auto.
Qed.

Lemma updateAddOns_refines v : refines (updateAddOns M configName noSession tier_of v).
Proof.
  intros i t. unfold updateAddOns. wp_step. apply wp_active; [intros s Es|constructor].
  wp_step. unfold update. wp_step. wp_step.
  rewrite (map_session_some _ i s Es). eapply wp_mono; [..|apply updateSessionPrice_spec]; cbn beta.
  - intros q i' t' (s' & [= <-] & -> & Hc & Hd).
    eapply wp_mono; [..|eapply return_session_spec; reflexivity]; cbn beta; [|intros ? ? ? []].
    intros w i' t'' (_ & -> & ->). apply idle_step, abs_eq; cbn; rewrite ?Es; auto.
  - intros e i' t' (-> & Hc & Hd). apply idle_step, abs_eq; cbn; rewrite ?Es; auto.
Qed.

Lemma updatePaymentMethod_refines v : refines (updatePaymentMethod configName noSession v).
Proof using Type.
  intros i t. unfold updatePaymentMethod. wp_step. apply wp_active; [intros s Es|constructor].
  wp_step. unfold update. wp_step. rewrite (map_session_some _ i s Es).
  eapply wp_mono; [..|eapply return_session_spec; reflexivity]; cbn beta; [|intros ? ? ? []].
  intros w i' t' (_ & -> & ->). apply idle_step, abs_eq; cbn; rewrite ?Es; auto.
Qed.

Lemma clearSession_refines : refines clearSession.
Proof using Type. intros i t. unfold clearSession. wp_auto. constructor. Qed.

Lemma quiet_refines {A} (m : JS integration A) : quiet m -> refines m.
Proof using Type.
  intros Hm i t. eapply wp_mono; [..|apply Hm]; cbn beta;
    intros a i' t' (-> & Hc & Hd); apply idle_step, abs_eq; auto.
Qed.

Lemma validateSession_quiet missing : quiet (validateSession M missing).
Proof. intros i t. unfold validateSession. wp_auto; count_events. Qed.

Lemma validateSession_refines missing : refines (validateSession M missing).
Proof. apply quiet_refines, validateSession_quiet. Qed.

(** A session constructor: it only reads the clock. *)
Definition fresh_session (fresh : string -> JS integration session) : Prop :=
  forall id i t, wp (fresh id)
    (fun s i' t' => i' = i /\ charges t' = charges t /\ deploys t' = deploys t
                    /\ s_status s = created /\ s_priceData s = VNull)
    (fun _ i' t' => i' = i /\ charges t' = charges t /\ deploys t' = deploys t) i t.

Lemma generateSessionId_quiet p : quiet (generateSessionId p).
Proof using Type. intros i t. unfold generateSessionId. wp_auto; count_events. Qed.

Lemma ensure_initialized_spec i t :
  wp (if isInitialized i then ret (VBool true) else initialize M)
    (fun _ i' t' => currentSession i' = currentSession i /\ isInitialized i' = true
                    /\ charges t' = charges t /\ deploys t' = deploys t)
    (fun _ i' t' => i' = i /\ charges t' = charges t /\ deploys t' = deploys t) i t.
Proof.
  destruct (isInitialized i) eqn:Ei; [apply wp_ret; auto|].
  eapply wp_mono; [..|apply initialize_spec]; cbn beta; [|auto].
  intros v i' t' (-> & Hc & Hd). auto.
Qed.

(** The outcome of opening a session: the configuration was valid, the
    session is [created] and priced, and nothing was charged. *)
Definition opened (config : jsval) (t : trace) (v : jsval) (i' : integration) (t' : trace) : Prop :=
  validateConfig M config = Ok [] /\ isInitialized i' = true
  /\ charges t' = charges t /\ deploys t' = deploys t
  /\ exists s, currentSession i' = Some s /\ s_status s = created /\ v = session_obj configName s.

Lemma startSession_spec idPrefix errorPrefix config fresh i t :
  fresh_session fresh ->
  wp (startSession M configName noSession tier_of idPrefix errorPrefix config fresh)
    (opened config t) (fun _ i' t' => ledger_step (abs i t) (abs i' t')) i t.
Proof.
  intros Hf. unfold startSession. do 3 wp_step.
  eapply wp_mono; [..|apply ensure_initialized_spec]; cbn beta.
  2: intros e i' t' (-> & Hc & Hd); apply idle_step, abs_eq; auto.
  intros _ i1 t1 (Ec & Ei & Hc1 & Hd1).
  wp_step. wp_step; [|apply idle_step, abs_eq; rewrite ?Ec; auto].
  destruct a as [|x xs]; [|wp_step; apply idle_step, abs_eq; rewrite ?Ec; auto].
  wp_step. eapply wp_mono; [..|apply generateSessionId_quiet]; cbn beta.
  2: intros e i' t' (-> & Hc & Hd); apply idle_step, abs_eq; rewrite ?Ec; congruence.
  intros id i' t2 (-> & Hc2 & Hd2). wp_step.
  eapply wp_mono; [..|apply Hf]; cbn beta.
  2: intros e i' t' (-> & Hc & Hd); apply idle_step, abs_eq; rewrite ?Ec; congruence.
  intros s i' t3 (-> & Hc3 & Hd3 & Hs & _). wp_step. wp_step. wp_step.
  eapply wp_mono; [..|apply updateSessionPrice_spec]; cbn beta.
  - intros q i' t4 (s' & [= <-] & -> & Hc4 & Hd4).
    eapply wp_mono; [..|eapply return_session_spec; reflexivity]; cbn beta; [|intros ? ? ? []].
    intros w i' t' (-> & -> & ->). unfold opened. repeat split; try congruence.
    + exact Ei.
    + eexists. split; [reflexivity|]. split; [exact Hs|reflexivity].
  - intros e i' t' (-> & Hc & Hd). unfold abs at 2. cbn. rewrite Hs, Hc, Hd, Hc3, Hd3, Hc2, Hd2, Hc1, Hd1.
    constructor.
Qed.

Lemma startSession_refines idPrefix errorPrefix config fresh :
  fresh_session fresh ->
  refines (startSession M configName noSession tier_of idPrefix errorPrefix config fresh).
Proof.
  intros Hf i t. eapply wp_mono; [..|apply startSession_spec, Hf]; cbn beta; [|auto].
  intros v i' t' (_ & _ & Hc & Hd & s & Es & Hs & _).
  unfold abs at 2. rewrite Es, Hs, Hc, Hd. constructor.
Qed.

(** A creation that returns: one charge, one deployment, and a [completed]
    session with its payment and its contract address. *)
Definition settled (t : trace) (v : jsval) (i' : integration) (t' : trace) : Prop :=
  charges t' = S (charges t) /\ deploys t' = S (deploys t)
  /\ exists s address, currentSession i' = Some s /\ s_status s = completed
     /\ get (s_contractResult s) "contractAddress" = Ok address /\ truthy address = true
     /\ v = VObj [("success", VBool true); ("session", session_obj configName s);
                  ("contractAddress", address); ("paymentResult", s_paymentResult s)].

(** A creation that throws [e]: it had no session or no quote, and nothing
    happened; or the session is [failed] with the message of [e]. *)
Definition broken (i : integration) (t : trace) (e : jserr) (i' : integration) (t' : trace) : Prop :=
  (i' = i /\ charges t' = charges t /\ deploys t' = deploys t)
  \/ (currentSession i <> None
      /\ (exists k j, j <= k <= 1 /\ charges t' = k + charges t /\ deploys t' = j + deploys t)
      /\ exists s, currentSession i' = Some s /\ s_status s = failed /\ s_error s = VStr (e_msg e)).

(** The [try] block, from an open session. *)
Lemma process_guarded_spec deploy i t s :
  deployment deploy -> currentSession i = Some s ->
  wp (process_guarded M configName noSession deploy)
    (settled t)
    (fun _ i' t' => (exists s', currentSession i' = Some s')
       /\ exists k j, j <= k <= 1 /\ charges t' = k + charges t /\ deploys t' = j + deploys t) i t.
Proof.
  intros Hdep Es. unfold process_guarded, update. do 2 wp_step. rewrite (map_session_some _ i s Es).
  wp_step. apply wp_active; [intros ? [= <-]|discriminate].
  wp_step. eapply wp_mono; [..|apply payment_pays]; cbn beta.
  2: { intros e i' t' (-> & Hc & Hd). split; [eexists; reflexivity|].
       exists (charges t' - charges t), 0. lia. }
  intros r i' t1 (-> & Hc1 & Hd1). wp_step.
  eapply wp_mono; [..|apply save_quiet]; cbn beta; [|intros ? ? ? []].
  intros _ i' t2 (-> & Hc2 & Hd2). do 5 wp_step.
  eapply wp_mono; [..|apply Hdep]; cbn beta.
  2: { intros e i' t' (-> & Hc & Hd). split; [eexists; reflexivity|].
       exists 1, (deploys t' - deploys t). lia. }
  intros c i' t3 (-> & Hc3 & Hd3 & a & Ha & Ht). do 5 wp_step.
  apply wp_active; [intros ? [= <-]|discriminate].
  wp_step. wp_step; [|congruence]. wp_step.
  split; [lia|]. split; [lia|]. do 2 eexists. split; [reflexivity|].
  split; [reflexivity|]. cbn [s_contractResult set_contractResult].
  split; [exact Ha|]. split; [exact Ht|].
  match goal with E : get c _ = Ok ?x |- _ => assert (x = a) as -> by congruence end.
  reflexivity.
Qed.

Lemma processCreation_spec deploy i t :
  deployment deploy ->
  wp (processCreation M configName noSession tier_of deploy) (settled t) (broken i t) i t.
Proof.
  intros Hdep. unfold processCreation. wp_step.
  apply wp_active; [intros s0 Es|left; auto]. wp_step.
  assert (Hrest : forall i1 t1 s1, currentSession i1 = Some s1 ->
    charges t1 = charges t -> deploys t1 = deploys t ->
    wp (try_catch (process_guarded M configName noSession deploy) record_failure)
      (settled t) (broken i t) i1 t1).
  { intros i1 t1 s1 Es1 Hc Hd. wp_step.
    eapply wp_mono; [..|eapply process_guarded_spec; eassumption]; cbn beta.
    - intros v i' t' (Hc' & Hd' & Hs). split; [congruence|]. split; [congruence|exact Hs].
    - intros e i' t' ((s' & Es') & k & j & Hkj & Hc' & Hd'). unfold record_failure, update. do 4 wp_step.
      rewrite (map_session_some _ i' s' Es'). wp_step. right.
      split; [congruence|]. split; [exists k, j; split; [exact Hkj|split; congruence]|].
      eexists. split; [reflexivity|]. auto. }
  destruct (truthy (s_priceData s0)).
  - wp_step. eapply Hrest; eauto.
  - eapply wp_mono; [..|apply updateSessionPrice_spec]; cbn beta.
    + intros v i' t' (s & Es' & -> & Hc & Hd). eapply Hrest; [reflexivity|assumption..].
    + intros e i' t' (-> & Hc & Hd). left. auto.
Qed.

Lemma session_phase x : phase_of x <> NoSession.
Proof using Type. destruct x; discriminate. Qed.

Lemma processCreation_refines deploy :
  deployment deploy -> refines (processCreation M configName noSession tier_of deploy).
Proof.
  intros Hdep i t. destruct (currentSession i) as [s0|] eqn:Ei.
  2: { unfold processCreation. wp_step. apply wp_active; [congruence|constructor]. }
  eapply wp_mono; [..|apply processCreation_spec, Hdep]; cbn beta.
  - intros v i' t' (Hc & Hd & s & a & Es & Hs & _).
    unfold abs. rewrite Ei, Es, Hs, Hc, Hd. apply l_settle, session_phase.
  - intros e i' t' [(-> & Hc & Hd) | (_ & (k & j & Hkj & Hc & Hd) & s & Es & Hs & _)].
    + apply idle_step, abs_eq; auto.
    + unfold abs. rewrite Ei, Es, Hs, Hc, Hd. apply l_break; [apply session_phase|exact Hkj].
Qed.

(** A quoted session whose payment and deployment go through is processed to
    the end. *)
Lemma processCreation_returns deploy i t s :
  currentSession i = Some s -> truthy (s_priceData s) = true ->
  (forall i t, wp (processPayment M integration (s_paymentMethod s) (s_priceData s) (s_config s))
                 (fun _ i' _ => i' = i) (fun _ _ _ => False) i t) ->
  (forall i' t' s', currentSession i' = Some s' -> s_config s' = s_config s ->
     s_selectedAddOns s' = s_selectedAddOns s -> s_tier s' = s_tier s ->
     wp deploy (fun v i'' _ => i'' = i' /\ exists l, v = VObj l) (fun _ _ _ => False) i' t') ->
  wp (processCreation M configName noSession tier_of deploy) (fun _ _ _ => True) (fun _ _ _ => False) i t.
Proof.
  intros Es Hq Hpay Hdep. unfold processCreation. wp_step.
  apply wp_active; [intros s0 Es0|congruence]. rewrite Es in Es0. injection Es0 as <-. rewrite Hq. cbv iota. do 3 wp_step.
  unfold process_guarded, update. do 2 wp_step. unfold map_session. rewrite Es. wp_step.
  apply wp_active; cbn [currentSession]; [intros s0 [= <-]|discriminate]. wp_step. cbn [set_status s_paymentMethod s_priceData s_config].
  eapply wp_mono; [..|apply Hpay]; cbn beta; [|intros ? ? ? []]. intros v i1 t1 ->. wp_step.
  eapply wp_mono; [..|apply save_quiet]; cbn beta; [|intros ? ? ? []]. intros v' i2 t2 (-> & _). do 4 wp_step.
  wp_step. cbn [currentSession]. eapply wp_mono; [..|eapply Hdep; reflexivity]; cbn beta; [|intros ? ? ? []].
  intros v2 i3 t3 (-> & l & ->). do 4 wp_step. wp_step. cbn [currentSession].
  apply wp_active; cbn [currentSession]; [intros s0 [= <-]|discriminate]. do 2 wp_step; [|discriminate]. wp_step. exact I.
Qed.

(** ** Invariants of the stored quote *)

Section Quote.
Variable P : jsval -> Prop.
Hypothesis P_null : P VNull.
Hypothesis P_quote : forall keys options i t,
  wp (calculateTotalPrice M integration keys options)
    (fun q _ _ => P q) (fun _ _ _ => True) i t.

(** The quote of the current session, if there is one, satisfies [P]. *)
Definition quoted (i : integration) : Prop :=
  forall s, currentSession i = Some s -> P (s_priceData s).

Definition keeps {A} (m : JS integration A) : Prop :=
  forall i t, quoted i -> wp m (fun _ i' _ => quoted i') (fun _ i' _ => quoted i') i t.

Lemma keeps_bind {A B} (m : JS integration A) (k : A -> JS integration B) :
  keeps m -> (forall a, keeps (k a)) -> keeps (bind m k).
Proof using Type.
  intros Hm Hk i t Hi. apply wp_bind. eapply wp_mono; [..|apply Hm, Hi]; cbn beta; [|auto].
  intros a i' t' Hi'. apply Hk, Hi'.
Qed.

Lemma keeps_try {A} (m : JS integration A) h :
  keeps m -> (forall e, keeps (h e)) -> keeps (try_catch m h).
Proof using Type.
  intros Hm Hh i t Hi. apply wp_try_catch. eapply wp_mono; [..|apply Hm, Hi]; cbn beta; [auto|].
  intros e i' t' Hi'. apply Hh, Hi'.
Qed.

Lemma keeps_quiet {A} (m : JS integration A) : quiet m -> keeps m.
Proof using Type.
  intros Hm i t Hi. eapply wp_mono; [..|apply Hm]; cbn beta; intros ? ? ? (-> & _); exact Hi.
Qed.

Lemma keeps_pays {A} (m : JS integration A) : pays m -> keeps m.
Proof using Type.
  intros Hm i t Hi. eapply wp_mono; [..|apply Hm]; cbn beta; intros ? ? ? (-> & _); exact Hi.
Qed.

Lemma keeps_deployment m : deployment m -> keeps m.
Proof using Type.
  intros Hm i t Hi. eapply wp_mono; [..|apply Hm]; cbn beta; intros ? ? ? (-> & _); exact Hi.
Qed.

Lemma keeps_save r cfg addOns : keeps (savePaymentData M integration r cfg addOns).
Proof.
  intros i t Hi. eapply wp_mono; [..|apply save_quiet]; cbn beta; [|intros ? ? ? []].
  intros ? ? ? (-> & _). exact Hi.
Qed.

(** An update that leaves the quote alone. *)
Lemma keeps_update f :
  (forall s, s_priceData (f s) = s_priceData s) -> keeps (update f).
Proof using Type.
  intros Hf i t Hi. apply wp_modify. intros s Es. unfold map_session in Es. cbn in Es.
  destruct (currentSession i) as [s0|] eqn:E0; [|discriminate]. injection Es as <-.
  rewrite Hf. apply Hi, E0.
Qed.

Lemma keeps_active : keeps (active noSession).
Proof using Type. intros i t Hi. apply wp_active; auto. Qed.

Lemma keeps_ret {A} (a : A) : keeps (ret a).
Proof using Type. intros i t Hi. exact Hi. Qed.

Lemma keeps_throw {A} e : keeps (A := A) (throw e).
Proof using Type. intros i t Hi. exact Hi. Qed.

Lemma keeps_lift {A} (r : result A) : keeps (lift r).
Proof using Type. intros i t Hi. apply wp_lift; auto. Qed.

Lemma keeps_read {A} (f : integration -> A) : keeps (read f).
Proof using Type. intros i t Hi. exact Hi. Qed.

(** The stored quote is the one just computed. *)
Lemma keeps_updateSessionPrice : keeps (updateSessionPrice M noSession tier_of).
Proof using P_quote MonetizationLaws0.
  intros i t Hi. unfold updateSessionPrice. wp_step. apply wp_active; [intros s Es|auto].
  do 2 wp_step. apply wp_active; [intros s' Es'|congruence]. wp_step.
  eapply wp_mono; [..|apply wp_and; [apply total_quiet|apply P_quote]]; cbn beta.
  - intros q i' t' ((-> & _) & Hq). wp_step. unfold update. do 2 wp_step.
    rewrite (map_session_some _ i s Es). intros s1 [= <-]. exact Hq.
  - intros e i' t' ((-> & _) & _). wp_step. exact Hi.
Qed.

Lemma keeps_initialize : keeps (initialize M).
Proof using MonetizationLaws0.
  intros i t Hi. eapply wp_mono; [..|apply initialize_spec]; cbn beta;
    intros a i' t' (-> & _); exact Hi.
Qed.

Lemma keeps_return_session : keeps (return_session configName noSession).
Proof using Type. apply keeps_bind; [apply keeps_active|intros s; apply keeps_ret]. Qed.

Lemma keeps_updateAddOns v : keeps (updateAddOns M configName noSession tier_of v).
Proof using P_quote MonetizationLaws0.
  apply keeps_bind; [apply keeps_active|intros _].
  apply keeps_bind; [apply keeps_update; reflexivity|intros _].
  apply keeps_bind; [apply keeps_updateSessionPrice|intros _; apply keeps_return_session].
Qed.

Lemma keeps_updatePaymentMethod v : keeps (updatePaymentMethod configName noSession v).
Proof using Type.
  apply keeps_bind; [apply keeps_active|intros _].
  apply keeps_bind; [apply keeps_update; reflexivity|intros _; apply keeps_return_session].
Qed.

Lemma keeps_startSession idPrefix errorPrefix config fresh :
  fresh_session fresh ->
  keeps (startSession M configName noSession tier_of idPrefix errorPrefix config fresh).
Proof using P_null P_quote MonetizationLaws0.
  intros Hf. apply keeps_bind; [apply keeps_read|intros b].
  apply keeps_bind; [destruct b; [apply keeps_ret|apply keeps_initialize]|intros _].
  apply keeps_bind; [apply keeps_lift|intros [|x xs]]; [|apply keeps_throw].
  apply keeps_bind; [apply keeps_quiet, generateSessionId_quiet|intros id].
  intros i t Hi. wp_step. eapply wp_mono; [..|apply Hf]; cbn beta; [|intros ? ? ? (-> & _); exact Hi].
  intros s i' t' (-> & _ & _ & _ & Hs). do 2 wp_step.
  apply keeps_bind; [apply keeps_updateSessionPrice|intros _; apply keeps_return_session|].
  intros s1 [= <-]. rewrite Hs. exact P_null.
Qed.

Lemma keeps_processCreation deploy :
  deployment deploy -> keeps (processCreation M configName noSession tier_of deploy).
Proof using P_quote MonetizationLaws0.
  intros Hd. apply keeps_bind; [apply keeps_active|intros s0].
  apply keeps_bind; [destruct (truthy (s_priceData s0)); [apply keeps_ret|apply keeps_updateSessionPrice]|intros _].
  apply keeps_try; unfold process_guarded, record_failure.
  - apply keeps_bind; [apply keeps_update; reflexivity|intros _].
    apply keeps_bind; [apply keeps_active|intros s].
    apply keeps_bind; [apply keeps_pays, payment_pays|intros r].
    apply keeps_bind; [apply keeps_save|intros _].
    do 2 (apply keeps_bind; [apply keeps_update; reflexivity|intros _]).
    apply keeps_bind; [apply keeps_deployment, Hd|intros c].
    do 2 (apply keeps_bind; [apply keeps_update; reflexivity|intros _]).
    apply keeps_bind; [apply keeps_active|intros f].
    apply keeps_bind; [apply keeps_lift|intros a; apply keeps_ret].
  - intros e. do 2 (apply keeps_bind; [apply keeps_update; reflexivity|intros _]). apply keeps_throw.
Qed.

Lemma keeps_clearSession : keeps clearSession.
Proof using Type. intros i t Hi. unfold clearSession. wp_auto. intros s [=]. Qed.

(** When the session's method cannot charge a quote satisfying [P], the
    creation throws and nothing was charged or deployed. *)
Lemma processCreation_unpayable deploy i t s :
  (forall q cfg, P q ->
     quiet (processPayment M integration (s_paymentMethod s) q cfg)
     /\ always_throws (processPayment M integration (s_paymentMethod s) q cfg)) ->
  quoted i -> currentSession i = Some s ->
  wp (processCreation M configName noSession tier_of deploy)
    (fun _ _ _ => False) (fun _ _ t' => charges t' = charges t /\ deploys t' = deploys t) i t.
Proof using P_quote MonetizationLaws0.
  intros Hpay Hi Es. unfold processCreation. wp_step.
  apply wp_active; [intros s0 Es0|congruence]. assert (s0 = s) as -> by congruence. wp_step.
  assert (Hrest : forall i1 t1 v, P v -> charges t1 = charges t -> deploys t1 = deploys t ->
    currentSession i1 = Some (set_priceData v s) ->
    wp (try_catch (process_guarded M configName noSession deploy) record_failure)
     (fun _ _ _ => False) (fun _ _ t' => charges t' = charges t /\ deploys t' = deploys t) i1 t1).
  { intros i1 t1 v HP Hc Hde Es1. wp_step. unfold process_guarded, update. do 2 wp_step.
    rewrite (map_session_some _ i1 _ Es1). wp_step. apply wp_active; [intros ? [= <-]|discriminate].
    wp_step. cbn [s_paymentMethod s_priceData s_config set_status set_priceData].
    destruct (Hpay v (s_config s) HP) as [Hq Hth].
    eapply wp_mono; [..|apply wp_and; [apply Hq|apply Hth]]; cbn beta; [intros ? ? ? (_ & [])|].
    intros e i' t' ((-> & Hc' & Hd') & _). unfold record_failure, update. wp_auto. split; congruence. }
  destruct (truthy (s_priceData s)).
  - wp_step. apply (Hrest i t (s_priceData s)); auto. destruct s; exact Es.
  - eapply wp_mono; [..|apply wp_and; [apply updateSessionPrice_spec|apply keeps_updateSessionPrice, Hi]];
      cbn beta.
    + intros v i' t' ((s' & Es' & -> & Hc & Hde) & Hq). assert (s' = s) as -> by congruence.
      apply (Hrest _ _ v); auto. apply (Hq (set_priceData v s)). reflexivity.
    + intros e i' t' ((-> & Hc & Hde) & _). auto.
Qed.

End Quote.
End Specs.
