(* ===== verification/Solidity.v ===== *)
(** * Contract templates and deployment receipts

    The text manipulation the creation integrations share: Solidity
    templates, removal of white space from a contract name, insertion of an
    add-on with [code.replace('}', feature + '\n}')], and the search of a
    deployment event in a transaction receipt. *)

From Stdlib Require Import ZArith Bool List String Ascii Lia.
From S2P Require Import Prelude JsNum JsVal JsMonad Payments Session.
Import ListNotations.
Local Open Scope string_scope.

(** A template: the grave accent, absent from Solidity, stands for the double
    quote. *)
Definition sol : string -> string :=
  map_string (fun c => if Ascii.eqb c "`" then dquote else c).

Definition newline : string := String "010" EmptyString.

(** [s.replace(/\s+/g, '')]. *)
Fixpoint strip_ws (s : string) : string :=
  match s with
  | EmptyString => EmptyString
  | String c s' => if is_space c then strip_ws s' else String c (strip_ws s')
  end.

(** [const { name } = config; name.replace(/\s+/g, '')], where [expr] is the
    text of [config]. *)
Definition contract_name (expr : string) (config : jsval) : result string :=
  res_bind (destructure_of expr config "name") (fun name =>
  res_bind (as_string "name" "replace" name) (fun s => Ok (strip_ws s))).

(** [contractCode.replace('}', feature + '\n}')]. *)
Definition insert_feature (contractCode feature : string) : string :=
  replace_first contractCode "}" (feature ++ newline ++ "}").

(** The first event named [name] of a receipt's [events]. *)
Fixpoint find_event (name : string) (events : list jsval) : result jsval :=
  match events with
  | [] => Ok VUndef
  | e :: events' =>
      res_bind (get e "event") (fun n =>
      if is_str n name then Ok e else find_event name events')
  end.

Section Deploy.
Context `{Env} {S : Type}.

(** A deployment through ShahFactory: [method] with the code, the constructor
    arguments and a gas limit, then the address out of the receipt. *)
Definition factory_deploy (method event field : string) (contractCode : jsval)
    (constructorArgs : result (list jsval)) : JS S jsval :=
  try_catch
    (let* signer := connect_signer in
     let* shahFactory := shah_factory signer in
     let* args := lift constructorArgs in
     let* tx := ext method [shahFactory; contractCode; VArr args;
                            VObj [("gasLimit", vnum 5000000)]] in
     let* receipt := ext "tx.wait" [tx] in
     let* events := lift (res_bind (get receipt "events") (as_array "receipt.events" "find")) in
     let* found := lift (find_event event events) in
     let deployedAddress := get_opt (get_opt found "args") field in
     if truthy deployedAddress then ret deployedAddress
     else throw (Error "Failed to extract deployed contract address"))
    (fun e => throw (Error ("Deployment failed: " ++ e_msg e))).

(** Applying the add-ons of a session in the order of the source: a feature
    is applied when the selection includes its key. *)
Fixpoint apply_features (selectedAddOns : jsval)
    (features : list (string * (string -> result string))) (code : string) : result string :=
  match features with
  | [] => Ok code
  | (key, f) :: features' =>
      res_bind (call_includes "selectedAddOns" selectedAddOns key) (fun b =>
      res_bind (if b then f code else Ok code) (fun code' =>
      apply_features selectedAddOns features' code'))
  end.

(** The gas estimate of both integrations for generated code. *)
Definition estimate_gas (code : result string) (shahPrice : JS S jsval) : JS S jsval :=
  try_catch
    (let* contractCode := lift code in
     let* provider := ext "new ethers.providers.JsonRpcProvider" [rpc_url] in
     let* gasEstimate := ext "provider.estimateGas"
                           [provider; VObj [("data", VStr contractCode); ("value", vnum 0)]] in
     let* gasPrice := ext "provider.getGasPrice" [provider] in
     let* costInWei := ext "BigNumber.mul" [gasEstimate; gasPrice] in
     let* costInShah := ext "ethers.utils.formatEther" [costInWei] in
     let* price := shahPrice in
     let shah := parseFloat (to_str costInShah) in
     let costInUSD := to_num (js_mul (VNum shah) price) in
     let* estimateText := ext "BigNumber.toString" [gasEstimate] in
     let* gwei := ext "ethers.utils.formatUnits" [gasPrice; VStr "gwei"] in
     ret (VObj [("gasEstimate", estimateText); ("gasPrice", js_add gwei (VStr " gwei"));
                ("costInShah", VStr (Num.to_fixed shah 6));
                ("costInUSD", VStr (Num.to_fixed costInUSD 2)); ("shahPrice", price)]))
    (fun e => throw (Error ("Gas estimation failed: " ++ e_msg e))).

End Deploy.

(** Features that never fail can all be applied to a list of keys. *)
Lemma apply_features_total keys features code :
  Forall (fun f => forall c, exists c', snd f c = Ok c') features ->
  exists code', apply_features (VArr keys) features code = Ok code'.
Proof.
  intros F. revert code. induction F as [|[k f] fs Hf _ IH]; intros code; cbn [apply_features call_includes res_bind]; [eauto|].
  destruct (existsb _ keys); [destruct (Hf code) as [c Hc]; cbn [snd] in Hc; rewrite Hc|]; apply IH.
Qed.

(** ** Deployments that go through *)

(** Every transaction is mined, and its receipt has the event with an
    address. *)
Class FactoryLaws `{Env} (event field : string) : Prop :=
  mined : forall t args, exists l events found,
    reply t "tx.wait" args = Ok (VObj l) /\ obj_get l "events" = VArr events
    /\ find_event event events = Ok found /\ truthy (get_opt (get_opt found "args") field) = true.

Lemma factory_deploy_returns `{CardLaws} method event field {FactoryLaws : FactoryLaws event field} code args (i : integration) t :
  wp (factory_deploy method event field code (Ok args)) (fun _ i' _ => i' = i) (fun _ _ _ => False) i t.
Proof.
  unfold factory_deploy, connect_signer, shah_factory. do 15 live_step.
  match goal with |- wp (bind (ext "tx.wait" ?a) _) _ _ _ ?t => destruct (mined t a) as (l & events & found & R & He & Hf & Ha) end.
  wp_step. apply (wp_ext_ok _ _ _ _ _ _ _ R). cbn [get res_bind]. rewrite He. cbn [as_array]. do 3 live_step. rewrite Hf. live_step.
  rewrite Ha. live_step. reflexivity.
Qed.

(** ** Properties *)

Lemma factory_deploy_deployment `{Env} method event field code args (post : jsval -> JS integration jsval) :
  mem_string method ["shahFactory.deployToken"; "shahFactory.deployNFT"] = true ->
  (forall a i t, truthy a = true ->
     wp (post a) (fun r i' t' => i' = i /\ charges t' = charges t /\ deploys t' = deploys t
                     /\ get r "contractAddress" = Ok a)
                 (fun _ i' t' => i' = i /\ charges t' = charges t /\ deploys t' = deploys t) i t) ->
  deployment (let* a := factory_deploy method event field code args in post a).
Proof.
  intros Hm Hpost i t. wp_step.
  assert (Hdep : wp (factory_deploy method event field code args)
    (fun a i' t' => i' = i /\ charges t' = charges t /\ deploys t' = S (deploys t) /\ truthy a = true)
    (fun _ i' t' => i' = i /\ charges t' = charges t /\ deploys t <= deploys t' <= S (deploys t))%nat i t).
  { unfold factory_deploy, connect_signer, shah_factory.
    apply mem_string_In in Hm. cbn [In] in Hm. destruct Hm as [<-|[<-|[]]];
      wp_auto; count_events; assumption. }
  eapply wp_mono; [..|exact Hdep]; cbn beta; [|auto].
  intros a i' t' (-> & Hc & Hd & Ht). eapply wp_mono; [..|apply Hpost, Ht]; cbn beta.
  - intros r i' t'' (-> & Hc' & Hd' & Hg). repeat split; try congruence. exists a. auto.
  - intros e i' t'' (-> & Hc' & Hd'). repeat split; try congruence; lia.
Qed.

(** Nesting depth of braces after reading [s] from depth [d]. *)
Fixpoint depth (d : Z) (s : string) : Z :=
  match s with
  | EmptyString => d
  | String c s' =>
      depth (if Ascii.eqb c "{" then d + 1 else if Ascii.eqb c "}" then d - 1 else d)%Z s'
  end.

Fixpoint has_char (c : ascii) (s : string) : bool :=
  match s with EmptyString => false | String c' s' => Ascii.eqb c c' || has_char c s' end.

Lemma depth_app d a b : depth d (a ++ b) = depth (depth d a) b.
Proof. revert d. induction a as [|c a IH]; intros d; cbn [depth append]; [reflexivity|apply IH]. Qed.

Lemma has_char_app c a b : has_char c (a ++ b) = has_char c a || has_char c b.
Proof. induction a as [|c' a IH]; cbn; [reflexivity|]. rewrite IH, orb_assoc. reflexivity. Qed.

Lemma depth_no_brace d s : has_char "{" s = false -> has_char "}" s = false -> depth d s = d.
Proof.
  revert d. induction s as [|c s IH]; intros d; cbn [depth has_char]; [reflexivity|].
  rewrite !orb_false_iff, !(Ascii.eqb_sym _ c). intros [-> H1] [-> H2]. apply IH; assumption.
Qed.

(** The feature lands at the first closing brace. *)
Lemma insert_feature_at pre post feature :
  has_char "}" pre = false ->
  insert_feature (pre ++ "}" ++ post) feature = pre ++ feature ++ newline ++ "}" ++ post.
Proof.
  intros Hp. unfold insert_feature. induction pre as [|c pre IH]; cbn [append].
  - cbn [replace_first]. replace (startsWith (String "}" post) "}") with true
      by (destruct post; reflexivity).
    cbn [String.length drop_string]. rewrite !append_assoc. reflexivity.
  - cbn [has_char] in Hp. apply orb_false_iff in Hp as [Hc Hp].
    cbn [replace_first]. unfold startsWith.
    change (String.prefix "}" (String c (pre ++ String "}" post)))
      with (if ascii_dec "}" c then String.prefix EmptyString (pre ++ String "}" post) else false).
    destruct (ascii_dec "}" c) as [<-|N]; [rewrite Ascii.eqb_refl in Hc; discriminate|].
    f_equal. apply IH, Hp.
Qed.

Lemma strip_ws_no_char c s : has_char c s = false -> has_char c (strip_ws s) = false.
Proof.
  induction s as [|c' s IH]; cbn [has_char strip_ws]; [auto|]. rewrite orb_false_iff. intros [H1 H2].
  destruct (is_space c'); cbn [has_char]; rewrite ?H1; auto.
Qed.

(** Splitting at the first occurrence of a character. *)
Fixpoint before_char (c : ascii) (s : string) : string :=
  match s with
  | EmptyString => EmptyString
  | String c' s' => if Ascii.eqb c c' then EmptyString else String c' (before_char c s')
  end.

Fixpoint after_char (c : ascii) (s : string) : string :=
  match s with
  | EmptyString => EmptyString
  | String c' s' => if Ascii.eqb c c' then s' else after_char c s'
  end.

Lemma split_char c s :
  has_char c s = true -> s = before_char c s ++ String c (after_char c s).
Proof.
  induction s as [|c' s IH]; cbn [has_char before_char after_char]; [discriminate|].
  destruct (Ascii.eqb_spec c c') as [->|N]; cbn [orb append]; [reflexivity|].
  intros Hs. f_equal. apply IH, Hs.
Qed.

Lemma before_char_none c s : has_char c (before_char c s) = false.
Proof.
  induction s as [|c' s IH]; cbn [before_char has_char]; [reflexivity|].
  destruct (Ascii.eqb c c') eqn:E; cbn [has_char]; rewrite ?E; auto.
Qed.

(** Code generated from a template [a ++ name ++ b]: a feature is inserted at
    nesting depth [d], where [d] is read off the template. *)
Lemma feature_depth a b name feature d :
  has_char "}" a = false -> has_char "{" name = false -> has_char "}" name = false ->
  has_char "}" b = true -> depth (depth 0 a) (before_char "}" b) = d ->
  exists pre post,
    a ++ name ++ b = pre ++ "}" ++ post
    /\ insert_feature (a ++ name ++ b) feature = pre ++ feature ++ newline ++ "}" ++ post
    /\ depth 0 pre = d.
Proof.
  intros Ha Hn1 Hn2 Hb Hd. exists (a ++ name ++ before_char "}" b), (after_char "}" b).
  assert (E : a ++ name ++ b = (a ++ name ++ before_char "}" b) ++ "}" ++ after_char "}" b).
  { rewrite (split_char "}" b Hb) at 1. rewrite !append_assoc. reflexivity. }
  split; [exact E|]. split.
  - rewrite E. apply insert_feature_at. rewrite !has_char_app, Ha, Hn2, before_char_none. reflexivity.
  - rewrite !depth_app, (depth_no_brace _ name) by assumption. exact Hd.
Qed.
