(* ===== verification/TokenCreation.v ===== *)
(** * Token creation

    [TokenCreationIntegration] of
    src/sdk-core/smart-contract-toolkit/TokenCreationIntegration.js: the
    session machine of [Session] over [TokenMonetizationSystem], the SHI-20
    contract generator with its add-ons, the deployment and the tier upgrade.
    (The source imports the monetization class from ./TokenMonetization.js;
    the class itself is in token-monetization.js.) *)

From Stdlib Require Import ZArith Bool List String Ascii Lia.
From S2P Require Import Prelude JsNum JsNumFacts JsVal JsMonad Payments TokenMonetization Session Solidity.
Import ListNotations.
Local Open Scope string_scope.

Module TokenCreationIntegration.

(** ** Contract generation *)

Definition base_template (name : string) : string :=
  sol "// SPDX-License-Identifier: MIT
pragma solidity ^0.8.0;

import `@openzeppelin/contracts/token/ERC20/ERC20.sol`;
import `@openzeppelin/contracts/access/Ownable.sol`;
import `@openzeppelin/contracts/security/Pausable.sol`;

contract " ++ name ++ sol " is ERC20, Ownable, Pausable {
    uint256 public maxSupply;
    
    // SHI-20 Metadata
    string public constant TOKEN_STANDARD = `shahcoin.token.standard.v1`;
    string public constant TOKEN_TYPE = `SHI-20`;
    string public constant CREATED_BY = `ShahFactory`;
    bool public verified = false;
    string public tier;
    
    constructor(
        string memory name_,
        string memory symbol_,
        uint256 initialSupply_,
        uint256 maxSupply_,
        string memory tier_
    ) ERC20(name_, symbol_) {
        _mint(msg.sender, initialSupply_ * 10**decimals());
        maxSupply = maxSupply_ * 10**decimals();
        tier = tier_;
    }
    
    function mint(address to, uint256 amount) public onlyOwner {
        require(totalSupply() + amount <= maxSupply, `Exceeds max supply`);
        _mint(to, amount);
    }
    
    function pause() public onlyOwner {
        _pause();
    }
    
    function unpause() public onlyOwner {
        _unpause();
    }
    
    function _beforeTokenTransfer(
        address from,
        address to,
        uint256 amount
    ) internal override whenNotPaused {
        super._beforeTokenTransfer(from, to, amount);
    }
    
    // Metadata getter
    function getTokenMetadata() public view returns (
        string memory standard,
        string memory type_,
        string memory name_,
        string memory symbol_,
        uint8 decimals_,
        uint256 totalSupply_,
        uint256 maxSupply_,
        string memory createdBy,
        bool verified_,
        string memory tier_
    ) {
        return (
            TOKEN_STANDARD,
            TOKEN_TYPE,
            name(),
            symbol(),
            decimals(),
            totalSupply(),
            maxSupply,
            CREATED_BY,
            verified,
            tier
        );
    }
    
    // Admin function to set verification status
    function setVerified(bool _verified) public onlyOwner {
        verified = _verified;
    }
}".

Definition upgradeable_template (name : string) : string :=
  sol "// SPDX-License-Identifier: MIT
pragma solidity ^0.8.0;

import `@openzeppelin/contracts-upgradeable/token/ERC20/ERC20Upgradeable.sol`;
import `@openzeppelin/contracts-upgradeable/access/OwnableUpgradeable.sol`;
import `@openzeppelin/contracts-upgradeable/security/PausableUpgradeable.sol`;
import `@openzeppelin/contracts-upgradeable/proxy/utils/Initializable.sol`;
import `@openzeppelin/contracts-upgradeable/proxy/utils/UUPSUpgradeable.sol`;

contract " ++ name ++ sol " is 
    Initializable, 
    ERC20Upgradeable, 
    OwnableUpgradeable, 
    PausableUpgradeable, 
    UUPSUpgradeable 
{
    uint256 public maxSupply;
    
    /// @custom:oz-upgrades-unsafe-allow constructor
    constructor() {
        _disableInitializers();
    }
    
    function initialize(
        string memory name_,
        string memory symbol_,
        uint256 initialSupply_,
        uint256 maxSupply_
    ) public initializer {
        __ERC20_init(name_, symbol_);
        __Ownable_init();
        __Pausable_init();
        __UUPSUpgradeable_init();
        
        _mint(msg.sender, initialSupply_ * 10**decimals());
        maxSupply = maxSupply_ * 10**decimals();
    }
    
    function mint(address to, uint256 amount) public onlyOwner {
        require(totalSupply() + amount <= maxSupply, `Exceeds max supply`);
        _mint(to, amount);
    }
    
    function pause() public onlyOwner {
        _pause();
    }
    
    function unpause() public onlyOwner {
        _unpause();
    }
    
    function _authorizeUpgrade(address newImplementation) internal override onlyOwner {}
    
    function _beforeTokenTransfer(
        address from,
        address to,
        uint256 amount
    ) internal override whenNotPaused {
        super._beforeTokenTransfer(from, to, amount);
    }
}".

Definition airdropFunction : string :=
  sol "
    function airdrop(address[] memory recipients, uint256[] memory amounts) public onlyOwner {
        require(recipients.length == amounts.length, `Arrays length mismatch`);
        for (uint256 i = 0; i < recipients.length; i++) {
            require(totalSupply() + amounts[i] <= maxSupply, `Exceeds max supply`);
            _mint(recipients[i], amounts[i]);
        }
    }
    
    function batchTransfer(address[] memory recipients, uint256[] memory amounts) public {
        require(recipients.length == amounts.length, `Arrays length mismatch`);
        for (uint256 i = 0; i < recipients.length; i++) {
            _transfer(msg.sender, recipients[i], amounts[i]);
        }
    }".

Definition logoFunction : string :=
  sol "
    string public logoURI;
    
    function setLogoURI(string memory _logoURI) public onlyOwner {
        logoURI = _logoURI;
    }".

(** The other destructured fields are not used by the template. *)
Definition generateBaseContract (tokenConfig : jsval) : result string :=
  res_bind (contract_name "tokenConfig" tokenConfig) (fun name => Ok (base_template name)).

(** The upgradeable contract replaces the code generated so far. *)
Definition addUpgradeableFeature (tokenConfig : jsval) (contractCode : string) : result string :=
  res_bind (contract_name "tokenConfig" tokenConfig) (fun name => Ok (upgradeable_template name)).

Definition addAirdropFeature (contractCode : string) : result string :=
  Ok (insert_feature contractCode airdropFunction).

Definition addCustomLogoFeature (contractCode : string) : result string :=
  Ok (insert_feature contractCode logoFunction).

Definition features (tokenConfig : jsval) : list (string * (string -> result string)) :=
  [("upgradeableContract", addUpgradeableFeature tokenConfig);
   ("airdropTool", addAirdropFeature);
   ("customLogo", addCustomLogoFeature)].

(** ** The class *)

(** The tier a quote is asked for:
    [session.tier || session.tokenConfig?.tier || 'Basic']. *)
Definition quote_tier (s : session) : jsval :=
  js_or (js_or (s_tier s) (get_opt (s_config s) "tier")) (VStr "Basic").

(** [{ ...tokenConfig, tier: tier || tokenConfig.tier || 'Basic' }]. *)
Definition config_with_tier (s : session) : result jsval :=
  res_bind (if truthy (s_tier s) then Ok (s_tier s)
            else res_bind (get (s_config s) "tier") (fun x => Ok (js_or x (VStr "Basic"))))
    (fun tier => Ok (VObj (obj_set "tier" tier (spread_props (s_config s))))).

Section Class.
Context `{Env} (this : TokenMonetizationSystem.t).
Abbreviation JS := (JS integration).

Definition M : Monetization := TokenMonetizationSystem.monetization this.
Definition noSession : jserr := Error "No active token creation session".

Definition initialize : JS jsval := Session.initialize M.

Definition updateSessionPrice : JS jsval := Session.updateSessionPrice M noSession quote_tier.

Definition updateAddOns : jsval -> JS jsval :=
  Session.updateAddOns M "tokenConfig" noSession quote_tier.

Definition updatePaymentMethod : jsval -> JS jsval :=
  Session.updatePaymentMethod "tokenConfig" noSession.

(** The object literal assigned to [currentSession]. *)
Definition fresh_session (tokenConfig : jsval) (id : string) : JS session :=
  let* tier := lift (get tokenConfig "tier") in
  let* createdAt := iso_now in
  ret (Session (VStr id) tokenConfig (VArr []) (VStr "shah") (js_or tier (VStr "Basic"))
         VNull created createdAt VUndef VUndef VUndef).

Definition startTokenCreationSession (tokenConfig : jsval) : JS jsval :=
  startSession M "tokenConfig" noSession quote_tier "session_" "Token configuration errors: "
    tokenConfig (fresh_session tokenConfig).

Definition deployContract (contractCode tokenConfig : jsval) : JS jsval :=
  factory_deploy "shahFactory.deployToken" "TokenDeployed" "tokenAddress" contractCode
    (res_bind (get tokenConfig "name") (fun name =>
     res_bind (get tokenConfig "symbol") (fun symbol =>
     res_bind (get tokenConfig "initialSupply") (fun initialSupply =>
     res_bind (get tokenConfig "maxSupply") (fun maxSupply =>
     res_bind (get tokenConfig "tier") (fun tier =>
     Ok [name; symbol; initialSupply; maxSupply; js_or tier (VStr "Basic")])))))).

Definition generateAndDeployContract : JS jsval :=
  let* s := active noSession in
  let* cfg := lift (config_with_tier s) in
  let* base := lift (generateBaseContract cfg) in
  let* contractCode := lift (apply_features (s_selectedAddOns s) (features (s_config s)) base) in
  let* cfg' := lift (config_with_tier s) in
  let* deployedAddress := deployContract (VStr contractCode) cfg' in
  let* deployedAt := iso_now in
  ret (VObj [("contractAddress", deployedAddress); ("contractCode", VStr contractCode);
             ("deployedAt", deployedAt)]).

Definition processTokenCreation : JS jsval :=
  processCreation M "tokenConfig" noSession quote_tier generateAndDeployContract.

Definition recordTierUpgrade (contractAddress newTier : jsval) : JS jsval :=
  try_catch
    (fetch [VStr "/api/shahfactory/registry/tier";
            VObj [("method", VStr "POST");
                  ("headers", VObj [("content-type", VStr "application/json")]);
                  ("body", stringify (VObj [("contractAddress", contractAddress);
                                            ("newTier", newTier)]))]] ;;;
     ret VUndef)
    (fun _ => ret VUndef).

Definition upgradeTier (arg : jsval) : JS jsval :=
  let* contractAddress := lift (destructure_of "undefined" arg "contractAddress") in
  let currentTier := default (get_opt arg "currentTier") (VStr "Basic") in
  let newTier := default (get_opt arg "newTier") (VStr "Pro") in
  let paymentMethod := default (get_opt arg "paymentMethod") (VStr "shah") in
  if negb (truthy contractAddress) then throw (Error "Missing contractAddress")
  else if strict_eq currentTier newTier then throw (Error "Already at requested tier")
  else
    let* upgradeAmount := TokenMonetizationSystem.calculateUpgradePrice this currentTier newTier in
    let usd := get_opt upgradeAmount "usd" in
    let shah := get_opt upgradeAmount "shah" in
    let order := VObj [("contractAddress", contractAddress); ("currentTier", currentTier);
                       ("newTier", newTier)] in
    let* paymentResult := processPayment M integration paymentMethod
      (VObj [("totalUSD", usd); ("totalSHAH", shah);
             ("baseFee", VObj [("usd", usd); ("shah", shah);
                               ("shahPrice", get_opt upgradeAmount "shahPrice")]);
             ("addOns", VArr [])]) order in
    let* _ := savePaymentData M integration paymentResult order (VArr []) in
    let* _ := recordTierUpgrade contractAddress newTier in
    ret (VObj [("success", VBool true); ("paymentResult", paymentResult);
               ("contractAddress", contractAddress); ("newTier", newTier)]).

Definition getCurrentSession : JS (option session) := Session.getCurrentSession.
Definition clearSession : JS jsval := Session.clearSession.
Definition getSessionHistory : JS (list session) := Session.getSessionHistory.

Definition validateSession : JS jsval := Session.validateSession M "Missing token configuration".

Definition getAvailableAddOns : list (string * jsval) :=
  TokenMonetizationSystem.getPremiumAddOns this.
Definition getAvailablePaymentMethods : list (string * jsval) :=
  TokenMonetizationSystem.getPaymentMethods this.

Definition estimateDeploymentGas (tokenConfig selectedAddOns : jsval) : JS jsval :=
  estimate_gas
    (res_bind (generateBaseContract tokenConfig)
       (apply_features (default selectedAddOns (VArr [])) (features tokenConfig)))
    (getShahPrice M integration).

(** ** The class as a transition system *)

Inductive op : Type :=
  | Initialize
  | StartTokenCreationSession (tokenConfig : jsval)
  | UpdateAddOns (selectedAddOns : jsval)
  | UpdatePaymentMethod (paymentMethod : jsval)
  | UpdateSessionPrice
  | ProcessTokenCreation
  | UpgradeTier (arg : jsval)
  | ClearSession
  | ValidateSession
  | EstimateDeploymentGas (tokenConfig selectedAddOns : jsval).

Definition run (o : op) : JS jsval :=
  match o with
  | Initialize => initialize
  | StartTokenCreationSession cfg => startTokenCreationSession cfg
  | UpdateAddOns v => updateAddOns v
  | UpdatePaymentMethod v => updatePaymentMethod v
  | UpdateSessionPrice => updateSessionPrice
  | ProcessTokenCreation => processTokenCreation
  | UpgradeTier arg => upgradeTier arg
  | ClearSession => clearSession
  | ValidateSession => validateSession
  | EstimateDeploymentGas cfg addOns => estimateDeploymentGas cfg addOns
  end.

(** One call of a method, with any outcome. *)
Inductive step : integration * trace -> integration * trace -> Prop :=
  | step_op o i t r i' t' : run o i t = (r, i', t') -> step (i, t) (i', t').

End Class.

(** ** Refinement of the ledger *)

#[global] Instance token_M_laws `{Env} this : MonetizationLaws (M this) :=
  TokenMonetizationSystem.token_monetization_laws this.

Section Refinement.
Context `{Env} (this : TokenMonetizationSystem.t).

Lemma token_fresh_session cfg : Session.fresh_session (fresh_session cfg).
Proof. intros id i t. unfold fresh_session. wp_auto; count_events. Qed.

Lemma token_deployment : deployment generateAndDeployContract.
Proof.
  intros i t. unfold generateAndDeployContract. wp_step.
  apply wp_active; [intros s Es | auto 6 with arith].
  do 4 (wp_step; wp_step; [|auto 6 with arith]).
  apply (factory_deploy_deployment "shahFactory.deployToken"); [reflexivity|].
  intros addr i1 t1 Ha. wp_auto; count_events.
Qed.

(** An upgrade leaves the session alone and takes at most one fee. *)
Lemma token_upgradeTier_spec arg i t :
  let post i' t' := i' = i /\ deploys t' = deploys t
    /\ exists k, (k <= 1)%nat /\ charges t' = (k + charges t)%nat in
  wp (upgradeTier this arg) (fun _ => post) (fun _ => post) i t.
Proof.
  intros post. assert (Hsame : forall t', charges t' = charges t -> deploys t' = deploys t -> post i t').
  { intros t' Hc Hd. split; [reflexivity|]. split; [exact Hd|]. exists 0%nat. auto. }
  unfold upgradeTier. wp_step. wp_step; [|auto]. wp_step; [wp_step; auto|].
  wp_step; [wp_step; auto|]. wp_step.
  unfold TokenMonetizationSystem.calculateUpgradePrice, TokenMonetizationSystem.getShahPrice. wp_step.
  eapply wp_mono; [..|apply shah_price_quiet]; cbn beta.
  2: intros e i' t' (-> & Hc & Hd); auto.
  intros price i' t1 (-> & Hc1 & Hd1). wp_step. wp_step.
  eapply wp_mono; [..|apply (payment_pays (M := M this))]; cbn beta.
  2: { intros e i' t' (-> & Hc & Hd). split; [reflexivity|]. split; [congruence|].
       exists (charges t' - charges t)%nat. lia. }
  intros r i' t2 (-> & Hc2 & Hd2). wp_step.
  eapply wp_mono; [..|apply (save_quiet (M := M this))]; cbn beta; [|intros ? ? ? []].
  intros w i' t3 (-> & Hc3 & Hd3). unfold recordTierUpgrade.
  wp_auto; (split; [reflexivity|]); rewrite charges_cons, deploys_cons, Hc3, Hc2, Hc1, Hd3, Hd2, Hd1;
    (split; [reflexivity|]); exists 1%nat; auto.
Qed.

Lemma token_upgradeTier_refines arg : refines (upgradeTier this arg).
Proof.
  intros i t. eapply wp_mono; [..|apply token_upgradeTier_spec]; cbn beta zeta;
    intros a i' t' (-> & Hd & k & Hk & Hc); unfold abs; rewrite Hd, Hc; apply l_upgrade, Hk.
Qed.

Lemma token_estimate_quiet cfg addOns : quiet (estimateDeploymentGas this cfg addOns).
Proof.
  intros i t. unfold estimateDeploymentGas, estimate_gas.
  cbn [getShahPrice M TokenMonetizationSystem.monetization].
  unfold TokenMonetizationSystem.getShahPrice, shah_price. wp_auto; count_events.
Qed.

(** Every method of the class, with every outcome, is a ledger step. *)
Lemma token_run_refines o : refines (run this o).
Proof.
  destruct o; cbn [run].
  - apply initialize_refines; exact _.
  - apply startSession_refines; first [exact _ | apply token_fresh_session].
  - apply updateAddOns_refines; exact _.
  - apply updatePaymentMethod_refines.
  - apply updateSessionPrice_refines; exact _.
  - apply processCreation_refines; first [exact _ | apply token_deployment].
  - apply token_upgradeTier_refines.
  - apply clearSession_refines.
  - apply validateSession_refines.
  - apply quiet_refines, token_estimate_quiet.
Qed.

Lemma token_step_refines x y :
  step this x y -> ledger_step (abs (fst x) (snd x)) (abs (fst y) (snd y)).
Proof.
  intros [o i t r i' t' E]. pose proof (token_run_refines o i t) as Hr.
  unfold wp in Hr. rewrite E in Hr. cbn. destruct r; exact Hr.
Qed.

End Refinement.


(** ** Theorems *)

(** A quote of the token system cannot be paid in SHAH: [amount.shah] is
    read, and the quote has no such property. *)
Definition no_shah (q : jsval) : Prop := exists e, TokenMonetizationSystem.shah_text q = Throw e.

Definition shah_method (m : jsval) : Prop := m = VStr "shah" \/ m = VStr "shahToken".

Section Claims.
Context `{Env} (this : TokenMonetizationSystem.t).

Lemma token_quote_no_shah keys options i t :
  wp (calculateTotalPrice (M this) integration keys options)
    (fun q _ _ => no_shah q) (fun _ _ _ => True) i t.
Proof.
  eapply wp_mono; [..|apply TokenMonetizationSystem.token_calculateTotalPrice_no_shah]; cbn beta.
  - intros q _ _ E. eexists. exact E.
  - auto.
Qed.

Lemma token_unpayable m q cfg :
  shah_method m -> no_shah q ->
  quiet (processPayment (M this) integration m q cfg)
  /\ always_throws (processPayment (M this) integration m q cfg).
Proof.
  intros [-> | ->] [e He]; cbn; unfold TokenMonetizationSystem.processPayment; cbn [is_str strict_eq String.eqb Ascii.eqb Bool.eqb].
  - unfold TokenMonetizationSystem.processShahPayment. rewrite He. apply shah_payment_no_amount.
  - unfold TokenMonetizationSystem.processShahTokenPayment. rewrite He. apply shah_token_payment_no_amount.
Qed.

Lemma token_keeps_no_shah o : keeps no_shah (run this o).
Proof.
  assert (Hn : no_shah VNull) by (eexists; reflexivity).
  destruct o; cbn [run].
  - apply keeps_initialize; exact _.
  - apply keeps_startSession; first [exact _ | exact Hn | apply token_quote_no_shah | apply token_fresh_session].
  - apply keeps_updateAddOns; first [exact _ | apply token_quote_no_shah].
  - apply keeps_updatePaymentMethod.
  - apply keeps_updateSessionPrice; first [exact _ | apply token_quote_no_shah].
  - apply keeps_processCreation; first [exact _ | apply token_quote_no_shah | apply token_deployment].
  - intros i t Hi. eapply wp_mono; [..|apply token_upgradeTier_spec]; cbn beta zeta;
      intros a i' t' (-> & _); exact Hi.
  - apply keeps_clearSession.
  - apply keeps_quiet, validateSession_quiet.
  - apply keeps_quiet, token_estimate_quiet.
Qed.

Lemma token_reachable_no_shah y :
  steps (step this) (integration0, []) y -> quoted no_shah (fst y).
Proof.
  intros Hs. apply (steps_invariant (step this) (fun y => quoted no_shah (fst y))) with (2 := Hs).
  - intros x z Hx Hst. revert Hx. destruct Hst as [o i t r i' t' E]. intros Hx.
    pose proof (token_keeps_no_shah o i t Hx) as Hk.
    unfold wp in Hk. rewrite E in Hk. destruct r; exact Hk.
  - intros s [=].
Qed.

End Claims.

(** Every add-on applies to a contract of a named token. *)
Lemma features_apply cfg name addOns code :
  obj_get cfg "name" = VStr name ->
  exists code', apply_features (VArr addOns) (features (VObj cfg)) code = Ok code'.
Proof.
  intros Hn. apply apply_features_total. unfold features. repeat constructor; intros c; cbn [snd];
    unfold addUpgradeableFeature, addAirdropFeature, addCustomLogoFeature, contract_name; eauto.
  cbn [destructure_of get]. rewrite Hn. cbn [res_bind as_string]. eauto.
Qed.

Lemma deploy_returns `{CardLaws} {FactoryLaws : FactoryLaws "TokenDeployed" "tokenAddress"} i t s cfg name addOns :
  currentSession i = Some s -> s_config s = VObj cfg -> obj_get cfg "name" = VStr name -> s_selectedAddOns s = VArr addOns ->
  wp generateAndDeployContract (fun v i' _ => i' = i /\ exists l, v = VObj l) (fun _ _ _ => False) i t.
Proof.
  intros Es Hc Hn Ha. unfold generateAndDeployContract. wp_step.
  apply wp_active; [intros s0 Es0; rewrite Es in Es0; injection Es0 as <-|congruence].
  assert (T : exists tier, config_with_tier s = Ok (VObj (obj_set "tier" tier cfg))).
  { unfold config_with_tier. rewrite Hc. case_goal; cbn; eauto. }
  destruct T as [tier T]. rewrite T. do 2 live_step.
  unfold generateBaseContract, contract_name. cbn [destructure_of get].
  rewrite obj_get_set_other, Hn by discriminate. cbn [res_bind as_string]. do 2 live_step.
  rewrite Hc, Ha. destruct (features_apply cfg name addOns (base_template (strip_ws name)) Hn) as [code E].
  rewrite E. do 5 live_step. unfold deployContract. cbn [get res_bind].
  eapply wp_mono; [..|apply factory_deploy_returns; exact _]; cbn beta; [|auto].
  intros a i' t' ->. unfold iso_now. repeat live_step. eauto.
Qed.


(** A session whose payment method is native SHAH (the default) or
    SHAHtoken can never be completed: whatever happened before, processing it
    throws, and nothing is charged or deployed. *)
Theorem token_shah_session_never_completes `{Env} this i t s :
  steps (step this) (integration0, []) (i, t) ->
  currentSession i = Some s -> shah_method (s_paymentMethod s) ->
  wp (processTokenCreation this) (fun _ _ _ => False)
    (fun _ _ t' => charges t' = charges t /\ deploys t' = deploys t) i t.
Proof.
  intros Hs Es Hm.
  apply (processCreation_unpayable _ _ _ _ no_shah (token_quote_no_shah this)) with (s := s);
    [|exact (token_reachable_no_shah this _ Hs)|exact Es].
  intros q cfg Hq. apply token_unpayable; assumption.
Qed.

(** Processing a session either returns after exactly one charge and one
    deployment, with the session completed and its contract address in the
    result, or throws, with the session failed and holding the message of
    the error (or untouched when there was no session or no quote). *)
Theorem token_process_outcome `{Env} this i t :
  wp (processTokenCreation this) (settled "tokenConfig" t) (broken i t) i t.
Proof.
  apply processCreation_spec; first [exact _ | apply token_deployment].
Qed.

(** C30: with a card service that accepts, a factory that deploys and nothing
    else failing, every quoted card session is processed to the end: one
    charge, one deployment, a completed session and its contract address. *)
Theorem token_card_session_completes `{CardLaws} {FactoryLaws : FactoryLaws "TokenDeployed" "tokenAddress"}
    this i t s quote cfg name addOns :
  currentSession i = Some s -> s_priceData s = VObj quote -> s_paymentMethod s = VStr "stripe" ->
  s_config s = VObj cfg -> obj_get cfg "name" = VStr name -> s_selectedAddOns s = VArr addOns ->
  wp (processTokenCreation this) (settled "tokenConfig" t) (fun _ _ _ => False) i t.
Proof.
  intros Es Hq Hm Hc Hn Ha.
  eapply wp_mono; [..|apply wp_and; [apply processCreation_spec; first [exact _ | apply token_deployment]|
    apply (processCreation_returns _ _ _ _ _ _ _ s Es)]]; cbn beta.
  - intros v i' t' [Hs _]. exact Hs.
  - intros e i' t' [_ []].
  - rewrite Hq. reflexivity.
  - intros i1 t1. rewrite Hm, Hq. cbn [M TokenMonetizationSystem.monetization Payments.processPayment].
    unfold TokenMonetizationSystem.processPayment. cbn [is_str strict_eq String.eqb Ascii.eqb Bool.eqb].
    eapply wp_mono; [..|apply stripe_payment_returns; eauto]; cbn beta; [intros v i' t' [-> _]; reflexivity|auto].
  - intros i1 t1 s1 Es1 Hc1 Ha1 _. apply (deploy_returns i1 t1 s1 cfg name addOns); congruence.
Qed.

(** The airdrop and logo add-ons are not added to the contract: they land
    at brace depth two, inside the body of its constructor. *)
Theorem addOn_lands_in_constructor name feature :
  has_char "{"%char name = false -> has_char "}"%char name = false ->
  exists pre post,
    base_template name = pre ++ "}" ++ post
    /\ insert_feature (base_template name) feature = pre ++ feature ++ newline ++ "}" ++ post
    /\ depth 0 pre = 2%Z.
Proof.
  intros H1 H2. unfold base_template. apply feature_depth; try assumption; vm_compute; reflexivity.
Qed.

Definition coop_system : TokenMonetizationSystem.t :=
  TokenMonetizationSystem.Build [("shahSwapAPI", VStr "https://api.shah.vip/price")]
    TokenMonetizationSystem.premiumAddOns0 TokenMonetizationSystem.paymentMethods0.

Definition coop_config : jsval :=
  VObj [("name", VStr "My Token"); ("symbol", VStr "MTK"); ("decimals", vnum 18);
        ("maxSupply", vnum 1000000); ("initialSupply", vnum 1000)].

(** A run that opens a session, switches it to card payment and processes it. *)
Definition coop_run (ops : list op) : integration * trace :=
  fold_left (fun '(i, t) o => match run (H := coop) coop_system o i t with (_, i', t') => (i', t') end)
    ops (integration0, []).

Definition coop_ops : list op :=
  [StartTokenCreationSession coop_config; UpdateAddOns (VArr [VStr "airdropTool"]);
   UpdatePaymentMethod (VStr "stripe"); ProcessTokenCreation].

Lemma coop_run_steps ops :
  steps (step (H := coop) coop_system) (integration0, []) (coop_run ops).
Proof.
  unfold coop_run. set (x := (integration0, [])). assert (Hx : steps (step (H := coop) coop_system) x x) by auto.
  revert Hx. generalize x at 2 4 as y. induction ops as [|o ops IH]; intros [i t] Hy; cbn [fold_left]; [exact Hy|].
  destruct (run (H := coop) coop_system o i t) as [[r i'] t'] eqn:E. apply IH.
  eapply steps_more; [exact Hy|]. econstructor. exact E.
Qed.


#[global] Instance coop_card : @CardLaws coop.
Proof.
  split.
  - intros t op args. cbn. repeat case_goal; eauto.
  - intros t args. eexists. reflexivity.
  - intros t args. do 2 eexists. repeat split; reflexivity.
Qed.

#[global] Instance coop_factory : @FactoryLaws coop "TokenDeployed" "tokenAddress".
Proof. intros t args. do 3 eexists. repeat split; reflexivity. Qed.

Lemma token_card_session_completes_witness :
  let x := coop_run (firstn 3 coop_ops) in
  wp (processTokenCreation (H := coop) coop_system) (settled "tokenConfig" (snd x)) (fun _ _ _ => False) (fst x) (snd x).
Proof.
  intros x. eapply (token_card_session_completes (H := coop) coop_system (fst x) (snd x)); vm_compute; reflexivity.
Defined.

Definition coop_shah : integration * trace := coop_run [StartTokenCreationSession coop_config].

Lemma token_shah_session_never_completes_witness :
  exists s, currentSession (fst coop_shah) = Some s /\ s_paymentMethod s = VStr "shah"
  /\ wp (processTokenCreation (H := coop) coop_system) (fun _ _ _ => False)
      (fun _ _ t' => charges t' = charges (snd coop_shah) /\ deploys t' = deploys (snd coop_shah))
      (fst coop_shah) (snd coop_shah).
Proof.
  eexists. split; [vm_compute; reflexivity|]. split; [reflexivity|].
  eapply (token_shah_session_never_completes (H := coop) coop_system).
  - rewrite <- surjective_pairing. apply coop_run_steps.
  - vm_compute. reflexivity.
  - left. reflexivity.
Defined.

Lemma addOn_lands_in_constructor_witness :
  exists pre post,
    base_template "MyToken" = pre ++ "}" ++ post
    /\ insert_feature (base_template "MyToken") airdropFunction
       = pre ++ airdropFunction ++ newline ++ "}" ++ post
    /\ depth 0 pre = 2%Z.
Proof. apply (addOn_lands_in_constructor "MyToken" airdropFunction); reflexivity. Defined.

End TokenCreationIntegration.
