(* ===== verification/NFTCreation.v ===== *)
(** * NFT creation

    [NFTCreationIntegration] of
    src/sdk-core/smart-contract-toolkit/NFTCreationIntegration.js: the session
    machine of [Session] over [NFTMonetizationSystem], the SHI-30 contract
    generator with its add-ons, deployment, minting and the tier upgrade. *)

From Stdlib Require Import ZArith Bool List String Ascii Lia.
From S2P Require Import Prelude JsNum JsNumFacts JsVal JsMonad Payments NFTMonetization Session Solidity.
Import ListNotations.
Local Open Scope string_scope.

Module NFTCreationIntegration.

(** ** Contract generation *)

Definition base_template (name : string) : string :=
  sol "// SPDX-License-Identifier: MIT
pragma solidity ^0.8.0;

import `@openzeppelin/contracts/token/ERC721/ERC721.sol`;
import `@openzeppelin/contracts/access/Ownable.sol`;
import `@openzeppelin/contracts/utils/Counters.sol`;

// SHI-30 NFT (Shahcoin Standard)
contract " ++ name ++ sol " is ERC721, Ownable {
    using Counters for Counters.Counter;
    
    Counters.Counter private _tokenIds;
    string private _baseTokenURI;
    string public collectionTier; // Basic | Pro | Premium
    
    constructor(
        string memory name_,
        string memory symbol_,
        string memory baseURI_,
        string memory tier_
    ) ERC721(name_, symbol_) {
        _baseTokenURI = baseURI_;
        collectionTier = tier_;
    }
    
    function setCollectionTier(string memory newTier) public onlyOwner {
        collectionTier = newTier;
    }
    
    function getCollectionMetadata() external view returns (
        string memory nameOut,
        string memory symbolOut,
        string memory baseURIOut,
        string memory tierOut
    ) {
        nameOut = name();
        symbolOut = symbol();
        baseURIOut = _baseTokenURI;
        tierOut = collectionTier;
    }
    
    function mint(address to) public onlyOwner returns (uint256) {
        _tokenIds.increment();
        uint256 newTokenId = _tokenIds.current();
        _mint(to, newTokenId);
        return newTokenId;
    }
    
    function _baseURI() internal view override returns (string memory) {
        return _baseTokenURI;
    }
    
    function setBaseURI(string memory baseURI_) public onlyOwner {
        _baseTokenURI = baseURI_;
    }
}".

Definition unlockableFunction : string :=
  sol "
    mapping(uint256 => string) private unlockableContent;
    
    function setUnlockableContent(uint256 tokenId, string memory content) public onlyOwner {
        require(_exists(tokenId), `Token does not exist`);
        unlockableContent[tokenId] = content;
    }
    
    function getUnlockableContent(uint256 tokenId) public view returns (string memory) {
        require(_exists(tokenId), `Token does not exist`);
        return unlockableContent[tokenId];
    }
    
    function hasUnlockableContent(uint256 tokenId) public view returns (bool) {
        require(_exists(tokenId), `Token does not exist`);
        return bytes(unlockableContent[tokenId]).length > 0;
    }".

Definition tradeLockFunction : string :=
  sol "
    mapping(uint256 => bool) private tradeLocked;
    
    function setTradeLock(uint256 tokenId, bool locked) public onlyOwner {
        require(_exists(tokenId), `Token does not exist`);
        tradeLocked[tokenId] = locked;
    }
    
    function isTradeLocked(uint256 tokenId) public view returns (bool) {
        require(_exists(tokenId), `Token does not exist`);
        return tradeLocked[tokenId];
    }
    
    function _beforeTokenTransfer(
        address from,
        address to,
        uint256 tokenId
    ) internal override {
        require(!tradeLocked[tokenId], `Token is trade locked (soulbound)`);
        super._beforeTokenTransfer(from, to, tokenId);
    }".

Definition boosterFunction : string :=
  sol "
    mapping(uint256 => bool) private boosterTagged;
    
    function setBoosterTag(uint256 tokenId, bool tagged) public onlyOwner {
        require(_exists(tokenId), `Token does not exist`);
        boosterTagged[tokenId] = tagged;
    }
    
    function hasBoosterTag(uint256 tokenId) public view returns (bool) {
        require(_exists(tokenId), `Token does not exist`);
        return boosterTagged[tokenId];
    }
    
    function getBoosterMultiplier(uint256 tokenId) public view returns (uint256) {
        require(_exists(tokenId), `Token does not exist`);
        return boosterTagged[tokenId] ? 2 : 1; // 2x multiplier for staking/APR
    }".

Definition customImageFunction : string :=
  sol "
    mapping(uint256 => string) private customImageURIs;
    
    function setCustomImageURI(uint256 tokenId, string memory imageURI) public onlyOwner {
        require(_exists(tokenId), `Token does not exist`);
        customImageURIs[tokenId] = imageURI;
    }
    
    function getCustomImageURI(uint256 tokenId) public view returns (string memory) {
        require(_exists(tokenId), `Token does not exist`);
        return customImageURIs[tokenId];
    }
    
    function hasCustomImage(uint256 tokenId) public view returns (bool) {
        require(_exists(tokenId), `Token does not exist`);
        return bytes(customImageURIs[tokenId]).length > 0;
    }".

Definition verifiedFunction : string :=
  sol "
    mapping(uint256 => bool) private verifiedBadges;
    
    function setVerifiedBadge(uint256 tokenId, bool verified) public onlyOwner {
        require(_exists(tokenId), `Token does not exist`);
        verifiedBadges[tokenId] = verified;
    }
    
    function isVerified(uint256 tokenId) public view returns (bool) {
        require(_exists(tokenId), `Token does not exist`);
        return verifiedBadges[tokenId];
    }
    
    function getVerifiedBadgeURI(uint256 tokenId) public view returns (string memory) {
        require(_exists(tokenId), `Token does not exist`);
        return verifiedBadges[tokenId] ? `https://shah.vip/badges/verified.svg` : ``;
    }".

(** The other destructured fields are not used by the template. *)
Definition generateBaseContract (nftConfig : jsval) : result string :=
  res_bind (contract_name "nftConfig" nftConfig) (fun name => Ok (base_template name)).

Definition addUnlockableContentFeature (contractCode : string) : result string :=
  Ok (insert_feature contractCode unlockableFunction).

Definition addTradeLockFeature (contractCode : string) : result string :=
  Ok (insert_feature contractCode tradeLockFunction).

Definition addBoosterTagFeature (contractCode : string) : result string :=
  Ok (insert_feature contractCode boosterFunction).

Definition addCustomImageFeature (contractCode : string) : result string :=
  Ok (insert_feature contractCode customImageFunction).

Definition addVerifiedBadgeFeature (contractCode : string) : result string :=
  Ok (insert_feature contractCode verifiedFunction).

Definition features : list (string * (string -> result string)) :=
  [("unlockableContent", addUnlockableContentFeature);
   ("tradeLock", addTradeLockFeature);
   ("boosterTag", addBoosterTagFeature);
   ("customImageUpload", addCustomImageFeature);
   ("verifiedBadge", addVerifiedBadgeFeature)].

(** ** The class *)

(** [(nftConfig && nftConfig.tier) ? nftConfig.tier : 'Basic']. *)
Definition config_tier (nftConfig : jsval) : jsval :=
  if truthy nftConfig then js_or (get_opt nftConfig "tier") (VStr "Basic") else VStr "Basic".

Section Class.
Context `{Env} (this : NFTMonetizationSystem.t).
Abbreviation JS := (JS integration).

Definition M : Monetization := NFTMonetizationSystem.monetization this.
Definition noSession : jserr := Error "No active NFT creation session".
Definition quote_tier (s : session) : jsval := config_tier (s_config s).

Definition initialize : JS jsval := Session.initialize M.

Definition updateSessionPrice : JS jsval := Session.updateSessionPrice M noSession quote_tier.

Definition updateAddOns : jsval -> JS jsval :=
  Session.updateAddOns M "nftConfig" noSession quote_tier.

Definition updatePaymentMethod : jsval -> JS jsval :=
  Session.updatePaymentMethod "nftConfig" noSession.

(** The object literal assigned to [currentSession]; it has no [tier]. *)
Definition fresh_session (nftConfig : jsval) (id : string) : JS session :=
  let config := VObj (obj_set "tier" (config_tier nftConfig) (spread_props nftConfig)) in
  let* createdAt := iso_now in
  ret (Session (VStr id) config (VArr []) (VStr "shah") VUndef
         VNull created createdAt VUndef VUndef VUndef).

Definition startNFTCreationSession (nftConfig : jsval) : JS jsval :=
  startSession M "nftConfig" noSession quote_tier "nft_session_" "NFT configuration errors: "
    nftConfig (fresh_session nftConfig).

Definition deployContract (contractCode nftConfig : jsval) : JS jsval :=
  factory_deploy "shahFactory.deployNFT" "NFTDeployed" "nftAddress" contractCode
    (res_bind (get nftConfig "name") (fun name =>
     res_bind (get nftConfig "symbol") (fun symbol =>
     res_bind (get nftConfig "baseURI") (fun baseURI =>
     Ok [name; symbol; js_or baseURI (VStr EmptyString); config_tier nftConfig])))).

Definition generateAndDeployContract : JS jsval :=
  let* s := active noSession in
  let* base := lift (generateBaseContract (s_config s)) in
  let* contractCode := lift (apply_features (s_selectedAddOns s) features base) in
  let* deployedAddress := deployContract (VStr contractCode) (s_config s) in
  let* deployedAt := iso_now in
  ret (VObj [("contractAddress", deployedAddress); ("contractCode", VStr contractCode);
             ("deployedAt", deployedAt)]).

Definition processNFTCreation : JS jsval :=
  processCreation M "nftConfig" noSession quote_tier generateAndDeployContract.

Definition getCurrentSession : JS (option session) := Session.getCurrentSession.
Definition clearSession : JS jsval := Session.clearSession.
Definition getSessionHistory : JS (list session) := Session.getSessionHistory.
Definition generateSessionId : JS string := Session.generateSessionId "nft_session_".

Definition validateSession : JS jsval := Session.validateSession M "Missing NFT configuration".

Definition getAvailableAddOns : list (string * jsval) :=
  NFTMonetizationSystem.getPremiumAddOns this.
Definition getAvailablePaymentMethods : list (string * jsval) :=
  NFTMonetizationSystem.getPaymentMethods this.

Definition estimateDeploymentGas (nftConfig selectedAddOns : jsval) : JS jsval :=
  estimate_gas
    (res_bind (generateBaseContract nftConfig)
       (apply_features (default selectedAddOns (VArr [])) features))
    (getShahPrice M integration).

(** [if (flag) await nftContract.setX(tokenId, v)]. *)
Definition set_when (flag : jsval) (method : string) (args : list jsval) : JS jsval :=
  if truthy flag then ext method args else ret VUndef.

Definition mintNFT (tokenId metadata : jsval) : JS jsval :=
  try_catch
    (let* provider := ext "new ethers.providers.JsonRpcProvider" [rpc_url] in
     let* signer := ext "provider.getSigner" [provider] in
     let* x := read currentSession in
     let* contractResult := lift (match x with
                                  | None => Throw (cannot_read "null" "contractResult")
                                  | Some s => Ok (s_contractResult s)
                                  end) in
     let* address := lift (get contractResult "contractAddress") in
     let* abi := ext "NFT_ABI" [] in
     let* nftContract := ext "new ethers.Contract" [address; abi; signer] in
     let* owner := lift (get metadata "owner") in
     let* to := (if truthy owner then ret owner else ext "signer.getAddress" [signer]) in
     let* tx := ext "nftContract.mint" [nftContract; to] in
     let* receipt := ext "tx.wait" [tx] in
     let unlockable := get_opt metadata "unlockableContent" in
     let* _ := set_when unlockable "nftContract.setUnlockableContent" [nftContract; tokenId; unlockable] in
     let image := get_opt metadata "customImageURI" in
     let* _ := set_when image "nftContract.setCustomImageURI" [nftContract; tokenId; image] in
     let* _ := set_when (get_opt metadata "verifiedBadge") "nftContract.setVerifiedBadge"
                 [nftContract; tokenId; VBool true] in
     let* _ := set_when (get_opt metadata "tradeLocked") "nftContract.setTradeLock"
                 [nftContract; tokenId; VBool true] in
     let* _ := set_when (get_opt metadata "boosterTag") "nftContract.setBoosterTag"
                 [nftContract; tokenId; VBool true] in
     let* hash := lift (get receipt "transactionHash") in
     ret (VObj [("success", VBool true); ("tokenId", tokenId); ("txHash", hash);
                ("metadata", metadata)]))
    (fun e => throw (Error ("Minting failed: " ++ e_msg e))).

(** The registry write is a log line. *)
Definition recordNFTTierUpgrade (contractAddress newTier : jsval) : JS jsval :=
  ret (VBool true).

(** The price difference is computed by an asynchronous method called without
    [await]: its price request is sent, and the value used is the pending
    promise, an object without [usd] and [shah]. *)
Definition unawaited_upgrade_price : JS jsval :=
  try_catch (fetch [obj_get (NFTMonetizationSystem.config this) "shahSwapAPI"] ;;; ret VUndef)
            (fun _ => ret VUndef) ;;;
  ret (VObj []).

(** The on-chain update, attempted when the contract has the function; any
    failure is logged and ignored. *)
Definition try_set_collection_tier (contractAddress newTier : jsval) : JS jsval :=
  try_catch
    (let* provider := ext "new ethers.providers.JsonRpcProvider" [rpc_url] in
     let* signer := ext "provider.getSigner" [provider] in
     let* abi := ext "NFT_ABI" [] in
     let* nftContract := ext "new ethers.Contract" [contractAddress; abi; signer] in
     let* functions := lift (get nftContract "functions") in
     let* setter := lift (if truthy functions then get functions "setCollectionTier"
                          else Ok functions) in
     if truthy setter then
       let* tx := ext "nftContract.setCollectionTier" [nftContract; newTier] in
       ext "tx.wait" [tx]
     else ret VUndef)
    (fun _ => ret VUndef).

Definition upgradeTier (arg : jsval) : JS jsval :=
  let* contractAddress := lift (destructure_of "undefined" arg "contractAddress") in
  let currentTier := get_opt arg "currentTier" in
  let newTier := get_opt arg "newTier" in
  let paymentMethod := default (get_opt arg "paymentMethod") (VStr "shah") in
  try_catch
    (let* priceDiff := unawaited_upgrade_price in
     let usd := get_opt priceDiff "usd" in
     if js_le usd (vnum 0) then
       ret (VObj [("success", VBool true); ("message", VStr "No upgrade needed")])
     else
       let priceData := VObj [("usdTotal", usd); ("shahTotal", get_opt priceDiff "shah");
                              ("tier", newTier)] in
       let* paymentResult := processPayment M integration paymentMethod priceData
         (VObj [("type", VStr "nftTierUpgrade"); ("contractAddress", contractAddress);
                ("currentTier", currentTier); ("newTier", newTier)]) in
       let* _ := savePaymentData M integration paymentResult
         (VObj [("contractAddress", contractAddress); ("currentTier", currentTier);
                ("newTier", newTier)]) (VArr []) in
       let* _ := try_set_collection_tier contractAddress newTier in
       let* _ := recordNFTTierUpgrade contractAddress newTier in
       ret (VObj [("success", VBool true); ("paymentResult", paymentResult)]))
    (fun e => throw e).

(** ** The class as a transition system *)

Inductive op : Type :=
  | Initialize
  | StartNFTCreationSession (nftConfig : jsval)
  | UpdateAddOns (selectedAddOns : jsval)
  | UpdatePaymentMethod (paymentMethod : jsval)
  | UpdateSessionPrice
  | ProcessNFTCreation
  | MintNFT (tokenId metadata : jsval)
  | UpgradeTier (arg : jsval)
  | ClearSession
  | ValidateSession
  | EstimateDeploymentGas (nftConfig selectedAddOns : jsval).

Definition run (o : op) : JS jsval :=
  match o with
  | Initialize => initialize
  | StartNFTCreationSession cfg => startNFTCreationSession cfg
  | UpdateAddOns v => updateAddOns v
  | UpdatePaymentMethod v => updatePaymentMethod v
  | UpdateSessionPrice => updateSessionPrice
  | ProcessNFTCreation => processNFTCreation
  | MintNFT id metadata => mintNFT id metadata
  | UpgradeTier arg => upgradeTier arg
  | ClearSession => clearSession
  | ValidateSession => validateSession
  | EstimateDeploymentGas cfg addOns => estimateDeploymentGas cfg addOns
  end.

(** One call of a method, with any outcome. *)
Inductive step : integration * trace -> integration * trace -> Prop :=
  | step_op o i t r i' t' : run o i t = (r, i', t') -> step (i, t) (i', t').

End Class.

(** ** Refinement of the ledger *)

#[global] Instance nft_M_laws `{Env} this : MonetizationLaws (M this) :=
  NFTMonetizationSystem.nft_monetization_laws this.

Section Refinement.
Context `{Env} (this : NFTMonetizationSystem.t).

Lemma nft_fresh_session cfg : Session.fresh_session (fresh_session cfg).
Proof. intros id i t. unfold fresh_session. wp_auto; count_events. Qed.

Lemma nft_deployment : deployment generateAndDeployContract.
Proof.
  intros i t. unfold generateAndDeployContract. wp_step.
  apply wp_active; [intros s Es | auto 6 with arith].
  do 2 (wp_step; wp_step; [|auto 6 with arith]).
  apply (factory_deploy_deployment "shahFactory.deployNFT"); [reflexivity|].
  intros addr i1 t1 Ha. wp_auto; count_events.
Qed.

Lemma nft_mint_quiet id metadata : quiet (mintNFT id metadata).
Proof. intros i t. unfold mintNFT, set_when. wp_auto; count_events. Qed.

Lemma nft_set_tier_quiet addr tier : quiet (try_set_collection_tier addr tier).
Proof. intros i t. unfold try_set_collection_tier. wp_auto; count_events. Qed.

Lemma nft_unawaited_spec i t :
  wp (unawaited_upgrade_price this)
    (fun v i' t' => v = VObj [] /\ i' = i /\ charges t' = charges t /\ deploys t' = deploys t)
    (fun _ _ _ => False) i t.
Proof. unfold unawaited_upgrade_price. wp_auto; count_events. Qed.

(** An upgrade leaves the session alone and takes at most one fee. *)
Lemma nft_upgradeTier_spec arg i t :
  let post i' t' := i' = i /\ deploys t' = deploys t
    /\ exists k, (k <= 1)%nat /\ charges t' = (k + charges t)%nat in
  wp (upgradeTier this arg) (fun _ => post) (fun _ => post) i t.
Proof.
  intros post. unfold upgradeTier. wp_step. wp_step.
  2: { split; [reflexivity|]. split; [reflexivity|]. exists 0%nat. auto. }
  do 2 wp_step. eapply wp_mono; [..|apply nft_unawaited_spec]; cbn beta; [|intros ? ? ? []].
  intros v i' t1 (-> & -> & Hc1 & Hd1). cbn [get_opt get obj_get own assoc js_le to_primitive is_primitive].
  wp_step. { vm_compute in Heqb. discriminate. }
  wp_step. eapply wp_mono; [..|apply (payment_pays (M := M this))]; cbn beta.
  2: { intros e i' t' (-> & Hc & Hd). wp_step. split; [reflexivity|]. split; [congruence|].
       exists (charges t' - charges t)%nat. lia. }
  intros r i' t2 (-> & Hc2 & Hd2). wp_step.
  eapply wp_mono; [..|apply (save_quiet (M := M this))]; cbn beta; [|intros ? ? ? []].
  intros w i' t3 (-> & Hc3 & Hd3). wp_step.
  eapply wp_mono; [..|apply nft_set_tier_quiet]; cbn beta; intros x i' t4 (-> & Hc4 & Hd4);
    unfold recordNFTTierUpgrade; wp_auto; (split; [reflexivity|]); (split; [congruence|]);
    exists 1%nat; lia.
Qed.

Lemma nft_upgradeTier_refines arg : refines (upgradeTier this arg).
Proof.
  intros i t. eapply wp_mono; [..|apply nft_upgradeTier_spec]; cbn beta zeta;
    intros a i' t' (-> & Hd & k & Hk & Hc); unfold abs; rewrite Hd, Hc; apply l_upgrade, Hk.
Qed.

Lemma nft_estimate_quiet cfg addOns : quiet (estimateDeploymentGas this cfg addOns).
Proof.
  intros i t. unfold estimateDeploymentGas, estimate_gas.
  cbn [getShahPrice M NFTMonetizationSystem.monetization].
  unfold NFTMonetizationSystem.getShahPrice, shah_price. wp_auto; count_events.
Qed.

(** Every method of the class, with every outcome, is a ledger step. *)
Lemma nft_run_refines o : refines (run this o).
Proof.
  destruct o; cbn [run].
  - apply initialize_refines; exact _.
  - apply startSession_refines; first [exact _ | apply nft_fresh_session].
  - apply updateAddOns_refines; exact _.
  - apply updatePaymentMethod_refines.
  - apply updateSessionPrice_refines; exact _.
  - apply processCreation_refines; first [exact _ | apply nft_deployment].
  - apply quiet_refines, nft_mint_quiet.
  - apply nft_upgradeTier_refines.
  - apply clearSession_refines.
  - apply validateSession_refines.
  - apply quiet_refines, nft_estimate_quiet.
Qed.

Lemma nft_step_refines x y :
  step this x y -> ledger_step (abs (fst x) (snd x)) (abs (fst y) (snd y)).
Proof.
  intros [o i t r i' t' E]. pose proof (nft_run_refines o i t) as Hr.
  unfold wp in Hr. rewrite E in Hr. cbn. destruct r; exact Hr.
Qed.

End Refinement.

(** ** Theorems *)


Definition upgrade_request : list jsval :=
  intent_request "/api/create-payment-intent"
    (VObj [("amount", VNum Num.nan); ("currency", VStr "usd")]).

(** A tier upgrade paid by card is paid through a payment intent whose
    amount is [null], whatever the two tiers: the price difference is a
    promise that was never awaited. *)
Theorem nft_upgrade_amount_is_null `{Env} this arg i t :
  get_opt arg "paymentMethod" = VStr "stripe" ->
  wp (upgradeTier this arg)
    (fun _ _ t' => exists r, In (Ev "fetch" upgrade_request r) t')
    (fun _ _ _ => True) i t.
Proof.
  intros Hm. unfold upgradeTier. wp_step. wp_step; [|exact I]. rewrite Hm. do 2 wp_step.
  eapply wp_mono; [..|apply nft_unawaited_spec]; cbn beta; [|intros ? ? ? []].
  intros v i' t1 (-> & -> & _). wp_step. { vm_compute in Heqb. discriminate. }
  wp_step. eapply wp_mono; [..|apply stripe_payment_request]; cbn beta; [|intros; wp_step; exact I].
  intros r i' t2 (-> & x & Hin). cbn [savePaymentData M NFTMonetizationSystem.monetization].
  unfold NFTMonetizationSystem.savePaymentData, save_payment, try_set_collection_tier, recordNFTTierUpgrade.
  wp_auto; exact I || (exists x; cbn [In]; auto 12).
Qed.

Definition coop_system : NFTMonetizationSystem.t :=
  NFTMonetizationSystem.Build [("shahSwapAPI", VStr "https://api.shah.vip/price")]
    NFTMonetizationSystem.premiumAddOns0 NFTMonetizationSystem.paymentMethods0.

Definition coop_config : jsval :=
  VObj [("name", VStr "Art"); ("description", VStr "An NFT"); ("imageURI", VStr "ipfs://1");
        ("symbol", VStr "ART")].

Definition coop_run (ops : list op) : integration * trace :=
  fold_left (fun '(i, t) o => match run (H := coop) coop_system o i t with (_, i', t') => (i', t') end)
    ops (integration0, []).

Definition coop_ops : list op :=
  [StartNFTCreationSession coop_config; UpdatePaymentMethod (VStr "stripe");
   UpdateAddOns (VArr [VStr "tradeLock"; VStr "boosterTag"]); ProcessNFTCreation;
   MintNFT (vnum 1) (VObj [("owner", VStr "0x01")])].

Lemma nft_coop_run_steps ops :
  steps (step (H := coop) coop_system) (integration0, []) (coop_run ops).
Proof.
  unfold coop_run. set (x := (integration0, [])). assert (Hx : steps (step (H := coop) coop_system) x x) by auto.
  revert Hx. generalize x at 2 4 as y. induction ops as [|o ops IH]; intros [i t] Hy; cbn [fold_left]; [exact Hy|].
  destruct (run (H := coop) coop_system o i t) as [[r i'] t'] eqn:E. apply IH.
  eapply steps_more; [exact Hy|]. econstructor. exact E.
Qed.


Definition coop_upgrade : jsval :=
  VObj [("contractAddress", VStr "0x4e"); ("currentTier", VStr "Premium"); ("newTier", VStr "Basic");
        ("paymentMethod", VStr "stripe")].

(** A downgrade from Premium to Basic is charged too. *)
Lemma nft_upgrade_amount_is_null_witness :
  wp (upgradeTier (H := coop) coop_system coop_upgrade)
    (fun _ _ t' => exists r, In (Ev "fetch" upgrade_request r) t')
    (fun _ _ _ => True) integration0 [].
Proof. apply (nft_upgrade_amount_is_null (H := coop) coop_system coop_upgrade); reflexivity. Defined.

End NFTCreationIntegration.
