(* ===== verification/BundleCreation.v ===== *)
(** * Bundle creation

    [BundleCreationIntegration] of
    src/sdk-core/smart-contract-toolkit/BundleCreationIntegration.js: a third
    session object above the token and the NFT integrations, whose states it
    contains.  [initialize] calls a method the bundle monetization system
    does not have, so no bundle session is ever opened; the theorems at the
    end follow that through every sequence of calls. *)

From Stdlib Require Import ZArith Bool List String Lia.
From S2P Require Import Prelude JsNum JsVal JsMonad Payments TokenMonetization NFTMonetization BundleMonetization Session TokenCreation NFTCreation.
Import ListNotations.
Local Open Scope string_scope.

Module BundleCreationIntegration.

Record bsession : Type := BSession {
  bs_id : jsval;
  bs_tokenConfig : jsval;
  bs_nftConfig : jsval;
  bs_selectedNFTAddOns : jsval;
  bs_paymentMethod : jsval;
  bs_bundlePrice : jsval;
  bs_status : status;
  bs_createdAt : jsval;
  bs_paymentResult : jsval;
  bs_contractResult : jsval;
  bs_error : jsval
}.

(** The mutable fields of the object, the two integrations included. *)
Record bundle : Type := Bundle {
  b_initialized : bool;
  b_session : option bsession;
  b_token : integration;
  b_nft : integration
}.

Definition bundle0 : bundle := Bundle false None integration0 integration0.

Definition put_session (x : option bsession) (b : bundle) : bundle :=
  Bundle (b_initialized b) x (b_token b) (b_nft b).
Definition put_token (i : integration) (b : bundle) : bundle :=
  Bundle (b_initialized b) (b_session b) i (b_nft b).
Definition put_nft (i : integration) (b : bundle) : bundle :=
  Bundle (b_initialized b) (b_session b) (b_token b) i.
Definition put_initialized (b : bundle) : bundle :=
  Bundle true (b_session b) (b_token b) (b_nft b).
Definition map_bsession (f : bsession -> bsession) (b : bundle) : bundle :=
  put_session (option_map f (b_session b)) b.

Definition with_addOns (v : jsval) (s : bsession) : bsession :=
  BSession (bs_id s) (bs_tokenConfig s) (bs_nftConfig s) v (bs_paymentMethod s) (bs_bundlePrice s)
    (bs_status s) (bs_createdAt s) (bs_paymentResult s) (bs_contractResult s) (bs_error s).
Definition with_method (v : jsval) (s : bsession) : bsession :=
  BSession (bs_id s) (bs_tokenConfig s) (bs_nftConfig s) (bs_selectedNFTAddOns s) v (bs_bundlePrice s)
    (bs_status s) (bs_createdAt s) (bs_paymentResult s) (bs_contractResult s) (bs_error s).
Definition with_price (v : jsval) (s : bsession) : bsession :=
  BSession (bs_id s) (bs_tokenConfig s) (bs_nftConfig s) (bs_selectedNFTAddOns s) (bs_paymentMethod s) v
    (bs_status s) (bs_createdAt s) (bs_paymentResult s) (bs_contractResult s) (bs_error s).
Definition with_status (x : status) (s : bsession) : bsession :=
  BSession (bs_id s) (bs_tokenConfig s) (bs_nftConfig s) (bs_selectedNFTAddOns s) (bs_paymentMethod s)
    (bs_bundlePrice s) x (bs_createdAt s) (bs_paymentResult s) (bs_contractResult s) (bs_error s).
Definition with_payment (v : jsval) (s : bsession) : bsession :=
  BSession (bs_id s) (bs_tokenConfig s) (bs_nftConfig s) (bs_selectedNFTAddOns s) (bs_paymentMethod s)
    (bs_bundlePrice s) (bs_status s) (bs_createdAt s) v (bs_contractResult s) (bs_error s).
Definition with_contracts (v : jsval) (s : bsession) : bsession :=
  BSession (bs_id s) (bs_tokenConfig s) (bs_nftConfig s) (bs_selectedNFTAddOns s) (bs_paymentMethod s)
    (bs_bundlePrice s) (bs_status s) (bs_createdAt s) (bs_paymentResult s) v (bs_error s).
Definition with_error (v : jsval) (s : bsession) : bsession :=
  BSession (bs_id s) (bs_tokenConfig s) (bs_nftConfig s) (bs_selectedNFTAddOns s) (bs_paymentMethod s)
    (bs_bundlePrice s) (bs_status s) (bs_createdAt s) (bs_paymentResult s) (bs_contractResult s) v.

(** The session as the object a caller receives. *)
Definition bsession_obj (s : bsession) : jsval :=
  VObj ([("id", bs_id s); ("tokenConfig", bs_tokenConfig s); ("nftConfig", bs_nftConfig s);
         ("selectedNFTAddOns", bs_selectedNFTAddOns s); ("paymentMethod", bs_paymentMethod s);
         ("bundlePrice", bs_bundlePrice s); ("status", VStr (status_string (bs_status s)));
         ("createdAt", bs_createdAt s)] ++ undef_omit "paymentResult" (bs_paymentResult s) ++
        undef_omit "contractResult" (bs_contractResult s) ++ undef_omit "error" (bs_error s))%list.

(** The three systems the constructor builds; the integrations hold their own
    monetization systems. *)
Record systems : Type := Systems {
  bundleMonetization : BundleMonetizationSystem.t;
  tokenSystem : TokenMonetizationSystem.t;
  nftSystem : NFTMonetizationSystem.t
}.

Definition constructor (cfg : jsval) : result (systems * bundle) :=
  let cfg := default cfg (VObj []) in
  res_bind (BundleMonetizationSystem.constructor cfg) (fun bm =>
  res_bind (TokenMonetizationSystem.constructor cfg) (fun tm =>
  res_bind (NFTMonetizationSystem.constructor cfg) (fun nm =>
  Ok (Systems bm tm nm, bundle0)))).

Section Class.
Context `{Env} (this : systems).
Abbreviation JS := (JS bundle).

Definition on_token {A} (m : JsMonad.JS integration A) : JS A := zoom b_token put_token m.
Definition on_nft {A} (m : JsMonad.JS integration A) : JS A := zoom b_nft put_nft m.

Definition noSession : jserr := Error "No active bundle creation session".

Definition bactive : JS bsession :=
  let* x := read b_session in
  match x with Some s => ret s | None => throw noSession end.

Definition bupdate (f : bsession -> bsession) : JS unit := modify (map_bsession f).

(** [BundleMonetizationSystem] has no [initialize]. *)
Definition initialize : JS jsval :=
  try_catch
    (let* _ := call_missing "this.bundleMonetization.initialize" in
     let* _ := on_token (TokenCreationIntegration.initialize (tokenSystem this)) in
     let* _ := on_nft (NFTCreationIntegration.initialize (nftSystem this)) in
     modify put_initialized ;;;
     ret (VBool true))
    (fun e => throw e).

Definition generateSessionId : JS string :=
  let* n := now in
  let* suffix := random_base36 9 in
  ret ("bundle_session_" ++ Num.to_string n ++ "_" ++ suffix).

Definition updateBundlePrice : JS jsval :=
  let* _ := bactive in
  try_catch
    (let* s := bactive in
     let* bundlePrice := BundleMonetizationSystem.calculateBundlePrice (bundleMonetization this)
       (bs_tokenConfig s) (bs_nftConfig s) (bs_selectedNFTAddOns s) in
     bupdate (with_price bundlePrice) ;;;
     ret bundlePrice)
    (fun e => throw e).

Definition startBundleCreationSession (tokenConfig nftConfig : jsval) : JS jsval :=
  let* i := read b_initialized in
  (if i then ret (VBool true) else initialize) ;;;
  let* errors := lift (BundleMonetizationSystem.validateBundleConfig tokenConfig nftConfig) in
  match errors with
  | _ :: _ => throw (Error ("Bundle configuration errors: " ++ join ", " errors))
  | [] =>
      let* id := generateSessionId in
      let* createdAt := iso_now in
      modify (put_session (Some (BSession (VStr id) tokenConfig nftConfig (VArr []) (VStr "shah")
                                   VNull created createdAt VUndef VUndef VUndef))) ;;;
      let* _ := updateBundlePrice in
      let* s := bactive in
      ret (bsession_obj s)
  end.

Definition updateNFTAddOns (selectedNFTAddOns : jsval) : JS jsval :=
  let* _ := bactive in
  bupdate (with_addOns selectedNFTAddOns) ;;;
  let* _ := updateBundlePrice in
  let* s := bactive in
  ret (bsession_obj s).

Definition updatePaymentMethod (paymentMethod : jsval) : JS jsval :=
  let* _ := bactive in
  bupdate (with_method paymentMethod) ;;;
  let* s := bactive in
  ret (bsession_obj s).

(** A whole token session, its own payment included. *)
Definition deployTokenContract (tokenConfig : jsval) : JS jsval :=
  try_catch
    (let* _ := on_token (TokenCreationIntegration.startTokenCreationSession (tokenSystem this) tokenConfig) in
     let* tokenResult := on_token (TokenCreationIntegration.processTokenCreation (tokenSystem this)) in
     let* address := lift (get tokenResult "contractAddress") in
     let* code := lift (get tokenResult "contractCode") in
     let* deployedAt := iso_now in
     ret (VObj [("contractAddress", address); ("contractCode", code); ("deployedAt", deployedAt)]))
    (fun e => throw (Error ("Token deployment failed: " ++ e_msg e))).

Definition deployNFTContract (nftConfig selectedNFTAddOns : jsval) : JS jsval :=
  try_catch
    (let* _ := on_nft (NFTCreationIntegration.startNFTCreationSession (nftSystem this) nftConfig) in
     let* _ := on_nft (NFTCreationIntegration.updateAddOns (nftSystem this) selectedNFTAddOns) in
     let* nftResult := on_nft (NFTCreationIntegration.processNFTCreation (nftSystem this)) in
     let* address := lift (get nftResult "contractAddress") in
     let* code := lift (get nftResult "contractCode") in
     let* deployedAt := iso_now in
     ret (VObj [("contractAddress", address); ("contractCode", code); ("deployedAt", deployedAt)]))
    (fun e => throw (Error ("NFT deployment failed: " ++ e_msg e))).

Definition generateAndDeployBundleContracts : JS jsval :=
  let* s := bactive in
  try_catch
    (let* tokenResult := deployTokenContract (bs_tokenConfig s) in
     let* nftResult := deployNFTContract (bs_nftConfig s) (bs_selectedNFTAddOns s) in
     let* deployedAt := iso_now in
     ret (VObj [("tokenAddress", get_opt tokenResult "contractAddress");
                ("nftAddress", get_opt nftResult "contractAddress");
                ("tokenDeployment", tokenResult); ("nftDeployment", nftResult);
                ("deployedAt", deployedAt)]))
    (fun e => throw e).

Definition processBundleCreation : JS jsval :=
  let* s0 := bactive in
  (if truthy (bs_bundlePrice s0) then ret VUndef else updateBundlePrice) ;;;
  try_catch
    (bupdate (with_status processing_payment) ;;;
     let* s := bactive in
     let* paymentResult := BundleMonetizationSystem.processBundlePayment (bundleMonetization this)
       (bs_paymentMethod s) (bs_bundlePrice s) in
     let* _ := BundleMonetizationSystem.saveBundlePaymentData paymentResult
       (bs_tokenConfig s) (bs_nftConfig s) (bs_selectedNFTAddOns s) in
     bupdate (with_status payment_completed) ;;;
     bupdate (with_payment paymentResult) ;;;
     let* contractResult := generateAndDeployBundleContracts in
     bupdate (with_status completed) ;;;
     bupdate (with_contracts contractResult) ;;;
     let* final := bactive in
     ret (VObj [("success", VBool true); ("session", bsession_obj final);
                ("tokenAddress", get_opt contractResult "tokenAddress");
                ("nftAddress", get_opt contractResult "nftAddress");
                ("paymentResult", paymentResult)]))
    (fun e =>
     bupdate (with_status failed) ;;;
     bupdate (with_error (VStr (e_msg e))) ;;;
     throw e).

Definition getCurrentSession : JS (option bsession) := read b_session.
Definition clearSession : JS jsval := modify (put_session None) ;;; ret VUndef.
Definition getSessionHistory : JS (list bsession) :=
  read (fun b => match b_session b with Some s => [s] | None => [] end).

Definition validateSession : JS jsval :=
  let invalid msg := VObj [("valid", VBool false); ("error", VStr msg)] in
  let* x := read b_session in
  match x with
  | None => ret (invalid "No active session")
  | Some s =>
      if truthy (bs_tokenConfig s) && truthy (bs_nftConfig s) then
        let* errors := lift (BundleMonetizationSystem.validateBundleConfig
                               (bs_tokenConfig s) (bs_nftConfig s)) in
        match errors with
        | _ :: _ => ret (invalid ("Configuration errors: " ++ join ", " errors))
        | [] => ret (VObj [("valid", VBool true)])
        end
      else ret (invalid "Missing token or NFT configuration")
  end.

Definition getAvailableNFTAddOns : list (string * jsval) :=
  BundleMonetizationSystem.getAvailableNFTAddOns (bundleMonetization this).
Definition getAvailablePaymentMethods : list (string * jsval) :=
  BundleMonetizationSystem.getPaymentMethods (bundleMonetization this).

Definition estimateBundleDeploymentGas (tokenConfig nftConfig selectedNFTAddOns : jsval) : JS jsval :=
  try_catch (BundleMonetizationSystem.estimateBundleDeploymentGas (bundleMonetization this)
               tokenConfig nftConfig selectedNFTAddOns)
            (fun e => throw e).

(** The [eligible] flag, the reasons pushed and, when it could be computed,
    the price. *)
Definition checkBundleEligibility (tokenConfig nftConfig : jsval) : JS jsval :=
  try_catch
    (let* tokenErrors := lift (TokenMonetizationSystem.validateTokenConfig tokenConfig) in
     let* nftErrors := lift (NFTMonetizationSystem.validateNFTConfig nftConfig) in
     let valid := match tokenErrors, nftErrors with [], [] => true | _, _ => false end in
     let reasons :=
       (match tokenErrors with [] => [] | _ => [("Token: " ++ join ", " tokenErrors)%string] end ++
        match nftErrors with [] => [] | _ => [("NFT: " ++ join ", " nftErrors)%string] end)%list in
     let* price := try_catch
       (let* p := BundleMonetizationSystem.calculateBundlePrice (bundleMonetization this)
                    tokenConfig nftConfig (VArr []) in
        ret (Some p))
       (fun _ => ret None) in
     match price with
     | Some p => ret (VObj [("eligible", VBool valid); ("reasons", VArr (map VStr reasons));
                            ("bundlePrice", p)])
     | None => ret (VObj [("eligible", VBool false);
                          ("reasons", VArr (map VStr (reasons ++ ["Unable to calculate bundle price"])%list))])
     end)
    (fun e => throw e).

Definition addOn_stats (name : string) (count percentage : Z) : jsval :=
  VObj [("name", VStr name); ("count", vnum count); ("percentage", vnum percentage)].
Definition method_stats (count percentage : Z) : jsval :=
  VObj [("count", vnum count); ("percentage", vnum percentage)].

Definition getBundleAnalytics : JS jsval :=
  ret (VObj
    [("totalBundles", vnum 150); ("totalRevenue", vnum 8850); ("totalSavings", vnum 2250);
     ("averageSavings", vnum 15);
     ("popularAddOns", VArr
        [addOn_stats "Custom Image Upload" 120 80; addOn_stats "Verified Badge" 95 63;
         addOn_stats "Unlockable Content" 75 50; addOn_stats "Trade Lock" 45 30;
         addOn_stats "Booster Tag" 60 40]);
     ("paymentMethods", VObj [("shah", method_stats 90 60); ("shahToken", method_stats 30 20);
                              ("stripe", method_stats 30 20)]);
     ("conversionRate", VNum (Num.dec 35 2)); ("revenueIncrease", VNum (Num.dec 25 2))]).

Definition recommendation (name description : string) (recommended : bool) : jsval :=
  VObj [("name", VStr name); ("description", VStr description); ("savings", vnum 15);
        ("recommended", VBool recommended)].

Definition getBundleRecommendations : JS jsval :=
  ret (VArr
    [recommendation "Starter Bundle" "Perfect for beginners - basic token and NFT" true;
     recommendation "Premium Bundle" "Advanced features with all NFT add-ons" false;
     recommendation "Gaming Bundle" "Token + NFT optimized for gaming projects" false]).

(** [this.bundleMonetization.isInitialized] is not a property of the class. *)
Definition getBundleSystemStatus : JS jsval :=
  let* b := read (fun b => b) in
  let* timestamp := iso_now in
  ret (VObj [("bundleMonetization", VUndef);
             ("tokenIntegration", VBool (isInitialized (b_token b)));
             ("nftIntegration", VBool (isInitialized (b_nft b)));
             ("currentSession", match b_session b with
                                | Some s => VStr (status_string (bs_status s))
                                | None => VNull
                                end);
             ("timestamp", timestamp)]).

Definition rollbackBundleCreation : JS jsval :=
  let* x := read b_session in
  match x with
  | None => throw (Error "No active session to rollback")
  | Some _ =>
      let* _ := clearSession in
      ret (VObj [("success", VBool true);
                 ("message", VStr "Bundle creation rolled back successfully")])
  end.

(** ** The class as a transition system *)

Inductive op : Type :=
  | Initialize
  | StartBundleCreationSession (tokenConfig nftConfig : jsval)
  | UpdateNFTAddOns (selectedNFTAddOns : jsval)
  | UpdatePaymentMethod (paymentMethod : jsval)
  | UpdateBundlePrice
  | ProcessBundleCreation
  | ClearSession
  | ValidateSession
  | EstimateBundleDeploymentGas (tokenConfig nftConfig selectedNFTAddOns : jsval)
  | CheckBundleEligibility (tokenConfig nftConfig : jsval)
  | GetBundleAnalytics
  | GetBundleRecommendations
  | GetBundleSystemStatus
  | RollbackBundleCreation.

Definition run (o : op) : JS jsval :=
  match o with
  | Initialize => initialize
  | StartBundleCreationSession tc nc => startBundleCreationSession tc nc
  | UpdateNFTAddOns v => updateNFTAddOns v
  | UpdatePaymentMethod v => updatePaymentMethod v
  | UpdateBundlePrice => updateBundlePrice
  | ProcessBundleCreation => processBundleCreation
  | ClearSession => clearSession
  | ValidateSession => validateSession
  | EstimateBundleDeploymentGas tc nc addOns => estimateBundleDeploymentGas tc nc addOns
  | CheckBundleEligibility tc nc => checkBundleEligibility tc nc
  | GetBundleAnalytics => getBundleAnalytics
  | GetBundleRecommendations => getBundleRecommendations
  | GetBundleSystemStatus => getBundleSystemStatus
  | RollbackBundleCreation => rollbackBundleCreation
  end.

Inductive step : bundle * trace -> bundle * trace -> Prop :=
  | step_op o b t r b' t' : run o b t = (r, b', t') -> step (b, t) (b', t').

End Class.

(** ** Properties *)

Section Properties.
Context `{Env} (this : systems).

(** The object as constructed: nothing is initialised and there is no
    session. *)
Definition idle (b : bundle) : Prop := b_initialized b = false /\ b_session b = None.

(** Every method keeps an idle object idle, and charges nothing. *)
Definition stays_idle (m : JS bundle jsval) : Prop :=
  forall b t, idle b ->
    wp m (fun _ b' t' => idle b' /\ charges t' = charges t /\ deploys t' = deploys t)
         (fun _ b' t' => idle b' /\ charges t' = charges t /\ deploys t' = deploys t) b t.

Lemma bundle_estimate_quiet tc nc addOns : quiet (estimateBundleDeploymentGas this tc nc addOns).
Proof.
  intros b t. unfold estimateBundleDeploymentGas, BundleMonetizationSystem.estimateBundleDeploymentGas,
    BundleMonetizationSystem.estimateTokenDeploymentGas, BundleMonetizationSystem.estimateNFTDeploymentGas,
    BundleMonetizationSystem.add_gas, call_missing.
  wp_auto; count_events.
Qed.

(** Without a session every method that needs one throws at once. *)
Lemma bactive_idle {A} (k : bsession -> JS bundle A) b t (Q : A -> bundle -> trace -> Prop) E :
  b_session b = None -> E noSession b t -> wp (let* s := bactive in k s) Q E b t.
Proof. intros Hb HE. unfold bactive. do 3 wp_step. rewrite Hb. wp_step. exact HE. Qed.

Lemma eligibility_spec tc nc b t :
  wp (checkBundleEligibility this tc nc)
    (fun v b' t' => get_opt v "eligible" = VBool false
                    /\ b' = b /\ charges t' = charges t /\ deploys t' = deploys t)
    (fun _ b' t' => b' = b /\ charges t' = charges t /\ deploys t' = deploys t) b t.
Proof.
  unfold checkBundleEligibility. wp_step. wp_step. wp_step; [|wp_step; auto].
  wp_step. wp_step; [|wp_step; auto]. wp_step. wp_step. wp_step.
  eapply wp_mono; [..|apply BundleMonetizationSystem.calculateBundlePrice_throws]; cbn beta; [intros ? ? ? []|].
  intros e b' t' (_ & -> & Hc & Hd). do 2 wp_step. auto.
Qed.

Lemma bundle_stays_idle o : stays_idle (run this o).
Proof.
  intros b t [Hi Hs]. assert (Hb : idle b) by (split; assumption).
  destruct o; cbn [run]; try (apply bactive_idle; [exact Hs|auto]).
  - unfold initialize. wp_auto; auto.
  - unfold startBundleCreationSession. do 3 wp_step. rewrite Hi. unfold initialize, call_missing.
    wp_step. wp_step. wp_step. wp_step. auto.
  - unfold clearSession. wp_auto. repeat split; assumption.
  - unfold validateSession. do 2 wp_step. rewrite Hs. wp_step. auto.
  - eapply wp_mono; [..|apply bundle_estimate_quiet]; cbn beta; intros ? ? ? (-> & ?); auto.
  - eapply wp_mono; [..|apply eligibility_spec]; cbn beta; intuition subst; auto.
  - unfold getBundleAnalytics. wp_step. auto.
  - unfold getBundleRecommendations. wp_step. auto.
  - unfold getBundleSystemStatus. wp_auto; (split; [exact Hb|]); count_events.
  - unfold rollbackBundleCreation. do 2 wp_step. rewrite Hs. wp_step. auto.
Qed.

Lemma bundle_step_idle x y :
  idle (fst x) /\ charges (snd x) = 0 /\ deploys (snd x) = 0 -> step this x y ->
  idle (fst y) /\ charges (snd y) = 0 /\ deploys (snd y) = 0.
Proof.
  intros Hx Hst. revert Hx. destruct Hst as [o b t r b' t' E]. cbn [fst snd]. intros (Hb & Hc & Hd).
  pose proof (bundle_stays_idle o b t Hb) as Hk. unfold wp in Hk. rewrite E in Hk.
  destruct r; destruct Hk as (Hb' & Hc' & Hd'); (split; [exact Hb'|]); split; congruence.
Qed.

End Properties.

(** The bundle class can do nothing: along every sequence of calls, under
    any environment, no session is ever opened and no fee is ever charged;
    opening or processing a bundle always throws. *)
Theorem bundle_class_is_inert `{Env} this b t :
  steps (step this) (bundle0, []) (b, t) ->
  idle b /\ charges t = 0 /\ deploys t = 0
  /\ (forall tc nc, wp (startBundleCreationSession this tc nc)
        (fun _ _ _ => False)
        (fun e _ _ => e = not_a_function "this.bundleMonetization.initialize") b t)
  /\ wp (processBundleCreation this) (fun _ _ _ => False) (fun e _ _ => e = noSession) b t.
Proof.
  intros Hs.
  assert (Hb : idle b /\ charges t = 0 /\ deploys t = 0).
  { apply (steps_invariant (step this) (fun x => idle (fst x) /\ charges (snd x) = 0 /\ deploys (snd x) = 0)
             (bundle_step_idle this) _ _ Hs). repeat split. }
  destruct Hb as (Hb & Hc & Hd). repeat split; try apply Hb; try assumption.
  - intros tc nc. unfold startBundleCreationSession. do 3 wp_step. rewrite (proj1 Hb).
    unfold initialize, call_missing. do 3 wp_step. wp_step. reflexivity.
  - apply bactive_idle; [apply Hb|reflexivity].
Qed.

Definition coop_systems : systems :=
  Systems (BundleMonetizationSystem.Build [("shahSwapAPI", VStr "https://api.shah.vip/price");
             ("bundleDiscountUSD", vnum 15)]
             TokenCreationIntegration.coop_system NFTCreationIntegration.coop_system [])
          TokenCreationIntegration.coop_system NFTCreationIntegration.coop_system.

Lemma bundle_class_is_inert_witness :
  exists t, steps (step (H := coop) coop_systems) (bundle0, []) (bundle0, t) /\ List.length t <> 0
  /\ charges t = 0.
Proof.
  pose (o := CheckBundleEligibility TokenCreationIntegration.coop_config NFTCreationIntegration.coop_config).
  pose (x := run (H := coop) coop_systems o bundle0 []).
  exists (snd x). assert (E : x = (fst (fst x), snd (fst x), snd x)) by (destruct x as [[? ?] ?]; reflexivity).
  assert (Eb : snd (fst x) = bundle0) by (vm_compute; reflexivity). rewrite Eb in E.
  assert (Hs : steps (step (H := coop) coop_systems) (bundle0, []) (bundle0, snd x)).
  { apply steps_one. econstructor. exact E. }
  split; [exact Hs|]. split; [vm_compute; discriminate|].
  apply (bundle_class_is_inert (H := coop) coop_systems bundle0 (snd x) Hs).
Defined.

(** No pair of configurations is ever eligible for a bundle: the price
    the check needs cannot be computed. *)
Theorem bundle_never_eligible `{Env} this tc nc b t :
  wp (checkBundleEligibility this tc nc)
    (fun v b' _ => get_opt v "eligible" = VBool false /\ b' = b) (fun _ b' _ => b' = b) b t.
Proof. eapply wp_mono; [..|apply eligibility_spec]; cbn beta; tauto. Qed.

End BundleCreationIntegration.
