(* ===== verification/PaymentModals.v ===== *)
(** * Payment dialogs

    The React components [TokenCreationPaymentModal],
    [NFTCreationPaymentModal] and [BundleCreationPaymentModal], and the
    classes [TokenCreationWithMonetization] and [NFTCreationWithMonetization],
    of src/sdk-core/smart-contract-toolkit.

    [setState] inside an event handler is queued: [this.state] keeps its old
    value until control returns to React, which happens at the first [await]
    or at the end of the handler.  The model makes the queue explicit. *)

From Stdlib Require Import ZArith Bool List String Lia.
From S2P Require Import Prelude JsNum JsNumFacts JsVal JsMonad Payments TokenMonetization NFTMonetization BundleMonetization Solidity.
Import ListNotations.
Local Open Scope string_scope.

(** ** Component state *)

Record modal : Type := Modal {
  selectedAddOns : list string;
  paymentMethod : jsval;
  loading : bool;
  priceData : jsval;
  errors : list string;
  tier : jsval
}.

(** The committed state and the updates queued since the last flush. *)
Record component : Type := Component { state : modal; queue : list (modal -> modal) }.

(** [this.state = ...] of the constructors. *)
Definition modal0 : modal := Modal [] (VStr "shah") false VNull [] (VStr "Basic").
Definition component0 : component := Component modal0 [].

Definition set_selected (v : list string) (m : modal) : modal :=
  Modal v (paymentMethod m) (loading m) (priceData m) (errors m) (tier m).
Definition set_method (v : jsval) (m : modal) : modal :=
  Modal (selectedAddOns m) v (loading m) (priceData m) (errors m) (tier m).
Definition set_loading (v : bool) (m : modal) : modal :=
  Modal (selectedAddOns m) (paymentMethod m) v (priceData m) (errors m) (tier m).
Definition set_price (v : jsval) (m : modal) : modal :=
  Modal (selectedAddOns m) (paymentMethod m) (loading m) v (errors m) (tier m).
Definition set_errors (v : list string) (m : modal) : modal :=
  Modal (selectedAddOns m) (paymentMethod m) (loading m) (priceData m) v (tier m).
Definition set_tier (v : jsval) (m : modal) : modal :=
  Modal (selectedAddOns m) (paymentMethod m) (loading m) (priceData m) (errors m) v.

Definition setState (f : modal -> modal) : JS component unit :=
  modify (fun c => Component (state c) (queue c ++ [f])%list).

(** React applies the queued updates in order. *)
Definition flush : JS component unit :=
  modify (fun c => Component (fold_left (fun m f => f m) (queue c) (state c)) []).

(** [selected.includes(key) ? selected.filter(k => k !== key) : [...selected, key]]. *)
Definition toggle (key : string) (selected : list string) : list string :=
  if mem_string key selected
  then filter (fun k => negb (k =? key)) selected
  else (selected ++ [key])%list.

(** ** The token and NFT dialogs *)

Section Modal.
Context `{Env} (M : Monetization).
Abbreviation JS := (JS component).

(** The arguments are read before the first [await], at which the queue is
    flushed. *)
Definition calculatePrice : JS unit :=
  let* st := read state in
  flush ;;;
  try_catch
    (let* q := calculateTotalPrice M component (VArr (map VStr (selectedAddOns st)))
                 (VObj [("tier", tier st)]) in
     setState (set_price q))
    (fun e => setState (set_errors [e_msg e])) ;;;
  flush.

Definition componentDidMount : JS unit := calculatePrice.

Definition handleAddOnToggle (addOnKey : string) : JS unit :=
  let* st := read state in
  let newSelectedAddOns := toggle addOnKey (selectedAddOns st) in
  setState (set_selected newSelectedAddOns) ;;;
  calculatePrice.

Definition handlePaymentMethodChange (method : jsval) : JS unit :=
  setState (set_method method) ;;; flush.

(** The price is recomputed in the callback of [setState], after the flush. *)
Definition handleTierChange (value : jsval) : JS unit :=
  setState (set_tier value) ;;; flush ;;; calculatePrice.

Definition handlePayment (config : jsval) : JS unit :=
  let* st := read state in
  let cfg := VObj (obj_set "tier" (tier st) (spread_props config)) in
  let* errs := lift (validateConfig M cfg) in
  match errs with
  | _ :: _ => setState (set_errors errs) ;;; flush
  | [] =>
      setState (fun m => set_errors [] (set_loading true m)) ;;;
      flush ;;;
      try_finally
        (try_catch
          (let* paymentResult := processPayment M component (paymentMethod st) (priceData st) cfg in
           let* _ := savePaymentData M component paymentResult cfg
                       (VArr (map VStr (selectedAddOns st))) in
           let* _ := ext "props.onSuccess" [paymentResult; cfg] in
           ret tt)
          (fun e =>
           setState (set_errors [e_msg e]) ;;;
           let* _ := ext "props.onError" [err_obj e] in
           ret tt))
        (setState (set_loading false) ;;; flush)
  end.

End Modal.

(** ** The bundle dialog *)

Section BundleModal.
Context `{Env} (system : BundleMonetizationSystem.t).
Abbreviation JS := (JS component).

(** [bundlePrice] is kept in the field [priceData]. *)
Definition calculateBundlePrice (tokenConfig nftConfig : jsval) : JS unit :=
  let* st := read state in
  flush ;;;
  try_catch
    (let* q := BundleMonetizationSystem.calculateBundlePrice system tokenConfig nftConfig
                 (VArr (map VStr (selectedAddOns st))) in
     setState (set_price q))
    (fun e => setState (set_errors [e_msg e])) ;;;
  flush.

Definition handleNFTAddOnToggle (tokenConfig nftConfig : jsval) (addOnKey : string) : JS unit :=
  let* st := read state in
  let newSelectedNFTAddOns := toggle addOnKey (selectedAddOns st) in
  setState (set_selected newSelectedNFTAddOns) ;;;
  calculateBundlePrice tokenConfig nftConfig.

Definition handleBundlePayment (tokenConfig nftConfig : jsval) : JS unit :=
  let* st := read state in
  let* errs := lift (BundleMonetizationSystem.validateBundleConfig tokenConfig nftConfig) in
  match errs with
  | _ :: _ => setState (set_errors errs) ;;; flush
  | [] =>
      setState (fun m => set_errors [] (set_loading true m)) ;;;
      flush ;;;
      try_finally
        (try_catch
          (let* paymentResult := BundleMonetizationSystem.processBundlePayment system
                                   (paymentMethod st) (priceData st) in
           let* _ := BundleMonetizationSystem.saveBundlePaymentData paymentResult
                       tokenConfig nftConfig (VArr (map VStr (selectedAddOns st))) in
           let* _ := ext "props.onSuccess" [paymentResult] in
           ret tt)
          (fun e =>
           setState (set_errors [e_msg e]) ;;;
           let* _ := ext "props.onError" [err_obj e] in
           ret tt))
        (setState (set_loading false) ;;; flush)
  end.

End BundleModal.

(** ** Creation without an integration *)

Section Create.
Context `{Env} {S : Type}.

(** The add-on code of [TokenCreationWithMonetization]. *)
Definition token_addUpgradeableFeature (contractCode : string) : result string :=
  Ok (replace_first contractCode "contract MyToken is ERC20, Ownable, Pausable {"
        "contract MyToken is ERC20, Ownable, Pausable, Initializable, UUPSUpgradeable {").

Definition token_addAirdropFeature (contractCode : string) : result string :=
  Ok (insert_feature contractCode (sol "
    function airdrop(address[] memory recipients, uint256[] memory amounts) public onlyOwner {
        require(recipients.length == amounts.length, `Arrays length mismatch`);
        for (uint256 i = 0; i < recipients.length; i++) {
            _mint(recipients[i], amounts[i]);
        }
    }")).

(** The add-on code of [NFTCreationWithMonetization]. *)
Definition nft_addUnlockableContentFeature (contractCode : string) : result string :=
  Ok (insert_feature contractCode (sol "
    mapping(uint256 => string) private unlockableContent;
    
    function setUnlockableContent(uint256 tokenId, string memory content) public onlyOwner {
        unlockableContent[tokenId] = content;
    }
    
    function getUnlockableContent(uint256 tokenId) public view returns (string memory) {
        require(_exists(tokenId), `Token does not exist`);
        return unlockableContent[tokenId];
    }")).

Definition nft_addTradeLockFeature (contractCode : string) : result string :=
  Ok (insert_feature contractCode (sol "
    mapping(uint256 => bool) private tradeLocked;
    
    function setTradeLock(uint256 tokenId, bool locked) public onlyOwner {
        tradeLocked[tokenId] = locked;
    }
    
    function isTradeLocked(uint256 tokenId) public view returns (bool) {
        return tradeLocked[tokenId];
    }
    
    function _beforeTokenTransfer(
        address from,
        address to,
        uint256 tokenId
    ) internal override {
        require(!tradeLocked[tokenId], `Token is trade locked`);
        super._beforeTokenTransfer(from, to, tokenId);
    }")).

Definition nft_addBoosterTagFeature (contractCode : string) : result string :=
  Ok (insert_feature contractCode (sol "
    mapping(uint256 => bool) private boosterTagged;
    
    function setBoosterTag(uint256 tokenId, bool tagged) public onlyOwner {
        boosterTagged[tokenId] = tagged;
    }
    
    function hasBoosterTag(uint256 tokenId) public view returns (bool) {
        return boosterTagged[tokenId];
    }")).

(** [generateBaseContract] is not defined by either class, so the contract
    generation that follows the payment throws. *)
Definition token_generateContractWithAddOns (tokenConfig selectedAddOns : jsval) : JS S jsval :=
  let* base := call_missing "this.generateBaseContract" in
  let* code := lift (apply_features selectedAddOns
    [("upgradeableContract", token_addUpgradeableFeature); ("airdropTool", token_addAirdropFeature)]
    (to_str base)) in
  ret (VStr code).

Definition nft_generateContractWithAddOns (nftConfig selectedAddOns : jsval) : JS S jsval :=
  let* base := call_missing "this.generateBaseContract" in
  let* code := lift (apply_features selectedAddOns
    [("unlockableContent", nft_addUnlockableContentFeature); ("tradeLock", nft_addTradeLockFeature);
     ("boosterTag", nft_addBoosterTagFeature)]
    (to_str base)) in
  ret (VStr code).

(** The two classes differ in their monetization system and generator. *)
Definition create (M : Monetization) (generate : jsval -> jsval -> JS S jsval)
    (config selectedAddOns paymentMethod : jsval) : JS S jsval :=
  let selectedAddOns := default selectedAddOns (VArr []) in
  let paymentMethod := default paymentMethod (VStr "shah") in
  try_catch
    (let* priceData := calculateTotalPrice M S selectedAddOns
       (VObj [("tier", js_or (get_opt config "tier") (VStr "Basic"))]) in
     let* paymentResult := processPayment M S paymentMethod priceData config in
     let* _ := savePaymentData M S paymentResult config selectedAddOns in
     let* contractCode := generate config selectedAddOns in
     let* deployedAddress := call_missing "this.deployContract" in
     ret (VObj [("success", VBool true); ("contractAddress", deployedAddress);
                ("paymentResult", paymentResult); ("priceData", priceData)]))
    (fun e => throw e).

Definition createToken (this : TokenMonetizationSystem.t) : jsval -> jsval -> jsval -> JS S jsval :=
  create (TokenMonetizationSystem.monetization this) token_generateContractWithAddOns.

Definition createNFT (this : NFTMonetizationSystem.t) : jsval -> jsval -> jsval -> JS S jsval :=
  create (NFTMonetizationSystem.monetization this) nft_generateContractWithAddOns.

End Create.

(** ** Properties *)

Section Properties.
Context `{Env} (M : Monetization) `{!MonetizationLaws M}.

(** A dialog at rest: nothing queued. *)
Definition at_rest (c : component) : Prop := queue c = [].

Lemma calculatePrice_spec c t :
  wp (calculatePrice M)
    (fun _ c' t' => at_rest c' /\ charges t' = charges t
       /\ (let flushed := fold_left (fun m f => f m) (queue c) (state c) in
           (exists q s1 t1 s2 t2,
              calculateTotalPrice M component (VArr (map VStr (selectedAddOns (state c))))
                (VObj [("tier", tier (state c))]) s1 t1 = (Ok q, s2, t2)
              /\ state c' = set_price q flushed)
           \/ exists msg, state c' = set_errors [msg] flushed))
    (fun _ _ _ => False) c t.
Proof.
  unfold calculatePrice, flush, setState. do 5 wp_step.
  set (c1 := Component _ _). wp_step.
  pose proof (total_quiet (M := M) component (VArr (map VStr (selectedAddOns (state c))))
                (VObj [("tier", tier (state c))]) c1 t) as Hq.
  unfold wp at 1. unfold wp in Hq. unfold bind at 1.
  destruct (calculateTotalPrice M component _ _ c1 t) as [[[q|e] c2] t2] eqn:E;
    destruct Hq as (-> & Hc & _); cbn; (split; [reflexivity|]); (split; [exact Hc|]).
  - left. exists q, c1, t, c1, t2. auto.
  - right. exists (e_msg e). reflexivity.
Qed.

(** An update of the queue that leaves the loading flag alone. *)
Lemma handlePayment_loading config c t :
  at_rest c -> loading (state c) = false ->
  let post c' (t' : trace) := at_rest c' /\ loading (state c') = false
     /\ (charges t <= charges t' <= S (charges t))%nat in
  wp (handlePayment M config) (fun _ => post) (fun _ => post) c t.
Proof.
  intros Hr Hl post. assert (H0 : post c t) by (repeat split; auto with arith).
  unfold handlePayment. do 3 wp_step. wp_step; [|exact H0].
  destruct a as [|x xs].
  2: { unfold setState, flush. wp_auto. cbn. rewrite Hr. cbn. split; [reflexivity|]. auto with arith. }
  unfold setState, flush. do 4 wp_step. rewrite Hr. cbn [queue state app fold_left].
  set (c1 := Component _ []). do 3 wp_step.
  eapply wp_mono; [..|apply payment_pays]; cbn beta.
  - intros r c' t1 (-> & Hc1 & _). wp_step.
    eapply wp_mono; [..|apply save_quiet]; cbn beta; [|intros ? ? ? []].
    intros w c' t2 (-> & Hc2 & _). wp_auto; (split; [reflexivity|]); (split; [reflexivity|]);
      repeat rewrite charges_cons; cbn -[charges Nat.le]; lia.
  - intros e c' t1 (-> & Hc1 & _). wp_auto; (split; [reflexivity|]); (split; [reflexivity|]);
      repeat rewrite charges_cons; cbn -[charges Nat.le]; lia.
Qed.

Lemma create_throws {S} generate config addOns method :
  (forall c a, always_throws (S := S) (generate c a)) ->
  always_throws (S := S) (create M generate config addOns method).
Proof.
  intros Hg s t. unfold create, call_missing. wp_step. wp_step.
  eapply wp_mono; [..|apply total_quiet]; cbn beta; [|intros; wp_step; exact I].
  intros q s1 t1 _. wp_step.
  eapply wp_mono; [..|apply payment_pays]; cbn beta; [|intros; wp_step; exact I].
  intros r s2 t2 _. wp_step.
  eapply wp_mono; [..|apply save_quiet]; cbn beta; [|intros ? ? ? []].
  intros w s3 t3 _. wp_step. eapply wp_mono; [..|apply Hg]; cbn beta; [intros ? ? ? []|].
  intros. wp_step. exact I.
Qed.

End Properties.

(** ** Theorems *)

(** A dialog never stays in its loading state: whatever the wallet, the
    payment service and the two callbacks do, after a payment attempt that
    started idle the flag is down again, and at most one charge was taken. *)
Theorem payment_clears_loading `{Env} (M : Monetization) `{!MonetizationLaws M} config c t :
  at_rest c -> loading (state c) = false ->
  wp (handlePayment M config)
    (fun _ c' t' => at_rest c' /\ loading (state c') = false
       /\ (charges t <= charges t' <= S (charges t))%nat)
    (fun _ c' t' => at_rest c' /\ loading (state c') = false
       /\ (charges t <= charges t' <= S (charges t))%nat) c t.
Proof. intros Hr Hl. exact (handlePayment_loading M config c t Hr Hl). Qed.

Definition coop_token : TokenMonetizationSystem.t :=
  TokenMonetizationSystem.Build [("shahSwapAPI", VStr "https://api.shah.vip/price")]
    TokenMonetizationSystem.premiumAddOns0 TokenMonetizationSystem.paymentMethods0.

Definition coop_token_config : jsval :=
  VObj [("name", VStr "My Token"); ("symbol", VStr "MTK"); ("decimals", vnum 18);
        ("maxSupply", vnum 1000000)].

Lemma payment_clears_loading_witness :
  at_rest component0 /\ loading (state component0) = false
  /\ wp (handlePayment (H := coop) (TokenMonetizationSystem.monetization (H := coop) coop_token) coop_token_config)
      (fun _ c' t' => at_rest c' /\ loading (state c') = false /\ (charges [] <= charges t' <= S (charges []))%nat)
      (fun _ c' t' => at_rest c' /\ loading (state c') = false /\ (charges [] <= charges t' <= S (charges []))%nat)
      component0 [].
Proof.
  split; [reflexivity|]. split; [reflexivity|].
  apply (payment_clears_loading (H := coop) (TokenMonetizationSystem.monetization (H := coop) coop_token)); reflexivity.
Defined.

(** Toggling an add-on shows the price of the selection before the
    toggle: the quote is requested with the state React has not yet updated. *)
Theorem toggle_shows_previous_price `{Env} (this : TokenMonetizationSystem.t) key c t tr :
  TokenMonetizationSystem.premiumAddOns this = TokenMonetizationSystem.premiumAddOns0 ->
  at_rest c -> tier (state c) = VStr tr -> tr <> EmptyString ->
  Forall (fun k => ~ In k object_prototype) (selectedAddOns (state c)) ->
  (Z.of_nat (List.length (selectedAddOns (state c))) <= max_keys)%Z ->
  wp (handleAddOnToggle (TokenMonetizationSystem.monetization this) key)
    (fun _ c' _ => selectedAddOns (state c') = toggle key (selectedAddOns (state c))
       /\ (priceData (state c') = priceData (state c)
           \/ get_opt (priceData (state c')) "totalUSD"
              = vnum (TokenMonetizationSystem.tierUSD tr
                      + catalog_total TokenMonetizationSystem.addOnUSD (selectedAddOns (state c)))))
    (fun _ _ _ => False) c t.
Proof.
  intros Ha Hr Ht Hn Hk Hlen. unfold handleAddOnToggle, setState. do 4 wp_step.
  set (c1 := Component _ _).
  eapply wp_mono; [..|exact (calculatePrice_spec (TokenMonetizationSystem.monetization this) c1 t)];
    cbn beta; [|intros ? ? ? []].
  intros _ c' t' (_ & _ & [(q & s1 & t1 & s2 & t2 & Eq & Ec) | (msg & Ec)]); rewrite Ec;
    unfold c1; cbn [state queue] in *; rewrite Hr; cbn [app fold_left]; (split; [reflexivity|]).
  - right. subst c1. cbn [state] in Eq. rewrite Ht in Eq.
    pose proof (TokenMonetizationSystem.token_calculateTotalPrice_spec this Ha
                  (selectedAddOns (state c)) tr s1 t1 Hk Hlen Hn) as Hs.
    unfold wp in Hs. cbn in Eq. rewrite Eq in Hs. destruct Hs as (_ & p & _ & _ & Hu & _). exact Hu.
  - left. reflexivity.
Qed.

Lemma toggle_shows_previous_price_witness :
  wp (handleAddOnToggle (TokenMonetizationSystem.monetization (H := coop) coop_token) "verifiedBadge")
    (fun _ c' _ => selectedAddOns (state c') = ["verifiedBadge"]
       /\ (priceData (state c') = VNull \/ get_opt (priceData (state c')) "totalUSD" = vnum 49))
    (fun _ _ _ => False) component0 [].
Proof.
  apply (toggle_shows_previous_price (H := coop) coop_token "verifiedBadge" component0 [] "Basic");
    try reflexivity; [discriminate | constructor | vm_compute; discriminate].
Defined.

(** [createToken] and [createNFT] never return, for any environment: the
    contract generator they call does not exist.  With a service that accepts
    the card, the fee has been charged by then. *)
Theorem create_charges_then_fails :
  (forall (E : Env) S this config addOns method,
     always_throws (S := S) (createToken this config addOns method))
  /\ (forall (E : Env) S this config addOns method,
     always_throws (S := S) (createNFT this config addOns method))
  /\ (let '(r, _, t) := createToken (H := coop) coop_token coop_token_config VUndef (VStr "stripe") tt [] in
      r = Throw (not_a_function "this.generateBaseContract") /\ charges t = 1).
Proof.
  split; [|split].
  - intros E S this config addOns method. apply create_throws; [exact _|].
    intros c a s t. unfold token_generateContractWithAddOns. wp_auto; exact I.
  - intros E S this config addOns method. apply create_throws; [exact _|].
    intros c a s t. unfold nft_generateContractWithAddOns. wp_auto; exact I.
  - vm_compute. auto.
Qed.
