(* ===== verification/DialogViews.v ===== *)
(** * The payment dialogs on the screen

    The [render] methods of [TokenCreationPaymentModal] (token-monetization.js),
    [NFTCreationPaymentModal] (NFTMonetization.js) and
    [BundleCreationPaymentModal] (BundleMonetization.js), as views in the sense
    of [Jsx] over the state of PaymentModals.  The first two have the same
    markup up to their [wording].  A radio button reports its own value. *)

From Stdlib Require Import ZArith Bool List String.
From S2P Require Import Prelude JsNum JsVal JsMonad Payments TokenMonetization NFTMonetization BundleMonetization PaymentModals Jsx.
Import ListNotations.
Local Open Scope string_scope.

Inductive action : Type :=
  | ToggleAddOn (key : string)
  | ChooseMethod (method : jsval)
  | ChooseTier (tier : jsval)
  | Cancel
  | Pay.

Notation page := (html action).

(** ** Parts *)

(** [{v.k.toFixed(6)}]. *)
Definition fixed6 (v : jsval) (k : string) : page :=
  text_of (res_bind (get v k) (fun x => res_bind (as_number k "toFixed" x) (fun n => Ok (Num.to_fixed n 6)))).

(** [${v.usd} ({v.shah.toFixed(6)} SHAH)]. *)
Definition amount (v : jsval) (usd shah : string) : page :=
  fragment [txt "$"; field v usd; txt " ("; fixed6 v shah; txt " SHAH)"].

Definition price_item (classes label : string) (value : page) : page :=
  el "div" [cls classes] [el "span" [] [txt label]; el "span" [] [value]].

(** The lines of the add-ons in a price summary. *)
Definition addOn_item (a : jsval) : page :=
  res_bind (get a "key") (fun key =>
  el "div" [prop "key" key; cls "price-item add-on"] [el "span" [] [field a "name"; txt ":"]; el "span" [] [amount a "priceUSD" "priceSHAH"]]).

Definition error_list {A} (errors : list string) : html A :=
  when (0 <? List.length errors)%nat
    (el "div" [cls "error-messages"] [
      each errors (fun index error => el "div" [prop "key" (vnum (Z.of_nat index)); cls "error-message"] [txt error])]).

Definition addOn_grid (addOns : list (string * jsval)) (selected : list string) : page :=
  el "div" [cls "add-ons-grid"] [
    each addOns (fun _ '(key, a) =>
      el "div" [prop "key" (VStr key); cls "add-on-item"] [
        el "label" [cls "add-on-checkbox"] [
          el "input" [prop "type" (VStr "checkbox"); prop "checked" (VBool (mem_string key selected)); onChange (fun _ => ToggleAddOn key)] [];
          el "div" [cls "add-on-content"] [
            el "h4" [] [field a "name"];
            el "p" [] [field a "description"];
            el "span" [cls "add-on-price"] [txt "+$"; field a "priceUSD"]]]])].

Definition method_list {A} (classes : string) (choose : jsval -> A) (methods : list (string * jsval)) (chosen : jsval) : html A :=
  el "div" [cls classes] [
    el "h3" [] [txt "Payment Method"];
    el "div" [cls "payment-methods"] [
      each methods (fun _ '(key, name) =>
        el "label" [prop "key" (VStr key); cls "payment-method-option"] [
          el "input" [prop "type" (VStr "radio"); prop "name" (VStr "paymentMethod"); prop "value" (VStr key); prop "checked" (VBool (is_str chosen key));
                      onChange (fun _ => choose (VStr key))] [];
          el "span" [] [dyn name]])]].

Definition actions (m : modal) (pay : string) : page :=
  el "div" [cls "modal-actions"] [
    el "button" [cls "btn-secondary"; onClick [Cancel]; prop "disabled" (VBool (loading m))] [txt "Cancel"];
    el "button" [cls "btn-primary"; onClick [Pay]; prop "disabled" (VBool (loading m || negb (truthy (priceData m))))] [
      txt (if loading m then "Processing Payment..." else pay)]].

(** ** The token and the NFT dialog *)

Record wording : Type := Wording {
  root : string; title : string; subtitle : string; tier_title : string; tier_options : list (string * string);
  premium : string; pro : string; basic : string }.

Definition token_wording : wording :=
  Wording "token-creation-payment-modal" "Token Creation Payment" "Select tier (per token), add-ons, and payment method" "Tier (Per Token)"
    [("Basic", "Basic — $49 per token"); ("Pro", "Pro — $79 per token"); ("Premium", "Premium — $129 per token")]
    "Includes Pro + advanced analytics, DAO-ready toggle, NFT airdrop integration, custom landing page."
    "Includes Basic + logo upload, verified badge, ShahSwap auto-listing, wallet visibility."
    "Name, symbol, supply; no-code SHI-20; standard listing.".

Definition nft_wording : wording :=
  Wording "nft-creation-payment-modal" "NFT Creation Payment" "Select tier (per NFT), add-ons, and payment method" "Tier (Per NFT)"
    [("Basic", "Basic — $15 per NFT"); ("Pro", "Pro — $25 per NFT"); ("Premium", "Premium — $39 per NFT")]
    "Includes Pro + smart trait filters, unlockable content, bundle mint, spotlight."
    "Includes Basic + animation/multimedia, verified creator, premium metadata, higher search rank."
    "Upload image, set name/description, standard mint, visible in explorer and wallet.".

Definition renderTierSelector (w : wording) (m : modal) : page :=
  let benefits := if is_str (tier m) "Premium" then premium w else if is_str (tier m) "Pro" then pro w else basic w in
  el "div" [cls "tier-section"] [
    el "h3" [] [txt (tier_title w)];
    el "div" [cls "tier-row"] [
      el "select" [prop "value" (tier m); onChange ChooseTier] [
        each (tier_options w) (fun _ '(value, label) => el "option" [prop "value" (VStr value)] [txt label])]];
    el "div" [cls "tier-benefits"] [el "small" [] [txt benefits]];
    cond (priceData m)
      (el "div" [cls "tier-price"] [el "small" [] [
        res_bind (get (priceData m) "baseFee") (fun baseFee => fragment [txt "Base Fee: "; amount baseFee "usd" "shah"])]])].

Definition price_summary (q : jsval) : page :=
  el "div" [cls "price-summary"] [
    el "h3" [] [txt "Price Summary"];
    el "div" [cls "price-breakdown"] [
      price_item "price-item" "Base Fee:" (res_bind (get q "baseFee") (fun baseFee => amount baseFee "usd" "shah"));
      res_bind (get q "addOns") (fun v => res_bind (as_array "priceData.addOns" "map" v) (fun l => each l (fun _ => addOn_item)));
      price_item "price-item total" "Total:" (amount q "totalUSD" "totalSHAH")];
    el "div" [cls "network-fee-note"] [el "small" [] [txt "* Network transaction fee (0.001 SHAH) will be charged separately"]]].

Definition render (w : wording) (addOns methods : list (string * jsval)) (m : modal) : page :=
  el "div" [cls (root w)] [
    el "div" [cls "modal-header"] [el "h2" [] [txt (title w)]; el "p" [] [txt (subtitle w)]];
    error_list (errors m);
    renderTierSelector w m;
    el "div" [cls "premium-add-ons"] [
      el "h3" [] [txt "Premium Add-Ons (Optional)"];
      addOn_grid addOns (selectedAddOns m)];
    method_list "payment-method" ChooseMethod methods (paymentMethod m);
    cond (priceData m) (price_summary (priceData m));
    actions m "Pay & Verify"].

Definition token_render (this : TokenMonetizationSystem.t) : modal -> page :=
  render token_wording (TokenMonetizationSystem.getPremiumAddOns this) (TokenMonetizationSystem.getPaymentMethods this).

Definition nft_render (this : NFTMonetizationSystem.t) : modal -> page :=
  render nft_wording (NFTMonetizationSystem.getPremiumAddOns this) (NFTMonetizationSystem.getPaymentMethods this).

(** ** The bundle dialog *)

(** [bundlePrice.breakdown.k] and [bundlePrice.pricing.k]. *)
Definition at_path (v : jsval) (outer inner : string) : result jsval := res_bind (get v outer) (fun o => get o inner).

Definition bundle_info : page :=
  let item image name description :=
    el "div" [cls "bundle-item"] [
      el "span" [cls "item-icon"] [txt image];
      el "span" [cls "item-name"] [txt name];
      el "span" [cls "item-description"] [txt description]] in
  el "div" [cls "bundle-info"] [
    el "h3" [] [txt "Bundle Contents"];
    el "div" [cls "bundle-items"] [
      item "🪙" "1 SHI-20 Token" "Standard SHI-20 token with basic features";
      item "🖼️" "1 Basic NFT" "Shahcoin-branded NFT with default artwork"]].

Definition bundle_summary (q : jsval) : page :=
  let line outer inner usd shah := res_bind (at_path q outer inner) (fun v => amount v usd shah) in
  el "div" [cls "price-summary"] [
    el "h3" [] [txt "Bundle Price Summary"];
    el "div" [cls "price-breakdown"] [
      price_item "price-item" "Token Creation:" (line "breakdown" "token" "priceUSD" "priceSHAH");
      price_item "price-item" "NFT Creation:" (line "breakdown" "nft" "priceUSD" "priceSHAH");
      res_bind (at_path q "breakdown" "nft") (fun nft =>
        res_bind (get nft "addOns") (fun v => res_bind (as_array "bundlePrice.breakdown.nft.addOns" "map" v) (fun l => each l (fun _ => addOn_item))));
      price_item "price-item discount" "🎁 Bundle Discount:"
        (res_bind (at_path q "breakdown" "discount") (fun d =>
           fragment [txt "-$"; field d "priceUSD"; txt " (-"; fixed6 d "priceSHAH"; txt " SHAH)"]));
      price_item "price-item total" "Total (with discount):" (line "pricing" "withDiscount" "usd" "shah");
      el "div" [cls "savings-info"] [
        el "span" [] [
          res_bind (at_path q "pricing" "savings") (fun sv => fragment [txt "You save: $"; field sv "usd"; txt " ("; field sv "percentage"; txt "%)"])]]];
    el "div" [cls "network-fee-note"] [el "small" [] [txt "* Network transaction fees (~0.002 SHAH) will be charged separately"]]].

(** [bundlePrice] is kept in the field [priceData]. *)
Definition bundle_render (this : BundleMonetizationSystem.t) (m : modal) : page :=
  el "div" [cls "bundle-creation-payment-modal"] [
    el "div" [cls "modal-header"] [el "h2" [] [txt "🎁 Bundle Creation Payment"]; el "p" [] [txt "Create both Token + NFT with bundle discount"]];
    error_list (errors m);
    bundle_info;
    el "div" [cls "nft-add-ons"] [
      el "h3" [] [txt "NFT Premium Add-Ons (Optional)"];
      addOn_grid (BundleMonetizationSystem.getAvailableNFTAddOns this) (selectedAddOns m)];
    method_list "payment-method" ChooseMethod (BundleMonetizationSystem.getPaymentMethods this) (paymentMethod m);
    cond (priceData m) (bundle_summary (priceData m));
    actions m "Create Bundle"].

(** ** What the dialogs offer *)

Definition addOn_offers (addOns : list (string * jsval)) : list (happening action) :=
  map (fun p => Entered (fun _ => ToggleAddOn (fst p))) addOns.

Definition method_offers (methods : list (string * jsval)) : list (happening action) :=
  map (fun p => Entered (fun _ => ChooseMethod (VStr (fst p)))) methods.

Definition button_offers (m : modal) : list (happening action) :=
  (if loading m then [] else [Clicked [Cancel]]) ++
  (if loading m || negb (truthy (priceData m)) then [] else [Clicked [Pay]]).

Definition dialog_offers (choices : list (happening action)) (addOns methods : list (string * jsval)) (m : modal) : list (happening action) :=
  choices ++ addOn_offers addOns ++ method_offers methods ++ button_offers m.

Lemma grid_hears addOns selected : hears Bubbling [] (addOn_grid addOns selected) (addOn_offers addOns).
Proof.
  eapply hears_iff; [unfold addOn_grid; boxes; apply (each_offers _ _ (fun p => Entered (fun _ => ToggleAddOn (fst p)))); intros i [key a]|listed].
  eapply hears_iff; [hears|]. intros e N. cbn. intuition congruence.
Qed.

Lemma methods_hears {A} classes choose methods chosen :
  hears Bubbling [] (method_list (A := A) classes choose methods chosen) (map (fun p => Entered (fun _ => choose (VStr (fst p)))) methods).
Proof.
  eapply hears_iff; [unfold method_list; boxes; apply (each_offers _ _ (fun p => Entered (fun _ => choose (VStr (fst p))))); intros i [key a]|listed].
  eapply hears_iff; [hears|]. intros e N. cbn. intuition congruence.
Qed.

Lemma actions_hears m pay : hears Bubbling [] (actions m pay) (button_offers m).
Proof.
  unfold actions. eapply hears_iff; [apply hears_box; [reflexivity..|]; hears|]. intros e N. unfold button_offers.
  cbn -[In]. destruct (loading m); cbn -[In]; [reflexivity|]. destruct (truthy (priceData m)); reflexivity.
Qed.

Lemma select_hears value options :
  hears Bubbling [] (el "select" [prop "value" value; onChange ChooseTier]
    [each options (fun _ '(v, label) => el "option" [prop "value" (VStr v)] [txt label])]) [Entered ChooseTier].
Proof.
  eapply hears_iff; [apply hears_el; [reflexivity|]; apply Forall2_cons, Forall2_nil; apply (hears_each _ _ _ _ (fun _ => [])); intros i [v l] _; (eapply hears_iff; [boxes|listed])|].
  intros e N. replace (flat_map _ options) with (@nil (happening action)) by (clear; induction options as [|o l IH]; [reflexivity|exact IH]). cbn. intuition congruence.
Qed.
#[local] Hint Resolve grid_hears methods_hears actions_hears select_hears : hears.

Lemma summary_hears q : hears Bubbling [] (price_summary q) [].
Proof. apply hears_passive. unfold price_summary, price_item, addOn_item, amount, fixed6. red. throughout ltac:(reflexivity). Qed.

Lemma bundle_summary_hears q : hears Bubbling [] (bundle_summary q) [].
Proof. apply hears_passive. unfold bundle_summary, price_item, addOn_item, amount, fixed6. red. throughout ltac:(reflexivity). Qed.

Lemma error_list_hears {A} l : hears Bubbling [] (error_list (A := A) l) [].
Proof. apply hears_passive. unfold error_list. red. throughout ltac:(reflexivity). Qed.

Lemma tiers_hears w m : hears Bubbling [] (renderTierSelector w m) [Entered ChooseTier].
Proof.
  eapply hears_iff; [unfold renderTierSelector, amount, fixed6; boxes|listed].
Qed.
#[local] Hint Resolve summary_hears bundle_summary_hears error_list_hears tiers_hears : hears.

Lemma render_hears w addOns methods m :
  hears Bubbling [] (render w addOns methods m) (dialog_offers [Entered ChooseTier] addOns methods m).
Proof. eapply hears_iff; [unfold render; boxes|unfold dialog_offers; listed]. Qed.

Lemma bundle_render_hears this m :
  hears Bubbling [] (bundle_render this m)
    (dialog_offers [] (BundleMonetizationSystem.getAvailableNFTAddOns this) (BundleMonetizationSystem.getPaymentMethods this) m).
Proof. eapply hears_iff; [unfold bundle_render, bundle_info; boxes|unfold dialog_offers; listed]. Qed.

Lemma errors_shown {A} l : outcome (error_list (A := A) l) = None.
Proof. unfold error_list. rewrite outcome_when, outcome_el, outcome_cons, outcome_each_none; [destruct (_ <? _)%nat; reflexivity|reflexivity]. Qed.
