(* ===== verification/DialogRuns.v ===== *)
(** * The payment dialogs in use

    Runs of the three payment dialogs: the user acts through what is on the
    screen (DialogViews), and the calls a dialog waits for come back in any
    order.  The handlers of PaymentModals are split at their waits; the call a
    dialog waits for is a [task], with the answer it will get.

    A [dialog] is what the machine needs of each of the three; [DialogLaws] is
    what it relies on, discharged for each of them. *)

From Stdlib Require Import ZArith Bool List String Lia.
From S2P Require Import Prelude JsNum JsVal JsMonad Machine Payments TokenMonetization NFTMonetization BundleMonetization PaymentModals Jsx DialogViews.
Import ListNotations.
Local Open Scope string_scope.

(** ** The dialogs *)

Record dialog : Type := Dialog {
  choices : list (happening action);
  catalogue : list (string * jsval);
  accepted : list (string * jsval);
  view : modal -> page;
  quote : modal -> JS unit jsval;
  check : modal -> result (list string);
  charge : modal -> JS unit jsval;
  success : modal -> jsval -> list jsval
}.

Section Dialogs.
Context `{Env}.

(** [{ ...config, tier }]. *)
Definition with_tier (config : jsval) (m : modal) : jsval := VObj (obj_set "tier" (tier m) (spread_props config)).
Definition chosen (m : modal) : jsval := VArr (map VStr (selectedAddOns m)).

Definition tiered_dialog (M : Monetization) (w : wording) (addOns methods : list (string * jsval)) (config : jsval) : dialog := {|
  choices := [Entered ChooseTier];
  catalogue := addOns;
  accepted := methods;
  view := render w addOns methods;
  quote := fun m => calculateTotalPrice M unit (chosen m) (VObj [("tier", tier m)]);
  check := fun m => validateConfig M (with_tier config m);
  charge := fun m =>
    let* paymentResult := processPayment M unit (paymentMethod m) (priceData m) (with_tier config m) in
    let* _ := savePaymentData M unit paymentResult (with_tier config m) (chosen m) in
    ret paymentResult;
  success := fun m paymentResult => [paymentResult; with_tier config m]
|}.

Definition token_dialog (this : TokenMonetizationSystem.t) : jsval -> dialog :=
  tiered_dialog (TokenMonetizationSystem.monetization this) token_wording
    (TokenMonetizationSystem.getPremiumAddOns this) (TokenMonetizationSystem.getPaymentMethods this).

Definition nft_dialog (this : NFTMonetizationSystem.t) : jsval -> dialog :=
  tiered_dialog (NFTMonetizationSystem.monetization this) nft_wording
    (NFTMonetizationSystem.getPremiumAddOns this) (NFTMonetizationSystem.getPaymentMethods this).

Definition bundle_dialog (this : BundleMonetizationSystem.t) (tokenConfig nftConfig : jsval) : dialog := {|
  choices := [];
  catalogue := BundleMonetizationSystem.getAvailableNFTAddOns this;
  accepted := BundleMonetizationSystem.getPaymentMethods this;
  view := bundle_render this;
  quote := fun m => BundleMonetizationSystem.calculateBundlePrice this tokenConfig nftConfig (chosen m);
  check := fun _ => BundleMonetizationSystem.validateBundleConfig tokenConfig nftConfig;
  charge := fun m =>
    let* paymentResult := BundleMonetizationSystem.processBundlePayment this (paymentMethod m) (priceData m) in
    let* _ := BundleMonetizationSystem.saveBundlePaymentData paymentResult tokenConfig nftConfig (chosen m) in
    ret paymentResult;
  success := fun _ paymentResult => [paymentResult]
|}.

End Dialogs.

(** ** The machine *)

Inductive task : Type :=
  | Quoting (answer : result jsval)
  | Paying (answer : result jsval) (m : modal).

Record session : Type := Session { dlg : modal; mounted : bool; waiting : list task }.

Definition session0 : session := Session modal0 false [].

Definition set_dlg (m : modal) (s : session) : session := Session m (mounted s) (waiting s).
Definition set_waiting (l : list task) (s : session) : session := Session (dlg s) (mounted s) l.

Inductive op : Type := Mount | Do (acts : list action) | Answer (i : nat).

Section Runs.
Context `{Env} (D : dialog).
Notation JS := (JS session).

Definition update (f : modal -> modal) : JS unit := modify (fun s => set_dlg (f (dlg s)) s).
Definition outside {A} (m : JsMonad.JS unit A) : JS A := zoom (fun _ => tt) (fun _ s => s) m.
Definition wait_for (k : task) : JS unit := modify (fun s => set_waiting (waiting s ++ [k])%list s).

(** [calculatePrice] up to its wait, called when the state was [m]. *)
Definition begin_quote (m : modal) : JS unit :=
  let* answer := outside (attempt (quote D m)) in wait_for (Quoting answer).

(** [handlePayment] up to its wait. *)
Definition begin_payment : JS unit :=
  let* m := read dlg in
  let* errs := lift (check D m) in
  match errs with
  | _ :: _ => update (set_errors errs)
  | [] =>
      update (fun m => set_errors [] (set_loading true m)) ;;;
      let* answer := outside (attempt (charge D m)) in wait_for (Paying answer m)
  end.

(** After the waits. *)
Definition resume (k : task) : JS unit :=
  match k with
  | Quoting (Ok q) => update (set_price q)
  | Quoting (Throw e) => update (set_errors [e_msg e])
  | Paying answer m =>
      try_finally
        (try_catch
          (let* paymentResult := lift answer in
           let* _ := ext "props.onSuccess" (success D m paymentResult) in
           ret tt)
          (fun e =>
           update (set_errors [e_msg e]) ;;;
           let* _ := ext "props.onError" [err_obj e] in
           ret tt))
        (update (set_loading false))
  end.

(** The state a handler reads is the one before its updates, except in the
    callback of [setState]. *)
Definition perform (a : action) : JS unit :=
  match a with
  | ToggleAddOn key =>
      let* m := read dlg in
      update (set_selected (toggle key (selectedAddOns m))) ;;; begin_quote m
  | ChooseMethod method => update (set_method method)
  | ChooseTier value => update (set_tier value) ;;; let* m := read dlg in begin_quote m
  | Cancel => let* _ := ext "props.onCancel" [] in ret tt
  | Pay => begin_payment
  end.

Definition run (o : op) : JS unit :=
  match o with
  | Mount => modify (fun s => Session (dlg s) true (waiting s)) ;;; let* m := read dlg in begin_quote m
  | Do acts => for_each acts perform
  | Answer i =>
      let* l := read waiting in
      match nth_error l i with
      | Some k => modify (set_waiting (firstn i l ++ skipn (S i) l)%list) ;;; resume k
      | None => ret tt
      end
  end.

Definition enabled (o : op) (s : session) : Prop :=
  match o with
  | Mount => mounted s = false
  | Do acts => mounted s = true /\ exists ns, view D (dlg s) = Ok ns /\ offered Bubbling ns acts
  | Answer i => mounted s = true /\ (i < List.length (waiting s))%nat
  end.

Definition reaches (s : session) (t : trace) : Prop := steps (machine_step run enabled) (session0, []) (s, t).

End Runs.

(** ** What the machine relies on *)

Definition reports (t : trace) : nat := calls "props.onSuccess" t.
Definition failures (t : trace) : nat := calls "props.onError" t.

(** Nothing but the dialog calls the page back. *)
Definition discreet {A} (m : JS unit A) : Prop :=
  forall n k, preserves (fun _ t => reports t = n /\ failures t = k) m.

Class DialogLaws `{Env} (D : dialog) (proper : jsval -> Prop) : Prop := {
  view_offers : forall m, hears Bubbling [] (view D m) (dialog_offers (choices D) (catalogue D) (accepted D) m);
  choices_known : forall e, In e (choices D) -> e = Entered ChooseTier;
  quote_free : forall m, quiet (quote D m);
  quote_discreet : forall m, discreet (quote D m);
  charge_once : forall m, pays (charge D m);
  charge_discreet : forall m, discreet (charge D m);
  view_shows : forall m, incl (selectedAddOns m) (map fst (catalogue D)) -> priceData m = VNull \/ proper (priceData m) -> exists ns, view D m = Ok ns;
  quote_proper : forall m s t, incl (selectedAddOns m) (map fst (catalogue D)) -> wp (quote D m) (fun q _ _ => proper q) (fun _ _ _ => True) s t
}.

Definition is_payment (k : task) : bool := match k with Paying _ _ => true | Quoting _ => false end.
Definition is_paid (k : task) : bool := match k with Paying (Ok _) _ => true | _ => false end.
Definition payments (s : session) : nat := List.length (filter is_payment (waiting s)).
Definition paid (s : session) : nat := List.length (filter is_paid (waiting s)).

(** ** Facts *)

Section Facts.
Context `{Env} (D : dialog) (proper : jsval -> Prop) `{!DialogLaws D proper}.

Definition well_quoted (m : modal) : Prop :=
  incl (selectedAddOns m) (map fst (catalogue D)) /\ (priceData m = VNull \/ proper (priceData m)).

Definition task_ok (k : task) : Prop := match k with Quoting (Ok q) => proper q | _ => True end.

Definition sound (s : session) (t : trace) : Prop :=
  payments s = (if loading (dlg s) then 1 else 0)%nat
  /\ (reports t + paid s <= charges t <= reports t + failures t + payments s)%nat
  /\ well_quoted (dlg s) /\ Forall task_ok (waiting s).

Lemma quote_answer m s t :
  incl (selectedAddOns m) (map fst (catalogue D)) ->
  wp (outside (attempt (quote D m)))
    (fun r s' t' => s' = s /\ charges t' = charges t /\ reports t' = reports t /\ failures t' = failures t /\ task_ok (Quoting r))
    (fun _ _ _ => False) s t.
Proof using All.
  intros I. apply wp_zoom, wp_attempt.
  eapply wp_mono; [..|exact (wp_and _ _ _ _ _ _ _ (quote_free m tt t) (wp_and _ _ _ _ _ _ _ (quote_discreet m _ _ tt t (conj eq_refl eq_refl)) (quote_proper m tt t I)))];
    cbn beta; cbn [task_ok]; intros; intuition congruence.
Qed.

Lemma charge_answer m s t :
  wp (outside (attempt (charge D m)))
    (fun r s' t' => s' = s /\ reports t' = reports t /\ failures t' = failures t
       /\ (charges t + (if is_paid (Paying r m) then 1 else 0) <= charges t' <= S (charges t))%nat)
    (fun _ _ _ => False) s t.
Proof using All.
  apply wp_zoom, wp_attempt.
  eapply wp_mono; [..|exact (wp_and _ _ _ _ _ _ _ (charge_once m tt t) (charge_discreet m _ _ tt t (conj eq_refl eq_refl)))];
    cbn beta; cbn [is_paid]; intros ? ? ? [(_ & C & _) [R F]]; repeat split; auto; lia.
Qed.

Lemma counts_app l k : List.length (filter is_payment (l ++ [k])) = (List.length (filter is_payment l) + (if is_payment k then 1 else 0))%nat
  /\ List.length (filter is_paid (l ++ [k])) = (List.length (filter is_paid l) + (if is_paid k then 1 else 0))%nat.
Proof using Type. rewrite !filter_app, !length_app. cbn [filter]. destruct (is_payment k), (is_paid k); auto. Qed.

Lemma begin_quote_sound m s t : incl (selectedAddOns m) (map fst (catalogue D)) -> sound s t -> wp (begin_quote D m) (fun _ => sound) (fun _ _ _ => False) s t.
Proof using All.
  intros I (P & C & W & F). apply wp_bind. eapply wp_mono; [..|exact (quote_answer m s t I)]; cbn beta; [|intros ? ? ? []].
  intros r s' t' (-> & Ec & Er & Ef & T). apply wp_modify. unfold sound, payments, paid in *. cbn [waiting dlg set_waiting].
  destruct (counts_app (waiting s) (Quoting r)) as [-> ->]. cbn [is_payment]. destruct r; cbn [is_paid]; rewrite Ec, Er, Ef, !Nat.add_0_r;
    (repeat split; [exact P|lia|lia|apply W|apply W|apply Forall_app; auto]).
Qed.

(** What leaves the loading flag and the quote alone. *)
Lemma update_sound f s t :
  loading (f (dlg s)) = loading (dlg s) -> well_quoted (f (dlg s)) -> sound s t -> wp (update f) (fun _ => sound) (fun _ _ _ => False) s t.
Proof using Type. intros L Q (P & C & W & F). apply wp_modify. unfold sound. cbn. rewrite L. auto. Qed.

Lemma toggle_within key l (L : list string) : In key L -> incl l L -> incl (toggle key l) L.
Proof using Type.
  intros K I. unfold toggle. destruct (mem_string key l); [|apply incl_app; [exact I|intros x [<-|[]]; exact K]].
  intros x X. apply filter_In in X. apply I, X.
Qed.

Lemma begin_payment_sound s t : loading (dlg s) = false -> sound s t -> wp (begin_payment D) (fun _ => sound) (fun _ => sound) s t.
Proof using All.
  intros L S. pose proof S as (P & C & W & F). rewrite L in P. unfold begin_payment. do 3 wp_step. wp_step; [|exact S].
  destruct a as [|x xs]; [|eapply wp_mono; [..|apply (update_sound _ s t); [reflexivity|exact W|exact S]]; cbn beta; [auto|intros ? ? ? []]].
  apply wp_bind, wp_modify, wp_bind. eapply wp_mono; [..|exact (charge_answer _ _ t)]; cbn beta; [|intros ? ? ? []].
  intros r s' t' (-> & Er & Ef & Ec). apply wp_modify. unfold sound, payments, paid in *. cbn [waiting dlg set_waiting set_dlg].
  destruct (counts_app (waiting s) (Paying r (dlg s))) as [-> ->]. cbn [loading set_errors PaymentModals.set_loading is_payment].
  repeat split; [lia|lia|lia|apply W|apply W|apply Forall_app; split; [exact F|apply Forall_cons; [exact I|apply Forall_nil]]].
Qed.

(** The actions the dialog offers. *)
Definition sensible (s : session) (a : action) : Prop :=
  match a with
  | ToggleAddOn key => In key (map fst (catalogue D))
  | Pay => loading (dlg s) = false /\ truthy (priceData (dlg s)) = true
  | _ => True
  end.

Lemma offered_sensible s ns acts :
  view D (dlg s) = Ok ns -> offered Bubbling ns acts -> exists a, acts = [a] /\ sensible s a.
Proof using All.
  intros E O. rewrite (hears_offered _ _ _ _ _ (view_offers (dlg s)) E) in O. destruct O as (_ & e & I & P).
  unfold dialog_offers, addOn_offers, method_offers, button_offers in I. rewrite !in_app_iff, !in_map_iff in I.
  destruct I as [I|[(p & <- & Ip)|[(p & <- & Ip)|[I|I]]]].
  - rewrite (choices_known e I) in P. destruct P as (v & ->). exists (ChooseTier v). cbn. auto.
  - destruct P as (v & ->). exists (ToggleAddOn (fst p)). cbn. auto using in_map.
  - destruct P as (v & ->). eexists. split; [reflexivity|exact Logic.I].
  - destruct (loading (dlg s)); [destruct I|]. destruct I as [<-|[]]. exists Cancel. cbn. auto.
  - destruct (loading (dlg s)) eqn:L, (truthy (priceData (dlg s))) eqn:T; cbn in I; try contradiction.
    destruct I as [<-|[]]. exists Pay. cbn in *. auto.
Qed.

Lemma ext_sound op args s t :
  op <> "props.onSuccess" -> op <> "props.onError" -> (forall r, charged (Ev op args r) = false) -> sound s t -> wp (ext op args) (fun _ => sound) (fun _ => sound) s t.
Proof using Type.
  intros N1 N2 Nc (P & C & W & F). apply String.eqb_neq in N1, N2. apply wp_ext; intros; unfold sound, reports, failures in *; rewrite !calls_cons, charges_cons, Nc;
    cbn [ev_op]; rewrite N1, N2; auto.
Qed.

Lemma dialog_perform_sound a s t : sensible s a -> sound s t -> wp (perform D a) (fun _ => sound) (fun _ => sound) s t.
Proof using All.
  intros Al S. pose proof S as (_ & _ & [Wi Wp] & _). destruct a as [key|v|v| |]; cbn [perform sensible] in *.
  - apply wp_bind, wp_read, wp_bind. eapply wp_mono; [..|apply (update_sound _ s t)]; cbn beta; [|intros ? ? ? []|reflexivity|split; [|exact Wp]|exact S].
    + intros _ s' t' S'. eapply wp_mono; [..|exact (begin_quote_sound _ s' t' Wi S')]; cbn beta; [auto|intros ? ? ? []].
    + apply toggle_within; assumption.
  - eapply wp_mono; [..|apply (update_sound _ s t)]; cbn beta; [auto|intros ? ? ? []|reflexivity|split; assumption|exact S].
  - apply wp_bind, wp_modify, wp_bind, wp_read. eapply wp_mono; [..|apply begin_quote_sound]; cbn beta; [auto|intros ? ? ? []|exact Wi|exact S].
  - apply wp_bind. eapply wp_mono; [..|apply ext_sound; [..|exact S]]; try discriminate; cbn beta; auto. intros [] ; reflexivity.
  - apply begin_payment_sound; [apply Al|exact S].
Qed.

Lemma take_split {X} i (l : list X) k : nth_error l i = Some k -> exists l1 l2, l = (l1 ++ k :: l2)%list /\ (firstn i l ++ skipn (S i) l = l1 ++ l2)%list.
Proof using Type.
  intros E. destruct (nth_error_split l i E) as (l1 & l2 & -> & <-). exists l1, l2. split; [reflexivity|].
  rewrite firstn_app, firstn_all, Nat.sub_diag, skipn_app, skipn_all2 by lia.
  replace (S (List.length l1) - List.length l1)%nat with 1%nat by lia. cbn. rewrite app_nil_r. reflexivity.
Qed.

(** A task taken out of the waiting ones. *)
Definition pending (k : task) (s : session) (t : trace) : Prop :=
  (payments s + (if is_payment k then 1 else 0) = (if loading (dlg s) then 1 else 0))%nat
  /\ (reports t + (paid s + (if is_paid k then 1 else 0)) <= charges t <= reports t + failures t + (payments s + (if is_payment k then 1 else 0)))%nat
  /\ well_quoted (dlg s) /\ Forall task_ok (waiting s) /\ task_ok k.

Lemma take_pending i k s t :
  nth_error (waiting s) i = Some k -> sound s t -> pending k (set_waiting (firstn i (waiting s) ++ skipn (S i) (waiting s))%list s) t.
Proof using Type.
  intros E (P & C & W & F). destruct (take_split i _ k E) as (l1 & l2 & El & ->). unfold pending, payments, paid in *. cbn [waiting dlg set_waiting].
  rewrite El in *. rewrite !filter_app, !length_app in *. cbn [filter] in *. apply Forall_app in F. destruct F as [F1 F2]. inversion F2 as [|k' l' Tk F3]; subst.
  destruct (is_payment k), (is_paid k); cbn [List.length] in *; (repeat split; [lia|lia|lia|apply W|apply W|apply Forall_app; auto|exact Tk]).
Qed.

Lemma dialog_resume_sound k s t : pending k s t -> wp (resume D k) (fun _ => sound) (fun _ => sound) s t.
Proof using Type.
  intros (P & C & W & F & T). destruct k as [[q|e]|r m].
  - apply wp_modify. unfold sound, payments, paid in *. cbn in *. repeat split; auto; try lia; apply W.
  - apply wp_modify. unfold sound, payments, paid in *. cbn in *. repeat split; auto; try lia; apply W.
  - cbn [is_payment] in *. assert (payments s = 0)%nat as P0 by (destruct (loading (dlg s)); lia).
    cbn [resume]. destruct r; wp_auto; unfold update; wp_auto; unfold sound, reports, failures, payments, paid in *;
      rewrite ?calls_cons, ?charges_cons in *; cbn in *; repeat split; auto; try lia; try apply W; congruence.
Qed.

Lemma run_sound o s t : enabled D o s -> sound s t -> wp (run D o) (fun _ => sound) (fun _ => sound) s t.
Proof using All.
  intros En S. destruct o as [|acts|i]; cbn [run enabled] in *.
  - apply wp_bind, wp_modify, wp_bind, wp_read. eapply wp_mono; [..|apply begin_quote_sound; [apply S|exact S]]; cbn beta; [auto|intros ? ? ? []].
  - destruct En as (_ & ns & E & O). destruct (offered_sensible s ns acts E O) as (a & -> & Sa). cbn [for_each]. apply wp_bind.
    eapply wp_mono; [..|exact (dialog_perform_sound a s t Sa S)]; cbn beta; auto.
  - apply wp_bind, wp_read. destruct (nth_error (waiting s) i) as [k|] eqn:E; [|exact S].
    apply wp_bind, wp_modify, dialog_resume_sound, take_pending; assumption.
Qed.

Lemma sound0 : sound session0 [].
Proof using Type. repeat split; auto; try (cbn; lia). intros x []. Qed.

Lemma reaches_sound s t : reaches D s t -> sound s t.
Proof using All. intros R. exact (machine_invariant (run D) (enabled D) sound run_sound _ _ _ _ R sound0). Qed.

(** Answering what is waited for. *)
Lemma answer_waits s t k l :
  waiting s = k :: l -> let '(s', _) := after_op (run D) (Answer 0) (s, t) in waiting s' = l /\ mounted s' = mounted s.
Proof using Type.
  intros E. unfold after_op. cbn [fst snd run]. unfold bind, read. rewrite E. cbn [nth_error firstn skipn app modify].
  destruct k as [[q|e]|r m]; cbn [resume]; [cbn; auto..|].
  unfold try_finally, try_catch, bind, lift, ext, update, modify, ret. destruct r as [v|e]; [destruct (reply _ _ _)|]; cbn; try (destruct (reply _ _ _)); cbn; auto.
Qed.

Lemma drains n : forall s t, List.length (waiting s) = n -> mounted s = true ->
  playable (run D) (enabled D) (repeat (Answer 0) n) (s, t) /\ waiting (fst (play (run D) (repeat (Answer 0) n) (s, t))) = [].
Proof using Type.
  induction n as [|n IH]; intros s t L M; cbn [repeat playable play fold_left]; destruct (waiting s) as [|k l] eqn:W; try discriminate L; [auto|].
  pose proof (answer_waits s t k l W) as A. destruct (after_op (run D) (Answer 0) (s, t)) as [s1 t1]. destruct A as [W1 M1].
  destruct (IH s1 t1) as [P E]; [cbn in L; congruence|congruence|]. split; [split; [split; [exact M|cbn [fst]; rewrite W; cbn; lia]|exact P]|exact E].
Qed.
End Facts.

(** ** The three dialogs keep the laws *)

Section Discreet.
Context `{Env}.

Lemma discreet_ext op args : negb (mem_string op ["props.onSuccess"; "props.onError"]) = true -> discreet (ext op args).
Proof using Type.
  intros N n k s t [R F]. apply negb_true_iff in N. cbn [mem_string existsb] in N. apply orb_false_iff in N. destruct N as [N1 N2].
  apply orb_false_iff in N2. destruct N2 as [N2 _].
  apply wp_ext; intros; unfold reports, failures in *; rewrite !calls_cons; cbn [ev_op]; rewrite N1, N2; auto.
Qed.

Lemma discreet_now : discreet now.
Proof using Type. intros n k s t [R F]. exact (conj R F). Qed.

End Discreet.

#[local] Hint Extern 1 (preserves (fun _ t => reports t = _ /\ failures t = _) (ext _ _)) => apply discreet_ext; reflexivity : preserve.
#[local] Hint Extern 1 (preserves (fun _ t => reports t = _ /\ failures t = _) now) => apply discreet_now : preserve.

Ltac discreet := let n := fresh "n" in let k := fresh "k" in intros n k;
  cbv [shah_price shah_payment shah_token_payment stripe_payment save_payment connect_signer shah_factory fetch response_json iso_now call_missing]; preserve.

Section Laws.
Context `{Env}.

Definition presentable (addOns methods : list (string * jsval)) : Prop :=
  (forall selected, outcome (addOn_grid addOns selected) = None) /\ (forall v, outcome (method_list "payment-method" ChooseMethod methods v) = None).

Definition proper_quote (q : jsval) : Prop := outcome (price_summary q) = None.

Lemma fee_shown q : proper_quote q -> outcome (res_bind (get q "baseFee") (fun baseFee => amount baseFee "usd" "shah")) = None.
Proof using Type. unfold proper_quote, price_summary, price_item. autorewrite with outcome. rewrite !orelse_both. tauto. Qed.

Lemma tiers_shown w m : priceData m = VNull \/ proper_quote (priceData m) -> outcome (renderTierSelector w m) = None.
Proof using Type.
  intros P. unfold renderTierSelector. autorewrite with outcome. rewrite outcome_each_none by (intros ? [] _; reflexivity). cbn [orelse].
  destruct P as [-> |P]; [reflexivity|]. apply fee_shown in P. destruct (get _ "baseFee") as [fee|]; [|discriminate P]. cbn [res_bind] in *.
  autorewrite with outcome. rewrite P. destruct (truthy _); reflexivity.
Qed.

Lemma render_shown w addOns methods m :
  presentable addOns methods -> priceData m = VNull \/ proper_quote (priceData m) -> exists ns, render w addOns methods m = Ok ns.
Proof using Type.
  intros [Pa Pm] P. apply outcome_shown. unfold render. autorewrite with outcome. rewrite errors_shown, (tiers_shown w m P), Pa, Pm. cbn [orelse].
  destruct P as [-> |P]; [|red in P; rewrite P, if_none]; unfold actions; autorewrite with outcome; reflexivity.
Qed.

(** Every line of a quote can be shown. *)
Definition lines_ok (x : jsval * list jsval) : Prop :=
  (exists n, fst x = VNum n) /\ Forall (fun a => outcome (addOn_item a) = None) (snd x).

Lemma own_listed {X} (l : list (string * X)) k : In k (map fst l) -> exists v, assoc String.eqb k l = Some v.
Proof using Type.
  induction l as [|[k' v] l IH]; cbn [map fst In assoc]; [intros []|]. intros I. destruct (k =? k') eqn:E; [eauto|].
  destruct I as [-> |I]; [rewrite String.eqb_refl in E; discriminate|exact (IH I)].
Qed.

Lemma lines_shown addOns cat price keys :
  priced addOns cat -> incl keys (map fst addOns) -> forall x, lines_ok x -> lines_ok (fold_left (add_addOn addOns price) (map VStr keys) x).
Proof using Type.
  intros P. induction keys as [|k keys IH]; intros I x L; [exact L|]. cbn [map fold_left]. apply IH; [intros y Y; apply I; right; exact Y|].
  destruct x as [total details], L as [[n En] F]. cbn [fst snd] in *. subst total. cbn [add_addOn to_str].
  destruct (own_listed addOns k (I k (or_introl eq_refl))) as [v Ev]. pose proof (priced_lookup addOns cat k P) as Lk.
  unfold obj_get, own in *. rewrite Ev in *. destruct Lk as (p & name & desc & -> & _). cbn -[Num.add Num.of_Z Num.div outcome]. split; [eexists; reflexivity|].
  apply Forall_app. split; [exact F|]. apply Forall_cons, Forall_nil. reflexivity.
Qed.

Lemma summary_shown fee rest total shah totalSHAH price :
  (forall a, In a rest -> outcome (addOn_item a) = None) -> forall tier breakdown,
  proper_quote (VObj [("baseFee", VObj (("usd", VNum fee) :: ("shah", VNum shah) :: price)); ("tier", tier); ("addOns", VArr rest); ("totalUSD", VNum total);
                      ("totalSHAH", VNum totalSHAH); ("breakdown", breakdown)]).
Proof using Type.
  intros R tier breakdown. unfold proper_quote, price_summary, price_item. autorewrite with outcome.
  cbn [get obj_get own assoc String.eqb Ascii.eqb Bool.eqb res_bind as_array]. rewrite outcome_each_none by (intros; auto). reflexivity.
Qed.

(** A quote of either system, from its lines. *)
Lemma quote_shown addOns cat price keys fee rest shah tier :
  priced addOns cat -> incl keys (map fst addOns) ->
  let '(addOnsTotal, details) := fold_left (add_addOn addOns price) (map VStr keys) (vnum 0, []) in
  forall breakdown totalSHAH,
  proper_quote (VObj [("baseFee", VObj (("usd", VNum fee) :: ("shah", VNum shah) :: rest)); ("tier", tier); ("addOns", VArr details);
                      ("totalUSD", js_add (VNum fee) addOnsTotal); ("totalSHAH", VNum totalSHAH); ("breakdown", breakdown)]).
Proof using Type.
  intros P I. pose proof (lines_shown addOns cat price keys P I (vnum 0, [])) as L.
  destruct (fold_left _ _ _) as [total details]. destruct L as [[n En] F]; [split; [eexists; reflexivity|apply Forall_nil]|].
  cbn [fst snd] in *. subst total. intros. apply summary_shown. rewrite Forall_forall in F. exact F.
Qed.

Lemma tiered_laws M `{!MonetizationLaws M} w addOns methods config :
  presentable addOns methods ->
  (forall keys options, discreet (calculateTotalPrice M unit keys options)) ->
  (forall method amount cfg, discreet (processPayment M unit method amount cfg)) ->
  (forall r cfg keys, discreet (savePaymentData M unit r cfg keys)) ->
  (forall keys tier s t, incl keys (map fst addOns) ->
     wp (calculateTotalPrice M unit (VArr (map VStr keys)) (VObj [("tier", tier)])) (fun q _ _ => proper_quote q) (fun _ _ _ => True) s t) ->
  DialogLaws (tiered_dialog M w addOns methods config) proper_quote.
Proof using Type.
  intros P Dq Dp Ds Q. split; cbn [tiered_dialog choices catalogue accepted view quote charge].
  - intros m. apply render_hears.
  - intros e [<-|[]]. reflexivity.
  - intros m. apply total_quiet.
  - intros m. apply Dq.
  - intros m s t. apply wp_bind. eapply wp_mono; [..|apply payment_pays]; cbn beta; [|auto].
    intros r s' t' (-> & C & D). apply wp_bind. eapply wp_mono; [..|apply save_quiet]; cbn beta; [|intros ? ? ? []].
    intros v s2 t2 (-> & C2 & D2). apply wp_ret. rewrite C2, D2. auto.
  - intros m n k. apply preserves_bind; [apply Dp|]. intros r. apply preserves_bind; [apply Ds|]. intros v. apply preserves_ret.
  - intros m _. apply render_shown, P.
  - intros m s t I. apply Q, I.
Qed.

Lemma token_dialog_laws cfg this config :
  TokenMonetizationSystem.constructor cfg = Ok this -> DialogLaws (token_dialog this config) proper_quote.
Proof using Type.
  intros Hc. assert (TokenMonetizationSystem.premiumAddOns this = TokenMonetizationSystem.premiumAddOns0 /\ TokenMonetizationSystem.paymentMethods this = TokenMonetizationSystem.paymentMethods0) as [Ea Em].
  { unfold TokenMonetizationSystem.constructor in Hc. destruct (get _ "stripePublicKey"); [|discriminate Hc]. injection Hc as <-. auto. }
  unfold token_dialog, TokenMonetizationSystem.getPremiumAddOns, TokenMonetizationSystem.getPaymentMethods. rewrite Ea, Em.
  apply tiered_laws; [exact _|split; intros; reflexivity|..]; cbn [TokenMonetizationSystem.monetization calculateTotalPrice processPayment savePaymentData].
  - intros keys options. unfold TokenMonetizationSystem.calculateTotalPrice, TokenMonetizationSystem.calculateBaseFee, TokenMonetizationSystem.getShahPrice. discreet.
  - intros method amount cfg'. unfold TokenMonetizationSystem.processPayment, TokenMonetizationSystem.processShahPayment, TokenMonetizationSystem.processShahTokenPayment, TokenMonetizationSystem.processStripePayment. discreet.
  - intros r cfg' keys. unfold TokenMonetizationSystem.savePaymentData. discreet.
  - intros keys tier s t I. unfold TokenMonetizationSystem.calculateTotalPrice, TokenMonetizationSystem.calculateBaseFee. cbn [default].
    apply wp_bind, wp_bind. eapply wp_mono; [..|apply shah_price_spec]; cbn beta; [|auto]. intros price s' t' _. apply wp_ret, wp_bind, wp_lift_ok.
    cbn [get_opt get obj_get own assoc String.eqb Ascii.eqb Bool.eqb]. rewrite Ea.
    match goal with |- context [js_div (VNum ?fee) price] => 
      pose proof (fun rest shah tier => quote_shown _ _ price keys fee rest shah tier TokenMonetizationSystem.token_premiumAddOns_priced I) as Q end.
    destruct (fold_left _ _ _) as [total details]. apply wp_ret, Q.
Qed.

Lemma nft_dialog_laws cfg this config :
  NFTMonetizationSystem.constructor cfg = Ok this -> DialogLaws (nft_dialog this config) proper_quote.
Proof using Type.
  intros Hc. assert (NFTMonetizationSystem.premiumAddOns this = NFTMonetizationSystem.premiumAddOns0 /\ NFTMonetizationSystem.paymentMethods this = NFTMonetizationSystem.paymentMethods0) as [Ea Em].
  { unfold NFTMonetizationSystem.constructor in Hc. destruct (get _ "stripePublicKey"); [|discriminate Hc]. injection Hc as <-. auto. }
  unfold nft_dialog, NFTMonetizationSystem.getPremiumAddOns, NFTMonetizationSystem.getPaymentMethods. rewrite Ea, Em.
  apply tiered_laws; [exact _|split; intros; reflexivity|..]; cbn [NFTMonetizationSystem.monetization calculateTotalPrice processPayment savePaymentData].
  - intros keys options. unfold NFTMonetizationSystem.calculateTotalPrice, NFTMonetizationSystem.calculateBaseFee, NFTMonetizationSystem.getShahPrice. discreet.
  - intros method amount cfg'. unfold NFTMonetizationSystem.processPayment, NFTMonetizationSystem.processShahPayment, NFTMonetizationSystem.processShahTokenPayment, NFTMonetizationSystem.processStripePayment. discreet.
  - intros r cfg' keys. unfold NFTMonetizationSystem.savePaymentData. discreet.
  - intros keys tier s t I. unfold NFTMonetizationSystem.calculateTotalPrice, NFTMonetizationSystem.calculateBaseFee. cbn [default].
    apply wp_bind, wp_bind. eapply wp_mono; [..|apply shah_price_spec]; cbn beta; [|auto]. intros price s' t' _. apply wp_ret, wp_bind, wp_lift_ok.
    cbn [get_opt get obj_get own assoc String.eqb Ascii.eqb Bool.eqb]. rewrite Ea.
    match goal with |- context [js_div (VNum ?fee) price] => 
      pose proof (fun rest shah tier => quote_shown _ _ price keys fee rest shah tier NFTMonetizationSystem.nft_premiumAddOns_priced I) as Q end.
    destruct (fold_left _ _ _) as [total details]. apply wp_ret, Q.
Qed.


(** A bundle is never quoted. *)
Lemma bundle_dialog_laws cfg this tokenConfig nftConfig :
  BundleMonetizationSystem.constructor cfg = Ok this -> DialogLaws (bundle_dialog this tokenConfig nftConfig) (fun _ => False).
Proof using Type.
  intros Hc. assert (presentable (BundleMonetizationSystem.getAvailableNFTAddOns this) (BundleMonetizationSystem.getPaymentMethods this)) as [Pa Pm].
  { unfold BundleMonetizationSystem.constructor in Hc. destruct (get _ "stripePublicKey"); [|discriminate Hc]. cbn [res_bind] in Hc.
    destruct (TokenMonetizationSystem.constructor _); [|discriminate Hc]. cbn [res_bind] in Hc. destruct (NFTMonetizationSystem.constructor _) as [n|] eqn:En; [|discriminate Hc].
    injection Hc as <-. split; [|reflexivity]. unfold BundleMonetizationSystem.getAvailableNFTAddOns, NFTMonetizationSystem.getPremiumAddOns.
    cbn [BundleMonetizationSystem.nftMonetization]. rewrite (NFTMonetizationSystem.nft_constructor_addOns _ n En). reflexivity. }
  split; cbn [bundle_dialog choices catalogue accepted view quote charge].
  - intros m. apply bundle_render_hears.
  - intros e [].
  - intros m s t. eapply wp_mono; [..|apply BundleMonetizationSystem.calculateBundlePrice_throws]; cbn beta; [intros ? ? ? []|]. tauto.
  - intros m. unfold BundleMonetizationSystem.calculateBundlePrice, BundleMonetizationSystem.getShahPrice, TokenMonetizationSystem.calculateBaseFee,
      TokenMonetizationSystem.getShahPrice, NFTMonetizationSystem.calculateTotalPrice, NFTMonetizationSystem.calculateBaseFee, NFTMonetizationSystem.getShahPrice. discreet.
  - intros m s t. apply wp_bind. eapply wp_mono; [..|apply BundleMonetizationSystem.bundle_payment_pays]; cbn beta; [|auto].
    intros r s' t' (-> & C & D). apply wp_bind. eapply wp_mono; [..|apply save_payment_quiet]; cbn beta; [|intros ? ? ? []].
    intros v s2 t2 (_ & -> & C2 & D2). apply wp_ret. rewrite C2, D2. auto.
  - intros m. unfold BundleMonetizationSystem.processBundlePayment, BundleMonetizationSystem.processShahBundlePayment, BundleMonetizationSystem.processShahTokenBundlePayment,
      BundleMonetizationSystem.processStripeBundlePayment, BundleMonetizationSystem.saveBundlePaymentData. discreet.
  - intros m _ [Pn|[]]. apply outcome_shown. unfold bundle_render, bundle_info. rewrite Pn. autorewrite with outcome. rewrite errors_shown, Pa, Pm.
    unfold actions. autorewrite with outcome. reflexivity.
  - intros m s t _. eapply wp_mono; [..|apply BundleMonetizationSystem.calculateBundlePrice_throws]; cbn beta; tauto.
Qed.
End Laws.

(** ** Runs against the atomic handlers *)

(** The same computation over two client states. *)
Definition alike {S T A} (m : JS S A) (m' : JS T A) : Prop :=
  forall s s' t, exists r t', m s t = (r, s, t') /\ m' s' t = (r, s', t').

Section Alike.
Context {S T : Type}.

Lemma alike_ret {A} (a : A) : alike (S := S) (T := T) (ret a) (ret a).
Proof. intros s s' t. do 2 eexists. split; reflexivity. Qed.
Lemma alike_throw {A} e : alike (S := S) (T := T) (A := A) (throw e) (throw e).
Proof. intros s s' t. do 2 eexists. split; reflexivity. Qed.
Lemma alike_lift {A} (r : result A) : alike (S := S) (T := T) (lift r) (lift r).
Proof. intros s s' t. do 2 eexists. split; reflexivity. Qed.
Lemma alike_ext `{Env} op args : alike (S := S) (T := T) (ext op args) (ext op args).
Proof. intros s s' t. do 2 eexists. split; reflexivity. Qed.
Lemma alike_now `{Env} : alike (S := S) (T := T) now now.
Proof. intros s s' t. do 2 eexists. split; reflexivity. Qed.

Lemma alike_bind {A B} (m : JS S A) (m' : JS T A) (k : A -> JS S B) k' :
  alike m m' -> (forall a, alike (k a) (k' a)) -> alike (bind m k) (bind m' k').
Proof.
  intros Hm Hk s s' t. destruct (Hm s s' t) as (r & t1 & E & E'). unfold bind. rewrite E, E'.
  destruct r as [a|e]; [exact (Hk a s s' t1)|do 2 eexists; split; reflexivity].
Qed.

Lemma alike_try {A} (m : JS S A) (m' : JS T A) h h' :
  alike m m' -> (forall e, alike (h e) (h' e)) -> alike (try_catch m h) (try_catch m' h').
Proof.
  intros Hm Hh s s' t. destruct (Hm s s' t) as (r & t1 & E & E'). unfold try_catch. rewrite E, E'.
  destruct r as [a|e]; [do 2 eexists; split; reflexivity|exact (Hh e s s' t1)].
Qed.

End Alike.

Create HintDb alike.
#[export] Hint Resolve alike_ret alike_throw alike_lift alike_ext alike_now : alike.

Ltac alike :=
  cbv [shah_price shah_payment shah_token_payment stripe_payment save_payment connect_signer shah_factory fetch response_json iso_now call_missing];
  repeat (intros; first
    [ solve [auto 1 with alike] | apply alike_bind | apply alike_try
    | match goal with |- alike (match ?x with _ => _ end) _ => destruct x eqn:? end ]).

Class Uniform `{Env} (M : Monetization) : Prop := {
  total_alike : forall S T keys options, alike (calculateTotalPrice M S keys options) (calculateTotalPrice M T keys options);
  payment_alike : forall S T method amount cfg, alike (processPayment M S method amount cfg) (processPayment M T method amount cfg);
  save_alike : forall S T r cfg keys, alike (savePaymentData M S r cfg keys) (savePaymentData M T r cfg keys)
}.

#[global] Instance token_uniform `{Env} this : Uniform (TokenMonetizationSystem.monetization this).
Proof.
  split; intros S T; cbn [TokenMonetizationSystem.monetization calculateTotalPrice processPayment savePaymentData]; intros;
    cbv [TokenMonetizationSystem.calculateTotalPrice TokenMonetizationSystem.calculateBaseFee TokenMonetizationSystem.getShahPrice
         TokenMonetizationSystem.processPayment TokenMonetizationSystem.processShahPayment TokenMonetizationSystem.processShahTokenPayment
         TokenMonetizationSystem.processStripePayment TokenMonetizationSystem.savePaymentData]; alike.
Qed.

#[global] Instance nft_uniform `{Env} this : Uniform (NFTMonetizationSystem.monetization this).
Proof.
  split; intros S T; cbn [NFTMonetizationSystem.monetization calculateTotalPrice processPayment savePaymentData]; intros;
    cbv [NFTMonetizationSystem.calculateTotalPrice NFTMonetizationSystem.calculateBaseFee NFTMonetizationSystem.getShahPrice
         NFTMonetizationSystem.processPayment NFTMonetizationSystem.processShahPayment NFTMonetizationSystem.processShahTokenPayment
         NFTMonetizationSystem.processStripePayment NFTMonetizationSystem.savePaymentData]; alike.
Qed.

Section Atomic.
Context `{Env} (M : Monetization) `{!Uniform M} (w : wording) (addOns methods : list (string * jsval)) (config : jsval).
Notation D := (tiered_dialog M w addOns methods config).

(** A dialog at rest in the machine, and the end of an atomic handler. *)
Definition resting (m : modal) : session := Session m true [].
Definition ends (x : result unit * component * trace) (y : session * trace) : Prop :=
  let '(_, c, t) := x in at_rest c /\ y = (resting (state c), t).

(** An operation, then the answer it waits for. *)
Definition settled (o : op) (x : session * trace) : session * trace := play (run D) [o; Answer 0] x.

Lemma quote_settles c t :
  let '(_, s, t') := begin_quote D (state c) (resting (fold_left (fun m f => f m) (queue c) (state c))) t in
  ends (calculatePrice M c t) (after_op (run D) (Answer 0) (s, t')).
Proof using Type*.
  unfold begin_quote, calculatePrice, outside, zoom, attempt, wait_for, flush, setState, try_catch, bind, read, modify. cbn [tiered_dialog quote].
  set (m := fold_left _ _ _). destruct (total_alike component unit (chosen (state c)) (VObj [("tier", tier (state c))]) (Component m []) tt t) as (r & t1 & E & E').
  rewrite E'. unfold chosen in E. rewrite E. destruct r; split; reflexivity.
Qed.

(** What is left is the call back to the page. *)
Ltac calls_back :=
  unfold resume; cbn; unfold try_finally, try_catch, update, bind, modify, ret, ext, lift; cbn;
  repeat (match goal with |- context [reply ?t ?op ?args] => destruct (reply t op args) end; cbn); split; reflexivity.

Lemma payment_settles c t : at_rest c -> ends (handlePayment M config c t) (settled (Do [Pay]) (resting (state c), t)).
Proof using Type*.
  intros R. destruct c as [m q]. red in R. cbn in R. subst q. cbn [state]. unfold settled, play, after_op. cbn [fold_left fst snd run for_each perform].
  unfold begin_payment, handlePayment, bind, read, lift. cbn [dlg resting state tiered_dialog check charge]. fold (with_tier config m).
  destruct (validateConfig M (with_tier config m)) as [[|x xs]|e]; [|split; reflexivity..].
  unfold outside, zoom, attempt, wait_for, flush, setState, try_finally, try_catch, update, bind, modify, ret. cbn [queue state app fold_left].
  set (c1 := Component _ []).
  destruct (payment_alike component unit (paymentMethod m) (priceData m) (with_tier config m) c1 tt t) as (r & t1 & E & E'). rewrite E, E'.
  destruct r as [v|e]; [|calls_back].
  destruct (save_alike component unit v (with_tier config m) (chosen m) c1 tt t1) as (r & t2 & F & F'). unfold chosen in F at 1. rewrite F, F'.
  destruct r as [u|e]; calls_back.
Qed.

(** Operations that begin with a quote. *)
Lemma quote_first c t o x :
  after_op (run D) o x = (let '(_, s, t') := begin_quote D (state c) (resting (fold_left (fun m f => f m) (queue c) (state c))) t in (s, t')) ->
  ends (calculatePrice M c t) (settled o x).
Proof using Type*.
  intros E. unfold settled, play. cbn [fold_left]. rewrite E. pose proof (quote_settles c t) as Q.
  destruct (begin_quote _ _ _ _) as [[r s] t']. exact Q.
Qed.

Ltac begins :=
  unfold after_op; cbn [run for_each perform fst snd]; unfold update, bind, read, modify, resting, set_dlg; cbn;
  match goal with |- context [begin_quote ?D ?m ?s ?t] => destruct (begin_quote D m s t) as [[[] ?] ?] end; reflexivity.

Lemma toggle_settles m t key : ends (handleAddOnToggle M key (Component m []) t) (settled (Do [ToggleAddOn key]) (resting m, t)).
Proof using Type*. change (handleAddOnToggle M key _ t) with (calculatePrice M (Component m [set_selected (toggle key (selectedAddOns m))]) t). apply quote_first. begins. Qed.

Lemma tier_settles m t value : ends (handleTierChange M value (Component m []) t) (settled (Do [ChooseTier value]) (resting m, t)).
Proof using Type*. change (handleTierChange M value _ t) with (calculatePrice M (Component (set_tier value m) []) t). apply quote_first. begins. Qed.

Lemma mount_settles m t : ends (componentDidMount M (Component m []) t) (settled Mount (Session m false [], t)).
Proof using Type*. unfold componentDidMount. apply quote_first. begins. Qed.

End Atomic.

(** ** A dialog that is never quoted *)

Section Unquoted.
Context `{Env} (D : dialog) `{!DialogLaws D (fun _ => False)}.

(** No payment is awaited and none was reported. *)
Definition unpaid (s : session) (t : trace) : Prop := Forall (fun k => is_payment k = false) (waiting s) /\ reports t = 0%nat /\ failures t = 0%nat.

Lemma begin_quote_unpaid m : preserves unpaid (begin_quote D m).
Proof using All.
  intros s t (W & R & F). apply wp_bind, wp_zoom, wp_attempt.
  eapply wp_mono; [..|exact (quote_discreet m 0%nat 0%nat tt t (conj R F))]; cbn beta; intros r [] t' [R' F']; apply wp_modify;
    (split; [apply Forall_app; auto|auto]).
Qed.

Lemma update_unpaid f : preserves unpaid (update f).
Proof using Type. intros s t U. apply wp_modify. exact U. Qed.

Lemma cancel_unpaid : preserves unpaid (ext "props.onCancel" []).
Proof using Type. intros s t U. apply wp_ext; intros; exact U. Qed.
#[local] Hint Resolve begin_quote_unpaid update_unpaid cancel_unpaid : preserve.

Lemma perform_unpaid a : a <> Pay -> preserves unpaid (perform D a).
Proof using All. intros N. destruct a; [..|congruence]; cbn [perform]; preserve. Qed.

Lemma resume_unpaid k : is_payment k = false -> preserves unpaid (resume D k).
Proof using Type. intros N. destruct k as [[]|]; [..|discriminate N]; cbn [resume]; preserve. Qed.

Lemma run_unpaid o s t : enabled D o s -> sound D (fun _ => False) s t -> unpaid s t -> wp (run D o) (fun _ => unpaid) (fun _ => unpaid) s t.
Proof using All.
  intros En S U. destruct o as [|acts|i]; cbn [run enabled] in *.
  - apply wp_bind, wp_modify, wp_bind, wp_read, begin_quote_unpaid, U.
  - destruct En as (_ & ns & E & O). destruct (offered_sensible D _ s ns acts E O) as (a & -> & Sa). cbn [for_each].
    destruct S as (_ & _ & [_ [Pn|[]]] & _). revert U. apply preserves_bind; [|intros; apply preserves_ret]. apply perform_unpaid.
    intros ->. destruct Sa as [_ Sa]. rewrite Pn in Sa. discriminate Sa.
  - apply wp_bind, wp_read. destruct (nth_error (waiting s) i) as [k|] eqn:E; [|exact U]. apply wp_bind, wp_modify. destruct U as (W & R & F).
    destruct (take_split i _ k E) as (l1 & l2 & El & ->). rewrite El in W. apply Forall_app in W. destruct W as [W1 W2]. inversion W2 as [|k' l' Wk W3]; subst.
    apply resume_unpaid; [exact Wk|]. split; [apply Forall_app; auto|auto].
Qed.

Lemma reaches_unpaid s t : reaches D s t -> sound D (fun _ => False) s t /\ unpaid s t.
Proof using All.
  intros R. refine (machine_invariant (run D) (enabled D) (fun s t => sound D (fun _ => False) s t /\ unpaid s t) _ _ _ _ _ R (conj (sound0 D _) _)).
  - intros o s0 t0 En [S U]. exact (wp_and _ _ _ _ _ _ _ (run_sound D _ o s0 t0 En S) (run_unpaid o s0 t0 En S U)).
  - repeat split. apply Forall_nil.
Qed.
End Unquoted.

(** ** A run of the token dialog

    The dialog opens, the verified badge is ticked, the card is chosen and
    paid with; every answer comes before the next action. *)

Lemma do_enabled `{Env} D proper `{!DialogLaws D proper} acts s e :
  mounted s = true -> (exists ns, view D (dlg s) = Ok ns) -> In e (dialog_offers (choices D) (catalogue D) (accepted D) (dlg s)) -> performs e acts -> acts <> [] ->
  enabled D (Do acts) s.
Proof.
  intros M [ns E] I P N. split; [exact M|]. exists ns. split; [exact E|].
  rewrite (hears_offered _ _ _ _ _ (view_offers (dlg s)) E). eauto.
Qed.

Definition demo_dialog : dialog := token_dialog (H := coop) TokenMonetizationSystem.default_system coop_token_config.

Definition demo : list op := [Mount; Answer 0; Do [ToggleAddOn "verifiedBadge"]; Answer 0; Do [ChooseMethod (VStr "stripe")]; Do [Pay]].

Definition demo_end : session * trace := play (run (H := coop) demo_dialog) demo (session0, []).

#[local] Instance demo_laws : DialogLaws (H := coop) demo_dialog proper_quote.
Proof. exact (token_dialog_laws (H := coop) VUndef _ coop_token_config eq_refl). Qed.

Ltac demo_do e :=
  apply (do_enabled (H := coop) demo_dialog proper_quote _ _ e);
  [vm_compute; reflexivity | eexists; vm_compute; reflexivity | vm_compute; tauto | first [reflexivity | exists VUndef; reflexivity] | discriminate].

Lemma demo_playable : playable (run (H := coop) demo_dialog) (enabled demo_dialog) demo (session0, []).
Proof.
  split; [reflexivity|]. split; [vm_compute; auto|].
  split; [demo_do (Entered (fun _ : jsval => ToggleAddOn "verifiedBadge"))|]. split; [vm_compute; auto|].
  split; [demo_do (Entered (fun _ : jsval => ChooseMethod (VStr "stripe")))|]. split; [demo_do (Clicked [Pay])|]. exact I.
Qed.

Lemma demo_reaches : reaches (H := coop) demo_dialog (fst demo_end) (snd demo_end).
Proof. red. rewrite <- surjective_pairing. exact (play_steps _ _ _ _ demo_playable). Qed.

(** ** Theorems *)

(** C6: in a payment dialog at most one payment is under way, and the dialog
    shows that it is loading exactly while one is; payment is offered only
    when none is under way and a quote is on display; every success reported
    to the page has a charge of its own, and every charge taken is reported to
    the page as a success or an error, or its answer is still awaited.
    Whatever the user does and in whatever order the answers come. *)
Theorem dialog_accounts `{Env} (D : dialog) proper `{!DialogLaws D proper} s t :
  reaches D s t ->
  payments s = (if loading (dlg s) then 1 else 0)%nat
  /\ (reports t + paid s <= charges t <= reports t + failures t + payments s)%nat
  /\ (forall ns, view D (dlg s) = Ok ns -> offered Bubbling ns [Pay] -> payments s = 0%nat /\ truthy (priceData (dlg s)) = true).
Proof.
  intros R. destruct (reaches_sound D proper s t R) as (P & C & _). split; [exact P|]. split; [exact C|].
  intros ns E O. destruct (offered_sensible D proper s ns [Pay] E O) as (a & Ea & S). injection Ea as <-. destruct S as [L T].
  rewrite P, L. auto.
Qed.

Lemma dialog_accounts_witness :
  payments (fst demo_end) = 1%nat /\ charges (snd demo_end) = 1%nat
  /\ (reports (snd demo_end) + paid (fst demo_end) <= charges (snd demo_end) <= reports (snd demo_end) + failures (snd demo_end) + payments (fst demo_end))%nat.
Proof.
  split; [vm_compute; reflexivity|]. split; [vm_compute; reflexivity|].
  apply (dialog_accounts (H := coop) demo_dialog proper_quote _ _ demo_reaches).
Defined.

(** The payment dialogs can always be shown: along every run of each of the
    three, rendering the state does not throw, whatever the price service
    answers; a tier, an add-on or a quote the markup cannot show never gets
    into the state. *)
Theorem dialogs_always_shown `{Env} tokenCfg tokenSystem nftCfg nftSystem bundleCfg bundleSystem tokenConfig nftConfig s t :
  TokenMonetizationSystem.constructor tokenCfg = Ok tokenSystem ->
  NFTMonetizationSystem.constructor nftCfg = Ok nftSystem ->
  BundleMonetizationSystem.constructor bundleCfg = Ok bundleSystem ->
  (reaches (token_dialog tokenSystem tokenConfig) s t -> exists ns, token_render tokenSystem (dlg s) = Ok ns)
  /\ (reaches (nft_dialog nftSystem nftConfig) s t -> exists ns, nft_render nftSystem (dlg s) = Ok ns)
  /\ (reaches (bundle_dialog bundleSystem tokenConfig nftConfig) s t -> exists ns, bundle_render bundleSystem (dlg s) = Ok ns).
Proof.
  intros Ht Hn Hb.
  pose proof (token_dialog_laws tokenCfg tokenSystem tokenConfig Ht). pose proof (nft_dialog_laws nftCfg nftSystem nftConfig Hn).
  pose proof (bundle_dialog_laws bundleCfg bundleSystem tokenConfig nftConfig Hb).
  repeat split; intros R; apply (reaches_sound _ _) in R; destruct R as (_ & _ & [I P] & _); exact (view_shows _ I P).
Qed.

Lemma dialogs_always_shown_witness : exists ns, token_render TokenMonetizationSystem.default_system (dlg (fst demo_end)) = Ok ns.
Proof.
  destruct (NFTMonetizationSystem.constructor VUndef) as [n|] eqn:En; [|discriminate En].
  destruct (BundleMonetizationSystem.constructor VUndef) as [b|] eqn:Eb; [|discriminate Eb].
  exact (proj1 (dialogs_always_shown (H := coop) VUndef TokenMonetizationSystem.default_system VUndef n VUndef b coop_token_config VNull _ _ eq_refl En Eb) demo_reaches).
Defined.

(** C31: a dialog that waits becomes ready: from any state of any run, when the
    calls under way are answered one after another, no call is left and the
    dialog no longer shows that it is loading. *)
Theorem dialog_becomes_ready `{Env} (D : dialog) proper `{!DialogLaws D proper} s t :
  reaches D s t -> mounted s = true ->
  let answers := repeat (Answer 0) (List.length (waiting s)) in
  playable (run D) (enabled D) answers (s, t)
  /\ let '(s', t') := play (run D) answers (s, t) in
     reaches D s' t' /\ waiting s' = [] /\ loading (dlg s') = false.
Proof.
  intros R M answers.
  destruct (drains D _ s t eq_refl M) as [P W]. split; [exact P|]. pose proof (play_steps _ _ _ _ P) as St. fold answers in W, St.
  destruct (play (run D) answers (s, t)) as [s' t']. cbn [fst] in W.
  assert (R' : reaches D s' t') by (eapply steps_trans; eassumption). split; [exact R'|]. split; [exact W|].
  destruct (reaches_sound D proper s' t' R') as [Q _]. unfold payments in Q. rewrite W in Q. destruct (loading (dlg s')); [discriminate Q|reflexivity].
Qed.

Lemma dialog_becomes_ready_witness :
  waiting (fst demo_end) <> [] /\ loading (dlg (fst (play (run (H := coop) demo_dialog) (repeat (Answer 0) (List.length (waiting (fst demo_end)))) demo_end))) = false.
Proof.
  split; [vm_compute; discriminate|].
  pose proof (dialog_becomes_ready (H := coop) demo_dialog proper_quote _ _ demo_reaches eq_refl) as [_ Q]. rewrite <- surjective_pairing in Q.
  destruct (play _ _ _) as [s' t']. exact (proj2 (proj2 Q)).
Defined.

(** The bundle dialog never takes money: in no run does it get a quote, so
    that it never offers to pay, nothing is charged, and the page never hears
    of a success or a failure. *)
Theorem bundle_dialog_never_pays `{Env} cfg this tokenConfig nftConfig s t :
  BundleMonetizationSystem.constructor cfg = Ok this -> reaches (bundle_dialog this tokenConfig nftConfig) s t ->
  priceData (dlg s) = VNull /\ charges t = 0%nat /\ reports t = 0%nat /\ failures t = 0%nat
  /\ forall ns, bundle_render this (dlg s) = Ok ns -> ~ offered Bubbling ns [Pay].
Proof.
  intros Hc R. pose proof (bundle_dialog_laws cfg this tokenConfig nftConfig Hc) as L.
  destruct (reaches_unpaid _ s t R) as [(P & C & [_ [Pn|[]]] & _) (W & Rt & Ft)]. rewrite Pn. repeat split; auto.
  - assert (payments s = 0)%nat by (unfold payments; clear -W; induction W as [|k l Hk _ IH]; [reflexivity|]; cbn; rewrite Hk; exact IH). lia.
  - intros ns E O. destruct (offered_sensible (bundle_dialog this tokenConfig nftConfig) _ s ns [Pay] E O) as (a & Ea & S). injection Ea as <-.
    destruct S as [_ T]. rewrite Pn in T. discriminate T.
Qed.

Lemma bundle_dialog_never_pays_witness :
  exists this s t, reaches (H := coop) (bundle_dialog (H := coop) this VNull VNull) s t /\ errors (dlg s) <> [] /\ charges t = 0%nat.
Proof.
  destruct (BundleMonetizationSystem.constructor VUndef) as [b|] eqn:Eb; [|discriminate Eb].
  pose (x := play (run (H := coop) (bundle_dialog (H := coop) b VNull VNull)) [Mount; Answer 0] (session0, [])).
  assert (R : reaches (H := coop) (bundle_dialog (H := coop) b VNull VNull) (fst x) (snd x)).
  { red. rewrite <- surjective_pairing. apply play_steps. split; [reflexivity|]. split; [|exact I]. vm_compute. auto. }
  exists b, (fst x), (snd x). split; [exact R|]. split; [|apply (bundle_dialog_never_pays (H := coop) VUndef b VNull VNull _ _ Eb R)].
  injection Eb as <-. vm_compute. discriminate.
Defined.

(** The machine agrees with the handlers as they are written: from a dialog
    at rest, an action followed by the answer it waits for is the handler run
    to its end, with the same state and the same calls in the same order. *)
Theorem dialog_in_steps `{Env} (M : Monetization) `{!Uniform M} w addOns methods config m t :
  let c := Component m [] in
  ends (componentDidMount M c t) (settled M w addOns methods config Mount (Session m false [], t))
  /\ (forall key, ends (handleAddOnToggle M key c t) (settled M w addOns methods config (Do [ToggleAddOn key]) (resting m, t)))
  /\ (forall value, ends (handleTierChange M value c t) (settled M w addOns methods config (Do [ChooseTier value]) (resting m, t)))
  /\ (forall method, ends (handlePaymentMethodChange method c t) (settled M w addOns methods config (Do [ChooseMethod method]) (resting m, t)))
  /\ ends (handlePayment M config c t) (settled M w addOns methods config (Do [Pay]) (resting m, t)).
Proof.
  cbv zeta. repeat split.
  - apply mount_settles. exact _.
  - intros. apply toggle_settles. exact _.
  - intros. apply tier_settles. exact _.
  - apply payment_settles; [exact _|reflexivity].
Qed.

(** An add-on can be bought without paying for it: in the token dialog the
    badge is ticked, every answer comes before the next action, and the card
    is charged the 49 dollars of the bare tier while the selection holds the
    badge of 20 dollars. *)
Theorem dialog_undercharges :
  reaches (H := coop) demo_dialog (fst demo_end) (snd demo_end)
  /\ selectedAddOns (dlg (fst demo_end)) = ["verifiedBadge"]
  /\ charges (snd demo_end) = 1%nat
  /\ (exists r, In (Ev "fetch" (intent_request "/api/create-payment-intent" (VObj [("amount", vnum 4900); ("currency", VStr "usd")])) r) (snd demo_end))
  /\ catalog_total TokenMonetizationSystem.addOnUSD ["verifiedBadge"] = 20%Z.
Proof.
  split; [exact demo_reaches|]. split; [vm_compute; reflexivity|]. split; [vm_compute; reflexivity|]. split; [|reflexivity].
  eexists. vm_compute. repeat first [left; reflexivity|right].
Qed.
