(* ===== verification/SmartUnits.v ===== *)
(** * Smart unit display

    src/web/components/SmartUnitDisplay.jsx: amounts of Shahi (the base unit,
    [10^-8] SHAH) shown in named decimal units, in full or in USD.  The
    greedy breakdowns are stated over a unit table and a label, since the
    Telegram mini app carries its own copy of both (SmartUnitsTelegram). *)

From Stdlib Require Import ZArith Bool Lia List String Ascii.
From S2P Require Import Prelude JsNum JsNumFacts JsVal JsFormat.
Import ListNotations.
Local Open Scope string_scope.

Record unit_def : Type := Unit {
  name : string;
  displayName : string;
  icon : string;
  shahiValue : Z;
  description : string;
  color : string
}.

Definition units : list (string * unit_def) :=
  [("shahi", Unit "Shahi" "Shahi" "●" 1 "Base unit (like satoshi)" "#6c757d");
   ("nano", Unit "Nano Shah" "Nano Shah" "⚡" 10 "10 Shahi" "#007bff");
   ("micro", Unit "Micro Shah" "Micro Shah" "✨" 100 "100 Shahi" "#6f42c1");
   ("mesin", Unit "Mesin Shah" "Mesin Shah" "🔶" 1000 "1,000 Shahi" "#fd7e14");
   ("simin", Unit "Simin Shah" "Simin Shah" "⚪" 10000 "10,000 Shahi" "#20c997");
   ("zarrin", Unit "Zarrin Shah" "Zarrin Shah" "🟡" 100000 "100,000 Shahi" "#ffc107");
   ("shahcent", Unit "Shahcent" "Shahcent" "💎" 1000000 "1,000,000 Shahi" "#dc3545");
   ("daric", Unit "Daric Shah" "Daric Shah" "🏛️" 10000000 "10,000,000 Shahi" "#28a745");
   ("shah", Unit "SHAH" "SHAH" "🪙" 100000000 "100,000,000 Shahi" "#17a2b8");
   ("meta", Unit "Meta Shah" "Meta Shah" "🔷" 1000000000 "10 SHAH" "#6f42c1");
   ("beta", Unit "Beta Shah" "Beta Shah" "🟠" 10000000000 "100 SHAH" "#fd7e14");
   ("sigma", Unit "Sigma Shah" "Sigma Shah" "⚙️" 100000000000 "1,000 SHAH" "#20c997");
   ("mega", Unit "Mega Shah" "Mega Shah" "🌟" 1000000000000 "10,000 SHAH" "#ffc107");
   ("giga", Unit "Giga Shah" "Giga Shah" "🔵" 10000000000000 "100,000 SHAH" "#dc3545");
   ("alpha", Unit "Alpha Shah" "Alpha Shah" "💠" 100000000000000 "1,000,000 SHAH" "#28a745")].

Definition subUnits : list string :=
  ["daric"; "shahcent"; "zarrin"; "simin"; "mesin"; "micro"; "nano"; "shahi"].
Definition megaUnits : list string := ["alpha"; "giga"; "mega"; "sigma"; "beta"; "meta"].

(** ** Breakdowns over a unit table *)

Section Breakdown.
Context {U : Type} (units : list (string * U)) (label : U -> string) (value : U -> Z).

Definition unit_at (key : string) : result U :=
  match assoc String.eqb key units with
  | Some u => Ok u
  | None => Throw (cannot_read "undefined" "shahiValue")
  end.

(** The loop of [getSubUnitBreakdown]: largest unit first. *)
Fixpoint sub_loop (keys : list string) (remaining : num) (parts : list string) : result (list string) :=
  match keys with
  | [] => Ok parts
  | key :: keys' =>
      res_bind (unit_at key) (fun u =>
      let v := Num.of_Z (value u) in
      if Num.geb remaining v then
        let count := Num.floor (Num.div remaining v) in
        sub_loop keys' (Num.rem remaining v) (parts ++ [(Num.to_string count ++ " " ++ label u)%string])%list
      else sub_loop keys' remaining parts)
  end.

Definition sub_breakdown (shahiAmount : num) : result string :=
  if Num.eqb shahiAmount Num.zero then Ok "0 Shahi"
  else res_bind (sub_loop subUnits shahiAmount []) (fun parts => Ok (join " + " parts)).

(** The loop of [getMegaUnitBreakdown].  [shahAmount] is declared [const], so
    the assignment in the branch throws; nothing was pushed before it. *)
Fixpoint mega_loop (keys : list string) (shahAmount : num) : result (list string) :=
  match keys with
  | [] => Ok []
  | key :: keys' =>
      res_bind (unit_at key) (fun u =>
      let unitValue := Num.floor (Num.div (Num.of_Z (value u)) (Num.of_Z 100000000)) in
      if Num.geb shahAmount unitValue then Throw (TypeError "Assignment to constant variable.")
      else mega_loop keys' shahAmount)
  end.

Definition mega_breakdown (shahiAmount : num) : result string :=
  if Num.ltb shahiAmount (Num.of_Z 100000000) then sub_breakdown shahiAmount
  else
    let shahAmount := Num.floor (Num.div shahiAmount (Num.of_Z 100000000)) in
    let remainingShahi := Num.rem shahiAmount (Num.of_Z 100000000) in
    res_bind (mega_loop megaUnits shahAmount) (fun parts =>
    let parts := if Num.gtb shahAmount Num.zero
                 then (parts ++ [(formatNumber shahAmount ++ " SHAH")%string])%list else parts in
    res_bind (if Num.gtb remainingShahi Num.zero
              then res_bind (sub_breakdown remainingShahi) (fun s => Ok (parts ++ [s])%list)
              else Ok parts) (fun parts =>
    Ok (join " + " parts))).

Definition smart_breakdown (shahiAmount : num) : result string :=
  if Num.ltb shahiAmount (Num.of_Z 100000000) then sub_breakdown shahiAmount
  else mega_breakdown shahiAmount.

End Breakdown.

Definition full_value (shahiAmount : num) : string :=
  Num.to_fixed (Num.div shahiAmount (Num.of_Z 100000000)) 8 ++ " SHAH".

Definition usd_value (shahiAmount usdPrice : num) : string :=
  "$" ++ Num.to_fixed (Num.mul (Num.div shahiAmount (Num.of_Z 100000000)) usdPrice) 2 ++ " USD".

(** ** The React component *)

Record state : Type := State {
  smartUnitEnabled : bool;
  currentDisplayMode : string;
  showUnitExplorer : bool
}.

Definition initial_state (displayMode : option string) : state :=
  State true (match displayMode with Some m => m | None => "smart" end) false.

Definition getSubUnitBreakdown : num -> result string := sub_breakdown units displayName shahiValue.
Definition getMegaUnitBreakdown : num -> result string := mega_breakdown units displayName shahiValue.

Definition getSmartUnitBreakdown (shahiAmount : num) : result string :=
  if Num.ltb shahiAmount (Num.of_Z 100000000) then getSubUnitBreakdown shahiAmount
  else getMegaUnitBreakdown shahiAmount.

Definition getFullSHAHValue (shahiAmount : num) : string := full_value shahiAmount.

(** [usdPrice] defaults to [0.0]. *)
Definition getUSDEquivalent (shahiAmount : num) (usdPrice : option num) : result string :=
  let usdPrice := match usdPrice with Some p => p | None => Num.zero end in
  if Num.leb usdPrice Num.zero
  then res_bind (getSmartUnitBreakdown shahiAmount) (fun s => Ok (s ++ " (USD price not available)"))
  else Ok (usd_value shahiAmount usdPrice).

Definition formatBalance (shahiAmount : num) (mode : string) : result string :=
  if mode =? "full" then Ok (getFullSHAHValue shahiAmount)
  else if mode =? "smart" then getSmartUnitBreakdown shahiAmount
  else if mode =? "usd" then getUSDEquivalent shahiAmount None
  else getSmartUnitBreakdown shahiAmount.

Definition newline : string := String "010" EmptyString.

Definition createTooltip (shahiAmount : num) : result string :=
  res_bind (getSmartUnitBreakdown shahiAmount) (fun smart =>
  Ok (join newline ["Smart: " ++ smart; "Full: " ++ getFullSHAHValue shahiAmount])).

(** The handlers of [SettingsWidget] and of the dialog. *)
Inductive event : Type :=
  | ToggleSmart (checked : bool)
  | SelectMode (value : string)
  | OpenExplorer
  | CloseExplorer.

Definition handle (e : event) (s : state) : state :=
  match e with
  | ToggleSmart b => State b (currentDisplayMode s) (showUnitExplorer s)
  | SelectMode m => State (smartUnitEnabled s) m (showUnitExplorer s)
  | OpenExplorer => State (smartUnitEnabled s) (currentDisplayMode s) true
  | CloseExplorer => State (smartUnitEnabled s) (currentDisplayMode s) false
  end.

(** The text and the title of the rendered span. *)
Definition render (s : state) (shahiAmount : num) (showTooltip : bool) : result (string * string) :=
  res_bind (if smartUnitEnabled s then formatBalance shahiAmount (currentDisplayMode s)
            else Ok (getFullSHAHValue shahiAmount)) (fun displayText =>
  res_bind (if showTooltip then createTooltip shahiAmount else Ok EmptyString) (fun title =>
  Ok (displayText, title))).

(** The rows of [UnitExplorerDialog]: display name and value text. *)
Definition explorer_sub_row (key : string) : result (string * string) :=
  res_bind (unit_at units key) (fun u =>
  Ok (displayName u, "= " ++ formatNumber (Num.of_Z (shahiValue u)) ++ " Shahi")).

Definition explorer_mega_row (key : string) : result (string * string) :=
  res_bind (unit_at units key) (fun u =>
  Ok (displayName u,
      if key =? "shah" then "= 100,000,000 Shahi"
      else "= " ++ formatNumber (Num.floor (Num.div (Num.of_Z (shahiValue u)) (Num.of_Z 100000000))) ++ " SHAH")).

Definition explorer_examples : list string :=
  ["110 Shahi → 1 Micro Shah + 1 Nano Shah";
   "1,540,000 Shahi → 1 Shahcent + 5 Simin Shah + 4 Mesin Shah";
   "1,000 SHAH → 1 Sigma Shah";
   "10,000 SHAH → 1 Mega Shah";
   "1,000,000 SHAH → 1 Alpha Shah"].

(** ** The positional specification *)

(** The decimal digit of [n] at [10^k]. *)
Definition digit (n : Z) (k : nat) : Z := (n / 10 ^ Z.of_nat k mod 10)%Z.

(** The names of the sub-units, from [10^0] up. *)
Definition sub_names : list string :=
  ["Shahi"; "Nano Shah"; "Micro Shah"; "Mesin Shah"; "Simin Shah"; "Zarrin Shah"; "Shahcent"; "Daric Shah"].

(** One part per non-zero digit below [10^k], most significant first. *)
Fixpoint digit_parts (n : Z) (k : nat) : list string :=
  match k with
  | O => []
  | S k' =>
      if (digit n k' =? 0)%Z then digit_parts n k'
      else (Num.Z_to_string (digit n k') ++ " " ++ nth k' sub_names EmptyString) :: digit_parts n k'
  end.

Definition sub_text (n : Z) : string :=
  if (n =? 0)%Z then "0 Shahi" else join " + " (digit_parts n 8).

(** An amount below 10 SHAH: the SHAH count, then its sub-units. *)
Definition shah_text (n : Z) : string :=
  let rest := (n mod 100000000)%Z in
  join " + " ((Num.Z_to_string (n / 100000000) ++ " SHAH") ::
              if (rest =? 0)%Z then [] else [sub_text rest]).

(** ** Facts *)

Local Open Scope Z_scope.

Lemma small_numeral d : 0 <= d <= 9 -> Num.to_string (Num.of_Z d) = Num.Z_to_string d.
Proof.
  intros H. assert (D : d = 0 \/ d = 1 \/ d = 2 \/ d = 3 \/ d = 4 \/ d = 5 \/ d = 6 \/ d = 7 \/ d = 8 \/ d = 9) by lia.
  repeat destruct D as [-> | D]; [..|subst d]; vm_compute; reflexivity.
Qed.

Lemma small_grouped d : 0 <= d <= 9 -> formatNumber (Num.of_Z d) = Num.Z_to_string d.
Proof.
  intros H. unfold formatNumber. rewrite small_numeral by exact H.
  assert (D : d = 0 \/ d = 1 \/ d = 2 \/ d = 3 \/ d = 4 \/ d = 5 \/ d = 6 \/ d = 7 \/ d = 8 \/ d = 9) by lia.
  repeat destruct D as [-> | D]; [..|subst d]; vm_compute; reflexivity.
Qed.

Fixpoint keys_below (k : nat) : list string :=
  match k with O => [] | S k' => nth k' (rev subUnits) EmptyString :: keys_below k' end.

Section Tables.
Context {U : Type} (tab : list (string * U)) (label : U -> string) (value : U -> Z).

(** The table gives the sub-units their decimal values and published names. *)
Definition decimal_table : Prop :=
  forall k, (k < 8)%nat -> exists u, unit_at tab (nth k (rev subUnits) EmptyString) = Ok u
    /\ value u = 10 ^ Z.of_nat k /\ label u = nth k sub_names EmptyString.

Lemma digit_step n k :
  let r := n mod 10 ^ Z.of_nat (S k) in
  r / 10 ^ Z.of_nat k = digit n k /\ r mod 10 ^ Z.of_nat k = n mod 10 ^ Z.of_nat k /\ 0 <= digit n k <= 9.
Proof.
  intros r. assert (P : 0 < 10 ^ Z.of_nat k) by (apply Z.pow_pos_nonneg; lia).
  assert (E : 10 ^ Z.of_nat (S k) = 10 ^ Z.of_nat k * 10)
    by (rewrite Nat2Z.inj_succ, Z.pow_succ_r by lia; apply Z.mul_comm).
  assert (R : r = n mod 10 ^ Z.of_nat k + 10 ^ Z.of_nat k * digit n k).
  { unfold r, digit. rewrite E. rewrite Z.rem_mul_r by lia. reflexivity. }
  pose proof (Z.mod_pos_bound n (10 ^ Z.of_nat k) P) as B.
  pose proof (Z.mod_pos_bound (n / 10 ^ Z.of_nat k) 10 ltac:(lia)) as B2. fold (digit n k) in B2.
  split; [|split; [|lia]]; rewrite R.
  - rewrite Z.mul_comm, Z.div_add by lia. rewrite Z.div_small by lia. reflexivity.
  - rewrite Z.mul_comm, Z.mod_add by lia. apply Z.mod_small. lia.
Qed.

Lemma pow10_le_8 k : (k <= 8)%nat -> 0 < 10 ^ Z.of_nat k <= 100000000.
Proof.
  intros H. split; [apply Z.pow_pos_nonneg; lia|].
  change 100000000 with (10 ^ 8). apply Z.pow_le_mono_r; lia.
Qed.

Lemma sub_loop_digits n k parts :
  decimal_table -> (k <= 8)%nat ->
  sub_loop tab label value (keys_below k) (Num.of_Z (n mod 10 ^ Z.of_nat k)) parts
  = Ok (parts ++ digit_parts n k)%list.
Proof.
  intros Ht. revert parts. induction k as [|k IH]; intros parts Hk; [cbn; rewrite app_nil_r; reflexivity|].
  cbn [keys_below sub_loop digit_parts]. destruct (Ht k ltac:(lia)) as (u & -> & Hv & Hl). cbn [res_bind].
  rewrite Hv, Hl. destruct (digit_step n k) as (Hd & Hm & Hr).
  pose proof (pow10_le_8 k ltac:(lia)). pose proof (pow10_le_8 (S k) Hk).
  pose proof (Z.mod_pos_bound n (10 ^ Z.of_nat (S k)) ltac:(lia)).
  set (r := n mod 10 ^ Z.of_nat (S k)) in *. set (p := 10 ^ Z.of_nat k) in *.
  assert (Sr : safe r) by (unfold safe, prec; lia). assert (Sp : safe p) by (unfold safe, prec; lia).
  unfold Num.geb. rewrite leb_of_Z by assumption.
  destruct (Z.leb_spec p r) as [L|L].
  - rewrite floor_div_of_Z, rem_of_Z by (assumption || lia).
    rewrite Hm, IH by lia. rewrite Hd, small_numeral by exact Hr.
    assert (1 <= r / p) by (apply Z.div_le_lower_bound; lia).
    destruct (Z.eqb_spec (digit n k) 0); [lia|]. rewrite <- app_assoc. reflexivity.
  - assert (digit n k = 0) as -> by (rewrite <- Hd; apply Z.div_small; lia).
    rewrite Z.eqb_refl. rewrite Z.mod_small in Hm by lia. rewrite Hm. apply IH. lia.
Qed.

Lemma sub_breakdown_digits n :
  decimal_table -> 0 <= n < 100000000 -> sub_breakdown tab label value (Num.of_Z n) = Ok (sub_text n).
Proof.
  intros Ht Hn. unfold sub_breakdown, sub_text. change Num.zero with (Num.of_Z 0).
  rewrite eqb_of_Z by (unfold safe, prec; lia). destruct (n =? 0); [reflexivity|].
  pose proof (sub_loop_digits n 8 [] Ht (le_n _)) as HL.
  rewrite Z.mod_small in HL by exact Hn. change (keys_below 8) with subUnits in HL. rewrite HL. reflexivity.
Qed.

Definition value_at (key : string) : result Z := res_bind (unit_at tab key) (fun u => Ok (value u)).

Definition mega_table : Prop :=
  map value_at megaUnits
  = map Ok [100000000000000; 10000000000000; 1000000000000; 100000000000; 10000000000; 1000000000].

Lemma mega_loop_value key keys n :
  mega_loop tab value (key :: keys) n
  = res_bind (value_at key) (fun v =>
      if Num.geb n (Num.floor (Num.div (Num.of_Z v) (Num.of_Z 100000000)))
      then Throw (TypeError "Assignment to constant variable.") else mega_loop tab value keys n).
Proof. unfold value_at. cbn [mega_loop]. destruct (unit_at tab key); reflexivity. Qed.

Lemma mega_loop_spec n :
  mega_table -> 0 <= n -> safe n ->
  mega_loop tab value megaUnits (Num.of_Z n)
  = if n <? 10 then Ok [] else Throw (TypeError "Assignment to constant variable.").
Proof.
  intros Ht Hn Sn. unfold mega_table, megaUnits in *. cbn [map] in Ht.
  injection Ht as T1 T2 T3 T4 T5 T6. rewrite !mega_loop_value, T1, T2, T3, T4, T5, T6. cbn [res_bind].
  unfold Num.geb. rewrite !floor_div_of_Z by (reflexivity || lia).
  repeat match goal with
  | |- context [?v / 100000000] => let x := eval vm_compute in (v / 100000000) in change (v / 100000000) with x
  end.
  rewrite !leb_of_Z by (exact Sn || reflexivity).
  repeat match goal with |- context [?v <=? n] => destruct (Z.leb_spec v n) end;
    destruct (Z.ltb_spec n 10); reflexivity || lia.
Qed.

Lemma smart_breakdown_spec n :
  decimal_table -> mega_table -> 0 <= n < 2 ^ 53 ->
  smart_breakdown tab label value (Num.of_Z n)
  = if n <? 100000000 then Ok (sub_text n)
    else if n <? 1000000000 then Ok (shah_text n)
    else Throw (TypeError "Assignment to constant variable.").
Proof.
  intros Ht Hm Hn. assert (Sn : safe n) by (unfold safe, prec; lia). assert (S8 : safe 100000000) by reflexivity.
  unfold smart_breakdown, mega_breakdown. rewrite !ltb_of_Z by assumption.
  destruct (Z.ltb_spec n 100000000) as [L|L]; [apply sub_breakdown_digits; [exact Ht|lia]|].
  rewrite floor_div_of_Z, rem_of_Z by (assumption || lia).
  pose proof (Z.div_mod n 100000000 ltac:(lia)). pose proof (Z.mod_pos_bound n 100000000 ltac:(lia)).
  set (q := n / 100000000) in *. set (r := n mod 100000000) in *.
  assert (Sq : safe q) by (unfold safe, prec; lia). assert (Sr : safe r) by (unfold safe, prec; lia).
  rewrite mega_loop_spec by (assumption || lia).
  destruct (Z.ltb_spec n 1000000000) as [L1|L1], (Z.ltb_spec q 10); try lia; [|reflexivity]. cbn [res_bind].
  unfold Num.gtb. change Num.zero with (Num.of_Z 0). rewrite !ltb_of_Z by (assumption || reflexivity).
  destruct (Z.ltb_spec 0 q); [|lia]. unfold shah_text. fold q r.
  rewrite small_grouped by lia. cbn [app].
  destruct (Z.ltb_spec 0 r) as [P|P], (Z.eqb_spec r 0) as [E|E]; try lia; [|reflexivity].
  rewrite sub_breakdown_digits by (exact Ht || lia). reflexivity.
Qed.

End Tables.

Lemma units_decimal : decimal_table units displayName shahiValue.
Proof.
  intros k Hk. do 8 (destruct k as [|k]; [eexists; split; [reflexivity|split; reflexivity]|]). lia.
Qed.

Lemma units_mega : mega_table units shahiValue.
Proof. reflexivity. Qed.

Lemma digits_sum n : 0 <= n < 100000000 -> n = fold_right (fun k acc => digit n k * 10 ^ Z.of_nat k + acc) 0 (seq 0 8).
Proof.
  intros Hn.
  assert (G : forall k, n mod 10 ^ Z.of_nat (S k) = n mod 10 ^ Z.of_nat k + digit n k * 10 ^ Z.of_nat k).
  { intros k. destruct (digit_step n k) as (H1 & H2 & _).
    assert (0 < 10 ^ Z.of_nat k) by (apply Z.pow_pos_nonneg; lia).
    pose proof (Z.div_mod (n mod 10 ^ Z.of_nat (S k)) (10 ^ Z.of_nat k) ltac:(lia)). lia. }
  rewrite <- (Z.mod_small n (10 ^ Z.of_nat 8)) at 1 by (cbn; lia).
  rewrite !G. cbn [seq fold_right]. rewrite Z.pow_0_r, Z.mod_1_r. lia.
Qed.

(** ** Theorems *)



(** With the default tooltip the component renders exactly the amounts
    below ten SHAH, in every display mode and with smart units on or off:
    any larger balance makes rendering throw. *)
Theorem render_only_below_ten_SHAH s n :
  0 <= n < 2 ^ 53 ->
  ((exists shown, render s (Num.of_Z n) true = Ok shown) <-> n < 1000000000).
Proof.
  intros Hn. pose proof (smart_breakdown_spec units displayName shahiValue n units_decimal units_mega Hn) as HS.
  change (smart_breakdown units displayName shahiValue (Num.of_Z n)) with (getSmartUnitBreakdown (Num.of_Z n)) in HS.
  unfold render, formatBalance, createTooltip, getUSDEquivalent.
  change (Num.leb Num.zero Num.zero) with true. cbv iota. rewrite HS.
  destruct (Z.ltb_spec n 100000000); [|destruct (Z.ltb_spec n 1000000000)]; cbn [res_bind].
  1,2: split; [lia|intros _]; destruct (smartUnitEnabled s);
    repeat (destruct (currentDisplayMode s =? _)%string; [eexists; reflexivity|]); eexists; reflexivity.
  split; [|lia]. intros [shown E]. exfalso.
  destruct (smartUnitEnabled s); [|discriminate E].
  repeat (destruct (currentDisplayMode s =? _)%string; [discriminate E|]). discriminate E.
Qed.

Lemma render_only_below_ten_SHAH_witness :
  exists shown, render (initial_state None) (Num.of_Z 999999999) true = Ok shown.
Proof. apply (render_only_below_ten_SHAH (initial_state None) 999999999); lia. Defined.

(** The full display is exact: for every amount up to the money supply
    the text is the amount in SHAH with all of its eight decimals, although
    the division by [10^8] is rounded to a binary fraction. *)
Theorem full_value_exact n :
  0 <= n < 2 ^ 51 -> getFullSHAHValue (Num.of_Z n) = (decimal n 8 ++ " SHAH")%string.
Proof.
  intros Hn. unfold getFullSHAHValue, full_value. change 100000000 with (10 ^ Z.of_nat 8).
  rewrite to_fixed_div by lia. reflexivity.
Qed.

Lemma full_value_exact_witness :
  getFullSHAHValue (Num.of_Z 2099999999999999) = "20999999.99999999 SHAH"%string.
Proof. rewrite (full_value_exact 2099999999999999) by lia. vm_compute. reflexivity. Defined.

(** A breakdown below one SHAH loses nothing: the digits it names, each
    times its unit, add up to the amount, and each is below ten. *)
Theorem sub_units_add_up n :
  0 <= n < 100000000 ->
  getSubUnitBreakdown (Num.of_Z n) = Ok (sub_text n)
  /\ n = fold_right (fun k acc => digit n k * 10 ^ Z.of_nat k + acc) 0 (seq 0 8)
  /\ (forall k, 0 <= digit n k <= 9).
Proof.
  intros Hn. split; [apply sub_breakdown_digits; [exact units_decimal|exact Hn]|].
  split; [apply digits_sum, Hn|]. intros k. apply digit_step.
Qed.

Lemma sub_units_add_up_witness :
  getSubUnitBreakdown (Num.of_Z 1540000) = Ok "1 Shahcent + 5 Zarrin Shah + 4 Simin Shah"%string.
Proof. rewrite (proj1 (sub_units_add_up 1540000 ltac:(lia))). vm_compute. reflexivity. Defined.

(** The examples of the unit explorer against the code: the first is what
    the code shows; the second names Simin and Mesin Shah where the code
    shows Zarrin and Simin Shah; the SHAH examples throw. *)
Theorem explorer_examples_checked :
  map (fun n => getSmartUnitBreakdown (Num.of_Z n))
    [110; 1540000; 1000 * 100000000; 10000 * 100000000; 1000000 * 100000000]
  = [Ok "1 Micro Shah + 1 Nano Shah"; Ok "1 Shahcent + 5 Zarrin Shah + 4 Simin Shah";
     Throw (TypeError "Assignment to constant variable.");
     Throw (TypeError "Assignment to constant variable.");
     Throw (TypeError "Assignment to constant variable.")]%string
  /\ nth 1 explorer_examples EmptyString
     = "1,540,000 Shahi → 1 Shahcent + 5 Simin Shah + 4 Mesin Shah"%string.
Proof. split; vm_compute; reflexivity. Qed.
