(* ===== verification/SmartUnitsTelegram.v ===== *)
(** * Smart units in the Telegram mini app

    [SmartUnitDisplayTelegramMiniApp] of
    src/telegram/SmartUnitDisplayTelegramMiniApp.js: the display settings of
    the mini app, kept in [localStorage], and the balance element that cycles
    through the display modes when clicked.  [localStorage], the DOM and the
    Telegram client are the environment; console output is left out. *)

From Stdlib Require Import ZArith Bool Lia List String Ascii.
From S2P Require Import Prelude JsNum JsNumFacts JsVal JsMonad JsFormat JsJson SmartUnits.
Import ListNotations.
Local Open Scope string_scope.

Module SmartUnitDisplayTelegramMiniApp.

Record tg_unit : Type := TgUnit { tg_name : string; tg_icon : string; tg_value : Z; tg_color : string }.

Definition units : list (string * tg_unit) :=
  [("shahi", TgUnit "Shahi" "●" 1 "#6c757d");
   ("nano", TgUnit "Nano Shah" "⚡" 10 "#007bff");
   ("micro", TgUnit "Micro Shah" "✨" 100 "#6f42c1");
   ("mesin", TgUnit "Mesin Shah" "🔶" 1000 "#fd7e14");
   ("simin", TgUnit "Simin Shah" "⚪" 10000 "#20c997");
   ("zarrin", TgUnit "Zarrin Shah" "🟡" 100000 "#ffc107");
   ("shahcent", TgUnit "Shahcent" "💎" 1000000 "#dc3545");
   ("daric", TgUnit "Daric Shah" "🏛️" 10000000 "#28a745");
   ("shah", TgUnit "SHAH" "🪙" 100000000 "#17a2b8");
   ("meta", TgUnit "Meta Shah" "🔷" 1000000000 "#6f42c1");
   ("beta", TgUnit "Beta Shah" "🟠" 10000000000 "#fd7e14");
   ("sigma", TgUnit "Sigma Shah" "⚙️" 100000000000 "#20c997");
   ("mega", TgUnit "Mega Shah" "🌟" 1000000000000 "#ffc107");
   ("giga", TgUnit "Giga Shah" "🔵" 10000000000000 "#dc3545");
   ("alpha", TgUnit "Alpha Shah" "💠" 100000000000000 "#28a745")].

Record t : Type := Build {
  smartUnitEnabled : bool;
  currentDisplayMode : jsval;
  usdPrice : num
}.

(** The fields as the constructor sets them before [initialize]. *)
Definition fresh : t := Build true (VStr "smart") Num.zero.

Definition set_enabled (b : bool) (s : t) : t := Build b (currentDisplayMode s) (usdPrice s).
Definition set_mode (m : jsval) (s : t) : t := Build (smartUnitEnabled s) m (usdPrice s).

Definition getSubUnitBreakdown : num -> result string := sub_breakdown units tg_name tg_value.
Definition getMegaUnitBreakdown : num -> result string := mega_breakdown units tg_name tg_value.
Definition getSmartUnitBreakdown : num -> result string := smart_breakdown units tg_name tg_value.
Definition getFullSHAHValue (shahiAmount : num) : string := full_value shahiAmount.

Definition getUSDEquivalent (this : t) (shahiAmount : num) : result string :=
  if Num.leb (usdPrice this) Num.zero
  then res_bind (getSmartUnitBreakdown shahiAmount) (fun s => Ok (s ++ " (USD price not available)"))
  else Ok (usd_value shahiAmount (usdPrice this)).

Definition formatBalance (this : t) (shahiAmount : num) : result string :=
  let mode := currentDisplayMode this in
  if is_str mode "full" then Ok (getFullSHAHValue shahiAmount)
  else if is_str mode "smart" then getSmartUnitBreakdown shahiAmount
  else if is_str mode "usd" then getUSDEquivalent this shahiAmount
  else getSmartUnitBreakdown shahiAmount.

(** The text a balance element shows. *)
Definition balance_text (this : t) (shahiAmount : num) : result string :=
  if smartUnitEnabled this then formatBalance this shahiAmount else Ok (getFullSHAHValue shahiAmount).

Definition modes : list string := ["smart"; "full"; "usd"].

(** [modes[(modes.indexOf(mode) + 1) % modes.length]]. *)
Definition next_mode (mode : jsval) : string :=
  if is_str mode "smart" then "full" else if is_str mode "full" then "usd" else "smart".

Definition settings_key : jsval := VStr "shahcoin_smart_unit_settings".

Definition settings_of (this : t) : jsval :=
  VObj [("smartUnitEnabled", VBool (smartUnitEnabled this)); ("displayMode", currentDisplayMode this)].

Section Methods.
Context `{Env}.
Abbreviation JS := (JS t).

Definition saveSettings : JS unit :=
  try_catch
    (let* settings := read settings_of in
     ext "localStorage.setItem" [settings_key; stringify settings] ;;; ret tt)
    (fun _ => ret tt).

Definition loadSettings : JS unit :=
  try_catch
    (let* stored := ext "localStorage.getItem" [settings_key] in
     let* settings := lift (json_parse (to_str (js_or stored (VStr "{}")))) in
     let* enabled := lift (get settings "smartUnitEnabled") in
     modify (set_enabled (negb (strict_eq enabled (VBool false)))) ;;;
     let* mode := lift (get settings "displayMode") in
     modify (set_mode (js_or mode (VStr "smart"))))
    (fun _ => ret tt).

Definition cycleDisplayMode : JS unit :=
  let* mode := read currentDisplayMode in
  modify (set_mode (VStr (next_mode mode))) ;;; saveSettings.

Definition toggleSmartUnit : JS unit :=
  modify (fun s => set_enabled (negb (smartUnitEnabled s)) s) ;;; saveSettings.

(** The listener of the settings checkbox. *)
Definition onCheckbox (checked : bool) : JS unit :=
  modify (set_enabled checked) ;;; saveSettings.

Definition set_prop (el : jsval) (prop : string) (v : jsval) : JS unit :=
  ext "Element.set" [el; VStr prop; v] ;;; ret tt.

Definition createBalanceElement (shahiAmount : num) : JS jsval :=
  let* this := read id in
  let* displayText := lift (balance_text this shahiAmount) in
  let* element := ext "document.createElement" [VStr "span"] in
  set_prop element "className" (VStr "smart-unit-display") ;;;
  set_prop element "textContent" (VStr displayText) ;;;
  let* smart := lift (getSmartUnitBreakdown shahiAmount) in
  set_prop element "title"
    (VStr ("Smart: " ++ smart ++ newline ++ "Full: " ++ getFullSHAHValue shahiAmount)) ;;;
  ext "Element.addEventListener" [element; VStr "click"] ;;;
  ret element.

(** The click listener of a balance element. *)
Definition onBalanceClick (element : jsval) (shahiAmount : num) : JS unit :=
  cycleDisplayMode ;;;
  let* this := read id in
  let* text := lift (balance_text this shahiAmount) in
  set_prop element "textContent" (VStr text).

Definition explorer_message : string :=
  "🔎 SHAH Unit Explorer" ++ newline ++ newline ++
  "📊 Sub-Units (Below 1 SHAH):" ++ newline ++
  "● Shahi = 1 Shahi" ++ newline ++
  "⚡ Nano Shah = 10 Shahi" ++ newline ++
  "✨ Micro Shah = 100 Shahi" ++ newline ++
  "🔶 Mesin Shah = 1,000 Shahi" ++ newline ++
  "⚪ Simin Shah = 10,000 Shahi" ++ newline ++
  "🟡 Zarrin Shah = 100,000 Shahi" ++ newline ++
  "💎 Shahcent = 1,000,000 Shahi" ++ newline ++
  "🏛️ Daric Shah = 10,000,000 Shahi" ++ newline ++ newline ++
  "📈 Mega-Units (Above 1 SHAH):" ++ newline ++
  "🪙 SHAH = 100,000,000 Shahi" ++ newline ++
  "🔷 Meta Shah = 10 SHAH" ++ newline ++
  "🟠 Beta Shah = 100 SHAH" ++ newline ++
  "⚙️ Sigma Shah = 1,000 SHAH" ++ newline ++
  "🌟 Mega Shah = 10,000 SHAH" ++ newline ++
  "🔵 Giga Shah = 100,000 SHAH" ++ newline ++
  "💠 Alpha Shah = 1,000,000 SHAH".

Definition showUnitExplorer : JS unit :=
  let* telegram := ext "window.Telegram" [] in
  let* webApp := if truthy telegram then lift (get telegram "WebApp") else ret VUndef in
  (if truthy webApp then ext "Telegram.WebApp.showAlert" [VStr explorer_message]
   else ext "alert" [VStr explorer_message]) ;;;
  ret tt.

Definition append (parent child : jsval) : JS unit :=
  ext "Node.appendChild" [parent; child] ;;; ret tt.

Definition createSettingsWidget : JS jsval :=
  let* container := ext "document.createElement" [VStr "div"] in
  set_prop container "className" (VStr "smart-unit-settings") ;;;
  let* toggleLabel := ext "document.createElement" [VStr "h4"] in
  set_prop toggleLabel "textContent" (VStr "🧠 Smart Unit Display") ;;;
  append container toggleLabel ;;;
  let* toggleSwitch := ext "document.createElement" [VStr "label"] in
  set_prop toggleSwitch "className" (VStr "toggle-switch") ;;;
  let* toggleInput := ext "document.createElement" [VStr "input"] in
  set_prop toggleInput "type" (VStr "checkbox") ;;;
  let* enabled := read smartUnitEnabled in
  set_prop toggleInput "checked" (VBool enabled) ;;;
  ext "Element.addEventListener" [toggleInput; VStr "change"] ;;;
  let* slider := ext "document.createElement" [VStr "span"] in
  set_prop slider "className" (VStr "slider") ;;;
  let* label := ext "document.createElement" [VStr "span"] in
  set_prop label "className" (VStr "label") ;;;
  set_prop label "textContent" (VStr "Enable Smart Unit Mode") ;;;
  append toggleSwitch toggleInput ;;;
  append toggleSwitch slider ;;;
  append toggleSwitch label ;;;
  append container toggleSwitch ;;;
  let* explorerButton := ext "document.createElement" [VStr "button"] in
  set_prop explorerButton "className" (VStr "unit-explorer-btn") ;;;
  set_prop explorerButton "textContent" (VStr "🔎 SHAH Unit Explorer") ;;;
  ext "Element.addEventListener" [explorerButton; VStr "click"] ;;;
  append container explorerButton ;;;
  ret container.

(** The style sheet is an argument: nothing depends on its text. *)
Definition addStyles (css : string) : JS unit :=
  let* present := ext "document.getElementById" [VStr "smart-unit-display-styles"] in
  if truthy present then ret tt
  else
    let* style := ext "document.createElement" [VStr "style"] in
    set_prop style "id" (VStr "smart-unit-display-styles") ;;;
    set_prop style "textContent" (VStr css) ;;;
    ext "document.head.appendChild" [style] ;;; ret tt.

Definition initialize (css : string) : JS unit := loadSettings ;;; addStyles css.

End Methods.

(** ** Facts *)

Lemma tg_units_decimal : decimal_table units tg_name tg_value.
Proof.
  intros k Hk. do 8 (destruct k as [|k]; [eexists; split; [reflexivity|split; reflexivity]|]). lia.
Qed.

Lemma tg_units_mega : mega_table units tg_value.
Proof. reflexivity. Qed.

(** The documented behaviour of [localStorage]: a write succeeds and the next
    read of the key returns the text written. *)
Class StorageLaws `{Env} : Prop := {
  storage_set t k v : reply t "localStorage.setItem" [VStr k; v] = Ok VUndef;
  storage_get t k v :
    reply (Ev "localStorage.setItem" [VStr k; v] (Ok VUndef) :: t) "localStorage.getItem" [VStr k] = Ok v
}.

Definition settings_text (b : bool) (m : string) : string :=
  String "{" (json_quote "smartUnitEnabled" ++ (if b then ":true," else ":false,") ++
    json_quote "displayMode" ++ String ":" (json_quote m ++ "}")).

Lemma settings_stringify b m p : stringify (settings_of (Build b (VStr m) p)) = VStr (settings_text b m).
Proof.
  unfold stringify, settings_of. cbn [json smartUnitEnabled currentDisplayMode flat_map app join].
  unfold settings_text. generalize (json_quote "smartUnitEnabled") (json_quote "displayMode") (json_quote m).
  intros k1 k2 v. destruct b; cbn [app join]; rewrite !append_assoc; reflexivity.
Qed.

Lemma parse_key k f (rest : string) :
  (String.length (json_escape k ++ String dquote rest) <= f)%nat ->
  parse_string f (json_escape k ++ String dquote rest) = Some (k, rest).
Proof.
  intros Hf. apply parse_string_escape. pose proof (json_escape_length k).
  rewrite length_append in Hf. cbn [String.length] in Hf. lia.
Qed.

(** The members of an object, one at a time. *)
Lemma parse_member f k rest acc :
  parse_members (S f) (json_quote k ++ String ":" rest) acc
  = match parse_value f rest with
    | None => None
    | Some (v, r3) =>
        match skip_ws r3 with
        | String "," r4 => parse_members f r4 (obj_set k v acc)
        | String "}" r4 => Some (VObj (obj_set k v acc), r4)
        | _ => None
        end
    end.
Proof.
  unfold json_quote. cbn [String.append]. rewrite append_assoc. cbn [String.append parse_members skip_ws].
  change (json_space dquote) with false. cbv iota. change (Ascii.eqb dquote dquote) with true. cbv iota.
  rewrite parse_key by reflexivity. reflexivity.
Qed.

Lemma settings_parse b m :
  json_parse (settings_text b m) = Ok (VObj [("smartUnitEnabled", VBool b); ("displayMode", VStr m)]).
Proof.
  assert (Hv : forall g r, parse_value (S g) (json_quote m ++ r) = Some (VStr m, r)).
  { intros g r. unfold json_quote. cbn [String.append]. rewrite append_assoc.
    cbn [String.append parse_value skip_ws]. change (json_space dquote) with false. cbv iota.
    change (Ascii.eqb dquote dquote) with true. cbv iota. rewrite parse_key by reflexivity. reflexivity. }
  assert (Hm : forall g, parse_value (S (S (S (S g)))) (settings_text b m)
      = Some (VObj [("smartUnitEnabled", VBool b); ("displayMode", VStr m)], EmptyString)).
  { intros g. unfold settings_text. set (q := json_quote "smartUnitEnabled").
    transitivity (parse_members (S (S (S g))) (json_quote "smartUnitEnabled" ++ (if b then ":true," else ":false,") ++
      json_quote "displayMode" ++ String ":" (json_quote m ++ "}")) []); [reflexivity|].
    transitivity (parse_members (S (S g)) (json_quote "displayMode" ++ String ":" (json_quote m ++ "}"))
      [("smartUnitEnabled", VBool b)]).
    - destruct b; cbn [String.append]; rewrite parse_member; reflexivity.
    - rewrite parse_member, Hv. reflexivity. }
  unfold json_parse.
  assert (Hf : exists f, (2 * String.length (settings_text b m) + 2 = S (S (S (S f))))%nat).
  { exists (2 * String.length (settings_text b m) - 2)%nat. unfold settings_text. cbn [String.length]. lia. }
  destruct Hf as [f ->]. rewrite Hm. reflexivity.
Qed.

Section Invariants.
Context `{Env}.

(** What the user and the page do to the settings. *)
Inductive app_step : t * trace -> t * trace -> Prop :=
  | step_load s tr r s' tr' : loadSettings s tr = (r, s', tr') -> app_step (s, tr) (s', tr')
  | step_toggle s tr r s' tr' : toggleSmartUnit s tr = (r, s', tr') -> app_step (s, tr) (s', tr')
  | step_checkbox b s tr r s' tr' : onCheckbox b s tr = (r, s', tr') -> app_step (s, tr) (s', tr')
  | step_click el n s tr r s' tr' : onBalanceClick el n s tr = (r, s', tr') -> app_step (s, tr) (s', tr').

Definition keeps_price {A} (m : JS t A) : Prop :=
  forall s tr, wp m (fun _ s' _ => usdPrice s' = usdPrice s) (fun _ s' _ => usdPrice s' = usdPrice s) s tr.

Lemma keeps_price_run {A} (m : JS t A) s tr r s' tr' :
  keeps_price m -> m s tr = (r, s', tr') -> usdPrice s' = usdPrice s.
Proof. intros K E. specialize (K s tr). unfold wp in K. rewrite E in K. destruct r; exact K. Qed.

Lemma app_step_price s tr s' tr' : app_step (s, tr) (s', tr') -> usdPrice s' = usdPrice s.
Proof.
  intros St. inversion St; subst;
    match goal with E : _ = (_, s', tr') |- _ => apply keeps_price_run with (2 := E) end; intros ? ?;
    unfold loadSettings, toggleSmartUnit, onCheckbox, onBalanceClick, cycleDisplayMode, saveSettings, set_prop;
    wp_auto; reflexivity.
Qed.

End Invariants.

Lemma smart_total n : (0 <= n < 1000000000)%Z -> exists txt, getSmartUnitBreakdown (Num.of_Z n) = Ok txt.
Proof.
  intros Hn. unfold getSmartUnitBreakdown.
  rewrite (smart_breakdown_spec units tg_name tg_value n tg_units_decimal tg_units_mega) by lia.
  destruct (Z.ltb_spec n 100000000); [|destruct (Z.ltb_spec n 1000000000); [|lia]]; eauto.
Qed.

(** A browser whose storage keeps the last text written. *)
Definition last_written (k : jsval) : trace -> result jsval :=
  fix go tr :=
    match tr with
    | [] => Ok VNull
    | Ev op args _ :: tr' =>
        match args with
        | [k'; v] => if (op =? "localStorage.setItem") && strict_eq k k' then Ok v else go tr'
        | _ => go tr'
        end
    end.

Definition browser : Env := {|
  reply := fun tr op args =>
    if op =? "localStorage.getItem"
    then match args with [VStr k] => last_written (VStr k) tr | _ => Ok VNull end
    else Ok VUndef;
  clock := fun _ => Num.zero;
  random := fun _ => Num.zero |}.

(** ** Theorems *)

(** The settings survive a reload: with a [localStorage] that keeps what
    is written, loading after saving restores the switch and the display
    mode, for any mode text. *)
Theorem telegram_settings_survive `{StorageLaws} b m p tr :
  m <> EmptyString ->
  wp saveSettings
    (fun _ s1 tr1 => s1 = Build b (VStr m) p
       /\ forall s0, wp loadSettings (fun _ s2 _ => s2 = Build b (VStr m) (usdPrice s0)) (fun _ _ _ => False) s0 tr1)
    (fun _ _ _ => False) (Build b (VStr m) p) tr.
Proof.
  intros Hm. unfold saveSettings. do 3 wp_step. rewrite settings_stringify. wp_step.
  apply wp_ext; intros w Hw; unfold settings_key in *; rewrite storage_set in Hw; [injection Hw as <-|discriminate Hw].
  apply wp_ret. split; [reflexivity|]. intros s0. unfold loadSettings. do 2 wp_step.
  apply wp_ext; intros x Hx; rewrite storage_get in Hx; [injection Hx as <-|discriminate Hx].
  change (to_str (js_or (VStr (settings_text b m)) (VStr "{}"))) with (settings_text b m).
  rewrite settings_parse. repeat wp_step.
  all: repeat match goal with E : _ = Ok _ |- _ => injection E as <- | E : _ = Throw _ |- _ => discriminate E end.
  all: try match goal with E : get _ _ = _ |- _ => (injection E as <- || discriminate E) end.
  change (js_or (obj_get [("smartUnitEnabled", VBool b); ("displayMode", VStr m)] "displayMode") (VStr "smart"))
    with (js_or (VStr m) (VStr "smart")). rewrite js_or_str by exact Hm. destruct b; reflexivity.
Qed.

#[global] Instance browser_storage : @StorageLaws browser.
Proof. constructor; [reflexivity|]. intros t k v. cbn. rewrite String.eqb_refl. reflexivity. Qed.

Lemma telegram_settings_survive_witness :
  wp (saveSettings (H := browser))
    (fun _ _ tr1 => wp (loadSettings (H := browser)) (fun _ s2 _ => s2 = Build false (VStr "usd") Num.zero)
       (fun _ _ _ => False) fresh tr1)
    (fun _ _ _ => False) (Build false (VStr "usd") Num.zero) [].
Proof.
  eapply wp_mono; [..|apply (telegram_settings_survive (H := browser) false "usd" Num.zero [])]; cbn beta.
  - intros _ s1 tr1 (_ & L). exact (L fresh).
  - auto.
  - discriminate.
Defined.

(** Clicking a balance three times shows every mode once and returns to
    the mode it started from; a setting the page does not know becomes the
    smart mode at the first click. *)
Theorem telegram_modes_cycle `{Env} s tr :
  wp cycleDisplayMode
    (fun _ s1 tr1 => exists m, In m modes /\ currentDisplayMode s1 = VStr m
       /\ smartUnitEnabled s1 = smartUnitEnabled s
       /\ wp (cycleDisplayMode ;;; cycleDisplayMode ;;; cycleDisplayMode)
            (fun _ s4 _ => s4 = s1) (fun _ _ _ => False) s1 tr1)
    (fun _ _ _ => False) s tr.
Proof.
  assert (C : forall s tr, wp cycleDisplayMode
     (fun _ s' _ => s' = set_mode (VStr (next_mode (currentDisplayMode s))) s) (fun _ _ _ => False) s tr).
  { intros s0 tr0. unfold cycleDisplayMode, saveSettings. wp_auto; reflexivity. }
  eapply wp_mono; [..|apply C]; cbn beta; [|auto]. intros _ s1 tr1 ->.
  assert (M : In (next_mode (currentDisplayMode s)) modes).
  { unfold next_mode, modes. repeat case_goal; cbn; auto. }
  exists (next_mode (currentDisplayMode s)). split; [exact M|]. split; [reflexivity|]. split; [reflexivity|].
  wp_step. eapply wp_mono; [..|apply C]; cbn beta; [|auto]. intros _ s2 tr2 ->.
  wp_step. eapply wp_mono; [..|apply C]; cbn beta; [|auto]. intros _ s3 tr3 ->.
  eapply wp_mono; [..|apply C]; cbn beta; [|auto]. intros _ s4 tr4 ->.
  cbn [currentDisplayMode set_mode]. destruct M as [<-|[<-|[<-|[]]]]; reflexivity.
Qed.

(** The mini app never shows a USD value: nothing sets the price, so in
    every state the page reaches the USD mode shows the smart breakdown
    followed by a note that the price is not available. *)
Theorem telegram_usd_never_available `{Env} tr s' tr' n :
  steps app_step (fresh, tr) (s', tr') ->
  getUSDEquivalent s' n
  = res_bind (getSmartUnitBreakdown n) (fun txt => Ok (txt ++ " (USD price not available)")).
Proof.
  intros Hs. assert (P : usdPrice s' = Num.zero).
  { apply (steps_invariant app_step (fun x => usdPrice (fst x) = Num.zero)) with (2 := Hs); [|reflexivity].
    intros [s1 t1] [s2 t2] I St. apply app_step_price in St. cbn in *. congruence. }
  unfold getUSDEquivalent. rewrite P. reflexivity.
Qed.

Definition after_click (x : t * trace) : t * trace :=
  let '(_, s', tr') := onBalanceClick (H := browser) VUndef Num.zero (fst x) (snd x) in (s', tr').

Lemma after_click_step x : app_step (H := browser) x (after_click x).
Proof.
  destruct x as [s tr]. unfold after_click. cbn [fst snd].
  destruct (onBalanceClick VUndef Num.zero s tr) as [[r s'] tr'] eqn:E. exact (step_click _ _ _ _ _ _ _ E).
Qed.

Lemma telegram_usd_never_available_witness :
  let x := after_click (after_click (fresh, [])) in
  currentDisplayMode (fst x) = VStr "usd"
  /\ getUSDEquivalent (fst x) (Num.of_Z 110) = Ok "1 Micro Shah + 1 Nano Shah (USD price not available)".
Proof.
  intros x. split; [vm_compute; reflexivity|].
  rewrite (telegram_usd_never_available (H := browser) [] (fst x) (snd x)); [vm_compute; reflexivity|].
  replace (fst x, snd x) with x by (destruct x; reflexivity).
  exact (steps_more _ _ _ _ (steps_one _ _ _ (after_click_step _)) (after_click_step _)).
Defined.

(** A balance element can be made exactly for the amounts below ten SHAH,
    whatever the settings: above, making it throws although the text itself
    may have been formatted. *)
Theorem telegram_balance_below_ten_SHAH `{Env} n s tr :
  (forall tr op args, exists v, reply tr op args = Ok v) -> (0 <= n < 2 ^ 53)%Z ->
  wp (createBalanceElement (Num.of_Z n))
    (fun _ s' _ => s' = s /\ (n < 1000000000)%Z)
    (fun e s' _ => s' = s /\ (1000000000 <= n)%Z /\ e = TypeError "Assignment to constant variable.") s tr.
Proof.
  intros Henv Hn.
  pose proof (smart_breakdown_spec units tg_name tg_value n tg_units_decimal tg_units_mega Hn) as HS.
  change (smart_breakdown units tg_name tg_value (Num.of_Z n)) with (getSmartUnitBreakdown (Num.of_Z n)) in HS.
  assert (HT : forall e, getSmartUnitBreakdown (Num.of_Z n) = Throw e ->
             (1000000000 <= n)%Z /\ e = TypeError "Assignment to constant variable.").
  { intros e. rewrite HS. destruct (Z.ltb_spec n 100000000), (Z.ltb_spec n 1000000000); try discriminate; try lia.
    intros [= <-]. auto. }
  assert (HO : forall x, getSmartUnitBreakdown (Num.of_Z n) = Ok x -> (n < 1000000000)%Z).
  { intros x. rewrite HS. destruct (Z.ltb_spec n 100000000), (Z.ltb_spec n 1000000000); try discriminate; lia. }
  assert (HB : forall e, balance_text s (Num.of_Z n) = Throw e ->
             (1000000000 <= n)%Z /\ e = TypeError "Assignment to constant variable.").
  { intros e. unfold balance_text, formatBalance, getUSDEquivalent.
    destruct (getSmartUnitBreakdown (Num.of_Z n)) eqn:E; cbn [res_bind]; repeat case_goal; try discriminate;
      intros [= <-]; auto. }
  assert (HE : forall tr op args e, reply tr op args = Throw e -> False)
    by (intros ? ? ? ? E; destruct (Henv tr0 op args); congruence).
  unfold createBalanceElement, set_prop. wp_auto; eauto; exfalso; eauto.
Qed.

Lemma telegram_balance_below_ten_SHAH_witness :
  wp (createBalanceElement (H := browser) (Num.of_Z 1000000000)) (fun _ _ _ => False) (fun _ _ _ => True) fresh [].
Proof.
  eapply wp_mono; [..|apply (telegram_balance_below_ten_SHAH (H := browser) 1000000000)]; cbn beta.
  - intros ? ? ? [_ ?]. lia.
  - auto.
  - intros tr op args. cbn. unfold last_written. destruct (op =? _); [|eauto].
    destruct args as [|[] []]; eauto.
    induction tr as [|[op' args' r] tr IH]; [eauto|].
    destruct args' as [|k' [|v []]]; auto. destruct (_ && _)%bool; eauto.
  - lia.
Defined.

End SmartUnitDisplayTelegramMiniApp.
