(* ===== verification/SmartUnitViews.v ===== *)
(** * The smart unit page

    The markup of src/web/components/SmartUnitDisplay.jsx: the amount with
    its tooltip, the unit explorer, and the settings, which the component
    defines but does not render.  The texts and the handlers are those of
    SmartUnits. *)

From Stdlib Require Import ZArith Bool List String.
From S2P Require Import Prelude JsNum JsVal JsFormat JsMonad Machine Jsx SmartUnits.
Import ListNotations.
Local Open Scope string_scope.

Notation page := (html event).

(** ** The explorer *)

Definition unit_item (u : unit_def) (valueText : string) : page :=
  let tint := prop "style" (VObj [("color", VStr (color u))]) in
  el "div" [cls "unit-item"] [
    el "span" [cls "unit-icon"; tint] [txt (icon u)];
    el "span" [cls "unit-name"; tint] [txt (displayName u)];
    el "span" [cls "unit-value"] [txt valueText];
    el "span" [cls "unit-description"] [txt (description u)]].

Definition sub_item (key : string) : page :=
  res_bind (unit_at units key) (fun u => res_bind (explorer_sub_row key) (fun '(_, value) => unit_item u value)).
Definition mega_item (key : string) : page :=
  res_bind (unit_at units key) (fun u => res_bind (explorer_mega_row key) (fun '(_, value) => unit_item u value)).

Definition unit_section (title : string) (keys : list string) (item : string -> page) : page :=
  el "div" [cls "unit-section"] [el "h3" [] [txt title]; el "div" [cls "unit-grid"] [each keys (fun _ k => item k)]].

Definition UnitExplorerDialog (s : state) : page :=
  el "div" [cls ("unit-explorer-overlay " ++ (if showUnitExplorer s then "show" else EmptyString))] [
    el "div" [cls "unit-explorer-dialog"] [
      el "div" [cls "dialog-header"] [
        el "h2" [] [txt "🔎 SHAH Unit Explorer"];
        el "button" [cls "close-btn"; onClick [CloseExplorer]] [txt "×"]];
      el "div" [cls "dialog-content"] [
        unit_section "Sub-Units (Below 1 SHAH)" ["shahi"; "nano"; "micro"; "mesin"; "simin"; "zarrin"; "shahcent"; "daric"] sub_item;
        unit_section "Mega-Units (Above 1 SHAH)" ["shah"; "meta"; "beta"; "sigma"; "mega"; "giga"; "alpha"] mega_item;
        el "div" [cls "unit-section"] [
          el "h3" [] [txt "Examples"];
          el "div" [cls "examples-list"] [each explorer_examples (fun _ example => el "div" [cls "example-item"] [txt example])]]]]].

(** ** The settings *)

Definition mode_option (value label : string) : page := el "option" [prop "value" (VStr value)] [txt label].

Definition SettingsWidget (s : state) : page :=
  el "div" [cls "smart-unit-settings"] [
    el "div" [cls "setting-group"] [
      el "h4" [] [txt "🧠 Smart Unit Display"];
      el "label" [cls "toggle-switch"] [
        el "input" [prop "type" (VStr "checkbox"); prop "checked" (VBool (smartUnitEnabled s)); onChange (fun v => ToggleSmart (truthy v))] [];
        el "span" [cls "slider"] [];
        el "span" [cls "label"] [txt "Enable Smart Unit Mode"]]];
    el "div" [cls "setting-group"] [
      el "h4" [] [txt "Display Mode"];
      el "select" [prop "value" (VStr (currentDisplayMode s)); onChange (fun v => SelectMode (to_str v)); cls "display-mode-select"] [
        mode_option "smart" "Smart Unit Mode"; mode_option "full" "Full SHAH Value"; mode_option "usd" "USD Equivalent"]];
    el "button" [cls "unit-explorer-btn"; onClick [OpenExplorer]] [txt "🔎 SHAH Unit Explorer"]].

(** ** The component *)

Definition SmartUnitDisplay (s : state) (shahiAmount : num) (showTooltip : bool) (className : string) : page :=
  res_bind (render s shahiAmount showTooltip) (fun '(displayText, title) =>
  fragment [el "span" [cls ("smart-unit-display " ++ className); prop "title" (VStr title)] [txt displayText]; UnitExplorerDialog s]).

Definition view_run (acts : list event) : JS state unit := for_each acts (fun e => modify (handle e)).

Definition view_enabled (shahiAmount : num) (showTooltip : bool) (className : string) (acts : list event) (s : state) : Prop :=
  exists ns, SmartUnitDisplay s shahiAmount showTooltip className = Ok ns /\ offered Bubbling ns acts.

(** ** Facts *)

Lemma explorer_shown s : outcome (UnitExplorerDialog s) = None.
Proof. destruct s as [? ? []]; reflexivity. Qed.

Lemma section_hears title keys item : (forall k, passive (item k)) -> hears Bubbling [] (unit_section title keys item) [].
Proof. intros I. apply hears_passive. red. unfold unit_section. throughout ltac:(reflexivity); apply I. Qed.

Lemma item_passive u value : passive (unit_item u value).
Proof. red. unfold unit_item. throughout ltac:(reflexivity). Qed.

Lemma explorer_hears s : hears Bubbling [] (UnitExplorerDialog s) [Clicked [CloseExplorer]].
Proof.
  assert (forall (row : string -> result (string * string)) k, passive (res_bind (unit_at units k) (fun u => res_bind (row k) (fun '(_, value) => unit_item u value)))) as I.
  { intros row k. red. apply throughout_bind. intros u. apply throughout_bind. intros [_ value]. apply item_passive. }
  pose proof (section_hears "Sub-Units (Below 1 SHAH)" ["shahi"; "nano"; "micro"; "mesin"; "simin"; "zarrin"; "shahcent"; "daric"] sub_item (I explorer_sub_row)) as S.
  pose proof (section_hears "Mega-Units (Above 1 SHAH)" ["shah"; "meta"; "beta"; "sigma"; "mega"; "giga"; "alpha"] mega_item (I explorer_mega_row)) as M.
  assert (hears (A := event) Bubbling [] (each explorer_examples (fun _ example => el "div" [cls "example-item"] [txt example])) []) as X.
  { apply hears_passive. red. throughout ltac:(reflexivity). }
  pose proof (button_hears "close-btn" [CloseExplorer] "×") as C. eapply hears_iff; [unfold UnitExplorerDialog; boxes|listed].
Qed.

Lemma display_hears s shahiAmount showTooltip className :
  hears Bubbling [] (SmartUnitDisplay s shahiAmount showTooltip className) [Clicked [CloseExplorer]].
Proof.
  unfold SmartUnitDisplay. apply hears_bind. intros [text title] _. pose proof (explorer_hears s) as X.
  eapply hears_iff; [boxes|listed].
Qed.

(** ** Theorem *)

(** The page has one control, and it does nothing: along every run of the
    component through its own controls the state is the initial one, since
    the settings are not on the page and the explorer, which is, can only be
    closed; the page can be shown just when its text and its tooltip can be
    written. *)
Theorem unit_display_unchanged displayMode shahiAmount showTooltip className s t :
  steps (machine_step view_run (view_enabled shahiAmount showTooltip className)) (initial_state displayMode, []) (s, t) ->
  s = initial_state displayMode /\
  ((exists ns, SmartUnitDisplay s shahiAmount showTooltip className = Ok ns) <-> (exists shown, render s shahiAmount showTooltip = Ok shown)) /\
  (forall ns acts, SmartUnitDisplay s shahiAmount showTooltip className = Ok ns -> offered Bubbling ns acts <-> acts = [CloseExplorer]).
Proof.
  intros St.
  assert (forall s ns acts, SmartUnitDisplay s shahiAmount showTooltip className = Ok ns -> offered Bubbling ns acts <-> acts = [CloseExplorer]) as O.
  { intros s' ns acts E. rewrite (hears_offered _ _ _ _ _ (display_hears s' shahiAmount showTooltip className) E). cbn.
    split; [intros (_ & e & [<-|[]] & P); exact P|intros ->; split; [discriminate|exists (Clicked [CloseExplorer]); cbn; auto]]. }
  split; [|split; [|exact (O s)]].
  - refine (machine_invariant _ _ (fun s _ => s = initial_state displayMode) _ _ _ _ _ St eq_refl).
    intros acts s' t' (ns & E & K) ->. apply (O _ _ _ E) in K. subst acts. reflexivity.
  - unfold SmartUnitDisplay. destruct (render s shahiAmount showTooltip) as [[text title]|e]; [|split; intros [x E]; discriminate E].
    split; [eauto|]. intros _. apply outcome_shown. cbn [res_bind]. rewrite !outcome_cons, outcome_el, explorer_shown. reflexivity.
Qed.

Lemma unit_display_unchanged_witness :
  let amount := Num.of_Z 110 in
  steps (machine_step view_run (view_enabled amount true EmptyString)) (initial_state None, []) (initial_state None, []) /\
  exists ns, SmartUnitDisplay (initial_state None) amount true EmptyString = Ok ns /\ offered Bubbling ns [CloseExplorer].
Proof.
  intros amount.
  assert (exists ns, SmartUnitDisplay (initial_state None) amount true EmptyString = Ok ns) as [ns E] by (vm_compute; eauto).
  destruct (unit_display_unchanged None amount true EmptyString (initial_state None) [] (steps_none _ _)) as (_ & _ & O).
  pose proof (proj2 (O ns [CloseExplorer] E) eq_refl) as K. split; [|exists ns; auto].
  change (steps (machine_step view_run (view_enabled amount true EmptyString)) (initial_state None, []) (play view_run [[CloseExplorer]] (initial_state None, []))).
  apply play_steps. cbn. split; [exists ns; auto|exact I].
Defined.
