(* ===== verification/Security.v ===== *)
(** * SHAH Security

    The risk engine of src/shah-security (signals, score, scanners), the URL
    and contract checks of src/web/components/SHAHSecurity.js and their
    Telegram copy (src/telegram/SHAHSecurityTelegramMiniApp.js).  The URL
    parser of the platform is a parameter; [fetch] and the dialogs of the
    Telegram client are the environment. *)

From Stdlib Require Import ZArith Bool Lia List String Ascii.
From Stdlib Require Import Floats.SpecFloat.
From S2P Require Import Prelude JsNum JsNumFacts JsVal JsMonad JsFormat.
Import ListNotations.
Local Open Scope string_scope.

(** ** The regular expressions of the rules *)

Definition line_terminator (c : ascii) : bool :=
  let n := nat_of_ascii c in ((n =? 10) || (n =? 13))%nat.

(** [/l1.*l2.*l3/] anchored at the start: the literals in order, with
    anything but a line end between them. *)
Fixpoint match_here (ls : list string) : string -> bool :=
  match ls with
  | [] => fun _ => true
  | [l] => fun s => startsWith s l
  | l :: ls' => fun s =>
      startsWith s l &&
      (fix gap (s : string) : bool :=
         match_here ls' s ||
         match s with
         | EmptyString => false
         | String c s' => negb (line_terminator c) && gap s'
         end) (drop_string (String.length l) s)
  end.

Fixpoint search (ls : list string) (s : string) : bool :=
  match_here ls s || match s with EmptyString => false | String _ s' => search ls s' end.

(** [/shah\b/]. *)
Fixpoint search_shah_boundary (s : string) : bool :=
  (startsWith s "shah" &&
   match drop_string 4 s with EmptyString => true | String c _ => negb (is_word c) end) ||
  match s with EmptyString => false | String _ s' => search_shah_boundary s' end.

Definition any (words : list string) (s : string) : bool := existsb (includes s) words.

(** ** Risk signals (engine/aiRules.ts) *)

Record RiskSignal : Type := Signal { id : string; label : string; weight : num; reason : string }.

Inductive input_type : Type := wallet | token | nft | url.

Definition type_string (x : input_type) : string :=
  match x with wallet => "wallet" | token => "token" | nft => "nft" | url => "url" end.

(** [metadata] is [undefined] when the optional property is left out. *)
Record AnalyzedInput : Type := Input { type : input_type; value : string; metadata : jsval }.

Record URL : Type := Url { hostname : string; pathname : string }.

Definition impersonation : RiskSignal :=
  Signal "impersonation" "Impersonation risk" (Num.dec 5 1) "Uses SHAH brand without verification".
Definition promo_bait : RiskSignal :=
  Signal "promo-bait" "Promotional bait" (Num.dec 4 1) "Suspicious promo wording".
Definition phishing_pattern : RiskSignal :=
  Signal "phishing-pattern" "Phishing pattern" (Num.dec 7 1) "Known phishing phrase".
Definition suspicious_domain (host : string) : RiskSignal :=
  Signal "suspicious-domain" "Suspicious domain" (Num.dec 6 1) ("Host looks suspicious: " ++ host).
Definition large_dumps : RiskSignal :=
  Signal "large-dumps" "Large dumps" (Num.dec 6 1) "Detected large dumps".
Definition centralized : RiskSignal :=
  Signal "centralized" "Centralized supply" (Num.dec 5 1) "Supply concentrated in few wallets".
Definition missing_meta : RiskSignal :=
  Signal "missing-meta" "Missing metadata" (Num.dec 3 1) "Token/NFT lacks proper metadata".

Definition signal_if (b : bool) (s : RiskSignal) : list RiskSignal := if b then [s] else [].

Section Engine.
(** [new URL(text)]; [None] when it throws. *)
Context (parse_url : string -> option URL).

Definition lower_field (expr : string) (v : jsval) : result string :=
  res_bind (as_string expr "toLowerCase" (js_or v (VStr EmptyString))) (fun s => Ok (toLowerCase s)).

Definition naming_signals (input : AnalyzedInput) : result (list RiskSignal) :=
  match type input with
  | token | nft =>
      res_bind (lower_field "(input.metadata?.name || '')" (get_opt (metadata input) "name")) (fun name =>
      res_bind (lower_field "(input.metadata?.symbol || '')" (get_opt (metadata input) "symbol")) (fun symbol =>
      Ok (signal_if ((includes name "shahcoin" || search_shah_boundary name || includes symbol "shah")
                     && negb (truthy (get_opt (metadata input) "isOfficial"))) impersonation ++
          signal_if (any ["airdrop"; "free"; "claim"; "pump"] name) promo_bait)%list))
  | wallet | url => Ok []
  end.

Definition phishing_patterns : list (list string) :=
  [["airdrop"]; ["free"; "mint"]; ["claim"; "shah"]; ["connect"; "wallet"; "now"]; ["verify"; "seed"]].

Definition url_signals (input : AnalyzedInput) : list RiskSignal :=
  match type input with
  | url =>
      let v := toLowerCase (value input) in
      (signal_if (existsb (fun p => search p v) phishing_patterns) phishing_pattern ++
       match parse_url (value input) with
       | None => []
       | Some u =>
           let host := toLowerCase (hostname u) in
           signal_if (any ["shahco1n"; "shahc0in"; "airdrop"; "free"; "claim"] host) (suspicious_domain host)
       end)%list
  | _ => []
  end.

Definition metadata_signals (input : AnalyzedInput) : list RiskSignal :=
  let flag k := truthy (get_opt (metadata input) k) in
  (signal_if (flag "largeDumps") large_dumps ++
   signal_if (flag "centralizedSupply") centralized ++
   signal_if (flag "missingMetadata") missing_meta)%list.

Definition evaluateSignals (input : AnalyzedInput) : result (list RiskSignal) :=
  res_bind (naming_signals input) (fun naming =>
  Ok (naming ++ url_signals input ++ metadata_signals input)%list).

(** ** The score (engine/score.ts) *)

Inductive badge : Type := safe | caution | risky.

Record SecurityScore : Type := Score {
  score : num; score_badge : badge; tooltip : string; signals : list RiskSignal }.

Definition newline : string := String "010" EmptyString.

Definition buildTooltip (input : AnalyzedInput) (score : num) (signals : list RiskSignal) : string :=
  join newline
    (("Type: " ++ type_string (type input)) ::
     ("Score: " ++ Num.to_string score ++ "/100") ::
     map (fun s => "• " ++ label s ++ ": " ++ reason s) signals).

Definition totalWeight (signals : list RiskSignal) : num :=
  fold_left (fun acc x => Num.add acc (weight x)) signals Num.zero.

Definition score_value (total : num) (trusted blacklisted : bool) : num :=
  let s := Num.add (Num.of_Z 10) (Num.min (Num.of_Z 80) (Num.round (Num.mul total (Num.of_Z 100)))) in
  let s := if trusted then Num.max Num.zero (Num.sub s (Num.of_Z 40)) else s in
  let s := if blacklisted then Num.min (Num.of_Z 100) (Num.add s (Num.of_Z 40)) else s in
  Num.max Num.zero (Num.min (Num.of_Z 100) s).

Definition badge_of (s : num) : badge :=
  if Num.leb s (Num.of_Z 25) then safe else if Num.leb s (Num.of_Z 60) then caution else risky.

Definition trusted (input : AnalyzedInput) : bool :=
  truthy (get_opt (metadata input) "isOfficial") || truthy (get_opt (metadata input) "isTrusted").
Definition blacklisted (input : AnalyzedInput) : bool := truthy (get_opt (metadata input) "onBlacklist").

Definition SHAHSecurityScore (input : AnalyzedInput) : result SecurityScore :=
  res_bind (evaluateSignals input) (fun sigs =>
  let s := score_value (totalWeight sigs) (trusted input) (blacklisted input) in
  Ok (Score s (badge_of s) (buildTooltip input s sigs) sigs)).

(** ** Scanners *)

(** [meta] and [rep] default to the empty object. *)
Definition analyzeContract (address : string) (meta : list (string * jsval)) (kind : input_type) : AnalyzedInput :=
  let md := if truthy (obj_get meta "metadataUrl") then obj_set "url" (obj_get meta "metadataUrl") meta else meta in
  Input kind address (VObj md).

Definition analyzeWallet (address : string) (rep : list (string * jsval)) : AnalyzedInput :=
  let md := if truthy (obj_get rep "onBlacklist") || truthy (obj_get rep "rugpullHistory")
               || truthy (obj_get rep "drainingTxs")
            then obj_set "onBlacklist" (VBool true) rep else rep in
  let md := if truthy (obj_get rep "spamNfts") then obj_set "spam" (VBool true) md else md in
  Input wallet address (VObj md).

Definition default_allowlist : list string := ["shah.vip"; "app.shah.vip"].
Definition default_blocklist : list string :=
  ["shahco1n.com"; "shahc0in.com"; "shahcoin-airdrop.com"; "free-shah.vip"; "claim-shah.vip"].

Definition analyzeUrl (text : string) (allowlist blocklist : option (list string)) : AnalyzedInput :=
  let md := match parse_url text with
            | None => []
            | Some u => [("host", VStr (toLowerCase (hostname u))); ("path", VStr (pathname u))]
            end in
  let allow := match allowlist with Some l => l | None => default_allowlist end in
  let block := match blocklist with Some l => l | None => default_blocklist end in
  let host := match parse_url text with None => EmptyString | Some u => toLowerCase (toLowerCase (hostname u)) end in
  let md := if mem_string host block then obj_set "onBlacklist" (VBool true) md else md in
  let md := if existsb (endsWith host) allow then obj_set "isTrusted" (VBool true) md else md in
  Input url text (VObj md).

(** ** URL and contract checks (SHAHSecurity.js) *)

Inductive url_status : Type := Safe | Phishing | Unknown | Invalid.

Definition status_text (x : url_status) : string :=
  match x with Safe => "safe" | Phishing => "phishing" | Unknown => "unknown" | Invalid => "invalid" end.

Record url_check : Type := Check { status : url_status; check_reason : string; check_host : string }.

Definition checkUrlSafety (text : string) : url_check :=
  match parse_url text with
  | None => Check Invalid "parse_error" EmptyString
  | Some u =>
      let host := toLowerCase (hostname u) in
      if existsb (endsWith host) default_allowlist then Check Safe "allowlist" host
      else if mem_string host default_blocklist then Check Phishing "blocklist" host
      else
        let full := toLowerCase text in
        if existsb (fun p => search p full) phishing_patterns then Check Phishing "pattern" host
        else Check Unknown "no_match" host
  end.

Inductive risk_level : Type := VERIFIED | LOW | MEDIUM | HIGH | UNKNOWN.

Definition risk_text (r : risk_level) : string :=
  match r with VERIFIED => "verified" | LOW => "low" | MEDIUM => "medium" | HIGH => "high" | UNKNOWN => "unknown" end.

(** Icon, color and label. *)
Definition getRiskBadge (risk : string) : string * string * string :=
  if risk =? risk_text VERIFIED then ("✅", "#28a745", "Verified")
  else if risk =? risk_text LOW then ("🟢", "#2ecc71", "Low")
  else if risk =? risk_text MEDIUM then ("🟡", "#f1c40f", "Medium")
  else if risk =? risk_text HIGH then ("🔴", "#e74c3c", "High")
  else ("⚪", "#95a5a6", "Unknown").

(** [list.some(x => (x.address || '').toLowerCase() === a)]. *)
Fixpoint some_address (l : list jsval) (a : string) : result bool :=
  match l with
  | [] => Ok false
  | x :: l' =>
      res_bind (get x "address") (fun address =>
      res_bind (lower_field "(x.address || '')" address) (fun b =>
      if b =? a then Ok true else some_address l' a))
  end.

Definition listed (registry : jsval) (k a : string) : result bool :=
  res_bind (get registry k) (fun l =>
  res_bind (as_array ("(registry." ++ k ++ " || [])") "some" (js_or l (VArr []))) (fun l =>
  some_address l a)).

Definition isOfficialContract (address registry : jsval) : result bool :=
  res_bind (lower_field "(address || '')" address) (fun a =>
  if truthy registry then listed registry "official" a else Ok false).

Definition isTrustedContract (address registry : jsval) : result bool :=
  res_bind (lower_field "(address || '')" address) (fun a =>
  if truthy registry then
    res_bind (listed registry "trusted" a) (fun b =>
    if b then Ok true else isOfficialContract (VStr a) registry)
  else Ok false).

Definition shouldAutoBlock (urlStatus riskLevel : string) (userPrefs : jsval) : bool :=
  if negb (truthy (get_opt userPrefs "autoBlock")) then false
  else if urlStatus =? status_text Phishing then true
  else riskLevel =? risk_text HIGH.

Section Effects.
Context `{Env} {S : Type}.

Definition fetchJson (target : jsval) : JS S jsval :=
  try_catch
    (let* res := fetch [target; VObj [("cache", VStr "no-cache")]] in
     let* ok := lift (get res "ok") in
     if truthy ok then response_json res else throw (Error "Network error"))
    (fun _ => ret VNull).

Definition loadLocalRegistry : JS S jsval := ret VNull.

(** *** The Telegram copy *)

Definition tg_checkUrlSafety (text : string) : url_check := checkUrlSafety text.

Definition showAlert (message : string) : JS S unit :=
  let* telegram := ext "window.Telegram" [] in
  let* webApp := if truthy telegram then lift (get telegram "WebApp") else ret VUndef in
  (if truthy webApp then ext "Telegram.WebApp.showAlert" [VStr message]
   else ext "alert" [VStr message]) ;;;
  ret tt.

Definition warnBeforeOpen (text : string) : JS S jsval :=
  let result := tg_checkUrlSafety text in
  match status result with
  | Phishing =>
      showAlert ("⚠️ Dangerous URL detected: " ++ check_host result ++ newline ++ "Opening blocked.") ;;;
      ret (VBool false)
  | Unknown => ext "confirm" [VStr ("This link is not verified. Proceed?" ++ newline ++ text)]
  | Safe | Invalid => ret (VBool true)
  end.

End Effects.
End Engine.

(** ** Facts *)

(** Nothing but line ends is skipped over by [.*]. *)
Definition one_line (s : string) : Prop := forall u c v, s = u ++ String c v -> line_terminator c = false.

Lemma one_line_cons c s : one_line (String c s) <-> line_terminator c = false /\ one_line s.
Proof.
  split.
  - intros H. split; [exact (H EmptyString c s eq_refl)|]. intros u d v ->. exact (H (String c u) d v eq_refl).
  - intros [Hc Hs] [|d u] e v [= <- E]; [congruence|exact (Hs _ _ _ E)].
Qed.

Lemma match_here_cons l l2 ls s :
  match_here (l :: l2 :: ls) s = true <->
  exists gap rest, s = l ++ gap ++ rest /\ one_line gap /\ match_here (l2 :: ls) rest = true.
Proof.
  set (go := fix gap (s : string) : bool := match_here (l2 :: ls) s ||
         match s with EmptyString => false | String c s' => negb (line_terminator c) && gap s' end).
  assert (G : forall x, go x = true <->
            exists gap rest, x = gap ++ rest /\ one_line gap /\ match_here (l2 :: ls) rest = true).
  { induction x as [|c x IH]; unfold go; fold go; rewrite orb_true_iff.
    - split.
      + intros [M|[=]]. exists EmptyString, EmptyString. split; [reflexivity|]. split; [|exact M].
        intros [|] ? ? [=].
      + intros ([|] & r & E & _ & M); [left; cbn in E; rewrite E; exact M|discriminate E].
    - rewrite andb_true_iff, negb_true_iff, IH. split.
      + intros [M|(Hc & g & r & -> & Hg & M)].
        * exists EmptyString, (String c x). split; [reflexivity|]. split; [|exact M]. intros [|] ? ? [=].
        * exists (String c g), r. split; [reflexivity|]. split; [apply one_line_cons; auto|exact M].
      + intros ([|d g] & r & E & Hg & M); [left; cbn in E; rewrite E; exact M|].
        injection E as -> ->. apply one_line_cons in Hg as [Hc Hg]. right. split; [exact Hc|]. eauto. }
  change (match_here (l :: l2 :: ls) s) with (startsWith s l && go (drop_string (String.length l) s)).
  rewrite andb_true_iff, G. unfold startsWith. rewrite prefix_spec. split.
  - intros [[v ->] (g & r & E & Hg & M)]. exists g, r. rewrite drop_length_append in E. subst v. auto.
  - intros (g & r & -> & Hg & M). split; [eauto|]. exists g, r. rewrite drop_length_append. auto.
Qed.

Lemma match_here_one l s : match_here [l] s = true <-> exists rest, s = l ++ rest.
Proof. apply prefix_spec. Qed.

Lemma search_spec ls s : search ls s = true <-> exists u v, s = u ++ v /\ match_here ls v = true.
Proof.
  induction s as [|c s IH]; unfold search; fold search; rewrite orb_true_iff.
  - split; [intros [M|[=]]; exists EmptyString, EmptyString; auto|].
    intros ([|] & v & E & M); [cbn in E; subst; auto|discriminate E].
  - rewrite IH. split.
    + intros [M|(u & v & -> & M)]; [exists EmptyString, (String c s)|exists (String c u), v]; auto.
    + intros ([|d u] & v & E & M); [left; cbn in E; rewrite E; exact M|]. injection E as -> ->. eauto.
Qed.

(** *** Scores *)

Definition weights_if (b : bool) (w : num) : list num := if b then [w] else [].

(** The weights a set of rules contributes, in the order of the code. *)
Definition rule_weights (b1 b2 b3 b4 b5 b6 b7 : bool) : list num :=
  (weights_if b1 (Num.dec 5 1) ++ weights_if b2 (Num.dec 4 1) ++ weights_if b3 (Num.dec 7 1) ++
   weights_if b4 (Num.dec 6 1) ++ weights_if b5 (Num.dec 6 1) ++ weights_if b6 (Num.dec 5 1) ++
   weights_if b7 (Num.dec 3 1))%list.

Lemma signals_weights parse input sigs :
  evaluateSignals parse input = Ok sigs ->
  exists b1 b2 b3 b4 b5 b6 b7, map weight sigs = rule_weights b1 b2 b3 b4 b5 b6 b7.
Proof.
  unfold evaluateSignals. destruct (naming_signals input) as [nm|] eqn:En; cbn [res_bind]; [|discriminate].
  intros [= <-].
  assert (Hn : exists b1 b2, map weight nm = (weights_if b1 (Num.dec 5 1) ++ weights_if b2 (Num.dec 4 1))%list).
  { unfold naming_signals in En. destruct (type input).
    2,3: destruct (lower_field _ _); cbn [res_bind] in En; [|discriminate];
      destruct (lower_field _ _); cbn [res_bind] in En; [|discriminate]; injection En as <-;
      do 2 eexists; rewrite map_app; f_equal;
      match goal with |- map weight (signal_if ?b _) = _ => instantiate (1 := b); destruct b; reflexivity end.
    all: injection En as <-; exists false, false; reflexivity. }
  assert (Hu : exists b3 b4, map weight (url_signals parse input) = (weights_if b3 (Num.dec 7 1) ++ weights_if b4 (Num.dec 6 1))%list).
  { unfold url_signals. destruct (type input); try (exists false, false; reflexivity).
    destruct (parse (value input)) as [u|].
    - do 2 eexists; rewrite map_app; f_equal;
      match goal with |- map weight (signal_if ?b _) = _ => instantiate (1 := b); destruct b; reflexivity end.
    - eexists. exists false. rewrite map_app. f_equal;
      match goal with |- map weight (signal_if ?b _) = _ => instantiate (1 := b); destruct b; reflexivity end. }
  destruct Hn as (b1 & b2 & Hn), Hu as (b3 & b4 & Hu). exists b1, b2, b3, b4.
  exists (truthy (get_opt (metadata input) "largeDumps")), (truthy (get_opt (metadata input) "centralizedSupply")),
    (truthy (get_opt (metadata input) "missingMetadata")).
  rewrite !map_app, Hn, Hu. unfold rule_weights, metadata_signals. cbv zeta. rewrite !map_app, <- !app_assoc.
  do 3 (destruct (truthy _)); reflexivity.
Qed.

Lemma totalWeight_weights sigs : totalWeight sigs = fold_left Num.add (map weight sigs) Num.zero.
Proof.
  unfold totalWeight. generalize Num.zero. induction sigs as [|x l IH]; intros acc; [reflexivity|]. apply IH.
Qed.

Definition bools : list bool := [true; false].

(** What the score promises, as a check on one number. *)
Definition score_ok (trusted blacklisted : bool) (s : num) : bool :=
  existsb (fun z => same_num s (Num.of_Z z)
                    && (negb blacklisted || (40 <=? z)%Z) && (negb (trusted && negb blacklisted) || (z <=? 50)%Z))
    (map Z.of_nat (seq 0 101)).

Lemma all_scores_ok :
  forallb (fun b1 => forallb (fun b2 => forallb (fun b3 => forallb (fun b4 => forallb (fun b5 =>
  forallb (fun b6 => forallb (fun b7 => forallb (fun tr => forallb (fun bl =>
    score_ok tr bl (score_value (fold_left Num.add (rule_weights b1 b2 b3 b4 b5 b6 b7) Num.zero) tr bl))
  bools) bools) bools) bools) bools) bools) bools) bools) bools = true.
Proof. vm_compute. reflexivity. Qed.

Lemma forallb_bools (f : bool -> bool) : forallb f bools = true -> forall b, f b = true.
Proof. cbn. rewrite !andb_true_iff. intros (H1 & H2 & _) []; assumption. Qed.

Lemma score_value_ok b1 b2 b3 b4 b5 b6 b7 tr bl :
  score_ok tr bl (score_value (fold_left Num.add (rule_weights b1 b2 b3 b4 b5 b6 b7) Num.zero) tr bl) = true.
Proof.
  pose proof all_scores_ok as H.
  apply forallb_bools with (b := b1) in H. apply forallb_bools with (b := b2) in H.
  apply forallb_bools with (b := b3) in H. apply forallb_bools with (b := b4) in H.
  apply forallb_bools with (b := b5) in H. apply forallb_bools with (b := b6) in H.
  apply forallb_bools with (b := b7) in H. apply forallb_bools with (b := tr) in H.
  apply forallb_bools with (b := bl) in H. exact H.
Qed.

(** The badge of a whole score. *)
Definition badge_at (z : Z) : badge := (if z <=? 25 then safe else if z <=? 60 then caution else risky)%Z.

Lemma badge_of_at z : (0 <= z <= 100)%Z -> badge_of (Num.of_Z z) = badge_at z.
Proof. intros Hz. unfold badge_of, badge_at. rewrite !leb_of_Z by (unfold JsNumFacts.safe, prec; lia). reflexivity. Qed.

(** ** Theorems *)

(** C29: every score the engine returns is a whole number from 0 to 100 and
    the badge is its band; a blacklisted input scores at least 40, so it is
    never shown as safe, even when it is also trusted; a trusted input that
    is not blacklisted scores at most 50, so it is never shown as risky. *)
Theorem security_score_sound parse input r :
  SHAHSecurityScore parse input = Ok r ->
  exists z, score r = Num.of_Z z /\ (0 <= z <= 100)%Z /\ score_badge r = badge_at z
    /\ (blacklisted input = true -> (40 <= z)%Z /\ score_badge r <> safe)
    /\ (trusted input = true -> blacklisted input = false -> (z <= 50)%Z /\ score_badge r <> risky).
Proof.
  unfold SHAHSecurityScore. destruct (evaluateSignals parse input) as [sigs|] eqn:E; cbn [res_bind]; [|discriminate].
  intros [= <-]. cbn [score score_badge].
  apply signals_weights in E as (b1 & b2 & b3 & b4 & b5 & b6 & b7 & Hw). rewrite totalWeight_weights, Hw.
  pose proof (score_value_ok b1 b2 b3 b4 b5 b6 b7 (trusted input) (blacklisted input)) as H.
  apply existsb_exists in H as (z & Hz & H). apply in_map_iff in Hz as (k & <- & Hk). apply in_seq in Hk.
  apply andb_true_iff in H as [H H3]. apply andb_true_iff in H as [H1 H2]. apply same_num_eq in H1. rewrite H1.
  exists (Z.of_nat k). split; [reflexivity|]. split; [lia|]. rewrite badge_of_at by lia. split; [reflexivity|].
  unfold badge_at. split; [intros Hb; rewrite Hb in H2|intros Ht Hb; rewrite Ht, Hb in H3]; cbn in *;
    apply Z.leb_le in H2 || apply Z.leb_le in H3; split; try assumption;
    destruct (Z.leb_spec (Z.of_nat k) 25), (Z.leb_spec (Z.of_nat k) 60); congruence || lia.
Qed.

(** A parser for the witnesses: the whole text is the host. *)
Definition bare_host (text : string) : option URL := Some (Url text "/").

Lemma security_score_sound_witness :
  exists r, SHAHSecurityScore bare_host (analyzeUrl bare_host "free-shah.vip" None None) = Ok r
  /\ score_badge r <> safe.
Proof.
  eexists. split; [vm_compute; reflexivity|].
  destruct (security_score_sound bare_host (analyzeUrl bare_host "free-shah.vip" None None) _ eq_refl)
    as (z & _ & _ & _ & Hb & _). exact (proj2 (Hb eq_refl)).
Defined.

(** The URL check, decided: an unparsable link is invalid; a host that
    ends in [shah.vip] is safe; otherwise a blocklisted host or a text with
    the words of a phishing pattern, in order on one line, is phishing; all
    else is unknown. *)
Theorem url_check_decided (parse : string -> option URL) text :
  let found := exists p pre post, In p phishing_patterns /\ toLowerCase text = pre ++ post /\ match_here p post = true in
  match parse text with
  | None => status (checkUrlSafety parse text) = Invalid
  | Some u =>
      let host := toLowerCase (hostname u) in
      let official := exists p, host = p ++ "shah.vip" in
      (status (checkUrlSafety parse text) = Safe <-> official)
      /\ (status (checkUrlSafety parse text) = Phishing <-> ~ official /\ (In host default_blocklist \/ found))
      /\ status (checkUrlSafety parse text) <> Invalid
  end.
Proof.
  intros found. unfold checkUrlSafety. destruct (parse text) as [u|]; [|reflexivity]. cbv zeta.
  set (host := toLowerCase (hostname u)). set (official := exists p, host = p ++ "shah.vip").
  assert (Ho : existsb (endsWith host) default_allowlist = true <-> official).
  { unfold official. rewrite <- endsWith_spec. cbn [existsb default_allowlist].
    rewrite !orb_true_iff. split; [|auto]. intros [A|[A|[=]]]; [exact A|].
    apply endsWith_spec in A as [p ->]. apply endsWith_spec. exists (p ++ "app."). rewrite append_assoc. reflexivity. }
  assert (Hf : existsb (fun p => search p (toLowerCase text)) phishing_patterns = true <-> found).
  { unfold found. rewrite existsb_exists. split.
    - intros (p & Hp & M). apply search_spec in M as (a & b & E & M). eauto 8.
    - intros (p & a & b & Hp & E & M). exists p. split; [exact Hp|]. apply search_spec. eauto. }
  pose proof (mem_string_In host default_blocklist) as Hb.
  destruct (existsb (endsWith host) default_allowlist), (mem_string host default_blocklist),
    (existsb _ phishing_patterns); cbn [status]; intuition (congruence || discriminate).
Qed.

(** The allow list opens every host whose name ends in [shah.vip],
    whoever owns it: the link is classed as safe and opened without a
    question, and this includes two hosts of the block list. *)
Theorem lookalike_hosts_open `{Env} {S : Type} parse text u prefix (s : S) t :
  parse text = Some u -> toLowerCase (hostname u) = prefix ++ "shah.vip" ->
  checkUrlSafety parse text = Check Safe "allowlist" (prefix ++ "shah.vip")
  /\ warnBeforeOpen parse text s t = (Ok (VBool true), s, t)
  /\ In ("free-" ++ "shah.vip") default_blocklist /\ In ("claim-" ++ "shah.vip") default_blocklist.
Proof.
  intros Hp Hh.
  assert (C : checkUrlSafety parse text = Check Safe "allowlist" (prefix ++ "shah.vip")).
  { unfold checkUrlSafety. rewrite Hp, Hh.
    assert (endsWith (prefix ++ "shah.vip") "shah.vip" = true) as A by (apply endsWith_spec; eauto).
    cbn [existsb default_allowlist]. rewrite A. reflexivity. }
  split; [exact C|]. unfold warnBeforeOpen, tg_checkUrlSafety. rewrite C.
  split; [reflexivity|]. cbn. auto 8.
Qed.

Lemma lookalike_hosts_open_witness :
  checkUrlSafety bare_host "claim-shah.vip" = Check Safe "allowlist" "claim-shah.vip".
Proof.
  exact (proj1 (lookalike_hosts_open (H := Build_Env (fun _ _ _ => Ok VUndef) (fun _ => Num.zero) (fun _ => Num.zero))
    bare_host "claim-shah.vip" (Url "claim-shah.vip" "/") "claim-" tt [] eq_refl eq_refl)).
Defined.

(** A link classed as phishing is never opened: the guard warns and
    answers false whatever the client does, or the warning itself throws; an
    unknown link is opened only on the answer of the user. *)
Theorem phishing_never_opens `{Env} {S : Type} parse text (s : S) t :
  wp (warnBeforeOpen parse text)
    (fun v s' t' => s' = s
       /\ (status (checkUrlSafety parse text) = Phishing -> v = VBool false)
       /\ (status (checkUrlSafety parse text) = Unknown ->
           exists q, t' = Ev "confirm" [q] (Ok v) :: t))
    (fun _ s' _ => s' = s /\ status (checkUrlSafety parse text) <> Safe
                   /\ status (checkUrlSafety parse text) <> Invalid) s t.
Proof.
  unfold warnBeforeOpen, tg_checkUrlSafety, showAlert.
  destruct (status (checkUrlSafety parse text)); wp_auto; intuition (eauto; discriminate).
Qed.
