(* ===== verification/Metadata.v ===== *)
(** * Metadata standards and badges

    src/sdk-core/smart-contract-toolkit/metadata-standards.js: the metadata
    of SHI-20 tokens and SHI-30 NFTs, its validation, the badge shown for it
    in the Qt wallet, the web app and Telegram, and the metadata store.

    The store keeps references: what [getMetadata] returns is the stored
    object itself, so the model has an explicit heap. *)

From Stdlib Require Import ZArith Bool Lia List String Ascii.
From S2P Require Import Prelude JsNum JsVal JsMonad Payments Session Solidity.
Import ListNotations.
Local Open Scope string_scope.

(** ** Schema *)

Record standard_def : Type := Standard { std_standard : string; std_type : string; std_version : string }.

Definition SHI_20_standard : standard_def := Standard "shahcoin.token.standard.v1" "SHI-20" "1.0.0".
Definition SHI_30_standard : standard_def := Standard "shahcoin.nft.standard.v1" "SHI-30" "1.0.0".
Definition METADATA_STANDARDS : list standard_def := [SHI_20_standard; SHI_30_standard].

Definition requiredFields : list string := ["standard"; "type"; "name"; "createdBy"; "verified"].

Definition props_ok (metadata : jsval) : result (list string) :=
  res_bind (get metadata "standard") (fun _ =>
  Ok (filter (fun field => negb (truthy (get_opt metadata field))) requiredFields)).

Definition validateMetadata (metadata : jsval) : result bool :=
  res_bind (props_ok metadata) (fun missingFields =>
  match missingFields with
  | _ :: _ => Throw (Error ("Missing required metadata fields: " ++ join ", " missingFields))
  | [] =>
      if negb (existsb (fun s => is_str (get_opt metadata "standard") (std_standard s)) METADATA_STANDARDS)
      then Throw (Error ("Invalid standard: " ++ to_str (get_opt metadata "standard")))
      else if negb (existsb (fun s => is_str (get_opt metadata "type") (std_type s)) METADATA_STANDARDS)
      then Throw (Error ("Invalid type: " ++ to_str (get_opt metadata "type")))
      else Ok true
  end).

(** ** Badges *)

Inductive badge : Type := SHI_20 | SHI_30 | VERIFIED | UNKNOWN.

Record badge_def : Type := Badge {
  icon : string; iconCode : string; label : string; tooltip : string; color : string; bgColor : string }.

Definition BADGE_DEFINITIONS (b : badge) : badge_def :=
  match b with
  | SHI_20 => Badge "🪙" "&#x1FA99;" "Official Shahcoin Token (SHI-20)"
                "Created via ShahFactory - Official Shahcoin Standard" "#6B7280" "#F3F4F6"
  | SHI_30 => Badge "💎" "&#x1F48E;" "Official Shahcoin NFT (SHI-30)"
                "Created via ShahFactory - Official Shahcoin Standard" "#F59E0B" "#FEF3C7"
  | VERIFIED => Badge "✅" "&#x2705;" "Verified by SHAH Admin Team"
                  "This asset has been verified by the Shahcoin Admin Team" "#10B981" "#D1FAE5"
  | UNKNOWN => Badge "❓" "&#x2753;" "Unknown Token" "Token type could not be determined" "#9CA3AF" "#F9FAFB"
  end.

(** The definition as the object the other classes receive. *)
Definition badge_obj (b : badge) : jsval :=
  let d := BADGE_DEFINITIONS b in
  VObj [("icon", VStr (icon d)); ("iconCode", VStr (iconCode d)); ("label", VStr (label d));
        ("tooltip", VStr (tooltip d)); ("color", VStr (color d)); ("bgColor", VStr (bgColor d))].

Definition defined (v : jsval) : bool := match v with VUndef => false | _ => true end.

Definition smartFallbackDetection (metadata : jsval) : badge :=
  let f k := get_opt metadata k in
  if is_str (f "createdBy") "ShahFactory" && (defined (f "decimals") || defined (f "totalSupply")) then SHI_20
  else if is_str (f "createdBy") "ShahFactory" && (truthy (f "attributes") || truthy (f "image")) then SHI_30
  else if defined (f "decimals") && defined (f "totalSupply") then SHI_20
  else if truthy (f "attributes") || truthy (f "image") || truthy (f "description") then SHI_30
  else UNKNOWN.

Definition detectTokenBadge (metadata : jsval) : badge :=
  let f k := get_opt metadata k in
  if negb (truthy metadata) then UNKNOWN
  else if strict_eq (f "verified") (VBool true) then VERIFIED
  else if is_str (f "type") (std_type SHI_20_standard) || is_str (f "standard") (std_standard SHI_20_standard)
  then SHI_20
  else if is_str (f "type") (std_type SHI_30_standard) || is_str (f "standard") (std_standard SHI_30_standard)
  then SHI_30
  else smartFallbackDetection metadata.

Definition size_class (size : string) : string :=
  if size =? "small" then "badge-sm" else if size =? "medium" then "badge-md"
  else if size =? "large" then "badge-lg" else to_str (inherited size).

Definition getBadgeHTML (b : badge) (size : string) : string :=
  let d := BADGE_DEFINITIONS b in
  sol "
      <span class=`shahcoin-badge " ++ size_class size ++ sol "` 
            style=`background-color: " ++ bgColor d ++ "; color: " ++ color d ++ sol ";`
            title=`" ++ tooltip d ++ sol "`>
        <span class=`badge-icon`>" ++ icon d ++ sol "</span>
        <span class=`badge-label`>" ++ label d ++ "</span>
      </span>
    ".

Definition badge_eqb (a b : badge) : bool :=
  match a, b with
  | SHI_20, SHI_20 | SHI_30, SHI_30 | VERIFIED, VERIFIED | UNKNOWN, UNKNOWN => true
  | _, _ => false
  end.

Definition getBadgeCSS (b : badge) : list (string * bool) :=
  [("shahcoin-badge", true); ("badge-shi20", badge_eqb b SHI_20); ("badge-shi30", badge_eqb b SHI_30);
   ("badge-verified", badge_eqb b VERIFIED); ("badge-unknown", badge_eqb b UNKNOWN)].

(** The keys of [iconMap] are computed from objects, so each is the text of
    an object and the last one stays. *)
Definition iconMap : list (string * jsval) :=
  fold_left (fun m '(b, v) => obj_set (to_str (badge_obj b)) (VStr v) m)
    [(SHI_20, ":/icons/token_silver"); (SHI_30, ":/icons/nft_gold");
     (VERIFIED, ":/icons/verified_check"); (UNKNOWN, ":/icons/token_unknown")] [].

Definition getQtIcon (b : badge) : jsval :=
  js_or (obj_get iconMap (to_str (badge_obj b))) (obj_get iconMap (to_str (badge_obj UNKNOWN))).

Definition getQtStyle (b : badge) : string :=
  let d := BADGE_DEFINITIONS b in
  "
      QLabel {
        background-color: " ++ bgColor d ++ ";
        color: " ++ color d ++ ";
        border: 1px solid " ++ color d ++ ";
        border-radius: 4px;
        padding: 2px 6px;
        font-size: 10px;
        font-weight: bold;
      }
    ".

Definition detected (tokenData : jsval) : result badge :=
  res_bind (get tokenData "metadata") (fun md => Ok (detectTokenBadge md)).

Definition getQtTokenBadge (tokenData : jsval) : result jsval :=
  res_bind (detected tokenData) (fun b =>
  let d := BADGE_DEFINITIONS b in
  Ok (VObj [("icon", VStr (icon d)); ("label", VStr (label d)); ("tooltip", VStr (tooltip d));
            ("color", VStr (color d)); ("bgColor", VStr (bgColor d));
            ("qtIcon", getQtIcon b); ("qtStyle", VStr (getQtStyle b))])).

Definition getWebAppTokenBadge (tokenData : jsval) : result jsval :=
  res_bind (detected tokenData) (fun b =>
  Ok (VObj [("html", VStr (getBadgeHTML b "medium"));
            ("css", VObj (map (fun '(k, v) => (k, VBool v)) (getBadgeCSS b)));
            ("data", badge_obj b)])).

Definition getReactBadgeProps (tokenData : jsval) : result jsval :=
  res_bind (detected tokenData) (fun b =>
  let d := BADGE_DEFINITIONS b in
  Ok (VObj [("icon", VStr (icon d)); ("label", VStr (label d)); ("tooltip", VStr (tooltip d));
            ("color", VStr (color d)); ("bgColor", VStr (bgColor d));
            ("className", VStr (join " " (map fst (getBadgeCSS b))))])).

Definition getTelegramInlineKeyboard (b : badge) : jsval :=
  let d := BADGE_DEFINITIONS b in
  VArr [VArr [VObj [("text", VStr (icon d ++ " " ++ label d));
                    ("callback_data", VStr ("badge_info_" ++ to_str (js_or (get_opt (badge_obj b) "type") (VStr "unknown"))))]]].

Definition getTelegramTokenBadge (tokenData : jsval) : result jsval :=
  res_bind (detected tokenData) (fun b =>
  let d := BADGE_DEFINITIONS b in
  Ok (VObj [("emoji", VStr (icon d)); ("text", VStr (label d)); ("tooltip", VStr (tooltip d));
            ("telegramText", VStr (icon d ++ " " ++ label d));
            ("inlineKeyboard", getTelegramInlineKeyboard b)])).

(** ** Generation and storage *)

(** Objects by reference, and the entries of the [Map], keyed by address. *)
Record store : Type := Store {
  heap : list (list (string * jsval));
  storage : list (string * nat)
}.

Definition store0 : store := Store [] [].

Definition deref (s : store) (r : nat) : list (string * jsval) := nth r (heap s) [].

Fixpoint set_nth {A} (n : nat) (x : A) (l : list A) : list A :=
  match n, l with
  | O, _ :: l' => x :: l'
  | S n', y :: l' => y :: set_nth n' x l'
  | _, [] => []
  end.

Definition set_field (r : nat) (k : string) (v : jsval) (s : store) : store :=
  Store (set_nth r (obj_set k v (deref s r)) (heap s)) (storage s).

Definition put_fresh (key : string) (o : list (string * jsval)) (s : store) : store :=
  Store (heap s ++ [o]) (assoc_set String.eqb key (List.length (heap s)) (storage s)).

Section Methods.
Context `{Env}.

Definition generateSHI20Metadata {S} (tokenConfig : jsval) : JS S jsval :=
  let* name := lift (get tokenConfig "name") in
  let f k := get_opt tokenConfig k in
  let* createdAt := iso_now in
  ret (VObj
    [("standard", VStr (std_standard SHI_20_standard)); ("type", VStr (std_type SHI_20_standard));
     ("name", name); ("symbol", f "symbol"); ("decimals", js_or (f "decimals") (vnum 18));
     ("totalSupply", f "totalSupply"); ("maxSupply", f "maxSupply"); ("createdBy", VStr "ShahFactory");
     ("verified", VBool false); ("createdAt", createdAt); ("version", VStr (std_version SHI_20_standard));
     ("description", f "description"); ("website", f "website"); ("logo", f "logo");
     ("addOns", VObj [("customLogo", js_or (f "customLogo") (VBool false));
                      ("verifiedBadge", js_or (f "verifiedBadge") (VBool false));
                      ("upgradeable", js_or (f "upgradeable") (VBool false));
                      ("airdropTool", js_or (f "airdropTool") (VBool false))])]).

Definition generateSHI30Metadata {S} (nftConfig : jsval) : JS S jsval :=
  let* name := lift (get nftConfig "name") in
  let f k := get_opt nftConfig k in
  let* createdAt := iso_now in
  ret (VObj
    [("standard", VStr (std_standard SHI_30_standard)); ("type", VStr (std_type SHI_30_standard));
     ("name", name); ("symbol", f "symbol"); ("description", f "description"); ("image", f "image");
     ("createdBy", VStr "ShahFactory"); ("verified", VBool false); ("createdAt", createdAt);
     ("version", VStr (std_version SHI_30_standard)); ("attributes", js_or (f "attributes") (VArr []));
     ("externalUrl", f "externalUrl"); ("animationUrl", f "animationUrl");
     ("addOns", VObj [("customImage", js_or (f "customImage") (VBool false));
                      ("verifiedBadge", js_or (f "verifiedBadge") (VBool false));
                      ("unlockableContent", js_or (f "unlockableContent") (VBool false));
                      ("tradeLock", js_or (f "tradeLock") (VBool false));
                      ("boosterTag", js_or (f "boosterTag") (VBool false))])]).

Abbreviation JS := (JS store).

Definition storeMetadata (contractAddress metadata : jsval) : JS unit :=
  let* _ := lift (validateMetadata metadata) in
  let* address := lift (as_string "contractAddress" "toLowerCase" contractAddress) in
  let* storedAt := iso_now in
  let* lastAccessed := iso_now in
  modify (put_fresh (toLowerCase address)
    (obj_set "lastAccessed" lastAccessed (obj_set "storedAt" storedAt (spread_props metadata)))).

(** The stored object, by reference. *)
Definition getMetadata (contractAddress : jsval) : JS (option nat) :=
  let* address := lift (as_string "contractAddress" "toLowerCase" contractAddress) in
  let* entry := read (fun s => assoc String.eqb (toLowerCase address) (storage s)) in
  match entry with
  | None => ret None
  | Some r =>
      let* lastAccessed := iso_now in
      modify (set_field r "lastAccessed" lastAccessed) ;;;
      ret (Some r)
  end.

Definition updateVerificationStatus (contractAddress verified : jsval) : JS unit :=
  let* entry := getMetadata contractAddress in
  match entry with
  | None => ret tt
  | Some r =>
      modify (set_field r "verified" verified) ;;;
      let* verifiedAt := if truthy verified then iso_now else ret VNull in
      modify (set_field r "verifiedAt" verifiedAt) ;;;
      let* metadata := read (fun s => deref s r) in
      storeMetadata contractAddress (VObj metadata)
  end.

Definition select (p : list (string * jsval) -> bool) : JS (list (string * nat)) :=
  read (fun s => filter (fun '(_, r) => p (deref s r)) (storage s)).

Definition getTokensByType (type : string) : JS (list (string * nat)) :=
  select (fun o => is_str (obj_get o "type") type).

Definition getVerifiedTokens : JS (list (string * nat)) :=
  select (fun o => truthy (obj_get o "verified")).

End Methods.

(** ** Facts *)

(** The documented behaviour of the clock: formatting the current time
    returns a text. *)
Class ClockLaws `{Env} : Prop :=
  iso_total : forall t n, exists v, reply t "Date.toISOString" [n] = Ok v.

Lemma set_nth_length {A} n (x : A) l : List.length (set_nth n x l) = List.length l.
Proof. revert n. induction l as [|y l IH]; intros [|n]; cbn; auto. Qed.

Lemma nth_set_same {A} n (x d : A) l : n < List.length l -> nth n (set_nth n x l) d = x.
Proof. revert n. induction l as [|y l IH]; intros [|n] Hn; cbn in *; try lia; [reflexivity|]. apply IH. lia. Qed.

Lemma nth_set_other {A} n m (x d : A) l : n <> m -> nth m (set_nth n x l) d = nth m l d.
Proof. revert n m. induction l as [|y l IH]; intros [|n] [|m] N; cbn; auto; try lia. Qed.

Section Storage.
Context `{ClockLaws}.

Lemma wp_iso {S} (Q : jsval -> S -> trace -> Prop) E s t :
  (forall v t', Q v s t') -> wp iso_now Q E s t.
Proof.
  intros HQ. unfold iso_now. wp_step. wp_step. apply wp_ext; [auto|].
  intros e He. destruct (iso_total (Ev "Date.now" [] (Ok (VNum (clock t))) :: t) (VNum (clock t))); congruence.
Qed.

(** What stays true of a stored object whatever becomes of its verification:
    a known standard, a known type, a name and a creator. *)
Definition described (o : list (string * jsval)) : bool :=
  existsb (fun s => is_str (obj_get o "standard") (std_standard s)) METADATA_STANDARDS
  && existsb (fun s => is_str (obj_get o "type") (std_type s)) METADATA_STANDARDS
  && truthy (obj_get o "name") && truthy (obj_get o "createdBy").

(** An entry has a lower-case address and refers to a described object. *)
Definition entry_ok (s : store) (x : string * nat) : Prop :=
  toLowerCase (fst x) = fst x /\ snd x < List.length (heap s) /\ described (deref s (snd x)) = true.

(** Addresses are distinct, no two share an object, and entries are good. *)
Definition store_wf (s : store) : Prop :=
  NoDup (map fst (storage s)) /\ NoDup (map snd (storage s)) /\ Forall (entry_ok s) (storage s).

Lemma described_ext o o' :
  (forall k, In k ["standard"; "type"; "name"; "createdBy"] -> obj_get o' k = obj_get o k) -> described o' = described o.
Proof using Type. intros E. unfold described. rewrite !E by (cbn; auto). reflexivity. Qed.

(** Validation accepts objects only, and only described ones. *)
Lemma validated_described md : validateMetadata md = Ok true -> exists o, md = VObj o /\ described o = true.
Proof using Type.
  unfold validateMetadata, props_ok. destruct md; cbn [get res_bind]; try discriminate. intros Hv. eexists. split; [reflexivity|].
  unfold described. unfold requiredFields in Hv. cbn [filter get_opt get] in Hv.
  repeat match type of Hv with context [truthy (obj_get ?o ?k)] => destruct (truthy (obj_get o k)); cbn [negb] in Hv; try discriminate Hv end.
  destruct (existsb _ _); cbn [negb] in Hv; [|discriminate]. destruct (existsb _ _); cbn [negb] in Hv; [reflexivity|discriminate].
Qed.

Lemma in_assoc_set (key : string) (v : nat) l x :
  In x (assoc_set String.eqb key v l) -> x = (key, v) \/ In x l.
Proof using Type.
  induction l as [|[k' v'] l IH]; cbn; [intuition|].
  destruct (String.eqb_spec key k') as [-> |N]; cbn; intuition.
Qed.

Lemma in_fst_assoc_set (key k : string) (v : nat) l :
  In k (map fst (assoc_set String.eqb key v l)) -> k = key \/ In k (map fst l).
Proof using Type.
  rewrite !in_map_iff. intros ([a b] & <- & Hin). apply in_assoc_set in Hin as [[= -> ->]|Hin]; [auto|].
  right. exists (a, b). auto.
Qed.

Lemma in_snd_assoc_set (key : string) (v r : nat) l :
  In r (map snd (assoc_set String.eqb key v l)) -> r = v \/ In r (map snd l).
Proof using Type.
  rewrite !in_map_iff. intros ([a b] & <- & Hin). apply in_assoc_set in Hin as [[= -> ->]|Hin]; [auto|].
  right. exists (a, b). auto.
Qed.

Lemma NoDup_fst_assoc_set (key : string) (v : nat) l :
  NoDup (map fst l) -> NoDup (map fst (assoc_set String.eqb key v l)).
Proof using Type.
  induction l as [|[k' v'] l IH]; cbn; intros N; [constructor; [auto|constructor]|].
  inversion N as [|? ? Hk Hl]; subst. destruct (String.eqb_spec key k') as [-> |Nk]; cbn; constructor; auto.
  intros Hin. apply in_fst_assoc_set in Hin as [E|Hin]; [congruence|contradiction].
Qed.

Lemma NoDup_snd_assoc_set (key : string) (v : nat) l :
  ~ In v (map snd l) -> NoDup (map snd l) -> NoDup (map snd (assoc_set String.eqb key v l)).
Proof using Type.
  induction l as [|[k' v'] l IH]; cbn; intros Nv N; [constructor; [auto|constructor]|].
  inversion N as [|? ? Hk Hl]; subst. destruct (String.eqb_spec key k') as [-> |Nk]; cbn; constructor; auto.
  intros Hin. apply in_snd_assoc_set in Hin as [E|Hin]; [subst; auto|contradiction].
Qed.

Lemma deref_put_fresh key o s : deref (put_fresh key o s) (List.length (heap s)) = o.
Proof using Type. unfold deref, put_fresh. cbn. rewrite app_nth2, Nat.sub_diag by lia. reflexivity. Qed.

Lemma deref_put_other key o s r : r < List.length (heap s) -> deref (put_fresh key o s) r = deref s r.
Proof using Type. intros L. unfold deref, put_fresh. cbn. apply app_nth1, L. Qed.

Lemma put_fresh_wf key o s :
  toLowerCase key = key -> described o = true -> store_wf s -> store_wf (put_fresh key o s).
Proof using Type.
  intros Hk Ho (K & N & F). rewrite Forall_forall in F. split; [apply NoDup_fst_assoc_set, K|]. split.
  - apply NoDup_snd_assoc_set; [|exact N]. intros Hin. apply in_map_iff in Hin as (x & Hx & Hin).
    destruct (F _ Hin) as (_ & L & _). lia.
  - apply Forall_forall. intros x Hin. apply in_assoc_set in Hin as [-> |Hin]; unfold entry_ok; cbn [fst snd].
    + rewrite deref_put_fresh. cbn [put_fresh heap]. rewrite length_app. cbn. repeat split; auto; lia.
    + destruct (F _ Hin) as (Hl & L & D). rewrite deref_put_other by exact L. cbn [put_fresh heap]. rewrite length_app.
      repeat split; auto; lia.
Qed.

Lemma set_field_wf r k v s :
  ~ In k ["standard"; "type"; "name"; "createdBy"] -> store_wf s -> store_wf (set_field r k v s).
Proof using Type.
  intros Hk (K & N & F). split; [exact K|]. split; [exact N|]. eapply Forall_impl; [|exact F].
  intros x (Hl & L & D). split; [exact Hl|]. unfold set_field, deref. cbn [heap]. rewrite set_nth_length.
  split; [exact L|]. destruct (Nat.eq_dec r (snd x)) as [-> |Nr]; [|rewrite nth_set_other by exact Nr; exact D].
  rewrite nth_set_same by exact L. rewrite <- D. apply described_ext. intros k' Hin. apply obj_get_set_other. congruence.
Qed.

Lemma lookup_in_range s key r : store_wf s -> assoc String.eqb key (storage s) = Some r -> r < List.length (heap s).
Proof using Type.
  intros (_ & _ & F) A. apply assoc_In, in_map_iff in A as (x & <- & Hin). rewrite Forall_forall in F. apply (F x Hin).
Qed.

Lemma deref_set_same s r k v : r < List.length (heap s) -> deref (set_field r k v s) r = obj_set k v (deref s r).
Proof using Type. intros L. unfold deref, set_field. cbn. apply nth_set_same, L. Qed.

Lemma storeMetadata_spec a md (s : store) t :
  validateMetadata md = Ok true ->
  wp (storeMetadata (VStr a) md)
    (fun _ s' _ => exists x y, s' = put_fresh (toLowerCase a) (obj_set "lastAccessed" y (obj_set "storedAt" x (spread_props md))) s)
    (fun _ _ _ => False) s t.
Proof.
  intros Hv. unfold storeMetadata. rewrite Hv. do 2 wp_step; [|discriminate].
  wp_step. wp_step; [|discriminate]. match goal with E : as_string _ _ _ = Ok _ |- _ => injection E as <- end.
  wp_step. apply wp_iso. intros x t1. wp_step. apply wp_iso. intros y t2. wp_step. eauto.
Qed.

Lemma getMetadata_spec a (s : store) t :
  wp (getMetadata (VStr a))
    (fun r s' _ => r = assoc String.eqb (toLowerCase a) (storage s)
       /\ match r with
          | None => s' = s
          | Some r => exists x, s' = set_field r "lastAccessed" x s
          end)
    (fun _ _ _ => False) s t.
Proof.
  unfold getMetadata. wp_step. wp_step; [|discriminate].
  match goal with E : as_string _ _ _ = Ok _ |- _ => injection E as <- end. do 2 wp_step.
  destruct (assoc _ _ _); [|wp_step; auto]. wp_step. apply wp_iso. intros x t1. do 3 wp_step. eauto.
Qed.

End Storage.

(** The calls a client makes on the store. *)
Inductive store_op : Type :=
  | OpStore (address metadata : jsval)
  | OpGet (address : jsval)
  | OpVerify (address verified : jsval).

Definition run_store `{Env} (o : store_op) : JS store unit :=
  match o with
  | OpStore a md => storeMetadata a md
  | OpGet a => getMetadata a ;;; ret tt
  | OpVerify a v => updateVerificationStatus a v
  end.

Inductive store_step `{Env} : store * trace -> store * trace -> Prop :=
  | store_call o s t r s' t' : run_store o s t = (r, s', t') -> store_step (s, t) (s', t').

Lemma stored_wf md a x y s b :
  validateMetadata md = Ok b -> store_wf s ->
  store_wf (put_fresh (toLowerCase a) (obj_set "lastAccessed" y (obj_set "storedAt" x (spread_props md))) s).
Proof.
  intros Hv W. assert (b = true) as ->.
  { revert Hv. unfold validateMetadata. destruct (props_ok md) as [[|]|]; cbn [res_bind]; try discriminate.
    repeat case_goal; congruence. }
  apply validated_described in Hv as (o & -> & D). apply put_fresh_wf; [apply toLowerCase_idem| |exact W].
  rewrite <- D. apply described_ext. cbn [spread_props In]. intros k Hk.
  rewrite !obj_get_set_other; [reflexivity|..]; intuition congruence.
Qed.

Lemma run_store_wf `{Env} o s t :
  store_wf s -> wp (run_store o) (fun _ s' _ => store_wf s') (fun _ s' _ => store_wf s') s t.
Proof.
  intros W. destruct o; cbn [run_store];
    unfold updateVerificationStatus, getMetadata, storeMetadata; wp_auto;
    repeat first [eapply stored_wf; [eassumption|] | apply set_field_wf; [cbn; intuition discriminate|] | assumption].
Qed.

Lemma unverified_invalid md b : truthy (get_opt md "verified") = false -> validateMetadata md <> Ok b.
Proof.
  intros Hf. unfold validateMetadata, props_ok. destruct (get md "standard"); cbn [res_bind]; [|discriminate].
  assert (Hin : In "verified" (filter (fun field => negb (truthy (get_opt md field))) requiredFields)).
  { apply filter_In. rewrite Hf. split; [cbn; auto 8|reflexivity]. }
  destruct (filter _ _); [destruct Hin|discriminate].
Qed.

Lemma verified_missing md :
  validateMetadata md = Ok true ->
  forall o, (forall k, k <> "verified" -> k <> "lastAccessed" -> k <> "verifiedAt" ->
               get_opt (VObj o) k = get_opt md k) ->
  get_opt (VObj o) "verified" = VBool false ->
  validateMetadata (VObj o) = Throw (Error "Missing required metadata fields: verified").
Proof.
  intros Hv o Ho Hf. unfold validateMetadata, props_ok in *.
  destruct (get md "standard") as [std|]; cbn [res_bind] in Hv; [|discriminate].
  cbn [get res_bind]. unfold requiredFields in *. cbn [filter] in *.
  rewrite Hf. rewrite !Ho by discriminate.
  destruct (truthy (get_opt md "standard")), (truthy (get_opt md "type")), (truthy (get_opt md "name")),
    (truthy (get_opt md "createdBy")); cbn in Hv |- *; try discriminate Hv. reflexivity.
Qed.

(** ** Theorems *)

(** C15: along every run of the metadata store the addresses are distinct and
    in lower case, no two of them share an object, and every stored object
    has a known standard, a known type, a name and a creator. *)
Theorem metadata_store_wf `{Env} s t :
  steps store_step (store0, []) (s, t) -> store_wf s.
Proof.
  intros Hs. apply (steps_invariant store_step (fun x => store_wf (fst x))) with (2 := Hs).
  - intros x y W St. destruct St as [o s1 t1 r s2 t2 E]. cbn [fst] in *.
    pose proof (run_store_wf o s1 t1 W) as P. unfold wp in P. rewrite E in P. destruct r; exact P.
  - repeat split; constructor.
Qed.

(** C36: stored metadata is found again, whatever the case of the address is:
    every field is the one stored, only the two time stamps are new, and the
    entries of the other addresses are untouched. *)
Theorem metadata_roundtrip `{ClockLaws} a a' o s t :
  store_wf s -> validateMetadata (VObj o) = Ok true -> toLowerCase a = toLowerCase a' ->
  wp (storeMetadata (VStr a) (VObj o) ;;; getMetadata (VStr a'))
    (fun r s' _ => exists x, r = Some x
       /\ (forall k, k <> "storedAt" -> k <> "lastAccessed" -> obj_get (deref s' x) k = obj_get o k)
       /\ (forall key, key <> toLowerCase a ->
             assoc String.eqb key (storage s') = assoc String.eqb key (storage s)
             /\ forall y, assoc String.eqb key (storage s) = Some y -> deref s' y = deref s y))
    (fun _ _ _ => False) s t.
Proof.
  intros W Hv Ha. wp_step. eapply wp_mono; [..|apply (storeMetadata_spec a (VObj o) s t Hv)]; cbn beta; [|auto].
  intros _ s1 t1 (x & y & ->). eapply wp_mono; [..|apply getMetadata_spec]; cbn beta; [|auto].
  intros r s2 t2 [Hr Hs]. rewrite <- Ha in Hr. cbn [put_fresh storage] in Hr.
  rewrite assoc_set_same in Hr by exact String.eqb_spec. subst r. destruct Hs as [z ->].
  exists (List.length (heap s)). split; [reflexivity|]. split.
  - intros k N1 N2. rewrite deref_set_same by (cbn; rewrite length_app; cbn; lia). rewrite deref_put_fresh.
    cbn [spread_props]. rewrite !obj_get_set_other by congruence. reflexivity.
  - intros key N. cbn [set_field storage put_fresh]. rewrite assoc_set_other by (exact String.eqb_spec || congruence).
    split; [reflexivity|]. intros w Hw. pose proof (lookup_in_range _ _ _ W Hw).
    unfold deref, set_field, put_fresh. cbn [heap]. rewrite nth_set_other by lia. apply app_nth1. assumption.
Qed.

Definition steady : Env := {|
  reply := fun _ op _ => if op =? "Date.toISOString" then Ok (VStr "2025-01-01T00:00:00.000Z") else Ok VUndef;
  clock := fun _ => Num.zero;
  random := fun _ => Num.zero |}.

#[global] Instance steady_clock : @ClockLaws steady.
Proof. intros t n. eexists. reflexivity. Qed.

Definition verified_token : list (string * jsval) :=
  [("standard", VStr "shahcoin.token.standard.v1"); ("type", VStr "SHI-20"); ("name", VStr "A");
   ("createdBy", VStr "ShahFactory"); ("verified", VBool true)].

Lemma metadata_store_wf_witness :
  store_wf (snd (fst (storeMetadata (H := steady) (VStr "0xA") (VObj verified_token) store0 []))).
Proof.
  eapply (metadata_store_wf (H := steady)). eapply steps_one.
  eapply (store_call (H := steady) (OpStore (VStr "0xA") (VObj verified_token))). vm_compute. reflexivity.
Defined.

Lemma metadata_roundtrip_witness :
  wp (storeMetadata (H := steady) (VStr "0xAb") (VObj verified_token) ;;; getMetadata (H := steady) (VStr "0xaB"))
    (fun r s' _ => exists x, r = Some x /\ obj_get (deref s' x) "name" = VStr "A") (fun _ _ _ => False) store0 [].
Proof.
  eapply wp_mono; [..|apply (metadata_roundtrip (H := steady) "0xAb" "0xaB" verified_token store0 [])]; cbn beta.
  - intros r s' t' (x & -> & Hk & _). exists x. split; [reflexivity|]. rewrite Hk by discriminate. reflexivity.
  - auto.
  - repeat split; constructor.
  - reflexivity.
  - reflexivity.
Defined.

(** Metadata as the generators make it cannot be stored: [verified] is
    required to be truthy and is generated as false, so storing always
    throws, and the store is unchanged. *)
Theorem generated_metadata_not_storable `{Env} config address s t :
  wp (let* md := generateSHI20Metadata config in storeMetadata address md)
    (fun _ _ _ => False) (fun _ s' _ => s' = s) s t
  /\ wp (let* md := generateSHI30Metadata config in storeMetadata address md)
    (fun _ _ _ => False) (fun _ s' _ => s' = s) s t.
Proof.
  split; unfold generateSHI20Metadata, generateSHI30Metadata, storeMetadata, iso_now; wp_auto; try reflexivity;
    exfalso; match goal with E : validateMetadata _ = Ok _ |- _ => refine (unverified_invalid _ _ _ E); reflexivity end.
Qed.

(** Revoking a verification is half applied: the call throws, because the
    object it has just changed no longer validates, and the stored object
    keeps the change. *)
Theorem revocation_half_applied `{ClockLaws} a s t r :
  store_wf s -> assoc String.eqb (toLowerCase a) (storage s) = Some r ->
  validateMetadata (VObj (deref s r)) = Ok true ->
  wp (updateVerificationStatus (VStr a) (VBool false))
    (fun _ _ _ => False)
    (fun e s' _ => e = Error "Missing required metadata fields: verified"
       /\ storage s' = storage s
       /\ obj_get (deref s' r) "verified" = VBool false /\ obj_get (deref s' r) "verifiedAt" = VNull) s t.
Proof.
  intros W Hr Hv. unfold updateVerificationStatus. wp_step.
  eapply wp_mono; [..|apply getMetadata_spec]; cbn beta; [|intros ? ? ? []].
  intros x s1 t1 [-> Hs]. rewrite Hr in *. destruct Hs as [z ->]. pose proof (lookup_in_range _ _ _ W Hr) as L.
  do 2 wp_step. cbn [truthy]. do 4 wp_step. wp_step. wp_step. unfold storeMetadata.
  assert (D : deref (set_field r "verifiedAt" VNull (set_field r "verified" (VBool false) (set_field r "lastAccessed" z s))) r
              = obj_set "verifiedAt" VNull (obj_set "verified" (VBool false) (obj_set "lastAccessed" z (deref s r)))).
  { rewrite !deref_set_same by (cbn; rewrite ?set_nth_length; exact L). reflexivity. }
  rewrite D. erewrite (verified_missing _ Hv).
  - do 2 wp_step; [discriminate|]. match goal with E : Throw _ = Throw _ |- _ => injection E as <- end.
    split; [reflexivity|]. split; [reflexivity|]. rewrite D.
    rewrite (obj_get_set_other "verifiedAt" "verified") by discriminate. rewrite !obj_get_set_same. auto.
  - intros k N1 N2 N3. unfold get_opt. cbn [get]. rewrite !obj_get_set_other by congruence. reflexivity.
  - unfold get_opt. cbn [get]. rewrite obj_get_set_other by discriminate. apply obj_get_set_same.
Qed.

Definition one_token : store := Store [verified_token] [("0xa", 0%nat)].

Lemma revocation_half_applied_witness :
  wp (updateVerificationStatus (H := steady) (VStr "0xA") (VBool false)) (fun _ _ _ => False)
    (fun _ s' _ => obj_get (deref s' 0) "verified" = VBool false) one_token [].
Proof.
  eapply wp_mono; [..|apply (revocation_half_applied (H := steady) "0xA" one_token [] 0)]; cbn beta.
  - auto.
  - intros e s' t' (_ & _ & Hf & _). exact Hf.
  - repeat split; repeat constructor; cbn; intuition.
  - reflexivity.
  - reflexivity.
Defined.

(** The Qt wallet shows the same icon for every badge, and the Telegram
    button always reports an unknown badge. *)
Theorem badges_indistinct b :
  getQtIcon b = VStr ":/icons/token_unknown"
  /\ exists text, getTelegramInlineKeyboard b
     = VArr [VArr [VObj [("text", text); ("callback_data", VStr "badge_info_unknown")]]].
Proof. destruct b; split; try reflexivity; eexists; reflexivity. Qed.
