(* ===== verification/DynamicFee.v ===== *)
(** * Price oracle and dynamic fees

    src/sdk-core/price-oracle-dynamic-fee/index.js: a price cache with
    subscribers and a polling timer, and the fee calculator on top of it.
    Subscribers are callbacks of the embedding application: the environment,
    as are the timers. *)

From Stdlib Require Import ZArith Bool Lia List String.
From S2P Require Import Prelude JsNum JsNumFacts JsVal JsFormat JsMonad Payments.
Import ListNotations.
Local Open Scope string_scope.

(** ** The oracle *)

Record quote : Type := Quote { usd : num; shah : num; sources : list jsval; timestamp : num }.

Definition quote_obj (q : quote) : jsval :=
  VObj [("usd", VNum (usd q)); ("shah", VNum (shah q)); ("sources", VArr (sources q));
        ("timestamp", VNum (timestamp q))].

(** Subscribers are kept by identity, in the order of their first
    subscription, as a [Set] keeps them. *)
Record oracle : Type := Oracle {
  o_sources : list jsval;
  updateIntervalMs : jsval;
  cacheTtlMs : jsval;
  lastPrice : option quote;
  subscribers : list nat;
  timer : jsval
}.

Definition set_lastPrice (q : quote) (o : oracle) : oracle :=
  Oracle (o_sources o) (updateIntervalMs o) (cacheTtlMs o) (Some q) (subscribers o) (timer o).
Definition set_subscribers (l : list nat) (o : oracle) : oracle :=
  Oracle (o_sources o) (updateIntervalMs o) (cacheTtlMs o) (lastPrice o) l (timer o).
Definition set_timer (v : jsval) (o : oracle) : oracle :=
  Oracle (o_sources o) (updateIntervalMs o) (cacheTtlMs o) (lastPrice o) (subscribers o) v.

(** [new ShahcoinPriceOracle(options)]; [sources] is an array of names. *)
Definition oracle_constructor (options_sources : option (list jsval)) (updateInterval cacheTimeout : jsval) : oracle :=
  Oracle (match options_sources with Some l => l | None => [VStr "shahswap"] end)
    (js_or updateInterval (vnum 30000)) (js_or cacheTimeout (vnum 60000)) None [] VNull.

Definition oracle0 : oracle := oracle_constructor None VUndef VUndef.

Definition set_add (x : nat) (l : list nat) : list nat := if existsb (Nat.eqb x) l then l else (l ++ [x])%list.

Section Methods.
Context `{Env}.
Abbreviation JS := (JS oracle).

(** A callback that throws is ignored. *)
Definition notify (cb : nat) (price : quote) : JS unit :=
  try_catch (ext "subscriber" [vnum (Z.of_nat cb); quote_obj price] ;;; ret tt) (fun _ => ret tt).

Definition emit (price : quote) : JS unit :=
  let* o := read id in for_each (subscribers o) (fun cb => notify cb price).

(** The mock price, without its time stamp. *)
Definition fetchPriceFromSources : JS quote :=
  let* o := read id in
  ret (Quote (Num.dec 85 2) (Num.of_Z 1) (firstn 1 (o_sources o)) Num.zero).

Definition fresh (o : oracle) (t : num) : option quote :=
  match lastPrice o with
  | Some q => if Num.ltb (Num.sub t (timestamp q)) (to_num (cacheTtlMs o)) then Some q else None
  | None => None
  end.

Definition getCurrentPrice : JS quote :=
  let* t := now in
  let* o := read id in
  match fresh o t with
  | Some q => ret q
  | None =>
      let* fetched := fetchPriceFromSources in
      let* t' := now in
      let q := Quote (usd fetched) (shah fetched) (sources fetched) t' in
      modify (set_lastPrice q) ;;;
      emit q ;;;
      ret q
  end.

(** The callback of the interval. *)
Definition onTick : JS unit :=
  try_catch (let* price := getCurrentPrice in emit price) (fun _ => ret tt).

Definition subscribeToPriceUpdates (callback : nat) : JS unit :=
  modify (fun o => set_subscribers (set_add callback (subscribers o)) o) ;;;
  let* o := read id in
  if truthy (timer o) then ret tt
  else let* handle := ext "setInterval" [updateIntervalMs o] in modify (set_timer handle).

(** The function [subscribeToPriceUpdates] returns. *)
Definition unsubscribe (callback : nat) : JS unit :=
  modify (fun o => set_subscribers (filter (fun x => negb (Nat.eqb callback x)) (subscribers o)) o).

End Methods.

(** ** The calculator *)

Record calculator : Type := Calculator {
  baseFees : list (string * jsval);
  addOnFees : list (string * jsval);
  priceBuffer : jsval
}.

Definition baseFees0 : list (string * jsval) :=
  [("token_creation", vnum 49); ("nft_creation", vnum 25); ("bundle_creation", vnum 59)].

Definition addOnFees0 : list (string * jsval) :=
  [("custom_logo", vnum 10); ("verified_badge", vnum 20); ("upgradeable_contract", vnum 15);
   ("airdrop_tool", vnum 8); ("custom_image", vnum 5); ("unlockable_content", vnum 10);
   ("trade_lock", vnum 6); ("booster_tag", vnum 9)].

(** [new DynamicFeeCalculator(options)], its oracle apart. *)
Definition calculator_constructor (base addOns : option (list (string * jsval))) (buffer : jsval) : calculator :=
  Calculator (match base with Some l => l | None => baseFees0 end)
    (match addOns with Some l => l | None => addOnFees0 end) (js_coalesce buffer (VNum (Num.dec 2 2))).

Definition calculator0 : calculator := calculator_constructor None None VUndef.

(** [addOns.reduce((sum, key) => sum + (this.addOnFees[key] || 0), 0)]. *)
Definition addOns_usd (this : calculator) (keys : list jsval) : jsval :=
  fold_left (fun sum key => js_add sum (js_or (obj_get (addOnFees this) (to_str key)) (vnum 0))) keys (vnum 0).

(** The total before the buffer. *)
Definition total_usd (this : calculator) (feeType : string) (volumeUsd : jsval) (keys : list jsval) : jsval :=
  let baseUsd := js_coalesce (obj_get (baseFees this) feeType) (vnum 0) in
  let totalUsd := js_add baseUsd (addOns_usd this keys) in
  let totalUsd := if truthy volumeUsd && js_ge volumeUsd (vnum 1000)
                  then js_mul totalUsd (VNum (Num.dec 9 1)) else totalUsd in
  if feeType =? "bundle_creation"
  then VNum (Num.min (to_num totalUsd) (to_num (obj_get (baseFees this) "bundle_creation")))
  else totalUsd.

(** The amounts for a total at a price. *)
Definition fee_usd (this : calculator) (total : jsval) : num :=
  Num.mul (to_num total) (to_num (js_add (vnum 1) (priceBuffer this))).
Definition rounded (x : num) (digits : nat) : num := string_to_num (Num.to_fixed x digits).

Definition calculateFee `{Env} (this : calculator) (feeType : string) (opts : jsval) : JS oracle jsval :=
  let opts := default opts (VObj []) in
  let* price := getCurrentPrice in
  let* addOns := lift (get opts "addOns") in
  let keys := match addOns with VArr l => l | _ => [] end in
  let volumeUsd := get_opt opts "volumeUsd" in
  let usdWithBuffer := fee_usd this (total_usd this feeType volumeUsd keys) in
  ret (VObj [("usd", VNum (rounded usdWithBuffer 2));
             ("shah", VNum (rounded (Num.div usdWithBuffer (usd price)) 8));
             ("breakdown", VObj [("baseUsd", js_coalesce (obj_get (baseFees this) feeType) (vnum 0));
                                 ("addOnsUsd", addOns_usd this keys); ("buffer", priceBuffer this)])]).

(** The listener [subscribeToFeeUpdates] registers: the fees of all types,
    handed to [callback]. *)
Definition onFeeUpdate `{Env} (this : calculator) (feeTypes : list string) : JS oracle unit :=
  let* results := (fix go l acc :=
     match l with
     | [] => ret acc
     | ty :: l' => let* fee := calculateFee this ty VUndef in go l' (obj_set ty fee acc)
     end) feeTypes [] in
  try_catch (ext "callback" [VObj results] ;;; ret tt) (fun _ => ret tt).

(** ** Facts *)

Local Open Scope Z_scope.

(** The published add-on prices. *)
Definition addOnUSD : list (string * Z) :=
  [("custom_logo", 10); ("verified_badge", 20); ("upgradeable_contract", 15); ("airdrop_tool", 8);
   ("custom_image", 5); ("unlockable_content", 10); ("trade_lock", 6); ("booster_tag", 9)].

Definition addOnsTotal (keys : list string) : Z :=
  fold_right (fun k acc => (match assoc String.eqb k addOnUSD with Some z => z | None => 0 end) + acc) 0 keys.

Lemma addOn_price k :
  ~ In k object_prototype ->
  js_or (obj_get addOnFees0 k) (vnum 0) = vnum (match assoc String.eqb k addOnUSD with Some z => z | None => 0 end).
Proof.
  intros Hk. unfold obj_get, own, addOnFees0, addOnUSD. cbn [assoc].
  repeat (destruct (k =? _)%string; [reflexivity|]). unfold inherited.
  destruct (mem_string k object_prototype) eqn:E; [apply mem_string_In in E; contradiction|reflexivity].
Qed.

Lemma addOn_bound k : 0 <= match assoc String.eqb k addOnUSD with Some z => z | None => 0 end <= 20.
Proof. unfold addOnUSD. cbn [assoc]. repeat (destruct (k =? _)%string; [lia|]). lia. Qed.

Lemma addOnsTotal_bounds keys : 0 <= addOnsTotal keys <= 20 * Z.of_nat (List.length keys).
Proof.
  induction keys as [|k keys IH]; [cbn; lia|]. unfold addOnsTotal in *. cbn [fold_right List.length].
  pose proof (addOn_bound k). lia.
Qed.

Lemma addOns_usd_exact keys :
  Forall (fun k => ~ In k object_prototype) keys -> Z.of_nat (List.length keys) <= 2 ^ 40 ->
  addOns_usd calculator0 (map VStr keys) = vnum (addOnsTotal keys).
Proof.
  intros Hk Hn. unfold addOns_usd.
  assert (G : forall acc, 0 <= acc -> acc + 20 * Z.of_nat (List.length keys) <= 2 ^ 50 ->
    fold_left (fun sum key => js_add sum (js_or (obj_get (addOnFees calculator0) (to_str key)) (vnum 0)))
      (map VStr keys) (vnum acc) = vnum (acc + addOnsTotal keys)); [|rewrite G; [f_equal|..]; lia].
  clear Hn. induction Hk as [|k keys Hk _ IH]; intros acc Ha Hb; [cbn; f_equal; lia|].
  cbn [map fold_left to_str List.length] in *. change (addOnFees calculator0) with addOnFees0 in *.
  rewrite addOn_price by exact Hk. pose proof (addOn_bound k).
  rewrite js_add_vnum by (unfold safe, prec; lia). rewrite IH by lia.
  unfold addOnsTotal. cbn [fold_right]. f_equal. lia.
Qed.

(** The two amounts for every whole total up to 2000 dollars. *)
Lemma fees_exact :
  forallb (fun n => same_num (rounded (fee_usd calculator0 (vnum n)) 2) (Num.dec (102 * n) 2)
                    && same_num (rounded (Num.div (fee_usd calculator0 (vnum n)) (Num.dec 85 2)) 8) (Num.dec (12 * n) 1))
    (map Z.of_nat (seq 0 2001)) = true.
Proof. vm_compute. reflexivity. Qed.

Lemma fee_at n :
  0 <= n <= 2000 ->
  rounded (fee_usd calculator0 (vnum n)) 2 = Num.dec (102 * n) 2
  /\ rounded (Num.div (fee_usd calculator0 (vnum n)) (Num.dec 85 2)) 8 = Num.dec (12 * n) 1.
Proof.
  intros Hn. pose proof fees_exact as F. rewrite forallb_forall in F.
  specialize (F n ltac:(apply in_map_iff; exists (Z.to_nat n); rewrite in_seq; lia)).
  apply andb_true_iff in F as [F1 F2]. split; apply same_num_eq; assumption.
Qed.

Definition published : list (string * Z) :=
  [("token_creation", 49); ("nft_creation", 25); ("bundle_creation", 59)]%string.

Lemma total_usd_exact feeType base keys :
  In (feeType, base) published ->
  Forall (fun k => ~ In k object_prototype) keys -> Z.of_nat (List.length keys) <= 2 ^ 40 ->
  total_usd calculator0 feeType VUndef (map VStr keys)
  = vnum (if (feeType =? "bundle_creation")%string then base else base + addOnsTotal keys).
Proof.
  intros Hf Hk Hn. pose proof (addOnsTotal_bounds keys). unfold total_usd. rewrite addOns_usd_exact by assumption.
  assert (B : obj_get (baseFees calculator0) feeType = vnum base)
    by (destruct Hf as [[= <- <-]|[[= <- <-]|[[= <- <-]|[]]]]; reflexivity).
  assert (0 <= base <= 59) by (destruct Hf as [[= <- <-]|[[= <- <-]|[[= <- <-]|[]]]]; lia).
  rewrite B. change (js_coalesce (vnum base) (vnum 0)) with (vnum base).
  rewrite js_add_vnum by (unfold safe, prec; lia). cbn [truthy andb].
  destruct Hf as [[= <- <-]|[[= <- <-]|[[= <- <-]|[]]]]; try reflexivity.
  cbn [String.eqb Ascii.eqb Bool.eqb]. rewrite B. cbn [to_num vnum]. unfold vnum.
  rewrite min_of_Z by (unfold safe, prec; lia). do 2 f_equal. lia.
Qed.

(** The oracle holds no price but the mock price. *)
Definition mock_price (o : oracle) : Prop := match lastPrice o with Some q => usd q = Num.dec 85 2 | None => True end.

Definition notifications (t : trace) : nat :=
  List.length (filter (fun e => ev_op e =? "subscriber")%string t).

Section Oracle.
Context `{Env}.

Lemma notify_spec cb q (o : oracle) t :
  wp (notify cb q) (fun _ o' t' => o' = o /\ notifications t' = S (notifications t)) (fun _ _ _ => False) o t.
Proof. unfold notify. wp_auto; auto. Qed.

Lemma emit_spec q (o : oracle) t :
  wp (emit q) (fun _ o' t' => o' = o /\ notifications t' = (notifications t + List.length (subscribers o))%nat)
    (fun _ _ _ => False) o t.
Proof.
  unfold emit. do 2 wp_step. unfold id.
  eapply wp_mono; [..|apply wp_for_each with
    (I := fun l o' t' => o' = o /\ (notifications t' + List.length l = notifications t + List.length (subscribers o))%nat)
    (E := fun _ _ _ => False)].
  - intros _ o' t' [-> E]. cbn in E. split; [reflexivity|lia].
  - auto.
  - intros x l o' t' [-> E]. eapply wp_mono; [..|apply notify_spec]; cbn beta; [|auto].
    intros _ o'' t'' [-> N]. cbn [List.length] in E. split; [reflexivity|lia].
  - auto.
Qed.

(** Notifications of one request: one per subscriber when the cached price is
    too old, none otherwise. *)
Definition refreshes (o : oracle) (t : trace) : nat := match fresh o (clock t) with Some _ => 0 | None => 1 end.

Lemma getCurrentPrice_spec (o : oracle) t :
  mock_price o ->
  wp getCurrentPrice
    (fun q o' t' => usd q = Num.dec 85 2 /\ mock_price o' /\ subscribers o' = subscribers o
       /\ notifications t' = (notifications t + refreshes o t * List.length (subscribers o))%nat)
    (fun _ _ _ => False) o t.
Proof.
  intros M. unfold getCurrentPrice, refreshes. do 4 wp_step. unfold id.
  destruct (fresh o (clock t)) as [q|] eqn:F.
  - wp_step. unfold fresh, mock_price in *. destruct (lastPrice o) as [q'|]; [|discriminate].
    destruct (Num.ltb _ _); [|discriminate]. injection F as ->. cbn. rewrite Nat.add_0_r. auto.
  - unfold fetchPriceFromSources. do 9 wp_step. eapply wp_mono; [..|apply emit_spec]; cbn beta; [|auto].
    intros _ o' t' [-> N]. wp_step. cbn in *. rewrite Nat.add_0_r. auto.
Qed.

End Oracle.

(** ** Theorems *)



(** A polling tick calls every subscriber once when the cached price is
    still valid and twice when it is not: refreshing announces the price and
    the tick announces it again. *)
Theorem tick_notifications `{Env} (o : oracle) t :
  mock_price o ->
  wp onTick
    (fun _ o' t' => mock_price o' /\ subscribers o' = subscribers o
       /\ notifications t' = (notifications t + (1 + refreshes o t) * List.length (subscribers o))%nat)
    (fun _ _ _ => False) o t.
Proof.
  intros M. unfold onTick. do 2 wp_step. eapply wp_mono; [..|apply (getCurrentPrice_spec o t M)]; cbn beta; [|intros ? ? ? []].
  intros q o1 t1 (_ & M1 & S1 & N1). eapply wp_mono; [..|apply emit_spec]; cbn beta; [|intros ? ? ? []].
  intros _ o2 t2 [-> N2]. rewrite S1 in *. repeat split; try assumption. lia.
Qed.

Lemma tick_notifications_witness :
  wp (onTick (H := coop)) (fun _ _ t' => notifications t' = 4%nat) (fun _ _ _ => False)
    (set_subscribers [0; 1]%nat oracle0) [].
Proof.
  eapply wp_mono; [..|apply (tick_notifications (H := coop) (set_subscribers [0; 1]%nat oracle0) [])]; cbn beta.
  - intros _ o' t' (_ & _ & N). rewrite N. reflexivity.
  - auto.
  - exact I.
Defined.
