(* ===== verification/MarketOracle.v ===== *)
(** * Marketplace price oracle

    [PriceOracle] and the hook [usePriceOracle] of
    src/sdk-core/marketplace-api/price-oracle.js: a cached SHAH price from
    four sources with a fallback, subscribers and a polling timer, shared by
    the components of the page.

    The four requests are started together and awaited together; the model
    issues the four [fetch] calls in order and then runs the rest of each
    source in the same order.  Subscribers are either components of the page,
    whose state is part of the model, or callbacks of the application. *)

From Stdlib Require Import ZArith Bool Lia List String.
From S2P Require Import Prelude JsNum JsNumFacts JsVal JsMonad Machine Payments.
Import ListNotations.
Local Open Scope string_scope.

(** The state of one mounted [usePriceOracle]. *)
Record hook : Type := Hook { h_price : jsval; h_isLoading : bool; h_error : jsval; h_lastUpdate : jsval }.

Definition hook0 : hook := Hook VNull true VNull VNull.

Inductive callback : Type :=
  | Component (c : nat)
  | Application (name : string).

Definition callback_eqb (x y : callback) : bool :=
  match x, y with
  | Component a, Component b => Nat.eqb a b
  | Application a, Application b => a =? b
  | _, _ => false
  end.

Record oracle : Type := Oracle {
  apiBaseUrl : string;
  cacheDuration : jsval;
  fallbackPrice : jsval;
  cachePrice : jsval;
  cacheTimestamp : num;
  cacheSource : jsval;
  priceUpdateCallbacks : list callback;
  isPolling : bool;
  pollInterval : jsval;
  hooks : list (nat * hook)
}.

(** [new PriceOracle(config)]. *)
Definition oracle_constructor (config : jsval) : result oracle :=
  let config := default config (VObj []) in
  res_bind (get config "apiBaseUrl") (fun base =>
  Ok (Oracle (to_str (js_or base (VStr "https://api.shah.vip")))
        (js_or (get_opt config "cacheDuration") (vnum 30000))
        (js_or (get_opt config "fallbackPrice") (VNum (Num.dec 1 3)))
        VNull Num.zero VNull [] false VNull [])).

Definition set_cache (p : jsval) (ts : num) (src : jsval) (o : oracle) : oracle :=
  Oracle (apiBaseUrl o) (cacheDuration o) (fallbackPrice o) p ts src (priceUpdateCallbacks o)
    (isPolling o) (pollInterval o) (hooks o).
Definition set_callbacks (l : list callback) (o : oracle) : oracle :=
  Oracle (apiBaseUrl o) (cacheDuration o) (fallbackPrice o) (cachePrice o) (cacheTimestamp o) (cacheSource o) l
    (isPolling o) (pollInterval o) (hooks o).
Definition set_polling (b : bool) (h : jsval) (o : oracle) : oracle :=
  Oracle (apiBaseUrl o) (cacheDuration o) (fallbackPrice o) (cachePrice o) (cacheTimestamp o) (cacheSource o)
    (priceUpdateCallbacks o) b h (hooks o).
Definition set_hooks (l : list (nat * hook)) (o : oracle) : oracle :=
  Oracle (apiBaseUrl o) (cacheDuration o) (fallbackPrice o) (cachePrice o) (cacheTimestamp o) (cacheSource o)
    (priceUpdateCallbacks o) (isPolling o) (pollInterval o) l.

(** An update of the state of a component; ignored once it is unmounted. *)
Definition with_hook (c : nat) (f : hook -> hook) (o : oracle) : oracle :=
  match assoc Nat.eqb c (hooks o) with
  | Some h => set_hooks (assoc_set Nat.eqb c (f h) (hooks o)) o
  | None => o
  end.

Definition set_price (v : jsval) (h : hook) : hook := Hook v (h_isLoading h) (h_error h) (h_lastUpdate h).
Definition set_loading (b : bool) (h : hook) : hook := Hook (h_price h) b (h_error h) (h_lastUpdate h).
Definition set_error (v : jsval) (h : hook) : hook := Hook (h_price h) (h_isLoading h) v (h_lastUpdate h).
Definition set_lastUpdate (v : jsval) (h : hook) : hook := Hook (h_price h) (h_isLoading h) (h_error h) v.

(** [parseFloat(v)] of any value. *)
Definition parse_price (v : jsval) : jsval := VNum (parseFloat (to_str v)).

Section Methods.
Context `{Env}.
Abbreviation JS := (JS oracle).

Definition request_options (headers : list (string * jsval)) : jsval :=
  VObj [("method", VStr "GET"); ("headers", VObj headers); ("timeout", vnum 5000)].
Definition json_header : string * jsval := ("Content-Type", VStr "application/json").

(** A source up to its first [await]: the promise it then waits for. *)
Definition start (request : JS jsval) : JS (result jsval) :=
  try_catch (let* p := request in ret (Ok p)) (fun e => ret (Throw e)).

Definition start_ShahSwap : JS jsval :=
  let* o := read id in
  fetch [VStr (apiBaseUrl o ++ "/dex/price/SHAH/USD"); request_options [json_header]].
Definition start_CoinGecko : JS jsval :=
  fetch [VStr "https://api.coingecko.com/api/v3/simple/price?ids=shahcoin&vs_currencies=usd";
         request_options [json_header]].
Definition start_CoinMarketCap : JS jsval :=
  let* key := ext "process.env.COINMARKETCAP_API_KEY" [] in
  fetch [VStr "https://pro-api.coinmarketcap.com/v1/cryptocurrency/quotes/latest?symbol=SHAH&convert=USD";
         request_options [json_header; ("X-CMC_PRO_API_KEY", js_or key (VStr EmptyString))]].
Definition start_CustomAPI : JS jsval :=
  let* o := read id in
  fetch [VStr (apiBaseUrl o ++ "/price/shash/usd"); request_options [json_header]].

(** The rest of a source: every failure is [null]. *)
Definition finish (name : string) (price_of : jsval -> result jsval) (p : result jsval) : JS jsval :=
  try_catch
    (let* response := lift p in
     let* ok := lift (get response "ok") in
     if truthy ok then
       let* data := response_json response in
       let* v := lift (price_of data) in
       ret (parse_price v)
     else throw (Error (name ++ " API error: " ++ to_str (get_opt response "status"))))
    (fun _ => ret VNull).

Definition first_of (keys : list string) (data : jsval) : result jsval :=
  res_bind (get data (hd EmptyString keys)) (fun _ =>
  Ok (fold_right (fun k rest => js_or (get_opt data k) rest) (vnum 0) keys)).

(** [data.shahcoin?.usd || 0]. *)
Definition price_CoinGecko (data : jsval) : result jsval :=
  res_bind (get data "shahcoin") (fun c => Ok (js_or (get_opt c "usd") (vnum 0))).
(** [data.data?.SHAH?.quote?.USD?.price || 0]; a missing link ends the chain. *)
Definition price_CoinMarketCap (data : jsval) : result jsval :=
  res_bind (get data "data") (fun d =>
  Ok (js_or (get_opt (get_opt (get_opt (get_opt d "SHAH") "quote") "USD") "price") (vnum 0))).

Definition finish_ShahSwap := finish "ShahSwap" (first_of ["price"; "lastPrice"]).
Definition finish_CoinGecko := finish "CoinGecko" price_CoinGecko.
Definition finish_CoinMarketCap := finish "CoinMarketCap" price_CoinMarketCap.
Definition finish_CustomAPI := finish "Custom" (first_of ["price"; "usd"]).

(** Each source on its own, as its method runs. *)
Definition fetchFromShahSwap : JS jsval := let* p := start start_ShahSwap in finish_ShahSwap p.
Definition fetchFromCoinGecko : JS jsval := let* p := start start_CoinGecko in finish_CoinGecko p.
Definition fetchFromCoinMarketCap : JS jsval := let* p := start start_CoinMarketCap in finish_CoinMarketCap p.
Definition fetchFromCustomAPI : JS jsval := let* p := start start_CustomAPI in finish_CustomAPI p.

(** [v && v > 0]. *)
Definition usable (v : jsval) : bool := truthy v && js_gt v (vnum 0).

Fixpoint first_usable (l : list jsval) : option jsval :=
  match l with [] => None | v :: l' => if usable v then Some v else first_usable l' end.

Definition fetchPriceFromMultipleSources : JS jsval :=
  let* p1 := start start_ShahSwap in
  let* p2 := start start_CoinGecko in
  let* p3 := start start_CoinMarketCap in
  let* p4 := start start_CustomAPI in
  let* v1 := finish_ShahSwap p1 in
  let* v2 := finish_CoinGecko p2 in
  let* v3 := finish_CoinMarketCap p3 in
  let* v4 := finish_CustomAPI p4 in
  match first_usable [v1; v2; v3; v4] with
  | Some v => ret v
  | None => throw (Error "All price sources failed")
  end.

Definition updatePriceCache (price : jsval) (source : string) : JS unit :=
  let* t := now in modify (set_cache price t (VStr source)).

(** The listener of a component. *)
Definition onPrice (c : nat) (newPrice : jsval) : JS unit :=
  modify (with_hook c (set_price newPrice)) ;;;
  let* t := now in
  modify (with_hook c (set_lastUpdate (VNum t))).

Definition notify (price : jsval) (cb : callback) : JS unit :=
  try_catch
    (match cb with
     | Component c => onPrice c price
     | Application name => ext "callback" [VStr name; price] ;;; ret tt
     end)
    (fun _ => ret tt).

Definition notifyPriceUpdate (price : jsval) : JS unit :=
  let* o := read id in for_each (priceUpdateCallbacks o) (notify price).

Definition getShahPrice (forceRefresh : bool) : JS jsval :=
  let* t := now in
  let* o := read id in
  if negb forceRefresh && truthy (cachePrice o)
     && Num.ltb (Num.sub t (cacheTimestamp o)) (to_num (cacheDuration o))
  then ret (cachePrice o)
  else
    let* fetched := try_catch
      (let* price := fetchPriceFromMultipleSources in
       if usable price
       then updatePriceCache price "api" ;;; notifyPriceUpdate price ;;; ret (Some price)
       else ret None)
      (fun _ => ret None) in
    match fetched with
    | Some price => ret price
    | None =>
        let* o := read id in
        ret (if truthy (cachePrice o) then cachePrice o else fallbackPrice o)
    end.

Definition subscribeToPriceUpdates (cb : callback) : JS unit :=
  modify (fun o => set_callbacks (priceUpdateCallbacks o ++ [cb])%list o).

(** [splice(indexOf(cb), 1)]: the first occurrence goes. *)
Fixpoint remove_first (cb : callback) (l : list callback) : list callback :=
  match l with
  | [] => []
  | x :: l' => if callback_eqb cb x then l' else x :: remove_first cb l'
  end.

Definition unsubscribe (cb : callback) : JS unit :=
  modify (fun o => set_callbacks (remove_first cb (priceUpdateCallbacks o)) o).

Definition startPolling (interval : jsval) : JS unit :=
  let* o := read id in
  if isPolling o then ret tt
  else
    modify (fun o => set_polling true (pollInterval o) o) ;;;
    let* handle := ext "setInterval" [default interval (vnum 30000)] in
    modify (fun o => set_polling (isPolling o) handle o).

(** The callback of the interval. *)
Definition onPoll : JS unit :=
  try_catch (getShahPrice true ;;; ret tt) (fun _ => ret tt).

Definition stopPolling : JS unit :=
  let* o := read id in
  (if truthy (pollInterval o)
   then ext "clearInterval" [pollInterval o] ;;; modify (fun o => set_polling (isPolling o) VNull o)
   else ret tt) ;;;
  modify (fun o => set_polling false (pollInterval o) o).

Definition getPriceCacheInfo : JS jsval :=
  let* o := read id in
  let* t1 := now in
  let* t2 := now in
  let age t := Num.sub t (cacheTimestamp o) in
  ret (VObj [("price", cachePrice o); ("timestamp", VNum (cacheTimestamp o)); ("source", cacheSource o);
             ("isStale", VBool (Num.ltb (to_num (cacheDuration o)) (age t1)));
             ("timeUntilStale", VNum (Num.max Num.zero (Num.sub (to_num (cacheDuration o)) (age t2))))]).

Definition shahToUSD (shahAmount : jsval) : JS jsval :=
  let* price := getShahPrice false in ret (js_mul shahAmount price).
Definition usdToShah (usdAmount : jsval) : JS jsval :=
  let* price := getShahPrice false in ret (js_div usdAmount price).
Definition satoshisToUSD (satoshis : jsval) : JS jsval :=
  shahToUSD (js_div satoshis (vnum 100000000)).
Definition usdToSatoshis (usdAmount : jsval) : JS jsval :=
  let* shahAmount := usdToShah usdAmount in
  ret (VNum (Num.round (Num.mul (to_num shahAmount) (Num.of_Z 100000000)))).

(** ** The hook *)

Definition polling_enabled (config : jsval) : bool := negb (strict_eq (get_opt config "enablePolling") (VBool false)).

Definition mount (c : nat) : JS unit := modify (fun o => set_hooks (assoc_set Nat.eqb c hook0 (hooks o)) o).

(** The effect of [usePriceOracle], run when a component is mounted. *)
Definition initPrice (c : nat) (config : jsval) : JS unit :=
  try_finally
    (try_catch
      (modify (with_hook c (set_loading true)) ;;;
       modify (with_hook c (set_error VNull)) ;;;
       let* currentPrice := getShahPrice false in
       modify (with_hook c (set_price currentPrice)) ;;;
       let* t := now in
       modify (with_hook c (set_lastUpdate (VNum t))) ;;;
       subscribeToPriceUpdates (Component c) ;;;
       if polling_enabled config then startPolling (get_opt config "pollInterval") else ret tt)
      (fun e => modify (with_hook c (set_error (VStr (e_msg e))))))
    (modify (with_hook c (set_loading false))).

(** Its cleanup, when the component goes away. *)
Definition cleanup (c : nat) (config : jsval) : JS unit :=
  unsubscribe (Component c) ;;;
  (if polling_enabled config then stopPolling else ret tt) ;;;
  modify (fun o => set_hooks (assoc_del Nat.eqb c (hooks o)) o).

Definition refreshPrice (c : nat) : JS unit :=
  try_finally
    (try_catch
      (modify (with_hook c (set_loading true)) ;;;
       modify (with_hook c (set_error VNull)) ;;;
       let* newPrice := getShahPrice true in
       modify (with_hook c (set_price newPrice)) ;;;
       let* t := now in
       modify (with_hook c (set_lastUpdate (VNum t))))
      (fun e => modify (with_hook c (set_error (VStr (e_msg e))))))
    (modify (with_hook c (set_loading false))).

End Methods.

(** ** Facts *)

(** A usable price is a positive number. *)
Definition price_wf (o : oracle) : Prop :=
  (truthy (cachePrice o) = true -> usable (cachePrice o) = true) /\ usable (fallbackPrice o) = true.

(** Timers as documented: setting one returns a non-zero handle, clearing one
    does not throw. *)
Class TimerLaws `{Env} : Prop := {
  setInterval_handle t args : exists h, reply t "setInterval" args = Ok h /\ truthy h = true;
  clearInterval_total t args : exists v, reply t "clearInterval" args = Ok v
}.

Definition count_op (op : string) (t : trace) : nat := List.length (filter (fun e => ev_op e =? op) t).

(** The intervals set and not cleared are one while polling, none otherwise. *)
Definition timer_ok (o : oracle) (t : trace) : Prop :=
  truthy (pollInterval o) = isPolling o
  /\ count_op "setInterval" t = (count_op "clearInterval" t + if isPolling o then 1 else 0)%nat.

(** What a component or the application may call. *)
Inductive op : Type :=
  | OpPrice (force : bool)
  | OpPoll
  | OpStart (interval : jsval)
  | OpStop
  | OpSubscribe (cb : callback)
  | OpUnsubscribe (cb : callback)
  | OpMount (c : nat) (config : jsval)
  | OpRefresh (c : nat)
  | OpUnmount (c : nat) (config : jsval).

Definition run `{Env} (x : op) : JS oracle unit :=
  match x with
  | OpPrice force => getShahPrice force ;;; ret tt
  | OpPoll => onPoll
  | OpStart i => startPolling i
  | OpStop => stopPolling
  | OpSubscribe cb => subscribeToPriceUpdates cb
  | OpUnsubscribe cb => unsubscribe cb
  | OpMount c config => mount c ;;; initPrice c config
  | OpRefresh c => refreshPrice c
  | OpUnmount c config => cleanup c config
  end.

Inductive step `{Env} : oracle * trace -> oracle * trace -> Prop :=
  | step_run x o t r o' t' : run x o t = (r, o', t') -> step (o, t) (o', t').

Section Invariants.
Context `{Env}.

(** The part of the state the network methods leave alone. *)
Definition frame (o o' : oracle) : Prop :=
  isPolling o' = isPolling o /\ pollInterval o' = pollInterval o /\ fallbackPrice o' = fallbackPrice o.

(** An invariant that only looks at the cache, the fallback and the timers. *)
Class local (I : oracle -> trace -> Prop) : Prop := {
  local_event o t e : ev_op e <> "setInterval" -> ev_op e <> "clearInterval" -> I o t -> I o (e :: t);
  local_hooks o t l : I o t -> I (set_hooks l o) t;
  local_callbacks o t l : I o t -> I (set_callbacks l o) t;
  local_cache o t p ts src : usable p = true -> I o t -> I (set_cache p ts src o) t
}.

Section Local.
Context (I : oracle -> trace -> Prop) `{local I}.

Lemma oracle_ext name args :
  name <> "setInterval" -> name <> "clearInterval" -> preserves I (ext name args).
Proof. intros N1 N2 o t HI. unfold ext, wp. destruct (reply t name args); apply local_event; assumption. Qed.

Lemma oracle_now : preserves I now.
Proof. intros o t HI. apply local_event; discriminate || assumption. Qed.

Lemma preserves_with_hook c f : preserves I (modify (with_hook c f)).
Proof. intros o t HI. unfold modify, wp, with_hook. destruct (assoc _ _ _); [apply local_hooks|]; assumption. Qed.

Lemma preserves_set_hooks f : preserves I (modify (fun o => set_hooks (f o) o)).
Proof. intros o t HI. apply local_hooks, HI. Qed.

Lemma preserves_set_callbacks f : preserves I (modify (fun o => set_callbacks (f o) o)).
Proof. intros o t HI. apply local_callbacks, HI. Qed.

#[local] Hint Resolve oracle_now preserves_with_hook preserves_set_hooks preserves_set_callbacks : preserve.
#[local] Hint Extern 1 (preserves _ (ext _ _)) => apply oracle_ext; discriminate : preserve.

Lemma preserves_update price src : usable price = true -> preserves I (updatePriceCache price src).
Proof.
  intros U. unfold updatePriceCache. preserve. intros o t HI. apply local_cache; assumption.
Qed.

Lemma preserves_notify price : preserves I (notifyPriceUpdate price).
Proof. unfold notifyPriceUpdate, notify, onPrice. preserve. Qed.

Lemma preserves_finish name f p : preserves I (finish name f p).
Proof. unfold finish, response_json. preserve. Qed.

#[local] Hint Resolve preserves_notify preserves_finish : preserve.

Lemma preserves_sources : preserves I fetchPriceFromMultipleSources.
Proof.
  unfold fetchPriceFromMultipleSources, start, start_ShahSwap, start_CoinGecko, start_CoinMarketCap, start_CustomAPI,
    finish_ShahSwap, finish_CoinGecko, finish_CoinMarketCap, finish_CustomAPI, fetch. preserve.
Qed.

#[local] Hint Resolve preserves_sources : preserve.
#[local] Hint Extern 1 (preserves _ (updatePriceCache _ _)) => apply preserves_update; assumption : preserve.

Lemma preserves_getShahPrice force : preserves I (getShahPrice force).
Proof.
  unfold getShahPrice. preserve.
Qed.

#[local] Hint Resolve preserves_getShahPrice : preserve.

(** Everything but the timer methods preserves such an invariant. *)
Lemma preserves_run x :
  (forall i, preserves I (startPolling i)) -> preserves I stopPolling -> preserves I (run x).
Proof.
  intros Hs Ht. destruct x; cbn [run];
    unfold onPoll, subscribeToPriceUpdates, unsubscribe, mount, initPrice, refreshPrice, cleanup,
      subscribeToPriceUpdates, unsubscribe; preserve.
Qed.

End Local.

#[global] Instance price_local : local (fun o _ => price_wf o).
Proof.
  split; try (intros; assumption). intros o t p ts src U [_ F]. split; [intros _; exact U|exact F].
Qed.

Lemma price_startPolling i : preserves (fun o _ => price_wf o) (startPolling i).
Proof. intros o t W. unfold startPolling. wp_auto; exact W. Qed.

Lemma price_stopPolling : preserves (fun o _ => price_wf o) stopPolling.
Proof. intros o t W. unfold stopPolling. wp_auto; exact W. Qed.

#[global] Instance timer_local : local timer_ok.
Proof.
  split; try (intros; assumption). intros o t e N1 N2 [T C]. split; [exact T|].
  unfold count_op in *. cbn [filter]. apply String.eqb_neq in N1, N2. rewrite N1, N2. exact C.
Qed.

Lemma run_invariant (I : oracle -> trace -> Prop) o0 o t :
  (forall x, preserves I (run x)) -> I o0 [] -> steps step (o0, []) (o, t) -> I o t.
Proof.
  intros HI H0 Hs.
  apply (steps_invariant step (fun x => I (fst x) (snd x))) with (2 := Hs); [|exact H0].
  intros x y W St. destruct St as [op o1 t1 r o2 t2 E]. cbn [fst snd] in *.
  pose proof (HI op o1 t1 W) as P. unfold wp in P. rewrite E in P. destruct r; exact P.
Qed.

End Invariants.

Section Timers.
Context `{TimerLaws}.

Lemma count_op_cons name e t : count_op name (e :: t) = ((if (ev_op e =? name)%string then 1 else 0) + count_op name t)%nat.
Proof using Type. unfold count_op. cbn [filter]. destruct (ev_op e =? name); reflexivity. Qed.

Lemma timer_startPolling i : preserves timer_ok (startPolling i).
Proof.
  intros o t [T C]. unfold startPolling. do 2 wp_step. unfold id. destruct (isPolling o) eqn:P.
  - wp_step. split; [rewrite P; exact T|rewrite P; exact C].
  - do 3 wp_step. destruct (setInterval_handle t [default i (vnum 30000)]) as (h & R & Th).
    apply wp_ext; intros v Hv; rewrite R in Hv; [injection Hv as <-|discriminate]. wp_step.
    split; [exact Th|]. cbn [isPolling set_polling]. rewrite !count_op_cons. cbn [ev_op String.eqb Ascii.eqb Bool.eqb]. lia.
Qed.

Lemma timer_stopPolling : preserves timer_ok stopPolling.
Proof.
  intros o t [T C]. unfold stopPolling. do 3 wp_step. unfold id. destruct (truthy (pollInterval o)) eqn:P.
  - wp_step. destruct (clearInterval_total t [pollInterval o]) as (w & R).
    apply wp_ext; intros v Hv; rewrite R in Hv; [injection Hv as <-|discriminate]. do 2 wp_step.
    split; [reflexivity|]. cbn [isPolling set_polling]. rewrite <- T in C. rewrite !count_op_cons.
    cbn [ev_op String.eqb Ascii.eqb Bool.eqb]. lia.
  - do 2 wp_step. split; [exact P|]. cbn [isPolling set_polling]. rewrite <- T in C. exact C.
Qed.

End Timers.

Lemma getShahPrice_usable `{Env} force o t :
  price_wf o ->
  wp (getShahPrice force) (fun p o' _ => usable p = true /\ price_wf o') (fun _ _ _ => False) o t.
Proof.
  intros W. pose (I := fun (o : oracle) (_ : trace) => price_wf o).
  unfold getShahPrice. do 4 wp_step. unfold id.
  destruct (negb force && _ && _) eqn:C.
  - wp_step. split; [|exact W]. apply W. apply andb_true_iff in C as [C _]. apply andb_true_iff in C as [_ C]. exact C.
  - wp_step. apply (wp_mono _ (fun r o' _ => price_wf o' /\ match r with Some p => usable p = true | None => True end) _
      (fun _ _ _ => False)); [|auto|].
    + intros [p|] o' t' [W' U]; [wp_step; auto|]. do 3 wp_step. split; [|exact W'].
      destruct (truthy (cachePrice o')) eqn:T; [apply W', T|apply W'].
    + wp_step. wp_step. eapply wp_mono; [..|apply (preserves_sources I); exact W]; cbn beta.
      * intros p o1 t1 W1. destruct (usable p) eqn:U; [|wp_step; auto]. wp_step.
        eapply wp_mono; [..|apply (preserves_update I p "api" U); exact W1]; cbn beta.
        -- intros _ o2 t2 W2. wp_step. eapply wp_mono; [..|apply (preserves_notify I p); exact W2]; cbn beta;
             [intros _ o3 t3 W3|intros e o3 t3 W3]; wp_step; auto.
        -- intros e o2 t2 W2. wp_step. auto.
      * intros e o1 t1 W1. wp_step. auto.
Qed.

(** A browser with timers, for the witnesses. *)
Definition page : Env := {|
  reply := fun _ op _ => if op =? "setInterval" then Ok (vnum 7) else Ok VUndef;
  clock := fun _ => Num.zero;
  random := fun _ => Num.zero |}.

#[global] Instance page_timers : @TimerLaws page.
Proof. split; intros; eexists; [split|]; reflexivity. Qed.

Definition page_oracle : oracle := Oracle "https://api.shah.vip" (vnum 30000) (VNum (Num.dec 1 3))
  VNull Num.zero VNull [] false VNull [].

Definition after (x : op) (s : oracle * trace) : oracle * trace :=
  let '(_, o', t') := run (H := page) x (fst s) (snd s) in (o', t').

Lemma after_step x s : step (H := page) s (after x s).
Proof.
  destruct s as [o t]. unfold after. cbn [fst snd].
  destruct (run x o t) as [[r o'] t'] eqn:E. exact (step_run _ _ _ _ _ _ E).
Qed.

(** ** Theorems *)

(** The oracle always answers with a positive price: in every state a
    page can bring it into, and whatever the four services answer, asking
    for the price never throws, provided the configured fallback is
    positive. *)
Theorem oracle_price_positive `{Env} config o0 o t force :
  oracle_constructor config = Ok o0 -> usable (fallbackPrice o0) = true ->
  steps step (o0, []) (o, t) ->
  wp (getShahPrice force) (fun p _ _ => usable p = true) (fun _ _ _ => False) o t.
Proof.
  intros Hc Hf Hs. assert (W : price_wf o).
  { apply (run_invariant (fun o _ => price_wf o) o0 o t) with (3 := Hs).
    - intros x. apply preserves_run; [exact _|apply price_startPolling|apply price_stopPolling].
    - split; [|exact Hf]. unfold oracle_constructor in Hc.
      destruct (get _ "apiBaseUrl"); cbn [res_bind] in Hc; [|discriminate]. injection Hc as <-. discriminate. }
  eapply wp_mono; [..|apply (getShahPrice_usable force o t W)]; cbn beta; [|auto]. intros p o' t' [U _]. exact U.
Qed.

Lemma oracle_price_positive_witness :
  oracle_constructor VUndef = Ok page_oracle
  /\ wp (getShahPrice (H := page) true) (fun p _ _ => usable p = true) (fun _ _ _ => False) page_oracle [].
Proof.
  split; [reflexivity|].
  apply (oracle_price_positive (H := page) VUndef page_oracle); [reflexivity|vm_compute; reflexivity|constructor].
Defined.



(** A component that goes away stops the polling of all the others: the
    timer is shared and not counted, so after its cleanup the oracle does
    not poll, while every other component is still mounted and subscribed. *)
Theorem unmount_stops_polling `{TimerLaws} c config o t c' h :
  timer_ok o t -> polling_enabled config = true -> c' <> c ->
  assoc Nat.eqb c' (hooks o) = Some h -> In (Component c') (priceUpdateCallbacks o) ->
  wp (cleanup c config)
    (fun _ o' t' => isPolling o' = false /\ count_op "setInterval" t' = count_op "clearInterval" t'
       /\ assoc Nat.eqb c' (hooks o') = Some h /\ In (Component c') (priceUpdateCallbacks o'))
    (fun _ _ _ => False) o t.
Proof.
  intros [T C] Hp N Hh Hin. unfold cleanup, unsubscribe. do 2 wp_step. rewrite Hp. wp_step.
  set (o1 := set_callbacks _ o).
  assert (W1 : timer_ok o1 t) by (split; assumption).
  assert (Q : wp stopPolling (fun _ o' t' => timer_ok o' t' /\ isPolling o' = false /\ hooks o' = hooks o
            /\ priceUpdateCallbacks o' = priceUpdateCallbacks o1) (fun _ _ _ => False) o1 t).
  { pose proof (timer_stopPolling o1 t W1) as P. unfold stopPolling in *. revert P. unfold wp, bind, read, modify, id, ext, ret.
    destruct (truthy (pollInterval o1)); [|cbn; auto].
    destruct (clearInterval_total t [pollInterval o1]) as (w & ->). cbn. auto. }
  eapply wp_mono; [..|exact Q]; cbn beta; [|auto]. intros _ o2 t2 (W2 & P2 & H2 & C2). wp_step.
  cbn [isPolling set_hooks hooks priceUpdateCallbacks]. split; [exact P2|]. split.
  { destruct W2 as [_ W2]. rewrite P2, Nat.add_0_r in W2. exact W2. }
  split.
  - rewrite H2, assoc_del_other; [exact Hh|exact Nat.eqb_spec|congruence].
  - rewrite C2. unfold o1. cbn [priceUpdateCallbacks set_callbacks].
    clear -Hin N. induction (priceUpdateCallbacks o) as [|x l IH]; [exact Hin|]. cbn [remove_first].
    destruct Hin as [-> |Hin].
    + cbn [callback_eqb]. destruct (Nat.eqb_spec c c'); [congruence|]. left. reflexivity.
    + destruct (callback_eqb (Component c) x); [exact Hin|right; exact (IH Hin)].
Qed.

Lemma unmount_stops_polling_witness :
  let s := after (OpMount 1 VUndef) (after (OpMount 0 VUndef) (page_oracle, [])) in
  wp (cleanup (H := page) 0 VUndef)
    (fun _ o' _ => isPolling o' = false /\ In (Component 1) (priceUpdateCallbacks o')) (fun _ _ _ => False) (fst s) (snd s).
Proof.
  intros s. eapply wp_mono; [..|eapply (unmount_stops_polling (H := page) 0 VUndef (fst s) (snd s) 1)]; cbn beta.
  - intros _ o' t' (P & _ & _ & Hin). auto.
  - auto.
  - split; vm_compute; reflexivity.
  - reflexivity.
  - discriminate.
  - vm_compute. reflexivity.
  - vm_compute. auto.
Defined.

(** While the cached price is valid no request is made: the only
    interaction is a look at the clock. *)
Theorem cached_price_no_request `{Env} o t :
  truthy (cachePrice o) = true ->
  Num.ltb (Num.sub (clock t) (cacheTimestamp o)) (to_num (cacheDuration o)) = true ->
  getShahPrice false o t = (Ok (cachePrice o), o, Ev "Date.now" [] (Ok (VNum (clock t))) :: t).
Proof. intros Hp Ht. unfold getShahPrice, bind, now, read, id. rewrite Hp, Ht. reflexivity. Qed.

Lemma cached_price_no_request_witness :
  let o := set_cache (vnum 2) Num.zero (VStr "api") page_oracle in
  getShahPrice (H := page) false o [] = (Ok (vnum 2), o, [Ev "Date.now" [] (Ok (VNum Num.zero))]).
Proof. intros o. apply (cached_price_no_request (H := page) o []); vm_compute; reflexivity. Defined.
