(* ===== verification/Checkout.v ===== *)
(** * NFT marketplace: card checkout and listings

    src/sdk-core/marketplace-api/stripe-payments.js ([StripePayments] and the
    hook [useStripePayments]), the component
    src/web/components/StripeNFTPayment.jsx on top of it, and the client API
    of src/sdk-core/marketplace-api/index.js.  The class uses the shared
    price oracle (MarketOracle), so its methods run over the oracle's state. *)

From Stdlib Require Import ZArith Bool Lia List String.
From S2P Require Import Prelude JsNum JsNumFacts JsVal JsMonad Payments MarketOracle.
Import ListNotations.
Local Open Scope string_scope.

(** ** StripePayments *)

Record stripe : Type := Stripe { stripePublicKey : jsval; apiBase : string; isTestMode : jsval }.

(** [a && b]. *)
Definition js_and (a b : jsval) : jsval := if truthy a then b else a.

Definition isStripeEnabled (this : stripe) (nft : jsval) : result jsval :=
  if negb (truthy (stripePublicKey this)) then Ok (VBool false)
  else
    res_bind (get nft "verified") (fun verified =>
    let f k := get_opt nft k in
    res_bind (if truthy verified then Ok verified
              else
                res_bind (if truthy (f "metadata") then get (f "metadata") "adminVerified" else Ok (f "metadata")) (fun adm =>
                if truthy adm then Ok adm
                else Ok (js_and (f "tier")
                           (VBool (existsb (fun x => is_str (f "tier") x) ["Pro"; "Premium"]))))) (fun isVerified =>
    let isListed := js_or (f "isListed") (VBool (js_gt (f "listedPriceSatoshis") (vnum 0))) in
    Ok (js_and isVerified isListed))).

Section Class.
Context `{Env} (this : stripe).
Abbreviation JS := (JS oracle).

(** The constructor reads the process environment. *)
Definition constructor (config : jsval) : JS stripe :=
  let config := default config (VObj []) in
  let* key := lift (get config "stripePublicKey") in
  let* key := if truthy key then ret key else ext "process.env.STRIPE_PUBLIC_KEY" [] in
  let base := js_or (get_opt config "apiBaseUrl") (VStr "https://api.shah.vip/marketplace") in
  let* test := if truthy (get_opt config "isTestMode") then ret (get_opt config "isTestMode")
               else let* e := ext "process.env.NODE_ENV" [] in ret (VBool (is_str e "development")) in
  ret (Stripe key (to_str base) test).

Definition usd_price (nft shahPrice : jsval) : jsval :=
  js_mul (js_div (js_or (get_opt nft "listedPriceSatoshis") (vnum 0)) (vnum 100000000)) shahPrice.

Definition calculateUSDPrice (nft : jsval) : JS jsval :=
  let* shahPrice := getShahPrice false in
  let* _ := lift (get nft "listedPriceSatoshis") in
  ret (usd_price nft shahPrice).

Definition unit_amount (usdPrice : jsval) : jsval :=
  VNum (Num.round (Num.mul (to_num usdPrice) (Num.of_Z 100))).

(** [options.k || `${window.location.origin}${path}`]. *)
Definition page_url (options : jsval) (k path : string) : JS jsval :=
  let* given := lift (get options k) in
  if truthy given then ret given
  else let* origin := ext "window.location.origin" [] in ret (VStr (to_str origin ++ path)).

Definition session_data (nft buyerAddress options usdPrice success cancel : jsval) (satoshis : string) : jsval :=
  let f k := get_opt nft k in
  VObj
    [("payment_method_types", VArr [VStr "card"]);
     ("line_items", VArr [VObj
        [("price_data", VObj
            [("currency", VStr "usd");
             ("product_data", VObj
                [("name", f "name");
                 ("description", js_or (f "description") (VStr ("NFT by " ++ to_str (f "creator"))));
                 ("images", VArr (if truthy (f "imageURI") then [f "imageURI"] else []));
                 ("metadata", VObj [("nft_id", f "id"); ("creator", f "creator");
                                    ("tier", js_or (f "tier") (VStr "Basic"))])]);
             ("unit_amount", unit_amount usdPrice)]);
         ("quantity", vnum 1)]]);
     ("mode", VStr "payment"); ("success_url", success); ("cancel_url", cancel);
     ("metadata", VObj
        [("nft_id", f "id"); ("buyer_address", buyerAddress); ("seller_address", f "owner");
         ("price_satoshis", VStr satoshis); ("price_usd", VStr (to_str usdPrice));
         ("tier", js_or (f "tier") (VStr "Basic"))]);
     ("customer_email", get_opt options "customerEmail"); ("allow_promotion_codes", VBool true);
     ("billing_address_collection", VStr "required");
     ("shipping_address_collection", VObj
        [("allowed_countries", VArr (map VStr ["US"; "CA"; "GB"; "DE"; "FR"; "AU"; "JP"; "SG"]))])].

(** [fetch] of a JSON request, then the reply, or an error that names the
    status.  The [catch] blocks only log and rethrow. *)
Definition post (path : string) (options body : jsval) : list jsval :=
  [VStr (apiBase this ++ path);
   VObj [("method", VStr "POST");
         ("headers", VObj [("Content-Type", VStr "application/json");
                           ("Authorization", VStr ("Bearer " ++ to_str (js_or (get_opt options "apiKey") (VStr EmptyString))))]);
         ("body", stringify body)]].

Definition request (args : list jsval) (failure : string) : JS jsval :=
  let* response := fetch args in
  let* ok := lift (get response "ok") in
  if truthy ok then response_json response
  else throw (Error (failure ++ to_str (get_opt response "status"))).

Definition createCheckoutSession (nft buyerAddress options : jsval) : JS jsval :=
  let options := default options (VObj []) in
  let* enabled := lift (isStripeEnabled this nft) in
  if negb (truthy enabled) then throw (Error "Stripe payments not available for this NFT")
  else
    let* usdPrice := calculateUSDPrice nft in
    let* success := page_url options "successUrl" "/marketplace/purchase/success?session_id={CHECKOUT_SESSION_ID}" in
    let* cancel := page_url options "cancelUrl" "/marketplace/purchase/cancel" in
    let* satoshis := lift (call_toString (get_opt nft "listedPriceSatoshis")) in
    let data := session_data nft buyerAddress options usdPrice success cancel satoshis in
    try_catch
      (request (post "/stripe/create-checkout-session" options data) "Failed to create checkout session: ")
      (fun e => throw e).

Definition processPayment (sessionId options : jsval) : JS jsval :=
  let options := default options (VObj []) in
  try_catch
    (let* _ := lift (get options "apiKey") in
     request (post "/stripe/process-payment" options
       (VObj [("session_id", sessionId); ("buyer_address", get_opt options "buyerAddress");
              ("auto_convert", VBool (negb (strict_eq (get_opt options "autoConvert") (VBool false))))]))
       "Payment processing failed: ")
    (fun e => throw e).

Definition getPaymentStatus (sessionId : jsval) : JS jsval :=
  try_catch
    (request [VStr (apiBase this ++ "/stripe/payment-status/" ++ to_str sessionId)] "Failed to get payment status: ")
    (fun e => throw e).

Definition createRefund (sessionId options : jsval) : JS jsval :=
  let options := default options (VObj []) in
  try_catch
    (let* _ := lift (get options "apiKey") in
     request (post "/stripe/refund" options
       (VObj [("session_id", sessionId); ("reason", js_or (get_opt options "reason") (VStr "requested_by_customer"));
              ("amount", get_opt options "amount")]))
       "Refund failed: ")
    (fun e => throw e).

(** [URLSearchParams] is the platform's. *)
Definition getPaymentHistory (walletAddress options : jsval) : JS jsval :=
  let options := default options (VObj []) in
  try_catch
    (let* limit := lift (get options "limit") in
     let* params := ext "URLSearchParams"
       [VObj [("address", walletAddress); ("limit", js_or limit (vnum 50));
              ("offset", js_or (get_opt options "offset") (vnum 0))]] in
     request [VStr (apiBase this ++ "/stripe/payment-history?" ++ to_str params)] "Failed to get payment history: ")
    (fun e => throw e).

Definition validateSession (sessionId : jsval) : JS bool :=
  try_catch
    (let* status := getPaymentStatus sessionId in
     let* s := lift (get status "status") in
     ret (is_str s "complete" && is_str (get_opt status "payment_status") "paid"))
    (fun _ => ret false).

End Class.

(** ** The hook and the component *)

(** The state of [useStripePayments] and of [StripeNFTPayment]. *)
Record checkout : Type := Checkout {
  co_oracle : oracle;
  isLoading : bool;
  co_error : jsval;
  paymentStatus : jsval;
  termsAccepted : bool;
  paymentMethod : jsval;
  isProcessing : bool;
  processingStep : string;
  usdPrice : jsval
}.

Definition set_oracle (v : oracle) (c : checkout) : checkout :=
  Checkout v (isLoading c) (co_error c) (paymentStatus c) (termsAccepted c) (paymentMethod c) (isProcessing c) (processingStep c) (usdPrice c).
Definition set_isLoading (v : bool) (c : checkout) : checkout :=
  Checkout (co_oracle c) v (co_error c) (paymentStatus c) (termsAccepted c) (paymentMethod c) (isProcessing c) (processingStep c) (usdPrice c).
Definition set_co_error (v : jsval) (c : checkout) : checkout :=
  Checkout (co_oracle c) (isLoading c) v (paymentStatus c) (termsAccepted c) (paymentMethod c) (isProcessing c) (processingStep c) (usdPrice c).
Definition set_paymentStatus (v : jsval) (c : checkout) : checkout :=
  Checkout (co_oracle c) (isLoading c) (co_error c) v (termsAccepted c) (paymentMethod c) (isProcessing c) (processingStep c) (usdPrice c).
Definition set_processing (b : bool) (s : string) (c : checkout) : checkout :=
  Checkout (co_oracle c) (isLoading c) (co_error c) (paymentStatus c) (termsAccepted c) (paymentMethod c) b s (usdPrice c).
Definition set_usdPrice (v : jsval) (c : checkout) : checkout :=
  Checkout (co_oracle c) (isLoading c) (co_error c) (paymentStatus c) (termsAccepted c) (paymentMethod c) (isProcessing c) (processingStep c) v.

(** A thrown value that is an object: its message and properties. *)
Definition thrown (v : jsval) : jserr :=
  Err (to_str (js_or (get_opt v "name") (VStr "Error")))
      (match get_opt v "message" with VUndef => EmptyString | m => to_str m end) (spread_props v).

Section Components.
Context `{Env} (this : stripe).
Abbreviation JS := (JS checkout).

Definition on_oracle {A} (m : JsMonad.JS oracle A) : JS A := zoom co_oracle set_oracle m.

Definition createPayment (nft buyerAddress options : jsval) : JS jsval :=
  modify (set_isLoading true) ;;;
  modify (set_co_error VNull) ;;;
  try_finally
    (try_catch
      (let* session := on_oracle (createCheckoutSession this nft buyerAddress options) in
       let* api := ext "window.Stripe" [] in
       (if truthy api then
          let* client := ext "Stripe" [stripePublicKey this] in
          let* id := lift (get session "id") in
          let* outcome := ext "stripe.redirectToCheckout" [client; VObj [("sessionId", id)]] in
          let* error := lift (destructure outcome "error") in
          if truthy error then throw (thrown error) else ret tt
        else
          let* url := lift (get session "url") in
          ext "window.location.href=" [url] ;;; ret tt) ;;;
       ret session)
      (fun e => modify (set_co_error (VStr (e_msg e))) ;;; throw e))
    (modify (set_isLoading false)).

Definition checkPaymentStatus (sessionId : jsval) : JS jsval :=
  try_catch
    (let* status := on_oracle (getPaymentStatus this sessionId) in
     modify (set_paymentStatus status) ;;;
     ret status)
    (fun e => modify (set_co_error (VStr (e_msg e))) ;;; throw e).

(** The effect of the component. *)
Definition calculateUSDPrice_effect (nft : jsval) : JS unit :=
  let* listed := lift (get nft "listedPriceSatoshis") in
  if truthy listed then
    let* usd := on_oracle (satoshisToUSD listed) in modify (set_usdPrice usd)
  else ret tt.

Definition handlePayment (nft buyerAddress : jsval) : JS unit :=
  let* c := read id in
  if negb (termsAccepted c) then
    ext "props.onPaymentError" [VStr "Please accept the terms and conditions"] ;;; ret tt
  else
    modify (set_processing true "Creating payment session...") ;;;
    try_catch
      (let* o1 := ext "window.location.origin" [] in
       let* o2 := ext "window.location.origin" [] in
       let* _ := createPayment nft buyerAddress
         (VObj [("successUrl", VStr (to_str o1 ++ "/marketplace/purchase/success?session_id={CHECKOUT_SESSION_ID}"));
                ("cancelUrl", VStr (to_str o2 ++ "/marketplace/purchase/cancel"));
                ("customerEmail", VStr EmptyString); ("paymentMethod", paymentMethod c)]) in
       modify (fun c => set_processing (isProcessing c) "Redirecting to payment..." c))
      (fun e =>
       modify (fun c => set_processing false (processingStep c) c) ;;;
       modify (set_processing false EmptyString) ;;;
       ext "props.onPaymentError" [js_or (VStr (e_msg e)) (VStr "Payment failed")] ;;; ret tt).

Definition handleCancel : JS unit :=
  let* c := read id in
  if isProcessing c then ret tt else ext "props.onPaymentCancel" [] ;;; ret tt.

End Components.

(** ** Marketplace listings *)

Definition isVerified (nft : jsval) : result bool :=
  res_bind (if truthy (js_and nft (get_opt nft "tier")) then Ok (get_opt nft "tier")
            else res_bind (get nft "metadata") (fun md =>
                 Ok (js_or (js_and md (get_opt md "tier")) (VStr "Basic")))) (fun tier =>
  let md := get_opt nft "metadata" in
  let hasSchema := truthy nft && truthy md && match md with VObj _ | VArr _ | VNull => true | _ => false end in
  let adminVerified := truthy nft && truthy md && truthy (get_opt md "adminVerified") in
  Ok (adminVerified || ((is_str tier "Pro" || is_str tier "Premium") && hasSchema))).

Definition sample : list jsval :=
  [VObj [("id", VStr "NFT_001"); ("name", VStr "Shahcoin Genesis NFT");
         ("description", VStr "The first NFT ever minted on Shahcoin"); ("imageURI", VStr EmptyString);
         ("creator", VStr "S1a2h3c4o5i6n7G8e9n0e"); ("owner", VStr "S1a2h3c4o5i6n7G8e9n0e");
         ("blockCreated", vnum 12340);
         ("metadata", VObj [("tier", VStr "Premium"); ("rarity", VStr "legendary"); ("adminVerified", VBool true)]);
         ("tier", VStr "Premium"); ("verified", VBool true)];
   VObj [("id", VStr "NFT_002"); ("name", VStr "Shahcoin Art Collection #1");
         ("description", VStr "Beautiful digital art piece"); ("imageURI", VStr EmptyString);
         ("creator", VStr "S1a2h3c4o5i6n7A8r9t0i"); ("owner", VStr "S1a2h3c4o5i6n7C0o1l2l3e");
         ("blockCreated", vnum 12355);
         ("metadata", VObj [("tier", VStr "Basic"); ("rarity", VStr "rare")]);
         ("tier", VStr "Basic"); ("verified", VBool false)]].

(** [l.slice(offset, offset + limit)] for natural numbers. *)
Definition slice {A} (offset limit : nat) (l : list A) : list A := firstn limit (skipn offset l).

Record filters : Type := Filters { f_creator : string; f_tier : string }.
Definition no_filters : filters := Filters EmptyString EmptyString.

Definition tier_of (n : jsval) : jsval := js_or (get_opt n "tier") (js_and (get_opt n "metadata") (get_opt (get_opt n "metadata") "tier")).

Definition getAllNFTs (limit offset : nat) (fs : filters) : list jsval :=
  let results := sample in
  let results := if f_creator fs =? EmptyString then results
                 else filter (fun n => is_str (get_opt n "creator") (f_creator fs)) results in
  let results := if f_tier fs =? EmptyString then results
                 else filter (fun n => is_str (tier_of n) (f_tier fs)) results in
  slice offset limit results.

Definition verified_nft (n : jsval) : bool := match isVerified n with Ok b => b | Throw _ => false end.

Definition getVerifiedNFTs (limit offset : nat) (fs : filters) : list jsval :=
  slice offset limit (filter verified_nft (getAllNFTs 1000 0 fs)).

Definition getCreatorProfile (address : string) : jsval :=
  let nfts := getAllNFTs 1000 0 (Filters address EmptyString) in
  let trusted := (10 <=? List.length nfts)%nat in
  VObj [("address", VStr address); ("totalMinted", vnum (Z.of_nat (List.length nfts)));
        ("salesVolumeUSD", vnum 0); ("averagePriceUSD", vnum 0); ("refundComplaints", vnum 0);
        ("trustedCreator", VBool trusted); ("badges", VArr (if trusted then [VStr "Trusted Creator"] else []))].

Section Backend.
Context `{Env} {S : Type} (API_BASE : string).
Abbreviation JS := (JS S).

(** The fields named in the destructured argument. *)
Definition pick (arg : jsval) (keys : list string) : result (list (string * jsval)) :=
  res_bind (destructure arg (hd EmptyString keys)) (fun _ => Ok (map (fun k => (k, get_opt arg k)) keys)).

Definition submit (path failure : string) (arg : jsval) (keys : list string) : JS jsval :=
  let* body := lift (pick arg keys) in
  try_catch
    (let* res := fetch [VStr (API_BASE ++ path);
        VObj [("method", VStr "POST"); ("headers", VObj [("Content-Type", VStr "application/json")]);
              ("body", stringify (VObj body))]] in
     let* ok := lift (get res "ok") in
     if truthy ok then response_json res
     else throw (Error (failure ++ to_str (get_opt res "status"))))
    (fun e => ret (VObj [("ok", VBool false); ("error", VStr (e_msg e))])).

Definition submitListing (arg : jsval) : JS jsval :=
  submit "/listings" "Listing failed: " arg
    ["nftId"; "title"; "description"; "category"; "tags"; "priceSatoshis"; "priceUSD"; "submitForVerification"].
Definition recordPurchase (arg : jsval) : JS jsval :=
  submit "/purchases" "Purchase record failed: " arg ["nftId"; "buyer"; "priceSatoshis"; "priceUSD"; "txid"].
Definition setAdminVerificationFlag (arg : jsval) : JS jsval :=
  submit "/verify" "Verify flag failed: " arg ["nftId"; "adminVerified"].

End Backend.

(** ** Facts *)

Section Facts.
Context `{Env} (this : stripe).

Lemma calculateUSDPrice_spec nft o t :
  price_wf o ->
  wp (calculateUSDPrice nft)
    (fun v o' _ => price_wf o' /\ exists p, usable p = true /\ v = usd_price nft p)
    (fun e o' _ => get nft "listedPriceSatoshis" = Throw e) o t.
Proof.
  intros W. unfold calculateUSDPrice. wp_step. eapply wp_mono; [..|apply (getShahPrice_usable false o t W)]; cbn beta; [|intros ? ? ? []].
  intros p o' t' [U W']. wp_auto; eauto.
Qed.

Lemma enabled_object nft v :
  isStripeEnabled this nft = Ok v -> truthy v = true -> exists x, get nft "listedPriceSatoshis" = Ok x.
Proof.
  unfold isStripeEnabled. destruct (negb _); [intros [= <-]; discriminate|].
  destruct nft; cbn [get]; try discriminate; eauto.
Qed.

Lemma page_url_total options k path (o : oracle) t :
  (forall t, exists v, reply t "window.location.origin" [] = Ok v) -> (exists x, get options k = Ok x) ->
  wp (page_url options k path) (fun _ o' _ => o' = o) (fun _ _ _ => False) o t.
Proof.
  intros Ho [x Hx]. unfold page_url. rewrite Hx. wp_auto; try reflexivity; try discriminate.
  match goal with E : reply ?t _ _ = Throw _ |- _ => destruct (Ho t); congruence end.
Qed.

End Facts.

(** A page that knows its origin and a backend that accepts requests. *)
Class BackendLaws `{Env} : Prop := {
  origin_known : forall t, exists v, reply t "window.location.origin" [] = Ok v;
  request_accepted : forall t args, exists l, reply t "fetch" args = Ok (VObj l) /\ truthy (obj_get l "ok") = true;
  reply_parsed : forall t args, exists v, reply t "Response.json" args = Ok v
}.

(** Accepted requests return. *)
Lemma request_returns `{BackendLaws} args failure (o : oracle) t :
  wp (request args failure) (fun _ _ _ => True) (fun _ _ _ => False) o t.
Proof.
  unfold request, fetch, response_json. wp_step. destruct (request_accepted t args) as (l & R & K).
  apply (wp_ext_ok _ _ _ _ _ _ _ R). cbn [get]. wp_step. apply wp_lift_ok. rewrite K.
  match goal with |- wp (ext _ ?a) _ _ _ ?t => destruct (reply_parsed t a) as [v R']; apply (wp_ext_ok _ _ _ _ _ _ _ R'); exact I end.
Qed.

(** A page with an origin and a card service that accepts every request. *)
Definition shop : Env := {|
  reply := fun _ op _ =>
    if op =? "window.location.origin" then Ok (VStr "https://shah.vip")
    else if op =? "fetch" then Ok (VObj [("ok", VBool true)])
    else if op =? "Response.json"
    then Ok (VObj [("id", VStr "cs_1"); ("status", VStr "complete"); ("payment_status", VStr "paid"); ("price", vnum 2)])
    else Ok VUndef;
  clock := fun _ => Num.zero;
  random := fun _ => Num.zero |}.

Definition shop_stripe : stripe := Stripe (VStr "pk") "https://api.shah.vip/marketplace" (VBool false).

(** ** Theorems *)


#[global] Instance shop_backend : @BackendLaws shop.
Proof. split; intros; eexists; try split; reflexivity. Qed.


(** An NFT that is marked as listed but has no price in satoshis is
    offered for card payment and can never be bought: opening its checkout
    session throws a TypeError. *)
Theorem listed_without_price_cannot_be_bought `{Env} this nft buyer options enabled o t :
  price_wf o -> (forall t, exists v, reply t "window.location.origin" [] = Ok v) ->
  isStripeEnabled this nft = Ok enabled -> truthy enabled = true ->
  get_opt nft "listedPriceSatoshis" = VUndef -> (forall k, exists x, get (default options (VObj [])) k = Ok x) ->
  wp (createCheckoutSession this nft buyer options)
    (fun _ _ _ => False) (fun e _ _ => e = cannot_read "undefined" "toString") o t.
Proof.
  intros W Ho He T Hp Hopt. unfold createCheckoutSession. rewrite He. do 2 wp_step; [|discriminate].
  match goal with E : Ok _ = Ok _ |- _ => injection E as <- end. rewrite T. cbn [negb]. wp_step.
  eapply wp_mono; [..|apply (calculateUSDPrice_spec nft o t W)]; cbn beta.
  2: { intros e o' t' E. destruct (enabled_object _ _ _ He T); congruence. }
  intros usd o1 t1 _. wp_step. eapply wp_mono; [..|apply page_url_total; auto]; cbn beta; [|intros ? ? ? []].
  intros s o2 t2 ->. wp_step. eapply wp_mono; [..|apply page_url_total; auto]; cbn beta; [|intros ? ? ? []].
  intros c o3 t3 ->. rewrite Hp. cbn [call_toString]. do 2 wp_step; [discriminate|].
  match goal with E : Throw _ = Throw _ |- _ => injection E as <- end. reflexivity.
Qed.

Lemma listed_without_price_cannot_be_bought_witness :
  let nft := VObj [("verified", VBool true); ("isListed", VBool true)] in
  isStripeEnabled shop_stripe nft = Ok (VBool true)
  /\ wp (createCheckoutSession (H := shop) shop_stripe nft (VStr "S1") VUndef)
       (fun _ _ _ => False) (fun e _ _ => e = cannot_read "undefined" "toString") page_oracle [].
Proof.
  intros nft. split; [reflexivity|].
  apply (listed_without_price_cannot_be_bought (H := shop) shop_stripe nft (VStr "S1") VUndef (VBool true));
    try reflexivity.
  - split; [discriminate|vm_compute; reflexivity].
  - intros t. eexists. reflexivity.
  - intros k. eexists. reflexivity.
Defined.

(** A session counts as paid only on the word of the payment service: the
    check never throws, and it is true exactly when the reply for the session
    says complete and paid. *)
Theorem session_valid_only_if_paid `{Env} this sessionId o t :
  wp (validateSession this sessionId)
    (fun b o' t' => o' = o /\ (b = true <-> exists resp st t0,
       t' = Ev "Response.json" [resp] (Ok st) :: t0
       /\ get_opt st "status" = VStr "complete" /\ get_opt st "payment_status" = VStr "paid"))
    (fun _ _ _ => False) o t.
Proof.
  unfold validateSession, getPaymentStatus, request. wp_auto; (split; [reflexivity|]); split; try discriminate;
    try (intros (resp & st & t0 & Ht & Hst & Hpd); discriminate Ht).
  - intros B. apply andb_true_iff in B as [B1 B2]. apply is_str_spec in B1, B2.
    do 3 eexists. split; [reflexivity|]. split; [|exact B2].
    match goal with E : get _ "status" = Ok _ |- _ => apply get_opt_ok in E; congruence end.
  - intros (resp & st & t0 & [= <- <- <-] & Hst & Hpd). rewrite Hpd.
    match goal with E : get _ "status" = Ok _ |- _ => apply get_opt_ok in E; rewrite <- E, Hst end. reflexivity.
  - intros (resp & st & t0 & [= <- <- <-] & Hst & Hpd). unfold get_opt in Hst.
    match goal with E : get _ "status" = Throw _ |- _ => rewrite E in Hst; discriminate Hst end.
Qed.

(** The payment dialog: without the terms accepted nothing but the error
    callback happens; otherwise the dialog is never left loading, and it is
    left in its processing state only when the payment page was opened. *)
Theorem checkout_dialog_settles `{Env} this nft buyer c t :
  wp (handlePayment this nft buyer)
    (fun _ c' t' =>
       (termsAccepted c = false -> c' = c /\ exists r, t' = Ev "props.onPaymentError" [VStr "Please accept the terms and conditions"] r :: t)
       /\ (termsAccepted c = true ->
             (isLoading c' = false \/ isLoading c' = isLoading c)
             /\ (isProcessing c' = true -> processingStep c' = "Redirecting to payment..." /\ co_error c' = VNull)))
    (fun _ c' _ => isProcessing c' = false \/ c' = c) c t.
Proof.
  unfold handlePayment. do 2 wp_step. unfold id. destruct (termsAccepted c) eqn:T; cbn [negb].
  - do 3 wp_step. wp_step. wp_step; [|wp_auto; cbn; intuition congruence].
    wp_step. wp_step; [|wp_auto; cbn; intuition congruence].
    wp_step. apply (wp_mono _ (fun _ c' _ => isLoading c' = false /\ co_error c' = VNull /\ termsAccepted c' = true) _
      (fun _ c' _ => isLoading c' = false)).
    + intros s c1 t1 (L & E & _). wp_step. cbn. split; [discriminate|]. intros _. auto.
    + intros e c1 t1 L. wp_auto; cbn; intuition congruence.
    + unfold createPayment, on_oracle. do 4 wp_step. wp_step. wp_step. wp_step.
      unfold zoom at 1. unfold wp at 1. cbn [co_oracle set_isLoading set_co_error set_processing].
      destruct (createCheckoutSession this nft buyer _ (co_oracle c) _) as [[[s|e] o'] t'];
        wp_auto; cbn; auto.
  - wp_auto; cbn; intuition (eauto; congruence).
Qed.
