(* ===== verification/CheckoutViews.v ===== *)
(** * The card payment page

    The view of [StripeNFTPayment] (StripeNFTPayment.jsx) over the state of
    Checkout, and its runs: the page is used through what it offers, the price
    of the NFT and the rate on display are refreshed at any time. *)

From Stdlib Require Import ZArith Bool Lia List String.
From S2P Require Import Prelude JsNum JsVal JsMonad Machine Jsx MarketOracle Checkout.
Import ListNotations.
Local Open Scope string_scope.

Inductive stripe_action : Type := ChooseWay (v : jsval) | AcceptTerms (v : jsval) | PayCard | CancelCard | ContinueWithShah.

Section StripePage.
Context (this : stripe) (nft : jsval) (shahPrice : jsval) (c : checkout).
Notation page := (html stripe_action).

Definition icon (name classes : string) : page := el name [cls classes] [].

Definition stripe_disabled : page :=
  el "div" [cls "stripe-payment-disabled"] [
    icon "FaShieldAlt" "icon";
    el "h3" [] [txt "Stripe Payment Unavailable"];
    el "p" [] [txt "Stripe payments are only available for verified NFTs."];
    el "button" [onClick [ContinueWithShah]; cls "btn-secondary"] [txt "Continue with SHAH"]].

Definition stripe_processing : page :=
  let step image label := el "div" [cls "step"] [icon image "step-icon"; el "span" [] [txt label]] in
  el "div" [cls "stripe-payment-processing"] [
    el "div" [cls "processing-spinner"] [];
    el "h3" [] [txt "Processing Payment"];
    el "p" [] [txt (processingStep c)];
    el "div" [cls "processing-steps"] [step "FaExchangeAlt" "Converting USD to SHAH"; step "FaCheckCircle" "Finalizing transaction"]].

(** [{shahPrice?.toFixed(6) || '0.000000'}]. *)
Definition rate : page := if nullish shahPrice then txt "0.000000" else fixed "shahPrice" shahPrice 6.

Definition nft_info : page :=
  res_bind (get nft "imageURI") (fun image =>
  el "div" [cls "nft-info"] [
    el "div" [cls "nft-image"] [el "img" [prop "src" (js_or image (VStr "/placeholder-nft.png")); prop "alt" (get_opt nft "name")] []];
    el "div" [cls "nft-details"] [
      el "h3" [] [field nft "name"];
      el "p" [cls "nft-description"] [field nft "description"];
      el "div" [cls "price-info"] [
        el "div" [cls "price-single"] [
          el "span" [cls "price-label"] [txt "Price:"];
          el "span" [cls "price-amount"] [txt "$"; fixed "usdPrice" (usdPrice c) 2; txt " USD"]];
        el "div" [cls "price-conversion"] [
          el "span" [cls "conversion-text"] [
            txt "≈ "; fixed "(nft.listedPriceSatoshis / 100000000)" (js_div (get_opt nft "listedPriceSatoshis") (vnum 100000000)) 8; txt " SHAH"];
          el "span" [cls "conversion-rate"] [txt "(Rate: $"; rate; txt " per SHAH)"]]]]]).

Definition way (key image label : string) : page :=
  let on := is_str (paymentMethod c) key in
  el "label" [cls ("payment-method " ++ (if on then "selected" else EmptyString))] [
    el "input" [prop "type" (VStr "radio"); prop "name" (VStr "paymentMethod"); prop "value" (VStr key); prop "checked" (VBool on); onChange (fun _ => ChooseWay (VStr key))] [];
    icon image "method-icon";
    el "span" [] [txt label]].

Definition ways : page :=
  el "div" [cls "payment-options"] [
    el "h4" [] [txt "Payment Method"];
    el "div" [cls "payment-methods"] [way "card" "FaCreditCard" "Credit/Debit Card"; way "apple" "FaApple" "Apple Pay"; way "google" "FaGoogle" "Google Pay"]].

Definition security : page :=
  el "div" [cls "payment-security"] [
    icon "FaShieldAlt" "security-icon";
    el "div" [cls "security-info"] [
      el "h4" [] [txt "Secure Payment"];
      el "ul" [] (map (fun item => el "li" [] [txt item]) ["PCI DSS compliant"; "256-bit SSL encryption"; "No card data stored"; "Instant SHAH conversion"])]].

Definition link (href label : string) : page :=
  el "a" [prop "href" (VStr href); prop "target" (VStr "_blank"); prop "rel" (VStr "noopener noreferrer")] [txt label].

Definition terms : page :=
  el "div" [cls "terms-section"] [
    el "label" [cls "terms-checkbox"] [
      el "input" [prop "type" (VStr "checkbox"); prop "checked" (VBool (termsAccepted c)); onChange AcceptTerms] [];
      el "span" [] [txt "I agree to the"; txt " "; link "/terms" "Terms of Service"; txt " "; txt "and"; txt " "; link "/privacy" "Privacy Policy"]]].

Definition payment_actions : page :=
  el "div" [cls "payment-actions"] [
    el "button" [onClick [PayCard]; prop "disabled" (VBool (negb (termsAccepted c) || isLoading c)); cls "btn-pay"] [
      if isLoading c then fragment [el "div" [cls "spinner"] []; txt "Processing..."]
      else fragment [el "FaCreditCard" [] []; txt "Pay $"; fixed "usdPrice" (usdPrice c) 2]];
    el "button" [onClick [CancelCard]; prop "disabled" (VBool (isLoading c)); cls "btn-cancel"] [txt "Cancel"]].

Definition stripe_form : page :=
  el "div" [cls "stripe-payment-container"] [
    el "div" [cls "payment-header"] [
      el "h2" [] [txt "💳 Complete Purchase with Card"];
      el "p" [] [txt "Pay with credit card - USD will be converted to SHAH automatically"]];
    nft_info;
    ways;
    security;
    terms;
    cond (co_error c) (el "div" [cls "payment-error"] [el "p" [] [dyn (co_error c)]]);
    payment_actions;
    el "div" [cls "payment-footer"] [
      el "p" [] [el "small" [] [
        txt "By completing this purchase, you authorize the conversion of USD to SHAH at the current market rate via ShahSwap."]]]].

Definition StripeNFTPayment : page :=
  res_bind (isStripeEnabled this nft) (fun stripeEnabled =>
  if negb (truthy stripeEnabled) then stripe_disabled
  else if isProcessing c then stripe_processing
  else stripe_form).

(** *** What the page offers *)

Definition stripe_offers (enabled : bool) : list (happening stripe_action) :=
  if negb enabled then [Clicked [ContinueWithShah]]
  else if isProcessing c then []
  else
    map (fun k => Entered (fun _ => ChooseWay (VStr k))) ["card"; "apple"; "google"] ++ [Entered AcceptTerms] ++
    (if negb (termsAccepted c) || isLoading c then [] else [Clicked [PayCard]]) ++
    (if isLoading c then [] else [Clicked [CancelCard]]).

Lemma way_hears key image label : hears Bubbling [] (way key image label) [Entered (fun _ => ChooseWay (VStr key))].
Proof using Type. eapply hears_iff; [unfold way, icon; hears|]. intros e N. cbn. intuition congruence. Qed.

Lemma stripe_terms_hears : hears Bubbling [] terms [Entered AcceptTerms].
Proof using Type. eapply hears_iff; [unfold terms, link; hears|]. intros e N. cbn. intuition congruence. Qed.

Lemma payment_actions_hears :
  hears Bubbling [] payment_actions ((if negb (termsAccepted c) || isLoading c then [] else [Clicked [PayCard]]) ++ (if isLoading c then [] else [Clicked [CancelCard]])).
Proof using Type.
  unfold payment_actions. destruct (isLoading c), (termsAccepted c); (eapply hears_iff; [apply hears_box; [reflexivity..|]; hears|]);
    intros e N; cbn; intuition congruence.
Qed.

Lemma stripe_form_hears : hears Bubbling [] stripe_form
  (map (fun k => Entered (fun _ => ChooseWay (VStr k))) ["card"; "apple"; "google"] ++ [Entered AcceptTerms] ++
   (if negb (termsAccepted c) || isLoading c then [] else [Clicked [PayCard]]) ++ (if isLoading c then [] else [Clicked [CancelCard]])).
Proof using Type.
  pose proof way_hears as Hw. pose proof stripe_terms_hears as Ht. pose proof payment_actions_hears as Hp.
  assert (hears Bubbling [] nft_info []) as Hi by (apply hears_passive; unfold nft_info, rate; red; throughout ltac:(reflexivity)).
  assert (hears Bubbling [] security []) as Hs by (apply hears_passive; unfold security, icon; red; cbn [map]; throughout ltac:(reflexivity)).
  eapply hears_iff; [unfold stripe_form, ways; boxes|].
  intros e N. cbn [List.concat app map]. rewrite ?if_same, ?app_nil_r. cbn [List.concat app]. reflexivity.
Qed.

Lemma stripe_hears b v : isStripeEnabled this nft = Ok v -> truthy v = b -> hears Bubbling [] StripeNFTPayment (stripe_offers b).
Proof using Type.
  intros E <-. unfold StripeNFTPayment, stripe_offers. rewrite E. cbn [res_bind]. apply hears_if; [|apply hears_if; [|exact stripe_form_hears]].
  - eapply hears_iff; [unfold stripe_disabled, icon; hears|]. intros e N. cbn. intuition congruence.
  - apply hears_passive. unfold stripe_processing, icon. red. throughout ltac:(reflexivity).
Qed.

(** *** When the page can be shown *)

Definition showable : Prop := (exists n, usdPrice c = VNum n) /\ (shahPrice = VNull \/ exists n, shahPrice = VNum n) /\ (co_error c = VNull \/ exists m, co_error c = VStr m).

(** The data of the NFT that the page shows. *)
Definition nft_showable : Prop := outcome (field (A := stripe_action) nft "name") = None /\ outcome (field (A := stripe_action) nft "description") = None.

Lemma stripe_shown v : isStripeEnabled this nft = Ok v -> nft_showable -> showable -> exists ns, StripeNFTPayment = Ok ns.
Proof using Type.
  intros E [Hn Hd] ((n & Eu) & Er & Ee). apply outcome_shown. unfold StripeNFTPayment. rewrite E. cbn [res_bind]. destruct (negb (truthy v)); [reflexivity|]. destruct (isProcessing c); [reflexivity|].
  assert (outcome rate = None) as Hr by (unfold rate; destruct Er as [-> |[k ->]]; reflexivity).
  assert (outcome nft_info = None) as Hi.
  { unfold nft_info. destruct (get nft "imageURI") as [x|] eqn:Ei; [|destruct nft; try discriminate Ei; try discriminate Hn].
    cbn [res_bind]. autorewrite with outcome. rewrite Hn, Hd, Hr, Eu. reflexivity. }
  unfold stripe_form, payment_actions. autorewrite with outcome. rewrite Hi, Eu.
  destruct Ee as [-> |[m ->]]; cbn [truthy]; rewrite ?if_none; destruct (isLoading c); reflexivity.
Qed.
End StripePage.

(** ** Runs of the page *)

Record stripe_page : Type := StripePage { co : checkout; shown_rate : jsval }.

Definition set_co (c : checkout) (p : stripe_page) : stripe_page := StripePage c (shown_rate p).
Definition set_terms (b : bool) (c : checkout) : checkout :=
  Checkout (co_oracle c) (isLoading c) (co_error c) (paymentStatus c) b (paymentMethod c) (isProcessing c) (processingStep c) (usdPrice c).
Definition set_way (v : jsval) (c : checkout) : checkout :=
  Checkout (co_oracle c) (isLoading c) (co_error c) (paymentStatus c) (termsAccepted c) v (isProcessing c) (processingStep c) (usdPrice c).

(** The state at the first rendering, over the shared price oracle. *)
Definition stripe_page0 (o : oracle) : stripe_page := StripePage (Checkout o false VNull VNull false (VStr "card") false EmptyString (vnum 0)) VNull.

(** The effect that prices the NFT; a new rate from the oracle; an action. *)
Inductive stripe_op : Type := Priced | Rated (n : num) | Do (acts : list stripe_action).

Section Runs.
Context `{Env} (this : stripe) (nft buyerAddress : jsval).
Notation JS := (JS stripe_page).

Definition on_co {A} (m : JsMonad.JS checkout A) : JS A := zoom co set_co m.

Definition stripe_perform (a : stripe_action) : JS unit :=
  match a with
  | ChooseWay v => on_co (modify (set_way v))
  | AcceptTerms v => on_co (modify (set_terms (truthy v)))
  | PayCard => on_co (handlePayment this nft buyerAddress)
  | CancelCard => on_co handleCancel
  | ContinueWithShah => on_co (ext "props.onPaymentCancel" [VObj [("type", VStr "click")]]) ;;; ret tt
  end.

Definition stripe_run (o : stripe_op) : JS unit :=
  match o with
  | Priced => on_co (calculateUSDPrice_effect nft)
  | Rated n => modify (fun p => StripePage (co p) (VNum n))
  | Do acts => for_each acts stripe_perform
  end.

Definition stripe_enabled (o : stripe_op) (p : stripe_page) : Prop :=
  match o with
  | Do acts => exists ns, StripeNFTPayment this nft (shown_rate p) (co p) = Ok ns /\ offered Bubbling ns acts
  | _ => True
  end.

(** *** The buyer is sent to the payment page *)

Definition opened (e : event) : bool :=
  match ev_res e with
  | Ok v => (ev_op e =? "window.location.href=") ||
            (ev_op e =? "stripe.redirectToCheckout") && match destructure v "error" with Ok x => negb (truthy x) | Throw _ => false end
  | Throw _ => false
  end.

Definition sent (t : trace) : nat := List.length (filter opened t).

Lemma sent_cons e t : sent (e :: t) = ((if opened e then 1 else 0) + sent t)%nat.
Proof using Type. unfold sent. cbn [filter]. destruct (opened e); reflexivity. Qed.

(** Code that does not open the payment page. *)
Definition neutral {A} (m : JsMonad.JS oracle A) : Prop :=
  forall n, preserves (fun _ t => sent t = n) m.

Lemma neutral_ext op args : negb (mem_string op ["window.location.href="; "stripe.redirectToCheckout"]) = true -> neutral (ext op args).
Proof using Type.
  intros N n s t R. apply negb_true_iff in N. cbn [mem_string existsb] in N. apply orb_false_iff in N. destruct N as [N1 N2].
  apply orb_false_iff in N2. destruct N2 as [N2 _].
  apply wp_ext; intros; rewrite sent_cons; unfold opened; cbn [ev_res ev_op]; rewrite ?N1, ?N2; exact R.
Qed.

Lemma neutral_now : neutral now.
Proof using Type. intros n s t R. exact R. Qed.

Lemma neutral_modify f : neutral (modify f).
Proof using Type. intros n s t R. exact R. Qed.
#[local] Hint Extern 1 (preserves (fun _ t => sent t = _) (ext _ _)) => apply neutral_ext; reflexivity : preserve.
#[local] Hint Extern 1 (preserves (fun _ t => sent t = _) now) => apply neutral_now : preserve.
#[local] Hint Extern 1 (preserves (fun _ t => sent t = _) (modify _)) => apply neutral_modify : preserve.

Lemma neutral_price force : neutral (getShahPrice force).
Proof using Type.
  intros n. unfold getShahPrice, fetchPriceFromMultipleSources, start, start_ShahSwap, start_CoinGecko, start_CoinMarketCap, start_CustomAPI,
    finish_ShahSwap, finish_CoinGecko, finish_CoinMarketCap, finish_CustomAPI, finish, updatePriceCache, notifyPriceUpdate, notify, onPrice, fetch, response_json. preserve.
Qed.
#[local] Hint Extern 1 (preserves (fun _ t => sent t = _) (getShahPrice _)) => apply neutral_price : preserve.

Lemma neutral_usd v : neutral (satoshisToUSD v).
Proof using Type. intros n. unfold satoshisToUSD, shahToUSD. preserve. Qed.

Lemma neutral_session options : neutral (createCheckoutSession this nft buyerAddress options).
Proof using Type. intros n. unfold createCheckoutSession, calculateUSDPrice, page_url, request, fetch, response_json. preserve. Qed.

(** The price is a number. *)
Lemma usd_number v o t : wp (satoshisToUSD v) (fun x _ _ => exists n, x = VNum n) (fun _ _ _ => True) o t.
Proof using Type.
  unfold satoshisToUSD, shahToUSD. apply wp_bind. unfold wp. destruct (getShahPrice false o t) as [[[p|e] o'] t']; cbn; [eexists; reflexivity|exact I].
Qed.

(** What a payment leaves of the page. *)
Definition paid_from (c c' : checkout) : Prop :=
  isProcessing c' = isProcessing c /\ termsAccepted c' = termsAccepted c /\ usdPrice c' = usdPrice c /\ isLoading c' = false /\ (co_error c' = VNull \/ exists m, co_error c' = VStr m).

Lemma createPayment_sends options c t :
  wp (createPayment this nft buyerAddress options)
    (fun _ c' t' => sent t' = S (sent t) /\ paid_from c c')
    (fun _ c' t' => sent t' = sent t /\ paid_from c c') c t.
Proof using Type.
  unfold createPayment. apply wp_bind, wp_modify, wp_bind, wp_modify, wp_try_finally, wp_try_catch, wp_bind. unfold on_oracle. apply wp_zoom.
  eapply wp_mono; [..|exact (neutral_session options (sent t) _ t eq_refl)]; cbn beta.
  - intros session o t1 <-. wp_auto; rewrite ?sent_cons; unfold opened; cbn -[destructure truthy];
      repeat match goal with E : destructure _ "error" = _ |- _ => rewrite E end;
      repeat match goal with E : truthy _ = _ |- _ => rewrite E end; cbn; (split; [reflexivity|]); repeat split; cbn; eauto.
  - intros e o t1 <-. wp_auto. cbn. split; [reflexivity|]. repeat split; cbn; eauto.
Qed.

Lemma handlePayment_sends c t :
  termsAccepted c = true ->
  let post c' t' := sent t' = (sent t + if isProcessing c' then 1 else 0)%nat /\ termsAccepted c' = true /\ usdPrice c' = usdPrice c /\
     (isLoading c' = false \/ isLoading c' = isLoading c) /\ (co_error c' = co_error c \/ co_error c' = VNull \/ exists m, co_error c' = VStr m) in
  wp (handlePayment this nft buyerAddress) (fun _ => post) (fun _ => post) c t.
Proof using Type.
  intros T post. unfold handlePayment. apply wp_bind, wp_read. unfold id. rewrite T. cbn [negb]. apply wp_bind, wp_modify, wp_try_catch.
  assert (forall c1 t1 e, sent t1 = sent t -> termsAccepted c1 = true -> usdPrice c1 = usdPrice c ->
            (isLoading c1 = false \/ isLoading c1 = isLoading c) -> (co_error c1 = co_error c \/ co_error c1 = VNull \/ exists m, co_error c1 = VStr m) ->
            wp (modify (fun c => set_processing false (processingStep c) c) ;;; modify (set_processing false EmptyString) ;;;
                ext "props.onPaymentError" [js_or (VStr (e_msg e)) (VStr "Payment failed")] ;;; ret tt) (fun _ => post) (fun _ => post) c1 t1) as Failed.
  { intros c1 t1 e S1 T1 U1 L1 E1. wp_auto; unfold post; rewrite sent_cons; unfold opened; cbn; rewrite Nat.add_0_r; auto. }
  apply wp_bind, wp_ext; intros; [|apply Failed; cbn; auto]. apply wp_bind, wp_ext; intros; [|apply Failed; cbn; auto].
  apply wp_bind. eapply wp_mono; [..|apply createPayment_sends]; cbn beta.
  - intros _ c1 t1 (S1 & P1 & T1 & U1 & L1 & E1). apply wp_modify. unfold post. cbn in *. rewrite P1, S1.
    repeat split; [unfold sent; cbn; lia|congruence|congruence|auto|auto].
  - intros e c1 t1 (S1 & P1 & T1 & U1 & L1 & E1). cbn in *. apply Failed; [rewrite S1; reflexivity|congruence|congruence|auto|auto].
Qed.

(** *** The invariant *)

Context (enabled : jsval).
Hypothesis enabled_is : isStripeEnabled this nft = Ok enabled.

Definition guarded (p : stripe_page) (t : trace) : Prop :=
  showable (shown_rate p) (co p) /\ isLoading (co p) = false /\ sent t = (if isProcessing (co p) then 1 else 0)%nat
  /\ (isProcessing (co p) = true -> termsAccepted (co p) = true /\ truthy enabled = true).

Lemma offered_guarded p ns acts :
  StripeNFTPayment this nft (shown_rate p) (co p) = Ok ns -> offered Bubbling ns acts ->
  exists a, acts = [a] /\ match a with
    | PayCard => truthy enabled = true /\ isProcessing (co p) = false /\ termsAccepted (co p) = true
    | ContinueWithShah => True
    | _ => isProcessing (co p) = false end.
Proof using enabled_is.
  intros E O. rewrite (hears_offered _ _ _ _ _ (stripe_hears this nft _ (co p) _ enabled enabled_is eq_refl) E) in O. destruct O as (_ & e & I & P).
  unfold stripe_offers in I. destruct (truthy enabled) eqn:T; cbn [negb] in I; [|destruct I as [<-|[]]; exists ContinueWithShah; split; [exact P|exact Logic.I]].
  destruct (isProcessing (co p)) eqn:Q; [destruct I|]. destruct (termsAccepted (co p)) eqn:A, (isLoading (co p)) eqn:L; cbn in I;
    repeat (destruct I as [<-|I]; [first [destruct P as (v & ->) | red in P; subst acts]; eexists; (split; [reflexivity|]); cbn; auto|]); destruct I.
Qed.

Lemma on_co_guarded {A} (m : JsMonad.JS checkout A) p t :
  wp m (fun _ c t' => guarded (set_co c p) t') (fun _ c t' => guarded (set_co c p) t') (co p) t -> wp (on_co m) (fun _ => guarded) (fun _ => guarded) p t.
Proof using Type. apply wp_zoom. Qed.

Lemma priced_guarded p t : guarded p t -> wp (on_co (calculateUSDPrice_effect nft)) (fun _ => guarded) (fun _ => guarded) p t.
Proof using Type.
  intros G. pose proof G as (((n & U) & R & E) & L & S & Pr). apply on_co_guarded. unfold calculateUSDPrice_effect, on_oracle. apply wp_bind, wp_lift; [intros x _|intros e _; exact G].
  destruct (truthy x); [|exact G]. apply wp_bind, wp_zoom.
  eapply wp_mono; [..|exact (wp_and _ _ _ _ _ _ _ (neutral_usd x (sent t) _ t eq_refl) (usd_number x _ t))]; cbn beta.
  - intros v o t' [St Hv]. apply wp_modify. unfold guarded, showable. cbn. rewrite St. auto.
  - intros e o t' [St _]. unfold guarded, showable. cbn. rewrite St. eauto 10.
Qed.

Lemma run_guarded o p t : stripe_enabled o p -> guarded p t -> wp (stripe_run o) (fun _ => guarded) (fun _ => guarded) p t.
Proof using enabled_is.
  intros En G. destruct o as [|n|acts]; cbn [stripe_run].
  - apply priced_guarded, G.
  - apply wp_modify. destruct G as ((U & R & E) & G). split; [|exact G]. repeat split; cbn; eauto.
  - destruct En as (ns & E & O). destruct (offered_guarded p ns acts E O) as (a & -> & Ha). cbn [for_each]. apply wp_bind.
    pose proof G as ((U & R & Er) & L & S & Pr).
    eapply (wp_mono _ (fun _ => guarded) _ (fun _ => guarded)); [intros ? ? ? G'; exact G'|auto|].
    destruct a; cbn [stripe_perform].
    + apply on_co_guarded, wp_modify. exact G.
    + apply on_co_guarded, wp_modify. unfold guarded, showable. cbn. rewrite Ha in *. repeat split; auto; discriminate.
    + destruct Ha as (T & Q & A). apply on_co_guarded. eapply wp_mono; [..|exact (handlePayment_sends (co p) t A)]; cbn beta;
        intros _ c' t' (S' & A' & U' & L' & E'); unfold guarded, showable; cbn; rewrite U', S', S, Q, A', Nat.add_0_l;
        (repeat split; auto; [destruct E' as [-> |E']; auto|destruct L' as [L'|L']; congruence]).
    + apply on_co_guarded. unfold handleCancel. apply wp_bind, wp_read. unfold id. rewrite Ha. apply wp_bind, wp_ext; intros; [apply wp_ret|]; unfold guarded, showable;
        rewrite sent_cons; exact G.
    + apply wp_bind, wp_zoom, wp_ext; intros; [apply wp_ret|]; unfold guarded; rewrite sent_cons; exact G.
Qed.
End Runs.

(** ** Theorems *)


Definition card_nft : jsval :=
  VObj [("id", VStr "7"); ("name", VStr "Lion"); ("description", VStr "A lion"); ("verified", VBool true); ("isListed", VBool true); ("listedPriceSatoshis", vnum 100000000)].

Lemma do_offered this nft v p e acts :
  isStripeEnabled this nft = Ok v -> nft_showable nft -> showable (shown_rate p) (co p) -> In e (stripe_offers (co p) (truthy v)) -> performs e acts -> acts <> [] ->
  stripe_enabled this nft (Do acts) p.
Proof.
  intros E N Sh I P A. destruct (stripe_shown this nft (shown_rate p) (co p) v E N Sh) as [ns En]. exists ns. split; [exact En|].
  rewrite (hears_offered _ _ _ _ _ (stripe_hears this nft _ (co p) _ v E eq_refl) En). eauto.
Qed.

Definition card_ops : list stripe_op := [Priced; Do [AcceptTerms (VBool true)]; Do [PayCard]].
Definition card_run : stripe_page * trace := play (stripe_run (H := shop) shop_stripe card_nft (VStr "SBuyer")) card_ops (stripe_page0 page_oracle, []).

Lemma card_steps : steps (machine_step (stripe_run (H := shop) shop_stripe card_nft (VStr "SBuyer")) (stripe_enabled shop_stripe card_nft))
  (stripe_page0 page_oracle, []) (fst card_run, snd card_run).
Proof.
  rewrite <- surjective_pairing. apply play_steps. split; [exact I|]. split; [|split; [|exact I]].
  - apply (do_offered shop_stripe card_nft (VBool true) _ (Entered AcceptTerms)); [reflexivity|split; reflexivity| |vm_compute; tauto|exists (VBool true); reflexivity|discriminate].
    split; [eexists; vm_compute; reflexivity|]. split; left; vm_compute; reflexivity.
  - apply (do_offered shop_stripe card_nft (VBool true) _ (Clicked [PayCard])); [reflexivity|split; reflexivity| |vm_compute; tauto|reflexivity|discriminate].
    split; [eexists; vm_compute; reflexivity|]. split; left; vm_compute; reflexivity.
Qed.

