(* ===== verification/RpcClient.v ===== *)
(** * RPC client with reconnection

    [SHAHCOINRPCClient] of src/sdk/packages/core/src/rpc/client.ts: calls to
    the node through axios, connection events, and the reconnection timers.
    Listeners are callbacks of the application and axios is a library: both
    are the environment; the [EventEmitter] of the platform is modelled,
    including that an [error] event nobody listens to is thrown. *)

From Stdlib Require Import ZArith Bool Lia List String.
From S2P Require Import Prelude JsNum JsNumFacts JsVal JsMonad.
Import ListNotations.
Local Open Scope string_scope.

Record client : Type := Client {
  config : list (string * jsval);
  baseURL : string;
  auth : jsval;
  requestId : Z;
  connected : bool;
  reconnectAttempts : nat;
  maxReconnectAttempts : nat;
  reconnectInterval : jsval;
  autoReconnect : bool;
  listeners : list (string * nat);
  pending : nat
}.

Definition set_config (c : list (string * jsval)) (s : client) : client :=
  Client c (baseURL s) (auth s) (requestId s) (connected s) (reconnectAttempts s) (maxReconnectAttempts s)
    (reconnectInterval s) (autoReconnect s) (listeners s) (pending s).
Definition set_endpoint (b : string) (a : jsval) (s : client) : client :=
  Client (config s) b a (requestId s) (connected s) (reconnectAttempts s) (maxReconnectAttempts s)
    (reconnectInterval s) (autoReconnect s) (listeners s) (pending s).
Definition set_requestId (n : Z) (s : client) : client :=
  Client (config s) (baseURL s) (auth s) n (connected s) (reconnectAttempts s) (maxReconnectAttempts s)
    (reconnectInterval s) (autoReconnect s) (listeners s) (pending s).
Definition set_connected (b : bool) (s : client) : client :=
  Client (config s) (baseURL s) (auth s) (requestId s) b (reconnectAttempts s) (maxReconnectAttempts s)
    (reconnectInterval s) (autoReconnect s) (listeners s) (pending s).
Definition set_attempts (n : nat) (s : client) : client :=
  Client (config s) (baseURL s) (auth s) (requestId s) (connected s) n (maxReconnectAttempts s)
    (reconnectInterval s) (autoReconnect s) (listeners s) (pending s).
Definition set_autoReconnect (b : bool) (s : client) : client :=
  Client (config s) (baseURL s) (auth s) (requestId s) (connected s) (reconnectAttempts s) (maxReconnectAttempts s)
    (reconnectInterval s) b (listeners s) (pending s).
Definition set_listeners (l : list (string * nat)) (s : client) : client :=
  Client (config s) (baseURL s) (auth s) (requestId s) (connected s) (reconnectAttempts s) (maxReconnectAttempts s)
    (reconnectInterval s) (autoReconnect s) l (pending s).
Definition set_pending (n : nat) (s : client) : client :=
  Client (config s) (baseURL s) (auth s) (requestId s) (connected s) (reconnectAttempts s) (maxReconnectAttempts s)
    (reconnectInterval s) (autoReconnect s) (listeners s) n.

(** The address and the credentials of a configuration. *)
Definition url_of (cfg : list (string * jsval)) : string :=
  (if truthy (obj_get cfg "ssl") then "https" else "http") ++ "://" ++ to_str (obj_get cfg "host")
  ++ ":" ++ to_str (obj_get cfg "port").

Definition auth_of (cfg : list (string * jsval)) : jsval :=
  if truthy (obj_get cfg "username") && truthy (obj_get cfg "password")
  then VObj [("username", obj_get cfg "username"); ("password", obj_get cfg "password")]
  else VObj [].

(** [new SHAHCOINRPCClient(config, sdkConfig)]; the limit is a count. *)
Definition constructor (cfg : list (string * jsval)) (max : option nat) (interval autoRec : jsval) : client :=
  Client cfg (url_of cfg) (auth_of cfg) 0 false 0
    (match max with Some (S n) => S n | _ => 5 end)
    (js_or interval (vnum 5000)) (truthy (js_coalesce autoRec (VBool true))) [] 0.

(** [new RPCError(message, rpcCode, rpcMessage)]. *)
Definition RPCError (message : string) (rpcCode rpcMessage : jsval) : jserr :=
  Err "RPCError" message
    [("code", VStr "RPC_ERROR"); ("details", VObj [("rpcCode", rpcCode); ("rpcMessage", rpcMessage)]);
     ("rpcCode", rpcCode); ("rpcMessage", rpcMessage)].

(** [axios.isAxiosError(error)]. *)
Definition isAxiosError (e : jserr) : bool := strict_eq (obj_get (e_props e) "isAxiosError") (VBool true).

Section Methods.
Context `{Env}.
Abbreviation JS := (JS client).

(** [this.emit(name, payload)]: the listeners of the event run in order, and
    what one throws is thrown. *)
Definition emit (name : string) (payload : jsval) : JS unit :=
  let* s := read id in
  match filter (fun '(n, _) => n =? name) (listeners s) with
  | [] =>
      if name =? "error" then
        let* text := ext "util.inspect" [payload] in
        throw (Err "Error" ("Unhandled error. (" ++ to_str text ++ ")")
                 [("code", VStr "ERR_UNHANDLED_ERROR"); ("context", payload)])
      else ret tt
  | l => for_each l (fun '(n, cb) => ext "listener" [VStr n; vnum (Z.of_nat cb); payload] ;;; ret tt)
  end.

Definition scheduleReconnect : JS unit :=
  modify (fun s => set_attempts (S (reconnectAttempts s)) s) ;;;
  let* s := read id in
  ext "setTimeout" [reconnectInterval s] ;;;
  modify (fun s => set_pending (S (pending s)) s).

Definition connection_event (ty : string) : jsval := VObj [("type", VStr ty)].

(** The two handlers of the response interceptor. *)
Definition onResponse (response : jsval) : JS jsval :=
  modify (set_connected true) ;;;
  modify (set_attempts 0) ;;;
  emit "connected" (connection_event "connected") ;;;
  ret response.

Definition onFailure (error : jserr) : JS jsval :=
  modify (set_connected false) ;;;
  emit "disconnected" (connection_event "disconnected") ;;;
  let* s := read id in
  (if autoReconnect s && (reconnectAttempts s <? maxReconnectAttempts s)%nat
   then scheduleReconnect else ret tt) ;;;
  emit "error" (VObj [("type", VStr "error"); ("data", err_obj error)]) ;;;
  throw error.

(** [this.client.post('', payload)]: the request interceptor, the request,
    then one of the two response handlers.  What the request interceptor
    throws takes the failure path as well. *)
Definition post (payload : jsval) : JS jsval :=
  let* outcome := try_catch
    (let* request := ext "axios.mergeConfig" [payload] in
     emit "request" request ;;;
     let* s := read id in
     let* response := ext "axios.post" [VStr (baseURL s); auth s; payload] in
     ret (Ok response))
    (fun e => ret (Throw e)) in
  match outcome with
  | Ok response => onResponse response
  | Throw e => onFailure e
  end.

Definition call (method : string) (params : list jsval) : JS jsval :=
  modify (fun s => set_requestId (requestId s + 1) s) ;;;
  let* s := read id in
  let payload := VObj [("jsonrpc", VStr "2.0"); ("id", vnum (requestId s)); ("method", VStr method);
                       ("params", VArr params)] in
  try_catch
    (let* response := post payload in
     let* data := lift (get response "data") in
     let* result := lift (destructure_of "response.data" data "result") in
     let error := get_opt data "error" in
     if truthy error then
       throw (RPCError ("RPC Error: " ++ to_str (get_opt error "message")) (get_opt error "code") (get_opt error "message"))
     else ret result)
    (fun e =>
     if e_name e =? "RPCError" then throw e
     else if isAxiosError e then
       throw (RPCError ("Network Error: " ++ e_msg e)
                (js_or (get_opt (obj_get (e_props e) "response") "status") (vnum (-1))) (VStr (e_msg e)))
     else throw (RPCError ("Unknown Error: " ++ e_msg e) (vnum (-1)) (VStr (err_to_string e)))).

Definition getBlockchainInfo : JS jsval := call "getblockchaininfo" [].
Definition getNetworkInfo : JS jsval := call "getnetworkinfo" [].
Definition getMiningInfo : JS jsval := call "getmininginfo" [].
Definition getWalletInfo : JS jsval := call "getwalletinfo" [].
Definition getStakingInfo : JS jsval := call "getstakinginfo" [].
Definition getAlgoInfo : JS jsval := call "getalgoinfo" [].
Definition getBlock (hash verbosity : jsval) : JS jsval := call "getblock" [hash; default verbosity (vnum 1)].
Definition getBlockByHeight (height verbosity : jsval) : JS jsval := call "getblock" [height; default verbosity (vnum 1)].
Definition getTransaction (txid includeWatchonly : jsval) : JS jsval :=
  call "gettransaction" [txid; default includeWatchonly (VBool false)].
Definition getRawTransaction (txid verbose : jsval) : JS jsval :=
  call "getrawtransaction" [txid; default verbose (VBool true)].
Definition getUTXOs (address : jsval) : JS jsval := call "getutxos" [address].
Definition getBalance (address minconf : jsval) : JS jsval :=
  let minconf := default minconf (vnum 1) in
  call "getbalance" (if truthy address then [address; minconf] else [minconf]).
Definition sendRawTransaction (hex allowhighfees : jsval) : JS jsval :=
  call "sendrawtransaction" [hex; default allowhighfees (VBool false)].
Definition createRawTransaction (inputs outputs : jsval) : JS jsval := call "createrawtransaction" [inputs; outputs].
Definition signRawTransaction (hex inputs privateKeys sighashType : jsval) : JS jsval :=
  call "signrawtransaction"
    ([hex] ++ (if truthy inputs then [inputs] else []) ++ (if truthy privateKeys then [privateKeys] else [])
     ++ [default sighashType (VStr "ALL")])%list.
Definition getNewAddress (label addressType : jsval) : JS jsval :=
  call "getnewaddress" [default label (VStr EmptyString); default addressType (VStr "legacy")].
Definition validateAddress (address : jsval) : JS jsval := call "validateaddress" [address].

(** The callback of a reconnection timer. *)
Definition onTimer : JS unit :=
  modify (fun s => set_pending (pred (pending s)) s) ;;;
  let* s := read id in
  emit "reconnecting" (VObj [("attempt", vnum (Z.of_nat (reconnectAttempts s)))]) ;;;
  try_catch
    (getBlockchainInfo ;;; ret tt)
    (fun _ =>
     let* s := read id in
     if (reconnectAttempts s <? maxReconnectAttempts s)%nat then scheduleReconnect else ret tt).

Definition isConnected : JS bool := read connected.
Definition getConfig : JS (list (string * jsval)) := read config.

Definition updateConfig (cfg : list (string * jsval)) : JS unit :=
  modify (fun s => set_config (obj_spread (config s) cfg) s) ;;;
  if truthy (obj_get cfg "host") || truthy (obj_get cfg "port") || truthy (obj_get cfg "username")
     || truthy (obj_get cfg "password")
  then modify (fun s => set_endpoint (url_of (config s)) (auth_of (config s)) s)
  else ret tt.

Definition on (name : string) (cb : nat) : JS unit :=
  modify (fun s => set_listeners (listeners s ++ [(name, cb)])%list s).

Definition disconnect : JS unit :=
  modify (set_connected false) ;;;
  modify (set_autoReconnect false) ;;;
  modify (set_listeners []).

End Methods.

(** ** Facts *)

Section Rules.
Context `{Env}.
Implicit Types (s : client) (t : trace).

(** Emitting an event leaves the client alone. *)
Lemma wp_emit name payload (Q : unit -> client -> trace -> Prop) E s t :
  (forall t', Q tt s t') -> (forall e t', e_name e = "Error" \/ listeners s <> [] \/ (exists t0 args, reply t0 "util.inspect" args = Throw e) -> E e s t') ->
  wp (emit name payload) Q E s t.
Proof.
  intros HQ HE. unfold emit. do 2 wp_step. unfold id.
  destruct (filter _ (listeners s)) as [|x l] eqn:F.
  - wp_auto; auto. apply HE. eauto.
  - assert (L : listeners s <> []) by (destruct (listeners s); [discriminate|congruence]).
    eapply wp_mono; [..|apply wp_for_each with (I := fun _ s' _ => s' = s) (E := fun _ s' _ => s' = s)].
    + intros [] s' t' ->. apply HQ.
    + intros e s' t' ->. apply HE. auto.
    + intros [n cb] l' s' t' ->. wp_auto; reflexivity.
    + reflexivity.
Qed.

End Rules.

Ltac rpc_step :=
  match goal with
  | |- wp (emit _ _) _ _ _ _ => apply wp_emit; [intros ? | intros ? ? ?]
  | _ => wp_step
  end.
Ltac rpc_auto := repeat rpc_step.

(** What an application and the timers do. *)
Inductive op : Type :=
  | OpCall (method : string) (params : list jsval)
  | OpTimer
  | OpOn (name : string) (cb : nat)
  | OpUpdate (cfg : list (string * jsval))
  | OpDisconnect.

Definition run `{Env} (x : op) : JS client unit :=
  match x with
  | OpCall m ps => call m ps ;;; ret tt
  | OpTimer => onTimer
  | OpOn n cb => on n cb
  | OpUpdate cfg => updateConfig cfg
  | OpDisconnect => disconnect
  end.

(** A timer fires only when one is pending. *)
Inductive step `{Env} : client * trace -> client * trace -> Prop :=
  | step_run x s t r s' t' :
      (x = OpTimer -> 0 < pending s) -> run x s t = (r, s', t') -> step (s, t) (s', t').

Section Client.
Context `{Env}.

Definition bounded (s : client) : Prop := reconnectAttempts s <= maxReconnectAttempts s.

Lemma schedule_bounded s t :
  reconnectAttempts s < maxReconnectAttempts s ->
  wp scheduleReconnect (fun _ s' _ => bounded s') (fun _ s' _ => bounded s') s t.
Proof. intros L. unfold scheduleReconnect, bounded. wp_auto; cbn; lia. Qed.

Lemma post_bounded payload s t :
  bounded s -> wp (post payload) (fun _ s' _ => bounded s') (fun _ s' _ => bounded s') s t.
Proof.
  intros B. unfold post. do 2 wp_step. rpc_auto; try exact B; try (unfold onResponse; rpc_auto; unfold bounded; cbn; lia).
  all: unfold onFailure; rpc_auto; try exact B.
  all: match goal with HL : andb _ _ = true |- _ => apply andb_true_iff in HL as [_ HL]; apply Nat.ltb_lt in HL end.
  all: eapply wp_mono; [..|apply schedule_bounded; assumption]; cbn beta; [intros ? ? ? ?|auto]; rpc_auto; assumption.
Qed.

Lemma call_bounded m ps s t :
  bounded s -> wp (call m ps) (fun _ s' _ => bounded s') (fun _ s' _ => bounded s') s t.
Proof.
  intros B. unfold call. do 6 wp_step. eapply wp_mono; [..|apply post_bounded; exact B]; cbn beta;
    intros ? s' t' B'; wp_auto; exact B'.
Qed.

Lemma run_bounded x s t :
  bounded s -> wp (run x) (fun _ s' _ => bounded s') (fun _ s' _ => bounded s') s t.
Proof.
  intros B. destruct x; cbn [run].
  - wp_step. eapply wp_mono; [..|apply call_bounded; exact B]; cbn beta; [intros; wp_step|]; auto.
  - unfold onTimer, getBlockchainInfo. rpc_auto; try exact B.
    eapply wp_mono; [..|apply call_bounded; exact B]; cbn beta; intros ? ? ? ?; rpc_auto; try assumption.
    apply schedule_bounded. apply Nat.ltb_lt. assumption.
  - unfold on. wp_auto. exact B.
  - unfold updateConfig. wp_auto; exact B.
  - unfold disconnect. wp_auto. exact B.
Qed.

End Client.

(** *** A node that cannot be reached *)

(** Every request fails. *)
Class Unreachable `{Env} : Prop := post_fails : forall t args, exists e, reply t "axios.post" args = Throw e.

(** Reconnection work left: pending timers and attempts not yet used. *)
Definition work (s : client) : nat := pending s + (maxReconnectAttempts s - reconnectAttempts s).

Section Offline.
Context `{Unreachable}.

Definition spends (k : nat) (s s' : client) : Prop :=
  bounded s' /\ maxReconnectAttempts s' = maxReconnectAttempts s /\ work s' + k <= work s.

Lemma schedule_spends s t :
  reconnectAttempts s < maxReconnectAttempts s ->
  wp scheduleReconnect (fun _ s' _ => spends 0 s s') (fun _ s' _ => spends 0 s s') s t.
Proof using Type. intros L. unfold scheduleReconnect, spends, work, bounded. wp_auto; cbn; lia. Qed.

Lemma spends_refl s : bounded s -> spends 0 s s.
Proof using Type. unfold spends, work, bounded. lia. Qed.

Lemma spends_trans j k s s' s'' : spends j s s' -> spends k s' s'' -> spends (j + k) s s''.
Proof using Type. unfold spends, work, bounded. lia. Qed.

Lemma onFailure_spends e s t :
  bounded s -> wp (onFailure e) (fun _ s' _ => spends 0 s s') (fun _ s' _ => spends 0 s s') s t.
Proof using Type.
  intros B. assert (R : spends 0 s (set_connected false s)) by (apply (spends_refl s B)).
  unfold onFailure. rpc_auto; try exact R.
  match goal with HL : andb _ _ = true |- _ => apply andb_true_iff in HL as [_ HL]; apply Nat.ltb_lt in HL end.
  eapply wp_mono; [..|apply schedule_spends; assumption]; cbn beta; [intros ? ? ? ?|auto]; rpc_auto; assumption.
Qed.

Lemma post_spends payload s t :
  bounded s -> wp (post payload) (fun _ s' _ => spends 0 s s') (fun _ s' _ => spends 0 s s') s t.
Proof.
  intros B. unfold post. do 2 wp_step. rpc_auto; try (apply onFailure_spends; exact B).
  match goal with E : reply ?t "axios.post" ?a = Ok _ |- _ => destruct (post_fails t a); congruence end.
Qed.

Lemma call_spends m ps s t :
  bounded s -> wp (call m ps) (fun _ s' _ => spends 0 s s') (fun _ s' _ => spends 0 s s') s t.
Proof.
  intros B. unfold call. do 6 wp_step.
  eapply wp_mono; [..|apply (post_spends _ (set_requestId (requestId s + 1) s)); exact B]; cbn beta;
    intros ? s' t' B'; wp_auto; exact B'.
Qed.

Lemma timer_spends s t :
  bounded s -> 0 < pending s -> wp onTimer (fun _ s' _ => spends 1 s s') (fun _ s' _ => spends 1 s s') s t.
Proof.
  intros B P. assert (R : spends 1 s (set_pending (pred (pending s)) s)) by (unfold spends, work, bounded in *; cbn; lia).
  unfold onTimer, getBlockchainInfo. do 5 wp_step. rpc_step; [|exact R]. do 2 wp_step.
  eapply wp_mono; [..|apply (call_spends _ _ (set_pending (pred (pending s)) s)); exact B]; cbn beta;
    intros ? s1 t1 S1; pose proof (spends_trans _ _ _ _ _ R S1) as S1'; wp_auto; try exact S1'.
  apply Nat.ltb_lt in Heqb.
  eapply wp_mono; [..|apply schedule_spends; exact Heqb]; cbn beta; intros ? s2 t2 S2;
    exact (spends_trans _ _ _ _ _ S1' S2).
Qed.

End Offline.

(** [n] timers fire one after the other. *)
Inductive fires `{Env} : nat -> client * trace -> client * trace -> Prop :=
  | fires_none x : fires 0 x x
  | fires_more n s t s1 t1 r s2 t2 :
      fires n (s, t) (s1, t1) -> 0 < pending s1 -> onTimer s1 t1 = (r, s2, t2) -> fires (S n) (s, t) (s2, t2).

(** A node that answers nothing, for the witnesses. *)
Definition offline : Env := {|
  reply := fun _ op _ =>
    if op =? "axios.post" then Throw (Err "AxiosError" "connect ECONNREFUSED" [("isAxiosError", VBool true)])
    else if op =? "util.inspect" then Ok (VStr "{ type: 'error' }")
    else Ok VUndef;
  clock := fun _ => Num.zero;
  random := fun _ => Num.zero |}.

#[global] Instance offline_unreachable : @Unreachable offline.
Proof. intros t args. eexists. reflexivity. Qed.

Definition client0 : client := constructor [("host", VStr "localhost"); ("port", vnum 8332)] None VUndef VUndef.

Definition after (x : op) (s : client * trace) : client * trace :=
  let '(_, s', t') := run (H := offline) x (fst s) (snd s) in (s', t').

Lemma after_steps_once x s : (x = OpTimer -> 0 < pending (fst s)) -> step (H := offline) s (after x s).
Proof.
  destruct s as [c t]. unfold after. cbn [fst snd]. intros P.
  destruct (run x c t) as [[r c'] t'] eqn:E. exact (step_run _ _ _ _ _ _ P E).
Qed.

Lemma after_fires s : 0 < pending (fst s) -> fires (H := offline) 1 s (after OpTimer s).
Proof.
  destruct s as [c t]. unfold after. cbn [fst snd run]. intros P.
  destruct (onTimer c t) as [[r c'] t'] eqn:E. exact (fires_more _ _ _ _ _ _ _ _ (fires_none _) P E).
Qed.

(** ** Theorems *)

(** The attempts never exceed their limit, along every run of calls,
    timers, configuration changes and disconnects, whatever the node and the
    listeners do. *)
Theorem rpc_attempts_bounded `{Env} cfg max interval autoRec s t :
  steps step (constructor cfg max interval autoRec, []) (s, t) ->
  reconnectAttempts s <= maxReconnectAttempts s.
Proof.
  intros Hs. apply (steps_invariant step (fun x => bounded (fst x))) with (2 := Hs).
  - intros x y B St. destruct St as [o s1 t1 r s2 t2 _ E]. cbn [fst] in *.
    pose proof (run_bounded o s1 t1 B) as P. unfold wp in P. rewrite E in P. destruct r; exact P.
  - unfold bounded. cbn. lia.
Qed.

Lemma rpc_attempts_bounded_witness :
  reconnectAttempts (fst (after (OpCall "getblockchaininfo" []) (client0, [])))
  <= maxReconnectAttempts (fst (after (OpCall "getblockchaininfo" []) (client0, []))).
Proof.
  apply (rpc_attempts_bounded (H := offline) [("host", VStr "localhost"); ("port", vnum 8332)] None VUndef VUndef _
    (snd (after (OpCall "getblockchaininfo" []) (client0, [])))).
  rewrite <- surjective_pairing. apply steps_one. exact (after_steps_once (OpCall "getblockchaininfo" []) (client0, []) ltac:(discriminate)).
Defined.

(** C10: reconnecting to an unreachable node ends: every timer that fires
    uses up a unit of work, so no more timers fire than were pending plus
    the attempts that were left. *)
Theorem rpc_reconnection_terminates `{Unreachable} n s t s' t' :
  bounded s -> fires n (s, t) (s', t') -> n + work s' <= work s /\ bounded s'.
Proof.
  intros B F. remember (s, t) as x eqn:Ex. remember (s', t') as y eqn:Ey. revert s t s' t' Ex Ey B.
  induction F as [x|n s0 t0 s1 t1 r s2 t2 F IH P E]; intros s t s' t' Ex Ey B.
  - rewrite Ex in Ey. injection Ey as -> ->. auto.
  - injection Ex as -> ->. injection Ey as -> ->. destruct (IH s t s1 t1 eq_refl eq_refl B) as [W B1].
    pose proof (timer_spends s1 t1 B1 P) as S1. unfold wp in S1. rewrite E in S1.
    destruct r; destruct S1 as (B2 & _ & W2); split; try exact B2; lia.
Qed.

Lemma rpc_reconnection_terminates_witness :
  let s1 := after (OpCall "getblockchaininfo" []) (client0, []) in
  1 + work (fst (after OpTimer s1)) <= work (fst s1).
Proof.
  intros s1. apply (rpc_reconnection_terminates (H := offline) 1 _ (snd s1) _ (snd (after OpTimer s1))).
  - vm_compute. lia.
  - rewrite <- !surjective_pairing. apply after_fires. vm_compute. lia.
Defined.

(** A call fails only with an [RPCError], whatever was thrown below it,
    and every call has a request number of its own. *)
Theorem rpc_call_errors `{Env} method params s t :
  wp (call method params)
    (fun _ s' _ => requestId s' = (requestId s + 1)%Z)
    (fun e s' _ => e_name e = "RPCError" /\ requestId s' = (requestId s + 1)%Z) s t.
Proof.
  assert (P : forall pl s t, wp (post pl) (fun _ s' _ => requestId s' = requestId s) (fun _ s' _ => requestId s' = requestId s) s t).
  { intros pl s0 t0. unfold post, onResponse, onFailure, scheduleReconnect. do 2 wp_step. rpc_auto; reflexivity. }
  unfold call. do 6 wp_step. eapply wp_mono; [..|apply P]; cbn beta; intros ? s1 t1 R; wp_auto; try exact R;
    try (split; [|exact R]; cbn); try reflexivity; try discriminate; apply String.eqb_eq; assumption.
Qed.

(** Without a listener for [error] a network failure is reported as an
    unknown error: emitting the event throws, and the status and the code of
    the network error are lost. *)
Theorem rpc_unheard_error `{Env} method params s t :
  listeners s = [] -> (forall t op args, op <> "axios.post" -> exists v, reply t op args = Ok v) ->
  (forall t args, exists e, reply t "axios.post" args = Throw e /\ isAxiosError e = true) ->
  wp (call method params) (fun _ _ _ => False)
    (fun e _ _ => exists text raw, e = RPCError ("Unknown Error: Unhandled error. (" ++ text ++ ")") (vnum (-1)) raw) s t.
Proof.
  intros L Ho Hp.
  assert (X : forall t op args e, op <> "axios.post" -> reply t op args = Throw e -> False)
    by (intros t0 op args e N E; destruct (Ho t0 op args N); congruence).
  assert (P : forall pl s t, listeners s = [] ->
     wp (post pl) (fun _ _ _ => False)
       (fun e _ _ => exists text, e = Err "Error" ("Unhandled error. (" ++ text ++ ")") (e_props e) /\ isAxiosError e = false) s t).
  { clear s t L. intros pl s t L. unfold post, onResponse, onFailure, scheduleReconnect, emit. rewrite L || idtac.
    wp_auto; try (exfalso; eapply X; [|eassumption]; discriminate);
      repeat match goal with H1 : filter _ (listeners (id _)) = _ :: _ |- _ => exfalso; unfold id in H1; cbn in H1; rewrite L in H1; discriminate H1 end;
      try match goal with E : reply ?t "axios.post" ?a = Ok _ |- _ => destruct (Hp t a) as (? & ? & _); congruence end;
      try (exfalso; discriminate); eauto. }
  unfold call. do 6 wp_step. eapply wp_mono; [..|apply P; exact L]; cbn beta; [intros ? ? ? []|].
  intros e s1 t1 (text & -> & A). cbn [e_name]. change ("Error" =? "RPCError") with false. cbv iota.
  rewrite A. wp_step. exists text. eexists. reflexivity.
Qed.

Lemma rpc_unheard_error_witness :
  wp (call (H := offline) "getblockchaininfo" []) (fun _ _ _ => False)
    (fun e _ _ => exists text raw, e = RPCError ("Unknown Error: Unhandled error. (" ++ text ++ ")") (vnum (-1)) raw) client0 [].
Proof.
  apply (rpc_unheard_error (H := offline)).
  - reflexivity.
  - intros t op args N. cbn. apply String.eqb_neq in N. rewrite N. destruct (op =? "util.inspect"); eauto.
  - intros t args. eexists. split; reflexivity.
Defined.

(** With the switch off a failing call sets no timer and keeps the counters. *)
Definition keeps_timers (s s' : client) : Prop :=
  autoReconnect s' = false /\ pending s' = pending s /\ reconnectAttempts s' = reconnectAttempts s
  /\ maxReconnectAttempts s' = maxReconnectAttempts s.

Lemma call_when_off `{Unreachable} m ps s t :
  listeners s = [] -> autoReconnect s = false ->
  wp (call m ps) (fun _ _ _ => False) (fun _ s' _ => keeps_timers s s') s t.
Proof.
  intros L A. unfold call. do 6 wp_step.
  apply (wp_mono _ (fun _ _ _ => False) _ (fun _ s' _ => keeps_timers s s')).
  - intros ? ? ? [].
  - intros e s2 t2 F. wp_auto; exact F.
  - unfold post, onFailure, keeps_timers. do 2 wp_step. rpc_auto; cbn; auto;
      try match goal with E : reply ?t "axios.post" ?a = Ok _ |- _ => destruct (post_fails t a); congruence end;
      try match goal with E : andb _ _ = true |- _ => exfalso; revert E; cbn; rewrite A; discriminate end.
Qed.

(** Disconnecting does not stop the reconnection: a timer that was
    pending fires, the request fails, and the handler of the failure sets
    the next timer without looking at the switch that disconnecting turned
    off. *)
Theorem rpc_disconnect_keeps_reconnecting `{Unreachable} s t :
  (forall t op args, op <> "axios.post" -> exists v, reply t op args = Ok v) ->
  0 < pending s -> reconnectAttempts s < maxReconnectAttempts s ->
  wp (disconnect ;;; onTimer)
    (fun _ s' _ => autoReconnect s' = false /\ pending s' = pending s /\ reconnectAttempts s' = S (reconnectAttempts s))
    (fun _ _ _ => False) s t.
Proof.
  intros Ho P L.
  assert (X : forall t op args e, op <> "axios.post" -> reply t op args = Throw e -> False)
    by (intros t0 op args e N E; destruct (Ho t0 op args N); congruence).
  unfold disconnect. do 6 wp_step. set (s1 := set_listeners [] _).
  unfold onTimer, getBlockchainInfo. do 5 wp_step. unfold emit at 1. do 2 wp_step.
  change (listeners (id (set_pending _ s1))) with (@nil (string * nat)). cbn [filter].
  change ("reconnecting" =? "error") with false. cbv iota. do 3 wp_step.
  eapply wp_mono; [..|apply (call_when_off _ _ (set_pending (pred (pending s1)) s1)); reflexivity]; cbn beta; [intros ? ? ? []|].
  intros e s2 t2 (A2 & P2 & R2 & M2). unfold scheduleReconnect. do 2 wp_step. unfold id.
  assert (G : (reconnectAttempts s2 <? maxReconnectAttempts s2)%nat = true)
    by (apply Nat.ltb_lt; rewrite R2, M2; exact L). rewrite G.
  wp_auto; [|eapply X; [|eassumption]; discriminate]. cbn in *. rewrite A2, P2, R2. repeat split. lia.
Qed.

Lemma rpc_disconnect_keeps_reconnecting_witness :
  let s1 := fst (after (OpCall "getblockchaininfo" []) (client0, [])) in
  wp (disconnect ;;; onTimer (H := offline)) (fun _ s' _ => pending s' = pending s1) (fun _ _ _ => False) s1 [].
Proof.
  intros s1. eapply wp_mono; [..|apply (rpc_disconnect_keeps_reconnecting (H := offline) s1 [])]; cbn beta.
  - intros _ s' t' (_ & P & _). exact P.
  - auto.
  - intros t op args N. cbn. apply String.eqb_neq in N. rewrite N. destruct (op =? "util.inspect"); eauto.
  - vm_compute. lia.
  - vm_compute. lia.
Defined.
