(* ===== verification/NodeSdk.v ===== *)
(** * The node SDK

    [ShahcoinSDK] of src/sdk-core/shahcoin.js: a connection to a Shahcoin node
    over JSON-RPC and the requests an application makes through it.  [fetch]
    is the environment.  Every request first checks [isConnected]; only
    [connect] and [disconnect] change the object. *)

From Stdlib Require Import ZArith Bool Lia List String Ascii.
From S2P Require Import Prelude JsNum JsVal JsMonad Machine.
Import ListNotations.
Local Open Scope string_scope.


Record node : Type := Node {
  config : list (string * jsval);
  isConnected : bool;
  lastBlockHeight : jsval;
  networkInfo : jsval
}.

Definition set_connected (b : bool) (s : node) : node := Node (config s) b (lastBlockHeight s) (networkInfo s).
Definition set_height (h : jsval) (s : node) : node := Node (config s) (isConnected s) h (networkInfo s).
Definition set_info (i : jsval) (s : node) : node := Node (config s) (isConnected s) (lastBlockHeight s) i.

(** [new ShahcoinSDK(config)]: three defaults, then the caller's own properties. *)
Definition constructor (config : jsval) : result node :=
  let config := default config (VObj []) in
  res_bind (get config "rpcUrl") (fun rpcUrl =>
  Ok (Node (obj_spread
              [("rpcUrl", js_or rpcUrl (VStr "http://localhost:8368"));
               ("network", js_or (get_opt config "network") (VStr "mainnet"));
               ("timeout", js_or (get_opt config "timeout") (vnum 30000))]
              (spread_props config))
           false (vnum 0) VNull)).

Section Operations.
Context `{Env}.
Notation JS := (JS node).

Definition rpcRequest (id : num) (method : string) (params : list jsval) : jsval :=
  VObj [("jsonrpc", VStr "2.0"); ("id", VNum id); ("method", VStr method); ("params", VArr params)].

(** The second argument of [fetch]. *)
Definition rpcOptions (timeout : jsval) (id : num) (method : string) (params : list jsval) : jsval :=
  VObj [("method", VStr "POST");
        ("headers", VObj [("Content-Type", VStr "application/json")]);
        ("body", stringify (rpcRequest id method params));
        ("timeout", timeout)].

Definition rpcCall (method : string) (params : list jsval) : JS jsval :=
  let* id := now in
  let* cfg := read config in
  let* response := fetch [obj_get cfg "rpcUrl"; rpcOptions (obj_get cfg "timeout") id method params] in
  let* ok := lift (get response "ok") in
  (if truthy ok then ret tt
   else throw (Error ("HTTP " ++ to_str (get_opt response "status") ++ ": " ++ to_str (get_opt response "statusText")))) ;;;
  let* data := response_json response in
  let* err := lift (get data "error") in
  if truthy err then throw (Error ("RPC Error: " ++ to_str (get_opt err "message"))) else ret data.

Definition connect : JS bool :=
  try_catch
    (let* response := rpcCall "getblockchaininfo" [] in
     let* info := lift (get response "result") in
     modify (set_info info) ;;;
     let* blocks := lift (get info "blocks") in
     modify (set_height blocks) ;;;
     modify (set_connected true) ;;;
     ret true)
    (fun _ => modify (set_connected false) ;;; ret false).

Definition disconnect : JS unit :=
  modify (set_connected false) ;;; modify (set_info VNull) ;;; modify (set_height (vnum 0)).

(** The check every request starts with. *)
Definition guarded (m : JS jsval) : JS jsval :=
  let* c := read isConnected in
  if c then m else throw (Error "Not connected to Shahcoin node").

(** A call whose [result] is the answer's source. *)
Definition rpcResult (method : string) (params : list jsval) : JS jsval :=
  let* response := rpcCall method params in lift (get response "result").

(** The answer is some properties of the result, under new names. *)
Definition rpcFields (method : string) (params : list jsval) (fields : list (string * string)) : JS jsval :=
  let* r := rpcResult method params in lift (select_fields r fields).

Definition same (names : list string) : list (string * string) := map (fun k => (k, k)) names.

Definition getBalance : JS jsval := guarded
  (let* r := rpcResult "getbalance" [] in
   ret (VObj [("confirmed", r); ("unconfirmed", vnum 0); ("total", r)])).

Definition getUTXOs (address : jsval) : JS jsval := guarded
  (let* r := rpcResult "listunspent" (if truthy (default address VNull) then [address] else []) in
   let* l := lift (as_array "response.result" "map" r) in
   let* us := lift (map_result (fun utxo => select_fields utxo
     (same ["txid"; "vout"; "address"; "amount"; "confirmations"; "spendable"; "solvable"; "safe"])) l) in
   ret (VArr us)).

Definition stakingUnavailable : jsval :=
  VObj [("enabled", VBool false); ("staking", VBool false); ("errors", VArr [VStr "Staking not available"]);
        ("currentBlockSize", vnum 0); ("currentBlockTx", vnum 0); ("pooledTx", vnum 0); ("difficulty", vnum 0);
        ("searchInterval", vnum 0); ("weight", vnum 0); ("netStakeWeight", vnum 0); ("expectedTime", vnum 0)].

(** [response.result.search-interval] subtracts a variable [interval] that is
    declared nowhere. *)
Definition getStakingStatus : JS jsval := guarded
  (try_catch
    (let* r := rpcResult "getstakinginfo" [] in
     lift (select_fields r (same ["enabled"; "staking"; "errors"; "currentblocksize"; "currentblocktx"; "pooledtx"; "difficulty"; "search"])) ;;;
     throw (ReferenceError "interval is not defined"))
    (fun _ => ret stakingUnavailable)).

Definition sendParams (address amount options : jsval) : list jsval :=
  [address; amount; js_or (get_opt options "comment") (VStr EmptyString);
   js_or (get_opt options "commentTo") (VStr EmptyString); js_or (get_opt options "subtractFeeFromAmount") (VBool false)].

Definition sendToAddress (address amount options : jsval) : JS jsval := guarded
  (let options := default options (VObj []) in
   lift (get options "comment") ;;;
   let* r := rpcResult "sendtoaddress" (sendParams address amount options) in
   ret (VObj [("txid", r); ("address", address); ("amount", amount); ("fee", vnum 0)])).

Definition createAddress (label : jsval) : JS jsval := guarded
  (let label := default label (VStr EmptyString) in
   let* r := rpcResult "getnewaddress" [label] in
   ret (VObj [("address", r); ("label", label)])).

Definition getTransaction (txid : jsval) : JS jsval := guarded
  (rpcFields "gettransaction" [txid]
    (same ["txid"; "amount"; "confirmations"; "blockhash"; "blockindex"; "blocktime"; "walletconflicts"; "time";
           "timereceived"; "details"; "hex"])).

Definition getNetworkInfo : JS jsval := guarded
  (rpcFields "getnetworkinfo" []
    (same ["version"; "subversion"; "protocolversion"; "localservices"; "localrelay"; "timeoffset"; "connections";
           "networkactive"; "networks"; "relayfee"; "incrementalfee"; "localaddresses"; "warnings"])).

Definition getMiningInfo : JS jsval := guarded
  (rpcFields "getmininginfo" []
    (same ["blocks"; "currentblocksize"; "currentblocktx"; "difficulty"; "errors"; "networkhashps"; "pooledtx"; "chain"])).

Definition algorithmUnavailable (height : jsval) : jsval :=
  VObj [("currentAlgo", VStr "sha256d"); ("currentHeight", height); ("nextAlgo", VStr "scrypt");
        ("sha256dDifficulty", vnum 0); ("scryptDifficulty", vnum 0); ("groestlDifficulty", vnum 0); ("posTarget", vnum 0)].

Definition getAlgorithmInfo : JS jsval := guarded
  (try_catch
    (rpcFields "getalgoinfo" []
      [("currentAlgo", "current_algo"); ("currentHeight", "current_height"); ("nextAlgo", "next_algo");
       ("sha256dDifficulty", "sha256d_difficulty"); ("scryptDifficulty", "scrypt_difficulty");
       ("groestlDifficulty", "groestl_difficulty"); ("posTarget", "pos_target")])
    (fun _ => let* h := read lastBlockHeight in ret (algorithmUnavailable h))).

(** [result += chars.charAt(Math.floor(Math.random() * chars.length))], [k] times. *)
Fixpoint randomChars (k : nat) (chars result : string) : JS string :=
  match k with
  | O => ret result
  | S k' =>
      let* r := rand in
      randomChars k' chars
        (result ++ charAt chars (Num.floor (Num.mul r (Num.of_Z (Z.of_nat (String.length chars))))))
  end.

Definition base58 : string := "123456789ABCDEFGHJKLMNPQRSTUVWXYZabcdefghijkmnopqrstuvwxyz".
Definition hexdigits : string := "0123456789abcdef".

Definition generateMockAddress : JS string := randomChars 33 base58 "S".
Definition generateMockTxid : JS string := randomChars 64 hexdigits EmptyString.

Definition createSHI20Token (name symbol decimals totalSupply : jsval) : JS jsval := guarded
  (let* a := generateMockAddress in
   let* x := generateMockTxid in
   ret (VObj [("success", VBool true); ("tokenAddress", VStr a); ("name", name); ("symbol", symbol);
              ("decimals", decimals); ("totalSupply", totalSupply); ("txid", VStr x); ("gasUsed", vnum 100000);
              ("gasPrice", VNum (Num.dec 1 3))])).

Definition createSHI30NFT (name symbol metadata : jsval) : JS jsval := guarded
  (let* a := generateMockAddress in
   let* x := generateMockTxid in
   ret (VObj [("success", VBool true); ("nftAddress", VStr a); ("name", name); ("symbol", symbol);
              ("metadata", metadata); ("txid", VStr x); ("gasUsed", vnum 150000); ("gasPrice", VNum (Num.dec 1 3))])).

Definition getTokenBalance (tokenAddress address : jsval) : JS jsval := guarded
  (let* r := rand in
   ret (VObj [("tokenAddress", tokenAddress); ("address", address); ("balance", VNum (Num.mul r (Num.of_Z 1000)));
              ("decimals", vnum 18); ("symbol", VStr "TOKEN")])).

Definition getNFTBalance (nftAddress address : jsval) : JS jsval := guarded
  (let* r := rand in
   ret (VObj [("nftAddress", nftAddress); ("address", address); ("balance", VNum (Num.floor (Num.mul r (Num.of_Z 10))));
              ("tokenIds", VArr [vnum 1; vnum 2; vnum 3])])).

Definition estimateFee (confTarget : jsval) : JS jsval := guarded
  (rpcFields "estimatesmartfee" [default confTarget (vnum 6)] (same ["feerate"; "blocks"])).

Definition getBlock (blockHashOrHeight : jsval) : JS jsval := guarded
  (rpcFields "getblock" [blockHashOrHeight]
    (same ["hash"; "confirmations"; "size"; "height"; "version"; "merkleroot"; "tx"; "time"; "mediantime"; "nonce";
           "bits"; "difficulty"; "chainwork"; "previousblockhash"; "nextblockhash"])).

Definition getRecentTransactions (count : jsval) : JS jsval := guarded
  (let* r := rpcResult "listtransactions" [VStr EmptyString; default count (vnum 10)] in
   let* l := lift (as_array "response.result" "map" r) in
   let* txs := lift (map_result (fun tx => select_fields tx
     (same ["account"; "address"; "category"; "amount"; "label"; "vout"; "confirmations"; "blockhash"; "blockindex";
            "blocktime"; "txid"; "time"; "timereceived"; "comment"; "to"])) l) in
   ret (VArr txs)).

Definition validateAddress (address : jsval) : JS jsval := guarded
  (rpcFields "validateaddress" [address]
    [("isValid", "isvalid"); ("address", "address"); ("scriptPubKey", "scriptPubKey"); ("isMine", "ismine");
     ("isWatchOnly", "iswatchonly"); ("isScript", "isscript"); ("isWitness", "iswitness");
     ("witnessVersion", "witness_version"); ("witnessProgram", "witness_program"); ("pubKey", "pubkey");
     ("isCompressed", "iscompressed"); ("account", "account"); ("hdkeypath", "hdkeypath");
     ("hdmasterkeyid", "hdmasterkeyid")]).

(** What an application asks of a connected node. *)
Inductive request : Type :=
  | GetBalance | GetUTXOs (address : jsval) | GetStakingStatus
  | SendToAddress (address amount options : jsval) | CreateAddress (label : jsval)
  | GetTransaction (txid : jsval) | GetNetworkInfo | GetMiningInfo | GetAlgorithmInfo
  | CreateSHI20Token (name symbol decimals totalSupply : jsval)
  | CreateSHI30NFT (name symbol metadata : jsval)
  | GetTokenBalance (tokenAddress address : jsval) | GetNFTBalance (nftAddress address : jsval)
  | EstimateFee (confTarget : jsval) | GetBlock (hashOrHeight : jsval)
  | GetRecentTransactions (count : jsval) | ValidateAddress (address : jsval).

Definition perform (r : request) : JS jsval :=
  match r with
  | GetBalance => getBalance
  | GetUTXOs a => getUTXOs a
  | GetStakingStatus => getStakingStatus
  | SendToAddress a v o => sendToAddress a v o
  | CreateAddress l => createAddress l
  | GetTransaction x => getTransaction x
  | GetNetworkInfo => getNetworkInfo
  | GetMiningInfo => getMiningInfo
  | GetAlgorithmInfo => getAlgorithmInfo
  | CreateSHI20Token n s d t => createSHI20Token n s d t
  | CreateSHI30NFT n s m => createSHI30NFT n s m
  | GetTokenBalance t a => getTokenBalance t a
  | GetNFTBalance n a => getNFTBalance n a
  | EstimateFee c => estimateFee c
  | GetBlock b => getBlock b
  | GetRecentTransactions c => getRecentTransactions c
  | ValidateAddress a => validateAddress a
  end.

Inductive op : Type := OpConnect | OpDisconnect | OpRequest (r : request).

Definition run (o : op) : JS unit :=
  match o with
  | OpConnect => let* _ := connect in ret tt
  | OpDisconnect => disconnect
  | OpRequest r => let* _ := perform r in ret tt
  end.

(** ** Facts *)

(** Requests leave the object alone. *)
Lemma rpcCall_pure method params : pure_state (rpcCall method params).
Proof using Type. intros s0 s t E. unfold rpcCall. wp_auto; exact E. Qed.

Lemma rpcResult_pure method params : pure_state (rpcResult method params).
Proof using Type. intros s0. unfold rpcResult. pose proof (rpcCall_pure method params s0). preserve. Qed.

Lemma randomChars_pure k chars r : pure_state (randomChars k chars r).
Proof using Type.
  intros s0. revert r. induction k; intros r; cbn [randomChars]; preserve.
Qed.

Lemma request_pure r : pure_state (perform r).
Proof using Type.
  intros s0.
  pose proof (fun m p => rpcResult_pure m p s0). pose proof (fun k c x => randomChars_pure k c x s0).
  destruct r; cbn [perform]; unfold getBalance, getUTXOs, getStakingStatus, sendToAddress, createAddress, getTransaction,
    getNetworkInfo, getMiningInfo, getAlgorithmInfo, createSHI20Token, createSHI30NFT, getTokenBalance, getNFTBalance,
    estimateFee, getBlock, getRecentTransactions, validateAddress, guarded, rpcFields, generateMockAddress, generateMockTxid;
    preserve.
Qed.

(** A request that is answered: [fetch] and [json] in order, and the value
    the call hands on. *)
Lemma rpcCall_returns method params s t :
  wp (rpcCall method params)
    (fun data s' t' => s' = s /\ truthy (get_opt data "error") = false /\
       exists id resp, truthy (get_opt resp "ok") = true /\
         t' = Ev "Response.json" [resp] (Ok data) ::
              Ev "fetch" [obj_get (config s) "rpcUrl"; rpcOptions (obj_get (config s) "timeout") id method params] (Ok resp) ::
              Ev "Date.now" [] (Ok (VNum id)) :: t)
    (fun _ s' _ => s' = s) s t.
Proof using Type.
  unfold rpcCall. wp_auto; try reflexivity. split; [reflexivity|]. split; [erewrite get_opt_ok; eassumption|].
  do 2 eexists. split; [|reflexivity]. erewrite get_opt_ok; eassumption.
Qed.

End Operations.

(** What the SDK knows of the node once connected. *)
Definition linked (s : node) : Prop :=
  isConnected s = true -> nullish (networkInfo s) = false /\ lastBlockHeight s = get_opt (networkInfo s) "blocks".

Lemma get_not_nullish v k x : get v k = Ok x -> nullish v = false.
Proof. destruct v; cbn; congruence. Qed.

Lemma connect_outcome `{Env} s t :
  wp connect
    (fun b s' _ => isConnected s' = b /\ config s' = config s /\ linked s') (fun _ _ _ => False) s t.
Proof.
  unfold connect. apply wp_try_catch, wp_bind.
  eapply wp_mono; [..|apply rpcCall_returns]; cbn beta.
  - intros data s' t' (-> & _). wp_auto; unfold linked; cbn; intuition try discriminate.
    + eapply get_not_nullish; eassumption.
    + symmetry. apply get_opt_ok. assumption.
  - intros e s' t' ->. wp_auto. unfold linked. cbn. intuition discriminate.
Qed.

Lemma run_linked `{Env} cfg o s t :
  config s = cfg /\ linked s ->
  wp (run o) (fun _ s' _ => config s' = cfg /\ linked s') (fun _ s' _ => config s' = cfg /\ linked s') s t.
Proof.
  intros [C L]. destruct o; cbn [run].
  - apply wp_bind. eapply wp_mono; [..|apply connect_outcome]; cbn beta; [|tauto].
    intros b s' t' (_ & E & L'). apply wp_ret. split; [congruence|exact L'].
  - unfold disconnect. wp_auto. unfold linked. cbn. intuition discriminate.
  - apply wp_bind. eapply wp_mono; [..|apply (request_pure r s s t); reflexivity]; cbn beta; intros; subst; [apply wp_ret|]; auto.
Qed.

(** Without a connection a request does nothing but throw. *)
Lemma perform_offline `{Env} r s t :
  isConnected s = false -> perform r s t = (Throw (Error "Not connected to Shahcoin node"), s, t).
Proof.
  intros C. assert (forall m, guarded m s t = (Throw (Error "Not connected to Shahcoin node"), s, t)) as G.
  { intros m. unfold guarded, bind, read. rewrite C. reflexivity. }
  destruct r; apply G.
Qed.

Lemma wp_guarded `{Env} m (Q : jsval -> node -> trace -> Prop) E s t :
  isConnected s = true -> wp m Q E s t -> wp (guarded m) Q E s t.
Proof. intros C W. unfold guarded. apply wp_bind, wp_read. rewrite C. exact W. Qed.

(** The strings over an alphabet. *)
Definition over (chars s : string) : Prop := forall n c, String.get n s = Some c -> exists m, String.get m chars = Some c.

Lemma over_app chars a b : over chars a -> over chars b -> over chars (a ++ b).
Proof.
  revert b. induction a as [|x a IH]; intros b Ha Hb; [exact Hb|].
  assert (over chars a) as Ha' by (intros n c G; exact (Ha (S n) c G)).
  intros [|n] c G; [exact (Ha O c G)|exact (IH b Ha' Hb n c G)].
Qed.

Lemma charAt_over chars i : over chars (charAt chars i) /\ (String.length (charAt chars i) <= 1)%nat.
Proof.
  destruct (charAt_cases chars i) as [->|(n & c & G & ->)]; (split; [intros [|m] d D|cbn; lia]); cbn in D; try discriminate.
  injection D as <-. eauto.
Qed.

Lemma randomChars_over `{Env} k chars r s t :
  wp (randomChars k chars r)
    (fun x s' t' => s' = s /\ exists y, x = r ++ y /\ over chars y /\ (String.length y <= k)%nat)
    (fun _ _ _ => False) s t.
Proof.
  revert r t. induction k as [|k IH]; intros r t; cbn [randomChars].
  - apply wp_ret. split; [reflexivity|]. exists EmptyString. rewrite append_nil_r.
    repeat split; [intros [|n] c G; discriminate|cbn; lia].
  - apply wp_bind, wp_rand. eapply wp_mono; [..|apply IH]; cbn beta; [|tauto].
    intros x s' t' (-> & y & -> & O & L). split; [reflexivity|].
    eexists. rewrite append_assoc. split; [reflexivity|].
    set (c := charAt _ _). destruct (charAt_over chars (Num.floor (Num.mul (random t) (Num.of_Z (Z.of_nat (String.length chars)))))) as [O1 L1].
    split; [apply over_app; assumption|]. rewrite length_append. subst c. lia.
Qed.

(** A node that is up: a request is answered with a result and no error. *)
Class NodeUp `{Env} (resp : jsval) (answer : string -> list jsval -> jsval) : Prop := {
  node_responds : forall t args, reply t "fetch" args = Ok resp;
  node_ok : exists ok, get resp "ok" = Ok ok /\ truthy ok = true;
  node_answers : forall t url timeout id method params,
    exists data err, reply (Ev "fetch" [url; rpcOptions timeout id method params] (Ok resp) :: t) "Response.json" [resp] = Ok data /\
      get data "error" = Ok err /\ truthy err = false /\ get data "result" = Ok (answer method params)
}.

Lemma rpcResult_up `{NodeUp} method params s t :
  wp (rpcResult method params)
    (fun v s' t' => s' = s /\ v = answer method params /\
       exists id data, t' = Ev "Response.json" [resp] (Ok data) ::
         Ev "fetch" [obj_get (config s) "rpcUrl"; rpcOptions (obj_get (config s) "timeout") id method params] (Ok resp) ::
         Ev "Date.now" [] (Ok (VNum id)) :: t)
    (fun _ _ _ => False) s t.
Proof.
  unfold rpcResult, rpcCall, fetch, response_json. do 2 apply wp_bind. apply wp_now. apply wp_bind, wp_read, wp_bind.
  eapply wp_ext_ok; [apply node_responds|].
  destruct node_ok as (ok & G & OK). rewrite G. apply wp_bind, wp_lift_ok, wp_bind. rewrite OK. apply wp_ret, wp_bind.
  destruct (node_answers (Ev "Date.now" [] (Ok (VNum (clock t))) :: t) (obj_get (config s) "rpcUrl") (obj_get (config s) "timeout")
    (clock t) method params) as (data & err & R & Ge & Er & Gr).
  eapply wp_ext_ok; [exact R|]. rewrite Ge. apply wp_bind, wp_lift_ok. rewrite Er. apply wp_ret. rewrite Gr. apply wp_lift_ok.
  eauto 6.
Qed.

(** A node at height 5 that gives every request the same answer. *)
Definition chain_info : jsval := VObj [("blocks", vnum 5)].
Definition upNode : Env := {|
  reply _ op _ := Ok (if op =? "fetch" then VObj [("ok", VBool true)] else VObj [("error", VNull); ("result", chain_info)]);
  clock _ := Num.of_Z 1700000000000;
  random _ := Num.dec 5 1
|}.

Lemma upNode_up : NodeUp (H := upNode) (VObj [("ok", VBool true)]) (fun _ _ => chain_info).
Proof. split; [reflexivity|exists (VBool true); split; reflexivity|]. intros. do 2 eexists. repeat split. Qed.

Definition node0 : node := Node [("rpcUrl", VStr "http://localhost:8368"); ("network", VStr "mainnet"); ("timeout", vnum 30000)] false (vnum 0) VNull.

(** The run of the witnesses: connect, ask for the balance, disconnect. *)
Definition session : node * trace :=
  after_op (run (H := upNode)) OpDisconnect (after_op (run (H := upNode)) (OpRequest GetBalance) (after_op (run (H := upNode)) OpConnect (node0, []))).

Lemma session_steps : steps (machine_step (run (H := upNode)) (fun _ _ => True)) (node0, []) (fst session, snd session).
Proof.
  rewrite <- surjective_pairing. unfold session.
  eapply steps_trans; [|apply steps_one, after_op_step; exact I].
  eapply steps_trans; [|apply steps_one, after_op_step; exact I].
  apply steps_one, after_op_step. exact I.
Qed.

(** ** Theorems *)

(** Along every run of connecting, disconnecting and requests, the
    configuration stays the one given, a connected SDK knows the node (its
    height is the [blocks] of the information it holds), and while it is not
    connected every request throws, without asking the node and without
    changing the object. *)
Theorem node_session `{Env} arg s0 t0 s t :
  constructor arg = Ok s0 ->
  steps (machine_step run (fun _ _ => True)) (s0, t0) (s, t) ->
  config s = config s0 /\ linked s /\
  (isConnected s = false -> forall r, perform r s t = (Throw (Error "Not connected to Shahcoin node"), s, t)).
Proof.
  intros C Hs.
  assert (linked s0) as L0.
  { unfold constructor in C. destruct (get _ _); cbn in C; [|discriminate]. injection C as <-. discriminate. }
  destruct (machine_invariant run (fun _ _ => True) (fun s _ => config s = config s0 /\ linked s)
    (fun o s t _ I => run_linked (config s0) o s t I) s0 t0 s t Hs (conj eq_refl L0)) as [Cf L].
  repeat split; try apply L; auto. intros F r. exact (perform_offline r s t F).
Qed.

Lemma node_session_witness :
  config (fst session) = config node0 /\
  forall r, perform (H := upNode) r (fst session) (snd session) = (Throw (Error "Not connected to Shahcoin node"), fst session, snd session).
Proof.
  destruct (node_session (H := upNode) VUndef node0 [] (fst session) (snd session) eq_refl session_steps) as (C & _ & P).
  split; [exact C|]. apply P. vm_compute. reflexivity.
Defined.

(** Staking status is never reported: whatever the node answers, a
    connected SDK returns the record for a node without staking. *)
Theorem node_staking_never_reported `{Env} s t :
  isConnected s = true ->
  wp getStakingStatus (fun v s' _ => v = stakingUnavailable /\ s' = s) (fun _ _ _ => False) s t.
Proof.
  intros C. apply wp_guarded; [exact C|]. apply wp_try_catch, wp_bind. unfold rpcResult. apply wp_bind.
  eapply wp_mono; [..|apply rpcCall_returns]; cbn beta.
  - intros data s' t' (-> & _). wp_auto; auto.
  - intros e s' t' ->. wp_auto. auto.
Qed.

Lemma node_staking_never_reported_witness :
  wp (getStakingStatus (H := upNode)) (fun v s' _ => v = stakingUnavailable /\ s' = set_connected true node0) (fun _ _ _ => False) (set_connected true node0) [].
Proof. apply (node_staking_never_reported (H := upNode)). reflexivity. Defined.

(** A payment: sent through a connected SDK to a node that answers, one
    request carries the address and the amount, and the answer gives them
    back with the node's transaction id. *)
Theorem node_send `{NodeUp} address amount s t :
  isConnected s = true ->
  wp (sendToAddress address amount VUndef)
    (fun v s' t' => s' = s /\
       v = VObj [("txid", answer "sendtoaddress" (sendParams address amount (VObj []))); ("address", address);
                 ("amount", amount); ("fee", vnum 0)] /\
       exists id data, t' = Ev "Response.json" [resp] (Ok data) ::
         Ev "fetch" [obj_get (config s) "rpcUrl";
           rpcOptions (obj_get (config s) "timeout") id "sendtoaddress" (sendParams address amount (VObj []))] (Ok resp) ::
         Ev "Date.now" [] (Ok (VNum id)) :: t)
    (fun _ _ _ => False) s t.
Proof.
  intros C. apply wp_guarded; [exact C|]. cbv zeta. apply wp_bind. apply wp_lift_ok, wp_bind.
  eapply wp_mono; [..|apply (rpcResult_up "sendtoaddress" (sendParams address amount (VObj [])))]; cbn beta; [|tauto].
  intros r s' t' (-> & -> & T). apply wp_ret. auto.
Qed.

Lemma node_send_witness :
  wp (sendToAddress (H := upNode) (VStr "SXyz") (vnum 3) VUndef)
    (fun v _ _ => v = VObj [("txid", chain_info); ("address", VStr "SXyz"); ("amount", vnum 3); ("fee", vnum 0)])
    (fun _ _ _ => False) (set_connected true node0) [].
Proof.
  eapply wp_mono; [| |exact (node_send (H0 := upNode_up) (VStr "SXyz") (vnum 3) (set_connected true node0) [] eq_refl)];
    cbv beta; [|tauto]. intros v s' t' (_ & E & _). exact E.
Defined.

(** The identifiers of created contracts: an address is [S] followed by at
    most 33 base-58 digits and a transaction id at most 64 hexadecimal digits,
    whatever the random source gives, and making them touches nothing. *)
Theorem node_mock_ids `{Env} s t :
  wp generateMockAddress
    (fun a s' _ => s' = s /\ exists r, a = "S" ++ r /\ over base58 r /\ (String.length r <= 33)%nat) (fun _ _ _ => False) s t /\
  wp generateMockTxid
    (fun x s' _ => s' = s /\ over hexdigits x /\ (String.length x <= 64)%nat) (fun _ _ _ => False) s t.
Proof.
  split; [exact (randomChars_over 33 base58 "S" s t)|].
  eapply wp_mono; [..|exact (randomChars_over 64 hexdigits EmptyString s t)]; cbv beta; [|tauto].
  intros x s' t' (-> & y & -> & O & L). auto.
Qed.

