(* ===== verification/WalletSdk.v ===== *)
(** * The wallet SDK package

    [ShahcoinSDK] of src/packages/shahcoin-sdk/src/shahcoin-sdk.ts: the wallet
    connection, requests through axios, the event socket with its heartbeat
    and its reconnection timer, and the callbacks of the application.  The
    HTTP client, the socket library and the callbacks are the environment;
    the sockets the SDK created and the timers it set are part of the state,
    so that a run can deliver their events in any order.  Callbacks are
    modelled as not calling back into the SDK. *)

From Stdlib Require Import ZArith Bool Lia List String.
From S2P Require Import Prelude JsNum JsVal JsJson JsMonad Machine.
Import ListNotations.
Local Open Scope string_scope.

Inductive readyState : Type := CONNECTING | OPEN | CLOSING | CLOSED.

Record sdk : Type := Sdk {
  config : list (string * jsval);
  httpClient : jsval;
  connection : jsval;
  wsClient : option nat;
  reconnectTimer : option nat;
  heartbeatTimer : option nat;
  eventCallbacks : list nat;
  connectionCallbacks : list nat;
  sockets : list (nat * readyState);
  timeouts : list nat;
  intervals : list nat;
  nextId : nat
}.

Definition set_connection (c : jsval) (s : sdk) : sdk :=
  Sdk (config s) (httpClient s) c (wsClient s) (reconnectTimer s) (heartbeatTimer s) (eventCallbacks s)
    (connectionCallbacks s) (sockets s) (timeouts s) (intervals s) (nextId s).
Definition set_wsClient (w : option nat) (s : sdk) : sdk :=
  Sdk (config s) (httpClient s) (connection s) w (reconnectTimer s) (heartbeatTimer s) (eventCallbacks s)
    (connectionCallbacks s) (sockets s) (timeouts s) (intervals s) (nextId s).
Definition set_reconnectTimer (x : option nat) (s : sdk) : sdk :=
  Sdk (config s) (httpClient s) (connection s) (wsClient s) x (heartbeatTimer s) (eventCallbacks s)
    (connectionCallbacks s) (sockets s) (timeouts s) (intervals s) (nextId s).
Definition set_heartbeatTimer (x : option nat) (s : sdk) : sdk :=
  Sdk (config s) (httpClient s) (connection s) (wsClient s) (reconnectTimer s) x (eventCallbacks s)
    (connectionCallbacks s) (sockets s) (timeouts s) (intervals s) (nextId s).
Definition set_callbacks (e c : list nat) (s : sdk) : sdk :=
  Sdk (config s) (httpClient s) (connection s) (wsClient s) (reconnectTimer s) (heartbeatTimer s) e c (sockets s)
    (timeouts s) (intervals s) (nextId s).
Definition set_sockets (l : list (nat * readyState)) (s : sdk) : sdk :=
  Sdk (config s) (httpClient s) (connection s) (wsClient s) (reconnectTimer s) (heartbeatTimer s) (eventCallbacks s)
    (connectionCallbacks s) l (timeouts s) (intervals s) (nextId s).
Definition set_timers (ts ivs : list nat) (s : sdk) : sdk :=
  Sdk (config s) (httpClient s) (connection s) (wsClient s) (reconnectTimer s) (heartbeatTimer s) (eventCallbacks s)
    (connectionCallbacks s) (sockets s) ts ivs (nextId s).
Definition set_nextId (n : nat) (s : sdk) : sdk :=
  Sdk (config s) (httpClient s) (connection s) (wsClient s) (reconnectTimer s) (heartbeatTimer s) (eventCallbacks s)
    (connectionCallbacks s) (sockets s) (timeouts s) (intervals s) n.

Definition socket_state (s : sdk) (i : nat) : option readyState := assoc Nat.eqb i (sockets s).
Definition set_socket (i : nat) (r : readyState) (s : sdk) : sdk := set_sockets (assoc_set Nat.eqb i r (sockets s)) s.

Definition without (i : nat) (l : list nat) : list nat := filter (fun j => negb (j =? i)%nat) l.

(** Timers of the platform: an identifier not used before, and clearing one
    that is not pending does nothing. *)
Definition newTimeout (s : sdk) : sdk := set_nextId (S (nextId s)) (set_timers (nextId s :: timeouts s) (intervals s) s).
Definition newInterval (s : sdk) : sdk := set_nextId (S (nextId s)) (set_timers (timeouts s) (nextId s :: intervals s) s).
Definition clearTimeout (i : nat) (s : sdk) : sdk := set_timers (without i (timeouts s)) (intervals s) s.
Definition clearInterval (i : nat) (s : sdk) : sdk := set_timers (timeouts s) (without i (intervals s)) s.

Definition network_info (chainId : Z) (name rpcUrl explorerUrl shahSwapUrl : string) : jsval :=
  VObj [("chainId", vnum chainId); ("name", VStr name); ("rpcUrl", VStr rpcUrl); ("explorerUrl", VStr explorerUrl);
        ("shahSwapUrl", VStr shahSwapUrl)].

Definition NETWORKS : list (string * jsval) :=
  [("mainnet", network_info 1 "Shahcoin Mainnet" "https://rpc.shah.vip" "https://explorer.shah.vip" "https://swap.shah.vip");
   ("testnet", network_info 2 "Shahcoin Testnet" "https://testnet-rpc.shah.vip" "https://testnet-explorer.shah.vip"
      "https://testnet-swap.shah.vip");
   ("regtest", network_info 3 "Shahcoin Regtest" "http://localhost:8332" "http://localhost:3001" "http://localhost:3002")].

(** [ShahcoinSDK.NETWORKS[this.config.network || 'mainnet']]. *)
Definition network_of (cfg : list (string * jsval)) : jsval :=
  obj_get NETWORKS (to_str (js_or (obj_get cfg "network") (VStr "mainnet"))).

Definition disconnected : jsval := VObj [("isConnected", VBool false)].

(** [new ShahcoinSDK(config)]. *)
Definition constructor (cfg : list (string * jsval)) : result sdk :=
  let cfg := obj_spread [("network", VStr "mainnet"); ("timeout", vnum 30000)] cfg in
  res_bind (if truthy (obj_get cfg "rpcUrl") then Ok (obj_get cfg "rpcUrl") else get (network_of cfg) "rpcUrl") (fun baseURL =>
  let apiKey := obj_get cfg "apiKey" in
  let client := VObj
    [("baseURL", baseURL); ("timeout", obj_get cfg "timeout");
     ("headers", VObj (("Content-Type", VStr "application/json") ::
        if truthy apiKey then [("Authorization", VStr ("Bearer " ++ to_str apiKey))] else []))] in
  Ok (Sdk cfg client disconnected None None None [] [] [] [] [] 0)).

Definition isConnected (s : sdk) : bool := truthy (get_opt (connection s) "isConnected").

Section Operations.
Context `{Env}.
Notation JS := (JS sdk).

(** The callbacks run in the order of subscription; what one throws is logged. *)
Definition emitEvent (type : string) (data : jsval) : JS unit :=
  let* timestamp := now in
  let* cbs := read eventCallbacks in
  for_each cbs (fun cb =>
    try_catch
      (ext "eventCallback" [vnum (Z.of_nat cb); VObj [("type", VStr type); ("data", data); ("timestamp", VNum timestamp)]] ;;; ret tt)
      (fun _ => ret tt)).

Definition notifyConnectionCallbacks : JS unit :=
  let* cbs := read connectionCallbacks in
  for_each cbs (fun cb =>
    let* c := read connection in
    try_catch (ext "connectionCallback" [vnum (Z.of_nat cb); c] ;;; ret tt) (fun _ => ret tt)).

(** A request through the axios instance, with the response interceptor. *)
Definition http (verb : string) (args : list jsval) : JS jsval :=
  let* client := read httpClient in
  try_catch (ext verb (client :: args))
    (fun error =>
      (if strict_eq (get_opt (obj_get (e_props error) "response") "status") (vnum 401)
       then emitEvent "disconnected" (VObj [("reason", VStr "unauthorized")])
       else ret tt) ;;;
      throw error).

Definition setupHeartbeat : JS unit :=
  let* i := read nextId in modify newInterval ;;; modify (set_heartbeatTimer (Some i)).

(** The callback of a heartbeat interval. *)
Definition onHeartbeat : JS unit :=
  let* w := read wsClient in
  match w with
  | Some i =>
      let* st := read (fun s => socket_state s i) in
      match st with
      | Some OPEN => ext "WebSocket.send" [vnum (Z.of_nat i); stringify (VObj [("type", VStr "ping")])] ;;; ret tt
      | _ => ret tt
      end
  | None => ret tt
  end.

Definition setupWebSocket : JS unit :=
  let* cfg := read config in
  let* rpcUrl := lift (get (network_of cfg) "rpcUrl") in
  let* url := lift (as_string "network.rpcUrl" "replace" rpcUrl) in
  let wsUrl := (replace_first (replace_first url "https://" "wss://") "http://" "ws://" ++ "/ws") in
  ext "new WebSocket" [VStr wsUrl] ;;;
  let* i := read nextId in
  modify (fun s => set_nextId (S i) (set_sockets ((i, CONNECTING) :: sockets s) s)) ;;;
  modify (set_wsClient (Some i)).

(** The callback of the reconnection timer. *)
Definition onReconnect : JS unit :=
  let* c := read isConnected in
  if c then setupWebSocket else ret tt.

Definition scheduleReconnect : JS unit :=
  let* old := read reconnectTimer in
  match old with Some i => modify (clearTimeout i) | None => ret tt end ;;;
  let* i := read nextId in
  modify newTimeout ;;; modify (set_reconnectTimer (Some i)).

Definition handleWebSocketEvent (event : jsval) : JS unit :=
  let* type := lift (get event "type") in
  let data := get_opt event "data" in
  if is_str type "balance_changed" then emitEvent "balanceChanged" data
  else if is_str type "transaction_received" then emitEvent "transactionReceived" data
  else if is_str type "staking_reward" then emitEvent "stakingReward" data
  else ret tt.

Definition onMessage (text : string) : JS unit :=
  try_catch (let* event := lift (json_parse text) in handleWebSocketEvent event) (fun _ => ret tt).

Definition connect : JS jsval :=
  try_catch
    (let* cfg := read config in
     let* response := http "post" [VStr "/wallet/connect"; VObj [("network", obj_get cfg "network")]] in
     let* body := lift (get response "data") in
     let* success := lift (get body "success") in
     (if truthy success then
        let* data := lift (get body "data") in
        let* address := lift (get data "address") in
        modify (set_connection (VObj
          [("isConnected", VBool true); ("address", address); ("balance", get_opt data "balance");
           ("network", obj_get cfg "network")])) ;;;
        setupWebSocket ;;;
        notifyConnectionCallbacks ;;;
        let* c := read connection in
        emitEvent "connected" c
      else ret tt) ;;;
     read connection)
    (fun error => throw (Error ("Failed to connect to wallet: " ++ err_to_string error))).

(** [wsClient.close()]. *)
Definition closing (r : readyState) : readyState :=
  match r with CONNECTING | OPEN => CLOSING | _ => r end.

Definition close_socket (i : nat) (s : sdk) : sdk :=
  match socket_state s i with Some r => set_socket i (closing r) s | None => s end.

Definition disconnect : JS unit :=
  modify (set_connection disconnected) ;;;
  let* w := read wsClient in
  match w with Some i => modify (close_socket i) ;;; modify (set_wsClient None) | None => ret tt end ;;;
  let* r := read reconnectTimer in
  match r with Some i => modify (clearTimeout i) ;;; modify (set_reconnectTimer None) | None => ret tt end ;;;
  let* h := read heartbeatTimer in
  match h with Some i => modify (clearInterval i) ;;; modify (set_heartbeatTimer None) | None => ret tt end ;;;
  notifyConnectionCallbacks ;;;
  emitEvent "disconnected" (VObj []).

Definition getConnection : JS jsval := let* c := read connection in ret (VObj (spread_props c)).
Definition on (event : string) (callback : nat) : JS unit :=
  modify (fun s => set_callbacks (eventCallbacks s ++ [callback]) (connectionCallbacks s) s).
Definition onConnectionChange (callback : nat) : JS unit :=
  modify (fun s => set_callbacks (eventCallbacks s) (connectionCallbacks s ++ [callback]) s).
Definition getNetworkInfo : JS jsval := read (fun s => network_of (config s)).

(** ** Requests *)

Definition guarded (m : JS jsval) : JS jsval :=
  let* c := read isConnected in
  if c then m else throw (Error "Wallet not connected").

Definition attempt (what : string) (m : JS jsval) : JS jsval :=
  try_catch m (fun error => throw (Error ("Failed to " ++ what ++ ": " ++ err_to_string error))).

(** [response.data.data], and one property of it. *)
Definition payload (response : jsval) : JS jsval :=
  let* body := lift (get response "data") in lift (get body "data").
Definition payload_field (k : string) (response : jsval) : JS jsval :=
  let* data := payload response in lift (get data k).

Definition address_of (s : sdk) : jsval := get_opt (connection s) "address".

Definition getBalance : JS jsval := guarded (attempt "get balance"
  (let* a := read address_of in
   let* r := http "get" [VStr ("/wallet/balance/" ++ to_str a)] in payload_field "balance" r)).

Definition getTransactionHistory (limit offset : jsval) : JS jsval := guarded (attempt "get transaction history"
  (let* a := read address_of in
   let* r := http "get" [VStr ("/wallet/transactions/" ++ to_str a);
     VObj [("params", VObj [("limit", default limit (vnum 50)); ("offset", default offset (vnum 0))])]] in
   payload_field "transactions" r)).

Definition sendTransaction (params : jsval) : JS jsval := guarded (attempt "send transaction"
  (let* a := read address_of in
   let* to := lift (get params "to") in
   let* r := http "post" [VStr "/wallet/send";
     VObj [("from", a); ("to", to); ("amount", get_opt params "amount"); ("fee", get_opt params "fee");
           ("memo", get_opt params "memo")]] in
   payload_field "txid" r)).

Definition getFeeEstimates : JS jsval := attempt "get fee estimates"
  (let* r := http "get" [VStr "/wallet/fee-estimates"] in payload r).

Definition getStakingInfo : JS jsval := guarded (attempt "get staking info"
  (let* a := read address_of in
   let* r := http "get" [VStr ("/staking/info/" ++ to_str a)] in payload r)).

Definition stake (amount : jsval) : JS jsval := guarded (attempt "stake"
  (let* a := read address_of in
   let* r := http "post" [VStr "/staking/stake"; VObj [("address", a); ("amount", amount)]] in payload_field "txid" r)).

Definition getShahSwapQuote (params : jsval) : JS jsval := attempt "get ShahSwap quote"
  (let* r := http "post" [VStr "/shahswap/quote"; params] in payload r).

(** A request whose body is the parameters and the address under a name. *)
Definition post_as (path who : string) (params : jsval) : JS jsval :=
  let* a := read address_of in
  let* r := http "post" [VStr path; VObj (obj_set who a (spread_props params))] in payload r.

Definition executeShahSwap (params : jsval) : JS jsval :=
  guarded (attempt "execute ShahSwap trade" (post_as "/shahswap/trade" "from" params)).
Definition createToken (params : jsval) : JS jsval :=
  guarded (attempt "create token" (post_as "/tokens/create" "creator" params)).
Definition createNFT (params : jsval) : JS jsval :=
  guarded (attempt "create NFT" (post_as "/nfts/create" "owner" params)).

Definition getTokenInfo (contractAddress : string) : JS jsval := attempt "get token info"
  (let* r := http "get" [VStr ("/tokens/" ++ contractAddress)] in payload r).
Definition getNFTInfo (contractAddress tokenId : string) : JS jsval := attempt "get NFT info"
  (let* r := http "get" [VStr ("/nfts/" ++ contractAddress ++ "/" ++ tokenId)] in payload r).

Definition getUserTokens : JS jsval := guarded (attempt "get user tokens"
  (let* a := read address_of in
   let* r := http "get" [VStr ("/tokens/user/" ++ to_str a)] in payload_field "tokens" r)).
Definition getUserNFTs : JS jsval := guarded (attempt "get user NFTs"
  (let* a := read address_of in
   let* r := http "get" [VStr ("/nfts/user/" ++ to_str a)] in payload_field "nfts" r)).

(** The requests that need a wallet, and those that do not. *)
Inductive wallet_request : Type :=
  | GetBalance | GetTransactionHistory (limit offset : jsval) | SendTransaction (params : jsval) | GetStakingInfo
  | Stake (amount : jsval) | ExecuteShahSwap (params : jsval) | CreateToken (params : jsval) | CreateNFT (params : jsval)
  | GetUserTokens | GetUserNFTs.
Inductive open_request : Type :=
  | GetFeeEstimates | GetShahSwapQuote (params : jsval) | GetTokenInfo (contract : string) | GetNFTInfo (contract tokenId : string).

Definition perform (r : wallet_request) : JS jsval :=
  match r with
  | GetBalance => getBalance
  | GetTransactionHistory l o => getTransactionHistory l o
  | SendTransaction p => sendTransaction p
  | GetStakingInfo => getStakingInfo
  | Stake a => stake a
  | ExecuteShahSwap p => executeShahSwap p
  | CreateToken p => createToken p
  | CreateNFT p => createNFT p
  | GetUserTokens => getUserTokens
  | GetUserNFTs => getUserNFTs
  end.

Definition perform_open (r : open_request) : JS jsval :=
  match r with
  | GetFeeEstimates => getFeeEstimates
  | GetShahSwapQuote p => getShahSwapQuote p
  | GetTokenInfo c => getTokenInfo c
  | GetNFTInfo c i => getNFTInfo c i
  end.

(** ** Runs *)

(** What the application does, and the events of sockets and timers. *)
Inductive op : Type :=
  | OpConnect | OpDisconnect | OpOn (event : string) (cb : nat) | OpOnConnectionChange (cb : nat)
  | OpRequest (r : wallet_request) | OpOpenRequest (r : open_request)
  | SockOpen (i : nat) | SockMessage (i : nat) (text : string) | SockClose (i : nat) | SockError (i : nat)
  | Fire (i : nat) | Tick (i : nat).

Definition enabled (o : op) (s : sdk) : Prop :=
  match o with
  | SockOpen i => socket_state s i = Some CONNECTING
  | SockMessage i _ => socket_state s i = Some OPEN \/ socket_state s i = Some CLOSING
  | SockClose i => exists r, socket_state s i = Some r /\ r <> CLOSED
  | SockError i => exists r, socket_state s i = Some r
  | Fire i => In i (timeouts s)
  | Tick i => In i (intervals s)
  | _ => True
  end.

Definition run (o : op) : JS unit :=
  match o with
  | OpConnect => connect ;;; ret tt
  | OpDisconnect => disconnect
  | OpOn e cb => on e cb
  | OpOnConnectionChange cb => onConnectionChange cb
  | OpRequest r => perform r ;;; ret tt
  | OpOpenRequest r => perform_open r ;;; ret tt
  | SockOpen i => modify (set_socket i OPEN) ;;; setupHeartbeat
  | SockMessage _ text => onMessage text
  | SockClose i => modify (set_socket i CLOSED) ;;; scheduleReconnect
  | SockError _ => ret tt
  | Fire i => modify (clearTimeout i) ;;; onReconnect
  | Tick _ => onHeartbeat
  end.

End Operations.

(** ** Facts *)

Section Facts.
Context `{Env}.

(** Telling the callbacks changes nothing and never fails. *)
Lemma wp_callback op args (Q : unit -> sdk -> trace -> Prop) E s t :
  (forall r, Q tt s (Ev op args r :: t)) -> wp (try_catch (ext op args ;;; ret tt) (fun _ => ret tt)) Q E s t.
Proof. intros HQ. wp_auto; apply HQ. Qed.

Lemma emitEvent_silent type data : silent (emitEvent type data).
Proof.
  intros s t. unfold emitEvent. apply wp_bind, wp_now, wp_bind, wp_read.
  apply (wp_for_each _ _ (fun _ s' _ => s' = s)); [|reflexivity]. intros cb l s' t' ->. apply wp_callback. reflexivity.
Qed.

Lemma notify_silent : silent notifyConnectionCallbacks.
Proof.
  intros s t. unfold notifyConnectionCallbacks. apply wp_bind, wp_read.
  apply (wp_for_each _ _ (fun _ s' _ => s' = s)); [|reflexivity].
  intros cb l s' t' ->. apply wp_bind, wp_read, wp_callback. reflexivity.
Qed.

Lemma http_pure verb args : pure_state (http verb args).
Proof. intros s0. unfold http. pose proof (fun ty d => silent_pure _ (emitEvent_silent ty d) s0). preserve. Qed.

Lemma attempt_pure what m : pure_state m -> pure_state (attempt what m).
Proof. intros Hm s0. unfold attempt. pose proof (Hm s0). preserve. Qed.

Lemma guarded_pure m : pure_state m -> pure_state (guarded m).
Proof. intros Hm s0. unfold guarded. pose proof (Hm s0). preserve. Qed.

Lemma perform_pure r : pure_state (perform r).
Proof.
  destruct r; apply guarded_pure, attempt_pure; intros s0; pose proof (fun v a => http_pure v a s0);
    unfold post_as, payload_field, payload; preserve.
Qed.

Lemma perform_open_pure r : pure_state (perform_open r).
Proof. destruct r; apply attempt_pure; intros s0; pose proof (fun v a => http_pure v a s0); unfold payload; preserve. Qed.

Lemma onMessage_pure text : pure_state (onMessage text).
Proof.
  intros s0. pose proof (fun ty d => silent_pure _ (emitEvent_silent ty d) s0). unfold onMessage, handleWebSocketEvent. preserve.
Qed.

Lemma onHeartbeat_pure : pure_state onHeartbeat.
Proof. intros s0. unfold onHeartbeat. preserve. Qed.

(** Opening a socket: the new one is the client's, nothing else changes; or
    the constructor of the socket fails and nothing changes. *)
Definition opened (s s' : sdk) : Prop :=
  s' = set_wsClient (Some (nextId s)) (set_nextId (S (nextId s)) (set_sockets ((nextId s, CONNECTING) :: sockets s) s)).

Lemma setupWebSocket_opens s t :
  wp setupWebSocket (fun _ s' _ => opened s s') (fun _ s' _ => s' = s) s t.
Proof. unfold setupWebSocket. wp_auto; reflexivity. Qed.

(** Connecting: refused, connected with a new socket, or connected without one. *)
Definition connected_as (s : sdk) (address balance : jsval) : sdk :=
  set_connection (VObj [("isConnected", VBool true); ("address", address); ("balance", balance);
                        ("network", obj_get (config s) "network")]) s.

Lemma connect_effect s t :
  wp connect
    (fun _ s' _ => s' = s \/ exists a b, opened (connected_as s a b) s')
    (fun _ s' _ => s' = s \/ exists a b, s' = connected_as s a b) s t.
Proof.
  unfold connect. apply wp_try_catch, wp_bind, wp_read, wp_bind. apply wp_pure; [apply http_pure| |].
  - intros response t1. apply wp_bind, wp_lift; intros; [|apply wp_throw; auto].
    apply wp_bind, wp_lift; intros; [|apply wp_throw; auto]. apply wp_bind. wp_step; [|wp_auto; auto].
    apply wp_bind, wp_lift; intros; [|apply wp_throw; auto].
    apply wp_bind, wp_lift; intros; [|apply wp_throw; auto].
    apply wp_bind, wp_modify, wp_bind. eapply wp_mono; [..|apply setupWebSocket_opens]; cbn beta.
    + intros _ s' t' O. apply wp_bind, wp_silent; [apply notify_silent|]. intros _ t2. apply wp_bind, wp_read.
      apply wp_silent; [apply emitEvent_silent|]. intros _ t3. apply wp_read. right. do 2 eexists. exact O.
    + intros e s' t' ->. apply wp_throw. right. do 2 eexists. reflexivity.
  - intros e t'. apply wp_throw. auto.
Qed.

(** Disconnecting, as one change of the state. *)
Definition torn_down (s : sdk) : sdk :=
  let s := set_connection disconnected s in
  let s := match wsClient s with Some i => set_wsClient None (close_socket i s) | None => s end in
  let s := match reconnectTimer s with Some i => set_reconnectTimer None (clearTimeout i s) | None => s end in
  match heartbeatTimer s with Some i => set_heartbeatTimer None (clearInterval i s) | None => s end.

Lemma disconnect_effect s t : wp disconnect (fun _ s' _ => s' = torn_down s) (fun _ _ _ => False) s t.
Proof.
  unfold disconnect, torn_down. cbv zeta. wp_auto;
    (apply wp_silent; [apply notify_silent|]; intros _ ?; apply wp_silent; [apply emitEvent_silent|]; intros _ ?; reflexivity).
Qed.

End Facts.

(** *** The SDK as a transition system on its state *)

Definition beating (s : sdk) : sdk := set_heartbeatTimer (Some (nextId s)) (newInterval s).
Definition scheduled (s : sdk) : sdk :=
  let s1 := match reconnectTimer s with Some i => clearTimeout i s | None => s end in
  set_reconnectTimer (Some (nextId s1)) (newTimeout s1).

Lemma sockClose_effect `{Env} i s t :
  wp (run (SockClose i)) (fun _ s' _ => s' = scheduled (set_socket i CLOSED s)) (fun _ _ _ => False) s t.
Proof.
  cbn [run]. unfold scheduleReconnect. wp_auto; unfold scheduled;
    match goal with E : reconnectTimer _ = _ |- _ => rewrite E end; reflexivity.
Qed.

(** What an operation may do to the state. *)
Definition change (o : op) (s s' : sdk) : Prop :=
  match o with
  | OpConnect => s' = s \/ exists a b, s' = connected_as s a b \/ opened (connected_as s a b) s'
  | OpDisconnect => s' = torn_down s
  | OpOn _ cb => s' = set_callbacks (eventCallbacks s ++ [cb]) (connectionCallbacks s) s
  | OpOnConnectionChange cb => s' = set_callbacks (eventCallbacks s) (connectionCallbacks s ++ [cb]) s
  | SockOpen i => s' = beating (set_socket i OPEN s)
  | SockClose i => s' = scheduled (set_socket i CLOSED s)
  | Fire i => s' = clearTimeout i s \/ isConnected s = true /\ opened (clearTimeout i s) s'
  | _ => s' = s
  end.

Lemma run_changes `{Env} o s t : wp (run o) (fun _ s' _ => change o s s') (fun _ s' _ => change o s s') s t.
Proof.
  destruct o; cbn [run change].
  - apply wp_bind. eapply wp_mono; [..|apply connect_effect]; cbn beta.
    + intros _ s' t' C. apply wp_ret. destruct C as [C|(a & b & C)]; eauto 6.
    + intros e s' t' C. destruct C as [C|(a & b & C)]; eauto 6.
  - eapply wp_mono; [..|apply disconnect_effect]; cbn beta; tauto.
  - apply wp_modify. reflexivity.
  - apply wp_modify. reflexivity.
  - apply wp_bind, wp_pure; [apply perform_pure|reflexivity|reflexivity].
  - apply wp_bind, wp_pure; [apply perform_open_pure|reflexivity|reflexivity].
  - unfold setupHeartbeat. wp_auto. reflexivity.
  - apply wp_pure; [apply onMessage_pure|reflexivity|reflexivity].
  - eapply wp_mono; [..|apply sockClose_effect]; cbn beta; tauto.
  - apply wp_ret. reflexivity.
  - unfold onReconnect. apply wp_bind, wp_modify, wp_bind, wp_read. wp_step; [|apply wp_ret; auto].
    eapply wp_mono; [..|apply setupWebSocket_opens]; cbn beta; auto.
  - apply wp_pure; [apply onHeartbeat_pure|reflexivity|reflexivity].
Qed.

Lemma step_changes `{Env} s t s' t' :
  machine_step run enabled (s, t) (s', t') -> exists o, enabled o s /\ change o s s'.
Proof.
  intros St. inversion St as [o ? ? r ? ? He E]; subst. exists o. split; [exact He|].
  pose proof (run_changes o s t) as W. unfold wp in W. rewrite E in W. destruct r; exact W.
Qed.

(** An invariant of the changes holds along every run. *)
Lemma runs_invariant `{Env} (P : sdk -> Prop) :
  (forall o s s', enabled o s -> change o s s' -> P s -> P s') ->
  forall s t s' t', steps (machine_step run enabled) (s, t) (s', t') -> P s -> P s'.
Proof.
  intros HP s t s' t' Hs. apply (machine_invariant run enabled (fun s _ => P s)) with (2 := Hs).
  intros o x u He Px. eapply wp_mono; [..|apply (run_changes o x u)]; cbn beta; intros; eapply HP; eassumption.
Qed.

(** *** Timers and sockets *)

(** Every pending reconnection timer is the one the field holds, the timer of
    the field [heartbeatTimer] runs, identifiers are not reused and the
    client's socket is one that was created. *)
Record wf (s : sdk) : Prop := {
  wf_timeouts : forall i, In i (timeouts s) -> reconnectTimer s = Some i;
  wf_nodup : NoDup (timeouts s);
  wf_fresh : forall i, In i (timeouts s) \/ In i (intervals s) \/ In i (map fst (sockets s)) -> (i < nextId s)%nat;
  wf_heart : forall i, heartbeatTimer s = Some i -> In i (intervals s);
  wf_client : forall i, wsClient s = Some i -> In i (map fst (sockets s))
}.

Lemma In_without i j l : In i (without j l) <-> In i l /\ i <> j.
Proof. unfold without. rewrite filter_In, negb_true_iff, Nat.eqb_neq. reflexivity. Qed.

Lemma NoDup_without j l : NoDup l -> NoDup (without j l).
Proof. apply NoDup_filter. Qed.

Lemma keys_set {V} i (v : V) l : In i (map fst l) -> map fst (assoc_set Nat.eqb i v l) = map fst l.
Proof.
  induction l as [|[k x] l IH]; cbn; [tauto|]. intros [->|Hin].
  - rewrite Nat.eqb_refl. reflexivity.
  - destruct (i =? k)%nat eqn:E; cbn; [apply Nat.eqb_eq in E; subst; reflexivity|rewrite IH by exact Hin; reflexivity].
Qed.

Lemma socket_known s i r : socket_state s i = Some r -> In i (map fst (sockets s)).
Proof.
  unfold socket_state. induction (sockets s) as [|[k x] l IH]; cbn; [discriminate|].
  destruct (i =? k)%nat eqn:E; [apply Nat.eqb_eq in E; auto|auto].
Qed.

Lemma wf_set_connection c s : wf s -> wf (set_connection c s).
Proof. intros [T N F Hh C]. split; assumption. Qed.

Lemma wf_set_socket i r s : In i (map fst (sockets s)) -> wf s -> wf (set_socket i r s).
Proof.
  intros K [T N F Hh C]. unfold set_socket. split; cbn; try assumption; rewrite keys_set by exact K; assumption.
Qed.

Lemma wf_opened s s' : opened s s' -> wf s -> wf s'.
Proof.
  intros -> [T N F Hh C]. split; cbn; try assumption.
  - intros i [Hi|[Hi|[<-|Hi]]]; [| |lia|]; enough (i < nextId s)%nat by lia; apply F; auto.
  - intros i [= <-]. auto.
Qed.

Lemma wf_clearTimeout i s : wf s -> wf (clearTimeout i s).
Proof.
  intros [T N F Hh C]. split; cbn; try assumption.
  - intros j Hj. apply In_without in Hj. apply T, Hj.
  - apply NoDup_without, N.
  - intros j [Hj|Hj]; [apply In_without in Hj; destruct Hj as [Hj _]|]; auto.
Qed.

Lemma wf_torn_down s : wf s -> wf (torn_down s).
Proof.
  intros W. unfold torn_down. cbv zeta. set (s0 := set_connection disconnected s).
  assert (wf s0) as W0 by apply wf_set_connection, W.
  set (s1 := match wsClient s0 with Some i => _ | None => _ end).
  assert (wf s1) as W1.
  { unfold s1. destruct (wsClient s0) as [i|] eqn:Ei; [|exact W0].
    assert (wf (close_socket i s0)) as [T N F Hh C].
    { unfold close_socket. destruct (socket_state s0 i) eqn:Es; [|exact W0]. apply wf_set_socket; [eapply socket_known, Es|exact W0]. }
    split; try assumption. discriminate. }
  set (s2 := match reconnectTimer s1 with Some i => _ | None => _ end).
  assert (wf s2) as W2.
  { unfold s2. destruct (reconnectTimer s1) as [i|] eqn:Ei; [|exact W1].
    destruct W1 as [T N F Hh C]. split; cbn; try assumption.
    - intros j Hj. apply In_without in Hj. destruct Hj as [Hj Nj]. apply T in Hj. congruence.
    - apply NoDup_without, N.
    - intros j [Hj|Hj]; [apply In_without in Hj; destruct Hj as [Hj _]|]; auto. }
  destruct (heartbeatTimer s2) as [i|]; [|exact W2]. destruct W2 as [T N F Hh C]. split; cbn; try assumption.
  - intros j [Hj|[Hj|Hj]]; [|apply In_without in Hj; destruct Hj as [Hj _]|]; auto.
  - discriminate.
Qed.

Lemma wf_beating s : wf s -> wf (beating s).
Proof.
  intros [T N F Hh C]. split; cbn; try assumption.
  - intros i [Hi|[[<-|Hi]|Hi]]; [|lia| |]; enough (i < nextId s)%nat by lia; apply F; auto.
  - intros i [= <-]. auto.
Qed.

Lemma wf_scheduled s : wf s -> wf (scheduled s) /\ timeouts (scheduled s) = [nextId s].
Proof.
  intros W. unfold scheduled. cbv zeta. set (s1 := match reconnectTimer s with Some i => _ | None => _ end).
  assert (wf s1 /\ timeouts s1 = [] /\ nextId s1 = nextId s) as ([T N F Hh C] & E & Hn).
  { unfold s1. destruct (reconnectTimer s) as [i|] eqn:Ei.
    - split; [apply wf_clearTimeout, W|]. split; [|reflexivity]. cbn. destruct (without i (timeouts s)) as [|j l] eqn:El; [reflexivity|].
      assert (In j (without i (timeouts s))) as Hj by (rewrite El; left; reflexivity).
      apply In_without in Hj. destruct Hj as [Hj Nj]. apply (wf_timeouts s W) in Hj. congruence.
    - split; [exact W|]. split; [|reflexivity]. destruct (timeouts s) as [|j l] eqn:El; [reflexivity|].
      assert (reconnectTimer s = Some j) by (apply (wf_timeouts s W); rewrite El; left; reflexivity). congruence. }
  split; [|cbn; rewrite E, Hn; reflexivity]. split; cbn; rewrite ?E; try assumption.
  - intros i [<-|[]]. reflexivity.
  - repeat constructor. intros [].
  - intros i [[<-|[]]|Hi]; [lia|]. enough (i < nextId s1)%nat by lia. apply F. auto.
Qed.

Lemma wf_change o s s' : enabled o s -> change o s s' -> wf s -> wf s'.
Proof.
  intros He Hc W. destruct o; cbn in He, Hc; subst; try exact W.
  - destruct Hc as [->|(a & b & [->|O])]; [exact W|apply wf_set_connection, W|].
    eapply wf_opened; [exact O|]. apply wf_set_connection, W.
  - apply wf_torn_down, W.
  - destruct W as [T N F Hh C]. split; assumption.
  - destruct W as [T N F Hh C]. split; assumption.
  - apply wf_beating, wf_set_socket; [eapply socket_known, He|exact W].
  - destruct He as (r & Hr & _). apply wf_scheduled, wf_set_socket; [eapply socket_known, Hr|exact W].
  - destruct Hc as [->|[_ O]]; [apply wf_clearTimeout, W|]. eapply wf_opened; [exact O|apply wf_clearTimeout, W].
Qed.

Lemma wf_constructor cfg s : constructor cfg = Ok s -> wf s /\ isConnected s = false.
Proof.
  unfold constructor. cbv zeta. destruct (if truthy _ then _ else _); cbn [res_bind]; [|discriminate].
  intros [= <-]. split; [|reflexivity]. split; cbn; try tauto; try discriminate. constructor.
Qed.

Lemma reachable_wf `{Env} cfg s0 t0 s t :
  constructor cfg = Ok s0 -> steps (machine_step run enabled) (s0, t0) (s, t) -> wf s.
Proof. intros C Hs. apply (runs_invariant wf wf_change _ _ _ _ Hs), (wf_constructor cfg s0 C). Qed.

(** *** A heartbeat the client no longer holds *)

Definition leaked (i : nat) (s : sdk) : Prop := wf s /\ In i (intervals s) /\ heartbeatTimer s <> Some i.

Lemma torn_down_intervals s : intervals (torn_down s) = match heartbeatTimer s with Some i => without i (intervals s) | None => intervals s end
  /\ heartbeatTimer (torn_down s) = None.
Proof.
  unfold torn_down. cbv zeta. set (s0 := set_connection disconnected s).
  set (s1 := match wsClient s0 with Some i => _ | None => _ end).
  assert (intervals s1 = intervals s /\ heartbeatTimer s1 = heartbeatTimer s) as [I1 H1].
  { unfold s1, close_socket. destruct (wsClient s0) as [i|]; [destruct (socket_state s0 i)|]; split; reflexivity. }
  set (s2 := match reconnectTimer s1 with Some i => _ | None => _ end).
  assert (intervals s2 = intervals s /\ heartbeatTimer s2 = heartbeatTimer s) as [I2 H2].
  { unfold s2. destruct (reconnectTimer s1); split; assumption. }
  rewrite H2. destruct (heartbeatTimer s) as [i|]; cbn; rewrite ?I2, ?H2; split; reflexivity.
Qed.

Lemma leaked_change i o s s' : enabled o s -> change o s s' -> leaked i s -> leaked i s'.
Proof.
  intros He Hc (W & Hi & Hn). split; [eapply wf_change; eassumption|].
  destruct o; cbn in He, Hc; subst; cbn; auto.
  - destruct Hc as [->|(a & b & [-> | ->])]; auto.
  - destruct (torn_down_intervals s) as [-> ->]. split; [|discriminate].
    destruct (heartbeatTimer s) as [j|]; [|exact Hi]. apply In_without. split; [exact Hi|congruence].
  - split; [auto|]. intros [= E]. pose proof (wf_fresh s W i (or_intror (or_introl Hi))). lia.
  - unfold scheduled. cbn. destruct (reconnectTimer s); auto.
  - destruct Hc as [->|[_ ->]]; auto.
Qed.

(** *** A wallet that accepts the connection *)

Class WalletUp `{Env} (response data : jsval) : Prop := {
  wallet_accepts : forall t client body, reply t "post" [client; VStr "/wallet/connect"; body] = Ok response;
  wallet_body : exists body success address, get response "data" = Ok body /\ get body "success" = Ok success /\
    truthy success = true /\ get body "data" = Ok data /\ get data "address" = Ok address;
  socket_constructed : forall t url, exists v, reply t "new WebSocket" [url] = Ok v
}.

(** The socket library is asked for an address of the network table. *)
Definition known_network (s : sdk) : Prop := exists url, get (network_of (config s)) "rpcUrl" = Ok (VStr url).

Lemma setupWebSocket_up `{WalletUp} s t :
  known_network s -> wp setupWebSocket (fun _ s' _ => opened s s') (fun _ _ _ => False) s t.
Proof.
  intros [url U]. unfold setupWebSocket. apply wp_bind, wp_read, wp_bind. rewrite U. apply wp_lift_ok, wp_bind, wp_lift_ok.
  apply wp_bind. edestruct socket_constructed as [v R]. eapply wp_ext_ok; [exact R|]. wp_auto. reflexivity.
Qed.

(** The part of [connect] before the socket is opened. *)
Lemma connect_up `{WalletUp} s t (Q : jsval -> sdk -> trace -> Prop) E :
  (forall a b args, let t1 := Ev "post" args (Ok response) :: t in
     wp setupWebSocket
       (fun _ s' _ => forall t', Q (connection s') s' t')
       (fun e s' t' => E (Error ("Failed to connect to wallet: " ++ err_to_string e)) s' t') (connected_as s a b) t1) ->
  wp connect Q E s t.
Proof.
  intros HQ. destruct wallet_body as (body & success & address & G1 & G2 & T & G3 & G4).
  unfold connect. apply wp_try_catch, wp_bind, wp_read, wp_bind. unfold http at 1. apply wp_bind, wp_read, wp_try_catch.
  eapply wp_ext_ok; [apply wallet_accepts|]. rewrite G1. apply wp_bind, wp_lift_ok. rewrite G2. apply wp_bind, wp_lift_ok.
  rewrite T. apply wp_bind. rewrite G3. apply wp_bind, wp_lift_ok. rewrite G4. apply wp_bind, wp_lift_ok, wp_bind, wp_modify, wp_bind.
  eapply wp_mono; [..|apply HQ]; cbn beta; [|auto]. intros _ s' t' K.
  apply wp_bind, wp_silent; [apply notify_silent|]. intros _ t2. apply wp_bind, wp_read.
  apply wp_silent; [apply emitEvent_silent|]. intros _ t3. apply wp_read. apply K.
Qed.

Lemma config_torn_down s : config (torn_down s) = config s /\ nextId (torn_down s) = nextId s /\ map fst (sockets (torn_down s)) = map fst (sockets s).
Proof.
  unfold torn_down. cbv zeta. set (s0 := set_connection disconnected s).
  set (s1 := match wsClient s0 with Some i => _ | None => _ end).
  assert (config s1 = config s /\ nextId s1 = nextId s /\ map fst (sockets s1) = map fst (sockets s)) as F1.
  { unfold s1, close_socket. destruct (wsClient s0) as [i|]; [destruct (socket_state s0 i) eqn:Es|]; repeat split.
    unfold set_socket. cbn. apply keys_set. exact (socket_known s0 i _ Es). }
  set (s2 := match reconnectTimer s1 with Some i => _ | None => _ end).
  assert (config s2 = config s /\ nextId s2 = nextId s /\ map fst (sockets s2) = map fst (sockets s)) as F2.
  { unfold s2. destruct (reconnectTimer s1); exact F1. }
  destruct (heartbeatTimer s2); exact F2.
Qed.

Lemma torn_down_sockets s : wsClient (torn_down s) = None /\
  forall j, wsClient s <> Some j -> socket_state (torn_down s) j = socket_state s j.
Proof.
  unfold torn_down. cbv zeta. set (s0 := set_connection disconnected s).
  set (s1 := match wsClient s0 with Some i => _ | None => _ end).
  assert (wsClient s1 = None /\ forall j, wsClient s <> Some j -> socket_state s1 j = socket_state s j) as F1.
  { unfold s1, close_socket. destruct (wsClient s0) as [i|] eqn:Ei; [|split; [exact Ei|reflexivity]].
    change (wsClient s0) with (wsClient s) in Ei. destruct (socket_state s0 i); (split; [reflexivity|]); intros j Nj; [|reflexivity].
    unfold socket_state, set_socket. cbn. apply assoc_set_other; [apply Nat.eqb_spec|congruence]. }
  set (s2 := match reconnectTimer s1 with Some i => _ | None => _ end).
  assert (wsClient s2 = None /\ forall j, wsClient s <> Some j -> socket_state s2 j = socket_state s j) as F2.
  { unfold s2. destruct (reconnectTimer s1); exact F1. }
  destruct (heartbeatTimer s2); exact F2.
Qed.

Lemma opened_facts s s' : opened s s' ->
  nextId s' = S (nextId s) /\ wsClient s' = Some (nextId s) /\ config s' = config s /\ isConnected s' = isConnected s /\
  socket_state s' (nextId s) = Some CONNECTING /\ forall j, j <> nextId s -> socket_state s' j = socket_state s j.
Proof.
  intros ->. repeat split; unfold socket_state; cbn.
  - rewrite Nat.eqb_refl. reflexivity.
  - intros j Nj. apply Nat.eqb_neq in Nj. rewrite Nj. reflexivity.
Qed.

(** A wallet and a socket library, for the witnesses. *)
Definition wallet : jsval := VObj [("data", VObj [("success", VBool true); ("data", VObj [("address", VStr "SWallet"); ("balance", vnum 7)])])].
Definition upWallet : Env := {| reply _ op _ := Ok (if op =? "post" then wallet else VUndef); clock _ := Num.of_Z 1700000000000; random _ := Num.zero |}.

Lemma upWallet_up : WalletUp (H := upWallet) wallet (VObj [("address", VStr "SWallet"); ("balance", vnum 7)]).
Proof. split; [reflexivity|do 3 eexists; repeat split; reflexivity|eexists; reflexivity]. Qed.

Definition sdk0 : sdk :=
  match constructor [("network", VStr "testnet")] with Ok s => s | Throw _ => Sdk [] VUndef VUndef None None None [] [] [] [] [] 0 end.

Definition go (o : op) (x : sdk * trace) : sdk * trace := after_op (run (H := upWallet)) o x.

(** Connected; the socket opens and closes; the timer opens another one. *)
Definition phase1 : sdk * trace := go (Fire 2) (go (SockClose 0) (go (SockOpen 0) (go OpConnect (sdk0, [])))).

Lemma phase1_steps : steps (machine_step (run (H := upWallet)) enabled) (sdk0, []) (fst phase1, snd phase1).
Proof.
  rewrite <- surjective_pairing. unfold phase1, go.
  eapply steps_trans; [|apply steps_one, after_op_step; vm_compute; auto].
  eapply steps_trans; [|apply steps_one, after_op_step; vm_compute; exists OPEN; split; [reflexivity|discriminate]].
  eapply steps_trans; [|apply steps_one, after_op_step; vm_compute; reflexivity].
  apply steps_one, after_op_step. exact I.
Qed.

(** ** Theorems *)

(** C21: timers along every run of the SDK: at most one reconnection timer is
    pending and it is the one the SDK would cancel, the heartbeat it holds is
    running, and its socket is one it created; and a timer that fires while
    the wallet is not connected opens no socket. *)
Theorem wallet_timers `{Env} cfg s0 t0 s t :
  constructor cfg = Ok s0 -> steps (machine_step run enabled) (s0, t0) (s, t) ->
  (List.length (timeouts s) <= 1)%nat /\ (forall i, In i (timeouts s) -> reconnectTimer s = Some i) /\
  (forall i, heartbeatTimer s = Some i -> In i (intervals s)) /\ (forall i, wsClient s = Some i -> In i (map fst (sockets s))) /\
  (isConnected s = false -> forall i, wp (run (Fire i)) (fun _ s' _ => sockets s' = sockets s) (fun _ _ _ => False) s t).
Proof.
  intros C Hs. destruct (reachable_wf cfg s0 t0 s t C Hs) as [T N F Hh Hc]. split; [|repeat split; try assumption].
  - destruct (timeouts s) as [|i [|j l]]; cbn; try lia. exfalso.
    assert (Some i = Some j) as E by (rewrite <- (T i (or_introl eq_refl)); apply T; right; left; reflexivity).
    injection E as ->. inversion N as [|? ? Nj]. apply Nj. left. reflexivity.
  - intros D i. cbn [run]. apply wp_bind, wp_modify. unfold onReconnect. apply wp_bind, wp_read.
    change (isConnected (clearTimeout i s)) with (isConnected s). rewrite D. apply wp_ret. reflexivity.
Qed.

Lemma wallet_timers_witness : (List.length (timeouts (fst phase1)) <= 1)%nat /\ wsClient (fst phase1) = Some 3%nat.
Proof.
  split; [|vm_compute; reflexivity].
  exact (proj1 (wallet_timers (H := upWallet) [("network", VStr "testnet")] sdk0 [] (fst phase1) (snd phase1) eq_refl phase1_steps)).
Defined.

(** Without a connection every request that concerns the wallet throws,
    asks nothing of the server and changes nothing; with one, no request
    changes the connection, whatever the server answers. *)
Theorem wallet_requests_guarded `{Env} r s t :
  (isConnected s = false -> perform r s t = (Throw (Error "Wallet not connected"), s, t)) /\
  wp (perform r) (fun _ s' _ => s' = s) (fun _ s' _ => s' = s) s t.
Proof.
  split; [|apply wp_pure; [apply perform_pure|reflexivity|reflexivity]].
  intros D. assert (forall m, guarded m s t = (Throw (Error "Wallet not connected"), s, t)) as G.
  { intros m. unfold guarded, bind, read. rewrite D. reflexivity. }
  destruct r; apply G.
Qed.

(** An event reaches every callback once, in the order of subscription,
    whatever event each was subscribed to, and whatever the others throw;
    the SDK is unchanged. *)
Theorem wallet_emit_reaches_all `{Env} type data s t :
  wp (emitEvent type data)
    (fun _ s' t' => s' = s /\ exists told, t' = (told ++ Ev "Date.now" [] (Ok (VNum (clock t))) :: t)%list /\
       map (fun e => (ev_op e, ev_args e)) (rev told) =
       map (fun cb => ("eventCallback",
              [vnum (Z.of_nat cb); VObj [("type", VStr type); ("data", data); ("timestamp", VNum (clock t))]])) (eventCallbacks s))
    (fun _ _ _ => False) s t.
Proof.
  unfold emitEvent. apply wp_bind, wp_now, wp_bind, wp_read. set (t1 := _ :: t).
  set (told_of := fun cb => ("eventCallback", [vnum (Z.of_nat cb); VObj [("type", VStr type); ("data", data); ("timestamp", VNum (clock t))]])).
  eapply wp_mono; [..|apply (wp_for_each (eventCallbacks s) _ (fun left s' t' => s' = s /\ exists told, t' = (told ++ t1)%list /\
    (map (fun e => (ev_op e, ev_args e)) (rev told) ++ map told_of left)%list = map told_of (eventCallbacks s)))]; cbn beta.
  - intros _ s' t' (-> & told & -> & E). cbn [map] in E. rewrite app_nil_r in E. eauto.
  - intros e s' t' X. exact X.
  - intros cb l s' t' (-> & told & -> & E). apply wp_callback. intros r. split; [reflexivity|].
    exists (Ev "eventCallback" (snd (told_of cb)) r :: told). split; [reflexivity|].
    cbn [rev]. rewrite map_app, <- app_assoc. exact E.
  - split; [reflexivity|]. exists []. split; reflexivity.
Qed.

(** Opening a second socket leaks the first heartbeat: the interval that
    ran before stays for ever, through every later run, disconnecting
    included. *)
Theorem wallet_heartbeat_leaks `{Env} cfg s0 t0 s t i j r s1 t1 s2 t2 :
  constructor cfg = Ok s0 -> steps (machine_step run enabled) (s0, t0) (s, t) ->
  heartbeatTimer s = Some i -> enabled (SockOpen j) s -> run (SockOpen j) s t = (r, s1, t1) ->
  steps (machine_step run enabled) (s1, t1) (s2, t2) ->
  In i (intervals s2).
Proof.
  intros C Hs Hi He E Hs2. pose proof (reachable_wf cfg s0 t0 s t C Hs) as W.
  assert (leaked i s1) as L.
  { pose proof (run_changes (SockOpen j) s t) as X. unfold wp in X. rewrite E in X.
    assert (s1 = beating (set_socket j OPEN s)) as -> by (destruct r; exact X).
    pose proof (wf_heart s W i Hi) as In1. pose proof (wf_fresh s W i (or_intror (or_introl In1))).
    split; [apply wf_beating, wf_set_socket; [eapply socket_known, He|exact W]|]. cbn. split; [auto|]. intros [= ?]. lia. }
  apply (runs_invariant (leaked i) (leaked_change i) _ _ _ _ Hs2 L).
Qed.

Lemma wallet_heartbeat_leaks_witness :
  In 1%nat (intervals (fst (go OpDisconnect (go (SockOpen 3) phase1)))).
Proof.
  set (x := go (SockOpen 3) phase1).
  assert (run (H := upWallet) (SockOpen 3) (fst phase1) (snd phase1) = (Ok tt, fst x, snd x)) as E by (vm_compute; reflexivity).
  assert (steps (machine_step (run (H := upWallet)) enabled) (fst x, snd x) (fst (go OpDisconnect x), snd (go OpDisconnect x))) as D.
  { rewrite <- !surjective_pairing. apply steps_one. unfold go. apply after_op_step. exact I. }
  exact (wallet_heartbeat_leaks (H := upWallet) [("network", VStr "testnet")] sdk0 [] (fst phase1) (snd phase1) 1 3 (Ok tt)
    (fst x) (snd x) (fst (go OpDisconnect x)) (snd (go OpDisconnect x)) eq_refl phase1_steps eq_refl eq_refl E D).
Defined.

(** Reconnecting within five seconds of disconnecting duplicates the
    socket: the close event of the old one has set a timer, which opens a
    second socket beside the new one; disconnecting again leaves the first
    of the two connecting. *)
Theorem wallet_duplicate_socket `{WalletUp} s t w :
  wf s -> known_network s -> wsClient s = Some w ->
  let n := nextId s in
  wp (run OpDisconnect ;;; run (SockClose w) ;;; run OpConnect ;;; run (Fire n) ;;; run OpDisconnect)
    (fun _ s' _ => socket_state s' (S n) = Some CONNECTING /\ wsClient s' = None) (fun _ _ _ => False) s t.
Proof.
  intros W K Hw n. cbn [run]. apply wp_bind. eapply wp_mono; [..|apply disconnect_effect]; cbn beta; [|tauto].
  intros _ s1 t1 ->. destruct (config_torn_down s) as (Cf & Nx & Ks).
  assert (In w (map fst (sockets (torn_down s)))) as Kw by (rewrite Ks; apply (wf_client s W w Hw)).
  assert (wf (set_socket w CLOSED (torn_down s))) as W1 by (apply wf_set_socket; [exact Kw|apply wf_torn_down, W]).
  apply wp_bind. eapply wp_mono; [..|exact (sockClose_effect w _ t1)]; cbn beta; [|tauto].
  intros _ s2 t2 ->. destruct (wf_scheduled _ W1) as [W2 T2]. set (s2 := scheduled _) in *.
  assert (known_network s2 /\ nextId s2 = S n) as [K2 N2].
  { unfold s2, scheduled, known_network. destruct (reconnectTimer _); cbn; rewrite Cf, Nx; auto. }
  do 2 apply wp_bind. apply connect_up. intros a b args t3.
  eapply wp_mono; [..|exact (setupWebSocket_up (connected_as s2 a b) t3 K2)]; cbn beta; [|tauto].
  intros _ s3 _ O3. destruct (opened_facts _ _ O3) as (N3 & _ & C3 & I3 & S3 & _). intros t4. apply wp_ret.
  apply wp_bind, wp_bind, wp_modify. unfold onReconnect. apply wp_bind, wp_read.
  change (isConnected (clearTimeout n s3)) with (isConnected s3). rewrite I3. cbn [isConnected connected_as set_connection connection].
  assert (known_network (clearTimeout n s3)) as K3 by (unfold known_network; cbn; rewrite C3; exact K2).
  eapply wp_mono; [..|exact (setupWebSocket_up (clearTimeout n s3) t4 K3)]; cbn beta; [|tauto].
  intros _ s4 t5 O4. destruct (opened_facts _ _ O4) as (_ & Cl4 & _ & _ & _ & S4).
  eapply wp_mono; [..|apply disconnect_effect]; cbn beta; [|tauto]. intros _ s5 _ ->.
  destruct (torn_down_sockets s4) as [-> Sd]. change (nextId (connected_as s2 a b)) with (nextId s2) in S3, N3.
  change (nextId (clearTimeout n s3)) with (nextId s3) in S4, Cl4.
  rewrite N2 in S3, N3. rewrite N3 in S4, Cl4. split; [|reflexivity]. rewrite Sd by (rewrite Cl4; intros [= E]; lia). rewrite S4 by lia. exact S3.
Qed.

Lemma wallet_duplicate_socket_witness :
  wsClient (fst phase1) = Some 3%nat /\
  wp (run (H := upWallet) OpDisconnect ;;; run (H := upWallet) (SockClose 3) ;;; run (H := upWallet) OpConnect ;;;
      run (H := upWallet) (Fire 4) ;;; run (H := upWallet) OpDisconnect)
    (fun _ s' _ => socket_state s' 5 = Some CONNECTING /\ wsClient s' = None) (fun _ _ _ => False) (fst phase1) (snd phase1).
Proof.
  split; [vm_compute; reflexivity|].
  exact (wallet_duplicate_socket (H0 := upWallet_up) (fst phase1) (snd phase1) 3
    (reachable_wf (H := upWallet) [("network", VStr "testnet")] sdk0 [] _ _ eq_refl phase1_steps)
    (ex_intro _ "https://testnet-rpc.shah.vip" eq_refl) eq_refl).
Defined.

(** A wallet on a network the table does not know connects and reports a
    failure: the server has accepted, [connect] throws, the SDK holds itself
    connected, and no callback is told. *)
Theorem wallet_unknown_network `{WalletUp} s t :
  network_of (config s) = VUndef ->
  wp connect (fun _ _ _ => False)
    (fun e s' t' => isConnected s' = true /\ wsClient s' = wsClient s /\ calls "connectionCallback" t' = calls "connectionCallback" t) s t.
Proof.
  intros U. apply connect_up. intros a b args t1.
  unfold setupWebSocket. apply wp_bind, wp_read, wp_bind. cbn [config connected_as set_connection]. rewrite U. apply wp_lift; [discriminate|].
  intros e [= <-]. repeat split.
Qed.

Definition custom : sdk :=
  match constructor [("network", VStr "devnet"); ("rpcUrl", VStr "http://10.0.0.2:8332")] with Ok s => s | Throw _ => sdk0 end.

Lemma wallet_unknown_network_witness :
  wp (connect (H := upWallet)) (fun _ _ _ => False)
    (fun e s' t' => isConnected s' = true /\ wsClient s' = None /\ calls "connectionCallback" t' = O) custom [].
Proof. exact (wallet_unknown_network (H0 := upWallet_up) custom [] eq_refl). Defined.
