(* ===== verification/TsTypes.v ===== *)
(** * The types of TypeScript

    The shapes an interface declaration describes, and the values of JsVal
    that have them.  Types are erased before the code runs, so what a
    declaration promises is a claim about values: [conforms] decides it,
    [assignable] and [apart] decide two relations between shapes, and their
    lemmas say what follows for values.

    A [Date] is an object of the platform; which values stand for one is the
    parameter [Dates]. *)

From Stdlib Require Import ZArith Bool Lia List String.
From S2P Require Import Prelude JsNum JsVal.
Import ListNotations.
Local Open Scope string_scope.

Inductive ty : Type :=
  | TAny | TString | TNumber | TBoolean | TNull | TUndefined | TDate
  | TLit (s : string)
  | TEnum (l : list Z)
  | TArray (t : ty)
  | TRecord (t : ty)
  | TUnion (l : list ty)
  | TInterface (fields : list (string * (bool * ty))).

(** [k: t] and [k?: t]. *)
Definition req (k : string) (t : ty) : string * (bool * ty) := (k, (false, t)).
Definition opt (k : string) (t : ty) : string * (bool * ty) := (k, (true, t)).
Definition lits (l : list string) : ty := TUnion (map TLit l).

Definition fields (t : ty) : list (string * (bool * ty)) := match t with TInterface fs => fs | _ => [] end.

(** [interface T extends Base { own }]. *)
Definition extends (base : ty) (own : list (string * (bool * ty))) : ty :=
  TInterface (filter (fun '(k, _) => negb (mem_string k (map fst own))) (fields base) ++ own).

(** [Partial<T>]. *)
Definition Partial (t : ty) : ty := TInterface (map (fun '(k, (_, u)) => (k, (true, u))) (fields t)).

Class Dates : Type := is_date : jsval -> bool.

Section Values.
Context `{Dates}.

(** The property a shape asks for: absent only when optional. *)
Definition field_ok (check : jsval -> bool) (optional : bool) (x : option jsval) : bool :=
  match x with None => optional | Some VUndef => optional || check VUndef | Some v => check v end.

Fixpoint conforms (t : ty) (v : jsval) {struct t} : bool :=
  match t with
  | TAny => true
  | TString => match v with VStr _ => true | _ => false end
  | TNumber => match v with VNum _ => true | _ => false end
  | TBoolean => match v with VBool _ => true | _ => false end
  | TNull => match v with VNull => true | _ => false end
  | TUndefined => match v with VUndef => true | _ => false end
  | TDate => is_date v
  | TLit s => is_str v s
  | TEnum l => existsb (fun n => strict_eq v (vnum n)) l
  | TArray u => match v with VArr l => forallb (conforms u) l | _ => false end
  | TRecord u => match v with VObj o => forallb (fun '(_, x) => conforms u x) o | _ => false end
  | TUnion l => existsb (fun u => conforms u v) l
  | TInterface fs =>
      match v with
      | VObj o => forallb (fun '(k, (optional, u)) => field_ok (conforms u) optional (own o k)) fs
      | _ => false
      end
  end.

(** ** Reading and building typed objects *)

Definition field_of (fs : list (string * (bool * ty))) (k : string) : option (bool * ty) := assoc String.eqb k fs.

Lemma field_of_In fs k x : field_of fs k = Some x -> In (k, x) fs.
Proof.
  unfold field_of. induction fs as [|[k' y] fs IH]; cbn; [discriminate|]. destruct (String.eqb_spec k k') as [->|]; [intros [= ->]|]; auto.
Qed.

Lemma interface_object fs v : conforms (TInterface fs) v = true -> exists o, v = VObj o.
Proof. destruct v; cbn; try discriminate. eauto. Qed.

Lemma conforms_field fs o k b u :
  conforms (TInterface fs) (VObj o) = true -> field_of fs k = Some (b, u) -> field_ok (conforms u) b (own o k) = true.
Proof. cbn. rewrite forallb_forall. intros C F. apply field_of_In in F. exact (C _ F). Qed.

(** A property of a typed object has its type; an optional one may be undefined. *)
Lemma get_required fs v k u : conforms (TInterface fs) v = true -> field_of fs k = Some (false, u) ->
  exists x, get v k = Ok x /\ conforms u x = true.
Proof.
  intros C F. destruct (interface_object _ _ C) as [o ->]. pose proof (conforms_field _ _ _ _ _ C F) as X. cbn [get].
  unfold obj_get, field_ok in *. destruct (own o k) as [x|]; [|discriminate]. exists x. split; [reflexivity|]. destruct x; exact X.
Qed.

Lemma get_optional fs v k u : conforms (TInterface fs) v = true -> field_of fs k = Some (true, u) -> inherited k = VUndef ->
  exists x, get v k = Ok x /\ (x = VUndef \/ conforms u x = true).
Proof.
  intros C F I. destruct (interface_object _ _ C) as [o ->]. pose proof (conforms_field _ _ _ _ _ C F) as X. cbn [get].
  unfold obj_get, field_ok in *. rewrite I. destruct (own o k) as [x|]; [|eauto]. exists x. split; [reflexivity|]. destruct x; auto.
Qed.

(** [{...a, ...b}]: the properties of [b], then those of [a]. *)
Lemma own_In (o : list (string * jsval)) k v : NoDup (map fst o) -> own o k = Some v <-> In (k, v) o.
Proof.
  intros N. unfold own. induction o as [|[k' v'] o IH]; cbn; [split; [discriminate|tauto]|]. inversion N as [|? ? Nk No]; subst.
  destruct (String.eqb_spec k k') as [->|D].
  - split; [intros [= ->]; auto|]. intros [[= ->]|I]; [reflexivity|]. destruct Nk. exact (in_map fst _ _ I).
  - rewrite (IH No). split; [auto|]. intros [[= -> _]|I]; [congruence|exact I].
Qed.

Lemma own_rev (o : list (string * jsval)) k : NoDup (map fst o) -> own (rev o) k = own o k.
Proof.
  intros N. assert (NoDup (map fst (rev o))) as N' by (rewrite map_rev; apply NoDup_rev, N).
  destruct (own o k) as [v|] eqn:E.
  - apply own_In; [exact N'|]. rewrite <- in_rev. apply own_In; assumption.
  - destruct (own (rev o) k) as [v|] eqn:E'; [|reflexivity]. apply own_In in E'; [|exact N']. rewrite <- in_rev in E'.
    apply own_In in E'; [congruence|exact N].
Qed.

Lemma own_set k k' v o : own (obj_set k v o) k' = if k' =? k then Some v else own o k'.
Proof.
  unfold own, obj_set. destruct (String.eqb_spec k' k) as [->|N].
  - apply assoc_set_same, String.eqb_spec.
  - apply assoc_set_other; [apply String.eqb_spec|congruence].
Qed.

Lemma own_spread a b k : NoDup (map fst b) -> own (obj_spread a b) k = match own b k with Some v => Some v | None => own a k end.
Proof.
  intros N. rewrite <- (own_rev b k N). clear N. unfold obj_spread. rewrite <- fold_left_rev_right.
  induction (rev b) as [|[k' v] l IH]; [reflexivity|]. cbn [fold_right]. rewrite own_set, IH. cbn. destruct (k =? k'); reflexivity.
Qed.

Lemma conforms_spread fs a b : forallb (fun '(_, (o, _)) => o) fs = true -> NoDup (map fst b) ->
  conforms (TInterface fs) (VObj a) = true -> conforms (TInterface fs) (VObj b) = true -> conforms (TInterface fs) (VObj (obj_spread a b)) = true.
Proof.
  intros O N. cbn. rewrite !forallb_forall in *. intros A B [k [o u]] I. specialize (A _ I). specialize (B _ I). cbn beta iota in *.
  rewrite own_spread by exact N. destruct (own b k); [exact B|exact A].
Qed.

(** ** Assignability *)

Fixpoint size (t : ty) : nat :=
  match t with
  | TArray u | TRecord u => S (size u)
  | TUnion l => S (list_sum (map size l))
  | TInterface fs => S (list_sum (map (fun '(_, (_, u)) => size u) fs))
  | _ => 1
  end.

(** The part of the compiler's relation under which every value of the first
    shape has the second: [any] is above all, and a property the target
    declares is declared by the source. *)
Fixpoint sub (n : nat) (a b : ty) : bool :=
  match n with
  | O => false
  | S n =>
      match a, b with
      | _, TAny => true
      | TUnion l, _ => forallb (fun x => sub n x b) l
      | _, TUnion l => existsb (sub n a) l
      | TString, TString | TNumber, TNumber | TBoolean, TBoolean | TNull, TNull | TUndefined, TUndefined | TDate, TDate => true
      | TLit s, TLit s' => s =? s'
      | TLit _, TString | TEnum _, TNumber => true
      | TEnum l, TEnum l' => forallb (fun x => existsb (Z.eqb x) l') l
      | TArray x, TArray y | TRecord x, TRecord y => sub n x y
      | TInterface fs, TInterface gs =>
          forallb (fun '(k, (o, u)) => match field_of fs k with Some (o', u') => (negb o' || o) && sub n u' u | None => false end) gs
      | _, _ => false
      end
  end.

Definition assignable (a b : ty) : bool := sub (size a + size b) a b.

Lemma is_str_eq v s : is_str v s = true -> v = VStr s.
Proof. destruct v; try discriminate. cbn. intros E. apply String.eqb_eq in E. congruence. Qed.

Lemma sub_union l b : (forall x, In x l -> forall v, conforms x v = true -> conforms b v = true) ->
  forall v, conforms (TUnion l) v = true -> conforms b v = true.
Proof. intros S v. cbn. rewrite existsb_exists. intros (x & I & C). exact (S x I v C). Qed.

Lemma sub_sound n : forall a b v, sub n a b = true -> conforms a v = true -> conforms b v = true.
Proof.
  induction n as [|n IH]; intros a b v; cbn [sub]; [discriminate|].
  assert (forall l, existsb (sub n a) l = true -> conforms a v = true -> conforms (TUnion l) v = true) as U.
  { intros l S C. cbn. rewrite existsb_exists in *. destruct S as (x & I & S). exists x. split; [exact I|]. exact (IH _ _ _ S C). }
  destruct a, b; intros S C; try reflexivity; try discriminate S; try exact C; try exact (U _ S C).
  all: try (apply (sub_union l); [|exact C]; intros x I w; rewrite forallb_forall in S; exact (IH _ _ _ (S x I))).
  - apply is_str_eq in C as ->. reflexivity.
  - apply String.eqb_eq in S as <-. exact C.
  - cbn in C. rewrite existsb_exists in C. destruct C as (z & _ & E). destruct v; try discriminate. reflexivity.
  - cbn in *. rewrite existsb_exists in *. destruct C as (z & I & E). exists z. split; [|exact E].
    rewrite forallb_forall in S. specialize (S z I). rewrite existsb_exists in S. destruct S as (z' & I' & E'). apply Z.eqb_eq in E' as <-. exact I'.
  - cbn in *. destruct v; try discriminate. rewrite forallb_forall in *. intros x I. exact (IH _ _ _ S (C x I)).
  - cbn in *. destruct v; try discriminate. rewrite forallb_forall in *. intros [k x] I. exact (IH _ _ _ S (C (k, x) I)).
  - destruct (interface_object _ _ C) as [o ->]. cbn. rewrite forallb_forall in *. intros [k [b u]] I. specialize (S _ I). cbn beta iota in S.
    destruct (field_of fields0 k) as [[b' u']|] eqn:F; [|discriminate]. apply andb_true_iff in S as [Hb S].
    pose proof (conforms_field _ _ _ _ _ C F) as X. unfold field_ok in *. destruct (own o k) as [x|]; [|destruct b'; [exact Hb|discriminate X]].
    destruct x; try exact (IH _ _ _ S X). destruct b'; [cbn in Hb; rewrite Hb; reflexivity|]. cbn in X. rewrite (IH _ _ _ S X). apply orb_true_r.
Qed.

Lemma assignable_sound a b v : assignable a b = true -> conforms a v = true -> conforms b v = true.
Proof. apply sub_sound. Qed.

(** ** Exclusion *)

(** What a value of the shape is, when the shape says. *)
Definition tag (t : ty) : option nat :=
  match t with
  | TString | TLit _ => Some 0
  | TNumber | TEnum _ => Some 1
  | TBoolean => Some 2
  | TNull => Some 3
  | TUndefined => Some 4
  | TArray _ => Some 5
  | TRecord _ | TInterface _ => Some 6
  | TAny | TDate | TUnion _ => None
  end.

Definition value_tag (v : jsval) : nat :=
  match v with VStr _ => 0 | VNum _ => 1 | VBool _ => 2 | VNull => 3 | VUndef => 4 | VArr _ => 5 | VObj _ => 6 | VFun _ => 7 end.

Lemma tag_value t v n : tag t = Some n -> conforms t v = true -> value_tag v = n.
Proof.
  intros T C. destruct t; try discriminate T; injection T as <-; cbn in C; try (destruct v; (discriminate C || reflexivity)).
  rewrite existsb_exists in C. destruct C as (z & _ & E). destruct v; (discriminate E || reflexivity).
Qed.

(** Shapes no value has both of: a property both require tells them apart. *)
Fixpoint differ (n : nat) (a b : ty) : bool :=
  match n with
  | O => false
  | S n =>
      match a, b with
      | TUnion l, _ => forallb (fun x => differ n x b) l
      | _, TUnion l => forallb (differ n a) l
      | TLit s, TLit s' => negb (s =? s')
      | TInterface fs, TInterface gs =>
          existsb (fun '(k, (o, u)) => negb o && match field_of fs k, field_of gs k with
                                                 | Some (false, u'), Some (false, w) => differ n u' w
                                                 | _, _ => false
                                                 end) fs
      | _, _ => match tag a, tag b with Some x, Some y => negb (x =? y)%nat | _, _ => false end
      end
  end.

Definition apart (a b : ty) : bool := differ (size a + size b) a b.

Lemma differ_tags a b v : match tag a, tag b with Some x, Some y => negb (x =? y)%nat | _, _ => false end = true ->
  conforms a v = true -> conforms b v = false.
Proof.
  intros D A. destruct (conforms b v) eqn:B; [|reflexivity]. destruct (tag a) eqn:Ta, (tag b) eqn:Tb; try discriminate.
  rewrite <- (tag_value _ _ _ Ta A), <- (tag_value _ _ _ Tb B), Nat.eqb_refl in D. discriminate.
Qed.

Lemma required_field fs o k u : conforms (TInterface fs) (VObj o) = true -> field_of fs k = Some (false, u) ->
  exists x, own o k = Some x /\ conforms u x = true.
Proof.
  intros C F. pose proof (conforms_field _ _ _ _ _ C F) as X. unfold field_ok in X. destruct (own o k) as [x|]; [|discriminate].
  exists x. split; [reflexivity|]. destruct x; exact X.
Qed.

Lemma differ_sound n : forall a b v, differ n a b = true -> conforms a v = true -> conforms b v = false.
Proof.
  induction n as [|n IH]; intros a b v; cbn [differ]; [discriminate|].
  assert (forall l, forallb (differ n a) l = true -> conforms a v = true -> conforms (TUnion l) v = false) as U.
  { intros l D A. cbn. apply not_true_iff_false. rewrite existsb_exists. intros (x & I & C). rewrite forallb_forall in D.
    rewrite (IH _ _ _ (D x I) A) in C. discriminate. }
  destruct a, b; intros D A; try exact (U _ D A); try (revert D A; apply differ_tags).
  all: try (cbn in A; rewrite existsb_exists in A; destruct A as (x & I & A); rewrite forallb_forall in D; exact (IH _ _ _ (D x I) A)).
  - apply is_str_eq in A as ->. apply negb_true_iff in D. exact D.
  - destruct (interface_object _ _ A) as [o ->]. apply not_true_iff_false. intros B.
    rewrite existsb_exists in D. destruct D as ([k [b u]] & _ & D). apply andb_true_iff in D as [_ D].
    destruct (field_of fields0 k) as [[[] u']|] eqn:F; try discriminate. destruct (field_of fields1 k) as [[[] w]|] eqn:G; try discriminate.
    destruct (required_field _ _ _ _ A F) as (x & X & Cx), (required_field _ _ _ _ B G) as (y & Y & Cy).
    rewrite X in Y. injection Y as <-. rewrite (IH _ _ _ D Cx) in Cy. discriminate.
Qed.

Lemma apart_sound a b v : apart a b = true -> conforms a v = true -> conforms b v = false.
Proof. apply differ_sound. Qed.

End Values.
