(* ===== verification/SdkTypes.v ===== *)
(** * The declared types of the SDK packages

    The interfaces, enums and error classes of
    src/packages/shahcoin-sdk/src/types.ts (Module [Dapp]) and of
    src/sdk/packages/{core,wallet,tokens,nfts}/src/types.ts, one definition
    for each declaration, with its name; a generic interface is a function
    of its parameter.  Aliases of [string] and types of functions have no
    definition; an index signature of [any] asks nothing and is left out.
    Declarations stand in the order of their use, and tables at the end of
    each module list them in the order of the source. *)

From Stdlib Require Import ZArith Bool List String.
From S2P Require Import Prelude JsNum JsVal TsTypes.
Import ListNotations.
Local Open Scope string_scope.
Local Open Scope Z_scope.

(** [this.name = '...'] after [super(...)]. *)
Definition renamed (name : string) (e : jserr) : jserr := Err name (e_msg e) (e_props e).

(** ** packages/shahcoin-sdk/src/types.ts *)

Module Dapp.

Definition WalletConfig : ty := TInterface [
  opt "rpcUrl" TString; opt "apiKey" TString; opt "network" (lits ["mainnet"; "testnet"; "regtest"]); opt "timeout" TNumber].
Definition WalletConnection : ty := TInterface [req "isConnected" TBoolean; opt "address" TString; opt "balance" TNumber; opt "network" TString].
Definition Transaction : ty := TInterface [
  req "txid" TString; req "amount" TNumber; req "fee" TNumber; req "confirmations" TNumber; req "blocktime" TNumber; req "address" TString;
  req "category" (lits ["send"; "receive"; "stake"; "mint"]); req "confirmations" TNumber].
Definition TokenInfo : ty := TInterface [
  req "symbol" TString; req "name" TString; req "decimals" TNumber; req "totalSupply" TNumber; req "contractAddress" TString; req "creator" TString;
  req "creationTime" TNumber].
Definition NFTInfo : ty := TInterface [
  req "tokenId" TString; req "name" TString; opt "description" TString; opt "imageUrl" TString; opt "metadata" (TRecord TAny); req "owner" TString;
  req "contractAddress" TString; req "creationTime" TNumber].
Definition ShahSwapQuote : ty := TInterface [
  req "inputToken" TString; req "outputToken" TString; req "inputAmount" TNumber; req "outputAmount" TNumber; req "priceImpact" TNumber;
  req "fee" TNumber; req "route" (TArray TString); req "validUntil" TNumber].
Definition ShahSwapTrade : ty := TInterface [
  req "quoteId" TString; req "inputToken" TString; req "outputToken" TString; req "inputAmount" TNumber; req "outputAmount" TNumber;
  opt "txid" TString; req "status" (lits ["pending"; "confirmed"; "failed"]); req "timestamp" TNumber].
Definition FeeEstimate : ty := TInterface [req "low" TNumber; req "medium" TNumber; req "high" TNumber; opt "custom" TNumber].
Definition StakingInfo : ty := TInterface [
  req "isStaking" TBoolean; req "stakedAmount" TNumber; req "rewardsEarned" TNumber; opt "lastRewardTime" TNumber; opt "nextRewardEstimate" TNumber;
  opt "stakingAddress" TString].
Definition NetworkInfo : ty := TInterface [
  req "chainId" TNumber; req "name" TString; req "rpcUrl" TString; req "explorerUrl" TString; req "shahSwapUrl" TString].
Definition ApiResponse (T : ty) : ty := TInterface [req "success" TBoolean; opt "data" T; opt "error" TString; opt "message" TString].
Definition WalletEvent : ty := TInterface [
  req "type" (lits ["connected"; "disconnected"; "balanceChanged"; "transactionReceived"; "stakingReward"]); req "data" TAny; req "timestamp" TNumber].
Definition CreateTokenParams : ty := TInterface [
  req "name" TString; req "symbol" TString; req "decimals" TNumber; req "totalSupply" TNumber; opt "description" TString; opt "website" TString].
Definition CreateNFTParams : ty := TInterface [
  req "name" TString; opt "description" TString; opt "imageUrl" TString; opt "metadata" (TRecord TAny);
  opt "attributes" (TArray (TInterface [req "trait_type" TString; req "value" (TUnion [TString; TNumber])]))].
Definition SendTransactionParams : ty := TInterface [req "to" TString; req "amount" TNumber; opt "fee" TNumber; opt "memo" TString].
Definition ShahSwapParams : ty := TInterface [
  req "inputToken" TString; req "outputToken" TString; req "amount" TNumber; opt "slippageTolerance" TNumber; opt "deadline" TNumber].

(** All declarations of the file. *)
Definition declarations : list (string * ty) := [
  ("WalletConfig", WalletConfig); ("WalletConnection", WalletConnection); ("Transaction", Transaction); ("TokenInfo", TokenInfo);
  ("NFTInfo", NFTInfo); ("ShahSwapQuote", ShahSwapQuote); ("ShahSwapTrade", ShahSwapTrade); ("FeeEstimate", FeeEstimate);
  ("StakingInfo", StakingInfo); ("NetworkInfo", NetworkInfo); ("ApiResponse", ApiResponse TAny); ("WalletEvent", WalletEvent);
  ("CreateTokenParams", CreateTokenParams); ("CreateNFTParams", CreateNFTParams); ("SendTransactionParams", SendTransactionParams);
  ("ShahSwapParams", ShahSwapParams)].

End Dapp.

(** ** sdk/packages/core/src/types.ts *)

Module Core.

Definition RPCConfig : ty := TInterface [
  req "host" TString; req "port" TNumber; opt "username" TString; opt "password" TString; opt "timeout" TNumber; opt "ssl" TBoolean].
Definition BlockchainInfo : ty := TInterface [
  req "chain" TString; req "blocks" TNumber; req "headers" TNumber; req "bestblockhash" TString; req "difficulty" TNumber; req "mediantime" TNumber;
  req "verificationprogress" TNumber; req "chainwork" TString; req "pruned" TBoolean; opt "pruneheight" TNumber; opt "automatic_pruning" TBoolean;
  opt "prune_target_size" TNumber; req "softforks" (TRecord TAny); req "bip9_softforks" (TRecord TAny)].
Definition UTXO : ty := TInterface [
  req "txid" TString; req "vout" TNumber; req "address" TString; req "scriptPubKey" TString; req "amount" TNumber; req "confirmations" TNumber;
  req "spendable" TBoolean; req "solvable" TBoolean; req "safe" TBoolean].
Definition TransactionInput : ty := TInterface [
  req "txid" TString; req "vout" TNumber; req "scriptSig" (TInterface [req "asm" TString; req "hex" TString]); req "sequence" TNumber;
  opt "txinwitness" (TArray TString)].
Definition TransactionOutput : ty := TInterface [
  req "value" TNumber; req "n" TNumber;
  req "scriptPubKey" (TInterface [req "asm" TString; req "hex" TString; opt "reqSigs" TNumber; req "type" TString; opt "addresses" (TArray TString)])].
Definition AlgoType : ty := TEnum [0; 1; 2; 3].
Definition ConsensusInfo : ty := TInterface [
  req "currentAlgo" AlgoType; req "currentHeight" TNumber; req "nextAlgo" AlgoType; req "sha256dDifficulty" TNumber; req "scryptDifficulty" TNumber;
  req "groestlDifficulty" TNumber; req "posTarget" TNumber].
Definition Block : ty := TInterface [
  req "hash" TString; req "confirmations" TNumber; req "size" TNumber; req "weight" TNumber; req "height" TNumber; req "version" TNumber;
  req "versionHex" TString; req "merkleroot" TString; req "tx" (TArray TString); req "time" TNumber; req "mediantime" TNumber; req "nonce" TNumber;
  req "bits" TString; req "difficulty" TNumber; req "chainwork" TString; req "nTx" TNumber; opt "previousblockhash" TString;
  opt "nextblockhash" TString; opt "algoType" AlgoType; opt "isProofOfStake" TBoolean].
Definition Network : ty := TInterface [
  req "name" TString; req "limited" TBoolean; req "reachable" TBoolean; req "proxy" TString; req "proxy_randomize_credentials" TBoolean].
Definition LocalAddress : ty := TInterface [req "address" TString; req "port" TNumber; req "score" TNumber].
Definition MiningInfo : ty := TInterface [
  req "blocks" TNumber; req "currentblockweight" TNumber; req "currentblocktx" TNumber; req "difficulty" TNumber; req "networkhashps" TNumber;
  req "pooledtx" TNumber; req "chain" TString; req "warnings" TString].
Definition WalletInfo : ty := TInterface [
  req "walletname" TString; req "walletversion" TNumber; req "balance" TNumber; req "unconfirmed_balance" TNumber; req "immature_balance" TNumber;
  req "txcount" TNumber; req "keypoololdest" TNumber; req "keypoolsize" TNumber; req "keypoolsize_hd_internal" TNumber; req "unlocked_until" TNumber;
  req "paytxfee" TNumber; opt "hdseedid" TString; req "private_keys_enabled" TBoolean; req "avoid_reuse" TBoolean;
  opt "scanning" (TInterface [req "duration" TNumber; req "progress" TNumber])].
Definition ConnectionEvent : ty := TInterface [req "type" (lits ["connected"; "disconnected"; "error"]); opt "data" TAny].
Definition SDKConfig : ty := TInterface [
  req "rpc" RPCConfig; req "network" (lits ["mainnet"; "testnet"; "regtest"]); opt "autoReconnect" TBoolean; opt "reconnectInterval" TNumber;
  opt "maxReconnectAttempts" TNumber].
Definition RPCResponse (T : ty) : ty := TInterface [
  req "result" T; req "error" (TUnion [TNull; TInterface [req "code" TNumber; req "message" TString]]); req "id" (TUnion [TString; TNumber])].
Definition StakeInfo : ty := TInterface [
  req "enabled" TBoolean; req "staking" TBoolean; req "errors" TString; req "currentblocksize" TNumber; req "currentblocktx" TNumber;
  req "pooledtx" TNumber; req "difficulty" TNumber; req "searchInterval" TNumber; req "weight" TNumber; req "netstakeweight" TNumber;
  req "expectedtime" TNumber].
Definition StakeInput : ty := TInterface [
  req "txid" TString; req "vout" TNumber; req "amount" TNumber; req "confirmations" TNumber; req "age" TNumber; req "weight" TNumber;
  req "address" TString].
Definition UnitConversion : ty := TInterface [req "value" TNumber; req "unit" TString; req "display" TString].
Definition UnitBreakdown : ty := TInterface [req "units" (TArray UnitConversion); req "total" TNumber; req "formatted" TString].
Definition Transaction : ty := TInterface [
  req "txid" TString; req "hash" TString; req "version" TNumber; req "size" TNumber; req "vsize" TNumber; req "weight" TNumber;
  req "locktime" TNumber; req "vin" (TArray TransactionInput); req "vout" (TArray TransactionOutput); opt "blockhash" TString;
  opt "confirmations" TNumber; opt "blocktime" TNumber; opt "time" TNumber].
Definition NetworkInfo : ty := TInterface [
  req "version" TNumber; req "subversion" TString; req "protocolversion" TNumber; req "localservices" TString;
  req "localservicesnames" (TArray TString); req "localrelay" TBoolean; req "timeoffset" TNumber; req "networkactive" TBoolean;
  req "connections" TNumber; req "connections_in" TNumber; req "connections_out" TNumber; req "networks" (TArray Network); req "relayfee" TNumber;
  req "incrementalfee" TNumber; req "localaddresses" (TArray LocalAddress); req "warnings" TString].
Definition BlockchainEvent : ty := TInterface [
  req "type" (lits ["block"; "transaction"; "mempool"]); req "data" (TUnion [Block; Transaction; TString])].

Definition SHAHCOINError (message : string) (code details : jsval) : jserr := Err "SHAHCOINError" message [("code", code); ("details", details)].
Definition RPCError (message : string) (rpcCode rpcMessage : jsval) : jserr :=
  let e := SHAHCOINError message (VStr "RPC_ERROR") (VObj [("rpcCode", rpcCode); ("rpcMessage", rpcMessage)]) in
  renamed "RPCError" (Err (e_name e) (e_msg e) (e_props e ++ [("rpcCode", rpcCode); ("rpcMessage", rpcMessage)])).

(** The declarations on blocks, transactions and the network. *)
Definition chain_types : list (string * ty) := [
  ("RPCConfig", RPCConfig); ("BlockchainInfo", BlockchainInfo); ("UTXO", UTXO); ("Transaction", Transaction); ("TransactionInput", TransactionInput);
  ("TransactionOutput", TransactionOutput); ("AlgoType", AlgoType); ("ConsensusInfo", ConsensusInfo); ("Block", Block); ("NetworkInfo", NetworkInfo);
  ("Network", Network); ("LocalAddress", LocalAddress)].

(** Those on mining and the wallet of the node. *)
Definition mining_types : list (string * ty) := [
  ("MiningInfo", MiningInfo); ("WalletInfo", WalletInfo)].

(** Those on events, configuration, responses, staking and units. *)
Definition event_types : list (string * ty) := [
  ("BlockchainEvent", BlockchainEvent); ("ConnectionEvent", ConnectionEvent); ("SDKConfig", SDKConfig); ("RPCResponse", RPCResponse TAny);
  ("StakeInfo", StakeInfo); ("StakeInput", StakeInput); ("UnitConversion", UnitConversion); ("UnitBreakdown", UnitBreakdown)].

End Core.

(** ** sdk/packages/wallet/src/types.ts *)

Module Wallet.

Definition WalletInfo : ty := TInterface [
  req "id" TString; req "name" TString; req "type" (lits ["hd"; "imported"; "watch-only"]); req "createdAt" TDate; req "updatedAt" TDate;
  req "isEncrypted" TBoolean; req "isLocked" TBoolean; req "balance" TNumber; req "unconfirmedBalance" TNumber; req "addressCount" TNumber;
  opt "lastUsedAddress" TString].
Definition HDWalletInfo : ty := extends WalletInfo [
  req "type" (TLit "hd"); opt "mnemonic" TString; opt "passphrase" TString; req "derivationPath" TString; req "accountIndex" TNumber;
  req "addressIndex" TNumber; req "xpub" TString; opt "xpriv" TString].
Definition ImportedWalletInfo : ty := extends WalletInfo [
  req "type" (TLit "imported"); req "addresses" (TArray TString); req "privateKeys" (TRecord TString)].
Definition WatchOnlyWalletInfo : ty := extends WalletInfo [req "type" (TLit "watch-only"); req "addresses" (TArray TString)].
Definition AddressInfo : ty := TInterface [
  req "address" TString; req "index" TNumber; req "derivationPath" TString; req "publicKey" TString; opt "privateKey" TString; req "balance" TNumber;
  req "unconfirmedBalance" TNumber; req "txCount" TNumber; opt "lastUsed" TDate].
Definition WalletTransactionInput : ty := TInterface [
  req "txid" TString; req "vout" TNumber; req "scriptSig" (TInterface [req "asm" TString; req "hex" TString]); req "sequence" TNumber;
  opt "txinwitness" (TArray TString); opt "address" TString; opt "amount" TNumber].
Definition WalletTransactionOutput : ty := TInterface [
  req "value" TNumber; req "n" TNumber;
  req "scriptPubKey" (TInterface [req "asm" TString; req "hex" TString; opt "reqSigs" TNumber; req "type" TString; opt "addresses" (TArray TString)]);
  opt "address" TString; opt "isChange" TBoolean].
Definition TransactionInput : ty := TInterface [
  req "txid" TString; req "vout" TNumber; req "address" TString; req "amount" TNumber; req "scriptPubKey" TString].
Definition TransactionOutput : ty := TInterface [req "address" TString; req "amount" TNumber; opt "isChange" TBoolean].
Definition TransactionOptions : ty := TInterface [
  opt "feeRate" TNumber; opt "changeAddress" TString; opt "subtractFeeFromOutputs" (TArray TNumber); opt "replaceable" TBoolean;
  opt "locktime" TNumber].
Definition TransactionResult : ty := TInterface [
  req "txid" TString; req "hex" TString; req "fee" TNumber; req "size" TNumber; req "vsize" TNumber; req "weight" TNumber].
Definition EncryptionOptions : ty := TInterface [req "password" TString; opt "iterations" TNumber; opt "salt" TString].
Definition EncryptedData : ty := TInterface [req "encrypted" TString; req "salt" TString; req "iterations" TNumber; req "iv" TString].
Definition NetworkConfig : ty := TInterface [
  req "name" (lits ["mainnet"; "testnet"; "regtest"]); req "bech32" TString; req "pubKeyHash" TNumber; req "scriptHash" TNumber; req "wif" TNumber;
  req "bip32" (TInterface [req "public" TNumber; req "private" TNumber]); req "messagePrefix" TString; req "defaultPort" TNumber;
  req "seeds" (TArray TString)].
Definition WalletEvent : ty := TInterface [
  req "type" (lits ["balance-changed"; "transaction-received"; "transaction-sent"; "address-generated"; "wallet-locked"; "wallet-unlocked"]);
  req "data" TAny].
Definition WalletConfig : ty := TInterface [
  req "network" NetworkConfig; req "defaultDerivationPath" TString; req "addressGapLimit" TNumber; req "maxAddresses" TNumber;
  req "autoLockTimeout" TNumber; req "encryptionIterations" TNumber].
Definition WalletTransaction : ty := TInterface [
  req "txid" TString; req "hash" TString; req "version" TNumber; req "size" TNumber; req "vsize" TNumber; req "weight" TNumber;
  req "locktime" TNumber; req "vin" (TArray WalletTransactionInput); req "vout" (TArray WalletTransactionOutput); opt "blockhash" TString;
  opt "confirmations" TNumber; opt "blocktime" TNumber; opt "time" TNumber; opt "fee" TNumber;
  req "category" (lits ["send"; "receive"; "generate"; "immature"; "orphan"]); req "amount" TNumber; opt "address" TString; opt "label" TString].
Definition WalletBackup : ty := TInterface [
  req "version" TString; req "timestamp" TDate; req "wallet" WalletInfo; req "addresses" (TArray AddressInfo);
  req "transactions" (TArray WalletTransaction); opt "encryptedData" EncryptedData].

Definition WalletError (message code : string) (details : jsval) : jserr := Err "WalletError" message [("code", VStr code); ("details", details)].
Definition EncryptionError (message : string) (details : jsval) : jserr := renamed "EncryptionError" (WalletError message "ENCRYPTION_ERROR" details).
Definition TransactionError (message : string) (details : jsval) : jserr := renamed "TransactionError" (WalletError message "TRANSACTION_ERROR" details).
Definition AddressError (message : string) (details : jsval) : jserr := renamed "AddressError" (WalletError message "ADDRESS_ERROR" details).

(** The declarations on wallets, addresses, transactions and encryption. *)
Definition wallet_types : list (string * ty) := [
  ("WalletInfo", WalletInfo); ("HDWalletInfo", HDWalletInfo); ("ImportedWalletInfo", ImportedWalletInfo);
  ("WatchOnlyWalletInfo", WatchOnlyWalletInfo); ("AddressInfo", AddressInfo); ("WalletTransaction", WalletTransaction);
  ("WalletTransactionInput", WalletTransactionInput); ("WalletTransactionOutput", WalletTransactionOutput); ("TransactionInput", TransactionInput);
  ("TransactionOutput", TransactionOutput); ("TransactionOptions", TransactionOptions); ("TransactionResult", TransactionResult);
  ("EncryptionOptions", EncryptionOptions); ("EncryptedData", EncryptedData)].

(** Those on backups and networks. *)
Definition network_types : list (string * ty) := [
  ("WalletBackup", WalletBackup); ("NetworkConfig", NetworkConfig)].

(** Events and configuration. *)
Definition wallet_events : list (string * ty) := [
  ("WalletEvent", WalletEvent); ("WalletConfig", WalletConfig)].

(** The error classes with a code of their own. *)
Definition coded : list (string * string * (string -> jsval -> jserr)) := [
  ("EncryptionError", "ENCRYPTION_ERROR", EncryptionError);
  ("TransactionError", "TRANSACTION_ERROR", TransactionError);
  ("AddressError", "ADDRESS_ERROR", AddressError)].

End Wallet.

(** ** sdk/packages/tokens/src/types.ts *)

Module Tokens.

Definition TokenInfo : ty := TInterface [
  req "address" TString; req "name" TString; req "symbol" TString; req "decimals" TNumber; req "totalSupply" TString; req "creator" TString;
  req "createdAt" TDate; req "verified" TBoolean; opt "logo" TString; opt "description" TString; opt "website" TString;
  opt "social" (TInterface [opt "twitter" TString; opt "telegram" TString; opt "discord" TString])].
Definition TokenMetadata : ty := TInterface [
  req "name" TString; req "symbol" TString; req "decimals" TNumber; req "totalSupply" TString; opt "description" TString; opt "logo" TString;
  opt "website" TString; opt "social" (TInterface [opt "twitter" TString; opt "telegram" TString; opt "discord" TString])].
Definition CreateTokenOptions : ty := TInterface [
  req "name" TString; req "symbol" TString; req "decimals" TNumber; req "totalSupply" TString; opt "description" TString; opt "logo" TString;
  opt "website" TString; opt "social" (TInterface [opt "twitter" TString; opt "telegram" TString; opt "discord" TString]);
  opt "initialDistribution" (TArray (TInterface [req "address" TString; req "amount" TString])); opt "mintable" TBoolean; opt "burnable" TBoolean;
  opt "pausable" TBoolean; opt "capped" TBoolean; opt "maxSupply" TString].
Definition CreateTokenResult : ty := TInterface [
  req "txid" TString; req "tokenAddress" TString; req "gasUsed" TNumber; req "gasPrice" TString; req "totalCost" TString].
Definition TransferOptions : ty := TInterface [
  req "from" TString; req "to" TString; req "amount" TString; opt "gasLimit" TNumber; opt "gasPrice" TString; opt "data" TString].
Definition TransferResult : ty := TInterface [
  req "txid" TString; req "from" TString; req "to" TString; req "amount" TString; req "gasUsed" TNumber; req "gasPrice" TString;
  req "totalCost" TString].
Definition TokenBalance : ty := TInterface [
  req "tokenAddress" TString; req "address" TString; req "balance" TString; req "symbol" TString; req "decimals" TNumber; req "value" TNumber;
  req "lastUpdated" TDate].
Definition TokenTransaction : ty := TInterface [
  req "txid" TString; req "tokenAddress" TString; req "from" TString; req "to" TString; req "amount" TString; req "blockNumber" TNumber;
  req "blockHash" TString; req "timestamp" TDate; req "gasUsed" TNumber; req "gasPrice" TString;
  req "status" (lits ["pending"; "confirmed"; "failed"]); req "confirmations" TNumber].
Definition ApprovalOptions : ty := TInterface [req "spender" TString; req "amount" TString; opt "gasLimit" TNumber; opt "gasPrice" TString].
Definition ApprovalResult : ty := TInterface [
  req "txid" TString; req "owner" TString; req "spender" TString; req "amount" TString; req "gasUsed" TNumber; req "gasPrice" TString;
  req "totalCost" TString].
Definition TokenAllowance : ty := TInterface [
  req "tokenAddress" TString; req "owner" TString; req "spender" TString; req "allowance" TString; req "symbol" TString; req "decimals" TNumber].
Definition MintOptions : ty := TInterface [req "to" TString; req "amount" TString; opt "gasLimit" TNumber; opt "gasPrice" TString].
Definition BurnOptions : ty := TInterface [req "amount" TString; opt "gasLimit" TNumber; opt "gasPrice" TString].
Definition MintBurnResult : ty := TInterface [
  req "txid" TString; req "amount" TString; req "gasUsed" TNumber; req "gasPrice" TString; req "totalCost" TString].
Definition TokenEvent : ty := TInterface [
  req "type" (lits ["Transfer"; "Approval"; "Mint"; "Burn"; "Pause"; "Unpause"]); req "tokenAddress" TString; opt "from" TString; opt "to" TString;
  opt "amount" TString; opt "spender" TString; opt "owner" TString; req "blockNumber" TNumber; req "blockHash" TString; req "timestamp" TDate;
  req "txid" TString; req "logIndex" TNumber].
Definition TokenRegistryEntry : ty := TInterface [
  req "address" TString; req "name" TString; req "symbol" TString; req "decimals" TNumber; req "totalSupply" TString; req "creator" TString;
  req "createdAt" TDate; req "verified" TBoolean; opt "logo" TString; opt "description" TString; opt "website" TString;
  opt "social" (TInterface [opt "twitter" TString; opt "telegram" TString; opt "discord" TString]); opt "metadata" TokenMetadata;
  req "transactions" TNumber; req "holders" TNumber; opt "marketCap" TNumber; opt "volume24h" TNumber; opt "price" TNumber;
  opt "priceChange24h" TNumber].
Definition TokenSearchOptions : ty := TInterface [
  opt "query" TString; opt "creator" TString; opt "verified" TBoolean;
  opt "sortBy" (lits ["name"; "symbol"; "totalSupply"; "holders"; "transactions"; "marketCap"; "volume24h"]); opt "sortOrder" (lits ["asc"; "desc"]);
  opt "limit" TNumber; opt "offset" TNumber].
Definition TokenSearchResult : ty := TInterface [
  req "tokens" (TArray TokenRegistryEntry); req "total" TNumber; req "page" TNumber; req "limit" TNumber; req "hasMore" TBoolean].
Definition TokenAnalytics : ty := TInterface [
  req "address" TString; req "totalTransactions" TNumber; req "uniqueHolders" TNumber; req "totalVolume" TNumber;
  req "averageTransactionSize" TNumber; req "largestTransaction" TNumber; req "smallestTransaction" TNumber;
  req "topHolders" (TArray (TInterface [req "address" TString; req "balance" TString; req "percentage" TNumber]));
  req "transactionHistory" (TArray (TInterface [req "date" TString; req "transactions" TNumber; req "volume" TNumber; req "holders" TNumber]));
  opt "priceHistory" (TArray (TInterface [req "date" TString; req "price" TNumber; req "marketCap" TNumber; req "volume" TNumber]))].
Definition TokenConfig : ty := TInterface [
  req "factoryAddress" TString; req "registryAddress" TString;
  req "gasLimit" (TInterface [req "create" TNumber; req "transfer" TNumber; req "approve" TNumber; req "mint" TNumber; req "burn" TNumber]);
  req "gasPrice" TString; req "maxDecimals" TNumber; req "minNameLength" TNumber; req "maxNameLength" TNumber; req "minSymbolLength" TNumber;
  req "maxSymbolLength" TNumber; req "maxTotalSupply" TString].

Definition TokenError (message code : string) (details : jsval) : jserr := Err "TokenError" message [("code", VStr code); ("details", details)].
Definition TokenCreationError (message : string) (details : jsval) : jserr := renamed "TokenCreationError" (TokenError message "TOKEN_CREATION_ERROR" details).
Definition TokenTransferError (message : string) (details : jsval) : jserr := renamed "TokenTransferError" (TokenError message "TOKEN_TRANSFER_ERROR" details).
Definition TokenApprovalError (message : string) (details : jsval) : jserr := renamed "TokenApprovalError" (TokenError message "TOKEN_APPROVAL_ERROR" details).

(** The declarations on tokens, transfers and approvals. *)
Definition token_types : list (string * ty) := [
  ("TokenInfo", TokenInfo); ("TokenMetadata", TokenMetadata); ("CreateTokenOptions", CreateTokenOptions); ("CreateTokenResult", CreateTokenResult);
  ("TransferOptions", TransferOptions); ("TransferResult", TransferResult); ("TokenBalance", TokenBalance); ("TokenTransaction", TokenTransaction);
  ("ApprovalOptions", ApprovalOptions); ("ApprovalResult", ApprovalResult); ("TokenAllowance", TokenAllowance)].

(** Those on minting, events, the registry and analytics. *)
Definition registry_types : list (string * ty) := [
  ("MintOptions", MintOptions); ("BurnOptions", BurnOptions); ("MintBurnResult", MintBurnResult); ("TokenEvent", TokenEvent);
  ("TokenRegistryEntry", TokenRegistryEntry); ("TokenSearchOptions", TokenSearchOptions); ("TokenSearchResult", TokenSearchResult);
  ("TokenAnalytics", TokenAnalytics)].

(** The error classes with a code of their own. *)
Definition coded : list (string * string * (string -> jsval -> jserr)) := [
  ("TokenCreationError", "TOKEN_CREATION_ERROR", TokenCreationError);
  ("TokenTransferError", "TOKEN_TRANSFER_ERROR", TokenTransferError);
  ("TokenApprovalError", "TOKEN_APPROVAL_ERROR", TokenApprovalError)].

End Tokens.

(** ** sdk/packages/nfts/src/types.ts *)

Module Nfts.

Definition NFTAttribute : ty := TInterface [
  req "trait_type" TString; req "value" (TUnion [TString; TNumber]);
  opt "display_type" (lits ["number"; "boost_number"; "boost_percentage"; "date"]); opt "max_value" TNumber].
Definition CreateNFTResult : ty := TInterface [
  req "txid" TString; req "contractAddress" TString; req "gasUsed" TNumber; req "gasPrice" TString; req "totalCost" TString].
Definition MintNFTResult : ty := TInterface [
  req "txid" TString; req "tokenId" TString; req "contractAddress" TString; req "owner" TString; req "gasUsed" TNumber; req "gasPrice" TString;
  req "totalCost" TString].
Definition TransferNFTOptions : ty := TInterface [
  req "from" TString; req "to" TString; req "tokenId" TString; opt "gasLimit" TNumber; opt "gasPrice" TString].
Definition TransferNFTResult : ty := TInterface [
  req "txid" TString; req "from" TString; req "to" TString; req "tokenId" TString; req "contractAddress" TString; req "gasUsed" TNumber;
  req "gasPrice" TString; req "totalCost" TString].
Definition ApproveNFTOptions : ty := TInterface [req "to" TString; req "tokenId" TString; opt "gasLimit" TNumber; opt "gasPrice" TString].
Definition ApproveAllNFTOptions : ty := TInterface [req "to" TString; req "approved" TBoolean; opt "gasLimit" TNumber; opt "gasPrice" TString].
Definition ApprovalResult : ty := TInterface [
  req "txid" TString; req "owner" TString; req "approved" TString; opt "tokenId" TString; req "isApproved" TBoolean; req "gasUsed" TNumber;
  req "gasPrice" TString; req "totalCost" TString].
Definition BurnNFTOptions : ty := TInterface [req "tokenId" TString; opt "gasLimit" TNumber; opt "gasPrice" TString].
Definition BurnNFTResult : ty := TInterface [
  req "txid" TString; req "tokenId" TString; req "contractAddress" TString; req "gasUsed" TNumber; req "gasPrice" TString; req "totalCost" TString].
Definition NFTTransaction : ty := TInterface [
  req "txid" TString; req "contractAddress" TString; req "tokenId" TString; req "from" TString; req "to" TString; req "blockNumber" TNumber;
  req "blockHash" TString; req "timestamp" TDate; req "gasUsed" TNumber; req "gasPrice" TString;
  req "status" (lits ["pending"; "confirmed"; "failed"]); req "confirmations" TNumber;
  req "eventType" (lits ["Transfer"; "Approval"; "ApprovalForAll"; "Mint"; "Burn"])].
Definition NFTEvent : ty := TInterface [
  req "type" (lits ["Transfer"; "Approval"; "ApprovalForAll"; "Mint"; "Burn"]); req "contractAddress" TString; opt "tokenId" TString;
  opt "from" TString; opt "to" TString; opt "approved" TString; opt "owner" TString; opt "operator" TString; req "blockNumber" TNumber;
  req "blockHash" TString; req "timestamp" TDate; req "txid" TString; req "logIndex" TNumber].
Definition NFTSearchOptions : ty := TInterface [
  opt "query" TString; opt "creator" TString; opt "verified" TBoolean; opt "collection" TString; opt "owner" TString;
  opt "sortBy" (lits ["name"; "symbol"; "totalSupply"; "holders"; "transactions"; "floorPrice"; "volume"]); opt "sortOrder" (lits ["asc"; "desc"]);
  opt "limit" TNumber; opt "offset" TNumber].
Definition NFTAnalytics : ty := TInterface [
  req "contractAddress" TString; req "totalTransactions" TNumber; req "uniqueOwners" TNumber; req "totalVolume" TNumber; req "averagePrice" TNumber;
  opt "floorPrice" TNumber; req "highestSale" TNumber; req "lowestSale" TNumber;
  req "topOwners" (TArray (TInterface [req "address" TString; req "tokenCount" TNumber; req "percentage" TNumber]));
  req "transactionHistory" (TArray (TInterface [req "date" TString; req "transactions" TNumber; req "volume" TNumber; req "owners" TNumber]));
  opt "priceHistory" (TArray (TInterface [req "date" TString; req "floorPrice" TNumber; req "averagePrice" TNumber; req "volume" TNumber]))].
Definition IPFSConfig : ty := TInterface [req "gateway" TString; opt "apiEndpoint" TString; opt "apiKey" TString; opt "timeout" TNumber].
Definition IPFSResult : ty := TInterface [req "hash" TString; req "size" TNumber; req "url" TString].
Definition MetadataStorage : ty := TInterface [
  req "type" (lits ["ipfs"; "arweave"; "centralized"]); req "url" TString; opt "hash" TString; req "timestamp" TDate].
Definition NFTConfig : ty := TInterface [
  req "factoryAddress" TString; req "registryAddress" TString;
  req "gasLimit" (TInterface [req "create" TNumber; req "mint" TNumber; req "transfer" TNumber; req "approve" TNumber; req "burn" TNumber]);
  req "gasPrice" TString; req "maxSupply" TNumber; req "maxNameLength" TNumber; req "maxSymbolLength" TNumber; req "maxDescriptionLength" TNumber;
  req "ipfs" IPFSConfig].
Definition NFTMetadata : ty := TInterface [
  req "name" TString; opt "description" TString; opt "image" TString; opt "externalUrl" TString; opt "attributes" (TArray NFTAttribute);
  opt "animationUrl" TString; opt "background_color" TString; opt "youtube_url" TString].
Definition NFTCollection : ty := TInterface [
  req "address" TString; req "name" TString; req "symbol" TString; opt "description" TString; opt "image" TString; opt "bannerImage" TString;
  opt "externalUrl" TString; req "creator" TString; req "createdAt" TDate; req "verified" TBoolean; req "totalSupply" TNumber;
  opt "maxSupply" TNumber; opt "mintPrice" TString; opt "royaltyPercentage" TNumber; opt "royaltyRecipient" TString; opt "metadata" NFTMetadata;
  opt "social" (TInterface [opt "twitter" TString; opt "telegram" TString; opt "discord" TString; opt "website" TString]);
  req "stats" (TInterface [req "totalSales" TNumber; req "totalVolume" TNumber; opt "floorPrice" TNumber; opt "averagePrice" TNumber; req "uniqueOwners" TNumber; req "totalListed" TNumber])].
Definition CreateNFTOptions : ty := TInterface [
  req "name" TString; req "symbol" TString; opt "description" TString; opt "image" TString; opt "externalUrl" TString;
  opt "attributes" (TArray NFTAttribute); opt "maxSupply" TNumber; opt "mintPrice" TString; opt "royaltyPercentage" TNumber;
  opt "royaltyRecipient" TString; opt "metadata" NFTMetadata;
  opt "social" (TInterface [opt "twitter" TString; opt "telegram" TString; opt "discord" TString; opt "website" TString])].
Definition MintNFTOptions : ty := TInterface [
  req "to" TString; opt "tokenId" TString; opt "metadata" NFTMetadata; opt "gasLimit" TNumber; opt "gasPrice" TString].
Definition NFTBalance : ty := TInterface [
  req "contractAddress" TString; req "tokenId" TString; req "owner" TString; req "name" TString; req "symbol" TString; opt "image" TString;
  opt "metadata" NFTMetadata; opt "lastTransferredAt" TDate].
Definition NFTRegistryEntry : ty := TInterface [
  req "contractAddress" TString; req "name" TString; req "symbol" TString; opt "description" TString; opt "image" TString; opt "bannerImage" TString;
  opt "externalUrl" TString; req "creator" TString; req "createdAt" TDate; req "verified" TBoolean; req "totalSupply" TNumber;
  opt "maxSupply" TNumber; opt "mintPrice" TString; opt "royaltyPercentage" TNumber; opt "royaltyRecipient" TString; opt "metadata" NFTMetadata;
  opt "social" (TInterface [opt "twitter" TString; opt "telegram" TString; opt "discord" TString; opt "website" TString]);
  req "stats" (TInterface [req "totalSales" TNumber; req "totalVolume" TNumber; opt "floorPrice" TNumber; opt "averagePrice" TNumber; req "uniqueOwners" TNumber; req "totalListed" TNumber]);
  req "transactions" TNumber; req "holders" TNumber].
Definition NFTSearchResult : ty := TInterface [
  req "nfts" (TArray NFTRegistryEntry); req "total" TNumber; req "page" TNumber; req "limit" TNumber; req "hasMore" TBoolean].
Definition NFTInfo : ty := TInterface [
  req "tokenId" TString; req "contractAddress" TString; req "owner" TString; req "creator" TString; req "name" TString; req "symbol" TString;
  opt "description" TString; opt "image" TString; opt "externalUrl" TString; opt "attributes" (TArray NFTAttribute); opt "metadata" NFTMetadata;
  req "mintedAt" TDate; opt "lastTransferredAt" TDate; req "verified" TBoolean; opt "royaltyPercentage" TNumber; opt "royaltyRecipient" TString].

Definition NFTError (message code : string) (details : jsval) : jserr := Err "NFTError" message [("code", VStr code); ("details", details)].
Definition NFTCreationError (message : string) (details : jsval) : jserr := renamed "NFTCreationError" (NFTError message "NFT_CREATION_ERROR" details).
Definition NFTMintError (message : string) (details : jsval) : jserr := renamed "NFTMintError" (NFTError message "NFT_MINT_ERROR" details).
Definition NFTTransferError (message : string) (details : jsval) : jserr := renamed "NFTTransferError" (NFTError message "NFT_TRANSFER_ERROR" details).
Definition MetadataError (message : string) (details : jsval) : jserr := renamed "MetadataError" (NFTError message "METADATA_ERROR" details).

(** The declarations on NFTs, collections, creation and transfers. *)
Definition nft_types : list (string * ty) := [
  ("NFTInfo", NFTInfo); ("NFTMetadata", NFTMetadata); ("NFTAttribute", NFTAttribute); ("NFTCollection", NFTCollection);
  ("CreateNFTOptions", CreateNFTOptions); ("CreateNFTResult", CreateNFTResult); ("MintNFTOptions", MintNFTOptions); ("MintNFTResult", MintNFTResult);
  ("TransferNFTOptions", TransferNFTOptions); ("TransferNFTResult", TransferNFTResult)].

(** Those on approvals, burning, balances, events and the registry. *)
Definition transaction_types : list (string * ty) := [
  ("ApproveNFTOptions", ApproveNFTOptions); ("ApproveAllNFTOptions", ApproveAllNFTOptions); ("ApprovalResult", ApprovalResult);
  ("BurnNFTOptions", BurnNFTOptions); ("BurnNFTResult", BurnNFTResult); ("NFTBalance", NFTBalance); ("NFTTransaction", NFTTransaction);
  ("NFTEvent", NFTEvent); ("NFTRegistryEntry", NFTRegistryEntry); ("NFTSearchOptions", NFTSearchOptions); ("NFTSearchResult", NFTSearchResult)].

(** Those on analytics and storage. *)
Definition storage_types : list (string * ty) := [
  ("NFTAnalytics", NFTAnalytics); ("IPFSConfig", IPFSConfig); ("IPFSResult", IPFSResult); ("MetadataStorage", MetadataStorage)].

(** The error classes with a code of their own. *)
Definition coded : list (string * string * (string -> jsval -> jserr)) := [
  ("NFTCreationError", "NFT_CREATION_ERROR", NFTCreationError);
  ("NFTMintError", "NFT_MINT_ERROR", NFTMintError);
  ("NFTTransferError", "NFT_TRANSFER_ERROR", NFTTransferError);
  ("MetadataError", "METADATA_ERROR", MetadataError)].

End Nfts.

(** ** The declarations can be met *)

(** A value of each type, for a given [Date]. *)
Fixpoint sample (date : jsval) (t : ty) : jsval :=
  match t with
  | TAny | TUndefined => VUndef
  | TString => VStr "s"
  | TNumber => vnum 1
  | TBoolean => VBool true
  | TNull => VNull
  | TDate => date
  | TLit s => VStr s
  | TEnum l => match l with n :: _ => vnum n | [] => VUndef end
  | TArray u => VArr [sample date u]
  | TRecord u => VObj [("k", sample date u)]
  | TUnion l => match l with u :: _ => sample date u | [] => VUndef end
  | TInterface fs => VObj (map (fun '(k, (_, u)) => (k, sample date u)) fs)
  end.

Definition declarations : list (string * ty) :=
  Dapp.declarations ++ Core.chain_types ++ Core.mining_types ++ Core.event_types ++
  Wallet.wallet_types ++ Wallet.network_types ++ Wallet.wallet_events ++
  Tokens.token_types ++ Tokens.registry_types ++ [("TokenConfig", Tokens.TokenConfig)] ++
  Nfts.nft_types ++ Nfts.transaction_types ++ Nfts.storage_types ++ [("NFTConfig", Nfts.NFTConfig)].

Definition tagged_dates : Dates := fun v => match v with VFun name => (name =? "Date")%string | _ => false end.

(** No declaration is empty: the values with every property are of the type. *)
Lemma declarations_met : forallb (fun '(_, t) => conforms (H := tagged_dates) t (sample (VFun "Date") t)) declarations = true.
Proof. vm_compute. reflexivity. Qed.
