(* ===== verification/SdkTyped.v ===== *)
(** * The wallet SDK keeps the types it declares

    The signatures of [ShahcoinSDK] (src/packages/shahcoin-sdk/src/shahcoin-sdk.ts)
    against the interfaces of its types.ts: what the methods return, what
    the callbacks receive and what the state holds, when the server answers
    each endpoint with a body of type [ApiResponse].  Also the values
    src/packages/shahcoin-sdk/src/index.ts exports. *)

From Stdlib Require Import ZArith Bool List String.
From S2P Require Import Prelude JsNum JsVal JsJson JsMonad Machine TsTypes SdkTypes WalletSdk.
Import ListNotations.
Local Open Scope string_scope.

(** ** Signatures *)

(** The [T] of the method's [Promise<T>]. *)
Definition declared (r : wallet_request) : ty :=
  match r with
  | GetBalance => TNumber
  | GetTransactionHistory _ _ => TArray Dapp.Transaction
  | SendTransaction _ | Stake _ => TString
  | GetStakingInfo => Dapp.StakingInfo
  | ExecuteShahSwap _ => Dapp.ShahSwapTrade
  | CreateToken _ => Dapp.TokenInfo
  | CreateNFT _ => Dapp.NFTInfo
  | GetUserTokens => TArray Dapp.TokenInfo
  | GetUserNFTs => TArray Dapp.NFTInfo
  end.

Definition declared_open (r : open_request) : ty :=
  match r with
  | GetFeeEstimates => Dapp.FeeEstimate
  | GetShahSwapQuote _ => Dapp.ShahSwapQuote
  | GetTokenInfo _ => Dapp.TokenInfo
  | GetNFTInfo _ _ => Dapp.NFTInfo
  end.

Definition maybe (t : ty) : ty := TUnion [t; TUndefined].

(** The methods that return [response.data.data] itself return [undefined]
    when the answer carries no data; the others return a property of it. *)
Definition returned (r : wallet_request) : ty :=
  match r with
  | GetStakingInfo | ExecuteShahSwap _ | CreateToken _ | CreateNFT _ => maybe (declared r)
  | _ => declared r
  end.

(** The data of each endpoint. *)
Definition endpoint (verb path : string) : ty :=
  if verb =? "post" then
    if path =? "/wallet/connect" then TInterface [req "address" TString; req "balance" TNumber]
    else if (path =? "/wallet/send") || (path =? "/staking/stake") then TInterface [req "txid" TString]
    else if path =? "/shahswap/quote" then Dapp.ShahSwapQuote
    else if path =? "/shahswap/trade" then Dapp.ShahSwapTrade
    else if path =? "/tokens/create" then Dapp.TokenInfo
    else if path =? "/nfts/create" then Dapp.NFTInfo
    else TAny
  else if startsWith path "/wallet/balance/" then TInterface [req "balance" TNumber]
  else if startsWith path "/wallet/transactions/" then TInterface [req "transactions" (TArray Dapp.Transaction)]
  else if path =? "/wallet/fee-estimates" then Dapp.FeeEstimate
  else if startsWith path "/staking/info/" then Dapp.StakingInfo
  else if startsWith path "/tokens/user/" then TInterface [req "tokens" (TArray Dapp.TokenInfo)]
  else if startsWith path "/nfts/user/" then TInterface [req "nfts" (TArray Dapp.NFTInfo)]
  else if startsWith path "/tokens/" then Dapp.TokenInfo
  else if startsWith path "/nfts/" then Dapp.NFTInfo
  else TAny.

Definition response (t : ty) : ty := TInterface [req "data" (Dapp.ApiResponse t)].

Class TypedServer `{Env} `{Dates} : Prop := answers_typed : forall t verb client path rest v,
  verb = "get" \/ verb = "post" -> reply t verb (client :: VStr path :: rest) = Ok v ->
  conforms (response (endpoint verb path)) v = true.

(** An address that does not lead to the list of a user's assets. *)
Definition plain (r : open_request) : Prop :=
  match r with
  | GetTokenInfo contract => startsWith contract "user/" = false
  | GetNFTInfo contract tokenId => startsWith (contract ++ "/" ++ tokenId) "user/" = false
  | _ => True
  end.

(** ** What the state holds and what the callbacks receive *)

Section Typed.
Context `{Env} `{Dates}.

Definition notified (e : event) : Prop :=
  (ev_op e = "eventCallback" -> exists cb x, ev_args e = [cb; x] /\ conforms Dapp.WalletEvent x = true) /\
  (ev_op e = "connectionCallback" -> exists cb x, ev_args e = [cb; x] /\ conforms Dapp.WalletConnection x = true).

Record typed (s : sdk) (t : trace) : Prop := {
  typed_config : conforms Dapp.WalletConfig (VObj (config s)) = true;
  typed_connection : conforms Dapp.WalletConnection (connection s) = true;
  typed_calls : Forall notified t
}.

Lemma typed_cons s t e : notified e -> typed s t -> typed s (e :: t).
Proof using Type. intros N [A B C]. split; auto. Qed.

Lemma typed_state s s' t : config s' = config s -> connection s' = connection s -> typed s t -> typed s' t.
Proof using Type. intros Ec En [A B C]. split; rewrite ?Ec, ?En; assumption. Qed.

(** A call that is not one of a callback. *)
Definition elsewhere (op : string) : Prop := op <> "eventCallback" /\ op <> "connectionCallback".

Lemma notified_elsewhere op args r : elsewhere op -> notified (Ev op args r).
Proof using Type. intros [A B]. split; cbn; intros E; congruence. Qed.

Lemma typed_ext op args : elsewhere op -> preserves typed (ext op args).
Proof using Type. intros O s t T. apply wp_ext; intros; apply typed_cons; auto using notified_elsewhere. Qed.

Lemma typed_now : preserves typed now.
Proof using Type. intros s t T. apply wp_now, typed_cons; [|exact T]. apply notified_elsewhere. split; discriminate. Qed.

Lemma typed_modify f : (forall s, config (f s) = config s /\ connection (f s) = connection s) -> preserves typed (modify f).
Proof using Type. intros F s t T. apply wp_modify. destruct (F s). exact (typed_state _ _ _ H1 H2 T). Qed.

Definition event_types : list string := ["connected"; "disconnected"; "balanceChanged"; "transactionReceived"; "stakingReward"].

Lemma emitEvent_typed type data : In type event_types -> preserves typed (emitEvent type data).
Proof using Type.
  intros I. apply preserves_bind; [apply typed_now|intros n]. apply preserves_bind; [apply preserves_read|intros cbs].
  apply preserves_for_each. intros cb s t T. apply wp_callback. intros r. apply typed_cons; [|exact T].
  split; cbn; [|discriminate]. intros _. do 2 eexists. split; [reflexivity|].
  cbn in I. repeat (destruct I as [<-|I]; [destruct data; reflexivity|]). destruct I.
Qed.

Lemma notify_typed : preserves typed notifyConnectionCallbacks.
Proof using Type.
  apply preserves_bind; [apply preserves_read|intros cbs]. apply preserves_for_each. intros cb s t T. apply wp_bind, wp_read, wp_callback.
  intros r. apply typed_cons; [|exact T]. split; cbn; [discriminate|]. intros _. do 2 eexists. split; [reflexivity|apply T].
Qed.

Lemma setupWebSocket_typed : preserves typed setupWebSocket.
Proof using Type.
  unfold setupWebSocket. repeat (apply preserves_bind; [|intros]); auto using preserves_read, preserves_lift with preserve.
  - apply typed_ext. split; discriminate.
  - apply typed_modify. auto.
  - apply typed_modify. auto.
Qed.

(** ** Requests *)

Context `{!TypedServer}.

Lemma http_typed verb path rest s t : verb = "get" \/ verb = "post" -> typed s t ->
  wp (http verb (VStr path :: rest)) (fun v s' t' => typed s' t' /\ s' = s /\ conforms (response (endpoint verb path)) v = true)
    (fun _ s' t' => typed s' t' /\ s' = s) s t.
Proof.
  intros V T. assert (elsewhere verb) as O by (destruct V as [-> | ->]; split; discriminate).
  unfold http. apply wp_bind, wp_read, wp_try_catch, wp_ext.
  - intros v R. split; [apply typed_cons; auto using notified_elsewhere|]. split; [reflexivity|]. exact (answers_typed _ _ _ _ _ _ V R).
  - intros e R. set (t1 := Ev verb _ _ :: t). assert (typed s t1) as T1 by (apply typed_cons; auto using notified_elsewhere).
    apply wp_bind. assert (preserves typed (emitEvent "disconnected" (VObj [("reason", VStr "unauthorized")]))) as P
      by (apply emitEvent_typed; cbn; auto).
    wp_step; [|apply wp_ret, wp_throw; auto].
    eapply wp_mono; [..|exact (wp_and _ _ _ _ _ _ _ (P s t1 T1) (emitEvent_silent _ _ s t1))]; cbn beta.
    + intros _ s' t' [T' ->]. apply wp_throw. auto.
    + intros e' s' t' [_ []].
Qed.

Lemma maybe_iff u x : conforms (maybe u) x = true <-> x = VUndef \/ conforms u x = true.
Proof using Type.
  unfold maybe. cbn [conforms]. cbn [existsb]. rewrite orb_false_r, orb_true_iff. split; [|intros [->|C]; auto].
  intros [C|C]; [auto|]. destruct x; try discriminate C. auto.
Qed.

Lemma payload_typed u v s t (Q : jsval -> sdk -> trace -> Prop) E :
  conforms (response u) v = true -> (forall x, conforms (maybe u) x = true -> Q x s t) -> wp (payload v) Q E s t.
Proof using Type.
  intros C K. destruct (get_required _ _ "data" _ C eq_refl) as (body & G & Cb). unfold payload. apply wp_bind. rewrite G. apply wp_lift_ok.
  destruct (get_optional _ _ "data" u Cb eq_refl eq_refl) as (x & Gx & X). rewrite Gx. apply wp_lift_ok, K, maybe_iff, X.
Qed.

Lemma payload_field_typed fs k u v s t (Q : jsval -> sdk -> trace -> Prop) (E : jserr -> sdk -> trace -> Prop) :
  conforms (response (TInterface fs)) v = true -> field_of fs k = Some (false, u) ->
  (forall x, conforms u x = true -> Q x s t) -> (forall e, E e s t) -> wp (payload_field k v) Q E s t.
Proof using Type.
  intros C F K KE. unfold payload_field. apply wp_bind. apply (payload_typed _ _ _ _ _ _ C). intros d Cd. apply wp_lift; intros x G; [|apply KE].
  apply K. apply maybe_iff in Cd as [->|Cd]; [discriminate G|]. destruct (get_required fs d k u Cd F) as (y & Gy & Cy). congruence.
Qed.

(** A request that reads what the server answers under one path. *)
Lemma request_typed verb path rest (k : jsval -> JS sdk jsval) u s t : verb = "get" \/ verb = "post" -> typed s t ->
  (forall v s t, conforms (response (endpoint verb path)) v = true -> wp (k v) (fun x s' t' => s' = s /\ t' = t /\ conforms u x = true) (fun _ s' t' => s' = s /\ t' = t) s t) ->
  wp (let* r := http verb (VStr path :: rest) in k r) (fun x s' t' => typed s' t' /\ s' = s /\ conforms u x = true) (fun _ s' t' => typed s' t' /\ s' = s) s t.
Proof.
  intros V T K. apply wp_bind. eapply wp_mono; [..|exact (http_typed _ _ rest _ _ V T)]; cbn beta; [|auto].
  intros v s' t' (T' & -> & C). eapply wp_mono; [..|exact (K v s t' C)]; cbn beta.
  - intros x ? ? (-> & -> & X). auto.
  - intros e ? ? (-> & ->). auto.
Qed.

Lemma attempted_typed what (m : JS sdk jsval) u s t :
  wp m (fun x s' t' => typed s' t' /\ s' = s /\ conforms u x = true) (fun _ s' t' => typed s' t' /\ s' = s) s t ->
  wp (attempt what m) (fun x s' t' => typed s' t' /\ s' = s /\ conforms u x = true) (fun _ s' t' => typed s' t' /\ s' = s) s t.
Proof using Type. intros W. unfold attempt. apply wp_try_catch. eapply wp_mono; [..|exact W]; cbn beta; [auto|]. intros e s' t' T. apply wp_throw, T. Qed.

Lemma whole_typed verb path u : endpoint verb path = u -> forall v s t, conforms (response (endpoint verb path)) v = true ->
  wp (payload v) (fun x s' t' => s' = s /\ t' = t /\ conforms (maybe u) x = true) (fun _ s' t' => s' = s /\ t' = t) s t.
Proof using Type. intros -> v s t C. apply (payload_typed _ _ _ _ _ _ C). auto. Qed.

Lemma part_typed verb path fs k u : endpoint verb path = TInterface fs -> field_of fs k = Some (false, u) ->
  forall v s t, conforms (response (endpoint verb path)) v = true ->
  wp (payload_field k v) (fun x s' t' => s' = s /\ t' = t /\ conforms u x = true) (fun _ s' t' => s' = s /\ t' = t) s t.
Proof using Type. intros -> F v s t C. apply (payload_field_typed _ _ _ _ _ _ _ _ C F); auto. Qed.

Lemma prefix_empty s : String.prefix EmptyString s = true.
Proof using Type. destruct s; reflexivity. Qed.

Ltac route := first [reflexivity | unfold endpoint, startsWith; cbn; rewrite ?prefix_empty; reflexivity].

Lemma perform_typed r s t : typed s t ->
  wp (perform r) (fun x s' t' => typed s' t' /\ s' = s /\ conforms (returned r) x = true) (fun _ s' t' => typed s' t' /\ s' = s) s t.
Proof.
  intros T. assert (forall m, wp m (fun x s' t' => typed s' t' /\ s' = s /\ conforms (returned r) x = true) (fun _ s' t' => typed s' t' /\ s' = s) s t ->
    wp (guarded m) (fun x s' t' => typed s' t' /\ s' = s /\ conforms (returned r) x = true) (fun _ s' t' => typed s' t' /\ s' = s) s t) as G.
  { intros m W. unfold guarded. apply wp_bind, wp_read. wp_step; [exact W|apply wp_throw; auto]. }
  destruct r; apply G, attempted_typed; unfold post_as; apply wp_bind, wp_read;
    try (apply wp_bind, wp_lift; [intros to _|intros e _; auto]);
    (apply request_typed; [auto|exact T|]);
    first [apply whole_typed; route | eapply part_typed; [route|reflexivity]].
Qed.

Lemma perform_open_typed r s t : plain r -> typed s t ->
  wp (perform_open r) (fun x s' t' => typed s' t' /\ s' = s /\ conforms (maybe (declared_open r)) x = true) (fun _ s' t' => typed s' t' /\ s' = s) s t.
Proof.
  intros P T. destruct r; apply attempted_typed; (apply request_typed; [auto|exact T|]); apply whole_typed; cbn in P;
    unfold endpoint, startsWith in *; cbn; rewrite ?P, ?prefix_empty; reflexivity.
Qed.

Lemma connect_typed : preserves typed connect.
Proof.
  unfold connect. apply preserves_try; [|intros e; apply preserves_throw]. intros s t T. apply wp_bind, wp_read, wp_bind.
  eapply wp_mono; [..|exact (http_typed "post" "/wallet/connect" [VObj [("network", obj_get (config s) "network")]] s t (or_intror eq_refl) T)]; cbn beta;
    [|intros ? ? ? [? _]; assumption].
  intros v s' t' (T' & -> & C). destruct (get_required _ _ "data" _ C eq_refl) as (body & G & Cb). rewrite G. apply wp_bind, wp_lift_ok.
  destruct (get_required _ _ "success" _ Cb eq_refl) as (ok & Gs & _). rewrite Gs. apply wp_bind, wp_lift_ok, wp_bind. wp_step; [|wp_auto; exact T'].
  destruct (get_optional _ _ "data" _ Cb eq_refl eq_refl) as (d & Gd & D). rewrite Gd. apply wp_bind, wp_lift_ok.
  destruct D as [->|D]; [apply wp_bind, wp_lift; [discriminate|intros; exact T']|].
  destruct (get_required _ _ "address" _ D eq_refl) as (a & Ga & A). rewrite Ga. apply wp_bind, wp_lift_ok, wp_bind, wp_modify.
  destruct (get_required _ _ "balance" _ D eq_refl) as (b & Gb & B). replace (get_opt d "balance") with b.
  2: { destruct d; try discriminate D. injection Gb as <-. reflexivity. }
  set (s1 := set_connection _ s). assert (typed s1 t') as T1.
  { destruct T' as [Tc Tn Tt]. split; [exact Tc| |exact Tt]. cbn [connection s1 set_connection].
    destruct (get_optional _ _ "network" _ Tc eq_refl eq_refl) as (n & Gn & N). injection Gn as <-.
    destruct a; try discriminate A. destruct b; try discriminate B. cbn -[obj_get]. destruct N as [->|N]; [reflexivity|].
    assert (exists x, obj_get (config s) "network" = VStr x) as [x ->]; [|reflexivity].
    cbn -[obj_get] in N. destruct (obj_get (config s) "network"); try discriminate N. eauto. }
  refine (preserves_bind typed setupWebSocket _ setupWebSocket_typed (fun _ => preserves_bind typed _ _ notify_typed (fun _ =>
    preserves_bind typed (read connection) _ (preserves_read typed connection) (fun c => emitEvent_typed "connected" c (or_introl eq_refl)))) s1 t' T1).
Qed.

Lemma disconnect_typed : preserves typed disconnect.
Proof using Type.
  unfold disconnect. apply preserves_bind; [|intros _].
  { intros s t [A B C]. apply wp_modify. split; [exact A|reflexivity|exact C]. }
  assert (forall i, preserves typed (modify (close_socket i))) as K.
  { intros i. apply typed_modify. intros s. unfold close_socket. destruct (socket_state s i); auto. }
  assert (forall f, (forall s, config (f s) = config s /\ connection (f s) = connection s) -> preserves typed (modify f)) as M by exact typed_modify.
  assert (preserves typed (emitEvent "disconnected" (VObj []))) by (apply emitEvent_typed; cbn; auto).
  pose proof notify_typed. preserve; auto using preserves_read; apply M; auto.
Qed.

Lemma onMessage_typed text : preserves typed (onMessage text).
Proof using Type.
  unfold onMessage, handleWebSocketEvent. apply preserves_try; [|intros; apply preserves_ret].
  apply preserves_bind; [apply preserves_lift|intros event]. apply preserves_bind; [apply preserves_lift|intros type].
  repeat (match goal with |- preserves _ (if ?b then _ else _) => destruct b end; [apply emitEvent_typed; cbn; tauto|]). apply preserves_ret.
Qed.

Lemma timers_typed : preserves typed setupHeartbeat /\ preserves typed scheduleReconnect /\ preserves typed onHeartbeat /\ preserves typed onReconnect.
Proof using Type.
  assert (forall f, (forall s, config (f s) = config s /\ connection (f s) = connection s) -> preserves typed (modify f)) as M by exact typed_modify.
  pose proof setupWebSocket_typed. unfold setupHeartbeat, scheduleReconnect, onHeartbeat, onReconnect.
  split; [|split; [|split]]; preserve; auto using preserves_read; try (apply M; auto). apply typed_ext. split; discriminate.
Qed.

(** The operations an application performs with addresses that are not paths. *)
Definition runnable (o : op) (s : sdk) : Prop := enabled o s /\ match o with OpOpenRequest r => plain r | _ => True end.

Lemma run_typed o s t : runnable o s -> typed s t -> wp (run o) (fun _ => typed) (fun _ => typed) s t.
Proof.
  intros [_ P] T. destruct timers_typed as (Hb & Sr & Oh & Or).
  assert (forall f, (forall s, config (f s) = config s /\ connection (f s) = connection s) -> preserves typed (modify f)) as M by exact typed_modify.
  destruct o; cbn [run].
  - exact (preserves_bind typed _ _ connect_typed (fun _ => preserves_ret typed tt) s t T).
  - exact (disconnect_typed s t T).
  - refine (M _ _ s t T). auto.
  - refine (M _ _ s t T). auto.
  - apply wp_bind. eapply wp_mono; [..|exact (perform_typed r s t T)]; cbn beta; intros ? ? ? [? _]; assumption.
  - apply wp_bind. eapply wp_mono; [..|exact (perform_open_typed r s t P T)]; cbn beta; intros ? ? ? [? _]; assumption.
  - refine (preserves_bind typed _ _ (M _ _) (fun _ => Hb) s t T). auto.
  - exact (onMessage_typed text s t T).
  - refine (preserves_bind typed _ _ (M _ _) (fun _ => Sr) s t T). auto.
  - exact T.
  - refine (preserves_bind typed _ _ (M _ _) (fun _ => Or) s t T). auto.
  - exact (Oh s t T).
Qed.

(** The networks of the table are [NetworkInfo]s, and a typed configuration
    names one of them. *)
Lemma network_typed cfg : conforms Dapp.WalletConfig (VObj cfg) = true -> conforms Dapp.NetworkInfo (network_of cfg) = true.
Proof using Type.
  intros C. destruct (get_optional _ _ "network" _ C eq_refl eq_refl) as (n & Gn & N). injection Gn as <-. unfold network_of.
  destruct N as [->|N]; [reflexivity|]. destruct (obj_get cfg "network") as [| | | |x| | |]; try discriminate N.
  cbn in N. repeat (apply orb_true_iff in N as [N|N]; [apply String.eqb_eq in N as ->; reflexivity|]). discriminate N.
Qed.

Lemma constructor_typed cfg : NoDup (map fst cfg) -> conforms Dapp.WalletConfig (VObj cfg) = true ->
  exists s, constructor cfg = Ok s /\ typed s [].
Proof using Type.
  intros N C. unfold constructor. cbv zeta. set (c := obj_spread _ cfg).
  assert (conforms Dapp.WalletConfig (VObj c) = true) as Cc by (apply conforms_spread; [reflexivity|exact N|reflexivity|exact C]).
  destruct (get_required _ _ "rpcUrl" _ (network_typed c Cc) eq_refl) as (url & G & _). rewrite G.
  destruct (truthy (obj_get c "rpcUrl")); (eexists; split; [reflexivity|]); (split; [exact Cc|reflexivity|constructor]).
Qed.

End Typed.

(** ** index.ts *)

Module Index.

Definition VERSION : string := "1.0.0".

Definition createShahcoinSDK (config : option (list (string * jsval))) : result sdk :=
  constructor (match config with Some c => c | None => [] end).

Definition entry (chainId : Z) (name rpcUrl explorerUrl shahSwapUrl : string) : jsval :=
  VObj [("chainId", vnum chainId); ("name", VStr name); ("rpcUrl", VStr rpcUrl); ("explorerUrl", VStr explorerUrl); ("shahSwapUrl", VStr shahSwapUrl)].

Definition NETWORKS : list (string * jsval) := [
  ("mainnet", entry 1 "Shahcoin Mainnet" "https://rpc.shah.vip" "https://explorer.shah.vip" "https://swap.shah.vip");
  ("testnet", entry 2 "Shahcoin Testnet" "https://testnet-rpc.shah.vip" "https://testnet-explorer.shah.vip" "https://testnet-swap.shah.vip");
  ("regtest", entry 3 "Shahcoin Regtest" "http://localhost:8332" "http://localhost:3001" "http://localhost:3002")].

End Index.

(** ** A server that reports a failure *)

Definition refusal (msg : string) : jsval := VObj [("data", VObj [("success", VBool false); ("error", VStr msg)])].

Class Refuses `{Env} (msg : string) : Prop := refuses : forall t verb args, verb = "get" \/ verb = "post" -> reply t verb args = Ok (refusal msg).

(** The method returns the data of the answer, not a property of it. *)
Definition whole (r : wallet_request) : bool :=
  match r with GetStakingInfo | ExecuteShahSwap _ | CreateToken _ | CreateNFT _ => true | _ => false end.

Definition wellformed (r : wallet_request) : Prop := match r with SendTransaction params => nullish params = false | _ => True end.

Lemma refused_whole `{Refuses} verb args s t : verb = "get" \/ verb = "post" ->
  wp (let* r := http verb args in payload r) (fun x _ _ => x = VUndef) (fun _ _ _ => False) s t.
Proof.
  intros V. unfold http. apply wp_bind, wp_bind, wp_read, wp_try_catch. eapply wp_ext_ok; [exact (refuses _ _ _ V)|].
  unfold payload. apply wp_bind, wp_lift_ok, wp_lift_ok. reflexivity.
Qed.

Lemma refused_part `{Refuses} verb args k s t : verb = "get" \/ verb = "post" ->
  wp (let* r := http verb args in payload_field k r) (fun _ _ _ => False) (fun e _ _ => e = cannot_read "undefined" k) s t.
Proof.
  intros V. unfold http. apply wp_bind, wp_bind, wp_read, wp_try_catch. eapply wp_ext_ok; [exact (refuses _ _ _ V)|].
  unfold payload_field, payload. apply wp_bind, wp_bind, wp_lift_ok, wp_lift_ok, wp_lift; [discriminate|]. intros e [= <-]. reflexivity.
Qed.

(** ** Theorems *)


(** A server for the witness: every answer carries the data of its endpoint. *)
Definition filled (verb path : string) : list (string * jsval) :=
  if path =? "/wallet/connect" then [("address", VStr "SWallet"); ("balance", vnum 7)]
  else if startsWith path "/wallet/balance/" then [("balance", vnum 7)]
  else [].

Definition answer (verb path : string) : jsval :=
  VObj [("data", VObj (("success", VBool true) :: match filled verb path with [] => [] | d => [("data", VObj d)] end))].

Definition typedWallet : Env := {|
  reply _ op args := match args with _ :: VStr path :: _ => if (op =? "get") || (op =? "post") then Ok (answer op path) else Ok VUndef | _ => Ok VUndef end;
  clock _ := Num.of_Z 1700000000000; random _ := Num.zero |}.
Definition noDates : Dates := fun _ => false.

Lemma typedWallet_typed : TypedServer (H := typedWallet) (H0 := noDates).
Proof.
  intros t verb client path rest v V R. cbn in R. destruct V as [-> | ->]; injection R as <-.
  - unfold answer, filled, endpoint. destruct (path =? "/wallet/connect") eqn:Ec; [apply String.eqb_eq in Ec as ->; reflexivity|].
    destruct (startsWith path "/wallet/balance/"); reflexivity.
  - unfold answer, filled, endpoint. destruct (path =? "/wallet/connect") eqn:Ec; [reflexivity|].
    destruct (startsWith path "/wallet/balance/") eqn:Eb; [|reflexivity].
    apply prefix_spec in Eb as [x ->]. reflexivity.
Qed.

Definition typed_run : sdk * trace :=
  play (run (H := typedWallet)) [OpOn "connected" 1; OpOnConnectionChange 2; OpConnect; OpRequest GetBalance] (sdk0, []).


(** C39: a failure the server reports goes unnoticed: when it answers
    [{success: false, error}] the methods that return the data of the
    answer resolve with [undefined], whatever type they declare and
    whatever the error says, while the methods that return a property of it
    reject with a [TypeError]'s text in place of the server's. *)
Theorem sdk_refusal_unnoticed `{Refuses} s t :
  (forall r, wp (perform_open r) (fun x _ _ => x = VUndef) (fun _ _ _ => False) s t) /\
  (isConnected s = true -> forall r, wellformed r ->
     wp (perform r) (fun x _ _ => whole r = true /\ x = VUndef)
       (fun e _ _ => whole r = false /\ exists k what, e = Error ("Failed to " ++ what ++ ": " ++ err_to_string (cannot_read "undefined" k))) s t).
Proof.
  split.
  - intros []; apply wp_try_catch; (eapply wp_mono; [..|apply refused_whole; auto]); cbn beta; tauto.
  - intros C r P. destruct r; unfold perform, getBalance, getTransactionHistory, sendTransaction, getStakingInfo, stake, executeShahSwap, createToken, createNFT,
      getUserTokens, getUserNFTs, guarded, post_as; (apply wp_bind, wp_read; rewrite C; apply wp_try_catch, wp_bind, wp_read);
      try (apply wp_bind, wp_lift; [intros to _|intros e G; destruct params; discriminate]);
      first [eapply wp_mono; [..|apply refused_whole; auto]; cbn beta; [auto|tauto]
            |eapply wp_mono; [..|apply refused_part; auto]; cbn beta; [tauto|intros e ? ? ->; apply wp_throw; split; [reflexivity|do 2 eexists; reflexivity]]].
Qed.

Definition refusing : Env := {|
  reply _ op _ := Ok (if (op =? "get") || (op =? "post") then refusal "fee service unavailable" else VUndef);
  clock _ := Num.of_Z 1700000000000; random _ := Num.zero |}.

Lemma sdk_refusal_unnoticed_witness :
  wp (getFeeEstimates (H := refusing)) (fun x _ _ => x = VUndef) (fun _ _ _ => False) sdk0 [].
Proof.
  refine (proj1 (sdk_refusal_unnoticed (H := refusing) (msg := "fee service unavailable") sdk0 []) GetFeeEstimates).
  intros t verb args [-> | ->]; reflexivity.
Defined.
