(* ===== verification/RpcTyped.v ===== *)
(** * The RPC client and the packages keep the types they declare

    [SHAHCOINRPCClient] (src/sdk/packages/core/src/rpc/client.ts) against the
    interfaces and error classes of src/sdk/packages/core/src/types.ts: what
    a call returns and throws and what the listeners receive, when the node
    answers with an [RPCResponse].  Then the kinds of wallet and the error
    classes of the wallet, token and NFT packages. *)

From Stdlib Require Import ZArith Bool List String.
From S2P Require Import Prelude JsNum JsVal JsMonad Machine TsTypes SdkTypes RpcClient.
Import ListNotations.
Local Open Scope string_scope.

(** ** Signatures *)

(** What the methods of the client declare for the result of each call. *)
Definition rpc_result (method : string) : ty :=
  if method =? "getbalance" then TNumber
  else if mem_string method ["sendrawtransaction"; "createrawtransaction"; "getnewaddress"] then TString
  else if method =? "getutxos" then TArray TAny
  else TAny.

(** [RPCResponse<T>] of a call that succeeded and of one that failed. *)
Definition succeeded (T : ty) : ty := TInterface [req "result" T; req "error" TNull; req "id" (TUnion [TString; TNumber])].
Definition failed : ty :=
  TInterface [req "result" TAny; req "error" (TInterface [req "code" TNumber; req "message" TString]); req "id" (TUnion [TString; TNumber])].
Definition node_response (method : string) : ty := TInterface [req "data" (TUnion [succeeded (rpc_result method); failed])].

(** An instance of [RPCError]. *)
Definition RPCErrorInstance : ty := TInterface [
  req "name" (TLit "RPCError"); req "message" TString; req "code" (TLit "RPC_ERROR");
  req "details" (TInterface [req "rpcCode" TNumber; req "rpcMessage" TString]); req "rpcCode" TNumber; req "rpcMessage" TString].

(** What code outside the client throws: not an [RPCError], and with a
    number for a status when there is one. *)
Definition foreign (e : jserr) : Prop :=
  e_name e <> "RPCError" /\
  let status := get_opt (obj_get (e_props e) "response") "status" in status = VUndef \/ exists n, status = VNum n.

Class TypedNode `{Env} `{Dates} : Prop := {
  node_answers : forall t url auth id method params v,
    reply t "axios.post" [url; auth; VObj [("jsonrpc", VStr "2.0"); ("id", id); ("method", VStr method); ("params", params)]] = Ok v ->
    conforms (node_response method) v = true;
  outside_throws : forall t op args e, reply t op args = Throw e -> foreign e
}.

Section Typed.
Context `{Env} `{Dates}.

(** A listener of a connection event receives a [ConnectionEvent]. *)
Definition heard (e : event) : Prop := forall name cb payload, ev_op e = "listener" -> ev_args e = [VStr name; cb; payload] ->
  In name ["connected"; "disconnected"; "error"] -> conforms Core.ConnectionEvent payload = true.

Definition all_heard (s : client) (t : trace) : Prop := Forall heard t.

Lemma heard_ext op args : op <> "listener" -> preserves all_heard (ext op args).
Proof using Type. intros N s t K. apply wp_ext; intros; (apply Forall_cons; [|exact K]); intros name cb payload E; cbn in E; congruence. Qed.

Lemma preserves_each {S A} (I : S -> trace -> Prop) (l : list A) f : (forall x, In x l -> preserves I (f x)) -> preserves I (for_each l f).
Proof using Type. induction l as [|x l IH]; intros P; cbn [for_each]; [apply preserves_ret|]. apply preserves_bind; [apply P; left; reflexivity|]. intros _. apply IH. intros y Iy. apply P. right. exact Iy. Qed.

Lemma heard_emit name payload : (In name ["connected"; "disconnected"; "error"] -> conforms Core.ConnectionEvent payload = true) -> preserves all_heard (emit name payload).
Proof using Type.
  intros C s t K. unfold emit. apply wp_bind, wp_read. unfold id. destruct (filter _ (listeners s)) as [|x l] eqn:F.
  - destruct (name =? "error"); [|exact K]. refine (preserves_bind all_heard _ _ (heard_ext _ _ _) (fun _ => preserves_throw _ _) s t K). discriminate.
  - refine (preserves_each all_heard (x :: l) _ _ s t K). intros [n cb] I. rewrite <- F in I. apply filter_In in I as [_ I]. apply String.eqb_eq in I as ->.
    apply preserves_bind; [|intros; apply preserves_ret]. intros s1 t1 K1.
    apply wp_ext; intros; (apply Forall_cons; [|exact K1]); intros name' cb' payload' _ [= <- _ <-]; exact C.
Qed.

Lemma heard_modify f : preserves all_heard (modify f).
Proof using Type. intros s t K. exact K. Qed.

Lemma heard_post payload : preserves all_heard (post payload).
Proof using Type.
  pose proof (fun r => heard_emit "request" r ltac:(cbn; intuition discriminate)) as Er.
  pose proof (heard_emit "connected" (connection_event "connected") (fun _ => eq_refl)) as Ec.
  pose proof (heard_emit "disconnected" (connection_event "disconnected") (fun _ => eq_refl)) as Ed.
  assert (forall e, preserves all_heard (emit "error" (VObj [("type", VStr "error"); ("data", err_obj e)]))) as Ee by (intros e; apply heard_emit; reflexivity).
  pose proof heard_modify. unfold post, onResponse, onFailure, scheduleReconnect. preserve; auto using preserves_read; apply heard_ext; discriminate.
Qed.

Lemma heard_call method params : preserves all_heard (call method params).
Proof using Type. pose proof heard_modify. pose proof heard_post. unfold call. cbv zeta. preserve; auto using preserves_read. Qed.

Lemma heard_run o : preserves all_heard (run o).
Proof using Type.
  pose proof heard_modify. pose proof heard_call. pose proof (fun r => heard_emit "reconnecting" r ltac:(cbn; intuition discriminate)) as Er.
  destruct o; cbn [run]; unfold onTimer, getBlockchainInfo, scheduleReconnect, on, updateConfig, disconnect; preserve; auto using preserves_read.
  all: apply heard_ext; discriminate.
Qed.

(** ** Calls *)

Context `{!TypedNode}.

Lemma foreign_unhandled text payload : foreign (Err "Error" text [("code", VStr "ERR_UNHANDLED_ERROR"); ("context", payload)]).
Proof using Type. split; [discriminate|left; reflexivity]. Qed.

Lemma emit_foreign name payload s t : wp (emit name payload) (fun _ s' _ => s' = s) (fun e s' _ => foreign e) s t.
Proof.
  unfold emit. apply wp_bind, wp_read. unfold id. destruct (filter _ (listeners s)) as [|x l]; [wp_auto; eauto using foreign_unhandled, outside_throws|].
  apply (wp_for_each (x :: l) _ (fun _ s' _ => s' = s) (fun e _ _ => foreign e)); [|reflexivity].
  intros [n cb] l' s' t' ->. wp_auto; eauto using outside_throws.
Qed.

(** What a step of the request throws is thrown by code outside the client. *)
Lemma post_typed id method params s t :
  wp (post (VObj [("jsonrpc", VStr "2.0"); ("id", id); ("method", VStr method); ("params", params)]))
    (fun v _ _ => conforms (node_response method) v = true) (fun e _ _ => foreign e) s t.
Proof.
  unfold post. apply wp_bind, wp_try_catch, wp_bind.
  assert (forall e s t, foreign e -> wp (onFailure e) (fun v _ _ => conforms (node_response method) v = true) (fun e _ _ => foreign e) s t) as Fail.
  { intros e s0 t0 Fe. unfold onFailure. apply wp_bind, wp_modify, wp_bind. eapply wp_mono; [..|apply emit_foreign]; cbn beta; [|auto]. intros _ s1 t1 _.
    apply wp_bind, wp_read, wp_bind. unfold scheduleReconnect. wp_auto; eauto using outside_throws;
      (eapply wp_mono; [..|apply emit_foreign]; cbn beta; [|auto]; intros; apply wp_throw; exact Fe). }
  apply wp_ext; [|intros e R; apply wp_ret, Fail; eauto using outside_throws]. intros request _. apply wp_bind.
  eapply wp_mono; [..|apply emit_foreign]; cbn beta; [|intros e s1 t1 Fe; apply wp_ret, Fail, Fe]. intros _ s1 t1 _. apply wp_bind, wp_read, wp_bind.
  apply wp_ext; [|intros e R; apply wp_ret, Fail; eauto using outside_throws]. intros v R. apply wp_ret. unfold onResponse.
  apply wp_bind, wp_modify, wp_bind, wp_modify, wp_bind. eapply wp_mono; [..|apply emit_foreign]; cbn beta; [|auto]. intros _ s2 t2 _. apply wp_ret.
  exact (node_answers _ _ _ _ _ _ _ R).
Qed.

Lemma instance_made message rpcCode rpcMessage : conforms TNumber rpcCode = true -> conforms TString rpcMessage = true ->
  conforms RPCErrorInstance (err_obj (RPCError message rpcCode rpcMessage)) = true.
Proof using Type. intros C M. destruct rpcCode; try discriminate C. destruct rpcMessage; try discriminate M. reflexivity. Qed.

Lemma status_number e : foreign e -> conforms TNumber (js_or (get_opt (obj_get (e_props e) "response") "status") (vnum (-1))) = true.
Proof using Type. intros [_ [-> | [n ->]]]; [reflexivity|]. unfold js_or. destruct (truthy (VNum n)); reflexivity. Qed.

Lemma call_typed method params s t :
  wp (call method params) (fun v _ _ => conforms (rpc_result method) v = true) (fun e _ _ => conforms RPCErrorInstance (err_obj e) = true) s t.
Proof.
  unfold call. apply wp_bind, wp_modify, wp_bind, wp_read. unfold id. cbv zeta. apply wp_try_catch, wp_bind.
  eapply wp_mono; [..|apply post_typed]; cbn beta.
  - intros v s1 t1 C. destruct (get_required _ _ "data" _ C eq_refl) as (d & G & Cd). rewrite G. apply wp_bind, wp_lift_ok.
    cbn [conforms] in Cd. cbn [existsb] in Cd. rewrite orb_false_r in Cd. apply orb_true_iff in Cd as [Cd|Cd].
    + destruct (interface_object _ _ Cd) as [o ->]. destruct (get_required _ _ "result" _ Cd eq_refl) as (x & Gx & Cx). apply wp_bind.
      change (destructure_of "response.data" (VObj o) "result") with (get (VObj o) "result"). rewrite Gx. apply wp_lift_ok.
      destruct (get_required _ _ "error" _ Cd eq_refl) as (e & Ge & Ce). change (get_opt (VObj o) "error") with (obj_get o "error").
      injection Ge as ->. destruct e; try discriminate Ce. exact Cx.
    + destruct (interface_object _ _ Cd) as [o ->]. destruct (get_required _ _ "result" _ Cd eq_refl) as (x & Gx & _). apply wp_bind.
      change (destructure_of "response.data" (VObj o) "result") with (get (VObj o) "result"). rewrite Gx. apply wp_lift_ok.
      destruct (get_required _ _ "error" _ Cd eq_refl) as (e & Ge & Ce). change (get_opt (VObj o) "error") with (obj_get o "error").
      injection Ge as ->. destruct (interface_object _ _ Ce) as [eo ->]. cbn [truthy].
      destruct (get_required _ _ "code" _ Ce eq_refl) as (c & Gc & Cc), (get_required _ _ "message" _ Ce eq_refl) as (m & Gm & Cm).
      injection Gc as Gc. injection Gm as Gm. apply wp_throw. cbn [e_name RPCError]. apply wp_throw. 
      change (get_opt (VObj eo) "code") with (obj_get eo "code"). change (get_opt (VObj eo) "message") with (obj_get eo "message"). rewrite Gc, Gm.
      apply instance_made; assumption.
  - intros e s1 t1 Fe. destruct (e_name e =? "RPCError") eqn:N; [apply String.eqb_eq in N; destruct (proj1 Fe N)|].
    wp_auto; apply instance_made; try reflexivity. apply status_number, Fe.
Qed.

End Typed.

(** ** Theorems *)


Definition result_of (t : ty) : jsval := match t with TNumber => vnum 7 | TString => VStr "f00d" | TArray _ => VArr [] | _ => VNull end.
Definition typedNode : Env := {|
  reply _ op args :=
    match args with
    | [_; _; VObj [_; _; (_, VStr method); _]] =>
        if op =? "axios.post" then Ok (VObj [("data", VObj [("result", result_of (rpc_result method)); ("error", VNull); ("id", vnum 1)])]) else Ok VUndef
    | _ => Ok VUndef
    end;
  clock _ := Num.zero; random _ := Num.zero |}.
Definition plainDates : Dates := fun _ => false.

Lemma typedNode_typed : TypedNode (H := typedNode) (H0 := plainDates).
Proof.
  split.
  - intros t url auth id method params v [= <-]. unfold node_response, rpc_result.
    repeat match goal with |- context [if ?b then _ else _] => destruct b; [reflexivity|] end. reflexivity.
  - intros t op args e R. cbn in R.
    repeat match type of R with match ?x with _ => _ end = _ => destruct x; try discriminate R | (if ?b then _ else _) = _ => destruct b; discriminate R end.
Qed.

Definition listening : client * trace :=
  fold_left (fun x o => let '(_, s, t) := run (H := typedNode) o (fst x) (snd x) in (s, t))
    [OpOn "connected" 1; OpCall "getbalance" [vnum 1]] (constructor [("host", VStr "localhost"); ("port", vnum 8332)] None VUndef VUndef, []).


(** A wallet of the wallet package is of one kind: every [HDWalletInfo],
    [ImportedWalletInfo] and [WatchOnlyWalletInfo] is a [WalletInfo], and none
    is of two kinds, whatever stands for a date. *)
Theorem wallet_kinds_exclusive `{Dates} v k k' :
  let kinds := [Wallet.HDWalletInfo; Wallet.ImportedWalletInfo; Wallet.WatchOnlyWalletInfo] in
  In k kinds -> In k' kinds -> conforms k v = true -> conforms Wallet.WalletInfo v = true /\ (conforms k' v = true -> k' = k).
Proof.
  intros kinds I I' C. split.
  - apply (assignable_sound k); [|exact C]. revert I. cbn. intuition subst; reflexivity.
  - intros C'. enough (k' = k \/ apart k k' = true) as [E|A]; [exact E|rewrite (apart_sound _ _ _ A C) in C'; discriminate|].
    revert I I'. cbn. intuition subst; auto.
Qed.

Definition stamp : Dates := fun v => strict_eq (get_opt v "epoch") (vnum 1).
Definition watched : jsval := VObj [
  ("id", VStr "w1"); ("name", VStr "cold"); ("type", VStr "watch-only"); ("createdAt", VObj [("epoch", vnum 1)]); ("updatedAt", VObj [("epoch", vnum 1)]);
  ("isEncrypted", VBool false); ("isLocked", VBool false); ("balance", vnum 5); ("unconfirmedBalance", vnum 0); ("addressCount", vnum 1);
  ("addresses", VArr [VStr "SAddr"])].

Lemma wallet_kinds_exclusive_witness :
  conforms (H := stamp) Wallet.WatchOnlyWalletInfo watched = true /\ conforms (H := stamp) Wallet.WalletInfo watched = true.
Proof.
  split; [reflexivity|]. refine (proj1 (wallet_kinds_exclusive (H := stamp) watched Wallet.WatchOnlyWalletInfo Wallet.WatchOnlyWalletInfo _ _ _)); cbn; auto.
Defined.

Definition coded : list (string * string * (string -> jsval -> jserr)) := Wallet.coded ++ Tokens.coded ++ Nfts.coded.

(** The code of an error tells its class, across the three packages, and the
    message and the details are those given. *)
Theorem error_codes_identify name code make name' code' make' message details :
  In (name, code, make) coded -> In (name', code', make') coded ->
  let e := make message details in
  e_name e = name /\ e_msg e = message /\ e_props e = [("code", VStr code); ("details", details)] /\
  (obj_get (e_props (make' message details)) "code" = obj_get (e_props e) "code" -> name' = name).
Proof.
  intros I I'. cbn in I. repeat (destruct I as [[= <- <- <-]|I]; [repeat (split; [reflexivity|]); cbn in I' |- *;
    repeat (destruct I' as [[= <- <- <-]|I']; [first [reflexivity|discriminate]|]); destruct I'|]). destruct I.
Qed.

Lemma rpc_error_class message rpcCode rpcMessage : RpcClient.RPCError message rpcCode rpcMessage = Core.RPCError message rpcCode rpcMessage.
Proof. reflexivity. Qed.
