(* ===== verification/Upgrade.v ===== *)
(** * AI wallet upgrades

    The server handlers of src/shah-wallet-dashboard/api (checkout, monthly
    subscription, price, Stripe webhook) and of src/api/email, the price and
    balance watchers of src/web/lib, and the upgrade and purchase views
    UpgradeAIWallet.tsx, UpgradeAIWallet.vue and BuyShah.tsx of
    src/web/components.  Stripe, the request stream, the callbacks of the
    parent component and the wallet are the environment. *)

From Stdlib Require Import ZArith Bool Lia List String.
From S2P Require Import Prelude JsNum JsNumFacts JsVal JsMonad Machine.
Import ListNotations.
Local Open Scope string_scope.

(** ** Server handlers *)

(** A response: the headers set and what was sent, the last first. *)
Record response : Type := Response { headers : list (string * string); sent : list (Z * jsval) }.

Definition fresh_response : response := Response [] [].

(** [res.setHeader(k, v)] and [res.status(c).json(b)]; [send] and [end] send
    a text. *)
Definition setHeader (k v : string) : JS response unit :=
  modify (fun r => Response ((k, v) :: headers r) (sent r)).
Definition status_json (c : Z) (b : jsval) : JS response unit :=
  modify (fun r => Response (headers r) ((c, b) :: sent r)).

Definition error_body (v : jsval) : jsval := VObj [("error", v)].

(** The environment variables of the service; an unset one is empty. *)
Record settings : Type := Settings {
  STRIPE_SECRET_KEY : string;
  STRIPE_WEBHOOK_SECRET : string;
  STRIPE_PRICE_ID : string;
  CHECKOUT_SUCCESS_URL : string;
  CHECKOUT_CANCEL_URL : string;
  SUBS_SUCCESS_URL : string;
  SUBS_CANCEL_URL : string
}.

Definition or_default (s d : string) : string := if s =? EmptyString then d else s.

(** What both checkout handlers take from the body. *)
Definition body_of (req : jsval) : jsval := js_or (get_opt req "body") (VObj []).

Definition success_url (body : jsval) (dflt : string) : jsval :=
  js_add (js_or (get_opt body "successUrl") (VStr dflt)) (VStr "?session_id={CHECKOUT_SESSION_ID}").

Definition session_metadata (type : string) (body : jsval) : jsval :=
  VObj [("type", VStr type); ("wallet", js_or (get_opt body "wallet") (VStr EmptyString))].

Definition upgrade_session (cfg : settings) (body : jsval) : jsval :=
  VObj [("mode", VStr "payment"); ("submit_type", VStr "pay");
        ("line_items", VArr [VObj [("quantity", vnum 1);
           ("price_data", VObj [("currency", VStr "usd"); ("unit_amount", vnum 999);
              ("product_data", VObj [("name", VStr "AI Wallet Upgrade");
                 ("description", VStr "One-time upgrade to Premium AI Wallet access")])])]]);
        ("allow_promotion_codes", VBool false);
        ("success_url", success_url body (or_default (CHECKOUT_SUCCESS_URL cfg) "https://shahcoin.app/upgrade/success"));
        ("cancel_url", js_or (get_opt body "cancelUrl")
           (VStr (or_default (CHECKOUT_CANCEL_URL cfg) "https://shahcoin.app/upgrade/cancel")));
        ("metadata", session_metadata "ai_wallet_upgrade" body)].

Definition subscription_items (cfg : settings) : list jsval :=
  if STRIPE_PRICE_ID cfg =? EmptyString then
    [VObj [("quantity", vnum 1);
           ("price_data", VObj [("currency", VStr "usd"); ("recurring", VObj [("interval", VStr "month")]);
              ("unit_amount", vnum 499); ("product_data", VObj [("name", VStr "AI Wallet Subscription (Monthly)")])])]]
  else [VObj [("quantity", vnum 1); ("price", VStr (STRIPE_PRICE_ID cfg))]].

Definition subscription_session (cfg : settings) (body : jsval) : jsval :=
  VObj [("mode", VStr "subscription"); ("line_items", VArr (subscription_items cfg));
        ("success_url", success_url body (or_default (SUBS_SUCCESS_URL cfg) "https://shahcoin.app/sub/success"));
        ("cancel_url", js_or (get_opt body "cancelUrl") (VStr (or_default (SUBS_CANCEL_URL cfg) "https://shahcoin.app/sub/cancel")));
        ("metadata", session_metadata "ai_wallet_subscription" body)].

(** [PREMIUM_PRICE_USD], and the amount rounded to four decimals. *)
Definition PREMIUM_PRICE_USD : num := Num.dec 999 2.
Definition round4 (x : num) : num := Num.div (Num.round (Num.mul x (Num.of_Z 10000))) (Num.of_Z 10000).

Definition pickPrice (a b : option num) (fallback : num) : num :=
  let usable x := match x with Some v => if truthy (VNum v) && Num.gtb v Num.zero then Some v else None | None => None end in
  match usable a with
  | Some v => v
  | None => match usable b with Some v => v | None => fallback end
  end.

(** The two sources; both return no price. *)
Definition getFromShahSwap : option num * option num := (None, None).
Definition getFromGeckoTerminal : option num * option num := (None, None).

Section Handlers.
Context `{Env} (cfg : settings).
Notation JS := (JS response).

Definition not_allowed (answer : jsval) : JS unit := setHeader "Allow" "POST" ;;; status_json 405 answer.

(** The Stripe call and the answers of both checkout handlers. *)
Definition open_session (session : jsval) : JS unit :=
  let* s := ext "stripe.checkout.sessions.create" [session] in
  let* url := lift (get s "url") in
  status_json 200 (VObj [("url", url); ("id", get_opt s "id")]).

Definition failed (dflt : string) (e : jserr) : JS unit :=
  status_json 500 (error_body (js_or (VStr (e_msg e)) (VStr dflt))).

(** api/upgrade/checkout.ts *)
Definition checkout (req : jsval) : JS unit :=
  if negb (is_str (get_opt req "method") "POST") then not_allowed (error_body (VStr "Method Not Allowed"))
  else try_catch
    (let body := body_of req in
     if STRIPE_SECRET_KEY cfg =? EmptyString then status_json 500 (error_body (VStr "Stripe not configured"))
     else open_session (upgrade_session cfg body))
    (failed "Checkout error").

(** api/upgrade/subscribe.ts *)
Definition subscribe (req : jsval) : JS unit :=
  if negb (is_str (get_opt req "method") "POST") then not_allowed (error_body (VStr "Method Not Allowed"))
  else if STRIPE_SECRET_KEY cfg =? EmptyString then status_json 500 (error_body (VStr "Stripe not configured"))
  else try_catch (open_session (subscription_session cfg (body_of req))) (failed "Subscribe error").

(** api/upgrade/price.ts *)
Definition price (req : jsval) : JS unit :=
  try_catch
    (let '(shah1, token1) := getFromShahSwap in
     let '(shah2, token2) := getFromGeckoTerminal in
     let usdPrice := pickPrice shah1 shah2 (Num.dec 10 2) in
     let usdPriceToken := pickPrice token1 token2 usdPrice in
     status_json 200 (VObj
       [("usdPrice", VNum usdPrice); ("requiredShah", VNum (round4 (Num.div PREMIUM_PRICE_USD usdPrice)));
        ("requiredShahToken", VNum (round4 (Num.div PREMIUM_PRICE_USD usdPriceToken)))]))
    (failed "oracle-error").

(** *** The webhook *)

(** What a request stream delivers. *)
Inductive stream_event : Type := Data (chunk : string) | End | Fail (e : jserr).

(** [buffer(readable)]: settled by the first [end] or [error], pending without. *)
Fixpoint buffer (chunks : string) (events : list stream_event) : option (result string) :=
  match events with
  | [] => None
  | Data c :: l => buffer (chunks ++ c) l
  | End :: _ => Some (Ok chunks)
  | Fail e :: _ => Some (Throw e)
  end.

Definition acknowledge (event : jsval) : JS unit :=
  try_catch
    (let* type := lift (get event "type") in
     (if is_str type "checkout.session.completed" then
        let* data := lift (get event "data") in
        let* session := lift (get data "object") in
        let* _ := lift (get session "metadata") in
        ret tt
      else ret tt) ;;;
     status_json 200 (VObj [("received", VBool true)]))
    (failed "webhook-error").

(** api/webhook/stripe.ts, once the body has settled. *)
Definition webhook (req : jsval) (body : result string) : JS unit :=
  if negb (is_str (get_opt req "method") "POST") then not_allowed (VStr "Method Not Allowed")
  else if STRIPE_WEBHOOK_SECRET cfg =? EmptyString then status_json 500 (VStr "Webhook not configured")
  else
    let* buf := lift body in
    let* hs := lift (get req "headers") in
    let* sig := lift (get hs "stripe-signature") in
    let* event := try_catch
      (let* v := ext "stripe.webhooks.constructEvent" [VStr buf; sig; VStr (STRIPE_WEBHOOK_SECRET cfg)] in ret (Some v))
      (fun err => status_json 400 (VStr ("Webhook Error: " ++ e_msg err)) ;;; ret None) in
    match event with
    | Some ev => acknowledge ev
    | None => ret tt
    end.

(** api/email/payment-confirmation.js; the text of the mail is built and
    dropped. *)
Definition confirmation_fields : list string := ["email"; "plan"; "amount"; "method"; "date"; "tx_id"].

Definition payment_confirmation (req : jsval) : JS unit :=
  try_catch
    (let* body := lift (get req "body") in
     let* _ := lift (destructure_of "req.body" body "email") in
     if existsb (fun k => negb (truthy (get_opt body k))) confirmation_fields
     then status_json 400 (VObj [("success", VBool false); ("error", VStr "Missing required fields")])
     else status_json 200 (VObj [("success", VBool true); ("message", VStr "Payment confirmation email sent successfully");
                                 ("transactionId", get_opt body "tx_id")]))
    (fun _ => status_json 500 (VObj [("success", VBool false); ("error", VStr "Failed to send payment confirmation email")])).

End Handlers.

(** ** Watchers

    [PriceOracle] and [AIBalanceChecker] poll a value and report its changes.
    The interval of the platform is part of the state: [intervals] are the
    running ones, [timer] the one the object holds. *)

Record watcher : Type := Watcher {
  timer : option nat;
  last : jsval;
  intervals : list nat;
  nextId : nat
}.

Definition watcher0 : watcher := Watcher None VUndef [] 0.

Definition set_last (v : jsval) (w : watcher) : watcher := Watcher (timer w) v (intervals w) (nextId w).

(** The dependencies and the handler of a watcher. *)
Record watch_config : Type := WatchConfig { thresholdUsd : jsval; listening : bool }.

Section Watchers.
Context `{Env} (deps : watch_config).
Notation JS := (JS watcher).

Definition stop : JS unit :=
  modify (fun w => Watcher None (last w)
    (match timer w with Some i => filter (fun j => negb (j =? i)%nat) (intervals w) | None => intervals w end) (nextId w)).

(** PriceOracle.refresh; the handler is called when there is one. *)
Definition price_refresh : JS unit :=
  let* v := ext "deps.getPrice" [] in
  let* old := read last in
  if js_gt v (vnum 0) && negb (strict_eq old v) then
    modify (set_last v) ;;;
    if listening deps then ext "onPrice" [v] ;;; ret tt else ret tt
  else ret tt.

(** AIBalanceChecker.refresh *)
Definition balance_refresh : JS unit :=
  let threshold := js_coalesce (thresholdUsd deps) (vnum 10) in
  let* usd := ext "deps.getWalletUsd" [] in
  let isFree := js_ge usd threshold in
  let* old := read last in
  if negb (strict_eq old (VBool isFree)) then
    modify (set_last (VBool isFree)) ;;;
    if listening deps then ext "onChange" [VBool isFree; usd] ;;; ret tt else ret tt
  else ret tt.

(** [start] of both classes: a new interval, and a first [refresh]. *)
Definition start (refresh : JS unit) : JS unit :=
  stop ;;;
  modify (fun w => Watcher (Some (nextId w)) (last w) (nextId w :: intervals w) (S (nextId w))) ;;;
  refresh.

Definition price_start : JS unit := start price_refresh.
Definition balance_start : JS unit := start balance_refresh.

Inductive watch_op : Type := Start | Stop | Refresh | Tick (i : nat).

Definition watch_enabled (o : watch_op) (w : watcher) : Prop :=
  match o with Tick i => In i (intervals w) | _ => True end.

Definition watch_run (refresh : JS unit) (o : watch_op) : JS unit :=
  match o with
  | Start => start refresh
  | Stop => stop
  | Refresh | Tick _ => refresh
  end.

End Watchers.

(** ** Upgrade and purchase views *)

(** The amount of SHAH for the premium price: UpgradeAIWallet.tsx. *)
Definition tsx_shahAmount (usdPerShah premiumPriceUsd : num) : num :=
  if Num.leb usdPerShah Num.zero then Num.zero else round4 (Num.div premiumPriceUsd usdPerShah).

(** UpgradeAIWallet.vue, for SHAH and for the token. *)
Definition vue_amount (usdPer : option num) (premiumPriceUsd : num) : num :=
  let price := match usdPer with Some p => p | None => Num.zero end in
  if Num.leb price Num.zero then Num.zero else round4 (Num.div premiumPriceUsd price).

(** [usdPerShah.value && usdPerShah.value > 0 ? ... : 'N/A']. *)
Definition vue_label (usdPer : option num) (premiumPriceUsd : num) (symbol : string) : string :=
  match usdPer with
  | Some p => if truthy (VNum p) && Num.gtb p Num.zero
              then Num.to_fixed (vue_amount usdPer premiumPriceUsd) 4 ++ " " ++ symbol else "N/A"
  | None => "N/A"
  end.

Inductive method : Type := SHAH | SHAHtoken | Stripe.
Definition method_name (m : method) : string := match m with SHAH => "SHAH" | SHAHtoken => "SHAHtoken" | Stripe => "Stripe" end.

(** The state of a view. *)
Record view : Type := View { chosen : method; loading : bool; message : string; success : bool; amountUsd : num; delayed : nat }.

Definition set_chosen (m : method) (v : view) : view := View m (loading v) (message v) (success v) (amountUsd v) (delayed v).
Definition set_loading (b : bool) (v : view) : view := View (chosen v) b (message v) (success v) (amountUsd v) (delayed v).
Definition set_message (m : string) (v : view) : view := View (chosen v) (loading v) m (success v) (amountUsd v) (delayed v).
Definition set_success (b : bool) (v : view) : view := View (chosen v) (loading v) (message v) b (amountUsd v) (delayed v).
Definition set_delayed (n : nat) (v : view) : view := View (chosen v) (loading v) (message v) (success v) (amountUsd v) n.

Definition view0 : view := View SHAH false EmptyString false (Num.of_Z 25) 0.

(** The properties of UpgradeAIWallet.vue. *)
Record vue_props : Type := VueProps {
  p_usdPerShah : option num; p_usdPerShahToken : option num; p_premium : num; p_symbol : string; p_stripeUrl : string }.

Section Views.
Context `{Env}.
Notation JS := (JS view).

Definition or_text (v : jsval) (d : string) : string := to_str (js_coalesce v (VStr d)).

(** What [onConfirm] of the React view and [onBuy] of the purchase view do
    with the answer of the parent: [what] is the field of the receipt. *)
Definition settle (ok bad what : string) (call : JS jsval) : JS unit :=
  try_finally
    (try_catch
      (let* res := call in
       let* done := lift (get res "success") in
       if truthy done then modify (set_message (ok ++ or_text (get_opt res what) "N/A"))
       else modify (set_message (bad ++ or_text (get_opt res "error") "Unknown error")))
      (fun e => modify (set_message (bad ++ e_msg e))))
    (modify (set_loading false)).

(** UpgradeAIWallet.tsx *)
Definition onConfirm (usdPerShah premiumPriceUsd : num) : JS unit :=
  modify (set_loading true) ;;;
  modify (set_message "Processing payment…") ;;;
  settle "Success! Receipt/TX: " "Payment failed: " "receipt"
    (let* m := read chosen in
     ext "onUpgrade" [VStr (method_name m); VNum (tsx_shahAmount usdPerShah premiumPriceUsd)]).

(** BuyShah.tsx *)
Definition est4 (usd usdPerShah : num) : num :=
  round4 (if Num.gtb usdPerShah Num.zero then Num.div usd usdPerShah else Num.zero).

Definition onBuy : JS unit :=
  modify (set_loading true) ;;;
  modify (set_message "Processing Stripe payment…") ;;;
  settle "Success! Deposit TX: " "Failed: " "txid"
    (let* usd := read amountUsd in ext "onStripePay" [VNum usd]).

(** UpgradeAIWallet.vue *)
Definition canConfirm (p : vue_props) (m : method) : bool :=
  let positive x := Num.gtb (match x with Some v => v | None => Num.zero end) Num.zero in
  match m with
  | SHAH => positive (p_usdPerShah p)
  | SHAHtoken => positive (p_usdPerShahToken p)
  | Stripe => true
  end.

Definition vue_onConfirm (p : vue_props) : JS unit :=
  modify (set_loading true) ;;;
  modify (set_message "Processing…") ;;;
  modify (set_success false) ;;;
  try_finally
    (try_catch
      (let* m := read chosen in
       match m with
       | Stripe =>
           if p_stripeUrl p =? EmptyString then
             ext "emit" [VStr "stripe"] ;;; modify (set_message "Opening Stripe Checkout…")
           else ext "window.location" [VStr (p_stripeUrl p)] ;;; ret tt
       | SHAH =>
           let amount := vue_amount (p_usdPerShah p) (p_premium p) in
           ext "emit" [VStr "upgrade"; VObj [("method", VStr "SHAH"); ("amount", VNum amount); ("currency", VStr "SHAH")]] ;;;
           modify (set_message ("Requesting wallet payment: " ++ Num.to_fixed amount 4 ++ " SHAH…")) ;;;
           modify (fun v => set_delayed (S (delayed v)) v)
       | SHAHtoken =>
           let amount := vue_amount (p_usdPerShahToken p) (p_premium p) in
           ext "emit" [VStr "upgrade"; VObj [("method", VStr "SHAHtoken"); ("amount", VNum amount); ("currency", VStr "SHAHtoken")]] ;;;
           modify (set_message ("Requesting wallet payment: " ++ Num.to_fixed amount 4 ++ " " ++ p_symbol p ++ "…")) ;;;
           modify (fun v => set_delayed (S (delayed v)) v)
       end)
      (fun e => modify (set_message ("Error: " ++ e_msg e))))
    (modify (set_loading false)).

(** The callback set 800 ms before. *)
Definition onDelay : JS unit :=
  modify (fun v => set_delayed (pred (delayed v)) v) ;;;
  modify (set_success true) ;;; modify (set_message "✅ Upgrade complete!").

End Views.

(** ** Facts *)

(** The answer to the outcome of the Stripe call. *)
Definition session_answer (dflt : string) (outcome : result jsval) : Z * jsval :=
  match outcome with
  | Ok s => match get s "url" with
            | Ok url => (200%Z, VObj [("url", url); ("id", get_opt s "id")])
            | Throw e => (500%Z, error_body (js_or (VStr (e_msg e)) (VStr dflt)))
            end
  | Throw e => (500%Z, error_body (js_or (VStr (e_msg e)) (VStr dflt)))
  end.

Lemma open_session_answers `{Env} dflt session r t :
  try_catch (open_session session) (failed dflt) r t =
  (Ok tt, Response (headers r) (session_answer dflt (reply t "stripe.checkout.sessions.create" [session]) :: sent r),
   Ev "stripe.checkout.sessions.create" [session] (reply t "stripe.checkout.sessions.create" [session]) :: t).
Proof.
  unfold try_catch, open_session, bind, ext, lift, status_json, failed, modify, session_answer.
  destruct (reply t _ _) as [s|e]; [|reflexivity]. destruct (get s "url"); reflexivity.
Qed.

(** *** The watchers *)

(** One interval at most runs, and it is the one the object would clear. *)
Definition single (w : watcher) : Prop := intervals w = match timer w with Some i => [i] | None => [] end.

Lemma stop_single `{Env} w t (Q : unit -> watcher -> trace -> Prop) E :
  single w -> Q tt (Watcher None (last w) [] (nextId w)) t -> wp stop Q E w t.
Proof.
  unfold single. intros S HQ. apply wp_modify. rewrite S. destruct (timer w) as [i|]; [|exact HQ].
  cbn. rewrite Nat.eqb_refl. exact HQ.
Qed.

(** What a handler was told, the last first. *)
Definition told (op : string) (t : trace) : list jsval :=
  flat_map (fun e => if ev_op e =? op then match ev_args e with v :: _ => [v] | [] => [] end else []) t.

(** Neighbours differ, and the latest is the one the watcher remembers. *)
Fixpoint changing (l : list jsval) : Prop :=
  match l with
  | v :: (w :: _) as l' => strict_eq w v = false /\ changing l'
  | _ => True
  end.

Definition reported (ok : jsval -> Prop) (op : string) (w : watcher) (t : trace) : Prop :=
  single w /\ changing (told op t) /\ Forall ok (told op t) /\ last w = hd VUndef (told op t).

Lemma reported_more ok op v args r w t :
  ok v -> strict_eq (last w) v = false -> reported ok op w t -> reported ok op (set_last v w) (Ev op (v :: args) r :: t).
Proof.
  intros Hv D (S & C & F & L). unfold reported, told. cbn [flat_map ev_op ev_args]. rewrite String.eqb_refl. cbn [app].
  change (flat_map _ t) with (told op t). repeat split; [exact S| |constructor; assumption].
  destruct (told op t) as [|u l]; cbn; [exact I|]. cbn in L. rewrite L in D. auto.
Qed.

Lemma reported_other ok op x args r w t : (x =? op) = false -> reported ok op w t -> reported ok op w (Ev x args r :: t).
Proof. intros D R. unfold reported, told in *. cbn [flat_map ev_op]. rewrite D. exact R. Qed.

Lemma price_refresh_reports `{Env} deps w t :
  listening deps = true -> reported (fun v => js_gt v (vnum 0) = true) "onPrice" w t ->
  wp (price_refresh deps) (fun _ => reported (fun v => js_gt v (vnum 0) = true) "onPrice")
    (fun _ => reported (fun v => js_gt v (vnum 0) = true) "onPrice") w t.
Proof.
  intros L R. unfold price_refresh. rewrite L. apply wp_bind, wp_ext; intros v Ev1; [|apply reported_other; auto].
  pose proof (reported_other _ "onPrice" "deps.getPrice" [] (Ok v) w t eq_refl R) as R1.
  apply wp_bind, wp_read. destruct (js_gt v (vnum 0)) eqn:G; cbn [andb]; [|apply wp_ret; exact R1].
  destruct (strict_eq (last w) v) eqn:D; cbn [negb]; [apply wp_ret; exact R1|].
  apply wp_bind, wp_modify, wp_bind, wp_ext; intros; [apply wp_ret|]; apply reported_more; auto.
Qed.

Definition is_bool (v : jsval) : Prop := exists b, v = VBool b.

Lemma balance_refresh_reports `{Env} deps w t :
  listening deps = true -> reported is_bool "onChange" w t ->
  wp (balance_refresh deps) (fun _ => reported is_bool "onChange") (fun _ => reported is_bool "onChange") w t.
Proof.
  intros L R. unfold balance_refresh. rewrite L. apply wp_bind, wp_ext; intros v Ev1; [|apply reported_other; auto].
  pose proof (reported_other _ "onChange" "deps.getWalletUsd" [] (Ok v) w t eq_refl R) as R1.
  apply wp_bind, wp_read. destruct (strict_eq (last w) _) eqn:D; cbn [negb]; [apply wp_ret; exact R1|].
  apply wp_bind, wp_modify, wp_bind, wp_ext; intros; [apply wp_ret|]; apply reported_more; auto; eexists; reflexivity.
Qed.

(** Starting and stopping keep the reports right, for both classes. *)
Lemma watch_reports `{Env} refresh ok op :
  (forall w t, reported ok op w t -> wp refresh (fun _ => reported ok op) (fun _ => reported ok op) w t) ->
  forall o w t, watch_enabled o w -> reported ok op w t ->
  wp (watch_run refresh o) (fun _ => reported ok op) (fun _ => reported ok op) w t.
Proof.
  intros HR o w t He R. destruct R as (S & C & F & L). destruct o; cbn [watch_run].
  - unfold start. apply wp_bind, stop_single; [exact S|]. apply wp_bind, wp_modify, HR. repeat split; assumption.
  - apply stop_single; [exact S|]. repeat split; assumption.
  - apply HR. repeat split; assumption.
  - apply HR. repeat split; assumption.
Qed.

(** The values told to [onChange] alternate. *)
Fixpoint alternating (l : list jsval) : Prop :=
  match l with
  | VBool a :: (VBool b :: _) as l' => a = negb b /\ alternating l'
  | [VBool _] | [] => True
  | _ => False
  end.

Lemma changing_alternates l : Forall is_bool l -> changing l -> alternating l.
Proof.
  induction l as [|v l IH]; intros F C; [exact I|]. inversion F as [|? ? [b ->] F']; subst.
  destruct l as [|u l]; [exact I|]. inversion F' as [|? ? [c ->] _]; subst. destruct C as [D C].
  split; [|apply IH; assumption]. cbn in D. destruct b, c; reflexivity || discriminate D.
Qed.

(** A market and a wallet that move at every call, for the witnesses. *)
Definition moving : Env := {|
  reply t op _ := Ok (vnum (Z.of_nat (List.length t) + 1));
  clock _ := Num.zero; random _ := Num.zero |}.

Definition watching : watch_config := WatchConfig (vnum 2) true.

Definition price_walk : watcher * trace :=
  let go := after_op (watch_run (price_refresh (H := moving) watching)) in go Stop (go (Tick 0) (go Start (watcher0, []))).
Definition balance_walk : watcher * trace :=
  let go := after_op (watch_run (balance_refresh (H := moving) watching)) in go Stop (go (Tick 0) (go Start (watcher0, []))).

Lemma price_walk_steps : steps (machine_step (watch_run (price_refresh (H := moving) watching)) watch_enabled) (watcher0, []) (fst price_walk, snd price_walk).
Proof.
  rewrite <- surjective_pairing. unfold price_walk.
  eapply steps_trans; [|apply steps_one, after_op_step; exact I].
  eapply steps_trans; [|apply steps_one, after_op_step; vm_compute; auto].
  apply steps_one, after_op_step. exact I.
Qed.

Lemma balance_walk_steps : steps (machine_step (watch_run (balance_refresh (H := moving) watching)) watch_enabled) (watcher0, []) (fst balance_walk, snd balance_walk).
Proof.
  rewrite <- surjective_pairing. unfold balance_walk.
  eapply steps_trans; [|apply steps_one, after_op_step; exact I].
  eapply steps_trans; [|apply steps_one, after_op_step; vm_compute; auto].
  apply steps_one, after_op_step. exact I.
Qed.

(** The answer of the parent, and the view it leads to. *)
Definition settled (ok bad what : string) (outcome : result jsval) : string :=
  match outcome with
  | Ok res => match get res "success" with
              | Ok done => if truthy done then ok ++ or_text (get_opt res what) "N/A"
                           else bad ++ or_text (get_opt res "error") "Unknown error"
              | Throw e => bad ++ e_msg e
              end
  | Throw e => bad ++ e_msg e
  end.

Lemma settle_spec `{Env} ok bad what call v t r t' :
  call v t = (r, v, t') ->
  settle ok bad what call v t = (Ok tt, set_loading false (set_message (settled ok bad what r) v), t').
Proof.
  intros E. unfold settle, try_finally, try_catch, bind, lift, modify, settled. rewrite E.
  destruct r as [res|e]; [|reflexivity]. destruct (get res "success") as [done|e]; [|reflexivity].
  destruct (truthy done); reflexivity.
Qed.

(** ** Theorems *)

(** An upgrade and a subscription are sold for the advertised price: a
    [POST] with Stripe configured asks Stripe once, for the session with the
    amount and the wallet of the request, and gives the caller Stripe's
    session or the error; any other request is refused without asking
    Stripe.  Every request is answered once. *)
Theorem checkout_handlers_sell_once `{Env} cfg req t :
  let posted := is_str (get_opt req "method") "POST" in
  let keyed := negb (STRIPE_SECRET_KEY cfg =? EmptyString) in
  let answer session dflt :=
    if posted && keyed
    then (Ok tt, Response [] [session_answer dflt (reply t "stripe.checkout.sessions.create" [session])],
          Ev "stripe.checkout.sessions.create" [session] (reply t "stripe.checkout.sessions.create" [session]) :: t)
    else if posted then (Ok tt, Response [] [(500%Z, error_body (VStr "Stripe not configured"))], t)
    else (Ok tt, Response [("Allow", "POST")] [(405%Z, error_body (VStr "Method Not Allowed"))], t) in
  checkout cfg req fresh_response t = answer (upgrade_session cfg (body_of req)) "Checkout error" /\
  subscribe cfg req fresh_response t = answer (subscription_session cfg (body_of req)) "Subscribe error".
Proof.
  intros posted keyed answer. unfold checkout, subscribe, answer, posted, keyed.
  destruct (is_str _ "POST"); cbn [negb andb]; [|split; reflexivity].
  destruct (STRIPE_SECRET_KEY cfg =? EmptyString); cbn [negb]; [split; reflexivity|].
  split; apply (open_session_answers _ _ fresh_response).
Qed.

(** The webhook acknowledges only what Stripe's signature check accepts:
    an answer 200 means that the body and its signature were verified with
    the configured secret; a request whose body cannot be read is never
    answered, every other one is answered once. *)
Theorem webhook_acknowledges_verified `{Env} cfg req body t :
  wp (webhook cfg req body)
    (fun _ r t' => exists c b, sent r = [(c, b)] /\
       (c = 200%Z -> exists buf sig ev, body = Ok buf /\ STRIPE_WEBHOOK_SECRET cfg <> EmptyString /\
          t' = Ev "stripe.webhooks.constructEvent" [VStr buf; sig; VStr (STRIPE_WEBHOOK_SECRET cfg)] (Ok ev) :: t))
    (fun e r t' => r = fresh_response /\ t' = t /\ (body = Throw e \/ nullish (get_opt req "headers") = true)) fresh_response t.
Proof.
  unfold webhook, not_allowed, setHeader, status_json. wp_step; [wp_auto; do 2 eexists; split; [reflexivity|discriminate]|].
  wp_step; [wp_auto; do 2 eexists; split; [reflexivity|discriminate]|].
  apply wp_bind. destruct body as [buf|e]; [apply wp_lift_ok|apply wp_lift; [discriminate|intros ? [= ->]; auto]].
  apply wp_bind, wp_lift; [intros hs Hh|intros e He; repeat split; right; destruct req; try discriminate; reflexivity].
  apply wp_bind, wp_lift; [intros sig Hsig|intros e He; repeat split; right; rewrite (get_opt_ok _ _ _ Hh); destruct hs; try discriminate; reflexivity].
  apply wp_bind, wp_try_catch, wp_bind, wp_ext; [intros ev R|intros e R; wp_auto; do 2 eexists; split; [reflexivity|discriminate]].
  apply wp_ret. unfold acknowledge, failed, status_json.
  wp_auto; do 2 eexists; (split; [reflexivity|]); intros; try discriminate; do 3 eexists; (split; [reflexivity|]); (split; [|reflexivity]);
    apply String.eqb_neq; assumption.
Qed.

(** A price watcher reports only positive prices and only changes, one
    after the other, along every run of starting, stopping, refreshing and
    timer ticks; and it never has more than one timer. *)
Theorem price_watch_reports `{Env} deps w t :
  listening deps = true ->
  steps (machine_step (watch_run (price_refresh deps)) watch_enabled) (watcher0, []) (w, t) ->
  Forall (fun v => js_gt v (vnum 0) = true) (told "onPrice" t) /\ changing (told "onPrice" t) /\
  intervals w = match timer w with Some i => [i] | None => [] end.
Proof.
  intros L Hs.
  destruct (machine_invariant _ _ _ (watch_reports (price_refresh deps) _ _ (fun w t => price_refresh_reports deps w t L)) _ _ _ _ Hs)
    as (S & C & F & _); [|auto]. repeat split; constructor.
Qed.

(** The balance watcher's reports alternate between having the free
    balance and not, along every run, with one timer at most. *)
Theorem balance_watch_alternates `{Env} deps w t :
  listening deps = true ->
  steps (machine_step (watch_run (balance_refresh deps)) watch_enabled) (watcher0, []) (w, t) ->
  alternating (told "onChange" t) /\ intervals w = match timer w with Some i => [i] | None => [] end.
Proof.
  intros L Hs.
  destruct (machine_invariant _ _ _ (watch_reports (balance_refresh deps) _ _ (fun w t => balance_refresh_reports deps w t L)) _ _ _ _ Hs)
    as (S & C & F & _); [|split; [apply changing_alternates|]; assumption]. repeat split; constructor.
Qed.

Lemma price_watch_reports_witness : changing (told "onPrice" (snd price_walk)) /\ List.length (told "onPrice" (snd price_walk)) = 2%nat.
Proof.
  split; [|vm_compute; reflexivity].
  exact (proj1 (proj2 (price_watch_reports (H := moving) watching (fst price_walk) (snd price_walk) eq_refl price_walk_steps))).
Defined.

Lemma balance_watch_alternates_witness : alternating (told "onChange" (snd balance_walk)) /\ List.length (told "onChange" (snd balance_walk)) = 2%nat.
Proof.
  split; [|vm_compute; reflexivity].
  exact (proj1 (balance_watch_alternates (H := moving) watching (fst balance_walk) (snd balance_walk) eq_refl balance_walk_steps)).
Defined.

(** The amount asked for an upgrade is the same wherever it is computed:
    for a price above zero the React view, the Vue view and the formula of
    the server agree; without one, both views compute zero. *)
Theorem upgrade_amounts_agree p :
  (Num.gtb p Num.zero = true ->
     tsx_shahAmount p PREMIUM_PRICE_USD = round4 (Num.div PREMIUM_PRICE_USD (pickPrice (Some p) None (Num.dec 10 2))) /\
     vue_amount (Some p) PREMIUM_PRICE_USD = tsx_shahAmount p PREMIUM_PRICE_USD) /\
  (Num.leb p Num.zero = true -> tsx_shahAmount p PREMIUM_PRICE_USD = Num.zero /\ vue_amount (Some p) PREMIUM_PRICE_USD = vue_amount None PREMIUM_PRICE_USD).
Proof.
  unfold tsx_shahAmount, vue_amount, pickPrice. split.
  - intros G. assert (truthy (VNum p) = true /\ Num.leb p Num.zero = false) as [T L].
    { unfold Num.gtb, Num.ltb, Num.leb, Num.zero, truthy, Num.is_nan, Num.eqb in *. destruct p as [[]| [] | |[] m e]; cbn in *; auto; discriminate. }
    rewrite G, T, L. auto.
  - intros L. rewrite L. auto.
Qed.

Lemma upgrade_amounts_agree_witness :
  tsx_shahAmount (Num.dec 25 2) PREMIUM_PRICE_USD = Num.dec 3996 2 /\
  vue_amount (Some (Num.dec 25 2)) PREMIUM_PRICE_USD = tsx_shahAmount (Num.dec 25 2) PREMIUM_PRICE_USD.
Proof. split; [vm_compute; reflexivity|]. exact (proj2 (proj1 (upgrade_amounts_agree (Num.dec 25 2)) eq_refl)). Defined.

(** Confirming an upgrade or a purchase asks the parent exactly once, for
    the amount on display, and ends with the parent's answer in the message
    and the buttons enabled again, whether the parent answers or throws. *)
Theorem views_settle `{Env} usdPerShah premium v t :
  let pay := [VStr (method_name (chosen v)); VNum (tsx_shahAmount usdPerShah premium)] in
  onConfirm usdPerShah premium v t =
    (Ok tt, set_loading false (set_message (settled "Success! Receipt/TX: " "Payment failed: " "receipt" (reply t "onUpgrade" pay))
              (set_loading true v)),
     Ev "onUpgrade" pay (reply t "onUpgrade" pay) :: t) /\
  onBuy v t =
    (Ok tt, set_loading false (set_message (settled "Success! Deposit TX: " "Failed: " "txid" (reply t "onStripePay" [VNum (amountUsd v)]))
              (set_loading true v)),
     Ev "onStripePay" [VNum (amountUsd v)] (reply t "onStripePay" [VNum (amountUsd v)]) :: t).
Proof.
  intros pay. split; unfold onConfirm, onBuy.
  - unfold bind at 1 2, modify at 1 2. erewrite settle_spec by reflexivity. reflexivity.
  - unfold bind at 1 2, modify at 1 2. erewrite settle_spec by reflexivity. reflexivity.
Qed.

(** Without a price the two views part: the Vue view disables the button
    for both wallet methods, the React view asks the parent for a payment of
    zero. *)
Theorem upgrade_without_price `{Env} p v t :
  Num.leb p Num.zero = true ->
  (forall sym url premium, canConfirm (VueProps (Some p) (Some p) premium sym url) SHAH = false /\
     canConfirm (VueProps (Some p) (Some p) premium sym url) SHAHtoken = false) /\
  wp (onConfirm p PREMIUM_PRICE_USD)
    (fun _ _ t' => exists r, t' = Ev "onUpgrade" [VStr (method_name (chosen v)); VNum Num.zero] r :: t) (fun _ _ _ => False) v t.
Proof.
  intros L. split.
  - intros. unfold canConfirm, Num.gtb, Num.ltb, Num.leb, Num.zero in *. cbn. destruct p as [[]| [] | |[] m e]; cbn in *; auto; discriminate.
  - unfold onConfirm, settle, tsx_shahAmount. rewrite L. wp_auto; eexists; reflexivity.
Qed.

Lemma upgrade_without_price_witness :
  wp (onConfirm (H := moving) Num.zero PREMIUM_PRICE_USD)
    (fun _ _ t' => exists r, t' = [Ev "onUpgrade" [VStr "SHAH"; VNum Num.zero] r]) (fun _ _ _ => False) view0 [].
Proof. exact (proj2 (upgrade_without_price (H := moving) Num.zero view0 [] eq_refl)). Defined.

(** The price service has no price of its own: every request is answered
    with ten cents and 99.9 coins. *)
Theorem price_service_constant `{Env} req t :
  price req fresh_response t =
  (Ok tt, Response [] [(200%Z, VObj [("usdPrice", VNum (Num.dec 1 1)); ("requiredShah", VNum (Num.dec 999 1));
                                     ("requiredShahToken", VNum (Num.dec 999 1))])], t).
Proof. vm_compute. reflexivity. Qed.

(** The mail service confirms exactly the requests in which all six
    fields are truthy; in particular not a payment of zero. *)
Theorem confirmation_needs_all_fields `{Env} body t :
  nullish body = false ->
  let complete := forallb (fun k => truthy (get_opt body k)) confirmation_fields in
  payment_confirmation (VObj [("body", body)]) fresh_response t =
  (Ok tt, Response [] [if complete
     then (200%Z, VObj [("success", VBool true); ("message", VStr "Payment confirmation email sent successfully"); ("transactionId", get_opt body "tx_id")])
     else (400%Z, VObj [("success", VBool false); ("error", VStr "Missing required fields")])], t).
Proof.
  intros N complete. unfold payment_confirmation, try_catch, bind, lift. change (get (VObj [("body", body)]) "body") with (Ok body).
  assert (exists x, destructure_of "req.body" body "email" = Ok x) as [x ->] by (destruct body; try discriminate; cbn; eauto).
  assert (existsb (fun k => negb (truthy (get_opt body k))) confirmation_fields = negb complete) as ->.
  { unfold complete. induction confirmation_fields as [|k l IH]; cbn [existsb forallb]; [reflexivity|].
    rewrite IH. destruct (truthy (get_opt body k)); reflexivity. }
  destruct complete; reflexivity.
Qed.

Lemma confirmation_needs_all_fields_witness :
  let body := VObj [("email", VStr "a@b"); ("plan", VStr "yearly"); ("amount", vnum 0); ("method", VStr "card"); ("date", VStr "today"); ("tx_id", VStr "t1")] in
  payment_confirmation (VObj [("body", body)]) fresh_response [] =
  (Ok tt, Response [] [(400%Z, VObj [("success", VBool false); ("error", VStr "Missing required fields")])], []).
Proof. intros body. exact (confirmation_needs_all_fields (H := moving) body [] eq_refl). Defined.

(** The Vue view tells its parent exactly once and enables its buttons
    again; the success it shows afterwards depends on the timer alone: the
    callback set by a confirmed wallet payment reports a completed upgrade in
    every state. *)
Theorem vue_settles `{Env} p v t :
  wp (vue_onConfirm p)
    (fun _ v' t' => loading v' = false /\ success v' = false /\ exists e, t' = e :: t /\
       (delayed v' = S (delayed v) -> chosen v <> Stripe /\ exists a, ev_args e = [VStr "upgrade"; a]))
    (fun _ _ _ => False) v t /\
  wp onDelay (fun _ v' t' => success v' = true /\ t' = t) (fun _ _ _ => False) v t.
Proof.
  split; [|unfold onDelay; wp_auto; split; reflexivity].
  unfold vue_onConfirm. wp_auto; cbn in *; repeat split; eexists; (split; [reflexivity|]); cbn; intros D;
    try (exfalso; lia); (split; [congruence|eexists; reflexivity]).
Qed.
