(* ===== verification/UpgradeViews.v ===== *)
(** * The upgrade and purchase pages

    The views of [UpgradeAIWallet] (UpgradeAIWallet.tsx and the template of
    UpgradeAIWallet.vue) and [BuyShah] (BuyShah.tsx) over the state of
    Upgrade, and of [AIHelpPanel] (AIHelpPanel.tsx); what they offer; and the
    runs of the Vue page. *)

From Stdlib Require Import ZArith Bool List String.
From S2P Require Import Prelude JsNum JsVal JsMonad Machine Jsx Upgrade.
Import ListNotations.
Local Open Scope string_scope.

Inductive wallet_action : Type :=
  | Choose (m : method)
  | Confirm
  | BuyShahWithCard
  | CancelUpgrade
  | SetUsd (v : jsval)
  | Buy.

Notation page := (html wallet_action).

Definition style {A} (l : list (string * jsval)) : string * attr A := prop "style" (VObj l).
Definition button_style (color : string) : list (string * jsval) :=
  [("padding", VStr "8px 12px"); ("background", VStr color); ("color", VStr "#fff"); ("border", vnum 0); ("borderRadius", vnum 6)].

(** [isFinite(n) ? n.toFixed(4) : '0.0000']. *)
Definition fmt (n : num) : string := if Num.is_finite n then Num.to_fixed n 4 else "0.0000".

Section Pages.
Context (v : view).

Definition method_eqb (a b : method) : bool := method_name a =? method_name b.

(** ** UpgradeAIWallet.tsx *)

Section React.
Context (usdPerShah premiumPriceUsd : num) (hasCancel hasBuyShah : bool).

Definition tsx_method (m : method) (label : list page) : page :=
  el "label" [] (el "input" [prop "type" (VStr "radio"); prop "checked" (VBool (method_eqb (chosen v) m)); onChange (fun _ => Choose m)] [] :: label).

Definition tsx_page : page :=
  let usd := fixed "premiumPriceUsd" (VNum premiumPriceUsd) 2 in
  el "div" [style [("padding", vnum 16); ("maxWidth", vnum 520)]] [
    el "h2" [] [txt "💳 Upgrade to AI Wallet"];
    el "p" [] [txt "Unlock full AI features (Assistant, Insights, Troubleshooter, Fee Optimizer, Multilingual)."];
    el "div" [style [("marginTop", vnum 12); ("padding", vnum 12); ("border", VStr "1px solid #e5e7eb"); ("borderRadius", vnum 8)]] [
      el "strong" [] [txt "Price"];
      el "div" [] [txt "USD: $"; usd];
      el "div" [] [txt "SHAH: "; txt (fmt (tsx_shahAmount usdPerShah premiumPriceUsd)); txt " (at $"; fixed "usdPerShah" (VNum usdPerShah) 4; txt " per SHAH)"]];
    el "div" [style [("marginTop", vnum 16)]] [
      el "strong" [] [txt "Payment Method"];
      el "div" [style [("display", VStr "flex"); ("gap", vnum 12); ("marginTop", vnum 8)]] [
        tsx_method SHAH [txt " SHAH (auto-convert $"; usd; txt ")"];
        tsx_method SHAHtoken [txt " SHAHtoken (SHI-20)"];
        tsx_method Stripe [txt " Stripe (Credit Card)"]]];
    el "div" [style [("marginTop", vnum 16); ("display", VStr "flex"); ("gap", vnum 8)]] [
      el "button" [onClick [Confirm]; prop "disabled" (VBool (loading v)); style (button_style "#4CAF50")] [txt (if loading v then "Processing…" else "Confirm Upgrade")];
      when hasBuyShah (el "button" [onClick [BuyShahWithCard]; prop "disabled" (VBool (loading v)); style (button_style "#0ea5e9")] [txt "Buy SHAH with Card"]);
      when hasCancel (el "button" [onClick [CancelUpgrade]; prop "disabled" (VBool (loading v));
                                   style [("padding", VStr "8px 12px"); ("border", VStr "1px solid #ccc"); ("borderRadius", vnum 6)]] [txt "Cancel"])];
    when (negb (message v =? EmptyString)) (el "p" [style [("marginTop", vnum 12)]] [txt (message v)]);
    el "p" [style [("marginTop", vnum 12); ("color", VStr "#6b7280")]] [txt "Note: Amount is dynamically calculated using the live ShahSwap price oracle."]].

End React.

(** ** UpgradeAIWallet.vue *)

Section Vue.
Context (p : vue_props).

Definition class {A} (name : string) : string * attr A := prop "class" (VStr name).

Definition vue_row (classes : string) (label value : list page) : page :=
  el "div" [class classes] [el "div" [class "label"] label; el "div" [class "value"] value].

(** [v-model="method"]. *)
Definition vue_method (m : method) (title image : string) (label : list page) : page :=
  el "label" [prop "title" (VStr title)]
    (el "input" [prop "type" (VStr "radio"); prop "name" (VStr "method"); prop "value" (VStr (method_name m)); prop "checked" (VBool (method_eqb (chosen v) m));
                 onChange (fun _ => Choose m)] []
     :: el "span" [class "icon"] [txt image] :: label).

Definition vue_page : page :=
  el "div" [class "upgrade-card"] [
    el "header" [class "header"] [
      el "div" [class "title-row"] [el "span" [class "logo"] [txt "🤖"]; el "h2" [] [txt "Upgrade to AI Wallet"]];
      el "p" [class "subtitle"] [txt "Unlock full AI features: Assistant, Insights, Troubleshooter, Fee Optimizer, Multilingual."]];
    el "section" [class "price-box"] [
      vue_row "price-row" [txt "Price"] [txt "$"; fixed "premiumPriceUsd" (VNum (p_premium p)) 2];
      vue_row "price-row muted" [txt "@ SHAH"] [txt "≈ "; txt (vue_label (p_usdPerShah p) (p_premium p) "SHAH")];
      vue_row "price-row muted" [txt "@ "; txt (p_symbol p)] [txt "≈ "; txt (vue_label (p_usdPerShahToken p) (p_premium p) (p_symbol p))]];
    el "section" [] [
      el "div" [class "section-title"] [txt "Payment Method"];
      el "div" [class "methods"] [
        vue_method SHAH "Use SHAH from your wallet to upgrade." "🪙" [txt " SHAH (native)"];
        vue_method SHAHtoken "SHI-20 SHAHtoken supported for easier access." "🔗" [txt " "; txt (p_symbol p); txt " (SHI-20)"];
        vue_method Stripe "Prefer card? Pay $9.99 USD via Stripe." "💳" [txt " Stripe (Credit Card)"]]];
    el "section" [class "actions"] [
      el "button" [class "btn primary"; prop "disabled" (VBool (loading v || negb (canConfirm p (chosen v)))); onClick [Confirm]] [
        if loading v then el "span" [] [txt "Processing…"] else el "span" [] [txt "Confirm Upgrade"]];
      el "button" [class "btn info"; prop "disabled" (VBool (loading v)); onClick [BuyShahWithCard]] [txt "Buy SHAH with Card"];
      el "button" [class "btn"; prop "disabled" (VBool (loading v)); onClick [CancelUpgrade]] [txt "Cancel"]];
    el "transition" [prop "name" (VStr "fade")] [when (negb (message v =? EmptyString)) (el "p" [class "message"] [txt (message v)])];
    when (success v) (el "div" [class "success-box"] [
      el "div" [class "check"] [txt "✅"];
      el "div" [] [
        el "div" [class "success-title"] [txt "AI Assistant Activated!"];
        el "div" [class "success-desc"] [txt "You now have Premium access to all AI tools."]]])].

End Vue.

(** ** BuyShah.tsx *)

Definition buy_page (usdPerShah : num) : page :=
  el "div" [style [("padding", vnum 16); ("maxWidth", vnum 520)]] [
    el "h2" [] [txt "🪙 Buy SHAH"];
    el "p" [] [txt "Onramp with Stripe, auto-convert via ShahSwap, deposit to your wallet."];
    el "div" [style [("display", VStr "grid"); ("gap", vnum 8)]] [
      el "label" [] [
        txt "USD Amount:";
        el "input" [prop "type" (VStr "number"); prop "value" (VNum (amountUsd v)); onChange SetUsd; prop "min" (vnum 5); prop "max" (vnum 1000); prop "step" (vnum 5);
                    style [("marginLeft", vnum 8)]] []];
      el "div" [] [txt "Estimated SHAH: "; el "strong" [] [fixed "est4" (VNum (est4 (amountUsd v) usdPerShah)) 4]; txt " @ $"; fixed "usdPerShah" (VNum usdPerShah) 4; txt " / SHAH"];
      el "div" [style [("color", VStr "#b45309")]] [txt "Slippage warning: Actual received SHAH may vary based on market conditions."]];
    el "div" [style [("marginTop", vnum 12)]] [
      el "button" [onClick [Buy]; prop "disabled" (VBool (loading v)); style (button_style "#0ea5e9")] [txt (if loading v then "Processing…" else "Buy with Card")]];
    when (negb (message v =? EmptyString)) (el "p" [style [("marginTop", vnum 12)]] [txt (message v)])].

End Pages.

(** ** AIHelpPanel.tsx *)

Inductive panel_action : Type := AskInsights | Troubleshoot | FeeOptimize | Language | Type_ (v : jsval) | Send.

Definition help_panel (input : string) (messages : list (string * string)) : html panel_action :=
  el "div" [style [("display", VStr "grid"); ("gridTemplateColumns", VStr "280px 1fr"); ("gap", vnum 16); ("height", VStr "100%")]] [
    el "aside" [style [("borderRight", VStr "1px solid #e5e7eb"); ("padding", vnum 12)]] [
      el "h3" [] [txt "AI Tools"];
      el "div" [style [("display", VStr "grid"); ("gap", vnum 8)]] [
        el "button" [onClick [AskInsights]] [txt "📊 Insights"];
        el "button" [onClick [Troubleshoot]] [txt "🛠 Troubleshooter"];
        el "button" [onClick [FeeOptimize]] [txt "⚡ Fee Optimizer"];
        el "button" [onClick [Language]] [txt "🌐 Multilingual"]]];
    el "section" [style [("padding", vnum 12); ("display", VStr "flex"); ("flexDirection", VStr "column"); ("height", VStr "100%")]] [
      el "h3" [] [txt "GPT Assistant"];
      el "div" [style [("flex", vnum 1); ("overflow", VStr "auto"); ("border", VStr "1px solid #e5e7eb"); ("borderRadius", vnum 8); ("padding", vnum 12)]] [
        each messages (fun i '(role, content) =>
          el "div" [prop "key" (vnum (Z.of_nat i)); style [("marginBottom", vnum 8)]] [
            el "strong" [] [txt (if role =? "user" then "You" else "Assistant"); txt ":"]; txt " "; txt content])];
      el "div" [style [("marginTop", vnum 8); ("display", VStr "flex"); ("gap", vnum 8)]] [
        el "input" [prop "value" (VStr input); onChange Type_; prop "placeholder" (VStr "Ask anything about Shahcoin…"); style [("flex", vnum 1); ("padding", vnum 8)]] [];
        el "button" [onClick [Send]] [txt "Send"]]]].

(** The handlers of the panel over its text field. *)
Definition panel_run `{Env} (a : panel_action) : JS string unit :=
  let click := [VObj [("type", VStr "click")]] in
  match a with
  | AskInsights => ext "onInsights" click ;;; ret tt
  | Troubleshoot => ext "onTroubleshoot" click ;;; ret tt
  | FeeOptimize => ext "onFeeOptimize" click ;;; ret tt
  | Language => ext "onLanguage" click ;;; ret tt
  | Type_ v => modify (fun _ => to_str v)
  | Send => let* input := read id in ext "onAsk" [VStr input] ;;; modify (fun _ => EmptyString)
  end.

(** ** What the pages offer *)

Definition method_entries : list (happening wallet_action) := map (fun m => Entered (fun _ => Choose m)) [SHAH; SHAHtoken; Stripe].

Definition vue_offers (p : vue_props) (v : view) : list (happening wallet_action) :=
  method_entries ++ (if loading v || negb (canConfirm p (chosen v)) then [] else [Clicked [Confirm]]) ++
  (if loading v then [] else [Clicked [BuyShahWithCard]; Clicked [CancelUpgrade]]).

Definition tsx_offers (hasCancel hasBuyShah : bool) (v : view) : list (happening wallet_action) :=
  method_entries ++
  (if loading v then [] else [Clicked [Confirm]] ++ (if hasBuyShah then [Clicked [BuyShahWithCard]] else []) ++ (if hasCancel then [Clicked [CancelUpgrade]] else [])).

Lemma vue_hears p v : hears Bubbling [] (vue_page v p) (vue_offers p v).
Proof.
  unfold vue_page, vue_offers, vue_row, vue_method. destruct (loading v), (canConfirm p (chosen v)); (eapply hears_iff; [hears|]);
    intros e N; cbn -[method_entries]; destruct (negb (message v =? EmptyString)), (success v); cbn; intuition congruence.
Qed.

Lemma tsx_hears usd premium hasCancel hasBuyShah v : hears Bubbling [] (tsx_page v usd premium hasCancel hasBuyShah) (tsx_offers hasCancel hasBuyShah v).
Proof.
  unfold tsx_page, tsx_offers, tsx_method. destruct (loading v), hasCancel, hasBuyShah; (eapply hears_iff; [hears|]);
    intros e N; cbn -[method_entries]; destruct (negb (message v =? EmptyString)); cbn; intuition congruence.
Qed.

(** Both pages can always be shown. *)
Lemma vue_shown p v : exists ns, vue_page v p = Ok ns.
Proof.
  apply outcome_shown. unfold vue_page, vue_row, vue_method. autorewrite with outcome. reflexivity.
Qed.

Lemma tsx_shown usd premium hasCancel hasBuyShah v : exists ns, tsx_page v usd premium hasCancel hasBuyShah = Ok ns.
Proof. apply outcome_shown. unfold tsx_page, tsx_method. autorewrite with outcome. reflexivity. Qed.

(** ** Runs of the pages *)

(** An action, and the callback of the delay the Vue page has set. *)
Inductive wallet_op : Type := Do (acts : list wallet_action) | Delayed.

Section Runs.
Context `{Env}.
Notation JS := (JS view).

Section VuePage.
Context (p : vue_props).

Definition vue_perform (a : wallet_action) : JS unit :=
  match a with
  | Choose m => modify (set_chosen m)
  | Confirm => vue_onConfirm p
  | BuyShahWithCard => ext "emit" [VStr "buy-shah"] ;;; ret tt
  | CancelUpgrade => ext "emit" [VStr "cancel"] ;;; ret tt
  | SetUsd _ | Buy => ret tt
  end.

Definition vue_run (o : wallet_op) : JS unit :=
  match o with Do acts => for_each acts vue_perform | Delayed => onDelay end.

Definition vue_enabled (o : wallet_op) (v : view) : Prop :=
  match o with
  | Do acts => exists ns, vue_page v p = Ok ns /\ offered Bubbling ns acts
  | Delayed => (0 < delayed v)%nat
  end.

Definition price_of (m : method) : option num := match m with SHAH => p_usdPerShah p | _ => p_usdPerShahToken p end.

(** An upgrade is requested at a known price, for the premium price in the
    currency of the method. *)
Definition sale_ok (e : event) : Prop :=
  forall sale, ev_op e = "emit" -> ev_args e = [VStr "upgrade"; sale] ->
  exists m, m <> Stripe /\ canConfirm p m = true /\
    sale = VObj [("method", VStr (method_name m)); ("amount", VNum (vue_amount (price_of m) (p_premium p))); ("currency", VStr (method_name m))].

Definition sales_ok (v : view) (t : trace) : Prop := Forall sale_ok t.

Lemma sale_other op args r : (forall sale, ~ (op = "emit" /\ args = [VStr "upgrade"; sale])) -> sale_ok (Ev op args r).
Proof using Type. intros N sale E A. destruct (N sale). auto. Qed.

Lemma confirm_sales v t : canConfirm p (chosen v) = true -> sales_ok v t -> wp (vue_onConfirm p) (fun _ => sales_ok) (fun _ => sales_ok) v t.
Proof using Type.
  intros C S. unfold vue_onConfirm, sales_ok in *. wp_auto; (apply Forall_cons; [|exact S]); cbn in *;
    first [apply sale_other; intros sale [? ?]; discriminate | idtac];
    match goal with E : chosen _ = ?m |- _ => rewrite E in C; intros sale _ [= <-]; exists m; split; [discriminate|]; split; [exact C|reflexivity] end.
Qed.

Lemma vue_run_sales o v t : vue_enabled o v -> sales_ok v t -> wp (vue_run o) (fun _ => sales_ok) (fun _ => sales_ok) v t.
Proof using Type.
  intros En S. destruct o as [acts|]; cbn [vue_run]; [|unfold onDelay; wp_auto; exact S].
  destruct En as (ns & E & O). rewrite (hears_offered _ _ _ _ _ (vue_hears p v) E) in O. destruct O as (_ & e & I & P).
  assert (exists a, acts = [a] /\ (a = Confirm -> canConfirm p (chosen v) = true)) as (a & -> & Ha).
  { unfold vue_offers, method_entries in I. destruct (loading v), (canConfirm p (chosen v)) eqn:C; cbn in I;
      repeat (destruct I as [<-|I]; [first [destruct P as (x & ->) | red in P; subst acts]; eexists; (split; [reflexivity|]); congruence|]); destruct I. }
  cbn [for_each]. apply wp_bind, (wp_mono _ (fun _ => sales_ok) _ (fun _ => sales_ok)); [intros ? ? ? S'; apply wp_ret; exact S'|auto|].
  destruct a; cbn [vue_perform]; try (apply wp_ret; exact S).
  - apply wp_modify. exact S.
  - exact (confirm_sales v t (Ha eq_refl) S).
  - wp_auto; (apply Forall_cons; [|exact S]); apply sale_other; intros sale [_ ?]; discriminate.
  - wp_auto; (apply Forall_cons; [|exact S]); apply sale_other; intros sale [_ ?]; discriminate.
Qed.
End VuePage.

(** UpgradeAIWallet.tsx *)
Section ReactPage.
Context (usdPerShah premiumPriceUsd : num) (hasCancel hasBuyShah : bool).

Definition tsx_perform (a : wallet_action) : JS unit :=
  match a with
  | Choose m => modify (set_chosen m)
  | Confirm => onConfirm usdPerShah premiumPriceUsd
  | BuyShahWithCard => ext "onBuyShah" [VObj [("type", VStr "click")]] ;;; ret tt
  | CancelUpgrade => ext "onCancel" [VObj [("type", VStr "click")]] ;;; ret tt
  | SetUsd _ | Buy => ret tt
  end.

Definition tsx_run (o : wallet_op) : JS unit := match o with Do acts => for_each acts tsx_perform | Delayed => ret tt end.

Definition tsx_enabled (o : wallet_op) (v : view) : Prop :=
  match o with Do acts => exists ns, tsx_page v usdPerShah premiumPriceUsd hasCancel hasBuyShah = Ok ns /\ offered Bubbling ns acts | Delayed => False end.
End ReactPage.
End Runs.

(** ** Theorems *)

(** The Vue upgrade page sells at a known price only: along every run of the
    page through its own controls, each upgrade it requests from its parent
    is paid in SHAH or in the token, at a price above zero, for the premium
    price converted at that price; and the page can always be shown. *)
Theorem vue_page_sells_priced `{Env} p v t :
  steps (machine_step (vue_run p) (vue_enabled p)) (view0, []) (v, t) -> Forall (sale_ok p) t /\ exists ns, vue_page v p = Ok ns.
Proof.
  intros St. split; [|apply vue_shown].
  exact (machine_invariant _ _ (sales_ok p) (vue_run_sales p) _ _ _ _ St (Forall_nil _)).
Qed.

Definition priced_props : vue_props := VueProps (Some (Num.dec 25 2)) None PREMIUM_PRICE_USD "SHAHtoken" EmptyString.
Definition vue_sale : view * trace := play (vue_run (H := moving) priced_props) [Do [Confirm]] (view0, []).

Lemma vue_page_sells_priced_witness :
  Forall (sale_ok priced_props) (snd vue_sale)
  /\ exists r, snd vue_sale = [Ev "emit" [VStr "upgrade"; VObj [("method", VStr "SHAH"); ("amount", VNum (Num.dec 3996 2)); ("currency", VStr "SHAH")]] r].
Proof.
  split; [|eexists; vm_compute; reflexivity].
  refine (proj1 (vue_page_sells_priced (H := moving) priced_props (fst vue_sale) (snd vue_sale) _)).
  rewrite <- surjective_pairing. apply play_steps. split; [|exact I]. destruct (vue_shown priced_props view0) as [ns E]. exists ns. split; [exact E|].
  rewrite (hears_offered _ _ _ _ _ (vue_hears priced_props view0) E). split; [discriminate|]. exists (Clicked [Confirm]). split; [vm_compute; tauto|reflexivity].
Defined.

(** The React upgrade page sells for nothing: whatever its parent answers,
    without a price the page offers to confirm, and confirming asks the
    parent for a payment of zero SHAH. *)
Theorem tsx_page_sells_for_nothing `{Env} premium hasCancel hasBuyShah :
  exists v r, steps (machine_step (tsx_run Num.zero premium) (tsx_enabled Num.zero premium hasCancel hasBuyShah)) (view0, [])
    (v, [Ev "onUpgrade" [VStr "SHAH"; VNum Num.zero] r]).
Proof.
  destruct (tsx_shown Num.zero premium hasCancel hasBuyShah view0) as [ns E].
  assert (playable (tsx_run Num.zero premium) (tsx_enabled Num.zero premium hasCancel hasBuyShah) [Do [Confirm]] (view0, [])) as P.
  { split; [|exact I]. exists ns. split; [exact E|]. rewrite (hears_offered _ _ _ _ _ (tsx_hears _ _ _ _ view0) E).
    split; [discriminate|]. exists (Clicked [Confirm]). split; [|reflexivity]. do 3 right. left. reflexivity. }
  pose proof (play_steps _ _ _ _ P) as St. exists (fst (play (tsx_run Num.zero premium) [Do [Confirm]] (view0, []))), (reply [] "onUpgrade" [VStr "SHAH"; VNum Num.zero]).
  refine (eq_rect _ (fun x => steps _ _ x) St _ _). rewrite (surjective_pairing (play _ _ _)) at 1. f_equal.
  unfold play, after_op. cbn [fold_left fst snd tsx_run for_each tsx_perform]. unfold onConfirm, settle, try_finally, try_catch, bind, modify, read, ext, lift, ret. cbn.
  destruct (reply _ _ _) as [x|e]; cbn; [destruct (get x "success") as [d|e]; [destruct (truthy d)|]|]; reflexivity.
Qed.
