(* ===== verification/FeeExplanation.v ===== *)
(** * The fee explanation of the token creator

    [TokenCreationFeeExplanation] of
    src/sdk-core/smart-contract-toolkit/TokenCreationFeeExplanation.js: a form
    that shows its own fee for the selected add-ons and then pays through
    [TokenMonetizationSystem].  The component's state is one record; [React]
    applies a state update made outside an event handler either at once or
    together with the later ones ([batched]), which decides which state
    [calculateTotalFee] reads after a price has arrived.  The parent's
    callbacks are the environment. *)

From Stdlib Require Import ZArith Bool Lia List String.
From S2P Require Import Prelude JsNum JsNumFacts JsVal JsMonad Machine Payments TokenMonetization.
Import ListNotations.
Local Open Scope string_scope.

Record form : Type := Form {
  tokenName : string; tokenSymbol : string; decimals : jsval; maxSupply : string; initialSupply : string; termsAccepted : bool }.

Record fee : Type := Fee { currentShahPrice : jsval; totalFeeUSD : num; totalFeeSHAH : jsval; isCalculating : bool }.

Record dialog : Type := Dialog {
  inputs : form;
  fees : fee;
  paymentMethod : string;
  selectedAddOns : list string;
  errors : list string;
  showConfirmation : bool;
  isSubmitting : bool
}.

Definition set_inputs (f : form) (d : dialog) : dialog :=
  Dialog f (fees d) (paymentMethod d) (selectedAddOns d) (errors d) (showConfirmation d) (isSubmitting d).
Definition set_fees (f : fee) (d : dialog) : dialog :=
  Dialog (inputs d) f (paymentMethod d) (selectedAddOns d) (errors d) (showConfirmation d) (isSubmitting d).
Definition set_paymentMethod (m : string) (d : dialog) : dialog :=
  Dialog (inputs d) (fees d) m (selectedAddOns d) (errors d) (showConfirmation d) (isSubmitting d).
Definition set_selectedAddOns (l : list string) (d : dialog) : dialog :=
  Dialog (inputs d) (fees d) (paymentMethod d) l (errors d) (showConfirmation d) (isSubmitting d).
Definition set_errors (l : list string) (d : dialog) : dialog :=
  Dialog (inputs d) (fees d) (paymentMethod d) (selectedAddOns d) l (showConfirmation d) (isSubmitting d).
Definition set_progress (show submitting : bool) (d : dialog) : dialog :=
  Dialog (inputs d) (fees d) (paymentMethod d) (selectedAddOns d) (errors d) show submitting.

Definition set_price (p : jsval) (calculating : bool) (d : dialog) : dialog :=
  set_fees (Fee p (totalFeeUSD (fees d)) (totalFeeSHAH (fees d)) calculating) d.
Definition set_totals (usd : num) (shah : jsval) (d : dialog) : dialog :=
  set_fees (Fee (currentShahPrice (fees d)) usd shah (isCalculating (fees d))) d.

(** The state after construction. *)
Definition dialog0 : dialog :=
  Dialog (Form EmptyString EmptyString (vnum 18) EmptyString EmptyString false)
    (Fee (vnum 0) (Num.of_Z 49) (vnum 0) false) "shah" [] [] false false.

(** The fee table of [calculateTotalFee]. *)
Definition addOnFee (addOn : string) : num :=
  if addOn =? "customLogo" then Num.of_Z 10
  else if addOn =? "verifiedBadge" then Num.of_Z 20
  else if addOn =? "upgradeableContract" then Num.of_Z 15
  else if addOn =? "airdropTool" then Num.of_Z 8
  else Num.zero.

Definition totalUSD_of (addOns : list string) : num :=
  fold_left (fun usd addOn => if mem_string addOn ["customLogo"; "verifiedBadge"; "upgradeableContract"; "airdropTool"]
                              then Num.add usd (addOnFee addOn) else usd) addOns (Num.of_Z 49).

(** [calculateTotalFee], reading the state [seen]. *)
Definition calculateTotalFee (seen : dialog) (d : dialog) : dialog :=
  let price := currentShahPrice (fees seen) in
  if js_le price (vnum 0) then d
  else let usd := totalUSD_of (selectedAddOns seen) in set_totals usd (js_div (VNum usd) price) d.

Definition toggle (addOn : string) (l : list string) : list string :=
  if mem_string addOn l then filter (fun x => negb (x =? addOn)) l else (l ++ [addOn])%list.

(** [!s.trim() || isNaN(parseFloat(s)) || parseFloat(s) <= 0]. *)
Definition bad_supply (s : string) : bool :=
  (trim s =? EmptyString) || Num.is_nan (parseFloat s) || Num.leb (parseFloat s) Num.zero.

Definition form_errors (f : form) : list string :=
  (push_if (trim (tokenName f) =? EmptyString) "Token name is required" ++
   push_if (trim (tokenSymbol f) =? EmptyString) "Token symbol is required" ++
   push_if (bad_supply (maxSupply f)) "Valid max supply is required" ++
   push_if (bad_supply (initialSupply f)) "Valid initial supply is required" ++
   push_if (negb (termsAccepted f)) "You must accept the terms and conditions")%list.

(** The line of the total. *)
Definition total_line (d : dialog) : string :=
  "$" ++ Num.to_fixed (totalFeeUSD (fees d)) 2 ++ " (" ++
  (if js_gt (totalFeeSHAH (fees d)) (vnum 0)
   then Num.to_fixed (Num.add (to_num (totalFeeSHAH (fees d))) (Num.dec 1 3)) 6 else "0.000000") ++ " SHAH)".

Section Operations.
Context `{Env} (system : TokenMonetizationSystem.t) (batched hasSuccess hasError : bool).
Notation JS := (JS dialog).

Definition fetchShahPrice : JS unit :=
  modify (fun d => set_price (currentShahPrice (fees d)) true d) ;;;
  try_catch
    (let* shahPrice := TokenMonetizationSystem.getShahPrice system in
     let* before := read (fun d => d) in
     modify (set_price shahPrice false) ;;;
     let* after := read (fun d => d) in
     modify (calculateTotalFee (if batched then before else after)))
    (fun _ => modify (fun d => set_errors ["Failed to fetch SHAH price. Please try again."] (set_price (currentShahPrice (fees d)) false d))).

Definition validateInputs : JS bool :=
  let* f := read inputs in
  modify (set_errors (form_errors f)) ;;;
  ret (match form_errors f with [] => true | _ => false end).

(** [handleInputChange(field, value)], the field being part of the form. *)
Definition handleInputChange (edit : form -> form) : JS unit :=
  modify (fun d => set_inputs (edit (inputs d)) d) ;;;
  let* _ := validateInputs in ret tt.

Definition handleAddOnToggle (addOn : string) : JS unit :=
  modify (fun d => set_selectedAddOns (toggle addOn (selectedAddOns d)) d) ;;;
  modify (fun d => calculateTotalFee d d).

Definition handlePaymentMethodChange (m : string) : JS unit := modify (set_paymentMethod m).

Definition handleConfirmCreation : JS unit :=
  let* ok := validateInputs in
  if ok then modify (fun d => set_progress true (isSubmitting d) d) else ret tt.

Definition handleCancelConfirmation : JS unit := modify (fun d => set_progress false (isSubmitting d) d).

Definition tokenConfig (f : form) : jsval :=
  VObj [("name", VStr (tokenName f)); ("symbol", VStr (tokenSymbol f)); ("decimals", decimals f);
        ("maxSupply", VNum (parseFloat (maxSupply f))); ("initialSupply", VNum (parseFloat (initialSupply f)))].

Definition handleProcessCreation : JS unit :=
  let* d := read (fun d => d) in
  let config := tokenConfig (inputs d) in
  let addOns := VArr (map VStr (selectedAddOns d)) in
  modify (fun d => set_progress (showConfirmation d) true d) ;;;
  try_catch
    (let* priceData := TokenMonetizationSystem.calculateTotalPrice system addOns VUndef in
     let* paymentResult := TokenMonetizationSystem.processPayment system (VStr (paymentMethod d)) priceData config in
     TokenMonetizationSystem.savePaymentData paymentResult config addOns ;;;
     modify (set_progress false false) ;;;
     if hasSuccess then
       ext "onSuccess" [VObj [("tokenConfig", config); ("paymentResult", paymentResult); ("priceData", priceData)]] ;;; ret tt
     else ret tt)
    (fun error =>
      modify (fun d => set_errors [e_msg error] (set_progress (showConfirmation d) false d)) ;;;
      if hasError then ext "onError" [err_obj error] ;;; ret tt else ret tt).

(** What the page lets a user do; add-ons are those of the monetization system. *)
Inductive op : Type :=
  | Fetch | Edit (f : form -> form) | Toggle (addOn : string) | Method (m : string) | Confirm | Cancel | Process.

Definition enabled (o : op) (d : dialog) : Prop :=
  match o with
  | Toggle k => In k (map fst (TokenMonetizationSystem.premiumAddOns system))
  | Process | Cancel => showConfirmation d = true /\ isSubmitting d = false
  | _ => True
  end.

Definition run (o : op) : JS unit :=
  match o with
  | Fetch => fetchShahPrice
  | Edit f => handleInputChange f
  | Toggle k => handleAddOnToggle k
  | Method m => handlePaymentMethodChange m
  | Confirm => handleConfirmCreation
  | Cancel => handleCancelConfirmation
  | Process => handleProcessCreation
  end.

End Operations.

(** ** Facts *)

Import TokenMonetizationSystem.

Definition addOn_keys : list string := ["customLogo"; "verifiedBadge"; "upgradeableContract"; "airdropTool"].

Lemma addOnFee_catalog k : In k addOn_keys -> addOnFee k = Num.of_Z (catalog_usd addOnUSD k) /\ (0 <= catalog_usd addOnUSD k <= 20)%Z.
Proof. intros [<-|[<-|[<-|[<-|[]]]]]; (split; [reflexivity|cbn; lia]). Qed.

(** The component's sum is the sum of the published prices. *)
Lemma fee_sum l a :
  incl l addOn_keys -> (0 <= a)%Z -> (a + 20 * Z.of_nat (List.length l) < 2 ^ prec)%Z ->
  fold_left (fun usd addOn => if mem_string addOn addOn_keys then Num.add usd (addOnFee addOn) else usd) l (Num.of_Z a) =
  Num.of_Z (a + catalog_total addOnUSD l).
Proof.
  revert a. induction l as [|k l IH]; intros a Hl Ha Hb; cbn [fold_left catalog_total fold_right].
  - f_equal. lia.
  - fold (catalog_total addOnUSD l). assert (In k addOn_keys) as Hk by (apply Hl; left; reflexivity).
    pose proof (proj2 (mem_string_In k addOn_keys) Hk) as M. rewrite M.
    destruct (addOnFee_catalog k Hk) as [-> B]. cbn [List.length] in Hb.
    rewrite add_of_Z by (unfold safe; lia).
    rewrite IH; [f_equal; lia|intros x Hx; apply Hl; right; exact Hx|lia|lia].
Qed.

Lemma NoDup_short l : NoDup l -> incl l addOn_keys -> (List.length l <= 4)%nat.
Proof. intros N I. exact (NoDup_incl_length N I). Qed.

Lemma totalUSD_of_catalog l : NoDup l -> incl l addOn_keys -> totalUSD_of l = Num.of_Z (49 + catalog_total addOnUSD l).
Proof.
  intros N I. apply fee_sum; [exact I|lia|]. pose proof (NoDup_short l N I). unfold prec. lia.
Qed.

Lemma toggle_NoDup k l : NoDup l -> NoDup (toggle k l).
Proof.
  intros N. unfold toggle. destruct (mem_string k l) eqn:M; [apply NoDup_filter, N|].
  apply NoDup_app; [exact N|repeat constructor; intros []|].
  intros x Hx [<-|[]]. apply mem_string_In in Hx. congruence.
Qed.

Lemma toggle_incl k l ks : In k ks -> incl l ks -> incl (toggle k l) ks.
Proof.
  intros Hk I x. unfold toggle. destruct (mem_string k l).
  - intros Hx. apply filter_In in Hx. apply I, Hx.
  - intros Hx. apply in_app_or in Hx. destruct Hx as [Hx|[<-|[]]]; auto.
Qed.

(** The fee on display belongs to the selection and to the price on display. *)
Definition shown (d : dialog) : Prop :=
  NoDup (selectedAddOns d) /\ incl (selectedAddOns d) addOn_keys /\
  (js_le (currentShahPrice (fees d)) (vnum 0) = false ->
   totalFeeUSD (fees d) = totalUSD_of (selectedAddOns d) /\
   totalFeeSHAH (fees d) = js_div (VNum (totalFeeUSD (fees d))) (currentShahPrice (fees d))).

Lemma calculated_shown d : NoDup (selectedAddOns d) -> incl (selectedAddOns d) addOn_keys -> shown (calculateTotalFee d d).
Proof.
  intros N I. unfold calculateTotalFee, shown. destruct (js_le (currentShahPrice (fees d)) (vnum 0)) eqn:E; cbn; repeat split; auto; congruence.
Qed.

Lemma shown_same d d' :
  selectedAddOns d' = selectedAddOns d -> currentShahPrice (fees d') = currentShahPrice (fees d) ->
  totalFeeUSD (fees d') = totalFeeUSD (fees d) -> totalFeeSHAH (fees d') = totalFeeSHAH (fees d) -> shown d -> shown d'.
Proof. unfold shown. intros -> -> -> ->. auto. Qed.

(** The monetization system keeps no state of the component. *)
Lemma getShahPrice_pure `{Env} system : pure_state (S := dialog) (getShahPrice system).
Proof. intros s0. unfold getShahPrice, shah_price, fetch, response_json. preserve. Qed.

Lemma calculateTotalPrice_pure `{Env} system keys options : pure_state (S := dialog) (calculateTotalPrice system keys options).
Proof. intros s0. unfold calculateTotalPrice, calculateBaseFee. pose proof (getShahPrice_pure system s0). preserve. Qed.

Lemma processPayment_pure `{Env} system m a c : pure_state (S := dialog) (processPayment system m a c).
Proof.
  intros s0. unfold processPayment, processShahPayment, processShahTokenPayment, processStripePayment, shah_payment, shah_token_payment,
    stripe_payment, connect_signer, shah_factory, fetch, response_json. preserve.
Qed.

Lemma savePaymentData_pure `{Env} r c a : pure_state (S := dialog) (savePaymentData r c a).
Proof. intros s0. unfold savePaymentData, save_payment, iso_now, call_missing. preserve. Qed.

(** Paying changes nothing but the progress and the errors on display. *)
Lemma process_keeps `{Env} (P : dialog -> Prop) system hs he d t :
  (forall d show sub, P d -> P (set_progress show sub d)) -> (forall d es, P d -> P (set_errors es d)) -> P d ->
  wp (handleProcessCreation system hs he) (fun _ d' _ => P d' /\ isSubmitting d' = false) (fun _ d' _ => P d' /\ isSubmitting d' = false) d t.
Proof.
  intros HP HE Pd. unfold handleProcessCreation. apply wp_bind, wp_read, wp_bind, wp_modify, wp_try_catch.
  assert (forall dd e t, P dd ->
    wp (modify (fun d => set_errors [e_msg e] (set_progress (showConfirmation d) false d)) ;;;
        if he then ext "onError" [err_obj e] ;;; ret tt else ret tt)
       (fun _ d' _ => P d' /\ isSubmitting d' = false) (fun _ d' _ => P d' /\ isSubmitting d' = false) dd t) as Failed.
  { intros dd e u Pdd. apply wp_bind, wp_modify.
    pose proof (HE _ [e_msg e] (HP dd (showConfirmation dd) false Pdd)) as Pe. destruct he; wp_auto; auto. }
  set (d1 := set_progress _ true d). assert (P d1) as P1 by (apply HP; assumption).
  apply wp_bind, wp_pure; [apply calculateTotalPrice_pure| |intros; apply Failed, P1]. intros price t1.
  apply wp_bind, wp_pure; [apply processPayment_pure| |intros; apply Failed, P1]. intros result t2.
  apply wp_bind, wp_pure; [apply savePaymentData_pure| |intros; apply Failed, P1]. intros saved t3.
  apply wp_bind, wp_modify. assert (P (set_progress false false d1)) as P2 by (apply HP; assumption).
  destruct hs; [|apply wp_ret; auto].
  apply wp_bind, wp_ext; intros; [apply wp_ret; auto|apply Failed, P2].
Qed.

Lemma run_shown `{Env} system hs he o d t :
  premiumAddOns system = premiumAddOns0 -> enabled system o d -> shown d ->
  wp (run system false hs he o) (fun _ d' _ => shown d') (fun _ d' _ => shown d') d t.
Proof.
  intros HA He Sd. destruct o; cbn [run].
  - unfold fetchShahPrice. apply wp_bind, wp_modify, wp_try_catch, wp_bind.
    apply wp_pure; [apply getShahPrice_pure| |].
    + intros price t1. wp_auto. apply calculated_shown; apply Sd.
    + intros e t1. wp_auto. eapply shown_same; [..|exact Sd]; reflexivity.
  - unfold handleInputChange, validateInputs. wp_auto. eapply shown_same; [..|exact Sd]; reflexivity.
  - unfold handleAddOnToggle. wp_auto. cbn in He. rewrite HA in He. destruct Sd as (N & I & _).
    apply calculated_shown; cbn; [apply toggle_NoDup, N|apply toggle_incl; assumption].
  - unfold handlePaymentMethodChange. wp_auto. eapply shown_same; [..|exact Sd]; reflexivity.
  - unfold handleConfirmCreation, validateInputs. wp_auto; eapply shown_same; try exact Sd; reflexivity.
  - unfold handleCancelConfirmation. wp_auto. eapply shown_same; [..|exact Sd]; reflexivity.
  - eapply wp_mono; [..|apply (process_keeps shown)]; cbn beta; try tauto; intros; eapply shown_same; try eassumption; reflexivity.
Qed.

(** The quote of the monetization system for a selection of the page. *)
Lemma quote_of_selection `{Env} {S} system keys (s : S) t :
  premiumAddOns system = premiumAddOns0 -> NoDup keys -> incl keys addOn_keys ->
  wp (calculateTotalPrice system (VArr (map VStr keys)) VUndef)
    (fun quote _ _ => get_opt quote "totalUSD" = VNum (totalUSD_of keys))
    (fun e _ _ => e = Error "Unable to fetch current SHAH price") s t.
Proof.
  intros HA N I.
  change (calculateTotalPrice system (VArr (map VStr keys)) VUndef) with
    (calculateTotalPrice (S := S) system (VArr (map VStr keys)) (VObj [("tier", VStr "Basic")])).
  eapply wp_mono; [..|apply (token_calculateTotalPrice_spec system HA keys "Basic")]; cbn beta.
  - intros quote s' t' (_ & price & _ & _ & -> & _). rewrite (totalUSD_of_catalog keys N I). reflexivity.
  - intros e s' t' [_ E]. exact E.
  - apply Forall_forall. intros k Hk. apply I in Hk. destruct Hk as [<-|[<-|[<-|[<-|[]]]]]; cbn; intuition discriminate.
  - pose proof (NoDup_short keys N I). unfold max_keys. lia.
  - discriminate.
Qed.

(** ** Theorems *)

(** The fee on display is the fee that is charged: along every run of
    the page with immediate updates, once a price is known, the total shown
    for the selected add-ons (the component's own table) is the [totalUSD]
    of the quote the payment is made for (the table of the monetization
    system), and the amount in SHAH is that total at the price shown. *)
Theorem fee_shown_is_quoted `{Env} cfg system hs he d t :
  constructor cfg = Ok system ->
  steps (machine_step (run system false hs he) (enabled system)) (dialog0, []) (d, t) ->
  js_le (currentShahPrice (fees d)) (vnum 0) = false ->
  totalFeeSHAH (fees d) = js_div (VNum (totalFeeUSD (fees d))) (currentShahPrice (fees d)) /\
  forall S (s : S) t',
    wp (calculateTotalPrice system (VArr (map VStr (selectedAddOns d))) VUndef)
      (fun quote _ _ => get_opt quote "totalUSD" = VNum (totalFeeUSD (fees d)))
      (fun e _ _ => e = Error "Unable to fetch current SHAH price") s t'.
Proof.
  intros C Hs Hp. pose proof (token_constructor_addOns cfg system C) as HA.
  assert (shown dialog0) as S0 by (split; [apply NoDup_nil|split; [intros x []|discriminate]]).
  destruct (machine_invariant _ _ (fun d _ => shown d) (fun o d t He Sd => run_shown system hs he o d t HA He Sd) _ _ _ _ Hs S0)
    as (N & I & F). destruct (F Hp) as [-> E]. split; [exact E|]. intros S s t'. apply quote_of_selection; assumption.
Qed.

(** The confirmation opens exactly for a complete form: a name, a symbol,
    two positive supplies and the accepted terms; otherwise the errors are
    on display, one per missing item, and nothing else changes. *)
Theorem confirmation_needs_complete_form `{Env} d t :
  let f := inputs d in
  let complete := negb (trim (tokenName f) =? EmptyString) && negb (trim (tokenSymbol f) =? EmptyString) &&
    negb (bad_supply (maxSupply f)) && negb (bad_supply (initialSupply f)) && termsAccepted f in
  wp handleConfirmCreation
    (fun _ d' t' => t' = t /\ errors d' = form_errors f /\ (errors d' = [] <-> complete = true) /\
       showConfirmation d' = showConfirmation d || complete)
    (fun _ _ _ => False) d t.
Proof.
  intros f complete.
  assert ((match form_errors f with [] => true | _ => false end) = complete) as E.
  { unfold form_errors, complete, push_if.
    destruct (trim (tokenName f) =? EmptyString), (trim (tokenSymbol f) =? EmptyString), (bad_supply (maxSupply f)),
      (bad_supply (initialSupply f)), (termsAccepted f); reflexivity. }
  assert (form_errors f = [] <-> complete = true) as Iff.
  { rewrite <- E. destruct (form_errors f); split; congruence. }
  unfold handleConfirmCreation, validateInputs. apply wp_bind, wp_bind, wp_read, wp_bind, wp_modify, wp_ret. fold f. rewrite E.
  destruct complete; wp_auto; cbn; repeat split; try apply Iff; try tauto.
  - symmetry. apply orb_true_r.
  - symmetry. apply orb_false_r.
Qed.

(** Paying ends: whatever the price service, the payment and the parent's
    callbacks do, the page is no longer submitting afterwards, and the
    selection, the form and the fee on display are those of before. *)
Theorem fee_process_settles `{Env} system hs he d t :
  wp (handleProcessCreation system hs he)
    (fun _ d' _ => isSubmitting d' = false /\ selectedAddOns d' = selectedAddOns d /\ inputs d' = inputs d /\ fees d' = fees d)
    (fun _ d' _ => isSubmitting d' = false /\ selectedAddOns d' = selectedAddOns d /\ inputs d' = inputs d /\ fees d' = fees d) d t.
Proof.
  eapply wp_mono; [..|apply (process_keeps (fun d' => selectedAddOns d' = selectedAddOns d /\ inputs d' = inputs d /\ fees d' = fees d))];
    cbn beta; try tauto; cbn; auto.
Qed.

(** Where state updates are batched, the fee is always one price behind:
    after a price has arrived the totals are those of the price before, so
    that the first price of a page leaves the total at zero SHAH. *)
Theorem batched_fee_lags `{Env} system hs he d t :
  wp (run system true hs he Fetch)
    (fun _ d' t' =>
       (exists price, oracle_quoted (config system) t t' price /\ currentShahPrice (fees d') = price /\
          totalFeeUSD (fees d') = totalFeeUSD (fees (calculateTotalFee d d)) /\
          totalFeeSHAH (fees d') = totalFeeSHAH (fees (calculateTotalFee d d)) /\
          (js_le (currentShahPrice (fees d)) (vnum 0) = true -> totalFeeSHAH (fees d') = totalFeeSHAH (fees d))) \/
       errors d' = ["Failed to fetch SHAH price. Please try again."] /\ totalFeeSHAH (fees d') = totalFeeSHAH (fees d))
    (fun _ _ _ => False) d t.
Proof.
  cbn [run]. unfold fetchShahPrice. apply wp_bind, wp_modify, wp_try_catch, wp_bind.
  eapply wp_mono; [..|apply shah_price_spec]; cbn beta.
  - intros price d' t' (-> & Q). wp_auto. left. exists price. split; [exact Q|]. unfold calculateTotalFee. cbn.
    destruct (js_le (currentShahPrice (fees d)) (vnum 0)); cbn; repeat split. congruence.
  - intros e d' t' (-> & _). wp_auto. right. split; reflexivity.
Qed.

(** A page for the witnesses: a price of two dollars, one add-on selected. *)
Definition two_dollars : Env := {|
  reply _ op _ := Ok (if op =? "Response.json" then VObj [("shah", VObj [("usd", vnum 2)])] else VObj []);
  clock _ := Num.zero; random _ := Num.zero |}.

Definition system0 : TokenMonetizationSystem.t :=
  match constructor (VObj [("stripePublicKey", VStr "pk")]) with Ok s => s | Throw _ => Build [] [] [] end.

Definition page : dialog * trace :=
  let go := after_op (run (H := two_dollars) system0 false false false) in go (Toggle "verifiedBadge") (go Fetch (dialog0, [])).

Lemma page_steps : steps (machine_step (run (H := two_dollars) system0 false false false) (enabled system0)) (dialog0, []) (fst page, snd page).
Proof.
  rewrite <- surjective_pairing. unfold page.
  eapply steps_trans; [|apply steps_one, after_op_step; vm_compute; auto].
  apply steps_one, after_op_step. exact I.
Qed.

Lemma fee_shown_is_quoted_witness :
  totalFeeUSD (fees (fst page)) = Num.of_Z 69 /\ totalFeeSHAH (fees (fst page)) = VNum (Num.dec 345 1) /\
  wp (calculateTotalPrice (H := two_dollars) system0 (VArr [VStr "verifiedBadge"]) VUndef)
    (fun quote _ _ => get_opt quote "totalUSD" = VNum (totalFeeUSD (fees (fst page))))
    (fun e _ _ => e = Error "Unable to fetch current SHAH price") tt [].
Proof.
  split; [vm_compute; reflexivity|]. split; [vm_compute; reflexivity|].
  exact (proj2 (fee_shown_is_quoted (H := two_dollars) (VObj [("stripePublicKey", VStr "pk")]) system0 false false (fst page) (snd page)
    eq_refl page_steps eq_refl) unit tt []).
Defined.
