(* ===== verification/FeeViews.v ===== *)
(** * The fee explanation on the screen

    The [render] method of [TokenCreationFeeExplanation]
    (TokenCreationFeeExplanation.js) over the state of FeeExplanation, and what
    the page offers: every action is an operation of the machine there, so its
    theorems are about what a user of the page can do. *)

From Stdlib Require Import ZArith Bool List String.
From S2P Require Import Prelude JsNum JsVal JsMonad Machine Payments TokenMonetization FeeExplanation Jsx DialogViews.
Import ListNotations.
Local Open Scope string_scope.

(** The operations of the page, and leaving it. *)
Inductive action : Type := Act (o : op) | Leave.

Notation page := (html action).

(** [handleInputChange(field, value)]. *)
Definition edit_name (v : jsval) (f : form) : form := Form (to_str v) (tokenSymbol f) (decimals f) (maxSupply f) (initialSupply f) (termsAccepted f).
Definition edit_symbol (v : jsval) (f : form) : form := Form (tokenName f) (toUpperCase (to_str v)) (decimals f) (maxSupply f) (initialSupply f) (termsAccepted f).
Definition edit_decimals (v : jsval) (f : form) : form := Form (tokenName f) (tokenSymbol f) (VNum (parseInt (to_str v))) (maxSupply f) (initialSupply f) (termsAccepted f).
Definition edit_maxSupply (v : jsval) (f : form) : form := Form (tokenName f) (tokenSymbol f) (decimals f) (to_str v) (initialSupply f) (termsAccepted f).
Definition edit_initialSupply (v : jsval) (f : form) : form := Form (tokenName f) (tokenSymbol f) (decimals f) (maxSupply f) (to_str v) (termsAccepted f).
Definition edit_terms (v : jsval) (f : form) : form := Form (tokenName f) (tokenSymbol f) (decimals f) (maxSupply f) (initialSupply f) (truthy v).

Definition edits (edit : jsval -> form -> form) : string * attr action := onChange (fun v => Act (Edit (edit v))).

Section View.
Context (system : TokenMonetizationSystem.t) (d : dialog).

Definition standard : string := "SHI-20 is the official user token standard on Shahcoin (like ERC-20 on Ethereum).".

Definition input_group (id label kind placeholder : string) (value : jsval) (edit : jsval -> form -> form) : page :=
  el "div" [cls "form-group"] [
    el "label" [prop "htmlFor" (VStr id)] [txt label];
    el "input" [prop "type" (VStr kind); prop "id" (VStr id); prop "value" value; edits edit; prop "placeholder" (VStr placeholder); cls "form-input"] []].

Definition decimals_group : page :=
  el "div" [cls "form-group"] [
    el "label" [prop "htmlFor" (VStr "decimals")] [txt "Decimals:"];
    el "select" [prop "id" (VStr "decimals"); prop "value" (decimals (inputs d)); edits edit_decimals; cls "form-select"] [
      each (seq 0 19) (fun _ i => let v := vnum (Z.of_nat i) in el "option" [prop "key" v; prop "value" v] [dyn v])]].

Definition config_section : page :=
  let f := inputs d in
  el "div" [cls "token-config-section"] [
    el "h3" [prop "title" (VStr standard)] [txt "SHI-20 Token Configuration"];
    el "div" [cls "form-grid"] [
      input_group "tokenName" "Token Name:" "text" "My Awesome Token" (VStr (tokenName f)) edit_name;
      input_group "tokenSymbol" "Token Symbol:" "text" "MAT" (VStr (tokenSymbol f)) edit_symbol;
      decimals_group;
      input_group "maxSupply" "Max Supply:" "number" "1000000" (VStr (maxSupply f)) edit_maxSupply;
      input_group "initialSupply" "Initial Supply:" "number" "100000" (VStr (initialSupply f)) edit_initialSupply]].

Definition fee_label (label info : string) : page :=
  el "div" [cls "fee-label"] [el "span" [] [txt label]; el "button" [cls "info-button"; prop "title" (VStr info)] [txt "ⓘ"]].

Definition total : page :=
  let shah := totalFeeSHAH (fees d) in
  fragment [txt "$"; fixed "totalFeeUSD" (VNum (totalFeeUSD (fees d))) 2; txt " (";
            if js_gt shah (vnum 0) then fixed "(totalFeeSHAH + 0.001)" (js_add shah (VNum (Num.dec 1 3))) 6 else txt "0.000000"; txt " SHAH)"].

Definition fee_section : page :=
  let price := currentShahPrice (fees d) in
  el "div" [cls "fee-explanation-section"] [
    el "h3" [] [txt "Fee Explanation"];
    el "div" [cls "fee-breakdown"] [
      el "div" [cls "fee-item"] [
        fee_label "Token Creation Fee:" "Token fee is for ShahFactory setup and verification";
        el "div" [cls "fee-amount"] [
          if js_gt price (vnum 0) then
            el "span" [] [txt "$49 worth of SHAH ("; fixed "(49 / currentShahPrice)" (js_div (vnum 49) price) 6; txt " SHAH) - calculated live via ShahSwap"]
          else el "span" [] [txt "$49 worth of SHAH (calculating...)"]]];
      el "div" [cls "fee-item"] [
        fee_label "Blockchain Transaction Fee:" "TX fee is standard miner cost to record on blockchain";
        el "div" [cls "fee-amount"] [el "span" [] [txt "~0.001 SHAH paid to miners"]]];
      el "div" [cls "fee-total"] [el "span" [] [txt "Total Fee:"]; el "span" [cls "total-amount"] [total]]];
    el "button" [cls "calculate-fee-button"; onClick [Act Fetch]; prop "disabled" (VBool (isCalculating (fees d)))] [
      txt (if isCalculating (fees d) then "Calculating..." else "Calculate Fee")]].

Definition addOns_section : page :=
  el "div" [cls "add-ons-section"] [
    el "h3" [] [txt "Premium Add-ons (Optional)"];
    el "div" [cls "add-ons-grid"] [
      each (TokenMonetizationSystem.getPremiumAddOns system) (fun _ '(key, a) =>
        el "div" [prop "key" (VStr key); cls "add-on-item"] [
          el "label" [cls "add-on-checkbox"] [
            el "input" [prop "type" (VStr "checkbox"); prop "checked" (VBool (mem_string key (selectedAddOns d))); onChange (fun _ => Act (Toggle key))] [];
            el "div" [cls "add-on-content"] [
              el "h4" [] [field a "name"; txt " (+$"; field a "priceUSD"; txt ")"];
              el "p" [] [field a "description"]]]])]].

Definition terms_section : page :=
  el "div" [cls "terms-section"] [
    el "label" [cls "terms-checkbox"] [
      el "input" [prop "type" (VStr "checkbox"); prop "checked" (VBool (termsAccepted (inputs d))); edits edit_terms] [];
      el "span" [] [txt "I understand this is a permanent blockchain action"]]].

Definition page_buttons : page :=
  el "div" [cls "action-buttons"] [
    el "button" [cls "btn-secondary"; onClick [Leave]] [txt "Cancel"];
    el "button" [cls "btn-primary"; onClick [Act Confirm]; prop "disabled" (VBool ((0 <? List.length (errors d))%nat || negb (termsAccepted (inputs d))))] [
      txt "Confirm & Create SHI-20 Token"]].

Definition summary_item (label : string) (value : page) : page :=
  el "div" [cls "summary-item"] [el "span" [] [txt label]; el "span" [] [value]].

(** [selectedAddOns.map(addOn => addOns[addOn].name).join(', ')]. *)
Definition addOn_names : page :=
  res_bind (map_result (fun key => get (obj_get (TokenMonetizationSystem.getPremiumAddOns system) key) "name") (selectedAddOns d)) (fun names =>
  txt (String.concat ", " (map to_str names))).

Definition confirmation : page :=
  let f := inputs d in
  el "div" [cls "confirmation-modal-overlay"] [
    el "div" [cls "confirmation-modal"] [
      el "div" [cls "confirmation-header"] [el "h3" [] [txt "Confirm Token Creation"]];
      el "div" [cls "confirmation-content"] [
        el "div" [cls "confirmation-summary"] [
          el "h4" [] [txt "SHI-20 Token Summary:"];
          summary_item "Name:" (txt (tokenName f));
          summary_item "Symbol:" (txt (tokenSymbol f));
          summary_item "Decimals:" (dyn (decimals f));
          summary_item "Max Supply:" (txt (maxSupply f));
          summary_item "Initial Supply:" (txt (initialSupply f))];
        el "div" [cls "confirmation-fees"] [
          el "h4" [] [txt "Fee Summary:"];
          summary_item "Payment Method:" (dyn (obj_get (TokenMonetizationSystem.getPaymentMethods system) (paymentMethod d)));
          summary_item "Total Fee:" total;
          when (0 <? List.length (selectedAddOns d))%nat (summary_item "Add-ons:" addOn_names)];
        el "div" [cls "confirmation-warning"] [el "p" [] [txt "⚠️ This action will create a permanent SHI-20 token on the Shahcoin blockchain."]]];
      el "div" [cls "confirmation-actions"] [
        el "button" [cls "btn-secondary"; onClick [Act FeeExplanation.Cancel]; prop "disabled" (VBool (isSubmitting d))] [txt "Cancel"];
        el "button" [cls "btn-primary"; onClick [Act Process]; prop "disabled" (VBool (isSubmitting d))] [
          txt (if isSubmitting d then "Creating SHI-20 Token..." else "Confirm & Create SHI-20 Token")]]]].

Definition render : page :=
  el "div" [cls "token-creation-fee-explanation"] [
    el "div" [cls "fee-explanation-header"] [
      el "h2" [prop "title" (VStr standard)] [txt "Create Your SHI-20 Token"];
      el "p" [] [txt "Configure your SHI-20 token and review fees before creation"]];
    error_list (errors d);
    config_section;
    fee_section;
    method_list "payment-method-section" (fun v => Act (Method (to_str v))) (TokenMonetizationSystem.getPaymentMethods system) (VStr (paymentMethod d));
    addOns_section;
    terms_section;
    page_buttons;
    when (showConfirmation d) confirmation].

End View.

(** ** What the page offers *)

Section Offers.
Context (system : TokenMonetizationSystem.t) (d : dialog).

Definition edit_offers : list (happening action) :=
  map (fun e => Entered (fun v => Act (Edit (e v)))) [edit_name; edit_symbol; edit_decimals; edit_maxSupply; edit_initialSupply].

Definition page_offers : list (happening action) :=
  edit_offers ++
  (if isCalculating (fees d) then [] else [Clicked [Act Fetch]]) ++
  map (fun p => Entered (fun _ => Act (Method (fst p)))) (TokenMonetizationSystem.getPaymentMethods system) ++
  map (fun p => Entered (fun _ => Act (Toggle (fst p)))) (TokenMonetizationSystem.getPremiumAddOns system) ++
  [Entered (fun v => Act (Edit (edit_terms v)))] ++
  [Clicked [Leave]] ++
  (if (0 <? List.length (errors d))%nat || negb (termsAccepted (inputs d)) then [] else [Clicked [Act Confirm]]) ++
  (if showConfirmation d && negb (isSubmitting d) then [Clicked [Act FeeExplanation.Cancel]; Clicked [Act Process]] else []).

(** A control without handlers inside. *)
Lemma input_hears id label kind placeholder value edit :
  hears Bubbling [] (input_group id label kind placeholder value edit) [Entered (fun v => Act (Edit (edit v)))].
Proof using Type. eapply hears_iff; [unfold input_group; hears|]. intros e N. cbn. intuition congruence. Qed.

Lemma decimals_hears : hears Bubbling [] (decimals_group d) [Entered (fun v => Act (Edit (edit_decimals v)))].
Proof using Type.
  unfold decimals_group. eapply hears_iff; [apply hears_box; [reflexivity..|]; apply Forall2_cons; [hears|]; apply Forall2_cons, Forall2_nil;
    eapply hears_el; [reflexivity|]; apply Forall2_cons, Forall2_nil; apply (hears_each _ _ _ _ (fun _ => [])); intros; eapply hears_iff; [boxes|listed]|].
  intros e N. cbn. intuition congruence.
Qed.
Hint Resolve input_hears decimals_hears : hears.

Lemma config_hears : hears Bubbling [] (config_section d) edit_offers.
Proof using Type. eapply hears_iff; [unfold config_section; boxes|listed]. Qed.

Ltac passively defs := apply hears_passive; defs; red; throughout ltac:(reflexivity).

Lemma fee_hears : hears Bubbling [] (fee_section d) (if isCalculating (fees d) then [] else [Clicked [Act Fetch]]).
Proof using Type.
  eapply hears_iff; [unfold fee_section; apply hears_box; [reflexivity..|]; apply Forall2_cons; [hears|]; apply Forall2_cons;
    [passively ltac:(unfold fee_label, total, fixed)|]; apply Forall2_cons, Forall2_nil; hears|].
  intros e N. cbn. destruct (isCalculating (fees d)); cbn; intuition congruence.
Qed.

Lemma addOns_hears :
  hears Bubbling [] (addOns_section system d) (map (fun p => Entered (fun _ => Act (Toggle (fst p)))) (TokenMonetizationSystem.getPremiumAddOns system)).
Proof using Type.
  eapply hears_iff; [unfold addOns_section; boxes; apply (each_offers _ _ (fun p => Entered (fun _ => Act (Toggle (fst p))))); intros i [key a]|listed].
  eapply hears_iff; [hears|]. intros e N. cbn. intuition congruence.
Qed.

Lemma terms_hears : hears Bubbling [] (terms_section d) [Entered (fun v => Act (Edit (edit_terms v)))].
Proof using Type. eapply hears_iff; [unfold terms_section; hears|]. intros e N. cbn. intuition congruence. Qed.

Lemma page_buttons_hears :
  hears Bubbling [] (page_buttons d)
    (Clicked [Leave] :: if (0 <? List.length (errors d))%nat || negb (termsAccepted (inputs d)) then [] else [Clicked [Act Confirm]]).
Proof using Type.
  eapply hears_iff; [unfold page_buttons; apply hears_box; [reflexivity..|]; hears|]. intros e N. cbn -[In].
  destruct (_ || _); cbn; intuition congruence.
Qed.

Lemma confirmation_hears :
  hears Bubbling [] (confirmation system d) (if isSubmitting d then [] else [Clicked [Act FeeExplanation.Cancel]; Clicked [Act Process]]).
Proof using Type.
  eapply hears_iff; [unfold confirmation; apply hears_box; [reflexivity..|]; apply Forall2_cons, Forall2_nil; apply hears_box; [reflexivity..|];
    apply Forall2_cons; [boxes|]; apply Forall2_cons; [passively ltac:(unfold summary_item, total, fixed, addOn_names)|];
    apply Forall2_cons, Forall2_nil; apply hears_box; [reflexivity..|]; hears|].
  intros e N. cbn -[In]. destruct (isSubmitting d); cbn; intuition congruence.
Qed.
Hint Resolve config_hears fee_hears addOns_hears terms_hears page_buttons_hears confirmation_hears error_list_hears methods_hears : hears.

Lemma render_page_hears : hears Bubbling [] (render system d) page_offers.
Proof using Type.
  eapply hears_iff; [unfold render; boxes|]. intros e N. unfold page_offers. cbn [List.concat app to_str]. rewrite !app_nil_r.
  destruct (showConfirmation d), (isSubmitting d); cbn [andb negb]; reflexivity.
Qed.
End Offers.

(** ** Runs of the page *)

Section Runs.
Context `{Env} (cfg : jsval) (system : TokenMonetizationSystem.t) (batched hs he : bool).
Hypothesis built : TokenMonetizationSystem.constructor cfg = Ok system.

(** The operations the page offers. *)
Definition on_page (o : op) (d : dialog) : Prop := exists ns, render system d = Ok ns /\ offered Bubbling ns [Act o].

(** What is shown as a number is one, and what is selected is in the
    catalogue. *)
Definition presentable (d : dialog) : Prop :=
  (exists n, totalFeeSHAH (fees d) = VNum n) /\ (exists n, decimals (inputs d) = VNum n) /\ incl (selectedAddOns d) addOn_keys.

Definition edit_ok (o : op) : Prop := match o with Edit f => forall i, (exists n, decimals i = VNum n) -> exists n, decimals (f i) = VNum n | _ => True end.

Lemma system_tables :
  TokenMonetizationSystem.premiumAddOns system = TokenMonetizationSystem.premiumAddOns0 /\ TokenMonetizationSystem.paymentMethods system = TokenMonetizationSystem.paymentMethods0.
Proof using built.
  revert built. unfold TokenMonetizationSystem.constructor. destruct (get _ "stripePublicKey"); [|discriminate]. intros [= <-]. auto.
Qed.

Lemma on_page_enabled o d : on_page o d -> enabled system o d /\ edit_ok o.
Proof using built.
  intros (ns & E & O). rewrite (hears_offered _ _ _ _ _ (render_page_hears system d) E) in O. destruct O as (_ & e & I & P).
  unfold page_offers, edit_offers in I. rewrite !in_app_iff, !in_map_iff in I.
  destruct I as [I|[I|[I|[I|[I|[I|[I|I]]]]]]].
  - destruct I as (x & <- & Ix). destruct P as (v & [= ->]). cbn. split; [exact Logic.I|]. cbn in Ix. intuition subst; cbn; eauto.
  - destruct (isCalculating (fees d)); [destruct I|]. destruct I as [<-|[]]. injection P as ->. cbn. auto.
  - destruct I as (x & <- & Ix). destruct P as (v & [= ->]). cbn. auto.
  - destruct I as (x & <- & Ix). destruct P as (v & [= ->]). cbn. auto using in_map.
  - destruct I as [<-|[]]. destruct P as (v & [= ->]). cbn. auto.
  - destruct I as [<-|[]]. discriminate P.
  - destruct (_ || _); [destruct I|]. destruct I as [<-|[]]. injection P as ->. cbn. auto.
  - destruct (showConfirmation d) eqn:S, (isSubmitting d) eqn:U; try (destruct I; fail). destruct I as [<-|[<-|[]]]; injection P as ->; cbn; auto.
Qed.

Lemma calculated_presentable seen d : presentable d -> presentable (calculateTotalFee seen d).
Proof using Type. intros P. unfold calculateTotalFee. destruct (js_le _ _); [exact P|]. destruct P as (_ & D & I). split; [eexists; reflexivity|]. split; assumption. Qed.

Lemma run_presentable o d t : enabled system o d -> edit_ok o -> presentable d -> wp (run system batched hs he o) (fun _ d' _ => presentable d') (fun _ d' _ => presentable d') d t.
Proof using built.
  intros En Eo P. pose proof P as (S & D & I). destruct o; cbn [run].
  - unfold fetchShahPrice. apply wp_bind, wp_modify, wp_try_catch, wp_bind, wp_pure; [apply getShahPrice_pure|intros; wp_auto..]; [|exact P].
    apply calculated_presentable. exact P.
  - unfold handleInputChange, validateInputs. wp_auto. split; [exact S|]. split; [apply Eo, D|exact I].
  - unfold handleAddOnToggle. wp_auto. apply calculated_presentable. split; [exact S|]. split; [exact D|]. apply toggle_incl; [|exact I].
    cbn in En. rewrite (proj1 system_tables) in En. exact En.
  - unfold handlePaymentMethodChange. wp_auto. exact P.
  - unfold handleConfirmCreation, validateInputs. wp_auto; exact P.
  - unfold handleCancelConfirmation. wp_auto. exact P.
  - eapply wp_mono; [..|apply (process_keeps presentable)]; cbn beta; auto; tauto.
Qed.

Lemma total_reads d n : totalFeeSHAH (fees d) = VNum n -> exists rest, total d = Ok (Txt "$" :: Txt (Num.to_fixed (totalFeeUSD (fees d)) 2) :: rest).
Proof using Type. intros E. unfold total. rewrite E. destruct (js_gt (VNum n) (vnum 0)); eexists; reflexivity. Qed.

Lemma names_shown d : incl (selectedAddOns d) addOn_keys -> exists s, addOn_names system d = Ok [Txt s].
Proof using built.
  intros I. unfold addOn_names, TokenMonetizationSystem.getPremiumAddOns. rewrite (proj1 system_tables).
  assert (exists l, map_result (fun key => get (obj_get TokenMonetizationSystem.premiumAddOns0 key) "name") (selectedAddOns d) = Ok l) as [l ->]; [|eexists; reflexivity].
  induction (selectedAddOns d) as [|k ks IH]; [eexists; reflexivity|]. destruct IH as [l El]; [intros x X; apply I; right; exact X|].
  cbn [map_result]. rewrite El. destruct (I k (or_introl eq_refl)) as [<-|[<-|[<-|[<-|[]]]]]; eexists; reflexivity.
Qed.

Lemma confirmation_shown d : presentable d -> outcome (confirmation system d) = None.
Proof using built.
  intros ((n & En) & (k & Ek) & I). destruct (total_reads d n En) as [rest Et]. destruct (names_shown d I) as [names Es].
  unfold confirmation, summary_item. autorewrite with outcome. rewrite Et, Es, Ek. cbn. rewrite if_none. cbn.
  unfold TokenMonetizationSystem.getPaymentMethods. rewrite (proj2 system_tables). unfold obj_get, own. cbn [assoc TokenMonetizationSystem.paymentMethods0].
  destruct (_ =? "shah"); [reflexivity|]. destruct (_ =? "shahToken"); [reflexivity|]. destruct (_ =? "stripe"); [reflexivity|].
  unfold inherited. destruct (mem_string _ _); reflexivity.
Qed.

Lemma fee_section_shown d n : totalFeeSHAH (fees d) = VNum n -> outcome (fee_section d) = None.
Proof using Type.
  intros E. destruct (total_reads d n E) as [rest Et]. unfold fee_section, fee_label. autorewrite with outcome. rewrite Et. reflexivity.
Qed.

Lemma presentable_shown d : presentable d -> exists ns, render system d = Ok ns.
Proof using built.
  intros P. apply outcome_shown. pose proof (confirmation_shown d P) as Ec. destruct P as ((n & En) & _ & _).
  unfold render. autorewrite with outcome. rewrite errors_shown, (fee_section_shown d n En), Ec, if_none.
  unfold config_section, decimals_group, input_group, terms_section, page_buttons, addOns_section, method_list.
  unfold TokenMonetizationSystem.getPaymentMethods, TokenMonetizationSystem.getPremiumAddOns. rewrite (proj1 system_tables), (proj2 system_tables).
  autorewrite with outcome. reflexivity.
Qed.

Lemma offered_on_page o d e : presentable d -> In e (page_offers system d) -> performs e [Act o] -> on_page o d.
Proof using built.
  intros P I Pe. destruct (presentable_shown d P) as [ns E]. exists ns. split; [exact E|].
  rewrite (hears_offered _ _ _ _ _ (render_page_hears system d) E). split; [discriminate|eauto].
Qed.

Definition along (d : dialog) (t : trace) : Prop := presentable d /\ (batched = false -> FeeExplanation.shown d).

Lemma run_along o d t : on_page o d -> along d t -> wp (run system batched hs he o) (fun _ => along) (fun _ => along) d t.
Proof using built.
  unfold along. intros O [P S]. destruct (on_page_enabled o d O) as [En Eo]. pose proof (run_presentable o d t En Eo P) as W.
  destruct batched; [eapply wp_mono; [..|exact W]; cbn beta; intros; (split; [assumption|discriminate])|].
  pose proof (run_shown system hs he o d t (proj1 system_tables) En (S eq_refl)) as V.
  eapply wp_mono; [..|exact (wp_and _ _ _ _ _ _ _ W V)]; cbn beta; intros ? ? ? [? ?]; split; auto.
Qed.

Lemma page_along d t : steps (machine_step (run system batched hs he) on_page) (dialog0, []) (d, t) -> along d t.
Proof using built.
  intros St. refine (machine_invariant _ _ along run_along _ _ _ _ St _). split.
  - split; [eexists; reflexivity|]. split; [eexists; reflexivity|intros x []].
  - intros _. split; [apply NoDup_nil|]. split; [intros x []|discriminate].
Qed.
End Runs.

(** ** Theorems *)


(** The page of the witness: a price of two dollars, the badge ticked. *)
Definition fee_demo : dialog * trace := play (run (H := two_dollars) system0 false false false) [Fetch; Toggle "verifiedBadge"] (dialog0, []).

Lemma fee_demo_steps : steps (machine_step (run (H := two_dollars) system0 false false false) (on_page system0)) (dialog0, []) (fst fee_demo, snd fee_demo).
Proof.
  rewrite <- surjective_pairing. apply play_steps. cbn [playable]. split; [|split; [|exact I]].
  - apply (offered_on_page (VObj [("stripePublicKey", VStr "pk")]) system0 eq_refl _ _ (Clicked [Act Fetch])); [|cbn; auto 10|reflexivity].
    split; [eexists; reflexivity|]. split; [eexists; reflexivity|intros x []].
  - apply (offered_on_page (VObj [("stripePublicKey", VStr "pk")]) system0 eq_refl _ _ (Entered (fun _ => Act (Toggle "verifiedBadge")))); [|do 3 (apply in_or_app; right); apply in_or_app; left; right; left; reflexivity|exists VUndef; reflexivity].
    split; [eexists; reflexivity|]. split; [eexists; reflexivity|intros x []].
Qed.

