(* ===== verification/Marketplace.v ===== *)
(** * The NFT marketplace views

    [MarketplaceUtils] and [useMarketplace] of
    src/sdk-core/marketplace-ui/index.js, and the data handling of
    WebMarketplace.js and MobileMarketplace.js in the same directory, which
    share their code up to the alert function.  The marketplace API, the wallet
    provider and the parent's callbacks are the environment.

    Two parts of the platform are arguments: [date], the time value of
    [new Date(v)] for a text (its grammar is the engine's beyond ISO dates),
    and [engine_sort], the engine's sorting algorithm.  The comparator of the source
    never returns zero, so the language leaves the order of equal keys, and
    the algorithm, open; [SortLaws] states what any engine guarantees. *)

From Stdlib Require Import ZArith Bool Lia List String Permutation Sorted.
From S2P Require Import Prelude JsNum JsNumFacts JsVal JsFormat JsMonad Machine Sorts.
Import ListNotations.
Local Open Scope string_scope.

(** ** Utilities *)

Definition formatPrice (satoshis : num) : string :=
  Num.to_fixed (Num.div satoshis (Num.of_Z 100000000)) 8 ++ " SHAH".

Definition last_string (n : nat) (s : string) : string := drop_string (String.length s - n) s.

(** [`${address.slice(0, 6)}...${address.slice(-4)}`]. *)
Definition shorten (address : string) : string := take_string 6 address ++ "..." ++ last_string 4 address.

Definition utils_formatAddress (address : string) : string :=
  if (address =? EmptyString) || (String.length address <? 8)%nat then address else shorten address.

(** The missing ones of the required properties. *)
Definition missing_fields (required : list string) (v : jsval) : result (list string) :=
  res_bind (get v (hd EmptyString required)) (fun _ =>
  Ok (filter (fun k => negb (truthy (get_opt v k))) required)).

Definition validateNFTData (nft : jsval) : result bool :=
  res_bind (missing_fields ["id"; "name"; "description"; "imageUrl"; "creator"; "owner"] nft) (fun missing =>
  match missing with
  | [] => Ok true
  | _ => Throw (Error ("Missing required NFT fields: " ++ join ", " missing))
  end).

Definition validateConfig (config : jsval) : result bool :=
  res_bind (missing_fields ["apiBaseUrl"; "walletAddress"] config) (fun missing =>
  match missing with
  | [] => Ok true
  | _ => Throw (Error ("Missing required configuration: " ++ join ", " missing))
  end).

Fixpoint distinct (l : list string) : list string :=
  match l with
  | [] => []
  | x :: l' => if mem_string x l' then distinct l' else x :: distinct l'
  end.

Definition calculateRarityScore (nft : jsval) : result num :=
  res_bind (get nft "traits") (fun traits =>
  if negb (truthy traits) then Ok Num.zero
  else
    res_bind (get traits "length") (fun len =>
    if strict_eq len (vnum 0) then Ok Num.zero
    else
      res_bind (as_array "nft.traits" "map" traits) (fun l =>
      res_bind (map_result (fun t => res_bind (get t "type") (fun ty => Ok (to_str ty ++ ":" ++ to_str (get_opt t "value")))) l) (fun names =>
      Ok (Num.div (Num.mul (to_num len) (Num.of_Z (Z.of_nat (List.length (distinct names))))) (Num.of_Z 100)))))).

(** ** Filters

    A filter runs a sequence of stages over the list: each one is active when
    its setting is truthy, and keeps the NFTs its callback accepts. *)

Definition stage : Type := jsval * (jsval -> result bool).

Fixpoint run_stages (stages : list stage) (nfts : list jsval) : result (list jsval) :=
  match stages with
  | [] => Ok nfts
  | (setting, keep) :: rest =>
      res_bind (if truthy setting then filter_result keep nfts else Ok nfts) (run_stages rest)
  end.

(** [nft.k.toLowerCase().includes(query)]. *)
Definition field_includes (k query : string) (nft : jsval) : result bool :=
  res_bind (get nft k) (fun v =>
  res_bind (as_string ("nft." ++ k) "toLowerCase" v) (fun s => Ok (includes (toLowerCase s) query))).

(** [nft.category?.toLowerCase().includes(query)]. *)
Definition category_includes_opt (query : string) (nft : jsval) : result bool :=
  res_bind (get nft "category") (fun v => if nullish v then Ok false else field_includes "category" query nft).

Definition or_else (a b : result bool) : result bool := res_bind a (fun x => if x then Ok true else b).

Definition search_keep (category : string -> jsval -> result bool) (query : string) (nft : jsval) : result bool :=
  or_else (field_includes "name" query nft)
    (or_else (field_includes "description" query nft)
      (or_else (field_includes "creator" query nft) (category query nft))).

Definition field_is (k : string) (x : jsval) (nft : jsval) : result bool :=
  res_bind (get nft k) (fun v => Ok (strict_eq v x)).
Definition field_truthy (k : string) (nft : jsval) : result bool := res_bind (get nft k) (fun v => Ok (truthy v)).
Definition price_at_least (x : jsval) (nft : jsval) : result bool := res_bind (get nft "listPriceSatoshis") (fun v => Ok (js_ge v x)).
Definition price_at_most (x : jsval) (nft : jsval) : result bool := res_bind (get nft "listPriceSatoshis") (fun v => Ok (js_le v x)).

(** [traits.every(trait => nft.traits && nft.traits.some(...))]. *)
Definition has_traits (traits : list jsval) (nft : jsval) : result bool :=
  every_result (fun trait =>
    res_bind (get nft "traits") (fun ts =>
    if negb (truthy ts) then Ok false
    else
      res_bind (as_array "nft.traits" "some" ts) (fun l =>
      some_result (fun nftTrait =>
        res_bind (get nftTrait "type") (fun ty =>
        res_bind (get trait "type") (fun ty' =>
        Ok (strict_eq ty ty' && strict_eq (get_opt nftTrait "value") (get_opt trait "value"))))) l))) traits.

(** The filter settings of the web and mobile views. *)
Record filters : Type := Filters {
  category : string; creator : string; minPrice : string; maxPrice : string;
  verifiedOnly : bool; myNFTsOnly : bool; favoritedOnly : bool; hasUnlockableContent : bool; isTradeLocked : bool;
  minMintDate : option num; maxMintDate : option num; traits : list jsval; sortBy : string; sortOrder : string
}.

Definition filters0 : filters :=
  Filters EmptyString EmptyString EmptyString EmptyString true false false false false None None [] "price" "asc".

(** A [Date] object and the time value a comparison reads from it. *)
Definition Date (time : num) : jsval := VObj [("[[DateValue]]", VNum time)].
Definition date_value (v : jsval) : num := match v with VObj o => to_num (obj_get o "[[DateValue]]") | _ => to_num v end.

Section Engine.
Context (date : jsval -> num).
Context (engine_sort : (jsval * jsval -> jsval * jsval -> bool) -> list (jsval * jsval) -> list (jsval * jsval)).

Definition minted_from (x : num) (nft : jsval) : result bool := res_bind (get nft "mintDate") (fun v => Ok (Num.geb (date v) x)).
Definition minted_to (x : num) (nft : jsval) : result bool := res_bind (get nft "mintDate") (fun v => Ok (Num.leb (date v) x)).

(** The stages of [MarketplaceUtils.filterNFTs(nfts, filters)]. *)
Definition utils_stages (f : jsval) (search : string) : list stage :=
  let on := get_opt f in
  [(on "search", search_keep category_includes_opt (toLowerCase search));
   (on "category", field_is "category" (on "category"));
   (on "creator", field_is "creator" (on "creator"));
   (on "minPrice", price_at_least (on "minPrice"));
   (on "maxPrice", price_at_most (on "maxPrice"));
   (on "verifiedOnly", field_truthy "isVerified");
   (on "owner", field_is "owner" (on "owner"));
   (on "favoritedOnly", field_truthy "isFavorited");
   (on "hasUnlockableContent", field_truthy "hasUnlockableContent");
   (on "isTradeLocked", field_truthy "isTradeLocked");
   (on "minMintDate", minted_from (date_value (on "minMintDate")));
   (on "maxMintDate", minted_to (date_value (on "maxMintDate")));
   (VBool (truthy (on "traits") && js_gt (get_opt (on "traits") "length") (vnum 0)),
    fun nft => res_bind (as_array "filters.traits" "every" (on "traits")) (fun l => has_traits l nft))].

Definition filterNFTs (nfts : list jsval) (f : jsval) : result (list jsval) :=
  let f := default f (VObj []) in
  res_bind (get f "search") (fun search =>
  res_bind (if truthy search then as_string "filters.search" "toLowerCase" search else Ok EmptyString) (fun query =>
  run_stages (utils_stages f query) nfts)).

(** The stages of [applyFilters] of the views. *)
Definition view_stages (searchQuery : string) (f : filters) (walletAddress : jsval) : list stage :=
  let date_setting d := match d with Some x => Date x | None => VNull end in
  let date_of d := match d with Some x => x | None => Num.zero end in
  [(VStr (trim searchQuery), search_keep (field_includes "category") (toLowerCase searchQuery));
   (VStr (category f), field_is "category" (VStr (category f)));
   (VStr (creator f), field_is "creator" (VStr (creator f)));
   (VStr (minPrice f), price_at_least (VNum (parseInt (minPrice f))));
   (VStr (maxPrice f), price_at_most (VNum (parseInt (maxPrice f))));
   (VBool (verifiedOnly f), field_truthy "isVerified");
   (VBool (myNFTsOnly f), field_is "owner" walletAddress);
   (VBool (favoritedOnly f), field_truthy "isFavorited");
   (VBool (hasUnlockableContent f), field_truthy "hasUnlockableContent");
   (VBool (isTradeLocked f), field_truthy "isTradeLocked");
   (date_setting (minMintDate f), minted_from (date_of (minMintDate f)));
   (date_setting (maxMintDate f), minted_to (date_of (maxMintDate f)));
   (VBool (negb (match traits f with [] => true | _ => false end)), has_traits (traits f))].

(** ** Sorting *)

Definition price_key (nft : jsval) : result jsval := res_bind (get nft "listPriceSatoshis") (fun v => Ok (js_or v (vnum 0))).

Definition lower_key (k : string) (nft : jsval) : result jsval :=
  res_bind (get nft k) (fun v => res_bind (as_string ("a." ++ k) "toLowerCase" v) (fun s => Ok (VStr (toLowerCase s)))).

Definition date_key (nft : jsval) : result jsval := res_bind (get nft "mintDate") (fun v => Ok (VNum (date v))).

Definition view_key (sortBy : string) : jsval -> result jsval :=
  if sortBy =? "price" then price_key
  else if sortBy =? "name" then lower_key "name"
  else if sortBy =? "mintDate" then date_key
  else if sortBy =? "creator" then lower_key "creator"
  else price_key.

Definition utils_key (sortBy : string) : jsval -> result jsval :=
  if sortBy =? "rarity" then fun nft => res_bind (calculateRarityScore nft) (fun x => Ok (VNum x)) else view_key sortBy.

(** Whether the comparator returns 1; otherwise it returns -1. *)
Definition after_in (sortOrder : string) (a b : jsval * jsval) : bool :=
  if sortOrder =? "asc" then js_gt (fst a) (fst b) else js_lt (fst a) (fst b).

(** The comparator runs only on a list of two or more, and then on every
    element. *)
Definition sort_by (key : jsval -> result jsval) (sortOrder : string) (nfts : list jsval) : result (list jsval) :=
  match nfts with
  | [] | [_] => Ok nfts
  | _ => res_bind (map_result key nfts) (fun keys => Ok (map snd (engine_sort (after_in sortOrder) (combine keys nfts))))
  end.

Definition sortNFTs (nfts : list jsval) (sortBy sortOrder : string) : result (list jsval) :=
  sort_by (utils_key sortBy) sortOrder nfts.

Definition applyFilters (nfts : list jsval) (searchQuery : string) (f : filters) (walletAddress : jsval) : result (list jsval) :=
  res_bind (run_stages (view_stages searchQuery f walletAddress) nfts) (sort_by (view_key (sortBy f)) (sortOrder f)).

(** ** Analytics *)

Definition day_ms : Z := (24 * 60 * 60 * 1000)%Z.

Definition since (start : num) (transactions : list jsval) : result (list jsval) :=
  filter_result (fun tx => res_bind (get tx "timestamp") (fun v => Ok (Num.geb (date v) start))) transactions.

Definition volume (transactions : list jsval) : jsval :=
  fold_left (fun sum tx => js_add sum (js_or (get_opt tx "amountSatoshis") (vnum 0))) transactions (vnum 0).

Definition average (total : jsval) (transactions : list jsval) : jsval :=
  match transactions with [] => vnum 0 | _ => js_div total (vnum (Z.of_nat (List.length transactions))) end.

(** [o[k] = (o[k] || 0) + v]. *)
Definition accumulate (o : list (string * jsval)) (k : string) (v : jsval) : list (string * jsval) :=
  obj_set k (js_add (js_or (obj_get o k) (vnum 0)) v) o.

(** A tally by a property of the items, its ten largest entries first. *)
Definition tally (k : string) (amount : jsval -> jsval) (items : list jsval) : list (string * jsval) :=
  fold_left (fun o x => let key := get_opt x k in
    if truthy key then accumulate o (to_str key) (amount x) else o) items [].

Definition top10 (name value : string) (o : list (string * jsval)) : jsval :=
  VArr (firstn 10 (map (fun '(v, e) => VObj [(name, e); (value, v)])
    (engine_sort (fun a b => Num.gtb (Num.sub (to_num (fst b)) (to_num (fst a))) Num.zero) (map (fun '(k, v) => (v, VStr k)) o)))).

Definition generateAnalytics (now : num) (nfts transactions : list jsval) : result jsval :=
  res_bind (since (Num.sub now (Num.of_Z day_ms)) transactions) (fun tx24 =>
  res_bind (since (Num.sub now (Num.of_Z (7 * day_ms))) transactions) (fun tx7d =>
  let v24 := volume tx24 in
  let v7d := volume tx7d in
  Ok (VObj [("totalVolume24h", v24); ("totalVolume7d", v7d);
            ("totalTransactions24h", vnum (Z.of_nat (List.length tx24)));
            ("totalTransactions7d", vnum (Z.of_nat (List.length tx7d)));
            ("averagePrice24h", average v24 tx24); ("averagePrice7d", average v7d tx7d);
            ("topCreators", top10 "address" "volume"
               (tally "creator" (fun tx => js_or (get_opt tx "amountSatoshis") (vnum 0)) transactions));
            ("topCategories", top10 "name" "count" (tally "category" (fun _ => vnum 1) nfts))]))).

End Engine.

(** ** Transactions *)

Section Transactions.
Context `{Env} {S : Type}.
Notation JS := (JS S).

(** Hand the data to the wallet when it can create transactions. *)
Definition with_wallet (walletProvider data : jsval) : JS jsval :=
  if truthy walletProvider && match get_opt walletProvider "createTransaction" with VFun _ => true | _ => false end
  then ext "walletProvider.createTransaction" [walletProvider; data]
  else ret data.

Definition createPurchaseTransaction (nft buyerAddress walletProvider : jsval) : JS jsval :=
  lift (validateNFTData nft) ;;;
  let* timestamp := iso_now in
  with_wallet walletProvider
    (VObj [("nftId", get_opt nft "id"); ("sellerAddress", get_opt nft "owner"); ("buyerAddress", buyerAddress);
           ("priceSatoshis", get_opt nft "listPriceSatoshis"); ("timestamp", timestamp); ("type", VStr "purchase")]).

Definition createTransferTransaction (nft fromAddress toAddress walletProvider : jsval) : JS jsval :=
  lift (validateNFTData nft) ;;;
  (if strict_eq (get_opt nft "owner") fromAddress then ret tt
   else throw (Error "NFT is not owned by the specified address")) ;;;
  let* timestamp := iso_now in
  with_wallet walletProvider
    (VObj [("nftId", get_opt nft "id"); ("fromAddress", fromAddress); ("toAddress", toAddress); ("timestamp", timestamp);
           ("type", VStr "transfer")]).

End Transactions.

(** ** The hook [useMarketplace] *)

Record hook : Type := Hook { h_nfts : jsval; h_loading : bool; h_error : jsval; h_analytics : jsval }.

Definition hook0 : hook := Hook (VArr []) true VNull VNull.

Definition set_h_nfts (v : jsval) (s : hook) : hook := Hook v (h_loading s) (h_error s) (h_analytics s).
Definition set_h_loading (b : bool) (s : hook) : hook := Hook (h_nfts s) b (h_error s) (h_analytics s).
Definition set_h_error (v : jsval) (s : hook) : hook := Hook (h_nfts s) (h_loading s) v (h_analytics s).
Definition set_h_analytics (v : jsval) (s : hook) : hook := Hook (h_nfts s) (h_loading s) (h_error s) v.

Section Hook.
Context `{Env} (config : jsval).
Notation JS := (JS hook).

Definition loadNFTs : JS unit :=
  try_finally
    (try_catch
      (modify (set_h_loading true) ;;;
       modify (set_h_error VNull) ;;;
       let* nftData := ext "marketplaceAPI.getVerifiedNFTs" [] in
       modify (set_h_nfts nftData) ;;;
       if truthy (get_opt config "enableAnalytics") then
         let* analyticsData := ext "marketplaceAPI.getAnalytics" [] in modify (set_h_analytics analyticsData)
       else ret tt)
      (fun err => modify (set_h_error (VStr (e_msg err)))))
    (modify (set_h_loading false)).

(** [catch (err) { setError(err.message); throw err; }]. *)
Definition reporting {A} (m : JS A) : JS A :=
  try_catch m (fun err => modify (set_h_error (VStr (e_msg err))) ;;; throw err).

Definition purchaseNFT (nft : jsval) : JS jsval :=
  reporting
    (let* transaction := createPurchaseTransaction nft (get_opt config "walletAddress") (get_opt config "walletProvider") in
     ext "marketplaceAPI.recordPurchase" [transaction] ;;;
     loadNFTs ;;;
     ret transaction).

Definition transferNFT (nft toAddress : jsval) : JS jsval :=
  reporting
    (let* transaction := createTransferTransaction nft (get_opt config "walletAddress") toAddress (get_opt config "walletProvider") in
     ext "marketplaceAPI.recordTransfer" [transaction] ;;;
     loadNFTs ;;;
     ret transaction).

Definition hook_toggleFavorite (nft : jsval) : JS unit :=
  reporting
    (let* id := lift (get nft "id") in
     ext "marketplaceAPI.toggleFavorite" [id; get_opt config "walletAddress"] ;;;
     loadNFTs).

End Hook.

(** ** The views *)

Record view : Type := View {
  viewMode : string; nfts : list jsval; loading : bool; selectedNFT : jsval; creatorProfiles : list (string * jsval);
  analytics : jsval; refreshing : bool }.

Definition set_viewMode (m : string) (s : view) : view :=
  View m (nfts s) (loading s) (selectedNFT s) (creatorProfiles s) (analytics s) (refreshing s).
Definition set_nfts (l : list jsval) (s : view) : view :=
  View (viewMode s) l (loading s) (selectedNFT s) (creatorProfiles s) (analytics s) (refreshing s).
Definition set_loading (b : bool) (s : view) : view :=
  View (viewMode s) (nfts s) b (selectedNFT s) (creatorProfiles s) (analytics s) (refreshing s).
Definition set_selectedNFT (v : jsval) (s : view) : view :=
  View (viewMode s) (nfts s) (loading s) v (creatorProfiles s) (analytics s) (refreshing s).
Definition set_creatorProfiles (o : list (string * jsval)) (s : view) : view :=
  View (viewMode s) (nfts s) (loading s) (selectedNFT s) o (analytics s) (refreshing s).
Definition set_analytics (v : jsval) (s : view) : view :=
  View (viewMode s) (nfts s) (loading s) (selectedNFT s) (creatorProfiles s) v (refreshing s).
Definition set_refreshing (b : bool) (s : view) : view :=
  View (viewMode s) (nfts s) (loading s) (selectedNFT s) (creatorProfiles s) (analytics s) b.

(** The two views differ in their alert function. *)
Inductive platform : Type := Web | Mobile.

Section View.
Context `{Env} (on : platform) (walletAddress : jsval).
Notation JS := (JS view).

(** [alert(text)] on the web, [Alert.alert(title, text)] on a phone. *)
Definition alert (title text : string) : JS unit :=
  fun s t => (Ok tt, s, Ev "alert" (match on with Web => [VStr text] | Mobile => [VStr title; VStr text] end) (Ok VUndef) :: t).

Definition fetch_nfts (viewMode : string) : JS jsval :=
  if viewMode =? "all" then ext "marketplaceAPI.getAllNFTs" []
  else if viewMode =? "my" then ext "marketplaceAPI.getMyNFTs" [walletAddress]
  else if viewMode =? "favorites" then ext "marketplaceAPI.getFavoritedNFTs" [walletAddress]
  else ext "marketplaceAPI.getVerifiedNFTs" [].

(** The profiles of the creators; one that cannot be loaded is left out. *)
Fixpoint load_profiles (addresses : list string) (profiles : list (string * jsval)) : JS (list (string * jsval)) :=
  match addresses with
  | [] => ret profiles
  | a :: l =>
      let* profiles := try_catch
        (let* p := ext "marketplaceAPI.getCreatorProfile" [VStr a] in ret (obj_set a p profiles))
        (fun _ => ret profiles) in
      load_profiles l profiles
  end.

(** [[...new Set(nftData.map(nft => nft.creator))]]: the first occurrences;
    creators are strings. *)
Definition first_occurrences (l : list string) : list string :=
  rev (fold_left (fun acc x => if mem_string x acc then acc else x :: acc) l []).

Definition loadMarketplaceData : JS unit :=
  try_finally
    (try_catch
      (modify (set_loading true) ;;;
       let* mode := read viewMode in
       let* nftData := fetch_nfts mode in
       let* l := lift (as_array "nftData" "map" nftData) in
       let* creators := lift (map_result (fun nft => get nft "creator") l) in
       let* profiles := load_profiles (first_occurrences (map to_str creators)) [] in
       modify (set_nfts l) ;;;
       modify (set_creatorProfiles profiles) ;;;
       let* analyticsData := ext "marketplaceAPI.getAnalytics" [] in
       modify (set_analytics analyticsData))
      (fun _ => alert "Error" "Failed to load marketplace data. Please try again."))
    (modify (set_loading false)).

(** [handlePurchase] and [handleTransfer]: the parent's callback, then the
    refreshed data. *)
Definition handle (callback good bad : string) (nft : jsval) : JS unit :=
  try_catch
    (ext callback [nft] ;;;
     modify (set_selectedNFT VNull) ;;;
     loadMarketplaceData ;;;
     alert "Success" good)
    (fun _ => alert "Error" bad).

Definition handlePurchase : jsval -> JS unit :=
  handle "onNFTPurchase" "NFT purchased successfully!" "Failed to purchase NFT. Please try again.".
Definition handleTransfer : jsval -> JS unit :=
  handle "onNFTTransfer" "NFT transferred successfully!" "Failed to transfer NFT. Please try again.".

Definition toggleFavorite (nft : jsval) : JS unit :=
  try_catch
    (let* id := lift (get nft "id") in
     ext "marketplaceAPI.toggleFavorite" [id; walletAddress] ;;;
     loadMarketplaceData)
    (fun _ => alert "Error" "Failed to update favorite status.").

Definition handleNFTPress (nft : jsval) : JS unit := modify (set_selectedNFT nft).

(** MobileMarketplace: pull to refresh. *)
Definition onRefresh : JS unit :=
  modify (set_refreshing true) ;;; loadMarketplaceData ;;; modify (set_refreshing false).

(** [formatAddress] of the views. *)
Definition formatAddress (address : jsval) : result string :=
  res_bind (as_string "address" "slice" address) (fun s => Ok (shorten s)).

End View.

(** MobileMarketplace.js *)
Definition mobile_applyFilters := applyFilters.
Definition mobile_loadMarketplaceData `{Env} := loadMarketplaceData Mobile.
Definition mobile_handlePurchase `{Env} := handlePurchase Mobile.
Definition mobile_handleTransfer `{Env} := handleTransfer Mobile.
Definition mobile_toggleFavorite `{Env} := toggleFavorite Mobile.
Definition mobile_formatPrice := formatPrice.
Definition mobile_formatAddress := formatAddress.

(** ** Facts *)

(** *** Filters *)

(** Stages whose callbacks do not throw on the list keep what they accept. *)
Lemma run_stages_filter stages preds nfts :
  Forall2 (fun st p => truthy (fst st) = true -> Forall (fun nft => snd st nft = Ok (p nft)) nfts) stages preds ->
  run_stages stages nfts =
  Ok (filter (fun nft => forallb (fun x => x) (map (fun '(st, p) => implb (truthy (fst st)) (p nft)) (combine stages preds))) nfts).
Proof.
  intros HF. revert preds nfts HF. induction stages as [|[setting keep] stages IH]; intros preds nfts HF; inversion HF as [|? p ? ps Hp HF']; subst.
  - cbn. f_equal. induction nfts as [|x l IHl]; cbn; [reflexivity|]. f_equal. apply IHl. constructor.
  - cbn [run_stages combine map fst snd] in *. destruct (truthy setting) eqn:T.
    + rewrite (filter_result_ok keep p nfts (Hp eq_refl)). cbn [res_bind]. rewrite (IH ps).
      * f_equal. clear. induction nfts as [|x l IHl]; cbn [filter]; [reflexivity|].
        cbn [forallb implb]. destruct (p x); cbn [filter andb]; rewrite IHl; reflexivity.
      * eapply Forall2_impl; [|exact HF']. cbn beta. intros st q Hq Tq. apply Forall_forall. intros x Hx.
        apply filter_In in Hx. destruct Hx as [Hx _]. specialize (Hq Tq). rewrite Forall_forall in Hq. apply Hq, Hx.
    + cbn [res_bind]. rewrite (IH ps nfts HF'). reflexivity.
Qed.

(** Only whether a stage is active matters of its setting. *)
Lemma active_only stages preds (nft : jsval) :
  map (fun '(st, p) => implb (truthy (fst st)) (p nft)) (combine (A := stage) stages preds) =
  map (fun '(b, p) => implb b (p nft)) (combine (map (fun st => truthy (fst st)) stages) preds).
Proof. revert preds. induction stages as [|st l IH]; intros [|p preds]; cbn; [reflexivity..|]. f_equal. apply IH. Qed.

(** An NFT as the marketplace API describes it. *)
Record described (nft : jsval) : Prop := {
  d_name : exists s, get nft "name" = Ok (VStr s);
  d_description : exists s, get nft "description" = Ok (VStr s);
  d_creator : exists s, get nft "creator" = Ok (VStr s);
  d_category : nullish (get_opt nft "category") = true \/ exists s, get_opt nft "category" = VStr s;
  d_traits : truthy (get_opt nft "traits") = false \/
    exists l, get_opt nft "traits" = VArr l /\ Forall (fun t => nullish t = false) l
}.

Definition text (nft : jsval) (k : string) : string := match get_opt nft k with VStr s => s | _ => EmptyString end.

(** Reference: what each setting asks of an NFT. *)
Definition mentions (query : string) (nft : jsval) : bool :=
  includes (toLowerCase (text nft "name")) query || includes (toLowerCase (text nft "description")) query ||
  includes (toLowerCase (text nft "creator")) query ||
  (negb (nullish (get_opt nft "category")) && includes (toLowerCase (text nft "category")) query).

Definition trait_of (nft trait : jsval) : bool :=
  match get_opt nft "traits" with
  | VArr l => existsb (fun x => strict_eq (get_opt x "type") (get_opt trait "type") && strict_eq (get_opt x "value") (get_opt trait "value")) l
  | _ => false
  end.

Definition wanted (date : jsval -> num) (f nft : jsval) : bool :=
  let on k := truthy (get_opt f k) in
  let same k x := strict_eq (get_opt nft k) x in
  forallb (fun x => x)
    [implb (on "search") (mentions (toLowerCase (text f "search")) nft);
     implb (on "category") (same "category" (get_opt f "category"));
     implb (on "creator") (same "creator" (get_opt f "creator"));
     implb (on "minPrice") (js_ge (get_opt nft "listPriceSatoshis") (get_opt f "minPrice"));
     implb (on "maxPrice") (js_le (get_opt nft "listPriceSatoshis") (get_opt f "maxPrice"));
     implb (on "verifiedOnly") (truthy (get_opt nft "isVerified"));
     implb (on "owner") (same "owner" (get_opt f "owner"));
     implb (on "favoritedOnly") (truthy (get_opt nft "isFavorited"));
     implb (on "hasUnlockableContent") (truthy (get_opt nft "hasUnlockableContent"));
     implb (on "isTradeLocked") (truthy (get_opt nft "isTradeLocked"));
     implb (on "minMintDate") (Num.geb (date (get_opt nft "mintDate")) (date_value (get_opt f "minMintDate")));
     implb (on "maxMintDate") (Num.leb (date (get_opt nft "mintDate")) (date_value (get_opt f "maxMintDate")));
     implb (on "traits") (match get_opt f "traits" with VArr l => forallb (trait_of nft) l | _ => true end)].

Lemma get_described nft k : described nft -> get nft k = Ok (get_opt nft k).
Proof. intros [[s Hs] _ _ _ _]. unfold get_opt. destruct nft; try discriminate Hs; reflexivity. Qed.

Lemma field_includes_text k query nft s :
  described nft -> get_opt nft k = VStr s -> field_includes k query nft = Ok (includes (toLowerCase (text nft k)) query).
Proof. intros D E. unfold field_includes, text. rewrite (get_described nft k D), E. reflexivity. Qed.

Lemma search_keep_mentions cat query nft :
  described nft ->
  cat query nft = Ok (negb (nullish (get_opt nft "category")) && includes (toLowerCase (text nft "category")) query) ->
  search_keep cat query nft = Ok (mentions query nft).
Proof.
  intros D C. destruct (d_name nft D) as [n Hn], (d_description nft D) as [d Hd], (d_creator nft D) as [c Hc].
  unfold search_keep. erewrite !field_includes_text by (exact D || (apply get_opt_ok; eassumption)).
  rewrite C. unfold mentions, or_else. cbn [res_bind].
  destruct (includes (toLowerCase (text nft "name")) query), (includes (toLowerCase (text nft "description")) query),
    (includes (toLowerCase (text nft "creator")) query); reflexivity.
Qed.

Lemma category_opt_spec query nft :
  described nft ->
  category_includes_opt query nft = Ok (negb (nullish (get_opt nft "category")) && includes (toLowerCase (text nft "category")) query).
Proof.
  intros D. unfold category_includes_opt. rewrite (get_described nft "category" D). cbn [res_bind].
  destruct (d_category nft D) as [N|[s E]]; [rewrite N; reflexivity|].
  rewrite (field_includes_text "category" query nft s D E). rewrite E. reflexivity.
Qed.

Lemma has_traits_spec l nft :
  described nft -> Forall (fun t => nullish t = false) l -> has_traits l nft = Ok (forallb (trait_of nft) l).
Proof.
  intros D F. unfold has_traits. apply every_result_ok. eapply Forall_impl; [|exact F]. cbn beta. intros trait N.
  rewrite (get_described nft "traits" D). cbn [res_bind]. unfold trait_of.
  assert (forall t k, nullish t = false -> get t k = Ok (get_opt t k)) as G by (intros t k Nt; unfold get_opt; destruct t; try discriminate Nt; reflexivity).
  destruct (d_traits nft D) as [T|(ts & -> & Ft)].
  - rewrite T. destruct (get_opt nft "traits"); try reflexivity. discriminate T.
  - cbn [truthy negb as_array res_bind]. apply some_result_ok. eapply Forall_impl; [|exact Ft]. cbn beta. intros x Nx.
    rewrite !G by assumption. reflexivity.
Qed.

(** The settings a caller may give; an array has fewer than [2^32] elements. *)
Definition proper_settings (f : jsval) : Prop :=
  nullish f = false /\
  (truthy (get_opt f "search") = false \/ exists s, get_opt f "search" = VStr s) /\
  (truthy (get_opt f "traits") = false \/ exists l, get_opt f "traits" = VArr l /\ Forall (fun t => nullish t = false) l /\
     (Z.of_nat (List.length l) < 2 ^ 32)%Z).

Definition utils_preds (date : jsval -> num) (f : jsval) : list (jsval -> bool) :=
  [(fun nft => mentions (toLowerCase (text f "search")) nft);
   (fun nft => strict_eq (get_opt nft "category") (get_opt f "category"));
   (fun nft => strict_eq (get_opt nft "creator") (get_opt f "creator"));
   (fun nft => js_ge (get_opt nft "listPriceSatoshis") (get_opt f "minPrice"));
   (fun nft => js_le (get_opt nft "listPriceSatoshis") (get_opt f "maxPrice"));
   (fun nft => truthy (get_opt nft "isVerified"));
   (fun nft => strict_eq (get_opt nft "owner") (get_opt f "owner"));
   (fun nft => truthy (get_opt nft "isFavorited"));
   (fun nft => truthy (get_opt nft "hasUnlockableContent"));
   (fun nft => truthy (get_opt nft "isTradeLocked"));
   (fun nft => Num.geb (date (get_opt nft "mintDate")) (date_value (get_opt f "minMintDate")));
   (fun nft => Num.leb (date (get_opt nft "mintDate")) (date_value (get_opt f "maxMintDate")));
   (fun nft => match get_opt f "traits" with VArr l => forallb (trait_of nft) l | _ => true end)].

(** A callback that reads one property of a described NFT. *)
Lemma reads_field {nfts} (keep : jsval -> result bool) (p : jsval -> bool) k :
  Forall described nfts -> (forall nft, get nft k = Ok (get_opt nft k) -> keep nft = Ok (p nft)) ->
  Forall (fun nft => keep nft = Ok (p nft)) nfts.
Proof. intros D Hk. eapply Forall_impl; [|exact D]. intros nft Dn. apply Hk, get_described, Dn. Qed.

Ltac by_field D :=
  eapply reads_field; [exact D|]; intros ? G;
  unfold field_is, field_truthy, price_at_least, price_at_most, minted_from, minted_to; rewrite G; reflexivity.

Lemma utils_stages_keep date f nfts :
  proper_settings f -> Forall described nfts ->
  Forall2 (fun st p => truthy (fst st) = true -> Forall (fun nft => snd st nft = Ok (p nft)) nfts)
    (utils_stages date f (text f "search")) (utils_preds date f).
Proof.
  intros (N & Ss & St) D. unfold utils_stages, utils_preds. cbv zeta.
  repeat constructor; cbn [fst snd]; intros T;
    try (by_field D).
  - eapply Forall_impl; [|exact D]. intros nft Dn. apply search_keep_mentions; [exact Dn|apply category_opt_spec, Dn].
  - apply andb_prop in T. destruct T as [T _]. destruct St as [E|(l & E & F & _)]; [congruence|]. rewrite E.
    eapply Forall_impl; [|exact D]. intros nft Dn. cbn [as_array res_bind]. apply has_traits_spec; assumption.
Qed.

Lemma empty_traits f :
  proper_settings f ->
  forall nft, implb (truthy (VBool (truthy (get_opt f "traits") && js_gt (get_opt (get_opt f "traits") "length") (vnum 0))))
    (match get_opt f "traits" with VArr l => forallb (trait_of nft) l | _ => true end) =
  implb (truthy (get_opt f "traits")) (match get_opt f "traits" with VArr l => forallb (trait_of nft) l | _ => true end).
Proof.
  intros (_ & _ & [E|(l & E & _ & B)]) nft; [rewrite E; reflexivity|]. rewrite E. destruct l as [|x l]; [reflexivity|].
  cbn [truthy andb implb]. replace (js_gt _ _) with true; [reflexivity|]. symmetry.
  change (Num.ltb (Num.of_Z 0) (Num.of_Z (Z.of_nat (List.length (x :: l)))) = true).
  rewrite ltb_of_Z by (unfold safe, prec; cbn [List.length] in *; lia). apply Z.ltb_lt. cbn [List.length]. lia.
Qed.

Lemma run_utils_wanted date f nfts :
  proper_settings f -> Forall described nfts ->
  run_stages (utils_stages date f (text f "search")) nfts = Ok (filter (wanted date f) nfts).
Proof.
  intros P D. rewrite (run_stages_filter _ _ _ (utils_stages_keep date f nfts P D)). f_equal. apply filter_ext. intros nft.
  unfold wanted, utils_stages, utils_preds. cbn [combine map fst]. rewrite (empty_traits f P nft). reflexivity.
Qed.

(** *** The views against the utility *)

(** The utility's settings for the state of a view. *)
Definition settings_of (searchQuery : string) (f : filters) (walletAddress : jsval) : jsval :=
  let price s := if s =? EmptyString then VUndef else VNum (parseInt s) in
  let date d := match d with Some x => Date x | None => VNull end in
  VObj [("search", if trim searchQuery =? EmptyString then VUndef else VStr searchQuery); ("category", VStr (category f));
        ("creator", VStr (creator f)); ("minPrice", price (minPrice f)); ("maxPrice", price (maxPrice f));
        ("verifiedOnly", VBool (verifiedOnly f)); ("owner", if myNFTsOnly f then walletAddress else VUndef);
        ("favoritedOnly", VBool (favoritedOnly f)); ("hasUnlockableContent", VBool (hasUnlockableContent f));
        ("isTradeLocked", VBool (isTradeLocked f)); ("minMintDate", date (minMintDate f)); ("maxMintDate", date (maxMintDate f));
        ("traits", VArr (traits f))].

(** What the views need for their filters to mean the same: a category on
    every NFT when there is a search, a wallet when it is asked for, and
    price limits that are numbers other than zero. *)
Definition comparable (searchQuery : string) (f : filters) (walletAddress : jsval) (nfts : list jsval) : Prop :=
  let limit s := s = EmptyString \/ truthy (VNum (parseInt s)) = true in
  Forall described nfts /\ (trim searchQuery <> EmptyString -> Forall (fun nft => exists c, get_opt nft "category" = VStr c) nfts) /\
  limit (minPrice f) /\ limit (maxPrice f) /\ (myNFTsOnly f = true -> truthy walletAddress = true) /\
  Forall (fun t => nullish t = false) (traits f) /\ (Z.of_nat (List.length (traits f)) < 2 ^ 32)%Z.

Lemma settings_proper searchQuery f walletAddress nfts :
  comparable searchQuery f walletAddress nfts -> proper_settings (settings_of searchQuery f walletAddress).
Proof.
  intros (_ & _ & _ & _ & _ & F & B). split; [reflexivity|]. split.
  - unfold settings_of. cbn. destruct (trim searchQuery =? EmptyString); [left; reflexivity|right; eexists; reflexivity].
  - right. exists (traits f). auto.
Qed.

Definition view_preds (date : jsval -> num) (searchQuery : string) (f : filters) (walletAddress : jsval) : list (jsval -> bool) :=
  utils_preds date (settings_of searchQuery f walletAddress).

Lemma trim_empty s : trim s <> EmptyString -> s <> EmptyString.
Proof. intros H ->. apply H. reflexivity. Qed.

Lemma view_stages_keep date q f w nfts :
  comparable q f w nfts ->
  Forall2 (fun st p => truthy (fst st) = true -> Forall (fun nft => snd st nft = Ok (p nft)) nfts)
    (view_stages date q f w) (view_preds date q f w).
Proof.
  intros (D & Cat & Lo & Hi & Own & F & B). unfold view_stages, view_preds, utils_preds. cbv zeta.
  repeat constructor; cbn [fst snd]; intros T; unfold settings_of; cbn [get_opt get obj_get own assoc String.eqb Ascii.eqb Bool.eqb].
  - cbn in T. apply negb_true_iff in T. rewrite T. apply String.eqb_neq in T. pose proof (Cat T) as C.
    rewrite Forall_forall in *. intros nft Hn. specialize (D nft Hn). destruct (C nft Hn) as [c Hc].
    apply search_keep_mentions; [exact D|]. rewrite (field_includes_text "category" _ nft c D Hc). rewrite Hc. reflexivity.
  - by_field D.
  - by_field D.
  - apply negb_true_iff in T. rewrite T. by_field D.
  - apply negb_true_iff in T. rewrite T. by_field D.
  - by_field D.
  - cbn in T. rewrite T. by_field D.
  - by_field D.
  - by_field D.
  - by_field D.
  - destruct (minMintDate f); [by_field D|discriminate].
  - destruct (maxMintDate f); [by_field D|discriminate].
  - eapply Forall_impl; [|exact D]. intros nft Dn. apply has_traits_spec; assumption.
Qed.

(** A setting is active in the view exactly when it is in the utility. *)
Lemma view_settings_active date q f w nfts :
  comparable q f w nfts ->
  map (fun st => truthy (fst st)) (view_stages date q f w) =
  map (fun st => truthy (fst st)) (utils_stages date (settings_of q f w) (text (settings_of q f w) "search")).
Proof.
  intros (D & Cat & Lo & Hi & Own & F & B).
  assert (forall s, s = EmptyString \/ truthy (VNum (parseInt s)) = true ->
    truthy (VStr s) = truthy (if s =? EmptyString then VUndef else VNum (parseInt s))) as L.
  { intros s Hs. change (truthy (VStr s)) with (negb (s =? EmptyString)). destruct (s =? EmptyString) eqn:E; [reflexivity|].
    destruct Hs as [Hs|Hs]; [subst; discriminate|symmetry; exact Hs]. }
  unfold view_stages, utils_stages, settings_of. cbv zeta. cbn [map fst get_opt get obj_get own assoc String.eqb Ascii.eqb Bool.eqb].
  rewrite <- (L _ Lo), <- (L _ Hi). repeat (apply (f_equal2 (@cons bool)); [try reflexivity|]); [..|reflexivity].
  - cbn [truthy]. destruct (trim q =? EmptyString) eqn:E; [reflexivity|].
    cbn. destruct (q =? EmptyString) eqn:Eq; [|reflexivity]. apply String.eqb_eq in Eq. subst q. discriminate E.
  - destruct (myNFTsOnly f); [symmetry; apply Own; reflexivity|reflexivity].
  - destruct (traits f) as [|x l] eqn:El; [reflexivity|]. cbn [truthy negb andb]. symmetry.
    change (Num.ltb (Num.of_Z 0) (Num.of_Z (Z.of_nat (List.length (x :: l)))) = true).
    rewrite ltb_of_Z by (unfold safe, prec; cbn [List.length] in *; lia). apply Z.ltb_lt. cbn [List.length]. lia.
Qed.

Lemma views_filter date q f w nfts :
  comparable q f w nfts -> run_stages (view_stages date q f w) nfts = Ok (filter (wanted date (settings_of q f w)) nfts).
Proof.
  intros C. pose proof (settings_proper q f w nfts C) as P. assert (Forall described nfts) as D by apply C.
  rewrite <- (run_utils_wanted date _ nfts P D), (run_stages_filter _ _ _ (view_stages_keep date q f w nfts C)).
  rewrite (run_stages_filter _ _ _ (utils_stages_keep date _ nfts P D)).
  f_equal. apply filter_ext. intros nft. rewrite !active_only, (view_settings_active date q f w nfts C). reflexivity.
Qed.

(** *** Sorting *)

Lemma map_result_length {A B} (f : A -> result B) l ys : map_result f l = Ok ys -> List.length ys = List.length l.
Proof.
  revert ys. induction l as [|x l IH]; cbn [map_result]; intros ys E; [injection E as <-; reflexivity|].
  destruct (f x); [|discriminate]. cbn [res_bind] in E. destruct (map_result f l) as [zs|]; [|discriminate].
  cbn [res_bind] in E. injection E as <-. cbn. f_equal. apply IH. reflexivity.
Qed.

(** Sorting keeps the NFTs, when no key throws. *)
Lemma sort_by_permutes engine_sort `{!SortLaws engine_sort} key order l :
  (exists keys, map_result key l = Ok keys) -> exists r, sort_by engine_sort key order l = Ok r /\ Permutation r l.
Proof.
  intros [keys K]. unfold sort_by. destruct l as [|x [|y l]]; [eexists; split; [reflexivity|constructor]|eexists; split; [reflexivity|reflexivity]|].
  rewrite K. cbn [res_bind]. eexists. split; [reflexivity|].
  rewrite <- (map_snd_combine keys (x :: y :: l)) at 2 by (eapply map_result_length, K). apply Permutation_map, sort_permutes.
Qed.

Lemma described_keys date by_ l :
  Forall described l -> exists keys, map_result (view_key date by_) l = Ok keys.
Proof.
  intros D. assert (forall nft, described nft -> exists v, view_key date by_ nft = Ok v) as K.
  { intros nft Dn. pose proof (get_described nft) as G. destruct (d_name nft Dn) as [n Hn], (d_creator nft Dn) as [c Hc].
    unfold view_key. assert (exists v, price_key nft = Ok v) as Pk by (unfold price_key; rewrite G by exact Dn; eexists; reflexivity).
    destruct (by_ =? "price"); [exact Pk|]. destruct (by_ =? "name"); [unfold lower_key; rewrite Hn; eexists; reflexivity|].
    destruct (by_ =? "mintDate"); [unfold date_key; rewrite G by exact Dn; eexists; reflexivity|].
    destruct (by_ =? "creator"); [unfold lower_key; rewrite Hc; eexists; reflexivity|exact Pk]. }
  induction D as [|x l Dx D IH]; [eexists; reflexivity|]. destruct (K x Dx) as [v Hv], IH as [vs Hvs].
  cbn [map_result]. rewrite Hv. cbn [res_bind]. rewrite Hvs. eexists. reflexivity.
Qed.

(** A price as the API gives it: a whole number of satoshis. *)
Definition price_of (nft : jsval) : jsval := get_opt nft "listPriceSatoshis".
Definition priced_nft (nft : jsval) : Prop := described nft /\ exists p, price_of nft = vnum p /\ (0 <= p < 2 ^ prec)%Z.

(** [v || 0] of a whole number. *)
Lemma js_or_vnum p : (0 <= p < 2 ^ prec)%Z -> js_or (vnum p) (vnum 0) = vnum p.
Proof.
  intros B. unfold js_or. destruct (truthy (vnum p)) eqn:T; [reflexivity|]. unfold vnum, truthy in T. apply negb_false_iff, orb_prop in T.
  destruct T as [T|T].
  - exfalso. assert (Num.eqb (Num.of_Z p) (Num.of_Z p) = true) as R by (rewrite eqb_of_Z by (unfold safe; lia); apply Z.eqb_refl).
    destruct (Num.of_Z p); discriminate.
  - change Num.zero with (Num.of_Z 0) in T. rewrite eqb_of_Z in T by (unfold safe, prec in *; lia). apply Z.eqb_eq in T. subst. reflexivity.
Qed.

Lemma price_key_priced nft : priced_nft nft -> price_key nft = Ok (price_of nft).
Proof.
  intros (D & p & E & B). unfold price_key. rewrite (get_described _ _ D). cbn [res_bind]. fold (price_of nft). rewrite E, js_or_vnum by exact B.
  reflexivity.
Qed.

Lemma priced_lt x y p q :
  price_of x = vnum p -> price_of y = vnum q -> (0 <= p < 2 ^ prec)%Z -> (0 <= q < 2 ^ prec)%Z ->
  js_lt (price_of x) (price_of y) = (p <? q)%Z.
Proof. intros -> -> Hp Hq. unfold js_lt, vnum. cbn. apply ltb_of_Z; unfold safe; lia. Qed.

Lemma sort_by_price engine_sort `{!SortLaws engine_sort} l :
  Forall priced_nft l -> NoDup (map price_of l) ->
  exists r, sort_by engine_sort price_key "asc" l = Ok r /\ Permutation r l /\
    StronglySorted (fun x y => js_lt (price_of x) (price_of y) = true) r.
Proof.
  intros F N. destruct l as [|x [|y l]]; [exists []; repeat constructor|exists [x]; repeat constructor|].
  set (nfts := x :: y :: l) in *.
  assert (map_result price_key nfts = Ok (map price_of nfts)) as K
    by (apply map_result_ok; eapply Forall_impl; [|exact F]; apply price_key_priced).
  change (sort_by engine_sort price_key "asc" nfts) with
    (res_bind (map_result price_key nfts) (fun keys => Ok (map snd (engine_sort (after_in "asc") (combine keys nfts))))).
  rewrite K. cbn [res_bind]. rewrite combine_map_self. set (pairs := map (fun n => (price_of n, n)) nfts).
  pose proof (sort_permutes (after_in "asc") pairs) as Pm. eexists. split; [reflexivity|].
  split; [rewrite Pm; unfold pairs; rewrite map_map, map_id; reflexivity|].
  assert (forall u, In u (engine_sort (after_in "asc") pairs) -> exists n, u = (price_of n, n) /\ priced_nft n) as Of.
  { intros u Hu. apply (Permutation_in u Pm) in Hu. apply in_map_iff in Hu. destruct Hu as (n & <- & Hn). exists n.
    rewrite Forall_forall in F. auto. }
  apply (StronglySorted_map snd (fun x y => after_in "asc" y x = true)).
  { intros u v Hu Hv G. destruct (Of u Hu) as (n & -> & _), (Of v Hv) as (m & -> & _). exact G. }
  apply sort_sorts.
  - apply (ForallOrdPairs_map _ _ priced_nft (fun x y => price_of x <> price_of y)); [exact F| |apply NoDup_pairs, N].
    intros a b (_ & p & Ep & Bp) (_ & q & Eq & Bq) D. unfold after_in. cbn [fst String.eqb Ascii.eqb Bool.eqb]. unfold js_gt.
    rewrite (priced_lt b a q p), (priced_lt a b p q) by assumption. rewrite Ep, Eq in D.
    assert (p <> q) by congruence. lia.
  - intros u v w Hu Hv Hw. apply in_map_iff in Hu, Hv, Hw. destruct Hu as (a & <- & Ha), Hv as (b & <- & Hb), Hw as (c & <- & Hc).
    rewrite Forall_forall in F. destruct (F a Ha) as (_ & p & Ep & Bp), (F b Hb) as (_ & q & Eq & Bq), (F c Hc) as (_ & r & Er & Br).
    unfold after_in. cbn [fst String.eqb Ascii.eqb Bool.eqb]. unfold js_gt.
    rewrite (priced_lt b a q p), (priced_lt c b r q), (priced_lt c a r p) by assumption. lia.
Qed.


(** *** Analytics *)

(** Transactions with the time and the amount each one stands for. *)
Definition ledger_row : Type := jsval * (Z * Z).
Definition row_ok (date : jsval -> num) (r : ledger_row) : Prop :=
  (exists v, get (fst r) "timestamp" = Ok v /\ date v = Num.of_Z (fst (snd r))) /\ safe (fst (snd r)) /\
  get_opt (fst r) "amountSatoshis" = vnum (snd (snd r)) /\ (0 <= snd (snd r))%Z.

Definition within (start : Z) (rows : list ledger_row) : list ledger_row := filter (fun r => (start <=? fst (snd r))%Z) rows.
Definition amount_sum (rows : list ledger_row) : Z := fold_right (fun r z => (snd (snd r) + z)%Z) 0%Z rows.

Lemma amount_sum_within date start rows :
  Forall (row_ok date) rows -> (0 <= amount_sum (within start rows) <= amount_sum rows)%Z.
Proof.
  unfold within, amount_sum. induction 1 as [|r rows (_ & _ & _ & Hr) _ IH]; cbn [filter fold_right]; [lia|].
  destruct (start <=? fst (snd r))%Z; cbn [fold_right]; lia.
Qed.

Lemma within_mono a b rows : (a <= b)%Z -> (amount_sum (within b rows) <= amount_sum (within a rows))%Z \/ exists r, In r rows /\ (snd (snd r) < 0)%Z.
Proof.
  intros L. unfold within, amount_sum. induction rows as [|r rows [IH|(x & Hx & Neg)]]; cbn [filter fold_right In]; [left; lia| |right; eauto].
  destruct (Z_lt_le_dec (snd (snd r)) 0) as [N|P]; [right; eauto|]. left.
  destruct (b <=? fst (snd r))%Z eqn:Eb, (a <=? fst (snd r))%Z eqn:Ea; cbn [fold_right]; lia.
Qed.

Lemma within_length a b rows : (a <= b)%Z -> (List.length (within b rows) <= List.length (within a rows))%nat.
Proof.
  intros L. unfold within. induction rows as [|r rows IH]; cbn [filter]; [lia|].
  destruct (b <=? fst (snd r))%Z eqn:Eb, (a <=? fst (snd r))%Z eqn:Ea; cbn [List.length]; lia.
Qed.

Lemma since_within date start rows :
  safe start -> Forall (row_ok date) rows -> since date (Num.of_Z start) (map fst rows) = Ok (map fst (within start rows)).
Proof.
  intros Ss F. unfold since. induction F as [|r rows ((v & G & T) & St & _) F IH]; [reflexivity|].
  cbn [map filter_result]. rewrite G. cbn [res_bind]. rewrite IH. cbn [res_bind within filter]. rewrite T.
  unfold Num.geb. rewrite leb_of_Z by assumption. destruct (start <=? fst (snd r))%Z; reflexivity.
Qed.

Lemma volume_sum date rows a :
  Forall (row_ok date) rows -> (0 <= a)%Z -> (a + amount_sum rows < 2 ^ prec)%Z ->
  fold_left (fun sum tx => js_add sum (js_or (get_opt tx "amountSatoshis") (vnum 0))) (map fst rows) (vnum a) = vnum (a + amount_sum rows).
Proof.
  intros F. revert a. induction F as [|r rows (_ & _ & E & Hr) F IH]; intros a Ha B; cbn [map fold_left amount_sum fold_right].
  - f_equal. lia.
  - fold (amount_sum rows). cbn [amount_sum fold_right] in B. fold (amount_sum rows) in B.
    pose proof (amount_sum_within date 0 rows F) as W. assert (0 <= amount_sum rows)%Z by lia.
    rewrite E, js_or_vnum by lia. rewrite js_add_vnum by (unfold safe; lia). rewrite IH by lia. f_equal. lia.
Qed.

(** *** Transactions and handlers *)

Lemma with_wallet_pure `{Env} {S} wp_ data : pure_state (S := S) (with_wallet wp_ data).
Proof. intros s0. unfold with_wallet. preserve. Qed.

Lemma purchase_pure `{Env} {S} nft b w : pure_state (S := S) (createPurchaseTransaction nft b w).
Proof. intros s0. unfold createPurchaseTransaction, iso_now. pose proof (fun d => with_wallet_pure (S := S) w d s0). preserve. Qed.

Lemma transfer_pure `{Env} {S} nft a b w : pure_state (S := S) (createTransferTransaction nft a b w).
Proof. intros s0. unfold createTransferTransaction, iso_now. pose proof (fun d => with_wallet_pure (S := S) w d s0). preserve. Qed.

(** Loading ends, whatever the API does. *)
Lemma loadNFTs_settles `{Env} config s t : wp (loadNFTs config) (fun _ s' _ => h_loading s' = false) (fun _ _ _ => False) s t.
Proof. unfold loadNFTs. wp_auto; reflexivity. Qed.

Lemma load_profiles_silent `{Env} l ps : silent (load_profiles l ps).
Proof.
  revert ps. induction l as [|a l IH]; intros ps s t; cbn [load_profiles]; [apply wp_ret; reflexivity|].
  apply wp_bind, wp_try_catch, wp_bind, wp_ext; intros; apply wp_ret, IH.
Qed.

(** What a view keeps through a reload. *)
Definition reloaded (s s' : view) : Prop :=
  loading s' = false /\ viewMode s' = viewMode s /\ selectedNFT s' = selectedNFT s /\ refreshing s' = refreshing s.

Lemma loadMarketplaceData_settles `{Env} on w s t :
  wp (loadMarketplaceData on w) (fun _ s' _ => reloaded s s') (fun _ _ _ => False) s t.
Proof.
  unfold loadMarketplaceData. apply wp_try_finally, wp_try_catch.
  assert (forall s1 t1, viewMode s1 = viewMode s /\ selectedNFT s1 = selectedNFT s /\ refreshing s1 = refreshing s ->
    wp (alert on "Error" "Failed to load marketplace data. Please try again.")
      (fun _ => wp (modify (set_loading false)) (fun _ s' _ => reloaded s s') (fun _ _ _ => False))
      (fun _ => wp (modify (set_loading false)) (fun _ _ _ => False) (fun _ _ _ => False)) s1 t1) as Failed
    by (intros s1 t1 K; exact (conj eq_refl K)).
  apply wp_bind, wp_modify, wp_bind, wp_read, wp_bind.
  apply wp_pure; [intros s0; unfold fetch_nfts; preserve| |intros; apply Failed; auto]. intros data t1.
  apply wp_bind, wp_lift; intros; [|apply Failed; auto]. apply wp_bind, wp_lift; intros; [|apply Failed; auto].
  apply wp_bind, wp_silent; [apply load_profiles_silent|]. intros ps t2.
  wp_auto; [repeat split|apply Failed; auto].
Qed.

(** ** Theorems *)

(** C9: the utility's filter is one conjunction: for NFTs as the API describes
    them, the thirteen filters run one after the other keep exactly the NFTs
    that meet every active setting, in their order. *)
Theorem filter_is_conjunction date f nfts :
  proper_settings f -> Forall described nfts -> filterNFTs date nfts f = Ok (filter (wanted date f) nfts).
Proof.
  intros P D. pose proof P as (N & Ss & St). pose proof (run_utils_wanted date f nfts P D) as E. unfold filterNFTs.
  replace (default f (VObj [])) with f by (destruct f; try discriminate N; reflexivity).
  replace (get f "search") with (Ok (get_opt f "search")) by (unfold get_opt; destruct f; try discriminate N; reflexivity).
  cbn [res_bind]. destruct Ss as [T|[s Es]].
  - rewrite T. cbn [res_bind]. rewrite <- E. unfold utils_stages. cbn [run_stages]. rewrite T. reflexivity.
  - rewrite Es. unfold text in E. rewrite Es in E. destruct (truthy (VStr s)) eqn:T; cbn [as_string res_bind]; [exact E|].
    rewrite <- E. unfold utils_stages. cbn [run_stages]. rewrite Es, T. reflexivity.
Qed.

(** The web and mobile views show what the utility filters: for the
    settings that mean the same in both, [applyFilters] ends and its result
    is a rearrangement of the NFTs that meet the settings. *)
Theorem views_show_filtered date engine_sort `{!SortLaws engine_sort} q f w nfts :
  comparable q f w nfts ->
  exists shown, applyFilters date engine_sort nfts q f w = Ok shown /\
    Permutation shown (filter (wanted date (settings_of q f w)) nfts).
Proof.
  intros C. unfold applyFilters. rewrite (views_filter date q f w nfts C). cbn [res_bind].
  apply sort_by_permutes; [exact _|]. apply described_keys, Forall_filter, C.
Qed.

(** Sorting by price: NFTs with different prices come out in ascending
    order of price, none lost and none added, in any engine. *)
Theorem price_sort_ascends date engine_sort `{!SortLaws engine_sort} nfts :
  Forall priced_nft nfts -> NoDup (map price_of nfts) ->
  exists r, sortNFTs date engine_sort nfts "price" "asc" = Ok r /\ Permutation r nfts /\
    StronglySorted (fun x y => js_lt (price_of x) (price_of y) = true) r.
Proof. intros F N. exact (sort_by_price engine_sort nfts F N). Qed.

(** An NFT is transferred only by its owner: a transfer transaction is
    made, and the wallet asked, only when the NFT is complete and its owner is
    the sender; otherwise the request fails before anything is asked of the
    outside. *)
Theorem transfer_needs_owner `{Env} {S} nft from to wallet (s : S) t :
  wp (createTransferTransaction nft from to wallet)
    (fun _ s' _ => s' = s /\ validateNFTData nft = Ok true /\ strict_eq (get_opt nft "owner") from = true)
    (fun e s' t' => s' = s /\ (t' = t -> validateNFTData nft = Throw e \/
       e = Error "NFT is not owned by the specified address" /\ strict_eq (get_opt nft "owner") from = false) /\
       (t' <> t -> strict_eq (get_opt nft "owner") from = true)) s t.
Proof.
  unfold createTransferTransaction, iso_now, with_wallet. apply wp_bind, wp_lift; [intros ok V|intros e V; repeat split; auto; congruence].
  assert (ok = true) as ->.
  { unfold validateNFTData in V. destruct (missing_fields _ _) as [[|? ?]|]; cbn in V; congruence. }
  apply wp_bind. wp_step; [apply wp_ret|apply wp_throw; repeat split; auto; congruence].
  assert (forall x y, x :: y :: t <> t) as N2 by (intros x y E; apply (f_equal (@List.length event)) in E; cbn in E; lia).
  assert (forall x y z, x :: y :: z :: t <> t) as N3 by (intros x y z E; apply (f_equal (@List.length event)) in E; cbn in E; lia).
  wp_auto; repeat split; auto; intros; exfalso; (eapply N2; eassumption) || (eapply N3; eassumption).
Qed.

(** A purchase through the hook is recorded exactly once, with the
    transaction it returns, before the list is reloaded; one that fails is
    reported in the state and to the caller, and leaves the list alone. *)
Theorem hook_purchase_recorded `{Env} config nft s t :
  wp (purchaseNFT config nft)
    (fun tx s' t' => h_loading s' = false /\ calls "marketplaceAPI.recordPurchase" t' = S (calls "marketplaceAPI.recordPurchase" t) /\
       exists r, In (Ev "marketplaceAPI.recordPurchase" [tx] r) t')
    (fun e s' t' => h_error s' = VStr (e_msg e) /\ h_loading s' = h_loading s /\ h_nfts s' = h_nfts s /\
       (calls "marketplaceAPI.recordPurchase" t' <= S (calls "marketplaceAPI.recordPurchase" t))%nat) s t.
Proof.
  unfold purchaseNFT, reporting, createPurchaseTransaction, iso_now, with_wallet, loadNFTs.
  wp_auto; cbn [h_error h_loading h_nfts set_h_error set_h_loading set_h_nfts set_h_analytics];
    rewrite ?calls_cons; cbn [ev_op String.eqb Ascii.eqb Bool.eqb]; repeat split; try lia; eexists; cbn [In]; eauto 10.
Qed.

(** A purchase in a view: the parent is asked once; the success message is
    shown exactly when it did not fail, also when the reload after it did,
    and the failure message otherwise; nothing is thrown. *)
Theorem view_purchase_message `{Env} on w nft s t :
  let told title text r := Ev "alert" (match on with Web => [VStr text] | Mobile => [VStr title; VStr text] end) r in
  wp (handlePurchase on w nft)
    (fun _ s' t' => match reply t "onNFTPurchase" [nft] with
       | Ok _ => loading s' = false /\ selectedNFT s' = VNull /\
           hd_error t' = Some (told "Success" "NFT purchased successfully!" (Ok VUndef))
       | Throw e => s' = s /\ t' = [told "Error" "Failed to purchase NFT. Please try again." (Ok VUndef);
                                  Ev "onNFTPurchase" [nft] (Throw e)] ++ t
       end)%list
    (fun _ _ _ => False) s t.
Proof.
  intros told_. unfold handlePurchase, handle. apply wp_try_catch, wp_bind, wp_ext; intros v R; rewrite R.
  - apply wp_bind, wp_modify, wp_bind. eapply wp_mono; [..|apply loadMarketplaceData_settles]; cbn beta; [|tauto].
    intros _ s' t' (L & _ & S & _). repeat split; [exact L|exact S].
  - repeat split.
Qed.

(** Prices are shown exactly: every amount below 2^51 satoshis is printed
    with its eight decimals. *)
Theorem marketplace_price_exact n :
  (0 <= n < 2 ^ 51)%Z -> formatPrice (Num.of_Z n) = decimal n 8 ++ " SHAH".
Proof.
  intros Hn. unfold formatPrice. change 100000000%Z with (10 ^ Z.of_nat 8)%Z. rewrite to_fixed_div by lia. reflexivity.
Qed.

(** The views and the utility part on an NFT without a category: a search
    that its name, description and creator do not contain leaves it out in
    the utility and throws in the views. *)
Theorem search_without_category date engine_sort q f w nft nfts :
  described nft -> nullish (get_opt nft "category") = true -> trim q <> EmptyString ->
  mentions (toLowerCase q) nft = false ->
  search_keep category_includes_opt (toLowerCase q) nft = Ok false /\
  exists e, applyFilters date engine_sort (nft :: nfts) q f w = Throw e /\ e_name e = "TypeError".
Proof.
  intros D Nc Q M. split.
  - rewrite (search_keep_mentions _ _ _ D (category_opt_spec _ _ D)), M. reflexivity.
  - assert (exists e, search_keep (field_includes "category") (toLowerCase q) nft = Throw e /\ e_name e = "TypeError") as (e & E & Ne).
    { destruct (d_name nft D) as [n Hn], (d_description nft D) as [d Hd], (d_creator nft D) as [c Hc].
      unfold search_keep. erewrite !field_includes_text by (exact D || (apply get_opt_ok; eassumption)).
      unfold mentions in M. rewrite Nc in M. cbn [negb andb] in M. rewrite orb_false_r in M.
      apply orb_false_elim in M. destruct M as [M M3]. apply orb_false_elim in M. destruct M as [M1 M2].
      unfold or_else. cbn [res_bind]. rewrite M1, M2, M3. cbn [res_bind]. unfold field_includes.
      rewrite (get_described _ _ D). cbn [res_bind]. destruct (get_opt nft "category"); try discriminate Nc; eexists; split; reflexivity. }
    exists e. split; [|exact Ne]. unfold applyFilters, view_stages. cbv zeta. cbn [run_stages].
    change (truthy (VStr (trim q))) with (negb (trim q =? EmptyString)). apply String.eqb_neq in Q. rewrite Q. cbn [negb filter_result].
    rewrite E. reflexivity.
Qed.

(** The purchase transaction does not look at the price: an NFT that is
    not for sale gives a transaction without one. *)
Theorem unlisted_nft_purchasable `{Env} {S} nft buyer (s : S) t :
  validateNFTData nft = Ok true -> get_opt nft "listPriceSatoshis" = VUndef ->
  wp (createPurchaseTransaction nft buyer VUndef)
    (fun tx _ _ => get_opt tx "priceSatoshis" = VUndef /\ get_opt tx "buyerAddress" = buyer) (fun _ _ t' => t' <> t) s t.
Proof.
  intros V P. unfold createPurchaseTransaction, iso_now, with_wallet. rewrite V, P. cbn [truthy andb].
  apply wp_bind, wp_lift_ok, wp_bind, wp_bind, wp_now, wp_ext; intros; [apply wp_ret; split; reflexivity|].
  intros E. apply (f_equal (@List.length event)) in E. cbn in E. lia.
Qed.

(** The analytics are exact: for transactions of whole amounts that sum to
    less than 2^53, the volumes of a day and of a week are the sums of the
    amounts in those windows, the counts are the numbers of transactions,
    and a day's figures never exceed a week's. *)
Theorem analytics_exact date engine_sort now nfts rows :
  Forall (row_ok date) rows -> (0 <= now < 2 ^ 52)%Z -> (amount_sum rows < 2 ^ prec)%Z ->
  let day := within (now - day_ms) rows in
  let week := within (now - 7 * day_ms) rows in
  exists v, generateAnalytics date engine_sort (Num.of_Z now) nfts (map fst rows) = Ok v /\
    get_opt v "totalVolume24h" = vnum (amount_sum day) /\ get_opt v "totalVolume7d" = vnum (amount_sum week) /\
    get_opt v "totalTransactions24h" = vnum (Z.of_nat (List.length day)) /\
    get_opt v "totalTransactions7d" = vnum (Z.of_nat (List.length week)) /\
    (amount_sum day <= amount_sum week)%Z /\ (List.length day <= List.length week)%nat.
Proof.
  intros F Hn B day week. unfold generateAnalytics.
  assert (forall z, (0 <= z <= 7 * day_ms)%Z -> Num.sub (Num.of_Z now) (Num.of_Z z) = Num.of_Z (now - z) /\ safe (now - z)) as Start.
  { intros z Hz. unfold day_ms in Hz. assert (safe now /\ safe z /\ safe (now - z)) as (S1 & S2 & S3) by (unfold safe, prec; lia).
    split; [apply sub_of_Z; assumption|exact S3]. }
  destruct (Start day_ms) as [-> Sd]; [unfold day_ms; lia|]. destruct (Start (7 * day_ms)%Z) as [-> Sw]; [unfold day_ms; lia|].
  rewrite (since_within date _ rows Sd F), (since_within date _ rows Sw F). cbn [res_bind]. fold day week.
  assert (forall start, volume (map fst (within start rows)) = vnum (amount_sum (within start rows))) as V.
  { intros start. unfold volume. pose proof (amount_sum_within date start rows F).
    rewrite (volume_sum date) by (try (apply Forall_filter; exact F); lia). reflexivity. }
  unfold day, week. rewrite !V, !length_map. eexists. split; [reflexivity|]. repeat split.
  - destruct (within_mono (now - 7 * day_ms) (now - day_ms) rows) as [M|(r & Hr & N)]; [unfold day_ms; lia|exact M|].
    rewrite Forall_forall in F. destruct (F r Hr) as (_ & _ & _ & P). lia.
  - apply within_length. unfold day_ms. lia.
Qed.

(** ** Witnesses *)

Definition sample_nft (id name category : string) (price : Z) : jsval :=
  VObj [("id", VStr id); ("name", VStr name); ("description", VStr "An artwork"); ("imageUrl", VStr "ipfs://x");
        ("creator", VStr "SCreator"); ("owner", VStr "SOwner"); ("category", VStr category); ("isVerified", VBool true);
        ("listPriceSatoshis", vnum price)].

Definition gallery : list jsval := [sample_nft "1" "Lion" "Art" 30; sample_nft "2" "Rose" "Photo" 10; sample_nft "3" "Sun" "Art" 20].

Lemma sample_described id name cat price : described (sample_nft id name cat price).
Proof. split; try (eexists; reflexivity); [right; eexists; reflexivity|left; reflexivity]. Qed.

Lemma gallery_described : Forall described gallery.
Proof. repeat (apply Forall_cons; [apply sample_described|]). apply Forall_nil. Qed.

Definition no_date (v : jsval) : num := Num.nan.

Lemma filter_is_conjunction_witness :
  filterNFTs no_date gallery (VObj [("category", VStr "Art"); ("minPrice", vnum 25)]) = Ok [sample_nft "1" "Lion" "Art" 30].
Proof.
  rewrite (filter_is_conjunction no_date (VObj [("category", VStr "Art"); ("minPrice", vnum 25)]) gallery);
    [vm_compute; reflexivity|split; [reflexivity|split; left; reflexivity]|exact gallery_described].
Defined.

Definition art_filter : filters :=
  Filters "Art" EmptyString "15" EmptyString true false false false false None None [] "price" "asc".

Lemma gallery_comparable : comparable "an art" art_filter (VStr "SOwner") gallery.
Proof.
  split; [exact gallery_described|]. split; [intros _; repeat (apply Forall_cons; [eexists; reflexivity|]); apply Forall_nil|].
  split; [right; reflexivity|]. split; [left; reflexivity|]. split; [discriminate|]. split; [apply Forall_nil|reflexivity].
Qed.

Lemma views_show_filtered_witness :
  exists shown, applyFilters no_date insertion_sort gallery "an art" art_filter (VStr "SOwner") = Ok shown /\
    Permutation shown [sample_nft "1" "Lion" "Art" 30; sample_nft "3" "Sun" "Art" 20].
Proof. exact (views_show_filtered no_date insertion_sort "an art" art_filter (VStr "SOwner") gallery gallery_comparable). Defined.

Lemma price_sort_ascends_witness :
  exists r, sortNFTs no_date insertion_sort gallery "price" "asc" = Ok r /\ Permutation r gallery /\
    StronglySorted (fun x y => js_lt (price_of x) (price_of y) = true) r.
Proof.
  apply (price_sort_ascends no_date insertion_sort gallery).
  - repeat (apply Forall_cons; [split; [apply sample_described|eexists; split; [reflexivity|unfold prec; lia]]|]). apply Forall_nil.
  - repeat (apply NoDup_cons; [cbn; intuition discriminate|]). apply NoDup_nil.
Defined.

Lemma marketplace_price_exact_witness : formatPrice (Num.of_Z 123456789) = "1.23456789 SHAH".
Proof. rewrite (marketplace_price_exact 123456789 ltac:(lia)). vm_compute. reflexivity. Defined.

Definition uncategorized : jsval :=
  VObj [("name", VStr "Lion"); ("description", VStr "An artwork"); ("creator", VStr "SCreator")].

Lemma search_without_category_witness :
  exists e, applyFilters no_date insertion_sort [uncategorized] "rose" filters0 VNull = Throw e /\ e_name e = "TypeError".
Proof.
  apply (search_without_category no_date insertion_sort "rose" filters0 VNull uncategorized []); try reflexivity; [|discriminate].
  split; try (eexists; reflexivity); left; reflexivity.
Defined.

Definition quietEnv : Env := {| reply _ _ _ := Ok VUndef; clock _ := Num.zero; random _ := Num.zero |}.

Lemma unlisted_nft_purchasable_witness :
  let nft := VObj [("id", VStr "1"); ("name", VStr "Lion"); ("description", VStr "d"); ("imageUrl", VStr "u"); ("creator", VStr "c"); ("owner", VStr "o")] in
  wp (createPurchaseTransaction (H := quietEnv) nft (VStr "b") VUndef)
    (fun tx _ _ => get_opt tx "priceSatoshis" = VUndef /\ get_opt tx "buyerAddress" = VStr "b") (fun _ _ t' => t' <> []) tt [].
Proof. intros nft. exact (unlisted_nft_purchasable (H := quietEnv) nft (VStr "b") tt [] eq_refl eq_refl). Defined.

Lemma analytics_exact_witness :
  let date v := to_num v in
  let rows := [(VObj [("timestamp", vnum 999000000); ("amountSatoshis", vnum 5)], (999000000%Z, 5%Z));
               (VObj [("timestamp", vnum 500000000); ("amountSatoshis", vnum 7)], (500000000%Z, 7%Z))] in
  exists v, generateAnalytics date insertion_sort (Num.of_Z 1000000000) [] (map fst rows) = Ok v /\
    get_opt v "totalVolume24h" = vnum 5 /\ get_opt v "totalVolume7d" = vnum 12.
Proof.
  intros date rows.
  destruct (analytics_exact date insertion_sort 1000000000 [] rows) as (v & E & V1 & V2 & _).
  - repeat (apply Forall_cons; [split; [eexists; split; reflexivity|split; [unfold safe, prec; cbn; lia|split; [reflexivity|cbn; lia]]]|]).
    apply Forall_nil.
  - lia.
  - unfold prec. cbn. lia.
  - exists v. split; [exact E|]. split; [exact V1|exact V2].
Defined.
