(* ===== verification/MarketStyles.v ===== *)
(** * The style table of the mobile marketplace

    The constant [styles] of MobileMarketplace.js.  Its views look styles up
    by name; a name that is not in the table would give undefined, which
    React Native silently ignores. *)

From Stdlib Require Import ZArith List String.
From S2P Require Import Prelude JsNum JsVal.
Import ListNotations.
Local Open Scope string_scope.

Definition styles_controls : list (string * jsval) :=
  [("container", VObj [("flex", vnum 1); ("backgroundColor", VStr "#f5f5f5")]);
   ("tabBar", VObj [("flexDirection", VStr "row"); ("backgroundColor", VStr "#fff"); ("borderBottomWidth", vnum 1); ("borderBottomColor", VStr "#e0e0e0"); ("paddingHorizontal", vnum 16); ("paddingVertical", vnum 8)]);
   ("tab", VObj [("flex", vnum 1); ("alignItems", VStr "center"); ("paddingVertical", vnum 8); ("borderRadius", vnum 8)]);
   ("activeTab", VObj [("backgroundColor", VStr "#e3f2fd")]);
   ("tabText", VObj [("fontSize", vnum 12); ("color", VStr "#666"); ("marginTop", vnum 4)]);
   ("activeTabText", VObj [("color", VStr "#2196F3"); ("fontWeight", VStr "600")]);
   ("content", VObj [("flex", vnum 1)]);
   ("header", VObj [("flexDirection", VStr "row"); ("justifyContent", VStr "space-between"); ("alignItems", VStr "center"); ("paddingHorizontal", vnum 16); ("paddingVertical", vnum 12); ("backgroundColor", VStr "#fff"); ("borderBottomWidth", vnum 1); ("borderBottomColor", VStr "#e0e0e0")]);
   ("viewModeToggle", VObj [("flexDirection", VStr "row"); ("backgroundColor", VStr "#f0f0f0"); ("borderRadius", vnum 8); ("padding", vnum 2)]);
   ("viewModeButton", VObj [("paddingHorizontal", vnum 12); ("paddingVertical", vnum 6); ("borderRadius", vnum 6)]);
   ("activeViewMode", VObj [("backgroundColor", VStr "#fff"); ("shadowColor", VStr "#000"); ("shadowOffset", VObj [("width", vnum 0); ("height", vnum 1)]); ("shadowOpacity", VNum (Num.dec 1 1)); ("shadowRadius", vnum 2); ("elevation", vnum 2)]);
   ("viewModeText", VObj [("fontSize", vnum 12); ("color", VStr "#666"); ("fontWeight", VStr "500")]);
   ("activeViewModeText", VObj [("color", VStr "#2196F3"); ("fontWeight", VStr "600")]);
   ("headerActions", VObj [("flexDirection", VStr "row"); ("gap", vnum 12)]);
   ("searchButton", VObj [("padding", vnum 8)]);
   ("filterButton", VObj [("padding", vnum 8)]);
   ("searchContainer", VObj [("flexDirection", VStr "row"); ("alignItems", VStr "center"); ("paddingHorizontal", vnum 16); ("paddingVertical", vnum 8); ("backgroundColor", VStr "#fff"); ("borderBottomWidth", vnum 1); ("borderBottomColor", VStr "#e0e0e0")]);
   ("searchInput", VObj [("flex", vnum 1); ("height", vnum 40); ("backgroundColor", VStr "#f5f5f5"); ("borderRadius", vnum 20); ("paddingHorizontal", vnum 16); ("fontSize", vnum 16); ("color", VStr "#333")]);
   ("clearSearchButton", VObj [("marginLeft", vnum 8); ("padding", vnum 4)]);
   ("filtersPanel", VObj [("backgroundColor", VStr "#fff"); ("borderBottomWidth", vnum 1); ("borderBottomColor", VStr "#e0e0e0"); ("paddingVertical", vnum 8)]);
   ("filterChips", VObj [("flexDirection", VStr "row"); ("paddingHorizontal", vnum 16); ("gap", vnum 8)]);
   ("filterChip", VObj [("paddingHorizontal", vnum 12); ("paddingVertical", vnum 6); ("backgroundColor", VStr "#f0f0f0"); ("borderRadius", vnum 16); ("borderWidth", vnum 1); ("borderColor", VStr "#e0e0e0")]);
   ("activeFilterChip", VObj [("backgroundColor", VStr "#2196F3"); ("borderColor", VStr "#2196F3")]);
   ("filterChipText", VObj [("fontSize", vnum 12); ("color", VStr "#666")]);
   ("activeFilterChipText", VObj [("color", VStr "#fff"); ("fontWeight", VStr "600")]);
   ("nftList", VObj [("padding", vnum 8)]);
   ("nftRow", VObj [("justifyContent", VStr "space-between")])].

Definition styles_cards (isTablet : bool) : list (string * jsval) :=
  [("nftCard", VObj [("flex", vnum 1); ("backgroundColor", VStr "#fff"); ("borderRadius", vnum 12); ("margin", vnum 4); ("shadowColor", VStr "#000"); ("shadowOffset", VObj [("width", vnum 0); ("height", vnum 2)]); ("shadowOpacity", VNum (Num.dec 1 1)); ("shadowRadius", vnum 4); ("elevation", vnum 3); ("overflow", VStr "hidden")]);
   ("nftImage", VObj [("width", VStr "100%"); ("height", (if isTablet then vnum 200 else vnum 150))]);
   ("nftInfo", VObj [("padding", vnum 12)]);
   ("nftHeader", VObj [("flexDirection", VStr "row"); ("alignItems", VStr "center"); ("marginBottom", vnum 4)]);
   ("nftName", VObj [("flex", vnum 1); ("fontSize", vnum 14); ("fontWeight", VStr "600"); ("color", VStr "#333"); ("marginRight", vnum 4)]);
   ("nftDescription", VObj [("fontSize", vnum 12); ("color", VStr "#666"); ("marginBottom", vnum 8); ("lineHeight", vnum 16)]);
   ("nftMeta", VObj [("marginBottom", vnum 8)]);
   ("creatorInfo", VObj [("flexDirection", VStr "row"); ("alignItems", VStr "center"); ("marginBottom", vnum 4)]);
   ("creatorLabel", VObj [("fontSize", vnum 11); ("color", VStr "#999"); ("marginRight", vnum 4)]);
   ("creatorButton", VObj [("flexDirection", VStr "row"); ("alignItems", VStr "center")]);
   ("creatorAddress", VObj [("fontSize", vnum 11); ("color", VStr "#2196F3"); ("fontWeight", VStr "500")]);
   ("priceInfo", VObj [("flexDirection", VStr "row"); ("alignItems", VStr "center")]);
   ("priceLabel", VObj [("fontSize", vnum 11); ("color", VStr "#999"); ("marginRight", vnum 4)]);
   ("priceValue", VObj [("fontSize", vnum 12); ("fontWeight", VStr "600"); ("color", VStr "#333")]);
   ("nftActions", VObj [("flexDirection", VStr "row"); ("alignItems", VStr "center"); ("justifyContent", VStr "space-between")]);
   ("favoriteButton", VObj [("padding", vnum 4)]);
   ("buyButton", VObj [("backgroundColor", VStr "#4CAF50"); ("paddingHorizontal", vnum 12); ("paddingVertical", vnum 6); ("borderRadius", vnum 6)]);
   ("buyButtonText", VObj [("color", VStr "#fff"); ("fontSize", vnum 12); ("fontWeight", VStr "600")]);
   ("transferButton", VObj [("backgroundColor", VStr "#FF9800"); ("paddingHorizontal", vnum 12); ("paddingVertical", vnum 6); ("borderRadius", vnum 6)]);
   ("transferButtonText", VObj [("color", VStr "#fff"); ("fontSize", vnum 12); ("fontWeight", VStr "600")]);
   ("loadingContainer", VObj [("flex", vnum 1); ("justifyContent", VStr "center"); ("alignItems", VStr "center")]);
   ("loadingText", VObj [("marginTop", vnum 16); ("fontSize", vnum 16); ("color", VStr "#666")]);
   ("emptyContainer", VObj [("flex", vnum 1); ("justifyContent", VStr "center"); ("alignItems", VStr "center"); ("paddingVertical", vnum 64)]);
   ("emptyText", VObj [("fontSize", vnum 18); ("color", VStr "#666"); ("marginTop", vnum 16)]);
   ("emptySubtext", VObj [("fontSize", vnum 14); ("color", VStr "#999"); ("marginTop", vnum 8); ("textAlign", VStr "center")]);
   ("analyticsContainer", VObj [("padding", vnum 16)]);
   ("analyticsTitle", VObj [("fontSize", vnum 24); ("fontWeight", VStr "bold"); ("color", VStr "#333"); ("marginBottom", vnum 24)]);
   ("statsGrid", VObj [("flexDirection", VStr "row"); ("flexWrap", VStr "wrap"); ("gap", vnum 12); ("marginBottom", vnum 24)])].

Definition styles_pages : list (string * jsval) :=
  [("statCard", VObj [("flex", vnum 1); ("minWidth", vnum 150); ("backgroundColor", VStr "#fff"); ("padding", vnum 16); ("borderRadius", vnum 12); ("shadowColor", VStr "#000"); ("shadowOffset", VObj [("width", vnum 0); ("height", vnum 2)]); ("shadowOpacity", VNum (Num.dec 1 1)); ("shadowRadius", vnum 4); ("elevation", vnum 3)]);
   ("statLabel", VObj [("fontSize", vnum 12); ("color", VStr "#666"); ("marginBottom", vnum 4)]);
   ("statValue", VObj [("fontSize", vnum 18); ("fontWeight", VStr "bold"); ("color", VStr "#333")]);
   ("section", VObj [("backgroundColor", VStr "#fff"); ("borderRadius", vnum 12); ("padding", vnum 16); ("marginBottom", vnum 16); ("shadowColor", VStr "#000"); ("shadowOffset", VObj [("width", vnum 0); ("height", vnum 2)]); ("shadowOpacity", VNum (Num.dec 1 1)); ("shadowRadius", vnum 4); ("elevation", vnum 3)]);
   ("sectionTitle", VObj [("fontSize", vnum 18); ("fontWeight", VStr "600"); ("color", VStr "#333"); ("marginBottom", vnum 12)]);
   ("creatorRow", VObj [("flexDirection", VStr "row"); ("alignItems", VStr "center"); ("paddingVertical", vnum 8); ("borderBottomWidth", vnum 1); ("borderBottomColor", VStr "#f0f0f0")]);
   ("creatorRank", VObj [("fontSize", vnum 14); ("fontWeight", VStr "600"); ("color", VStr "#2196F3"); ("marginRight", vnum 12); ("minWidth", vnum 30)]);
   ("creatorName", VObj [("flex", vnum 1); ("fontSize", vnum 14); ("color", VStr "#333")]);
   ("creatorVolume", VObj [("fontSize", vnum 14); ("fontWeight", VStr "600"); ("color", VStr "#4CAF50")]);
   ("categoryRow", VObj [("flexDirection", VStr "row"); ("alignItems", VStr "center"); ("paddingVertical", vnum 8); ("borderBottomWidth", vnum 1); ("borderBottomColor", VStr "#f0f0f0")]);
   ("categoryRank", VObj [("fontSize", vnum 14); ("fontWeight", VStr "600"); ("color", VStr "#2196F3"); ("marginRight", vnum 12); ("minWidth", vnum 30)]);
   ("categoryName", VObj [("flex", vnum 1); ("fontSize", vnum 14); ("color", VStr "#333")]);
   ("categoryCount", VObj [("fontSize", vnum 14); ("color", VStr "#666")]);
   ("profileContainer", VObj [("padding", vnum 16)]);
   ("profileTitle", VObj [("fontSize", vnum 24); ("fontWeight", VStr "bold"); ("color", VStr "#333"); ("marginBottom", vnum 24)]);
   ("profileStats", VObj [("flexDirection", VStr "row"); ("gap", vnum 16); ("marginBottom", vnum 24)]);
   ("profileStat", VObj [("flex", vnum 1); ("backgroundColor", VStr "#fff"); ("padding", vnum 16); ("borderRadius", vnum 12); ("alignItems", VStr "center"); ("shadowColor", VStr "#000"); ("shadowOffset", VObj [("width", vnum 0); ("height", vnum 2)]); ("shadowOpacity", VNum (Num.dec 1 1)); ("shadowRadius", vnum 4); ("elevation", vnum 3)]);
   ("profileStatValue", VObj [("fontSize", vnum 24); ("fontWeight", VStr "bold"); ("color", VStr "#2196F3"); ("marginBottom", vnum 4)]);
   ("profileStatLabel", VObj [("fontSize", vnum 12); ("color", VStr "#666")]);
   ("createNFTButton", VObj [("backgroundColor", VStr "#2196F3"); ("flexDirection", VStr "row"); ("alignItems", VStr "center"); ("justifyContent", VStr "center"); ("paddingVertical", vnum 16); ("borderRadius", vnum 12); ("shadowColor", VStr "#000"); ("shadowOffset", VObj [("width", vnum 0); ("height", vnum 2)]); ("shadowOpacity", VNum (Num.dec 1 1)); ("shadowRadius", vnum 4); ("elevation", vnum 3)]);
   ("createNFTButtonText", VObj [("color", VStr "#fff"); ("fontSize", vnum 16); ("fontWeight", VStr "600"); ("marginLeft", vnum 8)]);
   ("modalContainer", VObj [("flex", vnum 1); ("backgroundColor", VStr "#fff")])].

Definition styles_details : list (string * jsval) :=
  [("modalHeader", VObj [("flexDirection", VStr "row"); ("alignItems", VStr "center"); ("justifyContent", VStr "space-between"); ("paddingHorizontal", vnum 16); ("paddingVertical", vnum 12); ("borderBottomWidth", vnum 1); ("borderBottomColor", VStr "#e0e0e0")]);
   ("closeButton", VObj [("padding", vnum 4)]);
   ("modalTitle", VObj [("fontSize", vnum 18); ("fontWeight", VStr "600"); ("color", VStr "#333")]);
   ("placeholder", VObj [("width", vnum 32)]);
   ("modalContent", VObj [("flex", vnum 1)]);
   ("modalImage", VObj [("width", VStr "100%"); ("height", vnum 300)]);
   ("modalInfo", VObj [("padding", vnum 16)]);
   ("modalNFTName", VObj [("fontSize", vnum 20); ("fontWeight", VStr "bold"); ("color", VStr "#333"); ("marginRight", vnum 8)]);
   ("modalDescription", VObj [("fontSize", vnum 14); ("color", VStr "#666"); ("lineHeight", vnum 20); ("marginBottom", vnum 16)]);
   ("modalMeta", VObj [("marginBottom", vnum 16)]);
   ("modalMetaRow", VObj [("flexDirection", VStr "row"); ("alignItems", VStr "center"); ("marginBottom", vnum 8)]);
   ("modalMetaLabel", VObj [("fontSize", vnum 14); ("color", VStr "#666"); ("marginRight", vnum 8); ("minWidth", vnum 80)]);
   ("modalMetaValue", VObj [("fontSize", vnum 14); ("color", VStr "#333"); ("fontWeight", VStr "500")]);
   ("traitsContainer", VObj [("marginTop", vnum 12)]);
   ("traitsTitle", VObj [("fontSize", vnum 14); ("fontWeight", VStr "600"); ("color", VStr "#333"); ("marginBottom", vnum 8)]);
   ("traitsList", VObj [("flexDirection", VStr "row"); ("flexWrap", VStr "wrap"); ("gap", vnum 8)]);
   ("traitChip", VObj [("backgroundColor", VStr "#f0f0f0"); ("paddingHorizontal", vnum 8); ("paddingVertical", vnum 4); ("borderRadius", vnum 8)]);
   ("traitType", VObj [("fontSize", vnum 10); ("color", VStr "#666"); ("textTransform", VStr "uppercase")]);
   ("traitValue", VObj [("fontSize", vnum 12); ("color", VStr "#333"); ("fontWeight", VStr "500")]);
   ("modalActions", VObj [("flexDirection", VStr "row"); ("alignItems", VStr "center"); ("justifyContent", VStr "space-between"); ("paddingTop", vnum 16); ("borderTopWidth", vnum 1); ("borderTopColor", VStr "#e0e0e0")]);
   ("modalFavoriteButton", VObj [("flexDirection", VStr "row"); ("alignItems", VStr "center"); ("padding", vnum 8)]);
   ("modalFavoriteText", VObj [("fontSize", vnum 14); ("color", VStr "#666"); ("marginLeft", vnum 4)]);
   ("modalBuyButton", VObj [("backgroundColor", VStr "#4CAF50"); ("flexDirection", VStr "row"); ("alignItems", VStr "center"); ("paddingHorizontal", vnum 16); ("paddingVertical", vnum 12); ("borderRadius", vnum 8)]);
   ("modalBuyButtonText", VObj [("color", VStr "#fff"); ("fontSize", vnum 14); ("fontWeight", VStr "600"); ("marginLeft", vnum 4)]);
   ("modalTransferButton", VObj [("backgroundColor", VStr "#FF9800"); ("flexDirection", VStr "row"); ("alignItems", VStr "center"); ("paddingHorizontal", vnum 16); ("paddingVertical", vnum 12); ("borderRadius", vnum 8)]);
   ("modalTransferButtonText", VObj [("color", VStr "#fff"); ("fontSize", vnum 14); ("fontWeight", VStr "600"); ("marginLeft", vnum 4)])].

Definition styles (isTablet : bool) : jsval := VObj (styles_controls ++ styles_cards isTablet ++ styles_pages ++ styles_details)%list.

Definition style_names : list string := map fst (styles_controls ++ styles_cards true ++ styles_pages ++ styles_details)%list.

(** [styles.name] of a listed name is a style. *)
Lemma style_defined isTablet name : mem_string name style_names = true -> exists o, get_opt (styles isTablet) name = VObj o.
Proof.
  intros M. apply mem_string_In in M.
  assert (Forall (fun n => forall b, exists o, get_opt (styles b) n = VObj o) style_names) as F.
  { unfold style_names. cbn [map app fst styles_controls styles_cards styles_pages styles_details].
    repeat (apply Forall_cons; [intros []; eexists; vm_compute; reflexivity|]). apply Forall_nil. }
  rewrite Forall_forall in F. apply F, M.
Qed.
