(* ===== verification/MarketViews.v ===== *)
(** * What the marketplace shows and offers

    The [render] functions of WebMarketplace.js and MobileMarketplace.js of
    src/sdk-core/marketplace-ui as views in the sense of [Jsx], over one
    state: the data of [Marketplace] with the settings of the screen.  The
    handlers of a view are [action]s; MarketRuns says what they do.

    [localeDate] is [new Date(v).toLocaleDateString()], which the engine
    decides.  [FlatList] and [Modal] are components of React Native: a
    [FlatList] lays out [renderItem] for its data, or its empty component. *)

From Stdlib Require Import ZArith Bool List String.
From S2P Require Import Prelude JsNum JsVal Jsx Marketplace MarketStyles.
Import ListNotations.
Local Open Scope string_scope.

(** ** State and actions *)

Inductive chip : Type := VerifiedOnly | MyNFTs | Favorited | UnlockableContent.

Inductive action : Type :=
  | SetTab (tab : string)
  | SetMode (mode : string)
  | ToggleSearch
  | ToggleFilters
  | SetQuery (v : jsval)
  | ToggleChip (c : chip)
  | Press (nft : jsval)
  | Close
  | Favorite (nft : jsval)
  | Buy (nft : jsval)
  | Transfer (nft : jsval)
  | ShowCreator (address : jsval)
  | AdvancedFilters
  | BulkOperations
  | Refresh.

(** The [useState] hooks of the views; [data] holds those that [Marketplace]
    works on. *)
Record screen : Type := Screen {
  activeTab : string; showFilters : bool; showSearch : bool; searchQuery : string; settings : filters;
  filteredNfts : list jsval; isMobile : bool; data : view }.

Definition analytics0 : jsval :=
  VObj [("totalVolume24h", vnum 0); ("totalVolume7d", vnum 0); ("totalTransactions24h", vnum 0); ("averagePrice24h", vnum 0);
        ("topCreators", VArr []); ("topCategories", VArr [])].

Definition screen0 : screen :=
  Screen "marketplace" false false EmptyString filters0 [] false (View "verified" [] true VNull [] analytics0 false).

(** ** Parts both views use *)

Section Parts.
Context {A : Type}.

(** [{formatPrice(v.k)}] and [{formatAddress(v.k)}]. *)
Definition price (v : jsval) (k : string) : html A := text_of (res_bind (get v k) (fun x => Ok (formatPrice (to_num x)))).
Definition address (v : jsval) (k : string) : html A := text_of (res_bind (get v k) formatAddress).

(** [{nfts.filter(keep).length}]. *)
Definition count (keep : jsval -> result bool) (nfts : list jsval) : html A :=
  res_bind (filter_result keep nfts) (fun l => dyn (vnum (Z.of_nat (List.length l)))).

(** [{expr.k.map(f)}], [v] being the value of the expression. *)
Definition each_of (expr : string) (v : jsval) (k : string) (f : nat -> jsval -> html A) : html A :=
  res_bind (get v k) (fun x => res_bind (as_array (expr ++ "." ++ k) "map" x) (fun l => each l f)).

End Parts.

Section Views.
Context (walletAddress : jsval) (localeDate : jsval -> string) (isTablet : bool) (s : screen).
Notation page := (html action).

Definition creatorProfile (nft : jsval) : result jsval :=
  res_bind (get nft "creator") (fun c => Ok (js_or (obj_get (creatorProfiles (data s)) (to_str c)) (VObj []))).

Definition mine (nft : jsval) : bool := strict_eq (get_opt nft "owner") walletAddress.
Definition favorited (nft : jsval) : bool := truthy (get_opt nft "isFavorited").
Definition mark (b : bool) (name : string) : string := if b then name else EmptyString.
Definition icon (name : string) : page := el name [] [].

(** ** WebMarketplace.js *)

Definition web_renderNFTCard (nft : jsval) : page :=
  res_bind (creatorProfile nft) (fun profile =>
  el "div" [prop "key" (get_opt nft "id"); cls "nft-card"; onClick [Press nft]] [
    el "div" [cls "nft-image-container"] [
      el "img" [prop "src" (get_opt nft "imageUrl"); prop "alt" (get_opt nft "name"); cls "nft-image"] [];
      cond (get_opt nft "isVerified") (el "div" [cls "verified-badge"] [icon "FaCheckCircle"]);
      el "button" [cls "favorite-button"; onClickOnly [Favorite nft]] [
        if favorited nft then icon "FaHeart" else icon "FaHeartBroken"]];
    el "div" [cls "nft-info"] [
      el "div" [cls "nft-header"] [
        el "h3" [cls "nft-name"] [field nft "name"];
        cond (get_opt profile "isTrusted") (el "div" [cls "trusted-badge"; prop "title" (VStr "Trusted Creator")] [icon "FaShieldAlt"])];
      el "p" [cls "nft-description"] [field nft "description"];
      el "div" [cls "nft-meta"] [
        el "div" [cls "creator-info"] [
          el "span" [cls "meta-label"] [txt "Creator:"];
          el "button" [cls "creator-link"; onClickOnly [ShowCreator (get_opt nft "creator")]] [address nft "creator"]];
        el "div" [cls "price-info"] [
          el "span" [cls "meta-label"] [txt "Price:"];
          el "span" [cls "price-value"] [price nft "listPriceSatoshis"]]];
      el "div" [cls "nft-actions"] [
        if mine nft then
          el "button" [cls "action-button transfer-button"; onClickOnly [Transfer nft]] [icon "FaPaperPlane"; txt "Transfer"]
        else
          el "button" [cls "action-button buy-button"; onClickOnly [Buy nft]] [icon "FaShoppingCart"; txt "Buy"]]]]).

Definition web_tab (name image label : string) : page :=
  el "button" [cls ("tab " ++ mark (activeTab s =? name) "active"); onClick [SetTab name]] [icon image; el "span" [] [txt label]].

Definition web_renderTabBar : page :=
  el "div" [cls "tab-bar"] [
    web_tab "marketplace" "FaStore" "Marketplace";
    web_tab "analytics" "FaChartBar" "Analytics";
    web_tab "profile" "FaUser" "Profile"].

Definition web_mode (name label : string) : page :=
  el "button" [cls ("view-mode-button " ++ mark (viewMode (data s) =? name) "active"); onClick [SetMode name]] [txt label].

Definition web_chip (on : filters -> bool) (c : chip) (label : string) : page :=
  el "button" [cls ("filter-chip " ++ mark (on (settings s)) "active"); onClick [ToggleChip c]] [txt label].

Definition web_action (acts : list action) (title image : string) : page :=
  el "button" [cls "action-icon-button"; onClick acts; prop "title" (VStr title)] [icon image].

Definition web_header : page :=
  el "div" [cls "header"] [
    el "div" [cls "view-mode-toggle"] [
      web_mode "verified" "Verified"; web_mode "all" "All"; web_mode "my" "My NFTs"; web_mode "favorites" "Favorites"];
    el "div" [cls "header-actions"] [
      web_action [ToggleSearch] "Search" "FaSearch";
      web_action [ToggleFilters] "Filters" "FaFilter";
      when (negb (isMobile s)) (fragment [
        web_action [AdvancedFilters] "Advanced Filters" "FaCog";
        web_action [BulkOperations] "Bulk Operations" "FaDownload"])]].

Definition web_search : page :=
  el "div" [cls "search-container"] [
    el "div" [cls "search-input-wrapper"] [
      el "FaSearch" [cls "search-icon"] [];
      el "input" [prop "type" (VStr "text"); cls "search-input"; prop "placeholder" (VStr "Search NFTs, creators, categories...");
                  prop "value" (VStr (searchQuery s)); onChange SetQuery] [];
      when (0 <? String.length (searchQuery s))%nat
        (el "button" [cls "clear-search-button"; onClick [SetQuery (VStr EmptyString)]] [icon "FaTimes"])]].

Definition web_filters : page :=
  el "div" [cls "filters-panel"] [
    el "div" [cls "filter-chips"] [
      web_chip verifiedOnly VerifiedOnly "Verified Only";
      web_chip myNFTsOnly MyNFTs "My NFTs";
      web_chip favoritedOnly Favorited "Favorited";
      web_chip hasUnlockableContent UnlockableContent "Unlockable Content"]].

Definition web_grid : page :=
  if loading (data s) then
    el "div" [cls "loading-container"] [
      el "div" [cls "loading-spinner"] [];
      el "p" [cls "loading-text"] [txt "Loading marketplace..."]]
  else
    el "div" [cls "nft-grid"] [
      if (0 <? List.length (filteredNfts s))%nat then each (filteredNfts s) (fun _ => web_renderNFTCard)
      else
        el "div" [cls "empty-container"] [
          el "div" [cls "empty-icon"] [icon "FaEyeSlash"];
          el "h3" [cls "empty-text"] [txt "No NFTs found"];
          el "p" [cls "empty-subtext"] [txt "Try adjusting your filters or view mode"]]].

Definition web_renderMarketplaceContent : page :=
  el "div" [cls "content"] [web_header; when (showSearch s) web_search; when (showFilters s) web_filters; web_grid].

Definition web_stat (label : string) (value : page) : page :=
  el "div" [cls "stat-card"] [el "h3" [cls "stat-label"] [txt label]; el "p" [cls "stat-value"] [value]].

Definition rank (index : nat) : page := fragment [txt "#"; dyn (vnum (Z.of_nat index + 1))].

Definition web_renderAnalyticsContent : page :=
  let a := analytics (data s) in
  el "div" [cls "content"] [
    el "div" [cls "analytics-container"] [
      el "h1" [cls "analytics-title"] [txt "Marketplace Analytics"];
      el "div" [cls "stats-grid"] [
        web_stat "24h Volume" (price a "totalVolume24h");
        web_stat "7d Volume" (price a "totalVolume7d");
        web_stat "24h Transactions" (field a "totalTransactions24h");
        web_stat "Avg Price" (price a "averagePrice24h")];
      el "div" [cls "section"] [
        el "h2" [cls "section-title"] [txt "Top Creators"];
        el "div" [cls "creator-list"] [
          each_of "analytics" a "topCreators" (fun index creator =>
            el "div" [prop "key" (get_opt creator "address"); cls "creator-row"] [
              el "span" [cls "creator-rank"] [rank index];
              el "span" [cls "creator-name"] [address creator "address"];
              el "span" [cls "creator-volume"] [price creator "volume"]])]];
      el "div" [cls "section"] [
        el "h2" [cls "section-title"] [txt "Top Categories"];
        el "div" [cls "category-list"] [
          each_of "analytics" a "topCategories" (fun index category =>
            el "div" [prop "key" (get_opt category "name"); cls "category-row"] [
              el "span" [cls "category-rank"] [rank index];
              el "span" [cls "category-name"] [field category "name"];
              el "span" [cls "category-count"] [field category "count"; txt " NFTs"]])]]]].

Definition web_profile_stat (value : page) (label : string) : page :=
  el "div" [cls "profile-stat"] [el "h3" [cls "profile-stat-value"] [value]; el "p" [cls "profile-stat-label"] [txt label]].

Definition web_renderProfileContent : page :=
  el "div" [cls "content"] [
    el "div" [cls "profile-container"] [
      el "h1" [cls "profile-title"] [txt "My Profile"];
      el "div" [cls "profile-stats"] [
        web_profile_stat (count (field_is "owner" walletAddress) (nfts (data s))) "Owned NFTs";
        web_profile_stat (count (field_is "creator" walletAddress) (nfts (data s))) "Created NFTs";
        web_profile_stat (count (field_truthy "isFavorited") (nfts (data s))) "Favorites"];
      el "button" [cls "create-nft-button"; onClick [ShowCreator walletAddress]] [icon "FaPlus"; txt "Create New NFT"]]].

Definition web_row (label : string) (value : page) : page :=
  el "div" [cls "modal-meta-row"] [el "span" [cls "modal-meta-label"] [txt label]; value].
Definition web_value (value : page) : page := el "span" [cls "modal-meta-value"] [value].

Definition web_traits (traits : jsval) : page :=
  cond traits (res_bind (get traits "length") (fun n => when (js_gt n (vnum 0))
    (el "div" [cls "traits-container"] [
      el "h4" [cls "traits-title"] [txt "Traits:"];
      el "div" [cls "traits-list"] [
        res_bind (as_array "selectedNFT.traits" "map" traits) (fun l => each l (fun index trait =>
          el "div" [prop "key" (vnum (Z.of_nat index)); cls "trait-chip"] [
            el "span" [cls "trait-type"] [field trait "type"];
            el "span" [cls "trait-value"] [field trait "value"]]))]]))).

Definition web_details (nft : jsval) : page :=
  el "div" [cls "modal-body"] [
    el "div" [cls "modal-image-container"] [
      el "img" [prop "src" (get_opt nft "imageUrl"); prop "alt" (get_opt nft "name"); cls "modal-image"] []];
    el "div" [cls "modal-info"] [
      el "div" [cls "modal-header"] [
        el "h3" [cls "modal-nft-name"] [field nft "name"];
        cond (get_opt nft "isVerified") (el "div" [cls "verified-badge"] [icon "FaCheckCircle"])];
      el "p" [cls "modal-description"] [field nft "description"];
      el "div" [cls "modal-meta"] [
        web_row "Creator:" (el "button" [cls "modal-meta-value creator-link"; onClick [Close; ShowCreator (get_opt nft "creator")]] [address nft "creator"]);
        web_row "Owner:" (web_value (address nft "owner"));
        web_row "Price:" (web_value (price nft "listPriceSatoshis"));
        web_row "Mint Date:" (web_value (txt (localeDate (get_opt nft "mintDate"))));
        web_row "Category:" (web_value (field nft "category"));
        web_traits (get_opt nft "traits")];
      el "div" [cls "modal-actions"] [
        el "button" [cls "modal-favorite-button"; onClick [Favorite nft]] [
          if favorited nft then icon "FaHeart" else icon "FaHeartBroken";
          txt (if favorited nft then "Favorited" else "Favorite")];
        if mine nft then
          el "button" [cls "modal-transfer-button"; onClick [Transfer nft]] [icon "FaPaperPlane"; txt "Transfer"]
        else
          el "button" [cls "modal-buy-button"; onClick [Buy nft]] [icon "FaShoppingCart"; txt "Buy Now"]]]].

Definition web_renderNFTDetailModal : page :=
  let selected := selectedNFT (data s) in
  cond selected
    (el "div" [cls "modal-overlay"; onClick [Close]] [
      el "div" [cls "modal-content"; onClickOnly []] [
        el "div" [cls "modal-header"] [
          el "h2" [cls "modal-title"] [txt "NFT Details"];
          el "button" [cls "close-button"; onClick [Close]] [icon "FaTimes"]];
        web_details selected]]).

Definition WebMarketplace : page :=
  el "div" [cls "web-marketplace"] [
    web_renderTabBar;
    when (activeTab s =? "marketplace") web_renderMarketplaceContent;
    when (activeTab s =? "analytics") web_renderAnalyticsContent;
    when (activeTab s =? "profile") web_renderProfileContent;
    web_renderNFTDetailModal].

(** ** MobileMarketplace.js *)

Definition styleOf (name : string) : jsval := get_opt (styles isTablet) name.
Definition style (name : string) : string * attr action := prop "style" (styleOf name).
(** [style={[styles.name, b && styles.extra]}]. *)
Definition style_if (name : string) (b : bool) (extra : string) : string * attr action :=
  prop "style" (VArr [styleOf name; if b then styleOf extra else VBool false]).

Definition ionicon (name : string) (size : Z) (color : string) : page :=
  el "Ionicons" [prop "name" (VStr name); prop "size" (vnum size); prop "color" (VStr color)] [].
Definition label (name text : string) : page := el "Text" [style name] [txt text].
Definition heart (nft : jsval) (size : Z) : page :=
  ionicon (if favorited nft then "heart" else "heart-outline") size (if favorited nft then "#E91E63" else "#666").
Definition photo (nft : jsval) (name mode : string) : page :=
  el "Image" [prop "source" (VObj [("uri", get_opt nft "imageUrl")]); style name; prop "resizeMode" (VStr mode)] [].

Definition mobile_renderNFTCard (nft : jsval) : page :=
  res_bind (creatorProfile nft) (fun profile =>
  el "TouchableOpacity" [style "nftCard"; onPress [Press nft]] [
    photo nft "nftImage" "cover";
    el "View" [style "nftInfo"] [
      el "View" [style "nftHeader"] [
        el "Text" [style "nftName"; prop "numberOfLines" (vnum 1)] [field nft "name"];
        cond (get_opt nft "isVerified") (ionicon "checkmark-circle" 16 "#4CAF50")];
      el "Text" [style "nftDescription"; prop "numberOfLines" (vnum 2)] [field nft "description"];
      el "View" [style "nftMeta"] [
        el "View" [style "creatorInfo"] [
          label "creatorLabel" "Creator:";
          el "TouchableOpacity" [onPress [ShowCreator (get_opt nft "creator")]; style "creatorButton"] [
            el "Text" [style "creatorAddress"] [address nft "creator"];
            cond (get_opt profile "isTrusted") (ionicon "shield-checkmark" 12 "#2196F3")]];
        el "View" [style "priceInfo"] [
          label "priceLabel" "Price:";
          el "Text" [style "priceValue"] [price nft "listPriceSatoshis"]]];
      el "View" [style "nftActions"] [
        el "TouchableOpacity" [style "favoriteButton"; onPress [Favorite nft]] [heart nft 20];
        if mine nft then
          el "TouchableOpacity" [style "transferButton"; onPress [Transfer nft]] [label "transferButtonText" "Transfer"]
        else
          el "TouchableOpacity" [style "buyButton"; onPress [Buy nft]] [label "buyButtonText" "Buy"]]]]).

Definition mobile_tab (name image text : string) : page :=
  let on := activeTab s =? name in
  el "TouchableOpacity" [style_if "tab" on "activeTab"; onPress [SetTab name]] [
    ionicon image 20 (if on then "#2196F3" else "#666");
    el "Text" [style_if "tabText" on "activeTabText"] [txt text]].

Definition mobile_renderTabBar : page :=
  el "View" [style "tabBar"] [
    mobile_tab "marketplace" "storefront" "Marketplace";
    mobile_tab "analytics" "analytics" "Analytics";
    mobile_tab "profile" "person" "Profile"].

Definition mobile_mode (name text : string) : page :=
  let on := viewMode (data s) =? name in
  el "TouchableOpacity" [style_if "viewModeButton" on "activeViewMode"; onPress [SetMode name]] [
    el "Text" [style_if "viewModeText" on "activeViewModeText"] [txt text]].

Definition mobile_header : page :=
  el "View" [style "header"] [
    el "View" [style "viewModeToggle"] [
      mobile_mode "verified" "Verified"; mobile_mode "all" "All"; mobile_mode "my" "My NFTs"; mobile_mode "favorites" "Favorites"];
    el "View" [style "headerActions"] [
      el "TouchableOpacity" [style "searchButton"; onPress [ToggleSearch]] [ionicon "search" 20 "#666"];
      el "TouchableOpacity" [style "filterButton"; onPress [ToggleFilters]] [ionicon "filter" 20 "#666"]]].

Definition mobile_search : page :=
  el "View" [style "searchContainer"] [
    el "TextInput" [style "searchInput"; prop "placeholder" (VStr "Search NFTs, creators, categories..."); prop "value" (VStr (searchQuery s));
                    ("onChangeText", OnValue SetQuery); prop "placeholderTextColor" (VStr "#999")] [];
    when (0 <? String.length (searchQuery s))%nat
      (el "TouchableOpacity" [style "clearSearchButton"; onPress [SetQuery (VStr EmptyString)]] [ionicon "close-circle" 20 "#999"])].

Definition mobile_chip (on : filters -> bool) (c : chip) (text : string) : page :=
  el "TouchableOpacity" [style_if "filterChip" (on (settings s)) "activeFilterChip"; onPress [ToggleChip c]] [
    el "Text" [style_if "filterChipText" (on (settings s)) "activeFilterChipText"] [txt text]].

Definition mobile_filters : page :=
  el "View" [style "filtersPanel"] [
    el "ScrollView" [prop "horizontal" (VBool true); prop "showsHorizontalScrollIndicator" (VBool false)] [
      el "View" [style "filterChips"] [
        mobile_chip verifiedOnly VerifiedOnly "Verified Only";
        mobile_chip myNFTsOnly MyNFTs "My NFTs";
        mobile_chip favoritedOnly Favorited "Favorited";
        mobile_chip hasUnlockableContent UnlockableContent "Unlockable Content"]]].

Definition mobile_empty : page :=
  el "View" [style "emptyContainer"] [
    ionicon "images-outline" 64 "#ccc";
    label "emptyText" "No NFTs found";
    label "emptySubtext" "Try adjusting your filters or view mode"].

Definition mobile_list : page :=
  if loading (data s) then
    el "View" [style "loadingContainer"] [
      el "ActivityIndicator" [prop "size" (VStr "large"); prop "color" (VStr "#2196F3")] [];
      label "loadingText" "Loading marketplace..."]
  else
    el "FlatList" [prop "numColumns" (vnum (if isTablet then 3 else 2)); prop "columnWrapperStyle" (if isTablet then VNull else styleOf "nftRow");
                   prop "showsVerticalScrollIndicator" (VBool false); prop "contentContainerStyle" (styleOf "nftList")] [
      el "RefreshControl" [prop "refreshing" (VBool (refreshing (data s))); ("onRefresh", On false [Refresh]); prop "colors" (VArr [VStr "#2196F3"])] [];
      if (0 <? List.length (filteredNfts s))%nat then each (filteredNfts s) (fun _ => mobile_renderNFTCard) else mobile_empty].

Definition mobile_renderMarketplaceContent : page :=
  el "View" [style "content"] [mobile_header; when (showSearch s) mobile_search; when (showFilters s) mobile_filters; mobile_list].

Definition mobile_stat (text : string) (value : page) : page :=
  el "View" [style "statCard"] [label "statLabel" text; el "Text" [style "statValue"] [value]].

Definition mobile_renderAnalyticsContent : page :=
  let a := analytics (data s) in
  el "View" [style "content"] [
    el "ScrollView" [prop "showsVerticalScrollIndicator" (VBool false)] [
      el "View" [style "analyticsContainer"] [
        label "analyticsTitle" "Marketplace Analytics";
        el "View" [style "statsGrid"] [
          mobile_stat "24h Volume" (price a "totalVolume24h");
          mobile_stat "7d Volume" (price a "totalVolume7d");
          mobile_stat "24h Transactions" (field a "totalTransactions24h");
          mobile_stat "Avg Price" (price a "averagePrice24h")];
        el "View" [style "section"] [
          label "sectionTitle" "Top Creators";
          each_of "analytics" a "topCreators" (fun index creator =>
            el "View" [prop "key" (get_opt creator "address"); style "creatorRow"] [
              el "Text" [style "creatorRank"] [rank index];
              el "Text" [style "creatorName"] [address creator "address"];
              el "Text" [style "creatorVolume"] [price creator "volume"]])];
        el "View" [style "section"] [
          label "sectionTitle" "Top Categories";
          each_of "analytics" a "topCategories" (fun index category =>
            el "View" [prop "key" (get_opt category "name"); style "categoryRow"] [
              el "Text" [style "categoryRank"] [rank index];
              el "Text" [style "categoryName"] [field category "name"];
              el "Text" [style "categoryCount"] [field category "count"; txt " NFTs"]])]]]].

Definition mobile_profile_stat (value : page) (text : string) : page :=
  el "View" [style "profileStat"] [el "Text" [style "profileStatValue"] [value]; label "profileStatLabel" text].

Definition mobile_renderProfileContent : page :=
  el "View" [style "content"] [
    el "ScrollView" [prop "showsVerticalScrollIndicator" (VBool false)] [
      el "View" [style "profileContainer"] [
        label "profileTitle" "My Profile";
        el "View" [style "profileStats"] [
          mobile_profile_stat (count (field_is "owner" walletAddress) (nfts (data s))) "Owned NFTs";
          mobile_profile_stat (count (field_is "creator" walletAddress) (nfts (data s))) "Created NFTs";
          mobile_profile_stat (count (field_truthy "isFavorited") (nfts (data s))) "Favorites"];
        el "TouchableOpacity" [style "createNFTButton"; onPress [ShowCreator walletAddress]] [
          ionicon "add-circle" 20 "#fff";
          label "createNFTButtonText" "Create New NFT"]]]].

Definition mobile_row (text : string) (value : page) : page :=
  el "View" [style "modalMetaRow"] [label "modalMetaLabel" text; value].
Definition mobile_value (value : page) : page := el "Text" [style "modalMetaValue"] [value].

Definition mobile_traits (traits : jsval) : page :=
  cond traits (res_bind (get traits "length") (fun n => when (js_gt n (vnum 0))
    (el "View" [style "traitsContainer"] [
      label "traitsTitle" "Traits:";
      el "View" [style "traitsList"] [
        res_bind (as_array "selectedNFT.traits" "map" traits) (fun l => each l (fun index trait =>
          el "View" [prop "key" (vnum (Z.of_nat index)); style "traitChip"] [
            el "Text" [style "traitType"] [field trait "type"];
            el "Text" [style "traitValue"] [field trait "value"]]))]]))).

Definition mobile_details (nft : jsval) : page :=
  el "ScrollView" [style "modalContent"] [
    photo nft "modalImage" "contain";
    el "View" [style "modalInfo"] [
      el "View" [style "modalHeader"] [
        el "Text" [style "modalNFTName"] [field nft "name"];
        cond (get_opt nft "isVerified") (ionicon "checkmark-circle" 20 "#4CAF50")];
      el "Text" [style "modalDescription"] [field nft "description"];
      el "View" [style "modalMeta"] [
        mobile_row "Creator:" (el "TouchableOpacity" [onPress [Close; ShowCreator (get_opt nft "creator")]] [mobile_value (address nft "creator")]);
        mobile_row "Owner:" (mobile_value (address nft "owner"));
        mobile_row "Price:" (mobile_value (price nft "listPriceSatoshis"));
        mobile_row "Mint Date:" (mobile_value (txt (localeDate (get_opt nft "mintDate"))));
        mobile_row "Category:" (mobile_value (field nft "category"));
        mobile_traits (get_opt nft "traits")];
      el "View" [style "modalActions"] [
        el "TouchableOpacity" [style "modalFavoriteButton"; onPress [Favorite nft]] [
          heart nft 24;
          label "modalFavoriteText" (if favorited nft then "Favorited" else "Favorite")];
        if mine nft then
          el "TouchableOpacity" [style "modalTransferButton"; onPress [Transfer nft]] [ionicon "send" 20 "#fff"; label "modalTransferButtonText" "Transfer"]
        else
          el "TouchableOpacity" [style "modalBuyButton"; onPress [Buy nft]] [ionicon "cart" 20 "#fff"; label "modalBuyButtonText" "Buy Now"]]]].

Definition mobile_renderNFTDetailModal : page :=
  let selected := selectedNFT (data s) in
  el "Modal" [prop "visible" (VBool (negb (strict_eq selected VNull))); prop "animationType" (VStr "slide"); prop "presentationStyle" (VStr "pageSheet")] [
    cond selected
      (el "View" [style "modalContainer"] [
        el "View" [style "modalHeader"] [
          el "TouchableOpacity" [style "closeButton"; onPress [Close]] [ionicon "close" 24 "#666"];
          label "modalTitle" "NFT Details";
          el "View" [style "placeholder"] []];
        mobile_details selected])].

Definition MobileMarketplace : page :=
  el "View" [style "container"] [
    mobile_renderTabBar;
    when (activeTab s =? "marketplace") mobile_renderMarketplaceContent;
    when (activeTab s =? "analytics") mobile_renderAnalyticsContent;
    when (activeTab s =? "profile") mobile_renderProfileContent;
    mobile_renderNFTDetailModal].

End Views.
