(* ===== verification/MarketOffers.v ===== *)
(** * What the marketplace views offer and show

    Facts on the two views of MarketViews: the actions each offers in a given
    state, the cards it shows, whether it can be shown at all, and that the
    styles it names exist.  Each fact is proved part by part with the rules of
    [Jsx]. *)

From Stdlib Require Import ZArith Bool List String Ascii.
From S2P Require Import Prelude JsNum JsVal Jsx Marketplace MarketStyles MarketViews.
Import ListNotations.
Local Open Scope string_scope.

(** ** What the views offer *)

Section Offers.
Context (walletAddress : jsval) (localeDate : jsval -> string) (isTablet : bool).
Notation mine := (mine walletAddress).

Definition card_offers (nft : jsval) : list (happening action) :=
  [Clicked [Press nft]; Clicked [Favorite nft]; Clicked [ShowCreator (get_opt nft "creator")];
   Clicked [if mine nft then Transfer nft else Buy nft]].

Definition detail_offers (nft : jsval) : list (happening action) :=
  [Clicked [Close]; Clicked [Close; ShowCreator (get_opt nft "creator")]; Clicked [Favorite nft];
   Clicked [if mine nft then Transfer nft else Buy nft]].

Definition click_each {X} (f : X -> action) (l : list X) : list (happening action) := map (fun x => Clicked [f x]) l.

Definition tabs : list string := ["marketplace"; "analytics"; "profile"].
Definition modes : list string := ["verified"; "all"; "my"; "favorites"].
Definition chips : list chip := [VerifiedOnly; MyNFTs; Favorited; UnlockableContent].

Definition search_offers (s : screen) : list (happening action) :=
  Entered SetQuery :: if (0 <? String.length (searchQuery s))%nat then [Clicked [SetQuery (VStr EmptyString)]] else [].

Definition content_offers (s : screen) : list (happening action) :=
  click_each SetMode modes ++ [Clicked [ToggleSearch]; Clicked [ToggleFilters]] ++
  (if showSearch s then search_offers s else []) ++
  (if showFilters s then click_each ToggleChip chips else []) ++
  (if loading (data s) then [] else flat_map card_offers (filteredNfts s)).

(** What both views offer. *)
Definition offers (s : screen) : list (happening action) :=
  click_each SetTab tabs ++
  (if activeTab s =? "marketplace" then content_offers s else []) ++
  (if activeTab s =? "profile" then [Clicked [ShowCreator walletAddress]] else []) ++
  (if truthy (selectedNFT (data s)) then detail_offers (selectedNFT (data s)) else []).

(** What a wide screen adds, and what a phone adds. *)
Definition desktop_offers (s : screen) : list (happening action) :=
  if (activeTab s =? "marketplace") && negb (isMobile s) then [Clicked [AdvancedFilters]; Clicked [BulkOperations]] else [].
Definition phone_offers (s : screen) : list (happening action) :=
  if (activeTab s =? "marketplace") && negb (loading (data s)) then [Clicked [Refresh]] else [].

End Offers.

Lemma hears_price {A} d (up : list A) v k : hears d up (price v k) [].
Proof. apply hears_text_of. Qed.
Lemma hears_address {A} d (up : list A) v k : hears d up (address v k) [].
Proof. apply hears_text_of. Qed.
Lemma hears_count {A} d (up : list A) keep l : hears d up (count keep l) [].
Proof. apply hears_bind. intros. apply hears_dyn. Qed.

Lemma throughout_each_of {A} P expr v k (f : nat -> jsval -> html A) : (forall i x, throughout P (f i x)) -> throughout P (each_of expr v k f).
Proof. intros H. apply throughout_bind. intros x. apply throughout_bind. intros l. apply throughout_each, H. Qed.
Lemma throughout_count {A} P keep l : throughout P (count (A := A) keep l).
Proof. apply throughout_bind. intros. apply throughout_dyn. Qed.
Lemma throughout_price {A} P v k : throughout P (price (A := A) v k).
Proof. apply throughout_text_of. Qed.
Lemma throughout_address {A} P v k : throughout P (address (A := A) v k).
Proof. apply throughout_text_of. Qed.

#[local] Hint Resolve hears_price hears_address hears_count : hears.
#[local] Hint Resolve throughout_count throughout_price throughout_address : throughout.

Ltac members :=
  let e := fresh "e" in let N := fresh "N" in
  intros e N; cbn [heard entries flat_map app List.concat snd fst onClick onClickOnly onPress onChange prop cls style style_if];
  repeat match goal with |- context [if ?b then _ else _] => destruct b eqn:? end;
  rewrite ?in_app_iff; cbn [In app map]; intuition congruence.

Section ViewFacts.
Context (walletAddress : jsval) (isTablet : bool) (s : screen).

Lemma web_card_hears nft : hears Bubbling [] (web_renderNFTCard walletAddress s nft) (card_offers walletAddress nft).
Proof using Type.
  apply hears_bind. intros profile _. eapply hears_iff; [unfold icon; hears|]. unfold card_offers. members.
Qed.

Lemma mobile_card_hears nft : hears Innermost [] (mobile_renderNFTCard walletAddress isTablet s nft) (card_offers walletAddress nft).
Proof using Type.
  apply hears_bind. intros profile _. eapply hears_iff; [unfold ionicon, label, heart, photo; hears|]. unfold card_offers. members.
Qed.

Lemma web_tabs_hears : hears Bubbling [] (web_renderTabBar s) (click_each SetTab tabs).
Proof using Type. eapply hears_iff; [unfold web_renderTabBar, web_tab, icon; hears|]. unfold click_each, tabs. members. Qed.

Lemma mobile_tabs_hears : hears Innermost [] (mobile_renderTabBar isTablet s) (click_each SetTab tabs).
Proof using Type. eapply hears_iff; [unfold mobile_renderTabBar, mobile_tab, ionicon; hears|]. unfold click_each, tabs. members. Qed.

Lemma web_header_hears :
  hears Bubbling [] (web_header s) (click_each SetMode modes ++ [Clicked [ToggleSearch]; Clicked [ToggleFilters]] ++
    if negb (isMobile s) then [Clicked [AdvancedFilters]; Clicked [BulkOperations]] else []).
Proof using Type. eapply hears_iff; [unfold web_header, web_mode, web_action, icon; hears|]. unfold click_each, modes. members. Qed.

Lemma mobile_header_hears :
  hears Innermost [] (mobile_header isTablet s) (click_each SetMode modes ++ [Clicked [ToggleSearch]; Clicked [ToggleFilters]]).
Proof using Type. eapply hears_iff; [unfold mobile_header, mobile_mode, ionicon; hears|]. unfold click_each, modes. members. Qed.

Lemma web_search_hears : hears Bubbling [] (web_search s) (search_offers s).
Proof using Type. eapply hears_iff; [unfold web_search, icon; hears|]. unfold search_offers. members. Qed.

Lemma mobile_search_hears : hears Innermost [] (mobile_search isTablet s) (search_offers s).
Proof using Type. eapply hears_iff; [unfold mobile_search, ionicon; hears|]. unfold search_offers. members. Qed.

Lemma web_filters_hears : hears Bubbling [] (web_filters s) (click_each ToggleChip chips).
Proof using Type. eapply hears_iff; [unfold web_filters, web_chip; hears|]. unfold click_each, chips. members. Qed.

Lemma mobile_filters_hears : hears Innermost [] (mobile_filters isTablet s) (click_each ToggleChip chips).
Proof using Type. eapply hears_iff; [unfold mobile_filters, mobile_chip; hears|]. unfold click_each, chips. members. Qed.

Lemma web_grid_hears :
  hears Bubbling [] (web_grid walletAddress s) (if loading (data s) then [] else flat_map (card_offers walletAddress) (filteredNfts s)).
Proof using Type.
  unfold web_grid, icon. destruct (loading (data s)); [eapply hears_iff; [hears|members]|]. destruct (filteredNfts s) as [|nft l] eqn:E; [eapply hears_iff; [hears|members]|].
  eapply hears_iff; [eapply hears_el; [reflexivity|]; eapply Forall2_cons, Forall2_nil; apply hears_each; intros; apply web_card_hears|].
  cbn [List.concat heard cls prop]. rewrite app_nil_r. cbn [In]. intuition congruence.
Qed.

Lemma mobile_list_hears :
  hears Innermost [] (mobile_list walletAddress isTablet s)
    (if loading (data s) then [] else Clicked [Refresh] :: flat_map (card_offers walletAddress) (filteredNfts s)).
Proof using Type.
  unfold mobile_list, mobile_empty, label, ionicon. destruct (loading (data s)); [eapply hears_iff; [hears|members]|].
  destruct (filteredNfts s) as [|nft l] eqn:E; [eapply hears_iff; [hears|members]|].
  eapply hears_iff; [eapply hears_el; [reflexivity|]; eapply Forall2_cons; [hears|]; eapply Forall2_cons, Forall2_nil; apply hears_each; intros; apply mobile_card_hears|].
  cbn [List.concat heard entries prop flat_map app snd]. rewrite app_nil_r. cbn [In]. intuition congruence.
Qed.

Lemma web_analytics_hears : hears Bubbling [] (web_renderAnalyticsContent s) [].
Proof using Type. apply hears_passive. unfold web_renderAnalyticsContent, web_stat, rank. cbv zeta. repeat first [throughout reflexivity | apply throughout_each_of; intros]. Qed.

Lemma mobile_analytics_hears : hears Innermost [] (mobile_renderAnalyticsContent isTablet s) [].
Proof using Type.
  apply hears_passive. unfold mobile_renderAnalyticsContent, mobile_stat, rank, label. cbv zeta. repeat first [throughout reflexivity | apply throughout_each_of; intros].
Qed.

Lemma web_profile_hears : hears Bubbling [] (web_renderProfileContent walletAddress s) [Clicked [ShowCreator walletAddress]].
Proof using Type. eapply hears_iff; [unfold web_renderProfileContent, web_profile_stat, icon; hears|members]. Qed.

Lemma mobile_profile_hears : hears Innermost [] (mobile_renderProfileContent walletAddress isTablet s) [Clicked [ShowCreator walletAddress]].
Proof using Type. eapply hears_iff; [unfold mobile_renderProfileContent, mobile_profile_stat, label, ionicon; hears|members]. Qed.

Lemma web_traits_hears v : hears Bubbling [] (web_traits v) [].
Proof using Type. apply hears_passive. unfold web_traits. throughout reflexivity. Qed.

Lemma mobile_traits_hears v : hears Innermost [] (mobile_traits isTablet v) [].
Proof using Type. apply hears_passive. unfold mobile_traits, label. throughout reflexivity. Qed.
#[local] Hint Resolve web_traits_hears mobile_traits_hears : hears.

Lemma web_modal_hears localeDate :
  hears Bubbling [] (web_renderNFTDetailModal walletAddress localeDate s)
    (if truthy (selectedNFT (data s)) then detail_offers walletAddress (selectedNFT (data s)) else []).
Proof using Type.
  unfold web_renderNFTDetailModal. cbv zeta. generalize (selectedNFT (data s)). intros nft. apply hears_cond.
  eapply hears_iff; [unfold web_details, web_row, web_value, icon; hears|]. unfold detail_offers. members.
Qed.

Lemma mobile_modal_hears localeDate :
  hears Innermost [] (mobile_renderNFTDetailModal walletAddress localeDate isTablet s)
    (if truthy (selectedNFT (data s)) then detail_offers walletAddress (selectedNFT (data s)) else []).
Proof using Type.
  unfold mobile_renderNFTDetailModal. cbv zeta. generalize (selectedNFT (data s)). intros nft.
  eapply hears_iff; [unfold mobile_details, mobile_row, mobile_value, label, ionicon, heart, photo; hears|]. unfold detail_offers. members.
Qed.

#[local] Hint Resolve web_tabs_hears mobile_tabs_hears web_header_hears mobile_header_hears web_search_hears mobile_search_hears
  web_filters_hears mobile_filters_hears web_grid_hears mobile_list_hears web_analytics_hears mobile_analytics_hears
  web_profile_hears mobile_profile_hears web_modal_hears mobile_modal_hears : hears.

(** Membership in the parts that are left. *)
Ltac parts :=
  let e := fresh "e" in let N := fresh "N" in
  intros e N; cbn [heard entries flat_map app List.concat cls style prop snd andb negb];
  repeat first [rewrite in_app_iff | progress cbn [In List.concat]]; intuition congruence.

Lemma web_hears localeDate :
  hears Bubbling [] (WebMarketplace walletAddress localeDate s) (offers walletAddress s ++ desktop_offers s).
Proof using Type.
  eapply hears_iff; [unfold WebMarketplace, web_renderMarketplaceContent; hears|]. unfold offers, content_offers, desktop_offers.
  destruct (activeTab s =? "marketplace"), (activeTab s =? "analytics"), (activeTab s =? "profile"), (isMobile s); parts.
Qed.

Lemma mobile_hears localeDate :
  hears Innermost [] (MobileMarketplace walletAddress localeDate isTablet s) (offers walletAddress s ++ phone_offers s).
Proof using Type.
  eapply hears_iff; [unfold MobileMarketplace, mobile_renderMarketplaceContent; hears|]. unfold offers, content_offers, phone_offers.
  destruct (activeTab s =? "marketplace"), (activeTab s =? "analytics"), (activeTab s =? "profile"), (loading (data s)); parts.
Qed.

(** The views throw on the same data, with the same error. *)
Lemma card_outcome nft : outcome (web_renderNFTCard walletAddress s nft) = outcome (mobile_renderNFTCard walletAddress isTablet s nft).
Proof using Type.
  apply outcome_bind. intros profile _. unfold icon, label, heart, photo, ionicon. autorewrite with outcome. reflexivity.
Qed.

Lemma each_of_outcome {A} expr v k (f g : nat -> jsval -> html A) :
  (forall i x, outcome (f i x) = outcome (g i x)) -> outcome (each_of expr v k f) = outcome (each_of expr v k g).
Proof using Type. intros H. apply outcome_bind. intros x _. apply outcome_bind. intros l _. apply outcome_each, H. Qed.

Lemma analytics_outcome : outcome (web_renderAnalyticsContent s) = outcome (mobile_renderAnalyticsContent isTablet s).
Proof using Type.
  unfold web_renderAnalyticsContent, mobile_renderAnalyticsContent, web_stat, mobile_stat, label, rank. cbv zeta. autorewrite with outcome.
  repeat apply (f_equal2 orelse); try reflexivity; apply each_of_outcome; intros; autorewrite with outcome; reflexivity.
Qed.

Lemma details_outcome localeDate nft :
  outcome (web_details walletAddress localeDate nft) = outcome (mobile_details walletAddress localeDate isTablet nft).
Proof using Type.
  assert (forall v, outcome (web_traits v) = outcome (mobile_traits isTablet v)) as Traits.
  { intros v. unfold web_traits, mobile_traits, label. rewrite !outcome_cond. destruct (truthy v); [|reflexivity].
    apply outcome_bind. intros n _. autorewrite with outcome. destruct (js_gt n (vnum 0)); [|reflexivity].
    apply outcome_bind. intros l _. apply outcome_each. intros. autorewrite with outcome. reflexivity. }
  unfold web_details, mobile_details, web_row, mobile_row, web_value, mobile_value, icon, label, heart, photo, ionicon. autorewrite with outcome.
  rewrite Traits. reflexivity.
Qed.

Lemma grid_outcome : outcome (web_grid walletAddress s) = outcome (mobile_list walletAddress isTablet s).
Proof using Type.
  unfold web_grid, mobile_list, mobile_empty, icon, label, ionicon. autorewrite with outcome.
  rewrite (outcome_each _ _ (fun _ => mobile_renderNFTCard walletAddress isTablet s)) by (intros; apply card_outcome). reflexivity.
Qed.

Lemma web_controls_outcome :
  outcome (web_renderTabBar s) = None /\ outcome (web_header s) = None /\ outcome (web_search s) = None /\ outcome (web_filters s) = None.
Proof using Type.
  unfold web_renderTabBar, web_tab, web_header, web_mode, web_action, web_search, web_filters, web_chip, icon.
  repeat split; autorewrite with outcome; reflexivity.
Qed.

Lemma mobile_controls_outcome :
  outcome (mobile_renderTabBar isTablet s) = None /\ outcome (mobile_header isTablet s) = None /\
  outcome (mobile_search isTablet s) = None /\ outcome (mobile_filters isTablet s) = None.
Proof using Type.
  unfold mobile_renderTabBar, mobile_tab, mobile_header, mobile_mode, mobile_search, mobile_filters, mobile_chip, ionicon.
  repeat split; autorewrite with outcome; reflexivity.
Qed.

Lemma views_outcome localeDate :
  outcome (WebMarketplace walletAddress localeDate s) = outcome (MobileMarketplace walletAddress localeDate isTablet s).
Proof using Type.
  destruct web_controls_outcome as (W1 & W2 & W3 & W4), mobile_controls_outcome as (M1 & M2 & M3 & M4).
  unfold WebMarketplace, MobileMarketplace, web_renderMarketplaceContent, mobile_renderMarketplaceContent, web_renderProfileContent,
    mobile_renderProfileContent, web_profile_stat, mobile_profile_stat, web_renderNFTDetailModal, mobile_renderNFTDetailModal, icon, label, ionicon.
  cbv zeta. autorewrite with outcome. rewrite ?W1, ?W2, ?W3, ?W4, ?M1, ?M2, ?M3, ?M4, analytics_outcome, details_outcome, grid_outcome. reflexivity.
Qed.

End ViewFacts.

(** Properties of all that is offered. *)
Lemma offers_all (Q : happening action -> Prop) w s :
  (forall tab, In tab tabs -> Q (Clicked [SetTab tab])) -> (forall mode, In mode modes -> Q (Clicked [SetMode mode])) -> Q (Clicked [ToggleSearch]) -> Q (Clicked [ToggleFilters]) ->
  Q (Entered SetQuery) -> Q (Clicked [SetQuery (VStr EmptyString)]) -> (forall c, Q (Clicked [ToggleChip c])) ->
  (forall nft, Q (Clicked [Press nft]) /\ Q (Clicked [Favorite nft]) /\ Q (Clicked [Close; ShowCreator (get_opt nft "creator")]) /\
     Q (Clicked [if mine w nft then Transfer nft else Buy nft])) ->
  Q (Clicked [Close]) -> (forall v, Q (Clicked [ShowCreator v])) -> Forall Q (offers w s).
Proof.
  intros Tab Mode Search Filters Query Clear Chip Card Close_ Creator. unfold offers, content_offers, search_offers, detail_offers, click_each.
  repeat first [apply Forall_app; split | apply Forall_cons | apply Forall_nil | apply Forall_flat_map, Forall_forall; intros nft _; unfold card_offers
    | match goal with |- Forall _ (if ?b then _ else _) => destruct b | |- Forall _ (map _ _) => cbn [map tabs modes chips] end];
    auto; try apply Tab; try apply Mode; try apply Card; cbn [In tabs modes]; auto.
Qed.

(** *** The cards on the screen *)

(** The NFT whose card an element is. *)
Definition card_of (attrs : list (string * attr action)) : list jsval :=
  flat_map (fun p => match snd p with On _ [Press nft] => [nft] | _ => [] end) attrs.

Definition cards (ns : list (node action)) : list jsval := flat_map (gather card_of) ns.

Section Cards.
Context (walletAddress : jsval) (localeDate : jsval -> string) (isTablet : bool) (s : screen).

Definition shown_cards : list jsval :=
  if (activeTab s =? "marketplace") && negb (loading (data s)) then filteredNfts s else [].

Notation no_cards := (throughout (carries_none card_of)).

Lemma web_card_gathers nft : gathers card_of (web_renderNFTCard walletAddress s nft) [nft].
Proof using Type.
  apply gathers_bind. intros profile. refine (gathers_el card_of "div" _ _ [[]; []] _).
  apply Forall2_cons, Forall2_cons, Forall2_nil; apply gathers_none; unfold icon, price, address; throughout reflexivity.
Qed.

Lemma mobile_card_gathers nft : gathers card_of (mobile_renderNFTCard walletAddress isTablet s nft) [nft].
Proof using Type.
  apply gathers_bind. intros profile. refine (gathers_el card_of "TouchableOpacity" _ _ [[]; []] _).
  apply Forall2_cons, Forall2_cons, Forall2_nil; apply gathers_none; unfold photo, ionicon, label, heart, price, address; throughout reflexivity.
Qed.

Lemma flat_map_single {X} (l : list X) : flat_map (fun x => [x]) l = l.
Proof using Type. induction l as [|x l IH]; cbn [flat_map app]; congruence. Qed.

Ltac no_cards := apply gathers_none; repeat first [throughout reflexivity | apply throughout_each_of; intros].

Lemma web_grid_gathers : gathers card_of (web_grid walletAddress s) (if loading (data s) then [] else filteredNfts s).
Proof using Type.
  unfold web_grid, icon. destruct (loading (data s)); [no_cards|]. destruct (filteredNfts s) as [|n l]; [no_cards|].
  eapply gathers_eq; [eapply gathers_el, Forall2_cons, Forall2_nil; apply gathers_each; intros; apply web_card_gathers|].
  cbn [List.concat]. rewrite app_nil_r. apply flat_map_single.
Qed.

Lemma mobile_list_gathers : gathers card_of (mobile_list walletAddress isTablet s) (if loading (data s) then [] else filteredNfts s).
Proof using Type.
  unfold mobile_list, mobile_empty, label, ionicon. destruct (loading (data s)); [no_cards|]. destruct (filteredNfts s) as [|n l]; [no_cards|].
  eapply gathers_eq; [eapply gathers_el, Forall2_cons, Forall2_cons, Forall2_nil; [no_cards|]; apply gathers_each; intros; apply mobile_card_gathers|].
  cbn [List.concat app]. rewrite app_nil_r. apply flat_map_single.
Qed.

Lemma web_gathers : gathers card_of (WebMarketplace walletAddress localeDate s) shown_cards.
Proof using Type.
  eapply gathers_eq.
  - eapply gathers_el, Forall2_cons, Forall2_cons, Forall2_cons, Forall2_cons, Forall2_cons, Forall2_nil.
    + unfold web_renderTabBar, web_tab, icon. no_cards.
    + eapply gathers_when, gathers_el, Forall2_cons, Forall2_cons, Forall2_cons, Forall2_cons, Forall2_nil; [| | |apply web_grid_gathers].
      * unfold web_header, web_mode, web_action, icon. no_cards.
      * unfold web_search, icon. no_cards.
      * unfold web_filters, web_chip. no_cards.
    + unfold web_renderAnalyticsContent, web_stat, rank. no_cards.
    + unfold web_renderProfileContent, web_profile_stat, icon. no_cards.
    + unfold web_renderNFTDetailModal, web_details, web_row, web_value, web_traits, icon. no_cards.
  - unfold shown_cards. destruct (activeTab s =? "marketplace"), (loading (data s)); cbn; rewrite ?app_nil_r; reflexivity.
Qed.

Lemma mobile_gathers : gathers card_of (MobileMarketplace walletAddress localeDate isTablet s) shown_cards.
Proof using Type.
  eapply gathers_eq.
  - eapply gathers_el, Forall2_cons, Forall2_cons, Forall2_cons, Forall2_cons, Forall2_cons, Forall2_nil.
    + unfold mobile_renderTabBar, mobile_tab, ionicon. no_cards.
    + eapply gathers_when, gathers_el, Forall2_cons, Forall2_cons, Forall2_cons, Forall2_cons, Forall2_nil; [| | |apply mobile_list_gathers].
      * unfold mobile_header, mobile_mode, ionicon. no_cards.
      * unfold mobile_search, ionicon. no_cards.
      * unfold mobile_filters, mobile_chip. no_cards.
    + unfold mobile_renderAnalyticsContent, mobile_stat, rank, label. no_cards.
    + unfold mobile_renderProfileContent, mobile_profile_stat, label, ionicon. no_cards.
    + unfold mobile_renderNFTDetailModal, mobile_details, mobile_row, mobile_value, mobile_traits, label, ionicon, heart, photo. no_cards.
  - unfold shown_cards. destruct (activeTab s =? "marketplace"), (loading (data s)); cbn; rewrite ?app_nil_r; reflexivity.
Qed.

End Cards.

(** *** Styles *)

(** A style, or a list of styles, with a member that is not defined. *)
Definition undefined_in (v : jsval) : bool :=
  match v with VUndef => true | VArr l => existsb (fun x => match x with VUndef => true | _ => false end) l | _ => false end.

Definition styled (attrs : list (string * attr action)) : bool :=
  forallb (fun p => match p with
    | (k, Val v) => negb (mem_string k ["style"; "columnWrapperStyle"; "contentContainerStyle"] && undefined_in v)
    | _ => true end) attrs.

Section Styled.
Context (walletAddress : jsval) (localeDate : jsval -> string) (isTablet : bool) (s : screen).

Lemma style_fine name : mem_string name style_names = true -> undefined_in (styleOf isTablet name) = false.
Proof using Type. intros M. unfold styleOf. destruct (style_defined isTablet name M) as [o ->]. reflexivity. Qed.

Lemma style_if_fine name (b : bool) extra :
  mem_string name style_names = true -> mem_string extra style_names = true ->
  undefined_in (VArr [styleOf isTablet name; if b then styleOf isTablet extra else VBool false]) = false.
Proof using Type.
  intros M E. unfold styleOf. destruct (style_defined isTablet name M) as [o ->], (style_defined isTablet extra E) as [o' ->]. destruct b; reflexivity.
Qed.

(** At one element: every style it names is in the table. *)
Ltac styles_here :=
  unfold style, style_if, prop, onPress; cbn [styled forallb andb negb mem_string existsb String.eqb Ascii.eqb Bool.eqb orb fst snd];
  repeat first [rewrite style_if_fine by (vm_compute; reflexivity) | rewrite style_fine by (vm_compute; reflexivity)]; reflexivity.

Lemma mobile_card_styled nft : throughout styled (mobile_renderNFTCard walletAddress isTablet s nft).
Proof using Type. unfold mobile_renderNFTCard, photo, ionicon, label, heart. throughout styles_here. Qed.
#[local] Hint Resolve mobile_card_styled : throughout.

Lemma mobile_content_styled : throughout styled (mobile_renderMarketplaceContent walletAddress isTablet s).
Proof using Type.
  unfold mobile_renderMarketplaceContent, mobile_header, mobile_mode, mobile_search, mobile_filters, mobile_chip, mobile_list, mobile_empty, label, ionicon.
  cbv zeta. throughout ltac:(first [styles_here | destruct isTablet; styles_here]).
Qed.

Lemma mobile_styled : throughout styled (MobileMarketplace walletAddress localeDate isTablet s).
Proof using Type.
  unfold MobileMarketplace. apply throughout_el; [styles_here|]. repeat apply Forall_cons; try apply Forall_nil; try apply throughout_when.
  - unfold mobile_renderTabBar, mobile_tab, ionicon. cbv zeta. throughout styles_here.
  - apply mobile_content_styled.
  - unfold mobile_renderAnalyticsContent, mobile_stat, rank, label. cbv zeta. repeat first [throughout styles_here | apply throughout_each_of; intros].
  - unfold mobile_renderProfileContent, mobile_profile_stat, label, ionicon. throughout styles_here.
  - unfold mobile_renderNFTDetailModal, mobile_details, mobile_row, mobile_value, mobile_traits, label, ionicon, heart, photo. cbv zeta. throughout styles_here.
Qed.

End Styled.

(** ** Theorems *)

(** C22: the web and the mobile view of one state can be shown or not alike,
    failing with the same error, and when they are shown they offer the user
    the same actions, but for the two extra buttons of a wide screen and the
    pull to refresh of a phone. *)
Theorem market_views_agree w localeDate isTablet s :
  outcome (WebMarketplace w localeDate s) = outcome (MobileMarketplace w localeDate isTablet s) /\
  forall web mobile, WebMarketplace w localeDate s = Ok web -> MobileMarketplace w localeDate isTablet s = Ok mobile ->
    forall acts, (offered Bubbling web acts /\ acts <> [AdvancedFilters] /\ acts <> [BulkOperations]) <-> (offered Innermost mobile acts /\ acts <> [Refresh]).
Proof.
  split; [apply views_outcome|]. intros web mobile Ew Em acts.
  rewrite (hears_offered _ _ _ _ _ (web_hears w s localeDate) Ew), (hears_offered _ _ _ _ _ (mobile_hears w isTablet s localeDate) Em).
  assert (Forall (fun e => forall acts, performs e acts -> acts <> [AdvancedFilters] /\ acts <> [BulkOperations] /\ acts <> [Refresh]) (offers w s)) as Shared.
  { apply offers_all; intros; repeat split; intros; cbn [performs] in *; repeat match goal with H : exists _, _ |- _ => destruct H end; subst;
      try destruct (mine _ _); try discriminate. }
  rewrite Forall_forall in Shared. unfold desktop_offers, phone_offers.
  split; intros [(N & e & I & P) R]; apply in_app_or in I; destruct I as [I|I].
  - destruct (Shared e I acts P) as (_ & _ & N3). split; [split; [exact N|]; exists e; split; [apply in_or_app; left; exact I|exact P]|exact N3].
  - exfalso. destruct (_ && _); cbn [In] in I; [|destruct I]. destruct I as [<- | [<- | []]]; cbn in P; subst; tauto.
  - destruct (Shared e I acts P) as (N1 & N2 & _). split; [split; [exact N|]; exists e; split; [apply in_or_app; left; exact I|exact P]|auto].
  - exfalso. destruct (_ && _); cbn [In] in I; [|destruct I]. destruct I as [<- | []]; cbn in P; subst; tauto.
Qed.

(** Every style the mobile view names, in every state it can be shown in,
    is in its table: no element has an undefined style. *)
Theorem mobile_styles_defined w localeDate isTablet s ns :
  MobileMarketplace w localeDate isTablet s = Ok ns -> forallb (every styled) ns = true.
Proof. apply mobile_styled. Qed.

(** The gallery on the screen with the filter panel open. *)
Definition gallery_screen : screen := Screen "marketplace" true true "li" filters0 gallery true (View "all" gallery false (sample_nft "1" "Lion" "Art" 30) [] analytics0 false).

Lemma market_views_agree_witness :
  offered Bubbling (shown (WebMarketplace (VStr "SMe") to_str gallery_screen)) [Buy (sample_nft "2" "Rose" "Photo" 10)].
Proof.
  destruct (market_views_agree (VStr "SMe") to_str false gallery_screen) as [_ H].
  refine (proj1 (proj2 (H (shown (WebMarketplace (VStr "SMe") to_str gallery_screen)) (shown (MobileMarketplace (VStr "SMe") to_str false gallery_screen)) _ _ _) _));
    [vm_compute; reflexivity..|]. split; [|discriminate]. split; [discriminate|]. exists (Clicked [Buy (sample_nft "2" "Rose" "Photo" 10)]).
  split; [|reflexivity]. vm_compute. repeat first [left; reflexivity | right].
Defined.

Lemma mobile_styles_defined_witness : forallb (every styled) (shown (MobileMarketplace (VStr "SMe") to_str true gallery_screen)) = true.
Proof. apply (mobile_styles_defined (VStr "SMe") to_str true gallery_screen). vm_compute. reflexivity. Defined.
