(* ===== verification/MarketRuns.v ===== *)
(** * The marketplace in use

    Runs of the two marketplace views: the user acts through what is on the
    screen (MarketOffers), and the calls the views wait for come back in any
    order.  An async handler of Marketplace is split at its waits; the call
    it waits for is a [task], with the answer it will get.  After every event
    React runs the effects: the filters are applied again, and the data is
    loaded again when the view mode has changed.

    An error thrown by the filter effect unmounts the view; what is still
    waited for then is not followed further. *)

From Stdlib Require Import ZArith Bool Lia List String Permutation.
From S2P Require Import Prelude JsNum JsVal JsMonad Machine Sorts Jsx Marketplace MarketViews MarketOffers.
Import ListNotations.
Local Open Scope string_scope.

Inductive phase : Type := Fresh | Mounted | Crashed.

(** What follows a load: nothing, a success message, the end of a pull to
    refresh. *)
Inductive after : Type := Idle | Report (good : string) | EndRefresh.

Inductive task : Type :=
  | Fetching (answer : result jsval) (k : after)
  | Analyzing (answer : result jsval) (k : after)
  | Asking (answer : result jsval) (good bad : string)
  | Favoring (answer : result jsval).

Record session : Type := Session { ui : screen; now_ : phase; tasks : list task }.

Definition session0 : session := Session screen0 Fresh [].

Definition set_ui (x : screen) (s : session) : session := Session x (now_ s) (tasks s).
Definition set_phase (p : phase) (s : session) : session := Session (ui s) p (tasks s).
Definition set_tasks (l : list task) (s : session) : session := Session (ui s) (now_ s) l.

Definition set_data (v : view) (x : screen) : screen :=
  Screen (activeTab x) (showFilters x) (showSearch x) (searchQuery x) (settings x) (filteredNfts x) (isMobile x) v.
Definition set_activeTab (v : string) (x : screen) : screen :=
  Screen v (showFilters x) (showSearch x) (searchQuery x) (settings x) (filteredNfts x) (isMobile x) (data x).
Definition set_showFilters (b : bool) (x : screen) : screen :=
  Screen (activeTab x) b (showSearch x) (searchQuery x) (settings x) (filteredNfts x) (isMobile x) (data x).
Definition set_showSearch (b : bool) (x : screen) : screen :=
  Screen (activeTab x) (showFilters x) b (searchQuery x) (settings x) (filteredNfts x) (isMobile x) (data x).
Definition set_searchQuery (v : string) (x : screen) : screen :=
  Screen (activeTab x) (showFilters x) (showSearch x) v (settings x) (filteredNfts x) (isMobile x) (data x).
Definition set_settings (f : filters) (x : screen) : screen :=
  Screen (activeTab x) (showFilters x) (showSearch x) (searchQuery x) f (filteredNfts x) (isMobile x) (data x).
Definition set_filteredNfts (l : list jsval) (x : screen) : screen :=
  Screen (activeTab x) (showFilters x) (showSearch x) (searchQuery x) (settings x) l (isMobile x) (data x).
Definition set_isMobile (b : bool) (x : screen) : screen :=
  Screen (activeTab x) (showFilters x) (showSearch x) (searchQuery x) (settings x) (filteredNfts x) b (data x).

(** [prev => ({ ...prev, k: !prev.k })]. *)
Definition flip (c : chip) (f : filters) : filters :=
  let set v m fav u := Filters (category f) (creator f) (minPrice f) (maxPrice f) v m fav u (isTradeLocked f) (minMintDate f) (maxMintDate f) (traits f) (sortBy f) (sortOrder f) in
  match c with
  | VerifiedOnly => set (negb (verifiedOnly f)) (myNFTsOnly f) (favoritedOnly f) (hasUnlockableContent f)
  | MyNFTs => set (verifiedOnly f) (negb (myNFTsOnly f)) (favoritedOnly f) (hasUnlockableContent f)
  | Favorited => set (verifiedOnly f) (myNFTsOnly f) (negb (favoritedOnly f)) (hasUnlockableContent f)
  | UnlockableContent => set (verifiedOnly f) (myNFTsOnly f) (favoritedOnly f) (negb (hasUnlockableContent f))
  end.

Inductive op : Type :=
  | Mount (innerWidth : num)
  | Resize (innerWidth : num)
  | Do (acts : list action)
  | Resume (i : nat).

Section Runs.
Context `{Env} (on : platform) (walletAddress : jsval) (date : jsval -> num).
Context (engine_sort : (jsval * jsval -> jsval * jsval -> bool) -> list (jsval * jsval) -> list (jsval * jsval)).
Context (localeDate : jsval -> string) (isTablet : bool).
Notation JS := (JS session).

Definition on_screen (f : screen -> screen) : JS unit := modify (fun s => set_ui (f (ui s)) s).
Definition on_data {A} (m : JsMonad.JS view A) : JS A := zoom (fun s => data (ui s)) (fun v s => set_ui (set_data v (ui s)) s) m.
Definition spawn (k : task) : JS unit := modify (fun s => set_tasks (tasks s ++ [k])%list s).

(** [loadMarketplaceData] up to the call it waits for first. *)
Definition begin_load (k : after) : JS unit :=
  on_data (modify (set_loading true)) ;;;
  let* mode := read (fun s => viewMode (data (ui s))) in
  let* answer := attempt (on_data (fetch_nfts walletAddress mode)) in
  spawn (Fetching answer k).

Definition finish (k : after) : JS unit :=
  match k with
  | Idle => ret tt
  | Report good => on_data (alert on "Success" good)
  | EndRefresh => on_data (modify (set_refreshing false))
  end.

(** The [catch] and [finally] of a load. *)
Definition load_failed (k : after) : JS unit :=
  on_data (alert on "Error" "Failed to load marketplace data. Please try again.") ;;;
  on_data (modify (set_loading false)) ;;;
  finish k.

(** The NFTs have come: the profiles of their creators, then the analytics. *)
Definition store_nfts (answer : result jsval) : JsMonad.JS view unit :=
  let* nftData := lift answer in
  let* l := lift (as_array "nftData" "map" nftData) in
  let* creators := lift (map_result (fun nft => get nft "creator") l) in
  let* profiles := load_profiles (first_occurrences (map to_str creators)) [] in
  modify (set_nfts l) ;;;
  modify (set_creatorProfiles profiles).

Definition resume_fetch (answer : result jsval) (k : after) : JS unit :=
  let* stored := attempt (on_data (store_nfts answer)) in
  match stored with
  | Ok _ => let* a := attempt (on_data (ext "marketplaceAPI.getAnalytics" [])) in spawn (Analyzing a k)
  | Throw _ => load_failed k
  end.

Definition resume_analytics (answer : result jsval) (k : after) : JS unit :=
  match answer with
  | Ok a => on_data (modify (set_analytics a)) ;;; on_data (modify (set_loading false)) ;;; finish k
  | Throw _ => load_failed k
  end.

(** [handlePurchase], [handleTransfer] and [toggleFavorite]. *)
Definition ask (callback good bad : string) (nft : jsval) : JS unit :=
  let* answer := attempt (on_data (ext callback [nft])) in spawn (Asking answer good bad).

Definition favor (nft : jsval) : JS unit :=
  match get nft "id" with
  | Ok id => let* answer := attempt (on_data (ext "marketplaceAPI.toggleFavorite" [id; walletAddress])) in spawn (Favoring answer)
  | Throw _ => on_data (alert on "Error" "Failed to update favorite status.")
  end.

Definition resume (k : task) : JS unit :=
  match k with
  | Fetching answer k => resume_fetch answer k
  | Analyzing answer k => resume_analytics answer k
  | Asking (Ok _) good _ => on_data (modify (set_selectedNFT VNull)) ;;; begin_load (Report good)
  | Asking (Throw _) _ bad => on_data (alert on "Error" bad)
  | Favoring (Ok _) => begin_load Idle
  | Favoring (Throw _) => on_data (alert on "Error" "Failed to update favorite status.")
  end.

Definition click_event : jsval := VObj [("type", VStr "click")].

(** What the handlers of the views do. *)
Definition perform (a : action) : JS unit :=
  match a with
  | SetTab tab => on_screen (set_activeTab tab)
  | SetMode mode => on_data (modify (set_viewMode mode))
  | ToggleSearch => on_screen (fun x => set_showSearch (negb (showSearch x)) x)
  | ToggleFilters => on_screen (fun x => set_showFilters (negb (showFilters x)) x)
  | SetQuery v => on_screen (set_searchQuery (to_str v))
  | ToggleChip c => on_screen (fun x => set_settings (flip c (settings x)) x)
  | Press nft => on_data (handleNFTPress nft)
  | Close => on_data (modify (set_selectedNFT VNull))
  | Favorite nft => favor nft
  | Buy nft => ask "onNFTPurchase" "NFT purchased successfully!" "Failed to purchase NFT. Please try again." nft
  | Transfer nft => ask "onNFTTransfer" "NFT transferred successfully!" "Failed to transfer NFT. Please try again." nft
  | ShowCreator address => on_data (ext "onShowCreatorProfile" [address]) ;;; ret tt
  | AdvancedFilters => on_data (ext "onShowAdvancedFilters" [click_event]) ;;; ret tt
  | BulkOperations => on_data (ext "onShowBulkOperations" [click_event]) ;;; ret tt
  | Refresh => on_data (modify (set_refreshing true)) ;;; begin_load EndRefresh
  end.

(** The effect that applies the filters. *)
Definition filter_effect : JS unit :=
  let* x := read ui in
  match applyFilters date engine_sort (nfts (data x)) (searchQuery x) (settings x) walletAddress with
  | Ok l => on_screen (set_filteredNfts l)
  | Throw e => modify (set_phase Crashed) ;;; throw e
  end.

(** The effects after an event, [before] being the view mode it began with. *)
Definition effects (before : string) : JS unit :=
  filter_effect ;;;
  let* mode := read (fun s => viewMode (data (ui s))) in
  if mode =? before then ret tt else begin_load Idle.

Definition narrow (innerWidth : num) : bool := Num.ltb innerWidth (Num.of_Z 768).

(** [checkScreenSize], of the web view only. *)
Definition checkScreenSize (innerWidth : num) : JS unit :=
  match on with Web => on_screen (set_isMobile (narrow innerWidth)) | Mobile => ret tt end.

Definition run (o : op) : JS unit :=
  let* before := read (fun s => viewMode (data (ui s))) in
  match o with
  | Mount innerWidth => modify (set_phase Mounted) ;;; checkScreenSize innerWidth ;;; filter_effect ;;; begin_load Idle
  | Resize innerWidth => checkScreenSize innerWidth
  | Do acts => try_finally (for_each acts perform) (effects before)
  | Resume i =>
      let* l := read tasks in
      match nth_error l i with
      | Some k => modify (set_tasks (firstn i l ++ skipn (S i) l)%list) ;;; try_finally (resume k) (effects before)
      | None => ret tt
      end
  end.

Definition rendered (s : session) : html action :=
  match on with
  | Web => WebMarketplace walletAddress localeDate (ui s)
  | Mobile => MobileMarketplace walletAddress localeDate isTablet (ui s)
  end.

Definition handling : dispatch := match on with Web => Bubbling | Mobile => Innermost end.

(** The user acts through the view on the screen. *)
Definition enabled (o : op) (s : session) : Prop :=
  match o with
  | Mount _ => now_ s = Fresh
  | Resize _ => now_ s = Mounted
  | Do acts => now_ s = Mounted /\ exists ns, rendered s = Ok ns /\ offered handling ns acts
  | Resume i => now_ s = Mounted /\ (i < List.length (tasks s))%nat
  end.

End Runs.

(** ** Facts *)

Definition is_load (k : task) : bool := match k with Fetching _ _ | Analyzing _ _ => true | _ => false end.
Definition busy (s : session) : bool := existsb is_load (tasks s).

Section Facts.
Context `{Env} (on : platform) (walletAddress : jsval) (date : jsval -> num).
Context (engine_sort : (jsval * jsval -> jsval * jsval -> bool) -> list (jsval * jsval) -> list (jsval * jsval)).
Context (localeDate : jsval -> string) (isTablet : bool).

(** A purchase is asked for an NFT of somebody else, a transfer for an own
    one. *)
Definition request_ok (e : event) : Prop :=
  (ev_op e = "onNFTPurchase" -> exists nft, ev_args e = [nft] /\ mine walletAddress nft = false) /\
  (ev_op e = "onNFTTransfer" -> exists nft, ev_args e = [nft] /\ mine walletAddress nft = true).

Definition valid (s : session) (t : trace) : Prop :=
  In (activeTab (ui s)) tabs /\ In (viewMode (data (ui s))) modes /\ Forall request_ok t.

(** While the view shows that it is loading, a load is under way. *)
Definition sound (s : session) (t : trace) : Prop :=
  valid s t /\ (now_ s = Mounted -> loading (data (ui s)) = true -> busy s = true).

Definition filtered (s : session) : Prop :=
  applyFilters date engine_sort (nfts (data (ui s))) (searchQuery (ui s)) (settings (ui s)) walletAddress = Ok (filteredNfts (ui s)).

Definition unrelated (op : string) : bool := negb (mem_string op ["onNFTPurchase"; "onNFTTransfer"]).

Lemma unrelated_ok op args r : unrelated op = true -> request_ok (Ev op args r).
Proof using Type.
  unfold unrelated, request_ok. cbn [ev_op ev_args mem_string existsb]. intros U. apply negb_true_iff, orb_false_iff in U. destruct U as [U1 U2].
  apply orb_false_iff in U2. destruct U2 as [U2 _]. rewrite String.eqb_neq in U1, U2. split; intros ->; congruence.
Qed.

(** A computation on the data that keeps the view mode, and adds nothing to
    the trace but unrelated calls. *)
Definition tame {A} (m : JS view A) : Prop :=
  forall v0, preserves (fun v t => viewMode v = viewMode v0 /\ loading v = loading v0 /\ Forall request_ok t) m.

Lemma tame_ext op args : unrelated op = true -> tame (ext op args).
Proof using Type. intros U v0 v t (V & L & F). apply wp_ext; intros x _; repeat split; auto; constructor; auto using unrelated_ok. Qed.

Lemma tame_modify f : (forall v, viewMode (f v) = viewMode v /\ loading (f v) = loading v) -> tame (modify f).
Proof using Type. intros Hf v0 v t (V & L & F). destruct (Hf v) as [V' L']. apply wp_modify. rewrite V', L'. auto. Qed.

Lemma tame_alert title text : tame (alert on title text).
Proof using Type. intros v0 v t (V & L & F). repeat split; auto. constructor; auto using unrelated_ok. Qed.

#[local] Hint Extern 1 (preserves (fun v t => viewMode v = _ /\ _) (ext _ _)) => apply tame_ext; reflexivity : preserve.
#[local] Hint Extern 1 (preserves (fun v t => viewMode v = _ /\ _) (modify _)) => apply tame_modify; intros; split; reflexivity : preserve.

Lemma tame_fetch mode : tame (fetch_nfts walletAddress mode).
Proof using Type. intros v0. unfold fetch_nfts. preserve. Qed.

Lemma tame_profiles l : forall ps, tame (load_profiles l ps).
Proof using Type. induction l as [|a l IH]; intros ps v0; cbn [load_profiles]; preserve. apply IH. Qed.

Lemma tame_store answer : tame (store_nfts answer).
Proof using Type. intros v0. unfold store_nfts. preserve. apply tame_profiles. Qed.

(** The state around the data is left alone. *)
Lemma on_data_wp {A} (m : JS view A) s t :
  tame m -> valid s t ->
  let keeps s' t' := valid s' t' /\ now_ s' = now_ s /\ tasks s' = tasks s /\ loading (data (ui s')) = loading (data (ui s)) in
  wp (on_data m) (fun _ => keeps) (fun _ => keeps) s t.
Proof using Type.
  intros T (Vt & Vm & Vr) keeps. apply wp_zoom. eapply wp_mono; [..|apply (T (data (ui s))); auto]; cbn beta;
    intros x v t' (Ev & El & F); unfold keeps, valid; cbn; rewrite Ev, El; auto.
Qed.

Lemma on_data_sound {A} (m : JS view A) : tame m -> preserves sound (on_data m).
Proof using Type.
  intros T s t [V B]. eapply wp_mono; [..|exact (on_data_wp m s t T V)]; cbn beta; intros x s' t' (V' & En & Et & El);
    (split; [exact V'|]); unfold busy; rewrite En, El, Et; exact B.
Qed.

Lemma begin_load_sound k s t : valid s t -> wp (begin_load walletAddress k) (fun _ => sound) (fun _ _ _ => False) s t.
Proof using Type.
  intros (Vt & Vm & Vr). unfold begin_load. apply wp_bind, wp_zoom, wp_modify, wp_bind, wp_read, wp_bind, wp_attempt.
  eapply wp_mono; [..|apply (on_data_wp _ _ _ (tame_fetch _))]; cbn beta; [intros x s' t' (V' & _)..|repeat split; assumption];
    apply wp_modify; (split; [exact V'|]); intros _ _; unfold busy; cbn; rewrite existsb_app; cbn; apply orb_true_r.
Qed.

Lemma loaded_sound s t : valid s t -> wp (on_data (modify (set_loading false))) (fun _ => sound) (fun _ => sound) s t.
Proof using Type. intros V. apply wp_zoom, wp_modify. split; [exact V|discriminate]. Qed.

Lemma finish_sound k : preserves sound (finish on k).
Proof using Type.
  destruct k; cbn [finish]; [apply preserves_ret|apply on_data_sound, tame_alert|apply on_data_sound, tame_modify; intros; split; reflexivity].
Qed.

(** A load ends with the view no longer loading. *)
Lemma load_end_sound {A} (m : JS view A) k s t :
  tame m -> (forall v t, wp m (fun _ _ _ => True) (fun _ _ _ => False) v t) -> valid s t ->
  wp (on_data m ;;; on_data (modify (set_loading false)) ;;; finish on k) (fun _ => sound) (fun _ => sound) s t.
Proof using Type.
  intros T NT V. apply wp_bind.
  eapply wp_mono; [..|apply (wp_and _ _ _ _ _ _ _ (on_data_wp m s t T V) (wp_zoom _ _ m (fun _ _ _ => True) (fun _ _ _ => False) s t (NT _ _)))]; cbn beta;
    intros x s' t' [(V' & _) F]; [|destruct F].
  apply wp_bind. eapply wp_mono; [..|exact (loaded_sound s' t' V')]; cbn beta; [|auto].
  intros _ s2 t2 S2. exact (finish_sound k s2 t2 S2).
Qed.

Lemma load_failed_sound k s t : valid s t -> wp (load_failed on k) (fun _ => sound) (fun _ => sound) s t.
Proof using Type. apply load_end_sound; [apply tame_alert|intros; exact I]. Qed.

Lemma spawn_load_sound k s t : is_load k = true -> valid s t -> wp (spawn k) (fun _ => sound) (fun _ => sound) s t.
Proof using Type.
  intros L V. apply wp_modify. split; [exact V|]. intros _ _. unfold busy. cbn. rewrite existsb_app. cbn. rewrite L. apply orb_true_r.
Qed.

Lemma resume_load_sound k s t : is_load k = true -> valid s t -> wp (resume on walletAddress k) (fun _ => sound) (fun _ => sound) s t.
Proof using Type.
  intros L V. destruct k as [answer k|answer k| |]; try discriminate L; cbn [resume].
  - unfold resume_fetch. apply wp_bind, wp_attempt. eapply wp_mono; [..|exact (on_data_wp _ s t (tame_store answer) V)]; cbn beta;
      intros x s' t' (V' & _); [|exact (load_failed_sound k s' t' V')].
    apply wp_bind, wp_attempt. eapply wp_mono; [..|refine (on_data_wp _ s' t' (tame_ext "marketplaceAPI.getAnalytics" [] eq_refl) V')]; cbn beta;
      intros y s2 t2 (V2 & _); (apply spawn_load_sound; [reflexivity|exact V2]).
  - unfold resume_analytics. destruct answer as [a|e]; [|exact (load_failed_sound k s t V)].
    apply load_end_sound; [apply tame_modify; intros; split; reflexivity|intros; exact I|exact V].
Qed.

Lemma spawn_sound k : preserves sound (spawn k).
Proof using Type.
  intros s t [V B]. apply wp_modify. split; [exact V|]. intros M L. unfold busy in *. cbn in *. rewrite existsb_app, (B M L). reflexivity.
Qed.

Lemma load_sound k : preserves sound (begin_load walletAddress k).
Proof using Type. intros s t [V _]. eapply wp_mono; [..|exact (begin_load_sound k s t V)]; cbn beta; [auto|intros ? ? ? []]. Qed.

#[local] Hint Resolve spawn_sound load_sound on_data_sound tame_alert : preserve.
#[local] Hint Extern 1 (tame (modify _)) => apply tame_modify; intros; split; reflexivity : preserve.
#[local] Hint Extern 1 (tame (ext _ _)) => apply tame_ext; reflexivity : preserve.
#[local] Hint Extern 2 (preserves sound (on_data _)) => apply on_data_sound; auto with preserve : preserve.

Lemma preserves_attempt {S A} (I : S -> trace -> Prop) (m : JS S A) : preserves I m -> preserves I (attempt m).
Proof using Type. intros P s t HI. apply wp_attempt. exact (P s t HI). Qed.
#[local] Hint Extern 2 (preserves sound (attempt (on_data _))) => apply preserves_attempt, on_data_sound; auto with preserve : preserve.

Lemma resume_sound k : is_load k = false -> preserves sound (resume on walletAddress k).
Proof using Type. intros L. destruct k as [| |[] good bad|[]]; try discriminate L; cbn [resume]; preserve. Qed.

(** What the screen offers keeps tab and mode known, and asks for the right
    NFTs. *)
Definition allowed (a : action) : Prop :=
  match a with
  | SetTab tab => In tab tabs
  | SetMode mode => In mode modes
  | Buy nft => mine walletAddress nft = false
  | Transfer nft => mine walletAddress nft = true
  | _ => True
  end.

Lemma on_screen_sound f : (forall x, activeTab (f x) = activeTab x /\ data (f x) = data x) -> preserves sound (on_screen f).
Proof using Type.
  intros Hf s t [(Vt & Vm & Vr) B]. apply wp_modify. destruct (Hf (ui s)) as [Ft Fd].
  unfold sound, valid. cbn. rewrite Ft, Fd. repeat split; auto.
Qed.

Lemma ask_sound callback good bad nft : (forall r, request_ok (Ev callback [nft] r)) -> preserves sound (ask callback good bad nft).
Proof using Type.
  intros R. unfold ask. apply preserves_bind; [|preserve]. apply preserves_attempt. intros s t [(Vt & Vm & Vr) B].
  apply wp_zoom, wp_ext; intros; (split; [|exact B]); repeat split; auto.
Qed.

Lemma perform_sound a : allowed a -> preserves sound (perform on walletAddress a).
Proof using Type.
  destruct a; cbn [perform allowed]; unfold handleNFTPress, favor; intros Al; try (apply on_screen_sound; intros; split; reflexivity); try solve [preserve].
  - intros s t [(Vt & Vm & Vr) B]. apply wp_modify. repeat split; auto.
  - intros s t [(Vt & Vm & Vr) B]. apply wp_zoom, wp_modify. repeat split; auto.
  - apply ask_sound. intros r. split; cbn; [intros _; eauto|discriminate].
  - apply ask_sound. intros r. split; cbn; [discriminate|intros _; eauto].
Qed.

Lemma offered_allowed s ns acts :
  rendered on walletAddress localeDate isTablet s = Ok ns -> offered (handling on) ns acts -> Forall allowed acts.
Proof using Type.
  assert (Forall (fun e => forall acts, performs e acts -> Forall allowed acts) (offers walletAddress (ui s))) as Ok_.
  { apply offers_all; cbn [performs]; intros; repeat split; intros; repeat match goal with H : exists _, _ |- _ => destruct H end; subst;
      try (match goal with |- context [mine walletAddress ?n] => destruct (mine walletAddress n) eqn:M end); repeat (apply Forall_cons; [cbn [allowed]; auto|]); auto. }
  rewrite Forall_forall in Ok_. unfold rendered, handling. destruct on; intros E O.
  - rewrite (hears_offered _ _ _ _ _ (web_hears walletAddress (ui s) localeDate) E) in O. destruct O as (_ & e & I & P).
    apply in_app_or in I. destruct I as [I|I]; [exact (Ok_ e I acts P)|]. unfold desktop_offers in I.
    destruct (_ && _); cbn [In] in I; [|destruct I]. destruct I as [<- | [<- | []]]; cbn in P; subst; repeat constructor.
  - rewrite (hears_offered _ _ _ _ _ (mobile_hears walletAddress isTablet (ui s) localeDate) E) in O. destruct O as (_ & e & I & P).
    apply in_app_or in I. destruct I as [I|I]; [exact (Ok_ e I acts P)|]. unfold phone_offers in I.
    destruct (_ && _); cbn [In] in I; [|destruct I]. destruct I as [<- | []]; cbn in P; subst; repeat constructor.
Qed.

Lemma filter_effect_wp s t :
  wp (filter_effect walletAddress date engine_sort) (fun _ s' t' => (exists l, s' = set_ui (set_filteredNfts l (ui s)) s) /\ t' = t /\ filtered s')
    (fun _ s' t' => s' = set_phase Crashed s /\ t' = t) s t.
Proof using Type.
  unfold filter_effect. apply wp_bind, wp_read. destruct (applyFilters _ _ _ _ _ _) as [l|e] eqn:E.
  - apply wp_modify. split; [exists l; reflexivity|]. split; [reflexivity|exact E].
  - apply wp_bind, wp_modify, wp_throw. auto.
Qed.

(** What every run keeps. *)
Definition inv (s : session) (t : trace) : Prop := sound s t /\ (now_ s = Mounted -> filtered s).

Lemma begin_load_filtered k : preserves (fun s _ => filtered s) (begin_load walletAddress k).
Proof using Type.
  intros s t F. unfold begin_load. apply wp_bind, wp_zoom, wp_modify, wp_bind, wp_read, wp_bind, wp_attempt, wp_zoom, wp_pure.
  - intros v. unfold fetch_nfts. preserve.
  - intros. apply wp_modify. exact F.
  - intros. apply wp_modify. exact F.
Qed.

Lemma load_inv k s t : valid s t -> filtered s -> wp (begin_load walletAddress k) (fun _ => inv) (fun _ => inv) s t.
Proof using Type.
  intros V F. eapply wp_mono; [..|exact (wp_and _ _ _ _ _ _ _ (begin_load_sound k s t V) (begin_load_filtered k s t F))]; cbn beta;
    [intros _ s' t' [S Fl]; split; auto|intros _ s' t' [[] _]].
Qed.

Lemma effects_inv before s t :
  sound s t -> wp (effects walletAddress date engine_sort before) (fun _ => inv) (fun _ => inv) s t.
Proof using Type.
  intros [V B]. unfold effects. apply wp_bind. eapply wp_mono; [..|exact (filter_effect_wp s t)]; cbn beta.
  - intros _ s' t' ([l ->] & -> & F). apply wp_bind, wp_read. cbn [ui set_ui data set_filteredNfts viewMode].
    destruct (_ =? before); [|apply load_inv; [exact V|exact F]]. apply wp_ret. split; [split; [exact V|exact B]|intros _; exact F].
  - intros _ s' t' [-> ->]. split; [split; [exact V|discriminate]|discriminate].
Qed.

Lemma handlers_sound acts : Forall allowed acts -> preserves sound (for_each acts (perform on walletAddress)).
Proof using Type.
  induction 1 as [|a acts Ha _ IH]; cbn [for_each]; [apply preserves_ret|]. apply preserves_bind; [apply perform_sound, Ha|intros; exact IH].
Qed.

Lemma checkScreenSize_sound width : preserves inv (checkScreenSize on width).
Proof using Type.
  unfold checkScreenSize. destruct on; [|apply preserves_ret]. intros s t [S F]. apply wp_modify. split; [exact S|exact F].
Qed.

Lemma removed_busy (l : list task) i k :
  nth_error l i = Some k -> is_load k = false -> existsb is_load l = true -> existsb is_load (firstn i l ++ skipn (S i) l) = true.
Proof using Type.
  intros N L. revert i N. induction l as [|x l IH]; intros [|i] N; cbn in N |- *; try discriminate N.
  - injection N as ->. rewrite L. auto.
  - intros B. apply orb_true_iff in B. destruct B as [-> | B]; [reflexivity|]. specialize (IH i N B). cbn in IH. rewrite IH. apply orb_true_r.
Qed.

Lemma run_inv o s t :
  enabled on walletAddress localeDate isTablet o s -> inv s t ->
  wp (run on walletAddress date engine_sort o) (fun _ => inv) (fun _ => inv) s t.
Proof using Type.
  intros En [[V B] F]. unfold run. apply wp_bind, wp_read. destruct o as [width|width|acts|i]; cbn [enabled] in En.
  - apply wp_bind, wp_modify, wp_bind.
    apply wp_mono with (Q := fun _ s' t' => valid s' t' /\ now_ s' = Mounted) (E := fun _ _ _ => False);
      [|intros _ _ _ []|unfold checkScreenSize; destruct on; split; auto]. intros _ s' t' [V' M].
    apply wp_bind. eapply wp_mono; [..|exact (filter_effect_wp s' t')]; cbn beta.
    + intros _ s2 t2 ([l ->] & -> & Fl). apply load_inv; [exact V'|exact Fl].
    + intros _ s2 t2 [-> ->]. split; [split; [exact V'|discriminate]|discriminate].
  - apply checkScreenSize_sound. split; [split; [exact V|exact B]|exact F].
  - destruct En as [M (ns & R & O)]. apply wp_try_finally.
    eapply wp_mono; [..|exact (handlers_sound acts (offered_allowed s ns acts R O) s t (conj V B))]; cbn beta; intros _ s' t' S'; apply effects_inv, S'.
  - destruct En as [M Li]. apply wp_bind, wp_read. destruct (nth_error (tasks s) i) as [k|] eqn:N; [|split; [split; [exact V|exact B]|exact F]].
    apply wp_bind, wp_modify, wp_try_finally.
    apply wp_mono with (Q := fun _ => sound) (E := fun _ => sound); [intros _ s' t' S'; apply effects_inv, S'..|].
    destruct (is_load k) eqn:L; [apply resume_load_sound; [exact L|exact V]|apply resume_sound; [exact L|]].
    split; [exact V|]. intros M' Lo. exact (removed_busy (tasks s) i k N L (B M' Lo)).
Qed.

Lemma session0_inv : inv session0 [].
Proof using Type. split; [split; [repeat split; cbn; auto|discriminate]|discriminate]. Qed.
End Facts.

(** ** A load in one go *)

(** What was spawned after the first [base] tasks is resumed, the last first. *)
Fixpoint drain `{Env} (on : platform) (walletAddress : jsval) (fuel base : nat) : JS session unit :=
  match fuel with
  | O => ret tt
  | S fuel' =>
      let* l := read tasks in
      match nth_error l base with
      | Some k => modify (set_tasks (firstn base l)) ;;; resume on walletAddress k ;;; drain on walletAddress fuel' base
      | None => ret tt
      end
  end.

Lemma nth_error_last {X} (l : list X) x : nth_error (l ++ [x]) (List.length l) = Some x.
Proof. rewrite nth_error_app2, Nat.sub_diag by lia. reflexivity. Qed.
Lemma firstn_last {X} (l : list X) x : firstn (List.length l) (l ++ [x]) = l.
Proof. rewrite firstn_app, Nat.sub_diag, firstn_all. apply app_nil_r. Qed.

Lemma drain_step `{Env} on w n x p l k t :
  drain on w (S n) (List.length l) (Session x p (l ++ [k])%list) t = (resume on w k ;;; drain on w n (List.length l)) (Session x p l) t.
Proof. cbn [drain]. unfold bind at 1, read. cbn [tasks]. rewrite nth_error_last, firstn_last. reflexivity. Qed.

Lemma drain_end `{Env} on w n x p l t : drain on w n (List.length l) (Session x p l) t = (Ok tt, Session x p l, t).
Proof.
  destruct n; [reflexivity|]. cbn [drain]. unfold bind at 1, read. cbn [tasks].
  replace (nth_error l (List.length l)) with (@None task) by (symmetry; apply nth_error_None; lia). reflexivity.
Qed.

(** ** Theorems *)

Section Theorems.
Context `{Env} (on : platform) (walletAddress : jsval) (date : jsval -> num).
Context (engine_sort : (jsval * jsval -> jsval * jsval -> bool) -> list (jsval * jsval) -> list (jsval * jsval)).
Context (localeDate : jsval -> string) (isTablet : bool).

Definition reaches (s : session) (t : trace) : Prop :=
  steps (machine_step (run on walletAddress date engine_sort) (enabled on walletAddress localeDate isTablet)) (session0, []) (s, t).

Lemma reaches_inv s t : reaches s t -> inv walletAddress date engine_sort s t.
Proof using Type.
  intros R. refine (machine_invariant _ _ _ _ _ _ _ _ R (session0_inv walletAddress date engine_sort)). intros o s1 t1 En I.
  exact (run_inv on walletAddress date engine_sort localeDate isTablet o s1 t1 En I).
Qed.

End Theorems.


(** C32: the right requests: along every run of either view, a purchase is asked
    of the parent only for an NFT that the wallet does not own and a transfer
    only for one that it owns. *)
Theorem market_requests_safe `{Env} on w date engine_sort localeDate isTablet s t :
  reaches on w date engine_sort localeDate isTablet s t -> Forall (request_ok w) t.
Proof. intros R. destruct (reaches_inv _ _ _ _ _ _ s t R) as [[(_ & _ & F) _] _]. exact F. Qed.

(** Loading ends: along every run, a mounted view that waits for nothing
    does not show that it is loading, and its tab and view mode are ones the
    code knows. *)
Theorem market_loading_ends `{Env} on w date engine_sort localeDate isTablet s t :
  reaches on w date engine_sort localeDate isTablet s t -> now_ s = Mounted ->
  (tasks s = [] -> loading (data (ui s)) = false) /\ In (activeTab (ui s)) tabs /\ In (viewMode (data (ui s))) modes.
Proof.
  intros R M. destruct (reaches_inv _ _ _ _ _ _ s t R) as [[(T & V & _) B] _]. split; [|auto]. intros E. specialize (B M).
  unfold busy in B. rewrite E in B. destruct (loading (data (ui s))); [exfalso; specialize (B eq_refl); discriminate B|reflexivity].
Qed.

Ltac steps_compute :=
  cbv [on_data spawn ext try_finally try_catch zoom attempt bind read modify ret lift alert
       data ui tasks now_ set_ui set_data set_tasks activeTab showFilters showSearch searchQuery settings filteredNfts isMobile].

(** The load split at its waits is the load of the sequential code: when
    nothing else happens in between, starting a load and resuming what it
    waits for has the effect of [loadMarketplaceData], on the data and on the
    outside, and leaves the other tasks waiting. *)
Theorem market_load_in_steps `{Env} on w s t :
  let '(r, v, t') := loadMarketplaceData on w (data (ui s)) t in
  (begin_load w Idle ;;; drain on w 2 (List.length (tasks s))) s t = (r, set_ui (set_data v (ui s)) s, t').
Proof.
  destruct s as [x p l], x as [a sf ss q f fl m v]. unfold loadMarketplaceData, begin_load. steps_compute.
  change (viewMode (set_loading true v)) with (viewMode v).
  destruct (fetch_nfts w (viewMode v) (set_loading true v) t) as [[[nftData|e] v1] t1]; steps_compute; rewrite drain_step; cbn [resume].
  2: { unfold resume_fetch, store_nfts, load_failed, finish. steps_compute. rewrite drain_end. reflexivity. }
  unfold resume_fetch, store_nfts. steps_compute.
  destruct (as_array "nftData" "map" nftData) as [items|e]; [|unfold load_failed, finish; steps_compute; rewrite drain_end; reflexivity].
  destruct (map_result _ items) as [creators|e]; [|unfold load_failed, finish; steps_compute; rewrite drain_end; reflexivity].
  destruct (load_profiles _ _ v1 t1) as [[[profiles|e] v2] t2]; [|unfold load_failed, finish; steps_compute; rewrite drain_end; reflexivity].
  steps_compute. destruct (reply t2 "marketplaceAPI.getAnalytics" []) as [answer|e]; rewrite drain_step; cbn [resume resume_analytics];
    unfold load_failed, finish; steps_compute; rewrite drain_end; reflexivity.
Qed.

(** *** Concrete runs *)

Definition lion : jsval := sample_nft "1" "Lion" "Art" 30.
Definition rose : jsval := sample_nft "2" "Rose" "Photo" 10.

(** An API with one verified NFT and a further one. *)
Definition twoNFTs : Env :=
  {| reply _ op _ :=
       if op =? "marketplaceAPI.getVerifiedNFTs" then Ok (VArr [lion])
       else if op =? "marketplaceAPI.getAllNFTs" then Ok (VArr [lion; rose])
       else if op =? "marketplaceAPI.getAnalytics" then Ok analytics0
       else Ok VUndef;
     clock _ := Num.zero; random _ := Num.zero |}.

Definition demo_run : op -> JS session unit := run (H := twoNFTs) Web (VStr "SMe") no_date insertion_sort.
Definition demo_enabled : op -> session -> Prop := enabled Web (VStr "SMe") to_str false.
Definition demo (ops : list op) : session * trace := play demo_run ops (session0, []).

(** A click on the screen. *)
Lemma demo_click acts s :
  acts <> [] -> now_ s = Mounted -> outcome (rendered Web (VStr "SMe") to_str false s) = None ->
  In (Clicked acts) (flat_map (happenings Bubbling []) (shown (rendered Web (VStr "SMe") to_str false s))) -> demo_enabled (Do acts) s.
Proof.
  intros N M O C. split; [exact M|]. destruct (rendered _ _ _ _ s) as [ns|] eqn:E; [|discriminate O].
  exists ns. split; [reflexivity|]. split; [exact N|]. exists (Clicked acts). split; [exact C|reflexivity].
Qed.

Definition stale_ops : list op := [Mount (Num.of_Z 1024); Do [SetMode "all"]; Resume 1; Resume 1; Resume 0; Resume 0].
Definition double_ops : list op := [Mount (Num.of_Z 1024); Resume 0; Resume 0; Do [Buy lion]; Do [Buy lion]].

Ltac demo_steps :=
  apply play_steps; cbv [stale_ops double_ops]; cbn [playable]; repeat match goal with |- _ /\ _ => split end;
  first [ exact I
        | apply demo_click; [discriminate|vm_compute; reflexivity..|vm_compute; repeat first [left; reflexivity | right]]
        | split; vm_compute; [reflexivity|lia]
        | vm_compute; reflexivity ].

Lemma stale_ops_run : steps (machine_step demo_run demo_enabled) (session0, []) (demo stale_ops).
Proof. demo_steps. Qed.

(** A late answer wins: the user switches from the verified NFTs to all of
    them while the first load is under way; when its answer comes last, the
    view stays with the verified NFTs under the mode "all", although it waits
    for nothing more. *)
Theorem market_late_load_wins :
  exists s t, reaches (H := twoNFTs) Web (VStr "SMe") no_date insertion_sort to_str false s t /\
    now_ s = Mounted /\ tasks s = [] /\ viewMode (data (ui s)) = "all" /\ nfts (data (ui s)) = [lion] /\ reply (Env := twoNFTs) t "marketplaceAPI.getAllNFTs" [] = Ok (VArr [lion; rose]).
Proof.
  exists (fst (demo stale_ops)), (snd (demo stale_ops)). split; [unfold reaches; rewrite <- surjective_pairing; exact stale_ops_run|].
  repeat split; vm_compute; reflexivity.
Qed.

Lemma double_ops_run : steps (machine_step demo_run demo_enabled) (session0, []) (demo double_ops).
Proof. demo_steps. Qed.

(** Nothing guards a purchase under way: the Buy button stays on the screen
    while the parent works on the purchase, and a second click asks for the
    same NFT again. *)
Theorem market_buys_twice :
  exists s t, reaches (H := twoNFTs) Web (VStr "SMe") no_date insertion_sort to_str false s t /\
    calls "onNFTPurchase" t = 2%nat /\ List.length (tasks s) = 2%nat.
Proof.
  exists (fst (demo double_ops)), (snd (demo double_ops)). split; [unfold reaches; rewrite <- surjective_pairing; exact double_ops_run|].
  split; vm_compute; reflexivity.
Qed.

Lemma market_requests_safe_witness : Forall (request_ok (VStr "SMe")) (snd (demo double_ops)) /\ calls "onNFTPurchase" (snd (demo double_ops)) = 2%nat.
Proof.
  split; [|vm_compute; reflexivity].
  apply (market_requests_safe (H := twoNFTs) Web (VStr "SMe") no_date insertion_sort to_str false (fst (demo double_ops)) (snd (demo double_ops))).
  unfold reaches. rewrite <- surjective_pairing. exact double_ops_run.
Defined.

Lemma market_loading_ends_witness : loading (data (ui (fst (demo stale_ops)))) = false.
Proof.
  apply (market_loading_ends (H := twoNFTs) Web (VStr "SMe") no_date insertion_sort to_str false (fst (demo stale_ops)) (snd (demo stale_ops)));
    [unfold reaches; rewrite <- surjective_pairing; exact stale_ops_run|vm_compute; reflexivity..].
Defined.

