(* ===== verification/MarketIndex.v ===== *)
(** * The entry point of the marketplace UI

    src/sdk-core/marketplace-ui/index.js around the utilities and requests of
    Marketplace: the choice of the platform's view ([ShahcoinMarketplace]), the
    configuration ([MarketplaceConfig]), the effects of the hook
    [useMarketplace], and the described types ([MarketplaceTypes]) with what
    they guarantee of the views. *)

From Stdlib Require Import ZArith Bool Lia List String.
From S2P Require Import Prelude JsNum JsVal JsMonad Machine Jsx TsTypes Marketplace MarketViews MarketOffers.
Import ListNotations.
Local Open Scope string_scope.

(** ** The platform *)

(** The globals [navigator] and [window]; [typeof] of one that is not declared
    is 'undefined'. *)
Record globals : Type := Globals { navigator : jsval; window : jsval }.

Definition undefined (v : jsval) : bool := match v with VUndef => true | _ => false end.

Definition isReactNative (g : globals) : result bool :=
  if undefined (navigator g) then Ok true
  else res_bind (get (navigator g) "product") (fun product =>
       Ok (truthy product && is_str product "ReactNative" || undefined (window g))).

Section Choice.
Context (walletAddress : jsval) (localeDate : jsval -> string) (isTablet : bool) (s : screen).

Definition ShahcoinMarketplace (g : globals) : html action :=
  res_bind (isReactNative g) (fun native =>
  if native then MobileMarketplace walletAddress localeDate isTablet s else WebMarketplace walletAddress localeDate s).

End Choice.

(** ** Configuration *)

Definition defaults : list (string * jsval) :=
  [("apiBaseUrl", VStr "https://api.shah.vip/marketplace"); ("refreshInterval", vnum 30000); ("maxRetries", vnum 3); ("timeout", vnum 10000);
   ("itemsPerPage", vnum 20); ("enableAnalytics", VBool true); ("enableFavorites", VBool true); ("enableSearch", VBool true);
   ("enableFilters", VBool true); ("enableBulkOperations", VBool true); ("enableAdvancedFilters", VBool true)].

Definition create (userConfig : list (string * jsval)) : list (string * jsval) := obj_spread defaults userConfig.

(** ** The hook's effects *)

(** A component that uses the hook; [interval] is the timer it set. *)
Record mounted : Type := Mounted { api : hook; present : bool; interval : option nat; timers : list nat; nextTimer : nat }.

Definition set_api (h : hook) (c : mounted) : mounted := Mounted h (present c) (interval c) (timers c) (nextTimer c).

Definition unmounted : mounted := Mounted hook0 false None [] 0.

Section Effects.
Context `{Env} (config : jsval).
Notation JS := (JS mounted).

Definition reload : JS unit := zoom api set_api (loadNFTs config).

(** Both effects, in order: the first load, and the refresh timer. *)
Definition mount : JS unit :=
  modify (fun c => Mounted (api c) true (interval c) (timers c) (nextTimer c)) ;;;
  reload ;;;
  if js_gt (get_opt config "refreshInterval") (vnum 0)
  then modify (fun c => Mounted (api c) (present c) (Some (nextTimer c)) (nextTimer c :: timers c) (S (nextTimer c)))
  else ret tt.

(** The cleanup of the second effect. *)
Definition unmount : JS unit :=
  modify (fun c => Mounted (api c) false None (match interval c with Some i => filter (fun j => negb (j =? i)%nat) (timers c) | None => timers c end) (nextTimer c)).

Inductive op : Type := Mount | Unmount | Tick (i : nat) | Purchase (nft : jsval) | TransferTo (nft address : jsval) | ToggleFavorite (nft : jsval).

Definition run (o : op) : JS unit :=
  match o with
  | Mount => mount
  | Unmount => unmount
  | Tick _ => reload
  | Purchase nft => zoom api set_api (purchaseNFT config nft) ;;; ret tt
  | TransferTo nft a => zoom api set_api (transferNFT config nft a) ;;; ret tt
  | ToggleFavorite nft => zoom api set_api (hook_toggleFavorite config nft)
  end.

Definition enabled (o : op) (c : mounted) : Prop :=
  match o with Mount => present c = false | Tick i => In i (timers c) | _ => present c = true end.

End Effects.

(** ** Described types *)

Definition NFT : list (string * string) :=
  [("id", "string"); ("name", "string"); ("description", "string"); ("imageUrl", "string"); ("creator", "string"); ("owner", "string");
   ("listPriceSatoshis", "number"); ("mintDate", "string"); ("category", "string"); ("traits", "array"); ("isVerified", "boolean");
   ("isFavorited", "boolean"); ("hasUnlockableContent", "boolean"); ("isTradeLocked", "boolean")].

Definition Transaction : list (string * string) :=
  [("id", "string"); ("nftId", "string"); ("type", "string"); ("fromAddress", "string"); ("toAddress", "string"); ("amountSatoshis", "number");
   ("timestamp", "string"); ("status", "string")].

Definition CreatorProfile : list (string * string) :=
  [("address", "string"); ("totalNFTs", "number"); ("totalVolume", "number"); ("trustScore", "number"); ("isTrusted", "boolean"); ("badges", "array")].

Definition Analytics : list (string * string) :=
  [("totalVolume24h", "number"); ("totalVolume7d", "number"); ("totalTransactions24h", "number"); ("totalTransactions7d", "number");
   ("averagePrice24h", "number"); ("averagePrice7d", "number"); ("topCreators", "array"); ("topCategories", "array")].

Definition MarketplaceTypes : list (string * list (string * string)) :=
  [("NFT", NFT); ("Transaction", Transaction); ("CreatorProfile", CreatorProfile); ("Analytics", Analytics)].

(** The shape a description names; the members of an array are what [items]
    says of the property. *)
Definition described (items : string -> ty) (k d : string) : ty :=
  if d =? "string" then TString else if d =? "number" then TNumber else if d =? "boolean" then TBoolean else TArray (items k).
Definition shape (items : string -> ty) (l : list (string * string)) : ty := TInterface (map (fun '(k, d) => req k (described items k d)) l).

(** The members the views read. *)
Definition trait : ty := TInterface [req "type" TString; req "value" (TUnion [TString; TNumber])].
Definition topCreator : ty := TInterface [req "address" TString; req "volume" TNumber].
Definition topCategory : ty := TInterface [req "name" TString; req "count" TNumber].
Definition members (k : string) : ty := if k =? "traits" then trait else if k =? "topCreators" then topCreator else topCategory.

Section Typed.
Context `{Dates}.

Definition typed_nft (v : jsval) : bool := conforms (shape members NFT) v.

(** The data of the screen is of the described types. *)
Definition typed_screen (s : screen) : Prop :=
  Forall (fun v => typed_nft v = true) (nfts (data s)) /\ Forall (fun v => typed_nft v = true) (filteredNfts s) /\
  (selectedNFT (data s) = VNull \/ typed_nft (selectedNFT (data s)) = true) /\
  (analytics (data s) = analytics0 \/ conforms (shape members Analytics) (analytics (data s)) = true).

Definition scalar (u : ty) : bool := match u with TString | TNumber | TBoolean => true | _ => false end.

Lemma dyn_shown {A} u v : scalar u = true -> conforms u v = true -> outcome (dyn (A := A) v) = None.
Proof using Type. intros S C. destruct u; try discriminate S; destruct v; (discriminate C || reflexivity). Qed.

Lemma field_shown {A} fs v k u : conforms (TInterface fs) v = true -> field_of fs k = Some (false, u) -> scalar u = true -> outcome (field (A := A) v k) = None.
Proof using Type.
  intros C F S. destruct (get_required _ _ _ _ C F) as (x & G & X). unfold field. rewrite G. cbn [res_bind]. exact (dyn_shown u x S X).
Qed.

Lemma address_shown {A} fs v k : conforms (TInterface fs) v = true -> field_of fs k = Some (false, TString) -> outcome (address (A := A) v k) = None.
Proof using Type.
  intros C F. destruct (get_required _ _ _ _ C F) as (x & G & X). unfold address. rewrite G. cbn [res_bind]. destruct x; try discriminate X. reflexivity.
Qed.

Lemma price_shown {A} fs v k u : conforms (TInterface fs) v = true -> field_of fs k = Some (false, u) -> outcome (price (A := A) v k) = None.
Proof using Type. intros C F. destruct (get_required _ _ _ _ C F) as (x & G & X). unfold price. rewrite G. reflexivity. Qed.

Lemma each_of_shown {A} expr fs v k u (f : nat -> jsval -> html A) : conforms (TInterface fs) v = true -> field_of fs k = Some (false, TArray u) ->
  (forall i x, conforms u x = true -> outcome (f i x) = None) -> outcome (each_of expr v k f) = None.
Proof using Type.
  intros C F S. destruct (get_required _ _ _ _ C F) as (x & G & X). unfold each_of. rewrite G. cbn [res_bind]. destruct x; try discriminate X.
  cbn [as_array res_bind]. apply outcome_each_none. intros i y I. apply S. cbn in X. rewrite forallb_forall in X. exact (X y I).
Qed.

Lemma card_shown w s nft : typed_nft nft = true -> outcome (web_renderNFTCard w s nft) = None.
Proof using Type.
  intros C. destruct (get_required _ _ "creator" _ C eq_refl) as (c & G & _). unfold web_renderNFTCard, creatorProfile. rewrite G. cbn [res_bind].
  unfold icon. autorewrite with outcome. rewrite (field_shown _ _ "name" _ C eq_refl eq_refl), (field_shown _ _ "description" _ C eq_refl eq_refl),
    (address_shown _ _ "creator" C eq_refl), (price_shown _ _ "listPriceSatoshis" _ C eq_refl). cbn. rewrite ?if_none. reflexivity.
Qed.

Lemma traits_shown v : conforms (TArray trait) v = true -> outcome (web_traits v) = None.
Proof using Type.
  intros C. destruct v as [| | | | |l| |]; try discriminate C. unfold web_traits. rewrite outcome_cond. cbn [truthy get res_bind String.eqb Ascii.eqb Bool.eqb as_array].
  rewrite outcome_when. destruct (js_gt _ _); [|reflexivity]. autorewrite with outcome. apply outcome_each_none. intros i x I.
  cbn in C. rewrite forallb_forall in C. specialize (C x I). change (conforms trait x = true) in C. autorewrite with outcome.
  rewrite (field_shown _ _ "type" _ C eq_refl eq_refl). destruct (get_required _ _ "value" _ C eq_refl) as (y & G & Y). unfold field. rewrite G. cbn [res_bind orelse].
  destruct y; try discriminate Y; reflexivity.
Qed.

Lemma get_opt_of fs v k u : conforms (TInterface fs) v = true -> field_of fs k = Some (false, u) -> conforms u (get_opt v k) = true.
Proof using Type.
  intros C F. destruct (get_required _ _ _ _ C F) as (x & G & X). destruct (interface_object _ _ C) as [o ->]. injection G as G.
  change (get_opt (VObj o) k) with (obj_get o k). rewrite G. exact X.
Qed.

Lemma details_shown w localeDate nft : typed_nft nft = true -> outcome (web_details w localeDate nft) = None.
Proof using Type.
  intros C. unfold web_details, web_row, web_value, icon. autorewrite with outcome.
  rewrite (field_shown _ _ "name" _ C eq_refl eq_refl), (field_shown _ _ "description" _ C eq_refl eq_refl), (field_shown _ _ "category" _ C eq_refl eq_refl),
    (address_shown _ _ "creator" C eq_refl), (address_shown _ _ "owner" C eq_refl), (price_shown _ _ "listPriceSatoshis" _ C eq_refl),
    (traits_shown _ (get_opt_of _ _ "traits" _ C eq_refl)). cbn. rewrite ?if_none. reflexivity.
Qed.

Lemma analytics_shown s : analytics (data s) = analytics0 \/ conforms (shape members Analytics) (analytics (data s)) = true ->
  outcome (web_renderAnalyticsContent s) = None.
Proof using Type.
  intros C. unfold web_renderAnalyticsContent. cbv zeta. destruct C as [->|C]; [reflexivity|]. unfold web_stat, rank. autorewrite with outcome.
  rewrite (price_shown _ _ "totalVolume24h" _ C eq_refl), (price_shown _ _ "totalVolume7d" _ C eq_refl), (price_shown _ _ "averagePrice24h" _ C eq_refl),
    (field_shown _ _ "totalTransactions24h" _ C eq_refl eq_refl). cbn [orelse].
  rewrite (each_of_shown _ _ _ "topCreators" _ _ C eq_refl), (each_of_shown _ _ _ "topCategories" _ _ C eq_refl); [reflexivity|..]; intros i x X; autorewrite with outcome.
  - rewrite (field_shown _ _ "name" _ X eq_refl eq_refl), (field_shown _ _ "count" _ X eq_refl eq_refl). reflexivity.
  - rewrite (address_shown _ _ "address" X eq_refl), (price_shown _ _ "volume" _ X eq_refl). reflexivity.
Qed.

Lemma count_shown {A} keep l : (forall v, typed_nft v = true -> exists b, keep v = Ok b) -> Forall (fun v => typed_nft v = true) l -> outcome (count (A := A) keep l) = None.
Proof using Type.
  intros K F. unfold count. assert (exists r, filter_result keep l = Ok r) as [r ->]; [|reflexivity].
  induction F as [|v l C _ [r IH]]; [eexists; reflexivity|]. destruct (K v C) as [b E]. cbn [filter_result]. rewrite E, IH. eexists. reflexivity.
Qed.

Lemma keep_field k u (f : jsval -> bool) v : field_of (fields (shape members NFT)) k = Some (false, u) -> typed_nft v = true ->
  exists b, res_bind (get v k) (fun x => Ok (f x)) = Ok b.
Proof using Type. intros F C. destruct (get_required _ _ _ _ C F) as (x & G & _). rewrite G. eexists. reflexivity. Qed.

End Typed.

(** ** Theorems *)

(** Data of the described types can always be shown: on either platform and
    in every state of the screen, when the NFTs, the one selected and the
    figures have the types the package describes, the marketplace renders. *)
Theorem typed_market_shown `{Dates} w localeDate isTablet s g product :
  typed_screen s -> get (navigator g) "product" = Ok product -> exists ns, ShahcoinMarketplace w localeDate isTablet s g = Ok ns.
Proof.
  intros (N & F & S & A) P.
  assert (outcome (WebMarketplace w localeDate s) = None) as W.
  { destruct (web_controls_outcome s) as (W1 & W2 & W3 & W4).
    unfold WebMarketplace, web_renderMarketplaceContent, web_renderProfileContent, web_profile_stat, web_renderNFTDetailModal, web_grid, icon. cbv zeta.
    autorewrite with outcome. rewrite ?W1, ?W2, ?W3, ?W4, (analytics_shown s A). cbn [orelse].
    rewrite (outcome_each_none _ (fun _ => web_renderNFTCard w s)).
    2: { intros i x I. apply card_shown. rewrite Forall_forall in F. exact (F x I). }
    rewrite (count_shown (field_is "owner" w) _ (fun v => keep_field "owner" _ _ v eq_refl) N), (count_shown (field_is "creator" w) _ (fun v => keep_field "creator" _ _ v eq_refl) N),
      (count_shown (field_truthy "isFavorited") _ (fun v => keep_field "isFavorited" _ _ v eq_refl) N). destruct S as [->|S]; [cbn; rewrite ?if_none; reflexivity|].
    rewrite (details_shown w localeDate _ S). cbn. rewrite ?if_none. reflexivity. }
  unfold ShahcoinMarketplace, isReactNative.
  assert (forall b : bool, exists ns, (if b then MobileMarketplace w localeDate isTablet s else WebMarketplace w localeDate s) = Ok ns) as B.
  { intros []; apply outcome_shown; [rewrite <- (views_outcome w isTablet s localeDate)|]; exact W. }
  destruct (undefined (navigator g)); [exact (B true)|]. rewrite P. apply B.
Qed.

Definition shown_nft : jsval := VObj (spread_props (sample_nft "1" "Lion" "Art" 30) ++
  [("mintDate", VStr "2025-01-01"); ("traits", VArr [VObj [("type", VStr "mane"); ("value", VStr "gold")]]); ("isFavorited", VBool false);
   ("hasUnlockableContent", VBool false); ("isTradeLocked", VBool false)]).
Definition shown_screen : screen :=
  Screen "marketplace" true true EmptyString filters0 [shown_nft] false (View "all" [shown_nft] false shown_nft [] analytics0 false).
Definition browser_globals : globals := Globals (VObj [("product", VStr "Gecko")]) (VObj []).

Lemma typed_market_shown_witness : exists ns, ShahcoinMarketplace (VStr "SOwner") to_str false shown_screen browser_globals = Ok ns.
Proof.
  apply (typed_market_shown (H := fun _ => false) _ _ _ _ _ (VStr "Gecko")); [|reflexivity].
  split; [repeat constructor|]. split; [repeat constructor|]. split; [right; reflexivity|left; reflexivity].
Defined.

Section Hook.
Context `{Env} (config : jsval).

(** The load and the requests leave the hook not loading. *)
Definition idle (h : hook) (t : trace) : Prop := h_loading h = false.

Lemma load_idles h t : wp (loadNFTs config) (fun _ h' _ => h_loading h' = false) (fun _ _ _ => False) h t.
Proof. unfold loadNFTs. wp_auto; reflexivity. Qed.

Lemma load_keeps_idle : preserves idle (loadNFTs config).
Proof. intros h t _. eapply wp_mono; [..|apply load_idles]; cbn beta; [auto|tauto]. Qed.

Lemma error_keeps_idle v : preserves idle (modify (set_h_error v)).
Proof. intros h t I. exact I. Qed.

Lemma requests_keep_idle nft a : preserves idle (purchaseNFT config nft) /\ preserves idle (transferNFT config nft a) /\ preserves idle (hook_toggleFavorite config nft).
Proof.
  pose proof load_keeps_idle. pose proof error_keeps_idle.
  assert (forall o args, preserves idle (ext o args)) by (intros; apply (preserves_ext (fun h => h_loading h = false))).
  assert (preserves idle now) by apply (preserves_now (fun h => h_loading h = false)).
  unfold purchaseNFT, transferNFT, hook_toggleFavorite, reporting, createPurchaseTransaction, createTransferTransaction, with_wallet, iso_now.
  split; [|split]; preserve.
Qed.

(** The timer held is the only one, is there while the component is, and only
    when a refresh is asked for. *)
Definition timed (c : mounted) : Prop :=
  timers c = match interval c with Some i => [i] | None => [] end /\
  (interval c <> None <-> present c = true /\ js_gt (get_opt config "refreshInterval") (vnum 0) = true) /\
  (present c = true -> h_loading (api c) = false).

Lemma zoom_timed {A} (m : JS hook A) : preserves idle m -> forall c t, present c = true -> timed c ->
  wp (zoom api set_api m) (fun _ c' _ => timed c' /\ present c' = true) (fun _ c' _ => timed c' /\ present c' = true) c t.
Proof.
  intros P c t Hp (T & I & L). apply wp_zoom. eapply wp_mono; [..|exact (P (api c) t (L Hp))]; cbn beta; intros ? h' t' Hl; (split; [split; [exact T|split; [exact I|intros _; exact Hl]]|exact Hp]).
Qed.

Lemma run_timed o c t : enabled o c -> timed c -> wp (run config o) (fun _ c' _ => timed c') (fun _ c' _ => timed c') c t.
Proof.
  intros En T. assert (forall nft a, _) as R by exact requests_keep_idle. destruct o; cbn [run].
  - cbn in En. destruct T as (Tt & Ti & _). assert (interval c = None) as Ni by (destruct (interval c); [exfalso; destruct Ti as [Ti _]; destruct Ti; congruence|reflexivity]).
    rewrite Ni in Tt. unfold mount, reload. apply wp_bind, wp_modify, wp_bind, wp_zoom. eapply wp_mono; [..|apply load_idles]; cbn beta; [|tauto].
    intros _ h' t' L. destruct (js_gt _ _) eqn:G; (split; [cbn; rewrite ?Tt, ?Ni; reflexivity|]); (split; [|intros _; exact L]); cbn -[js_gt]; rewrite ?Ni, ?G;
      split; intros K; solve [auto|discriminate|congruence|destruct K; congruence].
  - unfold unmount. apply wp_modify. destruct T as (Tt & Ti & _). unfold timed. cbn. rewrite Tt. destruct (interval c); cbn; rewrite ?Nat.eqb_refl;
      (split; [reflexivity|]); (split; [split; [congruence|intros [? _]; discriminate]|discriminate]).
  - assert (present c = true) as Hp.
    { destruct T as (Tt & Ti & _). cbn in En. rewrite Tt in En. apply Ti. destruct (interval c); [discriminate|destruct En]. }
    eapply wp_mono; [..|exact (zoom_timed _ load_keeps_idle c t Hp T)]; cbn beta; tauto.
  - apply wp_bind. eapply wp_mono; [..|exact (zoom_timed _ (proj1 (R nft nft)) c t En T)]; cbn beta; [intros; apply wp_ret|]; tauto.
  - apply wp_bind. eapply wp_mono; [..|exact (zoom_timed _ (proj1 (proj2 (R nft address))) c t En T)]; cbn beta; [intros; apply wp_ret|]; tauto.
  - eapply wp_mono; [..|exact (zoom_timed _ (proj2 (proj2 (R nft nft))) c t En T)]; cbn beta; tauto.
Qed.

End Hook.

(** The refresh of the marketplace hook: along every run of mounting,
    requests, ticks and unmounting there is one timer or none, and there is
    one just while the component is mounted with a positive interval, so a
    component that is gone never loads again; and whenever it is mounted the
    hook is not left loading. *)
Theorem market_hook_timers `{Env} config c t :
  steps (machine_step (run config) enabled) (unmounted, []) (c, t) ->
  (List.length (timers c) <= 1)%nat /\ (present c = false -> timers c = []) /\
  (present c = true -> h_loading (api c) = false /\ (timers c <> [] <-> js_gt (get_opt config "refreshInterval") (vnum 0) = true)).
Proof.
  intros St. assert (timed config c) as (T & I & L).
  { apply (machine_invariant (run config) enabled (fun c _ => timed config c) (run_timed config)) with (1 := St). split; [reflexivity|]. split; [|discriminate].
    split; [intros K; destruct K; reflexivity|intros [? _]; discriminate]. }
  destruct (interval c) as [i|]; rewrite T; cbn.
  - destruct (proj1 I ltac:(discriminate)) as [Hp Hg]. split; [lia|]. split; [congruence|]. intros _. split; [auto|]. split; [auto|discriminate].
  - split; [lia|]. split; [reflexivity|]. intros Hp. split; [auto|]. split; [congruence|]. intros Hg. destruct (proj2 I (conj Hp Hg)). reflexivity.
Qed.
