(* ===== verification/Premium.v ===== *)
(** * Premium subscriptions (web)

    src/web/components/PremiumSubscription.jsx: the hook
    [usePremiumSubscription], the feature gate, the status widget, the
    upgrade dialog with its three steps, and subscription management.
    [fetch], the local storage and the parent's callback are the environment;
    [alert] and [confirm] show a text.  A component whose rendering throws is
    removed by React, so its handlers run no more. *)

From Stdlib Require Import ZArith Bool Lia List String.
From S2P Require Import Prelude JsNum JsVal JsMonad Machine.
Import ListNotations.
Local Open Scope string_scope.

Definition feature (icon title description category : string) : jsval :=
  VObj [("icon", VFun icon); ("title", VStr title); ("description", VStr description); ("category", VStr category)].

Definition PREMIUM_FEATURES : list (string * jsval) :=
  [("AI_WALLET_ASSISTANT", feature "FaRobot" "🧠 AI Wallet Assistant" "Get intelligent help with transactions, security, and wallet management" "ai");
   ("AI_INSIGHTS_PANEL", feature "FaChartLine" "📊 AI Insights Panel" "Real-time security analysis and performance insights powered by AI" "ai");
   ("AI_FEE_OPTIMIZER", feature "FaBolt" "⚡ AI Fee Optimizer" "Automatically optimize transaction fees for cost and speed" "ai");
   ("AI_TROUBLESHOOTER", feature "FaTools" "🛠️ AI Troubleshooter" "Diagnose and fix wallet issues with AI-powered assistance" "ai");
   ("MULTILINGUAL_ASSISTANT", feature "FaGlobeAmericas" "🌐 Multilingual Assistant" "Get support in multiple languages with real-time translation" "ai");
   ("AI_ART_BOOSTER", feature "FaPalette" "🎨 AI Art Booster" "Generate and enhance NFT artwork with AI tools" "trading");
   ("NFT_COLLECTION_DROPS", feature "FaBox" "📦 NFT Collection Drops" "Create and manage large-scale NFT collection launches" "trading");
   ("AUCTION_MODULE", feature "FaClock" "🕰️ Auction Module" "Participate in and create NFT auctions with advanced features" "trading");
   ("AI_PORTFOLIO_ANALYZER", feature "FaAnalytics" "📈 AI Portfolio Analyzer" "Deep portfolio analysis with AI-powered recommendations" "tools");
   ("NFT_FLOOR_PRICE_ALERTS", feature "FaBell" "🔔 NFT Floor Price Alerts" "Get notified when NFT collections hit your target prices" "tools");
   ("USAGE_DASHBOARD", feature "FaFileAlt" "🧾 Usage Dashboard" "Comprehensive transaction history and usage analytics" "tools");
   ("EMAIL_CONFIRMATION_TOGGLE", feature "FaEnvelope" "📬 Email Confirmation Settings"
      "Configure email notifications for transactions and security" "settings")].

Definition plan (id name : string) (price : num) (interval : jsval) (features : list string) (recommended : bool) : jsval :=
  VObj [("id", VStr id); ("name", VStr name); ("price", VNum price); ("interval", interval);
        ("features", VArr (map VStr features)); ("recommended", VBool recommended)].

Definition SUBSCRIPTION_PLANS : list (string * jsval) :=
  [("FREE", plan "free" "Free" Num.zero VNull ["Basic wallet features"; "Standard transaction support"; "Basic NFT browsing"] false);
   ("MONTHLY", plan "monthly" "Monthly Premium" (Num.dec 499 2) (VStr "month")
      ["All Premium Features"; "AI-powered assistance"; "Advanced analytics"; "Priority support"] false);
   ("YEARLY", plan "yearly" "Yearly Premium" (Num.dec 4999 2) (VStr "year")
      ["All Premium Features"; "AI-powered assistance"; "Advanced analytics"; "Priority support"; "17% savings vs monthly"] true)].

Definition pay_method (id name description : string) : jsval :=
  VObj [("id", VStr id); ("name", VStr name); ("description", VStr description)].

Definition PAYMENT_METHODS : list (string * jsval) :=
  [("SHAH_NATIVE", pay_method "shah_native" "💰 SHAH (Native)" "Pay with native SHAH from your wallet");
   ("SHAH_TOKEN", pay_method "shah_token" "🪙 SHAHtoken (ERC-20)" "Pay with SHAHtoken on Ethereum network");
   ("STRIPE_CARD", pay_method "stripe_card" "💳 Credit/Debit Card" "Pay with credit card through Stripe")].

(** ** The hook *)

Record hook : Type := Hook { subscriptionData : jsval; hookLoading : bool; hookError : jsval }.

Definition hook0 : hook := Hook VNull true VNull.

Definition set_data (v : jsval) (h : hook) : hook := Hook v (hookLoading h) (hookError h).
Definition set_hookLoading (b : bool) (h : hook) : hook := Hook (subscriptionData h) b (hookError h).
Definition set_hookError (v : jsval) (h : hook) : hook := Hook (subscriptionData h) (hookLoading h) v.

(** [subscriptionData?.isActive && subscriptionData?.plan !== 'free']. *)
Definition isFeatureUnlocked (data : jsval) (feature : string) : bool :=
  truthy (get_opt data "isActive") && negb (is_str (get_opt data "plan") "free").

(** What the gate shows: the content alone, or the content under a locked
    overlay, and the upgrade dialog. *)
Inductive gated : Type := Content | Locked (content : bool) (dialog : bool).

Definition FeatureGate (data : jsval) (feature : string) (showUpgrade : bool) : gated :=
  if isFeatureUnlocked data feature then Content else Locked true showUpgrade.

(** The two texts of the status widget. *)
Definition PremiumStatusWidget (h : hook) : list jsval :=
  if hookLoading h then [VStr "Loading..."]
  else
    let data := subscriptionData h in
    let daysRemaining := js_or (get_opt data "daysRemaining") (vnum 0) in
    if truthy (get_opt data "isActive") then
      [get_opt data "planName";
       VStr (if js_gt daysRemaining (vnum 7) then "Active"
             else if js_gt daysRemaining (vnum 0) then to_str daysRemaining ++ " days left" else "Expired")]
    else [VStr "Free Plan"; VStr "Upgrade available"].

(** The features of a tab of the dashboard, each with its lock. *)
Definition dashboard_tab (data : jsval) (activeTab : string) : list (string * bool) :=
  map (fun '(k, _) => (k, isFeatureUnlocked data k)) (filter (fun '(_, f) => is_str (get_opt f "category") activeTab) PREMIUM_FEATURES).

Section Hook.
Context `{Env}.
Notation JS := (JS hook).

Definition authorization : JS (string * jsval) :=
  let* token := ext "localStorage.getItem" [VStr "authToken"] in
  ret ("Authorization", VStr ("Bearer " ++ to_str token)).

Definition loadSubscription : JS unit :=
  try_finally
    (try_catch
      (modify (set_hookLoading true) ;;;
       let* auth := authorization in
       let* response := fetch [VStr "/api/premium/subscription"; VObj [("headers", VObj [auth])]] in
       let* ok := lift (get response "ok") in
       if truthy ok then let* data := response_json response in modify (set_data data)
       else modify (set_data VNull))
      (fun err => modify (set_hookError (VStr (e_msg err)))))
    (modify (set_hookLoading false)).

Definition failure (message : jsval) : jsval := VObj [("success", VBool false); ("error", message)].

(** [const error = await response.json(); return { success: false, error: error.message }]. *)
Definition rejected (response : jsval) : JS jsval :=
  let* error := response_json response in
  let* m := lift (get error "message") in
  ret (failure m).

Definition purchaseSubscription (plan paymentMethod email : string) : JS jsval :=
  try_finally
    (try_catch
      (modify (set_hookLoading true) ;;;
       let* auth := authorization in
       let* response := fetch [VStr "/api/premium/purchase";
         VObj [("method", VStr "POST"); ("headers", VObj [("Content-Type", VStr "application/json"); auth]);
               ("body", stringify (VObj [("plan", VStr plan); ("paymentMethod", VStr paymentMethod); ("email", VStr email)]))]] in
       let* ok := lift (get response "ok") in
       if truthy ok then
         let* result := response_json response in
         loadSubscription ;;;
         ret (VObj [("success", VBool true); ("data", result)])
       else rejected response)
      (fun err => ret (failure (VStr (e_msg err)))))
    (modify (set_hookLoading false)).

Definition cancelSubscription : JS jsval :=
  try_finally
    (try_catch
      (modify (set_hookLoading true) ;;;
       let* auth := authorization in
       let* response := fetch [VStr "/api/premium/cancel"; VObj [("method", VStr "POST"); ("headers", VObj [auth])]] in
       let* ok := lift (get response "ok") in
       if truthy ok then loadSubscription ;;; ret (VObj [("success", VBool true)])
       else rejected response)
      (fun err => ret (failure (VStr (e_msg err)))))
    (modify (set_hookLoading false)).

End Hook.

(** ** The upgrade dialog *)

Inductive step_of : Type := Plans | Payment | Summary.

Record modal : Type := Modal {
  selectedPlan : string; selectedPayment : string; email : string; busy : bool; at_step : step_of; api : hook; closed : bool }.

Definition modal0 : modal := Modal "yearly" "stripe_card" EmptyString false Plans hook0 false.

Definition set_plan (k : string) (m : modal) : modal := Modal k (selectedPayment m) (email m) (busy m) (at_step m) (api m) (closed m).
Definition set_payment (k : string) (m : modal) : modal := Modal (selectedPlan m) k (email m) (busy m) (at_step m) (api m) (closed m).
Definition set_email (e : string) (m : modal) : modal := Modal (selectedPlan m) (selectedPayment m) e (busy m) (at_step m) (api m) (closed m).
Definition set_busy (b : bool) (m : modal) : modal := Modal (selectedPlan m) (selectedPayment m) (email m) b (at_step m) (api m) (closed m).
Definition set_step (x : step_of) (m : modal) : modal := Modal (selectedPlan m) (selectedPayment m) (email m) (busy m) x (api m) (closed m).
Definition set_api (h : hook) (m : modal) : modal := Modal (selectedPlan m) (selectedPayment m) (email m) (busy m) (at_step m) h (closed m).
Definition set_closed (b : bool) (m : modal) : modal := Modal (selectedPlan m) (selectedPayment m) (email m) (busy m) (at_step m) (api m) b.

(** The order summary: plan, method, price and the e-mail if there is one. *)
Definition summary (m : modal) : result (list jsval) :=
  let plan := obj_get SUBSCRIPTION_PLANS (selectedPlan m) in
  res_bind (get plan "name") (fun planName =>
  res_bind (get (obj_get PAYMENT_METHODS (selectedPayment m)) "name") (fun methodName =>
  Ok ([planName; methodName; get_opt plan "price"] ++ (if email m =? EmptyString then [] else [VStr (email m)])))%list).

(** What the dialog renders of the order; the first two steps always render. *)
Definition renders (m : modal) : bool :=
  match at_step m with Summary => match summary m with Ok _ => true | Throw _ => false end | _ => true end.

Section Modal.
Context `{Env}.
Notation JS := (JS modal).

Definition alert (text : string) : JS unit := fun s t => (Ok tt, s, Ev "alert" [VStr text] (Ok VUndef) :: t).

Definition handlePurchase : JS unit :=
  let* m := read (fun m => m) in
  if (selectedPayment m =? "stripe_card") && (email m =? EmptyString)
  then alert "Please enter your email address for Stripe payments"
  else
    modify (set_busy true) ;;;
    let* result := zoom api set_api (purchaseSubscription (selectedPlan m) (selectedPayment m) (email m)) in
    modify (set_busy false) ;;;
    if truthy (get_opt result "success") then
      alert "🎉 Welcome to Shahcoin Premium! Your subscription is now active." ;;;
      ext "onClose" [] ;;; modify (set_closed true)
    else alert ("Payment failed: " ++ to_str (get_opt result "error")).

(** What a user can do with the dialog. *)
Inductive op : Type :=
  | SelectPlan (key : string) | SelectPayment (key : string) | TypeEmail (text : string) | Continue | Back | Purchase.

Definition enabled (o : op) (m : modal) : Prop :=
  renders m = true /\ closed m = false /\
  match o with
  | SelectPlan k => at_step m = Plans /\ In k (map fst SUBSCRIPTION_PLANS) /\ k <> "FREE"
  | SelectPayment k => at_step m = Payment /\ In k (map fst PAYMENT_METHODS)
  | TypeEmail _ => at_step m = Payment /\ selectedPayment m = "stripe_card"
  | Continue => at_step m <> Summary
  | Back => at_step m <> Plans
  | Purchase => at_step m = Summary /\ busy m = false
  end.

Definition run (o : op) : JS unit :=
  match o with
  | SelectPlan k => modify (set_plan k)
  | SelectPayment k => modify (set_payment k)
  | TypeEmail e => modify (set_email e)
  | Continue => modify (fun m => set_step (match at_step m with Plans => Payment | _ => Summary end) m)
  | Back => modify (fun m => set_step (match at_step m with Summary => Payment | _ => Plans end) m)
  | Purchase => handlePurchase
  end.

End Modal.

(** ** Subscription management *)

Section Management.
Context `{Env}.
Notation JS := (JS (hook * bool)).

Definition say (text : string) : JS unit := fun s t => (Ok tt, s, Ev "alert" [VStr text] (Ok VUndef) :: t).

(** [handleCancel]; the second part of the state is [showCancel]. *)
Definition handleCancel : JS unit :=
  let* sure := ext "window.confirm" [VStr "Are you sure you want to cancel your subscription? You will lose access to premium features."] in
  if truthy sure then
    let* result := zoom fst (fun h '(_, b) => (h, b)) cancelSubscription in
    if truthy (get_opt result "success") then
      say "Subscription cancelled successfully." ;;; modify (fun '(h, _) => (h, false))
    else say ("Failed to cancel subscription: " ++ to_str (get_opt result "error"))
  else ret tt.

End Management.

(** ** Facts *)

(** The data the hook holds is what the server said of the subscription. *)
Definition said (data : jsval) (t : trace) : Prop :=
  exists opts resp, In (Ev "Response.json" [resp] (Ok data)) t /\
    In (Ev "fetch" [VStr "/api/premium/subscription"; opts] (Ok resp)) t /\ truthy (get_opt resp "ok") = true.

Definition backed (h : hook) (t : trace) : Prop := subscriptionData h = VNull \/ said (subscriptionData h) t.

Lemma said_more data new t : said data t -> said data (new ++ t)%list.
Proof. intros (o & r & A & B & C). exists o, r. repeat split; try (apply in_or_app; right); assumption. Qed.

(** A change that keeps the data backed and every error once reported. *)
Definition sound (h : hook) (t : trace) (h' : hook) (t' : trace) : Prop :=
  (backed h t -> backed h' t') /\ (hookError h <> VNull -> hookError h' <> VNull).

Lemma sound_trans h t h1 t1 h2 t2 : sound h t h1 t1 -> sound h1 t1 h2 t2 -> sound h t h2 t2.
Proof. intros [A B] [C D]. split; auto. Qed.

Lemma sound_ext h t h' new :
  subscriptionData h' = subscriptionData h -> hookError h' = hookError h \/ hookError h' <> VNull -> sound h t h' (new ++ t)%list.
Proof.
  intros D E. split; [|destruct E as [->|E]; auto]. unfold backed. rewrite D. intros [B|B]; [left; exact B|right; apply said_more, B].
Qed.

(** The data is unchanged, and an error is kept or set. *)
Ltac sound_step :=
  first [apply (sound_ext _ _ _ []) | apply (sound_ext _ _ _ [_]) | apply (sound_ext _ _ _ [_; _]) | apply (sound_ext _ _ _ [_; _; _])
        | apply (sound_ext _ _ _ [_; _; _; _])]; [reflexivity|first [left; reflexivity|right; discriminate]].

Lemma loadSubscription_sound `{Env} h t :
  wp loadSubscription (fun _ h' t' => hookLoading h' = false /\ sound h t h' t') (fun _ _ _ => False) h t.
Proof.
  unfold loadSubscription, authorization. wp_auto; (split; [reflexivity|]); try sound_step.
  - split; [|exact (fun K => K)]. intros _. right. cbn. do 2 eexists. split; [left; reflexivity|]. split; [right; left; reflexivity|].
    erewrite get_opt_ok by eassumption. assumption.
  - split; [|exact (fun K => K)]. intros _. left. reflexivity.
Qed.

(** The answer of a request: a success only when the server accepted it. *)
Definition accepted (url : string) (r : jsval) (t' : trace) : Prop :=
  truthy (get_opt r "success") = true ->
  exists opts resp, In (Ev "fetch" [VStr url; opts] (Ok resp)) t' /\ truthy (get_opt resp "ok") = true.

(** Reloading only adds to the trace. *)
Lemma loadSubscription_extends `{Env} h t : wp loadSubscription (fun _ _ t' => incl t t') (fun _ _ t' => incl t t') h t.
Proof. unfold loadSubscription, authorization. wp_auto; intros x Hx; cbn; auto. Qed.

Lemma purchase_sound `{Env} plan method email h t :
  wp (purchaseSubscription plan method email)
    (fun r h' t' => hookLoading h' = false /\ sound h t h' t' /\ accepted "/api/premium/purchase" r t') (fun _ _ _ => False) h t.
Proof.
  unfold purchaseSubscription, authorization, rejected.
  apply wp_try_finally, wp_try_catch, wp_bind, wp_modify, wp_bind, wp_bind, wp_ext; intros token R1;
    [|wp_auto; split; [reflexivity|split; [sound_step|discriminate]]].
  apply wp_ret, wp_bind, wp_ext; intros resp R2; [|wp_auto; split; [reflexivity|split; [sound_step|discriminate]]].
  apply wp_bind, wp_lift; intros ok Hok; [|wp_auto; split; [reflexivity|split; [sound_step|discriminate]]].
  wp_step; [|wp_auto; (split; [reflexivity|split; [sound_step|try discriminate]])].
  apply wp_bind, wp_ext; intros result R3; [|wp_auto; split; [reflexivity|split; [sound_step|discriminate]]].
  apply wp_bind. eapply wp_mono; [..|eapply wp_and; [apply loadSubscription_sound|apply loadSubscription_extends]]; cbn beta; [|tauto].
  intros _ h' t' ((_ & S) & I). wp_auto. split; [reflexivity|]. split.
  - eapply sound_trans; [|eapply sound_trans; [exact S|apply (sound_ext _ _ _ []); [reflexivity|left; reflexivity]]]. sound_step.
  - intros _. do 2 eexists. split; [apply I; right; left; reflexivity|]. erewrite get_opt_ok by eassumption. assumption.
Qed.

Lemma cancel_sound `{Env} h t :
  wp cancelSubscription
    (fun r h' t' => hookLoading h' = false /\ sound h t h' t' /\ accepted "/api/premium/cancel" r t') (fun _ _ _ => False) h t.
Proof.
  unfold cancelSubscription, authorization, rejected.
  apply wp_try_finally, wp_try_catch, wp_bind, wp_modify, wp_bind, wp_bind, wp_ext; intros token R1;
    [|wp_auto; split; [reflexivity|split; [sound_step|discriminate]]].
  apply wp_ret, wp_bind, wp_ext; intros resp R2; [|wp_auto; split; [reflexivity|split; [sound_step|discriminate]]].
  apply wp_bind, wp_lift; intros ok Hok; [|wp_auto; split; [reflexivity|split; [sound_step|discriminate]]].
  wp_step; [|wp_auto; (split; [reflexivity|split; [sound_step|try discriminate]])].
  apply wp_bind. eapply wp_mono; [..|eapply wp_and; [apply loadSubscription_sound|apply loadSubscription_extends]]; cbn beta; [|tauto].
  intros _ h' t' ((_ & S) & I). wp_auto. split; [reflexivity|]. split.
  - eapply sound_trans; [|eapply sound_trans; [exact S|apply (sound_ext _ _ _ []); [reflexivity|left; reflexivity]]]. sound_step.
  - intros _. do 2 eexists. split; [apply I; left; reflexivity|]. erewrite get_opt_ok by eassumption. assumption.
Qed.

(** The requests of a page that uses the hook. *)
Inductive hook_op : Type := Load | Buy (plan method email : string) | CancelIt.

Definition hook_run `{Env} (o : hook_op) : JS hook unit :=
  match o with
  | Load => loadSubscription
  | Buy p m e => purchaseSubscription p m e ;;; ret tt
  | CancelIt => cancelSubscription ;;; ret tt
  end.

Lemma hook_run_sound `{Env} o h t :
  wp (hook_run o) (fun _ h' t' => hookLoading h' = false /\ sound h t h' t') (fun _ _ _ => False) h t.
Proof.
  destruct o; cbn [hook_run]; [apply loadSubscription_sound|apply wp_bind..].
  - eapply wp_mono; [..|apply purchase_sound]; cbn beta; [|tauto]. intros r h' t' (L & S & _). apply wp_ret. auto.
  - eapply wp_mono; [..|apply cancel_sound]; cbn beta; [|tauto]. intros r h' t' (L & S & _). apply wp_ret. auto.
Qed.

(** *** The dialog *)

Definition plan_keys : list string := ["yearly"; "MONTHLY"; "YEARLY"].
Definition method_keys : list string := ["stripe_card"; "SHAH_NATIVE"; "SHAH_TOKEN"; "STRIPE_CARD"].

Definition choosable (m : modal) : Prop := In (selectedPlan m) plan_keys /\ In (selectedPayment m) method_keys.

Lemma wp_alert text (Q : unit -> modal -> trace -> Prop) E s t : Q tt s (Ev "alert" [VStr text] (Ok VUndef) :: t) -> wp (alert text) Q E s t.
Proof. exact id. Qed.

Lemma handlePurchase_keeps `{Env} m t :
  wp handlePurchase
    (fun _ m' _ => selectedPlan m' = selectedPlan m /\ selectedPayment m' = selectedPayment m)
    (fun _ m' _ => selectedPlan m' = selectedPlan m /\ selectedPayment m' = selectedPayment m) m t.
Proof.
  unfold handlePurchase. apply wp_bind, wp_read. wp_step; [split; reflexivity|].
  apply wp_bind, wp_modify, wp_bind. unfold wp at 1, zoom.
  destruct (purchaseSubscription _ _ _ _ _) as [[[r|e] h'] t']; [|split; reflexivity].
  apply wp_bind, wp_modify. wp_step; [|split; reflexivity]. apply wp_bind.
  apply wp_alert. wp_auto; split; reflexivity.
Qed.

Lemma run_choosable `{Env} o m t :
  enabled o m -> choosable m -> wp (run o) (fun _ m' _ => choosable m') (fun _ m' _ => choosable m') m t.
Proof.
  intros (_ & _ & He) [Cp Cm]. destruct o; cbn [run]; try (apply wp_modify; split; assumption).
  - destruct He as (_ & Hk & Nf). apply wp_modify. split; [|exact Cm]. cbn in *. intuition congruence.
  - destruct He as (_ & Hk). apply wp_modify. split; [exact Cp|]. cbn in *. intuition congruence.
  - eapply wp_mono; [..|apply handlePurchase_keeps]; cbn beta; intros ? m' t' [E1 E2]; unfold choosable; rewrite E1, E2; auto.
Qed.

Lemma summary_needs_keys m :
  choosable m -> renders m = true -> at_step m = Summary ->
  In (selectedPlan m) ["MONTHLY"; "YEARLY"] /\ In (selectedPayment m) (map fst PAYMENT_METHODS).
Proof.
  intros [Cp Cm] R S. unfold renders in R. rewrite S in R. unfold summary in R.
  destruct Cp as [E|Cp]; [rewrite <- E in R; discriminate R|]. split; [exact Cp|].
  destruct Cm as [E|Cm]; [|exact Cm]. rewrite <- E in R. exfalso.
  destruct (get (obj_get SUBSCRIPTION_PLANS (selectedPlan m)) "name"); discriminate R.
Qed.

(** A page and its server, for the witnesses: an active yearly subscription. *)
Definition active : jsval := VObj [("isActive", VBool true); ("plan", VStr "yearly"); ("planName", VStr "Yearly Premium"); ("daysRemaining", vnum 3)].
Definition server : Env := {|
  reply _ op _ := Ok (if op =? "fetch" then VObj [("ok", VBool true)] else if op =? "Response.json" then active else VUndef);
  clock _ := Num.zero; random _ := Num.zero |}.

Definition loaded : hook * trace := after_op (hook_run (H := server)) Load (hook0, []).

Lemma loaded_steps : steps (machine_step (hook_run (H := server)) (fun _ _ => True)) (hook0, []) (fst loaded, snd loaded).
Proof. rewrite <- surjective_pairing. apply steps_one, after_op_step. exact I. Qed.

Definition chosen : modal * trace :=
  let go := after_op (run (H := server)) in
  go Continue (go (SelectPayment "STRIPE_CARD") (go Continue (go (SelectPlan "MONTHLY") (modal0, [])))).

Lemma chosen_steps : steps (machine_step (run (H := server)) enabled) (modal0, []) (fst chosen, snd chosen).
Proof.
  rewrite <- surjective_pairing. unfold chosen.
  eapply steps_trans; [|apply steps_one, after_op_step; vm_compute; repeat split; discriminate].
  eapply steps_trans; [|apply steps_one, after_op_step; vm_compute; repeat split; auto].
  eapply steps_trans; [|apply steps_one, after_op_step; vm_compute; repeat split; discriminate].
  apply steps_one, after_op_step. vm_compute. repeat split; auto. discriminate.
Qed.

(** ** Theorems *)

(** C33: a feature is unlocked only on the server's word: along every run of
    loading, buying and cancelling, an unlocked feature means that the
    subscription request was answered with success and that the answer names
    an active plan other than the free one; and every request ends with the
    hook no longer loading. *)
Theorem premium_unlocked_by_server `{Env} h t feature :
  steps (machine_step hook_run (fun _ _ => True)) (hook0, []) (h, t) ->
  isFeatureUnlocked (subscriptionData h) feature = true ->
  exists opts resp data,
    In (Ev "fetch" [VStr "/api/premium/subscription"; opts] (Ok resp)) t /\ truthy (get_opt resp "ok") = true /\
    In (Ev "Response.json" [resp] (Ok data)) t /\ truthy (get_opt data "isActive") = true /\ is_str (get_opt data "plan") "free" = false.
Proof.
  intros Hs U.
  assert (backed h t) as B.
  { apply (machine_invariant hook_run (fun _ _ => True) backed) with (2 := Hs); [|left; reflexivity].
    intros o h1 t1 _ B1. eapply wp_mono; [..|apply hook_run_sound]; cbn beta; [|tauto]. intros _ h2 t2 (_ & S & _). auto. }
  unfold isFeatureUnlocked in U. apply andb_prop in U. destruct U as [A P]. apply negb_true_iff in P.
  destruct B as [B|(opts & resp & J & F & O)]; [rewrite B in A; discriminate|]. eauto 10.
Qed.

Lemma premium_unlocked_by_server_witness :
  exists opts resp data,
    In (Ev "fetch" [VStr "/api/premium/subscription"; opts] (Ok resp)) (snd loaded) /\ truthy (get_opt resp "ok") = true /\
    In (Ev "Response.json" [resp] (Ok data)) (snd loaded) /\ truthy (get_opt data "isActive") = true /\ is_str (get_opt data "plan") "free" = false.
Proof. exact (premium_unlocked_by_server (H := server) (fst loaded) (snd loaded) "USAGE_DASHBOARD" loaded_steps eq_refl). Defined.

(** Buying and cancelling: neither throws, both end the loading, and a
    success is reported only when the server accepted the request. *)
Theorem premium_requests_settle `{Env} plan method email h t :
  wp (purchaseSubscription plan method email)
    (fun r h' t' => hookLoading h' = false /\ accepted "/api/premium/purchase" r t') (fun _ _ _ => False) h t /\
  wp cancelSubscription
    (fun r h' t' => hookLoading h' = false /\ accepted "/api/premium/cancel" r t') (fun _ _ _ => False) h t.
Proof.
  split; [eapply wp_mono; [..|apply purchase_sound]|eapply wp_mono; [..|apply cancel_sound]]; cbn beta; tauto.
Qed.

(** An error of the hook is never cleared: once a request has failed, every
    later state reports it, also after the subscription was loaded again. *)
Theorem premium_error_sticks `{Env} h t h' t' :
  hookError h <> VNull -> steps (machine_step hook_run (fun _ _ => True)) (h, t) (h', t') -> hookError h' <> VNull.
Proof.
  intros E Hs. apply (machine_invariant hook_run (fun _ _ => True) (fun h _ => hookError h <> VNull)) with (2 := Hs); [|exact E].
  intros o h1 t1 _ E1. eapply wp_mono; [..|apply hook_run_sound]; cbn beta; [|tauto]. intros _ h2 t2 (_ & _ & S). auto.
Qed.

Lemma premium_error_sticks_witness :
  hookError (fst (after_op (hook_run (H := server)) Load (Hook VNull false (VStr "offline"), []))) <> VNull.
Proof.
  set (x := after_op _ _ _).
  apply (premium_error_sticks (H := server) (Hook VNull false (VStr "offline")) [] (fst x) (snd x)); [discriminate|].
  rewrite <- surjective_pairing. apply steps_one, after_op_step. exact I.
Defined.

(** The dialog never asks for the e-mail of a card payment: its initial
    choices are not among the plans and methods it offers, so an order can
    only be placed after another choice, and then the method is never the one
    the e-mail check looks for; left at its initial choices, the dialog
    fails to render the summary. *)
Theorem premium_email_never_asked `{Env} m t :
  steps (machine_step run enabled) (modal0, []) (m, t) ->
  (enabled Purchase m ->
     In (selectedPlan m) ["MONTHLY"; "YEARLY"] /\ In (selectedPayment m) (map fst PAYMENT_METHODS) /\
     (selectedPayment m =? "stripe_card") && (email m =? EmptyString) = false) /\
  (selectedPlan m = "yearly" \/ selectedPayment m = "stripe_card" -> at_step m = Summary -> renders m = false).
Proof.
  intros Hs.
  assert (choosable m) as C.
  { apply (machine_invariant run enabled (fun m _ => choosable m)) with (2 := Hs); [|split; cbn; auto].
    intros o m1 t1 He Cm. apply run_choosable; assumption. }
  split.
  - intros (R & _ & S & _). destruct (summary_needs_keys m C R S) as [Kp Km]. split; [exact Kp|]. split; [exact Km|].
    cbn in Km. destruct Km as [<-|[<-|[<-|[]]]]; reflexivity.
  - intros Init S. destruct (renders m) eqn:R; [|reflexivity]. exfalso. destruct (summary_needs_keys m C R S) as [Kp Km].
    destruct Init as [E|E]; rewrite E in *; cbn in *; intuition discriminate.
Qed.

Lemma premium_email_never_asked_witness :
  In (selectedPlan (fst chosen)) ["MONTHLY"; "YEARLY"] /\ email (fst chosen) = EmptyString /\ selectedPayment (fst chosen) = "STRIPE_CARD".
Proof.
  split; [|split; vm_compute; reflexivity].
  apply (proj1 (premium_email_never_asked (H := server) (fst chosen) (snd chosen) chosen_steps)). vm_compute. repeat split.
Defined.
