(* ===== verification/PremiumViews.v ===== *)
(** * The pages of the premium subscription

    The views of src/web/components/PremiumSubscription.jsx over the state of
    Premium: the status widget, the gate of a feature, the upgrade dialog, the
    dashboard of features and the management of the subscription; what they
    offer; and the runs of the management page. *)

From Stdlib Require Import ZArith Bool Lia List String.
From S2P Require Import Prelude JsNum JsVal JsMonad Machine Jsx Premium.
Import ListNotations.
Local Open Scope string_scope.

(** An operation of the dialog, closing it, and the buttons of the pages
    around it. *)
Inductive action : Type :=
  | Dialog (o : Premium.op)
  | CloseDialog
  | OpenUpgrade
  | Tab (id : string)
  | AskCancel
  | KeepSubscription
  | ConfirmCancel.

Notation page := (html action).

Definition fa (name : string) : page := el name [] [].

(** [plan.name] of a plan of the table that is there. *)
Definition dollars (v : result jsval) : list page := [txt "$"; res_bind v dyn].

Definition widget (h : hook) (className : string) : page :=
  if hookLoading h then el "div" [cls ("premium-status-widget " ++ className)] [el "div" [cls "premium-status-loading"] [txt "Loading..."]]
  else
    let data := subscriptionData h in
    let isPremium := truthy (get_opt data "isActive") in
    let daysRemaining := js_or (get_opt data "daysRemaining") (vnum 0) in
    el "div" [cls ("premium-status-widget " ++ (if isPremium then "premium" else "free") ++ " " ++ className)] [
      el "div" [cls "premium-status-icon"] [txt (if isPremium then "👑" else "🆓")];
      el "div" [cls "premium-status-text"] [
        if isPremium then
          fragment [
            el "span" [cls "premium-plan"] [field data "planName"];
            el "span" [cls "premium-expiry"] [
              txt (if js_gt daysRemaining (vnum 7) then "Active" else if js_gt daysRemaining (vnum 0) then to_str daysRemaining ++ " days left" else "Expired")]]
        else fragment [el "span" [cls "free-plan"] [txt "Free Plan"]; el "span" [cls "upgrade-text"] [txt "Upgrade available"]]]].

(** ** The upgrade dialog *)

Section DialogView.
Context (m : modal).

Definition plan_card (entry : string * jsval) : page :=
  let '(key, plan) := entry in
  let recommended := get_opt plan "recommended" in
  el "div" [prop "key" (VStr key); onClick [Dialog (SelectPlan key)];
            cls ("premium-plan-card " ++ (if selectedPlan m =? key then "selected" else EmptyString) ++ " " ++ (if truthy recommended then "recommended" else EmptyString))] [
    cond recommended (el "div" [cls "premium-plan-badge"] [txt "🏆 RECOMMENDED"]);
    el "h4" [] [field plan "name"];
    el "div" [cls "premium-plan-price"] (dollars (get plan "price") ++ [el "span" [cls "premium-plan-interval"] [txt "/"; field plan "interval"]]);
    el "ul" [cls "premium-plan-features"] [
      res_bind (get plan "features") (fun v => res_bind (as_array "plan.features" "map" v) (fun l =>
        each l (fun index feature => el "li" [prop "key" (vnum (Z.of_nat index))] [fa "FaCheckCircle"; txt " "; dyn feature])))]].

Definition plans_step : page :=
  el "div" [cls "premium-plans-step"] [
    el "h3" [] [txt "Choose Your Plan"];
    el "div" [cls "premium-plans-grid"] [each (filter (fun '(key, _) => negb (key =? "FREE")) SUBSCRIPTION_PLANS) (fun _ => plan_card)];
    el "button" [cls "premium-upgrade-continue"; onClick [Dialog Continue]] [txt "Continue"]].

Definition method_card (entry : string * jsval) : page :=
  let '(key, method) := entry in
  el "div" [prop "key" (VStr key); onClick [Dialog (SelectPayment key)];
            cls ("premium-payment-method " ++ (if selectedPayment m =? key then "selected" else EmptyString))] [
    el "div" [cls "premium-payment-method-name"] [field method "name"];
    el "div" [cls "premium-payment-method-desc"] [field method "description"]].

Definition email_input : page :=
  el "div" [cls "premium-email-input"] [
    el "label" [] [txt "Email Address (for receipts):"];
    el "input" [prop "type" (VStr "email"); prop "value" (VStr (email m)); onChange (fun v => Dialog (TypeEmail (to_str v)));
                prop "placeholder" (VStr "Enter your email address"); prop "required" (VBool true)] []].

Definition payment_step : page :=
  el "div" [cls "premium-payment-step"] [
    el "h3" [] [txt "Choose Payment Method"];
    el "div" [cls "premium-payment-methods"] [each PAYMENT_METHODS (fun _ => method_card)];
    when (selectedPayment m =? "stripe_card") email_input;
    el "div" [cls "premium-payment-buttons"] [
      el "button" [onClick [Dialog Back]] [txt "Back"];
      el "button" [cls "premium-upgrade-continue"; onClick [Dialog Continue]] [txt "Continue"]]].

Definition summary_item (label : string) (value : list page) : page := el "div" [cls "premium-summary-item"] [el "span" [] [txt label]; el "span" [] value].

Definition summary_step : page :=
  let plan := obj_get SUBSCRIPTION_PLANS (selectedPlan m) in
  el "div" [cls "premium-summary-step"] [
    el "h3" [] [txt "Order Summary"];
    el "div" [cls "premium-summary-details"] [
      summary_item "Plan:" [field plan "name"];
      summary_item "Payment Method:" [field (obj_get PAYMENT_METHODS (selectedPayment m)) "name"];
      el "div" [cls "premium-summary-item"] [el "span" [] [txt "Total:"]; el "span" [cls "premium-summary-price"] (dollars (get plan "price"))];
      when (negb (email m =? EmptyString)) (summary_item "Email:" [txt (email m)])];
    el "div" [cls "premium-summary-buttons"] [
      el "button" [onClick [Dialog Back]] [txt "Back"];
      el "button" [cls "premium-upgrade-purchase"; onClick [Dialog Purchase]; prop "disabled" (VBool (busy m))] [
        txt (if busy m then "Processing..." else "🚀 Purchase Premium")]]].

Definition PremiumUpgradeModal : page :=
  el "div" [cls "premium-upgrade-modal-overlay"] [
    el "div" [cls "premium-upgrade-modal"] [
      el "div" [cls "premium-upgrade-header"] [
        el "h2" [] [fa "FaCrown"; txt " Upgrade to Shahcoin Premium"];
        el "button" [cls "premium-upgrade-close"; onClick [CloseDialog]] [fa "FaTimes"]];
      el "div" [cls "premium-upgrade-content"] [
        match at_step m with Plans => plans_step | Payment => payment_step | Summary => summary_step end]]].

End DialogView.

(** ** The pages around it *)

Definition gate (data : jsval) (feature className : string) (children : page) (dialog : option modal) : page :=
  if isFeatureUnlocked data feature then el "div" [cls className] [children]
  else
    el "div" [cls ("feature-gate " ++ className)] [
      el "div" [cls "feature-gate-overlay"] [
        el "div" [cls "feature-gate-content"] [
          el "FaLock" [cls "feature-gate-icon"] [];
          el "h3" [cls "feature-gate-title"] [txt "Premium Feature"];
          el "p" [cls "feature-gate-description"] [txt "This feature is available with Shahcoin Premium"];
          el "button" [cls "feature-gate-upgrade-btn"; onClick [OpenUpgrade]] [fa "FaRocket"; txt " Upgrade Now"]]];
      el "div" [cls "feature-gate-disabled-content"] [children];
      match dialog with Some m => PremiumUpgradeModal m | None => nothing end].

Definition categories : list (string * string * string) :=
  [("ai", "🤖 AI Features", "FaRobot"); ("trading", "💼 Trading & NFT", "FaBox"); ("tools", "🛠️ Tools & Analytics", "FaTools"); ("settings", "⚙️ Settings", "FaCog")].

(** [featuresByCategory[activeTab]]. *)
Definition of_category (id : string) : list (string * jsval) := filter (fun '(_, f) => is_str (get_opt f "category") id) PREMIUM_FEATURES.

(** [<feature.icon>]. *)
Definition component (icon : jsval) : string := match icon with VFun name => name | _ => EmptyString end.

Definition feature_card (data : jsval) (entry : string * jsval) : page :=
  let '(key, feature) := entry in
  el "div" [prop "key" (VStr key); cls "premium-feature-card"] [
    el "div" [cls "premium-feature-header"] [
      el (component (get_opt feature "icon")) [cls "premium-feature-icon"] [];
      el "div" [cls "premium-feature-info"] [el "h3" [] [field feature "title"]; el "p" [] [field feature "description"]];
      el "div" [cls "premium-feature-status"] [
        if isFeatureUnlocked data key then el "FaUnlock" [cls "feature-unlocked"; prop "title" (VStr "Unlocked")] []
        else el "FaLock" [cls "feature-locked"; prop "title" (VStr "Premium Required")] []]];
    when (negb (isFeatureUnlocked data key)) (el "div" [cls "premium-feature-upgrade"] [el "span" [] [txt "Upgrade to Premium to unlock this feature"]])].

Definition PremiumFeaturesDashboard (h status : hook) (activeTab : string) : page :=
  el "div" [cls "premium-features-dashboard"] [
    el "div" [cls "premium-features-header"] [el "h2" [] [fa "FaCrown"; txt " Premium Features"]; widget status EmptyString];
    el "div" [cls "premium-features-tabs"] [
      each categories (fun _ '(id, name, icon) =>
        el "button" [prop "key" (VStr id); cls ("premium-features-tab " ++ (if activeTab =? id then "active" else EmptyString)); onClick [Tab id]] [fa icon; txt " "; txt name])];
    el "div" [cls "premium-features-content"] [each (of_category activeTab) (fun _ => feature_card (subscriptionData h))]].

(** The management page: its hook and [showCancel], and the state of the
    dialog it shows without a subscription.  How the locale writes a day is
    the parameter [toLocaleDateString]. *)
Section ManagementView.
Context (toLocaleDateString : jsval -> string) (h : hook) (showCancel : bool) (m : modal).

Definition info_item (label : string) (value : page) : page := el "div" [cls "subscription-info-item"] [el "span" [] [txt label]; value].

Definition cancel_panel : page :=
  el "div" [cls "subscription-cancel-confirm"] [
    el "h4" [] [txt "Cancel Subscription"];
    el "p" [] [txt "Are you sure you want to cancel your premium subscription?"];
    el "div" [cls "subscription-cancel-actions"] [
      el "button" [onClick [KeepSubscription]] [txt "Keep Subscription"];
      el "button" [cls "danger"; onClick [ConfirmCancel]] [txt "Yes, Cancel"]]].

Definition SubscriptionManagement : page :=
  let data := subscriptionData h in
  let isActive := truthy (get_opt data "isActive") in
  if hookLoading h then el "div" [cls "subscription-loading"] [txt "Loading subscription details..."]
  else if negb isActive then
    el "div" [cls "subscription-inactive"] [
      el "h3" [] [txt "No Active Subscription"];
      el "p" [] [txt "You don't have an active premium subscription."];
      PremiumUpgradeModal m]
  else
    el "div" [cls "subscription-management"] [
      el "div" [cls "subscription-details"] [
        el "h3" [] [fa "FaCrown"; txt " "; field data "planName"];
        el "div" [cls "subscription-info"] [
          info_item "Status:" (el "span" [cls ("status " ++ (if isActive then "active" else "inactive"))] [txt (if isActive then "Active" else "Inactive")]);
          info_item "Expires:" (el "span" [] [txt (toLocaleDateString (get_opt data "expirationDate"))]);
          info_item "Auto-Renewal:" (el "span" [] [txt (if truthy (get_opt data "autoRenew") then "Enabled" else "Disabled")])]];
      el "div" [cls "subscription-actions"] [
        el "button" [cls "subscription-action-btn primary"] [fa "FaGift"; txt " Upgrade Plan"];
        el "button" [cls "subscription-action-btn secondary"] [fa "FaCreditCard"; txt " Payment History"];
        el "button" [cls "subscription-action-btn danger"; onClick [AskCancel]] [fa "FaTimes"; txt " Cancel Subscription"]];
      when showCancel cancel_panel].

End ManagementView.

(** ** What the pages offer *)

Definition mail_entry : happening action := Entered (fun v => Dialog (TypeEmail (to_str v))).

Definition dialog_offers (m : modal) : list (happening action) :=
  Clicked [CloseDialog] ::
  match at_step m with
  | Plans => map (fun k => Clicked [Dialog (SelectPlan k)]) ["MONTHLY"; "YEARLY"] ++ [Clicked [Dialog Continue]]
  | Payment =>
      map (fun k => Clicked [Dialog (SelectPayment k)]) (map fst PAYMENT_METHODS) ++
      (if selectedPayment m =? "stripe_card" then [mail_entry] else []) ++ [Clicked [Dialog Back]; Clicked [Dialog Continue]]
  | Summary => Clicked [Dialog Back] :: (if busy m then [] else [Clicked [Dialog Purchase]])
  end%list.

Lemma plan_card_hears m entry : hears Bubbling [] (plan_card m entry) [Clicked [Dialog (SelectPlan (fst entry))]].
Proof. destruct entry as [key plan]. unfold plan_card, dollars, fa. pressed. Qed.

Lemma method_card_hears m entry : hears Bubbling [] (method_card m entry) [Clicked [Dialog (SelectPayment (fst entry))]].
Proof. destruct entry as [key method]. pressed. Qed.

Lemma plain_button_hears {A} (acts : list A) label : hears Bubbling [] (el "button" [onClick acts] [txt label]) [Clicked acts].
Proof. pressed. Qed.

Lemma icon_button_hears {A} classes (acts : list A) icon label :
  hears Bubbling [] (el "button" [cls classes; onClick acts] [el icon [] []; txt label]) [Clicked acts].
Proof. pressed. Qed.

Lemma close_hears {A} classes (acts : list A) icon : hears Bubbling [] (el "button" [cls classes; onClick acts] [el icon [] []]) [Clicked acts].
Proof. pressed. Qed.

Lemma email_hears m : hears Bubbling [] (email_input m) [mail_entry].
Proof. eapply hears_iff; [unfold email_input; hears|]. intros e N. cbn. intuition congruence. Qed.

Lemma purchase_hears m label : hears Bubbling [] (el "button" [cls "premium-upgrade-purchase"; onClick [Dialog Purchase]; prop "disabled" (VBool (busy m))] [txt label])
  (if busy m then [] else [Clicked [Dialog Purchase]]).
Proof. eapply hears_iff; [hears|]. intros e N. cbn. destruct (busy m); cbn; intuition congruence. Qed.

#[local] Hint Resolve plan_card_hears method_card_hears button_hears plain_button_hears icon_button_hears close_hears email_hears purchase_hears : hears.

Lemma dialog_hears m : hears Bubbling [] (PremiumUpgradeModal m) (dialog_offers m).
Proof.
  unfold PremiumUpgradeModal, dialog_offers. destruct (at_step m).
  - eapply hears_iff; [unfold plans_step, fa; boxes; apply (each_offers _ _ (fun p => Clicked [Dialog (SelectPlan (fst p))])); auto using plan_card_hears|listed].
  - eapply hears_iff; [unfold payment_step, fa; boxes; apply (each_offers _ _ (fun p => Clicked [Dialog (SelectPayment (fst p))])); auto using method_card_hears|].
    listed.
  - eapply hears_iff; [unfold summary_step, summary_item, dollars, fa; boxes|listed].
Qed.

(** ** When the dialog can be shown *)

(** What a property of a table's entry shows, or that there is no entry. *)
Definition readable (v : jsval) (k : string) : Prop := exists x, get v k = Ok x /\ outcome (dyn (A := action) x) = None.

Lemma plan_read k : readable (obj_get SUBSCRIPTION_PLANS k) "name" /\ readable (obj_get SUBSCRIPTION_PLANS k) "price" \/ obj_get SUBSCRIPTION_PLANS k = VUndef.
Proof.
  unfold obj_get, own, SUBSCRIPTION_PLANS, assoc. do 3 (destruct (k =? _); [left; split; eexists; split; reflexivity|]).
  unfold inherited. destruct (mem_string k object_prototype); [left; split; eexists; split; reflexivity|right; reflexivity].
Qed.

Lemma method_read k : readable (obj_get PAYMENT_METHODS k) "name" \/ obj_get PAYMENT_METHODS k = VUndef.
Proof.
  unfold obj_get, own, PAYMENT_METHODS, assoc. do 3 (destruct (k =? _); [left; eexists; split; reflexivity|]).
  unfold inherited. destruct (mem_string k object_prototype); [left; eexists; split; reflexivity|right; reflexivity].
Qed.

Lemma dialog_shown m : (exists ns, PremiumUpgradeModal m = Ok ns) <-> renders m = true.
Proof.
  enough (outcome (PremiumUpgradeModal m) = None <-> renders m = true) as <-.
  { split; [intros [ns ->]; reflexivity|apply outcome_shown]. }
  unfold PremiumUpgradeModal, renders. destruct (at_step m); cbv beta iota.
  - split; reflexivity.
  - unfold payment_step, email_input. cbn [PAYMENT_METHODS]. unfold each, each_from, method_card, field, fa. autorewrite with outcome. cbn. rewrite ?if_none. split; reflexivity.
  - unfold summary_step, summary_item, summary, dollars, field, fa. autorewrite with outcome.
    destruct (plan_read (selectedPlan m)) as [[(n & Gn & On) (pr & Gp & Op)] | -> ]; [|split; [intros K; discriminate K|discriminate]].
    rewrite Gn, Gp. cbn [res_bind]. rewrite On, Op. cbn [orelse].
    destruct (method_read (selectedPayment m)) as [(x & Gx & Ox) | -> ]; [|split; [intros K; discriminate K|discriminate]].
    rewrite Gx. cbn [res_bind]. rewrite Ox, ?if_none. split; reflexivity.
Qed.

(** ** The management page *)

Record managed : Type := Managed { subscription : hook; showCancel : bool; upgrade : modal }.

Inductive managed_op : Type := Refresh | Do (acts : list action).

Section Managed.
Context `{Env} (toLocaleDateString : jsval -> string).
Notation JS := (JS managed).

Definition set_subscription (h : hook) (p : managed) : managed := Managed h (showCancel p) (upgrade p).
Definition set_showCancel (b : bool) (p : managed) : managed := Managed (subscription p) b (upgrade p).
Definition set_upgrade (m : modal) (p : managed) : managed := Managed (subscription p) (showCancel p) m.

(** The dialog of this page ignores that it was closed. *)
Definition managed_perform (a : action) : JS unit :=
  match a with
  | Dialog o => zoom upgrade set_upgrade (run o)
  | AskCancel => modify (set_showCancel true)
  | KeepSubscription => modify (set_showCancel false)
  | ConfirmCancel => zoom (fun p => (subscription p, showCancel p)) (fun '(h, b) p => Managed h b (upgrade p)) handleCancel
  | CloseDialog | OpenUpgrade | Tab _ => ret tt
  end.

Definition managed_run (o : managed_op) : JS unit :=
  match o with Refresh => zoom subscription set_subscription loadSubscription | Do acts => for_each acts managed_perform end.

Definition managed_view (p : managed) : page := SubscriptionManagement toLocaleDateString (subscription p) (showCancel p) (upgrade p).

Definition managed_enabled (o : managed_op) (p : managed) : Prop :=
  match o with Refresh => True | Do acts => exists ns, managed_view p = Ok ns /\ offered Bubbling ns acts end.

End Managed.

Definition management_offers (h : hook) (showCancel : bool) (m : modal) : list (happening action) :=
  if hookLoading h then []
  else if negb (truthy (get_opt (subscriptionData h) "isActive")) then dialog_offers m
  else Clicked [AskCancel] :: (if showCancel then [Clicked [KeepSubscription]; Clicked [ConfirmCancel]] else []).

Lemma management_hears locale h c m : hears Bubbling [] (SubscriptionManagement locale h c m) (management_offers h c m).
Proof.
  unfold SubscriptionManagement, management_offers. cbv zeta. destruct (hookLoading h); [apply hears_passive; red; throughout ltac:(reflexivity)|].
  pose proof (dialog_hears m). destruct (truthy _); cbn [negb].
  - eapply hears_iff; [unfold info_item, cancel_panel, fa; boxes|listed].
  - eapply hears_iff; [boxes|listed].
Qed.

(** Requests to cancel, and questions answered with yes. *)
Definition is_cancel (e : event) : bool :=
  (ev_op e =? "fetch") && match ev_args e with VStr url :: _ => url =? "/api/premium/cancel" | _ => false end.
Definition is_yes (e : event) : bool := (ev_op e =? "window.confirm") && match ev_res e with Ok v => truthy v | Throw _ => false end.
Definition cancels (t : trace) : nat := List.length (filter is_cancel t).
Definition confirmed (t : trace) : nat := List.length (filter is_yes t).

(** At most [n] requests are added and no answer. *)
Definition adds {S A} (n : nat) (m : JS S A) : Prop :=
  forall s t, let Q := fun t' => (cancels t' <= n + cancels t)%nat /\ confirmed t' = confirmed t in wp m (fun _ _ t' => Q t') (fun _ _ t' => Q t') s t.

Lemma cancels_cons e t : cancels (e :: t) = ((if is_cancel e then 1 else 0) + cancels t)%nat.
Proof. unfold cancels. cbn [filter]. destruct (is_cancel e); reflexivity. Qed.

Lemma confirmed_cons e t : confirmed (e :: t) = ((if is_yes e then 1 else 0) + confirmed t)%nat.
Proof. unfold confirmed. cbn [filter]. destruct (is_yes e); reflexivity. Qed.

Ltac count :=
  repeat rewrite ?cancels_cons, ?confirmed_cons in *;
  cbn [is_cancel is_yes ev_op ev_args ev_res andb String.eqb Ascii.eqb Bool.eqb] in *; lia.

Section Counts.
Context `{Env}.

Lemma load_adds : adds 0 loadSubscription.
Proof. intros h t. unfold loadSubscription, authorization. cbv zeta. wp_auto; count. Qed.

Lemma wp_adds {S A} n (m : JS S A) (Q : A -> S -> trace -> Prop) (E : jserr -> S -> trace -> Prop) s t : adds n m ->
  (forall a s' t', (cancels t' <= n + cancels t)%nat -> confirmed t' = confirmed t -> Q a s' t') ->
  (forall e s' t', (cancels t' <= n + cancels t)%nat -> confirmed t' = confirmed t -> E e s' t') -> wp m Q E s t.
Proof. intros A1 HQ HE. eapply wp_mono; [..|exact (A1 s t)]; cbn beta; intros ? ? ? [? ?]; auto. Qed.

Lemma cancel_adds : adds 1 cancelSubscription.
Proof.
  intros h t. unfold cancelSubscription, authorization, rejected. cbv zeta. wp_auto; try count.
  all: apply (wp_adds 0); [apply load_adds|..]; intros ? ? ? C K; wp_auto; count.
Qed.

Lemma purchase_adds plan method email : adds 0 (purchaseSubscription plan method email).
Proof.
  intros h t. unfold purchaseSubscription, authorization, rejected. cbv zeta. wp_auto; try count.
  all: apply (wp_adds 0); [apply load_adds|..]; intros ? ? ? C K; wp_auto; count.
Qed.

Lemma dialog_adds o : adds 0 (run o).
Proof.
  intros m t. destruct o; cbn [run]; try (split; [apply le_n|reflexivity]). unfold handlePurchase. cbv zeta. apply wp_bind, wp_read. wp_step; [apply wp_alert; count|].
  apply wp_bind, wp_modify, wp_bind, wp_zoom, (wp_adds 0); [apply purchase_adds|..]; intros ? ? t' C K; [|count].
  apply wp_bind, wp_modify. wp_step; [|apply wp_alert; count]. apply wp_bind, wp_alert. wp_auto; count.
Qed.

Definition asked (p : managed) (t : trace) : Prop := (cancels t <= confirmed t)%nat.

Lemma adds_asked {A} (m : JS managed A) : adds 0 m -> preserves asked m.
Proof. intros A1 p t K. unfold asked in *. apply (wp_adds 0); [exact A1|..]; intros; lia. Qed.

Lemma managed_asked a : preserves asked (managed_perform a).
Proof.
  destruct a; cbn [managed_perform]; try (intros p t K; exact K).
  - apply adds_asked. intros p t. apply wp_zoom. exact (dialog_adds o (upgrade p) t).
  - intros p t K. unfold asked in *. apply wp_zoom. unfold handleCancel. apply wp_bind, wp_ext; intros v R; [|count].
    assert (is_yes (Ev "window.confirm" [VStr "Are you sure you want to cancel your subscription? You will lose access to premium features."] (Ok v)) = truthy v) as Y
      by reflexivity.
    wp_step; [|apply wp_ret; rewrite cancels_cons, confirmed_cons; cbn; lia].
    apply wp_bind, wp_zoom, (wp_adds 1); [apply cancel_adds|..]; intros ? ? t' C D; rewrite cancels_cons in C; rewrite confirmed_cons, Y in D; cbn in C, D; [|lia].
    wp_step; [apply wp_bind|]; unfold wp, say, modify; rewrite ?cancels_cons, ?confirmed_cons; cbn; lia.
Qed.

Lemma managed_run_asked o : preserves asked (managed_run o).
Proof.
  destruct o as [|acts]; cbn [managed_run].
  - apply adds_asked. intros p t. apply wp_zoom. exact (load_adds (subscription p) t).
  - apply preserves_for_each. exact managed_asked.
Qed.

End Counts.

(** ** Offers and operations *)

Lemma offers_enabled m e acts : renders m = true -> closed m = false -> In e (dialog_offers m) -> performs e acts ->
  acts = [CloseDialog] \/ exists o, enabled o m /\ acts = [Dialog o].
Proof.
  intros R C I P. unfold dialog_offers in I. destruct I as [<-|I]; [left; exact P|]. right. unfold enabled. rewrite R, C.
  destruct (at_step m), (selectedPayment m =? "stripe_card") eqn:Sp, (busy m); cbn in I; decompose [or] I; try tauto; subst e;
    first [cbn in P; subst acts | destruct P as [v ->]]; eexists; (split; [|reflexivity]); cbn; repeat split; try tauto; try discriminate;
    apply String.eqb_eq; exact Sp.
Qed.

Lemma enabled_offers m o : enabled o m -> exists e, In e (dialog_offers m) /\ performs e [Dialog o].
Proof.
  intros (_ & _ & E). unfold dialog_offers. destruct o.
  - destruct E as (-> & I & N). exists (Clicked [Dialog (SelectPlan key)]). split; [|reflexivity]. cbn in I |- *. decompose [or] I; subst; tauto.
  - destruct E as (-> & I). exists (Clicked [Dialog (SelectPayment key)]). split; [|reflexivity]. cbn in I |- *. decompose [or] I; subst; tauto.
  - destruct E as (-> & Sp). exists mail_entry. rewrite Sp. split; [cbn; tauto|]. exists (VStr text). reflexivity.
  - exists (Clicked [Dialog Continue]). split; [|reflexivity]. destruct (at_step m); [cbn; tauto| |congruence]. right. apply in_or_app. right. apply in_or_app. right. cbn. tauto.
  - exists (Clicked [Dialog Back]). split; [|reflexivity]. destruct (at_step m); [congruence| |cbn; tauto]. right. apply in_or_app. right. apply in_or_app. right. cbn. tauto.
  - destruct E as (-> & B). exists (Clicked [Dialog Purchase]). rewrite B. split; [cbn; tauto|reflexivity].
Qed.

(** ** Theorems *)

(** The upgrade dialog offers exactly its operations: a dialog that is open
    can be shown just when its order can be read, and then what a click or
    an entry can perform is closing it or one of the operations enabled in
    its state, each of them. *)
Theorem premium_dialog_offers m : closed m = false ->
  ((exists ns, PremiumUpgradeModal m = Ok ns) <-> renders m = true) /\
  forall ns acts, PremiumUpgradeModal m = Ok ns ->
    (offered Bubbling ns acts <-> acts = [CloseDialog] \/ exists o, enabled o m /\ acts = [Dialog o]).
Proof.
  intros C. split; [apply dialog_shown|]. intros ns acts E.
  assert (renders m = true) as R by (apply dialog_shown; eauto). rewrite (hears_offered _ _ _ _ _ (dialog_hears m) E). split.
  - intros (_ & e & I & P). eapply offers_enabled; eassumption.
  - intros [->|(o & En & ->)]; (split; [discriminate|]); [exists (Clicked [CloseDialog]); split; [left; reflexivity|reflexivity]|apply enabled_offers, En].
Qed.

Lemma premium_dialog_offers_witness : exists ns, PremiumUpgradeModal modal0 = Ok ns /\ offered Bubbling ns [Dialog (SelectPlan "YEARLY")].
Proof.
  destruct (premium_dialog_offers modal0 eq_refl) as [S O]. destruct (proj2 S eq_refl) as [ns E]. exists ns. split; [exact E|].
  apply (O ns _ E). right. exists (SelectPlan "YEARLY"). split; [|reflexivity]. vm_compute. repeat split; [tauto|discriminate].
Defined.

(** A subscription is cancelled only after two questions: along every run of
    the management page through its own controls, no more requests to cancel
    were sent than times the question of the browser was answered with yes,
    and the button that asks it is offered only while a subscription is
    active and the page's own question is shown. *)
Theorem cancel_asked_twice `{Env} locale p t :
  steps (machine_step managed_run (managed_enabled locale)) (Managed hook0 false modal0, []) (p, t) ->
  (cancels t <= confirmed t)%nat /\
  forall ns, managed_view locale p = Ok ns -> offered Bubbling ns [ConfirmCancel] ->
    showCancel p = true /\ truthy (get_opt (subscriptionData (subscription p)) "isActive") = true.
Proof.
  intros St. split.
  - refine (machine_invariant managed_run (managed_enabled locale) asked (fun o p t _ K => managed_run_asked o p t K) _ _ _ _ St _). apply le_n.
  - intros ns E O. rewrite (hears_offered _ _ _ _ _ (management_hears locale _ _ _) E) in O. destruct O as (_ & e & I & P).
    unfold management_offers, dialog_offers in I. destruct (hookLoading _); [destruct I|]. destruct (truthy _); cbn [negb] in I.
    + destruct I as [<-|I]; [discriminate P|]. destruct (showCancel p); [auto|destruct I].
    + exfalso. destruct I as [<-|I]; [discriminate P|].
      destruct (at_step (upgrade p)), (selectedPayment (upgrade p) =? "stripe_card"), (busy (upgrade p)); cbn in I; decompose [or] I; try tauto; subst e; try discriminate P; destruct P as [v Q]; discriminate Q.
Qed.

(** A browser whose user confirms, for the witness. *)
Definition confirming : Env := {|
  reply t op args := if op =? "window.confirm" then Ok (VBool true) else reply (Env := server) t op args;
  clock := clock (Env := server); random := random (Env := server) |}.

Definition cancelled : managed * trace :=
  play (managed_run (H := confirming)) [Refresh; Do [AskCancel]; Do [ConfirmCancel]] (Managed hook0 false modal0, []).

Lemma cancel_asked_twice_witness : cancels (snd cancelled) = 1%nat /\ (cancels (snd cancelled) <= confirmed (snd cancelled))%nat.
Proof.
  split; [vm_compute; reflexivity|].
  refine (proj1 (cancel_asked_twice (H := confirming) to_str (fst cancelled) (snd cancelled) _)). rewrite <- surjective_pairing. apply play_steps.
  split; [exact I|]. split; [|split; [|exact I]].
  - eexists. split; [vm_compute; reflexivity|]. split; [discriminate|]. exists (Clicked [AskCancel]). split; [vm_compute; tauto|reflexivity].
  - eexists. split; [vm_compute; reflexivity|]. split; [discriminate|]. exists (Clicked [ConfirmCancel]). split; [vm_compute; tauto|reflexivity].
Defined.
