(* ===== verification/PremiumTelegram.v ===== *)
(** * Premium subscriptions (Telegram)

    [PremiumTelegramMiniApp] of src/telegram/PremiumTelegramMiniApp.js: the
    commands and buttons of the bot, the feature gate, purchase, management
    and cancellation.  The subscription server and the methods of the Telegraf
    context are the environment; [date] is the time value of [new Date(v)].
    Telegraf runs the first action whose trigger matches the data of a button,
    and the data of a button is what [Markup.button.callback] was given.
    The methods [showPremiumFeatures], [showPriceAlerts] and
    [showFeatureDetails] are called and defined nowhere. *)

From Stdlib Require Import ZArith Bool Lia List String Ascii.
From S2P Require Import Prelude JsNum JsVal JsMonad Machine.
Import ListNotations.
Local Open Scope string_scope.

Definition premiumFeatures : list (string * string) :=
  [("AI_WALLET_ASSISTANT", "🧠 AI Wallet Assistant"); ("AI_INSIGHTS_PANEL", "📊 AI Insights Panel");
   ("AI_FEE_OPTIMIZER", "⚡ AI Fee Optimizer"); ("AI_TROUBLESHOOTER", "🛠️ AI Troubleshooter");
   ("MULTILINGUAL_ASSISTANT", "🌐 Multilingual Assistant"); ("AI_ART_BOOSTER", "🎨 AI Art Booster");
   ("NFT_COLLECTION_DROPS", "📦 NFT Collection Drops"); ("AUCTION_MODULE", "🕰️ Auction Module");
   ("AI_PORTFOLIO_ANALYZER", "📈 AI Portfolio Analyzer"); ("NFT_FLOOR_PRICE_ALERTS", "🔔 NFT Floor Price Alerts");
   ("USAGE_DASHBOARD", "🧾 Usage Dashboard"); ("EMAIL_CONFIRMATION_TOGGLE", "📬 Email Confirmations")].

Definition nl : string := String "010" EmptyString.
Definition bullets (l : list string) : string := join nl (map (fun x => "• " ++ x) l).

(** [Object.values(this.premiumFeatures).forEach(f => msg += `• ${f}\n`)]. *)
Definition feature_lines : string := fold_left (fun acc x => acc ++ "• " ++ snd x ++ nl) premiumFeatures EmptyString.

(** [this.premiumFeatures[feature]] in a template. *)
Definition feature_name (feature : string) : string :=
  to_str (obj_get (map (fun '(k, v) => (k, VStr v)) premiumFeatures) feature).

(** A keyboard: the labels and the data of the buttons; a web-app button
    carries an address. *)
Inductive button : Type := Callback (label data : string) | WebApp (label url : string).

Definition button_val (b : button) : jsval :=
  match b with
  | Callback l d => VObj [("text", VStr l); ("callback_data", VStr d)]
  | WebApp l u => VObj [("text", VStr l); ("web_app", VObj [("url", VStr u)])]
  end.
Definition keyboard (l : list button) : jsval := VArr (map (fun b => VArr [button_val b]) l).

Definition active_keyboard : list button :=
  [Callback "⚙️ Manage Subscription" "manage_subscription"; Callback "📱 Open Web App" "open_webapp"; Callback "🔄 Refresh Status" "premium"].
Definition free_keyboard : list button :=
  [Callback "🚀 Upgrade Now" "upgrade_yearly"; Callback "📋 View All Plans" "upgrade_plans"; Callback "📱 Open Web App" "open_webapp"].
Definition upgrade_keyboard : list button :=
  [Callback "🏆 Yearly ($49.99) - RECOMMENDED" "upgrade_yearly"; Callback "📅 Monthly ($4.99)" "upgrade_monthly";
   Callback "📖 View Features Details" "features"; Callback "← Back to Status" "premium"].
Definition purchase_keyboard (plan : string) : list button :=
  [Callback "💰 Pay with SHAH" ("payment_" ++ plan ++ "_shah_native"); Callback "🪙 Pay with SHAHtoken" ("payment_" ++ plan ++ "_shah_token");
   Callback "💳 Pay with Credit Card" ("payment_" ++ plan ++ "_stripe"); Callback "← Back to Plans" "upgrade_plans"].
Definition bought_keyboard : list button :=
  [Callback "🧠 AI Assistant" "feature_AI_WALLET_ASSISTANT"; Callback "📊 Portfolio Analysis" "feature_AI_PORTFOLIO_ANALYZER";
   Callback "⚡ Fee Optimizer" "feature_AI_FEE_OPTIMIZER"; Callback "👑 View Premium Status" "premium"].
Definition retry_keyboard (plan : string) : list button :=
  [Callback "🔄 Try Again" ("upgrade_" ++ plan); Callback "🏠 Back to Status" "premium"].
Definition gate_keyboard : list button :=
  [Callback "🚀 Upgrade to Premium" "upgrade_yearly"; Callback "📋 View All Features" "features"; Callback "🏠 Back to Menu" "premium"].
Definition assistant_keyboard : list button :=
  [Callback "💰 Check Balance" "ai_balance"; Callback "🔒 Security Check" "ai_security"; Callback "⚡ Optimize Fees" "ai_fees";
   Callback "📊 Portfolio Insights" "ai_portfolio"].
Definition portfolio_keyboard : list button :=
  [Callback "📊 Detailed Analysis" "portfolio_detailed"; Callback "🎯 Rebalance Tips" "portfolio_rebalance";
   Callback "📈 Performance History" "portfolio_history"; Callback "🔄 Refresh Analysis" "portfolio"].
Definition management_keyboard : list button :=
  [Callback "📋 Upgrade Plan" "upgrade_plans"; Callback "💳 Payment History" "payment_history";
   Callback "🔄 Toggle Auto-Renewal" "toggle_renewal"; Callback "❌ Cancel Subscription" "cancel_subscription"; Callback "🏠 Back to Status" "premium"].
Definition webapp_keyboard (url : string) : list button :=
  [WebApp "🚀 Open Premium Web App" url; Callback "🏠 Back to Menu" "premium"].
Definition cancelled_keyboard : list button :=
  [Callback "🚀 Reactivate Premium" "upgrade_plans"; Callback "🏠 Back to Status" "premium"].
Definition confirm_keyboard : list button :=
  [Callback "❌ Yes, Cancel Subscription" "confirm_cancel"; Callback "✅ Keep My Subscription" "manage_subscription"].

(** The bot keeps no data but the delayed messages it has scheduled. *)
Record bot : Type := Bot { apiBaseUrl : string; tips : nat }.

Definition planDetails : list (string * jsval) :=
  [("yearly", VObj [("name", VStr "Yearly Premium"); ("price", VStr "$49.99/year")]);
   ("monthly", VObj [("name", VStr "Monthly Premium"); ("price", VStr "$4.99/month")])].

Definition getPaymentMethodName (method : string) : string :=
  to_str (js_or (obj_get [("shah_native", VStr "💰 SHAH (Native)"); ("shah_token", VStr "🪙 SHAHtoken (ERC-20)"); ("stripe", VStr "💳 Credit Card")] method)
            (VStr method)).

(** [s.padStart(n, '0')]. *)
Definition padStart (n : nat) (s : string) : string := Num.zeros (n - String.length s) ++ s.

Section Bot.
Context `{Env} (date : jsval -> num).
Notation JS := (JS bot).

(** [{ parse_mode: 'HTML', ...Markup.inlineKeyboard(l) }]: the markup holds
    the keyboard under [reply_markup]. *)
Definition html (l : list button) : jsval :=
  VObj [("parse_mode", VStr "HTML"); ("reply_markup", VObj [("inline_keyboard", keyboard l)])].
Definition editMessageText (text : string) (l : list button) : JS unit := ext "ctx.editMessageText" [VStr text; html l] ;;; ret tt.
Definition ctx_reply (text : string) (l : list button) : JS unit := ext "ctx.reply" [VStr text; html l] ;;; ret tt.
Definition answerCbQuery (text : string) : JS unit := ext "ctx.answerCbQuery" [VStr text] ;;; ret tt.

(** [new Date(v).toLocaleDateString()]: the text is the platform's. *)
Definition localDate (v : jsval) : JS string := let* s := ext "Date.toLocaleDateString" [v] in ret (to_str s).

Definition getUserToken (userId : jsval) : JS string :=
  let* n := now in ret ("telegram_" ++ to_str userId ++ "_" ++ Num.to_string n).

Definition getWalletAddress (userId : jsval) : JS string :=
  let* s := lift (call_toString userId) in ret ("shah1" ++ padStart 39 s).

Definition authorized (userId : jsval) : JS (string * jsval) :=
  let* token := getUserToken userId in ret ("Authorization", VStr ("Bearer " ++ token)).

Definition getSubscriptionData (userId : jsval) : JS jsval :=
  try_catch
    (let* url := read apiBaseUrl in
     let* auth := authorized userId in
     let* response := fetch [VStr (url ++ "/premium/subscription/" ++ to_str userId); VObj [("headers", VObj [auth])]] in
     let* ok := lift (get response "ok") in
     if truthy ok then response_json response else ret VNull)
    (fun _ => ret VNull).

Definition checkFeatureAccess (userId : jsval) (feature : string) : JS bool :=
  try_catch
    (let* subscription := getSubscriptionData userId in
     if truthy subscription then let* a := lift (get subscription "isActive") in ret (truthy a) else ret false)
    (fun _ => ret false).

Definition mock_portfolio : jsval :=
  VObj [("totalValue", VStr "1,250.00"); ("change24h", VNum (Num.dec 25 1)); ("riskScore", vnum 75);
        ("recommendations", VArr [VStr "Consider diversifying with NFT investments"; VStr "Your portfolio shows good growth potential";
                                  VStr "Optimal time for DCA strategy"])].
Definition empty_portfolio : jsval :=
  VObj [("totalValue", VStr "0.00"); ("change24h", vnum 0); ("riskScore", vnum 0); ("recommendations", VArr [VStr "Unable to load recommendations"])].

Definition getPortfolioData (userId : jsval) : JS jsval :=
  try_catch
    (let* url := read apiBaseUrl in
     let* auth := authorized userId in
     let* response := fetch [VStr (url ++ "/premium/portfolio/" ++ to_str userId); VObj [("headers", VObj [auth])]] in
     let* ok := lift (get response "ok") in
     if truthy ok then response_json response else ret mock_portfolio)
    (fun _ => ret empty_portfolio).

Definition enabled_text (v : jsval) (on off : string) : string := if truthy v then on else off.

Definition status_active (subscription : jsval) : JS string :=
  let* n := now in
  let daysRemaining := Num.ceil (Num.div (Num.sub (date (get_opt subscription "expirationDate")) n) (Num.of_Z 86400000)) in
  let* expires := localDate (get_opt subscription "expirationDate") in
  ret ("✅ <b>Status:</b> Active Premium" ++ nl ++
       "📋 <b>Plan:</b> " ++ to_str (get_opt subscription "planName") ++ nl ++
       "📅 <b>Expires:</b> " ++ expires ++ nl ++
       "⏰ <b>Days Remaining:</b> " ++ Num.to_string daysRemaining ++ nl ++
       "🔄 <b>Auto-Renewal:</b> " ++ enabled_text (get_opt subscription "autoRenew") "Enabled" "Disabled" ++ nl ++ nl ++
       (if Num.leb daysRemaining (Num.of_Z 7) then "⚠️ <b>Your subscription expires soon!</b>" ++ nl ++ nl else EmptyString) ++
       "✨ <b>Unlocked Features:</b>" ++ nl ++ feature_lines).

Definition status_free : string :=
  "🆓 <b>Status:</b> Free Plan" ++ nl ++ "💫 <b>Available Features:</b> Basic wallet functions" ++ nl ++ nl ++
  "🚀 <b>Upgrade to Premium to unlock:</b>" ++ nl ++ feature_lines.

Definition showPremiumStatus (userId : jsval) : JS unit :=
  let* subscription := getSubscriptionData userId in
  let isActive := truthy subscription && truthy (get_opt subscription "isActive") in
  let* body := (if isActive then status_active subscription else ret status_free) in
  editMessageText ("👑 <b>Shahcoin Premium Status</b>" ++ nl ++ nl ++ body)
    (if truthy (get_opt subscription "isActive") then active_keyboard else free_keyboard).

Definition upgradeMessage : string :=
  "
👑 <b>Upgrade to Shahcoin Premium</b>

<b>🎯 Choose Your Plan:</b>

💎 <b>Yearly Premium - $49.99/year</b>
• Save 17% vs monthly billing
• All premium features unlocked
• Priority customer support
• Bonus exclusive features

📅 <b>Monthly Premium - $4.99/month</b>
• Perfect for trying premium features
• All premium features unlocked
• Standard customer support

<b>💳 Payment Methods Available:</b>
• 💰 SHAH (Native blockchain)
• 🪙 SHAHtoken (ERC-20)
• 💳 Credit/Debit Card (Stripe)

<b>✨ Premium Features Include:</b>
" ++ bullets (map snd premiumFeatures) ++ nl.

Definition showUpgradeOptions : JS unit := editMessageText upgradeMessage upgrade_keyboard.

Definition initiatePurchase (plan : string) : JS unit :=
  let details := obj_get planDetails plan in
  let* name := lift (get details "name") in
  editMessageText ("
💳 <b>Purchase " ++ to_str name ++ "</b>

<b>Plan:</b> " ++ to_str name ++ "
<b>Price:</b> " ++ to_str (get_opt details "price") ++ "

<b>Choose your payment method:</b>
") (purchase_keyboard plan).

Definition tips_text : string := "
🎊 <b>Premium Tips & Tricks:</b>

• Use /ai to access your AI Wallet Assistant
• Use /portfolio for instant portfolio analysis
• Use /alerts to set up NFT price alerts
• Access the full Web App for advanced features

<b>Need help?</b> Our premium support team is here for you!
".

(** The message sent two seconds after a purchase. *)
Definition sendTips : JS unit :=
  modify (fun b => Bot (apiBaseUrl b) (pred (tips b))) ;;; ext "ctx.reply" [VStr tips_text; VObj [("parse_mode", VStr "HTML")]] ;;; ret tt.

Definition purchase_body (plan method : string) (walletAddress : string) (userId : jsval) : jsval :=
  VObj [("plan", VStr (toUpperCase plan)); ("paymentMethod", VStr (toUpperCase method)); ("walletAddress", VStr walletAddress);
        ("telegramUserId", userId)].

Definition processPurchase (userId : jsval) (plan method : string) : JS unit :=
  let* walletAddress := getWalletAddress userId in
  if walletAddress =? EmptyString then answerCbQuery "❌ Please connect your wallet first!"
  else
    (ext "ctx.editMessageText" [VStr ("
⏳ <b>Processing Payment...</b>

<b>Plan:</b> " ++ (if plan =? "yearly" then "Yearly Premium" else "Monthly Premium") ++ "
<b>Payment Method:</b> " ++ getPaymentMethodName method ++ "

Please wait while we process your payment...
"); VObj [("parse_mode", VStr "HTML")]] ;;;
    try_catch
      (let* url := read apiBaseUrl in
       let* auth := authorized userId in
       let* response := fetch [VStr (url ++ "/premium/purchase");
         VObj [("method", VStr "POST"); ("headers", VObj [("Content-Type", VStr "application/json"); auth]);
               ("body", stringify (purchase_body plan method walletAddress userId))]] in
       let* result := response_json response in
       let* ok := lift (get response "ok") in
       let* success := (if truthy ok then lift (get result "success") else ret (VBool false)) in
       if truthy success then
         let* expires := localDate (get_opt result "expirationDate") in
         editMessageText ("
🎉 <b>Welcome to Shahcoin Premium!</b>

Your subscription has been activated successfully!

<b>✅ Plan:</b> " ++ to_str (get_opt result "planName") ++ "
<b>📅 Expires:</b> " ++ expires ++ "
<b>💳 Payment:</b> " ++ to_str (get_opt result "transactionId") ++ "

<b>🚀 You now have access to all premium features!</b>

Start exploring your premium features below:
") bought_keyboard ;;;
         modify (fun b => Bot (apiBaseUrl b) (S (tips b)))
       else
         let* error := lift (get result "error") in
         throw (error_of (js_or error (VStr "Payment failed"))))
      (fun error => editMessageText ("
❌ <b>Payment Failed</b>

" ++ e_msg error ++ "

Please try again or contact support if the issue persists.
") (retry_keyboard plan))).

Definition showFeatureGate (feature : string) : JS unit :=
  ctx_reply ("
🔒 <b>Premium Feature Locked</b>

<b>" ++ feature_name feature ++ "</b>

This feature is available with Shahcoin Premium subscription.

<b>🚀 Upgrade now to unlock:</b>
• " ++ feature_name feature ++ "
• All other premium features
• Priority support
• Advanced analytics

<b>💎 Special Telegram Offer:</b>
Get 10% off your first year with code: TELEGRAM10
") gate_keyboard.

Definition quoted (s : string) : string := String dquote (s ++ String dquote EmptyString).

Definition aiMessage : string := "
🧠 <b>AI Wallet Assistant</b>

Welcome to your personal AI assistant! I can help you with:

• 💰 Balance and transaction guidance
• 🔒 Security recommendations
• ⚡ Fee optimization tips
• 📊 Portfolio insights
• 🚀 Transaction assistance

<b>Ask me anything about your Shahcoin wallet!</b>

Example questions:
" ++ bullets (map quoted ["What's my current balance?"; "How can I optimize my fees?"; "Is my wallet secure?"; "Show me my portfolio performance"]) ++ nl.

Definition showAIAssistant : JS unit := ctx_reply aiMessage assistant_keyboard.

Definition showPortfolioAnalysis (userId : jsval) : JS unit :=
  let* data := getPortfolioData userId in
  let* value := lift (get data "totalValue") in
  let change := get_opt data "change24h" in
  let* recs := lift (as_array "portfolioData.recommendations" "map" (get_opt data "recommendations")) in
  ctx_reply ("
📈 <b>AI Portfolio Analysis</b>

<b>📊 Portfolio Overview:</b>
• Total Value: " ++ to_str value ++ " SHAH
• 24h Change: " ++ to_str change ++ "% " ++ (if js_gt change (vnum 0) then "📈" else "📉") ++ "
• Risk Score: " ++ to_str (get_opt data "riskScore") ++ "/100

<b>🎯 AI Recommendations:</b>
" ++ bullets (map to_str recs) ++ "

<b>⚡ Quick Actions:</b>
") portfolio_keyboard.

Definition showSubscriptionManagement (userId : jsval) : JS unit :=
  let* s := getSubscriptionData userId in
  if negb (truthy s) || negb (truthy (get_opt s "isActive")) then answerCbQuery "❌ No active subscription found"
  else
    let* expires := localDate (get_opt s "expirationDate") in
    let stat k := to_str (js_or (get_opt (get_opt s "stats") k) (vnum 0)) in
    editMessageText ("
⚙️ <b>Subscription Management</b>

<b>Current Plan:</b> " ++ to_str (get_opt s "planName") ++ "
<b>Status:</b> " ++ enabled_text (get_opt s "isActive") "✅ Active" "❌ Inactive" ++ "
<b>Expires:</b> " ++ expires ++ "
<b>Auto-Renewal:</b> " ++ enabled_text (get_opt s "autoRenew") "✅ Enabled" "❌ Disabled" ++ "

<b>Payment History:</b>
Last Payment: " ++ to_str (get_opt s "lastPaymentDate") ++ "
Amount: $" ++ to_str (get_opt s "lastPaymentAmount") ++ "

<b>📊 Usage Statistics:</b>
• AI Assistant queries: " ++ stat "aiQueries" ++ "
• Portfolio analyses: " ++ stat "portfolioAnalyses" ++ "
• Fee optimizations: " ++ stat "feeOptimizations" ++ "
") management_keyboard.

Definition openWebApp (userId : jsval) : JS unit :=
  let* url := read apiBaseUrl in
  ctx_reply "
📱 <b>Shahcoin Premium Web App</b>

Access the full premium experience with advanced features:

• 🧠 Complete AI Assistant interface
• 📊 Interactive portfolio analytics
• 🎨 AI Art generation tools
• 📦 NFT collection management
• 🕰️ Advanced auction features
• 📈 Real-time market insights

Click below to open the web app:
" (webapp_keyboard (replace_first url "api." "app." ++ "/premium?telegram_user_id=" ++ to_str userId)).

Definition cancelSubscription (userId : jsval) : JS unit :=
  try_catch
    (let* url := read apiBaseUrl in
     let* auth := authorized userId in
     let* response := fetch [VStr (url ++ "/premium/cancel");
       VObj [("method", VStr "POST"); ("headers", VObj [("Content-Type", VStr "application/json"); auth]);
             ("body", stringify (VObj [("telegramUserId", userId)]))]] in
     let* ok := lift (get response "ok") in
     if truthy ok then
       editMessageText "
✅ <b>Subscription Cancelled</b>

Your premium subscription has been cancelled successfully.

• You'll continue to have access until your current billing period ends
• No further charges will be made
• You can reactivate anytime

<b>We're sorry to see you go!</b>
If you change your mind, you can always upgrade again.
" cancelled_keyboard
     else throw (Error "Failed to cancel subscription"))
    (fun _ => answerCbQuery "❌ Failed to cancel subscription. Please try again.").

Definition confirmCancellation : JS unit :=
  editMessageText ("
⚠️ <b>Confirm Subscription Cancellation</b>

Are you sure you want to cancel your premium subscription?

<b>You will lose access to:</b>
" ++ bullets (map snd premiumFeatures) ++ "

<b>This action cannot be undone.</b>
") confirm_keyboard.

(** A feature behind the gate. *)
Definition gate (userId : jsval) (feature : string) (show : JS unit) : JS unit :=
  let* isUnlocked := checkFeatureAccess userId feature in
  if isUnlocked then show else showFeatureGate feature.

Definition missing (method : string) : JS unit := call_missing ("this." ++ method) ;;; ret tt.

(** ** Commands and buttons *)

(** [setupCommands] *)
Definition command (name : string) (userId : jsval) : option (JS unit) :=
  if name =? "premium" then Some (showPremiumStatus userId)
  else if name =? "upgrade" then Some showUpgradeOptions
  else if name =? "features" then Some (missing "showPremiumFeatures")
  else if name =? "subscription" then Some (showSubscriptionManagement userId)
  else if name =? "ai" then Some (gate userId "AI_WALLET_ASSISTANT" showAIAssistant)
  else if name =? "portfolio" then Some (gate userId "AI_PORTFOLIO_ANALYZER" (showPortfolioAnalysis userId))
  else if name =? "alerts" then Some (gate userId "NFT_FLOOR_PRICE_ALERTS" (missing "showPriceAlerts"))
  else None.

(** The text after a prefix, [None] when it is not one or nothing follows:
    [/^prefix(.+)$/]. *)
Definition after_prefix (p data : string) : option string :=
  if startsWith data p then
    match drop_string (String.length p) data with EmptyString => None | rest => Some rest end
  else None.

(** [/^(.+)_(.+)$/]: the first group is greedy, so it ends at the last
    underscore that leaves the second one a character. *)
Fixpoint split_last (s : string) : option (string * string) :=
  match s with
  | EmptyString => None
  | String c s' =>
      match split_last s' with
      | Some (a, b) => Some (String c a, b)
      | None =>
          match s' with
          | String "_" (String _ _ as b) => Some (String c EmptyString, b)
          | _ => None
          end
      end
  end.

(** [setupCallbacks]: the first trigger that matches. *)
Definition action (data : string) (userId : jsval) : option (JS unit) :=
  match after_prefix "upgrade_" data with
  | Some plan => Some (initiatePurchase plan)
  | None =>
  match (match after_prefix "payment_" data with Some rest => split_last rest | None => None end) with
  | Some (plan, method) => Some (processPurchase userId plan method)
  | None =>
  if data =? "manage_subscription" then Some (showSubscriptionManagement userId)
  else if data =? "cancel_subscription" then Some confirmCancellation
  else if data =? "confirm_cancel" then Some (cancelSubscription userId)
  else match after_prefix "feature_" data with
  | Some feature => Some (gate userId feature (missing "showFeatureDetails"))
  | None => if data =? "open_webapp" then Some (openWebApp userId) else None
  end end end.

End Bot.

(** ** Facts *)

Fixpoint plain (s : string) : bool :=
  match s with EmptyString => true | String c s' => negb (Ascii.eqb c "_") && plain s' end.

Lemma split_last_plain s : plain s = true -> split_last s = None.
Proof.
  induction s as [|c s IH]; cbn [plain split_last]; [reflexivity|]. intros P. apply andb_prop in P. destruct P as [_ P].
  rewrite (IH P). destruct s as [|d s]; [reflexivity|]. cbn [plain] in P. apply andb_prop in P. destruct P as [P _].
  apply negb_true_iff, Ascii.eqb_neq in P. destruct d as [[] [] [] [] [] [] [] []]; try reflexivity. exfalso. apply P. reflexivity.
Qed.

(** The two groups come back when the second has no underscore. *)
Lemma split_last_join a b :
  a <> EmptyString -> b <> EmptyString -> plain b = true -> split_last (a ++ "_" ++ b) = Some (a, b).
Proof.
  intros Ha Hb Pb. induction a as [|c a IH]; [congruence|]. cbn [append split_last]. destruct a as [|d a].
  - cbn [append]. assert (split_last (String "_" b) = None) as ->.
    { cbn [split_last]. rewrite (split_last_plain b Pb). destruct b as [|d b]; [reflexivity|]. cbn [plain] in Pb. apply andb_prop in Pb.
      destruct Pb as [P _]. apply negb_true_iff, Ascii.eqb_neq in P.
      destruct d as [[] [] [] [] [] [] [] []]; try reflexivity. exfalso. apply P. reflexivity. }
    destruct b; [congruence|reflexivity].
  - change (String c (String d a ++ "_" ++ b)) with (String c (String d a) ++ "_" ++ b) in *.
    assert (split_last (String d a ++ "_" ++ b) = Some (String d a, b)) as E by (apply IH; discriminate).
    cbn [append] in *. rewrite E. reflexivity.
Qed.

Lemma after_prefix_app p s : s <> EmptyString -> after_prefix p (p ++ s) = Some s.
Proof.
  intros N. unfold after_prefix, startsWith. rewrite (proj2 (prefix_spec p (p ++ s))) by (exists s; reflexivity).
  rewrite drop_length_append. destruct s; [congruence|reflexivity].
Qed.

Lemma action_payment `{Env} plan method userId :
  plan <> EmptyString -> method <> EmptyString -> plain method = true ->
  action ("payment_" ++ plan ++ "_" ++ method) userId = Some (processPurchase userId plan method).
Proof.
  intros Np Nm P. unfold action. change (after_prefix "upgrade_" ("payment_" ++ plan ++ "_" ++ method)) with (@None string).
  rewrite after_prefix_app by (destruct plan; discriminate || congruence). rewrite split_last_join by assumption. reflexivity.
Qed.

(** Whether access was granted, and on what grounds. *)
Lemma checkFeatureAccess_spec `{Env} userId feature s t :
  wp (checkFeatureAccess userId feature)
    (fun b s' t' => s' = s /\ (b = true -> exists url opts resp data,
       t' = [Ev "Response.json" [resp] (Ok data); Ev "fetch" [VStr url; opts] (Ok resp); Ev "Date.now" [] (Ok (VNum (clock t)))] ++ t /\
       truthy (get_opt resp "ok") = true /\ truthy (get_opt data "isActive") = true)%list)
    (fun _ _ _ => False) s t.
Proof.
  unfold checkFeatureAccess, getSubscriptionData, authorized, getUserToken. wp_auto; (split; [reflexivity|]); try discriminate.
  intros A. do 4 eexists. split; [reflexivity|]. split; (erewrite get_opt_ok by eassumption); assumption.
Qed.

(** The data of every button of the bot. *)
Definition data_of (b : button) : list string := match b with Callback _ d => [d] | WebApp _ _ => [] end.
Definition issued : list string :=
  flat_map data_of (active_keyboard ++ free_keyboard ++ upgrade_keyboard ++ purchase_keyboard "yearly" ++ purchase_keyboard "monthly" ++
    bought_keyboard ++ retry_keyboard "yearly" ++ retry_keyboard "monthly" ++ gate_keyboard ++ assistant_keyboard ++ portfolio_keyboard ++
    management_keyboard ++ webapp_keyboard EmptyString ++ cancelled_keyboard ++ confirm_keyboard)%list.

Definition handled `{Env} (data : string) : bool := match action data VUndef with Some _ => true | None => false end.

(** ** Theorems *)

(** The gate of the bot: access to a feature is decided by one request to
    the subscription server, and only an answer with success that names an
    active subscription lets the feature run; whatever the feature would do,
    otherwise the locked message is all that happens. *)
Theorem telegram_gate_decides `{Env} userId feature s t :
  exists unlocked t1,
    (forall show, gate userId feature show s t = (if unlocked : bool then show else showFeatureGate feature) s t1) /\
    (unlocked = true -> exists url opts resp data,
       t1 = [Ev "Response.json" [resp] (Ok data); Ev "fetch" [VStr url; opts] (Ok resp); Ev "Date.now" [] (Ok (VNum (clock t)))] ++ t /\
       truthy (get_opt resp "ok") = true /\ truthy (get_opt data "isActive") = true)%list.
Proof.
  pose proof (checkFeatureAccess_spec userId feature s t) as W. unfold wp in W.
  destruct (checkFeatureAccess userId feature s t) as [[[b|e] s'] t1] eqn:E; [|contradiction]. destruct W as [-> W].
  exists b, t1. split; [|exact W]. intros show. unfold gate, bind. rewrite E. destruct b; reflexivity.
Qed.

(** The data of a payment button comes back: for a method without an
    underscore the pressed button buys the plan and the method it was made
    for. *)
Theorem telegram_payment_roundtrip `{Env} plan method userId :
  plan <> EmptyString -> method <> EmptyString -> plain method = true ->
  action ("payment_" ++ plan ++ "_" ++ method) userId = Some (processPurchase userId plan method).
Proof. apply action_payment. Qed.

Lemma telegram_payment_roundtrip_witness :
  action (H := {| reply _ _ _ := Ok VUndef; clock _ := Num.zero; random _ := Num.zero |}) "payment_yearly_stripe" VUndef =
  Some (processPurchase (H := {| reply _ _ _ := Ok VUndef; clock _ := Num.zero; random _ := Num.zero |}) VUndef "yearly" "stripe").
Proof. apply (telegram_payment_roundtrip "yearly" "stripe" VUndef); [discriminate|discriminate|reflexivity]. Defined.

(** The two coin buttons buy something else: the greedy pattern gives the
    plan [..._shah] with the methods [native] and [token], which the request
    to the server carries in capitals. *)
Theorem telegram_coin_buttons_misread `{Env} plan userId address :
  plan <> EmptyString ->
  flat_map (fun b => flat_map (fun d => match action d userId with Some m => [m] | None => [] end) (data_of b))
    (firstn 3 (purchase_keyboard plan)) =
  [processPurchase userId (plan ++ "_shah") "native"; processPurchase userId (plan ++ "_shah") "token"; processPurchase userId plan "stripe"] /\
  purchase_body (plan ++ "_shah") "native" address userId =
  VObj [("plan", VStr (toUpperCase plan ++ "_SHAH")); ("paymentMethod", VStr "NATIVE"); ("walletAddress", VStr address); ("telegramUserId", userId)].
Proof.
  intros N. split.
  - cbn [firstn purchase_keyboard flat_map data_of]. unfold purchase_keyboard. cbn [firstn flat_map data_of app].
    assert (plan ++ "_shah" <> EmptyString) as N' by (destruct plan; discriminate).
    replace ("payment_" ++ plan ++ "_shah_native") with ("payment_" ++ (plan ++ "_shah") ++ "_" ++ "native") by (rewrite append_assoc; reflexivity).
    replace ("payment_" ++ plan ++ "_shah_token") with ("payment_" ++ (plan ++ "_shah") ++ "_" ++ "token") by (rewrite append_assoc; reflexivity).
    change ("payment_" ++ plan ++ "_stripe") with ("payment_" ++ plan ++ "_" ++ "stripe").
    rewrite !action_payment by (assumption || discriminate || reflexivity). reflexivity.
  - unfold purchase_body. do 4 f_equal. induction plan as [|c plan IH]; [congruence|]. cbn. destruct plan; [reflexivity|].
    f_equal. apply IH. discriminate.
Qed.

(** An environment whose services answer nothing. *)
Definition mute : Env := {| reply _ _ _ := Ok VUndef; clock _ := Num.zero; random _ := Num.zero |}.

Lemma telegram_coin_buttons_misread_witness :
  flat_map (fun b => flat_map (fun d => match action (H := mute) d VUndef with Some m => [m] | None => [] end) (data_of b))
    (firstn 3 (purchase_keyboard "yearly")) =
  [processPurchase (H := mute) VUndef "yearly_shah" "native"; processPurchase (H := mute) VUndef "yearly_shah" "token";
   processPurchase (H := mute) VUndef "yearly" "stripe"] /\
  purchase_body "yearly_shah" "native" "shah1" VUndef =
  VObj [("plan", VStr "YEARLY_SHAH"); ("paymentMethod", VStr "NATIVE"); ("walletAddress", VStr "shah1"); ("telegramUserId", VUndef)].
Proof. apply (telegram_coin_buttons_misread (H := mute) "yearly" VUndef "shah1"). discriminate. Defined.

(** The buttons the bot sends: twelve kinds of data reach no handler, the
    button to all plans fails before it shows anything, and a feature button
    pressed with an active subscription calls a method that is not there. *)
Theorem telegram_dead_buttons `{Env} userId feature s t :
  nodup string_dec (filter (fun d => negb (handled d)) issued) =
  ["features"; "ai_balance"; "ai_security"; "ai_fees"; "ai_portfolio"; "portfolio_detailed"; "portfolio_rebalance"; "portfolio_history";
   "portfolio"; "payment_history"; "toggle_renewal"; "premium"] /\
  In "upgrade_plans" issued /\ action "upgrade_plans" userId = Some (initiatePurchase "plans") /\
  initiatePurchase "plans" s t = (Throw (TypeError "Cannot read properties of undefined (reading 'name')"), s, t) /\
  (feature <> EmptyString -> exists m, action ("feature_" ++ feature) userId = Some m /\
   forall t1, checkFeatureAccess userId feature s t = (Ok true, s, t1) ->
     m s t = (Throw (TypeError "this.showFeatureDetails is not a function"), s, t1)).
Proof.
  split; [vm_compute; reflexivity|]. split; [vm_compute; tauto|]. split; [reflexivity|]. split; [reflexivity|]. intros N.
  exists (gate userId feature (missing "showFeatureDetails")). split.
  - unfold action. change (after_prefix "upgrade_" ("feature_" ++ feature)) with (@None string).
    change (after_prefix "payment_" ("feature_" ++ feature)) with (@None string).
    rewrite (after_prefix_app "feature_" feature N). reflexivity.
  - intros t1 E. unfold gate, bind. rewrite E. reflexivity.
Qed.
