(* ===== verification/TelegramRuns.v ===== *)
(** * Runs of the Telegram bot

    The bot of src/telegram/PremiumTelegramMiniApp.js as a machine: launched,
    it serves commands and buttons in any order, for any user, until a signal
    stops it, while the messages it has delayed come due.  What the bot tells
    a user is checked against what the server has answered: [truthful].

    The handlers are those of PremiumTelegram.  The machine goes on after a
    handler that throws; where Telegraf ends the bot over the error, its run
    is a shorter one of the machine. *)

From Stdlib Require Import ZArith Bool Lia List String.
From S2P Require Import Prelude JsNum JsVal JsMonad Machine PremiumTelegram.
Import ListNotations.
Local Open Scope string_scope.

(** The bot, whether it is polling, and the signals it still listens to. *)
Record running : Type := Running { inner : bot; live : bool; hooks : list string }.

Definition set_inner (b : bot) (r : running) : running := Running b (live r) (hooks r).

Definition started (apiBaseUrl : string) : running := Running (Bot apiBaseUrl 0) false [].

Inductive op : Type := Launch | Said (name : string) (userId : jsval) | Pressed (data : string) (userId : jsval) | Due | Signalled (signal : string).

Section Bot.
Context `{Env} (date : jsval -> num).
Notation JS := (JS running).

(** The promise of [bot.launch()] is not awaited: its rejection is not seen. *)
Definition launch : JS unit :=
  try_catch (ext "bot.launch" [] ;;; ret tt) (fun _ => ret tt) ;;;
  modify (fun r => Running (inner r) true (hooks r ++ ["SIGINT"; "SIGTERM"])%list).

(** [process.once]: the listeners of the signal are removed and called. *)
Definition onSignal (signal : string) : JS unit :=
  let* all := read hooks in
  modify (fun r => Running (inner r) false (filter (fun h => negb (h =? signal)) all)) ;;;
  for_each (filter (fun h => h =? signal) all) (fun h => try_catch (ext "bot.stop" [VStr h] ;;; ret tt) (fun _ => ret tt)).

Definition served (handler : option (JsMonad.JS bot unit)) : JS unit :=
  match handler with Some m => zoom inner set_inner m | None => ret tt end.

Definition run (o : op) : JS unit :=
  match o with
  | Launch => launch
  | Said name userId => served (command date name userId)
  | Pressed data userId => served (action data userId)
  | Due => zoom inner set_inner sendTips
  | Signalled signal => onSignal signal
  end.

Definition enabled (o : op) (r : running) : Prop :=
  match o with
  | Launch => live r = false
  | Said _ _ | Pressed _ _ => live r = true
  | Due => (0 < tips (inner r))%nat
  | Signalled signal => In signal (hooks r)
  end.

End Bot.

(** ** What the bot says *)

Definition welcome : string := nl ++ "🎉 <b>Welcome to Shahcoin Premium!</b>".
Definition goodbye : string := nl ++ "✅ <b>Subscription Cancelled</b>".
Definition assistant : string := nl ++ "🧠 <b>AI Wallet Assistant</b>".
Definition analysis : string := nl ++ "📈 <b>AI Portfolio Analysis</b>".
Definition advice : string := nl ++ "🎊 <b>Premium Tips & Tricks:</b>".

(** A message to the user that opens with the text. *)
Definition headed (h : string) (e : event) : bool :=
  mem_string (ev_op e) ["ctx.reply"; "ctx.editMessageText"] && match ev_args e with VStr text :: _ => startsWith text h | _ => false end.

(** The server has just accepted a purchase, accepted a cancellation, or
    named an active subscription. *)
Definition accepted (before : trace) : Prop :=
  exists day result resp url opts rest,
    before = Ev "Date.toLocaleDateString" [get_opt result "expirationDate"] (Ok day) :: Ev "Response.json" [resp] (Ok result) ::
             Ev "fetch" [VStr (url ++ "/premium/purchase"); opts] (Ok resp) :: rest
    /\ truthy (get_opt resp "ok") = true /\ truthy (get_opt result "success") = true.
Definition released (before : trace) : Prop :=
  exists resp url opts rest, before = Ev "fetch" [VStr (url ++ "/premium/cancel"); opts] (Ok resp) :: rest /\ truthy (get_opt resp "ok") = true.
Definition subscribed (before : trace) : Prop :=
  exists data resp url opts rest,
    before = Ev "Response.json" [resp] (Ok data) :: Ev "fetch" [VStr url; opts] (Ok resp) :: rest
    /\ truthy (get_opt resp "ok") = true /\ truthy (get_opt data "isActive") = true.

(** It held a few events ago. *)
Fixpoint within (n : nat) (P : trace -> Prop) (before : trace) : Prop :=
  P before \/ match n, before with S n, _ :: before => within n P before | _, _ => False end.

Definition justified (e : event) (before : trace) : Prop :=
  (headed welcome e = true -> accepted before) /\
  (headed goodbye e = true -> released before) /\
  (headed assistant e = true -> subscribed before) /\
  (headed analysis e = true -> within 3 subscribed before).

Fixpoint truthful (t : trace) : Prop := match t with [] => True | e :: before => justified e before /\ truthful before end.

Definition welcomed (e : event) : bool := headed welcome e && match ev_res e with Ok _ => true | Throw _ => false end.
Definition count (p : event -> bool) (t : trace) : nat := List.length (filter p t).

(** ** Facts *)

(** An event that says nothing of this kind and neither starts nor stops the bot. *)
Definition quiet (e : event) : bool :=
  negb (mem_string (ev_op e) ["bot.launch"; "bot.stop"]) && forallb (fun h => negb (headed h e)) [welcome; goodbye; assistant; analysis; advice].

(** The accounts of the messages, for given numbers of starts and stops. *)
Definition accounts (starts stops : nat) (b : bot) (t : trace) : Prop :=
  truthful t /\ (count (headed advice) t + tips b = count welcomed t)%nat /\ calls "bot.launch" t = starts /\ calls "bot.stop" t = stops.

Lemma count_cons p e t : count p (e :: t) = ((if p e then 1 else 0) + count p t)%nat.
Proof. unfold count. cbn [filter]. destruct (p e); reflexivity. Qed.

(** The kinds of messages exclude each other and say nothing else. *)
Lemma heads_apart h h' e : In h [welcome; goodbye; assistant; analysis; advice] -> In h' [welcome; goodbye; assistant; analysis; advice] ->
  headed h e = true -> h' <> h -> headed h' e = false.
Proof.
  intros I I' K D. unfold headed in *. apply andb_prop in K as [K1 K2]. rewrite K1. cbn [andb]. destruct (ev_args e) as [|[]]; try reflexivity.
  unfold startsWith in *. apply prefix_spec in K2. destruct K2 as [tail ->].
  cbn [In] in I, I'. repeat (destruct I as [<-|I]; [|try contradiction]); repeat (destruct I' as [<-|I']; [first [congruence|reflexivity]|try contradiction]).
Qed.

Lemma accounts_event n m e b b' t :
  mem_string (ev_op e) ["bot.launch"; "bot.stop"] = false -> justified e t ->
  ((if headed advice e then 1 else 0) + tips b' = (if welcomed e then 1 else 0) + tips b)%nat ->
  accounts n m b t -> accounts n m b' (e :: t).
Proof.
  intros M J C (T & K & L & P). cbn [mem_string existsb] in M. apply orb_false_iff in M as [M1 M]. apply orb_false_iff in M as [M2 _].
  unfold accounts. rewrite !count_cons, !calls_cons, M1, M2. cbn [truthful]. split; [auto|]. split; [lia|]. split; [exact L|exact P].
Qed.

Lemma accounts_quiet n m e b t : quiet e = true -> accounts n m b t -> accounts n m b (e :: t).
Proof.
  intros Q A. apply andb_prop in Q as [Q1 Q2]. apply negb_true_iff in Q1. cbn [forallb] in Q2.
  rewrite !andb_true_iff, !negb_true_iff in Q2. destruct Q2 as (W & G & S & N & D & _).
  apply (accounts_event n m e b b t Q1); [|rewrite D; unfold welcomed; rewrite W; reflexivity|exact A].
  unfold justified. rewrite W, G, S, N. split; [discriminate|]. split; [discriminate|]. split; discriminate.
Qed.

(** A message that is justified as the one it opens as. *)
Lemma justified_as h e before : In h [welcome; goodbye; assistant; analysis; advice] -> headed h e = true ->
  (h = welcome -> accepted before) -> (h = goodbye -> released before) -> (h = assistant -> subscribed before) ->
  (h = analysis -> within 3 subscribed before) -> justified e before.
Proof.
  intros I K W G S N. unfold justified.
  assert (forall h', In h' [welcome; goodbye; assistant; analysis; advice] -> headed h' e = true -> h = h') as D.
  { intros h' I' K'. destruct (string_dec h' h) as [|D]; [congruence|]. rewrite (heads_apart h h' e I I' K D) in K'. discriminate. }
  split; [|split; [|split]]; intros K'; [apply W|apply G|apply S|apply N]; apply D; cbn; auto 6.
Qed.

Section Handlers.
Context `{Env} (starts stops : nat).
Notation J := (accounts starts stops).

(** Every event of the list is quiet. *)
Ltac hush := cbn beta; repeat (apply accounts_quiet; [reflexivity|]); try assumption.

(** What a condition on a property that was read says of it. *)
Ltac known := first [reflexivity | assumption | (erewrite get_opt_ok by eassumption; assumption)].

Lemma purchase_accounts userId plan method : preserves J (processPurchase userId plan method).
Proof using Type.
  intros b t A. unfold processPurchase, getWalletAddress, answerCbQuery, authorized, getUserToken, localDate, editMessageText.
  wp_auto; try discriminate; hush;
    (eapply accounts_event; [reflexivity| |reflexivity|hush; exact A]);
    (apply (justified_as welcome); [left; reflexivity|reflexivity|intros _|discriminate..]);
    do 6 eexists; (split; [reflexivity|split; known]).
Qed.

Lemma cancel_accounts userId : preserves J (cancelSubscription userId).
Proof using Type.
  intros b t A. unfold cancelSubscription, authorized, getUserToken, editMessageText, answerCbQuery. wp_auto; hush;
    (eapply accounts_event; [reflexivity| |reflexivity|hush; exact A]);
    (apply (justified_as goodbye); [right; left; reflexivity|reflexivity|discriminate|intros _|discriminate..]);
    do 4 eexists; (split; [reflexivity|known]).
Qed.

(** The gate: what is shown behind it may count on the subscription. *)
Lemma gate_accounts userId feature show :
  (forall b t, J b t -> subscribed t -> wp show (fun _ => J) (fun _ => J) b t) -> preserves J (gate userId feature show).
Proof using Type.
  intros S b t A. unfold gate, checkFeatureAccess, getSubscriptionData, authorized, getUserToken, showFeatureGate, ctx_reply. wp_auto; try discriminate; hush.
  apply S; [hush|]. do 5 eexists. split; [reflexivity|split; known].
Qed.

Lemma assistant_accounts b t : J b t -> subscribed t -> wp showAIAssistant (fun _ => J) (fun _ => J) b t.
Proof using Type.
  intros A S. unfold showAIAssistant, ctx_reply. wp_auto;
    (eapply accounts_event; [reflexivity| |reflexivity|exact A]);
    (apply (justified_as assistant); [cbn; auto|reflexivity|discriminate|discriminate|intros _; exact S|discriminate]).
Qed.

Lemma analysis_accounts userId b t : J b t -> subscribed t -> wp (showPortfolioAnalysis userId) (fun _ => J) (fun _ => J) b t.
Proof using Type.
  intros A S. unfold showPortfolioAnalysis, getPortfolioData, authorized, getUserToken, ctx_reply. wp_auto; hush;
    (eapply accounts_event; [reflexivity| |reflexivity|hush; exact A]);
    (apply (justified_as analysis); [cbn; auto|reflexivity|discriminate..|intros _]);
    cbn [within]; tauto.
Qed.

Lemma status_accounts date userId : preserves J (showPremiumStatus date userId).
Proof using Type.
  intros b t A. unfold showPremiumStatus, getSubscriptionData, status_active, authorized, getUserToken, localDate, editMessageText. wp_auto; hush.
Qed.

Lemma management_accounts userId : preserves J (showSubscriptionManagement userId).
Proof using Type.
  intros b t A. unfold showSubscriptionManagement, getSubscriptionData, authorized, getUserToken, localDate, editMessageText, answerCbQuery.
  wp_auto; hush.
Qed.

Lemma missing_accounts method : preserves J (missing method).
Proof using Type. intros b t A. unfold missing. wp_auto. exact A. Qed.

Lemma plain_accounts plan userId : preserves J (showUpgradeOptions) /\ preserves J (initiatePurchase plan) /\ preserves J confirmCancellation /\ preserves J (openWebApp userId).
Proof using Type.
  split; [|split; [|split]]; intros b t A; unfold showUpgradeOptions, initiatePurchase, confirmCancellation, openWebApp, editMessageText, ctx_reply;
    wp_auto; hush.
Qed.

Lemma command_accounts date name userId m : command date name userId = Some m -> preserves J m.
Proof using Type.
  unfold command. repeat match goal with |- (if ?c then _ else _) = _ -> _ => destruct c end; intros [= <-].
  - apply status_accounts.
  - apply (plain_accounts EmptyString VUndef).
  - apply missing_accounts.
  - apply management_accounts.
  - apply gate_accounts. exact assistant_accounts.
  - apply gate_accounts. exact (analysis_accounts userId).
  - apply gate_accounts. intros b t A _. exact (missing_accounts _ b t A).
Qed.

Lemma action_accounts data userId m : action data userId = Some m -> preserves J m.
Proof using Type.
  unfold action. destruct (after_prefix "upgrade_" data); [intros [= <-]; apply (plain_accounts _ VUndef)|].
  destruct (match after_prefix "payment_" data with Some rest => split_last rest | None => None end) as [[plan method]|]; [intros [= <-]; apply purchase_accounts|].
  destruct (data =? "manage_subscription"); [intros [= <-]; apply management_accounts|].
  destruct (data =? "cancel_subscription"); [intros [= <-]; apply (plain_accounts EmptyString VUndef)|].
  destruct (data =? "confirm_cancel"); [intros [= <-]; apply cancel_accounts|].
  destruct (after_prefix "feature_" data); [intros [= <-]; apply gate_accounts; intros b t A _; exact (missing_accounts _ b t A)|].
  destruct (data =? "open_webapp"); [intros [= <-]; apply (plain_accounts EmptyString userId)|discriminate].
Qed.

Lemma tips_accounts b t : (0 < tips b)%nat -> J b t -> wp sendTips (fun _ => J) (fun _ => J) b t.
Proof using Type.
  intros T A. unfold sendTips. wp_auto;
    (eapply accounts_event; [reflexivity| | |exact A]);
    [apply (justified_as advice); [cbn; auto 6|reflexivity|discriminate..]|cbn; lia
    |apply (justified_as advice); [cbn; auto 6|reflexivity|discriminate..]|cbn; lia].
Qed.

End Handlers.

(** ** Theorems *)

(** Signals that are awaited: two for each start, less one stop for each
    that came. *)
Definition steady (r : running) (t : trace) : Prop :=
  exists starts stops, accounts starts stops (inner r) t /\ (stops + List.length (hooks r) = 2 * starts)%nat.

Lemma inner_steady `{Env} (m : JS bot unit) r t :
  (forall starts stops, accounts starts stops (inner r) t -> wp m (fun _ => accounts starts stops) (fun _ => accounts starts stops) (inner r) t) ->
  steady r t -> wp (zoom inner set_inner m) (fun _ => steady) (fun _ => steady) r t.
Proof.
  intros M (n & k & A & E). apply wp_zoom. eapply wp_mono; [..|exact (M n k A)]; cbn beta; intros ? b' t' A'; exists n, k; auto.
Qed.

Lemma stops_steady `{Env} n k (l : list string) : forall r t,
  accounts n k (inner r) t -> (k + List.length l + List.length (hooks r) = 2 * n)%nat ->
  wp (for_each l (fun h => try_catch (ext "bot.stop" [VStr h] ;;; ret tt) (fun _ => ret tt))) (fun _ => steady) (fun _ => steady) r t.
Proof.
  revert k. induction l as [|h l IH]; intros k r t A E; cbn [for_each].
  - apply wp_ret. exists n, k. cbn in E. split; [exact A|lia].
  - assert (forall x, accounts n (S k) (inner r) (Ev "bot.stop" [VStr h] x :: t)) as A'.
    { intros x. destruct A as (T & C & L & P). unfold accounts. rewrite !count_cons, !calls_cons. cbn -[count calls justified].
      split; [split; [|exact T]|split; [exact C|split; [exact L|lia]]].
      split; [discriminate|]. split; [discriminate|]. split; discriminate. }
    cbn [List.length] in E. wp_auto; (apply (IH (S k)); [apply A'|lia]).
Qed.

Lemma filter_split {A} (p : A -> bool) l : (List.length (filter p l) + List.length (filter (fun x => negb (p x)) l) = List.length l)%nat.
Proof. induction l as [|x l IH]; [reflexivity|]. cbn. destruct (p x); cbn; lia. Qed.

(** C37: the bot says what the server said: along every run of the bot, for
    any users, commands and buttons in any order, the welcome follows a
    purchase the server has just accepted, the farewell a cancellation it has
    just accepted, and the assistant and the analysis are shown right after
    an answer that names an active subscription; every welcome that arrived
    is followed by one message of advice, sent or still due; and every start
    of the bot is matched by two signals it awaits or has obeyed. *)
Theorem telegram_bot_truthful `{Env} date apiBaseUrl r t :
  steps (machine_step (run date) enabled) (started apiBaseUrl, []) (r, t) ->
  truthful t /\ (count (headed advice) t + tips (inner r) = count welcomed t)%nat
  /\ (calls "bot.stop" t + List.length (hooks r) = 2 * calls "bot.launch" t)%nat.
Proof.
  intros St. enough (steady r t) as (n & k & (T & C & L & P) & E) by (rewrite L, P; auto).
  refine (machine_invariant _ _ steady _ _ _ _ _ St _); [|exists 0%nat, 0%nat; split; [repeat split|reflexivity]].
  clear. intros o r t En S. destruct o as [|name userId|data userId| |signal]; cbn [run enabled] in *.
  - destruct S as (n & k & (T & C & L & P) & E). unfold launch.
    wp_auto; exists (Datatypes.S n), k; unfold accounts; rewrite !count_cons, !calls_cons; cbn -[count calls justified];
      rewrite length_app; cbn [List.length];
      (split; [split; [split; [|exact T]|split; [exact C|split; [lia|exact P]]]|lia]);
      (split; [discriminate|]; split; [discriminate|]; split; discriminate).
  - unfold served. destruct (command date name userId) as [m|] eqn:M; [|exact S].
    apply inner_steady; [|exact S]. intros n k. exact (command_accounts n k date name userId m M (inner r) t).
  - unfold served. destruct (action data userId) as [m|] eqn:M; [|exact S].
    apply inner_steady; [|exact S]. intros n k. exact (action_accounts n k data userId m M (inner r) t).
  - apply inner_steady; [|exact S]. intros n k. exact (tips_accounts n k (inner r) t En).
  - destruct S as (n & k & A & E). unfold onSignal. apply wp_bind, wp_read, wp_bind, wp_modify.
    apply (stops_steady n k); [exact A|]. cbn [hooks]. pose proof (filter_split (fun h => h =? signal) (hooks r)). lia.
Qed.

(** A server that accepts everything, and a chat that may refuse the welcome. *)
Definition agreeable (refuse : bool) : Env := {|
  reply _ op args :=
    if op =? "fetch" then Ok (VObj [("ok", VBool true)])
    else if op =? "Response.json" then Ok (VObj [("success", VBool true); ("isActive", VBool true); ("planName", VStr "Yearly Premium")])
    else if refuse && headed welcome (Ev op args (Ok VUndef)) then Throw (Error "Too Many Requests: retry after 3")
    else Ok VUndef;
  clock _ := Num.of_Z 1700000000000; random _ := Num.zero |}.

Definition no_date (v : jsval) : num := Num.of_Z 1800000000000.
Definition a_day : list op :=
  [Launch; Pressed "payment_yearly_stripe" (vnum 7); Said "ai" (vnum 7); Due; Pressed "confirm_cancel" (vnum 7); Signalled "SIGTERM"].
Definition day_end (refuse : bool) : running * trace := play (run (H := agreeable refuse) no_date) a_day (started "https://api.shah.vip", []).

Lemma telegram_bot_truthful_witness :
  steps (machine_step (run (H := agreeable false) no_date) enabled) (started "https://api.shah.vip", []) (fst (day_end false), snd (day_end false)) /\
  truthful (snd (day_end false)) /\ map (fun h => count (headed h) (snd (day_end false))) [welcome; assistant; advice; goodbye] = [1; 1; 1; 1]%nat /\
  hooks (fst (day_end false)) = ["SIGINT"].
Proof.
  assert (steps (machine_step (run (H := agreeable false) no_date) enabled) (started "https://api.shah.vip", []) (fst (day_end false), snd (day_end false))) as St.
  { rewrite <- surjective_pairing. apply play_steps. vm_compute. intuition (reflexivity || lia). }
  split; [exact St|]. split; [exact (proj1 (telegram_bot_truthful (H := agreeable false) _ _ _ _ St))|]. split; vm_compute; reflexivity.
Defined.

(** A payment that was taken is called failed: when the chat does not take
    the welcome, the user reads that the payment failed and is offered to try
    again, although the server has accepted the purchase. *)
Theorem telegram_paid_called_failed :
  let x := play (run (H := agreeable true) no_date) (firstn 2 a_day) (started "https://api.shah.vip", []) in
  playable (run (H := agreeable true) no_date) enabled (firstn 2 a_day) (started "https://api.shah.vip", []) /\
  exists e last, snd x = last :: e :: skipn 2 (snd x) /\ accepted (skipn 2 (snd x)) /\ headed (nl ++ "❌ <b>Payment Failed</b>") last = true /\
    nth_error (ev_args last) 1 = Some (html (retry_keyboard "yearly")).
Proof.
  split; [vm_compute; intuition (reflexivity || lia)|]. do 2 eexists. split; [vm_compute; reflexivity|]. split; [|split; reflexivity].
  exists VUndef, (VObj [("success", VBool true); ("isActive", VBool true); ("planName", VStr "Yearly Premium")]), (VObj [("ok", VBool true)]), "https://api.shah.vip".
  do 2 eexists. split; [vm_compute; reflexivity|split; reflexivity].
Qed.
