(* ===== verification/DevTools.v ===== *)
(** * Developer tools

    The helper classes of src/sdk-core: [MetadataExplorerAPI]
    (metadata-explorer-apis), [VaultDeployTool] (vault-deploy-tool),
    [DevAnalytics] (developer-analytics), [SandboxWallet] and
    [TransactionSandbox] (transaction-sandbox).

    The explorer keeps the objects it is given a copy of and returns them by
    reference, as the metadata storage does; transactions of the sandbox are
    shared between the history and the caller, so they live in a heap.  Where
    an [async] method waits, the part after the wait is an operation of its
    own. *)

From Stdlib Require Import ZArith Bool Lia List String.
From S2P Require Import Prelude JsNum JsVal JsJson JsJsonText JsMonad Machine Metadata.
Import ListNotations.
Local Open Scope string_scope.

(** A field of a parameter pattern [{ k, ... }]. *)
Definition parameter (v : jsval) (k : string) : result jsval :=
  destructure_of (match v with VNull => "object null" | _ => "undefined" end) v k.

Module MetadataExplorerAPI.
Section Methods.
Context `{Env}.
Notation JS := (JS store).

(** [InMemoryStore.set] of a new object. *)
Definition set (addr : jsval) (value : list (string * jsval)) : JS unit :=
  let* a := lift (as_string "addr" "toLowerCase" addr) in modify (put_fresh (toLowerCase a) value).

(** [InMemoryStore.get], by reference. *)
Definition get_entry (addr : jsval) : JS (option nat) :=
  let* a := lift (as_string "addr" "toLowerCase" addr) in read (fun s => assoc String.eqb (toLowerCase a) (storage s)).

Definition storeMetadata (contractAddress metadata : jsval) : JS jsval :=
  let* _ := lift (validateMetadata metadata) in
  let* storedAt := iso_now in
  let* lastAccessed := iso_now in
  set contractAddress (obj_set "lastAccessed" lastAccessed (obj_set "storedAt" storedAt (spread_props metadata))) ;;;
  ret (VObj [("ok", VBool true)]).

Definition getMetadata (contractAddress : jsval) : JS (option nat) :=
  let* data := get_entry contractAddress in
  match data with
  | None => ret None
  | Some r =>
      let* lastAccessed := iso_now in
      modify (set_field r "lastAccessed" lastAccessed) ;;; ret (Some r)
  end.

(** [this.store.all().filter(...)]: addresses with the stored objects. *)
Definition listByType (type : jsval) : JS (list (string * nat)) :=
  read (fun s => filter (fun '(_, r) => strict_eq (obj_get (deref s r) "type") type) (storage s)).

Definition name_includes (q : string) (o : list (string * jsval)) : bool :=
  includes (toLowerCase (to_str (js_or (obj_get o "name") (VStr EmptyString)))) q.

Definition searchByName (query : jsval) : JS (list (string * nat)) :=
  let q := toLowerCase (to_str (js_or query (VStr EmptyString))) in
  read (fun s => filter (fun '(_, r) => name_includes q (deref s r)) (storage s)).

End Methods.
End MetadataExplorerAPI.

Module VaultDeployTool.

(** The [Map] of bundles; a bundle is stored under its name. *)
Definition t : Type := list (jsval * jsval).

Section Methods.
Context `{Env}.
Notation JS := (JS t).

Definition bundle_of (name contractSource metadata assets createdAt : jsval) : jsval :=
  VObj [("name", name); ("metadata", metadata);
        ("contract", VObj [("language", VStr "solidity"); ("source", contractSource)]);
        ("assets", assets); ("createdAt", createdAt); ("version", VStr "1.0.0")].

Definition createBundle (arg : jsval) : JS jsval :=
  let* name := lift (parameter arg "name") in
  if negb (truthy name) then throw (Error "Bundle name required")
  else
    let* createdAt := iso_now in
    let bundle := bundle_of name (get_opt arg "contractSource") (get_opt arg "metadata") (default (get_opt arg "assets") (VObj [])) createdAt in
    modify (assoc_set strict_eq name bundle) ;;; ret bundle.

(** [JSON.stringify(b, null, 2)]. *)
Definition exportAsJson (name : jsval) : JS jsval :=
  let* b := read (assoc strict_eq name) in
  match b with
  | None => throw (Error "Bundle not found")
  | Some b => ret (match json_gap "  " EmptyString b with Some text => VStr text | None => VUndef end)
  end.

Definition listBundles : JS (list jsval) := read (map fst).

End Methods.
End VaultDeployTool.

Module DevAnalytics.

Record t : Type := T { buffer : list jsval; flushIntervalMs : jsval; endpoint : jsval; timer : bool }.

Definition set_buffer (b : list jsval) (s : t) : t := T b (flushIntervalMs s) (endpoint s) (timer s).
Definition set_timer (b : bool) (s : t) : t := T (buffer s) (flushIntervalMs s) (endpoint s) b.

Definition constructor (options : jsval) : result t :=
  let options := default options (VObj []) in
  res_bind (get options "flushInterval") (fun flushInterval =>
  Ok (T [] (js_or flushInterval (vnum 5000)) (js_or (get_opt options "endpoint") VNull) true)).

Section Methods.
Context `{Env}.
Notation JS := (JS t).

Definition entry (eventName payload : jsval) (ts : num) : jsval :=
  VObj [("event", eventName); ("payload", payload); ("ts", VNum ts)].

Definition track (eventName payload : jsval) : JS unit :=
  let* ts := now in
  modify (fun s => set_buffer (buffer s ++ [entry eventName (default payload (VObj [])) ts]) s).

Definition trackTokenCreation (details : jsval) : JS unit := track (VStr "token_creation") details.
Definition trackNftCreation (details : jsval) : JS unit := track (VStr "nft_creation") details.
Definition trackFeePaid (details : jsval) : JS unit := track (VStr "fee_paid") details.
Definition trackDeploy (details : jsval) : JS unit := track (VStr "deploy") details.

Definition sent (n : nat) : jsval := VObj [("ok", VBool true); ("sent", vnum (Z.of_nat n))].

Definition post_options (batch : list jsval) : jsval :=
  VObj [("method", VStr "POST"); ("headers", VObj [("content-type", VStr "application/json")]); ("body", stringify (VArr batch))].

Definition flush : JS jsval :=
  let* batch := read buffer in
  match batch with
  | [] => ret (sent 0)
  | _ =>
      modify (set_buffer []) ;;;
      let* url := read endpoint in
      if negb (truthy url) then ret (sent (List.length batch))
      else fetch [url; post_options batch] ;;; ret (sent (List.length batch))
  end.

(** The callback of the interval. *)
Definition onInterval : JS unit := try_catch (flush ;;; ret tt) (fun _ => ret tt).

Definition dispose : JS unit := modify (set_timer false).

End Methods.
End DevAnalytics.

Module TransactionSandbox.

Record wallet : Type := Wallet { privateKey : string; address : string; balanceShah : Z }.

(** Transactions by reference; [pending]: the broadcasts that wait. *)
Record t : Type := T { txs : list (list (string * jsval)); txHistory : list nat; pending : list nat }.

Definition t0 : t := T [] [] [].

Definition tx (s : t) (r : nat) : list (string * jsval) := nth r (txs s) [].
Definition set_tx (r : nat) (k : string) (v : jsval) (s : t) : t :=
  T (set_nth r (obj_set k v (tx s r)) (txs s)) (txHistory s) (pending s).
Definition set_pending (p : list nat) (s : t) : t := T (txs s) (txHistory s) p.

Fixpoint remove_one (r : nat) (l : list nat) : list nat :=
  match l with [] => [] | x :: l' => if (x =? r)%nat then l' else x :: remove_one r l' end.

Section Methods.
Context `{Env}.

(** [crypto.randomBytes(n).toString('hex')]. *)
Definition random_hex {S} (n : Z) : JsMonad.JS S string :=
  let* v := ext "crypto.randomBytes.hex" [vnum n] in ret (to_str v).

Definition new_wallet {S} : JsMonad.JS S wallet :=
  let* key := random_hex 32 in
  let* a := random_hex 20 in
  ret (Wallet key ("S" ++ a) 1000).

Definition signMessage {S} (w : wallet) (message : jsval) : JsMonad.JS S jsval :=
  ext "crypto.createHmac.digest" [VStr "sha256"; VStr (privateKey w); message].

Notation JS := (JS t).

Definition createMockTx (arg : jsval) : JS nat :=
  let* from := lift (parameter arg "from") in
  let amountShah := get_opt arg "amountShah" in
  if js_le amountShah (vnum 0) then throw (Error "Invalid amount")
  else
    let* id := random_hex 8 in
    let* createdAt := iso_now in
    let* s := read (fun s => s) in
    modify (fun s => T (txs s ++ [[("id", VStr ("tx_" ++ id)); ("from", from); ("to", get_opt arg "to"); ("amountShah", amountShah);
                                   ("memo", js_or (get_opt arg "memo") (VStr EmptyString)); ("feeShah", VNum (Num.dec 1 3));
                                   ("status", VStr "created"); ("createdAt", createdAt)]])
                       (txHistory s ++ [List.length (txs s)]) (pending s)) ;;;
    ret (List.length (txs s)).

(** Until the wait of 200 ms. *)
Definition simulateBroadcast (r : nat) : JS unit :=
  modify (set_tx r "status" (VStr "broadcast")) ;;;
  let* at_ := iso_now in
  modify (set_tx r "broadcastAt" at_) ;;;
  modify (fun s => set_pending (pending s ++ [r]) s).

(** After it; the promise of the broadcast resolves with the transaction. *)
Definition onBroadcast (r : nat) : JS unit :=
  modify (fun s => set_pending (remove_one r (pending s)) s) ;;;
  modify (set_tx r "status" (VStr "confirmed")) ;;;
  let* at_ := iso_now in
  modify (set_tx r "confirmedAt" at_).

Definition listTx : JS (list nat) := read (fun s => rev (txHistory s)).

End Methods.
End TransactionSandbox.

(** ** Facts *)

Lemma assoc_set_found {K V} (eqk : K -> K -> bool) k (v : V) l : eqk k k = true -> assoc eqk k (assoc_set eqk k v l) = Some v.
Proof.
  intros R. induction l as [|[k' v'] l IH]; cbn; [rewrite R; reflexivity|]. destruct (eqk k k') eqn:E; cbn; rewrite E; auto.
Qed.

Lemma assoc_pair (k : string) (v : nat) l : assoc String.eqb k l = Some v -> In (k, v) l.
Proof.
  induction l as [|[k' v'] l IH]; cbn; [discriminate|]. destruct (String.eqb_spec k k') as [->|_]; [intros [= ->]; auto|auto].
Qed.

Lemma assoc_key {V} (k : jsval) (v : V) l n : k = VStr n -> assoc strict_eq k l = Some v -> In k (map fst l).
Proof.
  intros ->. induction l as [|[k' v'] l IH]; cbn; [discriminate|]. destruct k' as [| | | |m| | |]; auto.
  destruct (String.eqb_spec n m) as [->|_]; auto.
Qed.

(** *** Metadata *)

(** What the schema accepts has a name and a type that is a text. *)
Lemma validated_fields o b :
  validateMetadata (VObj o) = Ok b -> truthy (obj_get o "name") = true /\ exists ty, obj_get o "type" = VStr ty.
Proof.
  intros Hv. assert (b = true) as ->.
  { revert Hv. unfold validateMetadata. destruct (props_ok _) as [[|]|]; cbn [res_bind]; try discriminate. repeat case_goal; congruence. }
  apply validated_described in Hv. destruct Hv as (o' & [= <-] & D). unfold described in D. rewrite !andb_true_iff in D.
  destruct D as [[[_ D] N] _]. split; [exact N|]. apply existsb_exists in D. destruct D as (st & _ & D). unfold is_str in D.
  destruct (obj_get o "type") as [| | | |ty| | |]; try discriminate D. exists ty. reflexivity.
Qed.

(** *** Analytics *)

Module AnalyticsFacts.
Import DevAnalytics.

Inductive op : Type := Track (eventName payload : jsval) | Flush | Interval | Dispose.

Section Runs.
Context `{Env}.

(** The interval fires while it has not been cleared. *)
Definition run (o : op) : JS DevAnalytics.t unit :=
  match o with
  | Track e p => track e p
  | Flush => flush ;;; ret tt
  | Interval => let* on := read timer in if on then onInterval else ret tt
  | Dispose => dispose
  end.

(** A client that goes on after a failed flush. *)
Definition session (ops : list op) : JS DevAnalytics.t unit := for_each ops (fun o => try_catch (run o) (fun _ => ret tt)).

Definition tracked (ops : list op) : list jsval := flat_map (fun o => match o with Track e _ => [e] | _ => [] end) ops.
Lemma tracked_cons o ops : tracked (o :: ops) = (tracked [o] ++ tracked ops)%list.
Proof using Type. unfold tracked. cbn [flat_map]. rewrite app_nil_r. reflexivity. Qed.

Definition event_name (v : jsval) : jsval := get_opt v "event".

(** The options of the requests made, latest first. *)
Definition posts (t : trace) : list jsval :=
  flat_map (fun e => if ev_op e =? "fetch" then [nth 1 (ev_args e) VUndef] else []) t.

(** What one operation does: it may track an event or post a batch, which
    then is the whole buffer. *)
Definition does (o : op) (s : DevAnalytics.t) (t : trace) (s' : DevAnalytics.t) (t' : trace) : Prop :=
  endpoint s' = endpoint s /\
  ((posts t' = posts t /\ map event_name (buffer s') = (map event_name (buffer s) ++ tracked [o])%list) \/
   (buffer s <> [] /\ tracked [o] = [] /\ buffer s' = [] /\ posts t' = post_options (buffer s) :: posts t)).

Lemma flush_does o s t :
  tracked [o] = [] -> truthy (endpoint s) = true -> wp flush (fun _ s' t' => does o s t s' t') (fun _ s' t' => does o s t s' t') s t.
Proof.
  intros T E. unfold flush. do 2 wp_step. destruct (buffer s) as [|x b] eqn:B.
  - wp_step. split; [reflexivity|]. left. rewrite B, T, app_nil_r. auto.
  - do 4 wp_step. cbn [set_buffer endpoint]. rewrite E. cbn [negb].
    wp_auto; (split; [reflexivity|]); right; rewrite B, T; repeat split; congruence || discriminate.
Qed.

Lemma run_does o s t : truthy (endpoint s) = true -> wp (run o) (fun _ s' t' => does o s t s' t') (fun _ s' t' => does o s t s' t') s t.
Proof.
  intros E. destruct o; cbn [run].
  - unfold track. wp_auto. split; [reflexivity|]. left. cbn [set_buffer buffer]. rewrite map_app. split; reflexivity.
  - apply wp_bind. eapply wp_mono; [..|apply (flush_does Flush); [reflexivity|exact E]]; cbn beta; intros; [wp_step|]; assumption.
  - do 2 wp_step. destruct (timer s); [|wp_step; split; [reflexivity|]; left; cbn; rewrite app_nil_r; auto].
    unfold onInterval. apply wp_try_catch, wp_bind.
    eapply wp_mono; [..|apply (flush_does Interval); [reflexivity|exact E]]; cbn beta; intros; wp_step; assumption.
  - unfold dispose. wp_step. split; [reflexivity|]. left. cbn. rewrite app_nil_r. auto.
Qed.

Lemma session_conserves ops s t :
  truthy (endpoint s) = true ->
  wp (session ops)
    (fun _ s' t' => exists batches, posts t' = (rev (map post_options batches) ++ posts t)%list /\ Forall (fun b => b <> []) batches /\
       map event_name (List.concat batches ++ buffer s')%list = (map event_name (buffer s) ++ tracked ops)%list)
    (fun _ _ _ => False) s t.
Proof.
  revert s t. unfold session. induction ops as [|o ops IH]; intros s t E; cbn [for_each].
  - wp_step. exists []. cbn. rewrite app_nil_r. auto.
  - apply wp_bind, wp_try_catch.
    assert (forall s' t', does o s t s' t' -> wp (for_each ops (fun o => try_catch (run o) (fun _ => ret tt)))
      (fun _ s' t' => exists batches, posts t' = (rev (map post_options batches) ++ posts t)%list /\ Forall (fun b => b <> []) batches /\
        map event_name (List.concat batches ++ buffer s')%list = (map event_name (buffer s) ++ tracked (o :: ops))%list) (fun _ _ _ => False) s' t') as K.
    { intros s' t' (Ee & D). rewrite <- Ee in E. eapply wp_mono; [..|exact (IH s' t' E)]; cbn beta; [|tauto].
      intros _ s2 t2 (bs & P & N & M). rewrite tracked_cons. destruct D as [[D1 D2]|(D1 & D2 & D3 & D4)].
      - exists bs. rewrite P, D1, M, D2, app_assoc. auto.
      - exists (buffer s :: bs). cbn [map rev List.concat]. rewrite P, D4, <- !app_assoc. cbn [app]. repeat split; [constructor; assumption|].
        rewrite map_app, M, D3, D2. reflexivity. }
    eapply wp_mono; [..|exact (run_does o s t E)]; cbn beta; intros; [|wp_step]; apply K; assumption.
Qed.

End Runs.
End AnalyticsFacts.

(** *** Transactions *)

Module SandboxFacts.
Import TransactionSandbox.

Inductive op : Type := Create (arg : jsval) | Broadcast (r : nat) | Fire (r : nat).

Definition run `{Env} (o : op) : JS TransactionSandbox.t unit :=
  match o with
  | Create arg => createMockTx arg ;;; ret tt
  | Broadcast r => simulateBroadcast r
  | Fire r => onBroadcast r
  end.

(** A client broadcasts transactions it was given; a wait ends once. *)
Definition enabled (o : op) (s : TransactionSandbox.t) : Prop :=
  match o with Create _ => True | Broadcast r => r < List.length (txs s) | Fire r => In r (pending s) end.

Definition status (o : list (string * jsval)) : jsval := obj_get o "status".

(** A transaction, [waiting] while one of its broadcasts is pending. *)
Definition tx_ok (waiting : Prop) (o : list (string * jsval)) : Prop :=
  js_le (obj_get o "amountShah") (vnum 0) = false /\
  ((status o = VStr "created" /\ ~ waiting /\ obj_get o "broadcastAt" = VUndef) \/
   (status o = VStr "broadcast" /\ waiting) \/ status o = VStr "confirmed").

Definition wf (s : TransactionSandbox.t) : Prop :=
  txHistory s = seq 0 (List.length (txs s)) /\ Forall (fun r => r < List.length (txs s)) (pending s) /\
  forall r, r < List.length (txs s) -> tx_ok (In r (pending s)) (tx s r).

Lemma tx_ok_iff (P Q : Prop) o : (P <-> Q) -> tx_ok P o -> tx_ok Q o.
Proof. intros E. unfold tx_ok. tauto. Qed.

Lemma tx_set_same r k v s : r < List.length (txs s) -> tx (set_tx r k v s) r = obj_set k v (tx s r).
Proof. intros L. unfold tx at 1, set_tx. cbn [txs]. apply nth_set_same, L. Qed.
Lemma tx_set_other r r' k v s : r <> r' -> tx (set_tx r k v s) r' = tx s r'.
Proof. intros N. unfold tx at 1, set_tx. cbn [txs]. apply nth_set_other, N. Qed.
Lemma txs_set r k v s : List.length (txs (set_tx r k v s)) = List.length (txs s).
Proof. apply set_nth_length. Qed.

Lemma in_remove_one r r' l : r <> r' -> In r' (remove_one r l) <-> In r' l.
Proof.
  intros N. induction l as [|x l IH]; cbn; [tauto|]. destruct (Nat.eqb_spec x r) as [->|_]; cbn; [|rewrite IH; tauto].
  split; [auto|]. intros [E|I]; [congruence|exact I].
Qed.

Lemma remove_one_incl r l x : In x (remove_one r l) -> In x l.
Proof. induction l as [|y l IH]; cbn; [tauto|]. destruct (y =? r)%nat; cbn; tauto. Qed.

(** Two fields of one transaction and the list of waits change. *)
Lemma update_wf r v k x p s :
  wf s -> r < List.length (txs s) -> Forall (fun r => r < List.length (txs s)) p ->
  (forall r', r <> r' -> In r' p <-> In r' (pending s)) -> k <> "status" -> k <> "amountShah" ->
  (v = "broadcast" /\ In r p \/ v = "confirmed") ->
  wf (set_pending p (set_tx r k x (set_tx r "status" (VStr v) s))).
Proof.
  intros (H1 & H2 & H3) L Hp Hin Nk Na Hv. unfold wf. cbn [set_pending txHistory txs pending].
  change (txHistory (set_tx r k x (set_tx r "status" (VStr v) s))) with (txHistory s). rewrite !txs_set.
  split; [exact H1|]. split; [exact Hp|]. intros r' L'. unfold tx_ok, status.
  change (tx (set_pending p ?u) r') with (tx u r'). destruct (Nat.eq_dec r r') as [<-|N].
  - rewrite !tx_set_same by (rewrite ?txs_set; exact L). destruct (H3 r L) as [A _].
    rewrite (obj_get_set_other _ _ _ _ Na), (obj_get_set_other "status" "amountShah") by discriminate.
    split; [exact A|]. rewrite (obj_get_set_other _ _ _ _ Nk), obj_get_set_same.
    destruct Hv as [[-> I] | ->]; auto.
  - rewrite !tx_set_other by exact N. apply (tx_ok_iff (In r' (pending s))); [symmetry; apply Hin, N|apply H3, L'].
Qed.

Lemma created_wf s o : wf s -> tx_ok False o ->
  wf (T (txs s ++ [o]) (txHistory s ++ [List.length (txs s)]) (pending s)).
Proof.
  intros (H1 & H2 & H3) Ho. unfold wf, tx. cbn [txs txHistory pending]. rewrite length_app. cbn [List.length]. split; [|split].
  - rewrite H1, seq_app. reflexivity.
  - eapply Forall_impl; [|exact H2]. cbn beta. intros. lia.
  - intros r L. destruct (Nat.eq_dec r (List.length (txs s))) as [->|N].
    + rewrite app_nth2, Nat.sub_diag by lia. apply (tx_ok_iff False); [|exact Ho]. split; [tauto|]. intros I.
      rewrite Forall_forall in H2. apply H2 in I. lia.
    + rewrite app_nth1 by lia. apply H3. lia.
Qed.

Lemma sandbox_run_wf `{ClockLaws} o s t : enabled o s -> wf s -> wp (run o) (fun _ s' _ => wf s') (fun _ s' _ => wf s') s t.
Proof.
  intros He W. destruct o as [arg|r|r]; cbn [run enabled] in *.
  - unfold createMockTx, random_hex. repeat (wp_step || (apply wp_iso; intros)); try exact W. apply created_wf; [exact W|].
    split; [assumption|]. left. repeat split; tauto.
  - unfold simulateBroadcast. do 3 wp_step. apply wp_iso. intros x t'. do 3 wp_step. pose proof W as (_ & P & _).
    apply (update_wf r "broadcast"); try assumption; try discriminate.
    + apply Forall_app. split; [exact P|constructor; [exact He|constructor]].
    + intros r' N. change (pending (set_tx r "broadcastAt" x (set_tx r "status" (VStr "broadcast") s))) with (pending s).
      rewrite in_app_iff. cbn. intuition congruence.
    + left. split; [reflexivity|]. apply in_or_app. right. left. reflexivity.
  - unfold onBroadcast. do 5 wp_step. apply wp_iso. intros x t'. wp_step. pose proof W as (_ & P & _).
    apply (update_wf r "confirmed" "confirmedAt" x (remove_one r (pending s)) s); try assumption; try discriminate.
    + rewrite Forall_forall in P. auto.
    + rewrite Forall_forall in *. intros y I. apply P. exact (remove_one_incl _ _ _ I).
    + intros r' N. apply in_remove_one, N.
    + right. reflexivity.
Qed.

End SandboxFacts.

(** ** Theorems *)

(** Metadata stored in the explorer is found again: by its address in any
    letter case, under its type, and by exactly the queries its name contains;
    all its fields are kept, the store stays well formed, and metadata that
    the schema refuses leaves the store alone. *)
Theorem explorer_finds_stored `{ClockLaws} a o s t :
  store_wf s ->
  wp (MetadataExplorerAPI.storeMetadata (VStr a) (VObj o))
    (fun _ s' t' => store_wf s' /\ exists r,
       (forall k, k <> "storedAt" -> k <> "lastAccessed" -> obj_get (deref s' r) k = obj_get o k) /\
       (forall a', toLowerCase a' = toLowerCase a ->
          wp (MetadataExplorerAPI.getMetadata (VStr a')) (fun x _ _ => x = Some r) (fun _ _ _ => False) s' t') /\
       wp (MetadataExplorerAPI.listByType (obj_get o "type")) (fun l _ _ => In (toLowerCase a, r) l) (fun _ _ _ => False) s' t' /\
       (forall q, wp (MetadataExplorerAPI.searchByName (VStr q))
          (fun l _ _ => In (toLowerCase a, r) l <->
             includes (toLowerCase (to_str (obj_get o "name"))) (toLowerCase q) = true) (fun _ _ _ => False) s' t'))
    (fun e s' _ => s' = s /\ validateMetadata (VObj o) = Throw e) s t.
Proof.
  intros W. unfold MetadataExplorerAPI.storeMetadata. do 2 wp_step; [|auto]. wp_step. apply wp_iso. intros x t1. wp_step. apply wp_iso. intros y t2.
  unfold MetadataExplorerAPI.set. do 3 wp_step; [|discriminate]. match goal with E : as_string _ _ _ = Ok _ |- _ => injection E as <- end. do 2 wp_step.
  match goal with E : validateMetadata _ = Ok _ |- _ => destruct (validated_fields _ _ E) as [N [ty Ty]]; pose proof (stored_wf _ a x y s _ E W) as W' end.
  split; [exact W'|]. set (o' := obj_set "lastAccessed" y (obj_set "storedAt" x (spread_props (VObj o)))) in *.
  assert (forall k, k <> "storedAt" -> k <> "lastAccessed" -> obj_get o' k = obj_get o k) as F
    by (intros k N1 N2; unfold o'; rewrite !obj_get_set_other by congruence; reflexivity).
  set (s' := put_fresh (toLowerCase a) o' s) in *. assert (assoc String.eqb (toLowerCase a) (storage s') = Some (List.length (heap s))) as A
    by (apply assoc_set_found, String.eqb_refl).
  exists (List.length (heap s)). pose proof (deref_put_fresh (toLowerCase a) o' s) as D. fold s' in D. rewrite D. split; [exact F|]. split; [|split].
  - intros a' Ea. unfold MetadataExplorerAPI.getMetadata, MetadataExplorerAPI.get_entry. do 3 wp_step; [|discriminate].
    match goal with E : as_string _ _ _ = Ok _ |- _ => injection E as <- end. wp_step. rewrite Ea, A.
    wp_step. apply wp_iso. intros z t3. do 3 wp_step. reflexivity.
  - unfold MetadataExplorerAPI.listByType. wp_step. apply filter_In. split; [apply assoc_pair, A|]. rewrite D, F, Ty by discriminate. apply String.eqb_refl.
  - intros q. unfold MetadataExplorerAPI.searchByName. wp_step. rewrite filter_In, D. unfold MetadataExplorerAPI.name_includes. rewrite F by discriminate.
    unfold js_or at 1. rewrite N. replace (to_str (js_or (VStr q) (VStr EmptyString))) with q by (destruct q; reflexivity).
    split; [tauto|]. intros I. split; [apply assoc_pair, A|exact I].
Qed.

Definition steady : Env := {| reply _ _ _ := Ok (VStr "2025-01-01T00:00:00.000Z"); clock _ := Num.zero; random _ := Num.zero |}.
#[export] Instance steady_clock : ClockLaws (H := steady).
Proof. intros t n. eexists. reflexivity. Qed.

Definition sample_metadata : list (string * jsval) :=
  [("standard", VStr "shahcoin.token.standard.v1"); ("type", VStr "SHI-20"); ("name", VStr "Persian Gold"); ("createdBy", VStr "ShahFactory");
   ("verified", VBool true)].

Lemma explorer_finds_stored_witness :
  store_wf store0 /\
  wp (MetadataExplorerAPI.storeMetadata (H := steady) (VStr "0xAB") (VObj sample_metadata))
    (fun _ s' t' => exists r, In ("0xab", r) (storage s') /\
       wp (MetadataExplorerAPI.searchByName (VStr "GOLD")) (fun l _ _ => In ("0xab", r) l) (fun _ _ _ => False) s' t')
    (fun _ _ _ => False) store0 [].
Proof.
  assert (store_wf store0) as W by (repeat split; constructor). split; [exact W|].
  eapply wp_mono; [..|exact (explorer_finds_stored (H := steady) "0xAB" sample_metadata store0 [] W)]; cbn beta.
  - intros _ s' t' (_ & r & _ & _ & L & Q). exists r. split.
    + unfold MetadataExplorerAPI.listByType, read, wp in L. apply filter_In in L. apply L.
    + eapply wp_mono; [..|exact (Q "GOLD")]; cbn beta; [|tauto]. intros l _ _ E. apply E. reflexivity.
  - intros e s' _ [_ E]. vm_compute in E. discriminate.
Defined.

(** The export of a bundle is faithful: parsing the text that
    [exportAsJson] gives for a bundle just created returns the bundle, whatever
    its metadata and assets, as far as they are JSON at all; a bundle that
    cannot be created leaves the tool alone. *)
Theorem vault_export_roundtrip `{Env} arg n s t :
  get_opt arg "name" = VStr n ->
  wp (let* b := VaultDeployTool.createBundle arg in
      let* x := VaultDeployTool.exportAsJson (VStr n) in ret (b, x))
    (fun p s' _ => n <> EmptyString /\ In (VStr n) (map fst s') /\
       (clean (fst p) = true -> exists text, snd p = VStr text /\ json_parse text = Ok (fst p)))
    (fun e s' _ => s' = s) s t.
Proof.
  intros Hn. unfold VaultDeployTool.createBundle, VaultDeployTool.exportAsJson. do 3 wp_step; [|reflexivity].
  assert (a = VStr n) as -> by (rewrite <- Hn; symmetry; apply get_opt_ok; destruct arg; try discriminate; assumption).
  destruct n as [|c n]; [change (truthy (VStr EmptyString)) with false; cbn [negb]; wp_step; reflexivity|].
  change (truthy (VStr (String c n))) with true. cbn [negb]. set (k := VStr (String c n)) in *.
  assert (forall b, assoc strict_eq k (assoc_set strict_eq k b s) = Some b) as A by (intros b; apply assoc_set_found; apply String.eqb_refl).
  unfold iso_now. wp_auto; try reflexivity; rewrite A in *; try discriminate.
  match goal with E : Some _ = Some _ |- _ => injection E as <- end. split; [discriminate|]. split; [exact (assoc_key _ _ _ _ eq_refl (A _))|]. cbn [fst snd].
  intros C. destruct (json_parse_text "  " eq_refl _ C) as (text & -> & P). exists text. auto.
Qed.

Definition demo_bundle : jsval :=
  VObj [("name", VStr "demo"); ("contractSource", VStr "contract C {}"); ("metadata", VObj [("decimals", vnum 18); ("fee", VNum (Num.dec 1 3))])].

Lemma vault_export_roundtrip_witness :
  wp (let* b := VaultDeployTool.createBundle (H := steady) demo_bundle in let* x := VaultDeployTool.exportAsJson (VStr "demo") in ret (b, x))
    (fun p _ _ => exists text, snd p = VStr text /\ json_parse text = Ok (fst p)) (fun _ _ _ => False) [] [].
Proof.
  pose proof (vault_export_roundtrip (H := steady) demo_bundle "demo" [] [] eq_refl) as W.
  assert (wp (let* b := VaultDeployTool.createBundle (H := steady) demo_bundle in let* x := VaultDeployTool.exportAsJson (VStr "demo") in ret (b, x))
    (fun p _ _ => clean (fst p) = true) (fun _ _ _ => False) [] []) as C by (vm_compute; reflexivity).
  eapply wp_mono; [..|exact (wp_and _ _ _ _ _ _ _ W C)]; cbn beta; [|tauto]. intros p _ _ [(_ & _ & R) Cp]. exact (R Cp).
Defined.

(** Analytics loses and repeats nothing on the way to a request: along
    every sequence of tracking, flushing, ticks and disposal, the batches
    posted, in their order, followed by what is still buffered are the events
    buffered before and tracked since, in their order, each in exactly one
    place; a batch whose request fails is not posted again. *)
Theorem analytics_conserves `{Env} options s ops t :
  DevAnalytics.constructor options = Ok s -> truthy (get_opt options "endpoint") = true ->
  wp (AnalyticsFacts.session ops)
    (fun _ s' t' => exists batches,
       AnalyticsFacts.posts t' = (rev (map DevAnalytics.post_options batches) ++ AnalyticsFacts.posts t)%list /\
       Forall (fun b => b <> []) batches /\
       map AnalyticsFacts.event_name (List.concat batches ++ DevAnalytics.buffer s')%list = AnalyticsFacts.tracked ops)
    (fun _ _ _ => False) s t.
Proof.
  intros Hc He. assert (truthy (DevAnalytics.endpoint s) = true /\ DevAnalytics.buffer s = []) as [E B].
  { revert Hc. unfold DevAnalytics.constructor. destruct options; cbn [default get res_bind] in *; try discriminate He; try discriminate;
      intros [= <-]; cbn [DevAnalytics.endpoint]; unfold js_or; rewrite He; auto. }
  pose proof (AnalyticsFacts.session_conserves ops s t E) as W. rewrite B in W. exact W.
Qed.

Lemma analytics_conserves_witness :
  wp (AnalyticsFacts.session (H := steady) [AnalyticsFacts.Track (VStr "deploy") VUndef; AnalyticsFacts.Flush; AnalyticsFacts.Track (VStr "fee_paid") VUndef])
    (fun _ s' t' => exists batches, AnalyticsFacts.posts t' = rev (map DevAnalytics.post_options batches) /\
       map AnalyticsFacts.event_name (List.concat batches ++ DevAnalytics.buffer s')%list = [VStr "deploy"; VStr "fee_paid"])
    (fun _ _ _ => False) (DevAnalytics.T [] (vnum 5000) (VStr "https://api.shah.vip/analytics") true) [].
Proof.
  eapply wp_mono; [..|apply (analytics_conserves (H := steady) (VObj [("endpoint", VStr "https://api.shah.vip/analytics")])); reflexivity]; cbn beta; [|tauto].
  intros _ s' t' (bs & P & _ & M). exists bs. rewrite app_nil_r in P. split; [exact P|exact M].
Defined.

(** The sandbox keeps its history: along every run the history lists the
    transactions in the order they were created, no amount is zero or less,
    and a transaction is created, or broadcast exactly as long as one of its
    broadcasts waits, or confirmed. *)
Theorem sandbox_statuses `{ClockLaws} s t :
  steps (machine_step SandboxFacts.run SandboxFacts.enabled) (TransactionSandbox.t0, []) (s, t) -> SandboxFacts.wf s.
Proof.
  intros St. refine (machine_invariant _ _ (fun s _ => SandboxFacts.wf s) _ _ _ _ _ St _); [|split; [reflexivity|split; [apply Forall_nil|cbn; lia]]].
  intros o s1 t1 He W. exact (SandboxFacts.sandbox_run_wf o s1 t1 He W).
Qed.

Definition demo_tx : jsval := VObj [("from", VStr "Sa"); ("to", VStr "Sb"); ("amountShah", vnum 5)].

Lemma sandbox_statuses_witness :
  exists s t, steps (machine_step (SandboxFacts.run (H := steady)) SandboxFacts.enabled) (TransactionSandbox.t0, []) (s, t) /\
    SandboxFacts.wf s /\ List.length (TransactionSandbox.txs s) = 1 /\ SandboxFacts.status (TransactionSandbox.tx s 0) = VStr "confirmed".
Proof.
  set (go := after_op (SandboxFacts.run (H := steady))).
  set (x := go (SandboxFacts.Fire 0) (go (SandboxFacts.Broadcast 0) (go (SandboxFacts.Create demo_tx) (TransactionSandbox.t0, [])))).
  exists (fst x), (snd x).
  assert (steps (machine_step (SandboxFacts.run (H := steady)) SandboxFacts.enabled) (TransactionSandbox.t0, []) (fst x, snd x)) as St.
  { rewrite <- surjective_pairing. eapply steps_trans; [|apply steps_one, after_op_step; vm_compute; auto].
    eapply steps_trans; [|apply steps_one, after_op_step; vm_compute; auto]. apply steps_one, after_op_step. exact I. }
  split; [exact St|]. split; [exact (sandbox_statuses (H := steady) _ _ St)|]. split; vm_compute; reflexivity.
Defined.

(** A transaction without an amount is accepted: [undefined] is not below
    or equal to zero. *)
Theorem sandbox_amount_unchecked `{ClockLaws} arg s t :
  nullish arg = false -> get_opt arg "amountShah" = VUndef ->
  wp (TransactionSandbox.createMockTx arg)
    (fun r s' _ => r = List.length (TransactionSandbox.txs s) /\ obj_get (TransactionSandbox.tx s' r) "amountShah" = VUndef)
    (fun e s' t' => s' = s /\ t' <> t) s t.
Proof.
  intros Ha Hu. unfold TransactionSandbox.createMockTx, TransactionSandbox.random_hex. do 2 wp_step.
  - rewrite Hu. change (js_le VUndef (vnum 0)) with false. cbv iota. do 3 wp_step; [|split; [reflexivity|intros E; apply (f_equal (@List.length _)) in E; cbn in E; lia]].
    do 2 wp_step. apply wp_iso. intros x t1. do 5 wp_step. split; [reflexivity|]. unfold TransactionSandbox.tx. cbn [TransactionSandbox.txs].
    rewrite app_nth2, Nat.sub_diag by lia. reflexivity.
  - destruct arg; discriminate.
Qed.
