(* ===== verification/ContractCreator.v ===== *)
(** * Contract creator

    [ContractCreator], [SHI20Builder] and [SHI30Builder] of
    src/sdk-core/smart-contract-creator/index.js: the Solidity sources of
    tokens and NFTs and their metadata; and the two buttons of
    src/sdk-core/developer-playground/playground.js.  The digits of a fraction
    in radix 16 are the engine's. *)

From Stdlib Require Import ZArith Bool Lia List String Ascii.
From S2P Require Import Prelude JsNum JsNumFacts JsVal JsMonad Session Solidity Metadata DevTools.
Import ListNotations.
Local Open Scope string_scope.

Record creator : Type := Creator { network : jsval; compiler : jsval; optimizer : bool; optimizerRuns : jsval }.

Definition constructor (options : jsval) : result creator :=
  let options := default options (VObj []) in
  res_bind (get options "network") (fun network =>
  Ok (Creator (js_or network (VStr "shahcoin")) (js_or (get_opt options "compiler") (VStr "solc"))
        (negb (strict_eq (get_opt options "optimizer") (VBool false))) (js_or (get_opt options "optimizerRuns") (vnum 200)))).

(** [s.padEnd(n, '0')]. *)
Definition padEnd (n : nat) (s : string) : string := s ++ Num.zeros (n - String.length s).

Definition deploy `{Env} {S} (contract : jsval) : JS S string :=
  let* r := rand in
  let* digits := ext "Number.toString(16)" [VNum r] in
  ret ("0x" ++ padEnd 40 (drop_string 2 (to_str digits))).

Definition verify {S} (contract address : jsval) : JS S jsval := ret (VObj [("address", address); ("verified", VBool true)]).

(** [new Set(v)] and [has] of a text: the elements of an array, the characters
    of a text. *)
Definition set_has (v : jsval) (x : string) : result bool :=
  match v with
  | VArr l => Ok (existsb (fun y => is_str y x) l)
  | VStr s => Ok ((String.length x =? 1)%nat && includes s x)
  | VUndef | VNull => Ok false
  | VNum n => Throw (TypeError ("number " ++ Num.to_string n ++ " is not iterable (cannot read property Symbol(Symbol.iterator))"))
  | VBool b => Throw (TypeError ("boolean " ++ to_str v ++ " is not iterable (cannot read property Symbol(Symbol.iterator))"))
  | VObj _ | VFun _ => Throw (TypeError "object is not iterable (cannot read property Symbol(Symbol.iterator))")
  end.

Definition opt (b : bool) (text : string) : string := if b then text else EmptyString.

(** ** Tokens *)

Record token_opts : Type := TokenOpts {
  name : string; symbol : string; decimals : string; totalSupply : string; maxSupply : string;
  pausable : bool; burnable : bool; mintable : bool }.

Definition token_generateSolidity (o : token_opts) : string :=
  sol "// SPDX-License-Identifier: MIT
pragma solidity ^0.8.20;

import `@openzeppelin/contracts/token/ERC20/ERC20.sol`;
import `@openzeppelin/contracts/access/Ownable.sol`;
" ++ opt (pausable o) (sol "import `@openzeppelin/contracts/utils/Pausable.sol`;") ++ sol "

contract " ++ strip_ws (name o) ++ sol " is ERC20, Ownable " ++ opt (pausable o) (sol ", Pausable") ++ sol " {
	uint8 private constant _DECIMALS = " ++ decimals o ++ sol ";
	uint256 public maxSupply = " ++ maxSupply o ++ sol ";
	string public constant TOKEN_STANDARD = `shahcoin.token.standard.v1`;
	string public constant TOKEN_TYPE = `SHI-20`;
	string public constant CREATED_BY = `ShahFactory`;
	bool public verified = false;

	constructor() ERC20(`" ++ name o ++ sol "`, `" ++ symbol o ++ sol "`) {
		_mint(msg.sender, " ++ totalSupply o ++ sol ");
	}

	function decimals() public pure override returns (uint8) { return _DECIMALS; }
	" ++ opt (pausable o) (sol "function pause() external onlyOwner { _pause(); } function unpause() external onlyOwner { _unpause(); }") ++ sol "
	" ++ opt (burnable o) (sol "function burn(uint256 amount) external { _burn(msg.sender, amount); }") ++ sol "
	" ++ opt (mintable o) (sol "function mint(address to, uint256 amount) external onlyOwner { require(totalSupply() + amount <= maxSupply, `Exceeds maxSupply`); _mint(to, amount); }") ++ sol "

	function setVerified(bool _v) external onlyOwner { verified = _v; }

	function getTokenMetadata() external view returns (
		string memory standard,
		string memory t,
		string memory n,
		string memory s,
		uint8 d,
		uint256 ts,
		uint256 ms,
		string memory cb,
		bool v
	) {
		return (TOKEN_STANDARD, TOKEN_TYPE, name(), symbol(), decimals(), totalSupply(), maxSupply, CREATED_BY, verified);
	}
}".

(** [_metadata] of both builders. *)
Definition builder_metadata (standard type : string) (cfg : jsval) : jsval :=
  VObj [("standard", VStr standard); ("type", VStr type); ("name", get_opt cfg "name"); ("symbol", get_opt cfg "symbol");
        ("createdBy", VStr "ShahFactory"); ("verified", VBool false)].

Definition contract_record (type sourceCode : string) (metadata : jsval) : jsval :=
  VObj [("type", VStr type); ("sourceCode", VStr sourceCode); ("metadata", metadata)].

(** The values are put in the source as texts; of the name a text method is
    called. *)
Definition createToken (config : jsval) : result jsval :=
  let config := default config (VObj []) in
  res_bind (get config "name") (fun given =>
  let c k := get_opt config k in
  let name := js_or given (VStr "MyToken") in
  let symbol := js_or (c "symbol") (VStr "MTK") in
  let decimals := js_coalesce (c "decimals") (vnum 18) in
  let totalSupply := js_or (c "totalSupply") (VStr "1000000000000000000000000") in
  let maxSupply := js_or (get_opt (c "customLogic") "maxSupply") (VStr "10000000000000000000000000") in
  let features := js_or (c "features") (VArr []) in
  res_bind (set_has features "pausable") (fun pausable =>
  res_bind (set_has features "burnable") (fun burnable =>
  res_bind (set_has features "mintable") (fun mintable =>
  res_bind (as_string "name" "replace" name) (fun name =>
  Ok (contract_record "SHI-20"
        (token_generateSolidity (TokenOpts name (to_str symbol) (to_str decimals) (to_str totalSupply) (to_str maxSupply) pausable burnable mintable))
        (builder_metadata "shahcoin.token.standard.v1" "SHI-20" config))))))).

(** ** NFTs *)

Record nft_opts : Type := NFTOpts { n_name : string; n_symbol : string; baseURI : string; royalty : Z; soulbound : bool }.

Definition nft_generateSolidity (o : nft_opts) : string :=
  sol "// SPDX-License-Identifier: MIT
pragma solidity ^0.8.20;

import `@openzeppelin/contracts/token/ERC721/ERC721.sol`;
import `@openzeppelin/contracts/access/Ownable.sol`;

contract " ++ strip_ws (n_name o) ++ sol " is ERC721, Ownable {
	string private _base;
	string public constant TOKEN_STANDARD = `shahcoin.nft.standard.v1`;
	string public constant TOKEN_TYPE = `SHI-30`;
	string public constant CREATED_BY = `ShahFactory`;
	bool public verified = false;
	uint96 public royaltyBps = " ++ Num.to_string (Num.of_Z (royalty o)) ++ sol ";

	constructor() ERC721(`" ++ n_name o ++ sol "`, `" ++ n_symbol o ++ sol "`) { _base = `" ++ baseURI o ++ sol "`; }
	function _baseURI() internal view override returns (string memory) { return _base; }
	function setBaseURI(string calldata uri) external onlyOwner { _base = uri; }
	function setVerified(bool _v) external onlyOwner { verified = _v; }
	" ++ opt (soulbound o) (sol "function _beforeTokenTransfer(address from, address to, uint256 tokenId, uint256 batch) internal override { require(from == address(0) || to == address(0), `Soulbound`); super._beforeTokenTransfer(from, to, tokenId, batch); }") ++ sol "

	function getNftMetadata() external view returns (
		string memory standard,
		string memory t,
		string memory n,
		string memory s,
		string memory cb,
		bool v,
		uint96 r
	) {
		return (TOKEN_STANDARD, TOKEN_TYPE, name(), symbol(), CREATED_BY, verified, royaltyBps);
	}
}".

(** [(config.customLogic?.royaltyPercentage ?? 0) | 0]. *)
Definition royalty_of (customLogic : jsval) : Z :=
  Num.to_int32 (to_num (js_coalesce (get_opt customLogic "royaltyPercentage") (vnum 0))).

Definition createNFT (config : jsval) : result jsval :=
  let config := default config (VObj []) in
  res_bind (get config "name") (fun given =>
  let c k := get_opt config k in
  let name := js_or given (VStr "MyNFT") in
  let symbol := js_or (c "symbol") (VStr "MNFT") in
  let baseURI := js_or (c "baseURI") (VStr EmptyString) in
  let royalty := royalty_of (c "customLogic") in
  res_bind (call_includes "(config.features || [])" (js_or (c "features") (VArr [])) "soulbound") (fun soulbound =>
  res_bind (as_string "name" "replace" name) (fun name =>
  Ok (contract_record "SHI-30" (nft_generateSolidity (NFTOpts name (to_str symbol) (to_str baseURI) royalty soulbound))
        (builder_metadata "shahcoin.nft.standard.v1" "SHI-30" config))))).

(** ** The playground *)

(** The input fields and the two outputs of the page. *)
Record page : Type := Page { tName : string; tSymbol : string; tSupply : string; nName : string; nSymbol : string; nBase : string;
  out20 : string; out30 : string }.

Definition field (v dflt : string) : jsval := js_or (VStr v) (VStr dflt).

Definition btnGen20 : JS page unit :=
  let* p := read (fun p => p) in
  let* token := lift (createToken (VObj [("name", field (tName p) "My Token"); ("symbol", field (tSymbol p) "MTK");
    ("totalSupply", field (tSupply p) "1000000000000000000000000"); ("features", VArr [VStr "mintable"; VStr "burnable"])])) in
  modify (fun p => Page (tName p) (tSymbol p) (tSupply p) (nName p) (nSymbol p) (nBase p) (to_str (get_opt token "sourceCode")) (out30 p)).

Definition btnGen30 : JS page unit :=
  let* p := read (fun p => p) in
  let* nft := lift (createNFT (VObj [("name", field (nName p) "My NFT"); ("symbol", field (nSymbol p) "MNFT");
    ("baseURI", field (nBase p) "https://example.com/metadata/")])) in
  modify (fun p => Page (tName p) (tSymbol p) (tSupply p) (nName p) (nSymbol p) (nBase p) (out20 p) (to_str (get_opt nft "sourceCode"))).


(** ** Facts *)

(** The nesting of braces after a text; [None] when a brace closes nothing. *)
Fixpoint nesting (n : nat) (s : string) : option nat :=
  match s with
  | EmptyString => Some n
  | String c s' =>
      if Ascii.eqb c "{" then nesting (S n) s'
      else if Ascii.eqb c "}" then match n with O => None | S n' => nesting n' s' end
      else nesting n s'
  end.

Fixpoint braceless (s : string) : bool :=
  match s with EmptyString => true | String c s' => negb (Ascii.eqb c "{" || Ascii.eqb c "}") && braceless s' end.

Lemma nesting_app n a b : nesting n (a ++ b) = match nesting n a with Some m => nesting m b | None => None end.
Proof.
  revert n. induction a as [|c a IH]; intros n; cbn [append nesting]; [reflexivity|].
  destruct (Ascii.eqb c "{"); [apply IH|]. destruct (Ascii.eqb c "}"); [destruct n; [reflexivity|apply IH]|apply IH].
Qed.

Lemma nesting_plain n s : braceless s = true -> nesting n s = Some n.
Proof.
  induction s as [|c s IH]; cbn [braceless nesting]; [reflexivity|]. intros B. apply andb_prop in B. destruct B as [B1 B2].
  destruct (Ascii.eqb c "{"); [discriminate|]. destruct (Ascii.eqb c "}"); [discriminate|]. auto.
Qed.

Lemma braceless_strip s : braceless s = true -> braceless (strip_ws s) = true.
Proof.
  induction s as [|c s IH]; cbn [braceless strip_ws]; [reflexivity|]. intros B. apply andb_prop in B. destruct B as [B1 B2].
  destruct (is_space c); cbn [braceless]; rewrite ?B1; auto.
Qed.

(** An optional part that is balanced by itself. *)
Lemma nesting_opt n b text rest : nesting n text = Some n -> nesting n (opt b text ++ rest) = nesting n rest.
Proof. intros E. rewrite nesting_app. unfold opt. destruct b; [rewrite E|]; reflexivity. Qed.

Lemma nesting_text n s rest : braceless s = true -> nesting n (s ++ rest) = nesting n rest.
Proof. intros B. rewrite nesting_app, nesting_plain by exact B. reflexivity. Qed.

(** A fixed part of a template. *)
Lemma nesting_sol n m text rest : nesting n (sol text) = Some m -> nesting n (sol text ++ rest) = nesting m rest.
Proof. intros E. rewrite nesting_app, E. reflexivity. Qed.

(** Numbers are printed without braces. *)
Lemma braceless_app a b : braceless a = true -> braceless b = true -> braceless (a ++ b) = true.
Proof. intros A B. induction a as [|c a IH]; cbn [append braceless] in *; [exact B|]. apply andb_prop in A. destruct A as [-> A]. auto. Qed.

Lemma braceless_digit n : braceless (String (Num.digit_char (n mod 10)) EmptyString) = true.
Proof.
  pose proof (Z.mod_pos_bound n 10 eq_refl) as B. assert (Z.to_nat (n mod 10) < 10)%nat as L by lia. unfold Num.digit_char.
  revert L. generalize (Z.to_nat (n mod 10)) as k. intros k L. do 10 (destruct k as [|k]; [reflexivity|]). lia.
Qed.

Lemma braceless_digits k n acc : braceless acc = true -> braceless (Num.digits_fixed k n acc) = true.
Proof.
  revert n acc. induction k as [|k IH]; intros n acc A; cbn [Num.digits_fixed]; [exact A|]. apply IH.
  exact (braceless_app (String (Num.digit_char (n mod 10)) EmptyString) acc (braceless_digit n) A).
Qed.

Lemma braceless_zeros k : braceless (Num.zeros k) = true.
Proof. induction k; auto. Qed.

Lemma braceless_substring n m s : braceless s = true -> braceless (substring n m s) = true.
Proof.
  revert n m. induction s as [|c s IH]; intros n m B; [destruct n, m; reflexivity|]. cbn [braceless] in B. apply andb_prop in B. destruct B as [B1 B2].
  destruct n as [|n], m as [|m]; cbn [substring braceless]; rewrite ?B1; cbn [andb]; auto.
Qed.

Lemma braceless_integer n : braceless (Num.Z_to_string n) = true.
Proof. destruct n as [|p|p]; [reflexivity|..]; cbn [Num.Z_to_string]; [|cbn [braceless]]; apply braceless_digits; reflexivity. Qed.

Ltac braces :=
  repeat first
    [ reflexivity | apply braceless_zeros | apply braceless_integer | apply braceless_digits | apply braceless_substring
    | apply braceless_app | match goal with |- braceless (if ?b then _ else _) = true => destruct b end ].

Lemma braceless_layout n j : braceless (Num.layout n j) = true.
Proof.
  unfold Num.layout. cbv zeta. destruct (_ && _); [braces|]. destruct (_ && _); [braces|]. destruct (_ && _); [braces|].
  destruct (Num.ndigits n) as [|[|k]]; braces.
Qed.

Lemma braceless_to_string x : braceless (Num.to_string x) = true.
Proof.
  destruct x as [b|b| |b m e]; try (destruct b; reflexivity); [reflexivity|]. cbn [Num.to_string]. destruct (Num.shortest m e) as [n j].
  destruct b; cbn [braceless]; apply braceless_layout.
Qed.

Ltac balance :=
  repeat first
    [ rewrite nesting_opt by (vm_compute; reflexivity)
    | rewrite nesting_text by (assumption || apply braceless_to_string || apply braceless_strip; assumption)
    | erewrite nesting_sol by (vm_compute; reflexivity) ].

(** ** Theorems *)

(** The braces of a generated token or NFT source balance, never closing
    more than is open, for every combination of features and every name,
    symbol and number without braces. *)
Theorem generated_source_balanced o p :
  forallb braceless [name o; symbol o; decimals o; totalSupply o; maxSupply o] = true ->
  forallb braceless [n_name p; n_symbol p; baseURI p] = true ->
  nesting 0 (token_generateSolidity o) = Some 0 /\ nesting 0 (nft_generateSolidity p) = Some 0.
Proof.
  cbn [forallb]. rewrite !andb_true_iff. intros (N & S & D & T & M & _) (N' & S' & B & _). split.
  - unfold token_generateSolidity. balance. vm_compute. reflexivity.
  - unfold nft_generateSolidity. balance. vm_compute. reflexivity.
Qed.

Lemma generated_source_balanced_witness :
  nesting 0 (token_generateSolidity (TokenOpts "Gold" "GLD" "18" "1000" "2000" true true true)) = Some 0 /\
  nesting 0 (nft_generateSolidity (NFTOpts "Art" "ART" "ipfs://" 5 true)) = Some 0.
Proof. apply generated_source_balanced; reflexivity. Defined.

(** [ToInt32] of a whole number. *)
Lemma to_int32_of_Z p :
  (0 <= p < 2 ^ prec)%Z ->
  Num.to_int32 (Num.of_Z p) = (let r := p mod 2 ^ 32 in if 2 ^ 31 <=? r then r - 2 ^ 32 else r)%Z.
Proof.
  intros Hp. destruct p as [|q|q]; [reflexivity| |lia]. assert (small q) as Sq by (unfold small; lia).
  rewrite of_Z_pos by exact Sq. unfold Num.to_int32. pose proof (canon_e_range q Sq) as E. pose proof (canon_m_eq q Sq) as M.
  assert ((if (0 <=? canon_e q)%Z then Zpos (canon_m q) * 2 ^ canon_e q else Zpos (canon_m q) / 2 ^ (- canon_e q))%Z = Zpos q) as ->; [|reflexivity].
  unfold canon_e in *. destruct (0 <=? _)%Z eqn:C.
  - apply Z.leb_le in C. replace (Zpos (SpecFloat.digits2_pos q) - prec)%Z with 0%Z by lia.
    replace (prec - Zpos (SpecFloat.digits2_pos q))%Z with 0%Z in M by lia. lia.
  - replace (- (Zpos (SpecFloat.digits2_pos q) - prec))%Z with (prec - Zpos (SpecFloat.digits2_pos q))%Z by lia.
    rewrite M. apply Z.div_mul. apply Z.pow_nonzero; lia.
Qed.

(** The royalty of a generated NFT contract: a whole royalty below 2^31 is
    written into the source as it is, one from 2^31 to 2^32 as a negative
    number, which the [uint96] of the contract cannot hold. *)
Theorem royalty_written p :
  (0 <= p < 2 ^ 32)%Z ->
  royalty_of (VObj [("royaltyPercentage", vnum p)]) = (if p <? 2 ^ 31 then p else p - 2 ^ 32)%Z /\
  ((2 ^ 31 <= p)%Z -> (royalty_of (VObj [("royaltyPercentage", vnum p)]) < 0)%Z).
Proof.
  intros Hp. assert (royalty_of (VObj [("royaltyPercentage", vnum p)]) = (if p <? 2 ^ 31 then p else p - 2 ^ 32)%Z) as E.
  { change (royalty_of (VObj [("royaltyPercentage", vnum p)])) with (Num.to_int32 (Num.of_Z p)).
    rewrite to_int32_of_Z by (unfold prec; lia). cbv zeta. rewrite Z.mod_small by lia.
    destruct (Z.leb_spec (2 ^ 31) p), (Z.ltb_spec p (2 ^ 31)); lia. }
  rewrite E. split; [reflexivity|]. intros L. destruct (Z.ltb_spec p (2 ^ 31)); lia.
Qed.

Lemma royalty_written_witness :
  royalty_of (VObj [("royaltyPercentage", vnum 250)]) = 250%Z /\ (royalty_of (VObj [("royaltyPercentage", vnum (2 ^ 31))]) < 0)%Z.
Proof. split; [apply (royalty_written 250); lia|apply (royalty_written (2 ^ 31)); lia]. Defined.

(** What the builders make is labelled and cannot be registered: the
    metadata of every created token gives the SHI-20 badge and that of every
    created NFT the SHI-30 badge, and the explorer refuses both, whatever the
    configuration, without touching its store. *)
Theorem created_contracts_labelled `{Env} config r address s t :
  let refused := exists e, MetadataExplorerAPI.storeMetadata address (get_opt r "metadata") s t = (Throw e, s, t) in
  (createToken config = Ok r -> detectTokenBadge (get_opt r "metadata") = SHI_20 /\ refused) /\
  (createNFT config = Ok r -> detectTokenBadge (get_opt r "metadata") = SHI_30 /\ refused).
Proof.
  assert (forall st ty cfg src, r = contract_record ty src (builder_metadata st ty cfg) ->
    exists e, MetadataExplorerAPI.storeMetadata address (get_opt r "metadata") s t = (Throw e, s, t)) as R.
  { intros st ty cfg src ->. change (get_opt (contract_record ty src (builder_metadata st ty cfg)) "metadata") with (builder_metadata st ty cfg).
    unfold MetadataExplorerAPI.storeMetadata, bind, lift. destruct (validateMetadata (builder_metadata st ty cfg)) as [b|e] eqn:V.
    - exfalso. exact (unverified_invalid (builder_metadata st ty cfg) b eq_refl V).
    - exists e. reflexivity. }
  split; intros E.
  - assert (exists src cfg, r = contract_record "SHI-20" src (builder_metadata "shahcoin.token.standard.v1" "SHI-20" cfg)) as (src & cfg & Er).
    { revert E. unfold createToken. destruct (get _ _); cbn [res_bind]; [|discriminate]. repeat (destruct (set_has _ _); cbn [res_bind]; [|discriminate]).
      destruct (as_string _ _ _); cbn [res_bind]; [|discriminate]. intros [= <-]. eauto. }
    split; [rewrite Er; reflexivity|eapply R, Er].
  - assert (exists src cfg, r = contract_record "SHI-30" src (builder_metadata "shahcoin.nft.standard.v1" "SHI-30" cfg)) as (src & cfg & Er).
    { revert E. unfold createNFT. destruct (get _ _); cbn [res_bind]; [|discriminate]. destruct (call_includes _ _ _); cbn [res_bind]; [|discriminate].
      destruct (as_string _ _ _); cbn [res_bind]; [|discriminate]. intros [= <-]. eauto. }
    split; [rewrite Er; reflexivity|eapply R, Er].
Qed.

(** The playground always answers: each button shows the source for the
    texts in its fields, a default standing for an empty one, and leaves the
    rest of the page alone. *)
Theorem playground_answers p t :
  let or s d := if s =? EmptyString then d else s in
  btnGen20 p t = (Ok tt, Page (tName p) (tSymbol p) (tSupply p) (nName p) (nSymbol p) (nBase p)
    (token_generateSolidity (TokenOpts (or (tName p) "My Token") (or (tSymbol p) "MTK") "18" (or (tSupply p) "1000000000000000000000000")
       "10000000000000000000000000" false true true)) (out30 p), t) /\
  btnGen30 p t = (Ok tt, Page (tName p) (tSymbol p) (tSupply p) (nName p) (nSymbol p) (nBase p) (out20 p)
    (nft_generateSolidity (NFTOpts (or (nName p) "My NFT") (or (nSymbol p) "MNFT") (or (nBase p) "https://example.com/metadata/") 0 false)), t).
Proof.
  cbv zeta. destruct p as [[|c1 a1] [|c2 a2] [|c3 a3] [|c4 a4] [|c5 a5] [|c6 a6] o2 o3]; split; reflexivity.
Qed.
