(* ===== verification/Badges.v ===== *)
(** * Badges

    The badge views: [TokenBadge] and its relatives of
    src/sdk-core/smart-contract-toolkit/TokenBadge.jsx, over the detection of
    [Metadata]; [VerifiedBadgeSystem] of
    src/web/components/VerifiedBadgeSystem.jsx; and
    [VerifiedBadgeTelegramMiniApp] of
    src/telegram/VerifiedBadgeTelegramMiniApp.js.

    The part of [fetchMetadataFromAddress] after its wait is an operation of
    its own, so that updates of the component can come between.  A prop that
    is an object has an identity, which [componentDidUpdate] compares. *)

From Stdlib Require Import ZArith Bool Lia List String Ascii.
From S2P Require Import Prelude JsNum JsVal JsMonad Machine Session Solidity Metadata.
Import ListNotations.
Local Open Scope string_scope.

(** ** The token badge *)

Module TokenBadge.

(** A prop: its value, and the identity of the object when it is one. *)
Record prop : Type := Prop_ { value : jsval; identity : nat }.

Definition is_object (v : jsval) : bool := match v with VObj _ | VArr _ | VFun _ => true | _ => false end.

(** [a !== b]. *)
Definition differs (a b : prop) : bool :=
  if is_object (value a) && is_object (value b) then negb (identity a =? identity b)%nat else negb (strict_eq (value a) (value b)).

Record props : Type := Props { metadata : prop; contractAddress : prop }.

(** [waiting]: the addresses whose metadata is being fetched. *)
Record t : Type := T { this_props : props; badge : option Metadata.badge; loading : bool; error : jsval; waiting : list jsval }.

Definition set_props (p : props) (s : t) : t := T p (badge s) (loading s) (error s) (waiting s).
Definition set_badge (b : Metadata.badge) (s : t) : t := T (this_props s) (Some b) false (error s) (waiting s).
Definition set_error (e : string) (s : t) : t := T (this_props s) (Some UNKNOWN) false (VStr e) (waiting s).
Definition set_loading (s : t) : t := T (this_props s) (badge s) true (error s) (waiting s).
Definition set_waiting (w : list jsval) (s : t) : t := T (this_props s) (badge s) (loading s) (error s) w.

Definition constructor (p : props) : t := T p None true VNull [].

Definition mockData : list (string * jsval) :=
  [("0x1234567890123456789012345678901234567890",
    VObj [("standard", VStr "shahcoin.token.standard.v1"); ("type", VStr "SHI-20"); ("name", VStr "Mock Token"); ("symbol", VStr "MTK");
          ("createdBy", VStr "ShahFactory"); ("verified", VBool false)]);
   ("0x0987654321098765432109876543210987654321",
    VObj [("standard", VStr "shahcoin.nft.standard.v1"); ("type", VStr "SHI-30"); ("name", VStr "Mock NFT"); ("symbol", VStr "MNFT");
          ("createdBy", VStr "ShahFactory"); ("verified", VBool true)])].

Definition getMockMetadata (contractAddress : jsval) : jsval := js_or (obj_get mockData (to_str contractAddress)) VNull.

(** Until the wait of 100 ms. *)
Definition fetchMetadataFromAddress (contractAddress : jsval) : JS t unit :=
  modify set_loading ;;; modify (fun s => set_waiting (waiting s ++ [contractAddress]) s).

Fixpoint remove_value (v : jsval) (l : list jsval) : list jsval :=
  match l with [] => [] | x :: l' => if strict_eq x v then l' else x :: remove_value v l' end.

(** After it. *)
Definition onFetched (contractAddress : jsval) : JS t unit :=
  modify (fun s => set_waiting (remove_value contractAddress (waiting s)) s) ;;;
  try_catch (modify (set_badge (detectTokenBadge (getMockMetadata contractAddress)))) (fun e => modify (set_error (e_msg e))).

Definition detectBadge : JS t unit :=
  try_catch
    (let* p := read this_props in
     let md := value (metadata p) in
     let address := value (contractAddress p) in
     if negb (truthy md) && negb (truthy address) then modify (set_badge UNKNOWN)
     else if truthy md then modify (set_badge (detectTokenBadge md))
     else if truthy address then fetchMetadataFromAddress address
     else ret tt)
    (fun e => modify (set_error (e_msg e))).

Definition componentDidMount : JS t unit := detectBadge.

(** New props, then [componentDidUpdate]. *)
Definition update (next : props) : JS t unit :=
  let* prev := read this_props in
  modify (set_props next) ;;;
  if differs (metadata prev) (metadata next) || differs (contractAddress prev) (contractAddress next) then detectBadge else ret tt.

(** What is rendered. *)
Definition getBadgeClasses (size className : string) (s : t) : string :=
  if loading s then trim ("shahcoin-badge badge-loading badge-" ++ size ++ " " ++ className)
  else match badge s with
       | None => trim ("shahcoin-badge badge-unknown badge-" ++ size ++ " " ++ className)
       | Some b =>
           trim ("shahcoin-badge badge-" ++ size ++ " " ++ join " " (map fst (filter snd (getBadgeCSS b))) ++ " " ++ className)
       end.

Definition renderBadgeContent (showLabel showIcon : bool) (s : t) : list string :=
  let spans i l := ((if showIcon then [i] else []) ++ (if showLabel then [l] else []))%list in
  if loading s then spans "⏳" "Loading..."
  else let d := BADGE_DEFINITIONS (match badge s with Some b => b | None => UNKNOWN end) in spans (icon d) (label d).

Record view : Type := View {
  classes : string; title : jsval; ariaLabel : jsval; tabIndex : jsval; role : jsval; cursor : string; content : list string; alert : option string }.

(** The props of the element; [onClick] is whether a handler was given. *)
Definition render (size className : string) (showLabel showIcon onClick : bool) (title ariaLabel tabIndex role : jsval) (s : t) : view :=
  View (getBadgeClasses size className s)
    (js_or title (VStr (match badge s with Some b => tooltip (BADGE_DEFINITIONS b) | None => "Unknown token type" end)))
    (js_or ariaLabel (VStr (match badge s with Some b => label (BADGE_DEFINITIONS b) | None => "Unknown token" end)))
    (if onClick then default tabIndex (vnum 0) else VUndef) (if onClick then default role (VStr "button") else VUndef)
    (if onClick then "pointer" else "help") (renderBadgeContent showLabel showIcon s)
    (if truthy (error s) then Some ("Error: " ++ to_str (error s)) else None).

(** [onKeyDown]: whether the handler runs. *)
Definition activates (onClick : bool) (key : string) : bool := onClick && ((key =? "Enter") || (key =? " ")).

(** [TokenBadgeWithInfo.toggleInfo]. *)
Definition toggleInfo : JS bool unit := modify negb.

End TokenBadge.

(** ** Verified badges *)

Definition VERIFIED_TOKEN : string := "verified-token".
Definition VERIFIED_NFT : string := "verified-nft".
Definition TRUSTED_CREATOR : string := "trusted-creator".
Definition LEGAL_WARNING : string := "legal-warning".

Definition tooltips : list (string * jsval) :=
  [(VERIFIED_TOKEN, VStr (sol "🔐 This token is officially verified by the SHAHCOIN team. Smart contract and metadata have been reviewed for security and compliance.

SHAHCOIN® is a registered trademark. All rights reserved."));
   (VERIFIED_NFT, VStr (sol "🖼 This NFT is part of a trusted, verified collection. Creator and assets meet SHAHCOIN quality standards.

SHAHCOIN® is a registered trademark. All rights reserved."));
   (TRUSTED_CREATOR, VStr (sol "This creator has been verified and trusted by the SHAHCOIN team."));
   (LEGAL_WARNING, VStr (sol "⚠️ You may not use `SHAH`, `SHAHCOIN` or any official branding in your project name or logo unless explicitly authorized.

See LICENSE and NOTICE files for legal terms.

For licensing inquiries: Info@shah.vip"))].

(** JSX: an element with its attributes and children. *)
Inductive attribute : Type := Attr (name value : string) | Style (css : list (string * string)).
Inductive jsx : Type := El (tag : string) (attrs : list attribute) (children : list jsx) | Txt (text : string).

Definition verified_token_jsx : jsx :=
    El "svg" [Attr "width" "24"; Attr "height" "24"; Attr "viewBox" "0 0 24 24"; Attr "fill" "none"; Attr "xmlns" "http://www.w3.org/2000/svg"] [
      El "defs" [] [
        El "linearGradient" [Attr "id" "goldGradient"; Attr "x1" "0%"; Attr "y1" "0%"; Attr "x2" "100%"; Attr "y2" "100%"] [
          El "stop" [Attr "offset" "0%"; Style [("stopColor", "#FFD700"); ("stopOpacity", "1")]] [];
          El "stop" [Attr "offset" "50%"; Style [("stopColor", "#FFA500"); ("stopOpacity", "1")]] [];
          El "stop" [Attr "offset" "100%"; Style [("stopColor", "#FF8C00"); ("stopOpacity", "1")]] []];
        El "filter" [Attr "id" "glow"] [
          El "feGaussianBlur" [Attr "stdDeviation" "2"; Attr "result" "coloredBlur"] [];
          El "feMerge" [] [
            El "feMergeNode" [Attr "in" "coloredBlur"] [];
            El "feMergeNode" [Attr "in" "SourceGraphic"] []]]];
      El "circle" [Attr "cx" "12"; Attr "cy" "12"; Attr "r" "11"; Attr "fill" "url(#goldGradient)"; Attr "stroke" "#B8860B"; Attr "strokeWidth" "2"; Attr "filter" "url(#glow)"] [];
      El "path" [Attr "d" "M9 15L7 13L8.4 11.6L9 12.2L15.6 5.6L17 7L9 15Z"; Attr "fill" "white"; Attr "stroke" "white"; Attr "strokeWidth" "0.5"] [];
      El "text" [Attr "x" "12"; Attr "y" "21"; Attr "textAnchor" "middle"; Attr "fontSize" "7"; Attr "fontWeight" "bold"; Attr "fill" "white"; Attr "fontFamily" "Arial, sans-serif"] [
        Txt "SHAH"]].

Definition verified_nft_jsx : jsx :=
    El "svg" [Attr "width" "24"; Attr "height" "24"; Attr "viewBox" "0 0 24 24"; Attr "fill" "none"; Attr "xmlns" "http://www.w3.org/2000/svg"] [
      El "defs" [] [
        El "linearGradient" [Attr "id" "purpleGradient"; Attr "x1" "0%"; Attr "y1" "0%"; Attr "x2" "100%"; Attr "y2" "100%"] [
          El "stop" [Attr "offset" "0%"; Style [("stopColor", "#9C27B0"); ("stopOpacity", "1")]] [];
          El "stop" [Attr "offset" "50%"; Style [("stopColor", "#673AB7"); ("stopOpacity", "1")]] [];
          El "stop" [Attr "offset" "100%"; Style [("stopColor", "#3F51B5"); ("stopOpacity", "1")]] []];
        El "filter" [Attr "id" "nftGlow"] [
          El "feGaussianBlur" [Attr "stdDeviation" "1.5"; Attr "result" "coloredBlur"] [];
          El "feMerge" [] [
            El "feMergeNode" [Attr "in" "coloredBlur"] [];
            El "feMergeNode" [Attr "in" "SourceGraphic"] []]]];
      El "polygon" [Attr "points" "12,2 15.09,8.26 22,9.27 17,14.14 18.18,21.02 12,17.77 5.82,21.02 7,14.14 2,9.27 8.91,8.26"; Attr "fill" "url(#purpleGradient)"; Attr "stroke" "#4A148C"; Attr "strokeWidth" "1.5"; Attr "filter" "url(#nftGlow)"] [];
      El "path" [Attr "d" "M9 15L7 13L8.4 11.6L9 12.2L15.6 5.6L17 7L9 15Z"; Attr "fill" "white"; Attr "stroke" "white"; Attr "strokeWidth" "0.5"] [];
      El "text" [Attr "x" "12"; Attr "y" "22"; Attr "textAnchor" "middle"; Attr "fontSize" "6"; Attr "fontWeight" "bold"; Attr "fill" "white"; Attr "fontFamily" "Arial, sans-serif"] [
        Txt "VERIFIED"]].

Definition trusted_creator_jsx : jsx :=
    El "svg" [Attr "width" "20"; Attr "height" "20"; Attr "viewBox" "0 0 20 20"; Attr "fill" "none"; Attr "xmlns" "http://www.w3.org/2000/svg"] [
      El "defs" [] [
        El "linearGradient" [Attr "id" "tealGradient"; Attr "x1" "0%"; Attr "y1" "0%"; Attr "x2" "100%"; Attr "y2" "100%"] [
          El "stop" [Attr "offset" "0%"; Style [("stopColor", "#00BCD4"); ("stopOpacity", "1")]] [];
          El "stop" [Attr "offset" "50%"; Style [("stopColor", "#009688"); ("stopOpacity", "1")]] [];
          El "stop" [Attr "offset" "100%"; Style [("stopColor", "#4CAF50"); ("stopOpacity", "1")]] []]];
      El "circle" [Attr "cx" "10"; Attr "cy" "10"; Attr "r" "9"; Attr "fill" "url(#tealGradient)"; Attr "stroke" "#00695C"; Attr "strokeWidth" "1.5"] [];
      El "path" [Attr "d" "M10 3L12.09 7.26L16.5 8.27L13.5 11.14L14.18 15.52L10 13.77L5.82 15.52L6.5 11.14L3.5 8.27L7.91 7.26L10 3Z"; Attr "fill" "white"; Attr "opacity" "0.9"] [];
      El "text" [Attr "x" "10"; Attr "y" "17"; Attr "textAnchor" "middle"; Attr "fontSize" "5"; Attr "fontWeight" "bold"; Attr "fill" "white"; Attr "fontFamily" "Arial, sans-serif"] [
        Txt "TRUSTED"]].

Definition legal_warning_jsx : jsx :=
    El "svg" [Attr "width" "20"; Attr "height" "20"; Attr "viewBox" "0 0 20 20"; Attr "fill" "none"; Attr "xmlns" "http://www.w3.org/2000/svg"] [
      El "defs" [] [
        El "linearGradient" [Attr "id" "warningGradient"; Attr "x1" "0%"; Attr "y1" "0%"; Attr "x2" "100%"; Attr "y2" "100%"] [
          El "stop" [Attr "offset" "0%"; Style [("stopColor", "#FF9800"); ("stopOpacity", "1")]] [];
          El "stop" [Attr "offset" "50%"; Style [("stopColor", "#F57C00"); ("stopOpacity", "1")]] [];
          El "stop" [Attr "offset" "100%"; Style [("stopColor", "#E65100"); ("stopOpacity", "1")]] []]];
      El "polygon" [Attr "points" "10,2 18,16 2,16"; Attr "fill" "url(#warningGradient)"; Attr "stroke" "#BF360C"; Attr "strokeWidth" "1.5"] [];
      El "path" [Attr "d" "M10 6L10 12"; Attr "stroke" "white"; Attr "strokeWidth" "2"; Attr "strokeLinecap" "round"] [];
      El "circle" [Attr "cx" "10"; Attr "cy" "14"; Attr "r" "1"; Attr "fill" "white"] []].

Definition getBadgeSVG (type : string) : option jsx :=
  if type =? VERIFIED_TOKEN then Some verified_token_jsx
  else if type =? VERIFIED_NFT then Some verified_nft_jsx
  else if type =? TRUSTED_CREATOR then Some trusted_creator_jsx
  else if type =? LEGAL_WARNING then Some legal_warning_jsx
  else None.

Module VerifiedBadgeSystem.
(** [showVerifiedOnly] is the state. *)
Inductive rendering : Type := FilterWidget (checked : bool) | Nothing | BadgeView (className : string) (title : jsval) (svg : option jsx).

Definition handleFilterChange `{Env} (onFilterChange : bool) (checked : bool) : JS bool unit :=
  modify (fun _ => checked) ;;;
  if onFilterChange then ext "onFilterChange" [VBool checked] ;;; ret tt else ret tt.

Definition render (badgeType : jsval) (showFilter : bool) (showVerifiedOnly : bool) : rendering :=
  if showFilter then FilterWidget showVerifiedOnly
  else if negb (truthy badgeType) then Nothing
  else BadgeView ("verified-badge " ++ to_str badgeType) (obj_get tooltips (to_str badgeType))
         (match badgeType with VStr ty => getBadgeSVG ty | _ => None end).
End VerifiedBadgeSystem.

Module VerifiedBadgeTelegramMiniApp.

Definition svgMap : list (string * jsval) :=
  [(VERIFIED_TOKEN, VStr (sol "
                <svg width=`24` height=`24` viewBox=`0 0 24 24` fill=`none` xmlns=`http://www.w3.org/2000/svg`>
                    <defs>
                        <linearGradient id=`goldGradient` x1=`0%` y1=`0%` x2=`100%` y2=`100%`>
                            <stop offset=`0%` style=`stop-color:#FFD700;stop-opacity:1` />
                            <stop offset=`50%` style=`stop-color:#FFA500;stop-opacity:1` />
                            <stop offset=`100%` style=`stop-color:#FF8C00;stop-opacity:1` />
                        </linearGradient>
                        <filter id=`glow`>
                            <feGaussianBlur stdDeviation=`2` result=`coloredBlur`/>
                            <feMerge> 
                                <feMergeNode in=`coloredBlur`/>
                                <feMergeNode in=`SourceGraphic`/>
                            </feMerge>
                        </filter>
                    </defs>
                    <circle cx=`12` cy=`12` r=`11` fill=`url(#goldGradient)` stroke=`#B8860B` stroke-width=`2` filter=`url(#glow)`/>
                    <path d=`M9 15L7 13L8.4 11.6L9 12.2L15.6 5.6L17 7L9 15Z` fill=`white` stroke=`white` stroke-width=`0.5`/>
                    <text x=`12` y=`21` text-anchor=`middle` font-size=`7` font-weight=`bold` fill=`white` font-family=`Arial, sans-serif`>SHAH</text>
                </svg>
            "));
   (VERIFIED_NFT, VStr (sol "
                <svg width=`24` height=`24` viewBox=`0 0 24 24` fill=`none` xmlns=`http://www.w3.org/2000/svg`>
                    <defs>
                        <linearGradient id=`purpleGradient` x1=`0%` y1=`0%` x2=`100%` y2=`100%`>
                            <stop offset=`0%` style=`stop-color:#9C27B0;stop-opacity:1` />
                            <stop offset=`50%` style=`stop-color:#673AB7;stop-opacity:1` />
                            <stop offset=`100%` style=`stop-color:#3F51B5;stop-opacity:1` />
                        </linearGradient>
                        <filter id=`nftGlow`>
                            <feGaussianBlur stdDeviation=`1.5` result=`coloredBlur`/>
                            <feMerge> 
                                <feMergeNode in=`coloredBlur`/>
                                <feMergeNode in=`SourceGraphic`/>
                            </feMerge>
                        </filter>
                    </defs>
                    <polygon points=`12,2 15.09,8.26 22,9.27 17,14.14 18.18,21.02 12,17.77 5.82,21.02 7,14.14 2,9.27 8.91,8.26` 
                             fill=`url(#purpleGradient)` stroke=`#4A148C` stroke-width=`1.5` filter=`url(#nftGlow)`/>
                    <path d=`M9 15L7 13L8.4 11.6L9 12.2L15.6 5.6L17 7L9 15Z` fill=`white` stroke=`white` stroke-width=`0.5`/>
                    <text x=`12` y=`22` text-anchor=`middle` font-size=`6` font-weight=`bold` fill=`white` font-family=`Arial, sans-serif`>VERIFIED</text>
                </svg>
            "));
   (TRUSTED_CREATOR, VStr (sol "
                <svg width=`20` height=`20` viewBox=`0 0 20 20` fill=`none` xmlns=`http://www.w3.org/2000/svg`>
                    <defs>
                        <linearGradient id=`tealGradient` x1=`0%` y1=`0%` x2=`100%` y2=`100%`>
                            <stop offset=`0%` style=`stop-color:#00BCD4;stop-opacity:1` />
                            <stop offset=`50%` style=`stop-color:#009688;stop-opacity:1` />
                            <stop offset=`100%` style=`stop-color:#4CAF50;stop-opacity:1` />
                        </linearGradient>
                    </defs>
                    <circle cx=`10` cy=`10` r=`9` fill=`url(#tealGradient)` stroke=`#00695C` stroke-width=`1.5`/>
                    <path d=`M10 3L12.09 7.26L16.5 8.27L13.5 11.14L14.18 15.52L10 13.77L5.82 15.52L6.5 11.14L3.5 8.27L7.91 7.26L10 3Z` fill=`white` opacity=`0.9`/>
                    <text x=`10` y=`17` text-anchor=`middle` font-size=`5` font-weight=`bold` fill=`white` font-family=`Arial, sans-serif`>TRUSTED</text>
                </svg>
            "));
   (LEGAL_WARNING, VStr (sol "
                <svg width=`20` height=`20` viewBox=`0 0 20 20` fill=`none` xmlns=`http://www.w3.org/2000/svg`>
                    <defs>
                        <linearGradient id=`warningGradient` x1=`0%` y1=`0%` x2=`100%` y2=`100%`>
                            <stop offset=`0%` style=`stop-color:#FF9800;stop-opacity:1` />
                            <stop offset=`50%` style=`stop-color:#F57C00;stop-opacity:1` />
                            <stop offset=`100%` style=`stop-color:#E65100;stop-opacity:1` />
                        </linearGradient>
                    </defs>
                    <polygon points=`10,2 18,16 2,16` fill=`url(#warningGradient)` stroke=`#BF360C` stroke-width=`1.5`/>
                    <path d=`M10 6L10 12` stroke=`white` stroke-width=`2` stroke-linecap=`round`/>
                    <circle cx=`10` cy=`14` r=`1` fill=`white`/>
                </svg>
            "))].

Definition createBadgeSVG (type : string) : jsval := js_or (obj_get svgMap type) (VStr EmptyString).

Record asset : Type := Asset { type : jsval; tooltipText : jsval; isVerified : bool }.
Record t : Type := T { showVerifiedOnly : bool; verifiedAssets : list (string * asset) }.

Definition constructor : t := T false [].

(** An element the class makes: what it sets on it. *)
Record element : Type := Element {
  className : string; data_asset_id : string; el_title : string; innerHTML : string; transform : string; brightness : string }.

Definition createVerifiedBadge (type assetId : string) : element :=
  Element ("verified-badge " ++ type) assetId (to_str (js_or (obj_get tooltips type) (VStr EmptyString))) (to_str (createBadgeSVG type)) EmptyString EmptyString.

(** The two hover listeners. *)
Definition onMouseEnter (e : element) : element :=
  Element (className e) (data_asset_id e) (el_title e) (innerHTML e) "scale(1.1)" "brightness(1.2)".
Definition onMouseLeave (e : element) : element :=
  Element (className e) (data_asset_id e) (el_title e) (innerHTML e) "scale(1)" "brightness(1)".

(** The check box and the label of the filter. *)
Record filter_widget : Type := FilterWidget { checked : bool; labelHTML : string }.
Definition createVerifiedFilterWidget (s : t) : filter_widget :=
  FilterWidget (showVerifiedOnly s) (sol "<span class=`checkmark`>✔️</span> Show Verified Only").

(** The icon and the text of the legal warning. *)
Definition createLegalWarningWidget : string * string := (to_str (createBadgeSVG LEGAL_WARNING), to_str (obj_get tooltips LEGAL_WARNING)).

Definition addVerifiedAsset (assetId : string) (ty : jsval) (s : t) : t :=
  T (showVerifiedOnly s) (assoc_set String.eqb assetId (Asset ty (obj_get tooltips (to_str ty)) true) (verifiedAssets s)).
Definition removeVerifiedAsset (assetId : string) (s : t) : t :=
  T (showVerifiedOnly s) (assoc_del String.eqb assetId (verifiedAssets s)).
Definition isAssetVerified (assetId : string) (s : t) : bool :=
  match assoc String.eqb assetId (verifiedAssets s) with Some a => isVerified a | None => false end.

Section Telegram.
(** Whether [window.Telegram.WebApp] is there. *)
Context `{Env} (webApp : bool).

Definition showAlert (text : string) : JS t unit :=
  if webApp then ext "Telegram.WebApp.showAlert" [VStr text] ;;; ret tt else ret tt.

Definition onBadgeClicked (assetId : string) : JS t unit := showAlert ("Verified SHAHCOIN Asset: " ++ assetId).
Definition onFilterChanged (show : bool) : JS t unit := showAlert ("Filter: " ++ (if show then "Verified only" else "All assets")).

Definition setShowVerifiedOnly (show : bool) : JS t unit :=
  modify (fun s => T show (verifiedAssets s)) ;;; onFilterChanged show.

End Telegram.

Definition init (s : t) : t :=
  addVerifiedAsset "CREATOR-001" (VStr TRUSTED_CREATOR)
    (addVerifiedAsset "SHAH-NFT-001" (VStr VERIFIED_NFT) (addVerifiedAsset "SHAH-TOKEN-001" (VStr VERIFIED_TOKEN) s)).

End VerifiedBadgeTelegramMiniApp.

(** ** Facts *)

(** The HTML of JSX: React spells the camel-case attributes with dashes. *)
Definition dashed (k : string) : string :=
  match assoc String.eqb k [("strokeWidth", "stroke-width"); ("strokeLinecap", "stroke-linecap"); ("textAnchor", "text-anchor");
                            ("fontSize", "font-size"); ("fontWeight", "font-weight"); ("fontFamily", "font-family");
                            ("stopColor", "stop-color"); ("stopOpacity", "stop-opacity")] with
  | Some d => d | None => k end.

Definition quoted (s : string) : string := String dquote (s ++ String dquote EmptyString).

Definition attribute_html (a : attribute) : string :=
  match a with
  | Attr k v => " " ++ dashed k ++ "=" ++ quoted v
  | Style css => " style=" ++ quoted (join ";" (map (fun '(k, v) => dashed k ++ ":" ++ v) css))
  end.

Fixpoint html (x : jsx) : string :=
  match x with
  | Txt s => s
  | El tag attrs children =>
      "<" ++ tag ++ fold_right append EmptyString (map attribute_html attrs) ++
      match children with
      | [] => "/>"
      | _ => ">" ++ fold_right append EmptyString (map html children) ++ "</" ++ tag ++ ">"
      end
  end.

Module TokenBadgeFacts.
Import TokenBadge.

Inductive op : Type := Update (next : props) | Fetched (address : jsval).

Definition run (o : op) : JS TokenBadge.t unit := match o with Update p => update p | Fetched a => onFetched a end.
Definition enabled (o : op) (s : TokenBadge.t) : Prop := match o with Update _ => True | Fetched a => In a (waiting s) end.

(** A mounted component: it shows no error, loads only while it waits for
    metadata, and has a badge whenever it does not load. *)
Definition wf (s : TokenBadge.t) : Prop :=
  error s = VNull /\ (loading s = true -> waiting s <> []) /\ (badge s = None -> loading s = true).

(** The badge the props call for. *)
Definition expected (p : props) : Metadata.badge :=
  let md := value (metadata p) in
  let address := value (contractAddress p) in
  if truthy md then detectTokenBadge md
  else if truthy address then detectTokenBadge (getMockMetadata address) else UNKNOWN.

(** What detection does: it shows the badge, or waits for the metadata. *)
Lemma detectBadge_spec s t :
  wp detectBadge
    (fun _ s' t' => t' = t /\ let p := this_props s in
       s' = if truthy (value (metadata p)) || negb (truthy (value (contractAddress p))) then set_badge (expected p) s
            else set_waiting (waiting s ++ [value (contractAddress p)]) (set_loading s))
    (fun _ _ _ => False) s t.
Proof.
  unfold detectBadge, expected, fetchMetadataFromAddress. wp_step. do 2 wp_step.
  destruct (truthy (value (metadata (this_props s)))), (truthy (value (contractAddress (this_props s)))); cbn [negb andb orb]; wp_auto; auto.
Qed.

Lemma detect_wf s t : error s = VNull -> wp detectBadge (fun _ s' _ => wf s') (fun _ _ _ => False) s t.
Proof.
  intros E. eapply wp_mono; [..|exact (detectBadge_spec s t)]; cbn beta; [|tauto]. intros _ s' _ [_ ->]. cbv zeta.
  destruct (_ || _); (split; [exact E|]); split; try discriminate; try tauto. intros _. destruct (waiting s); discriminate.
Qed.

Lemma badge_run_wf o s t : enabled o s -> wf s -> wp (run o) (fun _ s' _ => wf s') (fun _ s' _ => wf s') s t.
Proof.
  intros _ W. destruct o as [p|a]; cbn [run].
  - unfold update. do 4 wp_step. destruct (_ || _); [|wp_step; exact W].
    eapply wp_mono; [..|apply detect_wf, W]; cbn beta; tauto.
  - unfold onFetched. do 4 wp_step. split; [apply W|]. split; discriminate.
Qed.

End TokenBadgeFacts.

Module RegistryFacts.
Import VerifiedBadgeTelegramMiniApp.

Inductive op : Type := Add (assetId : string) (type : jsval) | Remove (assetId : string).

Definition run (o : op) (s : VerifiedBadgeTelegramMiniApp.t) : VerifiedBadgeTelegramMiniApp.t :=
  match o with Add a ty => addVerifiedAsset a ty s | Remove a => removeVerifiedAsset a s end.

(** What the last operation on an asset says of it. *)
Fixpoint last_said (assetId : string) (ops : list op) (before : bool) : bool :=
  match ops with
  | [] => before
  | Add a _ :: l => last_said assetId l (if a =? assetId then true else before)
  | Remove a :: l => last_said assetId l (if a =? assetId then false else before)
  end.

Lemma run_verified o s a : isAssetVerified a (run o s) = last_said a [o] (isAssetVerified a s).
Proof.
  destruct o as [b ty|b]; cbn [run last_said]; unfold isAssetVerified; cbn [addVerifiedAsset removeVerifiedAsset verifiedAssets];
    destruct (String.eqb_spec b a) as [->|N].
  - rewrite (assoc_set_same _ String.eqb_spec). reflexivity.
  - rewrite (assoc_set_other _ String.eqb_spec) by exact N. reflexivity.
  - rewrite assoc_del_same. reflexivity.
  - rewrite (assoc_del_other _ String.eqb_spec) by exact N. reflexivity.
Qed.

Lemma runs_verified ops s a : isAssetVerified a (fold_left (fun s o => run o s) ops s) = last_said a ops (isAssetVerified a s).
Proof.
  revert s. induction ops as [|o ops IH]; intros s; [reflexivity|]. cbn [fold_left]. rewrite IH, run_verified. destruct o; reflexivity.
Qed.

End RegistryFacts.

(** ** Theorems *)

(** A mounted token badge is always presentable: along every run of
    updates and arriving metadata it shows no error, loads only while
    metadata is on its way, and has a badge whenever it does not load. *)
Theorem token_badge_presentable p r s0 t0 s t :
  TokenBadge.componentDidMount (TokenBadge.constructor p) [] = (r, s0, t0) ->
  steps (machine_step TokenBadgeFacts.run TokenBadgeFacts.enabled) (s0, t0) (s, t) -> TokenBadgeFacts.wf s.
Proof.
  intros M St. refine (machine_invariant _ _ (fun s _ => TokenBadgeFacts.wf s) _ _ _ _ _ St _);
    [intros o s1 t1 He W; exact (TokenBadgeFacts.badge_run_wf o s1 t1 He W)|].
  pose proof (TokenBadgeFacts.detect_wf (TokenBadge.constructor p) [] eq_refl) as W. unfold wp in W. unfold TokenBadge.componentDidMount in M.
  rewrite M in W. destruct r; [exact W|contradiction].
Qed.

(** A component with nothing on its way shows what its new props call
    for: the badge of the metadata, of the metadata of the address once it
    has arrived, or the unknown badge. *)
Theorem token_badge_follows_props next s t :
  TokenBadge.waiting s = [] ->
  TokenBadge.differs (TokenBadge.metadata (TokenBadge.this_props s)) (TokenBadge.metadata next) = true ->
  wp (TokenBadge.update next ;;;
      let* w := read TokenBadge.waiting in
      for_each w TokenBadge.onFetched)
    (fun _ s' t' => t' = t /\ TokenBadge.badge s' = Some (TokenBadgeFacts.expected next) /\ TokenBadge.loading s' = false)
    (fun _ _ _ => False) s t.
Proof.
  intros W D. unfold TokenBadge.update. do 5 wp_step. rewrite D. cbn [orb].
  eapply wp_mono; [..|exact (TokenBadgeFacts.detectBadge_spec _ _)]; cbn beta; [|tauto]. intros _ s' t' [-> ->]. cbv zeta.
  cbn [TokenBadge.set_props TokenBadge.this_props TokenBadge.waiting]. do 2 wp_step. destruct (_ || _) eqn:C;
    cbn [TokenBadge.waiting TokenBadge.set_badge TokenBadge.set_waiting TokenBadge.set_loading TokenBadge.set_props].
  - rewrite W. cbn [for_each]. wp_step. auto.
  - rewrite W. cbn [app for_each]. unfold TokenBadge.onFetched. wp_auto. split; [reflexivity|]. split; [|reflexivity].
    apply orb_false_iff in C. destruct C as [C1 C2]. apply negb_false_iff in C2. unfold TokenBadgeFacts.expected. rewrite C1, C2. reflexivity.
Qed.

Definition address_props : TokenBadge.props := TokenBadge.Props (TokenBadge.Prop_ VUndef 0) (TokenBadge.Prop_ (VStr "0xabc") 0).
Definition verified_props : TokenBadge.props :=
  TokenBadge.Props (TokenBadge.Prop_ (VObj [("type", VStr "SHI-20"); ("verified", VBool true)]) 1) (TokenBadge.Prop_ (VStr "0xabc") 0).

Lemma token_badge_presentable_witness :
  exists s0 t0 s t, TokenBadge.componentDidMount (TokenBadge.constructor address_props) [] = (Ok tt, s0, t0) /\
    steps (machine_step TokenBadgeFacts.run TokenBadgeFacts.enabled) (s0, t0) (s, t) /\ TokenBadgeFacts.wf s /\
    TokenBadge.badge s = Some VERIFIED.
Proof.
  set (x0 := TokenBadge.componentDidMount (TokenBadge.constructor address_props) []).
  set (x := after_op TokenBadgeFacts.run (TokenBadgeFacts.Update verified_props) (snd (fst x0), snd x0)).
  exists (snd (fst x0)), (snd x0), (fst x), (snd x). split; [reflexivity|].
  assert (steps (machine_step TokenBadgeFacts.run TokenBadgeFacts.enabled) (snd (fst x0), snd x0) (fst x, snd x)) as St
    by (rewrite <- surjective_pairing; apply steps_one, after_op_step; exact I).
  split; [exact St|]. split; [exact (token_badge_presentable address_props (Ok tt) _ _ _ _ eq_refl St)|reflexivity].
Defined.

Lemma token_badge_follows_props_witness :
  wp (TokenBadge.update verified_props ;;; let* w := read TokenBadge.waiting in for_each w TokenBadge.onFetched)
    (fun _ s' t' => t' = [] /\ TokenBadge.badge s' = Some VERIFIED /\ TokenBadge.loading s' = false)
    (fun _ _ _ => False) (TokenBadge.constructor address_props) [].
Proof. exact (token_badge_follows_props verified_props (TokenBadge.constructor address_props) [] eq_refl eq_refl). Defined.

(** A late answer overwrites the badge: when metadata is given while that
    of an address is on its way, the badge of the metadata is shown until the
    answer for the address arrives, and then the badge of the answer. *)
Theorem token_badge_stale next a s t :
  In a (TokenBadge.waiting s) -> truthy (TokenBadge.value (TokenBadge.metadata next)) = true ->
  TokenBadge.differs (TokenBadge.metadata (TokenBadge.this_props s)) (TokenBadge.metadata next) = true ->
  wp (TokenBadge.update next)
    (fun _ s' t' => TokenBadge.badge s' = Some (detectTokenBadge (TokenBadge.value (TokenBadge.metadata next))) /\ In a (TokenBadge.waiting s') /\
       wp (TokenBadge.onFetched a)
         (fun _ s'' _ => TokenBadge.this_props s'' = next /\
            TokenBadge.badge s'' = Some (detectTokenBadge (TokenBadge.getMockMetadata a))) (fun _ _ _ => False) s' t')
    (fun _ _ _ => False) s t.
Proof.
  intros I M D. unfold TokenBadge.update. do 4 wp_step. rewrite D. cbn [orb].
  eapply wp_mono; [..|exact (TokenBadgeFacts.detectBadge_spec _ _)]; cbn beta; [|tauto]. intros _ s' t' [-> ->]. cbv zeta.
  change (TokenBadge.this_props (TokenBadge.set_props next s)) with next. rewrite M. cbn [orb].
  split; [cbn; unfold TokenBadgeFacts.expected; rewrite M; reflexivity|]. split; [exact I|]. unfold TokenBadge.onFetched. wp_auto. auto.
Qed.

Lemma token_badge_stale_witness :
  wp (TokenBadge.update verified_props)
    (fun _ s' t' => TokenBadge.badge s' = Some VERIFIED /\
       wp (TokenBadge.onFetched (VStr "0xabc")) (fun _ s'' _ => TokenBadge.badge s'' = Some UNKNOWN) (fun _ _ _ => False) s' t')
    (fun _ _ _ => False) (TokenBadge.T address_props None true VNull [VStr "0xabc"]) [].
Proof.
  eapply wp_mono; [..|apply (token_badge_stale verified_props (VStr "0xabc")); [left; reflexivity|reflexivity|reflexivity]]; cbn beta; [|tauto].
  intros _ s' t' (B & _ & W). split; [exact B|]. eapply wp_mono; [..|exact W]; cbn beta; [|tauto]. intros _ s'' _ [_ E]. exact E.
Defined.

(** The web and the Telegram badges are the same: for each of the four
    types the picture is the same up to white space and the tooltip the same
    text, and any other text has neither. *)
Theorem badge_views_agree ty id :
  let tg := VerifiedBadgeTelegramMiniApp.createVerifiedBadge ty id in
  if mem_string ty [VERIFIED_TOKEN; VERIFIED_NFT; TRUSTED_CREATOR; LEGAL_WARNING] then
    exists title svg,
      VerifiedBadgeSystem.render (VStr ty) false false = VerifiedBadgeSystem.BadgeView (VerifiedBadgeTelegramMiniApp.className tg) title (Some svg) /\
      title = VStr (VerifiedBadgeTelegramMiniApp.el_title tg) /\ strip_ws (html svg) = strip_ws (VerifiedBadgeTelegramMiniApp.innerHTML tg)
  else getBadgeSVG ty = None /\
    (mem_string ty object_prototype = false ->
     VerifiedBadgeTelegramMiniApp.innerHTML tg = EmptyString /\ VerifiedBadgeTelegramMiniApp.el_title tg = EmptyString).
Proof.
  cbv zeta. destruct (mem_string ty _) eqn:M.
  - apply mem_string_In in M. destruct M as [<- | [<- | [<- | [<- | []]]]]; do 2 eexists; (split; [reflexivity|]); (split; [reflexivity|]);
      vm_compute; reflexivity.
  - unfold mem_string in M. cbn [existsb] in M. rewrite !orb_false_iff in M. destruct M as (M1 & M2 & M3 & M4 & _).
    split; [unfold getBadgeSVG; rewrite M1, M2, M3, M4; reflexivity|]. intros P.
    cbn [VerifiedBadgeTelegramMiniApp.createVerifiedBadge VerifiedBadgeTelegramMiniApp.innerHTML VerifiedBadgeTelegramMiniApp.el_title].
    unfold VerifiedBadgeTelegramMiniApp.createBadgeSVG, obj_get, own, VerifiedBadgeTelegramMiniApp.svgMap, tooltips, inherited.
    cbn [assoc]. rewrite M1, M2, M3, M4, P. split; reflexivity.
Qed.

(** The registry of verified assets is a set: after any sequence of
    additions and removals, starting with the assets of [init], an asset is
    verified exactly when the last operation on it was an addition, whatever
    the type it was added with, a legal warning included. *)
Theorem verified_registry_is_set ops a :
  let s := VerifiedBadgeTelegramMiniApp.init VerifiedBadgeTelegramMiniApp.constructor in
  VerifiedBadgeTelegramMiniApp.isAssetVerified a (fold_left (fun s o => RegistryFacts.run o s) ops s) =
  RegistryFacts.last_said a ops (mem_string a ["SHAH-TOKEN-001"; "SHAH-NFT-001"; "CREATOR-001"]).
Proof.
  cbv zeta. rewrite RegistryFacts.runs_verified. f_equal. unfold VerifiedBadgeTelegramMiniApp.isAssetVerified. cbn.
  destruct (a =? "SHAH-TOKEN-001"); [reflexivity|]. destruct (a =? "SHAH-NFT-001"); [reflexivity|]. destruct (a =? "CREATOR-001"); reflexivity.
Qed.
