(* ===== verification/BadgeViews.v ===== *)
(** * Views around badges, and the footer

    [TokenBadge] as an element and the components that show it
    ([TokenBadgeGroup], [TokenBadgeWithInfo], [TokenBadgeList] of
    src/sdk-core/smart-contract-toolkit/TokenBadge.jsx), and [LegalFooter] of
    src/web/components/LegalFooter.jsx.  A component that shows badges holds
    the state of each of them. *)

From Stdlib Require Import ZArith Bool List String.
From S2P Require Import Prelude JsNum JsVal JsMonad Machine Metadata Badges Jsx.
Import ListNotations.
Local Open Scope string_scope.

Section Elements.
Context {A : Type}.

(** The element of a badge; the handler is the one given, for a click and for
    the keys Enter and Space. *)
Definition badge_element (handler : option (list A)) (v : TokenBadge.view) : html A :=
  el "span" ([cls (TokenBadge.classes v); prop "title" (TokenBadge.title v); prop "aria-label" (TokenBadge.ariaLabel v);
              prop "tabIndex" (TokenBadge.tabIndex v); prop "role" (TokenBadge.role v);
              prop "style" (VObj [("cursor", VStr (TokenBadge.cursor v))])] ++
             match handler with Some acts => [onClick acts] | None => [] end) [
    each (TokenBadge.content v) (fun _ s => el "span" [] [txt s]);
    match TokenBadge.alert v with Some text => el "span" [cls "sr-only"; prop "role" (VStr "alert")] [txt text] | None => nothing end].

(** [<TokenBadge size className onClick/>], the other props at their defaults. *)
Definition Badge (size className : string) (handler : option (list A)) (s : TokenBadge.t) : html A :=
  badge_element handler
    (TokenBadge.render size className true true (match handler with Some _ => true | None => false end) VUndef VUndef VUndef VUndef s).

(** A member of a group may bring a size of its own. *)
Definition TokenBadgeGroup (badges : list (option string * TokenBadge.t)) (className size : string) : html A :=
  el "div" [cls (trim ("badge-group " ++ className))] [
    each badges (fun _ '(own, s) => Badge (match own with Some x => x | None => size end) EmptyString None s)].

Definition TokenBadgeList (tokens : list (jsval * TokenBadge.t)) (className size : string) : html A :=
  el "div" [cls (trim ("token-badge-list " ++ className))] [
    each tokens (fun index '(name, s) =>
      el "div" [prop "key" (vnum (Z.of_nat index)); cls "token-badge-item"] [
        el "span" [cls "token-name"] [dyn name];
        Badge size EmptyString None s])].

Definition LegalFooter : html A :=
  el "footer" [cls "legal-footer"] [
    el "div" [cls "legal-footer-content"] [
      el "div" [cls "legal-disclaimer"] [
        el "p" [cls "text-xs text-gray-500 text-center"] [
          txt "Shahcoin® is a registered trademark owned by Hamid Rad. All rights reserved. This website and related code are provided under Apache 2.0 License. Unauthorized use of the Shahcoin name, logo, or branding is strictly prohibited."]];
      el "div" [cls "legal-links"] [
        el "a" [prop "href" (VStr "/license"); cls "legal-link"] [txt "License"];
        el "span" [cls "separator"] [txt "•"];
        el "a" [prop "href" (VStr "/legal"); cls "legal-link"] [txt "Legal"];
        el "span" [cls "separator"] [txt "•"];
        el "a" [prop "href" (VStr "/trademark"); cls "legal-link"] [txt "Trademark"]];
      el "div" [cls "build-signature"] [el "p" [cls "build-info"] [txt "Built by Shahcoin Team • © Hamid Rad"]]]].

End Elements.

(** ** A badge with information *)

Inductive info_action : Type := ToggleInfo.

(** Its class prop is taken out of the props the badge gets. *)
Definition TokenBadgeWithInfo (showInfo : bool) (infoContent : jsval) (className size : string) (s : TokenBadge.t) : html info_action :=
  el "div" [cls (trim ("badge-with-info-container " ++ className))] [
    Badge size "badge-with-info" (Some [ToggleInfo]) s;
    when showInfo (cond infoContent (el "div" [cls "badge-info-popup"] [dyn infoContent]))].

Definition info_run (acts : list info_action) : JS bool unit := for_each acts (fun 'ToggleInfo => TokenBadge.toggleInfo).

(** ** Facts *)

Lemma badge_shown {A} size className handler s : outcome (Badge (A := A) size className handler s) = None.
Proof.
  unfold Badge, badge_element. autorewrite with outcome. rewrite outcome_each_none by reflexivity. destruct (TokenBadge.alert _); reflexivity.
Qed.

(** Groups, lists of named tokens and the footer can always be shown. *)
Lemma group_shown {A} badges className size : outcome (TokenBadgeGroup (A := A) badges className size) = None.
Proof. unfold TokenBadgeGroup. autorewrite with outcome. rewrite outcome_each_none; [reflexivity|]. intros i [own s] _. apply badge_shown. Qed.

Lemma list_shown {A} tokens className size : Forall (fun t => exists name, fst t = VStr name) tokens -> outcome (TokenBadgeList (A := A) tokens className size) = None.
Proof.
  intros F. unfold TokenBadgeList. autorewrite with outcome. rewrite outcome_each_none; [reflexivity|]. intros i [name s] I. rewrite Forall_forall in F.
  destruct (F _ I) as [x E]. cbn in E. subst name. autorewrite with outcome. apply badge_shown.
Qed.

Lemma info_hears showInfo infoContent className size s : hears Bubbling [] (TokenBadgeWithInfo showInfo infoContent className size s) [Clicked [ToggleInfo]].
Proof.
  assert (hears Bubbling [] (Badge size "badge-with-info" (Some [ToggleInfo]) s) [Clicked [ToggleInfo]]) as B.
  { unfold Badge, badge_element. cbn [app]. intros ns E e N. unfold el at 1 in E. destruct (fragment _) as [ks|] eqn:Ek in E; [|discriminate E]. injection E as <-.
    cbn [flat_map happenings]. rewrite app_nil_r. cbn [disabled attr_of]. cbn -[happenings In]. split; [|intros [<-|[]]; left; reflexivity].
    intros [<-|I]; [left; reflexivity|]. left. symmetry. apply in_flat_map in I as (k & Ik & I).
    assert (passive (fragment [each (TokenBadge.content (TokenBadge.render size "badge-with-info" true true true VUndef VUndef VUndef VUndef s)) (fun _ x => el "span" [] [txt x]);
      match TokenBadge.alert (TokenBadge.render size "badge-with-info" true true true VUndef VUndef VUndef VUndef s) with
      | Some text => el "span" [cls "sr-only"; prop "role" (VStr "alert")] [txt text] | None => nothing end]) (A := info_action)) as P.
    { red. destruct (TokenBadge.alert _); throughout ltac:(reflexivity). }
    specialize (P ks Ek). rewrite forallb_forall in P. exact (static_happens Bubbling [ToggleInfo] k (P k Ik) e I). }
  eapply hears_iff; [unfold TokenBadgeWithInfo; boxes|listed].
Qed.

(** A badge with information does one thing: whatever is clicked, the click
    opens the information when it is closed and closes it when it is open. *)
Theorem badge_info_toggles showInfo infoContent className size s ns acts t :
  TokenBadgeWithInfo showInfo infoContent className size s = Ok ns ->
  (offered Bubbling ns acts <-> acts = [ToggleInfo]) /\
  (offered Bubbling ns acts -> wp (info_run acts) (fun _ showInfo' _ => showInfo' = negb showInfo) (fun _ _ _ => False) showInfo t).
Proof.
  intros E. rewrite (hears_offered _ _ _ _ _ (info_hears showInfo infoContent className size s) E).
  assert ((acts <> [] /\ exists e, In e [Clicked [ToggleInfo]] /\ performs e acts) <-> acts = [ToggleInfo]) as O.
  { split; [intros (_ & e & [<-|[]] & P); exact P|intros ->; split; [discriminate|]]. exists (Clicked [ToggleInfo]). split; [left|]; reflexivity. }
  split; [exact O|]. intros K. apply O in K. subst acts. reflexivity.
Qed.
