(* ===== verification/LegalNotices.v ===== *)
(** * Legal notices (Telegram)

    [LegalDisclaimerTelegramMiniApp] of
    src/telegram/LegalDisclaimerTelegramMiniApp.js: the notices, as the
    elements the class makes, and the dialog with its overlay in the page.
    The text of the style sheet is an argument. *)

From Stdlib Require Import ZArith Bool Lia List String.
From S2P Require Import Prelude JsNum JsVal JsMonad Machine Session Solidity.
Import ListNotations.
Local Open Scope string_scope.

(** An element: its class, and its text, its HTML or its children. *)
Inductive content : Type := Text (s : string) | HTML (s : string) | Children (l : list elem)
with elem : Type := Elem (tag className : string) (inside : content).

Record t : Type := T { buildSignature : string; versionInfo : string }.

Definition constructor : t :=
  T "Built by Shahcoin Team • © Hamid Rad" "Shahcoin Core v1.0.0 | Signed Build by Shahcoin Team © Hamid Rad".

Definition getFooterText : string := "SHAHCOIN® is a registered trademark owned by Hamid Rad. Licensed under Apache 2.0.".

Definition getAboutText : string := "
            <p><strong>SHAHCOIN®, SHAH, SHAHI</strong>, and associated logos are registered trademarks of the Shahcoin project.</p>
            
            <h4>Trademark Notice:</h4>
            <ul>
                <li>SHAHCOIN®, SHAH, SHAHI are protected trademarks</li>
                <li>Unauthorized use of branding is strictly prohibited</li>
                <li>You may not use these names in forked projects</li>
            </ul>
            
            <h4>Code License:</h4>
            <ul>
                <li>Core blockchain: Apache 2.0 License</li>
                <li>UI modules: Apache 2.0 with branding restrictions</li>
            </ul>
            
            <p>For licensing inquiries: <strong>Info@shah.vip</strong></p>
        ".

Definition getCreationWarningText : string :=
  sol "⚠️ You may not use `SHAH`, `SHAHCOIN` or any official branding in your project name or logo unless explicitly authorized. See LICENSE and NOTICE files for legal terms.".

Definition getFullLegalText (this : t) : string := "
            <h3>Trademark Protection</h3>
            <p><strong>SHAHCOIN®, SHAH, SHAHI</strong>, and associated logos are registered trademarks of the Shahcoin project. 
            Unauthorized use of these names, marks, or graphical assets is strictly prohibited.</p>
            
            <h3>License Information</h3>
            <p>This project uses a dual licensing strategy:</p>
            <ul>
                <li><strong>Core blockchain code:</strong> Apache License 2.0</li>
                <li><strong>UI modules and premium features:</strong> Apache 2.0 with branding restrictions</li>
            </ul>
            
            <h3>Usage Restrictions</h3>
            <p>You may:</p>
            <ul>
                <li>Fork and modify the code under Apache 2.0 license</li>
                <li>Use the code in your own projects with attribution</li>
            </ul>
            
            <p>You may NOT:</p>
            <ul>
                <li>Use SHAHCOIN®, SHAH, or SHAHI names in your projects</li>
                <li>Use SHAHCOIN logos or branding without permission</li>
                <li>Create tokens/NFTs with SHAH-branded names</li>
                <li>Imply affiliation with the Shahcoin project</li>
            </ul>
            
            <h3>Enforcement</h3>
            <p>Violations of trademark rights will result in:</p>
            <ul>
                <li>Legal action and takedown requests</li>
                <li>DMCA notices for unauthorized use</li>
                <li>Potential legal proceedings</li>
            </ul>
            
            <h3>Contact Information</h3>
            <p>For licensing requests and legal inquiries: <strong>Info@shah.vip</strong></p>
            
            <hr>
            <p><em>" ++ buildSignature this ++ "</em></p>
        ".

Definition getBuildSignature (this : t) : string := buildSignature this.
Definition getVersionInfo (this : t) : string := versionInfo this.

Definition createFooterDisclaimer (this : t) : elem :=
  Elem "div" "legal-footer-disclaimer" (Children [Elem "p" "disclaimer-text" (Text getFooterText); Elem "p" "build-info" (Text (buildSignature this))]).

Definition createAboutDisclaimer (this : t) : elem :=
  Elem "div" "legal-about-disclaimer"
    (Children [Elem "h3" "legal-title" (Text "SHAHCOIN® Legal Information"); Elem "div" "legal-content" (HTML getAboutText);
               Elem "p" "build-signature" (Text (buildSignature this))]).

Definition createCreationWarning : elem :=
  Elem "div" "legal-creation-warning"
    (Children [Elem "span" "warning-icon" (Text "⚠️"); Elem "p" "warning-text" (Text getCreationWarningText)]).

Definition createFullLegalDialog (this : t) : elem :=
  Elem "div" "legal-full-dialog"
    (Children [Elem "div" "dialog-header" (HTML "<h2>SHAHCOIN® Legal Information</h2>"); Elem "div" "dialog-content" (HTML (getFullLegalText this));
               Elem "div" "dialog-footer"
                 (Children [Elem "button" "dialog-button license-button" (Text "View License");
                            Elem "button" "dialog-button close-button" (Text "Close")])]).

(** ** The page *)

(** The children of the body by identity, in document order; [covers] is the
    dialog that the click handler of an overlay closes. *)
Record node : Type := Node { identity : nat; element : elem; covers : option nat }.
Record page : Type := Page { nextId : nat; body : list node; styles : list string }.

Definition page0 : page := Page 0 [] [].

Definition appendChild (e : elem) (over : option nat) (p : page) : page :=
  Page (S (nextId p)) (body p ++ [Node (nextId p) e over]) (styles p).

(** [closeDialog]: removing from the parent, when there still is one. *)
Definition closeDialog (dialog : nat) (p : page) : page :=
  Page (nextId p) (filter (fun n => negb (identity n =? dialog)%nat) (body p)) (styles p).

Definition showFullLegalDialog (this : t) (p : page) : page :=
  appendChild (Elem "div" "dialog-overlay" (Children [])) (Some (nextId p)) (appendChild (createFullLegalDialog this) None p).

(** [init]: the style sheet is added to the head. *)
Definition init (text : string) (p : page) : page := Page (nextId p) (body p) (styles p ++ [text]).

Definition LICENSE_URL : string := "https://github.com/shahcoin/shahcoin/blob/main/LICENSE.md".

Definition openLicense `{Env} {S} (webApp : bool) : JS S unit :=
  (if webApp then ext "Telegram.WebApp.openLink" [VStr LICENSE_URL] else ext "window.open" [VStr LICENSE_URL; VStr "_blank"]) ;;; ret tt.

(** ** Facts *)

(** What a user does: open the dialog, press its Close button, or click an
    overlay. *)
Inductive op : Type := Show | Close (dialog : nat) | ClickOverlay (overlay : nat).

Definition find_node (i : nat) (p : page) : option node := find (fun n => identity n =? i)%nat (body p).

Definition run (o : op) : JS page unit :=
  match o with
  | Show => modify (showFullLegalDialog constructor)
  | Close d => modify (closeDialog d)
  | ClickOverlay i =>
      modify (fun p => match find_node i p with Some n => match covers n with Some d => closeDialog d p | None => p end | None => p end)
  end.

(** A Close button is one of a dialog in the page. *)
Definition enabled (o : op) (p : page) : Prop :=
  match o with Close d => exists n, In n (body p) /\ identity n = d /\ covers n = None | _ => True end.

Definition overlay (n : node) : bool := match covers n with Some _ => true | None => false end.

(** Dialogs have even, overlays odd identities, and an overlay covers the
    dialog made before it; every overlay ever made is in the page. *)
Definition wf (p : page) : Prop :=
  Nat.Even (nextId p) /\
  Forall (fun n => match covers n with None => Nat.Even (identity n) | Some d => Nat.Even d /\ identity n = S d end) (body p) /\
  map identity (filter overlay (body p)) = map (fun k => 2 * k + 1)%nat (seq 0 (Nat.div2 (nextId p))).

Lemma even_not_odd d n : Nat.Even d -> Nat.Even n -> (S n =? d)%nat = false.
Proof. intros [a ->] [b ->]. apply Nat.eqb_neq. lia. Qed.

Lemma close_wf d p : Nat.Even d -> wf p -> wf (closeDialog d p).
Proof.
  intros Ed (E & F & O). split; [exact E|]. cbn [closeDialog body nextId]. split.
  - rewrite Forall_forall in *. intros n I. apply filter_In in I. apply F, I.
  - rewrite <- O. f_equal. clear O. induction F as [|n l Hn F IH]; [reflexivity|]. cbn [filter].
    destruct (identity n =? d)%nat eqn:Ei; cbn [negb].
    + replace (overlay n) with false; [exact IH|]. unfold overlay. destruct (covers n) as [c|]; [|reflexivity]. exfalso.
      destruct Hn as [Ec Hi]. rewrite Hi, even_not_odd in Ei by assumption. discriminate.
    + cbn [filter]. destruct (overlay n); rewrite IH; reflexivity.
Qed.

Lemma show_wf this p : wf p -> wf (showFullLegalDialog this p).
Proof.
  intros ([k Hk] & F & O). unfold wf, showFullLegalDialog, appendChild. cbn [nextId body]. rewrite Hk in *. split; [exists (S k); lia|]. split.
  - rewrite !Forall_app. repeat split; [exact F|constructor; [|constructor]..]; cbn; [exists k; lia|]. split; [exists k; lia|lia].
  - rewrite !filter_app, !map_app, O. cbn [filter overlay covers map identity app].
    replace (Nat.div2 (S (S (2 * k)))) with (S (Nat.div2 (2 * k))) by reflexivity. rewrite Nat.div2_double, seq_S, map_app. cbn [map]. rewrite app_nil_r.
    do 2 f_equal. lia.
Qed.

Lemma legal_run_wf o p t : enabled o p -> wf p -> wp (run o) (fun _ p' _ => wf p') (fun _ p' _ => wf p') p t.
Proof.
  intros He W. destruct o as [|d|i]; cbn [run enabled] in *; wp_step.
  - apply show_wf, W.
  - destruct He as (n & I & <- & C). apply close_wf; [|exact W]. destruct W as (_ & F & _). rewrite Forall_forall in F. specialize (F n I).
    rewrite C in F. exact F.
  - destruct (find_node i p) as [n|] eqn:E; [|exact W]. destruct (covers n) as [d|] eqn:C; [|exact W]. apply close_wf; [|exact W].
    apply find_some in E. destruct E as [I _]. destruct W as (_ & F & _). rewrite Forall_forall in F. specialize (F n I). rewrite C in F. apply F.
Qed.

(** ** Theorems *)

(** Overlays are never removed: along every run of opening and closing
    the dialog, each overlay that was ever added is still in the page, one for
    each time the dialog was opened, also when no dialog is left. *)
Theorem legal_overlays_stay p t :
  steps (machine_step run enabled) (page0, []) (p, t) ->
  map identity (filter overlay (body p)) = map (fun k => 2 * k + 1)%nat (seq 0 (Nat.div2 (nextId p))).
Proof.
  intros St. refine (proj2 (proj2 (machine_invariant _ _ (fun p _ => wf p) _ _ _ _ _ St _))).
  - intros o p1 t1 He W. exact (legal_run_wf o p1 t1 He W).
  - split; [exists 0; reflexivity|]. split; [constructor|reflexivity].
Qed.

Lemma legal_overlays_stay_witness :
  exists p t, steps (machine_step run enabled) (page0, []) (p, t) /\ map identity (filter overlay (body p)) = [1] /\ List.length (body p) = 1.
Proof.
  set (x := after_op run (Close 0) (after_op run Show (page0, []))). exists (fst x), (snd x).
  assert (steps (machine_step run enabled) (page0, []) (fst x, snd x)) as St.
  { rewrite <- surjective_pairing. eapply steps_trans; [apply steps_one, (after_op_step run enabled Show); exact I|]. apply steps_one, after_op_step.
    exists (Node 0 (createFullLegalDialog constructor) None). repeat split. left. reflexivity. }
  split; [exact St|]. split; [exact (legal_overlays_stay _ _ St)|reflexivity].
Defined.

(** Closing works: a dialog that was just opened is gone after its Close
    button or its overlay was used, and nothing else of the page changed. *)
Theorem legal_dialog_closes this p :
  Forall (fun n => identity n < nextId p) (body p) ->
  let d := nextId p in
  let shown := showFullLegalDialog this p in
  closeDialog d shown = Page (nextId shown) (body p ++ [Node (S d) (Elem "div" "dialog-overlay" (Children [])) (Some d)]) (styles p).
Proof.
  intros L. cbv zeta. unfold showFullLegalDialog, appendChild, closeDialog. cbn [nextId body styles]. f_equal. rewrite !filter_app.
  cbn [filter identity]. rewrite Nat.eqb_refl. replace (S (nextId p) =? nextId p)%nat with false by (symmetry; apply Nat.eqb_neq; lia).
  cbn [negb app]. rewrite app_nil_r. f_equal. induction L as [|n l Hn L IH]; [reflexivity|]. cbn [filter].
  replace (identity n =? nextId p)%nat with false by (symmetry; apply Nat.eqb_neq; lia). cbn [negb]. f_equal. exact IH.
Qed.

Lemma legal_dialog_closes_witness :
  closeDialog 0 (showFullLegalDialog constructor page0) = Page 2 [Node 1 (Elem "div" "dialog-overlay" (Children [])) (Some 0)] [].
Proof. exact (legal_dialog_closes constructor page0 (Forall_nil _)). Defined.
