(* ===== verification/StyleSheets.v ===== *)
(** * Style sheets

    The style sheets the program installs, as rules (a selector and its
    declarations): of src/telegram/LegalDisclaimerTelegramMiniApp.js, of
    src/telegram/SmartUnitDisplayTelegramMiniApp.js and the scoped style of
    src/web/components/UpgradeAIWallet.vue; and that the classes of the
    elements the program makes have rules. *)

From Stdlib Require Import ZArith Bool List String Ascii.
From S2P Require Import Prelude JsNum JsVal LegalNotices SmartUnitsTelegram Upgrade Jsx UpgradeViews.
Import ListNotations.
Local Open Scope string_scope.

Definition sheet : Type := list (string * list (string * string)).

(** [addStyles] of LegalDisclaimerTelegramMiniApp.js. *)
Definition legal_sheet : sheet := [
  (".legal-footer-disclaimer", [("background", "#f8f9fa"); ("border-top", "1px solid #dee2e6"); ("padding", "15px"); ("text-align", "center");
    ("font-size", "12px"); ("color", "#6c757d")]);
  (".disclaimer-text", [("margin", "0 0 10px 0"); ("line-height", "1.4")]);
  (".build-info", [("margin", "0"); ("font-size", "11px"); ("font-style", "italic"); ("color", "#6c757d")]);
  (".legal-creation-warning", [("background", "#fff3cd"); ("border", "1px solid #ffc107"); ("border-radius", "4px"); ("padding", "12px");
    ("margin", "10px 0"); ("display", "flex"); ("align-items", "flex-start"); ("gap", "8px")]);
  (".warning-icon", [("font-size", "16px"); ("color", "#E65100"); ("flex-shrink", "0")]);
  (".warning-text", [("margin", "0"); ("color", "#E65100"); ("font-weight", "bold"); ("font-size", "12px"); ("line-height", "1.4")]);
  (".legal-full-dialog", [("position", "fixed"); ("top", "50%"); ("left", "50%"); ("transform", "translate(-50%, -50%)"); ("background", "white");
    ("border-radius", "8px"); ("box-shadow", "0 4px 20px rgba(0,0,0,0.3)"); ("max-width", "90vw"); ("max-height", "80vh"); ("overflow", "hidden");
    ("z-index", "1001")]);
  (".dialog-overlay", [("position", "fixed"); ("top", "0"); ("left", "0"); ("right", "0"); ("bottom", "0"); ("background", "rgba(0,0,0,0.5)");
    ("z-index", "1000")]);
  (".dialog-header", [("padding", "20px 20px 0 20px"); ("border-bottom", "1px solid #dee2e6")]);
  (".dialog-header h2", [("margin", "0"); ("color", "#333"); ("font-size", "18px")]);
  (".dialog-content", [("padding", "20px"); ("max-height", "400px"); ("overflow-y", "auto"); ("font-size", "14px"); ("line-height", "1.6")]);
  (".dialog-footer", [("padding", "15px 20px"); ("border-top", "1px solid #dee2e6"); ("display", "flex"); ("justify-content", "flex-end");
    ("gap", "10px")]);
  (".dialog-button", [("padding", "8px 16px"); ("border", "none"); ("border-radius", "4px"); ("cursor", "pointer"); ("font-size", "14px");
    ("transition", "background-color 0.3s ease")]);
  (".close-button", [("background", "#6c757d"); ("color", "white")]);
  (".close-button:hover", [("background", "#5a6268")]);
  (".license-button", [("background", "#007bff"); ("color", "white")]);
  (".license-button:hover", [("background", "#0056b3")])].

(** [addStyles] of SmartUnitDisplayTelegramMiniApp.js. *)
Definition unit_sheet : sheet := [
  (".smart-unit-display", [("font-weight", "bold"); ("color", "#333"); ("cursor", "pointer"); ("padding", "2px 4px"); ("border-radius", "4px");
    ("background", "linear-gradient(135deg, #f8f9fa 0%, #e9ecef 100%)"); ("border", "1px solid #dee2e6"); ("transition", "all 0.3s ease")]);
  (".smart-unit-display:hover", [("background", "linear-gradient(135deg, #e9ecef 0%, #dee2e6 100%)"); ("transform", "translateY(-1px)");
    ("box-shadow", "0 2px 8px rgba(0,0,0,0.1)")]);
  (".smart-unit-settings", [("background", "white"); ("border-radius", "8px"); ("padding", "20px"); ("box-shadow", "0 2px 10px rgba(0,0,0,0.1)");
    ("border", "1px solid #dee2e6"); ("margin", "10px 0")]);
  (".toggle-switch", [("display", "flex"); ("align-items", "center"); ("cursor", "pointer"); ("margin-bottom", "15px")]);
  (".toggle-switch input", [("display", "none")]);
  (".toggle-switch .slider", [("width", "50px"); ("height", "24px"); ("background", "#ccc"); ("border-radius", "12px"); ("position", "relative");
    ("margin-right", "10px"); ("transition", "background 0.3s ease")]);
  (".toggle-switch .slider:before", [("content", "''"); ("position", "absolute"); ("width", "18px"); ("height", "18px"); ("border-radius", "50%");
    ("background", "white"); ("top", "3px"); ("left", "3px"); ("transition", "transform 0.3s ease"); ("box-shadow", "0 2px 4px rgba(0,0,0,0.2)")]);
  (".toggle-switch input:checked + .slider", [("background", "#007bff")]);
  (".toggle-switch input:checked + .slider:before", [("transform", "translateX(26px)")]);
  (".toggle-switch .label", [("font-size", "14px"); ("color", "#555")]);
  (".unit-explorer-btn", [("width", "100%"); ("padding", "10px 16px"); ("background", "linear-gradient(135deg, #007bff 0%, #0056b3 100%)");
    ("color", "white"); ("border", "none"); ("border-radius", "6px"); ("font-size", "14px"); ("font-weight", "500"); ("cursor", "pointer");
    ("transition", "all 0.3s ease"); ("box-shadow", "0 2px 4px rgba(0,123,255,0.3)")]);
  (".unit-explorer-btn:hover", [("background", "linear-gradient(135deg, #0056b3 0%, #004085 100%)"); ("transform", "translateY(-1px)");
    ("box-shadow", "0 4px 8px rgba(0,123,255,0.4)")])].

(** The scoped style of UpgradeAIWallet.vue. *)
Definition upgrade_sheet : sheet := [
  (".upgrade-card", [("background", "#0b1220"); ("color", "#e5e7eb"); ("border", "1px solid #1f2937"); ("border-radius", "12px");
    ("padding", "16px"); ("max-width", "720px")]);
  (".header .title-row", [("display", "flex"); ("align-items", "center"); ("gap", "8px")]);
  (".header .logo", [("font-size", "20px")]);
  (".subtitle", [("color", "#9ca3af"); ("margin-top", "4px")]);
  (".price-box", [("margin-top", "12px"); ("padding", "12px"); ("border", "1px solid #1f2937"); ("border-radius", "8px"); ("background", "#0f172a")]);
  (".price-row", [("display", "flex"); ("justify-content", "space-between"); ("margin", "4px 0")]);
  (".price-row .label", [("color", "#9ca3af")]);
  (".price-row.muted .value", [("color", "#9ca3af")]);
  (".section-title", [("margin-top", "16px"); ("margin-bottom", "8px"); ("font-weight", "600")]);
  (".methods", [("display", "grid"); ("gap", "10px")]);
  (".methods label", [("display", "flex"); ("align-items", "center"); ("gap", "8px"); ("padding", "10px"); ("border", "1px solid #1f2937");
    ("border-radius", "8px"); ("cursor", "pointer"); ("background", "#0f172a")]);
  (".methods input", [("accent-color", "#22c55e")]);
  (".icon", [("width", "18px"); ("text-align", "center")]);
  (".actions", [("display", "flex"); ("gap", "8px"); ("margin-top", "16px")]);
  (".btn", [("padding", "8px 12px"); ("border-radius", "8px"); ("background", "#111827"); ("color", "#e5e7eb"); ("border", "1px solid #374151")]);
  (".btn.primary", [("background", "#22c55e"); ("border-color", "#22c55e"); ("color", "#0b1220")]);
  (".btn.info", [("background", "#0ea5e9"); ("border-color", "#0ea5e9"); ("color", "#0b1220")]);
  (".btn:disabled", [("opacity", "0.6"); ("cursor", "not-allowed")]);
  (".message", [("margin-top", "10px"); ("color", "#9ca3af")]);
  (".success-box", [("margin-top", "16px"); ("display", "flex"); ("gap", "12px"); ("align-items", "center"); ("padding", "12px");
    ("border", "1px solid #1f2937"); ("border-radius", "8px"); ("background", "#0f172a")]);
  (".check", [("font-size", "20px")]);
  (".success-title", [("font-weight", "700")]);
  (".success-desc", [("color", "#9ca3af")]);
  (".fade-enter-active, .fade-leave-active", [("transition", "opacity .2s")]);
  (".fade-enter-from, .fade-leave-to", [("opacity", "0")])].

(** ** Rules for classes *)

(** A selector that names the class. *)
Definition names (selector name : string) : bool := includes selector ("." ++ name).
Definition has_rule (s : sheet) (name : string) : bool := existsb (fun '(selector, _) => names selector name) s.

(** The names in a [class] attribute. *)
Fixpoint words (s : string) : list string :=
  match s with
  | EmptyString => [EmptyString]
  | String c s' => if (c =? " ")%char then EmptyString :: words s' else match words s' with w :: l => String c w :: l | [] => [String c EmptyString] end
  end.

(** Every class of an element has a rule. *)
Definition ruled {A} (s : sheet) (attrs : list (string * attr A)) : bool :=
  match attr_of "class" attrs with VStr names => forallb (has_rule s) (words names) | _ => true end.

(** The declared value of a property of a class. *)
Definition declared_value (s : sheet) (name k : string) : option string :=
  match assoc String.eqb ("." ++ name) s with Some d => assoc String.eqb k d | None => None end.

Fixpoint classes_of (e : LegalNotices.elem) : list string :=
  match e with
  | LegalNotices.Elem _ className inside =>
      words className ++ match inside with LegalNotices.Children l => flat_map classes_of l | _ => [] end
  end%list.

(** ** Theorems *)

(** Every class the Vue upgrade page gives an element, in every state, has a
    rule in the page's style. *)
Theorem upgrade_page_ruled v p ns : vue_page v p = Ok ns -> forallb (every (ruled upgrade_sheet)) ns = true.
Proof.
  revert ns. change (throughout (ruled upgrade_sheet) (vue_page v p)). unfold vue_page, vue_row, vue_method, class. throughout ltac:(vm_compute; reflexivity).
Qed.

(** The legal dialog, the footer and the warning are styled; the notice of the
    about page is not: none of its classes has a rule.  The overlay of the dialog covers the whole page, under
    the dialog and over everything else. *)
Theorem legal_notices_ruled :
  let this := LegalNotices.constructor in
  forallb (has_rule legal_sheet)
    ("dialog-overlay" :: flat_map classes_of [LegalNotices.createFullLegalDialog this; LegalNotices.createFooterDisclaimer this; LegalNotices.createCreationWarning]) = true /\
  forallb (fun c => negb (has_rule legal_sheet c)) (classes_of (LegalNotices.createAboutDisclaimer this)) = true /\
  map (declared_value legal_sheet "dialog-overlay") ["position"; "top"; "left"; "right"; "bottom"; "z-index"] =
    map Some ["fixed"; "0"; "0"; "0"; "0"; "1000"] /\
  declared_value legal_sheet "legal-full-dialog" "z-index" = Some "1001".
Proof. vm_compute. repeat split. Qed.

(** The classes of the Telegram unit widgets. *)
Lemma unit_classes_ruled :
  forallb (has_rule unit_sheet) ["smart-unit-display"; "smart-unit-settings"; "toggle-switch"; "slider"; "label"; "unit-explorer-btn"] = true.
Proof. reflexivity. Qed.
