(* ===== verification/DevApi.v ===== *)
(** * The developer API server

    src/api/dev-api/src/index.ts: the order in which the server lays its
    middleware and routers, its own three handlers, and how it starts.  The
    middleware packages, the routers (none of which is in the repository) and
    the database are the environment: a handler passes a request on, answers
    it, or fails.  Express runs the layers in the order they were added, a
    failure going to the layers that handle errors; how it matches a path is
    an argument, of which only that the root and the star match every path is
    assumed. *)

From Stdlib Require Import ZArith Bool Lia List String Ascii.
From S2P Require Import Prelude JsNum JsVal JsMonad Machine.
Import ListNotations.
Local Open Scope string_scope.

(** The answers sent: status and body. *)
Definition answers : Type := list (Z * jsval).

Inductive verdict : Type := Passed | Answered | Failed (e : jserr).

(** [app.use(path, ...handlers)], [app.get(path, handler)] and
    [app.use(errorHandler)]. *)
Inductive layer : Type := Use (path : string) (handlers : list string) | Get (path handler : string) | OnError (handler : string).

Definition app : list layer :=
  [Use "/" ["helmet"]; Use "/" ["cors"]; Use "/" ["compression"]; Use "/" ["morgan"]; Use "/" ["express.json"]; Use "/" ["express.urlencoded"];
   Use "/" ["limiter"]; Get "/health" "health";
   Use "/api/auth" ["authRoutes"]; Use "/api/keys" ["authMiddleware"; "apiKeyRoutes"]; Use "/api/usage" ["authMiddleware"; "usageRoutes"];
   Use "/api/stats" ["statsRoutes"]; Use "/api/registry" ["registryRoutes"]; Use "/api/verified" ["verifiedRoutes"];
   Get "/api/docs" "docs"; Use "*" ["notFound"]; OnError "errorHandler"].

Definition docs_body : jsval := VObj [
    ("name", VStr "SHAHCOIN Developer API");
    ("version", VStr "1.0.0");
    ("description", VStr "API for SHAHCOIN developer tools and services");
    ("endpoints", VObj [
      ("auth", VObj [
        ("POST /api/auth/register", VStr "Register a new developer account");
        ("POST /api/auth/login", VStr "Login with email/password");
        ("POST /api/auth/wallet", VStr "Login with wallet signature");
        ("POST /api/auth/refresh", VStr "Refresh access token");
        ("POST /api/auth/logout", VStr "Logout and invalidate tokens")]);
      ("apiKeys", VObj [
        ("GET /api/keys", VStr "Get all API keys for the authenticated developer");
        ("POST /api/keys", VStr "Create a new API key");
        ("DELETE /api/keys/:id", VStr "Revoke an API key");
        ("PUT /api/keys/:id", VStr "Update API key permissions")]);
      ("usage", VObj [
        ("POST /api/usage", VStr "Log API usage for tracking");
        ("GET /api/usage", VStr "Get usage statistics for the developer");
        ("GET /api/usage/analytics", VStr "Get detailed usage analytics")]);
      ("stats", VObj [
        ("GET /api/stats", VStr "Get global platform statistics");
        ("GET /api/stats/developers", VStr "Get developer statistics");
        ("GET /api/stats/plugins", VStr "Get plugin statistics")]);
      ("registry", VObj [
        ("GET /api/registry", VStr "Get all plugins in the registry");
        ("POST /api/registry", VStr "Submit a new plugin");
        ("GET /api/registry/:id", VStr "Get plugin details");
        ("PUT /api/registry/:id", VStr "Update plugin information");
        ("DELETE /api/registry/:id", VStr "Remove plugin from registry")]);
      ("verified", VObj [
        ("GET /api/verified", VStr "Get verified developer status");
        ("POST /api/verified/apply", VStr "Apply for verified developer status");
        ("GET /api/verified/badge", VStr "Get verified developer badge")])]);
    ("authentication", VObj [
      ("type", VStr "Bearer Token");
      ("header", VStr "Authorization: Bearer <token>")]);
    ("rateLimiting", VObj [
      ("limit", VStr "100 requests per 15 minutes per IP");
      ("headers", VStr "X-RateLimit-* headers included")])].

Definition not_found_body (originalUrl : string) : jsval :=
  VObj [("error", VStr "Endpoint not found"); ("message", VStr ("The requested endpoint " ++ originalUrl ++ " does not exist"));
        ("availableEndpoints", VStr "/api/docs")].

(** The settings read from the process environment. *)
Record settings : Type := Settings { PORT : jsval; ALLOWED_ORIGINS : option string; NODE_ENV : jsval }.

Fixpoint split_commas (s : string) : list string :=
  match s with
  | EmptyString => [EmptyString]
  | String c s' =>
      match split_commas s' with
      | x :: l => if Ascii.eqb c "," then EmptyString :: x :: l else String c x :: l
      | [] => []
      end
  end.

Definition port (cfg : settings) : jsval := js_or (PORT cfg) (vnum 3001).
Definition corsOptions (cfg : settings) : jsval :=
  VObj [("origin", VArr (map VStr (match ALLOWED_ORIGINS cfg with Some s => split_commas s | None => ["http://localhost:3000"] end)));
        ("credentials", VBool true)].
Definition limiterOptions : jsval :=
  VObj [("windowMs", vnum (15 * 60 * 1000)); ("max", vnum 100); ("message", VStr "Too many requests from this IP, please try again later.");
        ("standardHeaders", VBool true); ("legacyHeaders", VBool false)].

Definition next : jsval := VStr "next".

Section Server.
Context `{Env} (cfg : settings) (under exactly : string -> string -> bool).
Notation JS := (JS answers).

Definition send (status : Z) (body : jsval) : JS verdict := modify (fun l => (l ++ [(status, body)])%list) ;;; ret Answered.

Definition health : JS verdict :=
  let* timestamp := iso_now in
  let* uptime := ext "process.uptime" [] in
  send 200 (VObj [("status", VStr "OK"); ("timestamp", timestamp); ("uptime", uptime); ("environment", js_or (NODE_ENV cfg) (VStr "development"))]).

(** A handler of the environment calls [next()], answers, or throws. *)
Definition outside (name url : string) : JS verdict :=
  let* r := ext name [VStr url] in ret (if is_str r "next" then Passed else Answered).

(** A handler by its name: one of the three of the file, or of the
    environment. *)
Definition handle (name url : string) : JS verdict :=
  if name =? "health" then health
  else if name =? "docs" then send 200 docs_body
  else if name =? "notFound" then send 404 (not_found_body url)
  else outside name url.

(** A throw is a failure handed to Express. *)
Definition guarded_handle (name url : string) : JS verdict := try_catch (handle name url) (fun e => ret (Failed e)).

Fixpoint handle_all (names : list string) (url : string) : JS verdict :=
  match names with
  | [] => ret Passed
  | n :: names' =>
      let* v := guarded_handle n url in
      match v with Passed => handle_all names' url | _ => ret v end
  end.

(** The layers from one on, for a request with its method or for a failed
    one; [app.get] takes GET and, as Express documents, HEAD. *)
Fixpoint dispatch (layers : list layer) (method url : string) (failed : option jserr) : JS unit :=
  match layers, failed with
  | [], _ => ext "finalhandler" [VStr url] ;;; ret tt
  | OnError h :: ls, Some e =>
      let* r := try_catch (let* r := ext h [err_obj e; VStr url] in ret (inl r)) (fun e' => ret (inr e')) in
      match r with inl v => if is_str v "next" then dispatch ls method url None else ret tt | inr e' => dispatch ls method url (Some e') end
  | Use path names :: ls, None =>
      if under path url then
        let* v := handle_all names url in
        match v with Passed => dispatch ls method url None | Answered => ret tt | Failed e => dispatch ls method url (Some e) end
      else dispatch ls method url None
  | Get path name :: ls, None =>
      if mem_string method ["GET"; "HEAD"] && exactly path url then
        let* v := guarded_handle name url in
        match v with Passed => dispatch ls method url None | Answered => ret tt | Failed e => dispatch ls method url (Some e) end
      else dispatch ls method url None
  | _ :: ls, _ => dispatch ls method url failed
  end.

Definition request (r : string * string) : JS unit := dispatch app (fst r) (snd r) None.

(** [startServer]. *)
Definition startServer : JS unit :=
  try_catch (ext "connectDatabase" [] ;;; ext "app.listen" [port cfg] ;;; ret tt) (fun _ => ext "process.exit" [vnum 1] ;;; ret tt).

(** The handlers of SIGTERM and SIGINT, and those of an uncaught exception and
    an unhandled rejection. *)
Definition onSignal : JS unit := ext "process.exit" [vnum 0] ;;; ret tt.
Definition onFault : JS unit := ext "process.exit" [vnum 1] ;;; ret tt.

End Server.

(** ** Facts *)

(** The routers that serve developers by their account. *)
Definition protected (name : string) : bool := mem_string name ["apiKeyRoutes"; "usageRoutes"].

(** A protected router is entered only right after the authentication passed
    the same request on. *)
Definition authenticated (e : event) (before : trace) : Prop :=
  exists r rest, before = Ev "authMiddleware" (ev_args e) (Ok r) :: rest /\ is_str r "next" = true.

Fixpoint guarded (t : trace) : Prop :=
  match t with [] => True | e :: rest => (protected (ev_op e) = true -> authenticated e rest) /\ guarded rest end.

Lemma guarded_event e t : protected (ev_op e) = false -> guarded t -> guarded (e :: t).
Proof. intros P G. split; [rewrite P; discriminate|exact G]. Qed.

Section Guard.
Context `{Env} (cfg : settings) (under exactly : string -> string -> bool).

Lemma guarded_ext {S} name args : protected name = false -> preserves (S := S) (fun _ t => guarded t) (ext name args).
Proof using Type. intros P s t G. apply wp_ext; intros; apply guarded_event; assumption. Qed.

Lemma guarded_now {S} : preserves (S := S) (fun _ t => guarded t) now.
Proof using Type. intros s t G. apply wp_now, guarded_event; [reflexivity|exact G]. Qed.

#[local] Hint Resolve guarded_now : preserve.
#[local] Hint Extern 1 (preserves _ (ext _ _)) => apply guarded_ext; (reflexivity || assumption) : preserve.

Lemma preserves_modify_trace {S} (I : trace -> Prop) (f : S -> S) : preserves (fun _ t => I t) (modify f).
Proof using Type. intros s t G. exact G. Qed.
#[local] Hint Resolve preserves_modify_trace : preserve.

Lemma handle_guarded name url : protected name = false -> preserves (fun _ t => guarded t) (guarded_handle cfg name url).
Proof using Type. intros P. unfold guarded_handle, handle, outside, health, send, iso_now. preserve. Qed.

Lemma handle_all_guarded names url :
  forallb (fun n => negb (protected n)) names = true -> preserves (fun _ t => guarded t) (handle_all cfg names url).
Proof using Type.
  induction names as [|n names IH]; cbn [forallb handle_all]; intros P; [preserve|]. apply andb_prop in P. destruct P as [Pn P].
  apply negb_true_iff in Pn. apply preserves_bind; [apply handle_guarded, Pn|]. intros []; [apply IH, P|preserve..].
Qed.

(** A router behind the authentication. *)
Lemma behind_auth_guarded router url : preserves (fun _ t => guarded t) (handle_all cfg ["authMiddleware"; router] url).
Proof using Type.
  intros s t G. cbn [handle_all]. unfold guarded_handle at 1. apply wp_bind, wp_try_catch.
  change (handle cfg "authMiddleware" url) with (outside "authMiddleware" url). apply wp_bind, wp_ext.
  - intros r Er. apply wp_ret. destruct (is_str r "next") eqn:N; [|apply wp_ret, guarded_event; [reflexivity|exact G]].
    assert (guarded (Ev "authMiddleware" [VStr url] (Ok r) :: t)) as G' by (apply guarded_event; [reflexivity|exact G]).
    destruct (protected router) eqn:P.
    + unfold guarded_handle. apply wp_bind, wp_try_catch. assert (handle cfg router url = outside router url) as ->.
      { unfold protected in P. apply mem_string_In in P. destruct P as [<- | [<- | []]]; reflexivity. }
      apply wp_bind, wp_ext; intros x Ex; apply wp_ret; try destruct (is_str x "next"); try apply wp_ret;
        (split; [intros _; exists r, t; auto|exact G']).
    + apply (preserves_bind (fun _ t => guarded t) (guarded_handle cfg router url)); [apply handle_guarded, P|intros []; preserve|exact G'].
  - intros e Ee. do 2 apply wp_ret. apply guarded_event; [reflexivity|exact G].
Qed.

Definition layer_ok (l : layer) : Prop :=
  match l with
  | Use _ names => forallb (fun n => negb (protected n)) names = true \/ exists router, names = ["authMiddleware"; router]
  | Get _ n | OnError n => protected n = false
  end.

Lemma dispatch_guarded ls method url :
  Forall layer_ok ls -> forall failed, preserves (fun _ t => guarded t) (dispatch cfg under exactly ls method url failed).
Proof using Type.
  induction 1 as [|l ls Hl _ IH]; intros failed; cbn [dispatch]; [preserve|]. destruct l as [p names|p n|h], failed as [e|]; cbn [layer_ok] in Hl; try apply IH.
  - destruct (under p url); [|apply IH]. apply preserves_bind; [|intros []; preserve].
    destruct Hl as [Hl | [router ->]]; [apply handle_all_guarded, Hl|apply behind_auth_guarded].
  - destruct (_ && _); [|apply IH]. apply preserves_bind; [apply handle_guarded, Hl|intros []; preserve].
  - preserve.
Qed.

Lemma app_ok : Forall layer_ok app.
Proof using Type.
  repeat (apply Forall_cons; [first [reflexivity | left; reflexivity | right; eexists; reflexivity]|]). apply Forall_nil.
Qed.

(** A layer that lets a request through. *)
Definition lets_through (method url : string) (l : layer) : Prop :=
  match l with
  | Use p names =>
      under p url = false \/
      exists n, names = [n] /\ mem_string n ["health"; "docs"; "notFound"] = false /\ forall t, reply t n [VStr url] = Ok next
  | Get p _ => mem_string method ["GET"; "HEAD"] && exactly p url = false
  | OnError _ => True
  end.

Lemma handle_passes n url s t (P : verdict -> answers -> trace -> Prop) Q :
  mem_string n ["health"; "docs"; "notFound"] = false -> (forall t, reply t n [VStr url] = Ok next) ->
  (forall t, P Passed s t) -> wp (handle_all cfg [n] url) P Q s t.
Proof using Type.
  intros N R HP. cbn [handle_all]. unfold guarded_handle, handle. cbn [mem_string existsb] in N. apply orb_false_iff in N. destruct N as [N1 N].
  apply orb_false_iff in N. destruct N as [N2 N]. apply orb_false_iff in N. destruct N as [N3 _]. rewrite N1, N2, N3.
  apply wp_bind, wp_try_catch, wp_bind, wp_ext; rewrite R; intros r [= <-]. exact (HP _).
Qed.

Lemma dispatch_through pre rest method url s P Q :
  Forall (lets_through method url) pre -> (forall t, wp (dispatch cfg under exactly rest method url None) P Q s t) ->
  forall t, wp (dispatch cfg under exactly (pre ++ rest)%list method url None) P Q s t.
Proof using Type.
  intros F HR. induction F as [|l pre Hl _ IH]; intros t; [apply HR|]. destruct l as [p names|p n|h]; cbn [dispatch app lets_through] in *.
  - change (wp (dispatch cfg under exactly (Use p names :: (pre ++ rest)) method url None) P Q s t). cbn [dispatch].
    destruct Hl as [-> | (n & -> & N & R)]; [apply IH|]. destruct (under p url); [|apply IH]. apply wp_bind, handle_passes; auto.
  - change (wp (dispatch cfg under exactly (Get p n :: (pre ++ rest)) method url None) P Q s t). cbn [dispatch]. rewrite Hl. apply IH.
  - apply IH.
Qed.

End Guard.

(** The path without the method of a documented endpoint. *)
Fixpoint after_space (s : string) : string :=
  match s with EmptyString => EmptyString | String c s' => if Ascii.eqb c " " then s' else after_space s' end.

Definition documented : list string :=
  flat_map (fun '(_, group) => map (fun '(k, _) => after_space k) (spread_props group)) (spread_props (get_opt docs_body "endpoints")).

Definition mount_points : list string := flat_map (fun l => match l with Use p _ => [p] | _ => [] end) app.

(** ** Theorems *)


(** An unknown path is answered with 404, once, with the address of the
    documentation, whatever the method, when the general middleware passes it
    on. *)
Theorem dev_api_unknown `{Env} cfg under exactly method url s t :
  (forall n t, In n ["helmet"; "cors"; "compression"; "morgan"; "express.json"; "express.urlencoded"; "limiter"] -> reply t n [VStr url] = Ok next) ->
  under "*" url = true ->
  (forall p, In p ["/api/auth"; "/api/keys"; "/api/usage"; "/api/stats"; "/api/registry"; "/api/verified"] -> under p url = false) ->
  exactly "/health" url = false -> exactly "/api/docs" url = false ->
  wp (request cfg under exactly (method, url)) (fun _ s' _ => s' = (s ++ [(404%Z, not_found_body url)])%list) (fun _ _ _ => False) s t.
Proof.
  intros M St A E1 E2. unfold request. cbn [fst snd]. rewrite <- (firstn_skipn 15 app). apply dispatch_through.
  - repeat (apply Forall_cons; [cbn [lets_through];
      first [rewrite ?E1, ?E2, andb_false_r; reflexivity | left; apply A; cbn; tauto | right; eexists; repeat split; intros; apply M; cbn; tauto]|]).
    apply Forall_nil.
  - intros t'. cbn [app skipn dispatch]. rewrite St. reflexivity.
Qed.

(** A server all of whose middleware passes requests on, with the matching
    Express documents: a mount point matches itself and the paths below it. *)
Definition passing : Env := {| reply _ _ _ := Ok next; clock _ := Num.zero; random _ := Num.zero |}.
Definition below (path url : string) : bool :=
  (path =? "/") || (path =? "*") || (url =? path) || startsWith url (path ++ "/").


Lemma dev_api_unknown_witness :
  wp (request (H := passing) (Settings VUndef None VUndef) below String.eqb ("POST", "/api/tokens"))
    (fun _ s' _ => s' = [(404%Z, not_found_body "/api/tokens")]) (fun _ _ _ => False) [] [].
Proof.
  apply (dev_api_unknown (H := passing) (Settings VUndef None VUndef) below String.eqb "POST" "/api/tokens" [] []); try reflexivity.
  intros p I. cbn in I. repeat (destruct I as [<- | I]; [reflexivity|]). destruct I.
Defined.

(** Every documented endpoint is mounted: the address of each one in the
    documentation the server sends lies at or below a mount point of a
    router. *)
Theorem dev_api_documented : Forall (fun url => existsb (fun p => negb (mem_string p ["/"; "*"]) && below p url) mount_points = true) documented.
Proof. vm_compute. repeat constructor. Qed.
