(* ===== verification/DevPortal.v ===== *)
(** * The developer portal's dashboard

    [DeveloperPortal] of src/web/devportal/src/pages/index.tsx: the state,
    the effect that loads the figures when the page is mounted, and the page.
    date-fns, the clock, the random source and the timer are the environment;
    how the locale writes a number is a parameter; the components of
    framer-motion, heroicons and recharts are elements with their properties. *)

From Stdlib Require Import ZArith Bool Lia List String.
From S2P Require Import Prelude JsNum JsVal JsMonad Machine Jsx.
Import ListNotations.
Local Open Scope string_scope.

Record DashboardStats : Type := Stats {
  totalDevelopers : Z; activeProjects : Z; apiCallsToday : Z; totalDownloads : Z; verifiedDevelopers : Z; pluginsPublished : Z }.

Record UsageData : Type := Usage { date : jsval; apiCalls : num; downloads : num }.

(** [awaiting] counts the delays that were set and have not elapsed. *)
Record portal : Type := Portal { stats : DashboardStats; usageData : list UsageData; isLoading : bool; awaiting : nat }.

Definition portal0 : portal := Portal (Stats 0 0 0 0 0 0) [] true 0.

Definition setStats (x : DashboardStats) (p : portal) : portal := Portal x (usageData p) (isLoading p) (awaiting p).
Definition setUsageData (x : list UsageData) (p : portal) : portal := Portal (stats p) x (isLoading p) (awaiting p).
Definition setIsLoading (x : bool) (p : portal) : portal := Portal (stats p) (usageData p) x (awaiting p).
Definition setAwaiting (x : nat) (p : portal) : portal := Portal (stats p) (usageData p) (isLoading p) x.

Definition mockStats : DashboardStats := Stats 1247 89 15420 45678 234 67.

Section Load.
Context `{Env}.
Notation JS := (JS portal).

(** [Math.floor(Math.random() * range) + least]. *)
Definition draw (range least : Z) : JS num :=
  let* r := rand in ret (Num.add (Num.floor (Num.mul r (Num.of_Z range))) (Num.of_Z least)).

(** The [i]-th member of [mockUsageData]; the days are exact integers. *)
Definition usage (i : Z) : JS UsageData :=
  let* n := now in
  let* d := ext "format" [VNum (Num.sub n (Num.of_Z ((6 - i) * 24 * 60 * 60 * 1000))); VStr "MMM dd"] in
  let* calls := draw 5000 10000 in
  let* loads := draw 1000 500 in
  ret (Usage d calls loads).

Fixpoint usages (l : list Z) : JS (list UsageData) :=
  match l with [] => ret [] | i :: l' => let* u := usage i in let* us := usages l' in ret (u :: us) end.

(** [loadDashboardData] up to the delay, and after it. *)
Definition onMount : JS unit :=
  modify (setIsLoading true) ;;;
  ext "setTimeout" [vnum 1000] ;;;
  modify (fun p => setAwaiting (S (awaiting p)) p).

Definition onDelay : JS unit :=
  modify (fun p => setAwaiting (pred (awaiting p)) p) ;;;
  modify (setStats mockStats) ;;;
  let* mockUsageData := usages [0; 1; 2; 3; 4; 5; 6]%Z in
  modify (setUsageData mockUsageData) ;;;
  modify (setIsLoading false).

End Load.

(** ** The page *)

Section Page.
Context (toLocaleString : Z -> string) (p : portal).
(** No element of the page has a handler. *)
Notation page := (html Empty_set).

Record card : Type := Card { title : string; value : string; icon : string; color : string; change : string; changeType : string }.

Definition statCards : list card := [
  Card "Total Developers" (toLocaleString (totalDevelopers (stats p))) "UserGroupIcon" "bg-blue-500" "+12%" "positive";
  Card "Active Projects" (toLocaleString (activeProjects (stats p))) "CodeBracketIcon" "bg-green-500" "+8%" "positive";
  Card "API Calls Today" (toLocaleString (apiCallsToday (stats p))) "ChartBarIcon" "bg-purple-500" "+23%" "positive";
  Card "Total Downloads" (toLocaleString (totalDownloads (stats p))) "RocketLaunchIcon" "bg-orange-500" "+15%" "positive";
  Card "Verified Developers" (toLocaleString (verifiedDevelopers (stats p))) "ShieldCheckIcon" "bg-emerald-500" "+5%" "positive";
  Card "Plugins Published" (toLocaleString (pluginsPublished (stats p))) "PuzzlePieceIcon" "bg-pink-500" "+18%" "positive"].

Record action : Type := Action { a_title : string; description : string; a_icon : string; href : string; a_color : string }.

Definition quickActions : list action := [
  Action "Download SDK" "Get the latest SHAHCOIN SDK" "CodeBracketIcon" "/sdk" "bg-blue-500 hover:bg-blue-600";
  Action "API Keys" "Manage your API keys" "KeyIcon" "/api-keys" "bg-green-500 hover:bg-green-600";
  Action "Plugin Registry" "Browse and publish plugins" "PuzzlePieceIcon" "/registry" "bg-purple-500 hover:bg-purple-600";
  Action "Documentation" "Read the latest docs" "DocumentTextIcon" "/docs" "bg-orange-500 hover:bg-orange-600"].

Definition icon_of (name size : string) : page := el name [cls size] [].

(** [<motion.div initial animate transition className>], moving along an axis. *)
Definition motion (axis : string) (from : Z) (delay : num) (attrs : list (string * attr Empty_set)) (classes : string) (kids : list page) : page :=
  el "motion.div" (attrs ++ [prop "initial" (VObj [("opacity", vnum 0); (axis, vnum from)]); prop "animate" (VObj [("opacity", vnum 1); (axis, vnum 0)]);
                             prop "transition" (VObj [("delay", VNum delay)]); cls classes]) kids.

Definition spinner : page :=
  el "div" [cls "min-h-screen bg-gray-50 flex items-center justify-center"] [
    el "div" [cls "animate-spin rounded-full h-32 w-32 border-b-2 border-blue-500"] []].

Definition header : page :=
  el "div" [cls "bg-white shadow"] [
    el "div" [cls "max-w-7xl mx-auto px-4 sm:px-6 lg:px-8"] [
      el "div" [cls "flex justify-between items-center py-6"] [
        el "div" [] [
          el "h1" [cls "text-3xl font-bold text-gray-900"] [txt "SHAHCOIN Developer Portal"];
          el "p" [cls "mt-1 text-sm text-gray-500"] [txt "Welcome back! Here's what's happening with your development tools."]];
        el "div" [cls "flex items-center space-x-4"] [
          el "button" [cls "bg-blue-500 hover:bg-blue-600 text-white px-4 py-2 rounded-lg text-sm font-medium"] [txt "Get Started"]]]]].

Definition stat_card (index : nat) (c : card) : page :=
  motion "y" 20 (Num.mul (Num.of_Z (Z.of_nat index)) (Num.dec 1 1)) [prop "key" (VStr (title c))] "bg-white rounded-lg shadow p-6" [
    el "div" [cls "flex items-center"] [
      el "div" [cls ("p-3 rounded-lg " ++ color c)] [icon_of (icon c) "h-6 w-6 text-white"];
      el "div" [cls "ml-4 flex-1"] [
        el "p" [cls "text-sm font-medium text-gray-500"] [txt (title c)];
        el "p" [cls "text-2xl font-semibold text-gray-900"] [txt (value c)]];
      el "div" [cls ("text-sm font-medium " ++ (if changeType c =? "positive" then "text-green-600" else "text-red-600"))] [txt (change c)]]].

(** A recharts diagram over [usageData]. *)
Definition usage_value (u : UsageData) : jsval := VObj [("date", date u); ("apiCalls", VNum (apiCalls u)); ("downloads", VNum (downloads u))].

Definition chart (from : Z) (delay : num) (heading kind : string) (series : page) : page :=
  motion "x" from delay [] "bg-white rounded-lg shadow p-6" [
    el "h3" [cls "text-lg font-medium text-gray-900 mb-4"] [txt heading];
    el "ResponsiveContainer" [prop "width" (VStr "100%"); prop "height" (vnum 300)] [
      el kind [prop "data" (VArr (map usage_value (usageData p)))] [
        el "CartesianGrid" [prop "strokeDasharray" (VStr "3 3")] [];
        el "XAxis" [prop "dataKey" (VStr "date")] [];
        el "YAxis" [] [];
        el "Tooltip" [] [];
        series]]].

Definition quick_action (a : action) : page :=
  el "a" [prop "key" (VStr (a_title a)); prop "href" (VStr (href a)); cls (a_color a ++ " text-white p-4 rounded-lg transition-colors duration-200")] [
    el "div" [cls "flex items-center"] [
      icon_of (a_icon a) "h-8 w-8";
      el "div" [cls "ml-3"] [
        el "h4" [cls "font-medium"] [txt (a_title a)];
        el "p" [cls "text-sm opacity-90"] [txt (description a)]]]].

Record activity : Type := Activity { act : string; user : string; time : string; type : string }.

Definition activities : list activity := [
  Activity "New plugin published" "alice_dev" "2 hours ago" "plugin";
  Activity "API key generated" "bob_developer" "4 hours ago" "key";
  Activity "SDK downloaded" "charlie_coder" "6 hours ago" "download";
  Activity "Developer verified" "diana_creator" "1 day ago" "verify"].

Definition recent (index : nat) (a : activity) : page :=
  let small name := icon_of name "h-4 w-4" in
  el "div" [prop "key" (vnum (Z.of_nat index)); cls "flex items-center space-x-4 p-3 bg-gray-50 rounded-lg"] [
    el "div" [cls ("p-2 rounded-full " ++
                   (if type a =? "plugin" then "bg-purple-100 text-purple-600" else if type a =? "key" then "bg-green-100 text-green-600"
                    else if type a =? "download" then "bg-blue-100 text-blue-600" else "bg-emerald-100 text-emerald-600"))] [
      when (type a =? "plugin") (small "PuzzlePieceIcon");
      when (type a =? "key") (small "KeyIcon");
      when (type a =? "download") (small "RocketLaunchIcon");
      when (type a =? "verify") (small "ShieldCheckIcon")];
    el "div" [cls "flex-1"] [
      el "p" [cls "text-sm font-medium text-gray-900"] [txt (act a)];
      el "p" [cls "text-sm text-gray-500"] [txt "by "; txt (user a)]];
    el "span" [cls "text-sm text-gray-400"] [txt (time a)]].

Definition dashboard : page :=
  el "div" [cls "min-h-screen bg-gray-50"] [
    header;
    el "div" [cls "max-w-7xl mx-auto px-4 sm:px-6 lg:px-8 py-8"] [
      el "div" [cls "grid grid-cols-1 md:grid-cols-2 lg:grid-cols-3 gap-6 mb-8"] [each statCards stat_card];
      el "div" [cls "grid grid-cols-1 lg:grid-cols-2 gap-8 mb-8"] [
        chart (-20) (Num.dec 3 1) "API Usage (Last 7 Days)" "LineChart"
          (el "Line" [prop "type" (VStr "monotone"); prop "dataKey" (VStr "apiCalls"); prop "stroke" (VStr "#3B82F6"); prop "strokeWidth" (vnum 2)] []);
        chart 20 (Num.dec 4 1) "SDK Downloads (Last 7 Days)" "BarChart"
          (el "Bar" [prop "dataKey" (VStr "downloads"); prop "fill" (VStr "#10B981")] [])];
      motion "y" 20 (Num.dec 5 1) [] "bg-white rounded-lg shadow p-6" [
        el "h3" [cls "text-lg font-medium text-gray-900 mb-6"] [txt "Quick Actions"];
        el "div" [cls "grid grid-cols-1 md:grid-cols-2 lg:grid-cols-4 gap-4"] [each quickActions (fun _ => quick_action)]];
      motion "y" 20 (Num.dec 6 1) [] "bg-white rounded-lg shadow p-6 mt-8" [
        el "h3" [cls "text-lg font-medium text-gray-900 mb-6"] [txt "Recent Activity"];
        el "div" [cls "space-y-4"] [each activities recent]]]].

Definition DeveloperPortal : page := if isLoading p then spinner else dashboard.

End Page.

(** ** Runs: the page is mounted and its delays elapse *)

Inductive op : Type := Mount | Delay.

Definition run `{Env} (o : op) : JS portal unit := match o with Mount => onMount | Delay => onDelay end.
Definition enabled (o : op) (p : portal) : Prop := match o with Mount => True | Delay => (0 < awaiting p)%nat end.

(** Every text of a view, in order. *)
Fixpoint texts_of {A} (n : node A) : list string :=
  match n with Txt s => [s] | El _ _ kids => flat_map texts_of kids end.
Definition texts {A} (h : html A) : list string := match h with Ok ns => flat_map texts_of ns | Throw _ => [] end.

(** Where links lead. *)
Fixpoint links_of {A} (n : node A) : list jsval :=
  match n with
  | Txt _ => []
  | El tag attrs kids => ((if tag =? "a" then [attr_of "href" attrs] else []) ++ flat_map links_of kids)%list
  end.
Definition links {A} (h : html A) : list jsval := match h with Ok ns => flat_map links_of ns | Throw _ => [] end.

Section Facts.
Context `{Env}.

Lemma usages_length l p t : wp (usages l) (fun us p' _ => List.length us = List.length l /\ p' = p) (fun _ p' _ => p' = p) p t.
Proof.
  revert p t. induction l as [|i l IH]; intros p t; [split; reflexivity|]. cbn [usages]. apply wp_bind. unfold usage, draw.
  wp_auto; [|reflexivity]. eapply wp_mono; [..|apply IH]; cbn beta; [|auto]. intros us p' t' [E ->]. split; [cbn; lia|reflexivity].
Qed.

(** The figures are shown only when they are there. *)
Definition loaded (p : portal) : Prop := isLoading p = true \/ stats p = mockStats /\ List.length (usageData p) = 7%nat.

Lemma run_loaded o p t : enabled o p -> loaded p -> wp (run o) (fun _ p' _ => loaded p') (fun _ p' _ => loaded p') p t.
Proof.
  intros _ L. destruct o; cbn [run].
  - unfold onMount. wp_auto; left; reflexivity.
  - unfold onDelay. apply wp_bind, wp_modify, wp_bind, wp_modify, wp_bind. eapply wp_mono; [..|apply usages_length]; cbn beta.
    + intros us p' t' [E ->]. wp_auto. right. split; [reflexivity|exact E].
    + intros e p' t' ->. destruct L as [L|[_ L]]; [left; exact L|right; split; [reflexivity|exact L]].
Qed.

End Facts.

(** ** Theorems *)

(** The dashboard never shows figures that are not loaded: along every run
    the page can be shown, and it is the spinner without a text or a link, or
    it shows the six figures and the four links, with seven days in both
    charts; a delay that elapses while the dates can be formatted ends the
    loading. *)
Theorem portal_shows_loaded `{Env} locale p t :
  steps (machine_step run enabled) (portal0, []) (p, t) ->
  let page := DeveloperPortal locale p in
  (texts page = [] /\ links page = [] /\ isLoading p = true \/
   (forall n, In n [1247; 89; 15420; 45678; 234; 67]%Z -> In (locale n) (texts page)) /\
   links page = map VStr ["/sdk"; "/api-keys"; "/registry"; "/docs"] /\ List.length (usageData p) = 7%nat) /\
  ((forall t args, exists d, reply t "format" args = Ok d) -> wp onDelay (fun _ p' _ => isLoading p' = false) (fun _ _ _ => False) p t).
Proof.
  intros St page. pose proof (machine_invariant run enabled (fun p _ => loaded p) run_loaded _ _ _ _ St (or_introl eq_refl)) as L. split.
  - unfold page, DeveloperPortal. destruct (isLoading p) eqn:El; [left; auto|]. destruct L as [L|[E U]]; [congruence|]. right.
    split; [|split; [reflexivity|exact U]]. unfold dashboard, statCards. rewrite E. cbn. intros n I. intuition subst; auto 60.
  - intros F. unfold onDelay. apply wp_bind, wp_modify, wp_bind, wp_modify, wp_bind.
    assert (forall l p t, wp (usages l) (fun _ _ _ => True) (fun _ _ _ => False) p t) as U.
    { induction l as [|i l IH]; intros q u; [exact I|]. cbn [usages]. unfold usage, draw. wp_auto; [|].
      - eapply wp_mono; [..|apply IH]; cbn beta; auto.
      - edestruct F as [d D]. rewrite D in *. discriminate. }
    eapply wp_mono; [..|apply U]; cbn beta; [|auto]. intros us p' t' _. wp_auto. reflexivity.
Qed.

Definition steady : Env := {| reply _ _ _ := Ok (VStr "Jan 01"); clock _ := Num.of_Z 1700000000000; random _ := Num.dec 5 1 |}.
Definition opened : portal * trace := play (run (H := steady)) [Mount; Delay] (portal0, []).

Lemma portal_shows_loaded_witness :
  In (Num.to_string (Num.of_Z 15420)) (texts (DeveloperPortal (fun n => Num.to_string (Num.of_Z n)) (fst opened))) /\ isLoading (fst opened) = false.
Proof.
  split; [|vm_compute; reflexivity].
  destruct (portal_shows_loaded (H := steady) (fun n => Num.to_string (Num.of_Z n)) (fst opened) (snd opened)) as [[(_ & _ & E)|(S & _)] _].
  - rewrite <- surjective_pairing. apply play_steps. vm_compute. auto.
  - vm_compute in E. discriminate E.
  - apply S. vm_compute. tauto.
Defined.
