(* ===== verification/NodeBase.v ===== *)
(** * The node: outcomes, amounts, transactions and the block subsidy

    What the C++ node files share.  A function of the node that can reject a
    block, throw or fail an assertion is an [act]: it takes the state it works
    on and gives an outcome and the state it leaves.  Amounts are the signed
    64-bit integers of consensus/amount.h, hashes are numbers below 2^256,
    scripts are lists of bytes.  The issue schedule of validation.cpp is here
    too, with the sum it comes to. *)

From Stdlib Require Import ZArith Lia.
From stdpp Require Import base tactics gmap strings numbers list.

Open Scope Z_scope.

(** ** Outcomes *)

(** The results [TxValidationState] and [BlockValidationState] record. *)
Inductive rejection :=
| TX_CONSENSUS
| TX_NOT_STANDARD
| TX_MISSING_INPUTS
| TX_PREMATURE_SPEND
| BLOCK_CONSENSUS
| BLOCK_INVALID_HEADER
| BLOCK_MUTATED.

(** A call that does not return normally: it marked the object invalid and
    returned false, returned false without a reason, threw an exception, or
    ran into a failed assertion or undefined behaviour. *)
Inductive fault :=
| Invalid (r : rejection) (reason : string)
| Failed (message : string)
| Thrown (what : string)
| Aborted (what : string).

Inductive verdict (A : Type) :=
| Ok (a : A)
| Err (f : fault).
Arguments Ok {A} a.
Arguments Err {A} f.

#[export] Instance verdict_ret : MRet verdict := @Ok.
#[export] Instance verdict_bind : MBind verdict := fun A B k m =>
  match m with Ok a => k a | Err f => Err f end.

(** Computations on a state that survives a failure, as objects do. *)
Definition act (V A : Type) : Type := V -> verdict A * V.

#[export] Instance act_ret V : MRet (act V) := fun A a v => (Ok a, v).
#[export] Instance act_bind V : MBind (act V) := fun A B k m v =>
  match m v with
  | (Ok a, v') => k a v'
  | (Err f, v') => (Err f, v')
  end.

(** A computation that leaves the state alone. *)
Definition lift {V A} (r : verdict A) : act V A := fun v => (r, v).

(** [if (b) return state.Invalid(...)] and its relatives. *)
Definition reject_if (b : bool) (f : fault) : verdict unit :=
  if b then Err f else Ok tt.

(** [assert(b)]. *)
Definition assert_that (b : bool) (what : string) : verdict unit :=
  reject_if (negb b) (Aborted what).

Fixpoint for_each {M : Type -> Type} `{MRet M, MBind M} {A S : Type}
    (xs : list A) (body : A -> S -> M S) (s : S) : M S :=
  match xs with
  | [] => mret s
  | x :: rest => s' ← body x s; for_each rest body s'
  end.

Definition total_of {A} (f : A -> Z) (l : list A) : Z := foldr (fun x s => f x + s) 0 l.

(** ** Amounts: consensus/amount.h, consensus/validation.h *)

Definition COIN : Z := 100000000.
Definition MAX_MONEY : Z := 21000000 * COIN.

Definition MoneyRange (nValue : Z) : bool :=
  bool_decide (0 ≤ nValue) && bool_decide (nValue ≤ MAX_MONEY).

Definition int64 (x : Z) : Prop := - 2 ^ 63 ≤ x < 2 ^ 63.
#[export] Instance int64_dec x : Decision (int64 x).
Proof. unfold int64. apply _. Defined.

(** [a + b] on [CAmount]; an overflow of a signed type is undefined. *)
Definition add64 (a b : Z) : verdict Z :=
  if decide (int64 (a + b)) then Ok (a + b)
  else Err (Aborted "signed integer overflow").

(** ** Transactions: primitives/transaction.h *)

Record COutPoint := mkCOutPoint { out_hash : Z; out_n : Z }.

#[export] Instance outpoint_eq_dec : EqDecision COutPoint.
Proof. solve_decision. Defined.
#[export] Instance outpoint_countable : Countable COutPoint.
Proof.
  refine (inj_countable' (fun o => (out_hash o, out_n o)) (fun p => mkCOutPoint p.1 p.2) _).
  by intros [].
Defined.

Definition NULL_INDEX : Z := 2 ^ 32 - 1.
Definition outpoint_IsNull (o : COutPoint) : bool :=
  bool_decide (out_hash o = 0) && bool_decide (out_n o = NULL_INDEX).

Definition script := list Z.
Definition OP_RETURN : Z := 0x6a.
Definition MAX_SCRIPT_SIZE : Z := 10000.
Definition len {A} (l : list A) : Z := Z.of_nat (length l).

(** [CScript::IsUnspendable]. *)
Definition IsUnspendable (s : script) : bool :=
  bool_decide (head s = Some OP_RETURN) || bool_decide (MAX_SCRIPT_SIZE < len s).

Record CTxIn := mkCTxIn { prevout : COutPoint; scriptSig : script; nSequence : Z }.
Record CTxOut := mkCTxOut { nValue : Z; scriptPubKey : script }.
Record CTransaction := mkCTransaction
  { vin : list CTxIn; vout : list CTxOut; tx_nVersion : Z; nLockTime : Z }.

#[export] Instance txout_eq_dec : EqDecision CTxOut.
Proof. solve_decision. Defined.
#[export] Instance txin_eq_dec : EqDecision CTxIn.
Proof. solve_decision. Defined.

Definition txout_null : CTxOut := mkCTxOut (-1) [].
Definition txout_IsNull (o : CTxOut) : bool := bool_decide (nValue o = -1).

Definition IsCoinBase (tx : CTransaction) : bool :=
  match vin tx with
  | [i] => outpoint_IsNull (prevout i)
  | _ => false
  end.

(** [CTransaction::GetValueOut]. *)
Definition GetValueOut (tx : CTransaction) : verdict Z :=
  total ← for_each (vout tx) (fun o total =>
    if MoneyRange (nValue o) then
      sum ← add64 total (nValue o);
      if MoneyRange sum then mret sum
      else Err (Thrown "GetValueOut: value out of range")
    else Err (Thrown "GetValueOut: value out of range")) 0;
  _ ← assert_that (MoneyRange total) "MoneyRange(nValueOut)";
  mret total.

(** The sizes serialize.h computes, without witnesses. *)
Definition GetSizeOfCompactSize (n : Z) : Z :=
  if decide (n < 253) then 1
  else if decide (n ≤ 0xffff) then 3
  else if decide (n ≤ 0xffffffff) then 5 else 9.

Definition script_size (s : script) : Z := GetSizeOfCompactSize (len s) + len s.

Definition tx_size (tx : CTransaction) : Z :=
  4 + (GetSizeOfCompactSize (len (vin tx)) + total_of (fun i => 36 + script_size (scriptSig i) + 4) (vin tx))
    + (GetSizeOfCompactSize (len (vout tx)) + total_of (fun o => 8 + script_size (scriptPubKey o)) (vout tx)) + 4.

(** ** The chain parameters the modelled code reads: consensus/params.h *)
Record Params := mkParams
  { hashGenesisBlock : Z;
    nSubsidyHalvingInterval : Z;
    BIP34Height : Z;
    BIP34Hash : Z;
    BIP65Height : Z;
    BIP66Height : Z;
    CSVHeight : Z;
    SegwitHeight : Z;
    powLimit : Z;
    fPowAllowMinDifficultyBlocks : bool;
    fPowNoRetargeting : bool;
    nPowTargetSpacing : Z;
    nPowTargetTimespan : Z;
    signet_blocks : bool;
    script_flag_exceptions : gmap Z Z }.

Definition DifficultyAdjustmentInterval (p : Params) : Z :=
  Z.quot (nPowTargetTimespan p) (nPowTargetSpacing p).

(** The main network as chainparams.cpp sets it up; the second assignment of
    the halving interval is the one that stays.  The hash of the genesis block
    is computed, not written down. *)
Definition CMainParams (genesis : Z) : Params :=
  {| hashGenesisBlock := genesis;
     nSubsidyHalvingInterval := 840000;
     BIP34Height := 0;
     BIP34Hash := 0;
     BIP65Height := 0;
     BIP66Height := 0;
     CSVHeight := 0;
     SegwitHeight := 0;
     powLimit := 0x00000000ffffffffffffffffffffffffffffffffffffffffffffffffffffffff;
     fPowAllowMinDifficultyBlocks := false;
     fPowNoRetargeting := false;
     nPowTargetSpacing := 150;
     nPowTargetTimespan := 14 * 24 * 60 * 60;
     signet_blocks := false;
     script_flag_exceptions := ∅ |}.

(** The main network of kernel/chainparams.cpp, which the build compiles as
    well. *)
Definition KernelMainParams : Params :=
  {| hashGenesisBlock := 0x000000000019d6689c085ae165831e934ff763ae46a2a6c172b3f1b60a8ce26f;
     nSubsidyHalvingInterval := 210000;
     BIP34Height := 227931;
     BIP34Hash := 0x000000000000024b89b42a942fe0d9fea3bb44ab7bd1b19115dd6a759c0808b8;
     BIP65Height := 388381;
     BIP66Height := 363725;
     CSVHeight := 419328;
     SegwitHeight := 481824;
     powLimit := 0x00000000ffffffffffffffffffffffffffffffffffffffffffffffffffffffff;
     fPowAllowMinDifficultyBlocks := false;
     fPowNoRetargeting := false;
     nPowTargetSpacing := 10 * 60;
     nPowTargetTimespan := 14 * 24 * 60 * 60;
     signet_blocks := false;
     script_flag_exceptions :=
       {[0x00000000000002dc756eebf4f49723ed8d30cc28a5f108eb94b1ba88ac4f9c22 := 0;
         0x0000000000000000000f14c35b2d841e986ab5441de8c585d5ffe55ea1e395ad := Z.lor (2 ^ 0) (2 ^ 11)]} |}.

(** [GetBlockSubsidy] of validation.cpp. *)
Definition GetBlockSubsidy (nHeight : Z) (p : Params) : Z :=
  let halvings := Z.quot nHeight (nSubsidyHalvingInterval p) in
  if decide (64 ≤ halvings) then 0
  else Z.shiftr (60 * COIN) halvings.

(** ** Facts *)

Lemma bind_ok {A B} (m : verdict A) (k : A -> verdict B) b :
  (m ≫= k) = Ok b <-> exists a, m = Ok a /\ k a = Ok b.
Proof. destruct m; simpl; naive_solver. Qed.

Lemma for_each_cons {A S} (x : A) l (f : A -> S -> verdict S) s :
  for_each (M := verdict) (x :: l) f s = (s' ← f x s; for_each (M := verdict) l f s').
Proof. done. Qed.

Lemma reject_if_ok b f : reject_if b f = Ok tt <-> b = false.
Proof. destruct b; simpl; split; congruence. Qed.

Lemma assert_that_ok b what : assert_that b what = Ok tt <-> b = true.
Proof. unfold assert_that. rewrite reject_if_ok. by destruct b. Qed.

Lemma act_bind_ok {V A B} (m : act V A) (k : A -> act V B) v b v' :
  (m ≫= k) v = (Ok b, v') <-> exists a w, m v = (Ok a, w) /\ k a w = (Ok b, v').
Proof.
  unfold mbind, act_bind. destruct (m v) as [[a|f] w].
  - split; [by eauto|]. by intros (? & ? & [= <- <-] & ?).
  - split; [congruence|]. intros (? & ? & ? & ?). congruence.
Qed.

Lemma act_bind_run {V A B} (m : act V A) (k : A -> act V B) v a w :
  m v = (Ok a, w) -> (m ≫= k) v = k a w.
Proof. intros E. unfold mbind, act_bind. by rewrite E. Qed.

Lemma act_bind_via {V A B} (m : act V A) (k : A -> act V B) v r w :
  m v = (r, w) -> (m ≫= k) v = (lift r ≫= k) w.
Proof. intros E. unfold mbind, act_bind, lift. by rewrite E. Qed.

Lemma lift_bind {V A B} (r : verdict A) (k : A -> verdict B) (v : V) :
  lift (r ≫= k) v = (lift r ≫= fun a => lift (k a)) v.
Proof. by destruct r. Qed.

Lemma act_bind_ext {V A B} (m : act V A) (k k' : A -> act V B) v :
  (forall a w, k a w = k' a w) -> (m ≫= k) v = (m ≫= k') v.
Proof. intros H. unfold mbind, act_bind. destruct (m v) as [[a|f] w]; [apply H|done]. Qed.

Lemma lift_ok {V A} (r : verdict A) (v : V) a v' :
  lift r v = (Ok a, v') <-> r = Ok a /\ v' = v.
Proof. unfold lift. split; [by intros [= -> ->]|by intros [-> ->]]. Qed.

(** Taking a successful computation apart. *)
Ltac ran :=
  repeat match goal with
  | H : (_ ≫= _) = Ok _ |- _ => apply bind_ok in H as (? & ? & ?)
  | H : (_ ≫= _) _ = (Ok _, _) |- _ => apply act_bind_ok in H as (? & ? & ? & ?)
  | H : lift _ _ = (Ok _, _) |- _ => apply lift_ok in H as [? ->]
  | H : reject_if _ _ = Ok ?u |- _ => destruct u; apply reject_if_ok in H
  | H : assert_that _ _ = Ok ?u |- _ => destruct u; apply assert_that_ok in H
  | H : mret _ = Ok _ |- _ => injection H as <-
  | H : Ok _ = Ok _ |- _ => injection H as <-
  | H : mret _ _ = (Ok _, _) |- _ => injection H as <- <-
  | H : Err _ = Ok _ |- _ => discriminate H
  | H : (Err _, _) = (Ok _, _) |- _ => discriminate H
  end.

Lemma MoneyRange_spec v : MoneyRange v = true <-> 0 ≤ v ≤ MAX_MONEY.
Proof. unfold MoneyRange. rewrite andb_true_iff, !bool_decide_eq_true. lia. Qed.

Lemma MoneyRange_false v : MoneyRange v = false <-> v < 0 \/ MAX_MONEY < v.
Proof. rewrite <-not_true_iff_false, MoneyRange_spec. lia. Qed.

Lemma add64_in a b : int64 (a + b) -> add64 a b = Ok (a + b).
Proof. intros. unfold add64. by rewrite decide_True. Qed.

(** Sums of amounts in range never overflow. *)
Lemma add64_money a b :
  0 ≤ a ≤ MAX_MONEY -> 0 ≤ b ≤ MAX_MONEY -> add64 a b = Ok (a + b).
Proof. intros. apply add64_in. unfold int64, MAX_MONEY, COIN in *. lia. Qed.

Lemma total_of_app {A} (f : A -> Z) l k : total_of f (l ++ k) = total_of f l + total_of f k.
Proof. induction l; simpl; [done|]. rewrite IHl. lia. Qed.

Lemma total_of_nonneg {A} (f : A -> Z) l : Forall (fun x => 0 ≤ f x) l -> 0 ≤ total_of f l.
Proof. induction 1; simpl; lia. Qed.

Lemma total_of_perm {A} (f : A -> Z) l k : l ≡ₚ k -> total_of f l = total_of f k.
Proof. induction 1; simpl; lia. Qed.

Lemma total_of_map {A B} (f : B -> Z) (g : A -> B) l :
  total_of f (g <$> l) = total_of (fun x => f (g x)) l.
Proof. induction l; csimpl; [done|]. by rewrite IHl. Qed.

Definition paid (os : list CTxOut) : Z := total_of nValue os.
Arguments paid _ : simpl never.
Definition payable (os : list CTxOut) : Prop :=
  Forall (fun o => 0 ≤ nValue o ≤ MAX_MONEY) os /\ paid os ≤ MAX_MONEY.

#[export] Instance payable_dec os : Decision (payable os).
Proof. unfold payable. apply _. Defined.

Lemma paid_cons o os : paid (o :: os) = nValue o + paid os.
Proof. done. Qed.

Lemma payable_nonneg os : Forall (fun o => 0 ≤ nValue o ≤ MAX_MONEY) os -> 0 ≤ paid os.
Proof. intros H. apply total_of_nonneg. eapply Forall_impl; [exact H|]. simpl. lia. Qed.

(** [GetValueOut] adds up the outputs when each of them and their sum is in
    range, and throws otherwise; it never overflows. *)
Lemma GetValueOut_spec tx :
  GetValueOut tx =
    if decide (payable (vout tx)) then Ok (paid (vout tx))
    else Err (Thrown "GetValueOut: value out of range").
Proof.
  unfold GetValueOut.
  assert (forall os total, 0 ≤ total ≤ MAX_MONEY ->
    for_each os (fun o total =>
      if MoneyRange (nValue o) then
        sum ← add64 total (nValue o);
        if MoneyRange sum then mret sum
        else Err (Thrown "GetValueOut: value out of range")
      else Err (Thrown "GetValueOut: value out of range")) total =
    if decide (Forall (fun o => 0 ≤ nValue o ≤ MAX_MONEY) os /\ total + paid os ≤ MAX_MONEY)
    then Ok (total + paid os)
    else Err (Thrown "GetValueOut: value out of range")) as loop.
  { intros os. induction os as [|o os IH]; intros total Ht; simpl.
    - rewrite decide_True; [by rewrite Z.add_0_r|split; [done|unfold paid; simpl; lia]].
    - destruct (MoneyRange (nValue o)) eqn:Ho.
      + apply MoneyRange_spec in Ho. rewrite add64_money by lia. simpl.
        destruct (MoneyRange (total + nValue o)) eqn:Hs.
        * apply MoneyRange_spec in Hs. simpl. rewrite IH by lia.
          rewrite paid_cons, Z.add_assoc. apply decide_ext. rewrite Forall_cons. tauto.
        * apply MoneyRange_false in Hs. rewrite decide_False; [done|].
          rewrite Forall_cons. intros [[? Hos] Hp]. apply payable_nonneg in Hos.
          rewrite paid_cons in Hp. lia.
      + apply MoneyRange_false in Ho. rewrite decide_False; [done|].
        rewrite Forall_cons. intuition lia. }
  rewrite loop by (unfold MAX_MONEY, COIN; lia). rewrite Z.add_0_l.
  destruct (decide (payable (vout tx))) as [H|H];
    [rewrite decide_True by exact H|by rewrite decide_False by exact H]. simpl.
  replace (MoneyRange (paid (vout tx))) with true; [done|].
  symmetry. apply MoneyRange_spec. destruct H as [Hf ?]. apply payable_nonneg in Hf. lia.
Qed.

(** ** The issue schedule *)

(** All the subsidies of the blocks 1 to [h]; the coinbase of the genesis
    block cannot be spent. *)
Fixpoint issued (p : Params) (h : nat) : Z :=
  match h with
  | O => 0
  | S h' => issued p h' + GetBlockSubsidy (Z.of_nat h) p
  end.

(** The subsidy after [q] halvings, and the sum of the first [q] of them. *)
Definition reward (q : nat) : Z :=
  if decide (64 ≤ q)%nat then 0 else Z.shiftr (60 * COIN) (Z.of_nat q).
Fixpoint rewards (q : nat) : Z :=
  match q with O => 0 | S q' => rewards q' + reward q' end.

Lemma reward_range q : 0 ≤ reward q ≤ 60 * COIN.
Proof.
  unfold reward. case_decide; [unfold COIN; lia|].
  rewrite Z.shiftr_div_pow2 by lia.
  assert (0 < 2 ^ Z.of_nat q) by (apply Z.pow_pos_nonneg; lia).
  split; [apply Z.div_pos; unfold COIN; lia|].
  apply Z.div_le_upper_bound; [done|]. unfold COIN. nia.
Qed.

Lemma GetBlockSubsidy_reward p (h : nat) :
  0 < nSubsidyHalvingInterval p ->
  GetBlockSubsidy (Z.of_nat h) p = reward (Z.to_nat (Z.of_nat h / nSubsidyHalvingInterval p)).
Proof.
  intros Hp. unfold GetBlockSubsidy, reward.
  assert (0 ≤ Z.of_nat h / nSubsidyHalvingInterval p) by (apply Z.div_pos; lia).
  rewrite Z.quot_div_nonneg by lia. rewrite Z2Nat.id by done.
  repeat case_decide; try done; lia.
Qed.

(** What is issued up to a height, in closed form. *)
Lemma issued_closed p h :
  0 < nSubsidyHalvingInterval p ->
  let i := nSubsidyHalvingInterval p in
  let q := Z.to_nat (Z.of_nat h / i) in
  issued p h = i * rewards q + (Z.of_nat h mod i + 1) * reward q - reward 0.
Proof.
  intros Hp i. induction h as [|h IH].
  - change (Z.of_nat 0) with 0. rewrite Z.div_0_l, Z.mod_0_l by lia. change (Z.to_nat 0) with 0%nat. cbn [issued rewards]. lia.
  - cbn [issued]. rewrite GetBlockSubsidy_reward, IH by done. fold i. clear IH.
    pose proof (Z.div_mod (Z.of_nat h) i ltac:(lia)) as E.
    pose proof (Z.mod_pos_bound (Z.of_nat h) i ltac:(lia)) as B.
    assert (0 ≤ Z.of_nat h / i) by (apply Z.div_pos; lia).
    destruct (decide (Z.of_nat h mod i + 1 = i)) as [Hw|Hw].
    + assert (Z.of_nat (S h) / i = Z.of_nat h / i + 1) as ->
        by (symmetry; apply (Z.div_unique_pos _ _ _ 0); lia).
      assert (Z.of_nat (S h) mod i = 0) as ->
        by (symmetry; apply (Z.mod_unique_pos _ _ (Z.of_nat h / i + 1)); lia).
      rewrite Z2Nat.inj_add, Nat.add_1_r by lia. cbn [rewards]. lia.
    + assert (Z.of_nat (S h) / i = Z.of_nat h / i) as ->
        by (symmetry; apply (Z.div_unique_pos _ _ _ (Z.of_nat h mod i + 1)); lia).
      assert (Z.of_nat (S h) mod i = Z.of_nat h mod i + 1) as ->
        by (symmetry; apply (Z.mod_unique_pos _ _ (Z.of_nat h / i)); lia).
      lia.
Qed.

Lemma rewards_after q : (64 ≤ q)%nat -> rewards q = rewards 64.
Proof.
  intros H. induction q as [|q IH]; [lia|]. destruct (decide (q = 63)%nat) as [->|]; [done|].
  change (rewards (S q)) with (rewards q + reward q). rewrite IH by lia.
  unfold reward. rewrite decide_True by lia. apply Z.add_0_r.
Qed.

Lemma rewards_mono q k : (q <= k)%nat -> rewards q <= rewards k.
Proof.
  induction 1 as [|k ? IH]; [lia|]. cbn [rewards]. pose proof (reward_range k). lia.
Qed.

Lemma rewards_bound q : rewards q <= rewards 64.
Proof.
  destruct (decide (q <= 64)%nat); [by apply rewards_mono|]. rewrite rewards_after by lia. lia.
Qed.

Lemma rewards_value : rewards 64 = 11999999988.
Proof. vm_compute. reflexivity. Qed.



Lemma issued_mono p h k :
  0 < nSubsidyHalvingInterval p -> (h <= k)%nat -> issued p h <= issued p k.
Proof.
  intros Hp. induction 1 as [|k ? IH]; [lia|]. cbn [issued].
  rewrite GetBlockSubsidy_reward by done.
  pose proof (reward_range (Z.to_nat (Z.of_nat (S k) / nSubsidyHalvingInterval p))). lia.
Qed.

(** Before the first halving every block issues 60 SHAH. *)
Lemma issued_first p h :
  Z.of_nat h < nSubsidyHalvingInterval p -> issued p h = Z.of_nat h * (60 * COIN).
Proof.
  intros Hh. rewrite issued_closed by lia.
  rewrite Z.div_small, Z.mod_small by lia. change (Z.to_nat 0) with 0%nat.
  change (reward 0) with (60 * COIN). cbn [rewards]. lia.
Qed.

(** The schedule does not respect the cap.  On the main network the blocks
    up to height [h] may issue more than MAX_MONEY, "the maximum allowed
    amount of money in the system", from height 350001 on. *)
Theorem issue_passes_max_money (genesis : Z) (h : nat) :
  MAX_MONEY < issued (CMainParams genesis) h <-> (350000 < Z.of_nat h).
Proof.
  assert (0 < nSubsidyHalvingInterval (CMainParams genesis)) as Hp by (simpl; lia).
  destruct (decide (Z.of_nat h < 840000)).
  - rewrite issued_first by (simpl; lia). unfold MAX_MONEY, COIN. lia.
  - split; [lia|]. intros _.
    apply Z.lt_le_trans with (issued (CMainParams genesis) (Z.to_nat 839999)).
    + rewrite issued_first by (simpl; lia). unfold MAX_MONEY, COIN. lia.
    + apply issued_mono; [done|lia].
Qed.
