(* ===== verification/Coins.v ===== *)
(** * The node: views of the unspent coins

    coins.h, coins.cpp and txdb.cpp.  A view of the unspent transaction
    outputs is a class ([CoinsView], the virtual functions of the C++ base
    class) with laws ([CoinsViewLaws]): what it promises is a finite map of
    unspent coins and the hash of the block they belong to.  The database is
    an instance, and a [CCoinsViewCache] over any instance is an instance, so
    that a stack of caches of any depth behaves like one map.  The order in
    which an unordered_map is iterated is a parameter ([HashOrder]).  The
    accounting of memory ([cachedCoinsUsage], [ReallocateCache]) is left out:
    no other result depends on it. *)

From Stdlib Require Import ZArith Lia.
From stdpp Require Import base tactics gmap strings numbers list.
From S2P Require Import NodeBase.

Open Scope Z_scope.

(** ** Coins and cache entries *)

Record Coin := mkCoin { out : CTxOut; fCoinBase : bool; coin_nHeight : Z }.

#[export] Instance coin_eq_dec : EqDecision Coin.
Proof. solve_decision. Defined.

(** [Coin(out, nHeight, fCoinBase)]: the height is a bit field of 31 bits. *)
Definition new_coin (o : CTxOut) (nHeight : Z) (coinbase : bool) : Coin :=
  mkCoin o coinbase (nHeight mod 2 ^ 31).

(** [Coin()], and what [Clear] leaves. *)
Definition coinEmpty : Coin := mkCoin txout_null false 0.

Definition IsSpent (c : Coin) : bool := txout_IsNull (out c).

Record CCoinsCacheEntry := mkEntry { coin : Coin; DIRTY : bool; FRESH : bool }.

Notation CCoinsMap := (gmap COutPoint CCoinsCacheEntry).

(** The order in which a hash map is iterated: any order of its entries. *)
Class HashOrder := {
  iterate : CCoinsMap -> list (COutPoint * CCoinsCacheEntry);
  iterate_perm m : iterate m ≡ₚ map_to_list m }.

#[export] Instance key_order : HashOrder :=
  {| iterate := fun m => map_to_list m; iterate_perm := fun m => reflexivity _ |}.

(** ** The interface: the virtual functions of [CCoinsView]

    [BatchWrite erase hash] works on the map it is given as well, since it
    erases the entries it has taken over when [erase] is set. *)
Class CoinsView (V : Type) := {
  GetCoin : COutPoint -> V -> option Coin * V;
  GetBestBlock : V -> Z * V;
  BatchWrite : bool -> Z -> act (CCoinsMap * V) bool }.

(** What a child cache asks its parent to take over. *)
Definition taken (e : CCoinsCacheEntry) (below : option Coin) : option Coin :=
  if DIRTY e then (if IsSpent (coin e) then None else Some (coin e)) else below.

Definition written (m : CCoinsMap) (below : gmap COutPoint Coin) : gmap COutPoint Coin :=
  merge (fun e c => match e with Some e => taken e c | None => c end) m below.

(** The five combinations of flags that coins.h allows, with what each says
    of the view below. *)
Definition entry_ok (below : option Coin) (e : CCoinsCacheEntry) : Prop :=
  (FRESH e = true -> below = None) /\
  (IsSpent (coin e) = true -> coin e = coinEmpty) /\
  match DIRTY e, FRESH e with
  | true, true => IsSpent (coin e) = false
  | true, false => True
  | false, true => IsSpent (coin e) = true
  | false, false => IsSpent (coin e) = false /\ below = Some (coin e)
  end.

Definition acceptable (m : CCoinsMap) (below : gmap COutPoint Coin) : Prop :=
  map_Forall (fun o e => entry_ok (below !! o) e) m.

Class CoinsViewLaws (V : Type) `{CoinsView V} := {
  coins : V -> gmap COutPoint Coin;
  tip : V -> Z;
  view_ok : V -> Prop;
  coins_unspent v : view_ok v -> map_Forall (fun _ c => IsSpent c = false) (coins v);
  get_coin o v : view_ok v -> exists v',
    GetCoin o v = (coins v !! o, v') /\ view_ok v' /\ coins v' = coins v /\ tip v' = tip v;
  get_best v : view_ok v -> exists v',
    GetBestBlock v = (tip v, v') /\ view_ok v' /\ coins v' = coins v /\ tip v' = tip v;
  batch_write erase hash m v : view_ok v -> hash <> 0 -> acceptable m (coins v) -> exists v',
    BatchWrite erase hash (m, v) = (Ok true, (if erase then ∅ else m, v')) /\
    view_ok v' /\ coins v' = written m (coins v) /\ tip v' = hash }.

(** ** The database: [CCoinsViewDB] of txdb.cpp

    Three kinds of keys: a coin per outpoint, the best block, and the two
    blocks a transition is between. *)
Record CCoinsViewDB := mkDB
  { db_coins : gmap COutPoint Coin; db_best : option Z; db_heads : option (list Z) }.

Definition db_GetCoin (o : COutPoint) (d : CCoinsViewDB) : option Coin * CCoinsViewDB :=
  (db_coins d !! o, d).

Definition db_GetBestBlock (d : CCoinsViewDB) : Z * CCoinsViewDB := (default 0 (db_best d), d).

Definition GetHeadBlocks (d : CCoinsViewDB) : list Z := default [] (db_heads d).

(** The coin of one entry, erased or written. *)
Definition db_put (m : gmap COutPoint Coin) (oe : COutPoint * CCoinsCacheEntry) : gmap COutPoint Coin :=
  let '(o, e) := oe in
  if DIRTY e then if IsSpent (coin e) then delete o m else <[o := coin e]> m else m.

Definition db_BatchWrite `{HashOrder} (erase : bool) (hash : Z) : act (CCoinsMap * CCoinsViewDB) bool :=
  fun '(m, d) =>
    let written :=
      (_ ← assert_that (negb (bool_decide (hash = 0))) "!hashBlock.IsNull()";
       let old_tip := (db_GetBestBlock d).1 in
       if decide (old_tip = 0) then
         match GetHeadBlocks d with
         | [h0; h1] => assert_that (bool_decide (h0 = hash)) "old_heads[0] == hashBlock"
         | _ => mret tt
         end
       else mret tt) in
    match written with
    | Err f => (Err f, (m, d))
    | Ok _ =>
        (Ok true, (if erase then ∅ else m,
                   mkDB (foldl db_put (db_coins d) (iterate m)) (Some hash) None))
    end.

#[export] Instance db_view `{HashOrder} : CoinsView CCoinsViewDB :=
  {| GetCoin := db_GetCoin; GetBestBlock := db_GetBestBlock; BatchWrite := db_BatchWrite |}.

(** ** The cache: [CCoinsViewCache] of coins.cpp *)

Record CCoinsViewCache (V : Type) := mkCache
  { base : V; cacheCoins : CCoinsMap; hashBlock : Z }.
Arguments mkCache {V}.
Arguments base {V}.
Arguments cacheCoins {V}.
Arguments hashBlock {V}.

Section Cache.

Context {V : Type} {view : CoinsView V} {order : HashOrder}.
Notation cache := (CCoinsViewCache V).

(** A new cache over a view. *)
Definition new_cache (b : V) : cache := mkCache b ∅ 0.

Definition FetchCoin (o : COutPoint) (v : cache) : option CCoinsCacheEntry * cache :=
  match cacheCoins v !! o with
  | Some e => (Some e, v)
  | None =>
      match GetCoin o (base v) with
      | (None, b) => (None, mkCache b (cacheCoins v) (hashBlock v))
      | (Some tmp, b) =>
          let ret := mkEntry tmp false (IsSpent tmp) in
          (Some ret, mkCache b (<[o := ret]> (cacheCoins v)) (hashBlock v))
      end
  end.

Definition cache_GetCoin (o : COutPoint) (v : cache) : option Coin * cache :=
  match FetchCoin o v with
  | (Some e, v) => (if IsSpent (coin e) then None else Some (coin e), v)
  | (None, v) => (None, v)
  end.

Definition AddCoin (o : COutPoint) (c : Coin) (possible_overwrite : bool) : act cache unit :=
  fun v =>
    if IsSpent c then (Err (Aborted "!coin.IsSpent()"), v)
    else if IsUnspendable (scriptPubKey (out c)) then (Ok tt, v)
    else
      let it := default (mkEntry coinEmpty false false) (cacheCoins v !! o) in
      let put fresh :=
        (Ok tt, mkCache (base v) (<[o := mkEntry c true (FRESH it || fresh)]> (cacheCoins v)) (hashBlock v)) in
      if possible_overwrite then put false
      else if IsSpent (coin it) then put (negb (DIRTY it))
      else (Err (Thrown "Attempted to overwrite an unspent coin (when possible_overwrite is false)"), v).

(** The result is the coin moved out, when there was an entry to spend. *)
Definition SpendCoin (o : COutPoint) : act cache (option Coin) :=
  fun v =>
    match FetchCoin o v with
    | (None, v) => (Ok None, v)
    | (Some e, v) =>
        (Ok (Some (coin e)),
         mkCache (base v)
           (if FRESH e then delete o (cacheCoins v)
            else <[o := mkEntry coinEmpty true false]> (cacheCoins v)) (hashBlock v))
    end.

Definition AccessCoin (o : COutPoint) : act cache Coin :=
  fun v =>
    match FetchCoin o v with
    | (None, v) => (Ok coinEmpty, v)
    | (Some e, v) => (Ok (coin e), v)
    end.

Definition HaveCoin (o : COutPoint) : act cache bool :=
  fun v =>
    match FetchCoin o v with
    | (None, v) => (Ok false, v)
    | (Some e, v) => (Ok (negb (IsSpent (coin e))), v)
    end.

Definition HaveCoinInCache (o : COutPoint) (v : cache) : bool :=
  match cacheCoins v !! o with
  | None => false
  | Some e => negb (IsSpent (coin e))
  end.

Definition cache_GetBestBlock (v : cache) : Z * cache :=
  if decide (hashBlock v = 0) then
    let '(h, b) := GetBestBlock (base v) in (h, mkCache b (cacheCoins v) h)
  else (hashBlock v, v).

Definition SetBestBlock (h : Z) : act cache unit :=
  fun v => (Ok tt, mkCache (base v) (cacheCoins v) h).

(** One turn of the loop of [BatchWrite]: the map of the child, and this
    cache. *)
Definition batch_turn (erase : bool) (oe : COutPoint * CCoinsCacheEntry) : act (CCoinsMap * cache) unit :=
  fun '(m, v) =>
    let '(o, e) := oe in
    let next us := (Ok tt, (if erase then delete o m else m, mkCache (base v) us (hashBlock v))) in
    if negb (DIRTY e) then next (cacheCoins v)
    else
      match cacheCoins v !! o with
      | None =>
          if FRESH e && IsSpent (coin e) then next (cacheCoins v)
          else next (<[o := mkEntry (coin e) true (FRESH e)]> (cacheCoins v))
      | Some us =>
          if FRESH e && negb (IsSpent (coin us)) then
            (Err (Thrown "FRESH flag misapplied to coin that exists in parent cache"), (m, v))
          else if FRESH us && IsSpent (coin e) then next (delete o (cacheCoins v))
          else next (<[o := mkEntry (coin e) true (FRESH us)]> (cacheCoins v))
      end.

Definition cache_BatchWrite (erase : bool) (hash : Z) : act (CCoinsMap * cache) bool :=
  fun '(m, v) =>
    match for_each (M := act (CCoinsMap * cache)) (iterate m) (fun oe _ => batch_turn erase oe) tt (m, v) with
    | (Err f, s) => (Err f, s)
    | (Ok _, (m, v)) => (Ok true, (m, mkCache (base v) (cacheCoins v) hash))
    end.

Definition Flush : act cache bool :=
  fun v =>
    match BatchWrite true (hashBlock v) (cacheCoins v, base v) with
    | (Err f, (m, b)) => (Err f, mkCache b m (hashBlock v))
    | (Ok true, (m, b)) =>
        if decide (m = ∅) then (Ok true, mkCache b ∅ (hashBlock v))
        else (Err (Thrown "Not all cached coins were erased"), mkCache b m (hashBlock v))
    | (Ok false, (m, b)) => (Ok false, mkCache b m (hashBlock v))
    end.

Definition Sync : act cache bool :=
  fun v =>
    match BatchWrite false (hashBlock v) (cacheCoins v, base v) with
    | (Err f, (m, b)) => (Err f, mkCache b m (hashBlock v))
    | (Ok fOk, (m, b)) =>
        (Ok fOk, mkCache b (omap (fun e => if IsSpent (coin e) then None
                                         else Some (mkEntry (coin e) false false)) m) (hashBlock v))
    end.

Definition Uncache (o : COutPoint) : act cache unit :=
  fun v =>
    match cacheCoins v !! o with
    | Some e =>
        if negb (DIRTY e) && negb (FRESH e)
        then (Ok tt, mkCache (base v) (delete o (cacheCoins v)) (hashBlock v))
        else (Ok tt, v)
    | None => (Ok tt, v)
    end.

Definition HaveInputs (tx : CTransaction) : act cache bool :=
  if IsCoinBase tx then mret true
  else for_each (M := act cache) (vin tx) (fun i (have : bool) =>
         if have then HaveCoin (prevout i) else mret false) true.

(** The assertion of [SanityCheck]: three of the eight combinations of flags
    do not occur. *)
Definition attr (e : CCoinsCacheEntry) : Z :=
  Z.lor (Z.lor (if DIRTY e then 1 else 0) (if FRESH e then 2 else 0)) (if IsSpent (coin e) then 4 else 0).

Definition SanityCheck (v : cache) : verdict unit :=
  for_each (M := verdict) (iterate (cacheCoins v)) (fun (oe : COutPoint * CCoinsCacheEntry) _ =>
    assert_that (negb (bool_decide (attr oe.2 = 2)) && negb (bool_decide (attr oe.2 = 4)) &&
                 negb (bool_decide (attr oe.2 = 7))) "attr != 2 && attr != 4 && attr != 7") tt.

#[export] Instance cache_view : CoinsView cache :=
  {| GetCoin := cache_GetCoin; GetBestBlock := cache_GetBestBlock; BatchWrite := cache_BatchWrite |}.

End Cache.
Arguments CCoinsViewCache V : clear implicits.

(** ** Facts about maps of entries *)

Lemma lookup_written m below o :
  written m below !! o =
    match m !! o with Some e => taken e (below !! o) | None => below !! o end.
Proof.
  unfold written. rewrite lookup_merge. unfold diag_None.
  by destruct (m !! o), (below !! o).
Qed.

Lemma acceptable_lookup m below o e :
  acceptable m below -> m !! o = Some e -> entry_ok (below !! o) e.
Proof. intros H Hm. by apply (map_Forall_lookup_1 _ _ _ _ H). Qed.

Lemma acceptable_insert m below o e :
  entry_ok (below !! o) e -> acceptable m below -> acceptable (<[o := e]> m) below.
Proof. intros. by apply map_Forall_insert_2. Qed.

Lemma acceptable_delete m below o : acceptable m below -> acceptable (delete o m) below.
Proof. apply map_Forall_delete. Qed.

(** What a cache with the entries [m] over [below] holds. *)
Definition seen (e : option CCoinsCacheEntry) (below : option Coin) : option Coin :=
  match e with
  | Some e => if IsSpent (coin e) then None else Some (coin e)
  | None => below
  end.

Definition overlay (m : CCoinsMap) (below : gmap COutPoint Coin) : gmap COutPoint Coin :=
  merge seen m below.

Lemma lookup_overlay m below o : overlay m below !! o = seen (m !! o) (below !! o).
Proof.
  unfold overlay. rewrite lookup_merge. unfold diag_None.
  by destruct (m !! o), (below !! o).
Qed.

Lemma taken_seen e below : entry_ok below e -> taken e below = seen (Some e) below.
Proof.
  destruct e as [c [] []]; intros (Hf & ? & Hm); simpl in *; [done|done|..]; unfold taken; simpl.
  - by rewrite Hf, Hm.
  - by destruct Hm as [-> ->].
Qed.

Lemma written_overlay m below : acceptable m below -> written m below = overlay m below.
Proof.
  intros H. apply map_eq. intros o. rewrite lookup_written, lookup_overlay.
  destruct (m !! o) as [e|] eqn:E; [|done]. apply taken_seen. by eapply acceptable_lookup.
Qed.

Lemma overlay_insert m below o e :
  IsSpent (coin e) = false -> overlay (<[o := e]> m) below = <[o := coin e]> (overlay m below).
Proof.
  intros H. apply map_eq. intros o'. rewrite lookup_overlay.
  destruct (decide (o = o')) as [<-|]; simplify_map_eq; rewrite ?lookup_overlay; [|done].
  by rewrite H.
Qed.

Lemma overlay_insert_spent m below o e :
  IsSpent (coin e) = true -> overlay (<[o := e]> m) below = delete o (overlay m below).
Proof.
  intros H. apply map_eq. intros o'. rewrite lookup_overlay.
  destruct (decide (o = o')) as [<-|]; simplify_map_eq; rewrite ?lookup_overlay; [|done].
  by rewrite H.
Qed.

Lemma overlay_delete m below o :
  below !! o = None -> overlay (delete o m) below = delete o (overlay m below).
Proof.
  intros H. apply map_eq. intros o'. rewrite lookup_overlay.
  destruct (decide (o = o')) as [<-|]; simplify_map_eq; rewrite ?lookup_overlay; done.
Qed.

(** An entry that says what is below it changes nothing. *)
Lemma overlay_same m below o e :
  m !! o = None -> seen (Some e) (below !! o) = below !! o ->
  overlay (<[o := e]> m) below = overlay m below.
Proof.
  intros Hm H. apply map_eq. intros o'. rewrite !lookup_overlay.
  destruct (decide (o = o')) as [<-|]; simplify_map_eq; [|done]. by rewrite Hm.
Qed.

Lemma overlay_empty below : overlay ∅ below = below.
Proof. apply map_eq. intros o. rewrite lookup_overlay. by simplify_map_eq. Qed.

(** ** The iteration order does not matter *)

Section Order.

Context {order : HashOrder}.

Lemma iterate_NoDup m : NoDup (iterate m).*1.
Proof. rewrite iterate_perm. apply NoDup_fst_map_to_list. Qed.

Lemma iterate_map m : list_to_map (iterate m) = m.
Proof.
  rewrite <-(list_to_map_to_list m) at 2. apply list_to_map_proper; [apply iterate_NoDup|].
  apply iterate_perm.
Qed.

Lemma iterate_elem m o e : (o, e) ∈ iterate m <-> m !! o = Some e.
Proof. rewrite iterate_perm. apply elem_of_map_to_list. Qed.

Lemma iterate_forall m (P : COutPoint -> CCoinsCacheEntry -> Prop) :
  map_Forall P m -> Forall (fun oe => P oe.1 oe.2) (iterate m).
Proof. intros H. apply Forall_forall. intros [o e] He. by apply iterate_elem, H in He. Qed.

(** ** The database keeps its promise *)

Lemma db_puts l (d : gmap COutPoint Coin) :
  NoDup l.*1 -> foldl db_put d l = written (list_to_map l) d.
Proof.
  revert d. induction l as [|[o e] l IH]; intros d Hl.
  { apply map_eq. intros o. rewrite lookup_written. simpl. by rewrite lookup_empty. }
  cbn [foldl]. apply NoDup_cons in Hl as [Ho Hl]. rewrite IH by done.
  apply map_eq. intros o'. rewrite !lookup_written.
  destruct (decide (o = o')) as [<-|].
  - rewrite (not_elem_of_list_to_map_1 _ _ Ho). simpl. rewrite lookup_insert_eq.
    unfold taken. repeat case_match; by simplify_map_eq.
  - assert (db_put d (o, e) !! o' = d !! o') as -> by (simpl; repeat case_match; by simplify_map_eq).
    simpl. by rewrite lookup_insert_ne by done.
Qed.

Definition db_ok (d : CCoinsViewDB) : Prop :=
  map_Forall (fun _ c => IsSpent c = false) (db_coins d) /\ db_heads d = None.

Lemma written_unspent m below :
  map_Forall (fun _ c => IsSpent c = false) below ->
  map_Forall (fun _ c => IsSpent c = false) (written m below).
Proof.
  intros H o c. rewrite lookup_written. destruct (m !! o) as [e|]; [|apply H].
  unfold taken. repeat case_match; intros; simplify_eq; [done|by eapply H].
Qed.

#[export] Program Instance db_laws : CoinsViewLaws CCoinsViewDB :=
  {| coins := db_coins; tip := fun d => default 0 (db_best d); view_ok := db_ok |}.
Next Obligation. by intros v [H _]. Qed.
Next Obligation. intros o v H. by exists v. Qed.
Next Obligation. intros v H. by exists v. Qed.
Next Obligation.
  intros erase hash m v [Hu Hh] Hhash _. simpl. unfold db_BatchWrite.
  rewrite bool_decide_false by done. simpl.
  assert (forall h, (if decide (h = 0) then match GetHeadBlocks v with
    | [h0; h1] => assert_that (bool_decide (h0 = hash)) "old_heads[0] == hashBlock"
    | _ => mret tt end else mret tt) = Ok tt) as ->.
  { intros h. unfold GetHeadBlocks. rewrite Hh. simpl. by case_decide. }
  eexists. split; [done|]. simpl. rewrite db_puts, iterate_map by apply iterate_NoDup.
  split; [|done]. split; [|done]. by apply written_unspent.
Qed.

End Order.

(** ** A cache over a view that keeps its promise keeps it too *)

Section CacheLaws.

Context {V : Type} {view : CoinsView V} {laws : CoinsViewLaws V} {order : HashOrder}.
Notation cache := (CCoinsViewCache V).

Definition cache_ok (v : cache) : Prop :=
  view_ok (base v) /\ acceptable (cacheCoins v) (coins (base v)).

Definition cache_coins (v : cache) : gmap COutPoint Coin :=
  overlay (cacheCoins v) (coins (base v)).

Definition cache_tip (v : cache) : Z :=
  if decide (hashBlock v = 0) then tip (base v) else hashBlock v.

Lemma cache_coins_unspent v :
  cache_ok v -> map_Forall (fun _ c => IsSpent c = false) (cache_coins v).
Proof.
  intros [Hb _] o c. unfold cache_coins. rewrite lookup_overlay.
  destruct (cacheCoins v !! o) as [e|]; simpl.
  - destruct (IsSpent (coin e)) eqn:?; by intros; simplify_eq.
  - by apply coins_unspent.
Qed.

(** Looking at coins: the cache may grow, nothing else changes. *)
Record looked (v v' : cache) : Prop :=
  { looked_ok : cache_ok v';
    looked_base : coins (base v') = coins (base v);
    looked_coins : cache_coins v' = cache_coins v;
    looked_tip : tip (base v') = tip (base v);
    looked_hash : hashBlock v' = hashBlock v;
    looked_grows : cacheCoins v ⊆ cacheCoins v' }.

Lemma looked_refl v : cache_ok v -> looked v v.
Proof. by split. Qed.

Lemma looked_trans v1 v2 v3 : looked v1 v2 -> looked v2 v3 -> looked v1 v3.
Proof. intros [] []. split; try congruence. by etrans. Qed.

Lemma fetch_coin o v : cache_ok v -> exists v',
  FetchCoin o v = (cacheCoins v' !! o, v') /\ looked v v' /\
  (cacheCoins v' !! o = None -> coins (base v') !! o = None).
Proof.
  intros [Hb Hm]. unfold FetchCoin. destruct (cacheCoins v !! o) as [e|] eqn:E.
  { exists v. rewrite E. split_and!; [done|by apply looked_refl|done]. }
  destruct (get_coin o _ Hb) as (b & -> & Hb' & Hc & Ht).
  destruct (coins (base v) !! o) as [c|] eqn:Ec.
  - pose proof (coins_unspent _ Hb _ _ Ec) as Hu. simpl in Hu. rewrite Hu.
    eexists (mkCache _ _ _). split_and!; [by simpl; rewrite lookup_insert_eq| |by simpl; rewrite lookup_insert_eq].
    split; simpl; unfold cache_ok, cache_coins; simpl; rewrite ?Hc; try done.
    + split; [done|]. apply acceptable_insert; [|done].
      unfold entry_ok. simpl. rewrite Hu, Ec. naive_solver.
    + apply overlay_same; [done|]. simpl. by rewrite Hu, Ec.
    + by apply insert_subseteq.
  - eexists (mkCache _ _ _). split_and!; [by simpl; rewrite E| |by simpl; rewrite Hc].
    split; simpl; unfold cache_ok, cache_coins; simpl; rewrite ?Hc; done.
Qed.

Lemma have_coin o v : cache_ok v -> exists v',
  HaveCoin o v = (Ok (bool_decide (is_Some (cache_coins v !! o))), v') /\ looked v v' /\
  (coins (base v') !! o = None \/ is_Some (cacheCoins v' !! o)).
Proof.
  intros Hv. destruct (fetch_coin o v Hv) as (v' & Hf & Hl & Hn).
  exists v'. unfold HaveCoin. rewrite Hf, <-(looked_coins _ _ Hl).
  unfold cache_coins. rewrite lookup_overlay.
  destruct (cacheCoins v' !! o) as [e|] eqn:E; simpl.
  - split_and!; [|done|by right]. by destruct (IsSpent (coin e)).
  - rewrite Hn by done. split_and!; [done|done|by left].
Qed.

Lemma access_coin o v : cache_ok v -> exists v',
  AccessCoin o v = (Ok (default coinEmpty (cache_coins v !! o)), v') /\ looked v v'.
Proof.
  intros Hv. destruct (fetch_coin o v Hv) as (v' & Hf & Hl & Hn).
  exists v'. unfold AccessCoin. rewrite Hf, <-(looked_coins _ _ Hl).
  unfold cache_coins. rewrite lookup_overlay.
  destruct (cacheCoins v' !! o) as [e|] eqn:E; simpl; [|by rewrite Hn].
  split; [|done]. destruct Hl as [[_ Hm]].
  destruct (acceptable_lookup _ _ _ _ Hm E) as (_ & Hs & _).
  destruct (IsSpent (coin e)); simpl; [by rewrite Hs|done].
Qed.

Lemma cache_get_coin o v : cache_ok v -> exists v',
  cache_GetCoin o v = (cache_coins v !! o, v') /\ looked v v'.
Proof.
  intros Hv. destruct (fetch_coin o v Hv) as (v' & Hf & Hl & Hn).
  exists v'. unfold cache_GetCoin. rewrite Hf, <-(looked_coins _ _ Hl).
  unfold cache_coins. rewrite lookup_overlay.
  destruct (cacheCoins v' !! o) as [e|] eqn:E; simpl; [done|by rewrite Hn].
Qed.

(** Changing one coin: the view below is left alone.  [settled o] says that
    the cache knows about the outpoint, or that there is nothing to know. *)
Definition settled (o : COutPoint) (v : cache) : Prop :=
  coins (base v) !! o = None \/ is_Some (cacheCoins v !! o).

Record changed (m : gmap COutPoint Coin) (v v' : cache) : Prop :=
  { changed_ok : cache_ok v';
    changed_coins : cache_coins v' = m;
    changed_base : coins (base v') = coins (base v);
    changed_tip : tip (base v') = tip (base v);
    changed_hash : hashBlock v' = hashBlock v;
    changed_settled o : settled o v -> settled o v' }.

Lemma looked_changed v v' : looked v v' -> changed (cache_coins v) v v'.
Proof.
  intros []. split; try done. intros o. unfold settled. rewrite looked_base0.
  intros [|[e He]]; [by left|]. right. exists e. by eapply lookup_weaken.
Qed.

Lemma changed_trans m1 m2 v1 v2 v3 :
  changed m1 v1 v2 -> changed m2 v2 v3 -> changed m2 v1 v3.
Proof. intros [] []. split; try congruence; eauto. Qed.

Lemma spend_coin o v : cache_ok v -> exists c v',
  SpendCoin o v = (Ok c, v') /\ changed (delete o (cache_coins v)) v v' /\
  match cache_coins v !! o with Some c' => c = Some c' | None => c = None \/ c = Some coinEmpty end.
Proof.
  intros Hv. destruct (fetch_coin o v Hv) as (v' & Hf & Hl & Hn).
  unfold SpendCoin. rewrite Hf, <-(looked_coins _ _ Hl). apply looked_changed in Hl as Hl'.
  destruct Hl as [[Hb Hm] Hbase Hcoins Htip Hhash _].
  unfold cache_coins. rewrite lookup_overlay.
  destruct (cacheCoins v' !! o) as [e|] eqn:E; simpl.
  - eexists _, _. split; [done|].
    pose proof (acceptable_lookup _ _ _ _ Hm E) as (Hfr & Hs & _). split.
    + split; unfold cache_ok, cache_coins; simpl; try done.
      * split; [done|]. destruct (FRESH e); [by apply acceptable_delete|].
        by apply acceptable_insert.
      * destruct (FRESH e); [apply overlay_delete; auto|by apply overlay_insert_spent].
      * intros o' Ho%(changed_settled _ _ _ Hl'). unfold settled in *. simpl.
        destruct (FRESH e).
        -- destruct (decide (o = o')) as [<-|]; [auto|by rewrite lookup_delete_ne].
        -- destruct (decide (o = o')) as [<-|]; simplify_map_eq; [eauto|done].
    + destruct (IsSpent (coin e)); [|done]. right. by rewrite Hs.
  - exists None, v'. rewrite Hn by done. split_and!; [done| |by left].
    destruct Hl' as [? Hc]. split; try done. unfold cache_coins in *.
    rewrite delete_id; [done|]. rewrite lookup_overlay, E. simpl. auto.
Qed.

Definition added (o : COutPoint) (c : Coin) (m : gmap COutPoint Coin) : gmap COutPoint Coin :=
  if IsUnspendable (scriptPubKey (out c)) then m else <[o := c]> m.

Lemma add_coin o c overwrite v :
  cache_ok v -> IsSpent c = false -> overwrite = true \/ cache_coins v !! o = None ->
  exists v', AddCoin o c overwrite v = (Ok tt, v') /\ changed (added o c (cache_coins v)) v v'.
Proof.
  intros Hv Hc Ho. unfold AddCoin, added. rewrite Hc.
  destruct (IsUnspendable _). { exists v. split; [done|]. by apply looked_changed, looked_refl. }
  set (it := default _ _).
  assert (overwrite = true \/ IsSpent (coin it) = true) as Hit.
  { destruct Ho as [|Ho]; [by left|right]. unfold it, cache_coins in *. rewrite lookup_overlay in Ho.
    destruct (cacheCoins v !! o) as [e|]; [|done]. simpl in *. by destruct (IsSpent (coin e)). }
  assert (forall fresh, (FRESH it || fresh = true -> coins (base v) !! o = None) ->
    changed (<[o := c]> (cache_coins v)) v
      (mkCache (base v) (<[o := mkEntry c true (FRESH it || fresh)]> (cacheCoins v)) (hashBlock v))) as put.
  { intros fresh Hfresh. destruct Hv as [Hb Hm].
    split; unfold cache_ok, cache_coins; simpl; try done.
    - split; [done|]. apply acceptable_insert; [|done].
      split_and!; simpl; [done|congruence|by case_match].
    - by apply overlay_insert.
    - intros o'. unfold settled. simpl. destruct (decide (o = o')) as [<-|]; simplify_map_eq; [eauto|done]. }
  assert (FRESH it = true -> coins (base v) !! o = None) as Hf.
  { unfold it. destruct (cacheCoins v !! o) as [e|] eqn:E; [|done]. simpl.
    by destruct (acceptable_lookup _ _ _ _ (proj2 Hv) E) as [? _]. }
  destruct overwrite.
  { eexists. split; [done|]. apply put. rewrite orb_false_r. done. }
  destruct Hit as [|Hit]; [done|]. rewrite Hit. eexists. split; [done|]. apply put.
  intros Hor. destruct Ho as [|Ho]; [done|]. unfold cache_coins in Ho. rewrite lookup_overlay in Ho.
  unfold it in *. destruct (cacheCoins v !! o) as [e|] eqn:E; [|done]. simpl in *.
  destruct (acceptable_lookup _ _ _ _ (proj2 Hv) E) as (? & _ & Hd).
  destruct (DIRTY e), (FRESH e); simpl in *; naive_solver congruence.
Qed.

(** An addition that may not overwrite succeeds only where there is no coin,
    as far as the cache can know. *)
Lemma add_coin_ran o c v v' :
  cache_ok v -> settled o v -> AddCoin o c false v = (Ok tt, v') ->
  changed (added o c (cache_coins v)) v v' /\ IsSpent c = false /\
  (IsUnspendable (scriptPubKey (out c)) = false -> cache_coins v !! o = None).
Proof.
  intros Hv Hs Ha. destruct (IsSpent c) eqn:Hc; [by unfold AddCoin in Ha; rewrite Hc in Ha|].
  destruct (IsUnspendable (scriptPubKey (out c))) eqn:Hu.
  { unfold AddCoin, added in *. rewrite Hc, Hu in *. simplify_eq.
    split_and!; [by apply looked_changed, looked_refl|done|done]. }
  assert (cache_coins v !! o = None) as Ho.
  { unfold AddCoin, settled in *. rewrite Hc, Hu in Ha. unfold cache_coins. rewrite lookup_overlay.
    destruct (cacheCoins v !! o) as [e|]; simpl in *; [by destruct (IsSpent (coin e))|].
    by destruct Hs as [|[??]]. }
  destruct (add_coin o c false v) as (w & Hw & ?); [done|done|by right|].
  rewrite Hw in Ha. by simplify_eq.
Qed.

Lemma uncache o v : cache_ok v -> exists v',
  Uncache o v = (Ok tt, v') /\ cache_ok v' /\ cache_coins v' = cache_coins v /\
  base v' = base v /\ hashBlock v' = hashBlock v.
Proof.
  intros [Hb Hm]. unfold Uncache. destruct (cacheCoins v !! o) as [e|] eqn:E; [|by exists v].
  destruct (negb (DIRTY e) && negb (FRESH e)) eqn:F; [|by exists v].
  apply andb_true_iff in F as [Hd%negb_true_iff Hf%negb_true_iff].
  eexists. split; [done|]. split_and!; try done; [split; [done|by apply acceptable_delete]|].
  unfold cache_coins. simpl. apply map_eq. intros o'. rewrite !lookup_overlay.
  destruct (decide (o = o')) as [<-|]; simplify_map_eq; [|done].
  destruct (acceptable_lookup _ _ _ _ Hm E) as (_ & _ & He). rewrite Hd, Hf in He.
  simpl. by destruct He as [-> ->].
Qed.

(** ** Writing to the parent *)

Lemma batch_turn_ok erase o e m v :
  cache_ok v -> entry_ok (cache_coins v !! o) e -> exists us,
  batch_turn erase (o, e) (m, v) =
    (Ok tt, (if erase then delete o m else m, mkCache (base v) us (hashBlock v))) /\
  acceptable us (coins (base v)) /\
  overlay us (coins (base v)) = written {[o := e]} (cache_coins v).
Proof.
  intros [Hb Hm] He. unfold batch_turn, cache_coins in *. rewrite lookup_overlay in He.
  assert (forall us, acceptable us (coins (base v)) ->
    (forall o', o <> o' -> us !! o' = cacheCoins v !! o') ->
    seen (us !! o) (coins (base v) !! o) = taken e (seen (cacheCoins v !! o) (coins (base v) !! o)) ->
    acceptable us (coins (base v)) /\
    overlay us (coins (base v)) = written {[o := e]} (overlay (cacheCoins v) (coins (base v)))) as fin.
  { intros us Hu Hne Ho. split; [done|]. apply map_eq. intros o'.
    rewrite lookup_written, !lookup_overlay.
    destruct (decide (o = o')) as [<-|]; simplify_map_eq; [done|]. by rewrite Hne. }
  destruct e as [c d f]. simpl in *. destruct d; simpl.
  2:{ eexists. split; [done|]. by apply fin. }
  destruct He as (Hf & Hs & He). simpl in *.
  destruct (cacheCoins v !! o) as [us|] eqn:E; simpl in *.
  - pose proof (acceptable_lookup _ _ _ _ Hm E) as Hus. destruct Hus as (Huf & _ & _).
    assert (f && negb (IsSpent (coin us)) = false) as ->.
    { destruct f; [|done]. specialize (Hf eq_refl). simpl. by destruct (IsSpent (coin us)). }
    destruct (FRESH us && IsSpent c) eqn:F.
    + apply andb_true_iff in F as [Fu Fs]. eexists. split; [done|].
      apply fin; [by apply acceptable_delete|by intros; simplify_map_eq|].
      rewrite lookup_delete_eq. unfold taken. simpl. by rewrite Fs, Huf.
    + eexists. split; [done|]. apply fin; [|by intros; simplify_map_eq|by rewrite lookup_insert_eq].
      apply acceptable_insert; [|done]. split_and!; simpl; [done|done|].
      destruct (FRESH us); [by apply F|done].
  - assert (f && IsSpent c = false) as -> by (by destruct f).
    eexists. split; [done|].
    apply fin; [|by intros; simplify_map_eq|by rewrite lookup_insert_eq].
    apply acceptable_insert; [|done]. by split_and!.
Qed.

Lemma written_step o e (m : CCoinsMap) c :
  m !! o = None -> written m (written {[o := e]} c) = written (<[o := e]> m) c.
Proof.
  intros Hm. apply map_eq. intros o'. rewrite !lookup_written.
  destruct (decide (o = o')) as [<-|]; by simplify_map_eq.
Qed.

Definition erased (m : CCoinsMap) (l : list (COutPoint * CCoinsCacheEntry)) : CCoinsMap :=
  foldl (fun m oe => delete oe.1 m) m l.

Lemma batch_loop erase l m v :
  cache_ok v -> NoDup l.*1 -> Forall (fun oe => entry_ok (cache_coins v !! oe.1) oe.2) l ->
  exists us,
  for_each (M := act (CCoinsMap * cache)) l (fun oe _ => batch_turn erase oe) tt (m, v) =
    (Ok tt, (if erase then erased m l else m, mkCache (base v) us (hashBlock v))) /\
  acceptable us (coins (base v)) /\
  overlay us (coins (base v)) = written (list_to_map l) (cache_coins v).
Proof.
  revert m v. induction l as [|[o e] l IH]; intros m v Hv Hl He.
  { exists (cacheCoins v). destruct v, Hv, erase; (split_and!; [done|done|]);
      apply map_eq; intros o; rewrite lookup_written; simpl; by rewrite lookup_empty. }
  apply NoDup_cons in Hl as [Ho Hl]. apply Forall_cons in He as [He Hes]. simpl in *.
  destruct (batch_turn_ok erase o e m v Hv He) as (us & Et & Hu & Ew).
  set (v1 := mkCache (base v) us (hashBlock v)) in *.
  destruct (IH (if erase then delete o m else m) v1) as (us' & El & Hu' & Ew');
    [by destruct Hv|done| |].
  { apply Forall_forall. intros [o' e'] Hin. rewrite Forall_forall in Hes.
    specialize (Hes _ Hin). simpl in *. change (cache_coins v1) with (overlay us (coins (base v))).
    rewrite Ew, lookup_written, lookup_singleton_ne; [done|].
    intros <-. apply Ho. by apply (list_elem_of_fmap_2 fst _ _ Hin). }
  exists us'. split_and!; [|done|].
  - cbn [for_each]. erewrite act_bind_run by exact Et. rewrite El. by destruct erase.
  - etrans; [exact Ew'|]. change (cache_coins v1) with (overlay us (coins (base v))). rewrite Ew.
    by apply written_step, not_elem_of_list_to_map_1.
Qed.

Lemma erased_all m : erased m (iterate m) = ∅.
Proof.
  assert (forall l m o, erased m l !! o = if decide (o ∈ l.*1) then None else m !! o) as lookup_erased.
  { induction l as [|[o' e] l IH]; intros k o; [done|]. unfold erased. cbn [foldl]. rewrite IH. simpl.
    destruct (decide (o = o')) as [->|]; simplify_map_eq;
      repeat case_decide; try done; set_solver. }
  apply map_eq. intros o. rewrite lookup_erased, lookup_empty. case_decide as H; [done|].
  destruct (m !! o) as [e|] eqn:E; [|done]. exfalso. apply H.
  apply iterate_elem in E. by apply (list_elem_of_fmap_2 fst) in E.
Qed.

Lemma cache_batch_write erase hash m v :
  cache_ok v -> hash <> 0 -> acceptable m (cache_coins v) -> exists v',
  cache_BatchWrite erase hash (m, v) = (Ok true, (if erase then ∅ else m, v')) /\
  cache_ok v' /\ cache_coins v' = written m (cache_coins v) /\ cache_tip v' = hash.
Proof.
  intros Hv Hh Hm. unfold cache_BatchWrite.
  destruct (batch_loop erase (iterate m) m v) as (us & -> & Hu & Ew);
    [done|apply iterate_NoDup|by apply iterate_forall in Hm|].
  rewrite iterate_map in Ew. simpl. eexists. split; [by rewrite erased_all|].
  split_and!; [by destruct Hv|done|]. unfold cache_tip. simpl. by rewrite decide_False.
Qed.

#[export] Program Instance cache_laws : CoinsViewLaws cache :=
  {| coins := cache_coins; tip := cache_tip; view_ok := cache_ok |}.
Next Obligation. apply cache_coins_unspent. Qed.
Next Obligation.
  intros o v Hv. destruct (cache_get_coin o v Hv) as (v' & ? & []). exists v'.
  split_and!; try done. unfold cache_tip. by rewrite looked_tip0, looked_hash0.
Qed.
Next Obligation.
  intros v [Hb Hm]. simpl. unfold cache_GetBestBlock, cache_tip. destruct (decide (hashBlock v = 0)) as [E|E];
    [|exists v; rewrite decide_False by done; by split_and!].
  destruct (get_best _ Hb) as (b & -> & Hb' & Hc & Ht). eexists. split; [done|].
  unfold cache_ok, cache_coins. simpl. rewrite Hc, Ht. by case_decide.
Qed.
Next Obligation. intros. by apply cache_batch_write. Qed.

(** ** Flushing *)

Lemma flush v :
  cache_ok v -> hashBlock v <> 0 -> exists v',
  Flush v = (Ok true, v') /\ cache_ok v' /\ cache_coins v' = cache_coins v /\
  cacheCoins v' = ∅ /\ coins (base v') = cache_coins v /\ hashBlock v' = hashBlock v /\
  tip (base v') = hashBlock v.
Proof.
  intros [Hb Hm] Hh. unfold Flush.
  destruct (batch_write true _ _ _ Hb Hh Hm) as (b & -> & Hb' & Hc & Ht).
  rewrite decide_True by done. eexists. split; [done|].
  unfold cache_ok, cache_coins. simpl. rewrite Hc, Ht, overlay_empty, written_overlay by done.
  by split_and!.
Qed.

Lemma sync v :
  cache_ok v -> hashBlock v <> 0 -> exists v',
  Sync v = (Ok true, v') /\ cache_ok v' /\ cache_coins v' = cache_coins v /\
  coins (base v') = cache_coins v /\ hashBlock v' = hashBlock v /\ tip (base v') = hashBlock v.
Proof.
  intros [Hb Hm] Hh. unfold Sync.
  destruct (batch_write false _ _ _ Hb Hh Hm) as (b & -> & Hb' & Hc & Ht).
  eexists. split; [done|]. rewrite written_overlay in Hc by done.
  assert (forall o e, omap (fun e => if IsSpent (coin e) then None
      else Some (mkEntry (coin e) false false)) (cacheCoins v) !! o = Some e ->
      IsSpent (coin e) = false /\ coins b !! o = Some (coin e) /\ DIRTY e = false /\ FRESH e = false) as kept.
  { intros o e. rewrite lookup_omap, Hc, lookup_overlay.
    destruct (cacheCoins v !! o) as [e'|]; simpl; [|done].
    destruct (IsSpent (coin e')) eqn:S; intros; simplify_eq; simpl; by rewrite ?S. }
  unfold cache_ok, cache_coins. simpl. split_and!; try done.
  - intros o e He. destruct (kept o e He) as (S & -> & D & F).
    unfold entry_ok. rewrite D, F, S. naive_solver.
  - rewrite <-Hc. apply map_eq. intros o. rewrite lookup_overlay.
    destruct (omap _ _ !! o) as [e|] eqn:E; simpl; [|done].
    by destruct (kept o e E) as (-> & -> & _).
Qed.

Lemma sanity v : cache_ok v -> SanityCheck v = Ok tt.
Proof.
  intros [_ Hm]. unfold SanityCheck. apply iterate_forall in Hm.
  induction Hm as [|[o e] l He _ IH]; [done|]. simpl in *.
  destruct He as (_ & _ & He). destruct e as [c [] []]; unfold attr; simpl in *; [|destruct (IsSpent c)| |];
    try (by rewrite He); try done; by destruct He as [-> _].
Qed.

End CacheLaws.

(** ** A stack of caches is one map

    The operations of [CCoinsViewCache] as its clients call them, and what
    they do to the map of unspent coins and the best block. *)

Inductive coins_op :=
| OpAdd (o : COutPoint) (c : Coin) (possible_overwrite : bool)
| OpSpend (o : COutPoint)
| OpHave (o : COutPoint)
| OpAccess (o : COutPoint)
| OpUncache (o : COutPoint)
| OpSetBest (h : Z)
| OpSync
| OpFlush.

Inductive reply := RDone | RBool (b : bool) | RSpent (c : option Coin) | RCoin (c : Coin).

Definition perform `{CoinsView V} (op : coins_op) : act (CCoinsViewCache V) reply :=
  match op with
  | OpAdd o c overwrite => _ ← AddCoin o c overwrite; mret RDone
  | OpSpend o => c ← SpendCoin o; mret (RSpent c)
  | OpHave o => b ← HaveCoin o; mret (RBool b)
  | OpAccess o => c ← AccessCoin o; mret (RCoin c)
  | OpUncache o => _ ← Uncache o; mret RDone
  | OpSetBest h => _ ← SetBestBlock h; mret RDone
  | OpSync => b ← Sync; mret (RBool b)
  | OpFlush => b ← Flush; mret (RBool b)
  end.

Fixpoint performs `{CoinsView V} (ops : list coins_op) : act (CCoinsViewCache V) (list reply) :=
  match ops with
  | [] => mret []
  | op :: rest => r ← perform op; rs ← performs rest; mret (r :: rs)
  end.

Notation utxo := (gmap COutPoint Coin).

Definition spec_next (op : coins_op) (s : utxo * Z) : utxo * Z :=
  match op with
  | OpAdd o c _ => (added o c s.1, s.2)
  | OpSpend o => (delete o s.1, s.2)
  | OpSetBest h => (s.1, h)
  | _ => s
  end.

(** Spending what is not there may or may not find the trace of a spent coin
    in the cache. *)
Definition spec_reply (op : coins_op) (s : utxo * Z) (r : reply) : Prop :=
  match op with
  | OpSpend o =>
      match s.1 !! o with
      | Some c => r = RSpent (Some c)
      | None => r = RSpent None \/ r = RSpent (Some coinEmpty)
      end
  | OpHave o => r = RBool (bool_decide (is_Some (s.1 !! o)))
  | OpAccess o => r = RCoin (default coinEmpty (s.1 !! o))
  | OpSync | OpFlush => r = RBool true
  | _ => r = RDone
  end.

(** What the client owes: a coin that is added exists, and replaces another
    only where this was announced. *)
Definition spec_allows (op : coins_op) (s : utxo * Z) : Prop :=
  match op with
  | OpAdd o c overwrite => IsSpent c = false /\ (overwrite = true \/ s.1 !! o = None)
  | OpSetBest h => h <> 0
  | _ => True
  end.

Fixpoint spec_run (ops : list coins_op) (s : utxo * Z) : utxo * Z :=
  match ops with [] => s | op :: rest => spec_run rest (spec_next op s) end.

Fixpoint spec_allowed (ops : list coins_op) (s : utxo * Z) : Prop :=
  match ops with
  | [] => True
  | op :: rest => spec_allows op s /\ spec_allowed rest (spec_next op s)
  end.

Fixpoint spec_replies (ops : list coins_op) (s : utxo * Z) (rs : list reply) : Prop :=
  match ops, rs with
  | [], [] => True
  | op :: rest, r :: rs => spec_reply op s r /\ spec_replies rest (spec_next op s) rs
  | _, _ => False
  end.

Section Refinement.

Context {order : HashOrder}.

Lemma perform_refines `{CoinsViewLaws V} op (v : CCoinsViewCache V) :
  cache_ok v -> hashBlock v <> 0 -> spec_allows op (cache_coins v, hashBlock v) ->
  exists r v', perform op v = (Ok r, v') /\ spec_reply op (cache_coins v, hashBlock v) r /\
    cache_ok v' /\ (cache_coins v', hashBlock v') = spec_next op (cache_coins v, hashBlock v).
Proof.
  intros Hv Hh Ha. destruct op; simpl in *.
  - destruct Ha as [Hc Ho]. destruct (add_coin o c possible_overwrite v) as (v' & E & []); [done..|].
    eexists _, v'. erewrite act_bind_run by exact E. split_and!; [done..|]. congruence.
  - destruct (spend_coin o v Hv) as (c & v' & E & [] & Hr).
    eexists _, v'. erewrite act_bind_run by exact E. split_and!; [done| |done|congruence].
    case_match; [by subst|]. destruct Hr as [->| ->]; eauto.
  - destruct (have_coin o v Hv) as (v' & E & [] & _).
    eexists _, v'. erewrite act_bind_run by exact E. split_and!; [done..|congruence].
  - destruct (access_coin o v Hv) as (v' & E & []).
    eexists _, v'. erewrite act_bind_run by exact E. split_and!; [done..|congruence].
  - destruct (uncache o v Hv) as (v' & E & ? & Hc & _ & ?).
    eexists _, v'. erewrite act_bind_run by exact E. split_and!; [done..|congruence].
  - eexists _, _. split_and!; [done..|]. done.
  - destruct (sync v Hv Hh) as (v' & E & ? & Hc & _ & ? & _).
    eexists _, v'. erewrite act_bind_run by exact E. split_and!; [done..|congruence].
  - destruct (flush v Hv Hh) as (v' & E & ? & Hc & _ & _ & ? & _).
    eexists _, v'. erewrite act_bind_run by exact E. split_and!; [done..|congruence].
Qed.

Lemma spec_next_best op m h : h <> 0 -> spec_allows op (m, h) -> (spec_next op (m, h)).2 <> 0.
Proof. by destruct op. Qed.

(** C3: the cache is one map.  Over any view that keeps the interface's
    promise (the database, or another cache), every sequence of additions,
    spends, lookups, evictions and flushes that announces its overwrites
    answers as one finite map of unspent coins would, without an exception;
    the flags stay in the combinations [SanityCheck] allows, and a final
    flush leaves the view below with exactly that map and its best block. *)
Theorem coins_cache_refines `{CoinsViewLaws V} (ops : list coins_op) (v : CCoinsViewCache V) :
  cache_ok v -> hashBlock v <> 0 -> spec_allowed ops (cache_coins v, hashBlock v) ->
  let final := spec_run ops (cache_coins v, hashBlock v) in
  exists rs v' w,
    performs ops v = (Ok rs, v') /\
    spec_replies ops (cache_coins v, hashBlock v) rs /\
    SanityCheck v' = Ok tt /\ (cache_coins v', hashBlock v') = final /\
    Flush v' = (Ok true, w) /\ (coins (base w), tip (base w)) = final.
Proof.
  revert v. induction ops as [|op ops IH]; intros v Hv Hh Ha; simpl.
  - destruct (flush v Hv Hh) as (w & E & _ & _ & _ & Hc & _ & Ht).
    exists [], v, w. split_and!; [done..|by apply sanity|done|done|congruence].
  - destruct Ha as [Ha Has].
    destruct (perform_refines op v Hv Hh Ha) as (r & v1 & E & Hr & Hv1 & Hs).
    pose proof (spec_next_best _ _ _ Hh Ha) as Hh1. rewrite <-Hs in *. simpl in Hh1.
    destruct (IH v1 Hv1 Hh1 Has) as (rs & v' & w & Es & Hrs & Hf).
    exists (r :: rs), v', w. split_and!; [|done|done|apply Hf..].
    erewrite act_bind_run by exact E. by erewrite act_bind_run by exact Es.
Qed.

End Refinement.

(** The chain state's stack, with a coin in the database, one spent and one
    created above it. *)
Definition demo_out (n : Z) : COutPoint := mkCOutPoint 7 n.
Definition demo_coin (value : Z) : Coin := new_coin (mkCTxOut value [0x51]) 5 false.
Definition demo_stack : CCoinsViewCache (CCoinsViewCache CCoinsViewDB) :=
  mkCache (mkCache (mkDB {[demo_out 0 := demo_coin 10]} (Some 3) None) ∅ 0) ∅ 3.
Definition demo_ops : list coins_op :=
  [OpSpend (demo_out 0); OpAdd (demo_out 1) (demo_coin 4) false; OpFlush;
   OpAdd (demo_out 0) (demo_coin 6) false; OpSetBest 4; OpSpend (demo_out 1)].

Lemma coins_cache_refines_witness :
  cache_ok demo_stack /\ hashBlock demo_stack <> 0 /\
  spec_allowed demo_ops (cache_coins demo_stack, hashBlock demo_stack) /\
  exists rs v' w, performs demo_ops demo_stack = (Ok rs, v') /\
    spec_replies demo_ops (cache_coins demo_stack, hashBlock demo_stack) rs /\
    SanityCheck v' = Ok tt /\
    (cache_coins v', hashBlock v') = spec_run demo_ops (cache_coins demo_stack, hashBlock demo_stack) /\
    Flush v' = (Ok true, w) /\
    (coins (base w), tip (base w)) = spec_run demo_ops (cache_coins demo_stack, hashBlock demo_stack).
Proof.
  assert (cache_ok demo_stack) as Hok.
  { split; [split; [split; [by apply map_Forall_singleton|done]|]|]; apply map_Forall_empty. }
  assert (spec_allowed demo_ops (cache_coins demo_stack, hashBlock demo_stack)) as Ha.
  { vm_compute. intuition congruence. }
  split; [exact Hok|]. split; [done|]. split; [exact Ha|].
  apply (coins_cache_refines demo_ops demo_stack); [exact Hok|done|exact Ha].
Defined.
