(* ===== verification/BlockIndex.v ===== *)
(** * The node: the index of blocks

    chain.h, chain.cpp and the part of node/blockstorage.cpp that links a new
    header.  An index entry points to its predecessor and, further back, to
    the block that [BuildSkip] chose; both are set before the entry is used
    and never change, so entries are trees.  The skip list finds the same
    block as walking back one by one, and the median of the last eleven
    timestamps never goes back on a chain whose timestamps pass it. *)

From Stdlib Require Import ZArith Lia.
From stdpp Require Import base tactics strings numbers sorting list.
From S2P Require Import NodeBase.

Open Scope Z_scope.

(** What an entry records of its header, and its height. *)
Record block_info := mkInfo
  { bi_hash : Z; bi_nVersion : Z; bi_nTime : Z; bi_nBits : Z; bi_nHeight : Z }.

(** A pointer to an entry: null, or the entry with [pprev] and [pskip]. *)
Inductive CBlockIndex :=
| nullptr
| Block (b : block_info) (pprev pskip : CBlockIndex).

Definition is_null (i : CBlockIndex) : bool := match i with nullptr => true | _ => false end.

(** [n & (n - 1)]. *)
Definition InvertLowestOne (n : Z) : Z := Z.land n (n - 1).

Definition GetSkipHeight (height : Z) : Z :=
  if decide (height < 2) then 0
  else if Z.odd height then InvertLowestOne (InvertLowestOne (height - 1)) + 1
  else InvertLowestOne height.

(** The loop of [GetAncestor]; both pointers lead to smaller trees. *)
Fixpoint walk (pindexWalk : CBlockIndex) (heightWalk height : Z) : verdict CBlockIndex :=
  if decide (height < heightWalk) then
    match pindexWalk with
    | nullptr => Err (Aborted "null pointer")
    | Block _ pprev pskip =>
        let heightSkip := GetSkipHeight heightWalk in
        let heightSkipPrev := GetSkipHeight (heightWalk - 1) in
        if negb (is_null pskip) &&
           (bool_decide (heightSkip = height) ||
            (bool_decide (height < heightSkip) &&
             negb (bool_decide (heightSkipPrev < heightSkip - 2) &&
                   bool_decide (height <= heightSkipPrev))))
        then walk pskip heightSkip height
        else
          if is_null pprev then Err (Aborted "pindexWalk->pprev")
          else walk pprev (heightWalk - 1) height
    end
  else Ok pindexWalk.

Definition GetAncestor (i : CBlockIndex) (height : Z) : verdict CBlockIndex :=
  match i with
  | nullptr => Err (Aborted "null pointer")
  | Block b _ _ =>
      if decide (bi_nHeight b < height \/ height < 0) then Ok nullptr
      else walk i (bi_nHeight b) height
  end.

(** [BuildSkip] on a new entry with predecessor [pprev]. *)
Definition BuildSkip (pprev : CBlockIndex) (nHeight : Z) : verdict CBlockIndex :=
  if is_null pprev then Ok nullptr else GetAncestor pprev (GetSkipHeight nHeight).

(** The linking part of [AddToBlockIndex]: a header whose predecessor was
    found in the index (or was not) becomes an entry. *)
Definition link_block (hash nVersion nTime nBits : Z) (pprev : CBlockIndex) : verdict CBlockIndex :=
  match pprev with
  | nullptr => Ok (Block (mkInfo hash nVersion nTime nBits 0) nullptr nullptr)
  | Block pb _ _ =>
      let nHeight := bi_nHeight pb + 1 in
      pskip ← BuildSkip pprev nHeight;
      mret (Block (mkInfo hash nVersion nTime nBits nHeight) pprev pskip)
  end.

Definition nMedianTimeSpan : nat := 11.

(** The times [GetMedianTimePast] collects, newest first. *)
Fixpoint past_times (n : nat) (i : CBlockIndex) : list Z :=
  match n, i with
  | S n, Block b pprev _ => bi_nTime b :: past_times n pprev
  | _, _ => []
  end.

Definition median (l : list Z) : Z :=
  default 0 (merge_sort Z.le l !! Nat.div (length l) 2).

(** For an entry; there is no call on a null pointer. *)
Definition GetMedianTimePast (i : CBlockIndex) : Z := median (past_times nMedianTimeSpan i).

(** ** The skip list *)

Lemma InvertLowestOne_bound n : 0 < n -> 0 <= InvertLowestOne n < n.
Proof.
  intros H. unfold InvertLowestOne. split; [apply Z.land_nonneg; lia|].
  rewrite <-(Z2N.id n), <-(Z2N.id (Z.of_N (Z.to_N n) - 1)), <-N2Z.inj_land by lia.
  pose proof (N.land_le_r (Z.to_N n) (Z.to_N (Z.of_N (Z.to_N n) - 1))). lia.
Qed.

Lemma GetSkipHeight_bound h : 0 < h -> 0 <= GetSkipHeight h < h.
Proof.
  intros H. unfold GetSkipHeight. case_decide; [lia|].
  destruct (Z.odd h) eqn:E; [|apply InvertLowestOne_bound; lia].
  pose proof (InvertLowestOne_bound (h - 1) ltac:(lia)) as B.
  destruct (decide (InvertLowestOne (h - 1) = 0)) as [->|]; [change (InvertLowestOne 0) with 0; lia|].
  pose proof (InvertLowestOne_bound (InvertLowestOne (h - 1)) ltac:(lia)). lia.
Qed.

(** Walking back one block at a time. *)
Fixpoint ancestor (i : CBlockIndex) (height : Z) : CBlockIndex :=
  match i with
  | nullptr => nullptr
  | Block b pprev _ => if decide (bi_nHeight b = height) then i else ancestor pprev height
  end.

(** The height of an entry, and one less than that of the first block where
    there is none. *)
Definition top (i : CBlockIndex) : Z := match i with nullptr => -1 | Block b _ _ => bi_nHeight b end.

(** Entries as [AddToBlockIndex] leaves them. *)
Inductive linked : CBlockIndex -> Prop :=
| linked_genesis b : bi_nHeight b = 0 -> linked (Block b nullptr nullptr)
| linked_next b p :
    linked p -> bi_nHeight b = top p + 1 ->
    linked (Block b p (ancestor p (GetSkipHeight (bi_nHeight b)))).

Lemma linked_height i : linked i -> 0 <= top i.
Proof. induction 1; simpl; lia. Qed.

Lemma linked_not_null i : linked i -> is_null i = false.
Proof. by destruct 1. Qed.

Lemma ancestor_found i h :
  linked i -> 0 <= h <= top i -> top (ancestor i h) = h /\ linked (ancestor i h).
Proof.
  induction 1 as [b Hb|b p Hp IH Hb]; intros Hh; cbn [ancestor top] in *; case_decide.
  - split; [done|by constructor].
  - lia.
  - split; [done|by constructor].
  - apply IH. lia.
Qed.

Lemma ancestor_ancestor i k h :
  linked i -> 0 <= h <= k -> k <= top i -> ancestor (ancestor i k) h = ancestor i h.
Proof.
  induction 1 as [b Hb|b p Hp IH Hb]; intros Hh Hk; cbn [top] in *.
  - cbn [ancestor]. rewrite !decide_True by lia. cbn [ancestor]. by rewrite decide_True by lia.
  - cbn [ancestor]. destruct (decide (bi_nHeight b = k)) as [Ek|Ek]; [done|].
    rewrite (decide_False (P := bi_nHeight b = h)) by lia. apply IH; lia.
Qed.

Lemma walk_ancestor i h :
  linked i -> 0 <= h <= top i -> walk i (top i) h = Ok (ancestor i h).
Proof.
  remember (Z.to_nat (top i)) as n eqn:En. revert i h En.
  induction n as [n IH] using lt_wf_ind. intros i h -> Hl Hh.
  destruct Hl as [b Hb|b p Hp Hb]; cbn [walk ancestor top] in *.
  { by rewrite decide_False, decide_True by lia. }
  destruct (decide (h < bi_nHeight b)) as [Hlt|Hge]; [|by rewrite decide_True by lia].
  rewrite (decide_False (P := bi_nHeight b = h)) by lia.
  pose proof (linked_height _ Hp). pose proof (GetSkipHeight_bound (bi_nHeight b) ltac:(lia)) as Hs.
  destruct (ancestor_found p (GetSkipHeight (bi_nHeight b)) Hp ltac:(lia)) as [Hsh Hsl].
  match goal with |- (if ?c then _ else _) = _ => destruct c eqn:Ec end.
  - rewrite andb_true_iff, orb_true_iff, andb_true_iff, !bool_decide_eq_true in Ec.
    rewrite <-Hsh at 2. rewrite IH with (m := Z.to_nat (GetSkipHeight (bi_nHeight b))); [|lia|lia|done|lia].
    f_equal. apply ancestor_ancestor; [done|lia|lia].
  - rewrite linked_not_null by done. replace (bi_nHeight b - 1) with (top p) by lia.
    apply (IH (Z.to_nat (top p))); [lia|done|done|lia].
Qed.

Lemma get_ancestor i h :
  linked i -> GetAncestor i h = Ok (if decide (top i < h \/ h < 0) then nullptr else ancestor i h).
Proof.
  intros Hl. destruct i as [|b p s] eqn:E; [inversion Hl|]. rewrite <-E in *.
  replace (GetAncestor i h) with (if decide (top i < h \/ h < 0) then Ok nullptr else walk i (top i) h)
    by (by subst). case_decide; [done|]. apply walk_ancestor; [done|lia].
Qed.

Lemma link_block_linked hash v t n p :
  p = nullptr \/ linked p -> exists s,
  link_block hash v t n p = Ok (Block (mkInfo hash v t n (top p + 1)) p s) /\
  linked (Block (mkInfo hash v t n (top p + 1)) p s).
Proof.
  intros [->|Hl]; [eexists; split; [done|by constructor]|].
  pose proof (linked_height _ Hl). pose proof (GetSkipHeight_bound (top p + 1) ltac:(lia)) as Hs.
  assert (BuildSkip p (top p + 1) = Ok (ancestor p (GetSkipHeight (top p + 1)))) as E.
  { unfold BuildSkip. rewrite linked_not_null, get_ancestor by done. by rewrite decide_False by lia. }
  exists (ancestor p (GetSkipHeight (top p + 1))). split.
  - destruct p as [|pb pp ps]; [inversion Hl|]. cbn [link_block top] in *. by rewrite E.
  - by apply linked_next.
Qed.

(** The index of a chain of headers, the first one first. *)
Record header_info := mkHeader { hd_hash : Z; hd_nVersion : Z; hd_nTime : Z; hd_nBits : Z }.

Definition index_chain (headers : list header_info) : verdict CBlockIndex :=
  for_each (M := verdict) headers
    (fun h => link_block (hd_hash h) (hd_nVersion h) (hd_nTime h) (hd_nBits h)) nullptr.

Definition info_at (headers : list header_info) (height : Z) : option block_info :=
  h ← headers !! Z.to_nat height;
  Some (mkInfo (hd_hash h) (hd_nVersion h) (hd_nTime h) (hd_nBits h) height).

Definition info (i : CBlockIndex) : option block_info :=
  match i with nullptr => None | Block b _ _ => Some b end.

(** An index that holds exactly these headers. *)
Definition indexes (headers : list header_info) (i : CBlockIndex) : Prop :=
  (headers = [] /\ i = nullptr \/ linked i) /\ top i + 1 = len headers /\
  forall h, 0 <= h <= top i -> info (ancestor i h) = info_at headers h.

Lemma for_each_app {A B} (f : A -> B -> verdict B) l k s :
  for_each (M := verdict) (l ++ k) f s = (s' ← for_each (M := verdict) l f s; for_each (M := verdict) k f s').
Proof. revert s. induction l as [|x l IH]; intros s; [done|]. simpl. destruct (f x s); [apply IH|done]. Qed.

Lemma index_chain_indexes headers : exists i, index_chain headers = Ok i /\ indexes headers i.
Proof.
  induction headers as [|h headers IH] using rev_ind.
  { exists nullptr. split; [done|]. split_and!; [by left|done|]. simpl. lia. }
  destruct IH as (i & E & Hi & Hlen & Hinfo). unfold index_chain in *. rewrite for_each_app, E. cbn.
  destruct (link_block_linked (hd_hash h) (hd_nVersion h) (hd_nTime h) (hd_nBits h) i)
    as (s & -> & Hl); [naive_solver|].
  eexists. split; [done|]. split_and!; [by right| |].
  { unfold len in *. rewrite length_app. simpl in *. lia. }
  intros k Hk. simpl in Hk. unfold info_at. cbn [ancestor bi_nHeight].
  destruct (decide (top i + 1 = k)) as [<-|Hne].
  - unfold len in Hlen. replace (Z.to_nat (top i + 1)) with (length headers) by lia.
    by rewrite list_lookup_middle.
  - rewrite Hinfo by lia. unfold info_at, len in *. rewrite lookup_app_l by lia. done.
Qed.

(** C27: the skip list is exact.  However long the chain of headers, the entry
    [AddToBlockIndex] builds for it finds by skips the very block that stands
    at a height, never a null pointer or another block, and nothing outside
    the chain. *)
Theorem get_ancestor_exact (headers : list header_info) (height : Z) :
  headers <> [] -> exists i a,
    index_chain headers = Ok i /\ GetAncestor i height = Ok a /\
    info a = if decide (height < 0) then None else info_at headers height.
Proof.
  intros Hne. destruct (index_chain_indexes headers) as (i & E & Hi & Hlen & Hinfo).
  destruct Hi as [[? _]|Hi]; [done|]. eexists i, _. split_and!; [done|by apply get_ancestor|].
  repeat case_decide; try lia; [done| |apply Hinfo; lia].
  unfold info_at, len in *. by rewrite lookup_ge_None_2 by lia.
Qed.

Definition demo_headers : list header_info :=
  (fun n => mkHeader (Z.of_nat n) 1 (Z.of_nat n) 0) <$> seq 0 40.

Lemma get_ancestor_exact_witness :
  demo_headers <> [] /\ exists i a,
    index_chain demo_headers = Ok i /\ GetAncestor i 21 = Ok a /\
    info a = if decide (21 < 0) then None else info_at demo_headers 21.
Proof. split; [done|]. by apply (get_ancestor_exact demo_headers 21). Defined.

(** ** The median of the past times *)

Definition below (m : Z) (l : list Z) : nat := length (filter (fun x => x < m) l).

Lemma below_perm m l k : l ≡ₚ k -> below m l = below m k.
Proof. intros E. unfold below. by rewrite E. Qed.

Lemma below_cons m x l : below m (x :: l) = ((if decide (x < m)%Z then 1 else 0) + below m l)%nat.
Proof. unfold below. rewrite filter_cons. by case_decide. Qed.

Lemma below_app m l k : below m (l ++ k) = (below m l + below m k)%nat.
Proof. unfold below. by rewrite filter_app, length_app. Qed.

Lemma below_all m l : Forall (fun x => x < m) l -> below m l = length l.
Proof. induction 1; [done|]. rewrite below_cons, decide_True by done. simpl. lia. Qed.

Lemma below_none m l : Forall (fun x => m <= x) l -> below m l = 0%nat.
Proof. induction 1; [done|]. rewrite below_cons, decide_False by lia. lia. Qed.

Lemma below_length m l : (below m l <= length l)%nat.
Proof. induction l; [done|]. rewrite below_cons. simpl. case_decide; lia. Qed.

(** In a sorted list the position of an element bounds how many are below
    it, and the other way around. *)
Lemma sorted_below s k y m :
  StronglySorted Z.le s -> s !! k = Some y ->
  (m <= y <-> (below m s <= k)%nat).
Proof.
  intros Hs. revert k. induction Hs as [|x s Hs IH Hx]; intros k Hk; [done|].
  rewrite below_cons. destruct k as [|k]; simpl in Hk.
  - simplify_eq. case_decide; [lia|]. rewrite below_none; [lia|].
    eapply Forall_impl; [done|]. simpl. lia.
  - specialize (IH k Hk). rewrite Forall_forall in Hx.
    assert (x <= y) by (apply Hx; by eapply list_elem_of_lookup_2).
    case_decide; [lia|]. rewrite below_none; [lia|]. apply Forall_forall. intros z Hz.
    specialize (Hx z Hz). lia.
Qed.

Lemma median_spec l m :
  l <> [] -> (m <= median l <-> (below m l <= length l / 2)%nat).
Proof.
  intros Hl. unfold median.
  assert (length (merge_sort Z.le l) = length l) as El
    by (apply Permutation_length, merge_sort_Permutation).
  destruct (merge_sort Z.le l !! (length l / 2)%nat) as [y|] eqn:E.
  - simpl. pose proof (StronglySorted_merge_sort Z.le l) as Hs.
    rewrite (sorted_below (merge_sort Z.le l) _ y m Hs E).
    by rewrite (below_perm m _ l) by apply merge_sort_Permutation.
  - apply lookup_ge_None in E. rewrite El in E. destruct l; [done|]. simpl length in E.
    pose proof (Nat.div_lt (S (length l)) 2). lia.
Qed.

(** Dropping at most one of the values and adding one above their median does
    not lower it. *)
Lemma median_shift u z t :
  u ++ z <> [] -> (length z <= 1)%nat -> median (u ++ z) < t -> median (u ++ z) <= median (t :: u).
Proof.
  intros Hne Hz Ht. apply median_spec; [done|].
  pose proof (proj1 (median_spec (u ++ z) (median (u ++ z)) Hne) (Z.le_refl _)) as H.
  set (m := median (u ++ z)) in *. rewrite below_cons, decide_False by lia.
  rewrite below_app, length_app in H. cbn [length].
  destruct z as [|x [|? ?]]; cbn [length] in *; [|rewrite Nat.add_1_r in H; lia|lia].
  rewrite (Nat.add_0_r (length u)) in H. pose proof (Nat.Div0.div_le_mono (length u) (S (length u)) 2 ltac:(lia)). lia.
Qed.

Lemma past_times_split n i : exists z,
  past_times (S n) i = past_times n i ++ z /\ (length z <= 1)%nat.
Proof.
  revert i. induction n as [|n IH]; intros i.
  - exists (past_times 1 i). split; [done|]. destruct i; simpl; lia.
  - destruct i as [|b p s]; [by exists []; split; [|simpl; lia]|].
    destruct (IH p) as (z & E & Hz). exists z. split; [|done].
    change (past_times (S (S n)) (Block b p s)) with (bi_nTime b :: past_times (S n) p). by rewrite E.
Qed.

Lemma median_time_step b p s :
  p <> nullptr -> GetMedianTimePast p < bi_nTime b ->
  GetMedianTimePast p <= GetMedianTimePast (Block b p s).
Proof.
  intros Hp. unfold GetMedianTimePast, nMedianTimeSpan.
  change (past_times 11 (Block b p s)) with (bi_nTime b :: past_times 10 p).
  destruct (past_times_split 10 p) as (z & E & Hz). rewrite E. apply median_shift; [|done].
  rewrite <-E. by destruct p.
Qed.

(** A chain whose timestamps pass the check of [ContextualCheckBlockHeader]:
    each is after the median time of the block before it. *)
Inductive timely : CBlockIndex -> Prop :=
| timely_genesis b s : timely (Block b nullptr s)
| timely_next b p s :
    timely p -> GetMedianTimePast p < bi_nTime b -> timely (Block b p s).

(** Time does not go back.  On a chain whose blocks pass the timestamp
    check, timestamps themselves may jump back and forth, but the median time
    past of a block is never earlier than that of any block before it. *)
Theorem median_time_monotone (i : CBlockIndex) (height : Z) :
  timely i -> ancestor i height <> nullptr ->
  GetMedianTimePast (ancestor i height) <= GetMedianTimePast i.
Proof.
  induction 1 as [b s|b p s Hp IH Ht]; cbn [ancestor]; case_decide; intros Ha; try done.
  etrans; [by apply IH|]. apply median_time_step; [by destruct Hp|done].
Qed.

Definition demo_index : CBlockIndex :=
  Block (mkInfo 3 1 310 0 2) (Block (mkInfo 2 1 300 0 1) (Block (mkInfo 1 1 100 0 0) nullptr nullptr) nullptr) nullptr.

Lemma median_time_monotone_witness :
  timely (Block (mkInfo 4 1 305 0 3) demo_index nullptr) /\
  ancestor (Block (mkInfo 4 1 305 0 3) demo_index nullptr) 1 <> nullptr /\
  GetMedianTimePast (ancestor (Block (mkInfo 4 1 305 0 3) demo_index nullptr) 1) <=
    GetMedianTimePast (Block (mkInfo 4 1 305 0 3) demo_index nullptr).
Proof.
  assert (timely (Block (mkInfo 4 1 305 0 3) demo_index nullptr)) as H.
  { do 3 (apply timely_next; [|vm_compute; reflexivity]). apply timely_genesis. }
  split; [exact H|]. split; [done|]. by apply (median_time_monotone (Block (mkInfo 4 1 305 0 3) demo_index nullptr) 1).
Defined.
