(* ===== verification/TxRules.v ===== *)
(** * The node: the rules for one transaction

    consensus/tx_check.cpp (no context), and of consensus/tx_verify.cpp the
    lock times, the counting of signature operations and [CheckTxInputs],
    which reads the coins through the cache of [Coins].  What a script counts
    as signature operations is a parameter. *)

From Stdlib Require Import ZArith Lia.
From stdpp Require Import base tactics gmap strings numbers sorting list.
From S2P Require Import NodeBase Coins BlockIndex.

Open Scope Z_scope.

(** ** consensus/consensus.h *)
Definition MAX_BLOCK_WEIGHT : Z := 1000000.
Definition MAX_BLOCK_SIGOPS_COST : Z := 80000.
Definition COINBASE_MATURITY : Z := 100.
Definition WITNESS_SCALE_FACTOR : Z := 4.

(** ** consensus/tx_check.cpp *)

Definition is_empty {A} (l : list A) : bool := match l with [] => true | _ => false end.

(** The loop over the outputs: their running sum. *)
Definition check_output (o : CTxOut) (nValueOut : Z) : verdict Z :=
  _ ← reject_if (bool_decide (nValue o < 0)) (Invalid TX_CONSENSUS "bad-txns-vout-negative");
  _ ← reject_if (bool_decide (MAX_MONEY < nValue o)) (Invalid TX_CONSENSUS "bad-txns-vout-toolarge");
  sum ← add64 nValueOut (nValue o);
  _ ← reject_if (negb (MoneyRange sum)) (Invalid TX_CONSENSUS "bad-txns-txouttotal-toolarge");
  mret sum.

(** The loop over the inputs: the set of outpoints seen. *)
Definition check_input (i : CTxIn) (vInOutPoints : gset COutPoint) : verdict (gset COutPoint) :=
  _ ← reject_if (bool_decide (prevout i ∈ vInOutPoints)) (Invalid TX_CONSENSUS "bad-txns-inputs-duplicate");
  mret ({[prevout i]} ∪ vInOutPoints).

Definition CheckTransaction (tx : CTransaction) : verdict unit :=
  _ ← reject_if (is_empty (vin tx)) (Invalid TX_CONSENSUS "bad-txns-vin-empty");
  _ ← reject_if (is_empty (vout tx)) (Invalid TX_CONSENSUS "bad-txns-vout-empty");
  _ ← reject_if (bool_decide (MAX_BLOCK_WEIGHT < tx_size tx * WITNESS_SCALE_FACTOR))
        (Invalid TX_CONSENSUS "bad-txns-oversize");
  _ ← for_each (M := verdict) (vout tx) check_output 0;
  _ ← for_each (M := verdict) (vin tx) check_input ∅;
  if IsCoinBase tx then
    match vin tx with
    | i :: _ => reject_if (bool_decide (len (scriptSig i) < 2) || bool_decide (100 < len (scriptSig i)))
                  (Invalid TX_CONSENSUS "bad-cb-length")
    | [] => Err (Aborted "vin[0]")
    end
  else
    for_each (M := verdict) (vin tx) (fun i _ =>
      reject_if (outpoint_IsNull (prevout i)) (Invalid TX_CONSENSUS "bad-txns-prevout-null")) tt.

(** ** Lock times *)

Definition LOCKTIME_THRESHOLD : Z := 500000000.
Definition SEQUENCE_FINAL : Z := 0xffffffff.
Definition SEQUENCE_LOCKTIME_DISABLE_FLAG : Z := Z.shiftl 1 31.
Definition SEQUENCE_LOCKTIME_TYPE_FLAG : Z := Z.shiftl 1 22.
Definition SEQUENCE_LOCKTIME_MASK : Z := 0x0000ffff.
Definition SEQUENCE_LOCKTIME_GRANULARITY : Z := 9.
Definition LOCKTIME_VERIFY_SEQUENCE : Z := 1.

(** [a & b] as a condition. *)
Definition bits (a b : Z) : bool := negb (bool_decide (Z.land a b = 0)).

Definition IsFinalTx (tx : CTransaction) (nBlockHeight nBlockTime : Z) : bool :=
  if decide (nLockTime tx = 0) then true
  else if decide (nLockTime tx < if decide (nLockTime tx < LOCKTIME_THRESHOLD) then nBlockHeight else nBlockTime)
  then true
  else forallb (fun i => bool_decide (nSequence i = SEQUENCE_FINAL)) (vin tx).

(** One turn of the loop of [CalculateSequenceLocks]: an input with the height
    of the coin it spends, and the two running bounds. *)
Definition sequence_lock (block : CBlockIndex) (ih : CTxIn * Z) (bounds : Z * Z) : verdict (Z * Z) :=
  let '(txin, nCoinHeight) := ih in
  let '(nMinHeight, nMinTime) := bounds in
  if bits (nSequence txin) SEQUENCE_LOCKTIME_DISABLE_FLAG then mret bounds
  else if bits (nSequence txin) SEQUENCE_LOCKTIME_TYPE_FLAG then
    before ← GetAncestor block (Z.max (nCoinHeight - 1) 0);
    _ ← assert_that (negb (is_null before)) "block.GetAncestor(std::max(nCoinHeight - 1, 0))";
    mret (nMinHeight,
          Z.max nMinTime (GetMedianTimePast before +
            Z.shiftl (Z.land (nSequence txin) SEQUENCE_LOCKTIME_MASK) SEQUENCE_LOCKTIME_GRANULARITY - 1))
  else
    mret (Z.max nMinHeight (nCoinHeight + Z.land (nSequence txin) SEQUENCE_LOCKTIME_MASK - 1), nMinTime).

Definition CalculateSequenceLocks (tx : CTransaction) (flags : Z) (prevHeights : list Z)
    (block : CBlockIndex) : verdict (Z * Z) :=
  _ ← assert_that (bool_decide (length prevHeights = length (vin tx))) "prevHeights.size() == tx.vin.size()";
  if bool_decide (2 <= tx_nVersion tx mod 2 ^ 32) && bits flags LOCKTIME_VERIFY_SEQUENCE
  then for_each (M := verdict) (zip (vin tx) prevHeights) (sequence_lock block) (-1, -1)
  else mret (-1, -1).

Definition EvaluateSequenceLocks (block : CBlockIndex) (lockPair : Z * Z) : verdict bool :=
  match block with
  | nullptr => Err (Aborted "null pointer")
  | Block b pprev _ =>
      _ ← assert_that (negb (is_null pprev)) "block.pprev";
      mret (negb (bool_decide (bi_nHeight b <= lockPair.1) ||
                  bool_decide (GetMedianTimePast pprev <= lockPair.2)))
  end.

Definition SequenceLocks (tx : CTransaction) (flags : Z) (prevHeights : list Z) (block : CBlockIndex) : verdict bool :=
  locks ← CalculateSequenceLocks tx flags prevHeights block;
  EvaluateSequenceLocks block locks.

(** ** Signature operations

    How many a script contains, counted for itself, under a P2SH output, and
    in a witness: script/script.cpp and script/interpreter.cpp. *)
Class SigOps := {
  GetSigOpCount : script -> Z;
  IsPayToScriptHash : script -> bool;
  GetP2SHCount : script -> script -> Z;
  CountWitnessSigOps : CTxIn -> script -> Z -> Z }.

Definition SCRIPT_VERIFY_P2SH : Z := 1.

Definition uint32 (x : Z) : Z := x mod 2 ^ 32.

Definition GetLegacySigOpCount `{SigOps} (tx : CTransaction) : Z :=
  foldl (fun n o => uint32 (n + GetSigOpCount (scriptPubKey o)))
    (foldl (fun n i => uint32 (n + GetSigOpCount (scriptSig i))) 0 (vin tx)) (vout tx).

Section WithView.

Context {V : Type} {view : CoinsView V} {ops : SigOps}.
Notation cache := (CCoinsViewCache V).

(** [AccessCoin] followed by [assert(!coin.IsSpent())]. *)
Definition spend_target (i : CTxIn) : act cache Coin :=
  c ← AccessCoin (prevout i);
  _ ← lift (assert_that (negb (IsSpent c)) "!coin.IsSpent()");
  mret c.

Definition GetP2SHSigOpCount (tx : CTransaction) : act cache Z :=
  if IsCoinBase tx then mret 0
  else for_each (M := act cache) (vin tx) (fun i n =>
         c ← spend_target i;
         if IsPayToScriptHash (scriptPubKey (out c))
         then mret (uint32 (n + GetP2SHCount (scriptPubKey (out c)) (scriptSig i)))
         else mret n) 0.

Definition GetTransactionSigOpCost (tx : CTransaction) (flags : Z) : act cache Z :=
  let nSigOps := uint32 (GetLegacySigOpCount tx * WITNESS_SCALE_FACTOR) in
  if IsCoinBase tx then mret nSigOps
  else
    nSigOps ← (if bits flags SCRIPT_VERIFY_P2SH
               then n ← GetP2SHSigOpCount tx; mret (nSigOps + uint32 (n * WITNESS_SCALE_FACTOR))
               else mret nSigOps);
    for_each (M := act cache) (vin tx) (fun i n =>
      c ← spend_target i;
      mret (n + CountWitnessSigOps i (scriptPubKey (out c)) flags)) nSigOps.

(** ** [Consensus::CheckTxInputs]; the result is [txfee] *)

Definition check_spend (nSpendHeight : Z) (i : CTxIn) (nValueIn : Z) : act cache Z :=
  c ← spend_target i;
  _ ← lift (reject_if (fCoinBase c && bool_decide (nSpendHeight - coin_nHeight c < COINBASE_MATURITY))
        (Invalid TX_PREMATURE_SPEND "bad-txns-premature-spend-of-coinbase"));
  sum ← lift (add64 nValueIn (nValue (out c)));
  _ ← lift (reject_if (negb (MoneyRange (nValue (out c))) || negb (MoneyRange sum))
        (Invalid TX_CONSENSUS "bad-txns-inputvalues-outofrange"));
  mret sum.

Definition CheckTxInputs (tx : CTransaction) (nSpendHeight : Z) : act cache Z :=
  have ← HaveInputs tx;
  _ ← lift (reject_if (negb have) (Invalid TX_MISSING_INPUTS "bad-txns-inputs-missingorspent"));
  nValueIn ← for_each (M := act cache) (vin tx) (check_spend nSpendHeight) 0;
  value_out ← lift (GetValueOut tx);
  _ ← lift (reject_if (bool_decide (nValueIn < value_out)) (Invalid TX_CONSENSUS "bad-txns-in-belowout"));
  let txfee_aux := nValueIn - value_out in
  _ ← lift (reject_if (negb (MoneyRange txfee_aux)) (Invalid TX_CONSENSUS "bad-txns-fee-outofrange"));
  mret txfee_aux.

End WithView.

(** ** What [CheckTransaction] accepts *)

Definition well_formed (tx : CTransaction) : Prop :=
  vin tx <> [] /\ vout tx <> [] /\ tx_size tx * WITNESS_SCALE_FACTOR <= MAX_BLOCK_WEIGHT /\
  payable (vout tx) /\ NoDup (prevout <$> vin tx) /\
  if IsCoinBase tx then Forall (fun i => 2 <= len (scriptSig i) <= 100) (vin tx)
  else Forall (fun i => outpoint_IsNull (prevout i) = false) (vin tx).

#[export] Instance well_formed_dec tx : Decision (well_formed tx).
Proof. unfold well_formed. destruct (IsCoinBase tx); apply _. Defined.

(** A consensus failure with some reason. *)
Definition consensus_failure {A} (r : verdict A) : Prop :=
  exists reason, r = Err (Invalid TX_CONSENSUS reason).

Lemma failed_bind {A B} (m : verdict A) (k : A -> verdict B) :
  consensus_failure m -> consensus_failure (m ≫= k).
Proof. intros [reason ->]. by exists reason. Qed.

Lemma check_output_cases o total :
  0 <= total <= MAX_MONEY ->
  if decide (0 <= nValue o <= MAX_MONEY /\ total + nValue o <= MAX_MONEY)
  then check_output o total = Ok (total + nValue o)
  else consensus_failure (check_output o total).
Proof.
  intros Ht. unfold check_output.
  destruct (decide (nValue o < 0)).
  { rewrite (bool_decide_true (nValue o < 0)), decide_False by lia. by eexists. }
  rewrite (bool_decide_false (nValue o < 0)) by done. simpl.
  destruct (decide (MAX_MONEY < nValue o)).
  { rewrite (bool_decide_true (MAX_MONEY < nValue o)), decide_False by lia. by eexists. }
  rewrite (bool_decide_false (MAX_MONEY < nValue o)) by done. simpl. rewrite add64_money by lia. simpl.
  destruct (MoneyRange (total + nValue o)) eqn:E; simpl.
  - apply MoneyRange_spec in E. by rewrite decide_True by lia.
  - apply MoneyRange_false in E. rewrite decide_False by lia. by eexists.
Qed.

Lemma check_outputs os total :
  0 <= total <= MAX_MONEY ->
  let fits := Forall (fun o => 0 <= nValue o <= MAX_MONEY) os /\ total + paid os <= MAX_MONEY in
  (fits -> for_each (M := verdict) os check_output total = Ok (total + paid os)) /\
  (~ fits -> consensus_failure (for_each (M := verdict) os check_output total)).
Proof.
  revert total. induction os as [|o os IH]; intros total Ht; cbn zeta.
  { change (paid []) with 0. rewrite Z.add_0_r. split; [done|]. intros []. split; [done|lia]. }
  rewrite Forall_cons, paid_cons, for_each_cons.
  pose proof (check_output_cases o total Ht) as Ho. case_decide as D.
  - rewrite Ho. rewrite Z.add_assoc. destruct (IH (total + nValue o) ltac:(lia)) as [I1 I2].
    split; [intros [[_ ?] ?]; by apply I1|]. intros H. apply I2. intros [? ?]. apply H.
    split; [split; [lia|done]|done].
  - split; [|intros _; by apply failed_bind].
    intros [[? Hos%payable_nonneg] ?]. lia.
Qed.

Lemma check_inputs ins seen :
  let fresh := NoDup (prevout <$> ins) /\ Forall (fun i => prevout i ∉ seen) ins in
  (fresh -> for_each (M := verdict) ins check_input seen = Ok (list_to_set (prevout <$> ins) ∪ seen)) /\
  (~ fresh -> consensus_failure (for_each (M := verdict) ins check_input seen)).
Proof.
  revert seen. induction ins as [|i ins IH]; intros seen; cbn zeta.
  { split; [intros _; simpl; f_equal; set_solver|]. intros []. split; [constructor|done]. }
  rewrite fmap_cons, NoDup_cons, Forall_cons, for_each_cons.
  destruct (decide (prevout i ∈ seen)) as [Hin|Hin].
  { split; [naive_solver|]. intros _. apply failed_bind. unfold check_input.
    rewrite bool_decide_true by done. by eexists. }
  assert (check_input i seen = Ok ({[prevout i]} ∪ seen)) as -> by (unfold check_input; by rewrite bool_decide_false).
  destruct (IH ({[prevout i]} ∪ seen)) as [I1 I2].
  assert (Forall (fun j => prevout j ∉ {[prevout i]} ∪ seen) ins <->
          Forall (fun j => prevout j ∉ seen) ins /\ prevout i ∉ (prevout <$> ins)) as E.
  { rewrite !Forall_forall. setoid_rewrite list_elem_of_fmap. set_solver. }
  rewrite E in I1, I2. split.
  - intros H. cbn [mbind verdict_bind]. rewrite I1 by naive_solver. f_equal. set_solver.
  - intros H. apply I2. naive_solver.
Qed.

Lemma check_nulls l :
  let rule := for_each (M := verdict) l (fun i _ =>
    reject_if (outpoint_IsNull (prevout i)) (Invalid TX_CONSENSUS "bad-txns-prevout-null")) tt in
  (Forall (fun i => outpoint_IsNull (prevout i) = false) l -> rule = Ok tt) /\
  (~ Forall (fun i => outpoint_IsNull (prevout i) = false) l -> consensus_failure rule).
Proof.
  cbv zeta. induction l as [|j l IH]; [split; [done|by intros []]|]. rewrite Forall_cons, for_each_cons.
  destruct (outpoint_IsNull (prevout j)); simpl; [split; [by intros []|by eexists]|]. tauto.
Qed.

Lemma check_transaction tx :
  (well_formed tx -> CheckTransaction tx = Ok tt) /\ (~ well_formed tx -> consensus_failure (CheckTransaction tx)).
Proof.
  unfold CheckTransaction, well_formed.
  destruct (vin tx) as [|i ins] eqn:Ei; [split; [tauto|by eexists]|]. rewrite <-Ei. cbn [is_empty].
  replace (is_empty (vin tx)) with false by (by rewrite Ei). simpl.
  destruct (vout tx) as [|o os] eqn:Eo; [split; [tauto|by eexists]|]. rewrite <-Eo.
  replace (is_empty (vout tx)) with false by (by rewrite Eo). simpl.
  destruct (decide (MAX_BLOCK_WEIGHT < tx_size tx * WITNESS_SCALE_FACTOR)) as [Hw|Hw].
  { rewrite (bool_decide_true (MAX_BLOCK_WEIGHT < _)) by done. split; [lia|by eexists]. }
  rewrite (bool_decide_false (MAX_BLOCK_WEIGHT < _)) by done. simpl.
  destruct (check_outputs (vout tx) 0 ltac:(unfold MAX_MONEY, COIN; lia)) as [O1 O2].
  rewrite Z.add_0_l in *.
  destruct (decide (payable (vout tx))) as [Hp|Hp]; [|split; [tauto|]].
  2:{ intros _. destruct (O2 Hp) as [reason ->]. by exists reason. }
  rewrite (O1 Hp). simpl. destruct (check_inputs (vin tx) ∅) as [I1 I2].
  destruct (decide (NoDup (prevout <$> vin tx))) as [Hd|Hd]; [|split; [tauto|]].
  2:{ intros _. destruct I2 as [reason ->]; [tauto|]. by exists reason. }
  rewrite I1 by (split; [done|]; apply Forall_forall; set_solver). simpl.
  assert (vin tx <> [] /\ vout tx <> []) as [Hi Ho] by (by rewrite Ei, Eo).
  destruct (IsCoinBase tx) eqn:Ecb.
  - unfold IsCoinBase in Ecb. rewrite Ei in Hd, Ecb |- *. destruct ins; [|done].
    rewrite Forall_singleton. unfold reject_if.
    destruct (bool_decide (len (scriptSig i) < 2) || bool_decide (100 < len (scriptSig i))) eqn:B.
    + rewrite orb_true_iff, !bool_decide_eq_true in B. split; [lia|by eexists].
    + rewrite orb_false_iff, !bool_decide_eq_false in B. split; [done|].
      intros []. split_and!; done || lia.
  - destruct (check_nulls (vin tx)) as [N1 N2]. split; [tauto|]. intros H. apply N2. intros ?. apply H.
    split_and!; done || lia.
Qed.

(** Context-free checks.  [CheckTransaction] accepts exactly the
    transactions with inputs and outputs, of limited size, whose output values
    and their sum are in the money range, that spend no output twice and spend
    the null outpoint only as a coinbase with a script of 2 to 100 bytes; on
    all others it reports a consensus failure, and never anything else (the
    assertion of [CheckBlock]), in particular no signed overflow. *)
Theorem check_transaction_exact (tx : CTransaction) :
  if decide (well_formed tx) then CheckTransaction tx = Ok tt
  else consensus_failure (CheckTransaction tx).
Proof. destruct (check_transaction tx). case_decide; auto. Qed.

(** ** What [CheckTxInputs] accepts *)

Section Inputs.

Context {V : Type} {view : CoinsView V} {laws : CoinsViewLaws V} {order : HashOrder}.
Notation cache := (CCoinsViewCache V).

Lemma looked_chain (v v1 v2 : cache) :
  looked v v1 -> looked v1 v2 -> looked v v2.
Proof. apply looked_trans. Qed.

Lemma have_inputs tx (v : cache) : cache_ok v -> exists v',
  HaveInputs tx v =
    (Ok (IsCoinBase tx || bool_decide (Forall (fun i => is_Some (cache_coins v !! prevout i)) (vin tx))), v') /\
  looked v v'.
Proof.
  intros Hv. unfold HaveInputs. destruct (IsCoinBase tx); [exists v; split; [done|by apply looked_refl]|].
  assert (forall ins b w, looked v w -> exists v',
    for_each (M := act cache) ins (fun i (have : bool) => if have then HaveCoin (prevout i) else mret false) b w =
      (Ok (b && bool_decide (Forall (fun i => is_Some (cache_coins v !! prevout i)) ins)), v') /\ looked v v') as loop.
  { induction ins as [|i ins IH]; intros b w Hw.
    { exists w. split; [by rewrite bool_decide_true, andb_true_r by done|done]. }
    cbn [for_each]. destruct b.
    - destruct (have_coin (prevout i) w (looked_ok _ _ Hw)) as (w' & E & Hl & _).
      destruct (IH (bool_decide (is_Some (cache_coins w !! prevout i))) w') as (v' & E' & Hv'); [by eapply looked_trans|].
      exists v'. split; [|done]. erewrite act_bind_run by exact E. rewrite E'.
      rewrite (looked_coins _ _ Hw). f_equal. f_equal. rewrite <-bool_decide_and.
      apply bool_decide_ext. by rewrite Forall_cons.
    - destruct (IH false w Hw) as (v' & E & ?). exists v'. by erewrite act_bind_run. }
  destruct (loop (vin tx) true v) as (v' & E & ?); [by apply looked_refl|]. by exists v'.
Qed.

Lemma spend_target_runs i c (v : cache) :
  cache_ok v -> cache_coins v !! prevout i = Some c -> exists v',
  spend_target i v = (Ok c, v') /\ looked v v'.
Proof.
  intros Hv Hc. destruct (access_coin (prevout i) v Hv) as (v' & E & Hl). exists v'. split; [|done].
  unfold spend_target. erewrite act_bind_run by exact E. rewrite Hc. simpl.
  by rewrite (cache_coins_unspent v Hv _ _ Hc).
Qed.

(** The loop of [CheckTxInputs] on the coins themselves. *)
Definition spend_rule (nSpendHeight : Z) (c : Coin) (nValueIn : Z) : verdict Z :=
  _ ← reject_if (fCoinBase c && bool_decide (nSpendHeight - coin_nHeight c < COINBASE_MATURITY))
        (Invalid TX_PREMATURE_SPEND "bad-txns-premature-spend-of-coinbase");
  sum ← add64 nValueIn (nValue (out c));
  _ ← reject_if (negb (MoneyRange (nValue (out c))) || negb (MoneyRange sum))
        (Invalid TX_CONSENSUS "bad-txns-inputvalues-outofrange");
  mret sum.

Lemma check_spends h ins cs s (v : cache) :
  cache_ok v -> Forall2 (fun i c => cache_coins v !! prevout i = Some c) ins cs -> exists v',
  for_each (M := act cache) ins (check_spend h) s v = (for_each (M := verdict) cs (spend_rule h) s, v') /\
  looked v v'.
Proof.
  revert ins s v. induction cs as [|c cs IH]; intros ins s v Hv Hc.
  { apply Forall2_nil_inv_r in Hc as ->. exists v. split; [done|by apply looked_refl]. }
  apply Forall2_cons_inv_r in Hc as (i & ins' & Hi & Hc & ->).
  destruct (spend_target_runs i c v Hv Hi) as (w & E & Hw).
  rewrite for_each_cons. cbn [for_each].
  assert (check_spend h i s v = (spend_rule h c s, w)) as Es.
  { unfold check_spend. erewrite act_bind_run by exact E. change (spend_rule h c s, w) with (lift (spend_rule h c s) w).
    unfold spend_rule. rewrite lift_bind. apply act_bind_ext. intros _ w1.
    rewrite lift_bind. apply act_bind_ext. intros sum w2. by rewrite lift_bind. }
  destruct (spend_rule h c s) as [s'|f].
  - destruct (IH ins' s' w (looked_ok _ _ Hw)) as (v' & E' & Hv').
    { eapply Forall2_impl; [exact Hc|]. simpl. by rewrite (looked_coins _ _ Hw). }
    exists v'. erewrite act_bind_run by exact Es. split; [done|by eapply looked_trans].
  - exists w. unfold mbind, act_bind. by rewrite Es.
Qed.

Definition spends (m : gmap COutPoint Coin) (ins : list CTxIn) (cs : list Coin) : Prop :=
  Forall2 (fun i c => m !! prevout i = Some c) ins cs.

Lemma spends_unique m ins cs cs' : spends m ins cs -> spends m ins cs' -> cs' = cs.
Proof.
  intros H. revert cs'. induction H as [|i c ins cs Hc _ IH]; intros cs' H'.
  - by apply Forall2_nil_inv_l in H'.
  - apply Forall2_cons_inv_l in H' as (c' & k' & ? & ? & ->). f_equal; [congruence|by apply IH].
Qed.

Lemma spends_all m ins :
  Forall (fun i => is_Some (m !! prevout i)) ins <-> exists cs, spends m ins cs.
Proof.
  split.
  - induction 1 as [|i l [c Hc] _ [cs IH]]; [by exists []; constructor|]. exists (c :: cs). by constructor.
  - intros [cs H]. induction H; constructor; eauto.
Qed.

Lemma spends_forall (P : Coin -> Prop) m ins cs :
  map_Forall (fun _ c => P c) m -> spends m ins cs -> Forall P cs.
Proof. intros Hm H. induction H; constructor; [by eapply Hm|done]. Qed.

Definition mature (nSpendHeight : Z) (c : Coin) : Prop :=
  fCoinBase c = true -> coin_nHeight c + COINBASE_MATURITY <= nSpendHeight.

Definition coin_value (c : Coin) : Z := nValue (out c).
Definition in_range (c : Coin) : Prop := 0 <= coin_value c <= MAX_MONEY.

Lemma spend_rule_ok h c s t :
  in_range c -> 0 <= s <= MAX_MONEY ->
  (spend_rule h c s = Ok t <-> mature h c /\ s + coin_value c <= MAX_MONEY /\ t = s + coin_value c).
Proof.
  unfold in_range, mature, coin_value, spend_rule. intros Hc Hs.
  destruct (fCoinBase c && bool_decide (h - coin_nHeight c < COINBASE_MATURITY)) eqn:M; simpl.
  { apply andb_true_iff in M as [M1 M2%bool_decide_eq_true]. split; [done|].
    intros [Hm _]. specialize (Hm M1). lia. }
  rewrite add64_money by done. simpl.
  replace (MoneyRange (nValue (out c))) with true by (symmetry; by apply MoneyRange_spec). simpl.
  destruct (MoneyRange (s + nValue (out c))) eqn:R; simpl.
  - apply MoneyRange_spec in R. split; [|by intros (_ & _ & ->)]. intros [= <-]. split_and!; [|lia|done].
    intros Hcb. rewrite Hcb in M. apply bool_decide_eq_false in M. lia.
  - apply MoneyRange_false in R. split; [done|lia].
Qed.

Lemma spend_rules h cs s t :
  Forall in_range cs -> 0 <= s <= MAX_MONEY ->
  (for_each (M := verdict) cs (spend_rule h) s = Ok t <->
   Forall (mature h) cs /\ s + total_of coin_value cs <= MAX_MONEY /\ t = s + total_of coin_value cs).
Proof.
  intros Hr. revert s. induction Hr as [|c cs Hc Hr IH]; intros s Hs.
  { simpl. rewrite Z.add_0_r. split; [intros [= ->]; split_and!; done || lia|by intros (_ & _ & ->)]. }
  assert (0 <= total_of coin_value cs).
  { apply total_of_nonneg. eapply Forall_impl; [exact Hr|]. unfold in_range. simpl. lia. }
  unfold in_range in Hc. rewrite for_each_cons, Forall_cons, bind_ok.
  change (total_of coin_value (c :: cs)) with (coin_value c + total_of coin_value cs). split.
  - intros (s1 & (? & ? & ->)%spend_rule_ok & E); [|done|done]. apply IH in E as (? & ? & ->); [|lia].
    split_and!; [done..|lia|lia].
  - intros ([? ?] & ? & ->). exists (s + coin_value c). rewrite spend_rule_ok, IH by (done || lia).
    split_and!; [done|lia|done|done|lia|lia].
Qed.

Definition inputs_accepted (m : gmap COutPoint Coin) (tx : CTransaction) (height fee : Z) : Prop :=
  exists cs, spends m (vin tx) cs /\ Forall (mature height) cs /\
    total_of coin_value cs <= MAX_MONEY /\ payable (vout tx) /\
    0 <= fee /\ fee = total_of coin_value cs - paid (vout tx).

(** The verdict, from the coins spent. *)
Definition fee_verdict (tx : CTransaction) (height : Z) (cs : list Coin) : verdict Z :=
  nValueIn ← for_each (M := verdict) cs (spend_rule height) 0;
  value_out ← GetValueOut tx;
  _ ← reject_if (bool_decide (nValueIn < value_out)) (Invalid TX_CONSENSUS "bad-txns-in-belowout");
  _ ← reject_if (negb (MoneyRange (nValueIn - value_out))) (Invalid TX_CONSENSUS "bad-txns-fee-outofrange");
  mret (nValueIn - value_out).

Lemma fee_verdict_ok tx height cs fee :
  Forall in_range cs ->
  (fee_verdict tx height cs = Ok fee <->
   Forall (mature height) cs /\ total_of coin_value cs <= MAX_MONEY /\ payable (vout tx) /\
   0 <= fee /\ fee = total_of coin_value cs - paid (vout tx)).
Proof.
  intros Hin. unfold fee_verdict.
  pose proof (fun t => spend_rules height cs 0 t Hin ltac:(unfold MAX_MONEY, COIN; lia)) as Hs.
  rewrite GetValueOut_spec. split.
  - intros Hok. ran. apply Hs in H as (Hm & Ht & ->). rewrite Z.add_0_l in *. case_decide as Hp; [|done].
    ran. apply bool_decide_eq_false in H1. split_and!; try done; lia.
  - intros (Hm & Ht & Hp & Hf & ->).
    rewrite (proj2 (Hs (total_of coin_value cs))) by (split_and!; [done|lia|lia]). simpl.
    rewrite decide_True by done. simpl. rewrite bool_decide_false by lia. simpl.
    replace (MoneyRange _) with true; [done|]. symmetry. apply MoneyRange_spec.
    destruct Hp as [Hp%payable_nonneg _]. lia.
Qed.

Lemma check_tx_inputs tx height (v : cache) :
  cache_ok v -> IsCoinBase tx = false -> map_Forall (fun _ c => in_range c) (cache_coins v) ->
  exists r v', CheckTxInputs tx height v = (r, v') /\ looked v v' /\
  forall fee, r = Ok fee <-> inputs_accepted (cache_coins v) tx height fee.
Proof.
  intros Hv Hcb Hr. destruct (have_inputs tx v Hv) as (v1 & E1 & Hv1). rewrite Hcb in E1. simpl in E1.
  unfold CheckTxInputs. erewrite act_bind_run by exact E1.
  destruct (decide (Forall (fun i => is_Some (cache_coins v !! prevout i)) (vin tx))) as [Hall|Hall].
  2:{ rewrite bool_decide_false by done. eexists _, v1. split_and!; [done|done|].
      intros fee. split; [done|]. intros (cs & Hcs & _). exfalso. apply Hall, spends_all. by exists cs. }
  rewrite bool_decide_true by done. erewrite act_bind_run by reflexivity.
  apply spends_all in Hall as [cs Hcs]. pose proof (spends_forall _ _ _ _ Hr Hcs) as Hin.
  destruct (check_spends height (vin tx) cs 0 v1) as (v2 & E2 & Hv2); [by destruct Hv1| |].
  { eapply Forall2_impl; [exact Hcs|]. simpl. by rewrite (looked_coins _ _ Hv1). }
  exists (fee_verdict tx height cs), v2. split_and!; [|by eapply looked_trans|].
  - erewrite act_bind_via by exact E2.
    change (fee_verdict tx height cs, v2) with (lift (fee_verdict tx height cs) v2). unfold fee_verdict.
    rewrite lift_bind. apply act_bind_ext. intros t w1.
    rewrite lift_bind. apply act_bind_ext. intros o w2.
    rewrite lift_bind. apply act_bind_ext. intros _ w3. by rewrite lift_bind.
  - intros fee. rewrite fee_verdict_ok by done. split; [by exists cs|].
    intros (cs' & Hcs' & H). by rewrite (spends_unique _ _ _ _ Hcs Hcs') in H.
Qed.

(** C8: spending.  On a view whose coins are in the money range,
    [CheckTxInputs] accepts a transaction with the fee [fee] exactly when all
    the outputs it spends exist unspent, those of coinbases have a hundred
    confirmations, the outputs are payable and worth no more than the inputs,
    and [fee] is the difference; it leaves every coin as it was. *)
Theorem check_tx_inputs_exact (tx : CTransaction) (height : Z) (v : cache) :
  cache_ok v -> IsCoinBase tx = false -> map_Forall (fun _ c => in_range c) (cache_coins v) ->
  exists r v', CheckTxInputs tx height v = (r, v') /\ cache_coins v' = cache_coins v /\ cache_ok v' /\
  forall fee, r = Ok fee <-> inputs_accepted (cache_coins v) tx height fee.
Proof.
  intros Hv Hcb Hr. destruct (check_tx_inputs tx height v Hv Hcb Hr) as (r & v' & E & [] & H).
  by exists r, v'.
Qed.

End Inputs.

Definition demo_spend : CTransaction :=
  mkCTransaction [mkCTxIn (demo_out 0) [] 0] [mkCTxOut 6 [0x51]; mkCTxOut 3 [0x51]] 2 0.

Lemma check_tx_inputs_exact_witness :
  cache_ok demo_stack /\ IsCoinBase demo_spend = false /\
  map_Forall (fun _ c => in_range c) (cache_coins demo_stack) /\
  exists r v', CheckTxInputs demo_spend 200 demo_stack = (r, v') /\
    cache_coins v' = cache_coins demo_stack /\ cache_ok v' /\
    forall fee, r = Ok fee <-> inputs_accepted (cache_coins demo_stack) demo_spend 200 fee.
Proof.
  assert (cache_ok demo_stack) as Hok.
  { split; [split; [split; [by apply map_Forall_singleton|done]|]|]; apply map_Forall_empty. }
  assert (map_Forall (fun _ c => in_range c) (cache_coins demo_stack)) as Hr.
  { change (cache_coins demo_stack) with ({[demo_out 0 := demo_coin 10]} : gmap COutPoint Coin).
    apply map_Forall_singleton. unfold in_range, coin_value, MAX_MONEY, COIN. simpl. lia. }
  split; [exact Hok|]. split; [done|]. split; [exact Hr|].
  by apply (check_tx_inputs_exact demo_spend 200 demo_stack).
Defined.

(** ** Relative lock times *)

(** When an input may be spent, in terms of what its sequence number says:
    nothing, a time since the coin's block in units of 512 seconds, or a
    number of blocks. *)
Definition lock_met (block pprev : CBlockIndex) (ih : CTxIn * Z) : Prop :=
  let '(i, coin_height) := ih in
  let n := Z.land (nSequence i) SEQUENCE_LOCKTIME_MASK in
  if bits (nSequence i) SEQUENCE_LOCKTIME_DISABLE_FLAG then True
  else if bits (nSequence i) SEQUENCE_LOCKTIME_TYPE_FLAG
  then GetMedianTimePast (ancestor block (Z.max (coin_height - 1) 0)) + 512 * n <= GetMedianTimePast pprev
  else coin_height + n <= top block.

#[export] Instance lock_met_dec block pprev ih : Decision (lock_met block pprev ih).
Proof. unfold lock_met. destruct ih. repeat case_match; apply _. Defined.

Lemma sequence_lock_step block pprev ih mh mt :
  linked block -> 0 <= ih.2 <= top block -> exists mh' mt',
  sequence_lock block ih (mh, mt) = Ok (mh', mt') /\
  (mh' < top block /\ mt' < GetMedianTimePast pprev <->
   (mh < top block /\ mt < GetMedianTimePast pprev) /\ lock_met block pprev ih).
Proof.
  destruct ih as [i h]. intros Hl Hh. simpl in Hh. unfold sequence_lock, lock_met.
  destruct (bits (nSequence i) SEQUENCE_LOCKTIME_DISABLE_FLAG); [exists mh, mt; split; [done|tauto]|].
  destruct (bits (nSequence i) SEQUENCE_LOCKTIME_TYPE_FLAG).
  - rewrite get_ancestor, decide_False by (done || lia). simpl.
    destruct (ancestor_found block (Z.max (h - 1) 0) Hl ltac:(lia)) as [_ Ha].
    rewrite linked_not_null by done. simpl. eexists _, _. split; [done|].
    rewrite Z.shiftl_mul_pow2 by (unfold SEQUENCE_LOCKTIME_GRANULARITY; lia).
    change (2 ^ SEQUENCE_LOCKTIME_GRANULARITY) with 512. lia.
  - eexists _, _. split; [done|]. lia.
Qed.

Lemma sequence_lock_loop block pprev l mh mt :
  linked block -> Forall (fun ih => 0 <= ih.2 <= top block) l -> exists mh' mt',
  for_each (M := verdict) l (sequence_lock block) (mh, mt) = Ok (mh', mt') /\
  (mh' < top block /\ mt' < GetMedianTimePast pprev <->
   (mh < top block /\ mt < GetMedianTimePast pprev) /\ Forall (lock_met block pprev) l).
Proof.
  intros Hl H. revert mh mt. induction H as [|ih l Hih _ IH]; intros mh mt.
  { exists mh, mt. split; [done|]. rewrite Forall_nil. tauto. }
  destruct (sequence_lock_step block pprev ih mh mt Hl Hih) as (mh1 & mt1 & E1 & H1).
  destruct (IH mh1 mt1) as (mh2 & mt2 & E2 & H2). exists mh2, mt2.
  rewrite for_each_cons, E1. split; [done|]. rewrite H2, H1, Forall_cons. tauto.
Qed.

(** C26: relative lock times.  For a block that has a predecessor and coins that
    are not younger than it, [SequenceLocks] ends without a failed assertion
    and holds exactly when the rule does not apply (a version below 2, or not
    yet active) or every input's lock is met: the stated number of blocks
    since the coin's block, or of 512-second units between the median times. *)
Theorem sequence_locks_exact (tx : CTransaction) (flags : Z) (heights : list Z) (b : block_info) (p s : CBlockIndex) :
  let block := Block b p s in
  linked block -> p <> nullptr -> 0 <= GetMedianTimePast p ->
  length heights = length (vin tx) -> Forall (fun h => 0 <= h <= bi_nHeight b) heights ->
  SequenceLocks tx flags heights block = Ok (bool_decide (
    (2 <= tx_nVersion tx mod 2 ^ 32 /\ bits flags LOCKTIME_VERIFY_SEQUENCE = true) ->
    Forall (lock_met block p) (zip (vin tx) heights))).
Proof.
  intros block Hl Hp Hm Hlen Hh. unfold SequenceLocks, CalculateSequenceLocks.
  rewrite (bool_decide_true (length heights = _)) by done. cbn [mbind verdict_bind assert_that negb reject_if].
  assert (0 < top block) as Ht.
  { unfold block in *. inversion Hl as [|? ? Hp']; subst; [done|]. apply linked_height in Hp'. simpl. lia. }
  assert (forall l, EvaluateSequenceLocks block l =
    Ok (bool_decide (l.1 < top block /\ l.2 < GetMedianTimePast p))) as eval.
  { intros [l1 l2]. assert (is_null p = false) as En by (by destruct p).
    simpl. rewrite En. simpl. f_equal. rewrite bool_decide_and.
    repeat case_bool_decide; simpl; done || lia. }
  destruct (bool_decide (2 <= tx_nVersion tx mod 2 ^ 32) && bits flags LOCKTIME_VERIFY_SEQUENCE) eqn:E.
  - apply andb_true_iff in E as [E1%bool_decide_eq_true E2].
    destruct (sequence_lock_loop block p (zip (vin tx) heights) (-1) (-1)) as (mh & mt & -> & H); [done| |].
    { apply Forall_forall. intros [i h] Hi%elem_of_zip_r. rewrite Forall_forall in Hh. by apply Hh. }
    cbn [mbind verdict_bind]. rewrite eval. f_equal. apply bool_decide_ext.
    change ((mh, mt).1) with mh. change ((mh, mt).2) with mt. rewrite H.
    split; [tauto|]. intros HF. split; [lia|]. by apply HF.
  - cbn [mbind verdict_bind mret verdict_ret]. rewrite eval. f_equal. apply bool_decide_ext.
    cbn [fst snd]. split; [|lia]. intros _ [E1 E2]. rewrite E2, bool_decide_true in E by done. done.
Qed.

Lemma sequence_locks_exact_witness :
  let tx := mkCTransaction [mkCTxIn (demo_out 0) [] 2] [] 2 0 in
  let p := Block (mkInfo 1 1 100 0 0) nullptr nullptr in
  let block := Block (mkInfo 2 1 300 0 1) p p in
  linked block /\ SequenceLocks tx 1 [0] block = Ok false.
Proof.
  intros tx p block.
  assert (linked block) as Hl by (apply (linked_next (mkInfo 2 1 300 0 1) p); [by constructor|done]).
  split; [exact Hl|].
  assert (0 <= GetMedianTimePast p) as Hm by (vm_compute; discriminate).
  etrans; [apply (sequence_locks_exact tx 1 [0] (mkInfo 2 1 300 0 1) p p Hl)|].
  - done.
  - exact Hm.
  - done.
  - apply Forall_singleton. simpl. lia.
  - vm_compute. reflexivity.
Defined.
