(* ===== verification/Merkle.v ===== *)
(** * The node: Merkle roots

    consensus/merkle.cpp.  Two transactions lists with the same root, neither
    of them flagged as mutated, are the same list, unless computing the roots
    has exhibited a collision of the hash function or a transaction hash that
    is also an inner node.  The hash of two nodes (double SHA-256 of the 64
    bytes) is a parameter. *)

From Stdlib Require Import ZArith Lia.
From stdpp Require Import base tactics strings numbers list.
From S2P Require Import NodeBase.

Open Scope Z_scope.

Section Merkle.

Context (SHA256D64 : Z -> Z -> Z).

(** Two equal hashes at an even position and the next one. *)
Fixpoint level_mutated (hashes : list Z) : bool :=
  match hashes with
  | a :: b :: rest => bool_decide (a = b) || level_mutated rest
  | _ => false
  end.

(** The next level: the last hash is doubled when their number is odd. *)
Fixpoint next_level (hashes : list Z) : list Z :=
  match hashes with
  | a :: b :: rest => SHA256D64 a b :: next_level rest
  | [a] => [SHA256D64 a a]
  | [] => []
  end.

(** The loop; each level is shorter than the one before, so that the number of
    hashes is enough fuel. *)
Fixpoint merkle_loop (fuel : nat) (hashes : list Z) (mutation : bool) : option (Z * bool) :=
  match hashes with
  | [] => Some (0, mutation)
  | [h] => Some (h, mutation)
  | _ =>
      match fuel with
      | O => None
      | S fuel => merkle_loop fuel (next_level hashes) (mutation || level_mutated hashes)
      end
  end.

(** The root and the flag [mutated]. *)
Definition ComputeMerkleRoot (hashes : list Z) : option (Z * bool) :=
  merkle_loop (length hashes) hashes false.

(** [BlockMerkleRoot] on the hashes of a block's transactions, and
    [BlockWitnessMerkleRoot], where the coinbase counts as zero. *)
Definition BlockMerkleRoot {tx} (GetHash : tx -> Z) (vtx : list tx) : option (Z * bool) :=
  ComputeMerkleRoot (GetHash <$> vtx).

Definition BlockWitnessMerkleRoot {tx} (GetWitnessHash : tx -> Z) (vtx : list tx) : option (Z * bool) :=
  match vtx with
  | [] => None
  | _ :: rest => ComputeMerkleRoot (0 :: (GetWitnessHash <$> rest))
  end.

(** ** Termination *)

Lemma next_level_length hashes : length (next_level hashes) = Nat.div2 (S (length hashes)).
Proof.
  remember (length hashes) as n eqn:E. revert hashes E.
  induction n as [n IH] using lt_wf_ind; intros [|a [|b rest]] ->; simpl; [done..|].
  f_equal. rewrite (IH (length rest)); simpl; lia || done.
Qed.

Lemma next_level_shorter a b rest :
  (length (next_level (a :: b :: rest)) < length (a :: b :: rest))%nat.
Proof.
  rewrite next_level_length. simpl length. pose proof (Nat.div2_decr (S (length rest)) (length rest)).
  cbn [Nat.div2]. destruct (length rest); [simpl; lia|]. pose proof (Nat.div2_decr n n). cbn [Nat.div2] in *. lia.
Qed.

Lemma merkle_loop_total fuel hashes m :
  (length hashes <= fuel)%nat -> exists r m', merkle_loop fuel hashes m = Some (r, m').
Proof.
  revert hashes m. induction fuel as [|fuel IH]; intros hashes m H.
  - destruct hashes; [by eexists _, _|simpl in H; lia].
  - destruct hashes as [|a [|b rest]]; [by eexists _, _..|]. cbn [merkle_loop]. apply IH.
    pose proof (next_level_shorter a b rest). lia.
Qed.

(** ** The pairs hashed on the way *)

Fixpoint level_pairs (hashes : list Z) : list (Z * Z) :=
  match hashes with
  | a :: b :: rest => (a, b) :: level_pairs rest
  | [a] => [(a, a)]
  | [] => []
  end.

Fixpoint hashed_loop (fuel : nat) (hashes : list Z) : list (Z * Z) :=
  match fuel, hashes with
  | S fuel, _ :: _ :: _ => level_pairs hashes ++ hashed_loop fuel (next_level hashes)
  | _, _ => []
  end.

Definition hashed (hashes : list Z) : list (Z * Z) := hashed_loop (length hashes) hashes.

Definition node (p : Z * Z) : Z := SHA256D64 p.1 p.2.

Lemma next_level_pairs hashes : next_level hashes = node <$> level_pairs hashes.
Proof.
  remember (length hashes) as n eqn:E. revert hashes E.
  induction n as [n IH] using lt_wf_ind; intros [|a [|b rest]] ->; csimpl; [done..|].
  f_equal. apply (IH (length rest)); [simpl; lia|done].
Qed.

(** Without a repetition at the end the pairs determine the level. *)
Lemma level_pairs_inj l k :
  level_mutated l = false -> level_mutated k = false -> level_pairs l = level_pairs k -> l = k.
Proof.
  remember (length l) as n eqn:E. revert l k E.
  induction n as [n IH] using lt_wf_ind; intros l k -> Hl Hk Ep.
  destruct l as [|a [|b l]], k as [|c [|d k]]; simpl in *; simplify_eq; try done.
  - by rewrite bool_decide_true in Hk.
  - by rewrite bool_decide_true in Hl.
  - apply orb_false_iff in Hl as [_ Hl], Hk as [_ Hk].
    do 2 f_equal. by apply (IH (length l)); [lia|..].
Qed.

(** ** Levels, from the leaves up *)

Fixpoint level (n : nat) (hashes : list Z) : list Z :=
  match n with O => hashes | S n => level n (next_level hashes) end.

Lemma level_next n hashes : level n (next_level hashes) = next_level (level n hashes).
Proof. revert hashes. induction n as [|n IH]; intros hashes; [done|]. simpl. apply IH. Qed.

(** A level below the root: not mutated, and its pairs among [seen]. *)
Definition good_level (seen : list (Z * Z)) (l : list Z) : Prop :=
  level_mutated l = false /\ level_pairs l ⊆ seen.

Lemma loop_levels fuel l m r :
  l <> [] -> merkle_loop fuel l m = Some (r, false) ->
  m = false /\ exists d, level d l = [r] /\
  forall i, (i < d)%nat -> good_level (hashed_loop fuel l) (level i l).
Proof.
  revert l m. induction fuel as [|fuel IH]; intros l m Hne H.
  { destruct l as [|a [|b l]]; simplify_eq/=. split; [done|]. exists O. split; [done|lia]. }
  destruct l as [|a [|b l]]; [done|simplify_eq/=; split; [done|]; exists O; split; [done|lia]|].
  cbn [merkle_loop] in H. apply IH in H as (Hm & d & Hd & Hg); [|by rewrite next_level_pairs].
  apply orb_false_iff in Hm as [-> Hm]. split; [done|]. exists (S d). split; [done|].
  intros [|i] Hi; (split; [|cbn [hashed_loop]; intros p Hp; apply elem_of_app]).
  - done.
  - by left.
  - by apply (Hg i); lia.
  - right. apply (Hg i); [lia|done].
Qed.

Definition collision (l1 l2 : list Z) : Prop :=
  exists p q, p ∈ hashed l1 /\ q ∈ hashed l2 /\ p <> q /\ node p = node q.

(** A leaf of one list is an inner node of the other tree. *)
Definition leaf_is_node (l1 l2 : list Z) : Prop :=
  exists x p, x ∈ l1 /\ p ∈ hashed l2 /\ x = node p.

Lemma nodes_differ (ps qs : list (Z * Z)) :
  node <$> ps = node <$> qs -> ps = qs \/ exists p q, p ∈ ps /\ q ∈ qs /\ p <> q /\ node p = node q.
Proof.
  revert qs. induction ps as [|p ps IH]; intros [|q qs] E; simplify_eq/=; [by left|].
  destruct (decide (p = q)) as [->|Hne].
  - destruct (IH qs) as [->|(p' & q' & ? & ? & ?)]; [done|by left|right].
    exists p', q'. split_and!; [by right|by right|naive_solver..].
  - right. exists p, q. split_and!; [by left|by left|done|done].
Qed.

Lemma levels_align s1 s2 d e l1 l2 r :
  level d l1 = [r] -> level (d + e) l2 = [r] ->
  (forall i, (i < d)%nat -> good_level s1 (level i l1)) ->
  (forall i, (i < d + e)%nat -> good_level s2 (level i l2)) ->
  l1 = level e l2 \/ exists p q, p ∈ s1 /\ q ∈ s2 /\ p <> q /\ node p = node q.
Proof.
  revert l1 e. induction d as [|d IH]; intros l1 e H1 H2 G1 G2.
  { left. simpl in *. congruence. }
  destruct (IH (next_level l1) (S e)) as [E|]; [done| | | | |by right].
  - by rewrite Nat.add_succ_r.
  - intros i Hi. apply (G1 (S i)). lia.
  - intros i Hi. apply G2. lia.
  - simpl in E. rewrite level_next, !next_level_pairs in E.
    destruct (G1 0%nat ltac:(lia)) as [M1 S1]. destruct (G2 e ltac:(lia)) as [M2 S2].
    apply nodes_differ in E as [E|(p & q & ? & ? & ? & ?)].
    + left. by apply level_pairs_inj.
    + right. exists p, q. split_and!; [by apply S1|by apply S2|done|done].
Qed.

Lemma deeper_leaf l1 l2 e s :
  l1 <> [] -> l1 = level (S e) l2 -> good_level s (level e l2) ->
  exists x p, x ∈ l1 /\ p ∈ s /\ x = node p.
Proof.
  intros Hne E [_ G]. simpl in E. rewrite level_next, next_level_pairs in E.
  destruct (level_pairs (level e l2)) as [|p ps]; [done|].
  exists (node p), p. split_and!; [rewrite E; by left|apply G; by left|done].
Qed.

(** C16: the root binds the transactions.  If two nonempty lists of
    transaction hashes have the same Merkle root and neither computation
    reports a mutation, the lists are equal, unless the two computations
    together exhibit a collision of the hash function or a transaction hash
    that is an inner node of the other tree.  In particular the repetition of
    transactions of CVE-2012-2459 is always reported. *)
Theorem merkle_root_binds (l1 l2 : list Z) (r : Z) :
  l1 <> [] -> l2 <> [] ->
  ComputeMerkleRoot l1 = Some (r, false) -> ComputeMerkleRoot l2 = Some (r, false) ->
  l1 = l2 \/ collision l1 l2 \/ collision l2 l1 \/ leaf_is_node l1 l2 \/ leaf_is_node l2 l1.
Proof.
  intros N1 N2 H1 H2.
  apply loop_levels in H1 as (_ & d1 & E1 & G1); [|done].
  apply loop_levels in H2 as (_ & d2 & E2 & G2); [|done].
  destruct (decide (d1 <= d2)%nat).
  - replace d2 with (d1 + (d2 - d1))%nat in E2, G2 by lia.
    destruct (levels_align _ _ _ _ _ _ _ E1 E2 G1 G2) as [E|]; [|by right; left].
    destruct (d2 - d1)%nat as [|e] eqn:D; [by left|]. right; right; right; left.
    eapply deeper_leaf; [done|done|]. apply G2. lia.
  - replace d1 with (d2 + (d1 - d2))%nat in E1, G1 by lia.
    destruct (levels_align _ _ _ _ _ _ _ E2 E1 G2 G1) as [E|]; [|by right; right; left].
    destruct (d1 - d2)%nat as [|e] eqn:D; [by left|]. right; right; right; right.
    eapply deeper_leaf; [done|done|]. apply G1. lia.
Qed.

End Merkle.

(** Two lists with one root: the first consists of inner nodes of the second,
    and the repetition of the last transaction is reported. *)
Definition demo_node (a b : Z) : Z := 10 * a + b.

Lemma merkle_root_binds_witness :
  ComputeMerkleRoot demo_node [12; 33] = Some (153, false) /\
  ComputeMerkleRoot demo_node [1; 2; 3] = Some (153, false) /\
  ([12; 33] = [1; 2; 3] \/ collision demo_node [12; 33] [1; 2; 3] \/ collision demo_node [1; 2; 3] [12; 33] \/
   leaf_is_node demo_node [12; 33] [1; 2; 3] \/ leaf_is_node demo_node [1; 2; 3] [12; 33]) /\
  ComputeMerkleRoot demo_node [1; 2; 3; 3] = Some (153, true).
Proof.
  split; [reflexivity|]. split; [reflexivity|]. split; [|reflexivity].
  apply (merkle_root_binds demo_node [12; 33] [1; 2; 3] 153); [discriminate|discriminate|reflexivity|reflexivity].
Defined.
