(* ===== verification/Arith256.v ===== *)
(** * The node: 256-bit arithmetic

    arith_uint256.h and arith_uint256.cpp: an unsigned number of 256 bits is
    an array of eight 32-bit limbs, the least significant first, and every
    operation works on the limbs as the C++ does, with its carries and its
    wrap-around.  [value] is the number the limbs stand for; the theorems
    reduce each operation to that of Z modulo 2^256, and the compact format
    of difficulty targets to a rounding of Z. *)

From Stdlib Require Import ZArith Lia.
From stdpp Require Import base tactics strings numbers list.
From S2P Require Import NodeBase.

Open Scope Z_scope.

Definition W : Z := 2 ^ 32.
Definition WIDTH : nat := 8.
Definition u32 (x : Z) : Z := x mod W.
Definition u64 (x : Z) : Z := x mod 2 ^ 64.

Notation limbs := (list Z).

(** The limb at an index, and [pn[i] |= x]. *)
Definition limb (a : limbs) (i : nat) : Z := default 0 (a !! i).
Definition or_at (a : limbs) (i : nat) (x : Z) : limbs := <[i := Z.lor (limb a i) x]> a.

(** ** arith_uint256.h *)

Definition of_uint64 (b : Z) : limbs := u32 b :: u32 (Z.shiftr b 32) :: repeat 0 6.

(** [operator~], prefix [operator++], unary [operator-]. *)
Definition bnot (a : limbs) : limbs := (fun x => W - 1 - x) <$> a.

Fixpoint increment (a : limbs) : limbs :=
  match a with
  | [] => []
  | x :: rest => let x' := u32 (x + 1) in if decide (x' = 0) then x' :: increment rest else x' :: rest
  end.

Definition neg (a : limbs) : limbs := increment (bnot a).

(** [operator+=], the loop with its carry. *)
Fixpoint add_loop (carry : Z) (a b : limbs) : limbs :=
  match a, b with
  | x :: a, y :: b =>
      let n := u64 (carry + x + y) in
      Z.land n 0xffffffff :: add_loop (Z.shiftr n 32) a b
  | _, _ => []
  end.
Definition add (a b : limbs) : limbs := add_loop 0 a b.

(** [operator-=]: [*this += -b]. *)
Definition sub (a b : limbs) : limbs := add a (neg b).

Definition GetLow64 (a : limbs) : Z := Z.lor (limb a 0) (Z.shiftl (limb a 1) 32).

(** ** arith_uint256.cpp *)

(** [operator<<=]. *)
Definition shl (a : limbs) (shift : Z) : limbs :=
  let k := Z.to_nat (shift / 32) in
  let s := shift mod 32 in
  foldl (fun pn i =>
    let pn := if decide (i + k + 1 < WIDTH)%nat then
                if decide (s <> 0) then or_at pn (i + k + 1) (Z.shiftr (limb a i) (32 - s)) else pn
              else pn in
    if decide (i + k < WIDTH)%nat then or_at pn (i + k) (u32 (Z.shiftl (limb a i) s)) else pn)
    (repeat 0 WIDTH) (seq 0 WIDTH).

(** [operator>>=]. *)
Definition shr (a : limbs) (shift : Z) : limbs :=
  let k := Z.to_nat (shift / 32) in
  let s := shift mod 32 in
  foldl (fun pn i =>
    let pn := if decide (k + 1 <= i)%nat then
                if decide (s <> 0) then or_at pn (i - k - 1) (u32 (Z.shiftl (limb a i) (32 - s))) else pn
              else pn in
    if decide (k <= i)%nat then or_at pn (i - k) (Z.shiftr (limb a i) s) else pn)
    (repeat 0 WIDTH) (seq 0 WIDTH).

(** [operator*=(uint32_t)]. *)
Fixpoint mul32_loop (carry b32 : Z) (a : limbs) : limbs :=
  match a with
  | [] => []
  | x :: rest =>
      let n := u64 (carry + u64 (b32 * x)) in
      Z.land n 0xffffffff :: mul32_loop (Z.shiftr n 32) b32 rest
  end.
Definition mul32 (a : limbs) (b32 : Z) : limbs := mul32_loop 0 b32 a.

(** [operator*=(const base_uint&)]: row [j] adds [pn[j] * b] from limb [j] on,
    after which limb [j] is final. *)
Fixpoint mul_row (carry p : Z) (b a : limbs) {struct a} : limbs :=
  match a with
  | [] => []
  | x :: rest =>
      match b with
      | [] => a
      | y :: b =>
          let n := u64 (carry + x + u64 (p * y)) in
          Z.land n 0xffffffff :: mul_row (Z.shiftr n 32) p b rest
      end
  end.
Fixpoint mul_rows (pn b a : limbs) : limbs :=
  match pn with
  | [] => a
  | p :: pn =>
      match mul_row 0 p b a with
      | [] => []
      | x :: rest => x :: mul_rows pn b rest
      end
  end.
Definition mul (a b : limbs) : limbs := mul_rows a b (repeat 0 WIDTH).

(** [CompareTo], from the most significant limb. *)
Fixpoint compare_down (a b : limbs) : Z :=
  match a, b with
  | x :: a, y :: b => if decide (x < y) then -1 else if decide (y < x) then 1 else compare_down a b
  | _, _ => 0
  end.
Definition CompareTo (a b : limbs) : Z := compare_down (reverse a) (reverse b).

(** [EqualTo(uint64_t)]. *)
Definition EqualTo (a : limbs) (b : Z) : bool :=
  forallb (fun x => bool_decide (x = 0)) (drop 2 a) &&
  bool_decide (limb a 1 = Z.shiftr b 32) && bool_decide (limb a 0 = Z.land b 0xffffffff).

(** [shahbits()]: the position of the highest bit, plus one. *)
Fixpoint top_bit (nshahbits : nat) (x : Z) : Z :=
  match nshahbits with
  | O => 1
  | S n => if decide (Z.land x (Z.shiftl 1 (Z.of_nat nshahbits)) <> 0)
           then Z.of_nat nshahbits + 1 else top_bit n x
  end.

Fixpoint bitlen_down (n : nat) (a : limbs) : Z :=
  match n with
  | O => 0
  | S pos => if decide (limb a pos <> 0) then 32 * Z.of_nat pos + top_bit 31 (limb a pos) else bitlen_down pos a
  end.
Definition bitlen (a : limbs) : Z := bitlen_down WIDTH a.

(** The loop of [operator/=], at [shift]: the numerator, the divisor and the
    quotient. *)
Definition div_turn (shift : nat) (num div pn : limbs) : limbs * limbs :=
  if decide (0 <= CompareTo num div)
  then (sub num div, or_at pn (Nat.div shift 32) (Z.shiftl 1 (Z.of_nat (Nat.modulo shift 32))))
  else (num, pn).

Fixpoint div_loop (shift : nat) (num div pn : limbs) : limbs :=
  let '(num, pn) := div_turn shift num div pn in
  match shift with
  | O => pn
  | S shift => div_loop shift num (shr div 1) pn
  end.

Definition div (a b : limbs) : verdict limbs :=
  let num_bits := bitlen a in
  let div_bits := bitlen b in
  if decide (div_bits = 0) then Err (Thrown "Division by zero")
  else if decide (num_bits < div_bits) then Ok (of_uint64 0)
  else
    let shift := num_bits - div_bits in
    Ok (div_loop (Z.to_nat shift) a (shl b shift) (of_uint64 0)).

(** [SetCompact]: the number, and the flags [*pfNegative] and [*pfOverflow]. *)
Definition SetCompact (nCompact : Z) : limbs * bool * bool :=
  let nSize := Z.shiftr nCompact 24 in
  let nWord := Z.land nCompact 0x007fffff in
  let nWord' := if decide (nSize <= 3) then Z.shiftr nWord (8 * (3 - nSize)) else nWord in
  let n := if decide (nSize <= 3) then of_uint64 nWord' else shl (of_uint64 nWord) (8 * (nSize - 3)) in
  (n,
   negb (bool_decide (nWord' = 0)) && negb (bool_decide (Z.land nCompact 0x00800000 = 0)),
   negb (bool_decide (nWord' = 0)) &&
     (bool_decide (34 < nSize) ||
      (bool_decide (0xff < nWord') && bool_decide (33 < nSize)) ||
      (bool_decide (0xffff < nWord') && bool_decide (32 < nSize)))).

(** [GetCompact()]; the sign is never asked for. *)
Definition GetCompact (a : limbs) : verdict Z :=
  let nSize := Z.quot (bitlen a + 7) 8 in
  let nCompact := if decide (nSize <= 3) then u32 (u64 (Z.shiftl (GetLow64 a) (8 * (3 - nSize))))
                  else u32 (GetLow64 (shr a (8 * (nSize - 3)))) in
  let '(nCompact, nSize) :=
    if decide (Z.land nCompact 0x00800000 <> 0) then (Z.shiftr nCompact 8, nSize + 1) else (nCompact, nSize) in
  _ ← assert_that (bool_decide (Z.land nCompact (W - 1 - 0x007fffff) = 0)) "(nCompact & ~0x007fffffU) == 0";
  _ ← assert_that (bool_decide (nSize < 256)) "nSize < 256";
  mret (Z.lor nCompact (Z.shiftl nSize 24)).

(** ** The number the limbs stand for *)

Fixpoint value (a : limbs) : Z :=
  match a with [] => 0 | x :: rest => x + W * value rest end.

Definition sized (a : limbs) : Prop := length a = WIDTH /\ Forall (fun x => 0 <= x < W) a.

(** ** Carries *)

Notation fit := (Forall (fun x => 0 <= x < W)).

Lemma W_pos : 0 < W.
Proof. done. Qed.

Lemma Wpow_pos n : 0 < W ^ Z.of_nat n.
Proof. apply Z.pow_pos_nonneg; [done|lia]. Qed.

Lemma Wpow_S n : W ^ Z.of_nat (S n) = W * W ^ Z.of_nat n.
Proof. rewrite Nat2Z.inj_succ, Z.pow_succ_r by lia. done. Qed.

Lemma value_bound a : fit a -> 0 <= value a < W ^ Z.of_nat (length a).
Proof.
  induction 1 as [|x a Hx _ IH]; cbn [value length]; [simpl; lia|]. rewrite Wpow_S.
  pose proof (Wpow_pos (length a)). pose proof W_pos. nia.
Qed.

Lemma value_app a b : value (a ++ b) = value a + W ^ Z.of_nat (length a) * value b.
Proof.
  induction a as [|x a IH]; cbn [value app length]; [simpl; lia|]. rewrite Wpow_S, IH. lia.
Qed.

Lemma land_low n : Z.land n 0xffffffff = n mod W.
Proof. change 0xffffffff with (Z.ones 32). by rewrite Z.land_ones by done. Qed.

Lemma shiftr_high n : Z.shiftr n 32 = n / W.
Proof. by rewrite Z.shiftr_div_pow2 by done. Qed.

Lemma u64_small n : 0 <= n < W * W -> u64 n = n.
Proof. intros. unfold u64. apply Z.mod_small. unfold W in *. lia. Qed.

(** One limb of a loop with a carry: the low half stays, the high half moves
    on to the rest. *)
Lemma carry_limb n rest m :
  0 < m -> n mod W + W * ((n / W + rest) mod m) = (n + W * rest) mod (W * m).
Proof.
  intros Hm. pose proof (Z.div_mod n W ltac:(done)) as E.
  replace (n + W * rest) with (n mod W + W * (n / W + rest)) by lia.
  set (q := n / W + rest). pose proof (Z.mod_pos_bound n W W_pos).
  pose proof (Z.div_mod q m ltac:(lia)). pose proof (Z.mod_pos_bound q m Hm).
  apply (Z.mod_unique_pos _ _ (q / m)); [|lia]. pose proof W_pos. nia.
Qed.

Lemma add_loop_value c a b :
  fit a -> fit b -> length a = length b -> 0 <= c <= 1 ->
  value (add_loop c a b) = (c + value a + value b) mod W ^ Z.of_nat (length a) /\
  fit (add_loop c a b) /\ length (add_loop c a b) = length a.
Proof.
  intros Ha. revert b c. induction Ha as [|x a Hx Ha IH]; intros [|y b] c Hb Hl Hc; try done; cbn in Hl.
  { simpl. rewrite Z.mod_1_r. done. }
  apply Forall_cons in Hb as [Hy Hb]. cbn [add_loop value length].
  rewrite u64_small by (unfold W in *; lia). rewrite land_low, shiftr_high.
  destruct (IH b ((c + x + y) / W)) as (E & Hf & Hn); [done|lia| |].
  { split; [apply Z.div_pos; unfold W in *; lia|]. apply Z.lt_succ_r, Z.div_lt_upper_bound; [done|unfold W in *; lia]. }
  split_and!; [|constructor; [by apply Z.mod_pos_bound|done]|by rewrite Hn].
  rewrite E, Wpow_S, <-(Z.add_assoc (_ / W)), carry_limb by apply Wpow_pos. f_equal. lia.
Qed.

Lemma mul32_loop_value c b a :
  fit a -> 0 <= b < W -> 0 <= c < W ->
  value (mul32_loop c b a) = (c + b * value a) mod W ^ Z.of_nat (length a) /\
  fit (mul32_loop c b a) /\ length (mul32_loop c b a) = length a.
Proof.
  intros Ha Hb. revert c. induction Ha as [|x a Hx Ha IH]; intros c Hc; cbn [mul32_loop value length].
  { rewrite Z.mod_1_r. done. }
  assert (0 <= b * x <= (W - 1) * (W - 1)) by nia.
  rewrite (u64_small (b * x)) by nia. rewrite u64_small by nia. rewrite land_low, shiftr_high.
  destruct (IH ((c + b * x) / W)) as (E & Hf & Hn).
  { split; [apply Z.div_pos; [lia|done]|]. apply Z.div_lt_upper_bound; [done|nia]. }
  split_and!; [|constructor; [by apply Z.mod_pos_bound|done]|by rewrite Hn].
  rewrite E, Wpow_S, carry_limb by apply Wpow_pos. f_equal. lia.
Qed.

Lemma mul_row_value c p b a :
  fit a -> fit b -> (length a <= length b)%nat -> 0 <= p < W -> 0 <= c < W ->
  value (mul_row c p b a) = (c + value a + p * value b) mod W ^ Z.of_nat (length a) /\
  fit (mul_row c p b a) /\ length (mul_row c p b a) = length a.
Proof.
  intros Ha Hb Hl Hp. revert b c Hb Hl.
  induction Ha as [|x a Hx Ha IH]; intros b c Hb Hl Hc; [simpl; by rewrite Z.mod_1_r|].
  destruct b as [|y b]; [simpl in Hl; lia|]. apply Forall_cons in Hb as [Hy Hb].
  cbn [mul_row value length] in *. assert (0 <= p * y <= (W - 1) * (W - 1)) by nia.
  rewrite (u64_small (p * y)) by nia. rewrite u64_small by nia. rewrite land_low, shiftr_high.
  destruct (IH b ((c + x + p * y) / W)) as (E & Hf & Hn); [done|lia| |].
  { split; [apply Z.div_pos; [lia|done]|]. apply Z.div_lt_upper_bound; [done|nia]. }
  split_and!; [|constructor; [by apply Z.mod_pos_bound|done]|by rewrite Hn].
  rewrite E, Wpow_S, <-(Z.add_assoc (_ / W)), carry_limb by apply Wpow_pos. f_equal. lia.
Qed.

Lemma mul_rows_value pn b a :
  fit a -> fit b -> fit pn -> length pn = length a -> (length a <= length b)%nat ->
  value (mul_rows pn b a) = (value a + value pn * value b) mod W ^ Z.of_nat (length a) /\
  fit (mul_rows pn b a) /\ length (mul_rows pn b a) = length a.
Proof.
  intros Ha Hb Hp. revert a Ha. induction Hp as [|p pn Hp Hpn IH]; intros a Ha Hl Hlb.
  { destruct a; [|done]. simpl. by rewrite Z.mod_1_r. }
  cbn [mul_rows value]. destruct (mul_row_value 0 p b a) as (E & Hf & Hn); [done..|].
  destruct (mul_row 0 p b a) as [|x rest]; [by destruct a|].
  apply Forall_cons in Hf as [Hx Hf]. cbn [length value] in *. rewrite <-Hn in *.
  destruct (IH rest) as (E' & Hf' & Hn'); [done|lia|lia|].
  split_and!; [|by constructor|by rewrite Hn'].
  rewrite E', Wpow_S in *. set (m := W ^ Z.of_nat (length rest)) in *.
  assert (0 < m) by apply Wpow_pos.
  replace (x + W * ((value rest + value pn * value b) mod m))
    with (x mod W + W * ((x / W + (value rest + value pn * value b)) mod m))
    by (by rewrite (Z.mod_small x W Hx), (Z.div_small x W Hx)).
  rewrite carry_limb by done.
  replace (x + W * (value rest + value pn * value b)) with (x + W * value rest + W * (value pn * value b)) by lia.
  rewrite E, Zplus_mod_idemp_l. f_equal. lia.
Qed.

(** ** Complement and difference *)

Lemma bnot_value a :
  fit a -> value (bnot a) = W ^ Z.of_nat (length a) - 1 - value a /\ fit (bnot a).
Proof.
  unfold bnot. induction 1 as [|x a Hx _ [IH Hf]]; csimpl; [done|].
  rewrite Wpow_S, IH. split; [lia|]. constructor; [lia|done].
Qed.

Lemma increment_value a :
  fit a -> value (increment a) = (value a + 1) mod W ^ Z.of_nat (length a) /\
  fit (increment a) /\ length (increment a) = length a.
Proof.
  induction 1 as [|x a Hx Ha (IH & Hf & Hn)]; cbn [increment value length]; [by rewrite Z.mod_1_r|].
  rewrite Wpow_S. pose proof (Wpow_pos (length a)). pose proof (value_bound a Ha).
  unfold u32. case_decide as E; cbn [value length].
  - assert (x = W - 1) as ->.
    { destruct (decide (x + 1 < W)); [rewrite Z.mod_small in E by lia; lia|lia]. }
    split_and!; [|constructor; [by rewrite E|done]|by rewrite Hn].
    rewrite IH, E, Z.add_0_l. replace (W - 1 + W * value a + 1) with (W * (value a + 1)) by lia.
    by rewrite Z.mul_mod_distr_l by lia.
  - assert (x + 1 < W) by (destruct (decide (x + 1 = W)) as [E'|]; [by rewrite E', Z.mod_same in E|lia]).
    rewrite Z.mod_small by lia. split_and!; [|constructor; [lia|done]|done].
    rewrite Z.mod_small by nia. lia.
Qed.

Lemma neg_value a :
  fit a -> value (neg a) = (- value a) mod W ^ Z.of_nat (length a) /\
  fit (neg a) /\ length (neg a) = length a.
Proof.
  intros Ha. destruct (bnot_value a Ha) as [E Hf].
  assert (length (bnot a) = length a) as El by (unfold bnot; by rewrite length_fmap).
  destruct (increment_value _ Hf) as (E' & Hf' & Hn). unfold neg. rewrite E', E, El in *.
  split_and!; [|done|done].
  replace (W ^ Z.of_nat (length a) - 1 - value a + 1) with (- value a + 1 * W ^ Z.of_nat (length a)) by lia.
  by rewrite Z_mod_plus_full.
Qed.

(** ** Comparison *)

Lemma compare_down_value a b :
  fit a -> fit b -> length a = length b ->
  compare_down a b = match value (reverse a) ?= value (reverse b) with Lt => -1 | Eq => 0 | Gt => 1 end.
Proof.
  intros Ha. revert b. induction Ha as [|x a Hx Ha IH]; intros [|y b] Hb Hl; try done; cbn in Hl.
  apply Forall_cons in Hb as [Hy Hb]. cbn [compare_down].
  rewrite !reverse_cons, !value_app, !length_reverse. cbn [value].
  assert (length a = length b) as El by lia. rewrite <-El.
  assert (fit (reverse a)) as Hra%value_bound by (by apply Forall_reverse).
  assert (fit (reverse b)) as Hrb%value_bound by (by apply Forall_reverse).
  rewrite length_reverse in Hra, Hrb. rewrite <-El in Hrb.
  set (m := W ^ Z.of_nat (length a)) in *. assert (0 < m) by apply Wpow_pos.
  repeat case_decide.
  - symmetry. destruct (Z.compare_spec (value (reverse a) + m * (x + W * 0)) (value (reverse b) + m * (y + W * 0))); nia.
  - symmetry. destruct (Z.compare_spec (value (reverse a) + m * (x + W * 0)) (value (reverse b) + m * (y + W * 0))); nia.
  - assert (x = y) as -> by lia. rewrite IH by (done || lia).
    rewrite (Z.add_comm (value (reverse a))), (Z.add_comm (value (reverse b))).
    by rewrite Z.add_compare_mono_l.
Qed.

Lemma CompareTo_value a b :
  fit a -> fit b -> length a = length b ->
  CompareTo a b = match value a ?= value b with Lt => -1 | Eq => 0 | Gt => 1 end.
Proof.
  intros Ha Hb Hl. unfold CompareTo.
  rewrite compare_down_value, !reverse_involutive; [done|by apply Forall_reverse..|by rewrite !length_reverse].
Qed.

(** ** The highest bit *)

Definition zbits (n : Z) : Z := if decide (n = 0) then 0 else Z.log2 n + 1.

Lemma land_bit x n : 0 <= n -> Z.land x (Z.shiftl 1 n) <> 0 <-> Z.testbit x n = true.
Proof.
  intros Hn. split.
  - intros H. destruct (Z.testbit x n) eqn:E; [done|]. exfalso. apply H. apply Z.bits_inj'. intros m Hm.
    rewrite Z.land_spec, Z.bits_0, Z.shiftl_spec by done.
    destruct (decide (m = n)) as [->|]; [by rewrite E|].
    destruct (decide (m < n)).
    + rewrite (Z.testbit_neg_r 1) by lia. apply andb_false_r.
    + rewrite (Z.bits_above_log2 1) by (simpl; lia). apply andb_false_r.
  - intros E H. assert (Z.testbit (Z.land x (Z.shiftl 1 n)) n = true) as E'.
    { rewrite Z.land_spec, E, Z.shiftl_spec, Z.sub_diag by done. done. }
    by rewrite H, Z.bits_0 in E'.
Qed.

Lemma top_bit_log n x : 0 < x < 2 ^ (Z.of_nat n + 1) -> top_bit n x = Z.log2 x + 1.
Proof.
  induction n as [|n IH]; intros Hx.
  { assert (x = 1) as -> by (simpl in Hx; lia). done. }
  cbn [top_bit]. destruct (decide (Z.land x (Z.shiftl 1 (Z.of_nat (S n))) <> 0)) as [H|H];
    rewrite land_bit in H by lia.
  - f_equal. symmetry. apply Z.log2_unique; [lia|].
    replace (Z.succ (Z.of_nat (S n))) with (Z.of_nat (S n) + 1) by lia. split; [|lia].
    destruct (decide (2 ^ Z.of_nat (S n) <= x)); [done|].
    rewrite Z.bits_above_log2 in H; [done|lia|]. apply Z.log2_lt_pow2; lia.
  - apply IH. split; [lia|]. destruct (decide (x < 2 ^ (Z.of_nat n + 1))) as [|Hge]; [done|]. exfalso. apply H.
    replace (Z.of_nat (S n)) with (Z.log2 x); [apply Z.bit_log2; lia|].
    apply Z.log2_unique; [lia|]. replace (Z.succ (Z.of_nat (S n))) with (Z.of_nat (S n) + 1) by lia.
    replace (Z.of_nat n + 1) with (Z.of_nat (S n)) in Hge by lia. lia.
Qed.

Lemma take_S_limb n (a : limbs) : (n < length a)%nat -> take (S n) a = take n a ++ [limb a n].
Proof.
  intros H. destruct (lookup_lt_is_Some_2 a n H) as [x E].
  unfold limb. rewrite E. simpl. by apply take_S_r.
Qed.

Lemma limb_fit a n : fit a -> 0 <= limb a n < W.
Proof.
  intros H. unfold limb. destruct (a !! n) as [x|] eqn:E; simpl; [|done].
  by apply (Forall_lookup_1 _ _ _ _ H E).
Qed.

Lemma bitlen_down_value n a :
  fit a -> (n <= length a)%nat -> bitlen_down n a = zbits (value (take n a)).
Proof.
  intros Ha. induction n as [|n IH]; intros Hn; [done|]. cbn [bitlen_down].
  rewrite take_S_limb, value_app by lia. cbn [value]. rewrite length_take, Nat.min_l by lia.
  pose proof (limb_fit a n Ha) as Hx. assert (fit (take n a)) as Hb%value_bound by (by apply Forall_take).
  rewrite length_take, Nat.min_l in Hb by lia.
  destruct (decide (limb a n <> 0)) as [H|H].
  2:{ assert (limb a n = 0) as -> by lia. rewrite IH by lia. f_equal. lia. }
  rewrite top_bit_log by (unfold W in Hx; simpl; lia). unfold zbits.
  set (x := limb a n) in *. set (lo := value (take n a)) in *.
  rewrite Z.mul_0_r, Z.add_0_r. pose proof (Wpow_pos n). rewrite decide_False by nia.
  rewrite Z.add_assoc. f_equal. symmetry.
  assert (W ^ Z.of_nat n = 2 ^ (32 * Z.of_nat n)) as Ew by (unfold W; rewrite <-Z.pow_mul_r by lia; done).
  pose proof (Z.log2_spec x ltac:(lia)) as [L1 L2]. pose proof (Z.log2_nonneg x).
  apply Z.log2_unique; [lia|]. rewrite <-Z.add_succ_r, !Z.pow_add_r, <-Ew by lia. nia.
Qed.

Lemma bitlen_value a : sized a -> bitlen a = zbits (value a).
Proof.
  intros [Hl Ha]. unfold bitlen. rewrite bitlen_down_value by (done || lia).
  by rewrite take_ge by lia.
Qed.

(** ** Bits of the limbs *)

Lemma testbit_high x n : 0 <= x < W -> 32 <= n -> Z.testbit x n = false.
Proof.
  intros Hx Hn. destruct (decide (x = 0)) as [->|]; [apply Z.bits_0|].
  apply Z.bits_above_log2; [lia|]. apply Z.lt_le_trans with 32; [|done].
  apply Z.log2_lt_pow2; unfold W in Hx; lia.
Qed.

Lemma testbit_value a n :
  fit a -> 0 <= n -> Z.testbit (value a) n = Z.testbit (limb a (Z.to_nat (n / 32))) (n mod 32).
Proof.
  intros Ha. revert n. induction Ha as [|x a Hx Ha IH]; intros n Hn.
  { unfold limb. rewrite lookup_nil. simpl. by rewrite !Z.bits_0. }
  cbn [value]. destruct (decide (n < 32)).
  - rewrite Z.div_small, Z.mod_small by lia. simpl. unfold limb. simpl.
    rewrite <-(Z.mod_pow2_bits_low _ 32) by lia.
    change (2 ^ 32) with W. rewrite (Z.mul_comm W), Z_mod_plus_full. by rewrite Z.mod_small.
  - replace n with ((n - 32) + 32) at 1 by lia. rewrite <-Z.div_pow2_bits by lia.
    change (2 ^ 32) with W. rewrite (Z.mul_comm W), Z.div_add, Z.div_small, Z.add_0_l by (done || lia).
    rewrite IH by lia. replace (n - 32) with (n + (-1) * 32) by lia.
    rewrite Z.div_add, Z_mod_plus_full by lia.
    assert (1 <= n / 32) by (apply Z.div_le_lower_bound; lia).
    replace (Z.to_nat (n / 32)) with (S (Z.to_nat (n / 32 + -1))) by lia. done.
Qed.

Lemma fit_of_bits a :
  Forall (fun x => 0 <= x /\ forall n, 32 <= n -> Z.testbit x n = false) a -> fit a.
Proof.
  intros H. eapply Forall_impl; [exact H|]. simpl. intros x [H0 Hb]. split; [done|].
  destruct (decide (x = 0)) as [->|]; [done|]. apply Z.log2_lt_pow2; [lia|].
  destruct (decide (Z.log2 x < 32)); [done|].
  specialize (Hb (Z.log2 x) ltac:(lia)). rewrite Z.bit_log2 in Hb by lia. done.
Qed.

(** ** Shifts

    Both loops only or values into an array of zeroes. *)

Definition or_all (pn : limbs) (cs : list (nat * Z)) : limbs :=
  foldl (fun pn c => or_at pn c.1 c.2) pn cs.

Lemma limb_or_at a i x j :
  (i < length a)%nat -> limb (or_at a i x) j = if decide (i = j) then Z.lor (limb a j) x else limb a j.
Proof.
  intros H. unfold limb, or_at. case_decide as E; [subst; by rewrite list_lookup_insert_eq|].
  by rewrite list_lookup_insert_ne.
Qed.

Lemma or_all_bit pn cs j n :
  Forall (fun c => (c.1 < length pn)%nat) cs ->
  Z.testbit (limb (or_all pn cs) j) n =
    Z.testbit (limb pn j) n || existsb (fun c => bool_decide (c.1 = j) && Z.testbit c.2 n) cs.
Proof.
  unfold or_all. intros H. revert pn H. induction cs as [|[i x] cs IH]; intros pn H.
  { by rewrite orb_false_r. }
  apply Forall_cons in H as [Hi H]. cbn [foldl existsb fst snd]. rewrite IH.
  - rewrite limb_or_at by done. case_decide as E.
    + rewrite bool_decide_true, Z.lor_spec, orb_assoc by done. done.
    + by rewrite bool_decide_false by done.
  - eapply Forall_impl; [exact H|]. unfold or_at. by rewrite length_insert.
Qed.

Lemma or_all_length pn cs : length (or_all pn cs) = length pn.
Proof.
  unfold or_all. revert pn. induction cs as [|c cs IH]; intros pn; [done|].
  simpl. rewrite IH. apply length_insert.
Qed.

Lemma or_all_nonneg pn cs j :
  0 <= limb pn j -> Forall (fun c => (c.1 < length pn)%nat /\ 0 <= c.2) cs -> 0 <= limb (or_all pn cs) j.
Proof.
  unfold or_all. intros Hj H. revert pn Hj H. induction cs as [|[i x] cs IH]; intros pn Hj H; [done|].
  apply Forall_cons in H as [[Hi Hx] H]. apply IH.
  - rewrite limb_or_at by done. case_decide; [|done]. by apply Z.lor_nonneg.
  - eapply Forall_impl; [exact H|]. unfold or_at. by rewrite length_insert.
Qed.

(** The result of such a loop, from what it ors in. *)
Lemma or_all_sized cs :
  Forall (fun c => (c.1 < WIDTH)%nat /\ 0 <= c.2 < W) cs -> sized (or_all (repeat 0 WIDTH) cs).
Proof.
  intros H. split; [by rewrite or_all_length|]. apply fit_of_bits, Forall_lookup_2. intros i x Hi.
  assert (x = limb (or_all (repeat 0 WIDTH) cs) i) as -> by (unfold limb; by rewrite Hi).
  assert (forall j, limb (repeat 0 WIDTH) j = 0) as zero by (intros [|[|[|[|[|[|[|[|j]]]]]]]]; done).
  split.
  - apply or_all_nonneg; [by rewrite zero|]. eapply Forall_impl; [exact H|].
    intros c [H1 H2]. split; [exact H1|lia].
  - intros n Hn. rewrite or_all_bit, zero, Z.bits_0 by (eapply Forall_impl; [exact H|]; intros c [H1 _]; exact H1). simpl.
    apply not_true_iff_false. intros (c & Hc & E)%existsb_exists.
    rewrite Forall_forall in H. destruct (H c) as [_ Hw]; [by apply list_elem_of_In|].
    by rewrite testbit_high, andb_false_r in E.
Qed.

Lemma or_all_value cs n :
  Forall (fun c => (c.1 < WIDTH)%nat /\ 0 <= c.2 < W) cs -> 0 <= n ->
  Z.testbit (value (or_all (repeat 0 WIDTH) cs)) n = true <->
  exists c, c ∈ cs /\ Z.of_nat c.1 = n / 32 /\ Z.testbit c.2 (n mod 32) = true.
Proof.
  intros H Hn. destruct (or_all_sized cs H) as [_ Hf]. rewrite testbit_value by done.
  assert (forall j, limb (repeat 0 WIDTH) j = 0) as zero by (intros [|[|[|[|[|[|[|[|j]]]]]]]]; done).
  rewrite or_all_bit, zero, Z.bits_0 by (eapply Forall_impl; [exact H|]; intros c [H1 _]; exact H1). simpl.
  rewrite existsb_exists. setoid_rewrite list_elem_of_In. setoid_rewrite andb_true_iff.
  setoid_rewrite bool_decide_eq_true. assert (0 <= n / 32) by (apply Z.div_pos; lia).
  split; intros (c & ? & E & ?); exists c; split_and!; try done; lia.
Qed.

Lemma or_all_loop (parts : nat -> list (nat * Z)) (step : limbs -> nat -> limbs) pn l :
  (forall pn i, step pn i = or_all pn (parts i)) -> foldl step pn l = or_all pn (l ≫= parts).
Proof.
  intros Hs. revert pn. induction l as [|i l IH]; intros pn; [done|].
  cbn [foldl]. rewrite IH, Hs, bind_cons. unfold or_all. by rewrite foldl_app.
Qed.

Definition shl_parts (a : limbs) (k : nat) (s : Z) (i : nat) : list (nat * Z) :=
  (if decide (i + k + 1 < WIDTH)%nat then
     if decide (s <> 0) then [((i + k + 1)%nat, Z.shiftr (limb a i) (32 - s))] else [] else []) ++
  (if decide (i + k < WIDTH)%nat then [((i + k)%nat, u32 (Z.shiftl (limb a i) s))] else []).

Lemma shl_parts_ok a shift : 
  shl a shift = or_all (repeat 0 WIDTH) (seq 0 WIDTH ≫= shl_parts a (Z.to_nat (shift / 32)) (shift mod 32)).
Proof.
  unfold shl. apply or_all_loop. intros pn i. unfold shl_parts, or_all. by repeat case_decide.
Qed.

Definition shr_parts (a : limbs) (k : nat) (s : Z) (i : nat) : list (nat * Z) :=
  (if decide (k + 1 <= i)%nat then
     if decide (s <> 0) then [((i - k - 1)%nat, u32 (Z.shiftl (limb a i) (32 - s)))] else [] else []) ++
  (if decide (k <= i)%nat then [((i - k)%nat, Z.shiftr (limb a i) s)] else []).

Lemma shr_parts_ok a shift : 
  shr a shift = or_all (repeat 0 WIDTH) (seq 0 WIDTH ≫= shr_parts a (Z.to_nat (shift / 32)) (shift mod 32)).
Proof.
  unfold shr. apply or_all_loop. intros pn i. unfold shr_parts, or_all. by repeat case_decide.
Qed.

Lemma shiftr_fit x s : 0 <= x < W -> 0 <= s -> 0 <= Z.shiftr x s < W.
Proof.
  intros Hx Hs. rewrite Z.shiftr_div_pow2 by done. pose proof (Z.pow_pos_nonneg 2 s ltac:(lia) Hs).
  split; [apply Z.div_pos; lia|]. apply Z.div_lt_upper_bound; [done|nia].
Qed.

Lemma u32_fit x : 0 <= u32 x < W.
Proof. apply Z.mod_pos_bound. done. Qed.

Lemma u32_bit x n : 0 <= n < 32 -> Z.testbit (u32 x) n = Z.testbit x n.
Proof. intros. unfold u32, W. by rewrite Z.mod_pow2_bits_low by lia. Qed.

(** Which part carries a bit, for a shift of [32 * k + s]. *)
Lemma shl_part_bit a k s c i :
  fit a -> 0 <= s < 32 -> c ∈ shl_parts a k s i ->
  ((c.1 < WIDTH)%nat /\ 0 <= c.2 < W) /\
  forall r, 0 <= r < 32 -> Z.testbit c.2 r = true -> exists r', 0 <= r' < 32 /\
    Z.testbit (limb a i) r' = true /\ 32 * Z.of_nat c.1 + r = 32 * Z.of_nat i + r' + (32 * Z.of_nat k + s).
Proof.
  intros Ha Hs Hc. pose proof (limb_fit a i Ha) as Hx. unfold shl_parts in Hc. apply elem_of_app in Hc.
  repeat case_decide; rewrite ?list_elem_of_singleton, ?elem_of_nil in Hc; destruct Hc as [Hc|Hc]; try done;
    subst c; cbn [fst snd]; (split; [split; [lia|first [apply u32_fit|apply shiftr_fit; [done|lia]]]|]); intros r Hr Hb.
  all: try (rewrite Z.shiftr_spec in Hb by lia; exists (r + (32 - s)); split_and!; [lia| |done|lia];
    destruct (decide (r + (32 - s) < 32)); [lia|rewrite testbit_high in Hb by (done || lia); done]).
  all: rewrite u32_bit, Z.shiftl_spec in Hb by lia; exists (r - s); split_and!; [|lia|done|lia];
    destruct (decide (r < s)); [rewrite Z.testbit_neg_r in Hb by lia; done|lia].
Qed.

Lemma shl_bit_part a k s i r' :
  fit a -> 0 <= s < 32 -> 0 <= r' < 32 -> Z.testbit (limb a i) r' = true ->
  let n := 32 * Z.of_nat i + r' + (32 * Z.of_nat k + s) in
  n < 256 -> exists c, c ∈ shl_parts a k s i /\ Z.of_nat c.1 = n / 32 /\ Z.testbit c.2 (n mod 32) = true.
Proof.
  intros Ha Hs Hr Hb n Hn. unfold n in *. clear n. unfold WIDTH in *.
  destruct (decide (r' + s < 32)) as [Hlow|Hhigh].
  - exists ((i + k)%nat, u32 (Z.shiftl (limb a i) s)).
    assert ((32 * Z.of_nat i + r' + (32 * Z.of_nat k + s)) / 32 = Z.of_nat (i + k)) as ->
      by (symmetry; apply (Z.div_unique_pos _ _ _ (r' + s)); lia).
    assert ((32 * Z.of_nat i + r' + (32 * Z.of_nat k + s)) mod 32 = r' + s) as ->
      by (symmetry; apply (Z.mod_unique_pos _ _ (Z.of_nat (i + k))); lia).
    split_and!; [|done|].
    + unfold shl_parts, WIDTH. apply elem_of_app. right. rewrite decide_True by lia. by left.
    + cbn [snd]. rewrite u32_bit, Z.shiftl_spec by lia. by rewrite Z.add_simpl_r.
  - exists ((i + k + 1)%nat, Z.shiftr (limb a i) (32 - s)).
    assert ((32 * Z.of_nat i + r' + (32 * Z.of_nat k + s)) / 32 = Z.of_nat (i + k + 1)) as ->
      by (symmetry; apply (Z.div_unique_pos _ _ _ (r' + s - 32)); lia).
    assert ((32 * Z.of_nat i + r' + (32 * Z.of_nat k + s)) mod 32 = r' + s - 32) as ->
      by (symmetry; apply (Z.mod_unique_pos _ _ (Z.of_nat (i + k + 1))); lia).
    split_and!; [|done|].
    + unfold shl_parts, WIDTH. apply elem_of_app. left. rewrite !decide_True by lia. by left.
    + cbn [snd]. rewrite Z.shiftr_spec by lia. by replace (r' + s - 32 + (32 - s)) with r' by lia.
Qed.

Lemma limb_bit_value a i r :
  fit a -> 0 <= r < 32 -> Z.testbit (limb a i) r = Z.testbit (value a) (32 * Z.of_nat i + r).
Proof.
  intros Ha Hr. rewrite testbit_value by (done || lia).
  assert ((32 * Z.of_nat i + r) / 32 = Z.of_nat i) as -> by (symmetry; apply (Z.div_unique_pos _ _ _ r); lia).
  assert ((32 * Z.of_nat i + r) mod 32 = r) as -> by (symmetry; apply (Z.mod_unique_pos _ _ (Z.of_nat i)); lia).
  by rewrite Nat2Z.id.
Qed.

Lemma W8 : W ^ Z.of_nat WIDTH = 2 ^ 256.
Proof. done. Qed.

Lemma sized_bound a : sized a -> 0 <= value a < 2 ^ 256.
Proof. intros [Hl Ha]. rewrite <-W8, <-Hl. by apply value_bound. Qed.

Lemma value_bit_limb a n :
  sized a -> 0 <= n -> Z.testbit (value a) n = true -> exists i r,
  i ∈ seq 0 WIDTH /\ 0 <= r < 32 /\ n = 32 * Z.of_nat i + r /\ Z.testbit (limb a i) r = true.
Proof.
  intros Ha Hn Hb. exists (Z.to_nat (n / 32)), (n mod 32).
  pose proof (Z.div_mod n 32 ltac:(lia)). pose proof (Z.mod_pos_bound n 32 ltac:(lia)).
  assert (0 <= n / 32) by (apply Z.div_pos; lia).
  assert (n < 256) as H256.
  { destruct (decide (n < 256)); [done|]. pose proof (sized_bound a Ha).
    destruct (decide (value a = 0)) as [E|]; [by rewrite E, Z.bits_0 in Hb|].
    rewrite Z.bits_above_log2 in Hb; [done|lia|]. apply Z.log2_lt_pow2; [lia|].
    apply Z.lt_le_trans with (2 ^ 256); [lia|]. apply Z.pow_le_mono_r; lia. }
  split_and!; [|lia|lia|lia|].
  - apply elem_of_seq. unfold WIDTH. lia.
  - by rewrite <-testbit_value by (done || apply Ha).
Qed.

Lemma shl_value a shift :
  sized a -> 0 <= shift ->
  value (shl a shift) = (value a * 2 ^ shift) mod 2 ^ 256 /\ sized (shl a shift).
Proof.
  intros Ha Hs. pose proof (Z.div_mod shift 32 ltac:(lia)) as E.
  pose proof (Z.mod_pos_bound shift 32 ltac:(lia)) as Hm.
  assert (0 <= shift / 32) by (apply Z.div_pos; lia).
  rewrite shl_parts_ok. set (k := Z.to_nat (shift / 32)). set (s := shift mod 32) in *.
  assert (shift = 32 * Z.of_nat k + s) as Es by (unfold k; lia).
  assert (Forall (fun c => (c.1 < WIDTH)%nat /\ 0 <= c.2 < W) (seq 0 WIDTH ≫= shl_parts a k s)) as Hall.
  { apply Forall_forall. intros c (i & Hc & Hi)%list_elem_of_bind.
    by apply (shl_part_bit a k s c i (proj2 Ha) Hm Hc). }
  split; [|by apply or_all_sized]. apply Z.bits_inj'. intros n Hn. apply eq_true_iff_eq.
  rewrite or_all_value by done. destruct (decide (n < 256)) as [H256|H256].
  - rewrite Z.mod_pow2_bits_low, Z.mul_pow2_bits by lia. split.
    + intros (c & (i & Hc & Hi)%list_elem_of_bind & Hdiv & Hb).
      destruct (shl_part_bit a k s c i (proj2 Ha) Hm Hc) as [_ Hr].
      destruct (Hr (n mod 32)) as (r' & Hr' & Hb' & En); [by apply Z.mod_pos_bound|done|].
      rewrite limb_bit_value in Hb' by (apply Ha || done).
      pose proof (Z.div_mod n 32 ltac:(lia)). by replace (n - shift) with (32 * Z.of_nat i + r') by lia.
    + intros Hb. destruct (decide (n < shift)); [by rewrite Z.testbit_neg_r in Hb by lia|].
      apply value_bit_limb in Hb as (i & r & Hi & Hr & En & Hb); [|done|lia].
      destruct (shl_bit_part a k s i r (proj2 Ha) Hm Hr Hb) as (c & Hc & Hd & Hbc); [lia|].
      replace (32 * Z.of_nat i + r + (32 * Z.of_nat k + s)) with n in * by lia.
      exists c. split_and!; [|done|done]. apply list_elem_of_bind. by exists i.
  - rewrite Z.mod_pow2_bits_high by lia. split; [|done]. intros (c & Hc & Hd & _).
    rewrite Forall_forall in Hall. destruct (Hall c Hc) as [Hw _]. unfold WIDTH in Hw.
    assert (8 <= n / 32) by (apply Z.div_le_lower_bound; lia). lia.
Qed.

Lemma shr_part_bit a k s c i :
  fit a -> 0 <= s < 32 -> i ∈ seq 0 WIDTH -> c ∈ shr_parts a k s i ->
  ((c.1 < WIDTH)%nat /\ 0 <= c.2 < W) /\
  forall r, 0 <= r < 32 -> Z.testbit c.2 r = true -> exists r', 0 <= r' < 32 /\
    Z.testbit (limb a i) r' = true /\ 32 * Z.of_nat c.1 + r + (32 * Z.of_nat k + s) = 32 * Z.of_nat i + r'.
Proof.
  intros Ha Hs Hi%elem_of_seq Hc. pose proof (limb_fit a i Ha) as Hx. unfold shr_parts in Hc. apply elem_of_app in Hc.
  repeat case_decide; rewrite ?list_elem_of_singleton, ?elem_of_nil in Hc; destruct Hc as [Hc|Hc]; try done;
    subst c; cbn [fst snd]; (split; [split; [lia|first [apply u32_fit|apply shiftr_fit; [done|lia]]]|]); intros r Hr Hb.
  all: try (rewrite Z.shiftr_spec in Hb by lia; exists (r + s); split_and!; [lia| |done|lia];
    destruct (decide (r + s < 32)); [lia|rewrite testbit_high in Hb by (done || lia); done]).
  all: rewrite u32_bit, Z.shiftl_spec in Hb by lia; exists (r - (32 - s)); split_and!; [|lia|done|lia];
    destruct (decide (r < 32 - s)); [rewrite Z.testbit_neg_r in Hb by lia; done|lia].
Qed.

Lemma shr_bit_part a k s i r' n :
  fit a -> 0 <= s < 32 -> 0 <= r' < 32 -> Z.testbit (limb a i) r' = true ->
  n + (32 * Z.of_nat k + s) = 32 * Z.of_nat i + r' -> 0 <= n ->
  exists c, c ∈ shr_parts a k s i /\ Z.of_nat c.1 = n / 32 /\ Z.testbit c.2 (n mod 32) = true.
Proof.
  intros Ha Hs Hr Hb En Hn. destruct (decide (s <= r')) as [Hlow|Hhigh].
  - exists ((i - k)%nat, Z.shiftr (limb a i) s).
    assert (n / 32 = Z.of_nat (i - k)) as -> by (symmetry; apply (Z.div_unique_pos _ _ _ (r' - s)); lia).
    assert (n mod 32 = r' - s) as -> by (symmetry; apply (Z.mod_unique_pos _ _ (Z.of_nat (i - k))); lia).
    split_and!; [|done|].
    + unfold shr_parts. apply elem_of_app. right. rewrite decide_True by lia. by left.
    + cbn [snd]. rewrite Z.shiftr_spec by lia. by replace (r' - s + s) with r' by lia.
  - exists ((i - k - 1)%nat, u32 (Z.shiftl (limb a i) (32 - s))).
    assert (n / 32 = Z.of_nat (i - k - 1)) as -> by (symmetry; apply (Z.div_unique_pos _ _ _ (r' - s + 32)); lia).
    assert (n mod 32 = r' - s + 32) as -> by (symmetry; apply (Z.mod_unique_pos _ _ (Z.of_nat (i - k - 1))); lia).
    split_and!; [|done|].
    + unfold shr_parts. apply elem_of_app. left. rewrite !decide_True by lia. by left.
    + cbn [snd]. rewrite u32_bit, Z.shiftl_spec by lia. by replace (r' - s + 32 - (32 - s)) with r' by lia.
Qed.

Lemma shr_value a shift :
  sized a -> 0 <= shift -> value (shr a shift) = value a / 2 ^ shift /\ sized (shr a shift).
Proof.
  intros Ha Hs. pose proof (Z.div_mod shift 32 ltac:(lia)) as E.
  pose proof (Z.mod_pos_bound shift 32 ltac:(lia)) as Hm.
  assert (0 <= shift / 32) by (apply Z.div_pos; lia).
  rewrite shr_parts_ok. set (k := Z.to_nat (shift / 32)). set (s := shift mod 32) in *.
  assert (shift = 32 * Z.of_nat k + s) as Es by (unfold k; lia).
  assert (Forall (fun c => (c.1 < WIDTH)%nat /\ 0 <= c.2 < W) (seq 0 WIDTH ≫= shr_parts a k s)) as Hall.
  { apply Forall_forall. intros c (i & Hc & Hi)%list_elem_of_bind.
    by apply (shr_part_bit a k s c i (proj2 Ha) Hm Hi Hc). }
  split; [|by apply or_all_sized]. apply Z.bits_inj'. intros n Hn. apply eq_true_iff_eq.
  rewrite or_all_value, Z.div_pow2_bits by (done || lia). split.
  - intros (c & (i & Hc & Hi)%list_elem_of_bind & Hdiv & Hb).
    destruct (shr_part_bit a k s c i (proj2 Ha) Hm Hi Hc) as [_ Hr].
    destruct (Hr (n mod 32)) as (r' & Hr' & Hb' & En); [by apply Z.mod_pos_bound|done|].
    rewrite limb_bit_value in Hb' by (apply Ha || done).
    pose proof (Z.div_mod n 32 ltac:(lia)). by replace (n + shift) with (32 * Z.of_nat i + r') by lia.
  - intros Hb. apply value_bit_limb in Hb as (i & r & Hi & Hr & En & Hb); [|done|lia].
    destruct (shr_bit_part a k s i r n (proj2 Ha) Hm Hr Hb) as (c & Hc & Hd & Hbc); [lia|done|].
    exists c. split_and!; [|done|done]. apply list_elem_of_bind. by exists i.
Qed.

(** ** The operations on eight limbs *)

Lemma add_value a b :
  sized a -> sized b -> value (add a b) = (value a + value b) mod 2 ^ 256 /\ sized (add a b).
Proof.
  intros [La Ha] [Lb Hb]. destruct (add_loop_value 0 a b) as (E & Hf & Hl); [done|done|congruence|lia|].
  unfold add. rewrite E, La, W8. split; [f_equal; lia|]. split; [congruence|done].
Qed.

Lemma neg_sized a : sized a -> value (neg a) = (- value a) mod 2 ^ 256 /\ sized (neg a).
Proof.
  intros [La Ha]. destruct (neg_value a Ha) as (E & Hf & Hl). rewrite La, W8 in *. by split; [|split].
Qed.

Lemma sub_value a b :
  sized a -> sized b -> value (sub a b) = (value a - value b) mod 2 ^ 256 /\ sized (sub a b).
Proof.
  intros Ha Hb. destruct (neg_sized b Hb) as [E Hn]. destruct (add_value a (neg b) Ha Hn) as [E' H].
  unfold sub. rewrite E', E, Zplus_mod_idemp_r. split; [f_equal; lia|done].
Qed.

Lemma mul32_value a b :
  sized a -> 0 <= b < W -> value (mul32 a b) = (value a * b) mod 2 ^ 256 /\ sized (mul32 a b).
Proof.
  intros [La Ha] Hb. destruct (mul32_loop_value 0 b a) as (E & Hf & Hl); [done|done|done|].
  unfold mul32. rewrite E, La, W8. split; [f_equal; lia|]. split; [congruence|done].
Qed.

Lemma zeroes_sized : sized (repeat 0 WIDTH).
Proof. split; [done|]. by repeat constructor. Qed.

Lemma mul_value a b :
  sized a -> sized b -> value (mul a b) = (value a * value b) mod 2 ^ 256 /\ sized (mul a b).
Proof.
  intros [La Ha] [Lb Hb]. destruct zeroes_sized as [_ Hz].
  destruct (mul_rows_value a b (repeat 0 WIDTH)) as (E & Hf & Hl); [done..|by rewrite Lb|].
  unfold mul. rewrite E. change (value (repeat 0 WIDTH)) with 0. split; [f_equal; lia|]. split; [exact Hl|done].
Qed.

Lemma compare_value a b :
  sized a -> sized b ->
  CompareTo a b = match value a ?= value b with Lt => -1 | Eq => 0 | Gt => 1 end.
Proof. intros [La Ha] [Lb Hb]. apply CompareTo_value; [done|done|congruence]. Qed.

Lemma of_uint64_value b : 0 <= b < 2 ^ 64 -> value (of_uint64 b) = b /\ sized (of_uint64 b).
Proof.
  intros Hb. unfold of_uint64. cbn [value repeat]. rewrite shiftr_high. unfold u32.
  assert (b / W < W) by (apply Z.div_lt_upper_bound; [done|unfold W; lia]).
  assert (0 <= b / W) by (apply Z.div_pos; [lia|done]).
  rewrite (Z.mod_small (b / W)) by lia. pose proof (Z.div_mod b W ltac:(done)).
  split; [lia|]. split; [done|].
  repeat (constructor; [first [apply Z.mod_pos_bound; done | done | lia]|]). constructor.
Qed.

(** ** Division *)

Lemma or_at_value pn n :
  sized pn -> (n < 256)%nat ->
  value (or_at pn (n / 32) (Z.shiftl 1 (Z.of_nat (n mod 32)))) = Z.lor (value pn) (2 ^ Z.of_nat n) /\
  sized (or_at pn (n / 32) (Z.shiftl 1 (Z.of_nat (n mod 32)))).
Proof.
  intros [Lp Hp] Hn. pose proof (Nat.mod_upper_bound n 32 ltac:(lia)).
  pose proof (Nat.div_mod n 32 ltac:(lia)). assert (n / 32 < WIDTH)%nat by (unfold WIDTH; lia).
  set (x := Z.shiftl 1 (Z.of_nat (n mod 32))).
  assert (0 <= x < W) as Hx.
  { unfold x. rewrite Z.shiftl_mul_pow2, Z.mul_1_l by lia.
    split; [apply Z.pow_nonneg; lia|]. unfold W. apply Z.pow_lt_mono_r; lia. }
  assert (fit (or_at pn (n / 32) x)) as Hf.
  { unfold or_at. apply Forall_insert; [done|]. pose proof (limb_fit pn (n / 32) Hp) as Hl.
    assert (fit [Z.lor (limb pn (n / 32)) x]) as Hor; [|by inversion Hor].
    apply fit_of_bits, Forall_singleton. split; [apply Z.lor_nonneg; lia|].
    intros m Hm. by rewrite Z.lor_spec, !testbit_high by (done || lia). }
  split; [|split; [unfold or_at; by rewrite length_insert|done]].
  apply Z.bits_inj'. intros m Hm. rewrite Z.lor_spec, !testbit_value by done.
  rewrite limb_or_at by lia. assert (0 <= m / 32) by (apply Z.div_pos; lia).
  pose proof (Z.div_mod m 32 ltac:(lia)). pose proof (Z.mod_pos_bound m 32 ltac:(lia)).
  rewrite Z.pow2_bits_eqb by lia. case_decide as E.
  - rewrite Z.lor_spec. f_equal. unfold x. rewrite Z.shiftl_mul_pow2, Z.mul_1_l, Z.pow2_bits_eqb by lia.
    apply eq_true_iff_eq. rewrite !Z.eqb_eq. lia.
  - replace (Z.of_nat n =? m) with false; [by rewrite orb_false_r|]. symmetry. apply Z.eqb_neq. lia.
Qed.

Lemma lor_free x n : 0 <= n -> Z.lor (2 ^ (n + 1) * x) (2 ^ n) = 2 ^ (n + 1) * x + 2 ^ n.
Proof.
  intros Hn. set (a := 2 ^ (n + 1) * x). assert (Z.land a (2 ^ n) = 0) as E.
  { apply Z.bits_inj'. intros m Hm. rewrite Z.land_spec, Z.bits_0, Z.pow2_bits_eqb by lia.
    destruct (Z.eqb_spec n m) as [<-|]; [|apply andb_false_r].
    unfold a. by rewrite Z.mul_comm, Z.mul_pow2_bits_low by lia. }
  rewrite (Z.add_nocarry_lxor a) by done. symmetry. by apply Z.lxor_lor.
Qed.

(** One turn moves a power of two from the numerator to the quotient, or
    nothing. *)
Lemma div_turn_value n num dv pn B :
  sized num -> sized dv -> sized pn -> 0 < B -> (n < 256)%nat ->
  value dv = B * 2 ^ Z.of_nat n -> value num < B * 2 ^ (Z.of_nat n + 1) ->
  (exists q, value pn = 2 ^ (Z.of_nat n + 1) * q) ->
  let '(num', pn') := div_turn n num dv pn in
  sized num' /\ sized pn' /\ value num' < B * 2 ^ Z.of_nat n /\
  (exists q, value pn' = 2 ^ Z.of_nat n * q) /\
  value pn' + value num' / B = value pn + value num / B.
Proof.
  intros Hnum Hdv Hpn HB Hn Ed Hlt [q Hq]. unfold div_turn.
  pose proof (Z.pow_pos_nonneg 2 (Z.of_nat n) ltac:(lia) ltac:(lia)).
  pose proof (sized_bound _ Hnum). pose proof (sized_bound _ Hdv).
  destruct (or_at_value pn n Hpn Hn) as [Eo Ho]. rewrite Hq, lor_free in Eo by lia.
  destruct (sub_value num dv Hnum Hdv) as [Es Hs].
  rewrite Z.pow_add_r in Hlt, Hq, Eo by lia. change (2 ^ 1) with 2 in *.
  rewrite compare_value by done.
  destruct (Z.compare_spec (value num) (value dv)).
  2:{ rewrite decide_False by lia. split_and!; [done|done|lia| |done]. exists (2 * q). lia. }
  all: rewrite decide_True by lia; rewrite Z.mod_small in Es by lia;
    split_and!; [done|done|lia|exists (2 * q + 1); rewrite Eo; ring|];
    replace (value num) with (value (sub num dv) + 2 ^ Z.of_nat n * B) by lia;
    rewrite Z.div_add, Eo, Hq by lia; lia.
Qed.

Lemma div_loop_value n num dv pn B :
  sized num -> sized dv -> sized pn -> 0 < B -> (n < 256)%nat ->
  value dv = B * 2 ^ Z.of_nat n -> value num < B * 2 ^ (Z.of_nat n + 1) ->
  (exists q, value pn = 2 ^ (Z.of_nat n + 1) * q) ->
  value (div_loop n num dv pn) = value pn + value num / B /\ sized (div_loop n num dv pn).
Proof.
  revert num dv pn. induction n as [|n IH]; intros num dv pn Hnum Hdv Hpn HB Hn Ed Hlt Hq.
  all: pose proof (div_turn_value _ num dv pn B Hnum Hdv Hpn HB Hn Ed Hlt Hq) as T; cbn [div_loop];
    destruct (div_turn _ num dv pn) as [num' pn']; destruct T as (Hn' & Hp' & Hlt' & Hq' & E).
  - rewrite <-E. pose proof (sized_bound _ Hn'). rewrite (Z.div_small (value num')) by (simpl in Hlt'; lia).
    split; [lia|done].
  - rewrite <-E. replace (Z.of_nat (S n)) with (Z.of_nat n + 1) in * by lia.
    destruct (shr_value dv 1 Hdv ltac:(lia)) as [Er Hr].
    apply IH; try done; [lia|]. rewrite Er, Ed, Z.pow_add_r, Z.mul_assoc by lia.
    by rewrite Z.div_mul by done.
Qed.

Lemma zbits_spec n : 0 < n -> 2 ^ (zbits n - 1) <= n < 2 ^ zbits n.
Proof.
  intros Hn. unfold zbits. rewrite decide_False by lia. rewrite Z.add_simpl_r, Z.add_1_r.
  by apply Z.log2_spec.
Qed.

Lemma zbits_range n : 0 <= n < 2 ^ 256 -> 0 <= zbits n <= 256.
Proof.
  intros Hn. unfold zbits. case_decide; [lia|]. pose proof (Z.log2_nonneg n).
  assert (Z.log2 n < 256) by (apply Z.log2_lt_pow2; lia). lia.
Qed.

Lemma div_value a b :
  sized a -> sized b ->
  if decide (value b = 0) then div a b = Err (Thrown "Division by zero")
  else exists q, div a b = Ok q /\ value q = value a / value b /\ sized q.
Proof.
  intros Ha Hb. unfold div. rewrite !bitlen_value by done.
  pose proof (sized_bound a Ha) as Ba. pose proof (sized_bound b Hb) as Bb.
  case_decide as E. { rewrite E. by rewrite decide_True. }
  pose proof (zbits_spec (value b) ltac:(lia)) as Sb. pose proof (zbits_range _ Bb). pose proof (zbits_range _ Ba).
  assert (zbits (value b) <> 0) as Nz by (unfold zbits; rewrite decide_False by done; pose proof (Z.log2_nonneg (value b)); lia).
  rewrite decide_False by done. destruct (of_uint64_value 0 ltac:(lia)) as [E0 S0].
  destruct (decide (value a = 0)) as [Ea|Na].
  { rewrite Ea. change (zbits 0) with 0. rewrite decide_True by lia. eexists. by split_and!. }
  pose proof (zbits_spec (value a) ltac:(lia)) as Sa.
  case_decide as Hlt.
  - eexists. split_and!; [done| |done]. rewrite E0, Z.div_small; [done|]. split; [lia|].
    apply Z.lt_le_trans with (2 ^ zbits (value a)); [lia|].
    apply Z.le_trans with (2 ^ (zbits (value b) - 1)); [|lia]. apply Z.pow_le_mono_r; lia.
  - set (shift := zbits (value a) - zbits (value b)).
    destruct (shl_value b shift Hb ltac:(lia)) as [Es Ss].
    assert (value b * 2 ^ shift < 2 ^ 256) as Hfit.
    { apply Z.lt_le_trans with (2 ^ zbits (value b) * 2 ^ shift); [apply Z.mul_lt_mono_pos_r; [apply Z.pow_pos_nonneg; lia|lia]|].
      rewrite <-Z.pow_add_r by lia. apply Z.pow_le_mono_r; lia. }
    pose proof (Z.pow_pos_nonneg 2 shift ltac:(lia) ltac:(lia)).
    rewrite Z.mod_small in Es by nia.
    destruct (div_loop_value (Z.to_nat shift) a (shl b shift) (of_uint64 0) (value b)) as [Eq Sq];
      rewrite ?Z2Nat.id by lia; try done; [lia|lia| |exists 0; by rewrite Z.mul_0_r|].
    { apply Z.lt_le_trans with (2 ^ zbits (value a)); [lia|].
      replace (zbits (value a)) with ((zbits (value b) - 1) + (shift + 1)) by lia.
      rewrite Z.pow_add_r by lia. apply Z.mul_le_mono_nonneg_r; [apply Z.pow_nonneg; lia|lia]. }
    eexists. split_and!; [done| |done]. by rewrite Eq, E0.
Qed.

Lemma EqualTo_value a b :
  sized a -> 0 <= b < 2 ^ 64 -> EqualTo a b = bool_decide (value a = b).
Proof.
  intros [La Ha] Hb. unfold EqualTo. destruct a as [|x0 [|x1 a]]; [done..|].
  apply Forall_cons in Ha as [H0 Ha]. apply Forall_cons in Ha as [H1 Ha].
  change (drop 2 (x0 :: x1 :: a)) with a. change (limb (x0 :: x1 :: a) 1) with x1.
  change (limb (x0 :: x1 :: a) 0) with x0. cbn [value].
  rewrite land_low, shiftr_high. pose proof (value_bound a Ha) as Hv.
  pose proof (Z.div_mod b W ltac:(done)) as E. pose proof (Z.mod_pos_bound b W W_pos).
  assert (forallb (fun x => bool_decide (x = 0)) a = bool_decide (value a = 0)) as ->.
  { clear -Ha. induction Ha as [|x a Hx Ha IH]; [done|]. cbn [forallb value]. rewrite IH.
    pose proof (value_bound a Ha). pose proof W_pos. rewrite <-bool_decide_and. apply bool_decide_ext. nia. }
  rewrite <-!bool_decide_and. apply bool_decide_ext. split.
  - intros [[-> ->] ->]. lia.
  - intros Ev. assert (b / W < W) by (apply Z.div_lt_upper_bound; [done|unfold W; lia]).
    assert (0 <= b / W) by (apply Z.div_pos; [lia|done]).
    assert (x0 + W * (x1 + W * value a) = b) as Ev' by done. clear Ev.
    assert (x0 = b mod W) as -> by (apply (Z.mod_unique_pos _ _ (x1 + W * value a)); lia).
    assert (x1 + W * value a = b / W) as E1 by nia.
    assert (value a = 0) as E0 by nia. rewrite E0 in E1. split_and!; [done|lia|done].
Qed.

(** C17: the limbs compute modulo 2^256.  Every operation of [arith_uint256] on
    eight 32-bit limbs, with its loops, carries and in-place updates, is the
    operation of the integers modulo 2^256: sum, difference and both products,
    both shifts, comparison, the bit length, and the shift-and-subtract
    division, which is exact and throws on zero alone. *)
Theorem arith_refines (a b : limbs) (n shift : Z) :
  sized a -> sized b -> 0 <= n < 2 ^ 32 -> 0 <= shift ->
  value (add a b) = (value a + value b) mod 2 ^ 256 /\
  value (sub a b) = (value a - value b) mod 2 ^ 256 /\
  value (mul32 a n) = (value a * n) mod 2 ^ 256 /\
  value (mul a b) = (value a * value b) mod 2 ^ 256 /\
  value (shl a shift) = (value a * 2 ^ shift) mod 2 ^ 256 /\
  value (shr a shift) = value a / 2 ^ shift /\
  (CompareTo a b < 0 <-> value a < value b) /\ (CompareTo a b = 0 <-> value a = value b) /\
  (0 < value a -> 2 ^ (bitlen a - 1) <= value a < 2 ^ bitlen a) /\
  (value b = 0 -> div a b = Err (Thrown "Division by zero")) /\
  (value b <> 0 -> exists q, div a b = Ok q /\ value q = value a / value b).
Proof.
  intros Ha Hb Hn Hs. pose proof (div_value a b Ha Hb) as D.
  rewrite compare_value, bitlen_value by done.
  split_and!; try by (apply add_value || apply sub_value || apply mul32_value || apply mul_value ||
    apply shl_value || apply shr_value).
  - destruct (Z.compare_spec (value a) (value b)); lia.
  - destruct (Z.compare_spec (value a) (value b)); lia.
  - apply zbits_spec.
  - intros E. by rewrite decide_True in D.
  - intros E. rewrite decide_False in D by done. destruct D as (q & ? & ? & _). by exists q.
Qed.

Lemma arith_refines_witness :
  let a := of_uint64 1000000007 in let b := of_uint64 12345 in
  sized a /\ sized b /\
  exists q, div a b = Ok q /\ value q = value a / value b.
Proof.
  intros a b. assert (sized a) as Ha by (apply of_uint64_value; lia).
  assert (sized b) as Hb by (apply of_uint64_value; lia).
  split; [exact Ha|]. split; [exact Hb|].
  pose proof (arith_refines a b 7 40 Ha Hb ltac:(lia) ltac:(lia)) as H.
  apply H. vm_compute. discriminate.
Defined.
