(* ===== verification/Compact.v ===== *)
(** * The node: the compact format of targets

    [SetCompact] and [GetCompact] of arith_uint256.cpp: a 32-bit word holds a
    mantissa of 23 bits, a sign and an exponent of base 256.  The theorems say
    which number a word stands for, when the flags are set, and that writing a
    number as a word rounds it down, monotonically and only once. *)

From Stdlib Require Import ZArith Lia.
From stdpp Require Import base tactics strings numbers list.
From S2P Require Import NodeBase Arith256.

Open Scope Z_scope.

(** The number a word stands for, its sign aside. *)
Definition compact_of (c : Z) : Z :=
  let size := c / 2 ^ 24 in
  let word := c mod 2 ^ 23 in
  if decide (size <= 3) then word / 256 ^ (3 - size) else word * 256 ^ (size - 3).

(** Rounding down to a mantissa of 23 bits: the bytes dropped, and the result. *)
Definition dropped (x : Z) : Z := Z.max 0 (zbits x / 8 - 2).
Definition compact_round (x : Z) : Z := x / 256 ^ dropped x * 256 ^ dropped x.

Lemma pow256 n : 0 <= n -> 256 ^ n = 2 ^ (8 * n).
Proof. intros. rewrite Z.pow_mul_r by lia. done. Qed.

Lemma word_bits c : Z.land c 0x007fffff = c mod 2 ^ 23.
Proof. change 0x007fffff with (Z.ones 23). by rewrite Z.land_ones. Qed.

Lemma size_bits c : Z.shiftr c 24 = c / 2 ^ 24.
Proof. by rewrite Z.shiftr_div_pow2. Qed.

Lemma sign_bit c : Z.land c 0x00800000 <> 0 <-> Z.testbit c 23 = true.
Proof. change 0x00800000 with (Z.shiftl 1 23). by apply land_bit. Qed.

Lemma compact_range c : 0 <= c < 2 ^ 32 -> 0 <= c / 2 ^ 24 < 256 /\ 0 <= c mod 2 ^ 23 < 2 ^ 23.
Proof.
  intros Hc. split; [|by apply Z.mod_pos_bound].
  split; [apply Z.div_pos; lia|]. apply Z.div_lt_upper_bound; lia.
Qed.

Lemma overflow_bits size w :
  3 < size -> 0 <= w < 2 ^ 23 ->
  (negb (bool_decide (w = 0)) &&
     (bool_decide (34 < size) ||
      (bool_decide (0xff < w) && bool_decide (33 < size)) ||
      (bool_decide (0xffff < w) && bool_decide (32 < size))) = true <->
   2 ^ 256 <= w * 2 ^ (8 * (size - 3))).
Proof.
  intros Hs Hw.
  rewrite andb_true_iff, !orb_true_iff, !andb_true_iff, negb_true_iff, !bool_decide_eq_true, bool_decide_eq_false.
  destruct (decide (34 < size)).
  { pose proof (Z.pow_le_mono_r 2 256 (8 * (size - 3)) ltac:(lia) ltac:(lia)). nia. }
  destruct (decide (size = 34)) as [->|]; [change (8 * (34 - 3)) with 248; lia|].
  destruct (decide (size = 33)) as [->|]; [change (8 * (33 - 3)) with 240; lia|].
  pose proof (Z.pow_le_mono_r 2 (8 * (size - 3)) 232 ltac:(lia) ltac:(lia)).
  pose proof (Z.pow_pos_nonneg 2 (8 * (size - 3)) ltac:(lia) ltac:(lia)).
  split; [lia|]. intros. exfalso. assert (w * 2 ^ (8 * (size - 3)) < 2 ^ 23 * 2 ^ 232) by nia.
  change (2 ^ 23 * 2 ^ 232) with (2 ^ 255) in *. lia.
Qed.

Lemma set_compact c :
  0 <= c < 2 ^ 32 -> exists n neg over,
  SetCompact c = (n, neg, over) /\ sized n /\ value n = compact_of c mod 2 ^ 256 /\
  (neg = true <-> compact_of c <> 0 /\ Z.testbit c 23 = true) /\
  (over = true <-> 2 ^ 256 <= compact_of c).
Proof.
  intros Hc. destruct (compact_range c Hc) as [Hs Hw]. unfold SetCompact, compact_of.
  rewrite word_bits, size_bits. set (size := c / 2 ^ 24) in *. set (w := c mod 2 ^ 23) in *.
  assert (forall x, negb (bool_decide (x = 0)) && negb (bool_decide (Z.land c 0x00800000 = 0)) = true <->
    x <> 0 /\ Z.testbit c 23 = true) as sign.
  { intros x. rewrite andb_true_iff, !negb_true_iff, !bool_decide_eq_false. by rewrite <-sign_bit. }
  destruct (decide (size <= 3)) as [H3|H3]; eexists _, _, _; (split; [done|]).
  - rewrite Z.shiftr_div_pow2, pow256 by lia. set (x := w / 2 ^ (8 * (3 - size))).
    pose proof (Z.pow_pos_nonneg 2 (8 * (3 - size)) ltac:(lia) ltac:(lia)).
    assert (0 <= x < 2 ^ 23) as Hx.
    { unfold x. split; [apply Z.div_pos; lia|]. apply Z.div_lt_upper_bound; [done|nia]. }
    destruct (of_uint64_value x ltac:(lia)) as [E S]. split; [done|].
    split; [rewrite E, Z.mod_small by lia; done|]. split; [apply sign|].
    rewrite (bool_decide_false (34 < size)), (bool_decide_false (33 < size)), (bool_decide_false (32 < size)) by lia.
    rewrite !andb_false_r. split; [done|lia].
  - destruct (of_uint64_value w ltac:(lia)) as [E S].
    destruct (shl_value (of_uint64 w) (8 * (size - 3)) S ltac:(lia)) as [E' S'].
    rewrite pow256 by lia. pose proof (Z.pow_pos_nonneg 2 (8 * (size - 3)) ltac:(lia) ltac:(lia)) as Hp.
    split; [done|]. split; [by rewrite E', E|]. split; [|apply overflow_bits; lia].
    rewrite sign. assert (w <> 0 <-> w * 2 ^ (8 * (size - 3)) <> 0) by nia. tauto.
Qed.

(** ** Writing a number as a word *)

Lemma lor_size m s : 0 <= m < 2 ^ 24 -> 0 <= s -> Z.lor m (Z.shiftl s 24) = m + s * 2 ^ 24.
Proof.
  intros Hm Hs. rewrite Z.shiftl_mul_pow2 by done. assert (Z.land m (s * 2 ^ 24) = 0) as E.
  { apply Z.bits_inj'. intros n Hn. rewrite Z.land_spec, Z.bits_0, Z.mul_pow2_bits by lia.
    destruct (decide (n < 24)); [rewrite (Z.testbit_neg_r s) by lia; apply andb_false_r|].
    destruct (decide (m = 0)) as [->|]; [by rewrite Z.bits_0|].
    rewrite (Z.bits_above_log2 m); [done|lia|].
    apply Z.lt_le_trans with 24; [apply Z.log2_lt_pow2; lia|lia]. }
  rewrite (Z.add_nocarry_lxor m) by done. symmetry. by apply Z.lxor_lor.
Qed.

Lemma word_parts m s :
  0 <= m < 2 ^ 23 -> (m + s * 2 ^ 24) / 2 ^ 24 = s /\ (m + s * 2 ^ 24) mod 2 ^ 23 = m /\
  Z.testbit (m + s * 2 ^ 24) 23 = false.
Proof.
  intros Hm. split_and!.
  - rewrite Z.div_add, Z.div_small by lia. lia.
  - replace (s * 2 ^ 24) with (2 * s * 2 ^ 23) by lia. rewrite Z_mod_plus_full. apply Z.mod_small. lia.
  - rewrite Z.testbit_false by lia. replace (m + s * 2 ^ 24) with (m + (2 * s) * 2 ^ 23) by lia.
    rewrite Z.div_add, Z.div_small, Z.add_0_l by lia. rewrite Z.mul_comm. apply Z.mod_mul. done.
Qed.

(** The mantissa before the sign bit is cleared: exactly [zbits x - 8 * (s - 3)]
    bits, where [s] is the number of bytes. *)
Definition mantissa (x : Z) : Z :=
  let s := (zbits x + 7) / 8 in
  if decide (s <= 3) then x * 256 ^ (3 - s) else x / 256 ^ (s - 3).

Lemma mantissa_range x :
  0 < x -> let s := (zbits x + 7) / 8 in
  2 ^ (zbits x - 1 - 8 * (s - 3)) <= mantissa x < 2 ^ (zbits x - 8 * (s - 3)).
Proof.
  intros Hx s. pose proof (zbits_spec x Hx) as [L U]. unfold mantissa. fold s.
  assert (0 < zbits x) by (unfold zbits; rewrite decide_False by lia; pose proof (Z.log2_nonneg x); lia).
  assert (8 * s <= zbits x + 7 < 8 * s + 8) by (pose proof (Z.div_mod (zbits x + 7) 8 ltac:(lia));
    pose proof (Z.mod_pos_bound (zbits x + 7) 8 ltac:(lia)); lia).
  case_decide.
  - rewrite pow256 by lia. pose proof (Z.pow_pos_nonneg 2 (8 * (3 - s)) ltac:(lia) ltac:(lia)).
    replace (zbits x - 1 - 8 * (s - 3)) with ((zbits x - 1) + 8 * (3 - s)) by lia.
    replace (zbits x - 8 * (s - 3)) with (zbits x + 8 * (3 - s)) by lia.
    rewrite !Z.pow_add_r by lia. nia.
  - rewrite pow256 by lia. set (d := 8 * (s - 3)) in *.
    pose proof (Z.pow_pos_nonneg 2 d ltac:(lia) ltac:(lia)). split.
    + apply Z.div_le_lower_bound; [done|]. rewrite <-Z.pow_add_r by lia.
      by replace (d + (zbits x - 1 - d)) with (zbits x - 1) by lia.
    + apply Z.div_lt_upper_bound; [done|]. rewrite <-Z.pow_add_r by lia.
      by replace (d + (zbits x - d)) with (zbits x) by lia.
Qed.

Lemma GetLow64_value a : sized a -> GetLow64 a = value a mod 2 ^ 64.
Proof.
  intros [La Ha]. destruct a as [|x0 [|x1 a]]; [done..|].
  apply Forall_cons in Ha as [H0 Ha]. apply Forall_cons in Ha as [H1 Ha].
  unfold GetLow64. change (limb (x0 :: x1 :: a) 1) with x1. change (limb (x0 :: x1 :: a) 0) with x0.
  cbn [value]. replace (x0 + W * (x1 + W * value a)) with (x0 + W * x1 + value a * 2 ^ 64) by (unfold W; lia).
  rewrite Z_mod_plus_full. unfold W in *. rewrite Z.mod_small by lia.
  rewrite Z.shiftl_mul_pow2 by done. assert (Z.land x0 (x1 * 2 ^ 32) = 0) as E.
  { apply Z.bits_inj'. intros n Hn. rewrite Z.land_spec, Z.bits_0, Z.mul_pow2_bits by lia.
    destruct (decide (n < 32)); [rewrite (Z.testbit_neg_r x1) by lia; apply andb_false_r|].
    by rewrite testbit_high by (done || lia). }
  rewrite <-Z.lxor_lor, <-Z.add_nocarry_lxor by done. lia.
Qed.

Lemma mantissa_bound x : 0 <= x -> 0 <= mantissa x < 2 ^ 24.
Proof.
  intros Hx. destruct (decide (x = 0)) as [->|Hn]; [done|].
  pose proof (mantissa_range x ltac:(lia)) as [L U]. simpl in L, U.
  pose proof (Z.div_mod (zbits x + 7) 8 ltac:(lia)). pose proof (Z.mod_pos_bound (zbits x + 7) 8 ltac:(lia)).
  set (s := (zbits x + 7) / 8) in *. split.
  - apply Z.le_trans with (2 ^ (zbits x - 1 - 8 * (s - 3))); [apply Z.pow_nonneg; lia|done].
  - apply Z.lt_le_trans with (2 ^ (zbits x - 8 * (s - 3))); [done|]. apply Z.pow_le_mono_r; lia.
Qed.

(** The sign bit is in the way exactly when the bytes are full. *)
Lemma mantissa_sign x :
  0 < x -> (2 ^ 23 <= mantissa x <-> zbits x = 8 * ((zbits x + 7) / 8)).
Proof.
  intros Hx. pose proof (mantissa_range x Hx) as [L U]. simpl in L, U.
  pose proof (Z.div_mod (zbits x + 7) 8 ltac:(lia)). pose proof (Z.mod_pos_bound (zbits x + 7) 8 ltac:(lia)).
  set (s := (zbits x + 7) / 8) in *. split; intros H'.
  - destruct (decide (zbits x = 8 * s)); [done|].
    pose proof (Z.pow_le_mono_r 2 (zbits x - 8 * (s - 3)) 23 ltac:(lia) ltac:(lia)). lia.
  - replace (zbits x - 1 - 8 * (s - 3)) with 23 in L by lia. done.
Qed.

Definition written_word (x : Z) : Z :=
  let s := (zbits x + 7) / 8 in
  if decide (2 ^ 23 <= mantissa x) then mantissa x / 256 + (s + 1) * 2 ^ 24 else mantissa x + s * 2 ^ 24.

Lemma get_compact a : sized a -> GetCompact a = Ok (written_word (value a)).
Proof.
  intros Ha. unfold GetCompact. rewrite bitlen_value by done. pose proof (sized_bound a Ha) as Hx.
  pose proof (zbits_range _ Hx) as Hz. rewrite Z.quot_div_nonneg by lia.
  set (x := value a) in *. set (s := (zbits x + 7) / 8) in *.
  assert (0 <= s <= 32) as Hs by (unfold s; split; [apply Z.div_pos; lia|apply Z.lt_succ_r, Z.div_lt_upper_bound; lia]).
  pose proof (mantissa_bound x ltac:(lia)) as Hm.
  assert ((if decide (s <= 3) then u32 (u64 (Z.shiftl (GetLow64 a) (8 * (3 - s))))
           else u32 (GetLow64 (shr a (8 * (s - 3))))) = mantissa x) as ->.
  { unfold mantissa in *. fold s in Hm |- *. case_decide as H3.
    - assert (x < 2 ^ 24).
      { rewrite pow256 in Hm by lia. pose proof (Z.pow_pos_nonneg 2 (8 * (3 - s)) ltac:(lia) ltac:(lia)). nia. }
      rewrite GetLow64_value, (Z.mod_small (value a)) by (done || (fold x; lia)). fold x.
      rewrite Z.shiftl_mul_pow2, <-pow256 by lia. unfold u64, u32, W.
      rewrite (Z.mod_small _ (2 ^ 64)), Z.mod_small by lia. done.
    - destruct (shr_value a (8 * (s - 3)) Ha ltac:(lia)) as [E S]. fold x in E. rewrite <-pow256 in E by lia.
      rewrite GetLow64_value, E, (Z.mod_small _ (2 ^ 64)) by (done || lia). unfold u32, W. by rewrite Z.mod_small by lia. }
  assert (forall m, 0 <= m < 2 ^ 23 -> Z.land m (W - 1 - 0x007fffff) = 0) as clear.
  { intros m Hmm. replace (W - 1 - 0x007fffff) with (Z.shiftl 511 23) by done.
    apply Z.bits_inj'. intros n Hn. rewrite Z.land_spec, Z.bits_0, Z.shiftl_spec by done.
    destruct (decide (n < 23)); [rewrite (Z.testbit_neg_r 511) by lia; apply andb_false_r|].
    destruct (decide (m = 0)) as [->|]; [by rewrite Z.bits_0|]. rewrite (Z.bits_above_log2 m); [done|lia|].
    apply Z.lt_le_trans with 23; [apply Z.log2_lt_pow2; lia|lia]. }
  assert (forall m s', 0 <= m < 2 ^ 23 -> 0 <= s' < 256 ->
    (_ ← assert_that (bool_decide (Z.land m (W - 1 - 0x007fffff) = 0)) "(nCompact & ~0x007fffffU) == 0";
     _ ← assert_that (bool_decide (s' < 256)) "nSize < 256"; mret (Z.lor m (Z.shiftl s' 24))) = Ok (m + s' * 2 ^ 24)) as fin.
  { intros m s' Hm' Hs'. rewrite (bool_decide_true _ (clear m Hm')), (bool_decide_true (s' < 256)) by lia.
    simpl. by rewrite lor_size by lia. }
  assert (Z.land (mantissa x) 0x00800000 <> 0 <-> 2 ^ 23 <= mantissa x) as sgn.
  { rewrite sign_bit, Z.testbit_true by lia. set (m := mantissa x) in *.
    destruct (decide (2 ^ 23 <= m)) as [H|H].
    - assert (m / 2 ^ 23 = 1) as -> by (symmetry; apply (Z.div_unique_pos _ _ _ (m - 2 ^ 23)); lia). done.
    - rewrite Z.div_small by lia. done. }
  unfold written_word. fold s.
  destruct (decide (Z.land (mantissa x) 0x00800000 <> 0)) as [H|H]; rewrite sgn in H.
  - rewrite decide_True by done. rewrite Z.shiftr_div_pow2 by done. change (2 ^ 8) with 256. apply fin; [|lia].
    split; [apply Z.div_pos; lia|apply Z.div_lt_upper_bound; lia].
  - rewrite decide_False by done. apply fin; lia.
Qed.

Lemma written_word_parts x :
  0 <= x < 2 ^ 256 -> exists m s,
  written_word x = m + s * 2 ^ 24 /\ 0 <= m < 2 ^ 23 /\ 0 <= s < 256 /\
  (if decide (s <= 3) then m / 256 ^ (3 - s) else m * 256 ^ (s - 3)) = compact_round x.
Proof.
  intros Hx. destruct (decide (x = 0)) as [->|Hn].
  { exists 0, 0. split; [vm_compute; reflexivity|]. split; [lia|]. split; [lia|]. vm_compute. reflexivity. }
  pose proof (zbits_range x Hx) as Hz. pose proof (mantissa_bound x ltac:(lia)) as Hm.
  pose proof (Z.div_mod (zbits x + 7) 8 ltac:(lia)) as Ed. pose proof (Z.mod_pos_bound (zbits x + 7) 8 ltac:(lia)) as Em.
  unfold written_word, compact_round, dropped. set (s := (zbits x + 7) / 8) in *.
  pose proof (mantissa_sign x ltac:(lia)) as Hsg. fold s in Hsg.
  assert (0 < zbits x) by (unfold zbits; rewrite decide_False by lia; pose proof (Z.log2_nonneg x); lia).
  destruct (decide (2 ^ 23 <= mantissa x)) as [H23|H23].
  - apply Hsg in H23 as Ez. exists (mantissa x / 256), (s + 1).
    assert (zbits x / 8 = s) as -> by (symmetry; apply (Z.div_unique_pos _ _ _ 0); lia).
    split_and!; [done|apply Z.div_pos; lia|apply Z.div_lt_upper_bound; lia|lia|lia|].
    unfold mantissa. fold s. destruct (decide (s <= 3)) as [H3|H3].
    + destruct (decide (s = 3)) as [->|].
      { rewrite decide_False by lia. change (Z.max 0 (3 - 2)) with 1. change (3 + 1 - 3) with 1.
        change (3 - 3) with 0. by rewrite Z.mul_1_r. }
      rewrite decide_True by lia. rewrite Z.max_l by lia. rewrite Z.div_1_r, Z.mul_1_r.
      replace (3 - s) with (3 - (s + 1) + 1) at 1 by lia. rewrite Z.pow_add_r, Z.mul_assoc by lia.
      change (256 ^ 1) with 256. rewrite Z.div_mul by lia. apply Z.div_mul. apply Z.pow_nonzero; lia.
    + rewrite decide_False by lia. rewrite Z.max_r by lia.
      replace (s + 1 - 3) with (s - 2) by lia.
      pose proof (Z.pow_pos_nonneg 256 (s - 3) ltac:(lia) ltac:(lia)).
      rewrite Z.div_div by lia. replace (256 ^ (s - 3) * 256) with (256 ^ (s - 2)); [done|].
      replace (s - 2) with (s - 3 + 1) by lia. by rewrite Z.pow_add_r by lia.
  - assert (zbits x <> 8 * s) as Ez by tauto. exists (mantissa x), s.
    assert (zbits x / 8 = s - 1) as -> by (symmetry; apply (Z.div_unique_pos _ _ _ (zbits x - 8 * (s - 1))); lia).
    split_and!; [done|lia|lia|lia|lia|]. unfold mantissa. fold s.
    destruct (decide (s <= 3)) as [H3|H3].
    + rewrite Z.max_l by lia. rewrite Z.div_1_r, Z.mul_1_r. apply Z.div_mul. apply Z.pow_nonzero; lia.
    + rewrite Z.max_r by lia. by replace (s - 1 - 2) with (s - 3) by lia.
Qed.

Lemma written_word_ok x :
  0 <= x < 2 ^ 256 ->
  0 <= written_word x < 2 ^ 32 /\ compact_of (written_word x) = compact_round x /\
  Z.testbit (written_word x) 23 = false.
Proof.
  intros Hx. destruct (written_word_parts x Hx) as (m & s & -> & Hm & Hs & E).
  destruct (word_parts m s Hm) as (E1 & E2 & E3). unfold compact_of. rewrite E1, E2.
  split_and!; [lia|lia|done|done].
Qed.

(** ** Rounding *)

Lemma compact_round_le x : 0 <= x -> 0 <= compact_round x <= x.
Proof.
  intros Hx. unfold compact_round. pose proof (Z.pow_pos_nonneg 256 (dropped x) ltac:(lia) ltac:(unfold dropped; lia)).
  pose proof (Z.mul_div_le x (256 ^ dropped x) ltac:(lia)).
  pose proof (Z.div_pos x (256 ^ dropped x) Hx ltac:(lia)). nia.
Qed.

(** The highest bit stays. *)
Lemma compact_round_top x : 0 < x -> 2 ^ (zbits x - 1) <= compact_round x.
Proof.
  intros Hx. pose proof (zbits_spec x Hx) as [L _].
  assert (0 < zbits x) by (unfold zbits; rewrite decide_False by lia; pose proof (Z.log2_nonneg x); lia).
  unfold compact_round. set (d := dropped x).
  assert (0 <= d /\ 8 * d <= zbits x - 1) as [Hd Hd'].
  { unfold d, dropped. pose proof (Z.div_mod (zbits x) 8 ltac:(lia)).
    pose proof (Z.mod_pos_bound (zbits x) 8 ltac:(lia)). lia. }
  rewrite pow256 by done. pose proof (Z.pow_pos_nonneg 2 (8 * d) ltac:(lia) ltac:(lia)).
  replace (zbits x - 1) with ((zbits x - 1 - 8 * d) + 8 * d) in * by lia. rewrite Z.pow_add_r in * by lia.
  apply Z.mul_le_mono_nonneg_r; [lia|]. apply Z.div_le_lower_bound; [done|lia].
Qed.

Lemma zbits_mono x y : 0 <= x <= y -> zbits x <= zbits y.
Proof.
  intros H. unfold zbits. repeat case_decide; try lia; [pose proof (Z.log2_nonneg y); lia|].
  pose proof (Z.log2_le_mono x y). lia.
Qed.

Lemma compact_round_mono x y : 0 <= x <= y -> compact_round x <= compact_round y.
Proof.
  intros H. destruct (decide (x = 0)) as [->|]; [apply compact_round_le; lia|].
  pose proof (zbits_mono x y H) as Hz.
  destruct (decide (zbits x = zbits y)) as [E|].
  - unfold compact_round, dropped. rewrite E. set (d := Z.max 0 (zbits y / 8 - 2)).
    pose proof (Z.pow_pos_nonneg 256 d ltac:(lia) ltac:(lia)).
    apply Z.mul_le_mono_nonneg_r; [lia|]. apply Z.div_le_mono; lia.
  - pose proof (compact_round_le x ltac:(lia)). pose proof (compact_round_top y ltac:(lia)).
    pose proof (zbits_spec x ltac:(lia)) as [_ U].
    pose proof (Z.pow_le_mono_r 2 (zbits x) (zbits y - 1) ltac:(lia) ltac:(lia)). lia.
Qed.

(** What a word stands for is not rounded any further. *)
Lemma compact_round_word c :
  0 <= c < 2 ^ 32 -> compact_round (compact_of c) = compact_of c.
Proof.
  intros Hc. destruct (compact_range c Hc) as [Hs Hw]. unfold compact_of.
  set (s := c / 2 ^ 24) in *. set (w := c mod 2 ^ 23) in *. case_decide as H3.
  - assert (w / 256 ^ (3 - s) < 2 ^ 23) as Hlt.
    { pose proof (Z.pow_pos_nonneg 256 (3 - s) ltac:(lia) ltac:(lia)). apply Z.div_lt_upper_bound; [done|nia]. }
    assert (0 <= w / 256 ^ (3 - s)) by (apply Z.div_pos; [lia|apply Z.pow_pos_nonneg; lia]).
    set (x := w / 256 ^ (3 - s)) in *. assert (zbits x <= 23) as Hz.
    { etrans; [apply (zbits_mono x (2 ^ 23 - 1)); lia|]. done. }
    unfold compact_round, dropped. rewrite Z.max_l; [by rewrite Z.div_1_r, Z.mul_1_r|].
    assert (zbits x / 8 < 3) by (apply Z.div_lt_upper_bound; lia). lia.
  - destruct (decide (w = 0)) as [->|Hn]; [done|]. set (x := w * 256 ^ (s - 3)).
    pose proof (Z.pow_pos_nonneg 256 (s - 3) ltac:(lia) ltac:(lia)).
    assert (0 < x) by (unfold x; nia).
    assert (x < 2 ^ (23 + 8 * (s - 3))) as Hlt.
    { unfold x. rewrite Z.pow_add_r, <-pow256 by lia. nia. }
    assert (zbits x <= 23 + 8 * (s - 3)) as Hz.
    { unfold zbits. rewrite decide_False by lia. apply Z.log2_lt_pow2 in Hlt; lia. }
    unfold compact_round, dropped. set (d := Z.max 0 (zbits x / 8 - 2)).
    assert (d <= s - 3) as Hd.
    { unfold d. pose proof (Z.div_mod (zbits x) 8 ltac:(lia)). pose proof (Z.mod_pos_bound (zbits x) 8 ltac:(lia)). lia. }
    unfold x. replace (s - 3) with ((s - 3 - d) + d) by lia. rewrite Z.pow_add_r, Z.mul_assoc by lia.
    rewrite Z.div_mul; [done|]. apply Z.pow_nonzero; lia.
Qed.

(** Writing and reading back. *)
Definition target (c : Z) : limbs := (SetCompact c).1.1.

Lemma target_value c : 0 <= c < 2 ^ 32 -> value (target c) = compact_of c mod 2 ^ 256 /\ sized (target c).
Proof.
  intros Hc. destruct (set_compact c Hc) as (n & neg & over & E & S & V & _). unfold target. by rewrite E.
Qed.

Lemma rewrite_number a :
  sized a -> exists c n, GetCompact a = Ok c /\ 0 <= c < 2 ^ 32 /\
  SetCompact c = (n, false, false) /\ sized n /\ value n = compact_round (value a).
Proof.
  intros Ha. pose proof (sized_bound a Ha) as Hx. destruct (written_word_ok _ Hx) as (Hw & Ew & Es).
  destruct (set_compact _ Hw) as (n & neg & over & E & S & V & Hneg & Hover). rewrite Ew in *.
  pose proof (compact_round_le (value a) ltac:(lia)) as Hr.
  assert (neg = false) as -> by (destruct neg; [|done]; destruct Hneg as [Hneg _]; destruct (Hneg eq_refl); congruence).
  assert (over = false) as -> by (destruct over; [|done]; destruct Hover as [Hover _]; specialize (Hover eq_refl); lia).
  exists (written_word (value a)), n. split_and!; [by apply get_compact|lia|lia|done|done|].
  rewrite V. apply Z.mod_small. lia.
Qed.

Lemma compact_round_error x :
  0 < x -> (x - compact_round x) * 2 ^ 15 < x.
Proof.
  intros Hx. pose proof (zbits_spec x Hx) as [L _]. unfold compact_round. set (d := dropped x).
  pose proof (Z.div_mod x (256 ^ d)). pose proof (Z.mod_pos_bound x (256 ^ d)).
  assert (0 <= d) as Hd by (unfold d, dropped; lia).
  pose proof (Z.pow_pos_nonneg 256 d ltac:(lia) Hd).
  destruct (decide (d = 0)) as [E|]; [rewrite E, Z.div_1_r; lia|].
  assert (8 * d + 15 <= zbits x - 1) as Hz.
  { unfold d, dropped in *. pose proof (Z.div_mod (zbits x) 8 ltac:(lia)).
    pose proof (Z.mod_pos_bound (zbits x) 8 ltac:(lia)). lia. }
  pose proof (Z.pow_le_mono_r 2 (8 * d + 15) (zbits x - 1) ltac:(lia) Hz) as P.
  rewrite Z.pow_add_r, <-pow256 in P by lia. nia.
Qed.

(** C25: the compact format rounds.  Writing a 256-bit number as a word never
    fails an assertion and reads back, with no flag set, as a number that is
    not larger and less than one part in 32768 smaller; a larger number never
    reads back as a smaller one; and the number of a word that reads without
    flags is written and read back unchanged. *)
Theorem compact_rounds (a b : limbs) (c : Z) (n : limbs) :
  sized a -> sized b -> 0 <= c < 2 ^ 32 ->
  exists ca cb na nb,
    GetCompact a = Ok ca /\ SetCompact ca = (na, false, false) /\
    GetCompact b = Ok cb /\ SetCompact cb = (nb, false, false) /\
    value na <= value a /\ (0 < value a -> (value a - value na) * 2 ^ 15 < value a) /\
    (value a <= value b -> value na <= value nb) /\
    (SetCompact c = (n, false, false) -> exists c' n',
       GetCompact n = Ok c' /\ SetCompact c' = (n', false, false) /\ value n' = value n).
Proof.
  intros Ha Hb Hc. destruct (rewrite_number a Ha) as (ca & na & Ea & Ra & Sa & Za & Va).
  destruct (rewrite_number b Hb) as (cb & nb & Eb & Rb & Sb & Zb & Vb).
  pose proof (sized_bound a Ha). pose proof (sized_bound b Hb).
  exists ca, cb, na, nb. rewrite Va, Vb. split_and!; try done.
  - apply compact_round_le. lia.
  - apply compact_round_error.
  - intros. apply compact_round_mono. lia.
  - intros E. destruct (set_compact c Hc) as (n' & neg & over & E' & S & V & _ & Hov).
    rewrite E in E'. simplify_eq. destruct (rewrite_number n' S) as (c' & n & ? & ? & ? & _ & Vn).
    exists c', n. split_and!; [done|done|]. rewrite Vn, V.
    assert (compact_of c < 2 ^ 256) by (destruct (decide (2 ^ 256 <= compact_of c)) as [H'|]; [by apply Hov in H'|lia]).
    assert (0 <= compact_of c).
    { destruct (compact_range c Hc). unfold compact_of. case_decide.
      - apply Z.div_pos; [lia|apply Z.pow_pos_nonneg; lia].
      - apply Z.mul_nonneg_nonneg; [lia|apply Z.pow_nonneg; lia]. }
    rewrite Z.mod_small by lia. by apply compact_round_word.
Qed.

Lemma compact_rounds_witness :
  sized (of_uint64 0x1234567890) /\ exists ca cb na nb,
    GetCompact (of_uint64 0x1234567890) = Ok ca /\ SetCompact ca = (na, false, false) /\
    GetCompact (of_uint64 0x1234567891) = Ok cb /\ SetCompact cb = (nb, false, false) /\
    value na <= value nb.
Proof.
  assert (sized (of_uint64 0x1234567890)) as Ha by (apply of_uint64_value; lia).
  assert (sized (of_uint64 0x1234567891)) as Hb by (apply of_uint64_value; lia).
  split; [exact Ha|].
  destruct (compact_rounds (of_uint64 0x1234567890) (of_uint64 0x1234567891) 0x1d00ffff [] Ha Hb ltac:(lia))
    as (ca & cb & na & nb & E1 & E2 & E3 & E4 & _ & _ & Hm & _).
  exists ca, cb, na, nb. split; [exact E1|]. split; [exact E2|]. split; [exact E3|]. split; [exact E4|].
  apply Hm. vm_compute. discriminate.
Defined.
