(* ===== verification/Sha256.v ===== *)
(** * The node: SHA-256

    crypto/sha256.cpp and the byte order functions of crypto/common.h: the
    portable [Transform] with its 64 rounds written out, [TransformD64], which
    has the padding of a double hash of 64 bytes folded into its constants,
    and the class [CSHA256] that hashes a stream through a buffer.  They are
    compared with the definition of the standard, FIPS 180-4, whose constants
    are computed here from the roots of the primes they are defined by.

    Words are numbers below 2^32; a sum of words is reduced where the code
    assigns it, which gives the same word as reducing at every addition.  The
    implementations that need special instructions, and the choice among them
    at run time, are not part of the model. *)

From Stdlib Require Import ZArith Lia.
From stdpp Require Import base tactics numbers list.
From S2P Require Import NodeBase Arith256.

Open Scope Z_scope.

(** A sequence of assignments: [x ⇐ e; rest]. *)
Definition assign {A B} (e : A) (rest : A -> B) : B := rest e.
Notation "x ⇐ e ; rest" := (assign e (fun x => rest)) (at level 20, e at level 100, rest at level 200).
Notation "' x ⇐ e ; rest" := (assign e (fun x => rest)) (at level 20, x pattern, e at level 100, rest at level 200).

(** ** crypto/common.h *)

Definition byte_at (chunk : list Z) (i : nat) : Z := default 0 (chunk !! i).

Definition ReadBE32 (chunk : list Z) (i : nat) : Z :=
  2 ^ 24 * byte_at chunk i + 2 ^ 16 * byte_at chunk (i + 1) +
  2 ^ 8 * byte_at chunk (i + 2) + byte_at chunk (i + 3).

(** The bytes of [x], the most significant first. *)
Definition WriteBE32 (x : Z) : list Z := [x / 2 ^ 24 mod 256; x / 2 ^ 16 mod 256; x / 2 ^ 8 mod 256; x mod 256].
Definition WriteBE64 (x : Z) : list Z := WriteBE32 (x / 2 ^ 32) ++ WriteBE32 x.

(** [memcpy(buf + at, data, |data|)]. *)
Definition memcpy (buf : list Z) (at_ : nat) (data : list Z) : list Z :=
  take at_ buf ++ data ++ drop (at_ + length data) buf.

(** ** crypto/sha256.cpp *)

Definition Ch (x y z : Z) : Z := Z.lxor z (Z.land x (Z.lxor y z)).
Definition Maj (x y z : Z) : Z := Z.lor (Z.land x y) (Z.land z (Z.lor x y)).

(** [x >> n | x << m]. *)
Definition turn (x n m : Z) : Z := Z.lor (Z.shiftr x n) (u32 (Z.shiftl x m)).

Definition Sigma0 (x : Z) : Z := Z.lxor (Z.lxor (turn x 2 30) (turn x 13 19)) (turn x 22 10).
Definition Sigma1 (x : Z) : Z := Z.lxor (Z.lxor (turn x 6 26) (turn x 11 21)) (turn x 25 7).
Definition sigma0 (x : Z) : Z := Z.lxor (Z.lxor (turn x 7 25) (turn x 18 14)) (Z.shiftr x 3).
Definition sigma1 (x : Z) : Z := Z.lxor (Z.lxor (turn x 17 15) (turn x 19 13)) (Z.shiftr x 10).

(** The new values of [d] and [h]. *)
Definition Round (a b c d e f g h k : Z) : Z * Z :=
  let t1 := u32 (h + Sigma1 e + Ch e f g + k) in
  let t2 := u32 (Sigma0 a + Maj a b c) in
  (u32 (d + t1), u32 (t1 + t2)).

(** The eight words of the state. *)
Notation words8 := (Z * Z * Z * Z * Z * Z * Z * Z)%type.

Definition Initialize : words8 :=
  (0x6a09e667, 0xbb67ae85, 0x3c6ef372, 0xa54ff53a, 0x510e527f, 0x9b05688c, 0x1f83d9ab, 0x5be0cd19).

(** [s[0] += a; ...; s[7] += h]. *)
Definition add_words (s t : words8) : words8 :=
  let '(s0, s1, s2, s3, s4, s5, s6, s7) := s in
  let '(a, b, c, d, e, f, g, h) := t in
  (u32 (s0 + a), u32 (s1 + b), u32 (s2 + c), u32 (s3 + d), u32 (s4 + e), u32 (s5 + f), u32 (s6 + g), u32 (s7 + h)).

(** The 64 rounds on a block, as [Transform] and the first part of
    [TransformD64] have them written out. *)
Definition Rounds64 (s : words8) (chunk : list Z) : words8 :=
  let '(a, b, c, d, e, f, g, h) := s in
  w0 ⇐ ReadBE32 chunk 0;
  '(d, h) ⇐ Round a b c d e f g h (u32 (0x428a2f98 + w0));
  w1 ⇐ ReadBE32 chunk 4;
  '(c, g) ⇐ Round h a b c d e f g (u32 (0x71374491 + w1));
  w2 ⇐ ReadBE32 chunk 8;
  '(b, f) ⇐ Round g h a b c d e f (u32 (0xb5c0fbcf + w2));
  w3 ⇐ ReadBE32 chunk 12;
  '(a, e) ⇐ Round f g h a b c d e (u32 (0xe9b5dba5 + w3));
  w4 ⇐ ReadBE32 chunk 16;
  '(h, d) ⇐ Round e f g h a b c d (u32 (0x3956c25b + w4));
  w5 ⇐ ReadBE32 chunk 20;
  '(g, c) ⇐ Round d e f g h a b c (u32 (0x59f111f1 + w5));
  w6 ⇐ ReadBE32 chunk 24;
  '(f, b) ⇐ Round c d e f g h a b (u32 (0x923f82a4 + w6));
  w7 ⇐ ReadBE32 chunk 28;
  '(e, a) ⇐ Round b c d e f g h a (u32 (0xab1c5ed5 + w7));
  w8 ⇐ ReadBE32 chunk 32;
  '(d, h) ⇐ Round a b c d e f g h (u32 (0xd807aa98 + w8));
  w9 ⇐ ReadBE32 chunk 36;
  '(c, g) ⇐ Round h a b c d e f g (u32 (0x12835b01 + w9));
  w10 ⇐ ReadBE32 chunk 40;
  '(b, f) ⇐ Round g h a b c d e f (u32 (0x243185be + w10));
  w11 ⇐ ReadBE32 chunk 44;
  '(a, e) ⇐ Round f g h a b c d e (u32 (0x550c7dc3 + w11));
  w12 ⇐ ReadBE32 chunk 48;
  '(h, d) ⇐ Round e f g h a b c d (u32 (0x72be5d74 + w12));
  w13 ⇐ ReadBE32 chunk 52;
  '(g, c) ⇐ Round d e f g h a b c (u32 (0x80deb1fe + w13));
  w14 ⇐ ReadBE32 chunk 56;
  '(f, b) ⇐ Round c d e f g h a b (u32 (0x9bdc06a7 + w14));
  w15 ⇐ ReadBE32 chunk 60;
  '(e, a) ⇐ Round b c d e f g h a (u32 (0xc19bf174 + w15));
  w0 ⇐ u32 (w0 + (sigma1 w14 + w9 + sigma0 w1));
  '(d, h) ⇐ Round a b c d e f g h (u32 (0xe49b69c1 + w0));
  w1 ⇐ u32 (w1 + (sigma1 w15 + w10 + sigma0 w2));
  '(c, g) ⇐ Round h a b c d e f g (u32 (0xefbe4786 + w1));
  w2 ⇐ u32 (w2 + (sigma1 w0 + w11 + sigma0 w3));
  '(b, f) ⇐ Round g h a b c d e f (u32 (0x0fc19dc6 + w2));
  w3 ⇐ u32 (w3 + (sigma1 w1 + w12 + sigma0 w4));
  '(a, e) ⇐ Round f g h a b c d e (u32 (0x240ca1cc + w3));
  w4 ⇐ u32 (w4 + (sigma1 w2 + w13 + sigma0 w5));
  '(h, d) ⇐ Round e f g h a b c d (u32 (0x2de92c6f + w4));
  w5 ⇐ u32 (w5 + (sigma1 w3 + w14 + sigma0 w6));
  '(g, c) ⇐ Round d e f g h a b c (u32 (0x4a7484aa + w5));
  w6 ⇐ u32 (w6 + (sigma1 w4 + w15 + sigma0 w7));
  '(f, b) ⇐ Round c d e f g h a b (u32 (0x5cb0a9dc + w6));
  w7 ⇐ u32 (w7 + (sigma1 w5 + w0 + sigma0 w8));
  '(e, a) ⇐ Round b c d e f g h a (u32 (0x76f988da + w7));
  w8 ⇐ u32 (w8 + (sigma1 w6 + w1 + sigma0 w9));
  '(d, h) ⇐ Round a b c d e f g h (u32 (0x983e5152 + w8));
  w9 ⇐ u32 (w9 + (sigma1 w7 + w2 + sigma0 w10));
  '(c, g) ⇐ Round h a b c d e f g (u32 (0xa831c66d + w9));
  w10 ⇐ u32 (w10 + (sigma1 w8 + w3 + sigma0 w11));
  '(b, f) ⇐ Round g h a b c d e f (u32 (0xb00327c8 + w10));
  w11 ⇐ u32 (w11 + (sigma1 w9 + w4 + sigma0 w12));
  '(a, e) ⇐ Round f g h a b c d e (u32 (0xbf597fc7 + w11));
  w12 ⇐ u32 (w12 + (sigma1 w10 + w5 + sigma0 w13));
  '(h, d) ⇐ Round e f g h a b c d (u32 (0xc6e00bf3 + w12));
  w13 ⇐ u32 (w13 + (sigma1 w11 + w6 + sigma0 w14));
  '(g, c) ⇐ Round d e f g h a b c (u32 (0xd5a79147 + w13));
  w14 ⇐ u32 (w14 + (sigma1 w12 + w7 + sigma0 w15));
  '(f, b) ⇐ Round c d e f g h a b (u32 (0x06ca6351 + w14));
  w15 ⇐ u32 (w15 + (sigma1 w13 + w8 + sigma0 w0));
  '(e, a) ⇐ Round b c d e f g h a (u32 (0x14292967 + w15));
  w0 ⇐ u32 (w0 + (sigma1 w14 + w9 + sigma0 w1));
  '(d, h) ⇐ Round a b c d e f g h (u32 (0x27b70a85 + w0));
  w1 ⇐ u32 (w1 + (sigma1 w15 + w10 + sigma0 w2));
  '(c, g) ⇐ Round h a b c d e f g (u32 (0x2e1b2138 + w1));
  w2 ⇐ u32 (w2 + (sigma1 w0 + w11 + sigma0 w3));
  '(b, f) ⇐ Round g h a b c d e f (u32 (0x4d2c6dfc + w2));
  w3 ⇐ u32 (w3 + (sigma1 w1 + w12 + sigma0 w4));
  '(a, e) ⇐ Round f g h a b c d e (u32 (0x53380d13 + w3));
  w4 ⇐ u32 (w4 + (sigma1 w2 + w13 + sigma0 w5));
  '(h, d) ⇐ Round e f g h a b c d (u32 (0x650a7354 + w4));
  w5 ⇐ u32 (w5 + (sigma1 w3 + w14 + sigma0 w6));
  '(g, c) ⇐ Round d e f g h a b c (u32 (0x766a0abb + w5));
  w6 ⇐ u32 (w6 + (sigma1 w4 + w15 + sigma0 w7));
  '(f, b) ⇐ Round c d e f g h a b (u32 (0x81c2c92e + w6));
  w7 ⇐ u32 (w7 + (sigma1 w5 + w0 + sigma0 w8));
  '(e, a) ⇐ Round b c d e f g h a (u32 (0x92722c85 + w7));
  w8 ⇐ u32 (w8 + (sigma1 w6 + w1 + sigma0 w9));
  '(d, h) ⇐ Round a b c d e f g h (u32 (0xa2bfe8a1 + w8));
  w9 ⇐ u32 (w9 + (sigma1 w7 + w2 + sigma0 w10));
  '(c, g) ⇐ Round h a b c d e f g (u32 (0xa81a664b + w9));
  w10 ⇐ u32 (w10 + (sigma1 w8 + w3 + sigma0 w11));
  '(b, f) ⇐ Round g h a b c d e f (u32 (0xc24b8b70 + w10));
  w11 ⇐ u32 (w11 + (sigma1 w9 + w4 + sigma0 w12));
  '(a, e) ⇐ Round f g h a b c d e (u32 (0xc76c51a3 + w11));
  w12 ⇐ u32 (w12 + (sigma1 w10 + w5 + sigma0 w13));
  '(h, d) ⇐ Round e f g h a b c d (u32 (0xd192e819 + w12));
  w13 ⇐ u32 (w13 + (sigma1 w11 + w6 + sigma0 w14));
  '(g, c) ⇐ Round d e f g h a b c (u32 (0xd6990624 + w13));
  w14 ⇐ u32 (w14 + (sigma1 w12 + w7 + sigma0 w15));
  '(f, b) ⇐ Round c d e f g h a b (u32 (0xf40e3585 + w14));
  w15 ⇐ u32 (w15 + (sigma1 w13 + w8 + sigma0 w0));
  '(e, a) ⇐ Round b c d e f g h a (u32 (0x106aa070 + w15));
  w0 ⇐ u32 (w0 + (sigma1 w14 + w9 + sigma0 w1));
  '(d, h) ⇐ Round a b c d e f g h (u32 (0x19a4c116 + w0));
  w1 ⇐ u32 (w1 + (sigma1 w15 + w10 + sigma0 w2));
  '(c, g) ⇐ Round h a b c d e f g (u32 (0x1e376c08 + w1));
  w2 ⇐ u32 (w2 + (sigma1 w0 + w11 + sigma0 w3));
  '(b, f) ⇐ Round g h a b c d e f (u32 (0x2748774c + w2));
  w3 ⇐ u32 (w3 + (sigma1 w1 + w12 + sigma0 w4));
  '(a, e) ⇐ Round f g h a b c d e (u32 (0x34b0bcb5 + w3));
  w4 ⇐ u32 (w4 + (sigma1 w2 + w13 + sigma0 w5));
  '(h, d) ⇐ Round e f g h a b c d (u32 (0x391c0cb3 + w4));
  w5 ⇐ u32 (w5 + (sigma1 w3 + w14 + sigma0 w6));
  '(g, c) ⇐ Round d e f g h a b c (u32 (0x4ed8aa4a + w5));
  w6 ⇐ u32 (w6 + (sigma1 w4 + w15 + sigma0 w7));
  '(f, b) ⇐ Round c d e f g h a b (u32 (0x5b9cca4f + w6));
  w7 ⇐ u32 (w7 + (sigma1 w5 + w0 + sigma0 w8));
  '(e, a) ⇐ Round b c d e f g h a (u32 (0x682e6ff3 + w7));
  w8 ⇐ u32 (w8 + (sigma1 w6 + w1 + sigma0 w9));
  '(d, h) ⇐ Round a b c d e f g h (u32 (0x748f82ee + w8));
  w9 ⇐ u32 (w9 + (sigma1 w7 + w2 + sigma0 w10));
  '(c, g) ⇐ Round h a b c d e f g (u32 (0x78a5636f + w9));
  w10 ⇐ u32 (w10 + (sigma1 w8 + w3 + sigma0 w11));
  '(b, f) ⇐ Round g h a b c d e f (u32 (0x84c87814 + w10));
  w11 ⇐ u32 (w11 + (sigma1 w9 + w4 + sigma0 w12));
  '(a, e) ⇐ Round f g h a b c d e (u32 (0x8cc70208 + w11));
  w12 ⇐ u32 (w12 + (sigma1 w10 + w5 + sigma0 w13));
  '(h, d) ⇐ Round e f g h a b c d (u32 (0x90befffa + w12));
  w13 ⇐ u32 (w13 + (sigma1 w11 + w6 + sigma0 w14));
  '(g, c) ⇐ Round d e f g h a b c (u32 (0xa4506ceb + w13));
  '(f, b) ⇐ Round c d e f g h a b (u32 (0xbef9a3f7 + (w14 + sigma1 w12 + w7 + sigma0 w15)));
  '(e, a) ⇐ Round b c d e f g h a (u32 (0xc67178f2 + (w15 + sigma1 w13 + w8 + sigma0 w0)));
  (a, b, c, d, e, f, g, h).

Fixpoint Transform (s : words8) (chunk : list Z) (blocks : nat) {struct blocks} : words8 :=
  match blocks with
  | O => s
  | S blocks => Transform (add_words s (Rounds64 s chunk)) (drop 64 chunk) blocks
  end.

(** [TransformD64], in the three parts its comments name: the words after the
    block [in], after the padding block, and after the padded result. *)
Definition TransformD64_1 (chunk : list Z) : words8 := add_words (Rounds64 Initialize chunk) Initialize.

Definition TransformD64_2 (t : words8) : words8 :=
  let '(a, b, c, d, e, f, g, h) := t in
  '(d, h) ⇐ Round a b c d e f g h 0xc28a2f98;
  '(c, g) ⇐ Round h a b c d e f g 0x71374491;
  '(b, f) ⇐ Round g h a b c d e f 0xb5c0fbcf;
  '(a, e) ⇐ Round f g h a b c d e 0xe9b5dba5;
  '(h, d) ⇐ Round e f g h a b c d 0x3956c25b;
  '(g, c) ⇐ Round d e f g h a b c 0x59f111f1;
  '(f, b) ⇐ Round c d e f g h a b 0x923f82a4;
  '(e, a) ⇐ Round b c d e f g h a 0xab1c5ed5;
  '(d, h) ⇐ Round a b c d e f g h 0xd807aa98;
  '(c, g) ⇐ Round h a b c d e f g 0x12835b01;
  '(b, f) ⇐ Round g h a b c d e f 0x243185be;
  '(a, e) ⇐ Round f g h a b c d e 0x550c7dc3;
  '(h, d) ⇐ Round e f g h a b c d 0x72be5d74;
  '(g, c) ⇐ Round d e f g h a b c 0x80deb1fe;
  '(f, b) ⇐ Round c d e f g h a b 0x9bdc06a7;
  '(e, a) ⇐ Round b c d e f g h a 0xc19bf374;
  '(d, h) ⇐ Round a b c d e f g h 0x649b69c1;
  '(c, g) ⇐ Round h a b c d e f g 0xf0fe4786;
  '(b, f) ⇐ Round g h a b c d e f 0x0fe1edc6;
  '(a, e) ⇐ Round f g h a b c d e 0x240cf254;
  '(h, d) ⇐ Round e f g h a b c d 0x4fe9346f;
  '(g, c) ⇐ Round d e f g h a b c 0x6cc984be;
  '(f, b) ⇐ Round c d e f g h a b 0x61b9411e;
  '(e, a) ⇐ Round b c d e f g h a 0x16f988fa;
  '(d, h) ⇐ Round a b c d e f g h 0xf2c65152;
  '(c, g) ⇐ Round h a b c d e f g 0xa88e5a6d;
  '(b, f) ⇐ Round g h a b c d e f 0xb019fc65;
  '(a, e) ⇐ Round f g h a b c d e 0xb9d99ec7;
  '(h, d) ⇐ Round e f g h a b c d 0x9a1231c3;
  '(g, c) ⇐ Round d e f g h a b c 0xe70eeaa0;
  '(f, b) ⇐ Round c d e f g h a b 0xfdb1232b;
  '(e, a) ⇐ Round b c d e f g h a 0xc7353eb0;
  '(d, h) ⇐ Round a b c d e f g h 0x3069bad5;
  '(c, g) ⇐ Round h a b c d e f g 0xcb976d5f;
  '(b, f) ⇐ Round g h a b c d e f 0x5a0f118f;
  '(a, e) ⇐ Round f g h a b c d e 0xdc1eeefd;
  '(h, d) ⇐ Round e f g h a b c d 0x0a35b689;
  '(g, c) ⇐ Round d e f g h a b c 0xde0b7a04;
  '(f, b) ⇐ Round c d e f g h a b 0x58f4ca9d;
  '(e, a) ⇐ Round b c d e f g h a 0xe15d5b16;
  '(d, h) ⇐ Round a b c d e f g h 0x007f3e86;
  '(c, g) ⇐ Round h a b c d e f g 0x37088980;
  '(b, f) ⇐ Round g h a b c d e f 0xa507ea32;
  '(a, e) ⇐ Round f g h a b c d e 0x6fab9537;
  '(h, d) ⇐ Round e f g h a b c d 0x17406110;
  '(g, c) ⇐ Round d e f g h a b c 0x0d8cd6f1;
  '(f, b) ⇐ Round c d e f g h a b 0xcdaa3b6d;
  '(e, a) ⇐ Round b c d e f g h a 0xc0bbbe37;
  '(d, h) ⇐ Round a b c d e f g h 0x83613bda;
  '(c, g) ⇐ Round h a b c d e f g 0xdb48a363;
  '(b, f) ⇐ Round g h a b c d e f 0x0b02e931;
  '(a, e) ⇐ Round f g h a b c d e 0x6fd15ca7;
  '(h, d) ⇐ Round e f g h a b c d 0x521afaca;
  '(g, c) ⇐ Round d e f g h a b c 0x31338431;
  '(f, b) ⇐ Round c d e f g h a b 0x6ed41a95;
  '(e, a) ⇐ Round b c d e f g h a 0x6d437890;
  '(d, h) ⇐ Round a b c d e f g h 0xc39c91f2;
  '(c, g) ⇐ Round h a b c d e f g 0x9eccabbd;
  '(b, f) ⇐ Round g h a b c d e f 0xb5c9a0e6;
  '(a, e) ⇐ Round f g h a b c d e 0x532fb63c;
  '(h, d) ⇐ Round e f g h a b c d 0xd2c741c6;
  '(g, c) ⇐ Round d e f g h a b c 0x07237ea3;
  '(f, b) ⇐ Round c d e f g h a b 0xa4954b68;
  '(e, a) ⇐ Round b c d e f g h a 0x4c191d76;
  add_words t (a, b, c, d, e, f, g, h).

Definition TransformD64_3 (t : words8) : words8 :=
  let '(w0, w1, w2, w3, w4, w5, w6, w7) := t in
  let '(a, b, c, d, e, f, g, h) := Initialize in
  '(d, h) ⇐ Round a b c d e f g h (u32 (0x428a2f98 + w0));
  '(c, g) ⇐ Round h a b c d e f g (u32 (0x71374491 + w1));
  '(b, f) ⇐ Round g h a b c d e f (u32 (0xb5c0fbcf + w2));
  '(a, e) ⇐ Round f g h a b c d e (u32 (0xe9b5dba5 + w3));
  '(h, d) ⇐ Round e f g h a b c d (u32 (0x3956c25b + w4));
  '(g, c) ⇐ Round d e f g h a b c (u32 (0x59f111f1 + w5));
  '(f, b) ⇐ Round c d e f g h a b (u32 (0x923f82a4 + w6));
  '(e, a) ⇐ Round b c d e f g h a (u32 (0xab1c5ed5 + w7));
  '(d, h) ⇐ Round a b c d e f g h 0x5807aa98;
  '(c, g) ⇐ Round h a b c d e f g 0x12835b01;
  '(b, f) ⇐ Round g h a b c d e f 0x243185be;
  '(a, e) ⇐ Round f g h a b c d e 0x550c7dc3;
  '(h, d) ⇐ Round e f g h a b c d 0x72be5d74;
  '(g, c) ⇐ Round d e f g h a b c 0x80deb1fe;
  '(f, b) ⇐ Round c d e f g h a b 0x9bdc06a7;
  '(e, a) ⇐ Round b c d e f g h a 0xc19bf274;
  w0 ⇐ u32 (w0 + (sigma0 w1));
  '(d, h) ⇐ Round a b c d e f g h (u32 (0xe49b69c1 + w0));
  w1 ⇐ u32 (w1 + (0xa00000 + sigma0 w2));
  '(c, g) ⇐ Round h a b c d e f g (u32 (0xefbe4786 + w1));
  w2 ⇐ u32 (w2 + (sigma1 w0 + sigma0 w3));
  '(b, f) ⇐ Round g h a b c d e f (u32 (0x0fc19dc6 + w2));
  w3 ⇐ u32 (w3 + (sigma1 w1 + sigma0 w4));
  '(a, e) ⇐ Round f g h a b c d e (u32 (0x240ca1cc + w3));
  w4 ⇐ u32 (w4 + (sigma1 w2 + sigma0 w5));
  '(h, d) ⇐ Round e f g h a b c d (u32 (0x2de92c6f + w4));
  w5 ⇐ u32 (w5 + (sigma1 w3 + sigma0 w6));
  '(g, c) ⇐ Round d e f g h a b c (u32 (0x4a7484aa + w5));
  w6 ⇐ u32 (w6 + (sigma1 w4 + 0x100 + sigma0 w7));
  '(f, b) ⇐ Round c d e f g h a b (u32 (0x5cb0a9dc + w6));
  w7 ⇐ u32 (w7 + (sigma1 w5 + w0 + 0x11002000));
  '(e, a) ⇐ Round b c d e f g h a (u32 (0x76f988da + w7));
  w8 ⇐ u32 (0x80000000 + sigma1 w6 + w1);
  '(d, h) ⇐ Round a b c d e f g h (u32 (0x983e5152 + w8));
  w9 ⇐ u32 (sigma1 w7 + w2);
  '(c, g) ⇐ Round h a b c d e f g (u32 (0xa831c66d + w9));
  w10 ⇐ u32 (sigma1 w8 + w3);
  '(b, f) ⇐ Round g h a b c d e f (u32 (0xb00327c8 + w10));
  w11 ⇐ u32 (sigma1 w9 + w4);
  '(a, e) ⇐ Round f g h a b c d e (u32 (0xbf597fc7 + w11));
  w12 ⇐ u32 (sigma1 w10 + w5);
  '(h, d) ⇐ Round e f g h a b c d (u32 (0xc6e00bf3 + w12));
  w13 ⇐ u32 (sigma1 w11 + w6);
  '(g, c) ⇐ Round d e f g h a b c (u32 (0xd5a79147 + w13));
  w14 ⇐ u32 (sigma1 w12 + w7 + 0x400022);
  '(f, b) ⇐ Round c d e f g h a b (u32 (0x06ca6351 + w14));
  w15 ⇐ u32 (0x100 + sigma1 w13 + w8 + sigma0 w0);
  '(e, a) ⇐ Round b c d e f g h a (u32 (0x14292967 + w15));
  w0 ⇐ u32 (w0 + (sigma1 w14 + w9 + sigma0 w1));
  '(d, h) ⇐ Round a b c d e f g h (u32 (0x27b70a85 + w0));
  w1 ⇐ u32 (w1 + (sigma1 w15 + w10 + sigma0 w2));
  '(c, g) ⇐ Round h a b c d e f g (u32 (0x2e1b2138 + w1));
  w2 ⇐ u32 (w2 + (sigma1 w0 + w11 + sigma0 w3));
  '(b, f) ⇐ Round g h a b c d e f (u32 (0x4d2c6dfc + w2));
  w3 ⇐ u32 (w3 + (sigma1 w1 + w12 + sigma0 w4));
  '(a, e) ⇐ Round f g h a b c d e (u32 (0x53380d13 + w3));
  w4 ⇐ u32 (w4 + (sigma1 w2 + w13 + sigma0 w5));
  '(h, d) ⇐ Round e f g h a b c d (u32 (0x650a7354 + w4));
  w5 ⇐ u32 (w5 + (sigma1 w3 + w14 + sigma0 w6));
  '(g, c) ⇐ Round d e f g h a b c (u32 (0x766a0abb + w5));
  w6 ⇐ u32 (w6 + (sigma1 w4 + w15 + sigma0 w7));
  '(f, b) ⇐ Round c d e f g h a b (u32 (0x81c2c92e + w6));
  w7 ⇐ u32 (w7 + (sigma1 w5 + w0 + sigma0 w8));
  '(e, a) ⇐ Round b c d e f g h a (u32 (0x92722c85 + w7));
  w8 ⇐ u32 (w8 + (sigma1 w6 + w1 + sigma0 w9));
  '(d, h) ⇐ Round a b c d e f g h (u32 (0xa2bfe8a1 + w8));
  w9 ⇐ u32 (w9 + (sigma1 w7 + w2 + sigma0 w10));
  '(c, g) ⇐ Round h a b c d e f g (u32 (0xa81a664b + w9));
  w10 ⇐ u32 (w10 + (sigma1 w8 + w3 + sigma0 w11));
  '(b, f) ⇐ Round g h a b c d e f (u32 (0xc24b8b70 + w10));
  w11 ⇐ u32 (w11 + (sigma1 w9 + w4 + sigma0 w12));
  '(a, e) ⇐ Round f g h a b c d e (u32 (0xc76c51a3 + w11));
  w12 ⇐ u32 (w12 + (sigma1 w10 + w5 + sigma0 w13));
  '(h, d) ⇐ Round e f g h a b c d (u32 (0xd192e819 + w12));
  w13 ⇐ u32 (w13 + (sigma1 w11 + w6 + sigma0 w14));
  '(g, c) ⇐ Round d e f g h a b c (u32 (0xd6990624 + w13));
  w14 ⇐ u32 (w14 + (sigma1 w12 + w7 + sigma0 w15));
  '(f, b) ⇐ Round c d e f g h a b (u32 (0xf40e3585 + w14));
  w15 ⇐ u32 (w15 + (sigma1 w13 + w8 + sigma0 w0));
  '(e, a) ⇐ Round b c d e f g h a (u32 (0x106aa070 + w15));
  w0 ⇐ u32 (w0 + (sigma1 w14 + w9 + sigma0 w1));
  '(d, h) ⇐ Round a b c d e f g h (u32 (0x19a4c116 + w0));
  w1 ⇐ u32 (w1 + (sigma1 w15 + w10 + sigma0 w2));
  '(c, g) ⇐ Round h a b c d e f g (u32 (0x1e376c08 + w1));
  w2 ⇐ u32 (w2 + (sigma1 w0 + w11 + sigma0 w3));
  '(b, f) ⇐ Round g h a b c d e f (u32 (0x2748774c + w2));
  w3 ⇐ u32 (w3 + (sigma1 w1 + w12 + sigma0 w4));
  '(a, e) ⇐ Round f g h a b c d e (u32 (0x34b0bcb5 + w3));
  w4 ⇐ u32 (w4 + (sigma1 w2 + w13 + sigma0 w5));
  '(h, d) ⇐ Round e f g h a b c d (u32 (0x391c0cb3 + w4));
  w5 ⇐ u32 (w5 + (sigma1 w3 + w14 + sigma0 w6));
  '(g, c) ⇐ Round d e f g h a b c (u32 (0x4ed8aa4a + w5));
  w6 ⇐ u32 (w6 + (sigma1 w4 + w15 + sigma0 w7));
  '(f, b) ⇐ Round c d e f g h a b (u32 (0x5b9cca4f + w6));
  w7 ⇐ u32 (w7 + (sigma1 w5 + w0 + sigma0 w8));
  '(e, a) ⇐ Round b c d e f g h a (u32 (0x682e6ff3 + w7));
  w8 ⇐ u32 (w8 + (sigma1 w6 + w1 + sigma0 w9));
  '(d, h) ⇐ Round a b c d e f g h (u32 (0x748f82ee + w8));
  w9 ⇐ u32 (w9 + (sigma1 w7 + w2 + sigma0 w10));
  '(c, g) ⇐ Round h a b c d e f g (u32 (0x78a5636f + w9));
  w10 ⇐ u32 (w10 + (sigma1 w8 + w3 + sigma0 w11));
  '(b, f) ⇐ Round g h a b c d e f (u32 (0x84c87814 + w10));
  w11 ⇐ u32 (w11 + (sigma1 w9 + w4 + sigma0 w12));
  '(a, e) ⇐ Round f g h a b c d e (u32 (0x8cc70208 + w11));
  w12 ⇐ u32 (w12 + (sigma1 w10 + w5 + sigma0 w13));
  '(h, d) ⇐ Round e f g h a b c d (u32 (0x90befffa + w12));
  w13 ⇐ u32 (w13 + (sigma1 w11 + w6 + sigma0 w14));
  '(g, c) ⇐ Round d e f g h a b c (u32 (0xa4506ceb + w13));
  '(f, b) ⇐ Round c d e f g h a b (u32 (0xbef9a3f7 + (w14 + sigma1 w12 + w7 + sigma0 w15)));
  '(e, a) ⇐ Round b c d e f g h a (u32 (0xc67178f2 + (w15 + sigma1 w13 + w8 + sigma0 w0)));
  add_words (a, b, c, d, e, f, g, h) Initialize.

Definition write_words (s : words8) : list Z :=
  let '(s0, s1, s2, s3, s4, s5, s6, s7) := s in
  WriteBE32 s0 ++ WriteBE32 s1 ++ WriteBE32 s2 ++ WriteBE32 s3 ++
  WriteBE32 s4 ++ WriteBE32 s5 ++ WriteBE32 s6 ++ WriteBE32 s7.

Definition TransformD64 (chunk : list Z) : list Z :=
  write_words (TransformD64_3 (TransformD64_2 (TransformD64_1 chunk))).

(** [SHA256D64] with the portable implementation. *)
Fixpoint SHA256D64 (chunk : list Z) (blocks : nat) {struct blocks} : list Z :=
  match blocks with
  | O => []
  | S blocks => TransformD64 chunk ++ SHA256D64 (drop 64 chunk) blocks
  end.

(** ** The class [CSHA256] *)

Record CSHA256 := mkSHA { sha_s : words8; sha_buf : list Z; sha_bytes : Z }.

(** The buffer of a new object holds anything. *)
Definition new_sha (buf : list Z) : CSHA256 := mkSHA Initialize buf 0.

Definition sha_Write (c : CSHA256) (data : list Z) : CSHA256 :=
  let bufsize := sha_bytes c mod 64 in
  let '(c, data, bufsize) :=
    if decide (bufsize <> 0 /\ 64 <= bufsize + len data) then
      let n := 64 - bufsize in
      let buf := memcpy (sha_buf c) (Z.to_nat bufsize) (take (Z.to_nat n) data) in
      (mkSHA (Transform (sha_s c) buf 1) buf (u64 (sha_bytes c + n)), drop (Z.to_nat n) data, 0)
    else (c, data, bufsize) in
  let '(c, data) :=
    if decide (64 <= len data) then
      let blocks := len data / 64 in
      (mkSHA (Transform (sha_s c) data (Z.to_nat blocks)) (sha_buf c) (u64 (sha_bytes c + 64 * blocks)),
       drop (Z.to_nat (64 * blocks)) data)
    else (c, data) in
  if decide (0 < len data) then
    mkSHA (sha_s c) (memcpy (sha_buf c) (Z.to_nat bufsize) data) (u64 (sha_bytes c + len data))
  else c.

Definition sha_pad : list Z := 0x80 :: repeat 0 63.

(** The hash, and the object it leaves. *)
Definition sha_Finalize (c : CSHA256) : list Z * CSHA256 :=
  let sizedesc := WriteBE64 (u64 (Z.shiftl (sha_bytes c) 3)) in
  let c' := sha_Write c (take (Z.to_nat (1 + (119 - sha_bytes c mod 64) mod 64)) sha_pad) in
  let c' := sha_Write c' sizedesc in
  (write_words (sha_s c'), c').

Definition sha_Reset (c : CSHA256) : CSHA256 := mkSHA Initialize (sha_buf c) 0.

(** ** FIPS 180-4 *)

(** The largest [r] with [r ^ n <= x], by bits from the top. *)
Fixpoint root_from (n x : Z) (bit : nat) (r : Z) : Z :=
  let r' := r + 2 ^ Z.of_nat bit in
  let r := if r' ^ n <=? x then r' else r in
  match bit with O => r | S bit => root_from n x bit r end.

Definition primes : list Z :=
  filter (fun p => forallb (fun q => negb (p mod q =? 0)) (Z.of_nat <$> seq 2 (Z.to_nat p - 2)) = true)
    (Z.of_nat <$> seq 2 310).

(** The first 32 bits of the fractional part of a root. *)
Definition fraction (n p : Z) : Z := root_from n (p * 2 ^ (32 * n)) 40 0 mod 2 ^ 32.

(** Section 4.2.2: the cube roots of the first 64 primes; section 5.3.3: the
    square roots of the first eight. *)
Definition fips_K : list Z := fraction 3 <$> primes.
Definition fips_H0 : list Z := fraction 2 <$> take 8 primes.

(** Section 4.1.2. *)
Definition ROTR (n x : Z) : Z := Z.lor (Z.shiftr x n) (u32 (Z.shiftl x (32 - n))).
Definition fips_Ch (x y z : Z) : Z := Z.lxor (Z.land x y) (Z.land (Z.lnot x) z).
Definition fips_Maj (x y z : Z) : Z := Z.lxor (Z.lxor (Z.land x y) (Z.land x z)) (Z.land y z).
Definition fips_S0 (x : Z) : Z := Z.lxor (Z.lxor (ROTR 2 x) (ROTR 13 x)) (ROTR 22 x).
Definition fips_S1 (x : Z) : Z := Z.lxor (Z.lxor (ROTR 6 x) (ROTR 11 x)) (ROTR 25 x).
Definition fips_s0 (x : Z) : Z := Z.lxor (Z.lxor (ROTR 7 x) (ROTR 18 x)) (Z.shiftr x 3).
Definition fips_s1 (x : Z) : Z := Z.lxor (Z.lxor (ROTR 17 x) (ROTR 19 x)) (Z.shiftr x 10).

(** Section 6.2.2: the message schedule, [n] words longer than the block. *)
Fixpoint schedule (M : list Z) (n : nat) : list Z :=
  match n with
  | O => M
  | S n => let w := schedule M n in
      w ++ [u32 (fips_s1 (w !!! (n + 14)%nat) + w !!! (n + 9)%nat + fips_s0 (w !!! (n + 1)%nat) + w !!! n)]
  end.

Definition fips_round (s : words8) (kw : Z * Z) : words8 :=
  let '(a, b, c, d, e, f, g, h) := s in
  let T1 := u32 (h + fips_S1 e + fips_Ch e f g + kw.1 + kw.2) in
  let T2 := u32 (fips_S0 a + fips_Maj a b c) in
  (u32 (T1 + T2), a, b, c, u32 (d + T1), e, f, g).

Definition fips_compress (H : words8) (M : list Z) : words8 :=
  add_words H (foldl fips_round H (zip fips_K (schedule M 48))).

(** The sixteen words of a block. *)
Definition block_words (chunk : list Z) : list Z := (fun i => ReadBE32 chunk (4 * i)) <$> seq 0 16.

(** Section 5.1.1: the padded message. *)
Definition fips_pad (m : list Z) : list Z :=
  m ++ 0x80 :: repeat 0 (Z.to_nat ((55 - len m) mod 64)) ++ WriteBE64 (8 * len m).

Fixpoint fips_blocks (H : words8) (m : list Z) (n : nat) {struct n} : words8 :=
  match n with
  | O => H
  | S n => fips_blocks (fips_compress H (block_words (take 64 m))) (drop 64 m) n
  end.

(** Section 6.2. *)
Definition fips_sha256 (m : list Z) : list Z :=
  match fips_H0 with
  | [a; b; c; d; e; f; g; h] =>
      let p := fips_pad m in
      write_words (fips_blocks (a, b, c, d, e, f, g, h) p (length p / 64))
  | _ => []
  end.

(** ** One block *)

(** The constants, computed once. *)
Lemma fips_K_eq : fips_K = ltac:(let K := eval vm_compute in fips_K in exact K).
Proof. vm_compute. reflexivity. Qed.

#[local] Opaque fips_K.

Lemma fips_H0_eq : fips_H0 =
  [0x6a09e667; 0xbb67ae85; 0x3c6ef372; 0xa54ff53a; 0x510e527f; 0x9b05688c; 0x1f83d9ab; 0x5be0cd19].
Proof. vm_compute. reflexivity. Qed.

Lemma Ch_fips x y z : Ch x y z = fips_Ch x y z.
Proof.
  apply Z.bits_inj'. intros n Hn. unfold Ch, fips_Ch.
  rewrite !Z.lxor_spec, !Z.land_spec, Z.lxor_spec, Z.lnot_spec by done.
  by destruct (Z.testbit x n), (Z.testbit y n), (Z.testbit z n).
Qed.

Lemma Maj_fips x y z : Maj x y z = fips_Maj x y z.
Proof.
  apply Z.bits_inj'. intros n Hn. unfold Maj, fips_Maj.
  rewrite !Z.lxor_spec, Z.lor_spec, !Z.land_spec, Z.lor_spec.
  by destruct (Z.testbit x n), (Z.testbit y n), (Z.testbit z n).
Qed.

Lemma u32_add_r x y : u32 (x + u32 y) = u32 (x + y).
Proof. apply Zplus_mod_idemp_r. Qed.
Lemma u32_add_l x y : u32 (u32 x + y) = u32 (x + y).
Proof. apply Zplus_mod_idemp_l. Qed.

(** A round as the code calls it, on the names the registers have before it. *)
Definition turned (s : words8) (k : Z) : words8 :=
  let '(a, b, c, d, e, f, g, h) := s in
  let '(d, h) := Round a b c d e f g h k in (h, a, b, c, d, e, f, g).

Lemma fips_round_turned s k w : fips_round s (k, w) = turned s (u32 (k + w)).
Proof.
  destruct s as [[[[[[[a b] c] d] e] f] g] h]. unfold fips_round, turned, Round.
  rewrite (u32_add_r _ (k + w)), <-Ch_fips, <-Maj_fips. cbn [fst snd].
  change (fips_S1 e) with (Sigma1 e). change (fips_S0 a) with (Sigma0 a).
  by replace (h + Sigma1 e + Ch e f g + k + w) with (h + Sigma1 e + Ch e f g + (k + w)) by lia.
Qed.

Lemma schedule_length M n : length (schedule M n) = (length M + n)%nat.
Proof. induction n; simpl; [lia|]. rewrite length_app, IHn. simpl. lia. Qed.

Lemma schedule_before M n k t :
  (t < length M + n)%nat -> (n <= k)%nat -> schedule M k !!! t = schedule M n !!! t.
Proof.
  intros Ht. induction 1 as [|k Hk IH]; [done|]. cbn [schedule].
  rewrite lookup_total_app_l; [done|]. rewrite schedule_length. lia.
Qed.

(** The word [t] of the schedule of a block. *)
Definition fips_W (M : list Z) (t : nat) : Z := schedule M 48 !!! t.

Lemma fips_W_first M t : (t < 16)%nat -> length M = 16%nat -> fips_W M t = M !!! t.
Proof. intros. unfold fips_W. by rewrite (schedule_before M 0) by lia. Qed.

Lemma fips_W_next M t :
  length M = 16%nat -> (t < 48)%nat ->
  fips_W M (16 + t) =
    u32 (sigma1 (fips_W M (14 + t)) + fips_W M (9 + t) + sigma0 (fips_W M (1 + t)) + fips_W M t).
Proof.
  intros HM Ht. unfold fips_W. rewrite (schedule_before M (S t)) by lia.
  rewrite !(schedule_before M t 48) by lia. cbn [schedule].
  rewrite lookup_total_app_r; rewrite schedule_length, HM; [|lia].
  rewrite Nat.sub_diag. cbn. by rewrite !(Nat.add_comm t).
Qed.

#[local] Opaque schedule.

Lemma zip_schedule M :
  length M = 16%nat ->
  zip fips_K (schedule M 48) = (fun t => (fips_K !!! t, fips_W M t)) <$> seq 0 64.
Proof.
  intros HM. apply list_eq. intros i. rewrite list_lookup_fmap.
  destruct (decide (i < 64)%nat) as [Hi|Hi].
  - rewrite lookup_seq_lt by done. cbn [fmap option_fmap option_map]. rewrite lookup_zip_with.
    assert (length fips_K = 64%nat) as HK by (rewrite fips_K_eq; done).
    rewrite (list_lookup_lookup_total_lt fips_K) by lia.
    rewrite (list_lookup_lookup_total_lt (schedule M 48)) by (rewrite schedule_length; lia). reflexivity.
  - rewrite lookup_seq_ge by lia. cbn [fmap option_fmap option_map]. apply lookup_ge_None.
    rewrite length_zip_with, schedule_length, HM. lia.
Qed.

(** What the rounds add, word by word. *)
Definition round_words (M : list Z) : list Z := (fun t => u32 (fips_K !!! t + fips_W M t)) <$> seq 0 64.

Lemma fips_compress_rounds H M :
  length M = 16%nat ->
  fips_compress H M = add_words H (foldl turned H (round_words M)).
Proof.
  intros HM. unfold fips_compress, round_words. rewrite zip_schedule by done. f_equal.
  generalize (seq 0 64). intros l. revert H. induction l as [|t l IH]; intros H; [done|].
  rewrite !fmap_cons. cbn [foldl]. by rewrite fips_round_turned, IH.
Qed.

Lemma block_word chunk t : (t < 16)%nat -> ReadBE32 chunk (4 * t) = fips_W (block_words chunk) t.
Proof.
  intros Ht. rewrite fips_W_first by done. unfold block_words.
  rewrite (list_lookup_total_fmap _ (seq 0 16) t) by (rewrite length_seq; lia).
  by rewrite lookup_total_seq_lt by lia.
Qed.

(** Taking the code apart: a word that the schedule has, and a round. *)
Lemma word_let {B} (x y : Z) (F : Z -> B) (r : B) : x = y -> F y = r -> assign x F = r.
Proof. by intros ->. Qed.

Lemma round_let a b c d e f g h k ks (F : Z * Z -> words8) (G : words8 -> words8) :
  (forall d' h', F (d', h') = G (foldl turned (h', a, b, c, d', e, f, g) ks)) ->
  assign (Round a b c d e f g h k) F = G (foldl turned (a, b, c, d, e, f, g, h) (k :: ks)).
Proof. intros E. cbn [foldl]. unfold turned at 2, assign. destruct (Round a b c d e f g h k) as [d' h']. apply E. Qed.

Ltac word t :=
  lazymatch goal with
  | |- assign ?x ?F = ?r => refine (word_let x t F r _ _); [|cbv beta]
  end.
Ltac turn_round :=
  lazymatch goal with
  | |- assign (Round ?a ?b ?c ?d ?e ?f ?g ?h ?k) ?F = foldl turned _ (_ :: ?ks) =>
      refine (round_let a b c d e f g h k ks F (fun s => s) _); intros ? ?; cbv beta iota
  | |- assign (Round ?a ?b ?c ?d ?e ?f ?g ?h ?k) ?F = ?G (foldl turned _ (_ :: ?ks)) =>
      refine (round_let a b c d e f g h k ks F G _); intros ? ?; cbv beta iota
  | |- assign (Round ?a ?b ?c ?d ?e ?f ?g ?h ?k) ?F = add_words (foldl turned _ (_ :: ?ks)) ?s =>
      refine (round_let a b c d e f g h k ks F (fun x => add_words x s) _); intros ? ?; cbv beta iota
  end.
(** Word [t] read from the block, or made from earlier words. *)
Ltac read_word M t := word (fips_W M t); [exact (block_word _ t ltac:(lia))|]; turn_round.
Ltac mix_word M t :=
  let u := eval cbv in (16 + t)%nat in
  word (fips_W M u);
  [change u with (16 + t)%nat; rewrite fips_W_next by (done || lia); f_equal; cbn [Nat.add]; lia|]; turn_round.

(** [n] of them, from word [t] on. *)
Ltac read_words M t n :=
  lazymatch n with O => idtac | S ?n => read_word M t; let t' := eval cbv in (S t) in read_words M t' n end.
Ltac mix_words M t n :=
  lazymatch n with O => idtac | S ?n => mix_word M t; let t' := eval cbv in (S t) in mix_words M t' n end.
(** A word that is made and not kept. *)
Ltac last_word M t :=
  lazymatch goal with
  | |- assign (Round _ _ _ _ _ _ _ _ (u32 (?c + ?x))) _ = _ =>
      let u := eval cbv in (16 + t)%nat in
      replace (u32 (c + x)) with (u32 (c + fips_W M u))
        by (change u with (16 + t)%nat; rewrite fips_W_next, u32_add_r by (done || lia); f_equal; cbn [Nat.add]; lia)
  end; turn_round.

Lemma Rounds64_turned s chunk : Rounds64 s chunk = foldl turned s (round_words (block_words chunk)).
Proof.
  assert (length (block_words chunk) = 16%nat) as HM by done.
  unfold round_words. rewrite fips_K_eq. destruct s as [[[[[[[a b] c] d] e] f] g] h].
  match goal with |- _ = foldl _ _ ?l => let l' := eval cbn in l in change l with l' end.
  cbv beta iota delta [Rounds64].
  read_words (block_words chunk) 0%nat 16%nat. mix_words (block_words chunk) 0%nat 46%nat.
  last_word (block_words chunk) 46%nat. last_word (block_words chunk) 47%nat.
  reflexivity.
Qed.

Lemma add_words_comm s t : add_words s t = add_words t s.
Proof.
  destruct s as [[[[[[[s0 s1] s2] s3] s4] s5] s6] s7], t as [[[[[[[a b] c] d] e] f] g] h].
  unfold add_words.
  by rewrite (Z.add_comm s0), (Z.add_comm s1), (Z.add_comm s2), (Z.add_comm s3), (Z.add_comm s4),
    (Z.add_comm s5), (Z.add_comm s6), (Z.add_comm s7).
Qed.

Lemma transform_turn s chunk : add_words s (Rounds64 s chunk) = fips_compress s (block_words chunk).
Proof. by rewrite fips_compress_rounds, Rounds64_turned by done. Qed.

(** ** The double hash of 64 bytes *)

Definition padding1 : list Z := 0x80 :: repeat 0 61 ++ [2; 0].
Definition padding2 : list Z := 0x80 :: repeat 0 29 ++ [1; 0].

Lemma second_words : round_words (block_words padding1) =
  [0xc28a2f98; 0x71374491; 0xb5c0fbcf; 0xe9b5dba5; 0x3956c25b; 0x59f111f1; 0x923f82a4; 0xab1c5ed5;
   0xd807aa98; 0x12835b01; 0x243185be; 0x550c7dc3; 0x72be5d74; 0x80deb1fe; 0x9bdc06a7; 0xc19bf374;
   0x649b69c1; 0xf0fe4786; 0x0fe1edc6; 0x240cf254; 0x4fe9346f; 0x6cc984be; 0x61b9411e; 0x16f988fa;
   0xf2c65152; 0xa88e5a6d; 0xb019fc65; 0xb9d99ec7; 0x9a1231c3; 0xe70eeaa0; 0xfdb1232b; 0xc7353eb0;
   0x3069bad5; 0xcb976d5f; 0x5a0f118f; 0xdc1eeefd; 0x0a35b689; 0xde0b7a04; 0x58f4ca9d; 0xe15d5b16;
   0x007f3e86; 0x37088980; 0xa507ea32; 0x6fab9537; 0x17406110; 0x0d8cd6f1; 0xcdaa3b6d; 0xc0bbbe37;
   0x83613bda; 0xdb48a363; 0x0b02e931; 0x6fd15ca7; 0x521afaca; 0x31338431; 0x6ed41a95; 0x6d437890;
   0xc39c91f2; 0x9eccabbd; 0xb5c9a0e6; 0x532fb63c; 0xd2c741c6; 0x07237ea3; 0xa4954b68; 0x4c191d76].
Proof. unfold round_words. rewrite fips_K_eq. vm_compute. reflexivity. Qed.

Lemma TransformD64_2_fips t : TransformD64_2 t = fips_compress t (block_words padding1).
Proof.
  rewrite fips_compress_rounds, second_words by done.
  destruct t as [[[[[[[a b] c] d] e] f] g] h].
  cbv beta iota delta [TransformD64_2].
  do 64 turn_round. reflexivity.
Qed.

(** The padded result of the first hash, word by word. *)
Definition third_block (t : words8) : list Z :=
  let '(w0, w1, w2, w3, w4, w5, w6, w7) := t in
  [w0; w1; w2; w3; w4; w5; w6; w7; 0x80000000; 0; 0; 0; 0; 0; 0; 0x100].

Lemma third_first w0 w1 w2 w3 w4 w5 w6 w7 :
  let M := third_block (w0, w1, w2, w3, w4, w5, w6, w7) in
  length M = 16%nat /\ fips_W M 0 = w0 /\ fips_W M 1 = w1 /\ fips_W M 2 = w2 /\ fips_W M 3 = w3 /\
  fips_W M 4 = w4 /\ fips_W M 5 = w5 /\ fips_W M 6 = w6 /\ fips_W M 7 = w7 /\ fips_W M 8 = 0x80000000 /\
  fips_W M 9 = 0 /\ fips_W M 10 = 0 /\ fips_W M 11 = 0 /\ fips_W M 12 = 0 /\ fips_W M 13 = 0 /\
  fips_W M 14 = 0 /\ fips_W M 15 = 0x100.
Proof. intros M. split; [done|]. repeat split; by rewrite fips_W_first by (done || lia). Qed.

(** The words made with the constants folded in. *)
Ltac third_words M known i n :=
  lazymatch n with
  | O => idtac
  | S ?n =>
      let u := eval cbv in (16 + i)%nat in
      word (fips_W M u);
      [change (fips_W M u) with (fips_W M (16 + i)); rewrite fips_W_next by (done || lia); cbn [Nat.add]; known tt;
       change (sigma1 0) with 0; change (sigma0 0) with 0; change (sigma1 0x100) with 0xa00000;
       change (sigma0 0x100) with 0x400022; change (sigma0 0x80000000) with 0x11002000; f_equal; lia|];
      turn_round; let i' := eval cbv in (S i) in third_words M known i' n
  end.

Lemma TransformD64_3_fips t : TransformD64_3 t = fips_compress Initialize (third_block t).
Proof.
  destruct t as [[[[[[[w0 w1] w2] w3] w4] w5] w6] w7]. rewrite fips_compress_rounds by done.
  unfold round_words. rewrite fips_K_eq, add_words_comm.
  destruct (third_first w0 w1 w2 w3 w4 w5 w6 w7)
    as (HM & E0 & E1 & E2 & E3 & E4 & E5 & E6 & E7 & E8 & E9 & E10 & E11 & E12 & E13 & E14 & E15).
  revert HM E0 E1 E2 E3 E4 E5 E6 E7 E8 E9 E10 E11 E12 E13 E14 E15.
  generalize (third_block (w0, w1, w2, w3, w4, w5, w6, w7)).
  intros M HM E0 E1 E2 E3 E4 E5 E6 E7 E8 E9 E10 E11 E12 E13 E14 E15.
  match goal with |- context [foldl _ _ ?l] => let l' := eval cbn in l in change l with l' end.
  let known _ := (rewrite ?E0, ?E1, ?E2, ?E3, ?E4, ?E5, ?E6, ?E7, ?E8, ?E9, ?E10, ?E11, ?E12, ?E13, ?E14, ?E15) in
  known tt; cbv beta iota delta [TransformD64_3 Initialize]; do 16 turn_round; third_words M known 0%nat 46%nat.
  last_word M 46%nat. last_word M 47%nat. reflexivity.
Qed.

(** ** A message of several blocks *)

Lemma byte_at_take chunk n i : (i < n)%nat -> byte_at (take n chunk) i = byte_at chunk i.
Proof. intros. unfold byte_at. by rewrite lookup_take_lt. Qed.

Lemma block_words_take chunk : block_words (take 64 chunk) = block_words chunk.
Proof.
  apply list_fmap_ext. intros i t Ht. apply lookup_seq in Ht as [-> Hi].
  unfold ReadBE32. by rewrite !byte_at_take by lia.
Qed.

Lemma block_words_app chunk rest : length chunk = 64%nat -> block_words (chunk ++ rest) = block_words chunk.
Proof. intros H. rewrite <-block_words_take. by rewrite <-H, take_app_length. Qed.

Lemma Transform_fips s chunk n : Transform s chunk n = fips_blocks s chunk n.
Proof.
  revert s chunk. induction n as [|n IH]; intros s chunk; [done|]. cbn [Transform fips_blocks].
  by rewrite IH, transform_turn, block_words_take.
Qed.

Lemma fips_blocks_app s m n rest k :
  length m = (64 * n)%nat -> fips_blocks s (m ++ rest) (n + k) = fips_blocks (fips_blocks s m n) rest k.
Proof.
  revert s m. induction n as [|n IH]; intros s m Hm.
  { destruct m; [done|simpl in Hm; lia]. }
  cbn [fips_blocks Nat.add]. rewrite take_app_le, drop_app_le by lia.
  apply IH. rewrite length_drop. lia.
Qed.

Lemma fips_blocks_one s m : fips_blocks s m 1 = fips_compress s (block_words m).
Proof. cbn [fips_blocks]. by rewrite block_words_take. Qed.

(** ** The buffer *)

(** The object has taken in the blocks [m1] and holds the rest [m2]. *)
Record buffered (c : CSHA256) (m1 m2 : list Z) : Prop :=
  { buffered_room : length (sha_buf c) = 64%nat;
    buffered_bytes : sha_bytes c = len (m1 ++ m2);
    buffered_whole : length m1 = (64 * (length m1 / 64))%nat;
    buffered_state : sha_s c = fips_blocks Initialize m1 (length m1 / 64);
    buffered_short : (length m2 < 64)%nat;
    buffered_rest : take (length m2) (sha_buf c) = m2 }.

Lemma bufsize c m1 m2 : buffered c m1 m2 -> sha_bytes c mod 64 = len m2.
Proof.
  intros [_ -> Hw _ Hs _]. unfold len. rewrite length_app, Nat2Z.inj_add, Hw, Nat2Z.inj_mul.
  rewrite Z.add_comm, Z.mul_comm, Z_mod_plus_full. apply Z.mod_small. lia.
Qed.

Lemma whole_div n : (64 * n / 64)%nat = n.
Proof. rewrite Nat.mul_comm. by apply Nat.div_mul. Qed.

(** Whole blocks after whole blocks. *)
Lemma more_blocks s m1 m n :
  length m1 = (64 * (length m1 / 64))%nat -> length m = (64 * n)%nat ->
  fips_blocks (fips_blocks s m1 (length m1 / 64)) m n = fips_blocks s (m1 ++ m) (length (m1 ++ m) / 64).
Proof.
  intros H1 Hm. rewrite <-(fips_blocks_app s m1 _ m n H1). f_equal.
  rewrite length_app, Hm, H1, <-Nat.mul_add_distr_l. by rewrite !whole_div.
Qed.

Lemma app_whole (m1 m : list Z) n :
  length m1 = (64 * (length m1 / 64))%nat -> length m = (64 * n)%nat ->
  length (m1 ++ m) = (64 * (length (m1 ++ m) / 64))%nat.
Proof. intros H1 Hm. rewrite length_app, Hm, H1, <-Nat.mul_add_distr_l. by rewrite !whole_div. Qed.

Lemma memcpy_length buf at_ data :
  (at_ + length data <= length buf)%nat -> length (memcpy buf at_ data) = length buf.
Proof. intros H. unfold memcpy. rewrite !length_app, length_take, length_drop. lia. Qed.

Lemma memcpy_take buf at_ data :
  (at_ + length data <= length buf)%nat ->
  take (at_ + length data) (memcpy buf at_ data) = take at_ buf ++ data.
Proof.
  intros H. unfold memcpy. rewrite app_assoc. rewrite take_app_le by (rewrite length_app, length_take; lia).
  apply take_ge. rewrite length_app, length_take. lia.
Qed.

(** The three parts of [Write]: the buffer is filled and taken in, whole
    blocks are taken in, the rest goes to the buffer. *)
Lemma fill_buffer c m1 m2 d :
  buffered c m1 m2 -> len (m1 ++ m2) + len d < 2 ^ 64 -> (64 <= length m2 + length d)%nat ->
  let n := (64 - length m2)%nat in
  let buf := memcpy (sha_buf c) (length m2) (take n d) in
  buffered (mkSHA (Transform (sha_s c) buf 1) buf (u64 (sha_bytes c + Z.of_nat n))) (m1 ++ (m2 ++ take n d)) [].
Proof.
  intros [Hr Hb Hw Hs Hsh Hrest] Hl Hd n buf.
  assert (length (take n d) = n) as Hn by (rewrite length_take; lia).
  assert (length (m2 ++ take n d) = (64 * 1)%nat) as Hm by (rewrite length_app; lia).
  assert (buf = m2 ++ take n d) as Eb.
  { unfold buf. rewrite <-(take_ge (memcpy _ _ _) 64) by (rewrite memcpy_length; lia).
    replace 64%nat with (length m2 + length (take n d))%nat by lia. rewrite memcpy_take by lia. by rewrite Hrest. }
  split; cbn [sha_s sha_buf sha_bytes].
  - unfold buf. rewrite memcpy_length; lia.
  - rewrite Hb. unfold len in *. rewrite !length_app in *. unfold u64. rewrite Z.mod_small; simpl; lia.
  - by apply (app_whole _ _ 1).
  - rewrite Hs, Transform_fips, Eb. by apply more_blocks.
  - simpl. lia.
  - done.
Qed.

Lemma take_blocks c m1 d blocks :
  buffered c m1 [] -> len m1 + len d < 2 ^ 64 -> (64 * blocks <= length d)%nat ->
  buffered (mkSHA (Transform (sha_s c) d blocks) (sha_buf c) (u64 (sha_bytes c + 64 * Z.of_nat blocks)))
    (m1 ++ take (64 * blocks) d) [].
Proof.
  intros [Hr Hb Hw Hs Hsh Hrest] Hl Hd. rewrite app_nil_r in Hb.
  assert (length (take (64 * blocks) d) = (64 * blocks)%nat) as Hm by (rewrite length_take; lia).
  split; cbn [sha_s sha_buf sha_bytes].
  - done.
  - rewrite Hb, app_nil_r. unfold len in *. rewrite length_app, Hm. unfold u64. rewrite Z.mod_small; lia.
  - by apply (app_whole _ _ blocks).
  - rewrite <-(more_blocks Initialize m1 _ blocks Hw Hm), <-Hs, Transform_fips.
    pose proof (fips_blocks_app (sha_s c) _ blocks (drop (64 * blocks) d) 0 Hm) as E.
    by rewrite take_drop, Nat.add_0_r in E.
  - done.
  - done.
Qed.

Lemma keep_rest c m1 m2 d :
  buffered c m1 m2 -> len (m1 ++ m2) + len d < 2 ^ 64 -> (length m2 + length d < 64)%nat ->
  buffered (mkSHA (sha_s c) (memcpy (sha_buf c) (length m2) d) (u64 (sha_bytes c + len d))) m1 (m2 ++ d).
Proof.
  intros [Hr Hb Hw Hs Hsh Hrest] Hl Hd. split; cbn [sha_s sha_buf sha_bytes].
  - rewrite memcpy_length; lia.
  - rewrite Hb. unfold len, u64 in *. rewrite !length_app in *. rewrite Z.mod_small; lia.
  - done.
  - done.
  - rewrite length_app. lia.
  - rewrite length_app, memcpy_take by lia. by rewrite Hrest.
Qed.

(** What [Write] does once the buffer is empty. *)
Definition whole_part (c : CSHA256) (d : list Z) : CSHA256 * list Z :=
  if decide (64 <= len d) then
    (mkSHA (Transform (sha_s c) d (Z.to_nat (len d / 64))) (sha_buf c) (u64 (sha_bytes c + 64 * (len d / 64))),
     drop (Z.to_nat (64 * (len d / 64))) d)
  else (c, d).

Definition last_part (bufsize : Z) (cd : CSHA256 * list Z) : CSHA256 :=
  let '(c, data) := cd in
  if decide (0 < len data) then
    mkSHA (sha_s c) (memcpy (sha_buf c) (Z.to_nat bufsize) data) (u64 (sha_bytes c + len data))
  else c.

Lemma whole_part_buffered c m1 d :
  buffered c m1 [] -> len m1 + len d < 2 ^ 64 -> exists c' m1' d',
  whole_part c d = (c', d') /\ m1' ++ d' = m1 ++ d /\ buffered c' m1' [] /\ (length d' < 64)%nat /\
  len m1' + len d' < 2 ^ 64.
Proof.
  intros Hc Hl. unfold whole_part. set (n := Z.to_nat (len d / 64)).
  pose proof (Z.div_mod (len d) 64 ltac:(lia)) as Ed. pose proof (Z.mod_pos_bound (len d) 64 ltac:(lia)).
  assert (0 <= len d / 64) by (apply Z.div_pos; unfold len; lia).
  assert (len d / 64 = Z.of_nat n) as En by lia. case_decide as H64.
  - eexists _, (m1 ++ take (64 * n) d), _. split; [done|]. rewrite En.
    replace (Z.to_nat (64 * Z.of_nat n)) with (64 * n)%nat by lia.
    split; [by rewrite <-app_assoc, take_drop|]. split; [apply take_blocks; [done|done|unfold len in *; lia]|].
    unfold len in *. rewrite length_app, length_take, length_drop. lia.
  - exists c, m1, d. split_and!; [done|done|done|unfold len in *; lia|done].
Qed.

Lemma write_aligned c m1 d :
  buffered c m1 [] -> len m1 + len d < 2 ^ 64 ->
  exists m1' m2', m1' ++ m2' = m1 ++ d /\ buffered (last_part 0 (whole_part c d)) m1' m2'.
Proof.
  intros Hc Hl. destruct (whole_part_buffered c m1 d Hc Hl) as (c' & m1' & d' & -> & Em & Hc' & Hd' & Hl').
  cbn [last_part]. case_decide as Hp.
  - exists m1', d'. split; [done|]. apply (keep_rest c' m1' [] d'); [done| |simpl; lia].
    by rewrite app_nil_r.
  - exists m1', []. destruct d'; [|unfold len in Hp; simpl in Hp; lia]. done.
Qed.

Lemma sha_Write_parts c d :
  sha_Write c d =
    let bufsize := sha_bytes c mod 64 in
    if decide (bufsize <> 0 /\ 64 <= bufsize + len d) then
      let n := 64 - bufsize in
      let buf := memcpy (sha_buf c) (Z.to_nat bufsize) (take (Z.to_nat n) d) in
      last_part 0 (whole_part (mkSHA (Transform (sha_s c) buf 1) buf (u64 (sha_bytes c + n))) (drop (Z.to_nat n) d))
    else last_part bufsize (whole_part c d).
Proof. unfold sha_Write, last_part, whole_part. by case_decide. Qed.

Lemma write_buffered c m1 m2 d :
  buffered c m1 m2 -> len (m1 ++ m2) + len d < 2 ^ 64 ->
  exists m1' m2', m1' ++ m2' = (m1 ++ m2) ++ d /\ buffered (sha_Write c d) m1' m2'.
Proof.
  intros Hc Hl. rewrite sha_Write_parts, (bufsize c m1 m2 Hc). cbv zeta.
  pose proof (buffered_short _ _ _ Hc) as Hs. assert (Z.to_nat (len m2) = length m2) as El by (unfold len; lia).
  case_decide as Hfill.
  - assert (64 <= length m2 + length d)%nat as H64 by (unfold len in *; lia).
    replace (64 - len m2) with (Z.of_nat (64 - length m2)) by (unfold len; lia). rewrite El, Nat2Z.id.
    pose proof (fill_buffer c m1 m2 d Hc Hl H64) as Hf. cbv zeta in Hf.
    destruct (write_aligned _ _ (drop (64 - length m2) d) Hf) as (m1' & m2' & E & Hb).
    { unfold len in *. rewrite !length_app, length_take, length_drop in *. lia. }
    exists m1', m2'. split; [|exact Hb]. rewrite E, <-!app_assoc. by rewrite take_drop.
  - destruct (decide (m2 = [])) as [->|Hne].
    { rewrite app_nil_r in *. by apply write_aligned. }
    assert (0 < length m2)%nat by (destruct m2; [done|simpl; lia]).
    unfold whole_part. rewrite decide_False by (unfold len in *; lia). cbn [last_part]. rewrite El.
    case_decide as Hp.
    + exists m1, (m2 ++ d). split; [by rewrite app_assoc|]. apply keep_rest; [done|done|unfold len in *; lia].
    + exists m1, m2. destruct d; [|unfold len in Hp; simpl in Hp; lia]. by rewrite app_nil_r.
Qed.

Lemma writes_buffered c m1 m2 ds :
  buffered c m1 m2 -> len (m1 ++ m2) + len (concat ds) < 2 ^ 64 ->
  exists m1' m2', m1' ++ m2' = (m1 ++ m2) ++ concat ds /\ buffered (foldl sha_Write c ds) m1' m2'.
Proof.
  revert c m1 m2. induction ds as [|d ds IH]; intros c m1 m2 Hc Hl.
  { exists m1, m2. by rewrite app_nil_r. }
  cbn [concat foldl] in *. destruct (write_buffered c m1 m2 d Hc) as (m1' & m2' & E & Hc').
  { unfold len in *. rewrite !length_app in *. lia. }
  destruct (IH _ _ _ Hc') as (m1'' & m2'' & E' & Hc'').
  { rewrite E. unfold len in *. rewrite !length_app in *. lia. }
  exists m1'', m2''. split; [|done]. by rewrite E', E, <-app_assoc.
Qed.

Lemma new_sha_buffered buf : length buf = 64%nat -> buffered (new_sha buf) [] [].
Proof. intros. split; [done..|cbn; lia|done]. Qed.

(** The padding [Finalize] writes is that of the standard, and it leaves
    nothing in the buffer. *)
Lemma fips_pad_whole m : length (fips_pad m) = (64 * (length (fips_pad m) / 64))%nat.
Proof.
  unfold fips_pad. rewrite length_app. cbn [length]. rewrite length_app, repeat_length. cbn [length WriteBE64 WriteBE32 app].
  set (k := Z.to_nat ((55 - len m) mod 64)).
  pose proof (Z.div_mod (55 - len m) 64 ltac:(lia)). pose proof (Z.mod_pos_bound (55 - len m) 64 ltac:(lia)).
  unfold len in *. apply Nat.Div0.div_exact, Nat.Lcm0.mod_divide.
  exists (Z.to_nat (1 - (55 - Z.of_nat (length m)) / 64)). unfold k. nia.
Qed.

Lemma take_sha_pad n : (n < 64)%nat -> take (S n) sha_pad = 0x80 :: repeat 0 n.
Proof.
  intros Hn. unfold sha_pad. cbn [take]. f_equal.
  replace 63%nat with (n + (63 - n))%nat by lia. rewrite repeat_app.
  rewrite <-(repeat_length 0 n) at 1. apply take_app_length.
Qed.

Lemma finalize_fips c m1 m2 :
  buffered c m1 m2 -> len (m1 ++ m2) < 2 ^ 61 -> (sha_Finalize c).1 = fips_sha256 (m1 ++ m2).
Proof.
  intros Hc Hl. unfold sha_Finalize. cbn [fst]. set (m := m1 ++ m2) in *.
  assert (len m = sha_bytes c) as Eb by (symmetry; apply (buffered_bytes _ _ _ Hc)).
  set (k := Z.to_nat ((55 - len m) mod 64)).
  pose proof (Z.mod_pos_bound (55 - len m) 64 ltac:(lia)) as Hk.
  assert (Z.to_nat (1 + (119 - sha_bytes c mod 64) mod 64) = S k) as ->.
  { rewrite <-Eb. unfold k. rewrite Zminus_mod_idemp_r.
    replace (119 - len m) with (55 - len m + 1 * 64) by lia. rewrite Z_mod_plus_full. lia. }
  rewrite take_sha_pad by lia. rewrite <-Eb, Z.shiftl_mul_pow2 by done.
  unfold u64. rewrite (Z.mod_small (len m * 2 ^ 3)) by (unfold len in *; lia).
  replace (len m * 2 ^ 3) with (8 * len m) by lia.
  destruct (writes_buffered c m1 m2 [0x80 :: repeat 0 k; WriteBE64 (8 * len m)] Hc) as (p1 & p2 & E & Hp).
  { fold m. unfold len in *. cbn [concat]. rewrite !length_app. cbn [length]. rewrite repeat_length. simpl. lia. }
  fold m in E. cbn [concat foldl] in *. rewrite app_nil_r in E.
  assert (p1 ++ p2 = fips_pad m) as E' by (by rewrite E; unfold fips_pad; fold k).
  assert (p2 = []) as ->.
  { apply length_zero_iff_nil. pose proof (fips_pad_whole m) as Hw. rewrite <-E', length_app in Hw.
    pose proof (buffered_whole _ _ _ Hp). pose proof (buffered_short _ _ _ Hp). lia. }
  rewrite app_nil_r in E'. unfold fips_sha256. rewrite fips_H0_eq, <-E'.
  by rewrite (buffered_state _ _ _ Hp).
Qed.

(** C7: hashing a stream.  However a message of less than 2^61 bytes is cut
    into calls of [Write], including empty ones, and whatever was in the
    buffer before, [Finalize] gives the SHA-256 of the whole message as the
    standard defines it, with the standard's constants computed from the
    primes. *)
Theorem sha256_stream (buf : list Z) (chunks : list (list Z)) :
  length buf = 64%nat -> len (concat chunks) < 2 ^ 61 ->
  (sha_Finalize (foldl sha_Write (new_sha buf) chunks)).1 = fips_sha256 (concat chunks).
Proof.
  intros Hb Hl. destruct (writes_buffered _ _ _ chunks (new_sha_buffered buf Hb)) as (m1 & m2 & E & Hc).
  { simpl. unfold len in *. simpl. lia. }
  cbn [app] in E. rewrite <-E in *. by apply (finalize_fips _ m1 m2).
Qed.

Lemma sha256_stream_witness :
  length (repeat 7 64) = 64%nat /\
  (sha_Finalize (foldl sha_Write (new_sha (repeat 7 64)) [[97]; []; repeat 98 130; [99]])).1 =
    fips_sha256 (concat [[97]; []; repeat 98 130; [99]]).
Proof. split; [done|]. apply (sha256_stream (repeat 7 64) [[97]; []; repeat 98 130; [99]]); done. Defined.

(** ** The double hash of 64 bytes is the double hash *)

Lemma read_back x : 0 <= x < 2 ^ 32 ->
  2 ^ 24 * (x / 2 ^ 24 mod 256) + 2 ^ 16 * (x / 2 ^ 16 mod 256) + 2 ^ 8 * (x / 2 ^ 8 mod 256) + x mod 256 = x.
Proof.
  intros Hx. pose proof (Z.div_mod x 256 ltac:(lia)) as E0.
  pose proof (Z.div_mod (x / 256) 256 ltac:(lia)) as E1. rewrite Z.div_div in E1 by lia.
  pose proof (Z.div_mod (x / (256 * 256)) 256 ltac:(lia)) as E2. rewrite Z.div_div in E2 by lia.
  rewrite (Z.mod_small (x / 2 ^ 24)); [change (2 ^ 8) with 256; change (2 ^ 16) with (256 * 256);
    change (2 ^ 24) with (256 * 256 * 256); lia|].
  split; [apply Z.div_pos; lia|apply Z.div_lt_upper_bound; lia].
Qed.

Definition ranged (s : words8) : Prop :=
  let '(s0, s1, s2, s3, s4, s5, s6, s7) := s in Forall (fun x => 0 <= x < 2 ^ 32) [s0; s1; s2; s3; s4; s5; s6; s7].

Lemma add_words_ranged s t : ranged (add_words s t).
Proof.
  destruct s as [[[[[[[s0 s1] s2] s3] s4] s5] s6] s7], t as [[[[[[[a b] c] d] e] f] g] h].
  unfold add_words, ranged. repeat constructor; apply Z.mod_pos_bound; done.
Qed.

Lemma write_words_block s : ranged s -> block_words (write_words s ++ padding2) = third_block s.
Proof.
  destruct s as [[[[[[[s0 s1] s2] s3] s4] s5] s6] s7]. intros H.
  repeat (apply Forall_cons in H as [? H]).
  unfold block_words. cbn [seq fmap list_fmap]. unfold third_block.
  do 16 (apply (f_equal2 cons); [cbv [ReadBE32 byte_at]; cbn -[Z.pow Z.div Z.modulo Z.mul Z.add]; first [by apply read_back|reflexivity]|]).
  done.
Qed.

Lemma fips_sha256_64 chunk :
  length chunk = 64%nat ->
  fips_sha256 chunk =
    write_words (fips_compress (fips_compress Initialize (block_words chunk)) (block_words padding1)).
Proof.
  intros H. unfold fips_sha256. rewrite fips_H0_eq. unfold fips_pad, len. rewrite H.
  change (0x80 :: repeat 0 (Z.to_nat ((55 - Z.of_nat 64) mod 64)) ++ WriteBE64 (8 * Z.of_nat 64)) with padding1.
  rewrite length_app, H. change ((64 + length padding1) / 64)%nat with (1 + 1)%nat.
  rewrite fips_blocks_app by done. by rewrite !fips_blocks_one.
Qed.

Lemma fips_sha256_32 s :
  ranged s -> fips_sha256 (write_words s) = write_words (fips_compress Initialize (third_block s)).
Proof.
  intros Hs. rewrite <-(write_words_block s Hs). unfold fips_sha256. rewrite fips_H0_eq. unfold fips_pad.
  assert (len (write_words s) = 32) as -> by (by destruct s as [[[[[[[s0 s1] s2] s3] s4] s5] s6] s7]).
  change (0x80 :: repeat 0 (Z.to_nat ((55 - 32) mod 64)) ++ WriteBE64 (8 * 32)) with padding2.
  assert (length (write_words s ++ padding2) = 64%nat) as -> by (by destruct s as [[[[[[[s0 s1] s2] s3] s4] s5] s6] s7]).
  change (64 / 64)%nat with 1%nat. by rewrite fips_blocks_one.
Qed.

Lemma TransformD64_fips chunk : length chunk = 64%nat -> TransformD64 chunk = fips_sha256 (fips_sha256 chunk).
Proof.
  intros H. unfold TransformD64, TransformD64_1.
  rewrite TransformD64_3_fips, TransformD64_2_fips, (add_words_comm (Rounds64 _ _)), transform_turn.
  rewrite (fips_sha256_64 chunk H). symmetry. apply fips_sha256_32. apply add_words_ranged.
Qed.

(** C18: the shortcut for Merkle trees.  [SHA256D64], with the padding of both
    hashes folded into its round constants and its message schedule, gives
    for each of its inputs of 64 bytes the SHA-256 of their SHA-256. *)
Theorem sha256d64_exact (chunks : list (list Z)) :
  Forall (fun chunk => length chunk = 64%nat) chunks ->
  SHA256D64 (concat chunks) (length chunks) = concat ((fun chunk => fips_sha256 (fips_sha256 chunk)) <$> chunks).
Proof.
  induction 1 as [|chunk chunks H Hs IH]; [done|]. rewrite fmap_cons. cbn [concat length SHA256D64].
  rewrite <-IH, <-(TransformD64_fips chunk H). f_equal; [|by rewrite <-H, drop_app_length].
  unfold TransformD64, TransformD64_1. by rewrite !Rounds64_turned, block_words_app.
Qed.

Lemma sha256d64_exact_witness :
  Forall (fun chunk => length chunk = 64%nat) [repeat 1 64; repeat 255 64] /\
  SHA256D64 (concat [repeat 1 64; repeat 255 64]) 2 =
    concat ((fun chunk => fips_sha256 (fips_sha256 chunk)) <$> [repeat 1 64; repeat 255 64]).
Proof.
  assert (Forall (fun chunk => length chunk = 64%nat) [repeat 1 64; repeat 255 64]) as H by (repeat constructor).
  split; [exact H|]. exact (sha256d64_exact [repeat 1 64; repeat 255 64] H).
Defined.
