(* ===== verification/Hybrid.v ===== *)
(** * The node: block headers, mining algorithms and the hybrid rules

    primitives/block.h and block.cpp, crypto/multihash.cpp, crypto/scrypt.cpp,
    crypto/groestl.cpp, pow_dispatch.cpp, consensus/hybrid.cpp and
    consensus/pos_stub.cpp: how a header names its mining algorithm, what is
    hashed, the per-algorithm difficulty of the "hybrid" functions, and the
    stake kernel.  A hash is a list of 32 bytes where bytes are written, and
    the number they stand for, least significant byte first, elsewhere.

    pow_dispatch.cpp calls the SHA256 of OpenSSL; it is a parameter. *)

From Stdlib Require Import ZArith Lia.
From stdpp Require Import base tactics strings numbers list.
From S2P Require Import NodeBase Arith256 Sha256.

Open Scope Z_scope.

(** ** The enumerations *)

(** [AlgoType] has eight bits, so it also has values without a name. *)
Inductive AlgoType := SHA256D | SCRYPT | GROESTL | POS | Unnamed (n : Z).

#[export] Instance algo_eq_dec : EqDecision AlgoType.
Proof. solve_decision. Defined.

Definition algo_number (a : AlgoType) : Z :=
  match a with SHA256D => 0 | SCRYPT => 1 | GROESTL => 2 | POS => 3 | Unnamed n => n end.

Definition algo_of (n : Z) : AlgoType :=
  if decide (n = 0) then SHA256D else if decide (n = 1) then SCRYPT
  else if decide (n = 2) then GROESTL else if decide (n = 3) then POS else Unnamed n.

(** [MiningAlgorithm] is used as a number. *)
Definition ALGO_COUNT : Z := 3.
Definition ALGO_WEIGHTS : list Z := [33; 33; 34].
Definition BLOCK_TYPE_POW : Z := 0.
Definition BLOCK_TYPE_POS : Z := 1.

Definition SelectNextAlgo (height : Z) : AlgoType :=
  let m := Z.rem height 3 in
  if decide (m = 0) then SHA256D else if decide (m = 1) then SCRYPT else GROESTL.

Definition AlgoName (a : AlgoType) : string :=
  match a with
  | SHA256D => "sha256d"
  | SCRYPT => "scrypt"
  | GROESTL => "groestl"
  | POS => "pos"
  | Unnamed _ => "unknown"
  end.

(** ** Headers *)

Record CBlockHeader := mkBlockHeader
  { h_nVersion : Z;
    h_hashPrevBlock : Z;
    h_hashMerkleRoot : Z;
    h_nTime : Z;
    h_nBits : Z;
    h_nNonce : Z;
    h_nAlgorithm : Z;
    h_nBlockType : Z }.

Definition GetAlgoType (h : CBlockHeader) : AlgoType :=
  if decide (0x20000000 <= h_nVersion h) then algo_of (Z.land (Z.shiftr (h_nVersion h) 28) 7)
  else SHA256D.

Definition SetAlgoType (h : CBlockHeader) (algo : AlgoType) : CBlockHeader :=
  mkBlockHeader (Z.lor 0x20000000 (Z.shiftl (algo_number algo) 28)) (h_hashPrevBlock h) (h_hashMerkleRoot h)
    (h_nTime h) (h_nBits h) (h_nNonce h) (algo_number algo) (h_nBlockType h).

Definition GetAlgorithm (h : CBlockHeader) : Z := h_nAlgorithm h mod ALGO_COUNT.
Definition IsProofOfStake (h : CBlockHeader) : bool := bool_decide (h_nBlockType h = BLOCK_TYPE_POS).
Definition IsProofOfWork (h : CBlockHeader) : bool := bool_decide (h_nBlockType h = BLOCK_TYPE_POW).

(** ** Hashing *)

(** [n] bytes of [x], the least significant first, and back. *)
Fixpoint le_bytes (n : nat) (x : Z) : list Z :=
  match n with O => [] | S n => x mod 256 :: le_bytes n (x / 256) end.
Fixpoint le_value (l : list Z) : Z :=
  match l with [] => 0 | b :: l => b + 256 * le_value l end.

(** A [CSHA256] used once; what its buffer holds at first does not matter. *)
Definition sha256 (data : list Z) : list Z := (sha_Finalize (sha_Write (new_sha (repeat 0 64)) data)).1.
Definition sha256d (data : list Z) : list Z := sha256 (sha256 data).

(** [CScrypt] and [CGroestl]: the memory at [pimpl], if there is any. *)
Record CScrypt := mkScrypt { scrypt_pimpl : option (list Z) }.
Definition scrypt_new : CScrypt := mkScrypt None.
Definition scrypt_Write (c : CScrypt) (data : list Z) : CScrypt := mkScrypt (Some (sha256 data)).
Definition scrypt_Finalize (c : CScrypt) : list Z := default (repeat 0 32) (scrypt_pimpl c).
Definition scrypt_Hash (input : list Z) : list Z := scrypt_Finalize (scrypt_Write scrypt_new input).

Record CGroestl := mkGroestl { groestl_pimpl : option (list Z) }.
Definition groestl_new : CGroestl := mkGroestl None.
Definition groestl_Write (c : CGroestl) (data : list Z) : CGroestl := mkGroestl (Some (sha256 data)).
Definition groestl_Finalize (c : CGroestl) : list Z := default (repeat 0 32) (groestl_pimpl c).
Definition groestl_Hash (input : list Z) : list Z := groestl_Finalize (groestl_Write groestl_new input).

(** [CMultiHash::Hash]. *)
Definition MultiHash (data : list Z) (algo : Z) : list Z :=
  if decide (algo = 0) then sha256d data
  else if decide (algo = 1) then scrypt_Hash data
  else if decide (algo = 2) then groestl_Hash data
  else sha256d data.

(** [CBlockHeader::GetHash]: the fields up to the nonce are serialized and
    hashed twice, and the result goes through the algorithm of the header. *)
Definition header_bytes (h : CBlockHeader) : list Z :=
  le_bytes 4 (h_nVersion h) ++ le_bytes 32 (h_hashPrevBlock h) ++ le_bytes 32 (h_hashMerkleRoot h) ++
  le_bytes 4 (h_nTime h) ++ le_bytes 4 (h_nBits h) ++ le_bytes 4 (h_nNonce h).

Definition GetHash (h : CBlockHeader) : Z :=
  le_value (MultiHash (sha256d (header_bytes h)) (GetAlgorithm h)).

Section OpenSSL.
Variable openssl_SHA256 : list Z -> list Z.

(** pow_dispatch.cpp; a value without a case leaves the result unset. *)
Definition dispatch_PoWHash (header : list Z) (algo : AlgoType) : verdict (list Z) :=
  match algo with
  | SHA256D => mret (openssl_SHA256 (openssl_SHA256 header))
  | SCRYPT => mret (scrypt_Hash header)
  | GROESTL => mret (groestl_Hash header)
  | POS => mret (repeat 0 32)
  | Unnamed _ => Err (Aborted "uninitialized hash")
  end.

(** [GetPoWHash] of pow.cpp. *)
Definition GetPoWHash (hdr : CBlockHeader) : verdict Z :=
  hash ← dispatch_PoWHash (repeat 0 80) (GetAlgoType hdr);
  mret (le_value hash).
End OpenSSL.

(** ** consensus/hybrid.cpp: difficulty per algorithm *)

(** The loop over [N] blocks, with the solve time the code has in place of
    the real one. *)
Definition lwma_sums (N : nat) (T : Z) : Z * Z :=
  foldl (fun sums i =>
    let weight := Z.of_nat N - Z.of_nat i in
    let solveTime := T in
    (u64 (sums.1 + u64 (solveTime * weight)), u64 (sums.2 + weight))) (0, 0) (seq 0 N).

Definition lwma (T height : Z) : verdict Z :=
  let N := 144%nat in
  if decide (height < Z.of_nat N) then mret 0x1d00ffff
  else
    let '(weightedSum, weightSum) := lwma_sums N T in
    _ ← assert_that (negb (bool_decide (weightSum = 0))) "division by zero";
    let avgSolveTime := weightedSum / weightSum in
    let targetSpacing := T in
    let newTarget := u64 (avgSolveTime * 0x1d00ffff) / targetSpacing in
    let newTarget := if decide (0x1d00ffff * 4 < newTarget) then 0x1d00ffff * 4 else newTarget in
    let newTarget := if decide (newTarget < 0x1d00ffff / 4) then 0x1d00ffff / 4 else newTarget in
    mret (u32 newTarget).

Definition HybridWorkSHA256 (height : Z) : verdict Z := lwma 600 height.
Definition HybridWorkScrypt (height : Z) : verdict Z := lwma 600 height.
Definition HybridWorkGroestl (height : Z) : verdict Z := lwma 600 height.
Definition HybridStakeTarget (height : Z) : verdict Z := lwma 150 height.

(** ** consensus/pos_stub.cpp: the stake kernel *)

Record StakeInputRef := mkStakeInput { st_amount : Z; st_nTime : Z }.
Record PosKernel := mkPosKernel { stakeModifier : Z; nTimeTx : Z }.

Definition kernel_hash (data : Z) : Z :=
  foldl (fun hash _ => Z.land (u64 (hash * 1103515245 + 12345)) 0x7fffffff) data (seq 0 8).

(** [now] is the time of the call. *)
Definition stake_weight (now : Z) (input : StakeInputRef) : Z :=
  let coinAge := u32 (u32 now - st_nTime input) in
  let coinAge := if decide (7776000 < coinAge) then 7776000 else coinAge in
  u64 (st_amount input * (1 + coinAge / 86400)).

Definition CheckProofOfStake (now : Z) (input : StakeInputRef) (kernel : PosKernel) (stakeTarget : Z) : bool :=
  let kernelData := Z.lxor (Z.lxor (stakeModifier kernel) (nTimeTx kernel)) (st_amount input) in
  let hash := kernel_hash kernelData in
  let target := u64 (stakeTarget * stake_weight now input) in
  bool_decide (hash < target).

Definition ComputeStakeModifier (prevModifier : Z) (seed : list Z) : Z :=
  foldl (fun acc c => Z.lxor (u64 (acc * 131)) c) prevModifier seed.

Definition IsValidCoinstakeTimestamp (now nTimeTx : Z) : bool :=
  let currentTime := u32 now in
  if decide (nTimeTx < u32 (currentTime - 7200)) then false
  else if decide (u32 (currentTime + 7200) < nTimeTx) then false
  else bool_decide (nTimeTx mod 150 = 0).

(** ** Facts *)

Lemma sha256_fips data : len data < 2 ^ 61 -> sha256 data = fips_sha256 data.
Proof.
  intros Hl. unfold sha256.
  destruct (write_buffered _ _ _ data (new_sha_buffered (repeat 0 64) eq_refl)) as (m1 & m2 & E & Hc).
  { simpl. unfold len in *. simpl. lia. }
  cbn [app] in E. rewrite <-E in *. by apply (finalize_fips _ m1 m2).
Qed.

Lemma algo_of_set h a :
  GetAlgoType (SetAlgoType h a) = GetAlgoType (mkBlockHeader (Z.lor 0x20000000 (Z.shiftl (algo_number a) 28)) 0 0 0 0 0 0 0).
Proof. done. Qed.

(** The version field cannot carry the algorithm.  Bit 29 marks a hybrid
    block and is also the middle bit of the algorithm number, so a header set
    to SHA256d reads back as Groestl and one set to Scrypt as proof of stake;
    only Groestl and proof of stake read back as themselves. *)
Theorem algorithm_not_kept (h : CBlockHeader) :
  GetAlgoType (SetAlgoType h SHA256D) = GROESTL /\
  GetAlgoType (SetAlgoType h SCRYPT) = POS /\
  GetAlgoType (SetAlgoType h GROESTL) = GROESTL /\
  GetAlgoType (SetAlgoType h POS) = POS.
Proof. rewrite !algo_of_set. repeat split; vm_compute; reflexivity. Qed.

(** The "Scrypt" and "Groestl" of the node are one SHA-256.  Both give
    the plain SHA-256 of their input, so the two algorithms never differ, and
    a second call of [Write] forgets what the first one hashed. *)
Theorem scrypt_groestl_are_sha256 (data more : list Z) :
  len data < 2 ^ 61 -> len more < 2 ^ 61 ->
  scrypt_Hash data = fips_sha256 data /\ groestl_Hash data = fips_sha256 data /\
  MultiHash data 1 = MultiHash data 2 /\
  scrypt_Finalize (scrypt_Write (scrypt_Write scrypt_new data) more) = fips_sha256 more /\
  groestl_Finalize (groestl_Write (groestl_Write groestl_new data) more) = fips_sha256 more.
Proof.
  intros Hd Hm. unfold scrypt_Hash, groestl_Hash, scrypt_Finalize, groestl_Finalize, MultiHash.
  cbn [scrypt_Write groestl_Write scrypt_pimpl groestl_pimpl default]. rewrite !sha256_fips by done.
  by repeat split.
Qed.

Lemma scrypt_groestl_are_sha256_witness :
  len [1; 2; 3] < 2 ^ 61 /\
  scrypt_Hash [1; 2; 3] = fips_sha256 [1; 2; 3] /\ groestl_Hash [1; 2; 3] = fips_sha256 [1; 2; 3].
Proof.
  assert (len [1; 2; 3] < 2 ^ 61) as H by (vm_compute; reflexivity).
  split; [exact H|]. destruct (scrypt_groestl_are_sha256 [1; 2; 3] [1; 2; 3] H H) as (E1 & E2 & _).
  split; [exact E1|exact E2].
Defined.

(** The hash of 80 zero bytes, once with SHA-256 and twice. *)
Definition zero_header_hash : Z := le_value (sha256 (repeat 0 80)).
Definition zero_header_hash2 : Z := le_value (sha256d (repeat 0 80)).

(** What proof of work is checked against: a function of the version alone. *)
Lemma pow_hash_of_version openssl h :
  (forall data, len data < 2 ^ 61 -> openssl data = fips_sha256 data) ->
  GetPoWHash openssl h =
    match GetAlgoType h with
    | SHA256D => Ok zero_header_hash2
    | SCRYPT => Ok zero_header_hash
    | GROESTL => Ok zero_header_hash
    | POS => Ok 0
    | Unnamed _ => Err (Aborted "uninitialized hash")
    end.
Proof.
  intros Ho. unfold GetPoWHash. destruct (GetAlgoType h); try done.
  cbn [dispatch_PoWHash mret verdict_ret mbind verdict_bind].
  unfold zero_header_hash2, sha256d. rewrite (Ho (repeat 0 80)), <-(sha256_fips (repeat 0 80)) by done.
  assert (len (sha256 (repeat 0 80)) < 2 ^ 61) as H by (vm_compute; reflexivity).
  by rewrite (Ho (sha256 (repeat 0 80)) H), <-sha256_fips.
Qed.

(** ** Difficulty *)

(** The hybrid difficulty never moves.  The solve times the loop averages
    are the target spacing itself, so at every height all four functions give
    the difficulty of the first block. *)
Theorem hybrid_difficulty_constant (height : Z) :
  HybridWorkSHA256 height = Ok 0x1d00ffff /\ HybridWorkScrypt height = Ok 0x1d00ffff /\
  HybridWorkGroestl height = Ok 0x1d00ffff /\ HybridStakeTarget height = Ok 0x1d00ffff.
Proof.
  unfold HybridWorkSHA256, HybridWorkScrypt, HybridWorkGroestl, HybridStakeTarget, lwma.
  destruct (decide (height < Z.of_nat 144)); repeat split; try done; vm_compute; reflexivity.
Qed.

(** ** The stake kernel *)

Lemma kernel_hash_small data : 0 <= kernel_hash data < 2 ^ 31.
Proof.
  unfold kernel_hash. change (seq 0 8) with (seq 0 7 ++ [7%nat]). rewrite foldl_app. cbn [foldl].
  change 0x7fffffff with (Z.ones 31). rewrite Z.land_ones by done. by apply Z.mod_pos_bound.
Qed.

(** The stake kernel is no lottery.  The kernel hash has 31 bits; whenever
    target times weight is at least 2^31 and does not overflow 64 bits, every
    kernel passes, so neither the stake modifier nor the time is of any
    consequence, and with an amount of zero none passes. *)
Theorem stake_kernel_vacuous (now : Z) (input : StakeInputRef) (kernel : PosKernel) (stakeTarget : Z) :
  (2 ^ 31 <= stakeTarget * stake_weight now input < 2 ^ 64 -> CheckProofOfStake now input kernel stakeTarget = true) /\
  (st_amount input = 0 -> CheckProofOfStake now input kernel stakeTarget = false).
Proof.
  pose proof (kernel_hash_small (Z.lxor (Z.lxor (stakeModifier kernel) (nTimeTx kernel)) (st_amount input))) as Hk.
  unfold CheckProofOfStake. split; intros H.
  - apply bool_decide_eq_true. unfold u64. rewrite Z.mod_small; lia.
  - apply bool_decide_eq_false. unfold stake_weight. rewrite H, Z.mul_0_l. change (u64 0) with 0.
    rewrite Z.mul_0_r. change (u64 0) with 0. rewrite H in Hk. lia.
Qed.

Lemma stake_kernel_vacuous_witness :
  2 ^ 31 <= 1 * stake_weight 1000086400 (mkStakeInput (1000 * COIN) 1000000000) < 2 ^ 64 /\
  CheckProofOfStake 1000086400 (mkStakeInput (1000 * COIN) 1000000000) (mkPosKernel 0x1234567890abcdef 1000086400) 1 = true.
Proof.
  assert (2 ^ 31 <= 1 * stake_weight 1000086400 (mkStakeInput (1000 * COIN) 1000000000) < 2 ^ 64) as H
    by (vm_compute; split; [discriminate|reflexivity]).
  split; [exact H|].
  apply (stake_kernel_vacuous 1000086400 (mkStakeInput (1000 * COIN) 1000000000)
    (mkPosKernel 0x1234567890abcdef 1000086400) 1). exact H.
Defined.
