(* ===== verification/Pow.v ===== *)
(** * The node: proof of work

    pow.cpp and the work of a block in chain.cpp, on the 256-bit numbers of
    the node: the next target of a chain, for the ordinary and the
    multi-algorithm rules, the check a header chain is synchronised with, the
    proof of work check itself and the work a target stands for. *)

From Stdlib Require Import ZArith Lia.
From stdpp Require Import base tactics strings numbers list.
From S2P Require Import NodeBase BlockIndex Arith256 Compact Sha256 Hybrid.

Open Scope Z_scope.

(** [UintToArith256], on the number a hash stands for. *)
Definition UintToArith256 (x : Z) : limbs := (fun i => u32 (Z.shiftr x (32 * Z.of_nat i))) <$> seq 0 WIDTH.

(** ** The next target *)

Definition clamp_timespan (p : Params) (t : Z) : Z :=
  let t := if decide (t < Z.quot (nPowTargetTimespan p) 4) then Z.quot (nPowTargetTimespan p) 4 else t in
  if decide (nPowTargetTimespan p * 4 < t) then nPowTargetTimespan p * 4 else t.

Definition at_most (x limit : limbs) : limbs := if decide (0 < CompareTo x limit) then limit else x.

(** [bn.SetCompact(bits); bn *= t; bn /= timespan]; both operands are
    converted to an unsigned type first. *)
Definition scaled (bits t timespan : Z) : verdict limbs :=
  div (mul32 (target bits) (u32 t)) (of_uint64 (u64 timespan)).

Definition CalculateNextWorkRequired (b : block_info) (nFirstBlockTime : Z) (p : Params) : verdict Z :=
  if fPowNoRetargeting p then mret (bi_nBits b)
  else
    let nActualTimespan := clamp_timespan p (bi_nTime b - nFirstBlockTime) in
    bnNew ← scaled (bi_nBits b) nActualTimespan (nPowTargetTimespan p);
    GetCompact (at_most bnNew (UintToArith256 (powLimit p))).

(** The loop that looks for the last block not of minimal difficulty. *)
Fixpoint last_real_bits (i : CBlockIndex) (limit : Z) (p : Params) : verdict Z :=
  match i with
  | nullptr => Err (Aborted "null pointer")
  | Block b pprev _ =>
      if negb (is_null pprev) && bool_decide (Z.rem (bi_nHeight b) (DifficultyAdjustmentInterval p) <> 0)
         && bool_decide (bi_nBits b = limit)
      then last_real_bits pprev limit p
      else mret (bi_nBits b)
  end.

(** What the two functions for the next target share; [calculate] is the last
    step, and a null [pblock] is [None]. *)
Definition next_work (pindexLast : CBlockIndex) (pblock : option CBlockHeader) (p : Params)
    (calculate : block_info -> Z -> verdict Z) : verdict Z :=
  match pindexLast with
  | nullptr => Err (Aborted "pindexLast != nullptr")
  | Block b _ _ =>
      nProofOfWorkLimit ← GetCompact (UintToArith256 (powLimit p));
      if decide (Z.rem (bi_nHeight b + 1) (DifficultyAdjustmentInterval p) <> 0) then
        if fPowAllowMinDifficultyBlocks p then
          match pblock with
          | None => Err (Aborted "null pointer")
          | Some h =>
              if decide (bi_nTime b + nPowTargetSpacing p * 2 < h_nTime h) then mret nProofOfWorkLimit
              else last_real_bits pindexLast nProofOfWorkLimit p
          end
        else mret (bi_nBits b)
      else
        let nHeightFirst := bi_nHeight b - (DifficultyAdjustmentInterval p - 1) in
        _ ← assert_that (bool_decide (0 <= nHeightFirst)) "nHeightFirst >= 0";
        pindexFirst ← GetAncestor pindexLast nHeightFirst;
        match pindexFirst with
        | nullptr => Err (Aborted "pindexFirst")
        | Block first _ _ => calculate b (bi_nTime first)
        end
  end.

Definition GetNextWorkRequired (pindexLast : CBlockIndex) (pblock : option CBlockHeader) (p : Params) : verdict Z :=
  next_work pindexLast pblock p (fun b t => CalculateNextWorkRequired b t p).

Definition CalculateNextWorkRequiredMultiAlgo (b : block_info) (nFirstBlockTime : Z) (p : Params) (algo : Z) : verdict Z :=
  if fPowNoRetargeting p then mret (bi_nBits b)
  else
    let nActualTimespan := clamp_timespan p (bi_nTime b - nFirstBlockTime) in
    bnNew ← scaled (bi_nBits b) nActualTimespan (nPowTargetTimespan p);
    let algoWeight := ALGO_WEIGHTS !!! Z.to_nat algo in
    bnNew ← div (mul32 bnNew 100) (of_uint64 algoWeight);
    GetCompact (at_most bnNew (UintToArith256 (powLimit p))).

Definition GetNextWorkRequiredMultiAlgo (pindexLast : CBlockIndex) (pblock : option CBlockHeader) (p : Params) : verdict Z :=
  match pindexLast, pblock with
  | nullptr, _ => Err (Aborted "pindexLast != nullptr")
  | _, None => Err (Aborted "null pointer")
  | _, Some h => next_work pindexLast pblock p (fun b t => CalculateNextWorkRequiredMultiAlgo b t p (GetAlgorithm h))
  end.

(** The functions of the hybrid rules the miner calls. *)
Definition GetNextWorkRequiredSHA256 (pindexLast : CBlockIndex) (p : Params) : verdict Z := GetNextWorkRequired pindexLast None p.
Definition GetNextWorkRequiredScrypt (pindexLast : CBlockIndex) (p : Params) : verdict Z := GetNextWorkRequired pindexLast None p.
Definition GetNextWorkRequiredGroestl (pindexLast : CBlockIndex) (p : Params) : verdict Z := GetNextWorkRequired pindexLast None p.
Definition GetNextStakeTarget (pindexLast : CBlockIndex) (p : Params) : verdict Z := GetCompact (UintToArith256 (powLimit p)).

(** ** Checks *)

(** A bound on the next target, rounded as the compact format rounds. *)
Definition rounded_bound (p : Params) (old_bits timespan : Z) : verdict limbs :=
  x ← scaled old_bits timespan (nPowTargetTimespan p);
  c ← GetCompact (at_most x (UintToArith256 (powLimit p)));
  mret (target c).

Definition PermittedDifficultyTransition (p : Params) (height old_bits new_bits : Z) : verdict bool :=
  if fPowAllowMinDifficultyBlocks p then mret true
  else if decide (Z.rem height (DifficultyAdjustmentInterval p) = 0) then
    let observed_new_target := target new_bits in
    maximum_new_target ← rounded_bound p old_bits (nPowTargetTimespan p * 4);
    if decide (CompareTo maximum_new_target observed_new_target < 0) then mret false
    else
      minimum_new_target ← rounded_bound p old_bits (Z.quot (nPowTargetTimespan p) 4);
      if decide (0 < CompareTo minimum_new_target observed_new_target) then mret false else mret true
  else mret (bool_decide (old_bits = new_bits)).

(** The part both checks share: the target, when it is in range. *)
Definition in_range_target (bits : Z) (p : Params) : option limbs :=
  let '(bnTarget, fNegative, fOverflow) := SetCompact bits in
  if fNegative || EqualTo bnTarget 0 || fOverflow || bool_decide (0 < CompareTo bnTarget (UintToArith256 (powLimit p)))
  then None else Some bnTarget.

Definition CheckProofOfWork (hash bits : Z) (p : Params) : bool :=
  match in_range_target bits p with
  | None => false
  | Some bnTarget => negb (bool_decide (0 < CompareTo (UintToArith256 hash) bnTarget))
  end.

Definition CheckProofOfWorkMultiAlgo (hash bits : Z) (p : Params) (algo : Z) : verdict bool :=
  match in_range_target bits p with
  | None => mret false
  | Some bnTarget =>
      let algoWeight := ALGO_WEIGHTS !!! Z.to_nat algo in
      bnTarget ← div (mul32 bnTarget algoWeight) (of_uint64 100);
      mret (negb (bool_decide (0 < CompareTo (UintToArith256 hash) bnTarget)))
  end.

(** [GetBlockProof] of chain.cpp. *)
Definition GetBlockProof (bits : Z) : verdict limbs :=
  let '(bnTarget, fNegative, fOverflow) := SetCompact bits in
  if fNegative || fOverflow || EqualTo bnTarget 0 then mret (of_uint64 0)
  else
    q ← div (bnot bnTarget) (add bnTarget (of_uint64 1));
    mret (add q (of_uint64 1)).

(** ** Numbers *)

Lemma uint_limbs x k n :
  0 <= x -> value ((fun i => u32 (Z.shiftr x (32 * Z.of_nat i))) <$> seq k n) =
  (x / W ^ Z.of_nat k) mod W ^ Z.of_nat n.
Proof.
  intros Hx. revert k. induction n as [|n IH]; intros k.
  { simpl. by rewrite Z.mod_1_r. }
  cbn [seq]. rewrite fmap_cons. cbn [value]. rewrite IH, (Wpow_S n).
  pose proof (Wpow_pos k). pose proof (Wpow_pos n). pose proof W_pos.
  rewrite Z.rem_mul_r by lia. unfold u32. rewrite Z.shiftr_div_pow2 by lia.
  replace (2 ^ (32 * Z.of_nat k)) with (W ^ Z.of_nat k) by (unfold W; rewrite <-Z.pow_mul_r by lia; done).
  f_equal. f_equal. f_equal. rewrite Z.div_div by lia. f_equal. rewrite Wpow_S. lia.
Qed.

Lemma uint_value x : 0 <= x < 2 ^ 256 -> value (UintToArith256 x) = x /\ sized (UintToArith256 x).
Proof.
  intros Hx. unfold UintToArith256. rewrite uint_limbs by lia. split.
  - rewrite Z.div_1_r. apply Z.mod_small. done.
  - split; [by rewrite length_fmap, length_seq|]. apply Forall_fmap, Forall_true. intros i. apply Z.mod_pos_bound. done.
Qed.

Lemma compact_of_nonneg c : 0 <= c < 2 ^ 32 -> 0 <= compact_of c.
Proof.
  intros Hc. destruct (compact_range c Hc). unfold compact_of. case_decide.
  - apply Z.div_pos; [lia|apply Z.pow_pos_nonneg; lia].
  - apply Z.mul_nonneg_nonneg; [lia|apply Z.pow_nonneg; lia].
Qed.

Lemma at_most_value x l : sized x -> sized l -> value (at_most x l) = Z.min (value x) (value l) /\ sized (at_most x l).
Proof.
  intros Hx Hl. unfold at_most. rewrite compare_value by done.
  destruct (Z.compare_spec (value x) (value l)); case_decide; try lia; (split; [lia|done]).
Qed.

(** A word that stands for a target: not larger than [limit]. *)
Definition word_below (limit bits : Z) : Prop := 0 <= bits < 2 ^ 32 /\ compact_of bits <= limit.

Lemma scaled_value bits t ts :
  word_below (2 ^ 224) bits -> 0 <= t < 2 ^ 32 -> 0 < ts < 2 ^ 32 -> exists n,
  scaled bits t ts = Ok n /\ value n = compact_of bits * t / ts /\ sized n.
Proof.
  intros [Hb Hl] Ht Hts. destruct (target_value bits Hb) as [Et St].
  pose proof (compact_of_nonneg bits Hb) as H0. rewrite Z.mod_small in Et by lia.
  unfold scaled. unfold u32, W. rewrite (Z.mod_small t) by done.
  destruct (mul32_value (target bits) t St ltac:(unfold W; lia)) as [Em Sm].
  unfold u64. rewrite (Z.mod_small ts) by lia. destruct (of_uint64_value ts ltac:(lia)) as [Eo So].
  pose proof (div_value _ _ Sm So) as D. rewrite Eo in D. rewrite decide_False in D by lia.
  destruct D as (q & E & V & S). exists q. split_and!; [done| |done]. rewrite V, Em, Et.
  f_equal. apply Z.mod_small. nia.
Qed.

(** ** Parameters of a network that retargets *)

Record pow_params (p : Params) : Prop :=
  { pp_limit : 0 < powLimit p < 2 ^ 224;
    pp_timespan : 4 <= nPowTargetTimespan p < 2 ^ 30;
    pp_spacing : 0 < nPowTargetSpacing p <= nPowTargetTimespan p }.

Lemma main_pow_params g : pow_params (CMainParams g).
Proof. split; simpl; lia. Qed.

Lemma interval_pos p : pow_params p -> 1 <= DifficultyAdjustmentInterval p.
Proof.
  intros [_ _ Hs]. unfold DifficultyAdjustmentInterval. rewrite Z.quot_div_nonneg by lia.
  apply Z.div_le_lower_bound; lia.
Qed.

Lemma clamp_range p t :
  pow_params p ->
  Z.quot (nPowTargetTimespan p) 4 <= clamp_timespan p t <= nPowTargetTimespan p * 4.
Proof.
  intros [_ Ht _]. unfold clamp_timespan. rewrite Z.quot_div_nonneg by lia.
  pose proof (Z.div_le_upper_bound (nPowTargetTimespan p) 4 (nPowTargetTimespan p) ltac:(lia) ltac:(lia)).
  repeat case_decide; lia.
Qed.

Lemma quarter_range p : pow_params p -> 1 <= Z.quot (nPowTargetTimespan p) 4 <= nPowTargetTimespan p.
Proof.
  intros [_ Ht _]. rewrite Z.quot_div_nonneg by lia. split.
  - apply Z.div_le_lower_bound; lia.
  - apply Z.div_le_upper_bound; lia.
Qed.

(** The target after [t] seconds, before it is written as a word. *)
Definition retargeted (p : Params) (bits t : Z) : Z := Z.min (compact_of bits * t / nPowTargetTimespan p) (powLimit p).

Lemma retargeted_range p bits t :
  pow_params p -> word_below (powLimit p) bits -> 0 <= t -> 0 <= retargeted p bits t <= powLimit p.
Proof.
  intros [Hl Ht _] [Hb _] Ht0. pose proof (compact_of_nonneg bits Hb). unfold retargeted.
  assert (0 <= compact_of bits * t / nPowTargetTimespan p) by (apply Z.div_pos; [apply Z.mul_nonneg_nonneg; lia|lia]). lia.
Qed.

Lemma retarget_number p bits t :
  pow_params p -> word_below (powLimit p) bits -> 0 <= t <= nPowTargetTimespan p * 4 -> exists n,
  scaled bits t (nPowTargetTimespan p) = Ok n /\
  value (at_most n (UintToArith256 (powLimit p))) = retargeted p bits t /\
  sized (at_most n (UintToArith256 (powLimit p))).
Proof.
  intros [Hl Ht _] [Hb Hw] Htt.
  destruct (scaled_value bits t (nPowTargetTimespan p)) as (n & E & V & S); [split; lia|lia|lia|].
  destruct (uint_value (powLimit p) ltac:(lia)) as [El Sl].
  destruct (at_most_value n _ S Sl) as [Ea Sa]. exists n. by rewrite Ea, El, V.
Qed.

Lemma rounded_bound_value p bits t :
  pow_params p -> word_below (powLimit p) bits -> 0 <= t <= nPowTargetTimespan p * 4 -> exists n,
  rounded_bound p bits t = Ok n /\ value n = compact_round (retargeted p bits t) /\ sized n.
Proof.
  intros Hp Hw Ht. destruct (retarget_number p bits t Hp Hw Ht) as (n & E & V & S).
  unfold rounded_bound. rewrite E. cbn [mbind verdict_bind].
  destruct (rewrite_number _ S) as (c & m & Ec & Hc & Em & Sm & Vm). rewrite Ec.
  cbn [mbind verdict_bind mret verdict_ret]. exists (target c). unfold target. rewrite Em. cbn [fst]. by rewrite Vm, V.
Qed.

Lemma retarget_word p b first :
  pow_params p -> word_below (powLimit p) (bi_nBits b) -> fPowNoRetargeting p = false ->
  CalculateNextWorkRequired b first p =
    Ok (written_word (retargeted p (bi_nBits b) (clamp_timespan p (bi_nTime b - first)))).
Proof.
  intros Hp Hw Hr. unfold CalculateNextWorkRequired. rewrite Hr.
  pose proof (clamp_range p (bi_nTime b - first) Hp) as Hc. pose proof (quarter_range p Hp).
  destruct (retarget_number p (bi_nBits b) (clamp_timespan p (bi_nTime b - first)) Hp Hw ltac:(lia)) as (n & E & V & S).
  rewrite E. cbn [mbind verdict_bind]. by rewrite get_compact, V.
Qed.

Lemma word_of_number x limit : 0 <= x <= limit -> limit < 2 ^ 256 -> word_below limit (written_word x) /\ compact_of (written_word x) = compact_round x.
Proof.
  intros Hx Hl. destruct (written_word_ok x ltac:(lia)) as (Hw & Ew & _). pose proof (compact_round_le x ltac:(lia)).
  split; [split; [done|lia]|done].
Qed.

Lemma retargeted_mono p bits t u :
  pow_params p -> word_below (powLimit p) bits -> 0 <= t <= u -> retargeted p bits t <= retargeted p bits u.
Proof.
  intros [Hl Ht _] [Hb _] Htu. pose proof (compact_of_nonneg bits Hb). unfold retargeted.
  pose proof (Z.div_le_mono (compact_of bits * t) (compact_of bits * u) (nPowTargetTimespan p) ltac:(lia) ltac:(nia)). lia.
Qed.

(** ** The next target is one the header check permits *)

Lemma permitted_exact p height old new :
  pow_params p -> fPowAllowMinDifficultyBlocks p = false ->
  word_below (powLimit p) old -> word_below (powLimit p) new ->
  PermittedDifficultyTransition p height old new =
    Ok (if decide (Z.rem height (DifficultyAdjustmentInterval p) = 0)
        then bool_decide (compact_round (retargeted p old (Z.quot (nPowTargetTimespan p) 4)) <= compact_of new <=
                          compact_round (retargeted p old (nPowTargetTimespan p * 4)))
        else bool_decide (old = new)).
Proof.
  intros Hp Hm Ho [Hn Hnl]. unfold PermittedDifficultyTransition. rewrite Hm. case_decide; [|done].
  pose proof (quarter_range p Hp). pose proof (pp_limit p Hp).
  destruct (rounded_bound_value p old (nPowTargetTimespan p * 4) Hp Ho ltac:(lia)) as (mx & -> & Vx & Sx).
  destruct (rounded_bound_value p old (Z.quot (nPowTargetTimespan p) 4) Hp Ho ltac:(lia)) as (mn & -> & Vn & Sn).
  cbn [mbind verdict_bind mret verdict_ret]. destruct (target_value new Hn) as [Et St].
  pose proof (compact_of_nonneg new Hn). rewrite Z.mod_small in Et by lia.
  rewrite !compare_value by done. rewrite Vx, Vn, Et.
  destruct (Z.compare_spec (compact_round (retargeted p old (nPowTargetTimespan p * 4))) (compact_of new)),
    (Z.compare_spec (compact_round (retargeted p old (Z.quot (nPowTargetTimespan p) 4))) (compact_of new));
    repeat case_decide; try lia; unfold mret, verdict_ret; f_equal; symmetry;
    first [apply bool_decide_eq_true; lia|apply bool_decide_eq_false; lia].
Qed.

(** Keeping the target is permitted at any height. *)
Lemma permitted_same p height bits :
  pow_params p -> fPowAllowMinDifficultyBlocks p = false -> word_below (powLimit p) bits ->
  PermittedDifficultyTransition p height bits bits = Ok true.
Proof.
  intros Hp Hm Hw. rewrite permitted_exact by done. f_equal. case_decide; apply bool_decide_eq_true; [|done].
  pose proof (quarter_range p Hp). destruct Hp as [Hl Ht Hs], Hw as [Hb Hw].
  pose proof (compact_of_nonneg bits Hb). rewrite <-(compact_round_word bits Hb).
  assert (compact_of bits * nPowTargetTimespan p / nPowTargetTimespan p = compact_of bits) as E by (apply Z.div_mul; lia).
  split; apply compact_round_mono; unfold retargeted.
  - assert (0 <= compact_of bits * Z.quot (nPowTargetTimespan p) 4 / nPowTargetTimespan p) by (apply Z.div_pos; nia).
    pose proof (Z.div_le_mono (compact_of bits * Z.quot (nPowTargetTimespan p) 4) (compact_of bits * nPowTargetTimespan p)
      (nPowTargetTimespan p) ltac:(lia) ltac:(nia)). lia.
  - pose proof (Z.div_le_mono (compact_of bits * nPowTargetTimespan p) (compact_of bits * (nPowTargetTimespan p * 4))
      (nPowTargetTimespan p) ltac:(lia) ltac:(nia)). lia.
Qed.

Lemma next_work_step p i b prev skip pblock :
  pow_params p -> fPowAllowMinDifficultyBlocks p = false -> linked i -> i = Block b prev skip ->
  word_below (powLimit p) (bi_nBits b) -> exists bits,
  GetNextWorkRequired i pblock p = Ok bits /\ word_below (powLimit p) bits /\
  PermittedDifficultyTransition p (bi_nHeight b + 1) (bi_nBits b) bits = Ok true.
Proof.
  intros Hp Hm Hl Ei Hw. pose proof (interval_pos p Hp) as Hi. pose proof (pp_limit p Hp) as Hlim.
  pose proof (linked_height i Hl) as Ht. unfold GetNextWorkRequired, next_work. rewrite Ei in Ht |- *. cbn [top] in Ht.
  destruct (uint_value (powLimit p) ltac:(lia)) as [_ Sl]. rewrite (get_compact _ Sl). cbn [mbind verdict_bind].
  rewrite Hm. case_decide as Hr; [eexists; split_and!; [done|done|by apply permitted_same]|].
  assert (DifficultyAdjustmentInterval p <= bi_nHeight b + 1) as Hh.
  { rewrite Z.rem_mod_nonneg in Hr by lia. apply Z.mod_divide in Hr; [|lia]. apply Z.divide_pos_le; [lia|done]. }
  rewrite bool_decide_true by lia. cbn [assert_that negb reject_if mbind verdict_bind].
  rewrite <-Ei, get_ancestor by done. rewrite decide_False by (rewrite Ei; cbn [top]; lia). cbn [mbind verdict_bind].
  destruct (ancestor_found i (bi_nHeight b - (DifficultyAdjustmentInterval p - 1)) Hl) as [_ Hf].
  { rewrite Ei. cbn [top]. lia. }
  destruct (ancestor i _) as [|first fp fs]; [inversion Hf|].
  destruct (fPowNoRetargeting p) eqn:En.
  { exists (bi_nBits b). unfold CalculateNextWorkRequired. rewrite En. split_and!; [done|done|by apply permitted_same]. }
  rewrite retarget_word by done. set (t := clamp_timespan p (bi_nTime b - bi_nTime first)).
  pose proof (clamp_range p (bi_nTime b - bi_nTime first) Hp) as Hc. fold t in Hc. pose proof (quarter_range p Hp).
  pose proof (retargeted_range p (bi_nBits b) t Hp Hw ltac:(lia)) as Hrr.
  destruct (word_of_number (retargeted p (bi_nBits b) t) (powLimit p) Hrr ltac:(lia)) as [Hww Ew].
  eexists. split; [done|]. split; [done|]. rewrite permitted_exact by done. rewrite decide_True by done. f_equal.
  apply bool_decide_eq_true. rewrite Ew.
  pose proof (retargeted_range p (bi_nBits b) (Z.quot (nPowTargetTimespan p) 4) Hp Hw ltac:(lia)).
  split; apply compact_round_mono; (split; [lia|]); apply retargeted_mono; done || lia.
Qed.

(** A chain whose targets are the ones [ContextualCheckBlockHeader] asks for,
    from a first block with a target in range. *)
Inductive targets_follow (p : Params) : CBlockIndex -> Prop :=
| follow_first b : word_below (powLimit p) (bi_nBits b) -> targets_follow p (Block b nullptr nullptr)
| follow_next b prev skip pblock :
    targets_follow p prev -> GetNextWorkRequired prev pblock p = Ok (bi_nBits b) ->
    targets_follow p (Block b prev skip).

Lemma linked_prev b prev skip : linked (Block b prev skip) -> prev = nullptr \/ linked prev /\ bi_nHeight b = top prev + 1.
Proof. inversion 1; subst; [by left|by right]. Qed.

Lemma targets_below p i :
  pow_params p -> fPowAllowMinDifficultyBlocks p = false -> linked i -> targets_follow p i ->
  forall b prev skip, i = Block b prev skip -> word_below (powLimit p) (bi_nBits b).
Proof.
  intros Hp Hm Hl Hf. induction Hf as [b0 Hb|b0 prev0 skip0 pblock Hf IH Hn]; intros b prev skip [= <- <- <-]; [done|].
  destruct (linked_prev _ _ _ Hl) as [->|[Hl' _]]; [inversion Hf|].
  destruct prev0 as [|b' p' s']; [inversion Hf|].
  destruct (next_work_step p _ b' p' s' pblock Hp Hm Hl' eq_refl) as (bits & E & Hw & _); [by apply (IH Hl' _ _ _ eq_refl)|].
  rewrite Hn in E. by injection E as <-.
Qed.

(** C12: header synchronisation accepts what validation accepts.  On a network
    without the minimum difficulty exception, every chain whose targets are
    those the full rule asks for passes [PermittedDifficultyTransition] at
    every height, and no target of it exceeds the limit, however the
    timestamps go. *)
Theorem header_chain_permitted (p : Params) (i : CBlockIndex) (height : Z) (b prev : block_info) :
  pow_params p -> fPowAllowMinDifficultyBlocks p = false -> linked i -> targets_follow p i ->
  info (ancestor i height) = Some b -> info (ancestor i (height - 1)) = Some prev -> 0 < height ->
  word_below (powLimit p) (bi_nBits b) /\
  PermittedDifficultyTransition p height (bi_nBits prev) (bi_nBits b) = Ok true.
Proof.
  intros Hp Hm Hl Hf Hb Hprev Hh. induction Hf as [b0 Hb0|b0 prev0 skip0 pblock Hf IH Hn].
  { inversion Hl as [? H0|? ? Hnull]; subst; [|inversion Hnull].
    cbn [ancestor info] in Hb. by rewrite decide_False in Hb by lia. }
  destruct (linked_prev _ _ _ Hl) as [->|[Hl' Hb0]]; [inversion Hf|].
  cbn [ancestor] in Hb, Hprev. destruct (decide (bi_nHeight b0 = height)) as [<-|Hne].
  - injection Hb as <-. rewrite decide_False in Hprev by lia.
    destruct prev0 as [|b' p' s']; [inversion Hf|]. cbn [top] in Hb0.
    cbn [ancestor] in Hprev. rewrite decide_True in Hprev by lia. injection Hprev as <-.
    pose proof (targets_below p _ Hp Hm Hl' Hf _ _ _ eq_refl) as Hw.
    destruct (next_work_step p _ b' p' s' pblock Hp Hm Hl' eq_refl Hw) as (bits & E & Hwb & Hperm).
    rewrite Hn in E. injection E as <-. rewrite Hb0. done.
  - destruct (decide (bi_nHeight b0 = height - 1)) as [Eh|]; [|by apply IH].
    pose proof (linked_height _ Hl') as Ht. exfalso. clear IH Hf Hn Hl.
    assert (forall j k, linked j -> top j < k -> ancestor j k = nullptr) as none.
    { intros j k Hj. induction Hj as [c Hc|c q Hq IHq Hc]; cbn [ancestor top]; intros Hk.
      - by rewrite decide_False by lia.
      - rewrite decide_False by lia. apply IHq. lia. }
    rewrite none in Hb; [done|done|lia].
Qed.

(** Two blocks of the main network. *)
Definition demo_tip : CBlockIndex :=
  Block (mkInfo 2 1 1600 0x1d00ffff 1) (Block (mkInfo 1 1 1000 0x1d00ffff 0) nullptr nullptr)
    (Block (mkInfo 1 1 1000 0x1d00ffff 0) nullptr nullptr).

Lemma header_chain_permitted_witness :
  pow_params (CMainParams 1) /\ linked demo_tip /\ targets_follow (CMainParams 1) demo_tip /\
  PermittedDifficultyTransition (CMainParams 1) 1 0x1d00ffff 0x1d00ffff = Ok true.
Proof.
  pose proof (main_pow_params 1) as Hp.
  assert (linked demo_tip) as Hl.
  { apply (linked_next (mkInfo 2 1 1600 0x1d00ffff 1)); [by apply linked_genesis|reflexivity]. }
  assert (targets_follow (CMainParams 1) demo_tip) as Hf.
  { eapply (follow_next _ _ _ _ None); [apply follow_first; vm_compute; repeat split; discriminate|].
    vm_compute. reflexivity. }
  split; [exact Hp|]. split; [exact Hl|]. split; [exact Hf|].
  exact (proj2 (header_chain_permitted (CMainParams 1) demo_tip 1 (mkInfo 2 1 1600 0x1d00ffff 1)
    (mkInfo 1 1 1000 0x1d00ffff 0) Hp eq_refl Hl Hf eq_refl eq_refl ltac:(lia))).
Defined.

(** The retarget, exactly.  At the end of a period the new target is the
    old one times the time of the period, held between a quarter and four
    times the intended time, cut at the limit and rounded by the compact
    format; so it is never more than four times the old one.  No step of the
    256-bit arithmetic overflows. *)
Theorem retarget_exact (p : Params) (b : block_info) (nFirstBlockTime : Z) :
  pow_params p -> fPowNoRetargeting p = false -> word_below (powLimit p) (bi_nBits b) ->
  let t := Z.max (nPowTargetTimespan p / 4) (Z.min (nPowTargetTimespan p * 4) (bi_nTime b - nFirstBlockTime)) in
  exists bits, CalculateNextWorkRequired b nFirstBlockTime p = Ok bits /\
    compact_of bits = compact_round (Z.min (compact_of (bi_nBits b) * t / nPowTargetTimespan p) (powLimit p)) /\
    compact_of bits <= 4 * compact_of (bi_nBits b) /\ compact_of bits <= powLimit p.
Proof.
  intros Hp Hr Hw t. rewrite retarget_word by done.
  pose proof (pp_timespan p Hp) as Hts. pose proof (pp_limit p Hp) as Hlim. pose proof (quarter_range p Hp) as Hq.
  assert (clamp_timespan p (bi_nTime b - nFirstBlockTime) = t) as ->.
  { unfold clamp_timespan, t. rewrite Z.quot_div_nonneg in * by lia. repeat case_decide; lia. }
  assert (0 <= t <= nPowTargetTimespan p * 4) as Ht.
  { unfold t. rewrite Z.quot_div_nonneg in Hq by lia. lia. }
  pose proof (retargeted_range p (bi_nBits b) t Hp Hw ltac:(lia)) as Hrr.
  destruct (word_of_number (retargeted p (bi_nBits b) t) (powLimit p) Hrr ltac:(lia)) as [Hww Ew].
  eexists. split; [done|]. split; [done|]. pose proof (compact_round_le _ (proj1 Hrr)). rewrite Ew.
  pose proof (compact_of_nonneg _ (proj1 Hw)). split; [|lia]. unfold retargeted in *.
  assert (compact_of (bi_nBits b) * t / nPowTargetTimespan p <= 4 * compact_of (bi_nBits b)).
  { apply Z.div_le_upper_bound; nia. }
  lia.
Qed.

Lemma retarget_exact_witness :
  pow_params (CMainParams 1) /\ word_below (powLimit (CMainParams 1)) 0x1b0404cb /\
  exists bits, CalculateNextWorkRequired (mkInfo 2 1 1209600 0x1b0404cb 8063) 604800 (CMainParams 1) = Ok bits /\
    compact_of bits <= 4 * compact_of 0x1b0404cb.
Proof.
  pose proof (main_pow_params 1) as Hp.
  assert (word_below (powLimit (CMainParams 1)) 0x1b0404cb) as Hw by (vm_compute; repeat split; discriminate).
  split; [exact Hp|]. split; [exact Hw|].
  destruct (retarget_exact (CMainParams 1) (mkInfo 2 1 1209600 0x1b0404cb 8063) 604800 Hp eq_refl Hw)
    as (bits & E & _ & H4 & _).
  exists bits. split; [exact E|exact H4].
Defined.

(** A word that is a target, or one of the three reasons it is none. *)
Lemma set_compact_valid bits :
  0 <= bits < 2 ^ 32 -> exists n neg over, SetCompact bits = (n, neg, over) /\ sized n /\
  if decide (Z.testbit bits 23 = false /\ 0 < compact_of bits < 2 ^ 256)
  then neg = false /\ over = false /\ value n = compact_of bits
  else neg || over || bool_decide (value n = 0) = true.
Proof.
  intros Hb. destruct (set_compact bits Hb) as (n & neg & over & E & S & V & Hneg & Hover).
  exists n, neg, over. split; [done|]. split; [done|]. pose proof (compact_of_nonneg bits Hb) as H0.
  destruct over.
  { rewrite decide_False by (pose proof (proj1 Hover eq_refl); lia). by rewrite orb_true_r. }
  assert (compact_of bits < 2 ^ 256) as Hlt.
  { destruct (decide (2 ^ 256 <= compact_of bits)) as [H|]; [by apply Hover in H|lia]. }
  rewrite Z.mod_small in V by lia. destruct (Z.testbit bits 23).
  - rewrite decide_False by naive_solver. destruct neg; [done|]. cbn [orb]. apply bool_decide_eq_true.
    destruct (decide (compact_of bits = 0)); [lia|]. by assert (false = true) by tauto.
  - destruct neg; [by destruct (proj1 Hneg eq_refl)|]. case_decide as H; [done|]. cbn [orb].
    apply bool_decide_eq_true. rewrite V. destruct (decide (compact_of bits = 0)); [done|].
    exfalso. apply H. split; [done|lia].
Qed.

Lemma in_range_target_value bits p :
  0 <= bits < 2 ^ 32 -> 0 <= powLimit p < 2 ^ 256 ->
  if decide (Z.testbit bits 23 = false /\ 0 < compact_of bits <= powLimit p)
  then exists n, in_range_target bits p = Some n /\ value n = compact_of bits /\ sized n
  else in_range_target bits p = None.
Proof.
  intros Hb Hl. unfold in_range_target. destruct (set_compact_valid bits Hb) as (n & neg & over & -> & S & H).
  destruct (uint_value (powLimit p) Hl) as [El Sl]. rewrite EqualTo_value, compare_value by (done || lia).
  rewrite El. case_decide as Hv.
  - destruct H as (-> & -> & V). rewrite V, (bool_decide_false (compact_of bits = 0)) by lia. cbn [orb].
    destruct (Z.compare_spec (compact_of bits) (powLimit p));
      first [rewrite decide_True by (split; [tauto|lia])|rewrite decide_False by lia]; cbn; eauto.
  - rewrite decide_False by (intros [? ?]; apply Hv; split; [done|lia]).
    destruct neg; [done|]. destruct over; [by rewrite orb_true_r|]. cbn [orb] in H. by rewrite H.
Qed.

(** C13: the proof of work check.  It accepts exactly the words that are not
    negative, stand for a target between one and the limit, and a hash that
    does not exceed the target. *)
Theorem check_proof_of_work_exact (hash bits : Z) (p : Params) :
  0 <= hash < 2 ^ 256 -> 0 <= bits < 2 ^ 32 -> 0 <= powLimit p < 2 ^ 256 ->
  CheckProofOfWork hash bits p =
    bool_decide (Z.testbit bits 23 = false /\ 0 < compact_of bits <= powLimit p /\ hash <= compact_of bits).
Proof.
  intros Hh Hb Hl. unfold CheckProofOfWork. pose proof (in_range_target_value bits p Hb Hl) as H.
  destruct (uint_value hash Hh) as [Eh Sh]. symmetry. case_decide as Hd.
  - destruct H as (n & -> & V & S). rewrite compare_value, Eh, V by done.
    destruct (Z.compare_spec hash (compact_of bits)); cbn;
      first [apply bool_decide_eq_true; split; [tauto|lia]|apply bool_decide_eq_false; lia].
  - rewrite H. apply bool_decide_eq_false. tauto.
Qed.

Lemma check_proof_of_work_exact_witness :
  CheckProofOfWork (2 ^ 200) 0x1d00ffff (CMainParams 1) =
    bool_decide (Z.testbit 0x1d00ffff 23 = false /\ 0 < compact_of 0x1d00ffff <= powLimit (CMainParams 1) /\
                 2 ^ 200 <= compact_of 0x1d00ffff).
Proof.
  apply (check_proof_of_work_exact (2 ^ 200) 0x1d00ffff (CMainParams 1)); vm_compute; split; (discriminate || reflexivity).
Defined.

Lemma bnot_sized n : sized n -> value (bnot n) = 2 ^ 256 - 1 - value n /\ sized (bnot n).
Proof.
  intros [Ln Fn]. destruct (bnot_value n Fn) as [E F]. rewrite Ln in E.
  split; [exact E|]. split; [by unfold bnot; rewrite length_fmap|done].
Qed.

(** No word stands for 2^256 - 1. *)
Lemma compact_not_full bits : 0 <= bits < 2 ^ 32 -> compact_of bits < 2 ^ 256 -> compact_of bits + 1 < 2 ^ 256.
Proof.
  intros Hb Hlt. pose proof (compact_round_word bits Hb) as H.
  destruct (decide (compact_of bits = 2 ^ 256 - 1)) as [E|]; [|lia].
  rewrite E in H. vm_compute in H. discriminate H.
Qed.

(** The work of a block.  [GetBlockProof] is the number of hashes the
    target stands for, 2^256 over the target plus one rounded down, computed
    without leaving 256 bits, and zero where the word is no target. *)
Theorem block_proof_exact (bits : Z) :
  0 <= bits < 2 ^ 32 -> exists n, GetBlockProof bits = Ok n /\ sized n /\
  value n = if decide (Z.testbit bits 23 = false /\ 0 < compact_of bits < 2 ^ 256)
            then 2 ^ 256 / (compact_of bits + 1) else 0.
Proof.
  intros Hb. unfold GetBlockProof. destruct (set_compact_valid bits Hb) as (n & neg & over & -> & S & H).
  rewrite EqualTo_value by (done || lia). destruct (of_uint64_value 0 ltac:(lia)) as [E0 S0]. case_decide as Hv.
  2: { rewrite H. by exists (of_uint64 0). }
  destruct H as (-> & -> & V). rewrite V, (bool_decide_false (compact_of bits = 0)) by lia. cbn [orb].
  assert (compact_of bits + 1 < 2 ^ 256) as Hlt by (apply compact_not_full; [done|lia]).
  set (T := compact_of bits) in *. destruct (of_uint64_value 1 ltac:(lia)) as [E1 S1].
  destruct (bnot_sized n S) as [Eb Sb]. rewrite V in Eb.
  destruct (add_value n (of_uint64 1) S S1) as [Ea Sa]. rewrite V, E1, Z.mod_small in Ea by lia.
  pose proof (div_value _ _ Sb Sa) as D. rewrite Ea in D. rewrite decide_False in D by lia.
  destruct D as (q & -> & Vq & Sq). cbn [mbind verdict_bind mret verdict_ret].
  destruct (add_value q (of_uint64 1) Sq S1) as [Er Sr]. eexists. split; [done|]. split; [done|].
  rewrite Er, E1, Vq, Eb.
  assert (2 ^ 256 / (T + 1) = (2 ^ 256 - 1 - T) / (T + 1) + 1) as ->.
  { rewrite <-Z.div_add by lia. f_equal. lia. }
  assert (0 <= (2 ^ 256 - 1 - T) / (T + 1) < 2 ^ 256 - 1).
  { split; [apply Z.div_pos; lia|]. apply Z.div_lt_upper_bound; [lia|nia]. }
  apply Z.mod_small. lia.
Qed.

Lemma block_proof_exact_witness :
  exists n, GetBlockProof 0x1d00ffff = Ok n /\ sized n /\
  value n = if decide (Z.testbit 0x1d00ffff 23 = false /\ 0 < compact_of 0x1d00ffff < 2 ^ 256)
            then 2 ^ 256 / (compact_of 0x1d00ffff + 1) else 0.
Proof. apply (block_proof_exact 0x1d00ffff). lia. Defined.

(** The multi-algorithm retarget drifts.  A period that takes exactly the
    intended time multiplies the target by a hundred over the weight of the
    algorithm, so the target nearly triples while the chain is on schedule,
    until it reaches the limit. *)
Theorem multi_algo_drifts (p : Params) (b : block_info) (nFirstBlockTime algo : Z) :
  pow_params p -> fPowNoRetargeting p = false -> word_below (powLimit p) (bi_nBits b) -> 0 <= algo < ALGO_COUNT ->
  bi_nTime b - nFirstBlockTime = nPowTargetTimespan p ->
  exists bits, CalculateNextWorkRequiredMultiAlgo b nFirstBlockTime p algo = Ok bits /\
    compact_of bits = compact_round (Z.min (compact_of (bi_nBits b) * 100 / (ALGO_WEIGHTS !!! Z.to_nat algo)) (powLimit p)) /\
    compact_round (Z.min (compact_of (bi_nBits b) * 294 / 100) (powLimit p)) <= compact_of bits.
Proof.
  intros Hp Hr Hw Ha Ht. unfold CalculateNextWorkRequiredMultiAlgo. rewrite Hr.
  pose proof (pp_timespan p Hp) as Hts. pose proof (pp_limit p Hp) as Hlim. destruct Hw as [Hb Hw].
  assert (clamp_timespan p (bi_nTime b - nFirstBlockTime) = nPowTargetTimespan p) as ->.
  { unfold clamp_timespan. rewrite Ht, Z.quot_div_nonneg by lia.
    assert (nPowTargetTimespan p / 4 <= nPowTargetTimespan p) by (apply Z.div_le_upper_bound; lia).
    repeat case_decide; lia. }
  destruct (scaled_value (bi_nBits b) (nPowTargetTimespan p) (nPowTargetTimespan p)) as (n & -> & V & S); [split; lia|lia|lia|].
  rewrite Z.div_mul in V by lia. cbn [mbind verdict_bind]. set (T := compact_of (bi_nBits b)) in *.
  pose proof (compact_of_nonneg _ Hb) as H0. fold T in H0.
  assert (33 <= ALGO_WEIGHTS !!! Z.to_nat algo <= 34) as Hwt.
  { unfold ALGO_COUNT in Ha. assert (algo = 0 \/ algo = 1 \/ algo = 2) as [->|[->| ->]] by lia; vm_compute; split; discriminate. }
  set (w := ALGO_WEIGHTS !!! Z.to_nat algo) in *.
  destruct (mul32_value n 100 S ltac:(unfold W; lia)) as [Em Sm]. rewrite V, Z.mod_small in Em by lia.
  destruct (of_uint64_value w ltac:(lia)) as [Eo So]. pose proof (div_value _ _ Sm So) as D.
  rewrite Eo in D. rewrite decide_False in D by lia. destruct D as (q & -> & Vq & Sq). cbn [mbind verdict_bind].
  destruct (uint_value (powLimit p) ltac:(lia)) as [El Sl]. destruct (at_most_value q _ Sq Sl) as [Ea Sa].
  rewrite get_compact by done. rewrite Ea, El, Vq, Em.
  assert (0 <= T * 100 / w) by (apply Z.div_pos; lia).
  destruct (word_of_number (Z.min (T * 100 / w) (powLimit p)) (powLimit p) ltac:(lia) ltac:(lia)) as [_ Ew].
  eexists. split; [done|]. rewrite Ew. split; [done|]. apply compact_round_mono.
  assert (0 <= T * 294 / 100) by (apply Z.div_pos; lia).
  assert (T * 294 / 100 <= T * 100 / w); [|lia].
  apply Z.div_le_lower_bound; [lia|]. pose proof (Z.mul_div_le (T * 294) 100 ltac:(lia)). nia.
Qed.

Lemma multi_algo_drifts_witness :
  pow_params (CMainParams 1) /\ word_below (powLimit (CMainParams 1)) 0x1b0404cb /\
  exists bits, CalculateNextWorkRequiredMultiAlgo (mkInfo 2 1 1209600 0x1b0404cb 8063) 0 (CMainParams 1) 2 = Ok bits /\
    compact_round (Z.min (compact_of 0x1b0404cb * 294 / 100) (powLimit (CMainParams 1))) <= compact_of bits.
Proof.
  pose proof (main_pow_params 1) as Hp.
  assert (word_below (powLimit (CMainParams 1)) 0x1b0404cb) as Hw by (vm_compute; repeat split; discriminate).
  split; [exact Hp|]. split; [exact Hw|].
  destruct (multi_algo_drifts (CMainParams 1) (mkInfo 2 1 1209600 0x1b0404cb 8063) 0 2 Hp eq_refl Hw
    ltac:(unfold ALGO_COUNT; lia) eq_refl) as (bits & E & _ & H).
  exists bits. split; [exact E|exact H].
Defined.

(** The miner passes no header, which the minimum difficulty rule reads. *)
Lemma miner_aborts_on_testnet p b prev skip :
  0 <= powLimit p < 2 ^ 256 -> fPowAllowMinDifficultyBlocks p = true ->
  Z.rem (bi_nHeight b + 1) (DifficultyAdjustmentInterval p) <> 0 ->
  GetNextWorkRequiredSHA256 (Block b prev skip) p = Err (Aborted "null pointer").
Proof.
  intros Hl Hm Hr. unfold GetNextWorkRequiredSHA256, GetNextWorkRequired, next_work.
  destruct (uint_value (powLimit p) Hl) as [_ Sl]. rewrite get_compact by done. cbn [mbind verdict_bind].
  by rewrite decide_True, Hm by done.
Qed.
