(* ===== verification/BlockRules.v ===== *)
(** * The node: the rules for one block

    [CheckBlock] of validation.cpp with everything it calls on the way: the
    hash and the proof of work of the header, the Merkle root over the hashes
    of the transactions, the size limits, the coinbase, each transaction and
    the signature operations.  The transaction hash is the double SHA-256 of
    the serialization without witnesses.

    Parameters are the functions this part of the node only calls: the
    validators of stakes, signet blocks and assets, and the SHA256 of
    OpenSSL. *)

From Stdlib Require Import ZArith Lia.
From stdpp Require Import base tactics gmap strings numbers list.
From S2P Require Import NodeBase Coins BlockIndex TxRules Merkle Arith256 Compact Sha256 Hybrid Pow.

Open Scope Z_scope.

(** ** Serialization and hashes *)

(** [WriteCompactSize] of serialize.h. *)
Definition compact_size (n : Z) : list Z :=
  if decide (n < 253) then [n]
  else if decide (n <= 0xffff) then 253 :: le_bytes 2 n
  else if decide (n <= 0xffffffff) then 254 :: le_bytes 4 n
  else 255 :: le_bytes 8 n.

Definition script_bytes (s : script) : list Z := compact_size (len s) ++ s.
Definition txin_bytes (i : CTxIn) : list Z :=
  le_bytes 32 (out_hash (prevout i)) ++ le_bytes 4 (out_n (prevout i)) ++ script_bytes (scriptSig i) ++ le_bytes 4 (nSequence i).
Definition txout_bytes (o : CTxOut) : list Z := le_bytes 8 (nValue o) ++ script_bytes (scriptPubKey o).

(** [SerializeTransaction] with the flag that leaves the witnesses out. *)
Definition tx_bytes (tx : CTransaction) : list Z :=
  le_bytes 4 (tx_nVersion tx) ++ compact_size (len (vin tx)) ++ (vin tx ≫= txin_bytes) ++
  compact_size (len (vout tx)) ++ (vout tx ≫= txout_bytes) ++ le_bytes 4 (nLockTime tx).

(** [CTransaction::GetHash]. *)
Definition txid (tx : CTransaction) : Z := le_value (sha256d (tx_bytes tx)).

(** An inner node of the Merkle tree, by [SHA256D64]. *)
Definition merkle_node (a b : Z) : Z := le_value (SHA256D64 (le_bytes 32 a ++ le_bytes 32 b) 1).

(** ** Blocks *)

Record CBlock := mkBlock { header : CBlockHeader; vtx : list CTransaction; fChecked : bool }.

(** The size without witnesses; the header of a stake block is longer. *)
Definition header_size (h : CBlockHeader) : Z := 82 + if IsProofOfStake h then 68 else 0.
Definition block_size (b : CBlock) : Z :=
  header_size (header b) + GetSizeOfCompactSize (len (vtx b)) + total_of tx_size (vtx b).

Class BlockCode := {
  openssl_SHA256 : list Z -> list Z;
  ValidateProofOfStakeBlock : CBlock -> verdict unit;
  CheckSignetBlockSolution : CBlock -> bool;
  (** The token, NFT and DEX validators of one transaction. *)
  check_assets : CTransaction -> verdict unit }.

Section Check.

Context {ops : SigOps} {code : BlockCode}.

Definition CheckBlockHeader (h : CBlockHeader) (p : Params) (fCheckPOW : bool) : verdict unit :=
  reject_if (fCheckPOW && negb (CheckProofOfWork (GetHash h) (h_nBits h) p)) (Invalid BLOCK_INVALID_HEADER "high-hash").

(** A failed transaction check becomes a failure of the block, after the
    assertion that it is a consensus failure. *)
Definition as_block_failure (r : verdict unit) : verdict unit :=
  match r with
  | Err (Invalid TX_CONSENSUS reason) => Err (Invalid BLOCK_CONSENSUS reason)
  | Err (Invalid _ _) => Err (Aborted "tx_state.GetResult() == TxValidationResult::TX_CONSENSUS")
  | _ => r
  end.

Definition check_pow_hash (b : CBlock) (p : Params) : verdict unit :=
  powHash ← GetPoWHash openssl_SHA256 (header b);
  reject_if (negb (CheckProofOfWork powHash (h_nBits (header b)) p)) (Invalid BLOCK_CONSENSUS "high-hash").

Definition check_merkle (b : CBlock) : verdict unit :=
  match BlockMerkleRoot merkle_node txid (vtx b) with
  | None => Err (Aborted "out of fuel")
  | Some (root, mutated) =>
      _ ← reject_if (negb (bool_decide (h_hashMerkleRoot (header b) = root))) (Invalid BLOCK_MUTATED "bad-txnmrklroot");
      reject_if mutated (Invalid BLOCK_MUTATED "bad-txns-duplicate")
  end.

Definition block_sigops (b : CBlock) : Z := foldl (fun n tx => uint32 (n + GetLegacySigOpCount tx)) 0 (vtx b).

(** The result is the block with [fChecked] as the call leaves it. *)
Definition CheckBlock (b : CBlock) (p : Params) (fCheckPOW fCheckMerkleRoot : bool) : verdict CBlock :=
  if fChecked b then mret b
  else
    _ ← CheckBlockHeader (header b) p fCheckPOW;
    _ ← (if IsProofOfStake (header b) then ValidateProofOfStakeBlock b else mret tt);
    _ ← (if fCheckPOW && IsProofOfWork (header b) then check_pow_hash b p else mret tt);
    _ ← reject_if (signet_blocks p && fCheckPOW && negb (CheckSignetBlockSolution b))
          (Invalid BLOCK_CONSENSUS "bad-signet-blksig");
    _ ← (if fCheckMerkleRoot then check_merkle b else mret tt);
    _ ← reject_if (is_empty (vtx b) || bool_decide (MAX_BLOCK_WEIGHT < len (vtx b) * WITNESS_SCALE_FACTOR) ||
                   bool_decide (MAX_BLOCK_WEIGHT < block_size b * WITNESS_SCALE_FACTOR))
          (Invalid BLOCK_CONSENSUS "bad-blk-length");
    _ ← reject_if (negb (match vtx b with tx :: _ => IsCoinBase tx | [] => false end))
          (Invalid BLOCK_CONSENSUS "bad-cb-missing");
    _ ← for_each (M := verdict) (tail (vtx b)) (fun tx _ =>
          reject_if (IsCoinBase tx) (Invalid BLOCK_CONSENSUS "bad-cb-multiple")) tt;
    _ ← for_each (M := verdict) (vtx b) (fun tx _ =>
          _ ← as_block_failure (CheckTransaction tx);
          check_assets tx) tt;
    _ ← reject_if (bool_decide (MAX_BLOCK_SIGOPS_COST < uint32 (block_sigops b * WITNESS_SCALE_FACTOR)))
          (Invalid BLOCK_CONSENSUS "bad-blk-sigops");
    mret (mkBlock (header b) (vtx b) (fCheckPOW && fCheckMerkleRoot)).

(** ** Sizes *)

Lemma le_bytes_length n x : length (le_bytes n x) = n.
Proof. revert x. induction n; intros x; simpl; congruence. Qed.

Lemma compact_size_length n : len (compact_size n) = GetSizeOfCompactSize n.
Proof. unfold compact_size, GetSizeOfCompactSize, len. repeat case_decide; done. Qed.

Lemma len_app {A} (l k : list A) : len (l ++ k) = len l + len k.
Proof. unfold len. rewrite length_app. lia. Qed.

Lemma len_bind {A} (f : A -> list Z) g l : (forall x, len (f x) = g x) -> len (l ≫= f) = total_of g l.
Proof. intros H. induction l; csimpl; [done|]. rewrite len_app, H, IHl. done. Qed.

Lemma script_bytes_length s : len (script_bytes s) = script_size s.
Proof. unfold script_bytes, script_size. by rewrite len_app, compact_size_length. Qed.

Lemma le_len n x : len (le_bytes n x) = Z.of_nat n.
Proof. unfold len. by rewrite le_bytes_length. Qed.

(** The size the rules compute is the length of what is hashed. *)
Lemma tx_bytes_length tx : len (tx_bytes tx) = tx_size tx.
Proof.
  unfold tx_bytes, tx_size. rewrite !len_app, !compact_size_length, !le_len.
  rewrite (len_bind txin_bytes (fun i => 36 + script_size (scriptSig i) + 4)).
  2:{ intros i. unfold txin_bytes. rewrite !len_app, !le_len, script_bytes_length. lia. }
  rewrite (len_bind txout_bytes (fun o => 8 + script_size (scriptPubKey o))).
  2:{ intros o. unfold txout_bytes. rewrite !len_app, !le_len, script_bytes_length. lia. }
  lia.
Qed.

(** ** What an accepted block looks like *)

(** One coinbase, first, and well-formed transactions. *)
Definition block_shape (txs : list CTransaction) : Prop :=
  exists cb rest, txs = cb :: rest /\ IsCoinBase cb = true /\ Forall (fun tx => IsCoinBase tx = false) rest /\
  Forall well_formed txs.

(** A block marked as checked has been checked. *)
Definition vetted (b : CBlock) : Prop := fChecked b = true -> block_shape (vtx b).

Lemma as_block_failure_ok r : as_block_failure r = Ok tt -> r = Ok tt.
Proof. destruct r as [[]|[[]| | |]]; done. Qed.

Lemma for_each_unit {A} (f : A -> verdict unit) l :
  for_each (M := verdict) l (fun x _ => f x) tt = Ok tt <-> Forall (fun x => f x = Ok tt) l.
Proof.
  induction l as [|x l IH]; [done|]. rewrite for_each_cons, Forall_cons, bind_ok. split.
  - intros ([] & ? & ?). split; [done|by apply IH].
  - intros [? ?]. exists tt. split; [done|by apply IH].
Qed.

Lemma check_block_shape b p pow merkle b' :
  vetted b -> CheckBlock b p pow merkle = Ok b' ->
  block_shape (vtx b) /\ header b' = header b /\ vtx b' = vtx b /\ vetted b'.
Proof.
  intros Hv H. unfold CheckBlock in H. destruct (fChecked b) eqn:Ec.
  { injection H as <-. split; [by apply Hv|]. by split_and!. }
  ran. cbn [header vtx]. assert (block_shape (vtx b)) as Hs; [|split_and!; [done..|by intros _]].
  repeat match goal with u : unit |- _ => destruct u end.
  match goal with H : for_each _ _ _ = Ok tt |- _ => apply (for_each_unit (fun tx => reject_if (IsCoinBase tx) _)) in H as Hcb end.
  match goal with H : for_each (vtx b) _ _ = Ok tt |- _ =>
    apply (for_each_unit (fun tx => _ ← as_block_failure (CheckTransaction tx); check_assets tx)) in H as Htx end.
  match goal with H : negb _ = false |- _ => apply negb_false_iff in H as Hf end.
  destruct (vtx b) as [|cb rest]; [done|]. exists cb, rest. split_and!; [done|done| |].
  - cbn [tail] in Hcb. eapply Forall_impl; [exact Hcb|]. intros tx H'. by apply reject_if_ok in H'.
  - eapply Forall_impl; [exact Htx|]. intros tx H'. cbv beta in H'. apply bind_ok in H' as ([] & Ht & _).
    apply as_block_failure_ok in Ht. destruct (check_transaction tx) as [_ Hc].
    destruct (decide (well_formed tx)) as [|Hn]; [done|]. destruct (Hc Hn) as [reason E]. congruence.
Qed.

(** ** Which blocks the second proof of work check lets through *)

Lemma check_pow_below hash bits p :
  0 <= hash < 2 ^ 256 -> 0 <= bits < 2 ^ 32 -> 0 <= powLimit p < 2 ^ 256 ->
  CheckProofOfWork hash bits p = true -> hash <= powLimit p.
Proof.
  intros Hh Hb Hl H. unfold CheckProofOfWork in H. pose proof (in_range_target_value bits p Hb Hl) as T.
  destruct (uint_value hash Hh) as [Eh Sh]. case_decide as Hd; [|by rewrite T in H].
  destruct T as (n & En & V & S). rewrite En, negb_true_iff, bool_decide_eq_false in H.
  rewrite compare_value, Eh, V in H by done. destruct (Z.compare_spec hash (compact_of bits)); lia.
Qed.

Lemma zero_header_above :
  2 ^ 252 <= zero_header_hash < 2 ^ 256 /\ 2 ^ 252 <= zero_header_hash2 < 2 ^ 256.
Proof. vm_compute. repeat split; discriminate. Qed.

(** C38: proof of work accepts only blocks that call themselves proof of
    stake.  The second check of [CheckBlock] hashes 80 zero bytes, whatever
    the header is, with the algorithm the version field names; on a network
    whose limit is below 2^252, as on all four the node knows, that hash is
    above every target except for the name "pos", whose hash is zero.  So no
    block the miner prepares for SHA256d or Groestl, and no block with an old
    version, can pass, and every proof of work block that passes carries the
    label of proof of stake. *)
Theorem pow_accepts_only_pos_label (p : Params) (b b' : CBlock) (merkle : bool) :
  (forall data, len data < 2 ^ 61 -> openssl_SHA256 data = fips_sha256 data) ->
  0 <= powLimit p < 2 ^ 252 ->
  fChecked b = false -> IsProofOfWork (header b) = true -> 0 <= h_nBits (header b) < 2 ^ 32 ->
  CheckBlock b p true merkle = Ok b' ->
  GetAlgoType (header b) = POS /\
  forall h, header b <> SetAlgoType h SHA256D /\ header b <> SetAlgoType h GROESTL.
Proof.
  intros Ho Hl Hc Hw Hb H. unfold CheckBlock in H. rewrite Hc, Hw in H. cbn [andb] in H.
  apply bind_ok in H as (_ & _ & H). apply bind_ok in H as (_ & _ & H). apply bind_ok in H as (u & Hp & _).
  unfold check_pow_hash in Hp. rewrite (pow_hash_of_version _ _ Ho) in Hp.
  destruct zero_header_above as [R1 R2].
  assert (forall z, 2 ^ 252 <= z < 2 ^ 256 ->
    reject_if (negb (CheckProofOfWork z (h_nBits (header b)) p)) (Invalid BLOCK_CONSENSUS "high-hash") <> Ok u) as above.
  { intros z Hz E. destruct u. apply reject_if_ok, negb_false_iff in E.
    pose proof (check_pow_below z _ p ltac:(lia) Hb ltac:(lia) E). lia. }
  destruct (GetAlgoType (header b)) eqn:Ea; cbn [mbind verdict_bind] in Hp;
    try solve [exfalso; exact (above _ R1 Hp)|exfalso; exact (above _ R2 Hp)|discriminate Hp].
  split; [done|]. intros h. split; intros E; rewrite E, algo_of_set in Ea; vm_compute in Ea; discriminate Ea.
Qed.

End Check.

(** ** A block that passes *)

#[export] Instance demo_sigops : SigOps :=
  {| GetSigOpCount := fun _ => 0; IsPayToScriptHash := fun _ => false; GetP2SHCount := fun _ _ => 0;
     CountWitnessSigOps := fun _ _ _ => 0 |}.
#[export] Instance demo_block_code : BlockCode :=
  {| openssl_SHA256 := fips_sha256; ValidateProofOfStakeBlock := fun _ => Ok tt;
     CheckSignetBlockSolution := fun _ => true; check_assets := fun _ => Ok tt |}.

Definition demo_params : Params :=
  mkParams 1 840000 0 0 0 0 0 0 (2 ^ 252 - 1) false false 150 1209600 false ∅.

Definition demo_coinbase : CTransaction :=
  mkCTransaction [mkCTxIn (mkCOutPoint 0 NULL_INDEX) [1; 2] SEQUENCE_FINAL] [mkCTxOut 5000000000 [0x51]] 1 0.

(** Labelled Scrypt by the miner, which reads back as proof of stake. *)
Definition demo_block : CBlock :=
  mkBlock (mkBlockHeader 0x30000000 0 (txid demo_coinbase) 1700000000 0x20080000 18 1 BLOCK_TYPE_POW) [demo_coinbase] false.

Lemma demo_block_checked :
  CheckBlock demo_block demo_params true true = Ok (mkBlock (header demo_block) (vtx demo_block) true).
Proof. vm_compute. reflexivity. Qed.

Lemma pow_accepts_only_pos_label_witness :
  CheckBlock demo_block demo_params true true = Ok (mkBlock (header demo_block) (vtx demo_block) true) /\
  GetAlgoType (header demo_block) = POS.
Proof.
  pose proof demo_block_checked as H. split; [exact H|].
  refine (proj1 (pow_accepts_only_pos_label demo_params demo_block _ true _ _ _ _ _ H)).
  - intros data _. reflexivity.
  - cbn [powLimit demo_params]. lia.
  - reflexivity.
  - reflexivity.
  - cbn [h_nBits header demo_block]. lia.
Defined.
